(* ===== verification/_CoqProject ===== *)
-Q . S2P
Prelude.v
Double.v
SocketNode.v
Csum.v
IpRange.v
Tick.v
Config.v
Mbuf.v
NetStats.v
World.v
WorkSpace.v
Socket.v
SocketTimer.v
HttpParse.v
Payload.v
ConfigNumber.v
ConfigKeyword.v
ConfigParse.v
ConfigCheck.v
ConfigInv.v
Template.v
Kni.v
TcpPacket.v
Tcp.v
Neigh.v
Udp.v
Loop.v
SocketTable.v
Init.v
Env.v
NeighInv.v
SocketInv.v
TcpInv.v
TcpTimer.v
TcpSafety.v
TcpProps.v
UdpInv.v
UdpTimer.v
LoopInv.v
LoopProps.v
SocketTableInv.v
SegmentProps.v
CsumCheck.v
Frame.v
Handshake.v
Connection.v
TemplateProps.v
RssProps.v
InitInv.v
StartUp.v
ConfigAccept.v
ConfigProps.v
Card.v
Port.v
Flow.v
Eal.v
PortInv.v
Demo.v
FlowProps.v
EalProps.v
Program.v
PortProps.v
Ctl.v
CtlProps.v
KniLegacy.v
