(* ===== verification/Prelude.v ===== *)
(** * Verification of dperf

    dperf (the sources under src/) is a traffic generator on DPDK: it reads a
    configuration, takes over network ports, and then runs one worker per CPU.
    A worker owns one queue of one port, a pool of sockets with a lookup table,
    three timer queues, a transmit queue and a set of packet templates; in an
    endless loop it receives frames, runs a small TCP or UDP state machine for
    each of them, launches new connections and serves the timers.  A control
    thread starts the load slowly, prints statistics and ends the workers.

    ** The program and its model

    The model is a shallow embedding: every C function is a Rocq function of the
    same name.  Integers are [Z] with [wrap]/[swrap] (file Prelude) where the
    code converts to a width; packets are bytes with loads and stores at the
    offsets of the C structures, [None] outside the buffer; pointers to sockets
    are indices and the intrusive lists are a store of [next]/[prev] pointers.
    Stateful code is written in the error/state monad [ST] of Prelude, whose
    errors are the undefined behaviours of C - [OutOfBounds], [DivByZero],
    [Overflow] (signed) - and [OutOfFuel] for a loop that has not ended.  A theorem that a run is [Ok] is thus a theorem of safety and of
    termination; [wp] is the triple of total correctness that states it.

    - Words, bytes, files: Double (floating-point quotients), Csum (csum.h,
      csum.c), IpRange (ip.h, ip.c, ip_range.h, ip_list.h, ip_list.c), Tick
      (tick.h, tick.c, cpuload.h, cpuload.c), Mbuf (mbuf.h, eth.h, vxlan.h and
      the interface [Dpdk] of the data path).
    - Configuration: Config (config.h, port.h, the derived values at the end of
      config.c), ConfigNumber, ConfigKeyword (config_keyword.c), ConfigParse
      (the keyword handlers of config.c), ConfigCheck (the checks and
      [config_parse]), Payload (http.c, the texts of config.c and udp.c).
      ConfigInv has the invariant that all handlers keep, ConfigAccept what the
      checks establish ([accepted]), ConfigProps the properties of the parser.
    - Machine: Card (the calls to DPDK before the workers run, class [Card]),
      Port (port.c, rss.c, bond.c, mbuf.c), Flow (flow.c), Eal (dpdk.c, main.c,
      virtio-user.c); PortInv, FlowProps, EalProps and PortProps have their
      properties, Demo a configuration and a card for the examples.
    - Worker: World (the state: [struct work_space], sockets, globals),
      WorkSpace (work_space.h, mbuf.h, mbuf_cache.h), SocketNode and SocketTimer
      (the timer queues of socket.h, socket_timer.h, socket_timer.c), Socket
      (socket.h), NetStats (net_stats.h, net_stats.c), HttpParse (http_parse.c,
      http.h), TcpPacket and Tcp (tcp.c), Udp (udp.c), Neigh (arp.c, icmp.c,
      icmp6.c, neigh.c), Kni (virtio-user.c, bond.c, lldp.c) and Loop (loop.h).
    - Start-up of a worker: Template (mbuf_cache.c, vxlan.c), SocketTable
      (socket.c, csum.c), Init (work_space.c, client.c, server.c, main.c).
    - Control thread: Ctl (ctl.c, work_space.c).
    - Beside the program: CsumCheck ([csum_check] of csum.c, which nothing calls)
      and KniLegacy (kni.c, which the Makefile takes instead of virtio-user.c for
      DPDK 17.11 to 19.11).

    ** Components and interfaces

    [Dpdk] (file Mbuf) and [Card] (file Card) are classes of operations: what
    DPDK answers may depend on all calls made before.  [DpdkLaws] and [CardLaws]
    are what the program relies on: a burst returns at most what was asked for,
    frames lie inside their buffers with [room] bytes, the time-stamp counter
    is below 2^62 and two of its readings are equal or 128 cycles apart, an
    address of a card has six bytes.  Both have instances, which the witnesses
    use.  The theorems about the workers are proved from the invariants
    [env_ok] (file Env: queues, tables, templates) and [inv] (file SocketInv:
    sockets and timers); TcpInv, UdpInv, NeighInv and LoopInv show that the
    operations keep them, InitInv, SocketTableInv and StartUp that start-up
    establishes them, ConfigAccept that an accepted configuration is enough for
    start-up, and Program composes the three.

    ** What the theorems show

    - The whole: [Program.program_runs] goes from the command line to the
      iterations of the workers.  Whatever the files and the answers of DPDK
      are, parser and start-up do nothing undefined (but for the overflow of a
      number with a unit), and when they succeed every worker runs any number
      of iterations.  [CtlProps.ctl_ends_workers] adds that the control thread
      ends and has then told every worker to stop and to exit.
    - Safety and invariants: [LoopProps.worker_loop_never_faults],
      [TcpSafety.tcp_steps_never_fault] and [TcpSafety.tcp_reachable_consistent]
      (any interleaving of the steps of a worker), [HttpParse.http_parse_safe],
      [ConfigProps.config_parse_safe], [StartUp.work_space_new_ready].
    - Contracts: the state machine of TCP (TcpProps), the templates (Template),
      the table of the sockets (SocketTableInv), the rules of the flow director
      (FlowProps), the transmit queue (WorkSpace), ranges, clocks, checksums (Csum,
      [CsumCheck.csum_software_accepted]), the ownership of the interfaces of the
      kernel ([KniLegacy.Legacy.kni_start_all_or_nothing]).
    - Refinement and equivalence: the intrusive lists are three FIFO queues
      (SocketNode), incremental checksums equal recomputed ones (Csum), the
      chunked parser does not depend on the cuts between packets (HttpParse).
    - Two workers: [Handshake.tcp_handshake] opens a connection between a client
      and a server, each segment read by the other side as it was handed to the
      driver, and [Connection.tcp_connection_completes] follows it to its end:
      six segments after the SYN is sent, whatever happens in between to other
      connections, both ends are closed.  The frames that they ask for are those
      that start-up builds ([TemplateProps.tcp_init_framed]).
      [RssProps.rss_takeover] is the move of a connection between the
      workers of a port, [RssProps.rss_launch_overruns] a fault of its launch.
      File Frame has the frame rules that these use.
    - Round trips: a segment finds the other end of its connection
      ([SegmentProps.tcp_segment_finds_peer]); chunks, responses, words and
      numbers of a file.
    - Bounds: retransmissions, the buffers of [dpdk_eal_init] and of the
      reports, the counts of the start-up.
    - Errors: what the code does that it does not mean to do, with the inputs
      that show it.

    ** Fuel

    Recursion that is not structural has fuel, and the theorems that a run is
    [Ok] show that it is enough: a run of a timer visits at most
    [timer_fuel] = four times the number of sockets, plus one (every visit
    unlinks a socket or uses up a retransmission); [tsc_time_fuel] is the number
    of elapsed intervals; the chunk parser has the length of its input, as has
    the reading of a file ([config_keyword_lines]); a list of CPUs has at most
    66 steps; [ipv6_repeat] jumps back once, since a second header of options
    is refused;
    decimal output has 20 digits.  [run_iterations] takes the number of
    iterations as an argument, since the loop of a worker ends only at a
    request.  [get_socket_rss_loop] goes round the pool twice: the loop of the
    code does not end when the pool has no socket of the queue.

    ** Assumptions

    Named hypotheses of the theorems, beside the two classes: the lengths in the
    headers of a frame from the wire stay inside its buffer ([wire], [trusted]:
    the code does not check the data offset of TCP nor the total length of IP);
    the timer
    process of a client ends ([timers_end]: a UDP client with a keep-alive
    interval, and a flood over TCP, may not, see
    [UdpTimer.udp_keepalive_timer_livelock]); the pools of a worker whose
    replies are followed are not empty, and a packet that carries the mark of a
    pool still has its template ([frames_ready]); no receive-side scaling
    ([wr_flow]), where workers write each other's sockets; memory for the pool
    and the templates, and two readings of the clock less than a second apart
    while a worker starts ([process_ok], [worker_ready]); [inet_pton] answers in
    32-bit words.

    ** Not modelled

    Barriers between the workers and the pauses that spread their start
    ([work_space_wait_all], [usleep]): they order the threads and are not steps
    of one.  Threads and signals: the moment of a signal and what the other
    threads do are parameters (file Ctl).  [dpdk_run], which hands the loop to
    DPDK's threads.  Debug output ([mbuf_log], [socket_log], trace.c, the log
    file of a worker), help texts and messages.  The branches for
    DPDK before 22.11, but for those of src/kni.c.

    With receive-side scaling, single operations are specified (file RssProps)
    but not the races between workers that write one socket; the timers of a
    client that floods over TCP are a hypothesis ([timers_end]). *)

(** ** The prelude

    Machine integers, record update, the error/state monad and the proof
    automation that the files of the development share. *)

From Stdlib Require Export ZArith Lia Bool.
From stdpp Require Export base gmap list strings numbers option.

#[global] Open Scope Z_scope.

(** ** C integers

    A [w]-bit unsigned value is a [Z] kept in [0, 2^w); arithmetic wraps
    explicitly at the places where C converts back to the field's type. *)

Definition wrap (w x : Z) : Z := x mod 2 ^ w.
Abbreviation u8 := (wrap 8).
Abbreviation u16 := (wrap 16).
Abbreviation u32 := (wrap 32).
Abbreviation u64 := (wrap 64).

Arguments wrap : simpl never.

(** Conversion to a signed [w]-bit value (two's complement). *)
Definition swrap (w x : Z) : Z :=
  let y := x mod 2 ^ w in if y <? 2 ^ (w - 1) then y else y - 2 ^ w.
Abbreviation i32 := (swrap 32).
Abbreviation i64 := (swrap 64).

Arguments swrap : simpl never.

Definition in_u (w x : Z) : Prop := 0 <= x < 2 ^ w.

(** [htons]/[ntohs] and [htonl]/[ntohl] on a little-endian machine. *)
Definition bswap16 (x : Z) : Z :=
  (x mod 256) * 256 + (x / 256) mod 256.
Definition bswap32 (x : Z) : Z :=
  (x mod 256) * 16777216 + ((x / 256) mod 256) * 65536
  + ((x / 65536) mod 256) * 256 + (x / 16777216) mod 256.
Abbreviation htons := bswap16.
Abbreviation ntohs := bswap16.
Abbreviation htonl := bswap32.
Abbreviation ntohl := bswap32.

Definition b2z (b : bool) : Z := if b then 1 else 0.

Declare Scope c_scope.
Delimit Scope c_scope with c.
Notation "a &&& b" := (Z.land a b) (at level 40, left associativity) : c_scope.
Notation "a ||| b" := (Z.lor a b) (at level 50, left associativity) : c_scope.
Notation "a <<< b" := (Z.shiftl a b) (at level 45, left associativity) : c_scope.
Notation "a >>> b" := (Z.shiftr a b) (at level 45, left associativity) : c_scope.
#[global] Open Scope c_scope.

(** [x & mask] used as a C condition. *)
Definition has (x mask : Z) : bool := negb (x &&& mask =? 0).

Create HintDb cint.
Create Rewrite HintDb cint.

Lemma wrap_range w x : 0 <= w -> in_u w (wrap w x).
Proof. intros. unfold wrap, in_u. apply Z.mod_pos_bound. lia. Qed.

Lemma wrap_small w x : in_u w x -> wrap w x = x.
Proof. unfold wrap, in_u. intros. by apply Z.mod_small. Qed.

Lemma wrap_wrap w x : wrap w (wrap w x) = wrap w x.
Proof. unfold wrap. apply Zmod_mod. Qed.

Lemma wrap_add_l w a b : wrap w (wrap w a + b) = wrap w (a + b).
Proof. unfold wrap. apply Zplus_mod_idemp_l. Qed.

Lemma wrap_add_r w a b : wrap w (a + wrap w b) = wrap w (a + b).
Proof. unfold wrap. apply Zplus_mod_idemp_r. Qed.

Lemma wrap_sub_l w a b : wrap w (wrap w a - b) = wrap w (a - b).
Proof. unfold wrap. apply Zminus_mod_idemp_l. Qed.

Lemma wrap_sub_r w a b : wrap w (a - wrap w b) = wrap w (a - b).
Proof. unfold wrap. apply Zminus_mod_idemp_r. Qed.

#[export] Hint Resolve wrap_range wrap_small : cint.
#[export] Hint Rewrite wrap_wrap wrap_add_l wrap_add_r wrap_sub_l wrap_sub_r : cint.

Lemma swrap_range w x : 0 < w -> - 2 ^ (w - 1) <= swrap w x < 2 ^ (w - 1).
Proof.
  intros. unfold swrap.
  assert (2 ^ w = 2 * 2 ^ (w - 1)) by (rewrite <- Z.pow_succ_r; [f_equal|]; lia).
  pose proof (Z.mod_pos_bound x (2 ^ w)).
  destruct (Z.ltb_spec (x mod 2 ^ w) (2 ^ (w - 1))); lia.
Qed.

Lemma swrap_small w x : 0 < w -> - 2 ^ (w - 1) <= x < 2 ^ (w - 1) -> swrap w x = x.
Proof.
  intros. unfold swrap.
  assert (2 ^ w = 2 * 2 ^ (w - 1)) by (rewrite <- Z.pow_succ_r; [f_equal|]; lia).
  destruct (Z_lt_le_dec x 0).
  - replace (x mod 2 ^ w) with (x + 2 ^ w).
    2: { apply (Z.mod_unique _ _ (-1)); lia. }
    destruct (Z.ltb_spec (x + 2 ^ w) (2 ^ (w - 1))); lia.
  - rewrite Z.mod_small by lia.
    destruct (Z.ltb_spec x (2 ^ (w - 1))); lia.
Qed.

Lemma bswap16_range x : in_u 16 (bswap16 x).
Proof.
  unfold bswap16, in_u. change (2 ^ 16) with 65536.
  pose proof (Z.mod_pos_bound x 256). pose proof (Z.mod_pos_bound (x / 256) 256). lia.
Qed.

Lemma bswap16_involutive x : in_u 16 x -> bswap16 (bswap16 x) = x.
Proof.
  unfold in_u, bswap16. change (2 ^ 16) with 65536. intros.
  Z.to_euclidean_division_equations. lia.
Qed.

Lemma bswap32_range x : in_u 32 (bswap32 x).
Proof.
  unfold bswap32, in_u. change (2 ^ 32) with 4294967296.
  pose proof (Z.mod_pos_bound x 256). pose proof (Z.mod_pos_bound (x / 256) 256).
  pose proof (Z.mod_pos_bound (x / 65536) 256).
  pose proof (Z.mod_pos_bound (x / 16777216) 256). lia.
Qed.

(** The four bytes of a 32-bit value, least significant first. *)
Lemma bswap32_bytes a b c d :
  in_u 8 a -> in_u 8 b -> in_u 8 c -> in_u 8 d ->
  bswap32 (a + 256 * b + 65536 * c + 16777216 * d)
  = d + 256 * c + 65536 * b + 16777216 * a.
Proof.
  unfold in_u, bswap32. change (2 ^ 8) with 256. intros.
  set (x := a + 256 * b + 65536 * c + 16777216 * d).
  assert (x mod 256 = a) as ->
    by (symmetry; apply Z.mod_unique with (b + 256 * c + 65536 * d); lia).
  assert (x / 256 = b + 256 * c + 65536 * d) as ->
    by (symmetry; apply Z.div_unique with a; lia).
  assert (x / 65536 = c + 256 * d) as ->
    by (symmetry; apply Z.div_unique with (a + 256 * b); lia).
  assert (x / 16777216 = d) as ->
    by (symmetry; apply Z.div_unique with (a + 256 * b + 65536 * c); lia).
  assert ((b + 256 * c + 65536 * d) mod 256 = b) as ->
    by (symmetry; apply Z.mod_unique with (c + 256 * d); lia).
  assert ((c + 256 * d) mod 256 = c) as -> by (symmetry; apply Z.mod_unique with d; lia).
  rewrite (Z.mod_small d) by lia. lia.
Qed.

Lemma u32_bytes x : in_u 32 x ->
  exists a b c d, in_u 8 a /\ in_u 8 b /\ in_u 8 c /\ in_u 8 d
    /\ x = a + 256 * b + 65536 * c + 16777216 * d.
Proof.
  unfold in_u. change (2 ^ 8) with 256. change (2 ^ 32) with 4294967296. intros.
  exists (x mod 256), ((x / 256) mod 256), ((x / 65536) mod 256), (x / 16777216).
  Z.to_euclidean_division_equations. lia.
Qed.

Lemma bswap32_involutive x : in_u 32 x -> bswap32 (bswap32 x) = x.
Proof.
  intros (a & b & c & d & Ha & Hb & Hc & Hd & ->)%u32_bytes.
  rewrite bswap32_bytes by done. rewrite bswap32_bytes by done. lia.
Qed.

#[export] Hint Resolve bswap16_range bswap32_range : cint.
#[export] Hint Rewrite bswap16_involutive bswap32_involutive using (auto with cint) : cint.

(** ** Record update

    [r <| f := v |>] is the C assignment [r.f = v].  A record type declares
    its eta-expansion once ([Eta]); the setter of a field is derived from it. *)

Class Eta (R : Type) := eta : R -> R.
Class Setter {R T : Type} (f : R -> T) := set_field : (T -> T) -> R -> R.
Arguments set_field {R T} f {_} u r : simpl never.

Ltac derive_setter :=
  match goal with
  | |- @Setter ?R ?T ?f =>
      let e := constr:(_ : Eta R) in
      let u := fresh "u" in
      let r := fresh "r" in
      change ((T -> T) -> R -> R);
      intros u r;
      let b := eval hnf in (e r) in
      let p := eval pattern (f r) in b in
      match p with
      | ?g _ => let t := eval cbv beta in (g (u (f r))) in exact t
      end
  end.
#[export] Hint Extern 1 (@Setter _ _ _) => derive_setter : typeclass_instances.

Notation "r <| f := v |>" := (set_field f (fun _ => v) r)
  (at level 1, f at level 9, v at level 200, left associativity) : stdpp_scope.
Notation "r <| f ::= u |>" := (set_field f u r)
  (at level 1, f at level 9, u at level 200, left associativity) : stdpp_scope.

(** [rsimpl] reads fields of updated records: the updated field is the new
    value and every other field is the old one. *)
Ltac rsimpl_step :=
  match goal with
  | |- context [?g (set_field ?f ?u ?r)] =>
      first
        [ constr_eq g f;
          let t := eval cbv beta in (u (f r)) in
          change (g (set_field f u r)) with t
        | change (g (set_field f u r)) with (g r) ]
  end.
Ltac rsimpl_step_in H :=
  match type of H with
  | context [?g (set_field ?f ?u ?r)] =>
      first
        [ constr_eq g f;
          let t := eval cbv beta in (u (f r)) in
          change (g (set_field f u r)) with t in H
        | change (g (set_field f u r)) with (g r) in H ]
  end.
Ltac rsimpl := repeat rsimpl_step.
Ltac rsimpl_in H := repeat rsimpl_step_in H.
Ltac rsimpl_all :=
  rsimpl; repeat match goal with H : _ |- _ => progress rsimpl_in H end.

(** ** Errors and state

    A computation of the model transforms a state [S] and may stop with a
    fault, the model of what C leaves undefined: a read or write outside an
    object, a division by zero, a signed overflow.  [OutOfFuel] is the only other fault; the
    theorems about loops show that it does not occur. *)

Inductive fault := OutOfBounds | DivByZero | Overflow | OutOfFuel.

#[export] Instance fault_eq_dec : EqDecision fault.
Proof. solve_decision. Defined.

Inductive result (A : Type) := Ok (a : A) | Err (e : fault).
Arguments Ok {A} a.
Arguments Err {A} e.

Definition ST (S A : Type) : Type := S -> result (A * S).

Section Monad.
Context {S : Type}.

#[global] Instance ST_ret : MRet (ST S) := fun A a s => Ok (a, s).
#[global] Instance ST_bind : MBind (ST S) := fun A B f m s =>
  match m s with
  | Ok (a, s') => f a s'
  | Err e => Err e
  end.

Definition st_get : ST S S := fun s => Ok (s, s).
Definition st_gets {A} (f : S -> A) : ST S A := fun s => Ok (f s, s).
Definition st_modify (f : S -> S) : ST S unit := fun s => Ok (tt, f s).
Definition st_fail {A} (e : fault) : ST S A := fun _ => Err e.
Definition st_lift {A} (e : fault) (o : option A) : ST S A := fun s =>
  match o with Some a => Ok (a, s) | None => Err e end.
Definition st_when (b : bool) (m : ST S unit) : ST S unit :=
  if b then m else mret tt.

(** Total-correctness triple: the computation runs without a fault and its
    result and final state satisfy [Q]. *)
Definition wp {A} (m : ST S A) (Q : A -> S -> Prop) (s : S) : Prop :=
  match m s with Ok (a, s') => Q a s' | Err _ => False end.

Lemma wp_ret {A} (a : A) Q s : Q a s -> wp (mret a) Q s.
Proof. done. Qed.

Lemma wp_bind {A B} (m : ST S A) (f : A -> ST S B) Q s :
  wp m (fun a s' => wp (f a) Q s') s -> wp (m ≫= f) Q s.
Proof.
  unfold wp, mbind, ST_bind. destruct (m s) as [[a s']|]; done.
Qed.

Lemma wp_mono {A} (m : ST S A) (Q Q' : A -> S -> Prop) s :
  wp m Q s -> (forall a s', Q a s' -> Q' a s') -> wp m Q' s.
Proof. unfold wp. destruct (m s) as [[a s']|]; auto. Qed.

Lemma wp_and {A} (m : ST S A) (P Q : A -> S -> Prop) s : wp m P s -> wp m Q s -> wp m (fun a s' => P a s' /\ Q a s') s.
Proof. unfold wp. destruct (m s) as [[a s']|]; auto. Qed.

Lemma wp_gets {A} (f : S -> A) Q s : Q (f s) s -> wp (st_gets f) Q s.
Proof. done. Qed.

Lemma wp_modify f Q s : Q tt (f s) -> wp (st_modify f) Q s.
Proof. done. Qed.

Lemma wp_lift {A} e (o : option A) a Q s : o = Some a -> Q a s -> wp (st_lift e o) Q s.
Proof. intros ->. done. Qed.

Lemma wp_when b (m : ST S unit) Q s :
  (b = true -> wp m Q s) -> (b = false -> Q tt s) -> wp (st_when b m) Q s.
Proof. destruct b; intros Ht Hf; [by apply Ht | by apply Hf]. Qed.

Lemma wp_if {A} (b : bool) (m1 m2 : ST S A) Q s :
  (b = true -> wp m1 Q s) -> (b = false -> wp m2 Q s) ->
  wp (if b then m1 else m2) Q s.
Proof. destruct b; auto. Qed.

Lemma wp_run {A} (m : ST S A) Q s a s' : wp m Q s -> m s = Ok (a, s') -> Q a s'.
Proof. unfold wp. intros Hw Hm. by rewrite Hm in Hw. Qed.

Lemma wp_ok {A} (m : ST S A) Q s : wp m Q s -> exists a s', m s = Ok (a, s') /\ Q a s'.
Proof. unfold wp. destruct (m s) as [[a s']|]; [eauto | done]. Qed.
End Monad.
#[global] Typeclasses Opaque ST.

(** [wp_step] takes one monadic step of the goal. *)
Ltac wp_step :=
  match goal with
  | |- wp (mret _) _ _ => apply wp_ret
  | |- wp (_ ≫= _) _ _ => apply wp_bind
  | |- wp (st_gets _) _ _ => apply wp_gets
  | |- wp (st_modify _) _ _ => apply wp_modify
  | |- wp (st_when _ _) _ _ => apply wp_when; intros ?
  | |- wp (if _ then _ else _) _ _ => apply wp_if; intros ?
  end; cbv beta.

(** Boolean conditions of [if]s as propositions. *)
Ltac bool_facts :=
  repeat match goal with
  | H : (_ && _) = true |- _ => apply andb_true_iff in H; destruct H
  | H : (_ || _) = false |- _ => apply orb_false_iff in H; destruct H
  | H : negb _ = true |- _ => apply negb_true_iff in H
  | H : negb _ = false |- _ => apply negb_false_iff in H
  | H : (_ =? _) = true |- _ => apply Z.eqb_eq in H
  | H : (_ =? _) = false |- _ => apply Z.eqb_neq in H
  | H : (_ <? _) = true |- _ => apply Z.ltb_lt in H
  | H : (_ <? _) = false |- _ => apply Z.ltb_ge in H
  | H : (_ <=? _) = true |- _ => apply Z.leb_le in H
  | H : (_ <=? _) = false |- _ => apply Z.leb_gt in H
  | H : bool_decide _ = true |- _ => apply bool_decide_eq_true in H
  | H : bool_decide _ = false |- _ => apply bool_decide_eq_false in H
  end.

(** Membership in concrete lists. *)
Ltac list_in :=
  repeat match goal with
  | H : context [_ ∈ _ ++ _] |- _ => rewrite elem_of_app in H
  | H : context [_ ∈ _ :: _] |- _ => rewrite elem_of_cons in H
  end;
  repeat first
    [ rewrite elem_of_app | rewrite elem_of_cons | rewrite elem_of_nil ];
  tauto.

Lemma last_cons_default {A} (x : A) l d : List.last (x :: l) d = List.last l x.
Proof. revert x d. induction l as [|y l IH]; intros; [done|].
  change (List.last (y :: l) d = List.last (y :: l) x). by rewrite !IH.
Qed.

Lemma last_elem {A} (l : list A) d : List.last l d ∈ d :: l.
Proof.
  revert d. induction l as [|y l IH]; intros d; [list_in|].
  rewrite last_cons_default. pose proof (IH y). list_in.
Qed.

Lemma filter_ne_notin (i : N) (l : list N) : i ∉ l -> filter (.≠ i) l = l.
Proof.
  induction l as [|x l IH]; intros Hi; [done|].
  apply not_elem_of_cons in Hi as [? ?]. rewrite filter_cons, decide_True by done.
  f_equal. auto.
Qed.

Lemma filter_ne_elem (i j : N) (l : list N) : j ∈ filter (.≠ i) l <-> j ≠ i /\ j ∈ l.
Proof. by rewrite list_elem_of_filter. Qed.

(** Removing the only occurrence of [i]. *)
Lemma filter_ne_middle (i : N) (l1 l2 : list N) :
  NoDup (l1 ++ i :: l2) -> filter (.≠ i) (l1 ++ i :: l2) = l1 ++ l2.
Proof.
  intros Hd. rewrite <- Permutation_middle in Hd. apply list.NoDup_cons in Hd as [Hi _].
  rewrite list.filter_app, filter_cons, decide_False by auto.
  rewrite !filter_ne_notin; [done|..]; intros ?; apply Hi; list_in.
Qed.

(** Range side conditions of concrete values. *)
Ltac concrete_range := split; [vm_compute; discriminate | vm_compute; reflexivity].
Ltac concrete_words :=
  repeat first [apply List.Forall_nil | apply List.Forall_cons; [concrete_range|]].

(** ** C arrays

    Reads and writes by a C index; [None] is an access outside the array. *)

Definition aget {A} (a : list A) (i : Z) : option A :=
  if 0 <=? i then a !! Z.to_nat i else None.
Definition aset {A} (a : list A) (i : Z) (v : A) : option (list A) :=
  if (0 <=? i) && (i <? Z.of_nat (length a)) then Some (<[Z.to_nat i := v]> a) else None.

Lemma aset_some {A} (a : list A) i v :
  0 <= i < Z.of_nat (length a) -> aset a i v = Some (<[Z.to_nat i := v]> a).
Proof.
  intros. unfold aset. destruct (Z.leb_spec 0 i); [|lia].
  by destruct (Z.ltb_spec i (Z.of_nat (length a))); [|lia].
Qed.

Lemma aget_some {A} (a : list A) i :
  0 <= i < Z.of_nat (length a) -> is_Some (aget a i).
Proof.
  intros. unfold aget. destruct (Z.leb_spec 0 i); [|lia].
  apply lookup_lt_is_Some. lia.
Qed.

Lemma aget_aset {A} (a a' : list A) i j v :
  aset a i v = Some a' -> aget a' j = if decide (i = j) then Some v else aget a j.
Proof.
  unfold aset, aget. destruct (Z.leb_spec 0 i), (Z.ltb_spec i (Z.of_nat (length a)));
    simpl; intros [= <-].
  destruct (Z.leb_spec 0 j); [|by rewrite decide_False by lia].
  case_decide; [subst; rewrite list_lookup_insert_eq; [done|lia]|].
  rewrite list_lookup_insert_ne; [done|lia].
Qed.

Lemma aset_length {A} (a a' : list A) i v : aset a i v = Some a' -> length a' = length a.
Proof. unfold aset. case_match; intros [= <-]. by rewrite length_insert. Qed.

Lemma aget_range {A} (a : list A) i v : aget a i = Some v -> 0 <= i < Z.of_nat (length a).
Proof.
  unfold aget. destruct (Z.leb_spec 0 i); [|done]. intros Hv%lookup_lt_Some. lia.
Qed.

(** [for (i = 0; i < n; i++)] as a left fold over the indices. *)
Fixpoint for_loop {A} (n : nat) (i : Z) (body : Z -> A -> option A) (a : A) : option A :=
  match n with
  | O => Some a
  | S n => a' ← body i a; for_loop n (i + 1) body a'
  end.

Lemma for_loop_inv {A} (I : Z -> A -> Prop) n i body (a : A) :
  I i a ->
  (forall j x, i <= j < i + Z.of_nat n -> I j x -> exists x', body j x = Some x' /\ I (j + 1) x') ->
  exists x, for_loop n i body a = Some x /\ I (i + Z.of_nat n) x.
Proof.
  revert i a. induction n as [|n IH]; intros i a Ha Hb.
  - exists a. split; [done|]. by replace (i + Z.of_nat 0) with i by lia.
  - destruct (Hb i a) as (a' & Ha' & HI); [lia|done|]. simpl. rewrite Ha'. simpl.
    destruct (IH (i + 1) a') as (x & Hx & HIx); [done|intros; apply Hb; [lia|done]|].
    exists x. split; [done|]. by replace (i + Z.of_nat (S n)) with (i + 1 + Z.of_nat n) by lia.
Qed.
