(* ===== verification/Double.v ===== *)
(** * Double: the double-precision numbers that the code computes with

    IEEE 754 binary64 with rounding to nearest, through the Standard Library's
    [SpecFloat]: the conversions between integers, decimal fractions and
    [double].  An infinity or a NaN has no integer value. *)

From S2P Require Import Prelude.
From Stdlib Require Import Floats.SpecFloat.

Abbreviation double := spec_float.

Definition to_double (x : Z) : double := binary_normalize 53 1024 x 0 false.
Definition double_div (a b : double) : double := SFdiv 53 1024 a b.
Definition double_mul (a b : double) : double := SFmul 53 1024 a b.
Definition double_is_neg (d : double) : bool :=
  match d with S754_finite s _ _ => s | S754_infinity s => s | _ => false end.

(** The value without its fraction. *)
Definition double_trunc (d : double) : option Z :=
  match d with
  | S754_zero _ => Some 0
  | S754_finite s m e =>
      let x := if 0 <=? e then Z.pos m * 2 ^ e else Z.pos m / 2 ^ (- e) in
      Some (if s then - x else x)
  | _ => None
  end.

(** The conversions to [uint64_t] and [int]; [None] is a value out of range. *)
Definition of_double (d : double) : option Z :=
  x ← double_trunc d; if (0 <=? x) && (x <? 2 ^ 64) then Some x else None.
Definition double_to_int (d : double) : option Z :=
  x ← double_trunc d; if (- 2 ^ 31 <=? x) && (x <? 2 ^ 31) then Some x else None.

(** [m * 10 ^ e], correctly rounded. *)
Definition decimal_to_double (neg : bool) (m : positive) (e : Z) : double :=
  if 0 <=? e then binary_normalize 53 1024 ((if neg then Z.neg else Z.pos) (m * Z.to_pos (10 ^ e))%positive) 0 neg
  else
    let '(q, e', l) := SFdiv_core_binary 53 1024 (Z.pos m) 0 (10 ^ (- e)) 0 in
    binary_round_aux 53 1024 neg q e' l.

(** Division of integers. *)
Definition double_quot (a b : Z) : option Z := of_double (double_div (to_double a) (to_double b)).

(** 1.5 and 1e-3 times 1000 are exact; 0.1 is not. *)
Example decimal_examples :
  double_to_int (double_mul (decimal_to_double false 15 (-1)) (to_double 1000)) = Some 1500
  /\ double_to_int (double_mul (decimal_to_double false 1 (-3)) (to_double 1000)) = Some 1
  /\ decimal_to_double false 1 (-1) = S754_finite false 7205759403792794 (-56)
  /\ decimal_to_double true 5 2 = to_double (-500).
Proof. by vm_compute. Qed.

(** ** Quotients in range *)

Lemma digits_bounds p : 2 ^ (Z.pos (digits2_pos p) - 1) <= Z.pos p < 2 ^ Z.pos (digits2_pos p).
Proof.
  induction p as [p IH|p IH|]; cbn [digits2_pos]; [..|by cbn].
  all: rewrite Pos2Z.inj_succ; replace (Z.succ (Z.pos (digits2_pos p)) - 1) with (Z.succ (Z.pos (digits2_pos p) - 1)) by lia;
    rewrite !Z.pow_succ_r by lia; lia.
Qed.
Lemma Zdigits2_eq m n : 1 <= n -> 2 ^ (n - 1) <= m < 2 ^ n -> Zdigits2 m = n.
Proof.
  intros Hn Hm. assert (0 < 2 ^ (n - 1)) by (apply Z.pow_pos_nonneg; lia). destruct m as [|p|p]; [lia| |lia].
  pose proof (digits_bounds p) as Hp. cbn [Zdigits2]. set (d := Z.pos (digits2_pos p)) in *.
  destruct (Z.lt_trichotomy d n) as [Hd|[Hd|Hd]]; [|done|].
  - assert (2 ^ d <= 2 ^ (n - 1)) by (apply Z.pow_le_mono_r; lia). lia.
  - assert (2 ^ n <= 2 ^ (d - 1)) by (apply Z.pow_le_mono_r; lia). lia.
Qed.

(** A mantissa of 53 bits. *)
Definition mantissa (m : Z) : Prop := 2 ^ 52 <= m < 2 ^ 53.

Lemma shr_1_half r : 0 < shr_m r -> shr_m (shr_1 r) = shr_m r / 2.
Proof.
  destruct r as [m r s]. cbn [shr_m]. intros H. destruct m as [|[p|p|]|]; try lia; cbn [shr_1 shr_m].
  - rewrite Pos2Z.inj_xI. apply (Z.div_unique _ _ _ 1); lia.
  - rewrite Pos2Z.inj_xO. apply (Z.div_unique _ _ _ 0); lia.
  - done.
Qed.
Lemma shr_fexp_mantissa m e l : 2 ^ 52 <= m < 2 ^ 54 -> -1000 <= e ->
  exists r e', shr_fexp 53 1024 m e l = (r, e') /\ mantissa (shr_m r) /\ e <= e' <= e + 1.
Proof.
  intros Hm He. unfold shr_fexp.
  assert (shr_m (shr_record_of_loc m l) = m) as E by (by destruct l as [|[]]).
  destruct (decide (m < 2 ^ 53)) as [Hs|Hs].
  - rewrite (Zdigits2_eq m 53) by lia. unfold fexp, emin. replace (_ - e) with 0 by lia. cbn [shr].
    eexists _, _. split; [done|]. split; [unfold mantissa; lia|lia].
  - rewrite (Zdigits2_eq m 54) by lia. unfold fexp, emin. replace (_ - e) with 1 by lia. cbn [shr iter_pos].
    eexists _, _. split; [done|]. split; [|lia]. rewrite shr_1_half by lia. rewrite E. unfold mantissa.
    split; [apply Z.div_le_lower_bound; lia|apply Z.div_lt_upper_bound; lia].
Qed.
Lemma round_mantissa s m e l : 2 ^ 52 <= m < 2 ^ 54 -> -1000 <= e <= 900 ->
  exists p e', binary_round_aux 53 1024 s m e l = S754_finite s p e' /\ mantissa (Z.pos p) /\ e <= e' <= e + 2.
Proof.
  intros Hm He. unfold binary_round_aux. destruct (shr_fexp_mantissa m e l Hm ltac:(lia)) as (r & e1 & -> & Hr & He1).
  set (m1 := round_nearest_even _ _). assert (2 ^ 52 <= m1 < 2 ^ 54) as Hm1.
  { subst m1. unfold mantissa in Hr. destruct (loc_of_shr_record r) as [|[]]; cbn [round_nearest_even]; [lia| |lia..]. case_match; lia. }
  destruct (shr_fexp_mantissa m1 e1 loc_Exact Hm1 ltac:(lia)) as (r2 & e2 & -> & Hr2 & He2).
  unfold mantissa in Hr2. destruct (shr_m r2) as [|p|p]; [lia| |lia].
  destruct (Z.leb_spec e2 (1024 - 53)); [|lia]. exists p, e2. split; [done|]. split; [done|lia].
Qed.

Lemma iter_xO p n : Z.pos (Pos.iter xO p n) = Z.pos p * 2 ^ Z.pos n.
Proof.
  revert p. induction n as [|n IH] using Pos.peano_ind; intros p; [cbn; lia|].
  rewrite Pos.iter_succ, Pos2Z.inj_xO, IH, Pos2Z.inj_succ, Z.pow_succ_r by lia. lia.
Qed.
Lemma to_double_finite a : 0 < a < 2 ^ 53 -> exists p e, to_double a = S754_finite false p e /\ mantissa (Z.pos p) /\ -52 <= e <= 2.
Proof.
  intros Ha. destruct a as [|a|a]; try lia. unfold to_double, binary_normalize, binary_round.
  pose proof (digits_bounds a) as Hd. set (d := Z.pos (digits2_pos a)) in *.
  assert (1 <= d <= 53) as Hd53.
  { split; [lia|]. destruct (decide (d <= 53)); [done|]. assert (2 ^ 53 <= 2 ^ (d - 1)) by (apply Z.pow_le_mono_r; lia). lia. }
  assert (exists m e, shl_align a 0 (fexp 53 1024 (d + 0)) = (m, e) /\ mantissa (Z.pos m) /\ -52 <= e <= 0) as (m & e & -> & Hm & He).
  { unfold fexp, emin, shl_align. replace (Z.max _ _ - 0) with (d - 53) by lia.
    replace (Z.max _ _) with (d - 53) by lia. destruct (d - 53) as [|n|n] eqn:En; [|lia|].
    - eexists _, _. split; [done|]. replace d with 53 in Hd by lia. split; [exact Hd|lia].
    - eexists _, _. split; [done|]. split; [|lia]. unfold mantissa. rewrite iter_xO. replace (Z.pos n) with (53 - d) by lia.
      replace (2 ^ 52) with (2 ^ (d - 1) * 2 ^ (53 - d)) by (rewrite <- Z.pow_add_r by lia; f_equal; lia).
      replace (2 ^ 53) with (2 ^ d * 2 ^ (53 - d)) by (rewrite <- Z.pow_add_r by lia; f_equal; lia).
      assert (0 < 2 ^ (53 - d)) by (apply Z.pow_pos_nonneg; lia). nia. }
  unfold mantissa in Hm. destruct (round_mantissa false (Z.pos m) e loc_Exact) as (p & e' & -> & Hp & He'); [lia|lia|].
  exists p, e'. split; [done|]. split; [done|lia].
Qed.

(** A quotient of integers that a [double] holds exactly is a [double], and its
    integer part fits in 64 bits. *)
Lemma double_quot_some a b : 0 <= a < 2 ^ 53 -> 0 < b < 2 ^ 53 -> is_Some (double_quot a b).
Proof.
  intros Ha Hb. destruct (to_double_finite b Hb) as (pb & eb & Eb & Hpb & Heb). unfold double_quot. rewrite Eb.
  destruct (decide (a = 0)) as [->|Hne]; [by eexists|]. destruct (to_double_finite a ltac:(lia)) as (pa & ea & -> & Hpa & Hea).
  unfold double_div, SFdiv, SFdiv_core_binary. rewrite (Zdigits2_eq (Z.pos pa) 53), (Zdigits2_eq (Z.pos pb) 53) by (unfold mantissa in *; lia).
  set (k := ea - eb). unfold fexp, emin. replace (Z.min _ _) with (k - 53) by (subst k; lia).
  replace (k - (k - 53)) with 53 by lia. cbv iota. rewrite Z.shiftl_mul_pow2 by lia.
  destruct (Z.div_eucl _ _) as [q r] eqn:E. assert (q = Z.pos pa * 2 ^ 53 / Z.pos pb) as -> by (unfold Z.div; by rewrite E).
  unfold mantissa in *. set (q := _ / _). assert (2 ^ 52 <= q < 2 ^ 54) as Hq.
  { subst q. split; [apply Z.div_le_lower_bound; lia|apply Z.div_lt_upper_bound; lia]. }
  destruct (round_mantissa (xorb false false) q (k - 53) (new_location (Z.pos pb) r) Hq ltac:(lia)) as (p & e & -> & Hp & He).
  unfold of_double, double_trunc, mantissa in *. destruct (Z.leb_spec 0 e) as [Hz|Hz].
  - assert (2 ^ e <= 2 ^ 3) by (apply Z.pow_le_mono_r; lia). assert (0 < 2 ^ e) by (apply Z.pow_pos_nonneg; lia).
    cbn [mbind option_bind xorb]. destruct (Z.leb_spec 0 (Z.pos p * 2 ^ e)); [|lia]. destruct (Z.ltb_spec (Z.pos p * 2 ^ e) (2 ^ 64)); [by eexists|nia].
  - cbn [mbind option_bind xorb]. assert (0 < 2 ^ (- e)) by (apply Z.pow_pos_nonneg; lia).
    assert (0 <= Z.pos p / 2 ^ (- e) <= Z.pos p) by (split; [apply Z.div_pos; lia|apply Z.div_le_upper_bound; nia]).
    destruct (Z.leb_spec 0 (Z.pos p / 2 ^ (- e))); [|lia]. destruct (Z.ltb_spec (Z.pos p / 2 ^ (- e)) (2 ^ 64)); [by eexists|lia].
Qed.
