(* ===== verification/SocketNode.v ===== *)
(** * SocketNode: the intrusive timer queues

    [src/socket.h] and [src/socket_timer.h] keep every armed socket on one of
    three circular doubly linked lists whose nodes are embedded in the
    sockets.  This file models the nodes as a store of [next]/[prev] pointers,
    the pointer operations as the code performs them, and shows that they
    implement three disjoint FIFO lists of sockets. *)

From S2P Require Import Prelude.

(** ** Data *)

(** The three timers of [socket_timer.c]. *)
Inductive timer_id := T_retransmit | T_keepalive | T_timeout.

#[export] Instance timer_id_eq_dec : EqDecision timer_id.
Proof. solve_decision. Defined.

(** A node is the head of a timer's queue or the [node] field of a socket;
    sockets are named by their index in the pool. *)
Inductive node := Head (t : timer_id) | Sock (i : N).

#[export] Instance node_eq_dec : EqDecision node.
Proof. solve_decision. Defined.

Definition node_code (n : node) : (unit + unit) + (unit + N) :=
  match n with
  | Head T_retransmit => inl (inl tt)
  | Head T_keepalive => inl (inr tt)
  | Head T_timeout => inr (inl tt)
  | Sock i => inr (inr i)
  end.
Definition node_decode (c : (unit + unit) + (unit + N)) : node :=
  match c with
  | inl (inl _) => Head T_retransmit
  | inl (inr _) => Head T_keepalive
  | inr (inl _) => Head T_timeout
  | inr (inr i) => Sock i
  end.
#[export] Instance node_countable : Countable node.
Proof. by apply (inj_countable' node_code node_decode); intros [[]|]. Defined.

Record socket_node := SocketNode { next : node; prev : node }.
#[export] Instance eta_socket_node : Eta socket_node :=
  fun x => SocketNode (next x) (prev x).

(** The store of nodes: all [struct socket_node] objects of a worker. *)
Abbreviation links := (gmap node socket_node).

(** ** Operations *)

(** [n->next = v] and [n->prev = v]. *)
Definition node_set_next (n v : node) (m : links) : option links :=
  x ← m !! n; Some (<[n := x <| next := v |>]> m).
Definition node_set_prev (n v : node) (m : links) : option links :=
  x ← m !! n; Some (<[n := x <| prev := v |>]> m).

Definition socket_node_init (sn : node) (m : links) : option links :=
  m1 ← node_set_next sn sn m;
  node_set_prev sn sn m1.

Definition socket_node_del (sn : node) (m : links) : option links :=
  x ← m !! sn;
  let prv := prev x in
  let nxt := next x in
  if bool_decide (sn ≠ nxt) then
    m1 ← node_set_next prv nxt m;
    m2 ← node_set_prev nxt prv m1;
    socket_node_init sn m2
  else Some m.

Definition socket_queue_init (t : timer_id) (m : links) : option links :=
  socket_node_init (Head t) m.

Definition socket_queue_del (i : N) (m : links) : option links :=
  socket_node_del (Sock i) m.

Definition socket_queue_push (t : timer_id) (i : N) (m : links) : option links :=
  let head := Head t in
  let sn := Sock i in
  let nxt := head in
  h ← m !! nxt;
  let prv := prev h in
  m1 ← node_set_next sn nxt m;
  m2 ← node_set_prev sn prv m1;
  m3 ← node_set_prev nxt sn m2;
  node_set_next prv sn m3.

(** The outer option is the memory fault (a missing node, or a head that is
    cast to a socket), the inner one the [NULL] of an empty queue. *)
Definition socket_queue_first (t : timer_id) (m : links) : option (option N) :=
  h ← m !! Head t;
  if bool_decide (next h ≠ Head t) then
    match next h with
    | Sock i => Some (Some i)
    | Head _ => None
    end
  else Some None.

Definition socket_timer_init (m : links) : option links :=
  m1 ← socket_queue_init T_retransmit m;
  m2 ← socket_queue_init T_keepalive m1;
  socket_queue_init T_timeout m2.

(** ** Abstract queues *)

Definition queues : Type := timer_id -> list N.

Definition q_none : queues := fun _ => [].
Definition q_del (i : N) (q : queues) : queues := fun t => filter (.≠ i) (q t).
Definition q_push (t : timer_id) (i : N) (q : queues) : queues :=
  fun t' => if decide (t = t') then q t' ++ [i] else q t'.

(** [link m a b]: [a] and [b] are neighbours; [path] follows a list of
    neighbours; a [ring] is a path from a head back to itself. *)
Definition link (m : links) (a b : node) : Prop :=
  next <$> m !! a = Some b /\ prev <$> m !! b = Some a.

Fixpoint path (m : links) (a : node) (l : list node) (b : node) : Prop :=
  match l with
  | [] => link m a b
  | x :: l => link m a x /\ path m x l b
  end.

Definition ring (m : links) (h : node) (l : list node) : Prop :=
  path m h l h /\ NoDup (h :: l).

(** The store [m] over the sockets [D] implements the queues [q]. *)
Record repr (m : links) (D : gset N) (q : queues) : Prop := {
  repr_ring : forall t, ring m (Head t) (Sock <$> q t);
  repr_disj : forall t t' i, i ∈ q t -> i ∈ q t' -> t = t';
  repr_dom : forall t i, i ∈ q t -> i ∈ D;
  repr_idle : forall i, i ∈ D -> (forall t, i ∉ q t) ->
    m !! Sock i = Some (SocketNode (Sock i) (Sock i));
}.

(** ** Paths and rings *)

Lemma path_app m a l1 x l2 b :
  path m a (l1 ++ x :: l2) b <-> path m a l1 x /\ path m x l2 b.
Proof. revert a. induction l1 as [|y l1 IH]; intros a; simpl; [done|]. rewrite IH. tauto. Qed.

(** A path reads [next] of its sources and [prev] of its targets only. *)
Lemma path_frame m m' a l b :
  path m a l b ->
  (forall n, n ∈ a :: l -> next <$> m' !! n = next <$> m !! n) ->
  (forall n, n ∈ l ++ [b] -> prev <$> m' !! n = prev <$> m !! n) ->
  path m' a l b.
Proof.
  revert a. induction l as [|x l IH]; simpl; intros a Hp Hn Hv.
  - destruct Hp as [H1 H2]. split; [rewrite Hn|rewrite Hv]; try done; list_in.
  - destruct Hp as [[H1 H2] Hp]. split; [split|].
    + rewrite Hn; [done|list_in].
    + rewrite Hv; [done|list_in].
    + apply IH; [done|..]; intros n Hin; [apply Hn|apply Hv]; revert Hin; list_in.
Qed.

Lemma ring_frame m m' h l :
  ring m h l -> (forall n, n ∈ h :: l -> m' !! n = m !! n) -> ring m' h l.
Proof.
  intros [Hp Hd] Hm. split; [|done].
  eapply path_frame; [done|..]; intros n Hn; rewrite Hm; try done; revert Hn; list_in.
Qed.

Lemma path_first m a l b : path m a l b -> next <$> m !! a = Some (hd b l).
Proof. destruct l; simpl; [intros []|intros [[] _]]; done. Qed.

Lemma path_last m a l b : path m a l b -> prev <$> m !! b = Some (List.last l a).
Proof.
  revert a. induction l as [|x l IH]; intros a; simpl; [by intros []|].
  intros [_ Hp]. rewrite (IH _ Hp). by rewrite <- last_cons_default with (d := a).
Qed.

Lemma node_eta m n a b :
  next <$> m !! n = Some a -> prev <$> m !! n = Some b ->
  (m : links) !! n = Some (SocketNode a b).
Proof. destruct (m !! n) as [[]|]; simpl; congruence. Qed.

Lemma node_set_next_spec n v (m : links) :
  is_Some (m !! n) ->
  exists m', node_set_next n v m = Some m'
    /\ (forall k, next <$> m' !! k = if decide (k = n) then Some v else next <$> m !! k)
    /\ (forall k, prev <$> m' !! k = prev <$> m !! k).
Proof.
  intros [x Hx]. unfold node_set_next. rewrite Hx. simpl.
  eexists; split; [done|]; split; intros k; rewrite lookup_insert;
    repeat case_decide; subst; rsimpl; rewrite ?Hx; simpl; rsimpl; done.
Qed.

Lemma node_set_prev_spec n v (m : links) :
  is_Some (m !! n) ->
  exists m', node_set_prev n v m = Some m'
    /\ (forall k, next <$> m' !! k = next <$> m !! k)
    /\ (forall k, prev <$> m' !! k = if decide (k = n) then Some v else prev <$> m !! k).
Proof.
  intros [x Hx]. unfold node_set_prev. rewrite Hx. simpl.
  eexists; split; [done|]; split; intros k; rewrite lookup_insert;
    repeat case_decide; subst; rsimpl; rewrite ?Hx; simpl; rsimpl; done.
Qed.

Lemma node_some_next m (n a : node) : next <$> (m : links) !! n = Some a -> is_Some (m !! n).
Proof. destruct (m !! n); [eauto | done]. Qed.
Lemma node_some_prev m (n a : node) : prev <$> (m : links) !! n = Some a -> is_Some (m !! n).
Proof. destruct (m !! n); [eauto | done]. Qed.
#[local] Hint Resolve node_some_next node_some_prev : core.

Lemma socket_node_init_spec sn (m : links) :
  is_Some (m !! sn) ->
  exists m', socket_node_init sn m = Some m'
    /\ (forall k, next <$> m' !! k = if decide (k = sn) then Some sn else next <$> m !! k)
    /\ (forall k, prev <$> m' !! k = if decide (k = sn) then Some sn else prev <$> m !! k).
Proof.
  intros Hs. unfold socket_node_init.
  destruct (node_set_next_spec sn sn m Hs) as (m1 & -> & Hn1 & Hp1).
  destruct (node_set_prev_spec sn sn m1) as (m2 & H2 & Hn2 & Hp2).
  { eapply node_some_next. rewrite Hn1. by rewrite decide_True. }
  exists m2. split; [done|]. split; intros k.
  - by rewrite Hn2, Hn1.
  - by rewrite Hp2, Hp1.
Qed.

(** The effect of [socket_node_del] on a node with distinct neighbours. *)
Lemma socket_node_del_spec x p nx (m : links) :
  m !! x = Some (SocketNode nx p) -> x ≠ nx -> is_Some (m !! p) -> is_Some (m !! nx) ->
  exists m', socket_node_del x m = Some m'
    /\ (forall k, next <$> m' !! k =
          if decide (k = x) then Some x else if decide (k = p) then Some nx else next <$> m !! k)
    /\ (forall k, prev <$> m' !! k =
          if decide (k = x) then Some x else if decide (k = nx) then Some p else prev <$> m !! k).
Proof.
  intros Hx Hne Hp Hn. unfold socket_node_del. rewrite Hx. simpl.
  rewrite bool_decide_true by done.
  destruct (node_set_next_spec p nx m Hp) as (m1 & -> & Hn1 & Hp1). simpl.
  destruct (node_set_prev_spec nx p m1) as (m2 & -> & Hn2 & Hp2).
  { destruct Hn as [y Hy]. apply node_some_prev with (prev y). by rewrite Hp1, Hy. }
  simpl. destruct (socket_node_init_spec x m2) as (m3 & -> & Hn3 & Hp3).
  { apply node_some_prev with (if decide (x = nx) then p else p). rewrite Hp2, Hp1, Hx.
    by case_decide. }
  exists m3. split; [done|]. split; intros k.
  - by rewrite Hn3, Hn2, Hn1.
  - by rewrite Hp3, Hp2, Hp1.
Qed.

(** Unlinking [x] from between its neighbours joins the two paths. *)
Lemma path_relink m m' a l1 x l2 b :
  path m a l1 x -> path m x l2 b ->
  NoDup (a :: l1 ++ x :: l2) -> b ∉ l1 ++ x :: l2 ->
  (forall k, k ≠ x -> next <$> m' !! k =
     if decide (k = List.last l1 a) then Some (hd b l2) else next <$> m !! k) ->
  (forall k, k ≠ x -> prev <$> m' !! k =
     if decide (k = hd b l2) then Some (List.last l1 a) else prev <$> m !! k) ->
  path m' a (l1 ++ l2) b.
Proof.
  revert a. induction l1 as [|z l1 IH]; intros a H1 H2 Hd Hb Hn Hp.
  - simpl in *. apply list.NoDup_cons in Hd as [Ha Hd]. apply list.NoDup_cons in Hd as [Hx Hd].
    apply not_elem_of_cons in Ha as [Hax Ha]. apply not_elem_of_cons in Hb as [Hbx Hb].
    destruct l2 as [|y l2]; simpl in *.
    + split; [rewrite Hn|rewrite Hp]; try done; by rewrite decide_True.
    + apply not_elem_of_cons in Hx as [Hxy Hx]. apply not_elem_of_cons in Ha as [Hay Ha].
      apply not_elem_of_cons in Hb as [Hby Hb]. apply list.NoDup_cons in Hd as [Hy Hd].
      split; [split; [rewrite Hn|rewrite Hp]; try done; by rewrite decide_True|].
      apply path_frame with m; [tauto|..]; intros n Hin.
      * assert (n ≠ x /\ n ≠ a) as [? ?] by (apply elem_of_cons in Hin as [->|?]; split; congruence).
        rewrite Hn by done. by rewrite decide_False.
      * assert (n ≠ x /\ n ≠ y) as [? ?].
        { apply elem_of_app in Hin as [?|Hin%list_elem_of_singleton]; split; congruence. }
        rewrite Hp by done. by rewrite decide_False.
  - cbn [app path] in *. destruct H1 as [[L1 L2] H1].
    apply list.NoDup_cons in Hd as [Ha Hd].
    rewrite last_cons_default in Hn, Hp.
    pose proof (last_elem l1 z) as Hlast.
    apply not_elem_of_cons in Ha as [Haz Ha]. apply not_elem_of_cons in Hb as [Hbz Hb].
    assert (a ≠ List.last l1 z).
    { intros ->. apply elem_of_cons in Hlast as [?|?]; [congruence|].
      apply Ha, elem_of_app. by left. }
    assert (z ≠ hd b l2).
    { apply list.NoDup_cons in Hd as [Hz _]. intros Hz'. destruct l2 as [|y l2]; simpl in *; [done|].
      apply Hz. subst. list_in. }
    split; [split|].
    + rewrite Hn; [by rewrite decide_False|]. intros ->. apply Ha. list_in.
    + rewrite Hp; [by rewrite decide_False|]. intros ->.
      apply list.NoDup_cons in Hd as [Hz _]. apply Hz. list_in.
    + by apply IH.
Qed.

Lemma ring_del m h l1 x l2 :
  ring m h (l1 ++ x :: l2) ->
  exists m', socket_node_del x m = Some m' /\ ring m' h (l1 ++ l2)
    /\ m' !! x = Some (SocketNode x x)
    /\ forall n, n ∉ h :: l1 ++ x :: l2 -> m' !! n = m !! n.
Proof.
  intros [Hp Hd]. apply path_app in Hp as [H1 H2].
  pose proof (path_last _ _ _ _ H1) as Hprev. pose proof (path_first _ _ _ _ H2) as Hnext.
  pose proof (path_first _ _ _ _ H1) as Hfst. pose proof (path_last _ _ _ _ H2) as Hlst.
  pose proof (last_elem l1 h) as Hl.
  assert (hd h l2 ∈ h :: l2) as Hh by (destruct l2; simpl; list_in).
  pose proof Hd as Hd'. apply list.NoDup_cons in Hd' as [Hh' Hd'].
  rewrite <- Permutation_middle in Hd'. apply list.NoDup_cons in Hd' as [Hx Hd'].
  assert (x ≠ hd h l2).
  { intros E. apply elem_of_cons in Hh as [Hh|Hh]; rewrite <- E in Hh.
    - subst h. apply Hh'. list_in.
    - apply Hx. list_in. }
  destruct (socket_node_del_spec x (List.last l1 h) (hd h l2) m) as (m' & Hm & Hn' & Hp').
  { by apply node_eta. }
  { done. }
  { destruct l1 as [|z l1] using rev_ind; [eauto|]. rewrite List.last_last in *.
    apply path_app in H1 as [? [? ?]]. eauto. }
  { destruct l2; simpl in *; [eauto|]. destruct H2 as [[? ?] ?]. eauto. }
  exists m'. split; [done|]. split; [split|split].
  - eapply path_relink; [apply H1|apply H2|done| |..].
    + intros ?. apply Hh'. done.
    + intros k Hk. rewrite Hn'. by rewrite decide_False.
    + intros k Hk. rewrite Hp'. by rewrite decide_False.
  - rewrite <- Permutation_middle in Hd. apply list.NoDup_cons in Hd as [? Hd].
    apply list.NoDup_cons. apply list.NoDup_cons in Hd as [? Hd]. split; [|done].
    intros ?. apply H0. list_in.
  - apply node_eta; [rewrite Hn'|rewrite Hp']; by rewrite decide_True.
  - intros n Hn. assert (n ≠ x /\ n ≠ List.last l1 h /\ n ≠ hd h l2) as (? & ? & ?).
    { split; [|split]; intros ->; apply Hn; revert Hl Hh; list_in. }
    destruct (m !! n) as [[a b]|] eqn:E.
    + apply node_eta; [rewrite Hn'|rewrite Hp']; rewrite !decide_False by done; by rewrite E.
    + specialize (Hn' n). rewrite !decide_False, E in Hn' by done. by destruct (m' !! n).
Qed.

(** Pushing a detached node before the head appends it to the ring. *)
Lemma ring_push m t l i :
  ring m (Head t) l -> is_Some (m !! Sock i) -> Sock i ∉ l ->
  exists m', socket_queue_push t i m = Some m' /\ ring m' (Head t) (l ++ [Sock i])
    /\ forall n, n ∉ Head t :: l ++ [Sock i] -> m' !! n = m !! n.
Proof.
  intros [Hp Hd] Hi Hil. set (h := Head t) in *. set (x := Sock i) in *.
  pose proof (path_last _ _ _ _ Hp) as Hlst.
  assert (x ≠ h) as Hxh by done.
  pose proof (last_elem l h) as Hl.
  set (p := List.last l h) in *.
  assert (p ≠ x) as Hpx by (intros ->; list_in).
  assert (is_Some (m !! h)) as [hx Hh] by eauto.
  assert (prev hx = p) as Hhp by (rewrite Hh in Hlst; by injection Hlst).
  assert (is_Some (m !! p)) as Hps.
  { destruct l as [|z l] using rev_ind; [eauto|]. subst p. rewrite List.last_last in *.
    apply path_app in Hp as [? [? ?]]. eauto. }
  unfold socket_queue_push. fold h x. rewrite Hh. simpl. rewrite Hhp.
  destruct (node_set_next_spec x h m Hi) as (m1 & -> & Hn1 & Hp1). simpl.
  destruct (node_set_prev_spec x p m1) as (m2 & -> & Hn2 & Hp2).
  { eapply node_some_next. rewrite Hn1. by rewrite decide_True. }
  simpl. destruct (node_set_prev_spec h x m2) as (m3 & -> & Hn3 & Hp3).
  { eapply node_some_prev. rewrite Hp2, Hp1, Hh. by rewrite decide_False. }
  simpl. destruct (node_set_next_spec p x m3) as (m4 & -> & Hn4 & Hp4).
  { destruct Hps as [y Hy]. eapply node_some_next. rewrite Hn3, Hn2, Hn1, Hy.
    by rewrite decide_False. }
  exists m4. split; [done|].
  assert (forall k, next <$> m4 !! k =
    if decide (k = p) then Some x else if decide (k = x) then Some h else next <$> m !! k) as HN.
  { intros k. by rewrite Hn4, Hn3, Hn2, Hn1. }
  assert (forall k, prev <$> m4 !! k =
    if decide (k = h) then Some x else if decide (k = x) then Some p else prev <$> m !! k) as HP.
  { intros k. by rewrite Hp4, Hp3, Hp2, Hp1. }
  clear Hn1 Hp1 Hn2 Hp2 Hn3 Hp3 Hn4 Hp4.
  split; [split|].
  - apply path_app. split; [|split; [rewrite HN|rewrite HP]; repeat case_decide; congruence].
    destruct l as [|z l _] using rev_ind.
    { simpl. subst p. simpl in *. split; [rewrite HN|rewrite HP]; repeat case_decide; congruence. }
    subst p. rewrite List.last_last in *. apply path_app in Hp as [Hp1 Hp2].
    apply path_app. split.
    + apply list.NoDup_cons in Hd as [Hh' Hd]. apply list.NoDup_app in Hd as (Hd1 & Hd2 & _).
      apply path_frame with m; [done|..]; intros n Hin.
      * assert (n ≠ z) by (intros ->; apply elem_of_cons in Hin as [?|Hin];
          [apply Hh'; rewrite <- H; list_in | apply (Hd2 _ Hin); list_in]).
        assert (n ≠ x) by (intros ->; list_in).
        by rewrite HN, !decide_False.
      * assert (n ≠ h) by (intros ->; list_in).
        assert (n ≠ x) by (intros ->; list_in).
        by rewrite HP, !decide_False.
    + split; [rewrite HN|rewrite HP]; repeat case_decide; congruence.
  - rewrite app_comm_cons. apply list.NoDup_app. split; [done|]. split; [|apply NoDup_singleton].
    intros y Hy Hyx. apply list_elem_of_singleton in Hyx as ->. list_in.
  - intros n Hn. assert (n ≠ x /\ n ≠ p /\ n ≠ h) as (? & ? & ?).
    { split; [|split]; intros ->; apply Hn; list_in. }
    destruct (m !! n) as [[a b]|] eqn:E.
    + apply node_eta; [rewrite HN|rewrite HP]; rewrite !decide_False by done; by rewrite E.
    + specialize (HN n). rewrite !decide_False, E in HN by done. by destruct (m4 !! n).
Qed.

(** ** The refinement *)

Lemma Sock_elem i (l : list N) : Sock i ∈ (Sock <$> l) <-> i ∈ l.
Proof.
  rewrite list_elem_of_fmap. split; [intros (j & Hj & ?); by injection Hj as -> | eauto].
Qed.

Lemma queue_cases (q : queues) i : (exists t, i ∈ q t) \/ (forall t, i ∉ q t).
Proof.
  destruct (decide (i ∈ q T_retransmit)); [eauto|].
  destruct (decide (i ∈ q T_keepalive)); [eauto|].
  destruct (decide (i ∈ q T_timeout)); [eauto|]. right. by intros [].
Qed.

Lemma repr_some m D q i : repr m D q -> i ∈ D -> is_Some (m !! Sock i).
Proof.
  intros Hr Hi. destruct (queue_cases q i) as [[t Hq]|Hno].
  - destruct (repr_ring _ _ _ Hr t) as [Hp _].
    apply list_elem_of_split in Hq as (l1 & l2 & E). rewrite E, fmap_app in Hp.
    apply path_app in Hp as [_ Hp]. apply path_first in Hp. eauto.
  - rewrite (repr_idle _ _ _ Hr); eauto.
Qed.

Lemma q_nodup m D q t : repr m D q -> NoDup (q t).
Proof.
  intros Hr. destruct (repr_ring _ _ _ Hr t) as [_ Hd].
  apply list.NoDup_cons in Hd as [_ Hd]. by apply NoDup_fmap in Hd; [|intros ?? [=]].
Qed.


Lemma socket_node_del_repr m D q i :
  repr m D q -> i ∈ D ->
  exists m', socket_queue_del i m = Some m' /\ repr m' D (q_del i q).
Proof.
  intros Hr Hi.
  destruct (queue_cases q i) as [[t Hq]|Hno].
  - pose proof Hq as Hq'. apply list_elem_of_split in Hq' as (l1 & l2 & El).
    pose proof (q_nodup _ _ _ t Hr) as Hnd. rewrite El in Hnd.
    pose proof (repr_ring _ _ _ Hr t) as Hring. rewrite El, fmap_app in Hring.
    destruct (ring_del _ _ _ _ _ Hring) as (m' & Hm' & Hr1 & Hself & Hfr0).
    assert (forall n, n ∉ Head t :: (Sock <$> q t) -> m' !! n = m !! n) as Hfr
      by (rewrite El, fmap_app; exact Hfr0).
    exists m'. split; [done|]. split.
    + intros t'. unfold q_del. destruct (decide (t' = t)) as [->|Hne].
      { rewrite El, filter_ne_middle, fmap_app by done. done. }
      assert (i ∉ q t') as Hi' by (intros ?; apply Hne; eapply repr_disj; eauto).
      rewrite filter_ne_notin by done.
      eapply ring_frame; [apply Hr|]. intros n Hn. apply Hfr.
      intros Hn'. apply elem_of_cons in Hn' as [->|Hn'].
      * apply elem_of_cons in Hn as [[=]|Hn]; [congruence|].
        by apply list_elem_of_fmap in Hn as (? & ? & ?).
      * apply list_elem_of_fmap in Hn' as (j & -> & Hj).
        apply elem_of_cons in Hn as [|Hn%Sock_elem]; [done|].
        apply Hne. eapply repr_disj; eauto.
    + intros t1 t2 j. unfold q_del. rewrite !filter_ne_elem. intros [_ ?] [_ ?].
      eapply repr_disj; eauto.
    + intros t1 j. unfold q_del. rewrite filter_ne_elem. intros [_ ?]. eapply repr_dom; eauto.
    + intros j Hj Hno. destruct (decide (j = i)) as [->|Hne]; [done|].
      assert (forall t', j ∉ q t') as Hj'.
      { intros t' Hjt. apply (Hno t'). unfold q_del. by apply filter_ne_elem. }
      rewrite Hfr; [by eapply repr_idle|].
      intros [?|Hn%Sock_elem]%elem_of_cons; [done|]. by apply (Hj' t).
  - exists m. unfold socket_queue_del, socket_node_del.
    rewrite (repr_idle _ _ _ Hr) by done. simpl.
    rewrite bool_decide_false by (intros H; by apply H). split; [done|].
    assert (forall t, q_del i q t = q t) as E by (intros; by apply filter_ne_notin).
    split; intros *; rewrite ?E.
    + apply Hr.
    + eapply repr_disj; eauto.
    + eapply repr_dom; eauto.
    + intros Hj H. eapply repr_idle; eauto. intros t'. rewrite <- E. apply H.
Qed.

Lemma socket_queue_push_repr m D q t i :
  repr m D q -> i ∈ D -> (forall t, i ∉ q t) ->
  exists m', socket_queue_push t i m = Some m' /\ repr m' D (q_push t i q).
Proof.
  intros Hr Hi Hno.
  destruct (ring_push m t (Sock <$> q t) i) as (m' & Hm' & Hr1 & Hfr).
  { apply Hr. } { by eapply repr_some. } { by rewrite Sock_elem. }
  exists m'. split; [done|].
  assert (forall n, n ∉ Head t :: (Sock <$> q t ++ [i]) -> m' !! n = m !! n) as Hfr'.
  { intros n Hn. apply Hfr. by rewrite fmap_app in Hn. }
  split.
  - intros t'. unfold q_push. case_decide as E; [subst|].
    { by rewrite fmap_app. }
    eapply ring_frame; [apply Hr|]. intros n Hn. apply Hfr'. intros Hn'.
    apply elem_of_cons in Hn' as [->|Hn'].
    + apply elem_of_cons in Hn as [[=]|Hn]; [congruence|].
      by apply list_elem_of_fmap in Hn as (? & ? & ?).
    + apply list_elem_of_fmap in Hn' as (j & -> & Hj).
      apply elem_of_cons in Hn as [|Hn%Sock_elem]; [done|].
      apply elem_of_app in Hj as [Hj|Hj%list_elem_of_singleton].
      * apply E. eapply repr_disj; eauto.
      * subst. by apply (Hno t').
  - intros t1 t2 j. unfold q_push.
    assert (forall t', j ∈ (if decide (t = t') then q t' ++ [i] else q t') ->
      (j = i /\ t = t') \/ j ∈ q t') as H.
    { intros t' H. case_decide; [|by right].
      apply elem_of_app in H as [H|H%list_elem_of_singleton]; [by right|by left]. }
    intros [[-> ->]|H1]%H [[E2 E3]|H2]%H; subst; try done.
    + exfalso. by eapply Hno.
    + exfalso. by eapply Hno.
    + eapply repr_disj; eauto.
  - intros t' j. unfold q_push. case_decide; [|eapply repr_dom; eauto].
    intros [?|Hj%list_elem_of_singleton]%elem_of_app; [eapply repr_dom; eauto|by subst].
  - intros j Hj Hq. assert (j ≠ i /\ forall t', j ∉ q t') as [Hji Hjq].
    { split.
      - intros ->. apply (Hq t). unfold q_push. rewrite decide_True by done. list_in.
      - intros t' Hjt. apply (Hq t'). unfold q_push. case_decide; [list_in|done]. }
    rewrite Hfr'; [by eapply repr_idle|].
    intros [?|Hn%Sock_elem]%elem_of_cons; [done|].
    apply elem_of_app in Hn as [Hn|Hn%list_elem_of_singleton]; [by apply (Hjq t)|done].
Qed.

Lemma socket_queue_first_repr m D q t :
  repr m D q -> socket_queue_first t m = Some (head (q t)).
Proof.
  intros Hr. destruct (repr_ring _ _ _ Hr t) as [Hp _].
  pose proof (path_first _ _ _ _ Hp) as Hf. unfold socket_queue_first.
  destruct (m !! Head t) as [h|]; [|done]. simpl in *. injection Hf as Hf. rewrite Hf.
  destruct (q t); simpl; [by rewrite bool_decide_false by auto|].
  done.
Qed.

(** ** Initial state and refinement *)

Lemma node_ext (o o' : option socket_node) : next <$> o = next <$> o' -> prev <$> o = prev <$> o' -> o = o'.
Proof. destruct o as [[]|], o' as [[]|]; cbn; congruence. Qed.

Lemma socket_timer_init_heads m : (forall t, is_Some (m !! Head t)) ->
  exists m', socket_timer_init m = Some m' /\ (forall t, m' !! Head t = Some (SocketNode (Head t) (Head t)))
    /\ (forall i, m' !! Sock i = m !! Sock i).
Proof.
  intros Hh. unfold socket_timer_init, socket_queue_init.
  destruct (socket_node_init_spec (Head T_retransmit) m) as (m1 & -> & N1 & P1); [apply Hh|].
  cbn [mbind option_bind].
  assert (forall n (m m' : links), (forall k, next <$> m' !! k = if decide (k = n) then Some n else next <$> m !! k)
    -> forall t, is_Some (m !! Head t) -> is_Some (m' !! Head t)) as Hk.
  { intros n a b Hn t [x Hx]. specialize (Hn (Head t)). destruct (b !! Head t); [eauto|].
    rewrite Hx in Hn. simpl in Hn. by case_decide. }
  destruct (socket_node_init_spec (Head T_keepalive) m1) as (m2 & -> & N2 & P2); [eauto|].
  cbn [mbind option_bind].
  destruct (socket_node_init_spec (Head T_timeout) m2) as (m3 & -> & N3 & P3); [eauto|].
  exists m3. split; [done|]. split.
  - intros t. apply node_eta; rewrite ?N3, ?P3, ?N2, ?P2, ?N1, ?P1; destruct t; by repeat case_decide.
  - intros i. apply node_ext; rewrite ?N3, ?P3, ?N2, ?P2, ?N1, ?P1; by repeat case_decide.
Qed.

(** Heads and sockets that point to themselves are three empty queues. *)
Lemma repr_fresh m D :
  (forall t, m !! Head t = Some (SocketNode (Head t) (Head t))) ->
  (forall i, i ∈ D -> m !! Sock i = Some (SocketNode (Sock i) (Sock i))) -> repr m D q_none.
Proof.
  intros Hh Hs. split.
  - intros t. split; [|simpl; apply NoDup_singleton]. simpl. unfold link. by rewrite Hh.
  - intros t t' i Hi. by apply not_elem_of_nil in Hi.
  - intros t i Hi. by apply not_elem_of_nil in Hi.
  - intros i Hi _. by apply Hs.
Qed.

Lemma socket_timer_init_repr m D :
  (forall t, is_Some (m !! Head t)) ->
  (forall i, i ∈ D -> m !! Sock i = Some (SocketNode (Sock i) (Sock i))) ->
  exists m', socket_timer_init m = Some m' /\ repr m' D q_none.
Proof.
  intros Hh Hs. destruct (socket_timer_init_heads m Hh) as (m' & E & H1 & H2). exists m'. split; [done|].
  apply repr_fresh; [done|]. intros i Hi. rewrite H2. by apply Hs.
Qed.

(** The operations of the timers: removing a socket, and arming it (which
    removes it first). *)
Inductive queue_op := Disarm (i : N) | Arm (t : timer_id) (i : N).
Definition op_socket (o : queue_op) : N := match o with Disarm i | Arm _ i => i end.

Definition run_op (o : queue_op) (m : links) : option links :=
  match o with
  | Disarm i => socket_queue_del i m
  | Arm t i => m ← socket_queue_del i m; socket_queue_push t i m
  end.
Definition spec_op (o : queue_op) (q : queues) : queues :=
  match o with Disarm i => q_del i q | Arm t i => q_push t i (q_del i q) end.

Fixpoint run_ops (os : list queue_op) (m : links) : option links :=
  match os with [] => Some m | o :: os => m ← run_op o m; run_ops os m end.
Definition spec_ops (os : list queue_op) (q : queues) : queues := foldl (fun q o => spec_op o q) q os.

Lemma run_op_repr o m D q : repr m D q -> op_socket o ∈ D ->
  exists m', run_op o m = Some m' /\ repr m' D (spec_op o q).
Proof.
  intros Hr Hi. destruct o as [i|t i]; simpl in *; [by apply socket_node_del_repr|].
  destruct (socket_node_del_repr _ _ _ _ Hr Hi) as (m1 & -> & Hr1). cbn [mbind option_bind].
  apply (socket_queue_push_repr _ _ _ t i Hr1 Hi). intros t' Hq. unfold q_del in Hq.
  by apply filter_ne_elem in Hq as [? _].
Qed.

(** C16: from the initialised queues, any sequence of timer operations on the
    sockets of the pool runs without touching memory outside the nodes, and
    the pointers implement three disjoint FIFO lists: the first socket of a
    queue is the one armed longest ago. *)
Theorem timer_queues_refinement m D os t :
  (forall t, is_Some (m !! Head t)) ->
  (forall i, i ∈ D -> m !! Sock i = Some (SocketNode (Sock i) (Sock i))) ->
  Forall (fun o => op_socket o ∈ D) os ->
  exists m0 m', socket_timer_init m = Some m0 /\ run_ops os m0 = Some m'
    /\ repr m' D (spec_ops os q_none)
    /\ socket_queue_first t m' = Some (head (spec_ops os q_none t)).
Proof.
  intros Hh Hs Hos. destruct (socket_timer_init_repr m D Hh Hs) as (m0 & H0 & Hr).
  exists m0. assert (exists m', run_ops os m0 = Some m' /\ repr m' D (spec_ops os q_none)) as (m' & H1 & H2).
  { clear H0. revert m0 Hr. generalize q_none. induction Hos as [|o os Ho _ IH]; intros q m0 Hr.
    - by exists m0.
    - simpl. destruct (run_op_repr _ _ _ _ Hr Ho) as (m1 & -> & Hr1). by apply IH. }
  exists m'. split; [done|]. split; [done|]. split; [done|]. by eapply socket_queue_first_repr.
Qed.

Definition example_links : links :=
  <[Head T_retransmit := SocketNode (Sock 0) (Sock 0)]>
  (<[Head T_keepalive := SocketNode (Sock 0) (Sock 0)]>
  (<[Head T_timeout := SocketNode (Sock 0) (Sock 0)]>
  (<[Sock 0 := SocketNode (Sock 0) (Sock 0)]> {[Sock 1 := SocketNode (Sock 1) (Sock 1)]}))).

Lemma timer_queues_refinement_witness : exists m0 m',
  socket_timer_init example_links = Some m0
  /\ run_ops [Arm T_retransmit 0; Arm T_retransmit 1; Arm T_timeout 0; Disarm 0] m0 = Some m'
  /\ repr m' {[0%N; 1%N]} (spec_ops [Arm T_retransmit 0; Arm T_retransmit 1; Arm T_timeout 0; Disarm 0] q_none)
  /\ socket_queue_first T_retransmit m'
     = Some (head (spec_ops [Arm T_retransmit 0; Arm T_retransmit 1; Arm T_timeout 0; Disarm 0] q_none T_retransmit)).
Proof.
  apply (timer_queues_refinement example_links {[0%N; 1%N]}).
  - intros []; eexists; reflexivity.
  - intros i [Hi%elem_of_singleton|Hi%elem_of_singleton]%elem_of_union; subst i; reflexivity.
  - repeat (apply List.Forall_cons; [simpl; apply elem_of_union;
      (by left; apply elem_of_singleton) || (by right; apply elem_of_singleton)|]). apply List.Forall_nil.
Defined.
