(* ===== verification/Csum.v ===== *)
(** * Csum: Internet checksums

    The one's-complement arithmetic of [src/csum.h] and [src/csum.c]: the
    incremental updates applied to the checksums cached in a socket, and the
    pseudo-header sums that are computed once per socket. *)

From S2P Require Import Prelude.

(** ** Operations *)

(** [(csum & 0xFFFF) + (csum >> 16)]: one carry fold of a 32-bit sum. *)
Definition csum_fold (csum : Z) : Z := (csum &&& 65535) + (csum >>> 16).

Definition csum_update_u32 (ocsum oval nval : Z) : Z :=
  let csum := (Z.lnot (oval >>> 16) &&& 65535) + (Z.lnot (oval &&& 65535) &&& 65535)
              + (Z.lnot (nval >>> 16) &&& 65535) + (Z.lnot (nval &&& 65535) &&& 65535)
              + ocsum in
  let csum := csum_fold (u32 csum) in
  let csum := csum_fold csum in
  u16 csum.

(** The four 32-bit words of the two addresses are walked in parallel. *)
Fixpoint csum_update_u128_loop (csum : Z) (oval nval : list Z) : Z :=
  match oval, nval with
  | o :: oval, n :: nval => csum_update_u128_loop (csum_update_u32 (u16 csum) o n) oval nval
  | _, _ => csum
  end.
Definition csum_update_u128 (ocsum : Z) (oval nval : list Z) : Z :=
  u16 (csum_update_u128_loop ocsum (take 4 oval) (take 4 nval)).

Definition csum_update_u16 (ocsum oval nval : Z) : Z :=
  let csum := (Z.lnot ocsum &&& 65535) + (Z.lnot oval &&& 65535) + nval in
  let csum := (csum >>> 16) + (csum &&& 65535) in
  let csum := csum + (csum >>> 16) in
  u16 (Z.lnot csum).

Definition csum_pseudo_ipv4 (proto sip dip len : Z) : Z :=
  let csum := (sip &&& 65535) + (sip >>> 16) in
  let csum := csum + ((dip &&& 65535) + (dip >>> 16)) in
  let csum := csum + (proto <<< 8) in
  let csum := csum + htons len in
  let csum := csum_fold csum in
  let csum := csum_fold csum in
  u16 csum.

(** ** Reference: the checksum of RFC 1071

    Over a buffer seen as 16-bit words, the sum is folded until it fits in 16
    bits; the transmitted checksum is its complement. *)

Definition words_sum (ws : list Z) : Z := foldr Z.add 0 ws.

(** The 16-bit one's-complement representative of a non-negative sum: 0 only
    for 0, otherwise in [1, 65535]. *)
Definition oc16 (s : Z) : Z := if s =? 0 then 0 else (s - 1) mod 65535 + 1.

Definition cksum (ws : list Z) : Z := 65535 - oc16 (words_sum ws).

(** What a receiver checks: the words and the checksum add up to all ones. *)
Definition cksum_accepts (ws : list Z) (c : Z) : Prop := oc16 (words_sum ws + c) = 65535.

(** The two 16-bit words of a 32-bit field. *)
Definition words_of_u32 (x : Z) : list Z := [x &&& 65535; x >>> 16].

Definition pseudo_words (proto sip dip len : Z) : list Z :=
  words_of_u32 sip ++ words_of_u32 dip ++ [256 * proto; htons len].

(** ** Arithmetic of the folds *)

Lemma land_65535 x : x &&& 65535 = x mod 65536.
Proof. change 65535 with (Z.ones 16). by rewrite Z.land_ones. Qed.

Lemma shiftr_16 x : x >>> 16 = x / 65536.
Proof. by rewrite Z.shiftr_div_pow2. Qed.

Lemma lnot_65535 x : 0 <= x < 65536 -> Z.lnot x &&& 65535 = 65535 - x.
Proof.
  intros. rewrite land_65535. unfold Z.lnot.
  symmetry. apply Z.mod_unique with (-1); lia.
Qed.

Lemma lnot_lo x : Z.lnot (x &&& 65535) &&& 65535 = 65535 - (x &&& 65535).
Proof. apply lnot_65535. rewrite land_65535. by apply Z.mod_pos_bound. Qed.

Lemma lnot_hi x : in_u 32 x -> Z.lnot (x >>> 16) &&& 65535 = 65535 - (x >>> 16).
Proof.
  unfold in_u. change (2 ^ 32) with 4294967296. intros.
  apply lnot_65535. rewrite shiftr_16. Z.to_euclidean_division_equations. lia.
Qed.

Lemma oc16_range s : 0 <= s -> 0 <= oc16 s <= 65535.
Proof.
  unfold oc16. destruct (Z.eqb_spec s 0); [lia|].
  pose proof (Z.mod_pos_bound (s - 1) 65535). lia.
Qed.

Lemma oc16_mod s : (oc16 s) mod 65535 = s mod 65535.
Proof.
  unfold oc16. destruct (Z.eqb_spec s 0); [subst; done|].
  rewrite Zplus_mod_idemp_l. f_equal. lia.
Qed.

(** Two positive sums have the same representative iff they are congruent. *)
Lemma oc16_congr a b : 0 < a -> 0 < b -> a mod 65535 = b mod 65535 -> oc16 a = oc16 b.
Proof.
  intros. unfold oc16. destruct (Z.eqb_spec a 0), (Z.eqb_spec b 0); try lia.
  assert ((a - 1) mod 65535 = (b - 1) mod 65535) as -> by
    (rewrite (Zminus_mod a 1), (Zminus_mod b 1); congruence).
  done.
Qed.

Lemma oc16_all_ones s : 0 < s -> s mod 65535 = 0 -> oc16 s = 65535.
Proof. intros. rewrite (oc16_congr s 65535); [done|lia..|done]. Qed.

(** Two folds bring any sum of a few words to its representative. *)
Lemma csum_fold_twice s : 0 <= s < 16777216 -> csum_fold (csum_fold s) = oc16 s.
Proof.
  intros. unfold csum_fold, oc16. rewrite !land_65535, !shiftr_16.
  destruct (Z.eqb_spec s 0); [subst; done|].
  Z.to_euclidean_division_equations. lia.
Qed.

Lemma csum_fold_twice' s : 0 <= s < 262144 ->
  let c := (s >>> 16) + (s &&& 65535) in u16 (Z.lnot (c + (c >>> 16))) = 65535 - oc16 s.
Proof.
  intros Hs c. subst c. unfold wrap, oc16, Z.lnot. rewrite !land_65535, !shiftr_16.
  change (2 ^ 16) with 65536. destruct (Z.eqb_spec s 0); [subst; done|].
  Z.to_euclidean_division_equations. lia.
Qed.

Lemma words_sum_app a b : words_sum (a ++ b) = words_sum a + words_sum b.
Proof. unfold words_sum. induction a; simpl; lia. Qed.

Lemma words_sum_nonneg ws : Forall (in_u 16) ws -> 0 <= words_sum ws.
Proof. unfold words_sum, in_u. induction 1; simpl; lia. Qed.

Lemma words_of_u32_sum x : in_u 32 x -> words_sum (words_of_u32 x) mod 65535 = x mod 65535.
Proof.
  intros _. unfold words_sum, words_of_u32. simpl. rewrite land_65535, shiftr_16.
  Z.to_euclidean_division_equations. lia.
Qed.

Lemma words_of_u32_range x : in_u 32 x -> Forall (in_u 16) (words_of_u32 x).
Proof.
  unfold in_u, words_of_u32. change (2 ^ 32) with 4294967296. change (2 ^ 16) with 65536.
  intros. rewrite land_65535, shiftr_16.
  repeat constructor; Z.to_euclidean_division_equations; lia.
Qed.

(** ** Properties of the updates *)

Lemma csum_update_u32_sum ocsum oval nval :
  in_u 16 ocsum -> in_u 32 oval -> in_u 32 nval ->
  csum_update_u32 ocsum oval nval
  = oc16 (ocsum + 262140 - words_sum (words_of_u32 oval) - words_sum (words_of_u32 nval)).
Proof.
  intros Hc Ho Hn. unfold csum_update_u32.
  pose proof (words_of_u32_range _ Ho) as Ro. pose proof (words_of_u32_range _ Hn) as Rn.
  rewrite !lnot_lo, !lnot_hi by done.
  unfold words_of_u32, words_sum in *. simpl foldr.
  repeat match goal with H : Forall _ (_ :: _) |- _ => inversion_clear H end.
  unfold in_u in *. change (2 ^ 16) with 65536 in *.
  rewrite (wrap_small 32) by (unfold in_u; lia).
  rewrite csum_fold_twice by lia.
  rewrite wrap_small; [f_equal; lia|]. unfold in_u. change (2 ^ 16) with 65536.
  pose proof (oc16_range (65535 - (oval >>> 16) + (65535 - (oval &&& 65535))
    + (65535 - (nval >>> 16)) + (65535 - (nval &&& 65535)) + ocsum)). lia.
Qed.

Lemma words_of_u32_bound x : in_u 32 x -> 0 <= words_sum (words_of_u32 x) <= 131070.
Proof.
  intros Hx%words_of_u32_range. unfold words_of_u32, words_sum in *. simpl foldr.
  unfold in_u in Hx. change (2 ^ 16) with 65536 in Hx.
  repeat match goal with H : Forall _ (_ :: _) |- _ => inversion_clear H end. lia.
Qed.

(** Linear facts modulo 65535: every [x mod 65535] becomes [x - 65535 * q]. *)
Ltac mod65535 := Z.to_euclidean_division_equations; lia.

Lemma csum_update_u16_sum c o n : in_u 16 c -> in_u 16 o -> in_u 16 n ->
  csum_update_u16 c o n = 65535 - oc16 (65535 - c + (65535 - o) + n).
Proof.
  unfold in_u. change (2 ^ 16) with 65536. intros. unfold csum_update_u16.
  rewrite !lnot_65535 by lia. by rewrite csum_fold_twice' by lia.
Qed.

(** C21: replacing the 16-bit word [o] of a buffer by [n] and updating the
    cached checksum with [csum_update_u16] gives exactly the checksum that
    would be recomputed over the whole buffer (unless the new buffer is all
    zero, which no header is). *)
Theorem csum_update_u16_recompute l1 o n l2 :
  Forall (in_u 16) (l1 ++ o :: l2) -> in_u 16 n ->
  0 < words_sum (l1 ++ n :: l2) ->
  csum_update_u16 (cksum (l1 ++ o :: l2)) o n = cksum (l1 ++ n :: l2).
Proof.
  intros Hws Hn Hpos. pose proof (words_sum_nonneg _ Hws) as Hs.
  apply Forall_app in Hws as [Hl1 Hws]. inversion_clear Hws as [|? ? Ho Hl2].
  pose proof (oc16_range _ Hs) as Hr.
  unfold cksum. rewrite csum_update_u16_sum; [|unfold in_u in *; lia|done|done].
  f_equal. pose proof (oc16_mod (words_sum (l1 ++ o :: l2))) as Hm.
  rewrite !words_sum_app in *. simpl in *. unfold in_u in *. change (2 ^ 16) with 65536 in *.
  assert (0 < 65535 - (65535 - oc16 (words_sum l1 + (o + words_sum l2))) + (65535 - o) + n).
  { unfold oc16 in *. destruct (Z.eqb_spec (words_sum l1 + (o + words_sum l2)) 0); [lia|].
    pose proof (Z.mod_pos_bound (words_sum l1 + (o + words_sum l2) - 1) 65535). lia. }
  apply oc16_congr; [done|done|]. revert Hm. generalize (oc16 (words_sum l1 + (o + words_sum l2))).
  intros. mod65535.
Qed.

Lemma csum_update_u16_recompute_witness :
  csum_update_u16 (cksum [17664; 0; 16384]) 0 4660 = cksum [17664; 4660; 16384].
Proof.
  apply (csum_update_u16_recompute [17664] 0 4660 [16384]).
  - by concrete_words.
  - split; [lia|reflexivity].
  - reflexivity.
Defined.

(** When a packet template is sealed with the two 32-bit fields [oval] and
    [nval] still zero, filling them in and applying [csum_update_u32] to the
    template's checksum gives a checksum that the receiver of the completed
    packet accepts. *)
Theorem csum_update_u32_accepted ws oval nval :
  Forall (in_u 16) ws -> in_u 32 oval -> in_u 32 nval ->
  0 < words_sum ws ->
  cksum_accepts (ws ++ words_of_u32 oval ++ words_of_u32 nval)
    (csum_update_u32 (cksum ws) oval nval).
Proof.
  intros Hws Ho Hn Hpos. pose proof (words_sum_nonneg _ Hws) as Hs.
  pose proof (oc16_range _ Hs) as Hr.
  unfold cksum_accepts, cksum.
  rewrite csum_update_u32_sum; [|unfold in_u in *; lia|done|done].
  rewrite !words_sum_app.
  pose proof (words_of_u32_bound _ Ho). pose proof (words_of_u32_bound _ Hn).
  pose proof (oc16_mod (words_sum ws)) as Hm.
  set (x := _ + 262140 - _ - _). assert (0 <= x) as Hx by lia.
  pose proof (oc16_range _ Hx). pose proof (oc16_mod x) as Hm2.
  apply oc16_all_ones; [lia|]. subst x. revert Hm2.
  generalize (oc16 (65535 - oc16 (words_sum ws) + 262140
    - words_sum (words_of_u32 oval) - words_sum (words_of_u32 nval))).
  revert Hm. generalize (oc16 (words_sum ws)). intros. mod65535.
Qed.

Lemma csum_update_u32_accepted_witness :
  cksum_accepts ([17664; 40] ++ words_of_u32 305419896 ++ words_of_u32 2596069104)
    (csum_update_u32 (cksum [17664; 40]) 305419896 2596069104).
Proof.
  apply csum_update_u32_accepted.
  - by concrete_words.
  - split; [lia|reflexivity].
  - split; [lia|reflexivity].
  - reflexivity.
Defined.

Lemma csum_pseudo_ipv4_sum proto sip dip len :
  in_u 8 proto -> in_u 32 sip -> in_u 32 dip ->
  csum_pseudo_ipv4 proto sip dip len = oc16 (words_sum (pseudo_words proto sip dip len)).
Proof.
  intros Hp Hs Hd. unfold csum_pseudo_ipv4, pseudo_words. rewrite !words_sum_app.
  pose proof (words_of_u32_bound _ Hs). pose proof (words_of_u32_bound _ Hd).
  pose proof (bswap16_range len). unfold words_of_u32, words_sum in *. simpl foldr in *.
  unfold in_u in *. change (2 ^ 8) with 256 in *. change (2 ^ 16) with 65536 in *.
  rewrite Z.shiftl_mul_pow2 by lia. change (2 ^ 8) with 256.
  rewrite csum_fold_twice by lia. rewrite wrap_small; [f_equal; lia|].
  unfold in_u. change (2 ^ 16) with 65536.
  pose proof (oc16_range ((sip &&& 65535) + (sip >>> 16) + ((dip &&& 65535) + (dip >>> 16))
    + proto * 256 + htons len)). lia.
Qed.

(** The pseudo-header sum cached in a socket is the RFC 1071 sum of the
    IPv4 pseudo header (addresses, protocol, layer-4 length), reduced to its
    16-bit representative. *)
Theorem csum_pseudo_ipv4_correct proto sip dip len :
  in_u 8 proto -> in_u 32 sip -> in_u 32 dip ->
  csum_pseudo_ipv4 proto sip dip len = oc16 (words_sum (pseudo_words proto sip dip len))
  /\ in_u 16 (csum_pseudo_ipv4 proto sip dip len).
Proof.
  intros Hp Hs Hd. split; [by apply csum_pseudo_ipv4_sum|].
  unfold csum_pseudo_ipv4. by apply wrap_range.
Qed.

Lemma csum_pseudo_ipv4_correct_witness :
  csum_pseudo_ipv4 6 16885952 33663168 20 = oc16 (words_sum (pseudo_words 6 16885952 33663168 20))
  /\ in_u 16 (csum_pseudo_ipv4 6 16885952 33663168 20).
Proof. apply csum_pseudo_ipv4_correct; split; try lia; reflexivity. Defined.

(** C22: [tcp_change_dip] and [udp_change_dip] patch the pseudo-header sum of a
    packet with [csum_update_u32 sum old new] when the destination address
    [old] is replaced by [new].  The result is congruent to the pseudo-header
    sum of the new destination only if the new address is itself 0 modulo
    65535: [csum_update_u32] subtracts both values, it does not replace one by
    the other. *)
Theorem csum_update_u32_not_replacement proto sip old new len :
  in_u 8 proto -> in_u 32 sip -> in_u 32 old -> in_u 32 new ->
  csum_update_u32 (csum_pseudo_ipv4 proto sip old len) old new mod 65535
    = csum_pseudo_ipv4 proto sip new len mod 65535
  <-> new mod 65535 = 0.
Proof.
  intros Hp Hs Ho Hn.
  rewrite csum_update_u32_sum; [|unfold csum_pseudo_ipv4; by apply wrap_range|done|done].
  rewrite !csum_pseudo_ipv4_sum by done. rewrite !oc16_mod.
  pose proof (oc16_mod (words_sum (pseudo_words proto sip old len))) as Hm.
  revert Hm. generalize (oc16 (words_sum (pseudo_words proto sip old len))). intros x Hm.
  unfold pseudo_words in *. rewrite !words_sum_app in *.
  pose proof (words_of_u32_sum _ Ho). pose proof (words_of_u32_sum _ Hn).
  mod65535.
Qed.

Lemma csum_update_u32_not_replacement_witness :
  ~ (csum_update_u32 (csum_pseudo_ipv4 6 16885952 33663168 20) 33663168 50440384 mod 65535
     = csum_pseudo_ipv4 6 16885952 50440384 20 mod 65535).
Proof.
  rewrite (csum_update_u32_not_replacement 6 16885952 33663168 50440384 20);
    [by vm_compute | split; try lia; reflexivity ..].
Defined.
