(* ===== verification/IpRange.v ===== *)
(** * IpRange: addresses, address ranges and address lists

    [src/ip.h], [src/ip.c], [src/ip_range.h], [src/ip_list.h] and
    [src/ip_list.c].  Addresses are kept in network byte order as in the code. *)

From S2P Require Import Prelude.

(** ** Addresses *)

(** [ipaddr_t]: 16 bytes, seen as four 32-bit words; an IPv4 address is the
    last word. *)
Record ipaddr_t := IpAddr { pad0 : Z; pad1 : Z; pad2 : Z; ip : Z }.
#[export] Instance eta_ipaddr_t : Eta ipaddr_t :=
  fun a => IpAddr (pad0 a) (pad1 a) (pad2 a) (ip a).
#[export] Instance ipaddr_t_eq_dec : EqDecision ipaddr_t.
Proof. solve_decision. Defined.

Definition ipaddr_zero : ipaddr_t := IpAddr 0 0 0 0.

Definition ipaddr_word (a : ipaddr_t) (k : Z) : Z :=
  if k =? 0 then pad0 a else if k =? 1 then pad1 a else if k =? 2 then pad2 a else ip a.

(** [a.byte[i]] on a little-endian machine. *)
Definition ipaddr_byte (a : ipaddr_t) (i : Z) : Z :=
  (ipaddr_word a (i / 4) >>> (8 * (i mod 4))) &&& 255.

Definition ipaddr_last_byte (a : ipaddr_t) : Z := ipaddr_byte a 15.

Definition ipaddr_join (prefix : ipaddr_t) (last : Z) : ipaddr_t := prefix <| ip := last |>.

Definition ipaddr_eq (a b : ipaddr_t) : bool := bool_decide (a = b).

Definition ipaddr_inc (a : ipaddr_t) (n : Z) : ipaddr_t :=
  let addr := u32 (ntohl (ip a) + n) in
  a <| ip := htonl addr |>.

(** ** Address ranges *)

Record ip_range := IpRange {
  start : ipaddr_t;
  list_ : list Z;
  valid : list Z;
  num : Z;
}.
#[export] Instance eta_ip_range : Eta ip_range :=
  fun r => IpRange (start r) (list_ r) (valid r) (num r).

(** A range of zero-initialised memory. *)
Definition ip_range_zero : ip_range :=
  IpRange ipaddr_zero (replicate 256 0) (replicate 256 0) 0.

(** [idx % num]: division by a zero [num] is a fault. *)
Definition ip_range_get (r : ip_range) (idx : Z) : option Z :=
  if num r =? 0 then None else
  let idx := u8 (idx mod num r) in
  aget (list_ r) idx.

Definition ip_range_get2 (r : ip_range) (idx : Z) : option ipaddr_t :=
  last ← ip_range_get r idx;
  Some (ipaddr_join (start r) last).

Definition ip_range_init_body (addr last_byte : Z) (i : Z) (r : ip_range) : option ip_range :=
  let t := htonl (u32 (ntohl addr + i)) in
  l ← aset (list_ r) i t;
  v ← aset (valid r) (u32 (last_byte + i)) t;
  Some (r <| list_ := l |> <| valid := v |>).

(** The outer option is the memory fault; the integer is the return code. *)
Definition ip_range_init (r : ip_range) (st : ipaddr_t) (n : Z) : option (Z * ip_range) :=
  let last_byte := ipaddr_last_byte st in
  let addr := ip st in
  if (addr =? 0) || (n <=? 0) || (255 <=? u32 (last_byte + n - 1)) then Some (-1, r)
  else
    r ← for_loop (Z.to_nat n) 0 (ip_range_init_body addr last_byte) r;
    Some (0, r <| start := st |> <| num := u8 n |>).

(** The first 14 bytes of the address and of the range's start. *)
Definition ip_range_same_prefix (r : ip_range) (addr : ipaddr_t) : bool :=
  forallb (fun i => ipaddr_byte (start r) i =? ipaddr_byte addr i)
    [0; 1; 2; 3; 4; 5; 6; 7; 8; 9; 10; 11; 12; 13].

Definition ip_range_add (r : ip_range) (addr : ipaddr_t) : option (Z * ip_range) :=
  if (num r =? 0) || (255 <=? num r) then Some (-1, r)
  else if negb (ip_range_same_prefix r addr) then Some (-1, r)
  else
    let last := ipaddr_byte addr 15 in
    if (last =? 0) || (last =? 255) then Some (-1, r)
    else
      v ← aget (valid r) last;
      if v =? 0 then
        l ← aset (list_ r) (num r) (ip addr);
        va ← aset (valid r) last (ip addr);
        Some (0, r <| list_ := l |> <| valid := va |> <| num := u8 (num r + 1) |>)
      else Some (-1, r).

Definition ip_range_exist (r : ip_range) (addr : Z) : option bool :=
  v ← aget (valid r) (ntohl addr &&& 255);
  Some (addr =? v).

Definition ip_range_exist_ipv6 (r : ip_range) (addr : ipaddr_t) : option bool :=
  if negb (bool_decide (pad0 addr = pad0 (start r)) && bool_decide (pad1 addr = pad1 (start r))
           && bool_decide (pad2 addr = pad2 (start r)))
  then Some false
  else ip_range_exist r (ip addr).

(** A group of ranges: the array of [IP_RANGE_NUM_MAX] ranges and its length. *)
Definition IP_RANGE_NUM_MAX : Z := 32.
Record ip_group := IpGroup { ip_ranges : list ip_range; group_num : Z }.
#[export] Instance eta_ip_group : Eta ip_group :=
  fun g => IpGroup (ip_ranges g) (group_num g).
Definition ip_group_zero : ip_group := IpGroup (replicate 32 ip_range_zero) 0.

(** [for_each_ip_range]: the ranges in use. *)
Definition for_each_ip_range (g : ip_group) : list ip_range :=
  take (Z.to_nat (group_num g)) (ip_ranges g).

(** ** Address lists *)

Definition IP_LIST_NUM_MAX : Z := 65536.
Definition AF_INET : Z := 2.
Definition AF_INET6 : Z := 10.

(** The used prefix of the array; [list_num] is the [num] of the code. *)
Record ip_list := IpList { list_next : Z; list_af : Z; list_ip : list ipaddr_t }.
#[export] Instance eta_ip_list : Eta ip_list :=
  fun l => IpList (list_next l) (list_af l) (list_ip l).
Definition list_num (l : ip_list) : Z := Z.of_nat (length (list_ip l)).
Definition ip_list_zero : ip_list := IpList 0 0 [].

Definition ip_list_add (l : ip_list) (af : Z) (a : ipaddr_t) : Z * ip_list :=
  if negb (af =? AF_INET) && negb (af =? AF_INET6) then (-1, l)
  else if IP_LIST_NUM_MAX <=? list_num l then (-1, l)
  else if negb (list_num l =? 0) && negb (list_af l =? af) then (-1, l)
  else
    let l := if list_num l =? 0 then l <| list_af := af |> else l in
    (0, l <| list_ip := list_ip l ++ [a] |>).

(** [for (i = start; i < num; i += step)]; the fuel is the length of the list,
    since [step >= 1]. *)
Fixpoint ip_list_split_loop (fuel : nat) (l : ip_list) (i step : Z) (sub : list ipaddr_t)
  : option (list ipaddr_t) :=
  if i <? list_num l then
    match fuel with
    | O => None
    | S fuel =>
        a ← aget (list_ip l) i;
        ip_list_split_loop fuel l (i + step) step (sub ++ [a])
    end
  else Some sub.

Definition ip_list_split (l : ip_list) (st step : Z) (sub : ip_list) : option (Z * ip_list) :=
  if (st <? 0) || (step <=? 0) then Some (-1, sub)
  else
    ips ← ip_list_split_loop (length (list_ip l)) l st step [];
    let sub := IpList 0 (list_af l) ips in
    Some (list_num sub, sub).

Definition ip_list_advance (l : ip_list) : ip_list :=
  let n := list_next l + 1 in
  l <| list_next := if list_num l <=? n then 0 else n |>.

Definition ip_list_get_next_ipv4 (l : ip_list) : option (Z * ip_list) :=
  a ← aget (list_ip l) (list_next l);
  Some (ip a, ip_list_advance l).

Definition ip_list_get_next_ipv6 (l : ip_list) : option (ipaddr_t * ip_list) :=
  a ← aget (list_ip l) (list_next l);
  Some (a, ip_list_advance l).

(** ** Well-formed ranges *)

(** The last byte of an address, as [ip_range_exist] indexes [valid]. *)
Definition last_byte_of (x : Z) : Z := ntohl x &&& 255.

Record range_wf (r : ip_range) : Prop := {
  wf_list_len : length (list_ r) = 256%nat;
  wf_valid_len : length (valid r) = 256%nat;
  wf_num : 0 < num r <= 255;
  wf_listed : forall i, 0 <= i < num r ->
    exists x, aget (list_ r) i = Some x /\ in_u 32 x /\ x ≠ 0
      /\ aget (valid r) (last_byte_of x) = Some x;
  wf_valid : forall b x, aget (valid r) b = Some x -> x ≠ 0 ->
    exists i, 0 <= i < num r /\ aget (list_ r) i = Some x;
}.

(** [x] is one of the addresses of the range. *)
Definition range_member (r : ip_range) (x : Z) : Prop :=
  exists i, 0 <= i < num r /\ aget (list_ r) i = Some x.

Lemma land_255 x : x &&& 255 = x mod 256.
Proof. change 255 with (Z.ones 8). by rewrite Z.land_ones. Qed.

Lemma last_byte_range x : 0 <= last_byte_of x < 256.
Proof. unfold last_byte_of. rewrite land_255. by apply Z.mod_pos_bound. Qed.

Lemma last_byte_of_ip a : in_u 32 (ip a) -> ipaddr_last_byte a = last_byte_of (ip a).
Proof.
  intros (b0 & b1 & b2 & b3 & H0 & H1 & H2 & H3 & E)%u32_bytes.
  change (ipaddr_last_byte a) with ((ip a >>> 24) &&& 255). unfold last_byte_of.
  rewrite E, bswap32_bytes by done. rewrite !land_255, Z.shiftr_div_pow2 by lia.
  unfold in_u in *. change (2 ^ 8) with 256 in *. change (2 ^ 24) with 16777216.
  Z.to_euclidean_division_equations. lia.
Qed.

Lemma last_byte_of_htonl x : in_u 32 x -> last_byte_of (htonl x) = x mod 256.
Proof. intros. unfold last_byte_of. by rewrite bswap32_involutive, land_255. Qed.

Lemma ntohl_nonzero x : in_u 32 x -> x ≠ 0 -> ntohl x ≠ 0.
Proof.
  intros Hx Hne H0. apply Hne. rewrite <- (bswap32_involutive x) by done. by rewrite H0.
Qed.

(** The address at position [i] of a range that starts at [addr]. *)
Definition range_nth (addr i : Z) : Z := htonl (u32 (ntohl addr + i)).

Section Init.
Context (addr : Z) (Haddr : in_u 32 addr) (Hne : addr ≠ 0).
Let last := last_byte_of addr.

Lemma range_nth_facts i : 0 <= i -> last + i < 255 ->
  in_u 32 (range_nth addr i) /\ range_nth addr i ≠ 0
  /\ last_byte_of (range_nth addr i) = last + i.
Proof.
  intros Hi Hl. unfold range_nth.
  pose proof (bswap32_range addr) as Hr. pose proof (ntohl_nonzero addr Haddr Hne).
  assert (last = ntohl addr mod 256) as El by (unfold last, last_byte_of; by rewrite land_255).
  clearbody last. subst last. unfold in_u in Hr. change (2 ^ 32) with 4294967296 in Hr.
  assert (in_u 32 (ntohl addr + i)) as Hin.
  { unfold in_u. change (2 ^ 32) with 4294967296. Z.to_euclidean_division_equations. lia. }
  rewrite wrap_small by done. split; [apply bswap32_range|]. split.
  - intros H0. apply (f_equal bswap32) in H0. rewrite bswap32_involutive in H0 by done.
    change (bswap32 0) with 0 in H0. lia.
  - rewrite last_byte_of_htonl by done. Z.to_euclidean_division_equations. lia.
Qed.

Definition init_inv (j : Z) (r : ip_range) : Prop :=
  length (list_ r) = 256%nat /\ length (valid r) = 256%nat
  /\ (forall i, 0 <= i < j -> aget (list_ r) i = Some (range_nth addr i))
  /\ (forall b, 0 <= b < 256 -> aget (valid r) b =
        Some (if (last <=? b) && (b <? last + j) then range_nth addr (b - last) else 0)).

Lemma init_inv_step n j r : 0 <= j < n -> last + n - 1 < 255 -> init_inv j r ->
  exists r', ip_range_init_body addr last j r = Some r' /\ init_inv (j + 1) r'.
Proof.
  intros Hj Hn (L1 & L2 & HL & HV). unfold ip_range_init_body.
  pose proof (last_byte_range addr) as Hlb. fold last in Hlb.
  rewrite (wrap_small 32 (last + j)) by (unfold in_u; change (2 ^ 32) with 4294967296; lia).
  fold (range_nth addr j).
  rewrite !aset_some by (rewrite ?L1, ?L2; lia). simpl.
  eexists; split; [done|]. unfold init_inv. rsimpl. rewrite !length_insert.
  split; [done|]. split; [done|].
  assert (forall a i k (v : Z), 0 <= i < Z.of_nat (length a) ->
    aget (<[Z.to_nat i:=v]> a) k = if decide (i = k) then Some v else aget a k) as HU.
  { intros. apply aget_aset. by apply aset_some. }
  split.
  - intros i Hi. rewrite HU by lia. case_decide; [by subst|]. apply HL. lia.
  - intros b Hb. rewrite HU by lia. rewrite HV by done. case_decide; subst.
    + replace (last + j - last) with j by lia.
      destruct (Z.leb_spec last (last + j)), (Z.ltb_spec (last + j) (last + (j + 1))); try lia. done.
    + f_equal. destruct (Z.leb_spec last b), (Z.ltb_spec b (last + j)), (Z.ltb_spec b (last + (j + 1)));
        simpl; try done; lia.
Qed.
End Init.

Lemma init_inv_zero addr : init_inv addr 0 ip_range_zero.
Proof.
  split; [done|]. split; [done|]. split; [lia|]. intros b Hb.
  destruct (Z.leb_spec (last_byte_of addr) b), (Z.ltb_spec b (last_byte_of addr + 0)); simpl; try lia.
  all: unfold aget; destruct (Z.leb_spec 0 b); [|lia]; unfold ip_range_zero; simpl;
    apply (lookup_replicate_2 256); lia.
Qed.

(** Accepted parameters give a well-formed range. *)
Lemma ip_range_init_accepted st n :
  in_u 32 (ip st) -> ip st ≠ 0 -> 0 < n -> last_byte_of (ip st) + n - 1 < 255 ->
  exists r, ip_range_init ip_range_zero st n = Some (0, r)
    /\ range_wf r /\ num r = n /\ start r = st
    /\ forall i, 0 <= i < n -> ip_range_get r i = Some (range_nth (ip st) i).
Proof.
  intros Hst Hne Hn Hlt. pose proof (last_byte_range (ip st)) as Hl.
  unfold ip_range_init. rewrite last_byte_of_ip by done.
  rewrite (wrap_small 32) by (unfold in_u; change (2 ^ 32) with 4294967296; lia).
  destruct (Z.eqb_spec (ip st) 0), (Z.leb_spec n 0),
    (Z.leb_spec 255 (last_byte_of (ip st) + n - 1)); try lia. cbn [orb].
  destruct (for_loop_inv (init_inv (ip st)) (Z.to_nat n) 0
    (ip_range_init_body (ip st) (last_byte_of (ip st))) ip_range_zero) as (r & Hr & Hi).
  { apply init_inv_zero. }
  { intros j x Hj Hx. apply (init_inv_step _ n); [lia|lia|done]. }
  rewrite Hr. simpl. eexists. split; [done|].
  replace (0 + Z.of_nat (Z.to_nat n)) with n in Hi by lia.
  destruct Hi as (L1 & L2 & HL & HV).
  assert (u8 n = n) as En by (apply wrap_small; unfold in_u; change (2 ^ 8) with 256; lia).
  assert (forall i, 0 <= i < n -> in_u 32 (range_nth (ip st) i) /\ range_nth (ip st) i ≠ 0
    /\ last_byte_of (range_nth (ip st) i) = last_byte_of (ip st) + i) as Hf.
  { intros. apply range_nth_facts; [done|done|lia|lia]. }
  split; [|split; [rsimpl; done|split; [rsimpl; done|]]].
  - split; rsimpl; rewrite ?En; [done|done|lia|..].
    + intros i Hi. destruct (Hf i Hi) as (F1 & F2 & F3).
      exists (range_nth (ip st) i). split; [by apply HL|]. split; [done|]. split; [done|].
      rewrite F3, HV by lia.
      destruct (Z.leb_spec (last_byte_of (ip st)) (last_byte_of (ip st) + i)),
        (Z.ltb_spec (last_byte_of (ip st) + i) (last_byte_of (ip st) + n)); try lia. simpl.
      f_equal. f_equal. lia.
    + intros b x Hx Hxne. pose proof (aget_range _ _ _ Hx). rewrite HV in Hx by lia.
      destruct (Z.leb_spec (last_byte_of (ip st)) b),
        (Z.ltb_spec b (last_byte_of (ip st) + n)); simpl in Hx; try congruence.
      exists (b - last_byte_of (ip st)). split; [lia|]. rewrite HL by lia. congruence.
  - intros i Hi. unfold ip_range_get. rsimpl. rewrite En.
    destruct (Z.eqb_spec n 0); [lia|]. rewrite Z.mod_small by lia.
    rewrite wrap_small by (unfold in_u; change (2 ^ 8) with 256; lia). by apply HL.
Qed.

Lemma ip_range_init_cases st n :
  in_u 32 (ip st) -> n < 2 ^ 31 ->
  (ip_range_init ip_range_zero st n = Some (-1, ip_range_zero)
   /\ (ip st = 0 \/ n <= 0 \/ 255 <= last_byte_of (ip st) + n - 1))
  \/ (exists r, ip_range_init ip_range_zero st n = Some (0, r)
      /\ range_wf r /\ num r = n /\ start r = st
      /\ forall i, 0 <= i < n -> ip_range_get r i = Some (range_nth (ip st) i)).
Proof.
  intros Hst Hn. change (2 ^ 31) with 2147483648 in Hn.
  pose proof (last_byte_range (ip st)) as Hl.
  destruct (decide (ip st ≠ 0 /\ 0 < n /\ last_byte_of (ip st) + n - 1 < 255)) as [(?&?&?)|Hno].
  { right. by apply ip_range_init_accepted. }
  left. unfold ip_range_init. rewrite last_byte_of_ip by done. split; [|lia].
  destruct (Z.eqb_spec (ip st) 0); [done|]. destruct (Z.leb_spec n 0); [done|].
  rewrite (wrap_small 32) by (unfold in_u; change (2 ^ 32) with 4294967296; lia).
  destruct (Z.leb_spec 255 (last_byte_of (ip st) + n - 1)); [done|lia].
Qed.



Lemma ip_range_add_cases r a :
  range_wf r -> in_u 32 (ip a) ->
  exists rc r', ip_range_add r a = Some (rc, r') /\ range_wf r' /\
    ((rc = -1 /\ r' = r) \/
     (rc = 0 /\ num r' = num r + 1 /\ last_byte_of (ip a) ≠ 255 /\ forall x, range_member r' x <-> range_member r x \/ x = ip a)).
Proof.
  intros [L1 L2 Hn HL HV] Ha. unfold ip_range_add.
  assert (exists rc r', Some (-1, r) = Some (rc, r') /\ range_wf r' /\
    ((rc = -1 /\ r' = r) \/ (rc = 0 /\ num r' = num r + 1 /\ last_byte_of (ip a) ≠ 255 /\
      forall x, range_member r' x <-> range_member r x \/ x = ip a))) as Hrej.
  { exists (-1), r. split; [done|]. split; [by split|]. by left. }
  destruct (Z.eqb_spec (num r) 0); [lia|]. destruct (Z.leb_spec 255 (num r)); [done|]. cbn [orb].
  case_match; [done|].
  fold (ipaddr_last_byte a). rewrite last_byte_of_ip by done.
  pose proof (last_byte_range (ip a)) as Hb.
  destruct (Z.eqb_spec (last_byte_of (ip a)) 0) as [|Hb0]; [done|].
  destruct (Z.eqb_spec (last_byte_of (ip a)) 255); [done|]. cbn [orb].
  destruct (aget_some (valid r) (last_byte_of (ip a))) as [v Hv]; [lia|]. rewrite Hv. cbn.
  destruct (Z.eqb_spec v 0) as [->|]; [|done].
  assert (ip a ≠ 0) as Hne by (intros E; rewrite E in Hb0; done).
  destruct (aset (list_ r) (num r) (ip a)) as [l'|] eqn:El; [|rewrite aset_some in El by lia; done].
  destruct (aset (valid r) (last_byte_of (ip a)) (ip a)) as [va'|] eqn:Ev;
    [|rewrite aset_some in Ev by lia; done].
  cbn. eexists _, _. split; [done|].
  assert (u8 (num r + 1) = num r + 1) as En
    by (apply wrap_small; unfold in_u; change (2 ^ 8) with 256; lia).
  pose proof (aget_aset _ _ _ (num r) _ El) as Hnew. rewrite decide_True in Hnew by done.
  assert (forall i, 0 <= i < num r -> aget l' i = aget (list_ r) i) as Hold.
  { intros i Hi. rewrite (aget_aset _ _ _ _ _ El), decide_False; [done|lia]. }
  assert (aget va' (last_byte_of (ip a)) = Some (ip a)) as Hva
    by by rewrite (aget_aset _ _ _ _ _ Ev), decide_True.
  split; [|right; split; [done|]; split; [by rsimpl|split; [done|]]].
  - split; rsimpl; rewrite ?En; [by rewrite (aset_length _ _ _ _ El)|
      by rewrite (aset_length _ _ _ _ Ev)|lia|..].
    + intros i Hi. destruct (decide (i = num r)) as [->|]; [by exists (ip a)|].
      destruct (HL i) as (x & Hx & ? & Hx0 & Hxv); [lia|]. exists x.
      rewrite Hold by lia. split; [done|]. split; [done|]. split; [done|].
      rewrite (aget_aset _ _ _ _ _ Ev). case_decide as Heq; [|done].
      rewrite <- Heq, Hv in Hxv. congruence.
    + intros b x Hx Hx0. rewrite (aget_aset _ _ _ _ _ Ev) in Hx. case_decide.
      * exists (num r). split; [lia|]. congruence.
      * destruct (HV b x) as (i & Hi & Hxi); [done..|]. exists i. rewrite Hold by lia. split; [lia|done].
  - intros x. unfold range_member. rsimpl. rewrite En. split.
    + intros (i & Hi & Hx). destruct (decide (i = num r)) as [->|]; [right; congruence|].
      left. exists i. rewrite <- Hold by lia. split; [lia|done].
    + intros [(i & Hi & Hx)| ->]; [exists i; rewrite Hold by lia; split; [lia|done]|].
      exists (num r). split; [lia|done].
Qed.

(** Adding an address keeps a range well formed, refuses duplicates,
    full ranges and broadcast addresses without changing the range, and
    otherwise adds exactly that address. *)
Theorem ip_range_add_correct r a :
  range_wf r -> in_u 32 (ip a) ->
  exists rc r', ip_range_add r a = Some (rc, r') /\ range_wf r' /\
    ((rc = -1 /\ r' = r) \/
     (rc = 0 /\ num r' = num r + 1 /\ forall x, range_member r' x <-> range_member r x \/ x = ip a)).
Proof.
  intros Hr Ha. destruct (ip_range_add_cases r a Hr Ha) as (rc & r' & E & Hwf & [H|(H1 & H2 & _ & H3)]); exists rc, r'.
  - split; [exact E|]. split; [exact Hwf|by left].
  - split; [exact E|]. split; [exact Hwf|right]. by split_and!.
Qed.

Lemma ip_range_exist_iff r x :
  range_wf r -> x ≠ 0 ->
  exists b, ip_range_exist r x = Some b /\ (b = true <-> range_member r x).
Proof.
  intros [L1 L2 Hn HL HV] Hx. unfold ip_range_exist. fold (last_byte_of x).
  pose proof (last_byte_range x) as Hb.
  destruct (aget_some (valid r) (last_byte_of x)) as [v Hv]; [lia|]. rewrite Hv. cbn.
  eexists. split; [done|]. split.
  - intros Heq. bool_facts. subst v. by apply (HV _ _ Hv).
  - intros (i & Hi & Hxi). destruct (HL i) as (y & Hy & _ & _ & Hyv); [done|].
    rewrite Hxi in Hy. injection Hy as <-. rewrite Hv in Hyv. injection Hyv as ->. apply Z.eqb_refl.
Qed.

(** The membership test answers exactly whether a non-zero address is one
    of the range's addresses. *)
Theorem ip_range_exist_member r x :
  range_wf r -> x ≠ 0 ->
  exists b, ip_range_exist r x = Some b /\ (b = true <-> range_member r x).
Proof. apply ip_range_exist_iff. Qed.

(** A concrete range of three addresses, 192.168.1.1 to 192.168.1.3. *)
Definition example_start : ipaddr_t := IpAddr 0 0 0 (htonl 3232235777).
Definition example_range : ip_range :=
  match ip_range_init ip_range_zero example_start 3 with Some (_, r) => r | None => ip_range_zero end.

Lemma example_range_wf : range_wf example_range.
Proof.
  destruct (ip_range_init_accepted example_start 3) as (r & Hr & Hwf & _).
  1-4: vm_compute; intuition discriminate.
  unfold example_range. by rewrite Hr.
Qed.

Lemma ip_range_add_correct_witness :
  exists rc r', ip_range_add example_range (IpAddr 0 0 0 (htonl 3232235780)) = Some (rc, r')
    /\ range_wf r' /\
    ((rc = -1 /\ r' = example_range) \/
     (rc = 0 /\ num r' = num example_range + 1 /\
      forall x, range_member r' x <-> range_member example_range x \/ x = htonl 3232235780)).
Proof.
  apply (ip_range_add_correct example_range (IpAddr 0 0 0 (htonl 3232235780)));
    [apply example_range_wf | concrete_range].
Defined.

Lemma ip_range_exist_member_witness :
  exists b, ip_range_exist example_range (htonl 3232235778) = Some b
    /\ (b = true <-> range_member example_range (htonl 3232235778)).
Proof. apply ip_range_exist_member; [apply example_range_wf | vm_compute; discriminate]. Defined.

(** ** Address lists *)

Lemma split_loop_spec l k step fuel i sub :
  0 <= i -> 0 < step -> list_num l - i <= Z.of_nat fuel * step ->
  i = k + Z.of_nat (length sub) * step ->
  (forall j, (j < length sub)%nat -> sub !! j = aget (list_ip l) (k + Z.of_nat j * step)) ->
  exists sub', ip_list_split_loop fuel l i step sub = Some sub' /\
    forall j, sub' !! j = aget (list_ip l) (k + Z.of_nat j * step).
Proof.
  revert i sub. induction fuel as [|fuel IH]; intros i sub Hi Hs Hf Hk Hsub; simpl.
  all: destruct (Z.ltb_spec i (list_num l)) as [Hlt|Hge]; [|exists sub; split; [done|]; intros j;
    destruct (decide (j < length sub)%nat) as [|Hj]; [by apply Hsub|];
    rewrite lookup_ge_None_2 by lia; symmetry;
    destruct (aget (list_ip l) (k + Z.of_nat j * step)) as [a|] eqn:E; [|done];
    apply aget_range in E; unfold list_num in *; nia].
  - lia.
  - destruct (aget_some (list_ip l) i) as [a Ha]; [unfold list_num in *; lia|]. rewrite Ha. simpl.
    apply IH; [lia|done|nia|rewrite length_app; simpl; nia|].
    rewrite length_app. simpl. intros j Hj. destruct (decide (j < length sub)%nat).
    + rewrite lookup_app_l by done. by apply Hsub.
    + assert (j = length sub) as -> by lia. rewrite lookup_app_r, Nat.sub_diag by lia.
      simpl. by rewrite <- Hk, Ha.
Qed.

Lemma ip_list_split_some l k step sub :
  0 <= k -> 0 < step ->
  exists sub', ip_list_split l k step sub = Some (list_num sub', sub')
    /\ list_next sub' = 0 /\ list_af sub' = list_af l
    /\ forall j, list_ip sub' !! j = aget (list_ip l) (k + Z.of_nat j * step).
Proof.
  intros Hk Hs. unfold ip_list_split.
  destruct (Z.ltb_spec k 0), (Z.leb_spec step 0); try lia. cbn [orb].
  destruct (Z.ltb_spec k (list_num l)) as [Hlt|Hge].
  - destruct (split_loop_spec l k step (length (list_ip l)) k []) as (s & -> & Hs').
    + lia.
    + done.
    + unfold list_num. nia.
    + simpl; lia.
    + simpl; lia.
    + by eexists.
  - exists (IpList 0 (list_af l) []).
    assert (ip_list_split_loop (length (list_ip l)) l k step [] = Some []) as ->.
    { destruct (length (list_ip l)); simpl; destruct (Z.ltb_spec k (list_num l)); try lia; done. }
    split; [done|]. split; [done|]. split; [done|]. intros j. simpl. symmetry.
    destruct (aget _ _) eqn:E; [|done]. apply aget_range in E. unfold list_num in *. nia.
Qed.

(** Splitting a list gives worker [k] of [step] exactly the addresses at
    the positions [k], [k + step], [k + 2 step], ..., in order: with
    [k] in [0, step) the sublists partition the list. *)
Theorem ip_list_split_spec l k step sub :
  0 <= k -> 0 < step ->
  exists sub', ip_list_split l k step sub = Some (list_num sub', sub')
    /\ list_next sub' = 0 /\ list_af sub' = list_af l
    /\ forall j, list_ip sub' !! j = aget (list_ip l) (k + Z.of_nat j * step).
Proof. apply ip_list_split_some. Qed.

Lemma ip_list_split_spec_witness :
  exists sub', ip_list_split (IpList 0 AF_INET [example_start; ipaddr_zero; example_start]) 1 2
      ip_list_zero = Some (list_num sub', sub')
    /\ list_next sub' = 0 /\ list_af sub' = AF_INET
    /\ forall j, list_ip sub' !! j
        = aget [example_start; ipaddr_zero; example_start] (1 + Z.of_nat j * 2).
Proof.
  apply (ip_list_split_spec (IpList 0 AF_INET [example_start; ipaddr_zero; example_start]) 1 2);
    lia.
Defined.

(** [n] successive calls of [ip_list_get_next_ipv4]. *)
Fixpoint ip_list_take (n : nat) (l : ip_list) : option (list Z * ip_list) :=
  match n with
  | O => Some ([], l)
  | S n =>
      '(x, l) ← ip_list_get_next_ipv4 l;
      '(xs, l) ← ip_list_take n l;
      Some (x :: xs, l)
  end.

Lemma get_next_mod l :
  0 <= list_next l < list_num l ->
  exists a, aget (list_ip l) (list_next l) = Some a
    /\ ip_list_get_next_ipv4 l = Some (ip a, ip_list_advance l)
    /\ list_ip (ip_list_advance l) = list_ip l
    /\ list_next (ip_list_advance l) = (list_next l + 1) mod list_num l.
Proof.
  intros Hn. destruct (aget_some (list_ip l) (list_next l)) as [a Ha]; [unfold list_num in *; lia|].
  exists a. split; [done|]. unfold ip_list_get_next_ipv4. rewrite Ha. split; [done|].
  unfold ip_list_advance. split; [by rsimpl|]. rsimpl.
  destruct (Z.leb_spec (list_num l) (list_next l + 1)).
  - replace (list_next l + 1) with (list_num l) by lia. rewrite Z.mod_same; lia.
  - rewrite Z.mod_small; lia.
Qed.

(** The addresses of a list are used round robin: the [j]-th call returns
    the address at position [next + j] modulo the length, without ever reading
    outside the array. *)
Theorem ip_list_round_robin n l :
  0 <= list_next l < list_num l ->
  exists xs l', ip_list_take n l = Some (xs, l')
    /\ list_ip l' = list_ip l /\ length xs = n
    /\ forall j, (j < n)%nat ->
        xs !! j = ip <$> aget (list_ip l) ((list_next l + Z.of_nat j) mod list_num l).
Proof.
  revert l. induction n as [|n IH]; intros l Hl.
  { exists [], l. split; [done|]. split; [done|]. split; [done|lia]. }
  destruct (get_next_mod l Hl) as (a & Ha & Hget & Hip & Hnext).
  assert (list_num (ip_list_advance l) = list_num l) as En by (unfold list_num; by rewrite Hip).
  destruct (IH (ip_list_advance l)) as (xs & l' & Ht & Hl' & Hlen & Hxs).
  { rewrite En, Hnext. apply Z.mod_pos_bound. lia. }
  exists (ip a :: xs), l'. simpl. rewrite Hget. simpl. rewrite Ht. split; [done|].
  split; [by rewrite Hl'|]. split; [by rewrite Hlen|]. intros [|j] Hj.
  - simpl. rewrite Z.add_0_r, Z.mod_small by done. by rewrite Ha.
  - simpl. rewrite Hxs by lia. rewrite Hip, En, Hnext, Zplus_mod_idemp_l. do 3 f_equal. lia.
Qed.

Lemma ip_list_round_robin_witness :
  exists xs l', ip_list_take 5 (IpList 1 AF_INET [example_start; ipaddr_zero]) = Some (xs, l')
    /\ list_ip l' = [example_start; ipaddr_zero] /\ length xs = 5%nat
    /\ forall j, (j < 5)%nat ->
        xs !! j = ip <$> aget [example_start; ipaddr_zero] ((1 + Z.of_nat j) mod 2).
Proof. apply (ip_list_round_robin 5 (IpList 1 AF_INET [example_start; ipaddr_zero])). vm_compute. intuition discriminate. Defined.
