(* ===== verification/Tick.v ===== *)
(** * Tick: clocks and CPU load

    [src/tick.h], [src/tick.c], [src/cpuload.h] and [src/cpuload.c]: the
    conversion of the time-stamp counter (TSC) into ticks, and the CPU usage
    that a worker reports every second.  Readings of the hardware clock are
    arguments. *)

From S2P Require Import Prelude.

(** ** Clocks *)

Record tsc_time := TscTime { last : Z; count : Z; interval : Z }.
#[export] Instance eta_tsc_time : Eta tsc_time :=
  fun t => TscTime (last t) (count t) (interval t).

Record tick_time := TickTime { tsc : Z; tick : tsc_time; ms100 : tsc_time; second : tsc_time }.
#[export] Instance eta_tick_time : Eta tick_time :=
  fun t => TickTime (tsc t) (tick t) (ms100 t) (second t).

Definition TICKS_PER_SEC_DEFAULT : Z := 10 * 1000.

(** The loop of [tsc_time_go]; [None] is a loop that is still running. *)
Fixpoint tsc_time_loop (fuel : nat) (tt : tsc_time) (tsc_now n : Z) : option (Z * tsc_time) :=
  if u64 (last tt + interval tt) <=? tsc_now then
    match fuel with
    | O => None
    | S fuel =>
        let tt := tt <| count ::= fun c => u64 (c + 1) |> in
        let tt := tt <| last := u64 (last tt + interval tt) |> in
        tsc_time_loop fuel tt tsc_now (u64 (n + 1))
    end
  else Some (n, tt).

Definition tsc_time_fuel (tt : tsc_time) (tsc_now : Z) : nat :=
  Z.to_nat ((tsc_now - last tt) / interval tt).

Definition tsc_time_go (tt : tsc_time) (tsc_now : Z) : option (Z * tsc_time) :=
  tsc_time_loop (tsc_time_fuel tt tsc_now) tt tsc_now 0.

Definition tick_time_update (tt : tick_time) (rdtsc : Z) : tick_time := tt <| tsc := rdtsc |>.

(** [struct timeval] in seconds and microseconds. *)
Record timeval := TimeVal { tv_sec : Z; tv_usec : Z }.

(** The readings of [gettimeofday] that the polling loop makes, in order; the
    result is [None] while the loop still polls. *)
Fixpoint tick_wait_one_second (last_tv : timeval) (readings : list timeval)
  : option (Z * timeval * list timeval) :=
  match readings with
  | [] => None
  | tv :: readings =>
      let us := u64 ((tv_sec tv - tv_sec last_tv) * 1000 * 1000 + tv_usec tv - tv_usec last_tv) in
      if 1000 * 1000 <=? us then Some (us, tv, readings)
      else tick_wait_one_second last_tv readings
  end.

(** [tick_get_hz] averages the four differences of its five TSC readings. *)
Fixpoint tick_get_hz_loop (last_tsc total : Z) (readings : list Z) : Z :=
  match readings with
  | [] => total
  | tsc :: readings => tick_get_hz_loop tsc (u64 (total + u64 (tsc - last_tsc))) readings
  end.

Definition tick_get_hz (first t1 t2 t3 t4 : Z) : Z :=
  tick_get_hz_loop first 0 [t1; t2; t3; t4] / 4.

(** [g_tsc_per_tick] and [g_tsc_per_second]. *)
Record tick_globals := TickGlobals { g_tsc_per_tick : Z; g_tsc_per_second : Z }.

Definition tick_init (ticks_per_sec hz : Z) : tick_globals :=
  let ticks_per_sec := if ticks_per_sec =? 0 then TICKS_PER_SEC_DEFAULT else ticks_per_sec in
  TickGlobals (hz / u64 ticks_per_sec) hz.

Definition tsc_time_init (now intv : Z) : tsc_time := TscTime now 0 intv.

Definition tick_time_init (g : tick_globals) (now : Z) : tick_time :=
  TickTime 0 (tsc_time_init now (g_tsc_per_tick g))
    (tsc_time_init now (g_tsc_per_second g / 10)) (tsc_time_init now (g_tsc_per_second g)).

(** ** CPU load *)

Record cpuload := CpuLoad { init_tsc : Z; start_tsc : Z; work_tsc : Z }.
#[export] Instance eta_cpuload : Eta cpuload :=
  fun l => CpuLoad (init_tsc l) (start_tsc l) (work_tsc l).

(** The macro also resets the caller's [work] flag, which is the second
    result. *)
Definition CPULOAD_ADD_TSC (load : cpuload) (now_tsc work : Z) : cpuload * Z :=
  let load := if negb (work =? 0)
              then load <| work_tsc := u64 (work_tsc load + u64 (now_tsc - start_tsc load)) |>
              else load in
  (load <| start_tsc := now_tsc |>, 0).

(** [None] is the division by zero. *)
Definition cpuload_cal_cpusage (load : cpuload) (now_tsc : Z) : option (Z * cpuload) :=
  let total := u64 (now_tsc - init_tsc load) in
  let work := work_tsc load in
  usage ← (if work <=? total then
             let work := work / 128 in
             let total := total / 128 in
             if total =? 0 then None else Some (u32 (u64 (work * 100) / total))
           else Some 100);
  Some (usage, CpuLoad now_tsc now_tsc 0).

Definition cpuload_init (rdtsc : Z) : cpuload := CpuLoad rdtsc rdtsc 0.

(** ** Properties *)

Lemma tsc_time_loop_spec fuel tt now n :
  0 < interval tt -> 0 <= last tt -> last tt <= now -> now + interval tt < 2 ^ 64 ->
  0 <= n -> 0 <= count tt -> n + (now - last tt) < 2 ^ 64 ->
  (now - last tt) / interval tt <= Z.of_nat fuel ->
  tsc_time_loop fuel tt now n
  = Some (n + (now - last tt) / interval tt,
          TscTime (last tt + (now - last tt) / interval tt * interval tt)
                  (match (now - last tt) / interval tt with
                   | 0 => count tt | q => u64 (count tt + q) end) (interval tt)).
Proof.
  revert tt n. induction fuel as [|fuel IH]; intros [l c iv] n; simpl; intros.
  all: rewrite (wrap_small 64 (l + iv)) by (unfold in_u; lia).
  all: destruct (Z.leb_spec (l + iv) now).
  - assert (1 <= (now - l) / iv) by (apply Z.div_le_lower_bound; lia). lia.
  - rewrite Z.div_small by lia. do 2 f_equal; [lia|f_equal; lia].
  - assert ((now - l) / iv = (now - (l + iv)) / iv + 1) as Ed.
    { replace (now - l) with (now - (l + iv) + 1 * iv) by lia. by rewrite Z.div_add by lia. }
    assert (0 <= (now - (l + iv)) / iv) by (apply Z.div_pos; lia).
    cbv [set_field]. simpl.
    rewrite (wrap_small 64 (n + 1)) by (unfold in_u; lia).
    assert (0 <= u64 (c + 1)) by (pose proof (wrap_range 64 (c + 1) ltac:(lia)) as [? _]; done).
    rewrite IH by (simpl; lia). cbn [last count interval]. rewrite Ed.
    f_equal. f_equal; [lia|]. f_equal; [lia|].
    destruct ((now - (l + iv)) / iv) eqn:Eq; [by simpl| |lia].
    rewrite wrap_add_l. destruct (Z.pos p + 1) eqn:Ep; [lia| |lia]. f_equal. lia.
  - rewrite Z.div_small by lia. do 2 f_equal; [lia|f_equal; lia].
Qed.

(** For a positive interval the loop terminates and counts the whole
    intervals that have elapsed: afterwards less than one interval is left and
    the reference point has moved by exactly that many intervals. *)
Theorem tsc_time_go_counts tt now :
  0 < interval tt -> 0 <= last tt <= now -> now + interval tt < 2 ^ 64 -> 0 <= count tt ->
  exists n tt', tsc_time_go tt now = Some (n, tt')
    /\ n = (now - last tt) / interval tt
    /\ last tt' = last tt + n * interval tt /\ last tt' <= now < last tt' + interval tt
    /\ interval tt' = interval tt /\ (0 < n -> count tt' = u64 (count tt + n)).
Proof.
  intros Hi Hl Hn Hc. unfold tsc_time_go, tsc_time_fuel.
  assert (0 <= (now - last tt) / interval tt) by (apply Z.div_pos; lia).
  rewrite tsc_time_loop_spec by lia. eexists _, _. split; [done|]. simpl.
  split; [done|]. split; [done|].
  pose proof (Z.div_mod (now - last tt) (interval tt) ltac:(lia)).
  pose proof (Z.mod_pos_bound (now - last tt) (interval tt) ltac:(lia)).
  split; [nia|]. split; [done|]. intros. destruct ((now - last tt) / interval tt); [lia|done|lia].
Qed.

Lemma tsc_time_go_counts_witness :
  exists n tt', tsc_time_go (TscTime 1000 7 300) 2000 = Some (n, tt')
    /\ n = (2000 - 1000) / 300
    /\ last tt' = 1000 + n * 300 /\ last tt' <= 2000 < last tt' + 300
    /\ interval tt' = 300 /\ (0 < n -> count tt' = u64 (7 + n)).
Proof. apply (tsc_time_go_counts (TscTime 1000 7 300) 2000); simpl; lia. Defined.

(** With a zero interval (a tick rate above the TSC frequency) the loop
    never ends once the clock has reached the reference point. *)
Theorem tsc_time_zero_interval_diverges fuel l c now n :
  0 <= l <= now -> now < 2 ^ 64 -> tsc_time_loop fuel (TscTime l c 0) now n = None.
Proof.
  revert c n. induction fuel as [|fuel IH]; intros c n Hl Hn; simpl.
  all: rewrite Z.add_0_r, (wrap_small 64 l) by (unfold in_u; lia).
  all: destruct (Z.leb_spec l now); [|lia].
  { done. }
  apply (IH (u64 (c + 1))); done.
Qed.

Lemma tsc_time_zero_interval_diverges_witness :
  tsc_time_loop 50 (TscTime 10 0 0) 20 0 = None.
Proof. apply (tsc_time_zero_interval_diverges 50 10 0 20 0); lia. Defined.

(** The reported CPU usage is a percentage whenever at least 128 cycles
    have elapsed since the last report, or the work exceeds them; otherwise
    the division by zero is reached. *)
Theorem cpuload_usage_percent load now :
  in_u 64 (work_tsc load) ->
  if bool_decide (work_tsc load <= u64 (now - init_tsc load) < 128)
  then cpuload_cal_cpusage load now = None
  else exists u, cpuload_cal_cpusage load now = Some (u, cpuload_init now) /\ 0 <= u <= 100.
Proof.
  intros [Hw0 Hw]. unfold cpuload_cal_cpusage.
  pose proof (wrap_range 64 (now - init_tsc load) ltac:(lia)) as [Ht0 Ht].
  set (t := u64 (now - init_tsc load)) in *. set (w := work_tsc load) in *.
  change (2 ^ 64) with 18446744073709551616 in *.
  case_bool_decide as Hd.
  - destruct (Z.leb_spec w t); [|lia]. rewrite (Z.div_small t) by lia. done.
  - destruct (Z.leb_spec w t); [|by exists 100].
    assert (1 <= t / 128) by (apply Z.div_le_lower_bound; lia).
    destruct (Z.eqb_spec (t / 128) 0); [lia|].
    assert (0 <= w / 128 <= t / 128) by (split; [by apply Z.div_pos|by apply Z.div_le_mono]).
    assert (t / 128 < 144115188075855872) by (apply Z.div_lt_upper_bound; lia).
    rewrite (wrap_small 64 (w / 128 * 100)) by (unfold in_u; change (2 ^ 64) with 18446744073709551616; lia).
    assert (0 <= w / 128 * 100 / (t / 128) <= 100).
    { split; [apply Z.div_pos; lia|]. apply Z.div_le_upper_bound; lia. }
    rewrite wrap_small by (unfold in_u; change (2 ^ 32) with 4294967296; lia).
    eexists. split; [done|]. lia.
Qed.

Lemma cpuload_usage_percent_witness :
  exists u, cpuload_cal_cpusage (CpuLoad 1000 1500 4000) 9000 = Some (u, cpuload_init 9000)
    /\ 0 <= u <= 100.
Proof. apply (cpuload_usage_percent (CpuLoad 1000 1500 4000) 9000). concrete_range. Defined.
