(* ===== verification/Config.v ===== *)
(** * Config: the configuration record and the values derived from it

    [struct config] of [src/config.h], [struct netif_port] of [src/port.h],
    [struct vxlan] of [src/vxlan.h] and the functions at the end of
    [src/config.c] that other components call.  Flags are booleans, C integers
    are [Z], pointers to address ranges that never change after start-up are
    kept by value. *)

From S2P Require Import Prelude IpRange Tick.

(** ** Constants *)

Definition THREAD_NUM_MAX : Z := 64.
Definition NETIF_PORT_MAX : Z := 32.
Definition NB_RXD : Z := 4096.
Definition RX_BURST_MAX : Z := NB_RXD.
Definition TX_QUEUE_SIZE : Z := 4096.
Definition NETWORK_PORT_NUM : Z := 65536.
Definition TCP_WIN : Z := 1460 * 40.
Definition DEFAULT_LAUNCH_MAX : Z := 10.
Definition DEFAULT_LAUNCH_MIN : Z := 4.
Definition DEFAULT_LAUNCH : Z := 4.
Definition DEFAULT_TTL : Z := 64.
Definition ND_TTL : Z := 255.
Definition SEND_WINDOW_MAX : Z := 16.
Definition HTTP_METH_GET : Z := 0.
Definition HTTP_METH_POST : Z := 1.
Definition TCP_ACK_DELAY_MAX : Z := 1024.
Definition MBUF_DATA_SIZE : Z := 10240.
Definition DEFAULT_WSCALE : Z := 13.
Definition FLOW_NONE : Z := 0.
Definition FLOW_FDIR : Z := 1.
Definition FLOW_RSS : Z := 2.
Definition IPPROTO_ICMP : Z := 1.
Definition IPPROTO_TCP : Z := 6.
Definition IPPROTO_UDP : Z := 17.
Definition IPPROTO_ICMPV6 : Z := 58.
Definition IPPROTO_DSTOPTS : Z := 60.

(** ** Data *)

(** [struct eth_addr]: six bytes. *)
Abbreviation eth_addr := (list Z) (only parsing).
Definition eth_addr_zero : eth_addr := [0; 0; 0; 0; 0; 0].

Record vxlan := Vxlan {
  vx_vni : Z;
  vx_inner_smac : eth_addr;
  vx_inner_dmac : eth_addr;
  vx_vtep_local : ip_range;
  vx_vtep_remote : ip_range;
}.
#[export] Instance eta_vxlan : Eta vxlan := fun v =>
  Vxlan (vx_vni v) (vx_inner_smac v) (vx_inner_dmac v) (vx_vtep_local v) (vx_vtep_remote v).

Record netif_port := NetifPort {
  np_id : Z;
  np_queue_num : Z;
  np_socket : Z;
  np_enable : bool;
  np_ipv6 : bool;
  np_local_ip : ipaddr_t;
  np_gateway_ip : ipaddr_t;
  np_gateway_mac : eth_addr;
  np_local_mac : eth_addr;
  np_mbuf_pool : list Z;
  np_local_ip_range : ip_range;
  np_client_ip_range : ip_range;
  np_server_ip_range : ip_range;
  np_virtio_user_id : Z;
  np_kni_mbuf_queue : bool;
  np_vxlan : option vxlan;
  np_bond : bool;
  np_bond_mode : Z;
  np_bond_policy : Z;
  np_pci_num : Z;
  np_port_id_list : list Z;
  np_bond_name : list Z;
  np_pci_list : list (list Z);
}.
#[export] Instance eta_netif_port : Eta netif_port := fun p =>
  NetifPort (np_id p) (np_queue_num p) (np_socket p) (np_enable p) (np_ipv6 p) (np_local_ip p)
    (np_gateway_ip p) (np_gateway_mac p) (np_local_mac p) (np_mbuf_pool p) (np_local_ip_range p)
    (np_client_ip_range p) (np_server_ip_range p) (np_virtio_user_id p) (np_kni_mbuf_queue p)
    (np_vxlan p) (np_bond p) (np_bond_mode p) (np_bond_policy p) (np_pci_num p) (np_port_id_list p)
    (np_bond_name p) (np_pci_list p).

Definition port_is_bond4 (port : netif_port) : bool := np_bond port && (np_bond_mode port =? 4).

Record config := Config {
  c_server : bool;
  c_keepalive : bool;
  c_ipv6 : bool;
  c_vxlan : bool;
  c_kni : bool;
  c_flood : bool;
  c_jumbo : bool;
  c_payload_random : bool;
  c_client_hop : bool;
  c_fast_close : bool;
  c_disable_ack : bool;
  c_flow : Z;
  c_quiet : bool;
  c_tcp_rst : bool;
  c_neigh_ignore : bool;
  c_http : bool;
  c_stats_http : bool;
  c_http_method : Z;
  c_tos : Z;
  c_pipeline : Z;
  c_tx_burst : Z;
  c_send_window : Z;
  c_protocol : Z;
  c_vlan_id : Z;
  c_ticks_per_sec : Z;
  c_lport_min : Z;
  c_lport_max : Z;
  c_af : Z;
  c_retransmit_timeout_sec : Z;
  c_retransmit_timeout : Z;
  c_keepalive_request_interval_us : Z;
  c_keepalive_request_interval : Z;
  c_keepalive_request_num : Z;
  c_http_host : list Z;
  c_http_path : list Z;
  c_payload_size : list Z;
  c_mss : Z;
  c_wait : Z;
  c_slow_start : Z;
  c_launch_num : Z;
  c_duration : Z;
  c_cps : Z;
  c_cc : Z;
  c_cpu_num : Z;
  c_ports : list netif_port;
  c_vxlans : list vxlan;
  c_listen : Z;
  c_listen_num : Z;
  c_client_ip_group : ip_group;
  c_server_ip_group : ip_group;
  c_dip_list : ip_list;
  c_daemon : bool;
  c_simd512 : bool;
  c_clear_screen : bool;
  c_flow_isolate : bool;
  c_log_level : Z;
  c_jumbo_mtu : Z;
  c_kni_ifname : list Z;
  c_payload_path : list Z;
  c_socket_mem : list Z;
  c_cpu : list Z;
}.
#[export] Instance eta_config : Eta config := fun c =>
  Config (c_server c) (c_keepalive c) (c_ipv6 c) (c_vxlan c) (c_kni c) (c_flood c) (c_jumbo c)
    (c_payload_random c) (c_client_hop c) (c_fast_close c) (c_disable_ack c) (c_flow c) (c_quiet c)
    (c_tcp_rst c) (c_neigh_ignore c) (c_http c) (c_stats_http c) (c_http_method c) (c_tos c)
    (c_pipeline c) (c_tx_burst c) (c_send_window c) (c_protocol c) (c_vlan_id c) (c_ticks_per_sec c)
    (c_lport_min c) (c_lport_max c) (c_af c) (c_retransmit_timeout_sec c) (c_retransmit_timeout c)
    (c_keepalive_request_interval_us c) (c_keepalive_request_interval c)
    (c_keepalive_request_num c) (c_http_host c) (c_http_path c) (c_payload_size c) (c_mss c)
    (c_wait c) (c_slow_start c) (c_launch_num c) (c_duration c) (c_cps c) (c_cc c) (c_cpu_num c)
    (c_ports c) (c_vxlans c) (c_listen c) (c_listen_num c) (c_client_ip_group c)
    (c_server_ip_group c) (c_dip_list c) (c_daemon c) (c_simd512 c) (c_clear_screen c)
    (c_flow_isolate c) (c_log_level c) (c_jumbo_mtu c) (c_kni_ifname c) (c_payload_path c)
    (c_socket_mem c) (c_cpu c).

(** The entries in use of [ports] and [vxlans] are lists: their lengths are
    [port_num] and [vxlan_num].  A string is its bytes without the final zero. *)
Definition c_port_num (c : config) : Z := Z.of_nat (length (c_ports c)).
Definition c_vxlan_num (c : config) : Z := Z.of_nat (length (c_vxlans c)).

(** ** Operations *)

Definition config_port_queue_num (c : config) : option Z :=
  if c_port_num c =? 0 then None else Some (Z.quot (c_cpu_num c) (c_port_num c)).

(** The port and the queue of a thread; [None] is the division by zero or a
    port index outside the array. *)
Definition config_port_get (c : config) (thread_id : Z) : option (netif_port * Z) :=
  queue_num ← config_port_queue_num c;
  if queue_num =? 0 then None else
  let queue_id := Z.rem thread_id queue_num in
  let port_idx := Z.quot thread_id queue_num in
  port ← aget (c_ports c) port_idx;
  Some (port, queue_id).

Definition config_client_ip_range_socket_num (c : config) (r : ip_range) : Z :=
  u32 (u32 (num r * c_listen_num c) * u32 (c_lport_max c - c_lport_min c + 1)).

Definition config_get_total_socket_num (c : config) (id : Z) : option Z :=
  '(port, _) ← config_port_get c id;
  let num_ := if c_server c
              then foldl (fun n r => u32 (n + config_client_ip_range_socket_num c r)) 0
                     (for_each_ip_range (c_client_ip_group c))
              else config_client_ip_range_socket_num c (np_client_ip_range port) in
  Some (if c_flow c =? FLOW_FDIR then num_ else u32 (num_ * num (np_server_ip_range port))).

Definition config_set_tsc (c : config) (hz : Z) : config :=
  let us := c_keepalive_request_interval_us c in
  let tsc := if us mod 1000 =? 0
             then u64 (us / 1000 * (hz / 1000))
             else u64 (us * (hz / 1000)) / 1000 in
  c <| c_keepalive_request_interval := tsc |>
    <| c_retransmit_timeout := u64 (hz * c_retransmit_timeout_sec c) |>.

(** The initial [g_config]: everything zero except [tcp_rst]. *)
Definition g_config_init : config := {|
  c_server := false; c_keepalive := false; c_ipv6 := false; c_vxlan := false; c_kni := false;
  c_flood := false; c_jumbo := false; c_payload_random := false; c_client_hop := false;
  c_fast_close := false; c_disable_ack := false; c_flow := 0; c_quiet := false; c_tcp_rst := true;
  c_neigh_ignore := false; c_http := false; c_stats_http := false; c_http_method := 0; c_tos := 0;
  c_pipeline := 0; c_tx_burst := 0; c_send_window := 0; c_protocol := 0; c_vlan_id := 0;
  c_ticks_per_sec := 0; c_lport_min := 0; c_lport_max := 0; c_af := 0;
  c_retransmit_timeout_sec := 0; c_retransmit_timeout := 0; c_keepalive_request_interval_us := 0;
  c_keepalive_request_interval := 0; c_keepalive_request_num := 0; c_http_host := [];
  c_http_path := []; c_payload_size := replicate 64 0; c_mss := 0; c_wait := 0; c_slow_start := 0;
  c_launch_num := 0; c_duration := 0; c_cps := 0; c_cc := 0; c_cpu_num := 0; c_ports := [];
  c_vxlans := []; c_listen := 0; c_listen_num := 0; c_client_ip_group := ip_group_zero;
  c_server_ip_group := ip_group_zero; c_dip_list := ip_list_zero; c_daemon := false;
  c_simd512 := false; c_clear_screen := false; c_flow_isolate := false; c_log_level := 0;
  c_jumbo_mtu := 0; c_kni_ifname := []; c_payload_path := []; c_socket_mem := [];
  c_cpu := replicate 64 0 |}.

Definition netif_port_zero : netif_port := {|
  np_id := 0; np_queue_num := 0; np_socket := 0; np_enable := false; np_ipv6 := false;
  np_local_ip := ipaddr_zero; np_gateway_ip := ipaddr_zero; np_gateway_mac := eth_addr_zero;
  np_local_mac := eth_addr_zero; np_mbuf_pool := replicate 64 0; np_local_ip_range := ip_range_zero;
  np_client_ip_range := ip_range_zero; np_server_ip_range := ip_range_zero;
  np_virtio_user_id := 0; np_kni_mbuf_queue := false; np_vxlan := None; np_bond := false;
  np_bond_mode := 0; np_bond_policy := 0; np_pci_num := 0; np_port_id_list := [0; 0; 0; 0];
  np_bond_name := []; np_pci_list := [[]; []; []; []] |}.
