(* ===== verification/Mbuf.v ===== *)
(** * Mbuf: packet buffers and the DPDK interface

    Packet buffers are byte arrays and header fields are loads and stores at
    the offsets of the C structures of [src/eth.h], [src/vxlan.h] and the
    system headers, so that the casts of the code are offset computations.
    A load or store outside the buffer is [None].

    DPDK itself is the class [Dpdk]: every call is a function of the history
    of calls, and [DpdkLaws] states the documented behaviour relied upon. *)

From S2P Require Import Prelude Config.

(** ** Bytes *)

Definition ld8 (b : list Z) (p : Z) : option Z := aget b p.
Definition ld16 (b : list Z) (p : Z) : option Z :=
  x0 ← aget b p; x1 ← aget b (p + 1); Some (x0 + 256 * x1).
Definition ld32 (b : list Z) (p : Z) : option Z :=
  x0 ← ld16 b p; x1 ← ld16 b (p + 2); Some (x0 + 65536 * x1).

Definition st8 (p v : Z) (b : list Z) : option (list Z) := aset b p (v mod 256).
Definition st16 (p v : Z) (b : list Z) : option (list Z) :=
  b ← st8 p v b; st8 (p + 1) (v / 256) b.
Definition st32 (p v : Z) (b : list Z) : option (list Z) :=
  b ← st16 p v b; st16 (p + 2) (v / 65536) b.

Definition ld_bytes (b : list Z) (p n : Z) : option (list Z) :=
  if (0 <=? p) && (0 <=? n) && (p + n <=? Z.of_nat (length b))
  then Some (take (Z.to_nat n) (drop (Z.to_nat p) b)) else None.
Definition st_bytes (p : Z) (bs : list Z) (b : list Z) : option (list Z) :=
  if (0 <=? p) && (p + Z.of_nat (length bs) <=? Z.of_nat (length b))
  then Some (take (Z.to_nat p) b ++ bs ++ drop (Z.to_nat p + length bs) b) else None.

(** The bytes from a pointer to the end of the buffer. *)
Definition bytes_from (b : list Z) (p : Z) : list Z := drop (Z.to_nat p) b.

(** ** Header layout *)

Definition ETH_HDR_LEN : Z := 14.
Definition IPHDR_LEN : Z := 20.
Definition IP6_HDR_LEN : Z := 40.
Definition TCPHDR_LEN : Z := 20.
Definition UDPHDR_LEN : Z := 8.
Definition VXLAN_HEADERS_SIZE : Z := 50.

Definition ETHER_TYPE_IPv4 : Z := 2048.
Definition ETHER_TYPE_ARP : Z := 2054.
Definition ETHER_TYPE_IPv6 : Z := 34525.
Definition VXLAN_PORT : Z := 4789.
Definition IP_FLAG_DF : Z := htons 16384.

(** Field offsets inside each header. *)
Definition eth_type : Z := 12.
Definition iph_tos : Z := 1.
Definition iph_tot_len : Z := 2.
Definition iph_id : Z := 4.
Definition iph_frag_off : Z := 6.
Definition iph_ttl : Z := 8.
Definition iph_protocol : Z := 9.
Definition iph_check : Z := 10.
Definition iph_saddr : Z := 12.
Definition iph_daddr : Z := 16.
Definition ip6_flow : Z := 0.
Definition ip6_plen : Z := 4.
Definition ip6_nxt : Z := 6.
Definition ip6_hops : Z := 7.
Definition ip6_src : Z := 8.
Definition ip6_dst : Z := 24.
Definition th_sport : Z := 0.
Definition th_dport : Z := 2.
Definition th_seq : Z := 4.
Definition th_ack : Z := 8.
Definition th_off : Z := 12.
Definition th_flags : Z := 13.
Definition th_win : Z := 14.
Definition th_sum : Z := 16.
Definition uh_source : Z := 0.
Definition uh_dest : Z := 2.
Definition uh_len : Z := 4.
Definition uh_check : Z := 6.
Definition vxhs_iph : Z := 14.
Definition vxhs_uh : Z := 34.
Definition vxhs_vni : Z := 46.

(** The bit fields [iph->version], [iph->ihl] and [th->th_off]. *)
Definition ld_ip_version (b : list Z) (iph : Z) : option Z := x ← ld8 b iph; Some (x >>> 4).
Definition ld_ip_ihl (b : list Z) (iph : Z) : option Z := x ← ld8 b iph; Some (x &&& 15).
Definition ld_th_off (b : list Z) (th : Z) : option Z := x ← ld8 b (th + th_off); Some (x >>> 4).

Definition TH_FIN : Z := 1.
Definition TH_SYN : Z := 2.
Definition TH_RST : Z := 4.
Definition TH_PUSH : Z := 8.
Definition TH_ACK : Z := 16.
Definition TH_URG : Z := 32.

(** ** Packet buffers *)

(** The three templates of a worker; [tcp] and [udp] share their memory. *)
Inductive cache_id := Cache_tcp | Cache_tcp_opt | Cache_tcp_data.
#[export] Instance cache_id_eq_dec : EqDecision cache_id.
Proof. solve_decision. Defined.

(** Memory pools: one per template, and the pool of the port's queue. *)
Inductive pool := Pool_cache (c : cache_id) | Pool_port.

Record mbuf := Mbuf {
  m_id : N;
  m_buf : list Z;
  m_data_off : Z;
  m_data_len : Z;
  m_ol_flags : Z;
  m_vlan_tci : Z;
  m_l2_len : Z;
  m_l3_len : Z;
  m_userdata : option cache_id;
}.
#[export] Instance eta_mbuf : Eta mbuf := fun m =>
  Mbuf (m_id m) (m_buf m) (m_data_off m) (m_data_len m) (m_ol_flags m) (m_vlan_tci m)
    (m_l2_len m) (m_l3_len m) (m_userdata m).

(** Pointers into a packet are positions in its buffer. *)
Definition mbuf_eth_hdr (m : mbuf) : Z := m_data_off m.
Definition mbuf_ip_hdr (m : mbuf) : Z := m_data_off m + ETH_HDR_LEN.
Definition mbuf_icmp_hdr (m : mbuf) : Z := m_data_off m + ETH_HDR_LEN + IPHDR_LEN.
Definition mbuf_icmp6_hdr (m : mbuf) : Z := m_data_off m + ETH_HDR_LEN + IP6_HDR_LEN.
Definition mbuf_tcp_hdr (m : mbuf) : option Z :=
  type ← ld16 (m_buf m) (mbuf_eth_hdr m + eth_type);
  Some (if type =? htons ETHER_TYPE_IPv4
        then m_data_off m + ETH_HDR_LEN + IPHDR_LEN
        else m_data_off m + ETH_HDR_LEN + IP6_HDR_LEN).

(** A store into the buffer of a packet. *)
Definition m_store (f : list Z -> option (list Z)) (m : mbuf) : option mbuf :=
  b ← f (m_buf m); Some (m <| m_buf := b |>).

(** ** DPDK *)

(** One call of the library, with its answer. *)
Inductive io :=
  | Io_alloc (p : pool) (m : option mbuf)
  | Io_free (m : mbuf)
  | Io_free_bulk (ms : list mbuf)
  | Io_tx_burst (port queue : Z) (ms : list mbuf) (n : Z)
  | Io_rx_burst (port queue : Z) (ms : list mbuf)
  | Io_ring_enqueue (m : mbuf) (ret : Z)
  | Io_ring_dequeue (ms : list mbuf)
  | Io_rdtsc (t : Z).

Class Dpdk := {
  rte_pktmbuf_alloc : list io -> pool -> option mbuf;
  rte_eth_tx_burst : list io -> Z -> Z -> list mbuf -> Z;
  rte_eth_rx_burst : list io -> Z -> Z -> Z -> list mbuf;
  rte_ring_enqueue : list io -> mbuf -> Z;
  rte_ring_count : list io -> Z;
  rte_ring_dequeue_bulk : list io -> Z -> list mbuf;
  rte_rdtsc : list io -> Z;
  rte_pktmbuf_append : mbuf -> Z -> option (Z * mbuf);
  rte_pktmbuf_adj : mbuf -> Z -> option mbuf;
  rte_pktmbuf_trim : mbuf -> Z -> option mbuf;
  rte_ipv4_cksum : list Z -> Z;
  rte_ipv4_udptcp_cksum : list Z -> list Z -> Z;
  rte_ipv6_udptcp_cksum : list Z -> list Z -> Z;
  rte_raw_cksum : list Z -> Z;
  rte_ipv4_frag_pkt_is_fragmented : list Z -> bool;
  RTE_MBUF_F_RX_IP_CKSUM_BAD : Z;
  RTE_MBUF_F_RX_L4_CKSUM_BAD : Z;
  RTE_MBUF_F_TX_IPV4 : Z;
  RTE_MBUF_F_TX_IPV6 : Z;
  RTE_MBUF_F_TX_IP_CKSUM : Z;
  RTE_MBUF_F_TX_TCP_CKSUM : Z;
  RTE_MBUF_F_TX_UDP_CKSUM : Z;
  RTE_MBUF_F_TX_VLAN : Z;
}.

(** Documented effect of the calls that move the ends of a packet. *)
Definition append_doc (m : mbuf) (n : Z) : option (Z * mbuf) :=
  if m_data_off m + m_data_len m + n <=? Z.of_nat (length (m_buf m))
  then Some (m_data_off m + m_data_len m, m <| m_data_len := m_data_len m + n |>)
  else None.
Definition adj_doc (m : mbuf) (n : Z) : option mbuf :=
  if n <=? m_data_len m
  then Some (m <| m_data_off := m_data_off m + n |> <| m_data_len := m_data_len m - n |>)
  else None.
Definition trim_doc (m : mbuf) (n : Z) : option mbuf :=
  if n <=? m_data_len m then Some (m <| m_data_len := m_data_len m - n |>) else None.

(** What the code relies on: a burst sends a prefix of what it is given; a
    fresh packet is empty, a received one holds at most [room] bytes, and both
    lie in a buffer with [room] bytes from their start; the calls that move the
    ends of a packet do what is documented; the time-stamp counter does not
    wrap, and two readings that differ are at least 128 cycles apart (the
    worker does much more than that between two readings). *)
Class DpdkLaws (D : Dpdk) (room : Z) : Prop := {
  tx_burst_range h port queue ms :
    0 <= rte_eth_tx_burst h port queue ms <= Z.of_nat (length ms);
  rx_burst_length h port queue n : Z.of_nat (length (rte_eth_rx_burst h port queue n)) <= Z.max n 0;
  rx_burst_frame h port queue n m : m ∈ rte_eth_rx_burst h port queue n ->
    0 <= m_data_off m /\ m_data_off m + room <= Z.of_nat (length (m_buf m))
    /\ 0 <= m_data_len m <= room /\ Forall (in_u 8) (m_buf m);
  rdtsc_range h : 0 <= rte_rdtsc h < 2 ^ 62;
  rdtsc_grain h1 h2 : rte_rdtsc h1 = rte_rdtsc h2 \/ 128 <= Z.abs (rte_rdtsc h1 - rte_rdtsc h2);
  alloc_fresh h p m : rte_pktmbuf_alloc h p = Some m ->
    m_data_len m = 0 /\ 0 <= m_data_off m /\ m_data_off m + room <= Z.of_nat (length (m_buf m));
  append_ok m n : rte_pktmbuf_append m n = append_doc m n;
  adj_ok m n : rte_pktmbuf_adj m n = adj_doc m n;
  trim_ok m n : rte_pktmbuf_trim m n = trim_doc m n;
}.

(** ** Loads and stores inside the buffer *)

Lemma ld8_some b p : 0 <= p < Z.of_nat (length b) -> is_Some (ld8 b p).
Proof. apply aget_some. Qed.

Lemma ld16_some b p : 0 <= p -> p + 2 <= Z.of_nat (length b) -> is_Some (ld16 b p).
Proof.
  intros. unfold ld16. destruct (aget_some b p) as [x ->]; [lia|].
  destruct (aget_some b (p + 1)) as [y Hy]; [lia|]. simpl. rewrite Hy. by eexists.
Qed.

Lemma ld32_some b p : 0 <= p -> p + 4 <= Z.of_nat (length b) -> is_Some (ld32 b p).
Proof.
  intros. unfold ld32. destruct (ld16_some b p) as [x ->]; [lia..|].
  destruct (ld16_some b (p + 2)) as [y Hy]; [lia..|]. simpl. rewrite Hy. by eexists.
Qed.

Lemma st8_some b p v : 0 <= p < Z.of_nat (length b) ->
  exists b', st8 p v b = Some b' /\ length b' = length b.
Proof.
  intros. unfold st8. rewrite aset_some by done. eexists. split; [done|]. by rewrite length_insert.
Qed.

Lemma st16_some b p v : 0 <= p -> p + 2 <= Z.of_nat (length b) ->
  exists b', st16 p v b = Some b' /\ length b' = length b.
Proof.
  intros. unfold st16. destruct (st8_some b p v) as (b1 & -> & L1); [lia|]. simpl.
  destruct (st8_some b1 (p + 1) (v / 256)) as (b2 & -> & L2); [lia|]. eexists. split; [done|]. lia.
Qed.

Lemma st32_some b p v : 0 <= p -> p + 4 <= Z.of_nat (length b) ->
  exists b', st32 p v b = Some b' /\ length b' = length b.
Proof.
  intros. unfold st32. destruct (st16_some b p v) as (b1 & -> & L1); [lia..|]. simpl.
  destruct (st16_some b1 (p + 2) (v / 65536)) as (b2 & -> & L2); [lia..|].
  eexists. split; [done|]. lia.
Qed.

Lemma st_bytes_some b p bs : 0 <= p -> p + Z.of_nat (length bs) <= Z.of_nat (length b) ->
  exists b', st_bytes p bs b = Some b' /\ length b' = length b.
Proof.
  intros. unfold st_bytes. destruct (Z.leb_spec 0 p); [|lia].
  destruct (Z.leb_spec (p + Z.of_nat (length bs)) (Z.of_nat (length b))); [|lia]. simpl.
  eexists. split; [done|]. rewrite !length_app, length_take, length_drop. lia.
Qed.

Lemma ld_bytes_some b p n : 0 <= p -> 0 <= n -> p + n <= Z.of_nat (length b) ->
  exists bs, ld_bytes b p n = Some bs /\ length bs = Z.to_nat n.
Proof.
  intros. unfold ld_bytes.
  destruct (Z.leb_spec 0 p), (Z.leb_spec 0 n), (Z.leb_spec (p + n) (Z.of_nat (length b))); try lia.
  simpl. eexists. split; [done|]. rewrite length_take, length_drop. lia.
Qed.

(** ** A concrete library, for examples

    Every allocation succeeds with a zeroed buffer, every burst sends all its
    packets, nothing is received, and the checksums are zero. *)
Module Demo.
Definition demo_mbuf (i : N) : mbuf := Mbuf i (replicate 400 0) 128 0 0 0 0 0 None.

#[export] Instance dpdk : Dpdk := {|
  rte_pktmbuf_alloc h _ := Some (demo_mbuf (N.of_nat (length h)));
  rte_eth_tx_burst _ _ _ ms := Z.of_nat (length ms);
  rte_eth_rx_burst _ _ _ _ := [];
  rte_ring_enqueue _ _ := 0;
  rte_ring_count _ := 0;
  rte_ring_dequeue_bulk _ _ := [];
  rte_rdtsc h := 1000 * Z.min (Z.of_nat (length h)) (10 ^ 12);
  rte_pktmbuf_append := append_doc;
  rte_pktmbuf_adj := adj_doc;
  rte_pktmbuf_trim := trim_doc;
  rte_ipv4_cksum _ := 0;
  rte_ipv4_udptcp_cksum _ _ := 0;
  rte_ipv6_udptcp_cksum _ _ := 0;
  rte_raw_cksum _ := 0;
  rte_ipv4_frag_pkt_is_fragmented _ := false;
  RTE_MBUF_F_RX_IP_CKSUM_BAD := 16;
  RTE_MBUF_F_RX_L4_CKSUM_BAD := 8;
  RTE_MBUF_F_TX_IPV4 := 2 ^ 55;
  RTE_MBUF_F_TX_IPV6 := 2 ^ 56;
  RTE_MBUF_F_TX_IP_CKSUM := 2 ^ 54;
  RTE_MBUF_F_TX_TCP_CKSUM := 2 ^ 52;
  RTE_MBUF_F_TX_UDP_CKSUM := 3 * 2 ^ 52;
  RTE_MBUF_F_TX_VLAN := 2 ^ 57;
|}.

#[export] Instance laws : DpdkLaws dpdk 256.
Proof.
  split; simpl; try done; try lia.
  - by intros h p q n m ?%elem_of_nil.
  - intros h p m [= <-]. simpl. lia.
Qed.
End Demo.
