(* ===== verification/NetStats.v ===== *)
(** * NetStats: the per-worker counters and their report

    [src/net_stats.h] and [src/net_stats.c]: the counters, the macros that
    update them, the sum over the workers, the speed report and the text that
    is printed. *)

From S2P Require Import Prelude Tick Config.
From Stdlib Require Import Ascii String.

(** ** Data *)

(** The fields of [struct net_stats] in order; from [NS_rtt_tsc] on they are
    the mutable ones. *)
Inductive stat :=
  | NS_pkt_rx | NS_pkt_tx | NS_byte_rx | NS_byte_tx | NS_tx_drop | NS_pkt_lost | NS_rx_bad
  | NS_tos_rx | NS_socket_dup | NS_socket_open | NS_socket_close | NS_socket_error | NS_tcp_rx
  | NS_tcp_tx | NS_syn_rx | NS_syn_tx | NS_fin_rx | NS_fin_tx | NS_rst_rx | NS_rst_tx
  | NS_syn_rt | NS_fin_rt | NS_ack_rt | NS_push_rt | NS_ack_dup | NS_http_2xx | NS_tcp_req
  | NS_http_get | NS_http_post | NS_tcp_rsp | NS_http_error | NS_tcp_drop | NS_udp_rx
  | NS_udp_tx | NS_udp_rt | NS_udp_drop | NS_arp_rx | NS_arp_tx | NS_icmp_rx | NS_icmp_tx
  | NS_kni_rx | NS_kni_tx | NS_other_rx | NS_rtt_tsc | NS_rtt_num | NS_cpusage
  | NS_socket_current.

Definition all_stats : list stat :=
  [NS_pkt_rx; NS_pkt_tx; NS_byte_rx; NS_byte_tx; NS_tx_drop; NS_pkt_lost; NS_rx_bad; NS_tos_rx;
   NS_socket_dup; NS_socket_open; NS_socket_close; NS_socket_error; NS_tcp_rx; NS_tcp_tx;
   NS_syn_rx; NS_syn_tx; NS_fin_rx; NS_fin_tx; NS_rst_rx; NS_rst_tx; NS_syn_rt; NS_fin_rt;
   NS_ack_rt; NS_push_rt; NS_ack_dup; NS_http_2xx; NS_tcp_req; NS_http_get; NS_http_post;
   NS_tcp_rsp; NS_http_error; NS_tcp_drop; NS_udp_rx; NS_udp_tx; NS_udp_rt; NS_udp_drop;
   NS_arp_rx; NS_arp_tx; NS_icmp_rx; NS_icmp_tx; NS_kni_rx; NS_kni_tx; NS_other_rx; NS_rtt_tsc;
   NS_rtt_num; NS_cpusage; NS_socket_current].

Definition stat_index (k : stat) : nat :=
  match k with
  | NS_pkt_rx => 0%nat
  | NS_pkt_tx => 1%nat
  | NS_byte_rx => 2%nat
  | NS_byte_tx => 3%nat
  | NS_tx_drop => 4%nat
  | NS_pkt_lost => 5%nat
  | NS_rx_bad => 6%nat
  | NS_tos_rx => 7%nat
  | NS_socket_dup => 8%nat
  | NS_socket_open => 9%nat
  | NS_socket_close => 10%nat
  | NS_socket_error => 11%nat
  | NS_tcp_rx => 12%nat
  | NS_tcp_tx => 13%nat
  | NS_syn_rx => 14%nat
  | NS_syn_tx => 15%nat
  | NS_fin_rx => 16%nat
  | NS_fin_tx => 17%nat
  | NS_rst_rx => 18%nat
  | NS_rst_tx => 19%nat
  | NS_syn_rt => 20%nat
  | NS_fin_rt => 21%nat
  | NS_ack_rt => 22%nat
  | NS_push_rt => 23%nat
  | NS_ack_dup => 24%nat
  | NS_http_2xx => 25%nat
  | NS_tcp_req => 26%nat
  | NS_http_get => 27%nat
  | NS_http_post => 28%nat
  | NS_tcp_rsp => 29%nat
  | NS_http_error => 30%nat
  | NS_tcp_drop => 31%nat
  | NS_udp_rx => 32%nat
  | NS_udp_tx => 33%nat
  | NS_udp_rt => 34%nat
  | NS_udp_drop => 35%nat
  | NS_arp_rx => 36%nat
  | NS_arp_tx => 37%nat
  | NS_icmp_rx => 38%nat
  | NS_icmp_tx => 39%nat
  | NS_kni_rx => 40%nat
  | NS_kni_tx => 41%nat
  | NS_other_rx => 42%nat
  | NS_rtt_tsc => 43%nat
  | NS_rtt_num => 44%nat
  | NS_cpusage => 45%nat
  | NS_socket_current => 46%nat
  end.

Lemma stat_index_lookup k : all_stats !! stat_index k = Some k.
Proof. by destruct k. Qed.

#[export] Instance stat_eq_dec : EqDecision stat.
Proof.
  intros k k'. destruct (decide (stat_index k = stat_index k')) as [E|E].
  - left. pose proof (stat_index_lookup k) as H. rewrite E, stat_index_lookup in H. congruence.
  - right. by intros ->.
Defined.

(** The value of every counter. *)
Definition net_stats : Type := stat -> Z.
Definition net_stats_zero : net_stats := fun _ => 0.

(** ** Counting *)

Definition NET_STATS (s : net_stats) (k : stat) : Z := s k.

Definition ns_add (k : stat) (n : Z) (s : net_stats) : net_stats :=
  fun k' => if decide (k = k') then u64 (s k' + n) else s k'.

(** [net_stats_<counter>()]: one more. *)
Definition net_stats_inc (k : stat) (s : net_stats) : net_stats := ns_add k 1 s.

Definition net_stats_socket_open (s : net_stats) : net_stats :=
  net_stats_inc NS_socket_current (net_stats_inc NS_socket_open s).
Definition net_stats_socket_dup (s : net_stats) : net_stats :=
  net_stats_inc NS_socket_current (net_stats_inc NS_socket_open (net_stats_inc NS_socket_dup s)).
Definition net_stats_socket_close (s : net_stats) : net_stats :=
  ns_add NS_socket_current (-1) (net_stats_inc NS_socket_close s).
Definition net_stats_tx_drop (n : Z) (s : net_stats) : net_stats := ns_add NS_tx_drop n s.
Definition net_stats_kni_rx (n : Z) (s : net_stats) : net_stats := ns_add NS_kni_rx n s.
Definition net_stats_kni_tx (n : Z) (s : net_stats) : net_stats := ns_add NS_kni_tx n s.
Definition net_stats_rx (data_len : Z) (s : net_stats) : net_stats :=
  ns_add NS_byte_rx data_len (net_stats_inc NS_pkt_rx s).
Definition net_stats_tx (data_len : Z) (s : net_stats) : net_stats :=
  ns_add NS_byte_tx data_len (net_stats_inc NS_pkt_tx s).
Definition net_stats_rtt (tsc timer_tsc : Z) (s : net_stats) : net_stats :=
  ns_add NS_rtt_tsc (u64 (tsc - timer_tsc)) (net_stats_inc NS_rtt_num s).
Definition net_stats_tos_ipv4_rx (ws_tos iph_tos : Z) (s : net_stats) : net_stats :=
  if negb (ws_tos =? 0) && (ws_tos =? iph_tos) then net_stats_inc NS_tos_rx s else s.
Definition net_stats_tos_ipv6_rx (ip6_flow : Z) (s : net_stats) : net_stats :=
  let mask := htonl (u32 (65535 <<< 20)) in
  if negb (ip6_flow &&& mask =? 0) then net_stats_inc NS_tos_rx s else s.

(** ** Sums and speeds *)

Definition net_stats_assign (s : net_stats) : net_stats := s.
Definition net_stats_add (result s : net_stats) : net_stats :=
  fun i => u64 (NET_STATS result i + NET_STATS s i).
Definition net_stats_del (s0 s1 : net_stats) : net_stats :=
  fun i => if NET_STATS s1 i <? NET_STATS s0 i then NET_STATS s0 i - NET_STATS s1 i else 0.
Definition net_stats_clear_mutable (s : net_stats) : net_stats :=
  fun i => if bool_decide (i = NS_cpusage \/ i = NS_socket_current) then 0 else s i.

(** [g_net_stats_all]: the counters of the [cpu_num] workers. *)
Definition net_stats_sum (all : list net_stats) : net_stats :=
  foldl net_stats_add net_stats_zero all.

(** The speed of the last second and the new [g_net_stats_total]. *)
Definition net_stats_get_speed (all : list net_stats) (total : net_stats)
  : net_stats * net_stats :=
  let sum := net_stats_sum all in
  (net_stats_del sum total, net_stats_clear_mutable (net_stats_assign sum)).

(** The worker's handler, called every second. *)
Definition net_stats_timer_handler (load : cpuload) (tsc : Z) (s : net_stats)
  : option (net_stats * cpuload) :=
  '(usage, load) ← cpuload_cal_cpusage load tsc;
  Some ((fun i => if decide (i = NS_cpusage) then usage else s i), load).

(** ** Text *)

#[local] Open Scope string_scope.
#[local] Open Scope Z_scope.

Definition digit (n : Z) : ascii := ascii_of_nat (Z.to_nat (48 + n)).

(** [%lu]: twenty digits are enough for 64 bits. *)
Fixpoint lu_loop (fuel : nat) (n : Z) (acc : string) : string :=
  match fuel with
  | O => acc
  | S fuel =>
      let acc := String (digit (n mod 10)) acc in
      if n / 10 =? 0 then acc else lu_loop fuel (n / 10) acc
  end.
Definition fmt_lu (n : Z) : string := lu_loop 20 n "".

Fixpoint repeat_char (c : ascii) (n : nat) : string :=
  match n with O => "" | S n => String c (repeat_char c n) end.
Definition strlen (s : string) : Z := Z.of_nat (String.length s).
(** [%0<w>lu], [%-<w>lu] and [%-<w>s]. *)
Definition fmt_lu_zero (w n : Z) : string :=
  repeat_char "0" (Z.to_nat (w - strlen (fmt_lu n))) ++ fmt_lu n.
Definition fmt_left (w : Z) (s : string) : string :=
  s ++ repeat_char " " (Z.to_nat (w - strlen s)).

(** [snprintf] into a buffer of [len] bytes keeps [len - 1] characters. *)
Definition trunc (len : Z) (s : string) : string := substring 0 (Z.to_nat (len - 1)) s.

Definition STATS_BUF_LEN : Z := 64.

Definition net_stats_format_print2 (val len : Z) : string :=
  let v0 := val mod 1000 in
  let v1 := (val / 1000) mod 1000 in
  let v2 := (val / 1000 / 1000) mod 1000 in
  let v3 := (val / 1000 / 1000 / 1000) mod 1000 in
  let v4 := (val / 1000 / 1000 / 1000 / 1000) mod 1000 in
  trunc len
    (if negb (v4 =? 0) then
       fmt_lu v4 ++ "," ++ fmt_lu_zero 3 v3 ++ "," ++ fmt_lu_zero 3 v2 ++ ","
       ++ fmt_lu_zero 3 v1 ++ "," ++ fmt_lu_zero 3 v0
     else if negb (v3 =? 0) then
       fmt_lu v3 ++ "," ++ fmt_lu_zero 3 v2 ++ "," ++ fmt_lu_zero 3 v1 ++ "," ++ fmt_lu_zero 3 v0
     else if negb (v2 =? 0) then
       fmt_lu v2 ++ "," ++ fmt_lu_zero 3 v1 ++ "," ++ fmt_lu_zero 3 v0
     else if negb (v1 =? 0) then fmt_lu v1 ++ "," ++ fmt_lu_zero 3 v0
     else fmt_lu v0).

Definition ESC : string := String (ascii_of_nat 27) "".
Definition NET_STATS_CLOUR_ON : string := ESC ++ "[41;37m".
Definition NET_STATS_CLOUR_OFF : string := ESC ++ "[0m".

(** The padding loop stops at the end of the buffer. *)
Definition net_stats_format_print3 (val len space : Z) (err : bool) : string :=
  let str := net_stats_format_print2 val STATS_BUF_LEN in
  let buf := if negb err || (val =? 0) then trunc len str
             else trunc len (NET_STATS_CLOUR_ON ++ str ++ NET_STATS_CLOUR_OFF) in
  let n := space - strlen str in
  if n <=? 0 then buf else trunc len (buf ++ repeat_char " " (Z.to_nat n)).

Definition net_stats_format_print (val : Z) : string :=
  net_stats_format_print3 val STATS_BUF_LEN 18 false.
Definition net_stats_format_print_err (val : Z) : string :=
  net_stats_format_print3 val STATS_BUF_LEN 18 true.
Definition net_stats_format_print_short_err (val : Z) : string :=
  net_stats_format_print3 val STATS_BUF_LEN 10 true.

(** An output buffer: what has been written and the space that is left;
    [SNPRINTF] fails ([None], the label [err]) when the text does not fit. *)
Record outbuf := OutBuf { o_text : string; o_len : Z }.

Definition SNPRINTF (s : string) (o : outbuf) : option outbuf :=
  let ret := strlen s in
  if o_len o <=? ret then None
  else Some (OutBuf (o_text o ++ s) (o_len o - ret)).

Definition newline : string := String (ascii_of_nat 10) "".

(** [None] is the division by zero of a TSC below 1 MHz. *)
Definition net_stats_print_rtt (g : tick_globals) (stats : net_stats) (len : Z) : option string :=
  let rtt_tsc := stats NS_rtt_tsc in
  let rtt_num := stats NS_rtt_num in
  let tsc_per_us := g_tsc_per_second g / (1000 * 1000) in
  let d := u64 (rtt_num * tsc_per_us) in
  '(rtt_us, rtt_us_minor) ←
    (if 0 <? rtt_num then
       if d =? 0 then None else Some (rtt_tsc / d, u64 ((rtt_tsc mod d) * 10) / d)
     else Some (0, 0));
  let rtt := net_stats_format_print2 rtt_us STATS_BUF_LEN in
  let rtt2 := trunc STATS_BUF_LEN (rtt ++ "." ++ fmt_lu rtt_us_minor) in
  Some (trunc len (fmt_left 10 rtt2)).

Section Print.
Context (g : tick_globals) (cfg : config) (stats : net_stats).
Let fmt (k : stat) : string := net_stats_format_print (stats k).
Let fmt_err (k : stat) : string := net_stats_format_print_err (stats k).
Let fmt_short_err (k : stat) : string := net_stats_format_print_short_err (stats k).

Definition sk_open_close : Z * Z :=
  let sk_open := u64 (stats NS_socket_open - stats NS_socket_dup) in
  let sk_close := stats NS_socket_close in
  (sk_open, if stats NS_socket_dup <=? sk_close then sk_close - stats NS_socket_dup else sk_close).

Definition net_stats_print_socket (o : outbuf) : option outbuf :=
  let open := net_stats_format_print sk_open_close.1 in
  let close := net_stats_format_print sk_open_close.2 in
  let line := "skOpen  " ++ open ++ " skClose  " ++ close ++ " skCon    " ++ fmt NS_socket_current
              ++ " skErr   " ++ fmt_err NS_socket_error in
  if c_server cfg || c_keepalive cfg then SNPRINTF (line ++ newline) o
  else
    rtt ← net_stats_print_rtt g stats STATS_BUF_LEN;
    SNPRINTF (line ++ " rtt(us) " ++ rtt ++ newline) o.

Definition net_stats_print_tcp (o : outbuf) : option outbuf :=
  SNPRINTF ("tcpReq  " ++ fmt NS_tcp_req ++ " tcpRsp   " ++ fmt NS_tcp_rsp ++ newline) o.

Definition net_stats_print_http (o : outbuf) : option outbuf :=
  SNPRINTF ("httpGet " ++ fmt NS_http_get ++ " httpPost " ++ fmt NS_http_post
            ++ " http2XX  " ++ fmt NS_http_2xx ++ " httpErr " ++ fmt_err NS_http_error ++ newline) o.

Definition net_stats_print_pkt (o : outbuf) : option outbuf :=
  let bits_rx := net_stats_format_print (u64 (stats NS_byte_rx * 8)) in
  let bits_tx := net_stats_format_print (u64 (stats NS_byte_tx * 8)) in
  SNPRINTF ("pktRx   " ++ fmt NS_pkt_rx ++ " pktTx    " ++ fmt NS_pkt_tx ++ " bitsRx   " ++ bits_rx
            ++ " bitsTx  " ++ bits_tx ++ " dropTx  " ++ fmt_err NS_tx_drop ++ newline) o.

Definition net_stats_print_tcp_flags (o : outbuf) : option outbuf :=
  SNPRINTF ("synRx   " ++ fmt NS_syn_rx ++ " synTx    " ++ fmt NS_syn_tx ++ " finRx    " ++ fmt NS_fin_rx
            ++ " finTx   " ++ fmt NS_fin_tx ++ " rstRx   " ++ fmt_short_err NS_rst_rx
            ++ " rstTx " ++ fmt_short_err NS_rst_tx ++ newline) o.

Definition net_stats_print_proto_rx_tx (o : outbuf) : option outbuf :=
  o ← SNPRINTF ("tcpRx   " ++ fmt NS_tcp_rx ++ " tcpTx    " ++ fmt NS_tcp_tx
                ++ " udpRx    " ++ fmt NS_udp_rx ++ " udpTx   " ++ fmt NS_udp_tx ++ newline) o;
  o ← SNPRINTF ("arpRx   " ++ fmt NS_arp_rx ++ " arpTx    " ++ fmt NS_arp_tx
                ++ " icmpRx   " ++ fmt NS_icmp_rx ++ " icmpTx  " ++ fmt NS_icmp_tx ++ newline) o;
  SNPRINTF ("tosRx   " ++ fmt NS_tos_rx ++ " otherRx  " ++ fmt NS_other_rx
            ++ " badRx    " ++ fmt_err NS_rx_bad ++ newline) o.

Definition net_stats_print_retransmit (o : outbuf) : option outbuf :=
  if c_protocol cfg =? IPPROTO_TCP then
    o ← SNPRINTF ("synRt   " ++ fmt_err NS_syn_rt ++ " finRt    " ++ fmt_err NS_fin_rt
                  ++ " ackRt    " ++ fmt_err NS_ack_rt ++ " pushRt  " ++ fmt_err NS_push_rt ++ newline) o;
    SNPRINTF ("tcpDrop " ++ fmt_err NS_tcp_drop ++ " udpDrop  " ++ fmt_err NS_udp_drop
              ++ " ackDup   " ++ fmt_err NS_ack_dup ++ newline) o
  else
    SNPRINTF ("udpRt   " ++ fmt_err NS_udp_rt ++ " udpDrop  " ++ fmt_err NS_udp_drop
              ++ " tcpDrop  " ++ fmt_err NS_tcp_drop ++ newline) o.

Definition net_stats_print_kni (o : outbuf) : option outbuf :=
  SNPRINTF ("kniRx   " ++ fmt NS_kni_rx ++ " kniTx    " ++ fmt NS_kni_tx ++ newline) o.

Definition net_stats_print (o : outbuf) : option outbuf :=
  o ← net_stats_print_pkt o;
  o ← (if c_kni cfg then net_stats_print_kni o else Some o);
  o ← net_stats_print_proto_rx_tx o;
  o ← (if c_protocol cfg =? IPPROTO_TCP then net_stats_print_tcp_flags o else Some o);
  o ← net_stats_print_retransmit o;
  o ← net_stats_print_socket o;
  if c_protocol cfg =? IPPROTO_TCP then
    if c_stats_http cfg then net_stats_print_http o else net_stats_print_tcp o
  else Some o.
End Print.

Fixpoint cpusage_loop (all : list net_stats) (o : outbuf) : option outbuf :=
  match all with
  | [] => Some o
  | s :: all => o ← SNPRINTF (fmt_left 4 (fmt_lu (s NS_cpusage))) o; cpusage_loop all o
  end.
Definition net_stats_cpusage_print (all : list net_stats) (o : outbuf) : option outbuf :=
  o ← SNPRINTF " cpuUsage " o;
  o ← cpusage_loop all o;
  SNPRINTF newline o.

Definition NET_STATS_BUF_LEN : Z := 1024 * 8.

(** The hardware counters of a port, which [rte_eth_stats_get] stores. *)
Record rte_eth_stats := EthStats { es_ierrors : Z; es_oerrors : Z; es_imissed : Z }.

Definition eth_sum (f : rte_eth_stats -> Z) (ports : list rte_eth_stats) : Z :=
  foldl (fun n st => u64 (n + f st)) 0 ports.
Definition net_stats_print_eth (ports : list rte_eth_stats) : string :=
  "ierrors " ++ net_stats_format_print_err (eth_sum es_ierrors ports)
  ++ " oerrors  " ++ net_stats_format_print_err (eth_sum es_oerrors ports)
  ++ " imissed  " ++ net_stats_format_print_err (eth_sum es_imissed ports) ++ newline ++ newline.

(** What one second's report prints, and the new total. *)
Definition net_stats_print_speed (g : tick_globals) (cfg : config) (ports : list rte_eth_stats) (all : list net_stats)
    (total : net_stats) (seconds : Z) : list string * net_stats :=
  if c_quiet cfg then ([], total)
  else
    match SNPRINTF (newline ++ "seconds " ++ fmt_left 18 (fmt_lu (u64 seconds))) (OutBuf "" NET_STATS_BUF_LEN) with
    | None => ([], total)
    | Some o =>
        let '(speed, total) := net_stats_get_speed all total in
        match (o ← net_stats_cpusage_print all o; net_stats_print g cfg speed o) with
        | None => ([], total)
        | Some o => ([o_text o; net_stats_print_eth ports], total)
        end
    end.

Definition VERSION : string := "1.9.0".
Definition rule : string := "-----------------------" ++ newline.

(** What the final report prints; the last rule is written to the buffer when
    the buffer has been printed. *)
Definition net_stats_print_total (g : tick_globals) (cfg : config) (ports : list rte_eth_stats) (all : list net_stats) : list string :=
  match
    o ← SNPRINTF newline (OutBuf "" NET_STATS_BUF_LEN);
    o ← SNPRINTF rule o;
    o ← SNPRINTF ("dperf Test Finished" ++ newline) o;
    o ← SNPRINTF ("Version: " ++ VERSION ++ newline) o;
    o ← SNPRINTF ("License: " ++ "Apache 2.0" ++ newline) o;
    o ← SNPRINTF ("Author:  " ++ "Jianzhang Peng" ++ newline) o;
    o ← SNPRINTF rule o;
    o ← SNPRINTF (newline ++ "Total Numbers:" ++ newline) o;
    net_stats_print g cfg (net_stats_sum all) o
  with
  | None => []
  | Some o => [o_text o; net_stats_print_eth ports]
  end.

(** [net_stats_init] of the worker with the number [id]. *)
Definition net_stats_init (id : nat) (all : list net_stats) : list net_stats := <[id := net_stats_zero]> all.

(** ** Properties: counting *)

Lemma ns_add_same k n s : ns_add k n s k = u64 (s k + n).
Proof. unfold ns_add. by rewrite decide_True. Qed.

Lemma ns_add_other k k' n s : k ≠ k' -> ns_add k n s k' = s k'.
Proof. intros. unfold ns_add. by rewrite decide_False. Qed.

(** Reading a counter after updates. *)
Ltac ns_simpl :=
  unfold net_stats_socket_open, net_stats_socket_dup, net_stats_socket_close, net_stats_tx_drop,
    net_stats_kni_rx, net_stats_kni_tx, net_stats_rx, net_stats_tx, net_stats_rtt, net_stats_inc;
  repeat first [rewrite ns_add_same | rewrite ns_add_other by discriminate].

Lemma net_stats_sum_mod all k :
  net_stats_sum all k = u64 (foldr (fun s n => s k + n) 0 all).
Proof.
  unfold net_stats_sum.
  assert (forall a b, foldl net_stats_add a all k = u64 (b + foldr (fun s n => s k + n) 0 all)
    \/ a k ≠ u64 b) as H.
  { induction all as [|s all IH]; intros a b; simpl.
    - rewrite Z.add_0_r. destruct (decide (a k = u64 b)); auto.
    - destruct (IH (net_stats_add a s) (b + s k)) as [->|Hne].
      + left. f_equal. lia.
      + right. intros Ea. apply Hne. unfold net_stats_add, NET_STATS. by rewrite Ea, wrap_add_l. }
  destruct (H net_stats_zero 0) as [->|Hne]; [done|]. by destruct Hne.
Qed.

(** A speed report shows, for every counter that only grows, exactly what
    the workers have counted since the previous report, and for the gauges
    ([cpusage], [socket_current]) their present sum. *)
Theorem net_stats_speed_is_increase all0 all1 total0 :
  (forall k, 0 <= net_stats_sum all1 k) ->
  (forall k, net_stats_sum all0 k <= net_stats_sum all1 k
             \/ k = NS_cpusage \/ k = NS_socket_current) ->
  forall k, (net_stats_get_speed all1 (net_stats_get_speed all0 total0).2).1 k
    = if bool_decide (k = NS_cpusage \/ k = NS_socket_current) then net_stats_sum all1 k
      else net_stats_sum all1 k - net_stats_sum all0 k.
Proof.
  intros Hpos Hgrow k. specialize (Hpos k). specialize (Hgrow k).
  unfold net_stats_get_speed, net_stats_del, net_stats_clear_mutable, net_stats_assign, NET_STATS.
  simpl. case_bool_decide as Hm.
  - destruct (Z.ltb_spec 0 (net_stats_sum all1 k)); lia.
  - destruct (Z.ltb_spec (net_stats_sum all0 k) (net_stats_sum all1 k)); [done|]. intuition lia.
Qed.

Definition example_stats (n : Z) : net_stats := fun k => n + Z.of_nat (stat_index k).

Lemma net_stats_speed_is_increase_witness :
  (net_stats_get_speed [example_stats 9; example_stats 8]
    (net_stats_get_speed [example_stats 5; example_stats 6] net_stats_zero).2).1 NS_tcp_rx = 6.
Proof.
  rewrite (net_stats_speed_is_increase [example_stats 5; example_stats 6]
    [example_stats 9; example_stats 8] net_stats_zero).
  - reflexivity.
  - intros k. by destruct k.
  - intros k. left. by destruct k.
Defined.

(** ** Properties: decimal text *)

(** The number a grouped decimal text denotes: commas are skipped. *)
Fixpoint grouped_value (acc : Z) (s : string) : Z :=
  match s with
  | EmptyString => acc
  | String c s =>
      let d := Z.of_nat (nat_of_ascii c) - 48 in
      grouped_value (if (0 <=? d) && (d <=? 9) then acc * 10 + d else acc) s
  end.

(** The number of decimal digits of a text. *)
Fixpoint digits (s : string) : Z :=
  match s with
  | EmptyString => 0
  | String c s =>
      let d := Z.of_nat (nat_of_ascii c) - 48 in
      (if (0 <=? d) && (d <=? 9) then 1 else 0) + digits s
  end.

Lemma digits_nonneg s : 0 <= digits s.
Proof. induction s as [|c s IH]; simpl; [lia|]. destruct (_ && _); lia. Qed.

Lemma grouped_value_acc s acc : grouped_value acc s = acc * 10 ^ digits s + grouped_value 0 s.
Proof.
  revert acc. induction s as [|c s IH]; intros acc; [simpl; lia|].
  cbn [grouped_value digits]. pose proof (digits_nonneg s).
  destruct (_ && _); [|by rewrite IH].
  rewrite (IH (acc * 10 + _)), (IH (0 * 10 + _)), Z.pow_add_r by lia. lia.
Qed.

Lemma grouped_value_app s1 s2 acc :
  grouped_value acc (s1 ++ s2) = grouped_value (grouped_value acc s1) s2.
Proof. revert acc. induction s1 as [|c s1 IH]; intros acc; simpl; [done|]. apply IH. Qed.

(** Everything needed of the 1000 groups is computed. *)
Definition group_check (v : Z) : bool :=
  (grouped_value 0 (fmt_lu v) =? v) && (strlen (fmt_lu v) <=? 3)
  && (grouped_value 0 (fmt_lu_zero 3 v) =? v) && (digits (fmt_lu_zero 3 v) =? 3)
  && (strlen (fmt_lu_zero 3 v) =? 3).

Lemma group_check_all v : 0 <= v < 1000 -> group_check v = true.
Proof.
  intros Hv. assert (forallb (fun n => group_check (Z.of_nat n)) (seq 0 1000) = true) as H
    by by vm_compute.
  rewrite forallb_forall in H. specialize (H (Z.to_nat v)). rewrite Z2Nat.id in H by lia.
  apply H, in_seq. lia.
Qed.

Lemma group_facts v : 0 <= v < 1000 ->
  grouped_value 0 (fmt_lu v) = v /\ strlen (fmt_lu v) <= 3
  /\ (forall acc, grouped_value acc (fmt_lu_zero 3 v) = acc * 1000 + v)
  /\ strlen (fmt_lu_zero 3 v) = 3.
Proof.
  intros H%group_check_all. unfold group_check in H. bool_facts.
  repeat split; try done. intros acc. rewrite grouped_value_acc. by rewrite H1, H2.
Qed.

Lemma strlen_app s1 s2 : strlen (s1 ++ s2) = strlen s1 + strlen s2.
Proof.
  unfold strlen. induction s1 as [|c s1 IH]; [done|].
  change (String.length (String c s1 ++ s2)) with (S (String.length (s1 ++ s2))).
  change (String.length (String c s1)) with (S (String.length s1)). lia.
Qed.

Lemma substring_all s n : (String.length s <= n)%nat -> substring 0 n s = s.
Proof.
  revert n. induction s as [|c s IH]; intros [|n] H; simpl in *; try done; [lia|].
  by rewrite IH by lia.
Qed.

Lemma trunc_all len s : strlen s < len -> trunc len s = s.
Proof. unfold strlen, trunc. intros. apply substring_all. lia. Qed.

Lemma comma_value acc : grouped_value acc "," = acc.
Proof. done. Qed.

Lemma div1000 v n : 0 <= n -> v / 10 ^ n / 1000 = v / 10 ^ (n + 3).
Proof. intros. rewrite Z.div_div, Z.pow_add_r by lia. done. Qed.

(** The grouped number that is printed denotes the counter's value modulo
    10^15: a counter of 10^15 or more (a bit counter reaches it within hours
    at 100 Gbit/s) is shown without its leading digits. *)
Theorem format_print2_value val : in_u 64 val ->
  grouped_value 0 (net_stats_format_print2 val STATS_BUF_LEN) = val mod 10 ^ 15.
Proof.
  intros [Hv _]. unfold net_stats_format_print2.
  assert (forall x, 0 <= x mod 1000 < 1000) as Hm by (intros; apply Z.mod_pos_bound; lia).
  set (v1 := val / 1000). set (v2 := v1 / 1000). set (v3 := v2 / 1000). set (v4 := v3 / 1000).
  assert (val mod 10 ^ 15 = (((v4 mod 1000 * 1000 + v3 mod 1000) * 1000 + v2 mod 1000) * 1000
    + v1 mod 1000) * 1000 + val mod 1000) as ->.
  { subst v4 v3 v2 v1. change (10 ^ 15) with 1000000000000000.
    Z.to_euclidean_division_equations. lia. }
  pose proof (group_facts _ (Hm val)) as (A0 & A1 & A2 & A3).
  pose proof (group_facts _ (Hm v1)) as (B0 & B1 & B2 & B3).
  pose proof (group_facts _ (Hm v2)) as (C0 & C1 & C2 & C3).
  pose proof (group_facts _ (Hm v3)) as (D0 & D1 & D2 & D3).
  pose proof (group_facts _ (Hm v4)) as (E0 & E1 & E2 & E3).
  generalize dependent (val mod 1000). generalize dependent (v1 mod 1000).
  generalize dependent (v2 mod 1000). generalize dependent (v3 mod 1000).
  generalize dependent (v4 mod 1000). clear. intros.
  rewrite trunc_all.
  - destruct (Z.eqb_spec z 0), (Z.eqb_spec z0 0), (Z.eqb_spec z1 0), (Z.eqb_spec z2 0);
      simpl negb; cbv iota; rewrite ?grouped_value_app, ?comma_value; rewrite ?A0, ?B0, ?C0, ?D0, ?E0, ?D2, ?C2, ?B2, ?A2;
      subst; lia.
  - change (strlen ",") with 1 in *. unfold STATS_BUF_LEN.
    repeat case_match; rewrite ?strlen_app; change (strlen ",") with 1; lia.
Qed.

Lemma format_print2_value_witness :
  grouped_value 0 (net_stats_format_print2 1000000000000007 STATS_BUF_LEN)
  = 1000000000000007 mod 10 ^ 15.
Proof. apply format_print2_value. concrete_range. Defined.

(** ** Properties: the report fits *)

Lemma trunc_le len s : 1 <= len -> strlen (trunc len s) <= len - 1.
Proof.
  intros. unfold strlen, trunc.
  assert (forall n s, (String.length (substring 0 n s) <= n)%nat) as H'.
  { clear. induction n as [|n IH]; intros [|c s]; simpl; try lia. specialize (IH s). lia. }
  specialize (H' (Z.to_nat (len - 1)) s). lia.
Qed.

Lemma format_print3_le val space err : strlen (net_stats_format_print3 val STATS_BUF_LEN space err) <= 63.
Proof. unfold net_stats_format_print3. repeat case_match; apply trunc_le; unfold STATS_BUF_LEN; lia. Qed.

Lemma print_le v :
  strlen (net_stats_format_print v) <= 63 /\ strlen (net_stats_format_print_err v) <= 63
  /\ strlen (net_stats_format_print_short_err v) <= 63.
Proof. split; [|split]; apply format_print3_le. Qed.

Lemma SNPRINTF_fits s o n : strlen s <= n -> n < o_len o ->
  exists o', SNPRINTF s o = Some o' /\ o_len o' >= o_len o - n.
Proof.
  intros. unfold SNPRINTF. destruct (Z.leb_spec (o_len o) (strlen s)); [lia|].
  eexists. split; [done|]. simpl. lia.
Qed.

(** The length of a line is bounded by the sum of its parts. *)
Ltac line_length :=
  rewrite ?strlen_app;
  repeat match goal with
  | |- context [strlen (net_stats_format_print ?v)] =>
      lazymatch goal with
      | H : strlen (net_stats_format_print v) <= 63 |- _ => fail
      | _ => destruct (print_le v) as (? & ? & ?)
      end
  | |- context [strlen (net_stats_format_print_err ?v)] =>
      lazymatch goal with
      | H : strlen (net_stats_format_print_err v) <= 63 |- _ => fail
      | _ => destruct (print_le v) as (? & ? & ?)
      end
  | |- context [strlen (net_stats_format_print_short_err ?v)] =>
      lazymatch goal with
      | H : strlen (net_stats_format_print_short_err v) <= 63 |- _ => fail
      | _ => destruct (print_le v) as (? & ? & ?)
      end
  end;
  repeat match goal with
  | |- context [strlen ?s] =>
      lazymatch s with
      | String _ _ => let n := eval vm_compute in (strlen s) in change (strlen s) with n
      | newline => change (strlen newline) with 1
      end
  end;
  lia.

(** One [SNPRINTF] of at most [n] characters. *)
Ltac fits n :=
  match goal with
  | |- context [SNPRINTF ?s ?o] =>
      let o' := fresh "o" in let H := fresh "H" in let L := fresh "L" in
      destruct (SNPRINTF_fits s o n) as (o' & H & L); [line_length|lia|rewrite H]
  end.

Section Fits.
Context (g : tick_globals) (cfg : config) (stats : net_stats).

Lemma pkt_fits o : 400 < o_len o ->
  exists o', net_stats_print_pkt stats o = Some o' /\ o_len o' >= o_len o - 400.
Proof. intros. unfold net_stats_print_pkt. fits 400. by exists o0. Qed.

Lemma kni_fits o : 400 < o_len o ->
  exists o', net_stats_print_kni stats o = Some o' /\ o_len o' >= o_len o - 400.
Proof. intros. unfold net_stats_print_kni. fits 400. by exists o0. Qed.

Lemma proto_fits o : 900 < o_len o ->
  exists o', net_stats_print_proto_rx_tx stats o = Some o' /\ o_len o' >= o_len o - 900.
Proof.
  intros. unfold net_stats_print_proto_rx_tx. fits 300. cbn [mbind option_bind].
  fits 300. cbn [mbind option_bind]. fits 300. exists o2. split; [done|lia].
Qed.

Lemma flags_fits o : 500 < o_len o ->
  exists o', net_stats_print_tcp_flags stats o = Some o' /\ o_len o' >= o_len o - 500.
Proof. intros. unfold net_stats_print_tcp_flags. fits 500. by exists o0. Qed.

Lemma retransmit_fits o : 600 < o_len o ->
  exists o', net_stats_print_retransmit cfg stats o = Some o' /\ o_len o' >= o_len o - 600.
Proof.
  intros. unfold net_stats_print_retransmit. case_match.
  - fits 300. cbn [mbind option_bind]. fits 300. exists o1. split; [done|lia].
  - fits 300. exists o0. split; [done|lia].
Qed.

Lemma http_fits o : 400 < o_len o ->
  exists o', net_stats_print_http stats o = Some o' /\ o_len o' >= o_len o - 400.
Proof. intros. unfold net_stats_print_http. fits 400. by exists o0. Qed.

Lemma tcp_fits o : 400 < o_len o ->
  exists o', net_stats_print_tcp stats o = Some o' /\ o_len o' >= o_len o - 400.
Proof. intros. unfold net_stats_print_tcp. fits 400. by exists o0. Qed.

Lemma rtt_fits : stats NS_rtt_num = 0 \/ u64 (stats NS_rtt_num * (g_tsc_per_second g / 1000000)) ≠ 0 ->
  exists rtt, net_stats_print_rtt g stats STATS_BUF_LEN = Some rtt /\ strlen rtt <= 63.
Proof.
  intros Hr. unfold net_stats_print_rtt. change (1000 * 1000) with 1000000.
  destruct (Z.ltb_spec 0 (stats NS_rtt_num)).
  - destruct (Z.eqb_spec (u64 (stats NS_rtt_num * (g_tsc_per_second g / 1000000))) 0); [lia|].
    cbn [mbind option_bind]. eexists. split; [done|]. apply trunc_le. unfold STATS_BUF_LEN. lia.
  - cbn [mbind option_bind]. eexists. split; [done|]. apply trunc_le. unfold STATS_BUF_LEN. lia.
Qed.

Lemma socket_fits o : 400 < o_len o ->
  stats NS_rtt_num = 0 \/ u64 (stats NS_rtt_num * (g_tsc_per_second g / 1000000)) ≠ 0 ->
  exists o', net_stats_print_socket g cfg stats o = Some o' /\ o_len o' >= o_len o - 400.
Proof.
  intros Ho Hr. unfold net_stats_print_socket. case_match.
  - fits 400. by exists o0.
  - destruct (rtt_fits Hr) as (rtt & -> & Hl). cbn [mbind option_bind]. fits 400. by exists o0.
Qed.
End Fits.

(** The round-trip time is printed without a division by zero. *)
Definition rtt_ok (g : tick_globals) (stats : net_stats) : Prop :=
  stats NS_rtt_num = 0 \/ u64 (stats NS_rtt_num * (g_tsc_per_second g / 1000000)) ≠ 0.

Lemma net_stats_print_some g cfg stats o : 4096 <= o_len o -> rtt_ok g stats ->
  exists o', net_stats_print g cfg stats o = Some o' /\ 0 < o_len o'.
Proof.
  intros Ho Hr. unfold net_stats_print.
  destruct (pkt_fits stats o) as (o1 & -> & ?); [lia|]. cbn [mbind option_bind].
  assert (exists o2, (if c_kni cfg then net_stats_print_kni stats o1 else Some o1) = Some o2
    /\ o_len o2 >= o_len o1 - 400) as (o2 & -> & ?).
  { case_match; [apply kni_fits; lia|]. exists o1. split; [done|lia]. }
  cbn [mbind option_bind].
  destruct (proto_fits stats o2) as (o3 & -> & ?); [lia|]. cbn [mbind option_bind].
  assert (exists o4, (if c_protocol cfg =? IPPROTO_TCP then net_stats_print_tcp_flags stats o3
    else Some o3) = Some o4 /\ o_len o4 >= o_len o3 - 500) as (o4 & -> & ?).
  { case_match; [apply flags_fits; lia|]. exists o3. split; [done|lia]. }
  cbn [mbind option_bind].
  destruct (retransmit_fits cfg stats o4) as (o5 & -> & ?); [lia|]. cbn [mbind option_bind].
  destruct (socket_fits g cfg stats o5) as (o6 & -> & ?); [lia|done|]. cbn [mbind option_bind].
  case_match; [case_match|].
  - destruct (http_fits stats o6) as (o7 & -> & ?); [lia|]. exists o7. split; [done|lia].
  - destruct (tcp_fits stats o6) as (o7 & -> & ?); [lia|]. exists o7. split; [done|lia].
  - exists o6. split; [done|lia].
Qed.

Lemma lu_loop_length fuel n acc : strlen (lu_loop fuel n acc) <= strlen acc + Z.of_nat fuel.
Proof.
  revert n acc. induction fuel as [|fuel IH]; intros n acc; cbn [lu_loop]; [lia|].
  assert (strlen (String (digit (n mod 10)) acc) = strlen acc + 1) as E by (unfold strlen; cbn [String.length]; lia).
  case_match; [lia|]. etrans; [apply IH|]. lia.
Qed.
Lemma repeat_char_length c n : strlen (repeat_char c n) = Z.of_nat n.
Proof. unfold strlen. induction n as [|n IH]; cbn [repeat_char String.length]; lia. Qed.
Lemma fmt_left_length w n : 0 <= w <= 20 -> strlen (fmt_left w (fmt_lu n)) <= 20.
Proof.
  intros Hw. unfold fmt_left. rewrite strlen_app, repeat_char_length. pose proof (lu_loop_length 20 n "") as H.
  unfold fmt_lu. change (strlen "") with 0 in H. lia.
Qed.

Lemma cpusage_fits all o : 20 * Z.of_nat (List.length all) < o_len o ->
  exists o', cpusage_loop all o = Some o' /\ o_len o' >= o_len o - 20 * Z.of_nat (List.length all).
Proof.
  revert o. induction all as [|s all IH]; intros o Ho; cbn [cpusage_loop List.length] in *; [exists o; split; [done|lia]|].
  destruct (SNPRINTF_fits (fmt_left 4 (fmt_lu (s NS_cpusage))) o 20) as (o1 & -> & L1); [by apply fmt_left_length|lia|].
  cbn [mbind option_bind]. destruct (IH o1 ltac:(lia)) as (o2 & -> & L2). exists o2. split; [done|lia].
Qed.

(** C24: no report is lost.  With at most 64 workers, whatever their counters
    are, the report of a second and the final one fit in the 8192 bytes of the
    buffer: each is printed, followed by the line of the ports.  Only the
    round-trip time could fail, by a division by zero.  A report of a second
    remembers the sums for the next one. *)
Theorem net_stats_reports_fit g cfg ports all total seconds :
  (List.length all <= Z.to_nat THREAD_NUM_MAX)%nat -> c_quiet cfg = false ->
  rtt_ok g (net_stats_del (net_stats_sum all) total) -> rtt_ok g (net_stats_sum all) ->
  (exists text, net_stats_print_speed g cfg ports all total seconds
     = ([text; net_stats_print_eth ports], net_stats_clear_mutable (net_stats_sum all)))
  /\ exists text, net_stats_print_total g cfg ports all = [text; net_stats_print_eth ports].
Proof.
  intros Hall Hq Hr1 Hr2. change (Z.to_nat THREAD_NUM_MAX) with 64%nat in Hall. split.
  - unfold net_stats_print_speed. rewrite Hq.
    destruct (SNPRINTF_fits (newline ++ "seconds " ++ fmt_left 18 (fmt_lu (u64 seconds))) (OutBuf "" NET_STATS_BUF_LEN) 40) as (o1 & -> & L1).
    { rewrite !strlen_app. pose proof (fmt_left_length 18 (u64 seconds) ltac:(lia)). change (strlen newline) with 1. change (strlen "seconds ") with 8. lia. }
    { done. }
    change (o_len (OutBuf "" NET_STATS_BUF_LEN)) with 8192 in L1. cbn [net_stats_get_speed]. unfold net_stats_get_speed, net_stats_assign.
    cbv beta iota zeta. unfold net_stats_cpusage_print. fits 10. cbn [mbind option_bind].
    destruct (cpusage_fits all o) as (o2 & -> & L2); [lia|]. cbn [mbind option_bind]. fits 1. cbn [mbind option_bind].
    destruct (net_stats_print_some g cfg (net_stats_del (net_stats_sum all) total) o0) as (o4 & -> & _); [lia|done|]. by eexists.
  - unfold net_stats_print_total. set (o := OutBuf "" NET_STATS_BUF_LEN). assert (o_len o = 8192) as L by done. clearbody o.
    repeat (match goal with |- context [SNPRINTF ?s ?o] => 
      let o' := fresh "o" in let H := fresh "H" in let L' := fresh "L" in
      destruct (SNPRINTF_fits s o 40) as (o' & H & L'); [by vm_compute|lia|rewrite H]; clear H end; cbn [mbind option_bind]).
    destruct (net_stats_print_some g cfg (net_stats_sum all) o7) as (o8 & -> & _); [lia|done|]. by eexists.
Qed.

Lemma net_stats_reports_fit_witness :
  (exists text, net_stats_print_speed (TickGlobals 250000 2500000000) g_config_init [EthStats 1 2 3] [example_stats 5; example_stats 9] net_stats_zero 7
     = ([text; net_stats_print_eth [EthStats 1 2 3]], net_stats_clear_mutable (net_stats_sum [example_stats 5; example_stats 9])))
  /\ exists text, net_stats_print_total (TickGlobals 250000 2500000000) g_config_init [EthStats 1 2 3] [example_stats 5; example_stats 9]
     = [text; net_stats_print_eth [EthStats 1 2 3]].
Proof.
  apply (net_stats_reports_fit (TickGlobals 250000 2500000000) g_config_init [EthStats 1 2 3] [example_stats 5; example_stats 9] net_stats_zero 7).
  - vm_compute. lia.
  - reflexivity.
  - right. vm_compute. discriminate.
  - right. vm_compute. discriminate.
Defined.
