(* ===== verification/World.v ===== *)
(** * World: the state of a worker thread

    The structures of [src/socket.h], [src/mbuf_cache.h], [src/mbuf.h] and
    [src/work_space.h], the thread-local and global variables a worker uses,
    and the elementary accesses to them.  Sockets are named by their index in
    the pool; the intrusive list nodes live in the store of SocketNode; the
    calls to DPDK are recorded, newest first. *)

From S2P Require Import Prelude SocketNode IpRange Tick Config Mbuf NetStats.

(** ** Sockets *)

Inductive sk_state :=
  | SK_CLOSED | SK_LISTEN | SK_SYN_SENT | SK_SYN_RECEIVED | SK_ESTABLISHED | SK_CLOSE_WAIT
  | SK_FIN_WAIT_1 | SK_CLOSING | SK_LAST_ACK | SK_FIN_WAIT_2 | SK_TIME_WAIT.
#[export] Instance sk_state_eq_dec : EqDecision sk_state.
Proof. solve_decision. Defined.

(** The value of the enumerator, for the comparisons of the code. *)
Definition sk_state_num (s : sk_state) : Z :=
  match s with
  | SK_CLOSED => 0 | SK_LISTEN => 1 | SK_SYN_SENT => 2 | SK_SYN_RECEIVED => 3
  | SK_ESTABLISHED => 4 | SK_CLOSE_WAIT => 5 | SK_FIN_WAIT_1 => 6 | SK_CLOSING => 7
  | SK_LAST_ACK => 8 | SK_FIN_WAIT_2 => 9 | SK_TIME_WAIT => 10
  end.
Definition sk_gt (s t : sk_state) : bool := sk_state_num t <? sk_state_num s.
Definition sk_lt (s t : sk_state) : bool := sk_state_num s <? sk_state_num t.
Definition sk_is (s t : sk_state) : bool := bool_decide (s = t).

(** The states of the HTTP parser ([src/http_parse.h]). *)
Inductive http_state :=
  | HTTP_INIT | HTTP_HEADER_BEGIN | HTTP_HEADER_LINE_END | HTTP_HEADER_DONE | HTTP_CHUNK_SIZE
  | HTTP_CHUNK_SIZE_END | HTTP_CHUNK_DATA | HTTP_CHUNK_DATA_END | HTTP_CHUNK_TRAILER_BEGIN
  | HTTP_CHUNK_TRAILER | HTTP_CHUNK_END | HTTP_BODY_DONE | HTTP_ERROR.
#[export] Instance http_state_eq_dec : EqDecision http_state.
Proof. solve_decision. Defined.

(** [struct socket] without its list node.  [retrans] has 3 bits,
    [keepalive_request_num] 15 and [http_frags] 7. *)
Record socket := Socket {
  sk_rcv_nxt : Z;
  sk_snd_nxt : Z;
  sk_snd_una : Z;
  sk_flags : Z;
  sk_st : sk_state;
  sk_retrans : Z;
  sk_keepalive : bool;
  sk_keepalive_request_num : Z;
  sk_timer_tsc : Z;
  sk_csum_tcp_data : Z;
  sk_csum_ip : Z;
  sk_csum_ip_opt : Z;
  sk_csum_ip_data : Z;
  sk_laddr : Z;
  sk_faddr : Z;
  sk_lport : Z;
  sk_fport : Z;
  sk_csum_tcp : Z;
  sk_csum_tcp_opt : Z;
  sk_http_length : Z;
  sk_http_parse_state : http_state;
  sk_http_flags : Z;
  sk_http_ack : bool;
  sk_http_frags : Z;
  sk_snd_window : Z;
  sk_snd_max : Z;
}.
#[export] Instance eta_socket : Eta socket := fun x =>
  Socket (sk_rcv_nxt x) (sk_snd_nxt x) (sk_snd_una x) (sk_flags x) (sk_st x) (sk_retrans x)
    (sk_keepalive x) (sk_keepalive_request_num x) (sk_timer_tsc x) (sk_csum_tcp_data x)
    (sk_csum_ip x) (sk_csum_ip_opt x) (sk_csum_ip_data x) (sk_laddr x) (sk_faddr x) (sk_lport x)
    (sk_fport x) (sk_csum_tcp x) (sk_csum_tcp_opt x) (sk_http_length x) (sk_http_parse_state x)
    (sk_http_flags x) (sk_http_ack x) (sk_http_frags x) (sk_snd_window x) (sk_snd_max x).

(** A zero-initialised socket. *)
Definition socket_zero : socket :=
  Socket 0 0 0 0 SK_CLOSED 0 false 0 0 0 0 0 0 0 0 0 0 0 0 0 HTTP_INIT 0 false 0 0 0.

(** The lookup table of a worker: [ht] maps the low 16 bits of a client
    address to the first socket of its port table, and [socket_table_hash]
    maps an RSS queue to the worker whose table it is. *)
Record socket_table := SocketTable {
  st_server_ip_num : Z;
  st_server_ip_min : Z;
  st_server_ip_max : Z;
  st_server_port_num : Z;
  st_server_port_min : Z;
  st_server_port_max : Z;
  st_client_port_num : Z;
  st_client_port_min : Z;
  st_client_port_max : Z;
  st_server_ip_port_num : Z;
  st_client_hop : bool;
  st_rss : bool;
  st_rss_id : Z;
  st_rss_num : Z;
  st_socket_table_hash : list (option Z);
  st_ht : gmap Z N;
  st_pool_base : N;
  st_pool_num : Z;
  st_pool_next : Z;
}.
#[export] Instance eta_socket_table : Eta socket_table := fun x =>
  SocketTable (st_server_ip_num x) (st_server_ip_min x) (st_server_ip_max x) (st_server_port_num
    x) (st_server_port_min x) (st_server_port_max x) (st_client_port_num x) (st_client_port_min
    x) (st_client_port_max x) (st_server_ip_port_num x) (st_client_hop x) (st_rss x) (st_rss_id
    x) (st_rss_num x) (st_socket_table_hash x) (st_ht x) (st_pool_base x) (st_pool_num x)
    (st_pool_next x).

(** ** Templates *)

(** [struct mbuf_data]; [md_data] holds the bytes written so far. *)
Record mbuf_data := MbufData {
  md_data : list Z;
  md_ipv6 : bool;
  md_vxlan : bool;
  md_l2_len : Z;
  md_l3_len : Z;
  md_l4_len : Z;
  md_data_len : Z;
  md_total_len : Z;
}.
#[export] Instance eta_mbuf_data : Eta mbuf_data := fun x =>
  MbufData (md_data x) (md_ipv6 x) (md_vxlan x) (md_l2_len x) (md_l3_len x) (md_l4_len x)
    (md_data_len x) (md_total_len x).
Definition mbuf_data_zero : mbuf_data := MbufData [] false false 0 0 0 0 0.

(** ** Work space *)

(** The transmit queue: an array of [TX_QUEUE_SIZE] slots. *)
Record tx_queue := TxQueue {
  tx_head : Z;
  tx_tail : Z;
  tx_burst : Z;
  tx_slots : gmap Z mbuf;
}.
#[export] Instance eta_tx_queue : Eta tx_queue := fun x =>
  TxQueue (tx_head x) (tx_tail x) (tx_burst x) (tx_slots x).

Record client_launch := ClientLaunch {
  cl_cc : Z;
  cl_launch_next : Z;
  cl_launch_interval : Z;
  cl_launch_interval_default : Z;
  cl_launch_reduce : Z;
  cl_launch_num : Z;
}.
#[export] Instance eta_client_launch : Eta client_launch := fun x =>
  ClientLaunch (cl_cc x) (cl_launch_next x) (cl_launch_interval x) (cl_launch_interval_default
    x) (cl_launch_reduce x) (cl_launch_num x).

(** [ws_tcp] is the union of the [tcp] and [udp] templates; [ws_ack_delay]
    holds the [next] sockets of the delayed-acknowledgement array. *)
Record work_space := WorkSpace {
  ws_id : Z;
  ws_ipv6 : bool;
  ws_server : bool;
  ws_kni : bool;
  ws_change_dip : bool;
  ws_http : bool;
  ws_flood : bool;
  ws_fast_close : bool;
  ws_disable_ack : bool;
  ws_neigh_ignore : bool;
  ws_send_window : Z;
  ws_tos : Z;
  ws_port_id : Z;
  ws_queue_id : Z;
  ws_ip_id : Z;
  ws_lldp : bool;
  ws_exit : bool;
  ws_stop : bool;
  ws_start : bool;
  ws_vlan_id : Z;
  ws_vni : Z;
  ws_vxlan : bool;
  ws_vtep_ip : Z;
  ws_payload_size : Z;
  ws_time : tick_time;
  ws_load : cpuload;
  ws_client_launch : client_launch;
  ws_tcp_opt : mbuf_data;
  ws_tcp_data : mbuf_data;
  ws_tcp : mbuf_data;
  ws_port : netif_port;
  ws_ack_delay : list N;
  ws_tx_queue : tx_queue;
  ws_dip_list : ip_list;
  ws_socket_table : socket_table;
}.
#[export] Instance eta_work_space : Eta work_space := fun x =>
  WorkSpace (ws_id x) (ws_ipv6 x) (ws_server x) (ws_kni x) (ws_change_dip x) (ws_http x)
    (ws_flood x) (ws_fast_close x) (ws_disable_ack x) (ws_neigh_ignore x) (ws_send_window x)
    (ws_tos x) (ws_port_id x) (ws_queue_id x) (ws_ip_id x) (ws_lldp x) (ws_exit x) (ws_stop x)
    (ws_start x) (ws_vlan_id x) (ws_vni x) (ws_vxlan x) (ws_vtep_ip x) (ws_payload_size x)
    (ws_time x) (ws_load x) (ws_client_launch x) (ws_tcp_opt x) (ws_tcp_data x) (ws_tcp x)
    (ws_port x) (ws_ack_delay x) (ws_tx_queue x) (ws_dip_list x) (ws_socket_table x).

(** ** The worker and what it touches *)

Record world := World {
  w_cfg : config;
  w_tick : tick_globals;
  w_ws : work_space;
  w_peers : list (option work_space);
  w_stats : net_stats;
  w_sockets : gmap N socket;
  w_links : links;
  w_free_pool : list mbuf;
  w_lldp_packet : list Z;
  w_io : list io;
  w_offload_ipv4_cksum : Z;
  w_offload_tcpudp_cksum : Z;
}.
#[export] Instance eta_world : Eta world := fun x =>
  World (w_cfg x) (w_tick x) (w_ws x) (w_peers x) (w_stats x) (w_sockets x) (w_links x)
    (w_free_pool x) (w_lldp_packet x) (w_io x) (w_offload_ipv4_cksum x) (w_offload_tcpudp_cksum x).

Abbreviation M := (ST world).

(** ** Elementary accesses *)

Definition ws_get {A} (f : work_space -> A) : M A := st_gets (fun w => f (w_ws w)).
Definition ws_mod (f : work_space -> work_space) : M unit := st_modify (fun w => w <| w_ws ::= f |>).
Definition cfg_get {A} (f : config -> A) : M A := st_gets (fun w => f (w_cfg w)).
Definition stat_mod (f : net_stats -> net_stats) : M unit := st_modify (fun w => w <| w_stats ::= f |>).
Definition stat_inc (k : stat) : M unit := stat_mod (net_stats_inc k).
Definition io_log (e : io) : M unit := st_modify (fun w => w <| w_io ::= cons e |>).

(** [work_space_tsc(ws)] and [TSC_PER_SEC]. *)
Definition work_space_tsc : M Z := ws_get (fun ws => tsc (ws_time ws)).
Definition TSC_PER_SEC : M Z := st_gets (fun w => g_tsc_per_second (w_tick w)).

(** Reading and writing a socket; a pointer outside the pools is a fault. *)
Definition sk_get (i : N) : M socket :=
  fun w => match w_sockets w !! i with Some sk => Ok (sk, w) | None => Err OutOfBounds end.
Definition sk_mod (i : N) (f : socket -> socket) : M unit :=
  fun w => match w_sockets w !! i with
           | Some sk => Ok (tt, w <| w_sockets ::= insert i (f sk) |>)
           | None => Err OutOfBounds
           end.

(** An operation on the timer queues. *)
Definition link_op (f : links -> option links) : M unit :=
  fun w => match f (w_links w) with
           | Some l => Ok (tt, w <| w_links := l |>)
           | None => Err OutOfBounds
           end.

(** ** Rules *)

Section Rules.
Implicit Types (w : world).

Lemma wp_ws_get {A} (f : work_space -> A) Q w : Q (f (w_ws w)) w -> wp (ws_get f) Q w.
Proof. done. Qed.
Lemma wp_ws_mod f Q w : Q tt (w <| w_ws ::= f |>) -> wp (ws_mod f) Q w.
Proof. done. Qed.
Lemma wp_cfg_get {A} (f : config -> A) Q w : Q (f (w_cfg w)) w -> wp (cfg_get f) Q w.
Proof. done. Qed.
Lemma wp_stat_mod f Q w : Q tt (w <| w_stats ::= f |>) -> wp (stat_mod f) Q w.
Proof. done. Qed.
Lemma wp_stat_inc k Q w : Q tt (w <| w_stats ::= net_stats_inc k |>) -> wp (stat_inc k) Q w.
Proof. done. Qed.
Lemma wp_io_log e Q w : Q tt (w <| w_io ::= cons e |>) -> wp (io_log e) Q w.
Proof. done. Qed.
Lemma wp_tsc Q w : Q (tsc (ws_time (w_ws w))) w -> wp work_space_tsc Q w.
Proof. done. Qed.
Lemma wp_tsc_per_sec Q w : Q (g_tsc_per_second (w_tick w)) w -> wp TSC_PER_SEC Q w.
Proof. done. Qed.
Lemma wp_sk_get i sk Q w : w_sockets w !! i = Some sk -> Q sk w -> wp (sk_get i) Q w.
Proof. unfold wp, sk_get. by intros ->. Qed.
Lemma wp_sk_mod i sk f Q w :
  w_sockets w !! i = Some sk -> Q tt (w <| w_sockets ::= insert i (f sk) |>) ->
  wp (sk_mod i f) Q w.
Proof. unfold wp, sk_mod. by intros ->. Qed.
Lemma wp_link_op f l Q w :
  f (w_links w) = Some l -> Q tt (w <| w_links := l |>) -> wp (link_op f) Q w.
Proof. unfold wp, link_op. by intros ->. Qed.
End Rules.

(** [wp_pure] runs the steps that need no side condition. *)
Ltac wp_pure_step :=
  match goal with
  | |- wp (mret _) _ _ => apply wp_ret
  | |- wp (_ ≫= _) _ _ => apply wp_bind
  | |- wp (st_gets _) _ _ => apply wp_gets
  | |- wp (st_modify _) _ _ => apply wp_modify
  | |- wp (ws_get _) _ _ => apply wp_ws_get
  | |- wp (ws_mod _) _ _ => apply wp_ws_mod
  | |- wp (cfg_get _) _ _ => apply wp_cfg_get
  | |- wp (stat_mod _) _ _ => apply wp_stat_mod
  | |- wp (stat_inc _) _ _ => apply wp_stat_inc
  | |- wp (io_log _) _ _ => apply wp_io_log
  | |- wp work_space_tsc _ _ => apply wp_tsc
  | |- wp TSC_PER_SEC _ _ => apply wp_tsc_per_sec
  end; cbv beta.
Ltac wp_pure := repeat wp_pure_step.

(** [wp_reads] runs the reads in front of a computation. *)
Ltac wp_reads := repeat
  match goal with
  | |- wp (ws_get _ ≫= _) _ _ => apply wp_bind, wp_ws_get; cbv beta
  | |- wp (cfg_get _ ≫= _) _ _ => apply wp_bind, wp_cfg_get; cbv beta
  | |- wp (st_gets _ ≫= _) _ _ => apply wp_bind, wp_gets; cbv beta
  | |- wp (work_space_tsc ≫= _) _ _ => apply wp_bind, wp_tsc; cbv beta
  | |- wp (TSC_PER_SEC ≫= _) _ _ => apply wp_bind, wp_tsc_per_sec; cbv beta
  | |- wp (mret _ ≫= _) _ _ => apply wp_bind, wp_ret; cbv beta
  end.

(** [wp_use H by t]: the triple [H], its premises solved by [t]. *)
Tactic Notation "wp_use" uconstr(H) "by" tactic3(t) :=
  eapply wp_mono; [apply H; t | cbv beta].

(** ** A small worker, for examples

    A client with two sockets, 10.0.0.1:1 and 10.0.0.1:2 to 10.0.0.2:80, and
    IPv4 templates; the server's view is obtained by exchanging the addresses. *)
Module Demo.
Definition template (opts data : nat) : mbuf_data :=
  let ip_len := Z.of_nat (40 + opts + data) in
  MbufData
    ([2; 0; 0; 0; 0; 2; 2; 0; 0; 0; 0; 1; 8; 0]
     ++ [69; 0; 0; ip_len; 0; 0; 64; 0; 64; 6; 0; 0; 0; 0; 0; 0; 0; 0; 0; 0]
     ++ [0; 0; 0; 0; 0; 0; 0; 0; 0; 0; 0; 0; 80 + 16 * Z.of_nat (opts / 4); 0; 228; 32; 0; 0; 0; 0]
     ++ replicate opts 1 ++ replicate data 97)
    false false 14 20 (20 + Z.of_nat opts) (Z.of_nat data) (54 + Z.of_nat opts + Z.of_nat data).

Definition demo_socket (lport_ : Z) : socket :=
  socket_zero <| sk_laddr := htonl 167772161 |> <| sk_faddr := htonl 167772162 |>
              <| sk_lport := htons lport_ |> <| sk_fport := htons 80 |> <| sk_snd_nxt := 1000 |>.

Definition demo_table : socket_table := {|
  st_server_ip_num := 1; st_server_ip_min := 167772162; st_server_ip_max := 167772162;
  st_server_port_num := 1; st_server_port_min := 80; st_server_port_max := 80;
  st_client_port_num := 2; st_client_port_min := 1; st_client_port_max := 2;
  st_server_ip_port_num := 1; st_client_hop := false; st_rss := false; st_rss_id := 0;
  st_rss_num := 1; st_socket_table_hash := replicate 256 None; st_ht := {[ 1 := 0%N ]};
  st_pool_base := 0%N; st_pool_num := 2; st_pool_next := 0 |}.

Definition demo_ws : work_space := {|
  ws_id := 0; ws_ipv6 := false; ws_server := false; ws_kni := false; ws_change_dip := false;
  ws_http := false; ws_flood := false; ws_fast_close := false; ws_disable_ack := false;
  ws_neigh_ignore := false; ws_send_window := 0; ws_tos := 0; ws_port_id := 0; ws_queue_id := 0;
  ws_ip_id := 0; ws_lldp := false; ws_exit := false; ws_stop := false; ws_start := true;
  ws_vlan_id := 0; ws_vni := 0; ws_vxlan := false; ws_vtep_ip := 0; ws_payload_size := 0;
  ws_time := TickTime 10000 (TscTime 0 0 100) (TscTime 0 0 1000) (TscTime 0 0 10000);
  ws_load := CpuLoad 0 0 0;
  ws_client_launch := ClientLaunch 0 0 10000 10000 0 1;
  ws_tcp_opt := template 8 0; ws_tcp_data := template 0 30; ws_tcp := template 0 0;
  ws_port := netif_port_zero <| np_server_ip_range := example_range |>;
  ws_ack_delay := []; ws_tx_queue := TxQueue 0 0 8 ∅;
  ws_dip_list := ip_list_zero; ws_socket_table := demo_table |}.

Definition demo_links : links :=
  match socket_timer_init
    (<[Sock 0 := SocketNode (Sock 0) (Sock 0)]> (<[Sock 1 := SocketNode (Sock 1) (Sock 1)]>
     (<[Head T_retransmit := SocketNode (Head T_retransmit) (Head T_retransmit)]>
     (<[Head T_keepalive := SocketNode (Head T_keepalive) (Head T_keepalive)]>
     (<[Head T_timeout := SocketNode (Head T_timeout) (Head T_timeout)]> ∅))))) with
  | Some l => l
  | None => ∅
  end.

Definition demo_world : world := {|
  w_cfg := g_config_init <| c_protocol := IPPROTO_TCP |> <| c_retransmit_timeout := 20000 |>
             <| c_duration := 60 |>;
  w_tick := TickGlobals 100 10000; w_ws := demo_ws; w_peers := []; w_stats := net_stats_zero;
  w_sockets := <[0%N := demo_socket 1]> {[1%N := demo_socket 2]}; w_links := demo_links;
  w_free_pool := []; w_lldp_packet := replicate 92 0; w_io := []; w_offload_ipv4_cksum := 1; w_offload_tcpudp_cksum := 1 |}.
End Demo.
