(* ===== verification/WorkSpace.v ===== *)
(** * WorkSpace: packets in and out of a worker

    The free pool of [src/mbuf.h], the template allocation of
    [src/mbuf_cache.h], the checksum offload of [src/csum.h] and the transmit
    queue of [src/work_space.h], with the launch control of the client. *)

From S2P Require Import Prelude SocketNode IpRange Tick Config Mbuf NetStats World.

(** A packet operation inside the worker's monad. *)
Definition m_op (o : option mbuf) : M mbuf := st_lift OutOfBounds o.
Definition m_st (f : list Z -> option (list Z)) (m : mbuf) : M mbuf := m_op (m_store f m).
Definition m_ld (o : option Z) : M Z := st_lift OutOfBounds o.

Section WorkSpace.
Context {D : Dpdk}.

(** ** Freeing packets *)

Definition MBUF_FREE_POOL_SIZE : Z := 128.

Definition mbuf_free (m : mbuf) : M unit := io_log (Io_free m).

Definition mbuf_free2_flush : M unit :=
  pool ← st_gets w_free_pool;
  st_when (bool_decide (pool ≠ []))
    (io_log (Io_free_bulk pool);; st_modify (fun w => w <| w_free_pool := [] |>)).

Definition mbuf_free2 (m : mbuf) : M unit :=
  pool ← st_gets w_free_pool;
  if MBUF_FREE_POOL_SIZE <=? Z.of_nat (length pool) then st_fail OutOfBounds
  else
    st_modify (fun w => w <| w_free_pool := pool ++ [m] |>);;
    st_when (MBUF_FREE_POOL_SIZE <=? Z.of_nat (length pool) + 1) mbuf_free2_flush.

(** ** Allocating packets *)

Definition pktmbuf_alloc (p : pool) : M (option mbuf) :=
  h ← st_gets w_io;
  let m := rte_pktmbuf_alloc h p in
  io_log (Io_alloc p m);; mret m.

Definition work_space_alloc_mbuf : M (option mbuf) := pktmbuf_alloc Pool_port.

(** [mbuf_push_data]: the address and the longer packet; the callers write
    through the pointer without a test, so a [NULL] is a fault. *)
Definition mbuf_push_data (m : mbuf) (size : Z) : M (Z * mbuf) :=
  st_lift OutOfBounds (rte_pktmbuf_append m size).

Definition cache_data (c : cache_id) (ws : work_space) : mbuf_data :=
  match c with
  | Cache_tcp => ws_tcp ws
  | Cache_tcp_opt => ws_tcp_opt ws
  | Cache_tcp_data => ws_tcp_data ws
  end.

(** A packet that already carries the template is reused as it is. *)
Definition mbuf_cache_alloc (c : cache_id) : M (option mbuf) :=
  data ← ws_get (cache_data c);
  m ← pktmbuf_alloc (Pool_cache c);
  match m with
  | None => mret None
  | Some m =>
      if bool_decide (m_userdata m = Some c) then
        '(_, m) ← mbuf_push_data m (md_total_len data);
        mret (Some m)
      else
        let m := m <| m_userdata := Some c |> in
        '(p, m) ← mbuf_push_data m (md_total_len data);
        m ← m_st (st_bytes p (md_data data)) m;
        mret (Some m)
  end.

Definition mbuf_copy (dst src : mbuf) : M mbuf :=
  let len := m_data_len src in
  data ← st_lift OutOfBounds (ld_bytes (m_buf src) (mbuf_eth_hdr src) len);
  '(p, dst) ← mbuf_push_data dst len;
  m_st (st_bytes p data) dst.

Definition mbuf_dup (m : mbuf) : M (option mbuf) :=
  m2 ← work_space_alloc_mbuf;
  match m2 with
  | None => mret None
  | Some m2 => m2 ← mbuf_copy m2 m; mret (Some m2)
  end.

(** ** Checksum offload *)

Definition csum_ipv4 (m : mbuf) (offload : Z) : M mbuf :=
  let iph := mbuf_ip_hdr m in
  m ← m_st (st16 (iph + iph_check) 0) m;
  if negb (offload =? 0) then
    mret (m <| m_ol_flags ::= fun f => f ||| RTE_MBUF_F_TX_IP_CKSUM |>
            <| m_l2_len := ETH_HDR_LEN |> <| m_l3_len := IPHDR_LEN |>)
  else m_st (st16 (iph + iph_check) (rte_ipv4_cksum (bytes_from (m_buf m) iph))) m.

Definition csum_ip_offload (m : mbuf) : M mbuf :=
  o ← st_gets w_offload_ipv4_cksum;
  csum_ipv4 m o.

Definition csum_ip_compute (m : mbuf) : M mbuf := csum_ipv4 m 0.

Definition csum_offload_ip_tcpudp (m : mbuf) (ol_flags : Z) : M mbuf :=
  offload_ip ← st_gets w_offload_ipv4_cksum;
  offload_l4 ← st_gets w_offload_tcpudp_cksum;
  let iph := mbuf_ip_hdr m in
  th ← m_ld (mbuf_tcp_hdr m);
  let m := m <| m_l2_len := ETH_HDR_LEN |> in
  version ← m_ld (ld_ip_version (m_buf m) iph);
  if version =? 4 then
    let m := m <| m_l3_len := IPHDR_LEN |> in
    m ← m_st (st8 (iph + iph_ttl) DEFAULT_TTL) m;
    m ← m_st (st16 (iph + iph_check) 0) m;
    m ← (if offload_l4 =? 0 then
           m ← m_st (st16 (th + th_sum) 0) m;
           m_st (st16 (th + th_sum)
             (rte_ipv4_udptcp_cksum (bytes_from (m_buf m) iph) (bytes_from (m_buf m) th))) m
         else mret (m <| m_ol_flags := ol_flags ||| RTE_MBUF_F_TX_IPV4 |>));
    if negb (offload_ip =? 0) then
      mret (m <| m_ol_flags ::= fun f => f ||| (RTE_MBUF_F_TX_IP_CKSUM ||| RTE_MBUF_F_TX_IPV4) |>)
    else m_st (st16 (iph + iph_check) (rte_ipv4_cksum (bytes_from (m_buf m) iph))) m
  else
    m ← m_st (st8 (iph + ip6_hops) DEFAULT_TTL) m;
    if offload_l4 =? 0 then
      m ← m_st (st16 (th + th_sum) 0) m;
      m_st (st16 (th + th_sum)
        (rte_ipv6_udptcp_cksum (bytes_from (m_buf m) iph) (bytes_from (m_buf m) th))) m
    else
      mret (m <| m_l3_len := IP6_HDR_LEN |> <| m_ol_flags := ol_flags ||| RTE_MBUF_F_TX_IPV6 |>).

(** ** The transmit queue *)

(** The packets in the slots [i, i + n). *)
Fixpoint slots_from (slots : gmap Z mbuf) (i : Z) (n : nat) : option (list mbuf) :=
  match n with
  | O => Some []
  | S n => m ← slots !! i; ms ← slots_from slots (i + 1) n; Some (m :: ms)
  end.

Definition txq_get {A} (f : tx_queue -> A) : M A := ws_get (fun ws => f (ws_tx_queue ws)).
Definition txq_mod (f : tx_queue -> tx_queue) : M unit :=
  ws_mod (fun ws => ws <| ws_tx_queue ::= f |>).
Definition txq_reset : M unit := txq_mod (fun q => q <| tx_head := 0 |> <| tx_tail := 0 |>).

Definition eth_tx_burst (port queue : Z) (ms : list mbuf) : M Z :=
  h ← st_gets w_io;
  let n := rte_eth_tx_burst h port queue ms in
  io_log (Io_tx_burst port queue ms n);; mret n.

(** One round of the loop of [work_space_tx_flush]; [true] is its return. *)
Definition tx_flush_round : M bool :=
  q ← txq_get id;
  port_id ← ws_get ws_port_id;
  queue_id ← ws_get ws_queue_id;
  let num := Z.min (tx_tail q - tx_head q) (tx_burst q) in
  tx ← st_lift OutOfBounds (slots_from (tx_slots q) (tx_head q) (Z.to_nat num));
  n ← eth_tx_burst port_id queue_id tx;
  txq_mod (fun q => q <| tx_head := u16 (tx_head q + n) |>);;
  q ← txq_get id;
  if tx_head q =? tx_tail q then txq_reset;; mret true
  else mret (tx_tail q <? TX_QUEUE_SIZE).

Fixpoint tx_flush_loop (n : nat) : M bool :=
  match n with
  | O => mret false
  | S n => done ← tx_flush_round; if (done : bool) then mret true else tx_flush_loop n
  end.

Fixpoint free_all (ms : list mbuf) : M unit :=
  match ms with [] => mret tt | m :: ms => io_log (Io_free m);; free_all ms end.

Definition work_space_tx_flush : M unit :=
  q ← txq_get id;
  if tx_head q =? tx_tail q then mret tt
  else
    done ← tx_flush_loop 8;
    if (done : bool) then mret tt
    else
      q ← txq_get id;
      let num := tx_tail q - tx_head q in
      stat_mod (net_stats_tx_drop num);;
      tx ← st_lift OutOfBounds (slots_from (tx_slots q) (tx_head q) (Z.to_nat num));
      free_all tx;;
      txq_reset.

Definition work_space_tx_send (m : mbuf) : M unit :=
  vlan_id ← ws_get ws_vlan_id;
  let m := if negb (vlan_id =? 0)
           then m <| m_ol_flags ::= fun f => f ||| RTE_MBUF_F_TX_VLAN |> <| m_vlan_tci := vlan_id |>
           else m in
  stat_mod (net_stats_tx (m_data_len m));;
  tail ← txq_get tx_tail;
  if TX_QUEUE_SIZE <=? tail then st_fail OutOfBounds
  else
    txq_mod (fun q => q <| tx_slots ::= insert tail m |> <| tx_tail := tail + 1 |>);;
    q ← txq_get id;
    st_when ((tx_burst q <=? tx_tail q - tx_head q) || (tx_tail q =? TX_QUEUE_SIZE))
      work_space_tx_flush.

Definition work_space_tx_send_tcp (m : mbuf) : M unit :=
  vxlan ← ws_get ws_vxlan;
  let ol_flags := if (vxlan : bool) then RTE_MBUF_F_TX_UDP_CKSUM else RTE_MBUF_F_TX_TCP_CKSUM in
  m ← csum_offload_ip_tcpudp m ol_flags;
  stat_inc NS_tcp_tx;;
  work_space_tx_send m.

Definition work_space_tx_send_udp (m : mbuf) : M unit :=
  m ← csum_offload_ip_tcpudp m RTE_MBUF_F_TX_UDP_CKSUM;
  stat_inc NS_udp_tx;;
  work_space_tx_send m.

(** ** Launch control *)

Definition work_space_in_duration : M bool :=
  duration ← cfg_get c_duration;
  ws ← ws_get id;
  mret ((count (second (ws_time ws)) <? u64 duration) && negb (ws_stop ws)).

Definition socket_disable_keepalive_random : M unit :=
  first ← (fun w => match socket_queue_first T_keepalive (w_links w) with
                    | Some r => Ok (r, w) | None => Err OutOfBounds end);
  match first with
  | Some i => sk_mod i (fun sk => sk <| sk_keepalive := false |>)
  | None => mret tt
  end.

Definition cl_mod (f : client_launch -> client_launch) : M unit :=
  ws_mod (fun ws => ws <| ws_client_launch ::= f |>).

Definition work_space_client_launch_num : M Z :=
  ws ← ws_get id;
  let cl := ws_client_launch ws in
  let launch_num := cl_launch_num cl in
  let cc := cl_cc cl in
  if cl_launch_next cl <=? tsc (ws_time ws) then
    cl_mod (fun cl => cl <| cl_launch_next := u64 (cl_launch_next cl + cl_launch_interval cl) |>);;
    if 0 <? cc then
      current ← st_gets (fun w => w_stats w NS_socket_current);
      if current <? cc then
        let gap := cc - current in
        mret (if gap <? launch_num then gap else launch_num)
      else if current =? cc then mret 0
      else
        (st_when (st_rss (ws_socket_table ws)
                  && negb (cl_launch_reduce cl =? count (second (ws_time ws))))
           (socket_disable_keepalive_random;;
            cl_mod (fun cl => cl <| cl_launch_reduce := count (second (ws_time ws)) |>)));;
        mret 0
    else mret launch_num
  else mret 0.

(** ** Addresses of the worker *)

Definition work_space_ip_exist (ws : work_space) (ip_ : Z) : option bool :=
  let port := ws_port ws in
  if negb (np_ipv6 port) && (ip (np_local_ip port) =? ip_) then Some true
  else if ws_vxlan ws then
    vx ← np_vxlan port; ip_range_exist (vx_vtep_local vx) ip_
  else if negb (ws_ipv6 ws) then ip_range_exist (np_local_ip_range port) ip_
  else Some false.

Definition work_space_ip6_exist (ws : work_space) (addr : ipaddr_t) : option bool :=
  let port := ws_port ws in
  if np_ipv6 port && ipaddr_eq (np_local_ip port) addr then Some true
  else if ws_ipv6 ws then ip_range_exist_ipv6 (np_local_ip_range port) addr
  else Some false.

Definition work_space_is_local_addr (m : mbuf) : M bool :=
  port ← ws_get ws_port;
  let iph := mbuf_ip_hdr m in
  version ← m_ld (ld_ip_version (m_buf m) iph);
  daddr ← m_ld (ld32 (m_buf m) (if version =? 4 then iph + iph_daddr else iph + ip6_dst + 12));
  mret (daddr =? ip (np_local_ip port)).
End WorkSpace.

(** ** All workers: [g_work_space_all] *)

Definition work_space_stop_all (all : list (option work_space)) : list (option work_space) :=
  map (fun o => (fun ws => ws <| ws_client_launch ::= fun cl => cl <| cl_launch_num := 0 |> |>
                              <| ws_stop := true |>) <$> o) all.

Definition work_space_exit_all (all : list (option work_space)) : list (option work_space) :=
  map (fun o => (fun ws => ws <| ws_exit := true |>) <$> o) all.

Definition launch_interval_clamp (g : tick_globals) (default launch_interval : Z) : Z :=
  let interval := if g_tsc_per_second g <=? launch_interval then g_tsc_per_second g
                  else launch_interval in
  if interval <=? default then default else interval.

Definition work_space_set_launch_interval (g : tick_globals) (launch_interval : Z)
    (all : list (option work_space)) : list (option work_space) :=
  map (fun o => (fun ws => ws <| ws_client_launch ::= fun cl =>
         cl <| cl_launch_interval :=
           launch_interval_clamp g (cl_launch_interval_default cl) launch_interval |> |>) <$> o) all.

(** The destination address of a template that has been initialised. *)
Definition mbuf_cache_set_dmac (ea : eth_addr) (cache : mbuf_data) : option mbuf_data :=
  if md_l2_len cache =? 0 then Some cache
  else data ← st_bytes 0 ea (md_data cache); Some (cache <| md_data := data |>).

(** The workers on port [port_id]; the port structure is shared by them. *)
Definition work_space_update_gw_one (ea : eth_addr) (port_id : Z) (ws : work_space)
  : option work_space :=
  if np_id (ws_port ws) =? port_id then
    let ws := ws <| ws_port ::= fun p => p <| np_gateway_mac := ea |> |> in
    tcp ← mbuf_cache_set_dmac ea (ws_tcp ws);
    tcp_opt ← mbuf_cache_set_dmac ea (ws_tcp_opt ws);
    tcp_data ← mbuf_cache_set_dmac ea (ws_tcp_data ws);
    Some (ws <| ws_tcp := tcp |> <| ws_tcp_opt := tcp_opt |> <| ws_tcp_data := tcp_data |>)
  else Some ws.

Fixpoint work_space_update_gw (ea : eth_addr) (port_id : Z) (all : list (option work_space))
  : option (list (option work_space)) :=
  match all with
  | [] => Some []
  | None :: all => all ← work_space_update_gw ea port_id all; Some (None :: all)
  | Some ws :: all =>
      ws ← work_space_update_gw_one ea port_id ws;
      all ← work_space_update_gw ea port_id all;
      Some (Some ws :: all)
  end.

(** ** The transmit queue as a FIFO *)

(** The packets handed to the wire, in order, and the packets freed. *)
Fixpoint transmitted (h : list io) : list mbuf :=
  match h with
  | [] => []
  | Io_tx_burst _ _ ms n :: h => transmitted h ++ take (Z.to_nat n) ms
  | _ :: h => transmitted h
  end.
Fixpoint released (h : list io) : list mbuf :=
  match h with
  | [] => []
  | Io_free m :: h => released h ++ [m]
  | _ :: h => released h
  end.

(** The packets waiting in the queue. *)
Definition pending (q : tx_queue) : option (list mbuf) :=
  slots_from (tx_slots q) (tx_head q) (Z.to_nat (tx_tail q - tx_head q)).

Record txq_ok (q : tx_queue) (ps : list mbuf) : Prop := {
  txq_range : 0 <= tx_head q <= tx_tail q;
  txq_tail : tx_tail q <= TX_QUEUE_SIZE;
  txq_burst : 0 <= tx_burst q;
  txq_pending : pending q = Some ps;
}.

(** What the transmit path may change. *)
Definition tx_upd (w : world) (q : tx_queue) (h : list io) (s : net_stats) : world :=
  w <| w_ws ::= (fun ws => ws <| ws_tx_queue := q |>) |> <| w_io := h |> <| w_stats := s |>.

Definition w_txq (w : world) : tx_queue := ws_tx_queue (w_ws w).

Lemma slots_from_length slots i n ms : slots_from slots i n = Some ms -> length ms = n.
Proof.
  revert i ms. induction n as [|n IH]; simpl; intros i ms H; [by injection H as <-|].
  destruct (slots !! i) as [m|]; [|done]. simpl in H.
  destruct (slots_from slots (i + 1) n) as [ms'|] eqn:E; [|done]. injection H as <-.
  simpl. f_equal. by eapply IH.
Qed.

Lemma slots_from_split slots i n k ms : slots_from slots i n = Some ms -> (k <= n)%nat ->
  slots_from slots i k = Some (take k ms)
  /\ slots_from slots (i + Z.of_nat k) (n - k) = Some (drop k ms).
Proof.
  revert i n ms. induction k as [|k IH]; intros i n ms H Hk.
  { simpl. rewrite Z.add_0_r, Nat.sub_0_r. done. }
  destruct n as [|n]; [lia|]. simpl in *. destruct (slots !! i) as [m|]; [|done]. simpl in *.
  destruct (slots_from slots (i + 1) n) as [ms'|] eqn:E; [|done]. injection H as <-.
  destruct (IH _ _ _ E) as [-> H2]; [lia|]. split; [done|].
  replace (i + Z.of_nat (S k)) with (i + 1 + Z.of_nat k) by lia. exact H2.
Qed.

Lemma slots_from_frame slots i n k m : k < i \/ i + Z.of_nat n <= k ->
  slots_from (<[k := m]> slots) i n = slots_from slots i n.
Proof.
  revert i. induction n as [|n IH]; intros i Hk; [done|]. simpl.
  rewrite lookup_insert_ne by lia. destruct (slots !! i); [|done]. simpl. by rewrite IH by lia.
Qed.

Lemma slots_from_snoc slots i n ms m :
  slots_from slots i n = Some ms -> slots !! (i + Z.of_nat n) = Some m ->
  slots_from slots i (S n) = Some (ms ++ [m]).
Proof.
  revert i ms. induction n as [|n IH]; intros i ms H Hm.
  - injection H as <-. simpl. rewrite Z.add_0_r in Hm. by rewrite Hm.
  - change (slots_from slots i (S (S n))) with
      (m ← slots !! i; ms ← slots_from slots (i + 1) (S n); Some (m :: ms)).
    simpl in H. destruct (slots !! i) as [m0|]; [|done]. cbn [mbind option_bind] in *.
    destruct (slots_from slots (i + 1) n) as [ms'|] eqn:E; [|done]. injection H as <-.
    rewrite (IH _ _ E); [done|]. rewrite <- Hm. f_equal. lia.
Qed.

Section Fifo.
Context {D : Dpdk} {room : Z} {L : DpdkLaws D room}.

(** One round sends a prefix of the queue. *)
Lemma tx_flush_round_spec w ps : txq_ok (w_txq w) ps -> tx_head (w_txq w) < tx_tail (w_txq w) ->
  wp tx_flush_round (fun done w' => exists q h sent rest,
    w' = tx_upd w q h (w_stats w) /\ ps = sent ++ rest /\ txq_ok q rest
    /\ transmitted h = transmitted (w_io w) ++ sent /\ released h = released (w_io w)
    /\ (if done then tx_tail q < TX_QUEUE_SIZE else rest ≠ [])
    /\ (rest ≠ [] -> tx_head q < tx_tail q)) w.
Proof.
  intros [Hr Ht Hb Hp] Hlt. unfold tx_flush_round, txq_get.
  set (q := w_txq w) in *. unfold id.
  set (k := Z.to_nat (Z.min (tx_tail q - tx_head q) (tx_burst q))).
  destruct (slots_from_split _ _ _ k _ Hp) as [H1 H2]; [lia|].
  pose proof (slots_from_length _ _ _ _ Hp) as HL.
  wp_pure. change (ws_tx_queue (w_ws w)) with q.
  eapply wp_lift; [exact H1|]. unfold eth_tx_burst. wp_pure.
  set (n := rte_eth_tx_burst _ _ _ _).
  assert (0 <= n <= Z.of_nat k) as Hn.
  { pose proof (tx_burst_range (w_io w) (ws_port_id (w_ws w)) (ws_queue_id (w_ws w)) (take k ps)) as Hx.
    fold n in Hx. rewrite length_take in Hx. lia. }
  unfold txq_mod. wp_pure. rsimpl.
  change (ws_tx_queue (w_ws w)) with q.
  assert (u16 (tx_head q + n) = tx_head q + n) as Eu.
  { apply wrap_small. unfold in_u. change (2 ^ 16) with 65536.
    unfold TX_QUEUE_SIZE in *. lia. }
  destruct (slots_from_split _ _ _ (Z.to_nat n) _ Hp) as [H3 H4]; [lia|].
  assert (forall h, transmitted (Io_tx_burst (ws_port_id (w_ws w)) (ws_queue_id (w_ws w)) (take k ps) n :: h)
    = transmitted h ++ take (Z.to_nat n) ps) as Htr.
  { intros. simpl. rewrite take_take. do 2 f_equal. lia. }
  wp_step.
  - unfold txq_reset, txq_mod. bool_facts. wp_pure.
    eexists (q <| tx_head := u16 (tx_head q + n) |> <| tx_head := 0 |> <| tx_tail := 0 |>), _, (take (Z.to_nat n) ps), [].
    split; [reflexivity|].
    assert (take (Z.to_nat n) ps = ps) as E by (apply take_ge; lia).
    split; [by rewrite app_nil_r|].
    split; [by split; rsimpl; try done; unfold TX_QUEUE_SIZE in *; lia|].
    split; [apply Htr|]. split; [done|]. split; [|done]. rsimpl. unfold TX_QUEUE_SIZE. lia.
  - bool_facts. wp_pure.
    eexists (q <| tx_head := u16 (tx_head q + n) |>), _, (take (Z.to_nat n) ps), (drop (Z.to_nat n) ps).
    split; [reflexivity|]. split; [by rewrite take_drop|].
    split. { split; rsimpl; rewrite ?Eu; try done; [lia|]. unfold pending. rsimpl.
      rewrite <- H4, ?Eu. f_equal; lia. }
    split; [apply Htr|]. split; [done|]. rsimpl. split; [|intros; lia].
    destruct (Z.ltb_spec (tx_tail q) TX_QUEUE_SIZE); [done|].
    intros E%(f_equal length). rewrite length_drop in E. simpl in E. lia.
Qed.

Lemma tx_flush_loop_spec n w ps :
  txq_ok (w_txq w) ps -> tx_head (w_txq w) < tx_tail (w_txq w) ->
  wp (tx_flush_loop n) (fun done w' => exists q h sent rest,
    w' = tx_upd w q h (w_stats w) /\ ps = sent ++ rest /\ txq_ok q rest
    /\ transmitted h = transmitted (w_io w) ++ sent /\ released h = released (w_io w)
    /\ (if done then tx_tail q < TX_QUEUE_SIZE else tx_head q < tx_tail q)) w.
Proof.
  revert w ps. induction n as [|n IH]; intros w ps Hok Hlt; simpl.
  { wp_pure. exists (w_txq w), (w_io w), [], ps. split; [by destruct w as [? ? [] ? ? ? ? ? ? ? ?]|].
    by rewrite app_nil_r. }
  wp_pure. eapply wp_mono; [by apply tx_flush_round_spec|].
  intros done w' (q & h & sent & rest & -> & -> & Hq & Ht & Hr & Hd & Hne).
  destruct done.
  - wp_pure. by exists q, h, sent, rest.
  - eapply wp_mono; [apply (IH _ rest); [done|by apply Hne]|].
    intros done w' (q' & h' & sent' & rest' & -> & -> & Hq' & Ht' & Hr' & Hd').
    exists q', h', (sent ++ sent'), rest'. split; [done|]. rewrite app_assoc.
    split; [done|]. split; [done|]. split; [rewrite Ht'; simpl; by rewrite Ht, app_assoc|].
    split; [by rewrite Hr'|done].
Qed.

Lemma free_all_spec ms w :
  wp (free_all ms) (fun _ w' => exists h, w' = tx_upd w (w_txq w) h (w_stats w)
    /\ transmitted h = transmitted (w_io w) /\ released h = released (w_io w) ++ ms) w.
Proof.
  revert w. induction ms as [|m ms IH]; intros w; simpl; wp_pure.
  { exists (w_io w). rewrite app_nil_r. by destruct w as [? ? [] ? ? ? ? ? ? ? ?]. }
  eapply wp_mono; [apply IH|]. intros _ w' (h & -> & Ht & Hr).
  exists h. split; [done|]. split; [done|]. rewrite Hr. simpl. by rewrite <- app_assoc.
Qed.

Definition drop_stats (dropped : list mbuf) (s : net_stats) : net_stats :=
  match dropped with [] => s | _ => net_stats_tx_drop (Z.of_nat (length dropped)) s end.

Lemma tx_flush_spec w ps :
  txq_ok (w_txq w) ps -> (tx_head (w_txq w) = tx_tail (w_txq w) -> tx_tail (w_txq w) < TX_QUEUE_SIZE) ->
  wp work_space_tx_flush (fun _ w' => exists q h sent dropped rest,
    w' = tx_upd w q h (drop_stats dropped (w_stats w)) /\ ps = sent ++ dropped ++ rest
    /\ txq_ok q rest /\ tx_tail q < TX_QUEUE_SIZE /\ (dropped = [] \/ rest = [])
    /\ transmitted h = transmitted (w_io w) ++ sent
    /\ released h = released (w_io w) ++ dropped) w.
Proof.
  intros Hok Hfull. unfold work_space_tx_flush, txq_get. wp_pure. unfold id.
  fold (w_txq w). wp_step; bool_facts.
  { wp_pure. exists (w_txq w), (w_io w), [], [], ps.
    split; [by destruct w as [? ? [] ? ? ? ? ? ? ? ?]|]. rewrite !app_nil_r.
    repeat split; try done; [apply Hok..|by apply Hfull|by left]. }
  wp_pure. eapply wp_mono; [apply (tx_flush_loop_spec 8 _ ps); [done|]|].
  { destruct Hok. lia. }
  intros done w' (q & h & sent & rest & -> & -> & Hq & Ht & Hr & Hd). destruct done.
  { wp_pure. exists q, h, sent, [], rest. rewrite app_nil_r. simpl. by repeat (split; [done||by left|]). }
  wp_pure. eapply wp_lift; [apply Hq|]. apply wp_bind.
  pose proof (slots_from_length _ _ _ _ (txq_pending _ _ Hq)) as Hlen.
  eapply wp_mono; [apply free_all_spec|]. intros _ w' (h' & -> & Ht' & Hr').
  unfold txq_reset, txq_mod. wp_pure.
  exists (q <| tx_head := 0 |> <| tx_tail := 0 |>), h', sent, rest, [].
  destruct Hq as [Q1 Q2 Q3 Q4].
  split. { unfold drop_stats. destruct rest; [simpl in Hlen; lia|]. rewrite Hlen, Z2Nat.id by lia.
    reflexivity. }
  rewrite app_nil_r. split; [done|].
  split; [by split; rsimpl; try done; unfold TX_QUEUE_SIZE|].
  split; [done|]. split; [by right|]. rewrite Ht', Hr'. simpl. by rewrite Ht, Hr.
Qed.

(** The packet as it is queued: tagged when the worker has a VLAN. *)
Definition vlan_tag (w : world) (m : mbuf) : mbuf :=
  if negb (ws_vlan_id (w_ws w) =? 0)
  then m <| m_ol_flags ::= fun f => f ||| RTE_MBUF_F_TX_VLAN |> <| m_vlan_tci := ws_vlan_id (w_ws w) |>
  else m.

Lemma tx_send_spec w m ps :
  txq_ok (w_txq w) ps -> tx_tail (w_txq w) < TX_QUEUE_SIZE ->
  wp (work_space_tx_send m) (fun _ w' => exists q h sent dropped rest,
    w' = tx_upd w q h (drop_stats dropped (net_stats_tx (m_data_len m) (w_stats w)))
    /\ ps ++ [vlan_tag w m] = sent ++ dropped ++ rest
    /\ txq_ok q rest /\ tx_tail q < TX_QUEUE_SIZE /\ (dropped = [] \/ rest = [])
    /\ transmitted h = transmitted (w_io w) ++ sent
    /\ released h = released (w_io w) ++ dropped) w.
Proof.
  intros Hok Htail. unfold work_space_tx_send, txq_get, txq_mod. wp_pure. rsimpl.
  fold (w_txq w). destruct (Z.leb_spec TX_QUEUE_SIZE (tx_tail (w_txq w))); [lia|].
  wp_pure. fold (vlan_tag w m).
  set (q1 := (w_txq w) <| tx_slots ::= insert (tx_tail (w_txq w)) (vlan_tag w m) |>
                     <| tx_tail := tx_tail (w_txq w) + 1 |>).
  assert (m_data_len (vlan_tag w m) = m_data_len m) as El by (unfold vlan_tag; by case_match).
  rewrite El.
  set (w1 := tx_upd w q1 (w_io w) (net_stats_tx (m_data_len m) (w_stats w))).
  match goal with |- wp _ _ ?x => change x with w1 end. change (ws_tx_queue (w_ws w1)) with q1.
  destruct Hok as [R1 R2 R3 R4].
  assert (txq_ok (w_txq w1) (ps ++ [vlan_tag w m])) as Hok1.
  { split; unfold w1, w_txq, q1; simpl; rsimpl; try done; try (unfold w_txq in *; lia).
    unfold pending. rsimpl. fold (w_txq w).
    replace (Z.to_nat (tx_tail (w_txq w) + 1 - tx_head (w_txq w)))
      with (S (Z.to_nat (tx_tail (w_txq w) - tx_head (w_txq w)))) by lia.
    apply slots_from_snoc.
    - rewrite slots_from_frame by lia. apply R4.
    - rewrite Z2Nat.id by lia. replace (tx_head (w_txq w) + (tx_tail (w_txq w) - tx_head (w_txq w)))
        with (tx_tail (w_txq w)) by lia. apply lookup_insert_eq. }
  apply wp_when; intros Hfl.
  - eapply wp_mono; [apply (tx_flush_spec _ _ Hok1)|].
    { unfold w1, w_txq, q1. simpl. rsimpl. unfold w_txq in *. lia. }
    intros _ w' (q & h & sent & dropped & rest & -> & Heq & Hrest).
    exists q, h, sent, dropped, rest. split; [reflexivity|]. split; [done|]. exact Hrest.
  - apply orb_false_iff in Hfl as [_ Hfl]. bool_facts.
    exists q1, (w_io w), [], [], (ps ++ [vlan_tag w m]). split; [reflexivity|]. split; [done|].
    split; [exact Hok1|]. change (tx_tail (w_txq w) + 1 ≠ TX_QUEUE_SIZE) in Hfl.
    split; [change (tx_tail (w_txq w) + 1 < TX_QUEUE_SIZE); lia|].
    split; [by left|]. by rewrite !app_nil_r.
Qed.

(** C17: the transmit path neither loses, duplicates nor reorders a packet:
    what was waiting, followed by the new packet, is what has been put on the
    wire, then what has been dropped (freed and counted in [tx_drop]), then
    what still waits; packets are dropped only when nothing is left to wait,
    the array is never overrun and the next packet always has a free slot. *)
Theorem work_space_tx_send_fifo w m ps :
  txq_ok (w_txq w) ps -> tx_tail (w_txq w) < TX_QUEUE_SIZE ->
  exists w' sent dropped rest,
    work_space_tx_send m w = Ok (tt, w')
    /\ ps ++ [vlan_tag w m] = sent ++ dropped ++ rest
    /\ transmitted (w_io w') = transmitted (w_io w) ++ sent
    /\ released (w_io w') = released (w_io w) ++ dropped
    /\ txq_ok (w_txq w') rest /\ tx_tail (w_txq w') < TX_QUEUE_SIZE
    /\ (dropped = [] \/ rest = [])
    /\ w_stats w' NS_tx_drop
       = (if dropped is [] then w_stats w NS_tx_drop
          else u64 (w_stats w NS_tx_drop + Z.of_nat (length dropped))).
Proof.
  intros Hok Htail. destruct (wp_ok _ _ _ (tx_send_spec w m ps Hok Htail))
    as ([] & w' & Hrun & q & h & sent & dropped & rest & -> & Heq & Hq & Hq' & Hd & Ht & Hr).
  exists (tx_upd w q h (drop_stats dropped (net_stats_tx (m_data_len m) (w_stats w)))), sent, dropped, rest.
  repeat (split; [done|]). unfold tx_upd. rsimpl. destruct dropped; unfold drop_stats; by ns_simpl.
Qed.
End Fifo.

#[local] Existing Instance Mbuf.Demo.dpdk.
#[local] Existing Instance Mbuf.Demo.laws.

Lemma demo_txq_ok : txq_ok (w_txq World.Demo.demo_world) [].
Proof. split; simpl; done. Qed.

Lemma work_space_tx_send_fifo_witness : exists w' sent dropped rest,
  work_space_tx_send (Mbuf.Demo.demo_mbuf 7) World.Demo.demo_world = Ok (tt, w')
  /\ [] ++ [vlan_tag World.Demo.demo_world (Mbuf.Demo.demo_mbuf 7)] = sent ++ dropped ++ rest
  /\ transmitted (w_io w') = transmitted (w_io World.Demo.demo_world) ++ sent
  /\ released (w_io w') = released (w_io World.Demo.demo_world) ++ dropped
  /\ txq_ok (w_txq w') rest /\ tx_tail (w_txq w') < TX_QUEUE_SIZE
  /\ (dropped = [] \/ rest = [])
  /\ w_stats w' NS_tx_drop
     = (if dropped is [] then w_stats World.Demo.demo_world NS_tx_drop
        else u64 (w_stats World.Demo.demo_world NS_tx_drop + Z.of_nat (length dropped))).
Proof.
  apply (work_space_tx_send_fifo World.Demo.demo_world (Mbuf.Demo.demo_mbuf 7) []);
    [apply demo_txq_ok | vm_compute; reflexivity].
Defined.
