(* ===== verification/Socket.v ===== *)
(** * Socket: lookup, opening and closing of sockets

    The operations of [src/socket.h] on the socket pool and the lookup table. *)

From S2P Require Import Prelude SocketNode Config Mbuf NetStats World WorkSpace.

Definition table_get {A} (f : socket_table -> A) : M A := ws_get (fun ws => f (ws_socket_table ws)).
Definition table_mod (f : socket_table -> socket_table) : M unit :=
  ws_mod (fun ws => ws <| ws_socket_table ::= f |>).

(** [&(sp->base[sp->next])]. *)
Definition pool_sock (st : socket_table) (n : Z) : N := (st_pool_base st + Z.to_N n)%N.

Definition pool_wrap : M unit :=
  table_mod (fun st => if st_pool_num st <=? st_pool_next st then st <| st_pool_next := 0 |> else st).

(** The loop that looks for a socket of this RSS queue; [next] is wrapped only
    on the path that continues, as in the code. *)
Fixpoint get_socket_rss_loop (fuel : nat) : M N :=
  match fuel with
  | O => st_fail OutOfFuel
  | S fuel =>
      st ← table_get id;
      let i := pool_sock st (st_pool_next st) in
      table_mod (fun st => st <| st_pool_next := u32 (st_pool_next st + 1) |>);;
      sk ← sk_get i;
      if st_rss_num st =? 0 then st_fail DivByZero
      else if negb (ntohs (sk_lport sk) mod st_rss_num st =? st_rss_id st) || (sk_laddr sk =? 0) then
        pool_wrap;; get_socket_rss_loop fuel
      else mret i
  end.

(** Twice round the pool: a pool without a socket of this queue loops for ever
    in the code. *)
Definition socket_table_get_socket_rss : M N :=
  n ← table_get st_pool_num;
  get_socket_rss_loop (Z.to_nat (2 * n + 2)).

Definition socket_table_get_socket : M N :=
  st ← table_get id;
  i ← (if negb (st_rss st) then
         table_mod (fun st => st <| st_pool_next := u32 (st_pool_next st + 1) |>);;
         pool_wrap;;
         mret (pool_sock st (st_pool_next st))
       else socket_table_get_socket_rss);
  st_when (st_client_hop st)
    (table_mod (fun st => st <| st_pool_next := u32 (st_pool_next st + 65535) |>);;
     pool_wrap);;
  mret i.

(** The index in a port table, in 32-bit arithmetic. *)
Definition socket_port_index (st : socket_table) (client_port server_port server_ip : Z) : Z :=
  u32 ((client_port - st_client_port_min st) * st_server_ip_port_num st
       + (server_port - st_server_port_min st) * st_server_ip_num st
       + (server_ip - st_server_ip_min st)).

Definition socket_port_table_get (st : socket_table) (t : N) (client_port server_port server_ip : Z) : N :=
  (t + Z.to_N (socket_port_index st client_port server_port server_ip))%N.

Definition socket_common_lookup (st : socket_table) (client_ip server_ip client_port server_port : Z)
  : option N :=
  let client_low_2byte := ntohl client_ip &&& 65535 in
  let client_port_host := ntohs client_port in
  let server_port_host := ntohs server_port in
  let server_ip_host := ntohl server_ip in
  match st_ht st !! client_low_2byte with
  | Some t =>
      if negb (client_port =? 0)
         && (st_server_ip_min st <=? server_ip_host) && (server_ip_host <=? st_server_ip_max st)
         && (st_client_port_min st <=? client_port_host) && (client_port_host <=? st_client_port_max st)
         && (st_server_port_min st <=? server_port_host) && (server_port_host <=? st_server_port_max st)
      then Some (socket_port_table_get st t client_port_host server_port_host server_ip_host)
      else None
  | None => None
  end.

Definition socket_dup (dst src : N) : M unit :=
  s ← sk_get src;
  (if negb (sk_flags s =? 0) then
     sk_mod dst (fun d => d <| sk_rcv_nxt := sk_rcv_nxt s |> <| sk_snd_nxt := sk_snd_nxt s |>
                            <| sk_snd_una := sk_snd_una s |> <| sk_flags := sk_flags s |>
                            <| sk_keepalive := sk_keepalive s |>)
   else sk_mod dst (fun d => d <| sk_keepalive := false |>));;
  sk_mod dst (fun d => d <| sk_timer_tsc := sk_timer_tsc s |> <| sk_st := sk_st s |>);;
  stat_mod net_stats_socket_dup.

(** The table of the worker of RSS queue [idx]: the worker's own or another's. *)
Definition table_of (idx : Z) : M (option socket_table) :=
  st ← table_get id;
  own ← ws_get ws_id;
  peers ← st_gets w_peers;
  h ← st_lift OutOfBounds (aget (st_socket_table_hash st) idx);
  mret (match h with
        | None => None
        | Some worker =>
            if worker =? own then Some st
            else peer ← mjoin (aget peers worker); Some (ws_socket_table peer)
        end).

Definition socket_client_check_rss (daddr saddr dport sport : Z) (i : N) : M unit :=
  st ← table_get id;
  if st_rss_num st =? 0 then st_fail DivByZero
  else
    let idx := ntohs dport mod st_rss_num st in
    if negb (idx =? st_rss_id st) then
      st2 ← table_of idx;
      match st2 with
      | None => mret tt
      | Some st2 =>
          match socket_common_lookup st2 daddr saddr dport sport with
          | None => mret tt
          | Some j =>
              s ← sk_get j;
              st_when ((sk_laddr s =? daddr) && (sk_faddr s =? saddr))
                (socket_dup i j;;
                 sk_mod j (fun s => s <| sk_laddr := 0 |> <| sk_faddr := 0 |>))
          end
      end
    else mret tt.

(** [ip_hdr_get_addr_low32]: source and destination, the last words for IPv6. *)
Definition ip_hdr_get_addr_low32 (b : list Z) (iph : Z) : option (Z * Z) :=
  version ← ld_ip_version b iph;
  if version =? 4 then
    saddr ← ld32 b (iph + iph_saddr); daddr ← ld32 b (iph + iph_daddr); Some (saddr, daddr)
  else
    saddr ← ld32 b (iph + ip6_src + 12); daddr ← ld32 b (iph + ip6_dst + 12); Some (saddr, daddr).

(** The addresses and ports that the lookups read from a packet. *)
Record packet_key := PacketKey { k_saddr : Z; k_daddr : Z; k_sport : Z; k_dport : Z }.
Definition packet_key_get (b : list Z) (iph th : Z) : option packet_key :=
  '(saddr, daddr) ← ip_hdr_get_addr_low32 b iph;
  dport ← ld16 b (th + th_dport);
  sport ← ld16 b (th + th_sport);
  Some (PacketKey saddr daddr sport dport).

Definition socket_client_lookup (b : list Z) (iph th : Z) : M (option N) :=
  k ← st_lift OutOfBounds (packet_key_get b iph th);
  st ← table_get id;
  match socket_common_lookup st (k_daddr k) (k_saddr k) (k_dport k) (k_sport k) with
  | None => mret None
  | Some i =>
      sk ← sk_get i;
      if (sk_laddr sk =? k_daddr k) && (sk_faddr sk =? k_saddr k) then
        st_when (st_rss st)
          (socket_client_check_rss (k_daddr k) (k_saddr k) (k_dport k) (k_sport k) i);;
        mret (Some i)
      else mret None
  end.

Definition socket_server_lookup (b : list Z) (iph th : Z) : M (option N) :=
  k ← st_lift OutOfBounds (packet_key_get b iph th);
  st ← table_get id;
  match socket_common_lookup st (k_saddr k) (k_daddr k) (k_sport k) (k_dport k) with
  | None => mret None
  | Some i =>
      sk ← sk_get i;
      if (sk_laddr sk =? k_daddr k) && (sk_faddr sk =? k_saddr k) then mret (Some i)
      else mret None
  end.

Definition socket_close (i : N) : M unit :=
  sk ← sk_get i;
  st_when (negb (sk_is (sk_st sk) SK_CLOSED))
    (sk_mod i (fun sk => sk <| sk_st := SK_CLOSED |>);;
     link_op (socket_node_del (Sock i));;
     stat_mod net_stats_socket_close).

Definition socket_init_http (sk : socket) : socket :=
  sk <| sk_http_length := 0 |> <| sk_http_parse_state := HTTP_INIT |> <| sk_http_flags := 0 |>
     <| sk_http_ack := false |> <| sk_http_frags := 0 |>.

Definition socket_init_http_server (payload_size : Z) (sk : socket) : socket :=
  sk <| sk_http_length := 0 |> <| sk_http_parse_state := HTTP_INIT |> <| sk_http_flags := 0 |>
     <| sk_http_ack := false |> <| sk_snd_max := u32 (sk_snd_nxt sk + payload_size) |>.

Definition socket_server_open (i : N) (seq : Z) : M unit :=
  sk ← sk_get i;
  st_when (negb (sk_is (sk_st sk) SK_SYN_RECEIVED))
    (sk_mod i (fun sk => sk <| sk_st := SK_SYN_RECEIVED |>);;
     stat_mod net_stats_socket_open);;
  link_op (socket_node_del (Sock i));;
  sk_mod i (fun sk =>
    let sk := sk <| sk_retrans := 0 |> <| sk_keepalive_request_num := 0 |>
                 <| sk_snd_nxt ::= fun x => u32 (x + 1) |> in
    sk <| sk_snd_una := sk_snd_nxt sk |> <| sk_snd_window := 1 |>
       <| sk_rcv_nxt := u32 (ntohl seq + 1) |>).

Definition socket_client_open (now_tsc : Z) : M (option N) :=
  i ← socket_table_get_socket;
  keepalive ← cfg_get c_keepalive;
  sk ← sk_get i;
  if sk_is (sk_st sk) SK_CLOSED then
    sk_mod i (fun sk =>
      let sk := sk <| sk_timer_tsc := now_tsc |> <| sk_retrans := 0 |>
                   <| sk_keepalive_request_num := 0 |> <| sk_keepalive := keepalive |>
                   <| sk_snd_nxt ::= fun x => u32 (x + 1) |> in
      sk <| sk_snd_una := sk_snd_nxt sk |> <| sk_rcv_nxt := 0 |> <| sk_st := SK_SYN_SENT |>);;
    stat_mod net_stats_socket_open;;
    sk_mod i socket_init_http;;
    mret (Some i)
  else mret None.
