(* ===== verification/SocketTimer.v ===== *)
(** * SocketTimer: the three timers of a worker

    The operations of [src/socket_timer.h] and [src/socket_timer.c]: a timer is
    a FIFO of armed sockets; running it calls a handler on the expired ones. *)

From S2P Require Import Prelude SocketNode Tick Config NetStats World Socket.

Definition RETRANSMIT_NUM_MAX : Z := 4.

Definition queue_first (t : timer_id) : M (option N) :=
  fun w => match socket_queue_first t (w_links w) with
           | Some r => Ok (r, w)
           | None => Err OutOfBounds
           end.

Definition socket_del_timer (i : N) : M unit := link_op (socket_queue_del i).

Definition socket_add_timer (t : timer_id) (i : N) (now_tsc : Z) : M unit :=
  sk_mod i (fun sk => sk <| sk_timer_tsc := now_tsc |>);;
  link_op (socket_queue_del i);;
  link_op (socket_queue_push t i).

Definition socket_start_timeout_timer (i : N) (now_tsc : Z) : M unit :=
  socket_add_timer T_timeout i now_tsc.

Definition socket_stop_timeout_timer (i : N) : M unit := link_op (socket_queue_del i).

(** The start of the interval that [now_tsc] falls in, up to three intervals
    late; [uint64_t] arithmetic. *)
Definition accurate_tsc (interval timer_tsc now_tsc : Z) : Z :=
  if now_tsc <=? u64 (timer_tsc + interval) then timer_tsc
  else if now_tsc <=? u64 (timer_tsc + u64 (2 * interval)) then u64 (timer_tsc + interval)
  else if now_tsc <=? u64 (timer_tsc + u64 (3 * interval)) then u64 (timer_tsc + u64 (2 * interval))
  else if interval <? now_tsc then now_tsc - interval else now_tsc.

Definition socket_accurate_timer_tsc (i : N) (now_tsc : Z) : M Z :=
  interval ← cfg_get c_keepalive_request_interval;
  sk ← sk_get i;
  mret (accurate_tsc interval (sk_timer_tsc sk) now_tsc).

Definition socket_start_keepalive_timer (i : N) (now_tsc : Z) : M unit :=
  sk ← sk_get i;
  st_when (sk_keepalive sk && (sk_snd_nxt sk =? sk_snd_una sk))
    (now_tsc ← socket_accurate_timer_tsc i now_tsc;
     socket_add_timer T_keepalive i now_tsc).

Definition socket_start_retransmit_timer_force (i : N) (now_tsc : Z) : M unit :=
  socket_add_timer T_retransmit i now_tsc.

Definition socket_start_retransmit_timer (i : N) (now_tsc : Z) : M unit :=
  sk ← sk_get i;
  st_when (negb (sk_snd_nxt sk =? sk_snd_una sk)) (socket_start_retransmit_timer_force i now_tsc).

Definition socket_stop_retransmit_timer (i : N) : M unit :=
  sk_mod i (fun sk => sk <| sk_retrans := 0 |>);;
  sk ← sk_get i;
  st_when (sk_snd_nxt sk =? sk_snd_una sk) (socket_del_timer i).

(** The loop of [socket_timer_run]. *)
Fixpoint timer_loop (fuel : nat) (t : timer_id) (timeout now_tsc : Z) (handler : N -> M unit) : M unit :=
  first ← queue_first t;
  match first with
  | None => mret tt
  | Some i =>
      sk ← sk_get i;
      if u64 (sk_timer_tsc sk + timeout) <=? now_tsc then
        match fuel with
        | O => st_fail OutOfFuel
        | S fuel =>
            socket_del_timer i;;
            handler i;;
            timer_loop fuel t timeout now_tsc handler
        end
      else mret tt
  end.

(** Enough for four visits of every socket. *)
Definition timer_fuel (w : world) : nat := 4 * size (w_sockets w) + 1.

Definition socket_timer_run (t : timer_id) (timeout : Z) (handler : N -> M unit) : M unit :=
  now_tsc ← work_space_tsc;
  fuel ← st_gets timer_fuel;
  timer_loop fuel t timeout now_tsc handler.

Definition socket_timeout_handler (i : N) : M unit :=
  stat_inc NS_socket_error;;
  socket_close i.

Definition socket_timeout_timer_expire : M unit :=
  retransmit_timeout ← cfg_get c_retransmit_timeout;
  interval ← cfg_get c_keepalive_request_interval;
  socket_timer_run T_timeout (u64 (u64 (retransmit_timeout * RETRANSMIT_NUM_MAX) + interval))
    socket_timeout_handler.
