(* ===== verification/HttpParse.v ===== *)
(** * HttpParse: the HTTP response parser

    [src/http_parse.c] and the two counting functions of [src/http.h].  The
    parser keeps its state in the socket and is fed with the payload of one
    packet after another; the payload is a list of bytes. *)

From S2P Require Import Prelude Config NetStats World.

Definition HTTP_F_CONTENT_LENGTH_AUTO : Z := 1.
Definition HTTP_F_CONTENT_LENGTH : Z := 2.
Definition HTTP_F_TRANSFER_ENCODING : Z := 4.
Definition HTTP_F_CLOSE : Z := 8.

Definition HTTP_PARSE_OK : Z := 0.
Definition HTTP_PARSE_END : Z := 1.
Definition HTTP_PARSE_ERR : Z := -1.

(** The characters the parser looks at. *)
Definition CR : Z := 13.
Definition LF : Z := 10.
Definition COLON : Z := 58.

Definition CONTENT_LENGTH_SIZE : Z := 15.
Definition TRANSFER_ENCODING_SIZE : Z := 18.
Definition CONNECTION_SIZE : Z := 11.
Definition KEEP_ALIVE_SIZE : Z := 10.

(** ** Counting requests and responses *)

Definition http_parse_response (data : list Z) (len : Z) : M unit :=
  stat_inc NS_tcp_rsp;;
  if 9 <? len then
    c ← st_lift OutOfBounds (aget data 9);
    if c =? 50 then stat_inc NS_http_2xx else stat_inc NS_http_error
  else stat_inc NS_http_error.

Definition http_parse_request (data : list Z) (len : Z) : M unit :=
  stat_inc NS_tcp_req;;
  if 18 <? len then
    c0 ← st_lift OutOfBounds (aget data 0);
    if c0 =? 71 then stat_inc NS_http_get
    else
      c1 ← st_lift OutOfBounds (aget data 1);
      if c1 =? 79 then stat_inc NS_http_post else stat_inc NS_http_error
  else stat_inc NS_http_error.

(** ** The C library *)

(** [atol]: white space, a sign, decimal digits, clamped to [long].  The bytes
    after the packet are taken to end the number. *)
Definition is_space (c : Z) : bool := (c =? 32) || ((9 <=? c) && (c <=? 13)).
Definition is_digit (c : Z) : bool := (48 <=? c) && (c <=? 57).
Fixpoint atol_digits (acc : Z) (s : list Z) : Z :=
  match s with
  | c :: s => if is_digit c then atol_digits (acc * 10 + (c - 48)) s else acc
  | [] => acc
  end.
Definition clamp_long (x : Z) : Z := Z.max (- 2 ^ 63) (Z.min (2 ^ 63 - 1) x).
Fixpoint atol (s : list Z) : Z :=
  match s with
  | [] => 0
  | c :: s' =>
      if is_space c then atol s'
      else if c =? 45 then clamp_long (- atol_digits 0 s')
      else if c =? 43 then clamp_long (atol_digits 0 s')
      else clamp_long (atol_digits 0 s)
  end.

(** ** Header lines *)

Definition http_header_match (start : list Z) (name_len name_size f0 f1 l0 l1 : Z) : option bool :=
  if name_len =? name_size then
    first ← aget start 0;
    last ← aget start (name_size - 2);
    Some (((first =? f0) || (first =? f1)) && ((last =? l0) || (last =? l1)))
  else Some false.

(** The search for the [k] of [chunked] in the value. *)
Fixpoint transfer_encoding_loop (value : list Z) (sk : socket) : Z * socket :=
  match value with
  | [] => (0, sk)
  | c :: value =>
      if (c =? 107) || (c =? 75) then
        if sk_http_flags sk &&& HTTP_F_CONTENT_LENGTH =? 0
        then (0, sk <| sk_http_flags ::= fun f => f ||| HTTP_F_TRANSFER_ENCODING |>)
        else (-1, sk)
      else transfer_encoding_loop value sk
  end.

Definition http_parse_header_line (sk : socket) (start : list Z) (name_len line_len : Z)
  : option (Z * socket) :=
  is_length ← http_header_match start name_len CONTENT_LENGTH_SIZE 67 99 104 72;
  if (is_length : bool) then
    let content_length := atol (drop (Z.to_nat CONTENT_LENGTH_SIZE) start) in
    if content_length <? 0 then Some (-1, sk)
    else if sk_http_flags sk &&& HTTP_F_TRANSFER_ENCODING =? 0 then
      Some (0, sk <| sk_http_length := content_length |>
                  <| sk_http_flags ::= fun f => f ||| HTTP_F_CONTENT_LENGTH |>)
    else Some (-1, sk)
  else
    is_encoding ← http_header_match start name_len TRANSFER_ENCODING_SIZE 84 116 103 71;
    if (is_encoding : bool) then
      Some (transfer_encoding_loop
              (take (Z.to_nat (line_len - name_len)) (drop (Z.to_nat name_len) start)) sk)
    else
      is_connection ← http_header_match start name_len CONNECTION_SIZE 67 99 110 78;
      if (is_connection : bool) then
        if line_len <? name_len + KEEP_ALIVE_SIZE + 1 then
          Some (0, sk <| sk_http_flags ::= fun f => f ||| HTTP_F_CLOSE |> <| sk_keepalive := false |>)
        else Some (0, sk)
      else Some (0, sk).

(** The loop of [http_parse_headers]: [start] is the current line, [rest] the
    bytes from [p] on and [n] the number of bytes consumed. *)
Fixpoint headers_loop (sk : socket) (start rest : list Z) (line_len name_len n : Z)
  : option (Z * socket) :=
  match rest with
  | [] => Some (n, sk)
  | c :: rest =>
      let n := n + 1 in
      let line_len := line_len + 1 in
      if (c =? COLON) && (name_len =? 0) then headers_loop sk start rest line_len line_len n
      else if c =? CR then headers_loop sk start rest line_len name_len n
      else if c =? LF then
        if bool_decide (sk_http_parse_state sk = HTTP_HEADER_BEGIN) then
          '(ret, sk) ← http_parse_header_line sk start name_len line_len;
          if ret <? 0 then Some (-1, sk)
          else headers_loop (sk <| sk_http_parse_state := HTTP_HEADER_LINE_END |>) rest rest 0 0 n
        else
          let sk := sk <| sk_http_parse_state := HTTP_HEADER_DONE |> in
          Some (n, if sk_http_flags sk =? 0 then
                     sk <| sk_http_flags := HTTP_F_CONTENT_LENGTH_AUTO ||| HTTP_F_CLOSE |>
                        <| sk_http_length := -1 |> <| sk_keepalive := false |>
                   else sk)
      else if negb (bool_decide (sk_http_parse_state sk = HTTP_HEADER_BEGIN)) then
        headers_loop (sk <| sk_http_parse_state := HTTP_HEADER_BEGIN |>) start rest line_len name_len n
      else headers_loop sk start rest line_len name_len n
  end.

Definition http_parse_headers (sk : socket) (data : list Z) : option (Z * socket) :=
  headers_loop sk data data 0 0 0.

(** ** Chunked bodies *)

(** The number a hexadecimal digit adds, lower case only. *)
Definition hex_digit (c : Z) : option Z :=
  if (48 <=? c) && (c <=? 57) then Some (c - 48)
  else if (97 <=? c) && (c <=? 102) then Some (c - 97 + 10)
  else None.

(** [case HTTP_CHUNK_SIZE]: the bytes after the terminating character. *)
Fixpoint chunk_size_loop (sk : socket) (data : list Z) : socket * list Z :=
  match data with
  | [] => (sk, [])
  | c :: data =>
      match hex_digit c with
      | Some d => chunk_size_loop (sk <| sk_http_length ::= fun l => i64 ((l <<< 4) + d) |>) data
      | None => (sk <| sk_http_parse_state := HTTP_CHUNK_SIZE_END |>, data)
      end
  end.

Definition chunk_end (sk : socket) (data : list Z) : Z * socket :=
  match data with
  | [] => (HTTP_PARSE_OK, sk)
  | c :: _ => if c =? LF then (HTTP_PARSE_END, sk <| sk_http_parse_state := HTTP_BODY_DONE |>)
              else (HTTP_PARSE_ERR, sk)
  end.

(** [case HTTP_CHUNK_TRAILER_BEGIN] and [case HTTP_CHUNK_TRAILER]. *)
Fixpoint chunk_trailer (begin : bool) (sk : socket) (data : list Z) : Z * socket :=
  match data with
  | [] => (HTTP_PARSE_OK, sk)
  | c :: data =>
      if begin then
        if c =? CR then chunk_end (sk <| sk_http_parse_state := HTTP_CHUNK_END |>) data
        else chunk_trailer false (sk <| sk_http_parse_state := HTTP_CHUNK_TRAILER |>) data
      else if c =? LF then
        chunk_trailer true (sk <| sk_http_parse_state := HTTP_CHUNK_TRAILER_BEGIN |>) data
      else chunk_trailer false sk data
  end.

(** [case HTTP_CHUNK_DATA_END]; [retry] is the jump back to the switch. *)
Definition chunk_data_end (retry : socket -> list Z -> option (Z * socket)) (sk : socket)
    (data : list Z) : option (Z * socket) :=
  match data with
  | [] => Some (HTTP_PARSE_OK, sk)
  | c :: data => if c =? LF then retry (sk <| sk_http_parse_state := HTTP_CHUNK_SIZE |>) data
                 else Some (HTTP_PARSE_ERR, sk)
  end.

(** [case HTTP_CHUNK_DATA]. *)
Definition chunk_data (retry : socket -> list Z -> option (Z * socket)) (sk : socket)
    (data : list Z) : option (Z * socket) :=
  match data with
  | [] => Some (HTTP_PARSE_OK, sk)
  | _ =>
      let len := Z.of_nat (length data) in
      if len <=? sk_http_length sk
      then Some (HTTP_PARSE_OK, sk <| sk_http_length ::= fun l => l - len |>)
      else
        match drop (Z.to_nat (sk_http_length sk)) data with
        | [] => None
        | c :: data =>
            let sk := sk <| sk_http_length := 0 |> in
            if c =? CR then
              chunk_data_end retry (sk <| sk_http_parse_state := HTTP_CHUNK_DATA_END |>) data
            else Some (HTTP_PARSE_ERR, sk)
        end
  end.

(** [case HTTP_CHUNK_SIZE_END]. *)
Fixpoint chunk_size_end (retry : socket -> list Z -> option (Z * socket)) (sk : socket)
    (data : list Z) : option (Z * socket) :=
  match data with
  | [] => Some (HTTP_PARSE_OK, sk)
  | c :: data =>
      if c =? LF then
        if 0 <? sk_http_length sk
        then chunk_data retry (sk <| sk_http_parse_state := HTTP_CHUNK_DATA |>) data
        else Some (chunk_trailer true (sk <| sk_http_parse_state := HTTP_CHUNK_TRAILER_BEGIN |>) data)
      else chunk_size_end retry sk data
  end.

(** The switch; [None] is an exhausted fuel or a read outside the packet. *)
Fixpoint http_parse_chunk_loop (fuel : nat) (sk : socket) (data : list Z) : option (Z * socket) :=
  match fuel with
  | O => None
  | S fuel =>
      let retry := http_parse_chunk_loop fuel in
      match sk_http_parse_state sk with
      | HTTP_HEADER_DONE | HTTP_CHUNK_SIZE =>
          let '(sk, data) := chunk_size_loop (sk <| sk_http_parse_state := HTTP_CHUNK_SIZE |>) data in
          chunk_size_end retry sk data
      | HTTP_CHUNK_SIZE_END => chunk_size_end retry sk data
      | HTTP_CHUNK_DATA => chunk_data retry sk data
      | HTTP_CHUNK_DATA_END => chunk_data_end retry sk data
      | HTTP_CHUNK_TRAILER_BEGIN => Some (chunk_trailer true sk data)
      | HTTP_CHUNK_TRAILER => Some (chunk_trailer false sk data)
      | HTTP_CHUNK_END => Some (chunk_end sk data)
      | _ => Some (HTTP_PARSE_ERR, sk)
      end
  end.

Definition http_parse_chunk (sk : socket) (data : list Z) : option (Z * socket) :=
  http_parse_chunk_loop (S (length data)) sk data.

(** ** Bodies and packets *)

Definition http_parse_body (sk : socket) (data : list Z) : option (Z * socket) :=
  let data_len := Z.of_nat (length data) in
  if has (sk_http_flags sk) HTTP_F_CONTENT_LENGTH then
    if data_len <? sk_http_length sk then
      Some (HTTP_PARSE_OK, sk <| sk_http_length ::= fun l => l - data_len |>)
    else if data_len =? sk_http_length sk then
      Some (HTTP_PARSE_END, sk <| sk_http_length := 0 |> <| sk_http_parse_state := HTTP_BODY_DONE |>)
    else Some (HTTP_PARSE_ERR, sk)
  else if has (sk_http_flags sk) HTTP_F_TRANSFER_ENCODING then http_parse_chunk sk data
  else Some (HTTP_PARSE_OK, sk).

(** [sk->http_parse_state < HTTP_HEADER_DONE]. *)
Definition in_headers (s : http_state) : bool :=
  match s with HTTP_INIT | HTTP_HEADER_BEGIN | HTTP_HEADER_LINE_END => true | _ => false end.

(** [http_parse_run] after the response has been counted. *)
Definition http_parse_continue (sk : socket) (data : list Z) : option (Z * socket) :=
  if in_headers (sk_http_parse_state sk) then
    '(len, sk) ← http_parse_headers sk data;
    if len <? 0 then Some (HTTP_PARSE_ERR, sk)
    else http_parse_body sk (drop (Z.to_nat len) data)
  else http_parse_body sk data.

Definition http_parse_run (i : N) (data : list Z) : M Z :=
  sk ← sk_get i;
  st_when (bool_decide (sk_http_parse_state sk = HTTP_INIT))
    (http_parse_response data (Z.of_nat (length data));;
     sk_mod i (fun sk => sk <| sk_http_parse_state := HTTP_HEADER_BEGIN |>));;
  sk ← sk_get i;
  '(ret, sk') ← st_lift OutOfBounds (http_parse_continue sk data);
  sk_mod i (fun _ => sk');;
  mret ret.

(** ** The chunk parser as an automaton

    A reference that handles one byte at a time.  Its result is the return
    code after the byte. *)

Definition chunk_step (sk : socket) (c : Z) : Z * socket :=
  match sk_http_parse_state sk with
  | HTTP_CHUNK_SIZE =>
      match hex_digit c with
      | Some d => (HTTP_PARSE_OK, sk <| sk_http_length ::= fun l => i64 ((l <<< 4) + d) |>)
      | None => (HTTP_PARSE_OK, sk <| sk_http_parse_state := HTTP_CHUNK_SIZE_END |>)
      end
  | HTTP_CHUNK_SIZE_END =>
      if c =? LF then
        (HTTP_PARSE_OK, if 0 <? sk_http_length sk
                        then sk <| sk_http_parse_state := HTTP_CHUNK_DATA |>
                        else sk <| sk_http_parse_state := HTTP_CHUNK_TRAILER_BEGIN |>)
      else (HTTP_PARSE_OK, sk)
  | HTTP_CHUNK_DATA =>
      if 0 <? sk_http_length sk then
        (HTTP_PARSE_OK, sk <| sk_http_length := sk_http_length sk - 1 |>)
      else if c =? CR then
        (HTTP_PARSE_OK, sk <| sk_http_length := 0 |> <| sk_http_parse_state := HTTP_CHUNK_DATA_END |>)
      else (HTTP_PARSE_ERR, sk <| sk_http_length := 0 |>)
  | HTTP_CHUNK_DATA_END =>
      if c =? LF then (HTTP_PARSE_OK, sk <| sk_http_parse_state := HTTP_CHUNK_SIZE |>)
      else (HTTP_PARSE_ERR, sk)
  | HTTP_CHUNK_TRAILER_BEGIN =>
      if c =? CR then (HTTP_PARSE_OK, sk <| sk_http_parse_state := HTTP_CHUNK_END |>)
      else (HTTP_PARSE_OK, sk <| sk_http_parse_state := HTTP_CHUNK_TRAILER |>)
  | HTTP_CHUNK_TRAILER =>
      if c =? LF then (HTTP_PARSE_OK, sk <| sk_http_parse_state := HTTP_CHUNK_TRAILER_BEGIN |>)
      else (HTTP_PARSE_OK, sk)
  | HTTP_CHUNK_END =>
      if c =? LF then (HTTP_PARSE_END, sk <| sk_http_parse_state := HTTP_BODY_DONE |>)
      else (HTTP_PARSE_ERR, sk)
  | _ => (HTTP_PARSE_ERR, sk)
  end.

Fixpoint chunk_fold (sk : socket) (data : list Z) : Z * socket :=
  match data with
  | [] => (HTTP_PARSE_OK, sk)
  | c :: data =>
      let '(r, sk) := chunk_step sk c in
      if r =? HTTP_PARSE_OK then chunk_fold sk data else (r, sk)
  end.

(** The first packet of the body finds the parser in [HTTP_HEADER_DONE]. *)
Definition chunk_enter (sk : socket) : socket :=
  match sk_http_parse_state sk with
  | HTTP_HEADER_DONE => sk <| sk_http_parse_state := HTTP_CHUNK_SIZE |>
  | _ => sk
  end.

(** The states in which the parser is called for a chunked body. *)
Definition chunk_ready (sk : socket) : Prop :=
  match sk_http_parse_state sk with
  | HTTP_HEADER_DONE | HTTP_CHUNK_SIZE | HTTP_CHUNK_SIZE_END | HTTP_CHUNK_DATA_END
  | HTTP_CHUNK_TRAILER_BEGIN | HTTP_CHUNK_TRAILER | HTTP_CHUNK_END => True
  | HTTP_CHUNK_DATA => 0 <= sk_http_length sk
  | _ => False
  end.

(** The automaton goes on after a byte that is accepted. *)
Ltac chunk_ok := cbv beta iota zeta; change (HTTP_PARSE_OK =? HTTP_PARSE_OK) with true; cbv beta iota zeta.

Lemma chunk_fold_cons sk c data :
  chunk_fold sk (c :: data)
  = let '(r, sk') := chunk_step sk c in
    if r =? HTTP_PARSE_OK then chunk_fold sk' data else (r, sk').
Proof. done. Qed.

Lemma chunk_fold_app sk d1 d2 :
  chunk_fold sk (d1 ++ d2)
  = let '(r, sk') := chunk_fold sk d1 in
    if r =? HTTP_PARSE_OK then chunk_fold sk' d2 else (r, sk').
Proof.
  revert sk. induction d1 as [|c d1 IH]; intros sk; simpl; [done|].
  destruct (chunk_step sk c) as [r sk']. destruct (r =? HTTP_PARSE_OK) eqn:E; [apply IH|]. by rewrite E.
Qed.

Lemma chunk_step_ready sk c r sk' :
  chunk_ready sk -> sk_http_parse_state sk ≠ HTTP_HEADER_DONE -> chunk_step sk c = (r, sk') ->
  r = HTTP_PARSE_OK -> chunk_ready sk' /\ sk_http_parse_state sk' ≠ HTTP_HEADER_DONE.
Proof.
  unfold chunk_step, chunk_ready. intros Hr Hd Hs ->. revert Hs.
  destruct (sk_http_parse_state sk) eqn:Es; try done; intros Hs;
    [destruct (hex_digit c)
    |destruct (c =? LF); [destruct (Z.ltb_spec 0 (sk_http_length sk))|]
    |destruct (Z.ltb_spec 0 (sk_http_length sk)); [|destruct (c =? CR)]
    |destruct (c =? LF)|destruct (c =? CR)|destruct (c =? LF)|destruct (c =? LF)];
    injection Hs; try done; intros <-; rsimpl; rewrite ?Es; split; try done; rsimpl; lia.
Qed.

Lemma chunk_fold_ready sk data sk' :
  chunk_ready sk -> sk_http_parse_state sk ≠ HTTP_HEADER_DONE ->
  chunk_fold sk data = (HTTP_PARSE_OK, sk') ->
  chunk_ready sk' /\ sk_http_parse_state sk' ≠ HTTP_HEADER_DONE.
Proof.
  revert sk. induction data as [|c data IH]; intros sk Hr Hd; simpl; [by intros [= <-]|].
  destruct (chunk_step sk c) as [r sk1] eqn:Es. destruct (r =? HTTP_PARSE_OK) eqn:E; bool_facts.
  - apply IH; eapply chunk_step_ready; eauto.
  - by intros [= ? _].
Qed.

Section Labels.
Context (retry : socket -> list Z -> option (Z * socket)) (bound : nat).
Hypothesis retry_fold : forall sk data, (length data < bound)%nat ->
  sk_http_parse_state sk = HTTP_CHUNK_SIZE -> retry sk data = Some (chunk_fold sk data).

Lemma chunk_end_fold sk data :
  sk_http_parse_state sk = HTTP_CHUNK_END -> chunk_end sk data = chunk_fold sk data.
Proof. destruct data as [|c data]; intros Es; [done|]. simpl. unfold chunk_step. rewrite Es. by case_match. Qed.

Lemma chunk_trailer_fold b sk data :
  sk_http_parse_state sk = (if b : bool then HTTP_CHUNK_TRAILER_BEGIN else HTTP_CHUNK_TRAILER) ->
  chunk_trailer b sk data = chunk_fold sk data.
Proof.
  revert b sk. induction data as [|c data IH]; intros b sk Es; [done|].
  simpl. unfold chunk_step. rewrite Es. destruct b; case_match; simpl.
  - by apply chunk_end_fold.
  - by apply IH.
  - by apply IH.
  - by apply IH.
Qed.

Lemma chunk_data_end_fold sk data :
  sk_http_parse_state sk = HTTP_CHUNK_DATA_END -> (length data <= bound)%nat ->
  chunk_data_end retry sk data = Some (chunk_fold sk data).
Proof.
  destruct data as [|c data]; intros Es Hl; [done|]. simpl in *. unfold chunk_step. rewrite Es.
  case_match; [|done]. by rewrite retry_fold by (done || lia).
Qed.

Lemma chunk_fold_data sk data :
  sk_http_parse_state sk = HTTP_CHUNK_DATA -> Z.of_nat (length data) <= sk_http_length sk ->
  chunk_fold sk data
  = (HTTP_PARSE_OK, sk <| sk_http_length := sk_http_length sk - Z.of_nat (length data) |>).
Proof.
  revert sk. induction data as [|c data IH]; intros sk Es Hl.
  - simpl. f_equal. rewrite Z.sub_0_r. by destruct sk.
  - rewrite chunk_fold_cons. cbn [length] in Hl. unfold chunk_step. rewrite Es.
    destruct (Z.ltb_spec 0 (sk_http_length sk)); [|lia]. chunk_ok.
    rewrite IH; rsimpl; [|done|lia]. cbn [length].
    replace (sk_http_length sk - Z.of_nat (S (length data)))
      with (sk_http_length sk - 1 - Z.of_nat (length data)) by lia. reflexivity.
Qed.

Lemma chunk_data_fold sk data :
  sk_http_parse_state sk = HTTP_CHUNK_DATA -> 0 <= sk_http_length sk -> (length data <= bound)%nat ->
  chunk_data retry sk data = Some (chunk_fold sk data).
Proof.
  intros Es Hn Hl. destruct data as [|c0 data0] eqn:Ed; [done|].
  unfold chunk_data. rewrite <- Ed in *.
  destruct (Z.leb_spec (Z.of_nat (length data)) (sk_http_length sk)) as [Hle|Hlt].
  { rewrite chunk_fold_data by done. done. }
  assert (length (take (Z.to_nat (sk_http_length sk)) data) = Z.to_nat (sk_http_length sk)) as Ht
    by (rewrite length_take; lia).
  pose proof (chunk_fold_app sk (take (Z.to_nat (sk_http_length sk)) data)
    (drop (Z.to_nat (sk_http_length sk)) data)) as Happ.
  rewrite take_drop in Happ. rewrite Happ, chunk_fold_data by (done || lia).
  rewrite Ht, Z2Nat.id, Z.sub_diag by done. chunk_ok.
  destruct (drop (Z.to_nat (sk_http_length sk)) data) as [|c data'] eqn:Edrop.
  { apply (f_equal length) in Edrop. rewrite length_drop in Edrop. simpl in Edrop. lia. }
  assert (length data' < length data)%nat
    by (apply (f_equal length) in Edrop; rewrite length_drop in Edrop; simpl in Edrop; lia).
  rewrite chunk_fold_cons. unfold chunk_step. rsimpl. rewrite Es. simpl (0 <? 0). cbv iota.
  destruct (c =? CR); [|done]. chunk_ok.
  by rewrite chunk_data_end_fold by (done || lia).
Qed.

Lemma chunk_size_end_fold sk data :
  sk_http_parse_state sk = HTTP_CHUNK_SIZE_END -> (length data <= bound)%nat ->
  chunk_size_end retry sk data = Some (chunk_fold sk data).
Proof.
  revert sk. induction data as [|c data IH]; intros sk Es Hl; [done|].
  cbn [chunk_size_end length] in *. rewrite chunk_fold_cons. unfold chunk_step. rewrite Es.
  destruct (c =? LF); [|by apply IH; [|lia]].
  destruct (Z.ltb_spec 0 (sk_http_length sk)); chunk_ok.
  - apply chunk_data_fold; [done|rsimpl; lia|lia].
  - by rewrite chunk_trailer_fold.
Qed.

Lemma chunk_size_fold sk data :
  sk_http_parse_state sk = HTTP_CHUNK_SIZE -> (length data <= bound)%nat ->
  (let '(sk, data) := chunk_size_loop sk data in chunk_size_end retry sk data)
  = Some (chunk_fold sk data).
Proof.
  revert sk. induction data as [|c data IH]; intros sk Es Hl; [done|].
  rewrite chunk_fold_cons. unfold chunk_step. rewrite Es. cbn [chunk_size_loop length] in *.
  destruct (hex_digit c) as [d|]; chunk_ok.
  - by apply IH; [|lia].
  - by rewrite chunk_size_end_fold by (done || lia).
Qed.
End Labels.

Lemma http_parse_chunk_loop_fold fuel sk data :
  (length data < fuel)%nat -> chunk_ready sk ->
  http_parse_chunk_loop fuel sk data = Some (chunk_fold (chunk_enter sk) data).
Proof.
  revert sk data. induction fuel as [|fuel IH]; intros sk data Hl Hr; [lia|].
  assert (forall sk data, (length data < fuel)%nat -> sk_http_parse_state sk = HTTP_CHUNK_SIZE ->
    http_parse_chunk_loop fuel sk data = Some (chunk_fold sk data)) as Hretry.
  { intros sk' data' Hl' Es. rewrite IH by (done || by unfold chunk_ready; rewrite Es).
    unfold chunk_enter. by rewrite Es. }
  cbn [http_parse_chunk_loop]. unfold chunk_enter. unfold chunk_ready in Hr.
  destruct (sk_http_parse_state sk) eqn:Es; try done.
  - apply (chunk_size_fold _ fuel Hretry); [done|lia].
  - replace (sk <| sk_http_parse_state := HTTP_CHUNK_SIZE |>) with sk
      by (destruct sk; cbv in Es; by rewrite Es).
    apply (chunk_size_fold _ fuel Hretry); [done|lia].
  - apply (chunk_size_end_fold _ fuel Hretry); [done|lia].
  - apply (chunk_data_fold _ fuel Hretry); [done|done|lia].
  - apply (chunk_data_end_fold _ fuel Hretry); [done|lia].
  - by rewrite chunk_trailer_fold.
  - by rewrite chunk_trailer_fold.
  - by rewrite chunk_end_fold.
Qed.

Lemma http_parse_chunk_fold sk data : chunk_ready sk ->
  http_parse_chunk sk data = Some (chunk_fold (chunk_enter sk) data).
Proof. intros. apply http_parse_chunk_loop_fold; [lia|done]. Qed.

(** ** Properties *)

Lemma chunk_enter_ready sk : chunk_ready sk ->
  chunk_ready (chunk_enter sk) /\ sk_http_parse_state (chunk_enter sk) ≠ HTTP_HEADER_DONE.
Proof.
  unfold chunk_ready, chunk_enter. intros Hr.
  destruct (sk_http_parse_state sk) eqn:Es; rsimpl; by rewrite ?Es.
Qed.

(** C18: the parser of a chunked body gives the same result however the body is
    cut into packets. *)
Theorem http_chunk_segmentation sk d1 d2 :
  chunk_ready sk ->
  exists r sk', http_parse_chunk sk d1 = Some (r, sk') /\
    http_parse_chunk sk (d1 ++ d2)
    = if r =? HTTP_PARSE_OK then http_parse_chunk sk' d2 else Some (r, sk').
Proof.
  intros Hr. rewrite !http_parse_chunk_fold by done.
  destruct (chunk_enter_ready sk Hr) as [Hr' Hd'].
  destruct (chunk_fold (chunk_enter sk) d1) as [r sk'] eqn:E.
  exists r, sk'. split; [done|]. rewrite chunk_fold_app, E.
  destruct (Z.eqb_spec r HTTP_PARSE_OK) as [->|]; [|done].
  destruct (chunk_fold_ready _ _ _ Hr' Hd' E) as [Hr2 Hd2].
  rewrite http_parse_chunk_fold by done. unfold chunk_enter.
  by destruct (sk_http_parse_state sk').
Qed.

Lemma http_chunk_segmentation_witness :
  let sk := socket_zero <| sk_http_parse_state := HTTP_HEADER_DONE |> in
  exists r sk', http_parse_chunk sk [53; 13] = Some (r, sk') /\
    http_parse_chunk sk ([53; 13] ++ [10; 104; 101])
    = if r =? HTTP_PARSE_OK then http_parse_chunk sk' [10; 104; 101] else Some (r, sk').
Proof. intros sk. apply (http_chunk_segmentation sk [53; 13] [10; 104; 101]). exact I. Defined.

(** *** Encoding *)

Definition hex_char (d : Z) : Z := if d <? 10 then 48 + d else 97 + (d - 10).

(** The hexadecimal digits of a number, most significant first. *)
Fixpoint hex_digits (fuel : nat) (n : Z) (acc : list Z) : list Z :=
  match fuel with
  | O => acc
  | S fuel =>
      let acc := n mod 16 :: acc in
      if n / 16 =? 0 then acc else hex_digits fuel (n / 16) acc
  end.

Definition encode_chunk (body : list Z) : list Z :=
  map hex_char (hex_digits 16 (Z.of_nat (length body)) []) ++ [CR; LF] ++ body ++ [CR; LF].

Definition encode_body (bodies : list (list Z)) : list Z :=
  concat (map encode_chunk bodies) ++ [48; CR; LF; CR; LF].

Definition hex_value (l : Z) (ds : list Z) : Z := foldl (fun l d => 16 * l + d) l ds.

Lemma hex_digits_value fuel n acc l : 0 <= n < 16 ^ Z.of_nat fuel ->
  hex_value l (hex_digits fuel n acc)
  = hex_value (hex_value l (hex_digits fuel n [])) acc
  /\ hex_value 0 (hex_digits fuel n []) = n.
Proof.
  revert n acc l. induction fuel as [|fuel IH]; intros n acc l Hn; [simpl in *; split; [done|lia]|].
  rewrite Nat2Z.inj_succ, Z.pow_succ_r in Hn by lia. cbn [hex_digits].
  destruct (Z.eqb_spec (n / 16) 0) as [E|E].
  - unfold hex_value. simpl. split; [done|]. Z.to_euclidean_division_equations. lia.
  - assert (0 <= n / 16 < 16 ^ Z.of_nat fuel) as Hn'.
    { split; [apply Z.div_pos; lia|]. apply Z.div_lt_upper_bound; lia. }
    destruct (IH (n / 16) (n mod 16 :: acc) l Hn') as [-> _].
    destruct (IH (n / 16) [n mod 16] l Hn') as [-> _].
    destruct (IH (n / 16) [n mod 16] 0 Hn') as [-> ->].
    split; [done|]. unfold hex_value. simpl. Z.to_euclidean_division_equations. lia.
Qed.

Lemma hex_digits_range fuel n acc : 0 <= n -> Forall (fun d => 0 <= d < 16) acc ->
  Forall (fun d => 0 <= d < 16) (hex_digits fuel n acc).
Proof.
  revert n acc. induction fuel as [|fuel IH]; intros n acc Hn Ha; [done|]. cbn [hex_digits].
  assert (Forall (fun d => 0 <= d < 16) (n mod 16 :: acc))
    by (constructor; [apply Z.mod_pos_bound; lia|done]).
  case_match; [done|]. apply IH; [apply Z.div_pos; lia|done].
Qed.

Lemma hex_digit_char d : 0 <= d < 16 -> hex_digit (hex_char d) = Some d.
Proof.
  intros. unfold hex_digit, hex_char. destruct (Z.ltb_spec d 10).
  - destruct (Z.leb_spec 48 (48 + d)), (Z.leb_spec (48 + d) 57); try lia. simpl. f_equal. lia.
  - destruct (Z.leb_spec 48 (97 + (d - 10))), (Z.leb_spec (97 + (d - 10)) 57); try lia. simpl.
    destruct (Z.leb_spec 97 (97 + (d - 10))), (Z.leb_spec (97 + (d - 10)) 102); try lia. simpl.
    f_equal. lia.
Qed.

Lemma hex_value_mono l ds : 0 <= l -> Forall (fun d => 0 <= d < 16) ds -> l <= hex_value l ds.
Proof.
  revert l. induction ds as [|d ds IH]; intros l Hl Hd; [done|].
  apply list.Forall_cons in Hd as [Hd Hds]. specialize (IH (16 * l + d) ltac:(lia) Hds).
  change (hex_value l (d :: ds)) with (hex_value (16 * l + d) ds). lia.
Qed.

Lemma chunk_fold_size sk ds rest :
  sk_http_parse_state sk = HTTP_CHUNK_SIZE -> 0 <= sk_http_length sk ->
  Forall (fun d => 0 <= d < 16) ds -> hex_value (sk_http_length sk) ds < 2 ^ 63 ->
  chunk_fold sk (map hex_char ds ++ rest)
  = chunk_fold (sk <| sk_http_length := hex_value (sk_http_length sk) ds |>) rest.
Proof.
  revert sk. induction ds as [|d ds IH]; intros sk Es Hl Hds Hv; [by destruct sk|].
  apply list.Forall_cons in Hds as [Hd Hds].
  change (map hex_char (d :: ds) ++ rest) with (hex_char d :: (map hex_char ds ++ rest)).
  change (hex_value (sk_http_length sk) (d :: ds))
    with (hex_value (16 * sk_http_length sk + d) ds) in *.
  rewrite chunk_fold_cons. unfold chunk_step. rewrite Es, hex_digit_char by done. chunk_ok.
  pose proof (hex_value_mono (16 * sk_http_length sk + d) ds ltac:(lia) Hds).
  assert (i64 ((sk_http_length sk <<< 4) + d) = 16 * sk_http_length sk + d) as E.
  { rewrite Z.shiftl_mul_pow2 by lia. change (2 ^ 4) with 16.
    change (2 ^ 63) with 9223372036854775808 in *.
    rewrite swrap_small; [lia|lia|]. change (2 ^ (64 - 1)) with 9223372036854775808. lia. }
  rewrite IH; rsimpl; rewrite ?E; [reflexivity|done|lia|done|lia].
Qed.

Lemma chunk_fold_size_crlf sk rest :
  sk_http_parse_state sk = HTTP_CHUNK_SIZE -> 0 < sk_http_length sk ->
  chunk_fold sk ([CR; LF] ++ rest) = chunk_fold (sk <| sk_http_parse_state := HTTP_CHUNK_DATA |>) rest.
Proof.
  intros Es Hl. change ([CR; LF] ++ rest) with (CR :: LF :: rest).
  rewrite chunk_fold_cons. unfold chunk_step at 1. rewrite Es. change (hex_digit CR) with (@None Z). chunk_ok.
  rewrite chunk_fold_cons. unfold chunk_step at 1. rsimpl. change (LF =? LF) with true. cbv iota.
  destruct (Z.ltb_spec 0 (sk_http_length sk)); [reflexivity|lia].
Qed.

Lemma chunk_fold_data_crlf sk rest :
  sk_http_parse_state sk = HTTP_CHUNK_DATA -> sk_http_length sk = 0 ->
  chunk_fold sk ([CR; LF] ++ rest) = chunk_fold (sk <| sk_http_parse_state := HTTP_CHUNK_SIZE |>) rest.
Proof.
  intros Es Hl. change ([CR; LF] ++ rest) with (CR :: LF :: rest).
  rewrite chunk_fold_cons. unfold chunk_step at 1. rewrite Es, Hl. change (CR =? CR) with true.
  change (0 <? 0) with false. chunk_ok.
  rewrite chunk_fold_cons. unfold chunk_step at 1. rsimpl. change (LF =? LF) with true. chunk_ok.
  f_equal. destruct sk; cbv in Hl; subst; reflexivity.
Qed.

Lemma chunk_fold_chunk sk body rest :
  sk_http_parse_state sk = HTTP_CHUNK_SIZE -> sk_http_length sk = 0 ->
  body ≠ [] -> Z.of_nat (length body) < 2 ^ 63 ->
  chunk_fold sk (encode_chunk body ++ rest) = chunk_fold sk rest.
Proof.
  intros Es Hl Hb Hlen. unfold encode_chunk. rewrite <- !app_assoc.
  change (2 ^ 63) with 9223372036854775808 in Hlen.
  destruct (hex_digits_value 16 (Z.of_nat (length body)) [] 0) as [_ Hv].
  { change (16 ^ Z.of_nat 16) with 18446744073709551616. lia. }
  rewrite chunk_fold_size; rewrite ?Hl, ?Hv; [|done|lia|by apply hex_digits_range; [lia|]|
    change (2 ^ 63) with 9223372036854775808; lia].
  assert (0 < Z.of_nat (length body)) by (destruct body; [done|simpl; lia]).
  rewrite chunk_fold_size_crlf by done.
  rewrite chunk_fold_app, chunk_fold_data by (done || rsimpl; lia). chunk_ok. rsimpl.
  rewrite Z.sub_diag, chunk_fold_data_crlf by done.
  f_equal. destruct sk; cbv in Es, Hl; subst; reflexivity.
Qed.

(** C19: a body encoded in non-empty chunks (with lower-case sizes) is parsed to
    its end, and the end is reached at its last byte, not before. *)
Theorem http_chunk_roundtrip sk bodies :
  sk_http_parse_state sk = HTTP_HEADER_DONE -> sk_http_length sk = 0 ->
  Forall (fun b => b ≠ [] /\ Z.of_nat (length b) < 2 ^ 63) bodies ->
  http_parse_chunk sk (encode_body bodies)
    = Some (HTTP_PARSE_END, sk <| sk_http_parse_state := HTTP_BODY_DONE |>)
  /\ exists sk', http_parse_chunk sk (removelast (encode_body bodies)) = Some (HTTP_PARSE_OK, sk').
Proof.
  intros Es Hl Hb.
  assert (chunk_ready sk) as Hr by (unfold chunk_ready; by rewrite Es).
  assert (removelast (encode_body bodies) = concat (map encode_chunk bodies) ++ [48; CR; LF; CR]) as ->.
  { unfold encode_body. by rewrite removelast_app by done. }
  rewrite !http_parse_chunk_fold by done. unfold chunk_enter. rewrite Es. unfold encode_body.
  set (sk1 := sk <| sk_http_parse_state := HTTP_CHUNK_SIZE |>).
  assert (forall rest, chunk_fold sk1 (concat (map encode_chunk bodies) ++ rest) = chunk_fold sk1 rest) as H.
  { intros rest. induction Hb as [|b bodies [Hb1 Hb2] _ IH]; [done|]. simpl. rewrite <- app_assoc.
    by rewrite chunk_fold_chunk. }
  rewrite !H. clear H. unfold sk1. destruct sk; cbv in Es, Hl; subst. split; [done|by eexists].
Qed.

Lemma http_chunk_roundtrip_witness :
  let sk := socket_zero <| sk_http_parse_state := HTTP_HEADER_DONE |> in
  http_parse_chunk sk (encode_body [[104; 101; 108; 108; 111]; replicate 26 97])
    = Some (HTTP_PARSE_END, sk <| sk_http_parse_state := HTTP_BODY_DONE |>)
  /\ exists sk', http_parse_chunk sk (removelast (encode_body [[104; 101; 108; 108; 111]; replicate 26 97]))
      = Some (HTTP_PARSE_OK, sk').
Proof.
  intros sk. apply (http_chunk_roundtrip sk [[104; 101; 108; 108; 111]; replicate 26 97]).
  - reflexivity.
  - reflexivity.
  - repeat constructor; try discriminate; vm_compute; reflexivity.
Defined.

(** A chunk size written with an upper-case digit, which RFC 7230 allows
    ([HEXDIG]), is cut at that digit: the chunk [1A] of 26 bytes is taken for a
    chunk of one byte and the body is refused. *)
Theorem http_chunk_uppercase_refused :
  let sk := socket_zero <| sk_http_parse_state := HTTP_HEADER_DONE |> in
  let body := replicate 26 97 ++ [CR; LF; 48; CR; LF; CR; LF] in
  option_map fst (http_parse_chunk sk ([49; 97; CR; LF] ++ body)) = Some HTTP_PARSE_END
  /\ option_map fst (http_parse_chunk sk ([49; 65; CR; LF] ++ body)) = Some HTTP_PARSE_ERR.
Proof. split; reflexivity. Qed.

(** *** Bodies with a length *)

(** The payloads of successive packets, until one does not return [OK]; the
    result tells how many packets were left. *)
Fixpoint feed_body (sk : socket) (packets : list (list Z)) : option (Z * socket * nat) :=
  match packets with
  | [] => Some (HTTP_PARSE_OK, sk, O)
  | p :: packets =>
      '(r, sk) ← http_parse_body sk p;
      if r =? HTTP_PARSE_OK then feed_body sk packets else Some (r, sk, length packets)
  end.

(** A body announced with [Content-Length] ends with the packet that brings
    the announced number of bytes, whatever the sizes of the packets. *)
Theorem http_content_length_end sk packets last_packet :
  has (sk_http_flags sk) HTTP_F_CONTENT_LENGTH = true -> last_packet ≠ [] ->
  sk_http_length sk = Z.of_nat (length (concat packets ++ last_packet)) ->
  exists sk', feed_body sk (packets ++ [last_packet]) = Some (HTTP_PARSE_END, sk', O)
    /\ sk_http_length sk' = 0 /\ sk_http_parse_state sk' = HTTP_BODY_DONE.
Proof.
  revert sk. induction packets as [|p packets IH]; intros sk Hf Hne Hl.
  - simpl in *. unfold http_parse_body. rewrite Hf, Hl, Z.ltb_irrefl, Z.eqb_refl.
    eexists. split; [reflexivity|]. by rsimpl.
  - cbn [concat] in Hl. rewrite <- app_assoc, length_app in Hl.
    assert (0 < Z.of_nat (length (concat packets ++ last_packet))).
    { rewrite length_app. destruct last_packet; [done|]. simpl. lia. }
    change ((p :: packets) ++ [last_packet]) with (p :: (packets ++ [last_packet])).
    cbn [feed_body]. unfold http_parse_body. rewrite Hf.
    destruct (Z.ltb_spec (Z.of_nat (length p)) (sk_http_length sk)); [|lia].
    cbn [mbind option_bind]. change (HTTP_PARSE_OK =? HTTP_PARSE_OK) with true. cbv iota.
    apply IH; rsimpl; [done|done|lia].
Qed.

Lemma http_content_length_end_witness :
  let sk := socket_zero <| sk_http_flags := 2 |> <| sk_http_length := 7 |> in
  exists sk', feed_body sk ([[1; 2; 3]; [4; 5]] ++ [[6; 7]]) = Some (HTTP_PARSE_END, sk', O)
    /\ sk_http_length sk' = 0 /\ sk_http_parse_state sk' = HTTP_BODY_DONE.
Proof.
  intros sk. apply (http_content_length_end sk [[1; 2; 3]; [4; 5]] [6; 7]);
    [reflexivity|discriminate|reflexivity].
Defined.

(** ** The parser never fails

    It reads inside the packet, ends, and changes nothing of the socket but the
    fields of the parser and the keep-alive bit. *)

Definition http_frame (sk sk' : socket) : Prop := exists l s f k,
  sk' = sk <| sk_http_length := l |> <| sk_http_parse_state := s |> <| sk_http_flags := f |>
           <| sk_keepalive := k |>.
Definition http_code (r : Z) : Prop := r = HTTP_PARSE_OK \/ r = HTTP_PARSE_END \/ r = HTTP_PARSE_ERR.
(** A result of the parser of [sk]. *)
Definition http_total (sk : socket) (o : option (Z * socket)) : Prop :=
  exists r sk', o = Some (r, sk') /\ http_code r /\ http_frame sk sk'.

Lemma http_frame_refl sk : http_frame sk sk.
Proof. by exists (sk_http_length sk), (sk_http_parse_state sk), (sk_http_flags sk), (sk_keepalive sk); destruct sk. Qed.
Lemma http_frame_trans a b c : http_frame a b -> http_frame b c -> http_frame a c.
Proof. intros (?&?&?&?&->) (l&s&f&k&->). by exists l, s, f, k; destruct a. Qed.
Lemma http_frame_upd sk l s f k :
  http_frame sk (sk <| sk_http_length := l |> <| sk_http_parse_state := s |> <| sk_http_flags := f |>
                    <| sk_keepalive := k |>).
Proof. by exists l, s, f, k. Qed.

(** Updates of parser fields. *)
Ltac http_frame :=
  match goal with
  | |- http_frame ?a ?b =>
      exists (sk_http_length b), (sk_http_parse_state b), (sk_http_flags b), (sk_keepalive b);
      destruct a; reflexivity
  end.
Ltac http_code := unfold http_code; by auto.

Lemma http_total_some sk r sk' : http_code r -> http_frame sk sk' -> http_total sk (Some (r, sk')).
Proof. intros. by exists r, sk'. Qed.
Lemma http_total_frame sk sk' o : http_frame sk sk' -> http_total sk' o -> http_total sk o.
Proof. intros Hf (r & sk2 & -> & Hr & Hf2). exists r, sk2. eauto using http_frame_trans. Qed.

Lemma chunk_trailer_total b sk data : http_total sk (Some (chunk_trailer b sk data)).
Proof.
  revert b sk. induction data as [|c data IH]; intros b sk; simpl;
    [apply http_total_some; [http_code|apply http_frame_refl]|].
  destruct b; case_match.
  - destruct data as [|c2 data]; simpl; [|case_match]; apply http_total_some; (http_code || http_frame).
  - eapply http_total_frame; [|apply IH]. http_frame.
  - eapply http_total_frame; [|apply IH]. http_frame.
  - apply IH.
Qed.

Section Total.
Context (retry : socket -> list Z -> option (Z * socket)) (bound : nat).
Hypothesis retry_total : forall sk data, (length data < bound)%nat -> http_total sk (retry sk data).

Lemma chunk_data_end_total sk data : (length data <= bound)%nat ->
  http_total sk (chunk_data_end retry sk data).
Proof.
  destruct data as [|c data]; simpl; intros; [apply http_total_some; [http_code|apply http_frame_refl]|].
  case_match; [|apply http_total_some; [http_code|apply http_frame_refl]].
  eapply http_total_frame; [|apply retry_total; lia]. http_frame.
Qed.

Lemma chunk_data_total sk data : (length data <= bound)%nat -> http_total sk (chunk_data retry sk data).
Proof.
  intros Hl. unfold chunk_data. destruct data as [|c0 data0] eqn:Ed;
    [apply http_total_some; [http_code|apply http_frame_refl]|]. rewrite <- Ed in *. cbv zeta.
  destruct (Z.leb_spec (Z.of_nat (length data)) (sk_http_length sk));
    [apply http_total_some; (http_code || http_frame)|].
  destruct (drop (Z.to_nat (sk_http_length sk)) data) as [|c data1] eqn:E.
  { apply (f_equal length) in E. rewrite length_drop in E. subst data. simpl in *. lia. }
  apply (f_equal length) in E. rewrite length_drop in E. simpl in E.
  case_match; [|apply http_total_some; (http_code || http_frame)].
  eapply http_total_frame; [|apply chunk_data_end_total; lia]. http_frame.
Qed.

Lemma chunk_size_end_total sk data : (length data <= bound)%nat ->
  http_total sk (chunk_size_end retry sk data).
Proof.
  revert sk. induction data as [|c data IH]; intros sk Hl; simpl in *;
    [apply http_total_some; [http_code|apply http_frame_refl]|].
  case_match; [case_match|].
  - eapply http_total_frame; [|apply chunk_data_total; lia]. http_frame.
  - eapply http_total_frame; [|apply chunk_trailer_total]. http_frame.
  - apply IH. lia.
Qed.
End Total.

Lemma chunk_size_loop_frame sk data : let '(sk', data') := chunk_size_loop sk data in
  http_frame sk sk' /\ (length data' <= length data)%nat.
Proof.
  revert sk. induction data as [|c data IH]; intros sk; simpl; [by split; [apply http_frame_refl|]|].
  destruct (hex_digit c) as [d|].
  - specialize (IH (sk <| sk_http_length ::= fun l => i64 ((l <<< 4) + d) |>)).
    destruct (chunk_size_loop _ _) as [sk' data']. destruct IH as [Hf Hl]. split; [|lia].
    eapply http_frame_trans; [|exact Hf]. http_frame.
  - split; [http_frame|lia].
Qed.

Lemma http_parse_chunk_total fuel sk data : (length data < fuel)%nat ->
  http_total sk (http_parse_chunk_loop fuel sk data).
Proof.
  revert sk data. induction fuel as [|fuel IH]; intros sk data Hl; [lia|]. cbn [http_parse_chunk_loop].
  assert (forall sk data, (length data < fuel)%nat ->
    http_total sk (http_parse_chunk_loop fuel sk data)) as Hretry by auto.
  assert (forall s, http_total sk (let '(sk, data) := chunk_size_loop (sk <| sk_http_parse_state := s |>) data in
    chunk_size_end (http_parse_chunk_loop fuel) sk data)) as Hsize.
  { intros s. pose proof (chunk_size_loop_frame (sk <| sk_http_parse_state := s |>) data) as Hf.
    destruct (chunk_size_loop _ _) as [sk' data']. destruct Hf as [Hf Hl'].
    eapply http_total_frame; [|apply (chunk_size_end_total _ fuel Hretry); lia].
    eapply http_frame_trans; [|exact Hf]. http_frame. }
  destruct (sk_http_parse_state sk); try (apply http_total_some; [http_code|apply http_frame_refl]);
    first [ apply Hsize | apply (chunk_size_end_total _ fuel Hretry); lia
          | apply (chunk_data_total _ fuel Hretry); lia | apply (chunk_data_end_total _ fuel Hretry); lia
          | apply chunk_trailer_total | idtac ].
  unfold chunk_end. destruct data; [|case_match]; apply http_total_some; first [http_code|http_frame].
Qed.

Lemma http_parse_body_total sk data : http_total sk (http_parse_body sk data).
Proof.
  unfold http_parse_body. repeat case_match; try (apply http_total_some; first [http_code|http_frame]).
  apply http_parse_chunk_total. lia.
Qed.

Lemma header_match_some start name_len size f0 f1 l0 l1 : 2 <= size -> name_len <= Z.of_nat (length start) ->
  is_Some (http_header_match start name_len size f0 f1 l0 l1).
Proof.
  intros Hs Hl. unfold http_header_match. destruct (Z.eqb_spec name_len size); [|by eexists].
  destruct (aget_some start 0) as [a ->]; [lia|]. simpl.
  destruct (aget_some start (size - 2)) as [b ->]; [lia|]. by eexists.
Qed.

Lemma header_line_total sk start name_len line_len : name_len <= Z.of_nat (length start) ->
  exists r sk', http_parse_header_line sk start name_len line_len = Some (r, sk') /\ http_frame sk sk'.
Proof.
  intros Hl. unfold http_parse_header_line.
  destruct (header_match_some start name_len CONTENT_LENGTH_SIZE 67 99 104 72) as [b1 ->]; [done..|].
  cbn [mbind option_bind]. destruct b1.
  { repeat case_match; eexists _, _; (split; [reflexivity|]); first [apply http_frame_refl|http_frame]. }
  destruct (header_match_some start name_len TRANSFER_ENCODING_SIZE 84 116 103 71) as [b2 ->]; [done..|].
  cbn [mbind option_bind]. destruct b2.
  { generalize (take (Z.to_nat (line_len - name_len)) (drop (Z.to_nat name_len) start)) as v.
    induction v as [|c v IH]; simpl; [eexists _, _; split; [reflexivity|apply http_frame_refl]|].
    repeat case_match; try done; eexists _, _; (split; [reflexivity|]); first [apply http_frame_refl|http_frame]. }
  destruct (header_match_some start name_len CONNECTION_SIZE 67 99 110 78) as [b3 ->]; [done..|].
  cbn [mbind option_bind].
  repeat case_match; eexists _, _; (split; [reflexivity|]); first [apply http_frame_refl|http_frame].
Qed.

Lemma headers_loop_total sk start rest line_len name_len n :
  0 <= name_len <= line_len -> line_len <= Z.of_nat (length start) - Z.of_nat (length rest) -> 0 <= n ->
  exists r sk', headers_loop sk start rest line_len name_len n = Some (r, sk')
    /\ -1 <= r /\ http_frame sk sk'.
Proof.
  revert sk start line_len name_len n. induction rest as [|c rest IH]; intros sk start line_len name_len n Hn Hl H0;
    simpl in *; [exists n, sk; split_and!; [done|lia|apply http_frame_refl]|].
  case_match; [apply IH; lia|]. case_match; [apply IH; lia|]. case_match; [case_match|case_match].
  - destruct (header_line_total sk start name_len (line_len + 1)) as (r & sk1 & -> & Hf); [lia|].
    cbn [mbind option_bind]. case_match; [by exists (-1), sk1|].
    destruct (IH (sk1 <| sk_http_parse_state := HTTP_HEADER_LINE_END |>) rest 0 0 (n + 1))
      as (r2 & sk2 & -> & Hr & Hf2); [lia..|].
    exists r2, sk2. split_and!; [done..|]. eapply http_frame_trans; [exact Hf|].
    eapply http_frame_trans; [|exact Hf2]. http_frame.
  - eexists _, _. split; [reflexivity|]. split; [lia|]. case_match; http_frame.
  - destruct (IH (sk <| sk_http_parse_state := HTTP_HEADER_BEGIN |>) start (line_len + 1) name_len (n + 1))
      as (r2 & sk2 & -> & Hr & Hf2); [lia..|].
    exists r2, sk2. split_and!; [done..|]. eapply http_frame_trans; [|exact Hf2]. http_frame.
  - apply IH; lia.
Qed.

Lemma http_parse_continue_total sk data : http_total sk (http_parse_continue sk data).
Proof.
  unfold http_parse_continue, http_parse_headers. case_match; [|apply http_parse_body_total].
  destruct (headers_loop_total sk data data 0 0 0) as (r & sk1 & -> & Hr & Hf); [lia..|].
  cbn [mbind option_bind]. case_match.
  - apply http_total_some; [http_code|done].
  - eapply http_total_frame; [exact Hf|apply http_parse_body_total].
Qed.

