(* ===== verification/Payload.v ===== *)
(** * Payload: the texts of requests, responses and datagrams

    [config_set_payload] of [src/config.c], [src/http.c] and [udp_set_payload]
    of [src/udp.c].  A text is the C string that the call leaves in its buffer
    of [MBUF_DATA_SIZE] bytes, without the final zero; [None] is a write
    outside the buffer. *)

From S2P Require Import Prelude Config NetStats World HttpParse.

(** ** The C library *)

(** A string constant as bytes. *)
Definition chars (s : string) : list Z := (fun c => Z.of_N (Ascii.N_of_ascii c)) <$> String.list_ascii_of_string s.

(** [%d] of a non-negative number, with fuel for its digits, and [%<w>d]. *)
Fixpoint dec_digits (fuel : nat) (x : Z) (acc : list Z) : list Z :=
  let acc := (48 + x mod 10) :: acc in
  match fuel with
  | O => acc
  | S fuel => if x <? 10 then acc else dec_digits fuel (x / 10) acc
  end.
Definition print_int (x : Z) : list Z :=
  if x <? 0 then 45 :: dec_digits 20 (- x) [] else dec_digits 20 x [].
Definition print_width (w : nat) (x : Z) : list Z :=
  let s := print_int x in replicate (w - length s) 32 ++ s.

(** [snprintf] into a buffer of [len] bytes. *)
Definition snprintf (len : Z) (s : list Z) : list Z := take (Z.to_nat (len - 1)) s.
Definition strlen (s : list Z) : Z := Z.of_nat (length s).

Definition HTTP_HOST_DEFAULT : list Z := chars "dperf".
Definition HTTP_PATH_DEFAULT : list Z := chars "/".
Definition HTTP_DATA_MIN_SIZE : Z := 85.
Definition CRLF : list Z := [CR; LF].

(** ** The formats *)

Definition http_get_format (path host : list Z) : list Z :=
  chars "GET " ++ path ++ chars " HTTP/1.1" ++ CRLF
  ++ chars "User-Agent: dperf" ++ CRLF
  ++ chars "Host: " ++ host ++ CRLF
  ++ chars "Accept: */*" ++ CRLF
  ++ chars "Pad: aaaaaaaaaaaaaaa" ++ CRLF
  ++ CRLF.

Definition http_post_format (path : list Z) (content_length : Z) (host body : list Z) : list Z :=
  chars "POST " ++ path ++ chars " HTTP/1.1" ++ CRLF
  ++ chars "Content-Length:" ++ print_width 4 content_length ++ CRLF
  ++ chars "User-Agent: dperf" ++ CRLF
  ++ chars "Host: " ++ host ++ CRLF
  ++ chars "Accept: */*" ++ CRLF
  ++ CRLF ++ body.

Definition http_rsp_format (content_length : Z) (body : list Z) : list Z :=
  chars "HTTP/1.1 200 OK" ++ CRLF
  ++ chars "Content-Length:" ++ print_width 11 content_length ++ CRLF
  ++ chars "Server: dperf" ++ CRLF
  ++ chars "Connection:keep-alive" ++ CRLF
  ++ CRLF ++ body.

Definition http_rsp_body_default : list Z := chars "hello dperf!" ++ CRLF.

Section Payload.
(** The numbers that [random()] returns. *)
Context (random : nat -> Z).

(** The letters 'a', or random ones; the last may be a line feed. *)
Definition payload_letters (payload_random : bool) (len : nat) : list Z :=
  if payload_random then (fun i => 97 + Z.rem (random i) 26) <$> seq 0 len else replicate len 97.

Definition config_set_payload (payload_random : bool) (len : Z) (new_line : bool) : option (list Z) :=
  if len =? 0 then Some []
  else if (0 <? len) && (len <? MBUF_DATA_SIZE) then
    let data := payload_letters payload_random (Z.to_nat len) in
    Some (if (1 <? len) && new_line then <[Z.to_nat (len - 1) := LF]> data else data)
  else None.

(** ** HTTP *)

Definition http_set_payload_client (cfg : config) (payload_size : Z) : option (list Z) :=
  let extra_len := strlen (c_http_path cfg) + strlen (c_http_host cfg)
                   - strlen HTTP_HOST_DEFAULT - strlen HTTP_PATH_DEFAULT in
  if payload_size <=? 0 then
    Some (snprintf MBUF_DATA_SIZE
            (if c_http_method cfg =? HTTP_METH_POST
             then http_post_format (c_http_path cfg) 0 (c_http_host cfg) []
             else http_get_format (c_http_path cfg) (c_http_host cfg)))
  else if payload_size <? HTTP_DATA_MIN_SIZE then config_set_payload (c_payload_random cfg) payload_size true
  else
    let pad := Z.max 0 (payload_size - HTTP_DATA_MIN_SIZE - extra_len) in
    buf ← config_set_payload (c_payload_random cfg) pad false;
    Some (snprintf MBUF_DATA_SIZE
            (if c_http_method cfg =? HTTP_METH_POST
             then http_post_format (c_http_path cfg) pad (c_http_host cfg) buf
             else http_get_format (47 :: drop 1 buf) (c_http_host cfg))).

Definition http_set_payload_server (cfg : config) (payload_size : Z) : option (list Z) :=
  if payload_size <=? 0 then
    Some (snprintf MBUF_DATA_SIZE (http_rsp_format (strlen http_rsp_body_default) http_rsp_body_default))
  else if payload_size <? HTTP_DATA_MIN_SIZE then config_set_payload (c_payload_random cfg) payload_size true
  else
    let pad := if c_mss cfg <? payload_size then c_mss cfg - HTTP_DATA_MIN_SIZE
               else payload_size - HTTP_DATA_MIN_SIZE in
    let content_length := payload_size - HTTP_DATA_MIN_SIZE in
    buf ← (if 0 <? pad then config_set_payload (c_payload_random cfg) pad true else Some []);
    Some (snprintf MBUF_DATA_SIZE (http_rsp_format content_length buf)).

(** [strcpy] of the content of a payload file. *)
Definition strcpy_payload (payload : list Z) : option (list Z) :=
  if strlen payload <? MBUF_DATA_SIZE then Some payload else None.

(** The texts of the first [cpu_num] workers. *)
Definition per_worker (cfg : config) (f : Z -> option (list Z)) : option (list (list Z)) :=
  mapM (fun i => size ← aget (c_payload_size cfg) (Z.of_nat i); f size) (seq 0 (Z.to_nat (c_cpu_num cfg))).

Definition http_set_payload (cfg : config) (payload : option (list Z)) : option (list (list Z)) :=
  per_worker cfg (fun size =>
    match payload with
    | Some p => strcpy_payload p
    | None => if c_server cfg then http_set_payload_server cfg size else http_set_payload_client cfg size
    end).

Definition udp_set_payload (cfg : config) (payload : option (list Z)) : option (list (list Z)) :=
  per_worker cfg (fun size =>
    match payload with
    | Some p => strcpy_payload p
    | None => config_set_payload (c_payload_random cfg) size true
    end).
End Payload.

(** ** Decimal numbers *)

Lemma dec_digits_acc fuel x acc : dec_digits fuel x acc = dec_digits fuel x [] ++ acc.
Proof.
  revert x acc. induction fuel as [|fuel IH]; intros x acc; simpl; [done|].
  destruct (x <? 10); [done|]. rewrite IH, (IH (x / 10) [_]). by rewrite <- app_assoc.
Qed.

Lemma dec_digits_digits fuel x : 0 <= x -> Forall (fun c => is_digit c = true) (dec_digits fuel x []).
Proof.
  assert (forall y, 0 <= y -> is_digit (48 + y mod 10) = true) as Hd.
  { intros y Hy. pose proof (Z.mod_pos_bound y 10). unfold is_digit. lia. }
  revert x. induction fuel as [|fuel IH]; intros x Hx; simpl; [by repeat constructor; auto|].
  destruct (x <? 10); [by repeat constructor; auto|]. rewrite dec_digits_acc. apply list.Forall_app.
  split; [apply IH; by apply Z.div_pos|repeat constructor; auto].
Qed.

Lemma dec_digits_atol fuel x acc : 0 <= x < 10 ^ (Z.of_nat fuel + 1) ->
  atol_digits 0 (dec_digits fuel x acc) = atol_digits x acc.
Proof.
  revert x acc. induction fuel as [|fuel IH]; intros x acc Hx.
  - change (10 ^ (Z.of_nat 0 + 1)) with 10 in Hx. unfold dec_digits. rewrite Z.mod_small by lia.
    cbn [atol_digits]. assert (is_digit (48 + x) = true) as -> by (unfold is_digit; lia). f_equal. lia.
  - cbn [dec_digits]. destruct (Z.ltb_spec x 10).
    + rewrite Z.mod_small by lia. cbn [atol_digits].
      assert (is_digit (48 + x) = true) as -> by (unfold is_digit; lia). f_equal. lia.
    + rewrite IH.
      * pose proof (Z.mod_pos_bound x 10 ltac:(lia)). cbn [atol_digits].
        assert (is_digit (48 + x mod 10) = true) as -> by (unfold is_digit; lia).
        f_equal. pose proof (Z.div_mod x 10). lia.
      * split; [apply Z.div_pos; lia|]. apply Z.div_lt_upper_bound; [lia|].
        rewrite <- Z.pow_succ_r by lia. replace (Z.succ (Z.of_nat fuel + 1)) with (Z.of_nat (S fuel) + 1) by lia. lia.
Qed.

Lemma dec_digits_length fuel x k : (1 <= k)%nat -> 0 <= x < 10 ^ Z.of_nat k -> (1 <= length (dec_digits fuel x []) <= k)%nat.
Proof.
  revert x k. induction fuel as [|fuel IH]; intros x k Hk Hx; simpl; [lia|].
  destruct (Z.ltb_spec x 10); [simpl; lia|]. destruct k as [|[|k]]; [lia|simpl in Hx; lia|].
  rewrite dec_digits_acc, length_app. simpl. specialize (IH (x / 10) (S k)).
  assert (0 <= x / 10 < 10 ^ Z.of_nat (S k)); [|specialize (IH ltac:(lia) ltac:(done)); lia].
  split; [apply Z.div_pos; lia|]. apply Z.div_lt_upper_bound; [lia|].
  rewrite <- Z.pow_succ_r by lia. replace (Z.succ (Z.of_nat (S k))) with (Z.of_nat (S (S k))) by lia. lia.
Qed.

(** A padded number has the width of the field and reads back. *)
Lemma print_width_length w x : (1 <= w)%nat -> 0 <= x < 10 ^ Z.of_nat w -> length (print_width w x) = w.
Proof.
  intros Hw Hx. unfold print_width, print_int. destruct (Z.ltb_spec x 0); [lia|].
  pose proof (dec_digits_length 20 x w Hw Hx). rewrite length_app, length_replicate. lia.
Qed.

Lemma print_width_chars w x : 0 <= x -> Forall (fun c => c = 32 \/ is_digit c = true) (print_width w x).
Proof.
  intros Hx. unfold print_width, print_int. destruct (Z.ltb_spec x 0); [lia|]. apply list.Forall_app. split.
  - apply list.Forall_replicate. by left.
  - eapply list.Forall_impl; [by apply dec_digits_digits|]. by right.
Qed.

Lemma atol_spaces n s : atol (replicate n 32 ++ s) = atol s.
Proof. induction n as [|n IH]; simpl; done. Qed.

Lemma atol_print_width w x s : 0 <= x < 10 ^ 18 -> head s = Some CR -> atol (print_width w x ++ s) = x.
Proof.
  intros Hx Hs. unfold print_width, print_int. destruct (Z.ltb_spec x 0); [lia|].
  rewrite <- app_assoc, atol_spaces.
  assert (atol_digits 0 (dec_digits 20 x [] ++ s) = x) as Ha.
  { rewrite <- dec_digits_acc, dec_digits_atol by (change (Z.of_nat 20 + 1) with 21; lia).
    destruct s as [|c s]; [done|]. by injection Hs as ->. }
  pose proof (dec_digits_digits 20 x ltac:(lia)) as Hd. pose proof (dec_digits_length 20 x 18 ltac:(lia) Hx) as Hl.
  destruct (dec_digits 20 x []) as [|c l]; [simpl in Hl; lia|].
  apply Forall_cons_1 in Hd as [Hc _]. cbn [app atol] in *.
  unfold is_digit in Hc. assert (is_space c = false) as -> by (unfold is_space; lia).
  assert ((c =? 45) = false) as -> by lia. assert ((c =? 43) = false) as -> by lia.
  rewrite Ha. unfold clamp_long. lia.
Qed.

(** ** The sizes of the texts *)

Lemma config_set_payload_some random rnd len nl : 0 < len < MBUF_DATA_SIZE ->
  exists s, config_set_payload random rnd len nl = Some s /\ strlen s = len.
Proof.
  unfold config_set_payload, strlen. intros Hl.
  destruct (Z.eqb_spec len 0); [lia|]. destruct (Z.ltb_spec 0 len), (Z.ltb_spec len MBUF_DATA_SIZE); try lia.
  cbn [andb]. eexists. split; [done|].
  assert (length (payload_letters random rnd (Z.to_nat len)) = Z.to_nat len) as Hd.
  { unfold payload_letters. destruct rnd; [by rewrite length_fmap, length_seq|by rewrite length_replicate]. }
  case_match; rewrite ?length_insert, Hd; lia.
Qed.

Lemma strlen_app_list a b : strlen (a ++ b) = strlen a + strlen b.
Proof. unfold strlen. rewrite length_app. lia. Qed.

Lemma strlen_width w x : (1 <= w)%nat -> 0 <= x < 10 ^ Z.of_nat w -> strlen (print_width w x) = Z.of_nat w.
Proof. intros. unfold strlen. by rewrite print_width_length. Qed.

(** The lengths of the constant parts of a format. *)
Ltac format_length :=
  rewrite !strlen_app_list;
  repeat match goal with
  | |- context [strlen (chars ?s)] => let n := eval vm_compute in (strlen (chars s)) in change (strlen (chars s)) with n
  | |- context [strlen CRLF] => change (strlen CRLF) with 2
  end.

Lemma http_get_length path host : strlen (http_get_format path host) = 79 + strlen path + strlen host.
Proof. unfold http_get_format. format_length. lia. Qed.
Lemma http_post_length path n host body : 0 <= n < 10 ^ 4 ->
  strlen (http_post_format path n host body) = 79 + strlen path + strlen host + strlen body.
Proof. intros Hn. unfold http_post_format. format_length. rewrite strlen_width by (done || lia). lia. Qed.
Lemma http_rsp_length n body : 0 <= n < 10 ^ 11 -> strlen (http_rsp_format n body) = 85 + strlen body.
Proof. intros Hn. unfold http_rsp_format. format_length. rewrite strlen_width by (done || lia). lia. Qed.

Lemma snprintf_fits len s : strlen s < len -> snprintf len s = s.
Proof. unfold snprintf, strlen. intros Hl. apply take_ge. lia. Qed.

(** C29: a POST request with room for its headers is exactly as long as the
    configured payload size; a GET request is shorter, by the length of the
    configured path: the padding replaces the path and is not added to it. *)
Theorem http_request_sizes random cfg size :
  let path := strlen (c_http_path cfg) in let host := strlen (c_http_host cfg) in
  HTTP_DATA_MIN_SIZE <= size -> 79 + path + host < size -> size < MBUF_DATA_SIZE ->
  size - (79 + path + host) < 10000 ->
  exists text, http_set_payload_client random cfg size = Some text
    /\ strlen text = if c_http_method cfg =? HTTP_METH_POST then size else size - path.
Proof.
  intros path host H1 H2 H3 H4. unfold http_set_payload_client, HTTP_DATA_MIN_SIZE in *.
  change (strlen HTTP_HOST_DEFAULT) with 5. change (strlen HTTP_PATH_DEFAULT) with 1. fold path host.
  assert (0 <= path /\ 0 <= host) as [Hp Hh] by (unfold path, host, strlen; lia).
  destruct (Z.leb_spec size 0); [lia|]. destruct (Z.ltb_spec size 85); [lia|].
  rewrite Z.max_r by lia. set (pad := size - 85 - (path + host - 5 - 1)).
  destruct (config_set_payload_some random (c_payload_random cfg) pad false) as (buf & -> & Hb); [unfold pad; lia|].
  cbn [mbind option_bind]. eexists. split; [done|].
  assert (strlen (47 :: drop 1 buf) = pad) as Hd 
    by (unfold strlen in Hb |- *; cbn [length]; rewrite length_drop; unfold pad in Hb |- *; lia).
  destruct (_ =? _).
  - assert (strlen (http_post_format (c_http_path cfg) pad (c_http_host cfg) buf) = size) as E
      by (rewrite http_post_length by (unfold pad; lia); fold path host; unfold pad in *; lia).
    rewrite snprintf_fits; [done|lia].
  - assert (strlen (http_get_format (47 :: drop 1 buf) (c_http_host cfg)) = size - path) as E
      by (rewrite http_get_length, Hd; fold host; unfold pad; lia).
    rewrite snprintf_fits; [done|lia].
Qed.

Lemma http_request_sizes_witness : exists text,
  http_set_payload_client (fun _ => 0) (g_config_init <| c_http_path := HTTP_PATH_DEFAULT |>
    <| c_http_host := HTTP_HOST_DEFAULT |>) 100 = Some text /\ strlen text = 99.
Proof.
  destruct (http_request_sizes (fun _ => 0) (g_config_init <| c_http_path := HTTP_PATH_DEFAULT |>
    <| c_http_host := HTTP_HOST_DEFAULT |>) 100) as (text & E & Hs); [by vm_compute..|].
  exists text. split; [exact E|]. exact Hs.
Defined.

(** ** The parser on the text of a response *)

(** The length of the name after another part of a line. *)
Fixpoint name_after (line_len name_len : Z) (l : list Z) : Z :=
  match l with
  | [] => name_len
  | c :: l => let line_len := line_len + 1 in
              name_after line_len (if (c =? COLON) && (name_len =? 0) then line_len else name_len) l
  end.
Definition plain (c : Z) : Prop := c ≠ CR /\ c ≠ LF.

Lemma name_after_app a b n l : name_after a b (n ++ l) = name_after (a + strlen n) (name_after a b n) l.
Proof.
  revert a b. induction n as [|c n IH]; intros a b; [by rewrite Z.add_0_r|]. cbn [app name_after]. rewrite IH.
  f_equal. unfold strlen. simpl length. lia.
Qed.

Lemma name_after_set a b l : b ≠ 0 -> name_after a b l = b.
Proof.
  revert a. induction l as [|c l IH]; intros a Hb; [done|]. cbn [name_after].
  destruct (Z.eqb_spec b 0); [done|]. rewrite andb_false_r. by apply IH.
Qed.

(** Characters of a line move the parser over them. *)
Lemma headers_loop_plain sk start l rest ll nl n :
  Forall plain l -> 0 <= ll -> sk_http_parse_state sk = HTTP_HEADER_BEGIN ->
  headers_loop sk start (l ++ rest) ll nl n = headers_loop sk start rest (ll + strlen l) (name_after ll nl l) (n + strlen l).
Proof.
  intros Hl. revert ll nl n. induction Hl as [|c l [Hcr Hlf] Hl IH]; intros ll nl n Hll Hst.
  - by rewrite !Z.add_0_r.
  - cbn [app headers_loop name_after]. rewrite bool_decide_true by done. cbn [negb].
    destruct (Z.eqb_spec c CR), (Z.eqb_spec c LF); try done.
    assert (ll + 1 + strlen l = ll + strlen (c :: l) /\ n + 1 + strlen l = n + strlen (c :: l)) as [<- <-]
      by (unfold strlen; simpl; lia).
    destruct ((c =? COLON) && (nl =? 0)); by apply IH; try lia.
Qed.

(** One line, from its first character, which is not a colon. *)
Lemma headers_loop_line sk start c l rest n :
  Forall plain (c :: l) -> c ≠ COLON ->
  sk_http_parse_state sk = HTTP_HEADER_BEGIN \/ sk_http_parse_state sk = HTTP_HEADER_LINE_END ->
  headers_loop sk start (c :: l ++ CR :: LF :: rest) 0 0 n =
    ('(ret, sk) ← http_parse_header_line (sk <| sk_http_parse_state := HTTP_HEADER_BEGIN |>) start
                    (name_after 1 0 l) (strlen l + 3);
     if ret <? 0 then Some (-1, sk)
     else headers_loop (sk <| sk_http_parse_state := HTTP_HEADER_LINE_END |>) rest rest 0 0 (n + strlen l + 3)).
Proof.
  intros [[Hcr Hlf] Hl]%Forall_cons_1 Hcol Hst.
  assert (forall st, headers_loop (sk <| sk_http_parse_state := HTTP_HEADER_BEGIN |>) st (l ++ CR :: LF :: rest) 1 0 (n + 1)
    = ('(ret, sk) ← http_parse_header_line (sk <| sk_http_parse_state := HTTP_HEADER_BEGIN |>) st
         (name_after 1 0 l) (strlen l + 3);
       if ret <? 0 then Some (-1, sk)
       else headers_loop (sk <| sk_http_parse_state := HTTP_HEADER_LINE_END |>) rest rest 0 0 (n + strlen l + 3))) as Hb.
  { intros st. rewrite headers_loop_plain by (done || lia). cbn [headers_loop].
    change (CR =? COLON) with false. change (CR =? CR) with true. cbn [andb].
    change (LF =? COLON) with false. change (LF =? CR) with false. change (LF =? LF) with true. cbn [andb].
    rewrite bool_decide_true by done.
    replace (1 + strlen l + 1 + 1) with (strlen l + 3) by lia.
    replace (n + 1 + strlen l + 1 + 1) with (n + strlen l + 3) by lia. done. }
  cbn [headers_loop]. destruct (Z.eqb_spec c COLON), (Z.eqb_spec c CR), (Z.eqb_spec c LF); try done. cbn [andb].
  destruct Hst as [Hst|Hst].
  - rewrite bool_decide_true by done. cbn [negb]. rewrite <- Hb. f_equal. by destruct sk; simpl in *; subst.
  - rewrite bool_decide_false by (by rewrite Hst). cbn [negb]. apply Hb.
Qed.

Lemma plain_chars l : forallb (fun c => negb (c =? CR) && negb (c =? LF)) l = true -> Forall plain l.
Proof.
  intros H. apply list.Forall_forall. intros c Hc%list_elem_of_In.
  pose proof (proj1 (forallb_forall _ _) H c Hc) as Hb. cbv beta in Hb. by bool_facts.
Qed.

Lemma plain_width w x : 0 <= x -> Forall plain (print_width w x).
Proof.
  intros Hx. eapply list.Forall_impl; [by apply print_width_chars|]. unfold plain, CR, LF, is_digit.
  intros c [-> | Hc]; split; lia.
Qed.

(** The parser in front of a response. *)
Definition fresh (sk : socket) : Prop :=
  sk_http_parse_state sk = HTTP_HEADER_BEGIN /\ sk_http_flags sk = 0.

(** After the headers of a response. *)
Definition parsed_headers (sk : socket) (content_length : Z) : socket :=
  sk <| sk_http_length := content_length |> <| sk_http_flags := HTTP_F_CONTENT_LENGTH |>
     <| sk_http_parse_state := HTTP_HEADER_DONE |>.

(** A line whose name has another length than the names the parser knows. *)
Lemma header_line_other sk start name_len line_len :
  name_len ≠ CONTENT_LENGTH_SIZE -> name_len ≠ TRANSFER_ENCODING_SIZE -> name_len ≠ CONNECTION_SIZE ->
  http_parse_header_line sk start name_len line_len = Some (0, sk).
Proof.
  intros H1 H2 H3. unfold http_parse_header_line, http_header_match.
  destruct (Z.eqb_spec name_len CONTENT_LENGTH_SIZE), (Z.eqb_spec name_len TRANSFER_ENCODING_SIZE),
    (Z.eqb_spec name_len CONNECTION_SIZE); done.
Qed.

Lemma header_line_length sk n rest line_len : 0 <= n < 10 ^ 11 -> sk_http_flags sk = 0 ->
  http_parse_header_line sk (chars "Content-Length:" ++ print_width 11 n ++ CR :: rest) CONTENT_LENGTH_SIZE line_len
  = Some (0, sk <| sk_http_length := n |> <| sk_http_flags := HTTP_F_CONTENT_LENGTH |>).
Proof.
  intros Hn Hf. unfold http_parse_header_line.
  assert (http_header_match (chars "Content-Length:" ++ print_width 11 n ++ CR :: rest) CONTENT_LENGTH_SIZE
    CONTENT_LENGTH_SIZE 67 99 104 72 = Some true) as -> by reflexivity.
  cbn [mbind option_bind].
  change (drop (Z.to_nat CONTENT_LENGTH_SIZE) (chars "Content-Length:" ++ print_width 11 n ++ CR :: rest))
    with (print_width 11 n ++ CR :: rest).
  rewrite atol_print_width by (done || lia). destruct (Z.ltb_spec n 0); [lia|]. rewrite Hf.
  by destruct sk; simpl in *; subst.
Qed.

Lemma header_line_keep_alive sk rest :
  http_parse_header_line sk (chars "Connection:keep-alive" ++ rest) CONNECTION_SIZE 23 = Some (0, sk).
Proof. reflexivity. Qed.

Lemma rsp_headers sk n body : fresh sk -> 0 <= n < 10 ^ 11 ->
  http_parse_headers sk (http_rsp_format n body) = Some (85, parsed_headers sk n).
Proof.
  intros [Hst Hf] Hn. unfold http_parse_headers.
  set (rest3 := CR :: LF :: body).
  set (rest2 := chars "Connection:keep-alive" ++ CR :: LF :: rest3).
  set (rest1 := chars "Server: dperf" ++ CR :: LF :: rest2).
  set (rest0 := chars "Content-Length:" ++ print_width 11 n ++ CR :: LF :: rest1).
  change (http_rsp_format n body) with (72 :: chars "TTP/1.1 200 OK" ++ CR :: LF :: rest0) at 2.
  rewrite headers_loop_line; [|by apply plain_chars|done|by left].
  rewrite header_line_other by (vm_compute; discriminate). cbn [mbind option_bind]. change (0 <? 0) with false.
  change (headers_loop ?sk ?st rest0) with
    (headers_loop sk st (67 :: (chars "ontent-Length:" ++ print_width 11 n) ++ CR :: LF :: rest1)).
  rewrite headers_loop_line; [|apply Forall_cons; [done|apply list.Forall_app; split;
    [by apply plain_chars|apply plain_width; lia]]|done|by right].
  rewrite name_after_app, (name_after_set _ (name_after 1 0 (chars "ontent-Length:"))) by done.
  change (name_after 1 0 (chars "ontent-Length:")) with CONTENT_LENGTH_SIZE. unfold rest0.
  rewrite header_line_length by done. cbn [mbind option_bind]. change (0 <? 0) with false.
  change (headers_loop ?sk ?st rest1) with
    (headers_loop sk st (83 :: chars "erver: dperf" ++ CR :: LF :: rest2)).
  rewrite headers_loop_line; [|by apply plain_chars|done|by right].
  rewrite header_line_other by (vm_compute; discriminate). cbn [mbind option_bind]. change (0 <? 0) with false.
  change (headers_loop ?sk ?st rest2) with
    (headers_loop sk st (67 :: chars "onnection:keep-alive" ++ CR :: LF :: rest3)).
  rewrite headers_loop_line; [|by apply plain_chars|done|by right].
  change (name_after 1 0 (chars "onnection:keep-alive")) with CONNECTION_SIZE.
  change (strlen (chars "onnection:keep-alive") + 3) with 23. unfold rest2 at 1.
  rewrite header_line_keep_alive. cbn [mbind option_bind]. change (0 <? 0) with false.
  rewrite strlen_app_list, strlen_width by (done || lia).
  unfold rest3. cbn [headers_loop]. change (CR =? COLON) with false. change (CR =? CR) with true. cbn [andb].
  change (LF =? COLON) with false. change (LF =? CR) with false. change (LF =? LF) with true. cbn [andb].
  rewrite bool_decide_false by done. f_equal.
Qed.


