(* ===== verification/ConfigNumber.v ===== *)
(** * ConfigNumber: the numbers of a configuration file

    The conversions of the C library that [src/config.c] and [src/eth.c] use -
    [atoi], [atof], [strtol] and [sscanf] with their prefixes - and
    [config_str_find_nondigit], [config_parse_number], [config_parse_hex] and
    [eth_addr_init].  A string is its bytes without the final zero. *)

From S2P Require Import Prelude Double Config NetStats World HttpParse Payload.

(** ** The C library *)

Fixpoint span (p : Z -> bool) (s : list Z) : list Z * list Z :=
  match s with
  | c :: t => if p c then let '(a, b) := span p t in (c :: a, b) else ([], s)
  | [] => ([], [])
  end.

Definition skip_space (s : list Z) : list Z := (span is_space s).2.
Definition sign (s : list Z) : bool * list Z :=
  match s with
  | 45 :: t => (true, t)
  | 43 :: t => (false, t)
  | _ => (false, s)
  end.

(** The value of a hexadecimal digit. *)
Definition hex_value (c : Z) : option Z :=
  if is_digit c then Some (c - 48)
  else if (97 <=? c) && (c <=? 102) then Some (c - 87)
  else if (65 <=? c) && (c <=? 70) then Some (c - 55)
  else None.
Definition is_hex (c : Z) : bool := bool_decide (is_Some (hex_value c)).
Definition hex_number (s : list Z) : Z := foldl (fun acc c => 16 * acc + default 0 (hex_value c)) 0 s.
Definition lower (c : Z) : Z := if (65 <=? c) && (c <=? 90) then c + 32 else c.

(** [int] from [long]. *)
Definition atoi (s : list Z) : Z := i32 (atol s).

(** The exponent after [mark], or 0. *)
Definition exponent (mark : Z) (s : list Z) : Z :=
  match s with
  | c :: t =>
      if lower c =? mark then
        let '(neg, t) := sign t in
        let ds := (span is_digit t).1 in
        if neg then - atol_digits 0 ds else atol_digits 0 ds
      else 0
  | [] => 0
  end.

(** The digits before and after the point. *)
Definition fraction (p : Z -> bool) (s : list Z) : list Z * list Z * list Z :=
  let '(ip, s) := span p s in
  match s with
  | 46 :: t => let '(fp, s) := span p t in (ip, fp, s)
  | _ => (ip, [], s)
  end.

Definition atof_decimal (neg : bool) (s : list Z) : double :=
  let '(ip, fp, rest) := fraction is_digit s in
  let ds := ip ++ fp in
  match ds, atol_digits 0 ds with
  | [], _ | _, Z0 => SpecFloat.S754_zero neg
  | _, Z.pos m | _, Z.neg m =>
      let e := exponent 101 rest - Z.of_nat (length fp) in
      if 400 <? e then SpecFloat.S754_infinity neg
      else if e + Z.of_nat (length ds) <? -400 then SpecFloat.S754_zero neg
      else decimal_to_double neg m e
  end.

Definition atof_hex (neg : bool) (s : list Z) : double :=
  let '(ip, fp, rest) := fraction is_hex s in
  match hex_number (ip ++ fp) with
  | Z0 => SpecFloat.S754_zero neg
  | m =>
      let e := exponent 112 rest - 4 * Z.of_nat (length fp) in
      if 2000 <? e then SpecFloat.S754_infinity neg
      else if e + 4 * Z.of_nat (length (ip ++ fp)) <? -2000 then SpecFloat.S754_zero neg
      else SpecFloat.binary_normalize 53 1024 (if neg then - m else m) e neg
  end.

Definition has_prefix (p s : list Z) : bool := bool_decide (take (length p) s = p).

Definition atof (s : list Z) : double :=
  let '(neg, s) := sign (skip_space s) in
  let l := lower <$> s in
  if has_prefix (chars "inf") l then SpecFloat.S754_infinity neg
  else if has_prefix (chars "nan") l then SpecFloat.S754_nan
  else if has_prefix (chars "0x") l then atof_hex neg (drop 2 s)
  else atof_decimal neg s.

(** [%d] and [%x] of [sscanf]: the value and the rest of the input. *)
Definition scan_int (s : list Z) : option (Z * list Z) :=
  let '(neg, s) := sign (skip_space s) in
  let '(ds, rest) := span is_digit s in
  match ds with
  | [] => None
  | _ => let x := atol_digits 0 ds in Some (i32 (clamp_long (if neg then - x else x)), rest)
  end.

Definition scan_hex (s : list Z) : option (Z * list Z) :=
  let '(neg, s) := sign (skip_space s) in
  let s := if has_prefix (chars "0x") (lower <$> s) then drop 2 s else s in
  let '(ds, rest) := span is_hex s in
  match ds with
  | [] => None
  | _ => let x := hex_number ds in
         Some (i32 (if 2 ^ 64 <=? x then 2 ^ 64 - 1 else u64 (if neg then - x else x)), rest)
  end.

(** A literal character of a format. *)
Definition scan_char (c : Z) (s : list Z) : option (list Z) :=
  match s with d :: t => if d =? c then Some t else None | [] => None end.

(** ** Numbers of the configuration *)

(** [point] counts the decimal points so far; [None] is the null pointer. *)
Fixpoint find_nondigit (float_enable : bool) (point : Z) (s : list Z) : option (list Z) :=
  match s with
  | [] => None
  | c :: t =>
      if is_digit c then find_nondigit float_enable point t
      else if float_enable && (c =? 46) then
        if 1 <? point + 1 then None else find_nondigit float_enable (point + 1) t
      else Some s
  end.
Definition config_str_find_nondigit (s : list Z) (float_enable : bool) : option (list Z) :=
  find_nondigit float_enable 0 s.

(** The factor of the unit at [p]; [None] is a refusal. *)
Definition number_rate (p : option (list Z)) (rate_enable : bool) : option Z :=
  match p with
  | None => Some 1
  | Some p =>
      if negb rate_enable then None
      else match p with
           | [c] => if (c =? 107) || (c =? 75) then Some 1000
                    else if (c =? 109) || (c =? 77) then Some 1000000
                    else None
           | _ => None
           end
  end.

(** [None] is a value that an [int] does not hold. *)
Definition int_ok (x : Z) : option Z := if (- 2 ^ 31 <=? x) && (x <? 2 ^ 31) then Some x else None.

Definition config_parse_number (str : list Z) (float_enable rate_enable : bool) : option Z :=
  let p := config_str_find_nondigit str float_enable in
  match number_rate p rate_enable with
  | None => Some (-1)
  | Some rate =>
      if bool_decide (p = Some str) then Some (-1)
      else
        val ← (if float_enable then double_to_int (double_mul (atof str) (to_double rate))
               else int_ok (atoi str * rate));
        Some (if val <? 0 then -1 else val)
  end.

(** The value, or [None] for a refusal. *)
Definition config_parse_hex (str : list Z) (min max : Z) : option Z :=
  let val :=
    if (2 <? strlen str) && has_prefix (chars "0x") (lower <$> str) then
      let '(ds, rest) := span is_hex (drop 2 str) in
      match ds, rest with
      | _ :: _, [] => Some (clamp_long (hex_number ds))
      | _, _ => None
      end
    else Some (atoi str) in
  val ← val; if (min <=? val) && (val <=? max) then Some val else None.

(** ** Ethernet addresses *)

Definition ETH_ADDR_STR_LEN : Z := 17.

(** The conversions of the format, joined by colons. *)
Fixpoint scan_mac (n : nat) (s : list Z) : option (list Z) :=
  match n with
  | O => Some []
  | S n =>
      '(x, s) ← scan_hex s;
      match n with
      | O => Some [x]
      | _ => s ← scan_char 58 s; l ← scan_mac n s; Some (x :: l)
      end
  end.

(** The address, or [None] for a refusal. *)
Definition eth_addr_init (mac_str : list Z) : option (list Z) :=
  if negb (strlen mac_str =? ETH_ADDR_STR_LEN) then None
  else
    nums ← scan_mac 6 mac_str;
    if existsb (fun x => 255 <? x) nums then None else Some (u8 <$> nums).

Example number_examples :
  config_parse_number (chars "1.5k") true true = Some 1500
  /\ config_parse_number (chars "2m") true true = Some 2000000
  /\ config_parse_number (chars "10") false false = Some 10
  /\ config_parse_number (chars "10k") false false = Some (-1)
  /\ config_parse_number (chars "3000000k") false true = None
  /\ config_parse_number (chars "1.2.3") true false = Some 1
  /\ config_parse_hex (chars "0x2e") 0 255 = Some 46
  /\ eth_addr_init (chars "00:1A:2b:03:04:ff") = Some [0; 26; 43; 3; 4; 255]
  /\ eth_addr_init (chars "00:1A:2b:03:04:-1") = Some [0; 26; 43; 3; 4; 255].
Proof. by vm_compute. Qed.
