(* ===== verification/ConfigKeyword.v ===== *)
(** * ConfigKeyword: the lines of a configuration file

    [src/config_keyword.c]: reading a file line by line, splitting a line into
    words and calling the handler of its keyword.  The data of the handlers is
    the state [S]; a file is its bytes. *)

From S2P Require Import Prelude Config NetStats World HttpParse Payload ConfigNumber.

Definition CONFIG_ARG_NUM_MAX : nat := 32.
Definition CONFIG_LINE_MAX : Z := 2048.

(** [isascii(c) && (isprint(c) || isspace(c))]; [char] is signed. *)
Definition char_allowed (c : Z) : bool := ((32 <=? c) && (c <? 127)) || is_space c.
Definition config_keyword_check_input (line : list Z) : bool := forallb char_allowed line.

Definition not_space (c : Z) : bool := negb (is_space c).

(** The next word and what follows it; [None] at the end of the line. *)
Definition config_get_string (s : list Z) : option (list Z * list Z) :=
  match skip_space s with
  | [] => None
  | start => let '(word, rest) := span not_space start in Some (word, drop 1 rest)
  end.

Fixpoint words (argv_size : nat) (s : list Z) : list (list Z) :=
  match argv_size with
  | O => []
  | S n =>
      match config_get_string s with
      | Some (word, rest) => word :: words n rest
      | None => []
      end
  end.

(** The arguments; [None] is a line with other characters. *)
Definition config_keyword_parse_line (line : list Z) (argv_size : nat) : option (list (list Z)) :=
  if negb (config_keyword_check_input line) then None
  else
    match words argv_size line with
    | (35 :: _) :: _ => Some []
    | argv => Some argv
    end.

(** [fgets] with a buffer of [size] bytes: the line with its end, and the rest
    of the file.  A zero byte ends the line for its readers. *)
Fixpoint read_line (size : nat) (s : list Z) : list Z * list Z :=
  match size, s with
  | S n, c :: t => if c =? 10 then ([c], t) else let '(a, b) := read_line n t in (c :: a, b)
  | _, _ => ([], s)
  end.
Definition fgets (size : Z) (s : list Z) : list Z * list Z := read_line (Z.to_nat (size - 1)) s.
Definition c_string (s : list Z) : list Z := (span (fun c => negb (c =? 0)) s).1.

Section Keywords.
Context {S : Type}.
Abbreviation handler := (list (list Z) -> ST S Z).

Fixpoint config_keyword_lookup (keywords : list (list Z * handler)) (name : list Z) : option handler :=
  match keywords with
  | [] => None
  | (n, h) :: keywords => if bool_decide (n = name) then Some h else config_keyword_lookup keywords name
  end.

Definition config_keyword_call (keywords : list (list Z * handler)) (argv : list (list Z)) : ST S Z :=
  match argv with
  | [] => st_fail OutOfBounds
  | name :: _ =>
      match config_keyword_lookup keywords name with
      | None => mret (-1)
      | Some h => ret ← h argv; mret (if ret =? 0 then 0 else -1)
      end
  end.

(** One round of the loop reads at least one byte. *)
Fixpoint config_keyword_lines (fuel : nat) (keywords : list (list Z * handler)) (file : list Z) : ST S Z :=
  match fuel, file with
  | _, [] => mret 0
  | O, _ => st_fail OutOfFuel
  | Datatypes.S fuel, _ =>
      let '(line, rest) := fgets (CONFIG_LINE_MAX - 1) file in
      match config_keyword_parse_line (c_string line) CONFIG_ARG_NUM_MAX with
      | None => mret (-1)
      | Some [] => config_keyword_lines fuel keywords rest
      | Some argv =>
          ret ← config_keyword_call keywords argv;
          if ret <? 0 then mret ret else config_keyword_lines fuel keywords rest
      end
  end.

(** [None] is a file that cannot be opened. *)
Definition config_keyword_parse (file : option (list Z)) (keywords : list (list Z * handler)) : ST S Z :=
  match file with
  | None => mret (-1)
  | Some file => config_keyword_lines (length file) keywords file
  end.
End Keywords.

Example words_example : config_keyword_parse_line (chars "  cpu 0 2-3	") CONFIG_ARG_NUM_MAX
  = Some [chars "cpu"; chars "0"; chars "2-3"]
  /\ config_keyword_parse_line (chars "# mode client") CONFIG_ARG_NUM_MAX = Some [].
Proof. by vm_compute. Qed.
