(* ===== verification/ConfigParse.v ===== *)
(** * ConfigParse: the keywords of the configuration

    The handlers of [g_config_keywords] in [src/config.c].  A handler gets the
    words of its line, the keyword first, works on the configuration and
    returns 0, or -1 to refuse the line; its messages are not modelled. *)

From S2P Require Import Prelude Double IpRange Config NetStats World HttpParse Payload ConfigNumber ConfigKeyword.

(** ** Constants *)

Definition RTE_ARG_LEN : Z := 64.
Definition SLOW_START_DEFAULT : Z := 30.
Definition SLOW_START_MIN : Z := 10.
Definition SLOW_START_MAX : Z := 600.
Definition WAIT_DEFAULT : Z := 3.
Definition KEEPALIVE_REQ_NUM : Z := 32767.
Definition JUMBO_MTU_MIN : Z := 9000.
Definition JUMBO_MTU_MAX : Z := 9710.
Definition JUMBO_MTU_DEFAULT : Z := JUMBO_MTU_MAX.
Definition HTTP_HOST_MAX : Z := 128.
Definition HTTP_PATH_MAX : Z := 256.
Definition PAYLOAD_SIZE_MAX : Z := 1024 * 1024 * 1024.
Definition PAYLOAD_PATH_MAX : Z := 256.
Definition SEND_WINDOW_MIN : Z := 2.
Definition SEND_WINDOW_DEFAULT : Z := 4.
Definition KNI_NAMESIZE : Z := 10.
Definition KNI_NAME_DEFAULT : list Z := chars "dperf".
Definition VLAN_ID_MIN : Z := 1.
Definition VLAN_ID_MAX : Z := 4094.
Definition VNI_MAX : Z := 16777215.
Definition PIPELINE_MIN : Z := 0.
Definition PIPELINE_MAX : Z := 100.
Definition LOG_LEVEL_DEFAULT : Z := 4.
Definition LOG_LEVEL_ERR : Z := 4.
Definition LOG_LEVEL_WARN : Z := 5.
Definition LOG_LEVEL_INFO : Z := 7.
Definition LOG_LEVEL_DEBUG : Z := 8.
Definition RTO_DEFAULT : Z := 2.
Definition RTO_MIN : Z := 2.
Definition RTO_MAX : Z := 300.
Definition TX_BURST_MAX : Z := 1024.
Definition TX_BURST_DEFAULT : Z := 8.
Definition PCI_LEN : Z := 12.
Definition PCI_NUM_MAX : Z := 4.
Definition BONDING_MODE_ALB : Z := 6.

Abbreviation CM := (ST config).
Abbreviation argv_t := (list (list Z)).

Definition refuse : CM Z := mret (-1).
Definition set_config (f : config -> config) : CM Z := st_modify f;; mret 0.
(** A keyword that may be given once. *)
Definition once (given : config -> bool) (m : CM Z) : CM Z := c ← st_get; if given c then refuse else m.
Definition is_set (x : Z) : bool := negb (x =? 0).
Definition is_text (s : list Z) : bool := bool_decide (s ≠ []).
Definition number (str : list Z) (float_enable rate_enable : bool) : CM Z :=
  st_lift Overflow (config_parse_number str float_enable rate_enable).
Definition text_is (s : list Z) (t : string) : bool := bool_decide (s = chars t).

(** ** Flags and numbers *)

Definition config_parse_daemon (argv : argv_t) : CM Z :=
  once c_daemon (set_config (fun c => c <| c_daemon := true |>)).

(** A flag without arguments. *)
Definition flag (given : config -> bool) (f : config -> config) (argv : argv_t) : CM Z :=
  match argv with [_] => once given (set_config f) | _ => refuse end.
(** One argument. *)
Definition with_arg (k : list Z -> CM Z) (argv : argv_t) : CM Z :=
  match argv with [_; a] => k a | _ => refuse end.

Definition config_parse_keepalive_request_interval (str : list Z) : CM Z :=
  match config_str_find_nondigit str false with
  | None => refuse
  | Some p =>
      match (if text_is p "us" then Some 1 else if text_is p "ms" then Some 1000
             else if text_is p "s" then Some 1000000 else None) with
      | None => refuse
      | Some rate =>
          let val := atoi str in
          if val <? 0 then refuse
          else if (rate =? 1) && (10 <=? val) && negb (Z.rem val 10 =? 0) then refuse
          else if (rate =? 1) && (1 <? val) && (val <? 10) && negb (Z.rem val 2 =? 0) then refuse
          else
            us ← st_lift Overflow (int_ok (val * rate));
            set_config (fun c => c <| c_keepalive_request_interval_us := us |>)
      end
  end.

Definition config_parse_keepalive_request_num (str : list Z) : CM Z :=
  val ← number str true true;
  if (val <? 0) || (KEEPALIVE_REQ_NUM <? val) then refuse
  else set_config (fun c => c <| c_keepalive_request_num := val |>).

Definition config_parse_keepalive (argv : argv_t) : CM Z :=
  match argv with
  | _ :: interval :: rest =>
      if (1 <? length rest)%nat then refuse
      else once c_keepalive
        (ret ← config_parse_keepalive_request_interval interval;
         if ret <? 0 then refuse
         else
           ret ← match rest with [num] => config_parse_keepalive_request_num num | _ => mret 0 end;
           if ret <? 0 then refuse
           else
             c ← st_get;
             if (c_keepalive_request_interval_us c =? 0) && is_set (c_keepalive_request_num c) then refuse
             else set_config (fun c => c <| c_keepalive := true |>))
  | _ => refuse
  end.

Definition config_parse_pipeline : argv_t -> CM Z := with_arg (fun a =>
  once (fun c => is_set (c_pipeline c))
    (let val := atoi a in
     if (val <? 0) || (val <? PIPELINE_MIN) || (PIPELINE_MAX <? val) then refuse
     else set_config (fun c => c <| c_pipeline := u8 val |>))).

Definition config_parse_mode : argv_t -> CM Z := with_arg (fun a =>
  once c_server
    (if text_is a "client" then set_config (fun c => c <| c_server := false |>)
     else if text_is a "server" then set_config (fun c => c <| c_server := true |>)
     else refuse)).

(** ** CPUs *)

(** [for (cpu = cpu_min; cpu <= cpu_max; cpu++)]: at most [THREAD_NUM_MAX]
    entries are written before the refusal, [None].  The result is [cpu_num]. *)
Fixpoint cpu_loop (fuel : nat) (cpu cpu_max cpu_num : Z) : CM (option Z) :=
  match fuel with
  | O => st_fail OutOfFuel
  | S fuel =>
      if cpu <=? cpu_max then
        if THREAD_NUM_MAX <? cpu_num + 1 then mret None
        else
          c ← st_get;
          l ← st_lift OutOfBounds (aset (c_cpu c) cpu_num cpu);
          st_modify (fun c => c <| c_cpu := l |>);;
          next ← st_lift Overflow (int_ok (cpu + 1));
          cpu_loop fuel next cpu_max (cpu_num + 1)
      else mret (Some cpu_num)
  end.

Definition cpu_arg_range (p : list Z) : CM (option (Z * Z)) :=
  if bool_decide (45 ∈ p) then
    mret ('(lo, s) ← scan_int p; s ← scan_char 45 s; '(hi, _) ← scan_int s; Some (lo, hi))
  else n ← number p false false; mret (Some (n, n)).

Fixpoint cpu_args (args : argv_t) (cpu_num : Z) : CM (option Z) :=
  match args with
  | [] => mret (Some cpu_num)
  | p :: args =>
      range ← cpu_arg_range p;
      match range with
      | None => mret None
      | Some (cpu_min, cpu_max) =>
          if (cpu_min <? 0) || (cpu_max <? 0) || (cpu_max <? cpu_min) then mret None
          else
            n ← cpu_loop (Z.to_nat THREAD_NUM_MAX + 2) cpu_min cpu_max cpu_num;
            match n with Some n => cpu_args args n | None => mret None end
      end
  end.

(** The test of all pairs [i < j]. *)
Fixpoint has_dup {A} `{EqDecision A} (l : list A) : bool :=
  match l with
  | [] => false
  | x :: l => bool_decide (x ∈ l) || has_dup l
  end.

Definition config_parse_cpu (argv : argv_t) : CM Z :=
  match argv with
  | _ :: (_ :: _) as args =>
      once (fun c => is_set (c_cpu_num c))
        (n ← cpu_args (tail argv) 0;
         match n with
         | None => refuse
         | Some n =>
             c ← st_get;
             if has_dup (take (Z.to_nat n) (c_cpu c)) then refuse
             else set_config (fun c => c <| c_cpu_num := n |>)
         end)
  | _ => refuse
  end.

Definition config_parse_socket_mem : argv_t -> CM Z := with_arg (fun a =>
  once (fun c => is_text (c_socket_mem c))
    (if RTE_ARG_LEN <=? strlen a then refuse else set_config (fun c => c <| c_socket_mem := a |>))).

(** ** Addresses

    [inet_pton] for the two address families: the address in network byte
    order, or [None] for a string that is not one. *)

Section Addresses.
Context (inet_pton4 : list Z -> option Z) (inet_pton6 : list Z -> option ipaddr_t).

(** [ipaddr_init]: the address family and the address. *)
Definition config_parse_ip (str : list Z) : option (Z * ipaddr_t) :=
  if bool_decide (58 ∈ str) then a ← inet_pton6 str; Some (AF_INET6, a)
  else x ← inet_pton4 str; Some (AF_INET, IpAddr 0 0 0 x).

Definition config_set_af (af : Z) : CM Z :=
  c ← st_get;
  if (0 <? af) && ((c_af c =? 0) || (c_af c =? af)) then
    set_config (fun c => c <| c_af := af |> <| c_ipv6 := af =? AF_INET6 |>)
  else refuse.

(** ** Ports *)

Definition BOND_STR_BASE : Z := 9.
Definition BOND_STR_MIN : Z := BOND_STR_BASE + PCI_LEN.
Definition BOND_STR_MAX : Z := BOND_STR_BASE + (PCI_LEN + 1) * PCI_NUM_MAX - 1.
Definition BOND_NUM (len : Z) : Z := (len - BOND_STR_BASE + 1) / (PCI_LEN + 1).

(** [n] PCI addresses, separated by commas and closed by a parenthesis; the
    test of the length has left enough characters for them. *)
Fixpoint bond_pcis (n : nat) (s : list Z) : option (list (list Z)) :=
  match n with
  | O => Some []
  | S n =>
      let pci := take (Z.to_nat PCI_LEN) s in
      match drop (Z.to_nat PCI_LEN) s with
      | c :: t => if c =? (match n with O => 41 | _ => 44 end) then l ← bond_pcis n t; Some (pci :: l) else None
      | [] => None
      end
  end.

Definition config_parse_bond (port : netif_port) (str : list Z) : option netif_port :=
  let str_len := strlen str in
  if (str_len <? BOND_STR_MIN) || (BOND_STR_MAX <? str_len) then None
  else
    let pci_num := BOND_NUM str_len in
    if negb (has_prefix (chars "bond") str) then None
    else
      match drop 4 str with
      | mode :: 58 :: policy :: 40 :: s =>
          if negb (is_digit mode) || (BONDING_MODE_ALB <? mode - 48) then None
          else if negb ((48 <=? policy) && (policy <=? 51)) then None
          else
            pcis ← bond_pcis (Z.to_nat pci_num) s;
            if has_dup pcis then None
            else Some (port <| np_pci_list ::= fun l => pcis ++ drop (length pcis) l |> <| np_pci_num := pci_num |>
                            <| np_bond := true |> <| np_bond_mode := mode - 48 |> <| np_bond_policy := policy - 48 |>)
      | _ => None
      end.

Definition port_pci (port : netif_port) (a : list Z) : option netif_port :=
  match a with
  | 98 :: _ => config_parse_bond port a
  | _ => if strlen a =? PCI_LEN then
           Some (port <| np_pci_list ::= fun l => a :: drop 1 l |> <| np_pci_num := 1 |>)
         else None
  end.

Definition config_parse_port (argv : argv_t) : CM Z :=
  match argv with
  | _ :: pci :: local_ip :: gateway_ip :: rest =>
      if (1 <? length rest)%nat then refuse
      else
        c ← st_get;
        if NETIF_PORT_MAX <=? c_port_num c then refuse
        else
          match (port ← port_pci netif_port_zero pci;
                 '(af_local, local) ← config_parse_ip local_ip;
                 '(af_gateway, gateway) ← config_parse_ip gateway_ip;
                 mac ← match rest with [m] => eth_addr_init m | _ => Some (np_gateway_mac port) end;
                 if negb (af_local =? af_gateway) || ipaddr_eq local gateway then None
                 else Some (port <| np_local_ip := local |> <| np_gateway_ip := gateway |>
                                 <| np_ipv6 := af_local =? AF_INET6 |> <| np_gateway_mac := mac |>
                                 <| np_bond_name := chars "net_bonding" ++ print_int (c_port_num c) |>
                                 <| np_id := -1 |>)) with
          | None => refuse
          | Some port => set_config (fun c => c <| c_ports ::= fun l => l ++ [port] |>)
          end
  | _ => refuse
  end.

(** ** Ranges *)

Definition config_parse_listen (argv : argv_t) : CM Z :=
  match argv with
  | [_; a; b] =>
      once (fun c => is_set (c_listen_num c))
        (listen ← number a false false;
         listen_num ← number b false false;
         if (listen <=? 0) || (listen_num <=? 0) then refuse
         else
           last ← st_lift Overflow (int_ok (listen + listen_num));
           if NETWORK_PORT_NUM - 1 <=? last then refuse
           else set_config (fun c => c <| c_listen := listen |> <| c_listen_num := listen_num |>))
  | _ => refuse
  end.

(** More single addresses for a range. *)
Fixpoint ip_range_more (af : Z) (r : ip_range) (args : argv_t) : option (Z * ip_range) :=
  match args with
  | [] => Some (af, r)
  | a :: args =>
      match config_parse_ip a with
      | None => Some (-1, r)
      | Some (af2, ip2) =>
          if (ip ip2 =? 0) || negb (af2 =? af) then Some (-1, r)
          else
            '(ret, _) ← ip_range_init ip_range_zero ip2 1;
            if ret <? 0 then Some (-1, r)
            else
              '(ret, r') ← ip_range_add r ip2;
              if ret <? 0 then Some (-1, r') else ip_range_more af r' args
      end
  end.

(** The address family or -1, and the range; [None] is a fault. *)
Definition config_parse_ip_range (argv : argv_t) (r : ip_range) (split : bool) : CM (Z * ip_range) :=
  match argv with
  | _ :: a :: n :: rest =>
      if negb split && negb (length rest =? 0)%nat then mret (-1, r)
      else
        match config_parse_ip a with
        | None => mret (-1, r)
        | Some (af, start) =>
            if ip start =? 0 then mret (-1, r)
            else
              num ← number n false false;
              '(ret, r') ← st_lift OutOfBounds (ip_range_init r start num);
              if ret <? 0 then mret (-1, r')
              else st_lift OutOfBounds (ip_range_more af r' rest)
        end
  | _ => mret (-1, r)
  end.

Definition config_parse_ip_group (argv : argv_t) (get : config -> ip_group) (put : ip_group -> config -> config)
    (split : bool) : CM Z :=
  c ← st_get;
  if IP_RANGE_NUM_MAX <=? group_num (get c) then refuse
  else
    r ← st_lift OutOfBounds (aget (ip_ranges (get c)) (group_num (get c)));
    '(af, r) ← config_parse_ip_range argv r split;
    ranges ← st_lift OutOfBounds (aset (ip_ranges (get c)) (group_num (get c)) r);
    st_modify (put (IpGroup ranges (group_num (get c))));;
    ret ← config_set_af af;
    if ret <? 0 then refuse
    else set_config (put (IpGroup ranges (group_num (get c) + 1))).

Definition config_parse_client (argv : argv_t) : CM Z :=
  config_parse_ip_group argv c_client_ip_group (fun g c => c <| c_client_ip_group := g |>) true.
Definition config_parse_server (argv : argv_t) : CM Z :=
  config_parse_ip_group argv c_server_ip_group (fun g c => c <| c_server_ip_group := g |>) false.

(** The loop ends with the refusal of a full list: [n] is at most one more
    than the list has room for. *)
Fixpoint change_dip_loop (n : nat) (af step : Z) (a : ipaddr_t) (l : ip_list) : Z * ip_list :=
  match n with
  | O => (0, l)
  | S n =>
      let '(ret, l) := ip_list_add l af a in
      if ret <? 0 then (-1, l) else change_dip_loop n af step (ipaddr_inc a step) l
  end.

Definition config_parse_change_dip (argv : argv_t) : CM Z :=
  match argv with
  | [_; a; s; n] =>
      match config_parse_ip a with
      | None => refuse
      | Some (af, start) =>
          let step := atoi s in
          let num := atoi n in
          if (step <=? 0) || (num <? 0) then mret 0
          else
            c ← st_get;
            let '(ret, l) := change_dip_loop (Z.to_nat (Z.min num (IP_LIST_NUM_MAX + 1))) af step start (c_dip_list c) in
            st_modify (fun c => c <| c_dip_list := l |>);; mret ret
      end
  | _ => refuse
  end.

(** [argv[3]] to [argv[5]] and [argv[5]] to [argv[7]]: the word before an
    address is not read. *)
Definition config_parse_vxlan (argv : argv_t) : CM Z :=
  match argv with
  | [_; vni; smac; dmac; local; local_num; remote; remote_num] =>
      c ← st_get;
      if NETIF_PORT_MAX <=? c_vxlan_num c then refuse
      else
        let vni := atoi vni in
        if (vni <=? 0) || (VNI_MAX <? vni) then refuse
        else
          match (s ← eth_addr_init smac; d ← eth_addr_init dmac; Some (s, d)) with
          | None => refuse
          | Some (smac, mac) =>
              '(af, vtep_local) ← config_parse_ip_range [dmac; local; local_num] ip_range_zero false;
              if negb (af =? AF_INET) then refuse
              else
                '(af, vtep_remote) ← config_parse_ip_range [local_num; remote; remote_num] ip_range_zero false;
                if negb (af =? AF_INET) then refuse
                else set_config (fun c => c <| c_vxlans ::= fun l => l ++ [Vxlan vni smac mac vtep_local vtep_remote] |>)
          end
  | _ => refuse
  end.
End Addresses.

(** ** Load *)

(** [argv[1][len - 1]] of an argument, which has at least one character. *)
Definition duration_rate (a : list Z) : Z :=
  match list.last a with
  | Some 109 => 60
  | Some 104 => 3600
  | Some 100 => 86400
  | _ => 1
  end.
Definition config_parse_duration : argv_t -> CM Z := with_arg (fun a =>
  once (fun c => is_set (c_duration c))
    (let val := atof a in
     if double_is_neg val then refuse
     else
       duration ← st_lift Overflow (double_to_int (double_mul val (to_double (duration_rate a))));
       if duration <=? 0 then refuse else set_config (fun c => c <| c_duration := duration |>))).

Definition config_parse_cps : argv_t -> CM Z := with_arg (fun a =>
  once (fun c => is_set (c_cps c))
    (cps ← number a true true;
     if cps <? 0 then refuse else set_config (fun c => c <| c_cps := cps |>))).

Definition config_parse_cc : argv_t -> CM Z := with_arg (fun a =>
  once (fun c => is_set (c_cc c))
    (cc ← number a true true;
     if cc <=? 0 then refuse else set_config (fun c => c <| c_cc := cc |>))).

Definition config_parse_flood : argv_t -> CM Z := flag c_flood (fun c => c <| c_flood := true |>).

Definition config_parse_launch_num : argv_t -> CM Z := with_arg (fun a =>
  once (fun c => is_set (c_launch_num c))
    (val ← number a false false;
     if val <? 0 then refuse else set_config (fun c => c <| c_launch_num := val |>))).

(** The field has eight bits. *)
Definition config_parse_tx_burst : argv_t -> CM Z := with_arg (fun a =>
  once (fun c => is_set (c_tx_burst c))
    (val ← number a false false;
     if (val <? 1) || (TX_BURST_MAX <? val) then refuse else set_config (fun c => c <| c_tx_burst := u8 val |>))).

Definition config_parse_slow_start : argv_t -> CM Z := with_arg (fun a =>
  once (fun c => is_set (c_slow_start c))
    (val ← number a false false;
     if (val <? SLOW_START_MIN) || (SLOW_START_MAX <? val) then refuse
     else set_config (fun c => c <| c_slow_start := val |>))).

Definition config_parse_wait : argv_t -> CM Z := with_arg (fun a =>
  once (fun c => is_set (c_wait c))
    (val ← number a false false;
     if val <=? 0 then refuse else set_config (fun c => c <| c_wait := val |>))).

(** ** Payload *)

Definition config_parse_payload_random : argv_t -> CM Z :=
  flag c_payload_random (fun c => c <| c_payload_random := true |>).

Fixpoint payload_sizes (i : Z) (args : argv_t) : CM Z :=
  match args with
  | [] => mret 0
  | a :: args =>
      size ← number a true true;
      if (size <? 0) || (PAYLOAD_SIZE_MAX <? size) then refuse
      else
        c ← st_get;
        l ← st_lift OutOfBounds (aset (c_payload_size c) i size);
        st_modify (fun c => c <| c_payload_size := l |>);;
        payload_sizes (i + 1) args
  end.
Definition config_parse_payload_size (argv : argv_t) : CM Z :=
  match argv with
  | _ :: (_ :: _) as args =>
      first ← st_gets (fun c => default 0 (aget (c_payload_size c) 0));
      if is_set first then refuse else payload_sizes 0 (tail argv)
  | _ => refuse
  end.

Definition config_parse_payload_file : argv_t -> CM Z := with_arg (fun a =>
  once (fun c => is_text (c_payload_path c))
    (if PAYLOAD_PATH_MAX <=? strlen a then refuse else set_config (fun c => c <| c_payload_path := a |>))).

Definition config_parse_send_window : argv_t -> CM Z := with_arg (fun a =>
  once (fun c => is_set (c_send_window c))
    (w ← number a true true;
     if (w <? SEND_WINDOW_MIN) || (SEND_WINDOW_MAX <? w) then refuse
     else set_config (fun c => c <| c_send_window := w |>))).

Definition config_parse_packet_size : argv_t -> CM Z := with_arg (fun _ => mret 0).

Definition config_parse_mss : argv_t -> CM Z := with_arg (fun a =>
  once (fun c => is_set (c_mss c))
    (mss ← number a false false;
     if mss <=? 0 then refuse else set_config (fun c => c <| c_mss := mss |>))).

(** ** Protocols *)

Definition config_parse_protocol : argv_t -> CM Z := with_arg (fun a =>
  once (fun c => is_set (c_protocol c))
    (if text_is a "tcp" then set_config (fun c => c <| c_protocol := IPPROTO_TCP |>)
     else if text_is a "udp" then set_config (fun c => c <| c_protocol := IPPROTO_UDP |>)
     else if text_is a "http" then set_config (fun c => c <| c_protocol := IPPROTO_TCP |> <| c_http := true |>)
     else refuse)).

Definition config_parse_vlan : argv_t -> CM Z := with_arg (fun a =>
  once (fun c => is_set (c_vlan_id c))
    (let vlan_id := atoi a in
     if (vlan_id <? VLAN_ID_MIN) || (VLAN_ID_MAX <? vlan_id) then refuse
     else set_config (fun c => c <| c_vlan_id := vlan_id |>))).

Definition config_parse_tos : argv_t -> CM Z := with_arg (fun a =>
  once (fun c => is_set (c_tos c))
    (match config_parse_hex a 0 255 with
     | None => refuse
     | Some tos => set_config (fun c => c <| c_tos := tos |>)
     end)).

Definition is_alpha (c : Z) : bool := (97 <=? lower c) && (lower c <=? 122).
Definition config_parse_kni (argv : argv_t) : CM Z :=
  if (2 <? length argv)%nat then refuse
  else once c_kni
    (let ifname := default KNI_NAME_DEFAULT (argv !! 1%nat) in
     if KNI_NAMESIZE <=? strlen ifname then refuse
     else if negb (is_alpha (default 0 (head ifname))) then refuse
     else set_config (fun c => c <| c_kni_ifname := ifname |> <| c_kni := true |>)).

Definition config_parse_jumbo (argv : argv_t) : CM Z :=
  if (2 <? length argv)%nat then refuse
  else
    let mtu := match argv !! 1%nat with Some a => atoi a | None => JUMBO_MTU_DEFAULT end in
    if (mtu <? JUMBO_MTU_MIN) || (JUMBO_MTU_MAX <? mtu) then refuse
    else once c_jumbo (set_config (fun c => c <| c_jumbo_mtu := mtu |> <| c_jumbo := true |>)).

Definition config_parse_rss (argv : argv_t) : CM Z := set_config (fun c => c <| c_flow := FLOW_RSS |>).
Definition config_parse_quiet : argv_t -> CM Z := flag c_quiet (fun c => c <| c_quiet := true |>).

Definition config_parse_tcp_rst : argv_t -> CM Z := with_arg (fun a =>
  once c_tcp_rst
    (let val := atoi a in
     if (val =? 0) || (val =? 1) then set_config (fun c => c <| c_tcp_rst := is_set val |>) else refuse)).

Definition config_parse_http_host : argv_t -> CM Z := with_arg (fun a =>
  once (fun c => is_text (c_http_host c))
    (if HTTP_HOST_MAX <=? strlen a then refuse else set_config (fun c => c <| c_http_host := a |>))).

Definition config_parse_http_path : argv_t -> CM Z := with_arg (fun a =>
  once (fun c => is_text (c_http_path c))
    (if HTTP_PATH_MAX <=? strlen a then refuse
     else if negb (default 0 (head a) =? 47) then refuse
     else set_config (fun c => c <| c_http_path := a |>))).

Definition config_parse_http_method : argv_t -> CM Z := with_arg (fun a =>
  once (fun c => is_set (c_http_method c))
    (if text_is a "GET" then set_config (fun c => c <| c_http_method := HTTP_METH_GET |>)
     else if text_is a "POST" then set_config (fun c => c <| c_http_method := HTTP_METH_POST |>)
     else refuse)).

Definition config_parse_client_port_range (argv : argv_t) : CM Z :=
  match argv with
  | _ :: a :: rest =>
      if (1 <? length rest)%nat then refuse
      else once (fun c => is_set (c_lport_min c) || is_set (c_lport_max c))
        (let lport_min := atoi a in
         let lport_max := match rest with [b] => atoi b | _ => NETWORK_PORT_NUM - 1 end in
         if (lport_min <=? 0) || (NETWORK_PORT_NUM <=? lport_min)
            || (lport_max <=? 0) || (NETWORK_PORT_NUM <=? lport_max) || (lport_max <? lport_min) then refuse
         else set_config (fun c => c <| c_lport_min := lport_min |> <| c_lport_max := lport_max |>))
  | _ => refuse
  end.
Definition config_parse_lport_range : argv_t -> CM Z := config_parse_client_port_range.

Definition config_parse_client_hop : argv_t -> CM Z := flag c_client_hop (fun c => c <| c_client_hop := true |>).
Definition config_parse_simd512 : argv_t -> CM Z := flag c_simd512 (fun c => c <| c_simd512 := true |>).
Definition config_parse_fast_close : argv_t -> CM Z := flag c_fast_close (fun c => c <| c_fast_close := true |>).
Definition config_parse_clear_screen : argv_t -> CM Z := flag c_clear_screen (fun c => c <| c_clear_screen := true |>).

Definition config_parse_log_level : argv_t -> CM Z := with_arg (fun a =>
  once (fun c => is_set (c_log_level c))
    (if text_is a "error" then set_config (fun c => c <| c_log_level := LOG_LEVEL_ERR |>)
     else if text_is a "warn" then set_config (fun c => c <| c_log_level := LOG_LEVEL_WARN |>)
     else if text_is a "info" then set_config (fun c => c <| c_log_level := LOG_LEVEL_INFO |>)
     else if text_is a "debug" then set_config (fun c => c <| c_log_level := LOG_LEVEL_DEBUG |>)
     else refuse)).

Definition config_parse_disable_ack : argv_t -> CM Z := flag c_disable_ack (fun c => c <| c_disable_ack := true |>).

Definition config_parse_retransmit_timeout : argv_t -> CM Z := with_arg (fun a =>
  once (fun c => is_set (c_retransmit_timeout_sec c))
    (let val := atoi a in
     if (val <? RTO_MIN) || (RTO_MAX <? val) then refuse
     else set_config (fun c => c <| c_retransmit_timeout_sec := val |>))).

Definition config_parse_neigh_ignore : argv_t -> CM Z := flag c_neigh_ignore (fun c => c <| c_neigh_ignore := true |>).
Definition config_parse_flow_isolate : argv_t -> CM Z := flag c_flow_isolate (fun c => c <| c_flow_isolate := true |>).

(** ** The table of keywords *)

Definition g_config_keywords (inet_pton4 : list Z -> option Z) (inet_pton6 : list Z -> option ipaddr_t)
    : list (list Z * (argv_t -> CM Z)) :=
  (fun k => (chars k.1, k.2)) <$>
  [("daemon"%string, config_parse_daemon); ("keepalive"%string, config_parse_keepalive);
   ("pipeline"%string, config_parse_pipeline); ("mode"%string, config_parse_mode); ("cpu"%string, config_parse_cpu);
   ("socket_mem"%string, config_parse_socket_mem); ("port"%string, config_parse_port inet_pton4 inet_pton6);
   ("duration"%string, config_parse_duration); ("cps"%string, config_parse_cps); ("cc"%string, config_parse_cc);
   ("flood"%string, config_parse_flood); ("launch_num"%string, config_parse_launch_num);
   ("client"%string, config_parse_client inet_pton4 inet_pton6); ("server"%string, config_parse_server inet_pton4 inet_pton6);
   ("change_dip"%string, config_parse_change_dip inet_pton4 inet_pton6); ("listen"%string, config_parse_listen);
   ("payload_random"%string, config_parse_payload_random); ("payload_size"%string, config_parse_payload_size);
   ("payload_file"%string, config_parse_payload_file); ("send_window"%string, config_parse_send_window);
   ("packet_size"%string, config_parse_packet_size); ("mss"%string, config_parse_mss);
   ("protocol"%string, config_parse_protocol); ("tx_burst"%string, config_parse_tx_burst);
   ("slow_start"%string, config_parse_slow_start); ("wait"%string, config_parse_wait);
   ("vxlan"%string, config_parse_vxlan inet_pton4 inet_pton6); ("vlan"%string, config_parse_vlan);
   ("kni"%string, config_parse_kni); ("tos"%string, config_parse_tos); ("jumbo"%string, config_parse_jumbo);
   ("rss"%string, config_parse_rss); ("quiet"%string, config_parse_quiet); ("tcp_rst"%string, config_parse_tcp_rst);
   ("http_host"%string, config_parse_http_host); ("http_path"%string, config_parse_http_path);
   ("http_method"%string, config_parse_http_method); ("lport_range"%string, config_parse_lport_range);
   ("client_port_range"%string, config_parse_client_port_range); ("client_hop"%string, config_parse_client_hop);
   ("simd512"%string, config_parse_simd512); ("fast_close"%string, config_parse_fast_close);
   ("clear_screen"%string, config_parse_clear_screen); ("log_level"%string, config_parse_log_level);
   ("disable_ack"%string, config_parse_disable_ack); ("retransmit_timeout"%string, config_parse_retransmit_timeout);
   ("neigh_ignore"%string, config_parse_neigh_ignore); ("flow_isolate"%string, config_parse_flow_isolate)].
