(* ===== verification/ConfigCheck.v ===== *)
(** * ConfigCheck: the consistency of a configuration

    The checks of [src/config.c] that follow the parsing of the file, in the
    order of [config_parse], and [config_parse] itself.  A check completes the
    configuration and returns 0, or -1 for a configuration it refuses. *)

From S2P Require Import Prelude IpRange Tick Config Mbuf NetStats World HttpParse Payload ConfigNumber ConfigKeyword ConfigParse.

(** ** Constants *)

Definition PACKET_SIZE_MAX : Z := 1514.
Definition DEFAULT_CPS : Z := 1000.
Definition DEFAULT_DURATION : Z := 60.
Definition JUMBO_PKT_SIZE (mtu : Z) : Z := mtu + 14.
Definition MSS_IPV4 : Z := PACKET_SIZE_MAX - 14 - 20 - 20.
Definition MSS_IPV6 : Z := PACKET_SIZE_MAX - 14 - 40 - 20.
Definition MSS_JUMBO_IPV4 (mtu : Z) : Z := mtu - 20 - 20.
Definition MSS_JUMBO_IPV6 (mtu : Z) : Z := mtu - 40 - 20.

Definition accept : CM Z := mret 0.
Definition check (b : bool) : CM Z := if b then accept else refuse.

(** ** TCP and load *)

Definition mss_max (c : config) : Z :=
  if c_ipv6 c then (if c_jumbo c then MSS_JUMBO_IPV6 (c_jumbo_mtu c) else MSS_IPV6)
  else (if c_jumbo c then MSS_JUMBO_IPV4 (c_jumbo_mtu c) else MSS_IPV4).
Definition config_check_mss : CM Z :=
  c ← st_get;
  if mss_max c <? c_mss c then refuse
  else if c_mss c =? 0 then set_config (fun c => c <| c_mss := mss_max c |>)
  else accept.

Definition keepalive_ticks (us : Z) : Z :=
  if us =? 1 then 1000 * 1000 * 2
  else if us =? 2 then 1000 * 1000
  else if us <? 10 then 1000 * 500
  else if us <? 50 then 1000 * 100 * 2
  else if us <? 100 then 1000 * 100
  else if us <? 500 then 1000 * 10 * 2
  else if us <? 1000 then 1000 * 10
  else TICKS_PER_SEC_DEFAULT.
Definition config_check_keepalive : CM Z :=
  c ← st_get;
  if negb (c_server c) then
    if is_set (c_cc c) && negb (c_keepalive c) then refuse
    else if negb (c_keepalive c) then accept
    else if c_flood c && (c_keepalive_request_interval_us c =? 0) then refuse
    else set_config (fun c => c <| c_ticks_per_sec := keepalive_ticks (c_keepalive_request_interval_us c) |>)
  else set_config (fun c => c <| c_keepalive_request_num := 0 |>).

Definition config_check_pipeline : CM Z :=
  c ← st_get;
  if c_pipeline c =? 0 then accept
  else check (negb (c_server c) && negb (c_protocol c =? IPPROTO_TCP) && c_keepalive c
              && (c_flood c || negb (is_set (c_keepalive_request_interval_us c)))).

Definition payload_size_first (c : config) : Z := default 0 (aget (c_payload_size c) 0).
Definition config_check_http : CM Z :=
  c ← st_get;
  let http_host := is_text (c_http_host c) in
  let http_path := is_text (c_http_path c) in
  if (is_set (payload_size_first c) || is_text (c_payload_path c)) && negb (c_server c) && c_http c
     && (c_http_method c =? HTTP_METH_GET) && http_path then refuse
  else if c_server c && (http_host || http_path) then refuse
  else if negb (c_http c) && (http_host || http_path) then refuse
  else
    set_config (fun c => c <| c_http_host := if http_host then c_http_host c else HTTP_HOST_DEFAULT |>
                           <| c_http_path := if http_path then c_http_path c else HTTP_PATH_DEFAULT |>
                           <| c_stats_http := c_http c || c_stats_http c |>).

Definition config_check_wait : CM Z :=
  c ← st_get;
  if c_server c then check (c_wait c =? 0)
  else if c_wait c =? 0 then set_config (fun c => c <| c_wait := WAIT_DEFAULT |>) else accept.

Definition config_check_slow_start : CM Z :=
  c ← st_get;
  if c_server c then check (c_slow_start c =? 0)
  else if c_slow_start c =? 0 then set_config (fun c => c <| c_slow_start := SLOW_START_DEFAULT |>) else accept.

(** ** Addresses *)

(** The first true answer, in order; [None] is a fault on the way. *)
Fixpoint exists_ok {A} (f : A -> option bool) (l : list A) : option bool :=
  match l with
  | [] => Some false
  | x :: l => b ← f x; if (b : bool) then Some true else exists_ok f l
  end.
Definition below (n : Z) : list Z := Z.of_nat <$> seq 0 (Z.to_nat n).
(** All pairs of entries at different positions. *)
Definition pairs {A} (l : list A) : list (A * A) :=
  mjoin (imap (fun i x => (fun y => (x, y)) <$> delete i l) l).

(** The marks of the low 16 bits, an array of 65535 entries; [None] is an
    access outside it, [Some None] a mark that is already there. *)
Definition mark_client (low : Z) (seen : list Z) : option (option (list Z)) :=
  if 65535 <=? low then None
  else if bool_decide (low ∈ seen) then Some None else Some (Some (low :: seen)).
Fixpoint mark_clients (ips : list (option Z)) (seen : list Z) : option (option (list Z)) :=
  match ips with
  | [] => Some (Some seen)
  | x :: ips =>
      x ← x;
      seen ← mark_client (ntohl x &&& 65535) seen;
      match seen with
      | None => Some None
      | Some seen => mark_clients ips seen
      end
  end.
Definition config_check_client_addr (alloc_ok : bool) : CM Z :=
  if negb alloc_ok then refuse
  else
    c ← st_get;
    seen ← st_lift OutOfBounds (mark_clients
      (for_each_ip_range (c_client_ip_group c) ≫= fun r => ip_range_get r <$> below (num r)) []);
    match seen with Some _ => accept | None => refuse end.

Definition config_check_local_addr : CM Z :=
  c ← st_get;
  check (forallb (fun '(p, q) => negb (ipaddr_eq (np_local_ip p) (np_local_ip q))) (pairs (c_ports c))).

Definition config_ip_range_overlap (r0 r1 : ip_range) : option bool :=
  exists_ok (fun i => exists_ok (fun j =>
    a ← ip_range_get2 r0 i; b ← ip_range_get2 r1 j; Some (ipaddr_eq a b)) (below (num r1))) (below (num r0)).

Definition config_check_server_addr : CM Z :=
  c ← st_get;
  dup ← st_lift OutOfBounds (exists_ok (fun '(r0, r1) => config_ip_range_overlap r0 r1)
          (pairs (for_each_ip_range (c_server_ip_group c))));
  check (negb dup).

Definition config_check_address_conflict_port (c : config) (ipg : ip_group) (local : bool) : option bool :=
  exists_ok (fun port =>
    let addr := if local then np_local_ip port else np_gateway_ip port in
    exists_ok (fun r => if np_ipv6 port then ip_range_exist_ipv6 r addr else ip_range_exist r (ip addr))
      (for_each_ip_range ipg)) (c_ports c).

Definition config_check_address_conflict : CM Z :=
  c ← st_get;
  let cipg := c_client_ip_group c in
  let sipg := c_server_ip_group c in
  overlap ← st_lift OutOfBounds (exists_ok (fun r0 => exists_ok (config_ip_range_overlap r0) (for_each_ip_range sipg))
              (for_each_ip_range cipg));
  if (overlap : bool) then refuse
  else
    let '(local, gateway) := if c_server c then (cipg, sipg) else (sipg, cipg) in
    b ← st_lift OutOfBounds (config_check_address_conflict_port c local true);
    if (b : bool) then refuse
    else
      b ← st_lift OutOfBounds (config_check_address_conflict_port c gateway false);
      check (negb b).

(** ** Payload *)

Definition config_packet_header_size (c : config) : Z :=
  (if c_vxlan c then VXLAN_HEADERS_SIZE else 0) + 14 + (if c_ipv6 c then 40 else 20)
  + (if c_protocol c =? IPPROTO_TCP then 20 else 8).
Definition config_packet_payload_size (c : config) : Z :=
  (if c_jumbo c then JUMBO_PKT_SIZE (c_jumbo_mtu c) else PACKET_SIZE_MAX) - config_packet_header_size c.

Fixpoint set_sizes (n : nat) (i size : Z) (l : list Z) : option (list Z) :=
  match n with
  | O => Some l
  | S n => l ← aset l i size; set_sizes n (i + 1) size l
  end.
Definition config_set_payload_size (size : Z) : CM unit :=
  c ← st_get;
  l ← st_lift OutOfBounds (set_sizes (Z.to_nat (c_cpu_num c)) 0 size (c_payload_size c));
  st_modify (fun c => c <| c_payload_size := l |>).

(** The loop over the workers: [None] is a refusal, and [large] whether a
    payload needs more than one segment. *)
Fixpoint payload_size_loop (n : nat) (i : Z) (large : bool) : CM (option bool) :=
  match n with
  | O => mret (Some large)
  | S n =>
      c ← st_get;
      size ← st_lift OutOfBounds (aget (c_payload_size c) i);
      if (c_protocol c =? IPPROTO_TCP) && c_server c then
        if c_mss c <? size then
          if c_mss c =? 0 then st_fail DivByZero
          else
            l ← st_lift OutOfBounds (aset (c_payload_size c) i (Z.quot (size + c_mss c - 1) (c_mss c) * c_mss c));
            st_modify (fun c => c <| c_payload_size := l |>
                                  <| c_send_window := if c_send_window c =? 0 then SEND_WINDOW_DEFAULT else c_send_window c |>);;
            payload_size_loop n (i + 1) true
        else payload_size_loop n (i + 1) large
      else if config_packet_payload_size c <? size then mret None
      else payload_size_loop n (i + 1) large
  end.
Definition config_check_payload_size : CM Z :=
  c ← st_get;
  large ← payload_size_loop (Z.to_nat (c_cpu_num c)) 0 false;
  match large with
  | None => refuse
  | Some true => accept
  | Some false => set_config (fun c => c <| c_send_window := 0 |>)
  end.

(** The number of leading sizes that are given. *)
Definition payload_size_num (l : list Z) : Z := Z.of_nat (length (span is_set l).1).
Definition config_check_payload_size_num : CM Z :=
  c ← st_get;
  let num := payload_size_num (take (Z.to_nat THREAD_NUM_MAX) (c_payload_size c)) in
  if 1 <? num then check (c_server c && (num =? c_cpu_num c))
  else config_set_payload_size (payload_size_first c);; accept.

Section Payload.
(** What is outside of the program: the files and the numbers of [random()]. *)
Context (read_file : list Z -> option (list Z)) (random : nat -> Z).

(** The content, or [None] for a failure: a given path is taken for a
    duplicate. *)
Definition config_read_payload_file (c : config) (buf_size : Z) : option (list Z) :=
  if is_text (c_payload_path c) then None
  else content ← read_file (c_payload_path c); Some (take (Z.to_nat buf_size) content).

(** The payload, if there is a file; the outer [None] is a refusal. *)
Definition config_check_payload_file (len : Z) : CM (option (option (list Z))) :=
  c ← st_get;
  if negb (is_text (c_payload_path c)) then mret (Some None)
  else if is_set (payload_size_first c) then mret None
  else
    match config_read_payload_file c len with
    | None => mret None
    | Some buf =>
        if config_packet_payload_size c <? strlen buf then mret None
        else config_set_payload_size (strlen buf);; mret (Some (Some buf))
    end.

Definition stats_of (c : config) (payload : option (list Z)) (size : Z) : bool :=
  if (size =? 0) || (HTTP_DATA_MIN_SIZE <=? size) then
    match payload with
    | Some p =>
        if c_server c then default 0 (p !! 9%nat) =? 50
        else (default 0 (p !! 0%nat) =? 71) || (default 0 (p !! 1%nat) =? 79)
    | None => true
    end
  else false.
Fixpoint stats_http_loop (n : nat) (i : Z) (payload : option (list Z)) : CM Z :=
  match n with
  | O => accept
  | S n =>
      c ← st_get;
      size ← st_lift OutOfBounds (aget (c_payload_size c) i);
      let stats := stats_of c payload size in
      if (1 <? i) && negb (eqb (c_stats_http c) stats) then refuse
      else st_modify (fun c => c <| c_stats_http := stats |>);; stats_http_loop n (i + 1) payload
  end.
Definition config_check_stats_http (payload : option (list Z)) : CM Z :=
  c ← st_get; stats_http_loop (Z.to_nat (c_cpu_num c)) 0 payload.

(** The texts of the workers; [None] is a refusal. *)
Definition config_check_payload : CM (option (list (list Z))) :=
  ret ← config_check_payload_size_num;
  if ret <? 0 then mret None
  else
    payload ← config_check_payload_file MBUF_DATA_SIZE;
    match payload with
    | None => mret None
    | Some payload =>
        ret ← config_check_payload_size;
        if ret <? 0 then mret None
        else
          c ← st_get;
          if c_protocol c =? IPPROTO_TCP then
            ret ← config_check_stats_http payload;
            if ret <? 0 then mret None
            else
              c ← st_get;
              texts ← st_lift OutOfBounds (http_set_payload random c payload);
              mret (Some texts)
          else
            texts ← st_lift OutOfBounds (udp_set_payload random c payload);
            mret (Some texts)
    end.
End Payload.

(** ** Ports *)

(** The PCI addresses of two ports. *)
Definition config_check_port_pci (p q : netif_port) : bool :=
  forallb (fun a => forallb (fun b => negb (bool_decide (a = b)))
    (take (Z.to_nat (np_pci_num q)) (np_pci_list q))) (take (Z.to_nat (np_pci_num p)) (np_pci_list p)).

Definition config_check_port : CM Z :=
  c ← st_get;
  if c_cpu_num c =? 0 then refuse
  else if c_port_num c =? 0 then refuse
  else if negb (Z.rem (c_cpu_num c) (c_port_num c) =? 0) then refuse
  else if negb (forallb (fun '(p, q) => config_check_port_pci p q) (pairs (c_ports c))) then refuse
  else
    queue_num ← st_lift DivByZero (config_port_queue_num c);
    set_config (fun c => c <| c_ports ::= fmap (fun p => p <| np_queue_num := queue_num |>) |>).

Fixpoint vxlan_ports (vxlans : list vxlan) (ports : list netif_port) : option (list netif_port) :=
  match ports, vxlans with
  | [], _ => Some []
  | port :: ports, vx :: vxlans =>
      if negb (num (vx_vtep_local vx) =? np_queue_num port) then None
      else if (1 <? num (vx_vtep_remote vx)) && negb (num (vx_vtep_remote vx) =? np_queue_num port) then None
      else l ← vxlan_ports vxlans ports; Some (port <| np_vxlan := Some vx |> :: l)
  | _, [] => None
  end.
Definition config_check_vxlan : CM Z :=
  c ← st_get;
  if c_vxlan_num c =? 0 then accept
  else if negb (c_vxlan_num c =? c_port_num c) then refuse
  else
    match vxlan_ports (c_vxlans c) (c_ports c) with
    | None => refuse
    | Some ports => set_config (fun c => c <| c_ports := ports |> <| c_vxlan := true |>)
    end.

Definition config_check_vlan : CM Z :=
  c ← st_get;
  if c_vlan_id c =? 0 then accept
  else check ((c_vxlan_num c =? 0) && forallb (fun p => negb (np_bond p)) (c_ports c)).

Definition config_check_af : CM Z :=
  c ← st_get;
  check (forallb (fun p => if c_vxlan c then negb (np_ipv6 p) else eqb (c_ipv6 c) (np_ipv6 p)) (c_ports c)).

(** The ranges of the ports: entries of the arrays of the groups. *)
Fixpoint port_ranges (server : bool) (clients servers : list ip_range) (ports : list netif_port) : option (list netif_port) :=
  match ports with
  | [] => Some []
  | port :: ports =>
      cl ← head clients; sv ← head servers;
      l ← port_ranges server (tail clients) (tail servers) ports;
      Some (port <| np_local_ip_range := if server then sv else cl |>
                 <| np_client_ip_range := cl |> <| np_server_ip_range := sv |> :: l)
  end.
Definition config_set_port_ip_range : CM Z :=
  c ← st_get;
  let clients := c_client_ip_group c in
  let servers := c_server_ip_group c in
  if (c_port_num c =? 0) || (group_num clients =? 0) || (group_num servers =? 0) then refuse
  else if negb (c_port_num c =? group_num servers) then refuse
  else if negb (c_server c) && negb (group_num clients =? c_port_num c) then refuse
  else
    ports ← st_lift OutOfBounds (port_ranges (c_server c) (ip_ranges clients) (ip_ranges servers) (c_ports c));
    set_config (fun c => c <| c_ports := ports |>).

Definition config_check_flow : CM Z :=
  c ← st_get;
  if (c_cpu_num c =? c_port_num c) && negb (c_flow_isolate c) then set_config (fun c => c <| c_flow := FLOW_NONE |>)
  else if (c_flow c =? FLOW_RSS) && c_vxlan c then refuse
  else
    let rss := existsb (fun p => negb (np_queue_num p =? num (np_server_ip_range p))) (c_ports c) in
    if rss then check (c_flow c =? FLOW_RSS)
    else if negb (c_flow c =? FLOW_RSS) then set_config (fun c => c <| c_flow := FLOW_FDIR |>)
    else accept.

Definition config_check_change_dip : CM Z :=
  c ← st_get;
  let l := c_dip_list c in
  if list_num l =? 0 then accept
  else check (negb (c_server c) && c_flood c && negb (c_vxlan c) && eqb (list_af l =? AF_INET6) (c_ipv6 c)
              && (c_cpu_num c <=? list_num l)).

Definition config_check_logdir (log_dir_exists : bool) : CM Z :=
  c ← st_get; check (negb (c_daemon c) || log_dir_exists).

Definition config_check_lport_range : CM unit :=
  st_modify (fun c => c <| c_lport_min := if c_lport_min c =? 0 then 1 else c_lport_min c |>
                        <| c_lport_max := if c_lport_max c =? 0 then NETWORK_PORT_NUM - 1 else c_lport_max c |>).

(** The loop over the workers. *)
Fixpoint target_loop (n : nat) (i : Z) (cc cps_cc : Z) : CM Z :=
  match n with
  | O => accept
  | S n =>
      c ← st_get;
      socket_num ← st_lift OutOfBounds (config_get_total_socket_num c i);
      if (socket_num <? cc) || (socket_num <? cps_cc) then refuse
      else target_loop n (i + 1) cc cps_cc
  end.
Definition config_check_target : CM Z :=
  c ← st_get;
  if negb (c_server c) && (c_cps c =? 0) && (c_cc c =? 0) then refuse
  else
    st_modify (fun c =>
      if c_server c then c <| c_cc := 0 |> <| c_cps := 0 |> <| c_flood := false |>
      else if c_cps c =? 0 then c <| c_cps := DEFAULT_CPS |> else c);;
    c ← st_get;
    if c_cpu_num c =? 0 then st_fail DivByZero
    else
      let cps := u64 (Z.quot (c_cps c) (c_cpu_num c)) in
      let cc := u64 (Z.quot (c_cc c) (c_cpu_num c)) in
      target_loop (Z.to_nat (c_cpu_num c)) 0 cc (u64 (cps * c_retransmit_timeout_sec c)).

Definition config_check_fast_close : CM Z :=
  c ← st_get;
  check (negb (c_fast_close c) || (negb (c_server c) && negb (c_protocol c =? IPPROTO_UDP))).

Definition config_check_flow_isolate : CM Z :=
  c ← st_get;
  check (negb (c_flow_isolate c)
         || (negb (c_flow c =? FLOW_RSS) && forallb (fun p => negb (bool_decide (np_gateway_mac p = eth_addr_zero))) (c_ports c))).

(** ** The whole *)

(** The options of the command line, as [getopt_long_only] delivers them, and
    how [config_parse] ends: it returns, with the texts of the workers, or it
    ends the process. *)
Inductive cmd_option := Opt_conf (file : list Z) | Opt_help | Opt_version | Opt_test | Opt_manual | Opt_unknown.
Inductive parsed := Parsed (ret : Z) (texts : list (list Z)) | Exit.

Section Parse.
Context (inet_pton4 : list Z -> option Z) (inet_pton6 : list Z -> option ipaddr_t).
Context (read_file : list Z -> option (list Z)) (random : nat -> Z) (alloc_ok log_dir_exists : bool).

Definition or_refuse (m : CM Z) (k : CM parsed) : CM parsed := ret ← m; if ret <? 0 then mret (Parsed (-1) []) else k.

Definition config_defaults : config -> config := fun c =>
  c <| c_retransmit_timeout_sec := if c_retransmit_timeout_sec c =? 0 then RTO_DEFAULT else c_retransmit_timeout_sec c |>
    <| c_log_level := if c_log_level c =? 0 then LOG_LEVEL_DEFAULT else c_log_level c |>
    <| c_protocol := if c_protocol c =? 0 then IPPROTO_TCP else c_protocol c |>
    <| c_duration := if c_duration c =? 0 then DEFAULT_DURATION else c_duration c |>.
Definition config_listen_default : config -> config := fun c =>
  if (c_listen c =? 0) || (c_listen_num c =? 0) then c <| c_listen := 80 |> <| c_listen_num := 1 |> else c.

(** The checks after the file has been read. *)
Definition config_check (test : bool) : CM parsed :=
  st_modify config_defaults;;
  or_refuse config_check_mss (
  st_modify config_listen_default;;
  or_refuse config_check_keepalive (
  or_refuse config_check_pipeline (
  or_refuse config_check_http (
  or_refuse config_check_wait (
  or_refuse config_check_slow_start (
  or_refuse (config_check_client_addr alloc_ok) (
  or_refuse config_check_server_addr (
  or_refuse config_check_address_conflict (
  or_refuse config_check_local_addr (
  texts ← config_check_payload read_file random;
  match texts with
  | None => mret (Parsed (-1) [])
  | Some texts =>
      or_refuse config_check_port (
      or_refuse config_check_vxlan (
      or_refuse config_check_vlan (
      or_refuse config_check_af (
      or_refuse config_set_port_ip_range (
      or_refuse config_check_flow (
      or_refuse config_check_change_dip (
      st_modify (fun c => c <| c_tx_burst := if c_tx_burst c =? 0 then TX_BURST_DEFAULT else c_tx_burst c |>);;
      or_refuse (config_check_logdir log_dir_exists) (
      config_check_lport_range;;
      or_refuse config_check_target (
      or_refuse config_check_fast_close (
      or_refuse config_check_flow_isolate (
      mret (if test then Exit else Parsed 0 texts))))))))))))
  end)))))))))).

(** [conf] and [test] are the flags of the options before. *)
Fixpoint config_options (opts : list cmd_option) (conf test : bool) : CM parsed :=
  match opts with
  | [] => if negb conf then mret (Parsed (-1) []) else config_check test
  | Opt_conf file :: opts =>
      or_refuse (config_keyword_parse (read_file file) (g_config_keywords inet_pton4 inet_pton6))
        (config_options opts true test)
  | Opt_test :: opts => config_options opts conf true
  | (Opt_help | Opt_version | Opt_manual) :: _ => mret Exit
  | Opt_unknown :: _ => mret (Parsed (-1) [])
  end.

(** Without arguments the help is printed. *)
Definition config_parse (opts : list cmd_option) : CM parsed := config_options opts false false.
End Parse.

(** A configuration file. *)
Definition demo_file : list Z := mjoin ((fun s => chars s ++ [10]) <$>
  ["mode client"%string; "cpu 0"%string; "port 0000:01:00.0 9 8"%string; "client 1 2"%string; "server 5 1"%string;
   "duration 1.5m"%string; "cps 2k"%string; "# a comment"%string; "client_port_range 1 4000"%string]).
(** Addresses of one digit, for the example. *)
Definition demo_pton4 (s : list Z) : option Z :=
  match s with [c] => Some (htonl (167772160 + (c - 48))) | _ => None end.

Example config_parse_example :
  match config_parse demo_pton4 (fun _ => None) (fun _ => Some demo_file) (fun _ => 0) true true [Opt_conf []] g_config_init with
  | Ok (Parsed ret texts, c) => (ret, length texts, c_cps c, c_duration c, c_cpu_num c, config_get_total_socket_num c 0)
  | _ => (-1, 0%nat, 0, 0, 0, None)
  end = (0, 1%nat, 2000, 90, 1, Some 8000).
Proof. vm_compute. reflexivity. Qed.
