(* ===== verification/ConfigInv.v ===== *)
(** * ConfigInv: every keyword keeps the configuration well formed

    A triple for the parser - no fault but a signed overflow of a number - and
    the invariant of the configuration that every handler keeps: ports, ranges,
    counts and sizes within the bounds that the workers rely on. *)

From S2P Require Import Prelude Double IpRange Tick Config Mbuf NetStats World HttpParse Payload.
From S2P Require Import ConfigNumber ConfigKeyword ConfigParse ConfigCheck.

(** ** Triples up to overflow *)

Section Triple.
Context {S : Type}.

Definition wpo {A} (m : ST S A) (Q : A -> S -> Prop) (s : S) : Prop :=
  match m s with Ok (a, s') => Q a s' | Err Overflow => True | Err _ => False end.

Lemma wpo_ret {A} (a : A) (Q : A -> S -> Prop) s : Q a s -> wpo (mret a) Q s.
Proof. done. Qed.
Lemma wpo_bind {A B} (m : ST S A) (f : A -> ST S B) Q s : wpo m (fun a s' => wpo (f a) Q s') s -> wpo (m ≫= f) Q s.
Proof. unfold wpo, mbind, ST_bind. by destruct (m s) as [[a s']|[]]. Qed.
Lemma wpo_mono {A} (m : ST S A) (Q Q' : A -> S -> Prop) s :
  wpo m Q s -> (forall a s', Q a s' -> Q' a s') -> wpo m Q' s.
Proof. unfold wpo. destruct (m s) as [[a s']|[]]; auto. Qed.
Lemma wpo_get (Q : S -> S -> Prop) s : Q s s -> wpo st_get Q s.
Proof. done. Qed.
Lemma wpo_gets {A} (f : S -> A) (Q : A -> S -> Prop) s : Q (f s) s -> wpo (st_gets f) Q s.
Proof. done. Qed.
Lemma wpo_modify f (Q : unit -> S -> Prop) s : Q tt (f s) -> wpo (st_modify f) Q s.
Proof. done. Qed.
Lemma wpo_lift {A} e (o : option A) a (Q : A -> S -> Prop) s : o = Some a -> Q a s -> wpo (st_lift e o) Q s.
Proof. by intros ->. Qed.
Lemma wpo_number {A} (o : option A) (Q : A -> S -> Prop) s :
  (forall a, o = Some a -> Q a s) -> wpo (st_lift Overflow o) Q s.
Proof. unfold wpo, st_lift. destruct o; auto. Qed.
Lemma wpo_if {A} (b : bool) (m1 m2 : ST S A) (Q : A -> S -> Prop) s :
  (b = true -> wpo m1 Q s) -> (b = false -> wpo m2 Q s) -> wpo (if b then m1 else m2) Q s.
Proof. destruct b; auto. Qed.
Lemma wpo_conj {A} (m : ST S A) (Q Q' : A -> S -> Prop) s : wpo m Q s -> wpo m Q' s -> wpo m (fun a s' => Q a s' /\ Q' a s') s.
Proof. unfold wpo. destruct (m s) as [[a s']|[]]; auto. Qed.
End Triple.

(** ** The invariant *)

(** The addresses of a range: none ends in 255. *)
Definition range_ok (r : ip_range) : Prop := range_wf r /\ forall x, range_member r x -> last_byte_of x ≠ 255.
(** Consecutive addresses from the first. *)
Definition consecutive (r : ip_range) : Prop := exists a, in_u 32 a /\ a ≠ 0 /\ last_byte_of a + num r - 1 < 255
  /\ forall i, 0 <= i < num r -> ip_range_get r i = Some (range_nth a i).

Record group_ok (P : ip_range -> Prop) (g : ip_group) : Prop := {
  go_len : length (ip_ranges g) = 32%nat;
  go_num : 0 <= group_num g <= 32;
  go_used : forall i r, 0 <= i < group_num g -> aget (ip_ranges g) i = Some r -> P r;
  go_free : forall i, group_num g <= i < 32 -> aget (ip_ranges g) i = Some ip_range_zero;
}.
Definition server_range_ok (r : ip_range) : Prop := range_ok r /\ consecutive r.

Record port_ok (p : netif_port) : Prop := {
  po_local_mac : length (np_local_mac p) = 6%nat;
  po_gateway_mac : length (np_gateway_mac p) = 6%nat;
  po_slaves : 1 <= np_pci_num p <= 4 /\ length (np_port_id_list p) = 4%nat;
  po_pcis : length (np_pci_list p) = 4%nat;
  po_pools : length (np_mbuf_pool p) = 64%nat;
}.
Record vxlan_ok (v : vxlan) : Prop := {
  vo_vni : 0 < vx_vni v <= VNI_MAX;
  vo_macs : length (vx_inner_smac v) = 6%nat /\ length (vx_inner_dmac v) = 6%nat;
  vo_vteps : range_ok (vx_vtep_local v) /\ range_ok (vx_vtep_remote v);
}.

Definition in_int (x : Z) : Prop := 0 <= x < 2 ^ 31.
Definition cpus_ok (l : list Z) : Prop := length l = 64%nat /\ Forall in_int l.

Record config_ok (c : config) : Prop := {
  ok_listen : (c_listen c = 0 /\ c_listen_num c = 0)
    \/ (1 <= c_listen c /\ 1 <= c_listen_num c /\ c_listen c + c_listen_num c < 65535);
  ok_lport : (c_lport_min c = 0 /\ c_lport_max c = 0) \/ (1 <= c_lport_min c <= c_lport_max c /\ c_lport_max c < 65536);
  ok_cpu : 0 <= c_cpu_num c <= 64 /\ cpus_ok (c_cpu c);
  ok_payload : length (c_payload_size c) = 64%nat /\ Forall (fun x => 0 <= x) (c_payload_size c);
  ok_clients : group_ok range_ok (c_client_ip_group c);
  ok_servers : group_ok server_range_ok (c_server_ip_group c);
  ok_ports : c_port_num c <= NETIF_PORT_MAX /\ Forall port_ok (c_ports c);
  ok_vxlans : Forall vxlan_ok (c_vxlans c);
  ok_dip : list_next (c_dip_list c) = 0 /\ list_num (c_dip_list c) <= IP_LIST_NUM_MAX;
  ok_burst : 0 <= c_tx_burst c < 256;
  ok_load : in_int (c_launch_num c) /\ in_int (c_cps c) /\ in_int (c_cc c) /\ in_int (c_mss c);
  ok_times : 0 <= c_retransmit_timeout_sec c <= RTO_MAX /\ in_int (c_keepalive_request_interval_us c) /\ in_int (c_duration c);
  ok_protocol : c_protocol c = 0 \/ c_protocol c = IPPROTO_TCP \/ c_protocol c = IPPROTO_UDP;
  ok_flow : c_flow c = FLOW_NONE \/ c_flow c = FLOW_RSS;
  ok_jumbo : c_jumbo c = true -> JUMBO_MTU_MIN <= c_jumbo_mtu c <= JUMBO_MTU_MAX;
  ok_texts : strlen (c_http_host c) < HTTP_HOST_MAX /\ strlen (c_http_path c) < HTTP_PATH_MAX;
  ok_no_vxlan : c_vxlan c = false;
  ok_slow : c_slow_start c = 0 \/ SLOW_START_MIN <= c_slow_start c <= SLOW_START_MAX;
}.

Lemma group_zero_ok P : group_ok P ip_group_zero.
Proof.
  split; [reflexivity|by vm_compute|cbn; lia|]. intros i [Hi1 Hi2]. unfold aget, ip_group_zero in *. cbn [ip_ranges group_num] in *.
  destruct (Z.leb_spec 0 i); [|lia]. apply lookup_replicate_2. lia.
Qed.

Lemma g_config_init_ok : config_ok g_config_init.
Proof.
  split; try apply group_zero_ok; try (by left); try (by split); try (by constructor); try by split_and!.
  1: split; [done|].
  all: split; [done|]; apply list.Forall_replicate; by vm_compute.
Qed.

(** ** Handlers *)

(** A handler that does not refuse leaves a well-formed configuration. *)
Definition keeps (m : CM Z) : Prop := forall c, config_ok c -> wpo m (fun r c' => 0 <= r -> config_ok c') c.

Lemma keeps_refuse : keeps refuse.
Proof. intros c _. by apply wpo_ret. Qed.
Lemma keeps_ret r : keeps (mret r).
Proof. intros c H. by apply wpo_ret. Qed.
Lemma keeps_set f : (forall c, config_ok c -> config_ok (f c)) -> keeps (set_config f).
Proof. intros Hf c H. apply wpo_bind, wpo_modify, wpo_ret. auto. Qed.
Lemma keeps_then m k : keeps m -> keeps k -> keeps (ret ← m; if ret <? 0 then refuse else k).
Proof.
  intros Hm Hk c H. apply wpo_bind. eapply wpo_mono; [by apply Hm|]. intros r c' Hr. cbv beta.
  destruct (Z.ltb_spec r 0); [by apply wpo_ret|by apply Hk, Hr].
Qed.
Lemma keeps_if (b : bool) m1 m2 : (b = true -> keeps m1) -> (b = false -> keeps m2) -> keeps (if b then m1 else m2).
Proof. destruct b; auto. Qed.
Lemma keeps_once given m : keeps m -> keeps (once given m).
Proof. intros Hm c H. apply wpo_bind, wpo_get. destruct (given c); [by apply keeps_refuse|by apply Hm]. Qed.
Lemma keeps_lift {A} (o : option A) k : (forall a, o = Some a -> keeps (k a)) -> keeps (st_lift Overflow o ≫= k).
Proof. intros Hk c H. apply wpo_bind, wpo_number. intros a Ha. by apply Hk. Qed.
Lemma keeps_with_arg k argv : (forall a, keeps (k a)) -> keeps (with_arg k argv).
Proof. intros Hk. destruct argv as [|? [|a [|]]]; try apply keeps_refuse. apply Hk. Qed.
Lemma keeps_flag given f argv : (forall c, config_ok c -> config_ok (f c)) -> keeps (flag given f argv).
Proof. intros Hf. destruct argv as [|? [|]]; try apply keeps_refuse. by apply keeps_once, keeps_set. Qed.

(** Numbers fit an [int] and are never below -1. *)
Lemma int_ok_range x y : int_ok x = Some y -> y = x /\ - 2 ^ 31 <= y < 2 ^ 31.
Proof. unfold int_ok. destruct (_ && _) eqn:E; intros [=]; subst. bool_facts. done. Qed.
Lemma number_range str f r x : config_parse_number str f r = Some x -> -1 <= x < 2 ^ 31.
Proof.
  assert (-1 <= -1 < 2 ^ 31) as Hneg by done. assert (forall v, v < 2 ^ 31 -> -1 <= (if v <? 0 then -1 else v) < 2 ^ 31) as Hv.
  { intros v Hv. destruct (Z.ltb_spec v 0); lia. }
  unfold config_parse_number. destruct (number_rate _ r); [|by intros [= <-]].
  case_bool_decide; [by intros [= <-]|]. intros (v & Ev & [= <-])%bind_Some. apply Hv. destruct f.
  - unfold double_to_int in Ev. apply bind_Some in Ev as (y & _ & Ev). destruct (_ && _) eqn:E; [|done]. injection Ev as ->. bool_facts. lia.
  - apply int_ok_range in Ev as [_ ?]. lia.
Qed.
Lemma atoi_range s : - 2 ^ 31 <= atoi s < 2 ^ 31.
Proof. apply (swrap_range 32). lia. Qed.

Lemma keeps_number str f r k : (forall x, -1 <= x < 2 ^ 31 -> keeps (k x)) -> keeps (number str f r ≫= k).
Proof. intros Hk. apply keeps_lift. intros x Hx%number_range. auto. Qed.

(** The fields of the invariant that an update does not touch. *)
Ltac keep_fields := let H := fresh in
  intros ? H; destruct H; split; rsimpl; try assumption.
Ltac keep_step :=
  match goal with
  | |- keeps refuse => apply keeps_refuse
  | |- keeps (mret _) => apply keeps_ret
  | |- keeps (once _ _) => apply keeps_once
  | |- keeps (if _ then _ else _) => apply keeps_if; intros ?; bool_facts
  | |- keeps (number _ _ _ ≫= _) => apply keeps_number; intros ? ?
  | |- keeps (st_lift Overflow _ ≫= _) => apply keeps_lift; intros ? ?
  | |- keeps (let x := atoi ?a in _) => pose proof (atoi_range a); cbv zeta
  | |- keeps (match ?x with _ => _ end) => destruct x eqn:?
  | |- keeps (with_arg _ _) => apply keeps_with_arg; intros ?
  | |- keeps (flag _ _ _) => apply keeps_flag; keep_fields
  | |- keeps (set_config _) => apply keeps_set; keep_fields
  end; cbv beta.
Ltac keep := repeat keep_step.
(** What is left is a bound of the new value. *)
Ltac keep_bounds :=
  unfold in_int, RTO_MAX, RTO_MIN, HTTP_HOST_MAX, HTTP_PATH_MAX, JUMBO_MTU_MIN, JUMBO_MTU_MAX, NETWORK_PORT_NUM in *;
  change (2 ^ 31) with 2147483648 in *;
  repeat match goal with H : int_ok _ = Some _ |- _ => apply int_ok_range in H as [-> ?] end;
  try lia.
Ltac simple_handler := keep; keep_bounds.

Lemma keeps_duration argv : keeps (config_parse_duration argv).
Proof.
  unfold config_parse_duration. keep. unfold double_to_int in *.
  match goal with H : _ = Some _ |- _ => apply bind_Some in H as (x & _ & H); destruct (_ && _) eqn:E in H; [|done]; injection H as -> end.
  bool_facts. keep_bounds.
Qed.
Lemma keeps_tx_burst argv : keeps (config_parse_tx_burst argv).
Proof. unfold config_parse_tx_burst. keep. by apply (wrap_range 8). Qed.
Lemma keeps_jumbo argv : keeps (config_parse_jumbo argv).
Proof. unfold config_parse_jumbo. keep. intros _. lia. Qed.
Lemma keeps_client_port_range argv : keeps (config_parse_client_port_range argv).
Proof. unfold config_parse_client_port_range. keep. right. keep_bounds. Qed.

Lemma keeps_keepalive argv : keeps (config_parse_keepalive argv).
Proof.
  unfold config_parse_keepalive. keep. apply keeps_then; [|apply keeps_then].
  - unfold config_parse_keepalive_request_interval. keep.
    assert (0 <= z) by (repeat case_match; simplify_eq; lia). keep_bounds.
  - unfold config_parse_keepalive_request_num. keep.
  - intros c Hc. apply wpo_bind, wpo_get. destruct (_ && _); [by apply keeps_refuse|]. revert c Hc.
    apply keeps_set. keep_fields.
Qed.

(** ** CPUs *)

Lemma cpus_ok_insert l i x : cpus_ok l -> in_int x -> cpus_ok (<[i := x]> l).
Proof. intros [H1 H2] Hx. split; [by rewrite length_insert|by apply list.Forall_insert]. Qed.

Lemma cpu_loop_keeps fuel cpu cpu_max n c (Q : option Z -> config -> Prop) :
  cpus_ok (c_cpu c) -> 0 <= cpu -> cpu_max < 2 ^ 31 -> 0 <= n <= 64 -> 65 - n < Z.of_nat fuel ->
  (forall r l, cpus_ok l -> (forall m, r = Some m -> 0 <= m <= 64) -> Q r (c <| c_cpu := l |>)) ->
  wpo (cpu_loop fuel cpu cpu_max n) Q c.
Proof.
  revert cpu n c. induction fuel as [|fuel IH]; intros cpu n c Hl Hcpu Hmax Hn Hf HQ; [lia|]. cbn [cpu_loop].
  assert (c = c <| c_cpu := c_cpu c |>) as Ec by by destruct c.
  destruct (Z.leb_spec cpu cpu_max); [|apply wpo_ret; rewrite Ec; apply HQ; [done|by intros ? [= <-]]].
  unfold THREAD_NUM_MAX. destruct (Z.ltb_spec 64 (n + 1)); [apply wpo_ret; rewrite Ec; by apply HQ|].
  apply wpo_bind, wpo_get, wpo_bind. eapply wpo_lift; [apply aset_some; rewrite (proj1 Hl); lia|].
  apply wpo_bind, wpo_modify, wpo_bind, wpo_number. intros next Hnext.
  assert (next = cpu + 1) as -> by (unfold int_ok in Hnext; by case_match; simplify_eq).
  apply IH; [|lia..|].
  - rsimpl. apply cpus_ok_insert; [done|]. unfold in_int. lia.
  - intros r l Hl' Hr. apply (HQ r l Hl' Hr).
Qed.

Lemma cpu_args_keeps args n c (Q : option Z -> config -> Prop) :
  cpus_ok (c_cpu c) -> 0 <= n <= 64 ->
  (forall r l, cpus_ok l -> (forall m, r = Some m -> 0 <= m <= 64) -> Q r (c <| c_cpu := l |>)) ->
  wpo (cpu_args args n) Q c.
Proof.
  revert n c. induction args as [|p args IH]; intros n c Hl Hn HQ; cbn [cpu_args];
    assert (c = c <| c_cpu := c_cpu c |>) as Ec by by destruct c.
  { apply wpo_ret. rewrite Ec. apply HQ; [done|by intros ? [= <-]]. }
  assert (wpo (mret None) Q c) as Hnone by (apply wpo_ret; rewrite Ec; by apply HQ).
  assert (forall range, (forall lo hi, range = Some (lo, hi) -> hi < 2 ^ 31) -> wpo (match range with None => mret None | Some (cpu_min, cpu_max) =>
    if (cpu_min <? 0) || (cpu_max <? 0) || (cpu_max <? cpu_min) then mret None
    else n ← cpu_loop (Z.to_nat THREAD_NUM_MAX + 2) cpu_min cpu_max n;
         match n with Some n => cpu_args args n | None => mret None end end) Q c) as Hrange.
  { intros [[lo hi]|] Hhi; [|exact Hnone]. specialize (Hhi _ _ eq_refl). destruct (_ || _) eqn:Hb; [exact Hnone|]. bool_facts.
    apply wpo_bind, cpu_loop_keeps; [done|lia|lia|lia|change (Z.to_nat THREAD_NUM_MAX + 2)%nat with 66%nat; lia|].
    intros [m|] l Hl' Hm; [|apply wpo_ret; by apply HQ]. apply IH; [done|by apply Hm|]. intros r l2 Hl2 Hr2. by apply (HQ r l2). }
  unfold cpu_arg_range. apply wpo_bind. case_bool_decide.
  - apply wpo_ret, Hrange. intros lo hi E. apply bind_Some in E as ([lo' s1] & _ & E). apply bind_Some in E as (s2 & _ & E).
    apply bind_Some in E as ([y rest] & Ex & [= _ <-]). unfold scan_int in Ex. repeat case_match; simplify_eq.
    all: match goal with |- i32 ?z < _ => pose proof (swrap_range 32 z ltac:(lia)); lia end.
  - apply wpo_bind, wpo_number. intros v Hv%number_range. apply wpo_ret, (Hrange (Some (v, v))). intros ? ? [= _ <-]. lia.
Qed.

Lemma keeps_cpu argv : keeps (config_parse_cpu argv).
Proof.
  unfold config_parse_cpu. destruct argv as [|? [|? ?]]; try apply keeps_refuse. apply keeps_once. intros c H.
  apply wpo_bind. destruct (ok_cpu _ H) as [H1 H2]. apply cpu_args_keeps; [exact H2|lia|]. clear H2. intros r cpus Hl Hr.
  assert (config_ok (c <| c_cpu := cpus |>)) as Hc by (revert H; clear - H1 Hl; intros []; split; rsimpl; try assumption; by split).
  destruct r as [n|]; [|by apply wpo_ret]. apply wpo_bind, wpo_get. destruct (has_dup _); [by apply wpo_ret|].
  revert Hc. generalize (c <| c_cpu := cpus |>). apply keeps_set. intros c2 Hc2. specialize (Hr n eq_refl).
  destruct (ok_cpu _ Hc2). destruct Hc2; split; rsimpl; try assumption. by split.
Qed.

(** ** Payload sizes *)

Lemma payload_sizes_keeps i args : 0 <= i -> i + Z.of_nat (length args) <= 64 -> keeps (payload_sizes i args).
Proof.
  revert i. induction args as [|a args IH]; intros i Hi Hl; cbn [payload_sizes length] in *; [apply keeps_ret|].
  apply keeps_number. intros x Hx. apply keeps_if; intros Hb; [apply keeps_refuse|]. bool_facts.
  intros c Hc. destruct (ok_payload _ Hc) as [H1 H2].
  apply wpo_bind, wpo_get, wpo_bind. eapply wpo_lift; [apply aset_some; lia|]. apply wpo_bind, wpo_modify.
  apply IH; [lia|lia|]. destruct Hc; split; rsimpl; try assumption. rewrite length_insert. split; [done|].
  apply list.Forall_insert; [done|lia].
Qed.

Lemma keeps_payload_size argv : (length argv <= 32)%nat -> keeps (config_parse_payload_size argv).
Proof.
  intros Hl c Hc. destruct argv as [|? [|a args]]; [by apply keeps_refuse..|]. unfold config_parse_payload_size.
  apply wpo_bind, wpo_gets. destruct (is_set _); [by apply keeps_refuse|].
  apply payload_sizes_keeps; [lia|cbn [length tail] in *; lia|done].
Qed.

(** ** Ranges *)

Section Addresses.
Context (inet_pton4 : list Z -> option Z) (inet_pton6 : list Z -> option ipaddr_t).
Context (Hpton4 : forall s x, inet_pton4 s = Some x -> in_u 32 x).
Context (Hpton6 : forall s a, inet_pton6 s = Some a -> in_u 32 (ip a)).

Lemma parse_ip_word str af a : config_parse_ip inet_pton4 inet_pton6 str = Some (af, a) -> in_u 32 (ip a) /\ af ≠ -1.
Proof using Hpton4 Hpton6.
  unfold config_parse_ip. case_bool_decide; intros (x & Hx & [= <- <-])%bind_Some; split; try done; [by eapply Hpton6|by eapply Hpton4].
Qed.

Lemma init_range_ok st n r : in_u 32 (ip st) -> ip st ≠ 0 -> n < 2 ^ 31 -> ip_range_init ip_range_zero st n = Some (0, r) ->
  range_ok r /\ consecutive r.
Proof using Type.
  intros Hst Hne Hn E. destruct (ip_range_init_cases st n Hst Hn) as [[E' _]|(r' & E' & Hwf & Hnum & _ & Hget)];
    rewrite E' in E; [done|]. injection E as <-. pose proof (wf_num _ Hwf).
  assert (last_byte_of (ip st) + n - 1 < 255) as Hlast.
  { destruct (Z_lt_le_dec (last_byte_of (ip st) + n - 1) 255) as [|Hle]; [done|].
    exfalso. revert E'. unfold ip_range_init. rewrite last_byte_of_ip by done. pose proof (last_byte_range (ip st)).
    change (2 ^ 31) with 2147483648 in Hn. rewrite (wrap_small 32) by (unfold in_u; change (2 ^ 32) with 4294967296; lia).
    destruct (Z.leb_spec 255 (last_byte_of (ip st) + n - 1)); [|lia]. by rewrite !orb_true_r. }
  split; [split; [done|]|].
  - intros x (i & Hi & Hx). rewrite Hnum in *. specialize (Hget i Hi). unfold ip_range_get in Hget.
    destruct (Z.eqb_spec (num r') 0); [lia|]. rewrite Hnum, Z.mod_small in Hget by lia.
    rewrite (wrap_small 8) in Hget by (unfold in_u; change (2 ^ 8) with 256; lia).
    assert (x = range_nth (ip st) i) as -> by congruence.
    destruct (range_nth_facts (ip st) Hst Hne i) as (_ & _ & ->); lia.
  - exists (ip st). rewrite Hnum. by split_and!.
Qed.
Lemma ip_range_more_ok af args r : af ≠ -1 -> range_ok r ->
  exists af' r', ip_range_more inet_pton4 inet_pton6 af r args = Some (af', r') /\ (af' ≠ -1 -> range_ok r').
Proof using Hpton4 Hpton6.
  intros Haf. revert r. induction args as [|a args IH]; intros r [Hwf Hl]; cbn [ip_range_more].
  { by exists af, r. }
  assert (exists af' r', Some (-1, r) = Some (af', r') /\ (af' ≠ -1 -> range_ok r')) as Hrej by by exists (-1), r.
  destruct (config_parse_ip _ _ a) as [[af2 ip2]|] eqn:E; [|done]. destruct (parse_ip_word _ _ _ E) as [Hip _].
  destruct (Z.eqb_spec (ip ip2) 0); [done|]. destruct (negb _); [done|]. cbn [orb].
  destruct (ip_range_init_cases ip2 1 Hip ltac:(done)) as [[-> _]|(r1 & -> & _)]; [done|]. cbn.
  destruct (ip_range_add_cases r ip2 Hwf Hip) as (rc & r' & -> & Hwf' & [[-> ->]|(-> & _ & Hne & Hm)]); cbn; [done|].
  apply IH. split; [done|]. intros x [Hx| ->]%Hm; auto.
Qed.

Lemma parse_ip_range_ok argv split c :
  wpo (config_parse_ip_range inet_pton4 inet_pton6 argv ip_range_zero split)
    (fun '(af, r) c' => c' = c /\ (af ≠ -1 -> range_ok r /\ (split = false -> consecutive r))) c.
Proof using Hpton4 Hpton6.
  destruct argv as [|? [|a [|n rest]]]; [by apply wpo_ret..|]. unfold config_parse_ip_range.
  destruct (negb split && _) eqn:Hs; [by apply wpo_ret|].
  destruct (config_parse_ip _ _ a) as [[af start]|] eqn:E; [|by apply wpo_ret]. destruct (parse_ip_word _ _ _ E) as [Hip Haf].
  destruct (Z.eqb_spec (ip start) 0); [by apply wpo_ret|].
  apply wpo_bind, wpo_number. intros num Hnum%number_range. apply wpo_bind.
  destruct (ip_range_init_cases start num Hip ltac:(lia)) as [[E1 _]|(r & E1 & _)].
  - eapply wpo_lift; [exact E1|]. cbn. by apply wpo_ret.
  - eapply wpo_lift; [exact E1|]. cbn. destruct (init_range_ok start num r) as [H1 H2]; [done..|lia|done|].
    destruct (ip_range_more_ok af rest r Haf H1) as (af' & r' & E2 & H3). eapply wpo_lift; [exact E2|].
    split; [done|]. intros Haf'. split; [auto|]. intros ->. destruct rest; [|done]. cbn in E2. by injection E2 as <- <-.
Qed.

(** The next entry of a group. *)
Lemma group_ok_next P g r ranges : group_ok P g -> group_num g < 32 -> aset (ip_ranges g) (group_num g) r = Some ranges -> P r ->
  group_ok P (IpGroup ranges (group_num g + 1)).
Proof using Type.
  intros [H1 H2 H3 H4] Hlt E Hr. split; cbn [ip_ranges group_num]; [by rewrite (aset_length _ _ _ _ E)|lia|..].
  - intros i x Hi. rewrite (aget_aset _ _ _ _ _ E). case_decide; [by intros [= <-]|]. apply H3. lia.
  - intros i Hi. rewrite (aget_aset _ _ _ _ _ E), decide_False by lia. apply H4. lia.
Qed.

Lemma ip_group_keeps P argv get put split :
  (forall c, config_ok c -> group_ok P (get c)) ->
  (forall c af v6 g g', config_ok c -> group_ok P g' -> config_ok (put g' ((put g c) <| c_af := af |> <| c_ipv6 := v6 |>))) ->
  (forall r, range_ok r -> (split = false -> consecutive r) -> P r) ->
  keeps (config_parse_ip_group inet_pton4 inet_pton6 argv get put split).
Proof using Hpton4 Hpton6.
  intros Hget Hput HP c Hc. pose proof (Hget c Hc) as Hg. pose proof (go_num _ _ Hg). pose proof (go_len _ _ Hg).
  apply wpo_bind, wpo_get. unfold IP_RANGE_NUM_MAX. destruct (Z.leb_spec 32 (group_num (get c))); [by apply wpo_ret|].
  apply wpo_bind. eapply wpo_lift; [apply (go_free _ _ Hg); lia|].
  apply wpo_bind. eapply wpo_mono; [apply parse_ip_range_ok|]. intros [af r] c' [-> Hr].
  assert (exists ranges, aset (ip_ranges (get c)) (group_num (get c)) r = Some ranges) as [ranges Hset]
    by (rewrite aset_some by lia; by eexists).
  apply wpo_bind. eapply wpo_lift; [exact Hset|]. apply wpo_bind, wpo_modify, wpo_bind. unfold config_set_af.
  apply wpo_bind, wpo_get. destruct (_ && _) eqn:E; [|apply wpo_ret; by apply wpo_ret]. bool_facts.
  apply wpo_bind, wpo_modify, wpo_ret. apply wpo_bind, wpo_modify, wpo_ret. intros _.
  destruct Hr as [Hr1 Hr2]; [lia|]. apply Hput; [done|]. eapply group_ok_next; [done|lia|done|]. auto.
Qed.

Lemma keeps_client argv : keeps (config_parse_client inet_pton4 inet_pton6 argv).
Proof using Hpton4 Hpton6.
  apply (ip_group_keeps range_ok); [by intros c []| |done].
  intros c af v6 g g' Hc Hg. destruct Hc; by split; rsimpl.
Qed.
Lemma keeps_server argv : keeps (config_parse_server inet_pton4 inet_pton6 argv).
Proof using Hpton4 Hpton6.
  apply (ip_group_keeps server_range_ok); [by intros c []| |intros r H1 H2; split; auto].
  intros c af v6 g g' Hc Hg. destruct Hc; by split; rsimpl.
Qed.

(** ** Destinations *)

Lemma change_dip_loop_ok n af step a l : list_next l = 0 /\ list_num l <= IP_LIST_NUM_MAX ->
  let l' := (change_dip_loop n af step a l).2 in list_next l' = 0 /\ list_num l' <= IP_LIST_NUM_MAX.
Proof using Type.
  revert a l. induction n as [|n IH]; intros a l Hl; cbn [change_dip_loop]; [done|].
  destruct (ip_list_add l af a) as [ret l1] eqn:E.
  assert (list_next l1 = 0 /\ list_num l1 <= IP_LIST_NUM_MAX) as Hl1.
  { revert E. unfold ip_list_add. destruct (_ && _); [by intros [= <- <-]|]. unfold IP_LIST_NUM_MAX in *.
    destruct (Z.leb_spec 65536 (list_num l)); [by intros [= <- <-]|]. destruct (_ && _); [by intros [= <- <-]|].
    intros [= <- <-]. unfold list_num in *. destruct (_ =? 0); rsimpl; rewrite length_app; cbn [length]; split; [apply Hl|lia|apply Hl|lia]. }
  destruct (ret <? 0); [done|]. by apply IH.
Qed.

Lemma keeps_change_dip argv : keeps (config_parse_change_dip inet_pton4 inet_pton6 argv).
Proof using Type.
  intros c Hc. destruct argv as [|kw [|a [|s [|n [|extra rest]]]]]; try by apply keeps_refuse. unfold config_parse_change_dip.
  destruct (config_parse_ip _ _ a) as [[af start]|]; [|by apply keeps_refuse]. cbv zeta.
  destruct (_ || _); [by apply keeps_ret|]. apply wpo_bind, wpo_get.
  pose proof (change_dip_loop_ok (Z.to_nat (Z.min (atoi n) (IP_LIST_NUM_MAX + 1))) af (atoi s) start (c_dip_list c) (ok_dip _ Hc)) as Hl.
  destruct (change_dip_loop _ _ _ _ _) as [ret l]. apply wpo_bind, wpo_modify, wpo_ret. intros _. destruct Hc; by split; rsimpl.
Qed.

(** ** Ports and tunnels *)

Lemma eth_addr_length s a : eth_addr_init s = Some a -> length a = 6%nat.
Proof using Type.
  unfold eth_addr_init. destruct (negb _); [done|]. intros (l & Hl & E)%bind_Some. destruct (existsb _ _); [done|].
  injection E as <-. rewrite length_fmap. clear -Hl. remember 6%nat as n. clear Heqn. revert s l Hl.
  induction n as [|n IH]; intros s l Hl; cbn [scan_mac] in Hl; [by injection Hl as <-|].
  apply bind_Some in Hl as ([x s1] & _ & Hl). destruct n as [|n]; [by injection Hl as <-|].
  apply bind_Some in Hl as (s2 & _ & Hl). apply bind_Some in Hl as (l1 & Hl1 & Hl). injection Hl as <-.
  cbn [length]. f_equal. by eapply IH.
Qed.

Lemma bond_pcis_length n s l : bond_pcis n s = Some l -> length l = n.
Proof.
  revert s l. induction n as [|n IH]; intros s l E; cbn [bond_pcis] in E; [by injection E as <-|].
  destruct (drop _ s) as [|ch t]; [done|]. destruct (_ =? _); [|done]. apply bind_Some in E as (l' & E & [= <-]). cbn. f_equal. by eapply IH.
Qed.

Section Ports.
Context (p : netif_port) (Hlocal : length (np_local_mac p) = 6%nat) (Hmac : length (np_gateway_mac p) = 6%nat)
  (Hids : length (np_port_id_list p) = 4%nat) (Hpcis : length (np_pci_list p) = 4%nat) (Hpools : length (np_mbuf_pool p) = 64%nat).

Lemma bond_port_ok s p' : config_parse_bond p s = Some p' -> port_ok p'.
Proof using Hlocal Hmac Hids Hpcis Hpools.
  unfold config_parse_bond, BOND_NUM, BOND_STR_MIN, BOND_STR_MAX, BOND_STR_BASE, PCI_LEN, PCI_NUM_MAX.
  destruct (_ || _) eqn:Hlen; [done|]. bool_facts. destruct (negb _); [done|].
  assert (1 <= (strlen s - 9 + 1) / (12 + 1) <= 4) as Hn by (Z.to_euclidean_division_equations; lia).
  intros E. repeat case_match; try done. apply bind_Some in E as (pcis & El%bond_pcis_length & E). destruct (has_dup pcis); [done|].
  injection E as <-. split; rsimpl; try done. rewrite length_app, length_drop. lia.
Qed.
Lemma pci_port_ok s p' : port_pci p s = Some p' -> port_ok p'.
Proof using Hlocal Hmac Hids Hpcis Hpools.
  intros E. unfold port_pci in E. assert (strlen s = PCI_LEN -> port_ok (p <| np_pci_list ::= fun l => s :: drop 1 l |> <| np_pci_num := 1 |>)) as Hone
    by (intros _; split; rsimpl; [done..| |done]; cbn [length]; rewrite length_drop; lia).
  assert (forall x, (if strlen s =? PCI_LEN then Some (p <| np_pci_list ::= fun l => s :: drop 1 l |> <| np_pci_num := 1 |>) else None) = Some x -> port_ok x)
    as Hx by (intros x; destruct (Z.eqb_spec (strlen s) PCI_LEN); [|done]; intros [= <-]; auto).
  repeat case_match; subst; try (by apply Hx); by apply bond_port_ok in E.
Qed.
End Ports.

Lemma keeps_port argv : keeps (config_parse_port inet_pton4 inet_pton6 argv).
Proof using Type.
  intros c Hc. destruct argv as [|kw [|pci [|local_ip [|gateway_ip rest]]]]; try by apply keeps_refuse. unfold config_parse_port.
  destruct (_ <? _)%nat; [by apply keeps_refuse|]. apply wpo_bind, wpo_get.
  unfold NETIF_PORT_MAX. destruct (Z.leb_spec 32 (c_port_num c)); [by apply keeps_refuse|].
  match goal with |- wpo (match ?o with _ => _ end) _ _ => destruct o as [port|] eqn:E end; [|by apply wpo_ret].
  assert (port_ok port) as Hp.
  { apply bind_Some in E as (p & Hp & E). apply pci_port_ok in Hp as [P1 P2 P3 P4 P5]; [|done..].
    apply bind_Some in E as ([] & _ & E). apply bind_Some in E as ([] & _ & E). apply bind_Some in E as (mac & Hm & E).
    destruct (_ || _); [done|]. injection E as <-. split; rsimpl; [done| |done..].
    repeat case_match; simplify_eq; [done|by eapply eth_addr_length|done]. }
  apply wpo_bind, wpo_modify, wpo_ret. intros _. destruct Hc as []; split; rsimpl; try assumption.
  match goal with H : c_port_num c <= _ /\ _ |- _ => destruct H end. unfold c_port_num, NETIF_PORT_MAX in *. rsimpl.
  rewrite length_app. cbn [length]. split; [lia|]. apply list.Forall_app. split; [done|by constructor].
Qed.

Lemma keeps_vxlan argv : keeps (config_parse_vxlan inet_pton4 inet_pton6 argv).
Proof using Hpton4 Hpton6.
  intros c Hc. unfold config_parse_vxlan. repeat (destruct argv as [|? argv]; try by apply keeps_refuse).
  apply wpo_bind, wpo_get. destruct (_ <=? _); [by apply keeps_refuse|]. cbv zeta. destruct (_ || _) eqn:Hv; [by apply keeps_refuse|].
  bool_facts. match goal with |- wpo (match ?o with _ => _ end) _ _ => destruct o as [[smac dmac]|] eqn:E end; [|by apply keeps_refuse].
  apply bind_Some in E as (m1 & Hm1 & E). apply bind_Some in E as (m2 & Hm2 & E). injection E as -> ->.
  apply eth_addr_length in Hm1, Hm2.
  apply wpo_bind. eapply wpo_mono; [apply parse_ip_range_ok|]. intros [af1 r1] c1 [-> Hr1].
  destruct (Z.eqb_spec af1 AF_INET) as [->|]; [|by apply wpo_ret]. cbn [negb].
  apply wpo_bind. eapply wpo_mono; [apply parse_ip_range_ok|]. intros [af2 r2] c2 [-> Hr2].
  destruct (Z.eqb_spec af2 AF_INET) as [->|]; [|by apply wpo_ret]. cbn [negb].
  destruct Hr1 as [Hr1 _]; [done|]. destruct Hr2 as [Hr2 _]; [done|].
  revert Hc. apply keeps_set. intros c2 Hc2. destruct Hc2; split; rsimpl; try assumption.
  apply list.Forall_app. split; [done|]. constructor; [|done]. split; cbn; [lia|done|done].
Qed.

(** ** The file *)

Lemma keywords_keep : Forall (fun k => forall argv, (length argv <= 32)%nat -> keeps (k.2 argv)) (g_config_keywords inet_pton4 inet_pton6).
Proof using Hpton4 Hpton6.
  unfold g_config_keywords. cbn [fmap list_fmap].
  repeat (apply List.Forall_cons; [intros argv Hlen; cbn [snd]|]); [..|by apply List.Forall_nil].
  all: first [apply keeps_keepalive | apply keeps_cpu | apply keeps_port | apply keeps_duration | apply keeps_client | apply keeps_server
    | apply keeps_change_dip | by apply keeps_payload_size | apply keeps_tx_burst | apply keeps_vxlan | apply keeps_jumbo
    | apply keeps_client_port_range
    | lazymatch goal with |- keeps (?h _) => unfold h end; simple_handler].
Qed.

Lemma lookup_keeps (keywords : list (list Z * (argv_t -> CM Z))) name h argv :
  Forall (fun k => forall argv, (length argv <= 32)%nat -> keeps (k.2 argv)) keywords ->
  config_keyword_lookup keywords name = Some h -> (length argv <= 32)%nat -> keeps (h argv).
Proof using Type.
  induction 1 as [|[n k] keywords Hk _ IH]; cbn [config_keyword_lookup]; [done|].
  case_bool_decide; [intros [= <-] ?; by apply Hk|done].
Qed.

Lemma words_length n s : (length (words n s) <= n)%nat.
Proof using Type.
  revert s. induction n as [|n IH]; intros s; cbn [words]; [done|].
  destruct (config_get_string s) as [[w rest]|]; cbn [length]; [|lia]. specialize (IH rest). lia.
Qed.

(** A line takes at least one byte of the file. *)
Lemma read_line_rest n c s : let '(_, rest) := read_line (S n) (c :: s) in (length rest <= length s)%nat.
Proof using Type.
  revert c s. induction n as [|n IH]; intros c s; cbn [read_line]; destruct (c =? 10); try done.
  destruct s as [|d s]; [done|]. specialize (IH d s). cbn [read_line] in IH.
  destruct (d =? 10); [cbn; lia|]. destruct (read_line n s) as [a b]. cbn [length]. lia.
Qed.

Lemma lines_keep fuel file : (length file <= fuel)%nat -> keeps (config_keyword_lines fuel (g_config_keywords inet_pton4 inet_pton6) file).
Proof using Hpton4 Hpton6.
  revert file. induction fuel as [|fuel IH]; intros [|b file] Hl; cbn [config_keyword_lines length] in *; try apply keeps_ret; [lia|].
  unfold fgets. change (Z.to_nat (CONFIG_LINE_MAX - 1 - 1)) with (S 2045).
  pose proof (read_line_rest 2045 b file) as Hrest. destruct (read_line _ _) as [line rest].
  unfold config_keyword_parse_line. destruct (negb _); [apply keeps_ret|].
  pose proof (words_length CONFIG_ARG_NUM_MAX (c_string line)) as Hw. unfold CONFIG_ARG_NUM_MAX in Hw.
  assert (keeps (config_keyword_lines fuel (g_config_keywords inet_pton4 inet_pton6) rest)) as Hnext by (apply IH; lia).
  assert (forall argv, (length argv <= 32)%nat -> argv ≠ [] ->
    keeps (ret ← config_keyword_call (g_config_keywords inet_pton4 inet_pton6) argv;
           if ret <? 0 then mret ret else config_keyword_lines fuel (g_config_keywords inet_pton4 inet_pton6) rest)) as Hcall.
  { intros [|name args] Hargv Hne; [done|]. unfold config_keyword_call. destruct (config_keyword_lookup _ _) as [h|] eqn:Eh.
    - intros c Hc. apply wpo_bind, wpo_bind. eapply wpo_mono; [by eapply (lookup_keeps _ _ _ _ keywords_keep)|].
      intros r c' Hr. apply wpo_ret. destruct (Z.eqb_spec r 0) as [->|]; [|by apply wpo_ret]. apply Hnext. by apply Hr.
    - intros c Hc. apply wpo_bind, wpo_ret. by apply wpo_ret. }
  match goal with |- keeps (match ?o with Some _ => _ | None => _ end) => set (argv := o) end.
  assert (argv = Some [] \/ exists l, argv = Some l /\ l ≠ [] /\ (length l <= 32)%nat) as [->|(l & -> & Hne & Hlen)];
    [|exact Hnext|destruct l; [done|by apply Hcall]].
  unfold argv. destruct (words _ _) as [|w ws]; [by left|]. repeat case_match; try (by left); right; by eexists.
Qed.

(** Reading a configuration file: it ends, whatever the file holds, its only
    faults are overflows, and a file that is accepted leaves a well-formed
    configuration. *)
Lemma file_keeps file : keeps (config_keyword_parse file (g_config_keywords inet_pton4 inet_pton6)).
Proof using Hpton4 Hpton6. destruct file; [by apply lines_keep|apply keeps_ret]. Qed.
End Addresses.
