(* ===== verification/Template.v ===== *)
(** * Template: the header templates of a worker

    [src/mbuf_cache.c] and [src/vxlan.c].  A template is built once, in a local
    [struct mbuf_data], and copied in front of every packet; [md_data] is the
    prefix of the array that has been written.  Return codes are those of the
    code: 0, or -1 for a template that does not fit. *)

From S2P Require Import Prelude IpRange Config Mbuf World Payload.

(** ** Bytes of the headers *)

Definition le16 (v : Z) : list Z := [v mod 256; v / 256 mod 256].
Definition le24 (v : Z) : list Z := [v mod 256; v / 256 mod 256; v / 65536 mod 256].
Definition le32 (v : Z) : list Z := [v mod 256; v / 256 mod 256; v / 65536 mod 256; v / 16777216 mod 256].
Definition ipaddr_bytes (a : ipaddr_t) : list Z := le32 (pad0 a) ++ le32 (pad1 a) ++ le32 (pad2 a) ++ le32 (ip a).

Definition eth_hdr_bytes (d_addr s_addr : eth_addr) (type : Z) : list Z := d_addr ++ s_addr ++ le16 (htons type).

(** [struct iphdr] with [ihl = 5], [version = 4] and no identification. *)
Definition iphdr_bytes (tos tot_len frag_off ttl protocol check saddr daddr : Z) : list Z :=
  [69; tos] ++ le16 tot_len ++ le16 0 ++ le16 frag_off ++ [ttl; protocol] ++ le16 check
  ++ le32 saddr ++ le32 daddr.

(** [struct ip6_hdr] from its first word. *)
Definition ip6_hdr_bytes (flow plen nxt hops : Z) (src dst : ipaddr_t) : list Z :=
  le32 flow ++ le16 plen ++ [nxt; hops] ++ ipaddr_bytes src ++ ipaddr_bytes dst.

(** [struct tcphdr], all zero but [th_off] and [th_win]. *)
Definition tcphdr_bytes (off win : Z) : list Z :=
  [0; 0; 0; 0; 0; 0; 0; 0; 0; 0; 0; 0; off * 16; 0] ++ le16 win ++ [0; 0; 0; 0].

Definition udphdr_bytes (source dest len check : Z) : list Z :=
  le16 source ++ le16 dest ++ le16 len ++ le16 check.

(** The bit fields [flags], [reserved0], [vni] and [reserved1]. *)
Definition vxlan_header_bytes (flags vni : Z) : list Z := [flags; 0; 0; 0] ++ le24 vni ++ [0].

Definition VXLAN_HTON (vni : Z) : Z := htonl (u32 (vni <<< 8)).

(** ** Building a template *)

Abbreviation MD := (ST mbuf_data Z).

(** [if (m < 0) return -1;] *)
Definition or_fail (m k : MD) : MD := ret ← m; if ret <? 0 then mret (-1) else k.

(** A load and a store in the data written so far. *)
Definition md_load (f : list Z -> option Z) : MD :=
  b ← st_gets md_data; st_lift OutOfBounds (f b).
Definition md_store (f : list Z -> option (list Z)) : ST mbuf_data unit :=
  b ← st_gets md_data; b ← st_lift OutOfBounds (f b);
  st_modify (fun d => d <| md_data := b |>).

Definition mbuf_data_iphdr (d : mbuf_data) : Z := md_l2_len d.
Definition mbuf_data_tcphdr (d : mbuf_data) : Z := md_l2_len d + md_l3_len d.

Definition mbuf_data_ip_tot_len_add (len : Z) : ST mbuf_data unit :=
  ipv6 ← st_gets md_ipv6; iph ← st_gets mbuf_data_iphdr;
  let pos := iph + (if (ipv6 : bool) then ip6_plen else iph_tot_len) in
  v ← md_load (fun b => ld16 b pos);
  md_store (st16 pos (htons (u16 (ntohs v + len)))).

Definition mbuf_data_ip_set_proto (proto : Z) : ST mbuf_data unit :=
  ipv6 ← st_gets md_ipv6; iph ← st_gets mbuf_data_iphdr;
  md_store (st8 (iph + (if (ipv6 : bool) then ip6_nxt else iph_protocol)) proto).

(** [memcpy] of the first [len] bytes of [data] behind what is written. *)
Definition mbuf_data_push (data : list Z) (len : Z) : MD :=
  total_len ← st_gets md_total_len;
  if MBUF_DATA_SIZE <? total_len + len then mret (-1)
  else
    st_modify (fun d => d <| md_data ::= fun b => b ++ take (Z.to_nat len) data |>
                          <| md_total_len ::= fun t => u16 (t + len) |>);;
    mret 0.

Definition mbuf_data_push_l2 (port : netif_port) : MD :=
  ipv6 ← st_gets md_ipv6;
  st_modify (fun d => d <| md_l2_len := ETH_HDR_LEN |>);;
  mbuf_data_push (eth_hdr_bytes (np_gateway_mac port) (np_local_mac port)
                    (if (ipv6 : bool) then ETHER_TYPE_IPv6 else ETHER_TYPE_IPv4)) ETH_HDR_LEN.

Definition mbuf_data_push_ipv6 (cfg : config) (port : netif_port) : MD :=
  let client := start (np_client_ip_range port) in
  let server := start (np_server_ip_range port) in
  let '(sip, dip) := if c_server cfg then (server, client) else (client, server) in
  st_modify (fun d => d <| md_l3_len := IP6_HDR_LEN |>);;
  mbuf_data_push (ip6_hdr_bytes (96 ||| htonl (u32 (c_tos cfg <<< 20))) 0 0 DEFAULT_TTL sip dip) IP6_HDR_LEN.

Definition mbuf_data_push_ipv4 (cfg : config) : MD :=
  st_modify (fun d => d <| md_l3_len := IPHDR_LEN |>);;
  mbuf_data_push (iphdr_bytes (c_tos cfg) (htons 20) IP_FLAG_DF DEFAULT_TTL 0 0 0 0) IPHDR_LEN.

Definition mbuf_data_push_ip (cfg : config) (port : netif_port) : MD :=
  ipv6 ← st_gets md_ipv6;
  if (ipv6 : bool) then mbuf_data_push_ipv6 cfg port else mbuf_data_push_ipv4 cfg.

Definition mbuf_data_push_tcp : MD :=
  st_modify (fun d => d <| md_l4_len := TCPHDR_LEN |>);;
  ret ← mbuf_data_push (tcphdr_bytes 5 (htons TCP_WIN)) TCPHDR_LEN;
  if negb (ret =? 0) then mret (-1)
  else
    mbuf_data_ip_set_proto IPPROTO_TCP;;
    l4_len ← st_gets md_l4_len;
    mbuf_data_ip_tot_len_add l4_len;;
    mret 0.

Definition mbuf_data_push_tcp_opt (data : list Z) (len : Z) : MD :=
  if negb (Z.rem len 4 =? 0) then mret (-1)
  else
    th ← st_gets mbuf_data_tcphdr;
    x ← md_load (fun b => ld8 b (th + th_off));
    md_store (st8 (th + th_off) ((((x >>> 4) + 1) mod 16) * 16 + (x &&& 15)));;
    st_modify (fun d => d <| md_l4_len ::= fun l => u16 (l + len) |>);;
    ret ← mbuf_data_push data len;
    if negb (ret =? 0) then mret (-1)
    else mbuf_data_ip_tot_len_add len;; mret 0.

Definition mbuf_data_push_tcp_mss (mss : Z) : MD :=
  if mss =? 0 then mret 0 else mbuf_data_push_tcp_opt ([2; 4] ++ le16 (htons mss)) 4.

Definition mbuf_data_push_tcp_wscale : MD := mbuf_data_push_tcp_opt [1; 3; 3; DEFAULT_WSCALE] 4.

Definition mbuf_data_push_udp : MD :=
  st_modify (fun d => d <| md_l4_len := UDPHDR_LEN |>);;
  mbuf_data_ip_set_proto IPPROTO_UDP;;
  l4_len ← st_gets md_l4_len;
  mbuf_data_ip_tot_len_add l4_len;;
  mbuf_data_push (udphdr_bytes 0 0 (htons UDPHDR_LEN) 0) UDPHDR_LEN.

(** [data] is a C string, or the null pointer. *)
Definition mbuf_data_push_data (data : option (list Z)) : MD :=
  match data with
  | None => mret 0
  | Some data =>
      let len := u16 (strlen data) in
      if len =? 0 then mret 0
      else
        ret ← mbuf_data_push data len;
        if negb (ret =? 0) then mret (-1)
        else
          st_modify (fun d => d <| md_data_len := len |>);;
          mbuf_data_ip_tot_len_add len;;
          mret 0
  end.

(** ** VXLAN *)

Section Template.
Context {D : Dpdk}.
(** [rte_pktmbuf_pool_create]: whether the pool of this name exists after the call. *)
Context (rte_pktmbuf_pool_create : string -> Z -> Z -> bool).

Definition vxlan_set_innter_eth_hdr (vx : vxlan) : ST mbuf_data unit :=
  md_store (st_bytes 0 (vx_inner_dmac vx));;
  md_store (st_bytes 6 (vx_inner_smac vx)).

(** [vxlan_set_eth_hdr]. *)
Definition vxlan_eth_hdr (port : netif_port) : list Z :=
  eth_hdr_bytes (np_gateway_mac port) (np_local_mac port) ETHER_TYPE_IPv4.

(** [vxlan_set_iphdr]; [None] is the division by zero of an empty range. *)
Definition vxlan_iphdr (cfg : config) (queue_id : Z) (vx : vxlan) (inner_len : Z) : option (list Z) :=
  saddr ← ip_range_get (vx_vtep_local vx) queue_id;
  daddr ← (if 1 <? num (vx_vtep_remote vx) then ip_range_get (vx_vtep_remote vx) queue_id
           else ip_range_get (vx_vtep_remote vx) 0);
  let tot_len := u16 (20 + 8 + 8 + inner_len) in
  let hdr check := iphdr_bytes (c_tos cfg) (htons tot_len) IP_FLAG_DF DEFAULT_TTL IPPROTO_UDP check saddr daddr in
  Some (hdr (rte_ipv4_cksum (hdr 0))).

(** [vxlan_set_udphdr]. *)
Definition vxlan_udphdr (inner_len : Z) : list Z :=
  udphdr_bytes 0 (htons VXLAN_PORT) (htons (u16 (8 + 8 + inner_len))) 0.

Definition vxlan_push_headers (vxhs : list Z) : MD :=
  total_len ← st_gets md_total_len;
  if MBUF_DATA_SIZE <? total_len + VXLAN_HEADERS_SIZE then mret (-1)
  else
    st_modify (fun d => d <| md_data ::= fun b => vxhs ++ b |>
                          <| md_total_len := u16 (total_len + VXLAN_HEADERS_SIZE) |> <| md_vxlan := true |>);;
    mret 0.

Definition vxlan_encapsulate (cfg : config) (port : netif_port) (queue_id : Z) : MD :=
  vx ← st_lift OutOfBounds (np_vxlan port);
  inner_len ← st_gets md_total_len;
  vxlan_set_innter_eth_hdr vx;;
  iph ← st_lift DivByZero (vxlan_iphdr cfg queue_id vx inner_len);
  vxlan_push_headers (vxlan_eth_hdr port ++ iph ++ vxlan_udphdr inner_len
                      ++ vxlan_header_bytes 8 (VXLAN_HTON (vx_vni vx))).

(** ** The two kinds of templates *)

(** [mbuf_cache_init] up to the copy into the cache, which is the final state. *)
Definition mbuf_cache_init (cfg : config) (port : netif_port) (queue_id : Z) (name : string) : MD :=
  or_fail (if c_vxlan cfg then vxlan_encapsulate cfg port queue_id else mret 0)
    (if rte_pktmbuf_pool_create name (np_id port) queue_id then mret 0 else mret (-1)).

Definition mbuf_cache_build_tcp (cfg : config) (port : netif_port) (queue_id : Z) (name : string) (mss : Z)
  (data : option (list Z)) : MD :=
  or_fail (mbuf_data_push_l2 port)
  (or_fail (mbuf_data_push_ip cfg port)
  (or_fail mbuf_data_push_tcp
  (or_fail (if 0 <? mss then or_fail (mbuf_data_push_tcp_mss mss) mbuf_data_push_tcp_wscale else mret 0)
  (or_fail (mbuf_data_push_data data)
  (mbuf_cache_init cfg port queue_id name))))).

Definition mbuf_cache_build_udp (cfg : config) (port : netif_port) (queue_id : Z) (name : string)
  (data : option (list Z)) : MD :=
  or_fail (mbuf_data_push_l2 port)
  (or_fail (mbuf_data_push_ip cfg port)
  (or_fail mbuf_data_push_udp
  (or_fail (mbuf_data_push_data data)
  (uh ← st_gets mbuf_data_tcphdr;
   l4_len ← st_gets md_l4_len; data_len ← st_gets md_data_len;
   md_store (st16 (uh + uh_len) (htons (u16 (l4_len + data_len))));;
   mbuf_cache_init cfg port queue_id name)))).

(** The caller's template changes only when the call succeeds. *)
Definition set_cache (c : cache_id) (d : mbuf_data) (ws : work_space) : work_space :=
  match c with
  | Cache_tcp => ws <| ws_tcp := d |>
  | Cache_tcp_opt => ws <| ws_tcp_opt := d |>
  | Cache_tcp_data => ws <| ws_tcp_data := d |>
  end.
Definition mbuf_cache_finish (c : cache_id) (build : work_space -> config -> MD) : M Z :=
  ws ← ws_get id; cfg ← cfg_get id;
  match build ws cfg (mbuf_data_zero <| md_ipv6 := ws_ipv6 ws |>) with
  | Err e => st_fail e
  | Ok (ret, d) => if ret <? 0 then mret (-1) else ws_mod (set_cache c d);; mret 0
  end.

Definition mbuf_cache_init_tcp (c : cache_id) (name : string) (mss : Z) (data : option (list Z)) : M Z :=
  mbuf_cache_finish c (fun ws cfg => mbuf_cache_build_tcp cfg (ws_port ws) (ws_queue_id ws) name mss data).

Definition mbuf_cache_init_udp (c : cache_id) (name : string) (data : option (list Z)) : M Z :=
  mbuf_cache_finish c (fun ws cfg => mbuf_cache_build_udp cfg (ws_port ws) (ws_queue_id ws) name data).

(** [tcp_init] and [udp_init]: [request], [response] and [datagram] are the
    texts of the worker; the choice of the loop is [run_loop] of Loop. *)
Definition tcp_init (request response : list Z) : M Z :=
  cfg ← cfg_get id;
  if negb (c_protocol cfg =? IPPROTO_TCP) then mret 0
  else
    let data := if c_server cfg then response else request in
    ret ← mbuf_cache_init_tcp Cache_tcp "tcp" 0 None;
    if ret <? 0 then mret (-1)
    else
      ret ← mbuf_cache_init_tcp Cache_tcp_opt "tcp_opt" (c_mss cfg) None;
      if ret <? 0 then mret (-1)
      else
        ret ← mbuf_cache_init_tcp Cache_tcp_data "tcp_data" 0 (Some data);
        if ret <? 0 then mret (-1) else mret 0.

Definition udp_init (datagram : list Z) : M Z :=
  cfg ← cfg_get id;
  if negb (c_protocol cfg =? IPPROTO_UDP) then mret 0
  else mbuf_cache_init_udp Cache_tcp "udp" (Some datagram).
End Template.

(** ** The frames that the templates are *)

Section Frames.
Implicit Types (cfg : config) (port : netif_port) (data : list Z).

(** The IP header in front of [len] bytes of transport header and data. *)
Definition ip_frame cfg port (ipv6 : bool) (proto len : Z) : list Z :=
  if ipv6 then
    let client := start (np_client_ip_range port) in
    let server := start (np_server_ip_range port) in
    ip6_hdr_bytes (96 ||| htonl (u32 (c_tos cfg <<< 20))) (htons len) proto DEFAULT_TTL
      (if c_server cfg then server else client) (if c_server cfg then client else server)
  else iphdr_bytes (c_tos cfg) (htons (20 + len)) IP_FLAG_DF DEFAULT_TTL proto 0 0 0.
Definition eth_type_of (ipv6 : bool) : Z := if ipv6 then ETHER_TYPE_IPv6 else ETHER_TYPE_IPv4.
Definition l3_len_of (ipv6 : bool) : Z := if ipv6 then IP6_HDR_LEN else IPHDR_LEN.

(** A frame without encapsulation, between two Ethernet addresses. *)
Definition frame_bytes cfg port (ipv6 : bool) (d_addr s_addr : eth_addr) (proto : Z) (l4 : list Z) data : list Z :=
  eth_hdr_bytes d_addr s_addr (eth_type_of ipv6)
  ++ ip_frame cfg port ipv6 proto (strlen l4 + strlen data) ++ l4 ++ data.
Definition frame cfg port (ipv6 : bool) (proto : Z) (l4 : list Z) data : mbuf_data :=
  MbufData (frame_bytes cfg port ipv6 (np_gateway_mac port) (np_local_mac port) proto l4 data) ipv6 false
    ETH_HDR_LEN (l3_len_of ipv6) (strlen l4) (strlen data)
    (ETH_HDR_LEN + l3_len_of ipv6 + strlen l4 + strlen data).

(** The TCP header with the options of a SYN. *)
Definition tcp_options (mss : Z) : list Z :=
  if 0 <? mss then [2; 4] ++ le16 (htons mss) ++ [1; 3; 3; DEFAULT_WSCALE] else [].
Definition tcp_header (opts : list Z) : list Z := tcphdr_bytes (5 + strlen opts / 4) (htons TCP_WIN) ++ opts.
Definition udp_header data : list Z := udphdr_bytes 0 0 (htons (8 + strlen data)) 0.
End Frames.

(** ** Stores in the middle of the data *)

Lemma aset_mid {A} (l : list A) x r p v : p = Z.of_nat (length l) -> aset (l ++ x :: r) p v = Some (l ++ v :: r).
Proof.
  intros ->. rewrite aset_some by (rewrite length_app; cbn [length]; lia).
  by rewrite Nat2Z.id, insert_app_r_alt, Nat.sub_diag by lia.
Qed.
Lemma aget_mid {A} (l : list A) x r p : p = Z.of_nat (length l) -> aget (l ++ x :: r) p = Some x.
Proof.
  intros ->. unfold aget. destruct (Z.leb_spec 0 (Z.of_nat (length l))); [|lia].
  by rewrite Nat2Z.id, list_lookup_middle.
Qed.

Lemma st8_mid l x r p v : p = strlen l -> st8 p v (l ++ x :: r) = Some (l ++ v mod 256 :: r).
Proof. apply aset_mid. Qed.
Lemma st16_mid l x y r p v : p = strlen l -> st16 p v (l ++ x :: y :: r) = Some (l ++ le16 v ++ r).
Proof.
  intros Hp. unfold st16. rewrite st8_mid by done. cbn [mbind option_bind].
  change (l ++ v mod 256 :: y :: r) with (l ++ [v mod 256] ++ y :: r). rewrite app_assoc.
  rewrite st8_mid by (unfold strlen in *; rewrite length_app; cbn [length]; lia).
  by rewrite <- app_assoc.
Qed.
Lemma ld16_mid l v r p : p = strlen l -> in_u 16 v -> ld16 (l ++ le16 v ++ r) p = Some v.
Proof.
  intros Hp [H1 H2]. unfold ld16, le16. cbn [app]. rewrite (aget_mid l _ _ p Hp). cbn [mbind option_bind].
  change (l ++ v mod 256 :: v / 256 mod 256 :: r) with (l ++ [v mod 256] ++ v / 256 mod 256 :: r). rewrite app_assoc.
  rewrite aget_mid by (unfold strlen in *; rewrite length_app; cbn [length]; lia).
  cbn [mbind option_bind]. f_equal. change (2 ^ 16) with 65536 in H2. Z.to_euclidean_division_equations. lia.
Qed.
Lemma ld8_mid l x r p : p = strlen l -> ld8 (l ++ x :: r) p = Some x.
Proof. apply aget_mid. Qed.
Lemma st_bytes_mid l m m' r p : p = strlen l -> length m = length m' -> st_bytes p m' (l ++ m ++ r) = Some (l ++ m' ++ r).
Proof.
  intros -> Hm. unfold st_bytes, strlen. rewrite !length_app.
  destruct (Z.leb_spec 0 (Z.of_nat (length l))), (Z.leb_spec (Z.of_nat (length l) + Z.of_nat (length m'))
    (Z.of_nat (length l + (length m + length r)))); try lia.
  cbn [andb]. rewrite Nat2Z.id, take_app_length, <- Hm, <- length_app. by rewrite (app_assoc l m r), drop_app_length.
Qed.

(** ** The steps *)

Lemma st_bind_ok {S A B} (m : ST S A) (k : A -> ST S B) s a s' : m s = Ok (a, s') -> (m ≫= k) s = k a s'.
Proof. unfold mbind, ST_bind. by intros ->. Qed.
Lemma or_fail_ok m k d d' : m d = Ok (0, d') -> or_fail m k d = k d'.
Proof. intros E. unfold or_fail. by rewrite (st_bind_ok _ _ _ _ _ E). Qed.
Lemma md_store_ok f d b : f (md_data d) = Some b -> md_store f d = Ok (tt, d <| md_data := b |>).
Proof. unfold md_store, mbind, ST_bind, st_gets, st_lift, st_modify. by intros ->. Qed.
Lemma md_load_ok f d v : f (md_data d) = Some v -> md_load f d = Ok (v, d).
Proof. unfold md_load, mbind, ST_bind, st_gets, st_lift. by intros ->. Qed.

Lemma mbuf_data_push_ok data len d : len = strlen data -> md_total_len d + len <= MBUF_DATA_SIZE -> 0 <= md_total_len d ->
  mbuf_data_push data len d =
    Ok (0, d <| md_data ::= fun b => b ++ data |> <| md_total_len := md_total_len d + len |>).
Proof.
  intros -> Hl H0. unfold mbuf_data_push, mbind, ST_bind, st_gets.
  destruct (Z.ltb_spec MBUF_DATA_SIZE (md_total_len d + strlen data)); [lia|].
  unfold st_modify. rewrite take_ge by (unfold strlen; lia).
  unfold mret, ST_ret. do 2 f_equal. destruct d; unfold set_field; simpl in *. f_equal.
  apply wrap_small. unfold in_u, MBUF_DATA_SIZE, strlen in *. lia.
Qed.

Section Steps.
Context (cfg : config) (port : netif_port) (ipv6 : bool).
Context (Hgw : length (np_gateway_mac port) = 6%nat) (Hlocal : length (np_local_mac port) = 6%nat).

(** A template under construction: [rest] behind an IP header that counts
    [len] bytes. *)
Definition staged (proto len : Z) (rest : list Z) (l4_len data_len : Z) : mbuf_data :=
  MbufData (eth_hdr_bytes (np_gateway_mac port) (np_local_mac port) (eth_type_of ipv6)
            ++ ip_frame cfg port ipv6 proto len ++ rest)
    ipv6 false ETH_HDR_LEN (l3_len_of ipv6) l4_len data_len (ETH_HDR_LEN + l3_len_of ipv6 + strlen rest).

Lemma frame_staged proto l4 data :
  frame cfg port ipv6 proto l4 data = staged proto (strlen l4 + strlen data) (l4 ++ data) (strlen l4) (strlen data).
Proof using Type. clear Hgw Hlocal. unfold frame, staged, frame_bytes. f_equal. rewrite strlen_app_list. lia. Qed.

Lemma eth_hdr_length type : length (eth_hdr_bytes (np_gateway_mac port) (np_local_mac port) type) = 14%nat.
Proof using Hgw Hlocal. unfold eth_hdr_bytes. by rewrite !length_app, Hgw, Hlocal. Qed.

Lemma ip_frame_length v6 proto len : strlen (ip_frame cfg port v6 proto len) = l3_len_of v6.
Proof. by destruct v6. Qed.

Lemma push_l2_ok :
  mbuf_data_push_l2 port (mbuf_data_zero <| md_ipv6 := ipv6 |>) =
    Ok (0, MbufData (eth_hdr_bytes (np_gateway_mac port) (np_local_mac port) (eth_type_of ipv6))
             ipv6 false ETH_HDR_LEN 0 0 0 ETH_HDR_LEN).
Proof using Hgw Hlocal.
  unfold mbuf_data_push_l2. erewrite st_bind_ok by reflexivity. erewrite st_bind_ok by reflexivity.
  rewrite mbuf_data_push_ok; [by destruct ipv6| |by vm_compute|by vm_compute].
  unfold strlen. by rewrite eth_hdr_length.
Qed.

Lemma push_ip_ok :
  mbuf_data_push_ip cfg port
    (MbufData (eth_hdr_bytes (np_gateway_mac port) (np_local_mac port) (eth_type_of ipv6))
       ipv6 false ETH_HDR_LEN 0 0 0 ETH_HDR_LEN) = Ok (0, staged 0 0 [] 0 0).
Proof using Type.
  unfold mbuf_data_push_ip. erewrite st_bind_ok by reflexivity. cbn [md_ipv6].
  unfold mbuf_data_push_ipv6, mbuf_data_push_ipv4, staged, ip_frame.
  destruct ipv6; [destruct (c_server cfg)|]; (erewrite st_bind_ok by reflexivity);
    (rewrite mbuf_data_push_ok; [reflexivity|reflexivity|by vm_compute|by vm_compute]).
Qed.

(** The bytes before a field of the IP header. *)
Lemma strlen_eth type l : strlen (eth_hdr_bytes (np_gateway_mac port) (np_local_mac port) type ++ l) = 14 + strlen l.
Proof using Hgw Hlocal. unfold strlen. rewrite length_app, eth_hdr_length. lia. Qed.

(** The IP header around its protocol and around its length. *)
Lemma ip_frame_proto len rest : exists a b, strlen a = (if ipv6 then ip6_nxt else iph_protocol)
  /\ forall proto, ip_frame cfg port ipv6 proto len ++ rest = a ++ proto :: b.
Proof using Type.
  unfold ip_frame. destruct ipv6.
  - by eexists (_ :: _ :: _ :: _ :: _ :: [_]), _.
  - by eexists (_ :: _ :: _ :: _ :: _ :: _ :: _ :: _ :: [_]), _.
Qed.
Lemma ip_frame_len proto rest : exists a b, strlen a = (if ipv6 then ip6_plen else iph_tot_len)
  /\ forall len, ip_frame cfg port ipv6 proto len ++ rest = a ++ le16 (htons ((if ipv6 then 0 else 20) + len)) ++ b.
Proof using Type.
  unfold ip_frame. destruct ipv6.
  - by eexists (_ :: _ :: _ :: [_]), _.
  - by eexists (_ :: [_]), _.
Qed.

Lemma ip_set_proto_ok proto proto' len rest a b : in_u 8 proto' ->
  mbuf_data_ip_set_proto proto' (staged proto len rest a b) = Ok (tt, staged proto' len rest a b).
Proof using Hgw Hlocal.
  intros Hp. unfold mbuf_data_ip_set_proto. erewrite st_bind_ok by reflexivity. erewrite st_bind_ok by reflexivity.
  destruct (ip_frame_proto len rest) as (x & y & Hx & E).
  rewrite (md_store_ok _ _ (md_data (staged proto' len rest a b))); [done|].
  cbn [md_ipv6 staged md_data mbuf_data_iphdr md_l2_len]. rewrite !E, !app_assoc.
  rewrite st8_mid by (by rewrite strlen_eth, Hx). by rewrite Z.mod_small.
Qed.

Lemma tot_len_add_ok proto len n rest a b : 0 <= len -> 0 <= n -> 20 + len + n < 65536 ->
  mbuf_data_ip_tot_len_add n (staged proto len rest a b) = Ok (tt, staged proto (len + n) rest a b).
Proof using Hgw Hlocal.
  intros Hlen Hn Hmax. unfold mbuf_data_ip_tot_len_add.
  erewrite st_bind_ok by reflexivity. erewrite st_bind_ok by reflexivity.
  destruct (ip_frame_len proto rest) as (x & y & Hx & E). set (h := if ipv6 then 0 else 20) in E.
  assert (0 <= h <= 20) as Hh by (unfold h; destruct ipv6; lia).
  rewrite (st_bind_ok _ _ _ (htons (h + len)) (staged proto len rest a b)).
  - rewrite (md_store_ok _ _ (md_data (staged proto (len + n) rest a b))); [done|].
    cbn [md_ipv6 staged md_data mbuf_data_iphdr md_l2_len]. rewrite !E, !app_assoc, <- !(app_assoc _ _ y).
    unfold le16 at 1. cbn [app]. rewrite st16_mid by (by rewrite strlen_eth, Hx).
    rewrite bswap16_involutive by (split; [|change (2 ^ 16) with 65536]; lia).
    rewrite wrap_small by (split; [|change (2 ^ 16) with 65536]; lia). by rewrite Z.add_assoc.
  - apply md_load_ok. cbn [md_ipv6 staged md_data mbuf_data_iphdr md_l2_len]. rewrite !E, !app_assoc, <- !(app_assoc _ _ y).
    apply ld16_mid; [by rewrite strlen_eth, Hx|apply bswap16_range].
Qed.

Lemma l3_len_range : 20 <= l3_len_of ipv6 <= 40.
Proof using Type. by destruct ipv6. Qed.

Lemma push_staged proto len rest more n a b :
  n = strlen more -> ETH_HDR_LEN + l3_len_of ipv6 + strlen rest + n <= MBUF_DATA_SIZE ->
  mbuf_data_push more n (staged proto len rest a b) = Ok (0, staged proto len (rest ++ more) a b).
Proof using Hgw Hlocal.
  intros -> Hn. pose proof l3_len_range. unfold ETH_HDR_LEN, strlen in *.
  rewrite mbuf_data_push_ok; [|done|unfold staged, ETH_HDR_LEN, strlen in *; cbn [md_total_len]; lia..].
  unfold staged, set_field. cbn. do 3 f_equal; [by rewrite <- !app_assoc|].
  unfold strlen. rewrite length_app. lia.
Qed.

Lemma push_tcp_ok :
  mbuf_data_push_tcp (staged 0 0 [] 0 0) = Ok (0, staged IPPROTO_TCP 20 (tcp_header []) 20 0).
Proof using Hgw Hlocal.
  unfold mbuf_data_push_tcp. erewrite st_bind_ok by reflexivity.
  change (mbuf_data_push _ _ ≫= ?k) with (mbuf_data_push (tcphdr_bytes 5 (htons TCP_WIN)) TCPHDR_LEN ≫= k).
  rewrite (st_bind_ok _ _ _ 0 (staged 0 0 (tcp_header []) 20 0)); 
    [|apply (push_staged 0 0 [] _ 20 20 0); [done|by destruct ipv6]].
  change (negb (0 =? 0)) with false. cbv iota.
  rewrite (st_bind_ok _ _ _ tt (staged IPPROTO_TCP 0 (tcp_header []) 20 0)); [|by apply ip_set_proto_ok].
  erewrite st_bind_ok by reflexivity.
  by rewrite (st_bind_ok _ _ _ tt (staged IPPROTO_TCP 20 (tcp_header []) 20 0)); [|by apply tot_len_add_ok].
Qed.

(** One option of four bytes. *)
Lemma push_tcp_opt_ok opt opts off : off = 5 \/ off = 6 -> strlen opt = 4 -> strlen opts <= 4 ->
  mbuf_data_push_tcp_opt opt 4 (staged IPPROTO_TCP (20 + strlen opts) (tcphdr_bytes off (htons TCP_WIN) ++ opts) (20 + strlen opts) 0)
  = Ok (0, staged IPPROTO_TCP (20 + strlen (opts ++ opt)) (tcphdr_bytes (off + 1) (htons TCP_WIN) ++ opts ++ opt)
             (20 + strlen (opts ++ opt)) 0).
Proof using Hgw Hlocal.
  intros Hoff Hopt Hopts. unfold mbuf_data_push_tcp_opt. change (negb (Z.rem 4 4 =? 0)) with false. cbv iota.
  assert (0 <= strlen opts) by (unfold strlen; lia). rewrite strlen_app_list, Hopt.
  erewrite st_bind_ok by reflexivity. set (n := 20 + strlen opts).
  assert (forall o, md_data (staged IPPROTO_TCP n (tcphdr_bytes o (htons TCP_WIN) ++ opts) n 0) =
    ((eth_hdr_bytes (np_gateway_mac port) (np_local_mac port) (eth_type_of ipv6)
      ++ ip_frame cfg port ipv6 IPPROTO_TCP n) ++ replicate 12 0) ++ (o * 16) :: 0 :: le16 (htons TCP_WIN) ++ [0; 0; 0; 0] ++ opts) as E
    by (intros o; by rewrite <- !app_assoc).
  assert (mbuf_data_tcphdr (staged IPPROTO_TCP n (tcphdr_bytes off (htons TCP_WIN) ++ opts) n 0) + th_off =
    strlen ((eth_hdr_bytes (np_gateway_mac port) (np_local_mac port) (eth_type_of ipv6)
      ++ ip_frame cfg port ipv6 IPPROTO_TCP n) ++ replicate 12 0)) as Eth.
  { rewrite strlen_app_list, strlen_eth, ip_frame_length. unfold mbuf_data_tcphdr, staged. cbn [md_l2_len md_l3_len]. by destruct ipv6. }
  rewrite (st_bind_ok _ _ _ (off * 16) (staged IPPROTO_TCP n (tcphdr_bytes off (htons TCP_WIN) ++ opts) n 0));
    [|apply md_load_ok; rewrite E; by apply ld8_mid].
  rewrite (st_bind_ok _ _ _ tt (staged IPPROTO_TCP n (tcphdr_bytes (off + 1) (htons TCP_WIN) ++ opts) n 0));
    [|rewrite (md_store_ok _ _ (md_data (staged IPPROTO_TCP n (tcphdr_bytes (off + 1) (htons TCP_WIN) ++ opts) n 0)));
      [done|]; rewrite !E, st8_mid by done; by destruct Hoff as [-> | ->]].
  rewrite (st_bind_ok _ _ _ tt (staged IPPROTO_TCP n (tcphdr_bytes (off + 1) (htons TCP_WIN) ++ opts) (n + 4) 0));
    [|unfold st_modify, set_field, staged; cbn; by rewrite wrap_small by (unfold n; split; [|change (2 ^ 16) with 65536]; lia)].
  rewrite (st_bind_ok _ _ _ 0 (staged IPPROTO_TCP n (tcphdr_bytes (off + 1) (htons TCP_WIN) ++ opts ++ opt) (n + 4) 0));
    [|rewrite push_staged, <- app_assoc; [done|done|rewrite strlen_app_list; change (strlen (tcphdr_bytes _ _)) with 20;
      pose proof l3_len_range; unfold MBUF_DATA_SIZE, ETH_HDR_LEN; lia]].
  change (negb (0 =? 0)) with false. cbv iota.
  rewrite (st_bind_ok _ _ _ tt (staged IPPROTO_TCP (n + 4) (tcphdr_bytes (off + 1) (htons TCP_WIN) ++ opts ++ opt) (n + 4) 0));
    [|apply tot_len_add_ok; unfold n; lia].
  unfold n. by rewrite Z.add_assoc.
Qed.

(** The options of a SYN, if the maximum segment size is not zero. *)
Lemma push_options_ok mss :
  (if 0 <? mss then or_fail (mbuf_data_push_tcp_mss mss) mbuf_data_push_tcp_wscale else mret 0)
    (staged IPPROTO_TCP 20 (tcp_header []) 20 0)
  = Ok (0, staged IPPROTO_TCP (strlen (tcp_header (tcp_options mss))) (tcp_header (tcp_options mss))
             (strlen (tcp_header (tcp_options mss))) 0).
Proof using Hgw Hlocal.
  unfold tcp_options. destruct (Z.ltb_spec 0 mss); [|done].
  pose proof (push_tcp_opt_ok ([2; 4] ++ le16 (htons mss)) [] 5 ltac:(by left) eq_refl ltac:(by vm_compute)) as E1.
  pose proof (push_tcp_opt_ok [1; 3; 3; DEFAULT_WSCALE] ([2; 4] ++ le16 (htons mss)) 6 ltac:(by right) eq_refl
    ltac:(by vm_compute)) as E2.
  unfold mbuf_data_push_tcp_mss. destruct (Z.eqb_spec mss 0); [lia|].
  erewrite or_fail_ok; [|exact E1]. exact E2.
Qed.

Lemma push_data_ok proto l4 data :
  strlen data <= 65535 -> ETH_HDR_LEN + l3_len_of ipv6 + strlen l4 + strlen data <= MBUF_DATA_SIZE ->
  mbuf_data_push_data (Some data) (staged proto (strlen l4) l4 (strlen l4) 0) = Ok (0, frame cfg port ipv6 proto l4 data).
Proof using Hgw Hlocal.
  intros Hd Hfit. rewrite frame_staged. unfold mbuf_data_push_data.
  assert (0 <= strlen data /\ 0 <= strlen l4) as [H1 H2] by (unfold strlen; lia).
  rewrite wrap_small by (split; [|change (2 ^ 16) with 65536]; lia). destruct (Z.eqb_spec (strlen data) 0) as [E|E].
  - rewrite E. destruct data; [|unfold strlen in E; cbn [length] in E; lia]. by rewrite Z.add_0_r, app_nil_r.
  - rewrite (st_bind_ok _ _ _ 0 (staged proto (strlen l4) (l4 ++ data) (strlen l4) 0)); [|apply push_staged; [done|lia]].
    change (negb (0 =? 0)) with false. cbv iota.
    rewrite (st_bind_ok _ _ _ tt (staged proto (strlen l4) (l4 ++ data) (strlen l4) (strlen data))); [|done].
    rewrite (st_bind_ok _ _ _ tt (staged proto (strlen l4 + strlen data) (l4 ++ data) (strlen l4) (strlen data)));
      [done|apply tot_len_add_ok; [lia..|pose proof l3_len_range; unfold MBUF_DATA_SIZE, ETH_HDR_LEN in Hfit; lia]].
Qed.

Lemma push_udp_ok :
  mbuf_data_push_udp (staged 0 0 [] 0 0) = Ok (0, staged IPPROTO_UDP 8 (udp_header []) 8 0).
Proof using Hgw Hlocal.
  unfold mbuf_data_push_udp. erewrite st_bind_ok by reflexivity.
  rewrite (st_bind_ok _ _ _ tt (staged IPPROTO_UDP 0 [] 8 0)); [|by apply ip_set_proto_ok].
  erewrite st_bind_ok by reflexivity.
  rewrite (st_bind_ok _ _ _ tt (staged IPPROTO_UDP 8 [] 8 0)); [|by apply tot_len_add_ok].
  rewrite push_staged; [done|done|by destruct ipv6].
Qed.

(** A text that does not fit behind the headers. *)
Lemma push_data_fail proto l4 data :
  strlen data <= 65535 -> 0 < strlen data -> MBUF_DATA_SIZE < ETH_HDR_LEN + l3_len_of ipv6 + strlen l4 + strlen data ->
  exists d, mbuf_data_push_data (Some data) (staged proto (strlen l4) l4 (strlen l4) 0) = Ok (-1, d).
Proof using Type.
  clear Hgw Hlocal. intros Hd Hpos Hfit. unfold mbuf_data_push_data.
  rewrite wrap_small by (split; [|change (2 ^ 16) with 65536]; lia). destruct (Z.eqb_spec (strlen data) 0); [lia|].
  eexists. rewrite (st_bind_ok _ _ _ (-1) (staged proto (strlen l4) l4 (strlen l4) 0)); [done|].
  unfold mbuf_data_push, mbind, ST_bind, st_gets. cbn [staged md_total_len].
  destruct (Z.ltb_spec MBUF_DATA_SIZE (ETH_HDR_LEN + l3_len_of ipv6 + strlen l4 + strlen data)); [done|lia].
Qed.

(** The length that the UDP header counts is set last. *)
Lemma set_uh_len_ok data n : 0 <= n < 65536 ->
  md_store (st16 (mbuf_data_tcphdr (frame cfg port ipv6 IPPROTO_UDP (udp_header []) data) + uh_len) (htons n))
    (frame cfg port ipv6 IPPROTO_UDP (udp_header []) data)
  = Ok (tt, frame cfg port ipv6 IPPROTO_UDP (udphdr_bytes 0 0 (htons n) 0) data).
Proof using Hgw Hlocal.
  intros Hn. rewrite (md_store_ok _ _ (md_data (frame cfg port ipv6 IPPROTO_UDP (udphdr_bytes 0 0 (htons n) 0) data))); [done|].
  unfold frame, frame_bytes. cbn [md_data]. rewrite !(app_assoc (eth_hdr_bytes _ _ _)).
  change (strlen (udphdr_bytes 0 0 (htons n) 0)) with (strlen (udp_header [])).
  set (x := eth_hdr_bytes _ _ _ ++ ip_frame _ _ _ _ _).
  change (x ++ udp_header [] ++ data) with (x ++ [0; 0; 0; 0] ++ 0 :: 8 :: 0 :: 0 :: data).
  change (x ++ udphdr_bytes 0 0 (htons n) 0 ++ data) with (x ++ [0; 0; 0; 0] ++ le16 (htons n) ++ 0 :: 0 :: data).
  rewrite !(app_assoc x). apply st16_mid. unfold x. rewrite strlen_app_list, strlen_eth, ip_frame_length. by destruct ipv6.
Qed.
End Steps.

(** ** Whole templates *)

Section Whole.
Context {D : Dpdk}.
Context (rte_pktmbuf_pool_create : string -> Z -> Z -> bool).
Context (cfg : config) (port : netif_port) (queue_id : Z) (ipv6 : bool).

(** The length of a frame, and the template with its encapsulation. *)
Definition frame_len (l4_len data_len : Z) : Z := ETH_HDR_LEN + l3_len_of ipv6 + l4_len + data_len.
Definition template_len (l4_len data_len : Z) : Z :=
  (if c_vxlan cfg then VXLAN_HEADERS_SIZE else 0) + frame_len l4_len data_len.

Definition template (proto : Z) (l4 data : list Z) : option mbuf_data :=
  if c_vxlan cfg then
    vx ← np_vxlan port;
    let inner_len := frame_len (strlen l4) (strlen data) in
    iph ← vxlan_iphdr cfg queue_id vx inner_len;
    Some (MbufData
      ((vxlan_eth_hdr port ++ iph ++ vxlan_udphdr inner_len ++ vxlan_header_bytes 8 (VXLAN_HTON (vx_vni vx)))
       ++ frame_bytes cfg port ipv6 (vx_inner_dmac vx) (vx_inner_smac vx) proto l4 data)
      ipv6 true ETH_HDR_LEN (l3_len_of ipv6) (strlen l4) (strlen data) (template_len (strlen l4) (strlen data)))
  else Some (frame cfg port ipv6 proto l4 data).

(** What start-up guarantees: addresses of six bytes, and tunnel endpoints
    for a configuration with VXLAN. *)
Record tunnel_ok (vx : vxlan) : Prop := {
  tn_dmac : length (vx_inner_dmac vx) = 6%nat;
  tn_smac : length (vx_inner_smac vx) = 6%nat;
  tn_hdr : forall inner_len, is_Some (vxlan_iphdr cfg queue_id vx inner_len);
}.
Record link_ok : Prop := {
  lk_gateway : length (np_gateway_mac port) = 6%nat;
  lk_local : length (np_local_mac port) = 6%nat;
  lk_tunnel : c_vxlan cfg = true -> exists vx, np_vxlan port = Some vx /\ tunnel_ok vx;
}.
Context (Hlink : link_ok).

(** A call that returns [ret], with the template when it succeeds. *)
Definition returns (m : MD) (d : mbuf_data) (ret : Z) (o : option mbuf_data) : Prop :=
  exists d', m d = Ok (ret, d') /\ (ret = 0 -> o = Some d').

Lemma encapsulate_ok proto l4 data :
  0 <= frame_len (strlen l4) (strlen data) <= MBUF_DATA_SIZE -> c_vxlan cfg = true ->
  returns (vxlan_encapsulate cfg port queue_id) (frame cfg port ipv6 proto l4 data)
    (if template_len (strlen l4) (strlen data) <=? MBUF_DATA_SIZE then 0 else -1) (template proto l4 data).
Proof using Hlink.
  intros Hlen Hvx. destruct (lk_tunnel Hlink Hvx) as (vx & Hp & Ht). unfold returns, template, vxlan_encapsulate.
  rewrite Hvx, Hp. cbn [mbind option_bind].
  destruct (tn_hdr _ Ht (frame_len (strlen l4) (strlen data))) as [iph Hi]. rewrite Hi. cbn [mbind option_bind].
  rewrite (st_bind_ok _ _ _ vx (frame cfg port ipv6 proto l4 data)) by done.
  rewrite (st_bind_ok _ _ _ (frame_len (strlen l4) (strlen data)) (frame cfg port ipv6 proto l4 data)) by done.
  set (fr := frame_bytes cfg port ipv6 (vx_inner_dmac vx) (vx_inner_smac vx) proto l4 data).
  rewrite (st_bind_ok _ _ _ tt ((frame cfg port ipv6 proto l4 data) <| md_data := fr |>)).
  2: { unfold vxlan_set_innter_eth_hdr, fr.
       rewrite (st_bind_ok _ _ _ tt ((frame cfg port ipv6 proto l4 data)
         <| md_data := frame_bytes cfg port ipv6 (vx_inner_dmac vx) (np_local_mac port) proto l4 data |>)).
       - rewrite (md_store_ok _ _ fr); [done|]. rsimpl. unfold fr.
         unfold frame_bytes, eth_hdr_bytes. rewrite <- !(app_assoc (vx_inner_dmac vx)), <- !(app_assoc _ (le16 _)).
         apply st_bytes_mid; [unfold strlen; by rewrite (tn_dmac _ Ht)|].
         by rewrite (tn_smac _ Ht), (lk_local Hlink).
       - apply md_store_ok. unfold frame, frame_bytes, eth_hdr_bytes. cbn [md_data]. rewrite <- !(app_assoc (np_gateway_mac port)), <- !(app_assoc (vx_inner_dmac vx)).
         apply (st_bytes_mid []); [done|]. by rewrite (tn_dmac _ Ht), (lk_gateway Hlink). }
  change (md_total_len (frame cfg port ipv6 proto l4 data)) with (frame_len (strlen l4) (strlen data)) in *.
  rewrite (st_bind_ok _ _ _ iph ((frame cfg port ipv6 proto l4 data) <| md_data := fr |>)) by (unfold st_lift; by rewrite Hi).
  unfold vxlan_push_headers. erewrite st_bind_ok by reflexivity. rsimpl.
  change (md_total_len (frame cfg port ipv6 proto l4 data)) with (frame_len (strlen l4) (strlen data)).
  unfold template_len. rewrite Hvx, (Z.add_comm VXLAN_HEADERS_SIZE).
  set (n := frame_len (strlen l4) (strlen data)) in *.
  destruct (Z.ltb_spec MBUF_DATA_SIZE (n + VXLAN_HEADERS_SIZE)), (Z.leb_spec (n + VXLAN_HEADERS_SIZE) MBUF_DATA_SIZE); try lia.
  - eexists. split; [done|]. by intros ?.
  - eexists. split; [done|]. intros _. unfold set_field. cbn. do 2 f_equal.
    symmetry. apply wrap_small. unfold MBUF_DATA_SIZE, VXLAN_HEADERS_SIZE in *. split; [lia|change (2 ^ 16) with 65536; lia].
Qed.

Lemma or_fail_neg m k d ret d' : m d = Ok (ret, d') -> ret < 0 -> or_fail m k d = Ok (-1, d').
Proof using Type. intros E Hr. unfold or_fail. rewrite (st_bind_ok _ _ _ _ _ E). by destruct (Z.ltb_spec ret 0); [|lia]. Qed.

(** The return code of a template of this length. *)
Definition template_ret (name : string) (l4_len data_len : Z) : Z :=
  if (template_len l4_len data_len <=? MBUF_DATA_SIZE) && rte_pktmbuf_pool_create name (np_id port) queue_id
  then 0 else -1.

Lemma mbuf_cache_init_ok name proto l4 data : 0 <= frame_len (strlen l4) (strlen data) <= MBUF_DATA_SIZE ->
  returns (mbuf_cache_init rte_pktmbuf_pool_create cfg port queue_id name) (frame cfg port ipv6 proto l4 data)
    (template_ret name (strlen l4) (strlen data)) (template proto l4 data).
Proof using Hlink.
  intros Hlen. unfold returns, mbuf_cache_init, template_ret. destruct (c_vxlan cfg) eqn:Hvx.
  - destruct (encapsulate_ok proto l4 data Hlen Hvx) as (d & E & Hd).
    destruct (template_len (strlen l4) (strlen data) <=? MBUF_DATA_SIZE); cbn [andb].
    + rewrite (or_fail_ok _ _ _ _ E). exists d. by destruct (rte_pktmbuf_pool_create _ _ _); split; auto.
    + exists d. split; [|done]. by apply (or_fail_neg _ _ _ (-1)).
  - unfold template, template_len. rewrite Hvx, Z.add_0_l. destruct (Z.leb_spec (frame_len (strlen l4) (strlen data)) MBUF_DATA_SIZE); [|lia].
    cbn [andb]. erewrite or_fail_ok by done. eexists. by destruct (rte_pktmbuf_pool_create _ _ _).
Qed.

(** What a template holds behind its headers. *)
Definition text_of (data : option (list Z)) : list Z := default [] data.

Lemma push_l3_ok k :
  or_fail (mbuf_data_push_l2 port) (or_fail (mbuf_data_push_ip cfg port) k) (mbuf_data_zero <| md_ipv6 := ipv6 |>)
  = k (staged cfg port ipv6 0 0 [] 0 0).
Proof using Hlink.
  erewrite or_fail_ok by (apply (push_l2_ok port ipv6 (lk_gateway Hlink) (lk_local Hlink))).
  erewrite or_fail_ok by (apply (push_ip_ok cfg port ipv6)). done.
Qed.

(** The text behind the headers: it fits, or the call fails. *)
Lemma push_text_ok proto l4 data ret k o : strlen (text_of data) < MBUF_DATA_SIZE -> strlen l4 <= 100 ->
  (MBUF_DATA_SIZE < frame_len (strlen l4) (strlen (text_of data)) -> ret = -1) ->
  (0 <= frame_len (strlen l4) (strlen (text_of data)) <= MBUF_DATA_SIZE ->
   returns k (frame cfg port ipv6 proto l4 (text_of data)) ret o) ->
  returns (or_fail (mbuf_data_push_data data) k) (staged cfg port ipv6 proto (strlen l4) l4 (strlen l4) 0) ret o.
Proof using Hlink.
  intros Hd Hl Hfail Hk. unfold returns.
  assert (0 <= strlen l4 /\ 0 <= strlen (text_of data)) as [H1 H2] by (unfold strlen; lia).
  pose proof (l3_len_range ipv6) as H3. unfold frame_len in Hfail, Hk.
  destruct (Z.leb_spec (ETH_HDR_LEN + l3_len_of ipv6 + strlen l4 + strlen (text_of data)) MBUF_DATA_SIZE) as [Hfit|Hfit].
  - destruct Hk as (d & E & Hd'); [unfold ETH_HDR_LEN in *; lia|]. exists d. split; [|done].
    destruct data as [data|]; cbn [text_of default] in *.
    + unfold id in *. erewrite or_fail_ok; [exact E|]. apply push_data_ok; try done; try apply Hlink.
      unfold MBUF_DATA_SIZE in *. lia.
    + erewrite or_fail_ok by done. rewrite <- E, frame_staged, app_nil_r. change (strlen []) with 0. by rewrite Z.add_0_r.
  - rewrite Hfail by done. destruct data as [data|]; cbn [text_of default] in *; unfold id in *.
    + destruct (push_data_fail cfg port ipv6 proto l4 data) as [d E]; [unfold MBUF_DATA_SIZE in *; lia| |done|].
      { unfold MBUF_DATA_SIZE, ETH_HDR_LEN in *. lia. }
      exists d. split; [|done]. by apply (or_fail_neg _ _ _ (-1)).
    + exfalso. unfold strlen in Hfit at 2. cbn [length] in Hfit. unfold MBUF_DATA_SIZE, ETH_HDR_LEN in *. lia.
Qed.

Lemma template_ret_fail name l4_len data_len : MBUF_DATA_SIZE < frame_len l4_len data_len ->
  template_ret name l4_len data_len = -1.
Proof using Type.
  intros H. unfold template_ret, template_len, VXLAN_HEADERS_SIZE.
  destruct (c_vxlan cfg); case_match; bool_facts; lia.
Qed.

Lemma build_tcp_ok name mss data : strlen (text_of data) < MBUF_DATA_SIZE ->
  returns (mbuf_cache_build_tcp rte_pktmbuf_pool_create cfg port queue_id name mss data)
    (mbuf_data_zero <| md_ipv6 := ipv6 |>)
    (template_ret name (strlen (tcp_header (tcp_options mss))) (strlen (text_of data)))
    (template IPPROTO_TCP (tcp_header (tcp_options mss)) (text_of data)).
Proof using Hlink.
  intros Hd. unfold returns, mbuf_cache_build_tcp. rewrite push_l3_ok.
  erewrite or_fail_ok by (apply (push_tcp_ok cfg port ipv6 (lk_gateway Hlink) (lk_local Hlink))).
  erewrite or_fail_ok by (apply (push_options_ok cfg port ipv6 (lk_gateway Hlink) (lk_local Hlink))).
  apply push_text_ok; [done|unfold tcp_options; by destruct (0 <? mss)|apply template_ret_fail|].
  apply mbuf_cache_init_ok.
Qed.

Lemma build_udp_ok name data : strlen (text_of data) < MBUF_DATA_SIZE ->
  returns (mbuf_cache_build_udp rte_pktmbuf_pool_create cfg port queue_id name data)
    (mbuf_data_zero <| md_ipv6 := ipv6 |>)
    (template_ret name 8 (strlen (text_of data)))
    (template IPPROTO_UDP (udp_header (text_of data)) (text_of data)).
Proof using Hlink.
  intros Hd. unfold returns, mbuf_cache_build_udp. rewrite push_l3_ok.
  erewrite or_fail_ok by (apply (push_udp_ok cfg port ipv6 (lk_gateway Hlink) (lk_local Hlink))).
  apply (push_text_ok IPPROTO_UDP (udp_header []) data); [done|done|apply template_ret_fail|]. intros Hlen.
  destruct (mbuf_cache_init_ok name IPPROTO_UDP (udp_header (text_of data)) (text_of data) Hlen) as (d & E & Ho).
  exists d. split; [|done]. etransitivity; [|exact E].
  erewrite st_bind_ok by reflexivity. erewrite st_bind_ok by reflexivity. erewrite st_bind_ok by reflexivity.
  assert (0 <= strlen (text_of data)) by (unfold strlen; lia).
  cbn [md_l4_len md_data_len frame]. change (strlen (udp_header [])) with 8.
  unfold MBUF_DATA_SIZE in *. rewrite wrap_small by (split; [|change (2 ^ 16) with 65536]; lia).
  erewrite st_bind_ok; [reflexivity|]. apply set_uh_len_ok; [apply Hlink..|lia].
Qed.
End Whole.

(** ** The templates of a worker *)

Section Init.
Context {D : Dpdk}.
Context (rte_pktmbuf_pool_create : string -> Z -> Z -> bool).

(** The worker after one call: its template [c] is [d]. *)
Definition with_cache (c : cache_id) (d : mbuf_data) (w : world) : world := w <| w_ws ::= set_cache c d |>.

(** The template of a worker, from its configuration, port, queue and IP version. *)
Definition ws_template (w : world) (proto : Z) (l4 data : list Z) : option mbuf_data :=
  template (w_cfg w) (ws_port (w_ws w)) (ws_queue_id (w_ws w)) (ws_ipv6 (w_ws w)) proto l4 data.
Definition ws_link_ok (w : world) : Prop := link_ok (w_cfg w) (ws_port (w_ws w)) (ws_queue_id (w_ws w)).
Definition pools_ok (w : world) : Prop :=
  forall name, rte_pktmbuf_pool_create name (np_id (ws_port (w_ws w))) (ws_queue_id (w_ws w)) = true.
Definition text_fits (w : world) (l4_len data_len : Z) : bool :=
  template_len (w_cfg w) (ws_ipv6 (w_ws w)) l4_len data_len <=? MBUF_DATA_SIZE.

Lemma template_ret_fits w name l4_len data_len : pools_ok w ->
  template_ret rte_pktmbuf_pool_create (w_cfg w) (ws_port (w_ws w)) (ws_queue_id (w_ws w)) (ws_ipv6 (w_ws w))
    name l4_len data_len = if text_fits w l4_len data_len then 0 else -1.
Proof using Type. intros Hp. unfold template_ret, text_fits. by rewrite Hp, andb_true_r. Qed.

Lemma headers_fit w l4_len : 0 <= l4_len <= 100 -> text_fits w l4_len 0 = true.
Proof using Type.
  intros Hl. unfold text_fits, template_len, frame_len. pose proof (l3_len_range (ws_ipv6 (w_ws w))).
  apply Z.leb_le. unfold MBUF_DATA_SIZE, ETH_HDR_LEN, VXLAN_HEADERS_SIZE. destruct (c_vxlan (w_cfg w)); lia.
Qed.

Lemma cache_finish_ok c build w ret o :
  returns (build (w_ws w) (w_cfg w)) (mbuf_data_zero <| md_ipv6 := ws_ipv6 (w_ws w) |>) ret o -> ret = 0 \/ ret = -1 ->
  exists w', mbuf_cache_finish c build w = Ok (ret, w')
    /\ (ret = 0 -> exists d, o = Some d /\ w' = with_cache c d w) /\ (ret = -1 -> w' = w).
Proof using Type.
  intros (d & E & Hd) [-> | ->]; unfold mbuf_cache_finish, mbind, ST_bind, ws_get, cfg_get, st_gets, id; rewrite E.
  - exists (with_cache c d w). split_and!; [done| |done]. intros _. exists d. by split; [apply Hd|].
  - by exists w.
Qed.

Lemma init_tcp_ok c name mss data w : ws_link_ok w -> pools_ok w -> strlen (text_of data) < MBUF_DATA_SIZE ->
  let ret := if text_fits w (strlen (tcp_header (tcp_options mss))) (strlen (text_of data)) then 0 else -1 in
  exists w', mbuf_cache_init_tcp rte_pktmbuf_pool_create c name mss data w = Ok (ret, w')
    /\ (ret = 0 -> exists d, ws_template w IPPROTO_TCP (tcp_header (tcp_options mss)) (text_of data) = Some d
                  /\ w' = with_cache c d w) /\ (ret = -1 -> w' = w).
Proof using Type.
  intros Hl Hp Hd. apply cache_finish_ok; [|case_match; auto].
  rewrite <- (template_ret_fits _ name) by done. by apply build_tcp_ok.
Qed.

Lemma tcp_init_ok request response w :
  c_protocol (w_cfg w) = IPPROTO_TCP -> ws_link_ok w -> pools_ok w ->
  let text := if c_server (w_cfg w) then response else request in strlen text < MBUF_DATA_SIZE ->
  exists w', tcp_init rte_pktmbuf_pool_create request response w =
      Ok (if text_fits w TCPHDR_LEN (strlen text) then 0 else -1, w')
    /\ (text_fits w TCPHDR_LEN (strlen text) = true ->
        exists seg syn data, ws_template w IPPROTO_TCP (tcp_header []) [] = Some seg
          /\ ws_template w IPPROTO_TCP (tcp_header (tcp_options (c_mss (w_cfg w)))) [] = Some syn
          /\ ws_template w IPPROTO_TCP (tcp_header []) text = Some data
          /\ w' = with_cache Cache_tcp_data data (with_cache Cache_tcp_opt syn (with_cache Cache_tcp seg w))).
Proof using Type.
  intros Hproto Hl Hp text Ht. unfold tcp_init. erewrite st_bind_ok by reflexivity. unfold id. rewrite Hproto.
  change (negb (IPPROTO_TCP =? IPPROTO_TCP)) with false. cbv iota. fold text.
  destruct (init_tcp_ok Cache_tcp "tcp" 0 None w) as (w1 & E1 & H1 & _); [done..|].
  change (tcp_options 0) with (@nil Z) in *. change (strlen (text_of None)) with 0 in *.
  rewrite (headers_fit w) in E1, H1 by by vm_compute. destruct (H1 eq_refl) as (seg & Hseg & ->).
  rewrite (st_bind_ok _ _ _ _ _ E1). change (0 <? 0) with false. cbv iota.
  destruct (init_tcp_ok Cache_tcp_opt "tcp_opt" (c_mss (w_cfg w)) None (with_cache Cache_tcp seg w)) as (w2 & E2 & H2 & _);
    [done..|]. change (strlen (text_of None)) with 0 in *.
  rewrite (headers_fit (with_cache Cache_tcp seg w)) in E2, H2 by (unfold tcp_options; by destruct (0 <? _)).
  destruct (H2 eq_refl) as (syn & Hsyn & ->).
  rewrite (st_bind_ok _ _ _ _ _ E2). change (0 <? 0) with false. cbv iota.
  destruct (init_tcp_ok Cache_tcp_data "tcp_data" 0 (Some text) (with_cache Cache_tcp_opt syn (with_cache Cache_tcp seg w)))
    as (w3 & E3 & H3 & H3'); [done..|].
  change (text_fits (with_cache _ _ _) ?a ?b) with (text_fits w a b) in E3, H3, H3'.
  change (strlen (tcp_header (tcp_options 0))) with TCPHDR_LEN in *. change (text_of (Some text)) with text in *.
  rewrite (st_bind_ok _ _ _ _ _ E3).
  destruct (text_fits w TCPHDR_LEN (strlen text)).
  - destruct (H3 eq_refl) as (data & Hdata & ->). eexists. split; [done|]. intros _. exists seg, syn, data. by split_and!.
  - by exists w3.
Qed.

(** C31: start-up of a TCP worker builds its three templates, for a bare
    segment, a SYN with its options and the segment that carries the text: each
    is a whole frame, from the Ethernet header (or the VXLAN headers around it)
    to the text, with the lengths that the headers state.  The call fails
    exactly when the text does not fit behind the headers. *)
Theorem tcp_init_templates request response w :
  c_protocol (w_cfg w) = IPPROTO_TCP -> ws_link_ok w -> pools_ok w ->
  let text := if c_server (w_cfg w) then response else request in strlen text < MBUF_DATA_SIZE ->
  exists w', tcp_init rte_pktmbuf_pool_create request response w =
      Ok (if text_fits w TCPHDR_LEN (strlen text) then 0 else -1, w')
    /\ (text_fits w TCPHDR_LEN (strlen text) = true ->
        exists seg syn data, ws_template w IPPROTO_TCP (tcp_header []) [] = Some seg
          /\ ws_template w IPPROTO_TCP (tcp_header (tcp_options (c_mss (w_cfg w)))) [] = Some syn
          /\ ws_template w IPPROTO_TCP (tcp_header []) text = Some data
          /\ w' = with_cache Cache_tcp_data data (with_cache Cache_tcp_opt syn (with_cache Cache_tcp seg w))).
Proof using Type. apply tcp_init_ok. Qed.
End Init.

Lemma tcp_init_templates_witness :
  exists w', tcp_init (D := Mbuf.Demo.dpdk) (fun _ _ _ => true) (chars "GET / HTTP/1.1") [] World.Demo.demo_world = Ok (0, w')
    /\ md_data_len (ws_tcp_data (w_ws w')) = 14 /\ md_l4_len (ws_tcp_opt (w_ws w')) = 20
    /\ ld16 (md_data (ws_tcp_data (w_ws w'))) 16 = Some (htons 54).
Proof.
  destruct (tcp_init_templates (D := Mbuf.Demo.dpdk) (fun _ _ _ => true) (chars "GET / HTTP/1.1") [] World.Demo.demo_world)
    as (w' & E & H); [reflexivity|by split|by intros ?|by vm_compute|].
  exists w'. split; [exact E|]. destruct (H eq_refl) as (seg & syn & data & Eseg & Esyn & Edata & ->).
  injection Edata as <-. injection Esyn as <-. by split_and!.
Defined.

(** ** The templates and the packet path *)

Section Consistent.
Context {D : Dpdk}.

(** What the packet path relies on. *)
Lemma template_consistent cfg port queue_id ipv6 proto l4 data d :
  link_ok cfg port queue_id -> template cfg port queue_id ipv6 proto l4 data = Some d ->
  strlen (md_data d) = md_total_len d /\ md_total_len d = template_len cfg ipv6 (strlen l4) (strlen data)
  /\ md_l2_len d = ETH_HDR_LEN /\ md_l3_len d = l3_len_of ipv6 /\ md_l4_len d = strlen l4
  /\ md_data_len d = strlen data /\ (6 <= length (md_data d))%nat.
Proof using Type.
  intros Hl. unfold template, template_len, frame_len.
  assert (forall a b, length a = 6%nat -> length b = 6%nat ->
    strlen (frame_bytes cfg port ipv6 a b proto l4 data) = 14 + l3_len_of ipv6 + strlen l4 + strlen data) as Hf.
  { intros a b Ha Hb. unfold frame_bytes, eth_hdr_bytes. rewrite !strlen_app_list, ip_frame_length.
    unfold strlen at 1 2. rewrite Ha, Hb. change (strlen (le16 _)) with 2. lia. }
  pose proof (l3_len_range ipv6). assert (0 <= strlen l4 /\ 0 <= strlen data) as [? ?] by (unfold strlen; lia).
  destruct (c_vxlan cfg) eqn:Hvx.
  - destruct (lk_tunnel _ _ _ Hl Hvx) as (vx & -> & Ht). cbn [mbind option_bind].
    destruct (vxlan_iphdr _ _ _ _) as [iph|] eqn:Hi; [|done]. cbn [mbind option_bind]. intros [= <-].
    cbn [md_data md_total_len md_l2_len md_l3_len md_l4_len md_data_len].
    assert (strlen iph = 20) as Hiph.
    { unfold vxlan_iphdr in Hi. destruct (ip_range_get (vx_vtep_local vx) queue_id); [|done].
      cbn [mbind option_bind] in Hi.
      destruct (if 1 <? num (vx_vtep_remote vx) then _ else _); [|done]. by injection Hi as <-. }
    assert (strlen (vxlan_eth_hdr port) = 14) as Heth.
    { unfold vxlan_eth_hdr, eth_hdr_bytes, strlen. rewrite !length_app, (lk_gateway _ _ _ Hl), (lk_local _ _ _ Hl). done. }
    assert (forall x, strlen (frame_bytes cfg port ipv6 (vx_inner_dmac vx) (vx_inner_smac vx) proto l4 data) = x ->
      strlen ((vxlan_eth_hdr port ++ iph ++ vxlan_udphdr (ETH_HDR_LEN + l3_len_of ipv6 + strlen l4 + strlen data)
        ++ vxlan_header_bytes 8 (VXLAN_HTON (vx_vni vx)))
        ++ frame_bytes cfg port ipv6 (vx_inner_dmac vx) (vx_inner_smac vx) proto l4 data) = 50 + x) as Hlen.
    { intros x <-. rewrite !strlen_app_list, Heth, Hiph. change (strlen (vxlan_udphdr _)) with 8.
      change (strlen (vxlan_header_bytes _ _)) with 8. lia. }
    specialize (Hlen _ (Hf _ _ (tn_dmac _ _ _ Ht) (tn_smac _ _ _ Ht))).
    unfold VXLAN_HEADERS_SIZE, ETH_HDR_LEN in *. split_and!; try done.
    apply Nat2Z.inj_le. etransitivity; [|apply Z.eq_le_incl; symmetry; exact Hlen]. lia.
  - intros [= <-]. specialize (Hf _ _ (lk_gateway _ _ _ Hl) (lk_local _ _ _ Hl)). unfold frame, ETH_HDR_LEN in *.
    cbn [md_data md_total_len md_l2_len md_l3_len md_l4_len md_data_len].
    split_and!; try done; unfold strlen in *; lia.
Qed.

Lemma udp_init_ok pool datagram w :
  c_protocol (w_cfg w) = IPPROTO_UDP -> ws_link_ok w -> pools_ok pool w -> strlen datagram < MBUF_DATA_SIZE ->
  exists w', udp_init pool datagram w = Ok (if text_fits w UDPHDR_LEN (strlen datagram) then 0 else -1, w')
    /\ (text_fits w UDPHDR_LEN (strlen datagram) = true ->
        exists d, ws_template w IPPROTO_UDP (udp_header datagram) datagram = Some d /\ w' = with_cache Cache_tcp d w).
Proof using Type.
  intros Hproto Hl Hp Ht. unfold udp_init. erewrite st_bind_ok by reflexivity. unfold id. rewrite Hproto.
  change (negb (IPPROTO_UDP =? IPPROTO_UDP)) with false. cbv iota.
  destruct (cache_finish_ok Cache_tcp (fun ws cfg => mbuf_cache_build_udp pool cfg (ws_port ws) (ws_queue_id ws) "udp" (Some datagram))
    w (if text_fits w UDPHDR_LEN (strlen datagram) then 0 else -1) (ws_template w IPPROTO_UDP (udp_header datagram) datagram))
    as (w' & E & H1 & H2).
  - rewrite <- (template_ret_fits pool _ "udp") by done. by apply build_udp_ok.
  - case_match; auto.
  - exists w'. split; [exact E|]. intros Hfit. rewrite Hfit in H1. by apply H1.
Qed.

(** The template of a UDP worker, likewise. *)
Theorem udp_init_template pool datagram w :
  c_protocol (w_cfg w) = IPPROTO_UDP -> ws_link_ok w -> pools_ok pool w -> strlen datagram < MBUF_DATA_SIZE ->
  exists w', udp_init pool datagram w = Ok (if text_fits w UDPHDR_LEN (strlen datagram) then 0 else -1, w')
    /\ (text_fits w UDPHDR_LEN (strlen datagram) = true ->
        exists d, ws_template w IPPROTO_UDP (udp_header datagram) datagram = Some d /\ w' = with_cache Cache_tcp d w).
Proof using Type. apply udp_init_ok. Qed.
End Consistent.

Lemma udp_init_template_witness :
  let w := World.Demo.demo_world <| w_cfg ::= fun c => c <| c_protocol := IPPROTO_UDP |> |> in
  exists w', udp_init (D := Mbuf.Demo.dpdk) (fun _ _ _ => true) (chars "hello") w = Ok (0, w')
    /\ ld16 (md_data (ws_tcp (w_ws w'))) 38 = Some (htons 13).
Proof.
  intros w. destruct (udp_init_template (D := Mbuf.Demo.dpdk) (fun _ _ _ => true) (chars "hello") w)
    as (w' & E & H); [reflexivity|by split|by intros ?|by vm_compute|].
  exists w'. split; [exact E|]. destruct (H eq_refl) as (d & Ed & ->). by injection Ed as <-.
Defined.
