(* ===== verification/Kni.v ===== *)
(** * Kni: packets for the kernel and for all ports of a bond

    [kni_recv], [kni_broadcast] and [kni_send] of [src/virtio-user.c], the
    implementation for current DPDK versions: packets that the worker does not
    handle go to the kernel through queue 0 of a virtio-user port, and the
    kernel's packets to the wire.  [bond_broadcast] of [src/bond.c] sends a
    copy of a packet on every port of a bond, and [lldp_send] of [src/lldp.c]
    keeps such ports alive. *)

From S2P Require Import Prelude Config Mbuf NetStats World WorkSpace.

Section Kni.
Context {D : Dpdk}.

Definition ring_enqueue (m : mbuf) : M Z :=
  h ← st_gets w_io;
  let ret := rte_ring_enqueue h m in
  io_log (Io_ring_enqueue m ret);; mret ret.

Definition ring_count : M Z := h ← st_gets w_io; mret (rte_ring_count h).

Definition ring_dequeue_bulk (n : Z) : M (list mbuf) :=
  h ← st_gets w_io;
  let ms := rte_ring_dequeue_bulk h n in
  io_log (Io_ring_dequeue ms);; mret ms.

Fixpoint mbuf_free2_all (ms : list mbuf) : M unit :=
  match ms with [] => mret tt | m :: ms => mbuf_free2 m;; mbuf_free2_all ms end.

(** [m] is [NULL] when called from the timer. *)
Definition kni_recv (m : option mbuf) : M unit :=
  port ← ws_get ws_port;
  queue_id ← ws_get ws_queue_id;
  if negb (queue_id =? 0) then
    match m with
    | None => mret tt
    | Some m =>
        if np_kni_mbuf_queue port then
          ret ← ring_enqueue m;
          if ret =? 0 then mret tt else mbuf_free2 m
        else mbuf_free2 m
    end
  else
    let mbufs := match m with Some m => [m] | None => [] end in
    mbufs ← (if np_kni_mbuf_queue port then
               count ← ring_count;
               let cnt := Z.min count (NB_RXD - Z.of_nat (length mbufs)) in
               if negb (cnt =? 0) then ms ← ring_dequeue_bulk cnt; mret (mbufs ++ ms)
               else mret mbufs
             else mret mbufs);
    send_n ← (if negb (np_virtio_user_id port =? 0) && bool_decide (mbufs ≠ []) then
                n ← eth_tx_burst (np_virtio_user_id port) 0 mbufs;
                stat_mod (net_stats_kni_rx n);; mret n
              else mret 0);
    mbuf_free2_all (drop (Z.to_nat send_n) mbufs).

Definition kni_broadcast (m : mbuf) : M unit :=
  m2 ← mbuf_dup m;
  match m2 with Some m2 => kni_recv (Some m2) | None => mret tt end.

(** ** Bonds *)

Definition eth_rx_burst (port queue n : Z) : M (list mbuf) :=
  h ← st_gets w_io;
  let ms := rte_eth_rx_burst h port queue n in
  io_log (Io_rx_burst port queue ms);; mret ms.

(** The slaves from index [i] on; the loop ends when no packet is left. *)
Fixpoint bond_broadcast_loop (port : netif_port) (n : nat) (i : Z) (m : mbuf) : M unit :=
  match n with
  | O => mret tt
  | S n =>
      port_id ← st_lift OutOfBounds (aget (np_port_id_list port) i);
      m2 ← mbuf_dup m;
      match m2 with
      | None => mret tt
      | Some m2 =>
          stat_mod (net_stats_tx (m_data_len m2));;
          queue_id ← ws_get ws_queue_id;
          sent ← eth_tx_burst port_id queue_id [m2];
          st_when (negb (sent =? 1)) (mbuf_free m2);;
          bond_broadcast_loop port n (i + 1) m
      end
  end.

Definition bond_broadcast (m : mbuf) : M unit :=
  port ← ws_get ws_port;
  bond_broadcast_loop port (Z.to_nat (np_pci_num port)) 0 m.

Definition ND_NEIGHBOR_SOLICIT : Z := 135.
Definition ND_NEIGHBOR_ADVERT : Z := 136.

Definition icmp6_is_neigh (m : mbuf) : option bool :=
  type ← ld8 (m_buf m) (mbuf_icmp6_hdr m);
  Some ((type =? ND_NEIGHBOR_SOLICIT) || (type =? ND_NEIGHBOR_ADVERT)).

Definition mbuf_is_neigh (m : mbuf) : option bool :=
  type ← ld16 (m_buf m) (mbuf_eth_hdr m + eth_type);
  if type =? htons ETHER_TYPE_ARP then Some true
  else if type =? htons ETHER_TYPE_IPv6 then
    proto ← ld8 (m_buf m) (mbuf_ip_hdr m + ip6_nxt);
    if proto =? IPPROTO_ICMPV6 then icmp6_is_neigh m else Some false
  else Some false.

Definition kni_send_mbuf (m : mbuf) : M unit :=
  port ← ws_get ws_port;
  neigh ← (if port_is_bond4 port then st_lift OutOfBounds (mbuf_is_neigh m) else mret false);
  st_when neigh (bond_broadcast m);;
  work_space_tx_send m;;
  stat_mod (net_stats_kni_tx 1).

Fixpoint kni_send_all (ms : list mbuf) : M unit :=
  match ms with [] => mret tt | m :: ms => kni_send_mbuf m;; kni_send_all ms end.

Definition kni_send : M unit :=
  port ← ws_get ws_port;
  queue_id ← ws_get ws_queue_id;
  st_when (queue_id =? 0)
    (ms ← eth_rx_burst (np_virtio_user_id port) 0 NB_RXD;
     kni_send_all ms).

(** ** LLDP *)

(** The frame of [lldp_init_packet]: header, chassis, port, lifetime, the
    three strings and the end mark, each a type, a length and its value. *)
Definition LLDP_STR : list Z :=
  [100; 112; 100; 107; 45; 100; 112; 101; 114; 102; 45; 104; 101; 108; 108; 111].
Definition lldp_tlv (type len : Z) (value : list Z) : list Z := [2 * type; len] ++ value.
Definition lldp_str_init (type : Z) : list Z :=
  lldp_tlv type (Z.of_nat (length LLDP_STR)) LLDP_STR.
Definition lldp_init_packet (port : netif_port) : list Z :=
  let src := np_local_mac port in
  [1; 128; 194; 0; 0; 14] ++ src ++ [136; 204]
    ++ lldp_tlv 1 7 (4 :: src) ++ lldp_tlv 2 7 (3 :: src) ++ lldp_tlv 3 2 [0; 120]
    ++ lldp_str_init 4 ++ lldp_str_init 5 ++ lldp_str_init 6 ++ lldp_tlv 0 0 [].

Definition BONDING_MODE_8023AD : Z := 4.
Definition lldp_init : M unit :=
  port ← ws_get ws_port;
  st_when (np_bond port && (np_bond_mode port =? BONDING_MODE_8023AD))
    (ws_mod (fun ws => ws <| ws_lldp := true |>);;
     st_modify (fun w => w <| w_lldp_packet := lldp_init_packet port |>)).

(** [true] when the packets have run out, which returns without the flush. *)
Fixpoint lldp_send_loop (n : nat) : M bool :=
  match n with
  | O => mret false
  | S n =>
      m ← work_space_alloc_mbuf;
      match m with
      | None => mret true
      | Some m =>
          lldp ← st_gets w_lldp_packet;
          '(p, m) ← mbuf_push_data m (Z.of_nat (length lldp));
          m ← m_st (st_bytes p lldp) m;
          work_space_tx_send m;;
          lldp_send_loop n
      end
  end.

Definition lldp_send : M unit :=
  port ← ws_get ws_port;
  empty ← lldp_send_loop (Z.to_nat (np_pci_num port * 2));
  if (empty : bool) then mret tt else work_space_tx_flush.
End Kni.
