(* ===== verification/TcpPacket.v ===== *)
(** * TcpPacket: TCP segments

    The first part of [src/tcp.c]: building a segment from its template, sending
    it and arming its timer, and answering a stray segment with a reset. *)

From S2P Require Import Prelude SocketNode Csum IpRange Tick Config Mbuf NetStats.
From S2P Require Import World WorkSpace Socket SocketTimer HttpParse Kni.

Definition tcp_seq_lt (a b : Z) : bool := i32 (a - b) <? 0.
Definition tcp_seq_le (a b : Z) : bool := i32 (a - b) <=? 0.
Definition tcp_seq_gt (a b : Z) : bool := 0 <? i32 (a - b).
Definition tcp_seq_ge (a b : Z) : bool := 0 <=? i32 (a - b).

(** The four words of an IPv6 address in a packet. *)
Definition ld_ip6_addr (b : list Z) (p : Z) : option ipaddr_t :=
  w0 ← ld32 b p; w1 ← ld32 b (p + 4); w2 ← ld32 b (p + 8); w3 ← ld32 b (p + 12);
  Some (IpAddr w0 w1 w2 w3).
Definition st_ip6_addr (p : Z) (a : ipaddr_t) (b : list Z) : option (list Z) :=
  b ← st32 p (pad0 a) b; b ← st32 (p + 4) (pad1 a) b;
  b ← st32 (p + 8) (pad2 a) b; st32 (p + 12) (ip a) b.
Definition ipaddr_words (a : ipaddr_t) : list Z := [pad0 a; pad1 a; pad2 a; ip a].

(** ** Segments *)

Section Packets.
Context {D : Dpdk}.

Definition dip_next_ipv4 : M Z :=
  l ← ws_get ws_dip_list;
  '(a, l) ← st_lift OutOfBounds (ip_list_get_next_ipv4 l);
  ws_mod (fun ws => ws <| ws_dip_list := l |>);; mret a.
Definition dip_next_ipv6 : M ipaddr_t :=
  l ← ws_get ws_dip_list;
  '(a, l) ← st_lift OutOfBounds (ip_list_get_next_ipv6 l);
  ws_mod (fun ws => ws <| ws_dip_list := l |>);; mret a.

Definition tcp_change_dipv6 (m : mbuf) (ip6h th : Z) : M mbuf :=
  addr_old ← st_lift OutOfBounds (ld_ip6_addr (m_buf m) (ip6h + ip6_dst));
  addr_new ← dip_next_ipv6;
  m ← m_st (st_ip6_addr (ip6h + ip6_dst) addr_new) m;
  sum ← m_ld (ld16 (m_buf m) (th + th_sum));
  m_st (st16 (th + th_sum) (csum_update_u128 sum (ipaddr_words addr_old) (ipaddr_words addr_new))) m.

Definition tcp_change_dipv4 (m : mbuf) (iph th : Z) : M mbuf :=
  addr_old ← m_ld (ld32 (m_buf m) (iph + iph_daddr));
  addr_new ← dip_next_ipv4;
  m ← m_st (st32 (iph + iph_daddr) addr_new) m;
  check ← m_ld (ld16 (m_buf m) (iph + iph_check));
  m ← m_st (st16 (iph + iph_check) (csum_update_u32 check addr_old addr_new)) m;
  sum ← m_ld (ld16 (m_buf m) (th + th_sum));
  m_st (st16 (th + th_sum) (csum_update_u32 sum addr_old addr_new)) m.

Definition tcp_change_dip (m : mbuf) (iph th : Z) : M mbuf :=
  ipv6 ← ws_get ws_ipv6;
  if (ipv6 : bool) then tcp_change_dipv6 m iph th else tcp_change_dipv4 m iph th.

(** The template of a segment, its cached checksums, the sequence space of
    its data and the flags that go on the wire. *)
Definition tcp_packet_kind (ws : work_space) (sk : socket) (tcp_flags : Z)
  : cache_id * Z * Z * Z * Z :=
  if has tcp_flags TH_SYN then (Cache_tcp_opt, sk_csum_tcp_opt sk, sk_csum_ip_opt sk, 0, tcp_flags)
  else if has tcp_flags TH_PUSH then
    (Cache_tcp_data, sk_csum_tcp_data sk, sk_csum_ip_data sk, md_data_len (ws_tcp_data ws),
     if has tcp_flags TH_URG then tcp_flags &&& Z.lnot (TH_URG ||| TH_PUSH) else tcp_flags)
  else (Cache_tcp, sk_csum_tcp sk, sk_csum_ip sk, 0, tcp_flags).

(** The inner headers of a VXLAN segment: their addresses, the packet and
    the checksum of the segment. *)
Definition tcp_vxlan_headers (ipv6 : bool) (ip_id : Z) (sk : socket) (csum_ip csum_tcp tcp_flags : Z)
    (m : mbuf) : M (Z * Z * mbuf * Z) :=
  let vxhs := mbuf_eth_hdr m in
  m ← m_st (st16 (vxhs + vxhs_uh + uh_source)
              (u16 (sk_fport sk + sk_lport sk + sk_csum_ip sk) ||| htons 49152)) m;
  let iph := mbuf_eth_hdr m + VXLAN_HEADERS_SIZE + ETH_HDR_LEN in
  '(th, m) ← (if ipv6 then mret (iph + IP6_HDR_LEN, m)
              else
                m ← m_st (st16 (iph + iph_check) (csum_update_u16 csum_ip 0 (htons ip_id))) m;
                mret (iph + IPHDR_LEN, m));
  let csum_tcp := csum_update_u32 csum_tcp (htonl (sk_snd_nxt sk)) (htonl (sk_rcv_nxt sk)) in
  let csum_tcp := csum_update_u16 csum_tcp 0 (htons tcp_flags) in
  mret (iph, th, m, csum_tcp).

Definition tcp_set_ip (iph : Z) (sk : socket) (m : mbuf) : M mbuf :=
  ipv6 ← ws_get ws_ipv6;
  if negb ipv6 then
    ip_id ← ws_get ws_ip_id;
    ws_mod (fun ws => ws <| ws_ip_id := u16 (ip_id + 1) |>);;
    m ← m_st (st16 (iph + iph_id) (htons ip_id)) m;
    m ← m_st (st32 (iph + iph_saddr) (sk_laddr sk)) m;
    m_st (st32 (iph + iph_daddr) (sk_faddr sk)) m
  else
    m ← m_st (st32 (iph + ip6_src + 12) (sk_laddr sk)) m;
    m_st (st32 (iph + ip6_dst + 12) (sk_faddr sk)) m.

Definition tcp_set_tcp (th : Z) (sk : socket) (tcp_flags csum_tcp : Z) (m : mbuf) : M mbuf :=
  m ← m_st (st16 (th + th_sport) (sk_lport sk)) m;
  m ← m_st (st16 (th + th_dport) (sk_fport sk)) m;
  m ← m_st (st8 (th + th_flags) tcp_flags) m;
  m ← m_st (st32 (th + th_seq) (htonl (sk_snd_una sk))) m;
  m ← m_st (st32 (th + th_ack) (htonl (sk_rcv_nxt sk))) m;
  m_st (st16 (th + th_sum) csum_tcp) m.

(** The headers of an allocated segment. *)
Definition tcp_fill_packet (ws : work_space) (sk : socket) (csum_ip csum_tcp tcp_flags : Z) (m : mbuf)
  : M mbuf :=
  '(iph, th, m, csum_tcp) ←
    (if ws_vxlan ws then
       tcp_vxlan_headers (ws_ipv6 ws) (ws_ip_id ws) sk csum_ip csum_tcp tcp_flags m
     else
       th ← m_ld (mbuf_tcp_hdr m);
       mret (mbuf_ip_hdr m, th, m, csum_tcp));
  m ← tcp_set_ip iph sk m;
  m ← tcp_set_tcp th sk tcp_flags csum_tcp m;
  if ws_change_dip ws then tcp_change_dip m iph th else mret m.

Definition tcp_new_packet (i : N) (tcp_flags : Z) : M (option mbuf) :=
  ws ← ws_get id;
  sk ← sk_get i;
  let '(p, csum_tcp, csum_ip, snd_seq, tcp_flags) := tcp_packet_kind ws sk tcp_flags in
  m ← mbuf_cache_alloc p;
  match m with
  | None => mret None
  | Some m =>
      let snd_seq := if has tcp_flags (TH_FIN ||| TH_SYN) then u16 (snd_seq + 1) else snd_seq in
      (if sk_snd_nxt sk =? sk_snd_una sk
       then sk_mod i (fun sk => sk <| sk_snd_nxt ::= fun x => u32 (x + snd_seq) |>) else mret tt);;
      sk ← sk_get i;
      m ← tcp_fill_packet ws sk csum_ip csum_tcp tcp_flags m;
      mret (Some m)
  end.

Definition tcp_flags_rx_count (tcp_flags : Z) : M unit :=
  st_when (has tcp_flags TH_SYN) (stat_inc NS_syn_rx);;
  st_when (has tcp_flags TH_FIN) (stat_inc NS_fin_rx);;
  st_when (has tcp_flags TH_RST) (stat_inc NS_rst_rx).

Definition tcp_flags_tx_count (tcp_flags : Z) : M unit :=
  st_when (has tcp_flags TH_SYN) (stat_inc NS_syn_tx);;
  st_when (has tcp_flags TH_FIN) (stat_inc NS_fin_tx);;
  st_when (has tcp_flags TH_RST) (stat_inc NS_rst_tx).

(** The counters of a request or a response. *)
Definition tcp_push_count (tcp_flags : Z) : M unit :=
  st_when (has tcp_flags TH_PUSH)
    (cfg ← cfg_get id;
     if negb (c_server cfg) then
       stat_inc NS_tcp_req;;
       if c_http_method cfg =? HTTP_METH_GET then stat_inc NS_http_get else stat_inc NS_http_post
     else
       send_window ← ws_get ws_send_window;
       st_when (send_window =? 0) (stat_inc NS_tcp_rsp;; stat_inc NS_http_2xx)).

(** The timer that a sent segment starts. *)
Definition tcp_reply_timer (i : N) (tcp_flags now_tsc : Z) : M unit :=
  sk ← sk_get i;
  ws ← ws_get id;
  if negb (sk_is (sk_st sk) SK_CLOSED) then
    if has tcp_flags (TH_PUSH ||| TH_SYN ||| TH_FIN) then
      now_tsc ← (if negb (ws_server ws) && sk_keepalive sk
                 then socket_accurate_timer_tsc i now_tsc else mret now_tsc);
      st_when (ws_send_window ws =? 0) (socket_start_retransmit_timer i now_tsc)
    else
      st_when (ws_server ws && (ws_send_window ws =? 0)) (socket_start_timeout_timer i now_tsc)
  else mret tt.

Definition tcp_reply (i : N) (tcp_flags : Z) : M unit :=
  now_tsc ← work_space_tsc;
  sk_mod i (fun sk => sk <| sk_flags := tcp_flags |>);;
  tcp_flags_tx_count tcp_flags;;
  tcp_push_count tcp_flags;;
  m ← tcp_new_packet i tcp_flags;
  match m with Some m => work_space_tx_send_tcp m | None => mret tt end;;
  tcp_reply_timer i tcp_flags now_tsc.

Definition tcp_process_rst (i : N) (m : mbuf) : M unit :=
  sk ← sk_get i;
  st_when (negb (sk_is (sk_st sk) SK_CLOSED)) (socket_close i);;
  mbuf_free2 m.

Definition tcp_socket_send_rst (i : N) : M unit :=
  sk_mod i (fun sk => sk <| sk_snd_nxt := 0 |> <| sk_snd_una := 0 |>);;
  tcp_reply i (TH_RST ||| TH_ACK);;
  stat_inc NS_socket_error;;
  socket_close i.
End Packets.

(** ** Resets without a socket *)

Definition zeros (n : Z) : list Z := replicate (Z.to_nat n) 0.

Definition tcp_rst_set_ip (tos iph : Z) (b : list Z) : option (list Z) :=
  daddr ← ld32 b (iph + iph_saddr);
  saddr ← ld32 b (iph + iph_daddr);
  b ← st_bytes iph (zeros IPHDR_LEN) b;
  b ← st8 iph (4 * 16 + 5) b;
  b ← st8 (iph + iph_tos) tos b;
  b ← st16 (iph + iph_tot_len) (htons 40) b;
  b ← st8 (iph + iph_ttl) DEFAULT_TTL b;
  b ← st16 (iph + iph_frag_off) IP_FLAG_DF b;
  b ← st8 (iph + iph_protocol) IPPROTO_TCP b;
  b ← st32 (iph + iph_saddr) saddr b;
  st32 (iph + iph_daddr) daddr b.

(** [ip6_flow |= htonl(tos << 20)] after the version byte. *)
Definition tcp_rst_set_ipv6 (tos ip6h : Z) (b : list Z) : option (list Z) :=
  src ← ld_ip6_addr b (ip6h + ip6_dst);
  dst ← ld_ip6_addr b (ip6h + ip6_src);
  b ← st_bytes ip6h (zeros IP6_HDR_LEN) b;
  b ← st8 ip6h (6 * 16) b;
  flow ← ld32 b (ip6h + ip6_flow);
  b ← st32 (ip6h + ip6_flow) (flow ||| htonl (u32 (tos <<< 20))) b;
  b ← st8 (ip6h + ip6_hops) DEFAULT_TTL b;
  b ← st_ip6_addr (ip6h + ip6_src) src b;
  b ← st_ip6_addr (ip6h + ip6_dst) dst b;
  b ← st16 (ip6h + ip6_plen) (htons 20) b;
  st8 (ip6h + ip6_nxt) IPPROTO_TCP b.

Definition tcp_rst_set_tcp (th : Z) (b : list Z) : option (list Z) :=
  sport ← ld16 b (th + th_dport);
  dport ← ld16 b (th + th_sport);
  seq ← ld32 b (th + th_seq);
  flags ← ld8 b (th + th_flags);
  let seq := ntohl seq in
  let seq := if has flags TH_SYN then u32 (seq + 1) else seq in
  let seq := if has flags TH_FIN then u32 (seq + 1) else seq in
  b ← st_bytes th (zeros TCPHDR_LEN) b;
  b ← st16 (th + th_sport) sport b;
  b ← st16 (th + th_dport) dport b;
  b ← st32 (th + th_seq) 0 b;
  b ← st32 (th + th_ack) (htonl seq) b;
  b ← st8 (th + th_off) (5 * 16) b;
  st8 (th + th_flags) (TH_RST ||| TH_ACK) b.

Definition eth_addr_swap (eth : Z) (b : list Z) : option (list Z) :=
  d ← ld_bytes b eth 6;
  s ← ld_bytes b (eth + 6) 6;
  b ← st_bytes eth s b;
  st_bytes (eth + 6) d b.

Section Reset.
Context {D : Dpdk}.

Definition tcp_reply_rst (m : mbuf) : M unit :=
  vxlan ← ws_get ws_vxlan;
  tos ← cfg_get c_tos;
  if (vxlan : bool) then stat_inc NS_tcp_drop;; mbuf_free2 m
  else
    let eth := mbuf_eth_hdr m in
    let iph := mbuf_ip_hdr m in
    th ← m_ld (mbuf_tcp_hdr m);
    let olen := m_data_len m in
    m ← m_st (eth_addr_swap eth) m;
    version ← m_ld (ld_ip_version (m_buf m) iph);
    '(m, nlen) ←
      (if version =? 4 then
         m ← m_st (tcp_rst_set_ip tos iph) m;
         m ← m_st (tcp_rst_set_tcp th) m;
         m ← m_st (st16 (th + th_sum)
               (rte_ipv4_udptcp_cksum (bytes_from (m_buf m) iph) (bytes_from (m_buf m) th))) m;
         m ← m_st (st16 (iph + iph_check) (rte_ipv4_cksum (bytes_from (m_buf m) iph))) m;
         mret (m, ETH_HDR_LEN + IPHDR_LEN + TCPHDR_LEN)
       else
         m ← m_st (tcp_rst_set_ipv6 tos iph) m;
         m ← m_st (tcp_rst_set_tcp th) m;
         m ← m_st (st16 (th + th_sum)
               (rte_ipv6_udptcp_cksum (bytes_from (m_buf m) iph) (bytes_from (m_buf m) th))) m;
         mret (m, ETH_HDR_LEN + IP6_HDR_LEN + TCPHDR_LEN));
    let m := if nlen <? olen then default m (rte_pktmbuf_trim m (olen - nlen)) else m in
    stat_inc NS_rst_tx;;
    work_space_tx_send m.
End Reset.
