(* ===== verification/Tcp.v ===== *)
(** * Tcp: the TCP state machines

    The second part of [src/tcp.c]: retransmission, sequence checking, the
    server and client sides of a connection, keep-alive, the launch of
    connections and the delayed acknowledgements. *)

From S2P Require Import Prelude SocketNode Tick Config Mbuf NetStats World WorkSpace.
From S2P Require Import Socket SocketTimer HttpParse Kni TcpPacket.

(** Assigning the state of a socket. *)
Definition sk_set_state (i : N) (s : sk_state) : M unit := sk_mod i (fun sk => sk <| sk_st := s |>).
Definition sk_retrans_inc (i : N) : M unit :=
  sk_mod i (fun sk => sk <| sk_retrans ::= fun x => (x + 1) mod 8 |>).

(** The payload of a segment: its position in the buffer and its length, both
    computed from the header fields in 16-bit arithmetic. *)
Definition tcp_data_get (b : list Z) (iph th : Z) : option (Z * Z) :=
  version ← ld_ip_version b iph;
  off ← ld_th_off b th;
  if version =? 4 then
    tot_len ← ld16 b (iph + iph_tot_len);
    let offset := IPHDR_LEN + off * 4 in
    Some (iph + offset, u16 (ntohs tot_len - offset))
  else
    plen ← ld16 b (iph + ip6_plen);
    Some (iph + IP6_HDR_LEN + off * 4, u16 (ntohs plen - off * 4)).

(** The transitions of [tcp_process_fin]: the new state and the extra flags; a
    new state [SK_CLOSED] is a call of [socket_close]. *)
Definition tcp_fin_transition (st : sk_state) (rx_fin tx_fin : bool) : sk_state * Z :=
  match st with
  | SK_ESTABLISHED =>
      if rx_fin then (SK_LAST_ACK, TH_FIN ||| TH_ACK)
      else if tx_fin then (SK_FIN_WAIT_1, TH_FIN ||| TH_ACK)
      else (st, 0)
  | SK_FIN_WAIT_1 => if rx_fin then (SK_CLOSED, TH_ACK) else (SK_FIN_WAIT_2, 0)
  | SK_CLOSING => (SK_LAST_ACK, TH_FIN ||| TH_ACK)
  | SK_LAST_ACK => (SK_CLOSED, 0)
  | SK_FIN_WAIT_2 => if rx_fin then (SK_CLOSED, TH_ACK) else (st, 0)
  | _ => (st, 0)
  end.

Definition tcp_process_fin (i : N) (rx_flags tx_flags : Z) : M Z :=
  sk ← sk_get i;
  let '(st, flags) := tcp_fin_transition (sk_st sk) (has rx_flags TH_FIN) (has tx_flags TH_FIN) in
  (if sk_is st (sk_st sk) then mret tt
   else if sk_is st SK_CLOSED then socket_close i
   else sk_set_state i st);;
  mret (tx_flags ||| flags).

Section Tcp.
Context {D : Dpdk}.

(** ** Retransmission *)

(** The counter of a retransmitted segment. *)
Definition tcp_retransmit_count (flags : Z) : M unit :=
  if has flags TH_SYN then stat_inc NS_syn_rt
  else if has flags TH_PUSH then stat_inc NS_push_rt
  else if has flags TH_FIN then stat_inc NS_fin_rt
  else stat_inc NS_ack_rt.

(** Sending from [snd_una] again while [snd_nxt] stays ahead. *)
Definition tcp_resend_window (i : N) (from : socket -> Z) : M unit :=
  sk ← sk_get i;
  let snd_nxt := sk_snd_nxt sk in
  sk_mod i (fun sk => sk <| sk_snd_nxt := from sk |>);;
  tcp_reply i (TH_PUSH ||| TH_ACK);;
  sk_mod i (fun sk => sk <| sk_snd_nxt := snd_nxt |>).

Definition tcp_do_retransmit (i : N) : M unit :=
  sk ← sk_get i;
  if sk_snd_nxt sk =? sk_snd_una sk then sk_mod i (fun sk => sk <| sk_retrans := 0 |>)
  else if sk_laddr sk =? 0 then socket_close i
  else
    sk_retrans_inc i;;
    sk ← sk_get i;
    if sk_retrans sk <? RETRANSMIT_NUM_MAX then
      let flags := sk_flags sk in
      send_window ← ws_get ws_send_window;
      if negb (send_window =? 0) && negb (sk_snd_nxt sk =? sk_snd_una sk) && has flags TH_PUSH then
        tcp_resend_window i sk_snd_una;;
        sk_mod i (fun sk => sk <| sk_snd_window := 1 |>);;
        stat_inc NS_push_rt;;
        tsc ← work_space_tsc;
        socket_start_retransmit_timer i tsc
      else
        tcp_reply i flags;;
        tcp_retransmit_count flags
    else
      stat_inc NS_socket_error;;
      socket_close i.

(** ** Handshakes *)

Definition tcp_server_process_syn (i : N) (m : mbuf) (th : Z) : M unit :=
  sk ← sk_get i;
  st_when (sk_is (sk_st sk) SK_TIME_WAIT) (sk_set_state i SK_CLOSED);;
  sk ← sk_get i;
  (if sk_is (sk_st sk) SK_CLOSED then
     seq ← m_ld (ld32 (m_buf m) (th + th_seq));
     socket_server_open i seq;;
     tcp_reply i (TH_SYN ||| TH_ACK)
   else if sk_is (sk_st sk) SK_SYN_RECEIVED then
     hz ← TSC_PER_SEC;
     tsc ← work_space_tsc;
     st_when (u64 (sk_timer_tsc sk + hz) <? tsc)
       (tcp_reply i (TH_SYN ||| TH_ACK);; stat_inc NS_syn_rt)
   else stat_inc NS_tcp_drop);;
  mbuf_free2 m.

Definition tcp_client_process_syn_ack (i : N) (m : mbuf) (th : Z) : M unit :=
  ack ← m_ld (ld32 (m_buf m) (th + th_ack));
  seq ← m_ld (ld32 (m_buf m) (th + th_seq));
  let ack := ntohl ack in
  let seq := ntohl seq in
  sk ← sk_get i;
  (if sk_is (sk_st sk) SK_SYN_SENT then
     if negb (ack =? sk_snd_nxt sk) then stat_inc NS_tcp_drop
     else
       tsc ← work_space_tsc;
       stat_mod (net_stats_rtt tsc (sk_timer_tsc sk));;
       sk_mod i (fun sk => sk <| sk_rcv_nxt := u32 (seq + 1) |> <| sk_snd_una := ack |>
                              <| sk_st := SK_ESTABLISHED |>);;
       tcp_reply i (TH_ACK ||| TH_PUSH)
   else if sk_is (sk_st sk) SK_ESTABLISHED then
     stat_inc NS_pkt_lost;;
     st_when ((ack =? sk_snd_nxt sk) && (u32 (seq + 1) =? sk_rcv_nxt sk))
       (tcp_reply i TH_ACK;; stat_inc NS_ack_rt)
   else stat_inc NS_tcp_drop);;
  mbuf_free2 m.

(** ** Sequence numbers *)

Definition snd_window_inc (sk : socket) : socket :=
  if sk_snd_window sk <? SEND_WINDOW_MAX then sk <| sk_snd_window ::= fun x => x + 1 |> else sk.

(** An acknowledgement of everything sent, with the expected data. *)
Definition tcp_accept_sequence (i : N) (ack seq data_len : Z) : M bool :=
  sk_mod i (fun sk => sk <| sk_retrans := 0 |>);;
  sk ← sk_get i;
  if sk_gt (sk_st sk) SK_CLOSED then
    let snd_last := sk_snd_una sk in
    sk_mod i (fun sk => sk <| sk_snd_una := ack |> <| sk_rcv_nxt := u32 (seq + data_len) |>);;
    send_window ← ws_get ws_send_window;
    (if send_window =? 0 then
       st_when (negb (snd_last =? ack)) (socket_stop_retransmit_timer i)
     else sk_mod i snd_window_inc);;
    mret true
  else mret false.

(** A segment that does not acknowledge everything, in window mode. *)
Definition tcp_window_ack (i : N) (ack : Z) : M bool :=
  sk ← sk_get i;
  if tcp_seq_gt ack (sk_snd_una sk) then
    sk_mod i (fun sk => sk <| sk_snd_una := ack |>);;
    sk_mod i snd_window_inc;;
    sk_mod i (fun sk => sk <| sk_retrans := 0 |>);;
    mret true
  else if ack =? sk_snd_una sk then
    sk_retrans_inc i;;
    stat_inc NS_ack_dup;;
    sk ← sk_get i;
    if sk_retrans sk <? 3 then mret false
    else
      tcp_resend_window i (fun _ => ack);;
      sk_mod i (fun sk => sk <| sk_retrans := 0 |> <| sk_snd_window := 1 |>);;
      mret false
  else mret false.

Definition tcp_check_sequence (i : N) (b : list Z) (th data_len : Z) : M bool :=
  ack ← m_ld (ld32 b (th + th_ack));
  seq ← m_ld (ld32 b (th + th_seq));
  flags ← m_ld (ld8 b (th + th_flags));
  let ack := ntohl ack in
  let seq := ntohl seq in
  let data_len := if has flags TH_FIN then u16 (data_len + 1) else data_len in
  sk ← sk_get i;
  if (ack =? sk_snd_nxt sk) && (seq =? sk_rcv_nxt sk) then tcp_accept_sequence i ack seq data_len
  else if sk_is (sk_st sk) SK_FIN_WAIT_1 && has flags TH_FIN && (data_len =? 1)
          && (ack =? sk_snd_una sk) && (seq =? sk_rcv_nxt sk) then
    sk_mod i (fun sk => sk <| sk_rcv_nxt := u32 (seq + 1) |> <| sk_st := SK_CLOSING |>);;
    mret true
  else if sk_is (sk_st sk) SK_CLOSED then mret false
  else if tcp_seq_le ack (sk_snd_nxt sk) then
    send_window ← ws_get ws_send_window;
    if negb (send_window =? 0) then tcp_window_ack i ack
    else
      hz ← TSC_PER_SEC;
      tsc ← work_space_tsc;
      st_when (u64 (sk_timer_tsc sk + hz) <? tsc) (tcp_do_retransmit i);;
      mret false
  else if ack =? sk_snd_nxt sk then
    st_when (tcp_seq_le seq (sk_rcv_nxt sk)) (tcp_reply i TH_ACK;; stat_inc NS_ack_rt);;
    mret false
  else mret false.

(** ** Server *)

(** The loop of [tcp_reply_more]: at most [n] more segments of the response. *)
Fixpoint reply_more_loop (n : nat) (i : N) (snd_wnd snd_max : Z) : M unit :=
  match n with
  | O => mret tt
  | S n =>
      sk ← sk_get i;
      if tcp_seq_lt (sk_snd_nxt sk) snd_wnd && tcp_seq_lt (sk_snd_nxt sk) snd_max then
        sk_mod i (fun sk => sk <| sk_snd_una := sk_snd_nxt sk |>);;
        tcp_reply i (TH_PUSH ||| TH_ACK ||| TH_URG);;
        reply_more_loop n i snd_wnd snd_max
      else mret tt
  end.

Definition tcp_reply_more (i : N) : M unit :=
  sk ← sk_get i;
  send_window ← ws_get ws_send_window;
  let snd_una := sk_snd_una sk in
  let snd_max := sk_snd_max sk in
  let snd_wnd := u32 (snd_una + send_window) in
  reply_more_loop (Z.to_nat (sk_snd_window sk)) i snd_wnd snd_max;;
  sk_mod i (fun sk => sk <| sk_snd_una := snd_una |>);;
  if snd_una =? snd_max then
    if sk_keepalive sk then
      tsc ← work_space_tsc;
      socket_start_timeout_timer i tsc
    else
      sk_set_state i SK_FIN_WAIT_1;;
      tcp_reply i (TH_FIN ||| TH_ACK)
  else mret tt.

(** A response in window mode: one segment at first, then a burst. *)
Definition tcp_server_window_response (i : N) : M unit :=
  payload_size ← ws_get ws_payload_size;
  sk_mod i (socket_init_http_server payload_size);;
  stat_inc NS_tcp_rsp;;
  stat_inc NS_http_2xx;;
  sk ← sk_get i;
  (if negb (sk_keepalive_request_num sk =? 0) then tcp_reply_more i
   else
     tcp_reply i (TH_PUSH ||| TH_ACK);;
     sk_mod i (fun sk => sk <| sk_keepalive_request_num := 1 |>));;
  tsc ← work_space_tsc;
  socket_start_retransmit_timer i tsc.

(** The end of [tcp_server_process_data] after the established state. *)
Definition tcp_server_finish (i : N) (rx_flags tx_flags : Z) : M unit :=
  sk ← sk_get i;
  tx_flags ← (if sk_gt (sk_st sk) SK_ESTABLISHED || has (rx_flags ||| tx_flags) TH_FIN
              then tcp_process_fin i rx_flags tx_flags else mret tx_flags);
  sk ← sk_get i;
  if negb (tx_flags =? 0) then tcp_reply i tx_flags
  else if negb (sk_is (sk_st sk) SK_CLOSED) then
    tsc ← work_space_tsc;
    socket_start_timeout_timer i tsc
  else mret tt.

Definition tcp_server_process_data (i : N) (m : mbuf) (iph th : Z) : M unit :=
  let b := m_buf m in
  rx_flags ← m_ld (ld8 b (th + th_flags));
  '(data, data_len) ← st_lift OutOfBounds (tcp_data_get b iph th);
  ok ← tcp_check_sequence i b th data_len;
  (if negb ok then stat_inc NS_tcp_drop
   else
     sk ← sk_get i;
     st_when (sk_lt (sk_st sk) SK_ESTABLISHED) (sk_set_state i SK_ESTABLISHED);;
     sk ← sk_get i;
     send_window ← ws_get ws_send_window;
     let window := negb (send_window =? 0) && negb (has rx_flags TH_FIN) in
     if sk_is (sk_st sk) SK_ESTABLISHED then
       if negb (data_len =? 0) then
         http_parse_request (bytes_from b data) data_len;;
         if window then tcp_server_window_response i
         else
           tcp_server_finish i rx_flags
             (TH_PUSH ||| TH_ACK ||| (if sk_keepalive sk then 0 else TH_FIN))
       else if window then tcp_reply_more i
       else tcp_server_finish i rx_flags 0
     else tcp_server_finish i rx_flags 0);;
  mbuf_free2 m.

(** ** Delayed acknowledgements *)

Fixpoint ack_delay_loop (l : list N) : M unit :=
  match l with
  | [] => mret tt
  | i :: l =>
      sk ← sk_get i;
      st_when (sk_http_ack sk)
        (sk_mod i (fun sk => sk <| sk_http_ack := false |>);;
         sk ← sk_get i;
         st_when (sk_is (sk_st sk) SK_ESTABLISHED) (tcp_reply i TH_ACK));;
      ack_delay_loop l
  end.

Definition tcp_ack_delay_flush : M unit :=
  l ← ws_get ws_ack_delay;
  ack_delay_loop l;;
  ws_mod (fun ws => ws <| ws_ack_delay := [] |>).

Definition tcp_ack_delay_add (i : N) : M unit :=
  sk ← sk_get i;
  if sk_http_ack sk then mret tt
  else
    l ← ws_get ws_ack_delay;
    st_when (TCP_ACK_DELAY_MAX <=? Z.of_nat (length l)) tcp_ack_delay_flush;;
    ws_mod (fun ws => ws <| ws_ack_delay ::= fun l => l ++ [i] |>);;
    sk_mod i (fun sk => sk <| sk_http_ack := true |>).

(** ** Client *)

(** [keepalive_request_interval >= retransmit_timeout] without [disable_ack]:
    data is acknowledged at once because the next request is far away. *)
Definition ack_now : M bool :=
  cfg ← cfg_get id;
  disable_ack ← ws_get ws_disable_ack;
  mret ((c_retransmit_timeout cfg <=? c_keepalive_request_interval cfg) && negb disable_ack).

Definition http_client_process_data (i : N) (rx_flags : Z) (data : list Z) : M Z :=
  ret ← http_parse_run i data;
  if ret =? HTTP_PARSE_OK then
    sk_mod i (fun sk => if sk_http_frags sk <? 4 then sk <| sk_http_frags ::= fun x => x + 1 |> else sk);;
    if negb (has rx_flags TH_FIN) then tcp_ack_delay_add i;; mret 0
    else mret TH_ACK
  else if ret =? HTTP_PARSE_END then
    sk ← sk_get i;
    let http_frags := sk_http_frags sk in
    sk_mod i socket_init_http;;
    if sk_keepalive sk && negb (has rx_flags TH_FIN) then
      now ← ack_now;
      st_when ((2 <=? http_frags) || now) (tcp_ack_delay_add i);;
      tsc ← work_space_tsc;
      socket_start_keepalive_timer i tsc;;
      mret 0
    else
      sk_mod i (fun sk => sk <| sk_http_ack := false |>);;
      mret (TH_ACK ||| TH_FIN)
  else
    sk_mod i (fun sk => socket_init_http sk <| sk_keepalive := false |> <| sk_http_length := 0 |>);;
    stat_inc NS_http_error;;
    mret (TH_ACK ||| TH_FIN).

Definition tcp_send_keepalive_request (i : N) : M unit :=
  in_duration ← work_space_in_duration;
  if (in_duration : bool) then
    sk_mod i (fun sk => sk <| sk_keepalive_request_num ::= fun x => (x + 1) mod 2 ^ 15 |>);;
    tcp_reply i (TH_ACK ||| TH_PUSH);;
    max ← cfg_get c_keepalive_request_num;
    sk ← sk_get i;
    st_when ((0 <? max) && (max <=? sk_keepalive_request_num sk))
      (sk_mod i (fun sk => sk <| sk_keepalive := false |>))
  else
    sk_set_state i SK_FIN_WAIT_1;;
    tcp_reply i (TH_ACK ||| TH_FIN);;
    sk_mod i (fun sk => sk <| sk_keepalive := false |>).

(** The payload of a response in the established state: the flags to send. *)
Definition tcp_client_established_data (i : N) (rx_flags : Z) (b : list Z) (data data_len : Z) : M Z :=
  http ← ws_get ws_http;
  if (http : bool) then
    bytes ← st_lift OutOfBounds (ld_bytes b data data_len);
    http_client_process_data i rx_flags bytes
  else
    http_parse_response (bytes_from b data) data_len;;
    sk ← sk_get i;
    if negb (sk_keepalive sk) then mret (TH_ACK ||| TH_FIN)
    else
      interval ← cfg_get c_keepalive_request_interval;
      (if negb (interval =? 0) then socket_start_keepalive_timer i (sk_timer_tsc sk)
       else tcp_send_keepalive_request i);;
      mret TH_ACK.

(** The end of [tcp_client_process_data], after the established state. *)
Definition tcp_client_finish (i : N) (rx_flags tx_flags : Z) : M unit :=
  sk ← sk_get i;
  tx_flags ← (if sk_gt (sk_st sk) SK_ESTABLISHED || has (rx_flags ||| tx_flags) TH_FIN
              then tcp_process_fin i rx_flags tx_flags else mret tx_flags);
  sk ← sk_get i;
  now ← ack_now;
  st_when (negb (tx_flags =? 0)
           && (has rx_flags TH_FIN || negb (tx_flags =? TH_ACK) || negb (sk_keepalive sk)
               || (sk_keepalive sk && now)))
    (tcp_reply i tx_flags).

Definition tcp_client_process_data (i : N) (m : mbuf) (iph th : Z) : M unit :=
  let b := m_buf m in
  rx_flags ← m_ld (ld8 b (th + th_flags));
  '(data, data_len) ← st_lift OutOfBounds (tcp_data_get b iph th);
  ok ← tcp_check_sequence i b th data_len;
  (if negb ok then stat_inc NS_tcp_drop
   else
     sk ← sk_get i;
     if sk_is (sk_st sk) SK_ESTABLISHED then
       tx_flags ← (if negb (data_len =? 0) then tcp_client_established_data i rx_flags b data data_len
                   else mret 0);
       fast_close ← ws_get ws_fast_close;
       if has tx_flags TH_FIN && fast_close then
         tcp_reply i (TH_RST ||| TH_ACK);;
         socket_close i
       else tcp_client_finish i rx_flags tx_flags
     else tcp_client_finish i rx_flags 0);;
  mbuf_free2 m.

(** ** Received segments *)

(** A segment that belongs to no socket. *)
Definition tcp_no_socket (m : mbuf) : M unit :=
  kni ← ws_get ws_kni;
  local ← (if (kni : bool) then work_space_is_local_addr m else mret false);
  if (local : bool) then kni_recv (Some m)
  else
    tcp_rst ← cfg_get c_tcp_rst;
    if (tcp_rst : bool) then tcp_reply_rst m
    else stat_inc NS_tcp_drop;; mbuf_free2 m.

Definition tcp_server_process (m : mbuf) : M unit :=
  let iph := mbuf_ip_hdr m in
  th ← m_ld (mbuf_tcp_hdr m);
  flags ← m_ld (ld8 (m_buf m) (th + th_flags));
  sk ← socket_server_lookup (m_buf m) iph th;
  match sk with
  | None => tcp_no_socket m
  | Some i =>
      tcp_flags_rx_count flags;;
      if negb (has flags (TH_SYN ||| TH_RST)) && has flags TH_ACK then
        tcp_server_process_data i m iph th
      else if flags =? TH_SYN then tcp_server_process_syn i m th
      else if has flags TH_RST then tcp_process_rst i m
      else stat_inc NS_tcp_drop;; mbuf_free2 m
  end.

Definition tcp_client_process (m : mbuf) : M unit :=
  let iph := mbuf_ip_hdr m in
  th ← m_ld (mbuf_tcp_hdr m);
  flags ← m_ld (ld8 (m_buf m) (th + th_flags));
  sk ← socket_client_lookup (m_buf m) iph th;
  match sk with
  | None => tcp_no_socket m
  | Some i =>
      tcp_flags_rx_count flags;;
      if negb (has flags (TH_SYN ||| TH_RST)) && has flags TH_ACK then
        tcp_client_process_data i m iph th
      else if flags =? (TH_SYN ||| TH_ACK) then tcp_client_process_syn_ack i m th
      else if has flags TH_RST then tcp_process_rst i m
      else stat_inc NS_tcp_drop;; mbuf_free2 m
  end.

Definition tcp_drop (m : mbuf) : M unit :=
  kni ← ws_get ws_kni;
  local ← (if (kni : bool) then work_space_is_local_addr m else mret false);
  if (local : bool) then kni_recv (Some m)
  else stat_inc NS_tcp_drop;; mbuf_free m.

(** ** Timers and launch *)

Definition tcp_do_keepalive (i : N) : M unit :=
  sk ← sk_get i;
  if negb (sk_snd_nxt sk =? sk_snd_una sk) || negb (sk_is (sk_st sk) SK_ESTABLISHED)
     || negb (sk_keepalive sk) then
    flood ← ws_get ws_flood;
    if (flood : bool) then
      in_duration ← work_space_in_duration;
      if (in_duration : bool) then
        tcp_reply i TH_SYN;;
        sk_mod i (fun sk => sk <| sk_snd_una := sk_snd_nxt sk |>);;
        tsc ← work_space_tsc;
        socket_start_keepalive_timer i tsc
      else socket_close i
    else
      st_when (negb (sk_keepalive sk) && sk_is (sk_st sk) SK_ESTABLISHED)
        (sk_set_state i SK_FIN_WAIT_1;; tcp_reply i (TH_ACK ||| TH_FIN))
  else
    server ← cfg_get c_server;
    st_when (negb server) (tcp_send_keepalive_request i).

(** One connection of [tcp_client_launch]. *)
Definition tcp_client_launch_one : M unit :=
  tsc ← work_space_tsc;
  o ← socket_client_open tsc;
  match o with
  | None => mret tt
  | Some i =>
      tcp_reply i TH_SYN;;
      flood ← ws_get ws_flood;
      st_when flood
        (sk ← sk_get i;
         if sk_keepalive sk then
           sk_mod i (fun sk => sk <| sk_snd_una := sk_snd_nxt sk |>);;
           tsc ← work_space_tsc;
           socket_start_keepalive_timer i tsc
         else socket_close i)
  end.

Fixpoint repeat_m (n : nat) (m : M unit) : M unit :=
  match n with O => mret tt | S n => m;; repeat_m n m end.

Definition tcp_client_launch : M Z :=
  num ← work_space_client_launch_num;
  repeat_m (Z.to_nat num) tcp_client_launch_one;;
  mret num.

Definition tcp_client_socket_timer_process : M unit :=
  cfg ← cfg_get id;
  socket_timer_run T_retransmit (c_retransmit_timeout cfg) tcp_do_retransmit;;
  st_when (c_keepalive cfg)
    (socket_timer_run T_keepalive (c_keepalive_request_interval cfg) tcp_do_keepalive).

Definition tcp_server_socket_timer_process : M unit :=
  rto ← cfg_get c_retransmit_timeout;
  socket_timer_run T_retransmit (u64 (rto + rto / 10)) tcp_do_retransmit.
End Tcp.
