(* ===== verification/Neigh.v ===== *)
(** * Neigh: ARP, ICMP and neighbour discovery

    The handlers of [src/arp.c], [src/icmp.c] and [src/icmp6.c], the requests
    for the gateway's address and [work_space_update_gw], which puts the answer
    into the templates of every worker of the port. *)

From S2P Require Import Prelude IpRange Config Mbuf NetStats World WorkSpace.
From S2P Require Import Kni TcpPacket.

(** ** Headers *)

Definition eth_addr_copy (dst : Z) (src : eth_addr) (b : list Z) : option (list Z) := st_bytes dst src b.

Definition eth_addr_is_zero (ea : eth_addr) : bool := bool_decide (ea = eth_addr_zero).

Definition eth_hdr_set (eth type : Z) (d_addr s_addr : eth_addr) (b : list Z) : option (list Z) :=
  b ← st16 (eth + eth_type) (htons type) b;
  b ← eth_addr_copy eth d_addr b;
  eth_addr_copy (eth + 6) s_addr b.

Definition g_mac_zero : eth_addr := eth_addr_zero.
Definition g_mac_full : eth_addr := [255; 255; 255; 255; 255; 255].

Definition ARPHDR_LEN : Z := 28.
Definition ar_op : Z := 6.
Definition ar_sha : Z := 8.
Definition ar_sip : Z := 14.
Definition ar_tha : Z := 18.
Definition ar_tip : Z := 24.
Definition ARP_REQUEST : Z := 1.
Definition ARP_REPLY : Z := 2.

Definition mbuf_arphdr (m : mbuf) : Z := m_data_off m + ETH_HDR_LEN.

Definition arp_set_arphdr (arp op sip dip : Z) (sa da : eth_addr) (b : list Z) : option (list Z) :=
  b ← st16 arp (htons 1) b;
  b ← st16 (arp + 2) (htons 2048) b;
  b ← st8 (arp + 4) 6 b;
  b ← st8 (arp + 5) 4 b;
  b ← st16 (arp + ar_op) (htons op) b;
  b ← st32 (arp + ar_sip) sip b;
  b ← st32 (arp + ar_tip) dip b;
  b ← eth_addr_copy (arp + ar_sha) sa b;
  eth_addr_copy (arp + ar_tha) da b.

Definition iph_swap_addr (iph : Z) (b : list Z) : option (list Z) :=
  s ← ld32 b (iph + iph_saddr);
  d ← ld32 b (iph + iph_daddr);
  b ← st32 (iph + iph_saddr) d b;
  st32 (iph + iph_daddr) s b.

Definition ip6h_swap_addr (ip6h : Z) (b : list Z) : option (list Z) :=
  s ← ld_ip6_addr b (ip6h + ip6_src);
  d ← ld_ip6_addr b (ip6h + ip6_dst);
  b ← st_ip6_addr (ip6h + ip6_src) d b;
  st_ip6_addr (ip6h + ip6_dst) s b.

Section Neigh.
Context {D : Dpdk}.

(** ** The gateway *)

(** [g_work_space_all] is this worker and the others ([w_peers]). *)
Definition update_gw (ea : eth_addr) : M unit :=
  ws ← ws_get id;
  peers ← st_gets w_peers;
  let port_id := np_id (ws_port ws) in
  ws ← st_lift OutOfBounds (work_space_update_gw_one ea port_id ws);
  peers ← st_lift OutOfBounds (work_space_update_gw ea port_id peers);
  st_modify (fun w => w <| w_ws := ws |> <| w_peers := peers |>).

(** ** ARP *)

Definition arp_send (m : mbuf) : M unit :=
  port ← ws_get ws_port;
  st_when (port_is_bond4 port) (bond_broadcast m);;
  work_space_tx_send m;;
  stat_inc NS_arp_tx.

Definition arp_set_request (m : mbuf) (smac : eth_addr) (dip sip : Z) : M mbuf :=
  '(eth, m) ← mbuf_push_data m ETH_HDR_LEN;
  '(arp, m) ← mbuf_push_data m ARPHDR_LEN;
  m ← m_st (eth_hdr_set eth ETHER_TYPE_ARP g_mac_full smac) m;
  m_st (arp_set_arphdr arp ARP_REQUEST sip dip smac g_mac_zero) m.

Definition arp_request_gw2 (local_ip : Z) : M unit :=
  port ← ws_get ws_port;
  m ← work_space_alloc_mbuf;
  match m with
  | None => mret tt
  | Some m =>
      m ← arp_set_request m (np_local_mac port) (ip (np_gateway_ip port)) local_ip;
      arp_send m
  end.

Fixpoint arp_request_range (n : nat) (i : Z) (r : ip_range) : M unit :=
  match n with
  | O => mret tt
  | S n =>
      ip ← st_lift OutOfBounds (ip_range_get r i);
      arp_request_gw2 ip;;
      arp_request_range n (i + 1) r
  end.

Definition arp_request_gw : M unit :=
  ws ← ws_get id;
  let port := ws_port ws in
  if np_ipv6 port then mret tt
  else
    r ← st_lift OutOfBounds (if ws_vxlan ws then vx_vtep_local <$> np_vxlan port
                             else Some (np_local_ip_range port));
    arp_request_gw2 (ip (np_local_ip port));;
    if ws_neigh_ignore ws then mret tt
    else arp_request_range (Z.to_nat (num r)) 0 r.

Definition arp_reply (m : mbuf) : M unit :=
  let eth := mbuf_eth_hdr m in
  let arph := mbuf_arphdr m in
  sip ← m_ld (ld32 (m_buf m) (arph + ar_tip));
  dip ← m_ld (ld32 (m_buf m) (arph + ar_sip));
  port ← ws_get ws_port;
  let smac := np_local_mac port in
  dmac ← st_lift OutOfBounds (ld_bytes (m_buf m) (eth + 6) 6);
  m ← m_st (eth_hdr_set eth ETHER_TYPE_ARP dmac smac) m;
  m ← m_st (arp_set_arphdr arph ARP_REPLY sip dip smac dmac) m;
  arp_send m.

Definition arp_process_reply (m : mbuf) : M unit :=
  port ← ws_get ws_port;
  sip ← m_ld (ld32 (m_buf m) (mbuf_arphdr m + ar_sip));
  st_when ((ip (np_gateway_ip port) =? sip) && eth_addr_is_zero (np_gateway_mac port))
    (ea ← st_lift OutOfBounds (ld_bytes (m_buf m) (mbuf_eth_hdr m + 6) 6);
     update_gw ea);;
  mbuf_free m.

Definition arp_process_request (m : mbuf) : M unit :=
  dip ← m_ld (ld32 (m_buf m) (mbuf_arphdr m + ar_tip));
  ws ← ws_get id;
  exist ← st_lift OutOfBounds (work_space_ip_exist ws dip);
  if negb exist then mbuf_free m
  else if ws_neigh_ignore ws && negb (dip =? ip (np_local_ip (ws_port ws))) then mbuf_free m
  else arp_reply m.

Definition arp_process (m : mbuf) : M unit :=
  stat_inc NS_arp_rx;;
  kni ← ws_get ws_kni;
  st_when kni (kni_broadcast m);;
  op ← m_ld (ld16 (m_buf m) (mbuf_arphdr m + ar_op));
  if op =? htons ARP_REQUEST then arp_process_request m
  else if op =? htons ARP_REPLY then arp_process_reply m
  else mbuf_free m.

(** ** ICMP *)

Definition ICMP_ECHO : Z := 8.
Definition ICMP_ECHOREPLY : Z := 0.

(** The echo reply: the type changes from 8 to 0, and the checksum with it. *)
Definition icmp_set_reply (icmph : Z) (b : list Z) : option (list Z) :=
  b ← st8 icmph ICMP_ECHOREPLY b;
  checksum ← ld16 b (icmph + 2);
  st16 (icmph + 2) (u16 (checksum + htons 2048)) b.

(** An echo request is answered; everything else goes to the kernel or is freed. *)
Definition icmp_process (m : mbuf) : M unit :=
  let eth := mbuf_eth_hdr m in
  let iph := mbuf_ip_hdr m in
  let icmph := mbuf_icmp_hdr m in
  stat_inc NS_icmp_rx;;
  type ← m_ld (ld8 (m_buf m) icmph);
  if negb (type =? ICMP_ECHO) then
    kni ← ws_get ws_kni;
    local ← (if (kni : bool) then work_space_is_local_addr m else mret false);
    if (local : bool) then kni_recv (Some m) else mbuf_free m
  else
    tos ← cfg_get c_tos;
    m ← m_st (icmp_set_reply icmph) m;
    m ← m_st (iph_swap_addr iph) m;
    m ← m_st (st8 (iph + iph_tos) tos) m;
    m ← m_st (st8 (iph + iph_ttl) DEFAULT_TTL) m;
    m ← csum_ip_compute m;
    m ← m_st (eth_addr_swap eth) m;
    work_space_tx_send m;;
    stat_inc NS_icmp_tx.

(** ** ICMPv6 *)

Definition ICMP6_ECHO_REQUEST : Z := 128.
Definition ICMP6_ECHO_REPLY : Z := 129.
Definition ND_OPT_SOURCE_LINKADDR : Z := 1.
Definition ND_OPT_TARGET_LINKADDR : Z := 2.
Definition ND_NA_FLAG_SOLICITED : Z := 64.
Definition ND_NA_FLAG_OVERRIDE : Z := 32.
(** Offsets in [struct nd_neighbor_solicit] and [nd_neighbor_advert]. *)
Definition icmp6_cksum : Z := 2.
Definition nd_flags : Z := 4.
Definition nd_target : Z := 8.
Definition ND_LEN : Z := 24.
Definition ND_OPT_LEN : Z := 8.

Definition icmp6_nd_opt_set (opt type : Z) (mac : eth_addr) (b : list Z) : option (list Z) :=
  b ← st8 opt type b;
  b ← st8 (opt + 1) 1 b;
  eth_addr_copy (opt + 2) mac b.

Definition icmp6_nd_na_set (na : Z) (smac : eth_addr) (b : list Z) : option (list Z) :=
  b ← st8 na ND_NEIGHBOR_ADVERT b;
  b ← st8 (na + 1) 0 b;
  b ← st16 (na + icmp6_cksum) 0 b;
  b ← st32 (na + nd_flags) (ND_NA_FLAG_SOLICITED ||| ND_NA_FLAG_OVERRIDE) b;
  icmp6_nd_opt_set (na + ND_LEN) ND_OPT_TARGET_LINKADDR smac b.

(** The checksum of the message at [icmp6h]. *)
Definition icmp6_set_cksum (ip6h icmp6h : Z) (b : list Z) : option (list Z) :=
  b ← st16 (icmp6h + icmp6_cksum) 0 b;
  st16 (icmp6h + icmp6_cksum)
    (rte_ipv6_udptcp_cksum (bytes_from b ip6h) (bytes_from b icmp6h)) b.

Definition icmp6_send (m : mbuf) : M unit :=
  neigh ← st_lift OutOfBounds (icmp6_is_neigh m);
  port ← ws_get ws_port;
  st_when ((neigh : bool) && port_is_bond4 port) (bond_broadcast m);;
  stat_inc NS_icmp_tx;;
  work_space_tx_send m.

(** Back to the sender of the frame, from this port. *)
Definition eth_reply (eth : Z) (smac : eth_addr) (b : list Z) : option (list Z) :=
  s ← ld_bytes b (eth + 6) 6;
  b ← eth_addr_copy eth s b;
  eth_addr_copy (eth + 6) smac b.

Definition icmp6_ns_process (m : mbuf) : M unit :=
  let eth := mbuf_eth_hdr m in
  let ip6h := mbuf_ip_hdr m in
  let icmp6h := mbuf_icmp6_hdr m in
  stat_inc NS_icmp_rx;;
  addr ← st_lift OutOfBounds (ld_ip6_addr (m_buf m) (icmp6h + nd_target));
  hops ← m_ld (ld8 (m_buf m) (ip6h + ip6_hops));
  ws ← ws_get id;
  exist ← st_lift OutOfBounds (work_space_ip6_exist ws addr);
  if negb exist || negb (hops =? ND_TTL) then mbuf_free m
  else
    kni_broadcast m;;
    if ws_neigh_ignore ws && ipaddr_eq (np_local_ip (ws_port ws)) addr then mbuf_free m
    else
      let smac := np_local_mac (ws_port ws) in
      m ← m_st (eth_reply eth smac) m;
      src ← st_lift OutOfBounds (ld_ip6_addr (m_buf m) (ip6h + ip6_src));
      m ← m_st (st_ip6_addr (ip6h + ip6_dst) src) m;
      m ← m_st (st_ip6_addr (ip6h + ip6_src) addr) m;
      m ← m_st (icmp6_nd_na_set icmp6h smac) m;
      m ← m_st (icmp6_set_cksum ip6h icmp6h) m;
      icmp6_send m.

Definition icmp6_na_process (m : mbuf) : M unit :=
  port ← ws_get ws_port;
  src ← st_lift OutOfBounds (ld_ip6_addr (m_buf m) (mbuf_ip_hdr m + ip6_src));
  st_when (ipaddr_eq (np_gateway_ip port) src && eth_addr_is_zero (np_gateway_mac port))
    (ea ← st_lift OutOfBounds (ld_bytes (m_buf m) (mbuf_eth_hdr m + 6) 6);
     update_gw ea);;
  kni ← ws_get ws_kni;
  if (kni : bool) then kni_recv (Some m) else mbuf_free m.

(** [ip6_flow |= htonl(tos << 20)]. *)
Definition ip6_or_tos (ip6h tos : Z) (b : list Z) : option (list Z) :=
  flow ← ld32 b (ip6h + ip6_flow);
  st32 (ip6h + ip6_flow) (flow ||| htonl (u32 (tos <<< 20))) b.

Definition icmp6_echo_process (m : mbuf) : M unit :=
  let eth := mbuf_eth_hdr m in
  let ip6h := mbuf_ip_hdr m in
  let icmp6h := mbuf_icmp6_hdr m in
  addr ← st_lift OutOfBounds (ld_ip6_addr (m_buf m) (ip6h + ip6_dst));
  ws ← ws_get id;
  exist ← st_lift OutOfBounds (work_space_ip6_exist ws addr);
  if negb exist then mbuf_free m
  else
    tos ← cfg_get c_tos;
    m ← m_st (eth_reply eth (np_local_mac (ws_port ws))) m;
    m ← m_st (ip6h_swap_addr ip6h) m;
    m ← m_st (ip6_or_tos ip6h tos) m;
    m ← m_st (st8 icmp6h ICMP6_ECHO_REPLY) m;
    m ← m_st (st8 (icmp6h + 1) 0) m;
    m ← m_st (icmp6_set_cksum ip6h icmp6h) m;
    icmp6_send m.

Definition icmp6_process (m : mbuf) : M unit :=
  let icmp6h := mbuf_icmp6_hdr m in
  type ← m_ld (ld8 (m_buf m) icmp6h);
  code ← m_ld (ld8 (m_buf m) (icmp6h + 1));
  stat_inc NS_icmp_rx;;
  if negb (code =? 0) then mbuf_free m
  else if type =? ICMP6_ECHO_REQUEST then icmp6_echo_process m
  else if type =? ND_NEIGHBOR_SOLICIT then icmp6_ns_process m
  else if type =? ND_NEIGHBOR_ADVERT then icmp6_na_process m
  else if type =? ICMP6_ECHO_REPLY then
    kni ← ws_get ws_kni;
    local ← (if (kni : bool) then work_space_is_local_addr m else mret false);
    if (local : bool) then kni_recv (Some m) else mbuf_free m
  else mbuf_free m.

(** ** Requests *)

(** The solicited-node multicast address: ff02::1:ff and the last three bytes. *)
Definition icmp6_multicast_ip6_addr (unicast : ipaddr_t) : ipaddr_t :=
  IpAddr (255 + 256 * 2) 0 (16777216 * 1) (255 + 256 * (ip unicast / 256)).

Definition bytes_of_u32 (x : Z) : list Z :=
  [x mod 256; x / 256 mod 256; x / 65536 mod 256; x / 16777216 mod 256].

Definition icmp6_multicast_ether_addr (daddr : ipaddr_t) : eth_addr :=
  [51; 51] ++ bytes_of_u32 (ip (icmp6_multicast_ip6_addr daddr)).

Definition icmp6_ns_eth_hdr_push (port : netif_port) (m : mbuf) : M mbuf :=
  let dmac := icmp6_multicast_ether_addr (np_gateway_ip port) in
  '(eth, m) ← mbuf_push_data m ETH_HDR_LEN;
  m_st (eth_hdr_set eth ETHER_TYPE_IPv6 dmac (np_local_mac port)) m.

Definition icmp6_ns_set_ip6 (port : netif_port) (ip6h : Z) (b : list Z) : option (list Z) :=
  b ← st_bytes ip6h (zeros IP6_HDR_LEN) b;
  b ← st8 ip6h (6 * 16) b;
  b ← st8 (ip6h + ip6_hops) ND_TTL b;
  b ← st_ip6_addr (ip6h + ip6_src) (np_local_ip port) b;
  b ← st16 (ip6h + ip6_plen) (htons (ND_LEN + ND_OPT_LEN)) b;
  b ← st8 (ip6h + ip6_nxt) IPPROTO_ICMPV6 b;
  st_ip6_addr (ip6h + ip6_dst) (icmp6_multicast_ip6_addr (np_gateway_ip port)) b.

Definition icmp6_ns_ip6_hdr_push (port : netif_port) (m : mbuf) : M mbuf :=
  '(ip6h, m) ← mbuf_push_data m IP6_HDR_LEN;
  m_st (icmp6_ns_set_ip6 port ip6h) m.

Definition icmp6_ns_set (port : netif_port) (ns : Z) (b : list Z) : option (list Z) :=
  b ← st_bytes ns (zeros ND_LEN) b;
  b ← st8 ns ND_NEIGHBOR_SOLICIT b;
  st_ip6_addr (ns + nd_target) (np_gateway_ip port) b.

Definition icmp6_ns_hdr_push (port : netif_port) (m : mbuf) : M mbuf :=
  let ip6h := mbuf_ip_hdr m in
  '(ns, m) ← mbuf_push_data m ND_LEN;
  m ← m_st (icmp6_ns_set port ns) m;
  '(opt, m) ← mbuf_push_data m ND_OPT_LEN;
  m ← m_st (icmp6_nd_opt_set opt ND_OPT_SOURCE_LINKADDR (np_local_mac port)) m;
  m_st (icmp6_set_cksum ip6h ns) m.

Definition icmp6_ns_request : M unit :=
  ipv6 ← ws_get ws_ipv6;
  if negb ipv6 then mret tt
  else
    m ← work_space_alloc_mbuf;
    match m with
    | None => mret tt
    | Some m =>
        port ← ws_get ws_port;
        m ← icmp6_ns_eth_hdr_push port m;
        m ← icmp6_ns_ip6_hdr_push port m;
        m ← icmp6_ns_hdr_push port m;
        icmp6_send m
    end.

Definition neigh_resolve_gateway_mac_address : M unit :=
  ws ← ws_get id;
  if negb (ws_queue_id ws =? 0) then mret tt
  else
    (if np_ipv6 (ws_port ws) then icmp6_ns_request else arp_request_gw);;
    work_space_tx_flush.

Definition neigh_gateway_is_enable : M bool :=
  port ← ws_get ws_port;
  mret (negb (eth_addr_is_zero (np_gateway_mac port))).
End Neigh.
