(* ===== verification/Udp.v ===== *)
(** * Udp: UDP clients and servers

    [src/udp.c]: datagrams, the echo of a server, and the client's requests,
    timers and launches.  A client's socket is [SK_SYN_SENT] while a request is
    outstanding and [SK_SYN_RECEIVED] after the answer. *)

From S2P Require Import Prelude SocketNode Csum IpRange Tick Config Mbuf NetStats.
From S2P Require Import World WorkSpace Socket SocketTimer Kni TcpPacket Tcp.

Section Udp.
Context {D : Dpdk}.

(** ** Datagrams *)

Definition udp_change_dipv6 (m : mbuf) (ip6h uh : Z) : M mbuf :=
  addr_old ← st_lift OutOfBounds (ld_ip6_addr (m_buf m) (ip6h + ip6_dst));
  addr_new ← dip_next_ipv6;
  m ← m_st (st_ip6_addr (ip6h + ip6_dst) addr_new) m;
  check ← m_ld (ld16 (m_buf m) (uh + uh_check));
  m_st (st16 (uh + uh_check)
          (csum_update_u128 check (ipaddr_words addr_old) (ipaddr_words addr_new))) m.

Definition udp_change_dipv4 (m : mbuf) (iph uh : Z) : M mbuf :=
  addr_old ← m_ld (ld32 (m_buf m) (iph + iph_daddr));
  addr_new ← dip_next_ipv4;
  m ← m_st (st32 (iph + iph_daddr) addr_new) m;
  check ← m_ld (ld16 (m_buf m) (iph + iph_check));
  m ← m_st (st16 (iph + iph_check) (csum_update_u32 check addr_old addr_new)) m;
  check ← m_ld (ld16 (m_buf m) (uh + uh_check));
  m_st (st16 (uh + uh_check) (csum_update_u32 check addr_old addr_new)) m.

Definition udp_change_dip (m : mbuf) (iph uh : Z) : M mbuf :=
  ipv6 ← ws_get ws_ipv6;
  if (ipv6 : bool) then udp_change_dipv6 m iph uh else udp_change_dipv4 m iph uh.

(** The inner headers of a VXLAN datagram: their addresses and the packet. *)
Definition udp_vxlan_headers (ipv6 : bool) (ip_id : Z) (sk : socket) (m : mbuf) : M (Z * Z * mbuf) :=
  let vxhs := mbuf_eth_hdr m in
  m ← m_st (st16 (vxhs + vxhs_uh + uh_source)
              (u16 (sk_fport sk + sk_lport sk + sk_csum_ip sk) ||| htons 49152)) m;
  let iph := mbuf_eth_hdr m + VXLAN_HEADERS_SIZE + ETH_HDR_LEN in
  if ipv6 then mret (iph, iph + IP6_HDR_LEN, m)
  else
    m ← m_st (st16 (iph + iph_check) (csum_update_u16 (sk_csum_ip sk) 0 (htons ip_id))) m;
    mret (iph, iph + IPHDR_LEN, m).

Definition udp_set_udp (uh : Z) (sk : socket) (m : mbuf) : M mbuf :=
  m ← m_st (st16 (uh + uh_source) (sk_lport sk)) m;
  m ← m_st (st16 (uh + uh_dest) (sk_fport sk)) m;
  m_st (st16 (uh + uh_check) (sk_csum_tcp sk)) m.

(** [csum_udp] shares its place with [csum_tcp], and the template with [tcp]. *)
Definition udp_new_packet (i : N) : M (option mbuf) :=
  ws ← ws_get id;
  sk ← sk_get i;
  m ← mbuf_cache_alloc Cache_tcp;
  match m with
  | None => mret None
  | Some m =>
      '(iph, uh, m) ← (if ws_vxlan ws then udp_vxlan_headers (ws_ipv6 ws) (ws_ip_id ws) sk m
                       else uh ← m_ld (mbuf_tcp_hdr m); mret (mbuf_ip_hdr m, uh, m));
      m ← tcp_set_ip iph sk m;
      m ← udp_set_udp uh sk m;
      m ← (if ws_change_dip ws then udp_change_dip m iph uh else mret m);
      mret (Some m)
  end.

Definition udp_send (i : N) : M unit :=
  m ← udp_new_packet i;
  match m with Some m => work_space_tx_send_udp m | None => mret tt end.

(** ** Timers *)

Definition udp_retransmit_handler (i : N) : M unit :=
  sk ← sk_get i;
  st_when (negb (sk_laddr sk =? 0)) (stat_inc NS_udp_rt);;
  socket_close i.

Definition udp_send_request (i : N) : M unit :=
  sk_mod i (fun sk => sk <| sk_st := SK_SYN_SENT |>
                         <| sk_keepalive_request_num ::= fun x => (x + 1) mod 2 ^ 15 |>);;
  udp_send i.

(** [do { ... pipeline--; } while (pipeline > 0)]: the number of rounds. *)
Definition pipeline_rounds (pipeline : Z) : Z := Z.max 1 pipeline.

Definition udp_socket_keepalive_timer_handler (i : N) : M unit :=
  pipeline ← cfg_get c_pipeline;
  in_duration ← work_space_in_duration;
  if (in_duration : bool) then
    sk ← sk_get i;
    if sk_laddr sk =? 0 then socket_close i
    else
      flood ← ws_get ws_flood;
      st_when (negb flood && sk_is (sk_st sk) SK_SYN_SENT) (stat_inc NS_udp_rt);;
      repeat_m (Z.to_nat (pipeline_rounds pipeline)) (udp_send_request i);;
      interval ← cfg_get c_keepalive_request_interval;
      st_when (negb (interval =? 0))
        (tsc ← work_space_tsc; socket_start_keepalive_timer i tsc)
  else mret tt.

Definition udp_client_socket_timer_process : M unit :=
  cfg ← cfg_get id;
  if c_keepalive cfg then
    socket_timer_run T_keepalive (c_keepalive_request_interval cfg) udp_socket_keepalive_timer_handler
  else socket_timer_run T_retransmit (c_retransmit_timeout cfg) udp_retransmit_handler.

Definition udp_server_socket_timer_process : M unit := mret tt.

(** ** Received datagrams *)

(** To the kernel when it is for this port, else counted and freed. *)
Definition udp_no_socket (m : mbuf) (free : mbuf -> M unit) : M unit :=
  kni ← ws_get ws_kni;
  local ← (if (kni : bool) then work_space_is_local_addr m else mret false);
  if (local : bool) then kni_recv (Some m)
  else stat_inc NS_udp_drop;; free m.

Definition udp_client_process (m : mbuf) : M unit :=
  let iph := mbuf_ip_hdr m in
  th ← m_ld (mbuf_tcp_hdr m);
  sk ← socket_client_lookup (m_buf m) iph th;
  match sk with
  | None => udp_no_socket m mbuf_free
  | Some i =>
      sk ← sk_get i;
      if sk_is (sk_st sk) SK_CLOSED then stat_inc NS_udp_drop;; mbuf_free m
      else
        sk_set_state i SK_SYN_RECEIVED;;
        interval ← cfg_get c_keepalive_request_interval;
        stop ← ws_get ws_stop;
        (if negb (sk_keepalive sk) then
           tsc ← work_space_tsc;
           stat_mod (net_stats_rtt tsc (sk_timer_tsc sk));;
           socket_close i
         else st_when ((interval =? 0) && negb stop) (udp_send_request i));;
        mbuf_free m
  end.

Definition udp_server_process (m : mbuf) : M unit :=
  let iph := mbuf_ip_hdr m in
  th ← m_ld (mbuf_tcp_hdr m);
  sk ← socket_server_lookup (m_buf m) iph th;
  match sk with
  | None => udp_no_socket m mbuf_free
  | Some i => udp_send i;; mbuf_free m
  end.

Definition udp_drop (m : mbuf) : M unit := udp_no_socket m mbuf_free2.

(** ** Launch *)

(** One client of [udp_client_launch]; the result is [pipeline] afterwards,
    which the code does not reset for the next client. *)
Definition udp_client_launch_one (pipeline : Z) : M Z :=
  tsc ← work_space_tsc;
  o ← socket_client_open tsc;
  match o with
  | None => mret pipeline
  | Some i =>
      repeat_m (Z.to_nat (pipeline_rounds pipeline)) (udp_send i);;
      sk ← sk_get i;
      interval ← cfg_get c_keepalive_request_interval;
      flood ← ws_get ws_flood;
      tsc ← work_space_tsc;
      (if sk_keepalive sk then
         st_when (negb (interval =? 0)) (socket_start_keepalive_timer i tsc)
       else if (flood : bool) then socket_close i
       else socket_start_retransmit_timer_force i tsc);;
      mret (pipeline - pipeline_rounds pipeline)
  end.

Fixpoint udp_client_launch_loop (n : nat) (pipeline : Z) : M unit :=
  match n with
  | O => mret tt
  | S n => pipeline ← udp_client_launch_one pipeline; udp_client_launch_loop n pipeline
  end.

Definition udp_client_launch : M Z :=
  num ← work_space_client_launch_num;
  pipeline ← cfg_get c_pipeline;
  udp_client_launch_loop (Z.to_nat num) pipeline;;
  mret num.
End Udp.
