(* ===== verification/Loop.v ===== *)
(** * Loop: the main loops of a worker

    [src/loop.h]: the dispatch of received packets to their protocol, the slow
    timer, one iteration of the server's and of the client's loop, the choice
    of the loop in [tcp_init] and [udp_init], and the wait for the gateway's
    address in [src/neigh.c]. *)

From S2P Require Import Prelude SocketNode IpRange Tick Config Mbuf NetStats World.
From S2P Require Import WorkSpace Socket SocketTimer Kni TcpPacket Tcp Neigh Udp.

Definition l4_input : Type := mbuf -> M unit.
Definition l3_input : Type := mbuf -> l4_input -> l4_input -> M unit.

Section Loop.
Context {D : Dpdk}.

(** ** Dispatch *)

Definition other_rx (m : mbuf) : M unit := stat_inc NS_other_rx;; mbuf_free m.
Definition rx_bad_drop (m : mbuf) : M unit := stat_inc NS_rx_bad;; mbuf_free m.

(** To the kernel when there is an interface for it. *)
Definition kni_or_other (m : mbuf) : M unit :=
  kni ← ws_get ws_kni;
  if (kni : bool) then kni_recv (Some m) else other_rx m.

Definition tcp_or_udp (proto : Z) (m : mbuf) (tcp_input udp_input : l4_input) (other : M unit) : M unit :=
  if proto =? IPPROTO_TCP then stat_inc NS_tcp_rx;; tcp_input m
  else if proto =? IPPROTO_UDP then stat_inc NS_udp_rx;; udp_input m
  else other.

(** [true] when the packet is a VXLAN packet for this worker. *)
Definition vxlan_check (ws : work_space) (b : list Z) (vxhs : Z) : option bool :=
  protocol ← ld8 b (vxhs + vxhs_iph + iph_protocol);
  daddr ← ld32 b (vxhs + vxhs_iph + iph_daddr);
  dest ← ld16 b (vxhs + vxhs_uh + uh_dest);
  vni ← ld32 b (vxhs + vxhs_vni);
  Some ((protocol =? IPPROTO_UDP) && (daddr =? ws_vtep_ip ws) && (dest =? htons VXLAN_PORT)
        && ((vni &&& 16777215) =? ws_vni ws)).

(** The inner packet: its protocol, or [None] for another address family. *)
Definition vxlan_inner_proto (eth : Z) (m : mbuf) : M (option Z) :=
  let iph := eth + ETH_HDR_LEN in
  ws ← ws_get id;
  type ← m_ld (ld16 (m_buf m) (eth + eth_type));
  if (type =? htons ETHER_TYPE_IPv4) && negb (ws_ipv6 ws) then
    tos ← m_ld (ld8 (m_buf m) (iph + iph_tos));
    stat_mod (net_stats_tos_ipv4_rx (ws_tos ws) tos);;
    proto ← m_ld (ld8 (m_buf m) (iph + iph_protocol)); mret (Some proto)
  else if (type =? htons ETHER_TYPE_IPv6) && ws_ipv6 ws then
    flow ← m_ld (ld32 (m_buf m) (iph + ip6_flow));
    stat_mod (net_stats_tos_ipv6_rx flow);;
    proto ← m_ld (ld8 (m_buf m) (iph + ip6_nxt)); mret (Some proto)
  else mret None.

Definition vxlan_input : l3_input := fun m tcp_input udp_input =>
  let vxhs := mbuf_eth_hdr m in
  stat_mod (net_stats_rx (m_data_len m));;
  ws ← ws_get id;
  ok ← st_lift OutOfBounds (vxlan_check ws (m_buf m) vxhs);
  if (ok : bool) then
    let m := default m (rte_pktmbuf_adj m VXLAN_HEADERS_SIZE) in
    proto ← vxlan_inner_proto (vxhs + VXLAN_HEADERS_SIZE) m;
    match proto with
    | None => other_rx m
    | Some proto => tcp_or_udp proto m tcp_input udp_input (kni_or_other m)
    end
  else
    protocol ← m_ld (ld8 (m_buf m) (vxhs + vxhs_iph + iph_protocol));
    type ← m_ld (ld16 (m_buf m) (vxhs + eth_type));
    if protocol =? IPPROTO_ICMP then icmp_process m
    else if type =? htons ETHER_TYPE_ARP then arp_process m
    else kni_or_other m.

(** The header without its options, moved next to the payload; the inner
    [None] is the error for a header length below 20 bytes. *)
Definition ipv4_trim_options (m : mbuf) : option (option mbuf) :=
  let eth := mbuf_eth_hdr m in
  let iph := mbuf_ip_hdr m in
  ihl ← ld_ip_ihl (m_buf m) iph;
  if ihl <? 5 then Some None
  else
    let skip := ihl * 4 - 20 in
    let m := default m (rte_pktmbuf_adj m skip) in
    x ← ld8 (m_buf m) iph;
    b ← st8 iph ((x &&& 240) ||| 5) (m_buf m);
    tot_len ← ld16 b (iph + iph_tot_len);
    b ← st16 (iph + iph_tot_len) (htons (u16 (ntohs tot_len - skip))) b;
    hdr ← ld_bytes b eth (ETH_HDR_LEN + IPHDR_LEN);
    b ← st_bytes (eth + skip) hdr b;
    Some (Some (m <| m_buf := b |>)).

Definition ipv4_input : l3_input := fun m tcp_input udp_input =>
  stat_mod (net_stats_rx (m_data_len m));;
  let iph := mbuf_ip_hdr m in
  type ← m_ld (ld16 (m_buf m) (mbuf_eth_hdr m + eth_type));
  if type =? htons ETHER_TYPE_IPv4 then
    if has (m_ol_flags m) (RTE_MBUF_F_RX_IP_CKSUM_BAD ||| RTE_MBUF_F_RX_L4_CKSUM_BAD) then rx_bad_drop m
    else
      proto ← m_ld (ld8 (m_buf m) (iph + iph_protocol));
      if rte_ipv4_frag_pkt_is_fragmented (bytes_from (m_buf m) iph) then rx_bad_drop m
      else
        ws_tos ← ws_get ws_tos;
        tos ← m_ld (ld8 (m_buf m) (iph + iph_tos));
        stat_mod (net_stats_tos_ipv4_rx ws_tos tos);;
        ihl ← m_ld (ld_ip_ihl (m_buf m) iph);
        m2 ← (if negb (ihl =? 5) then st_lift OutOfBounds (ipv4_trim_options m) else mret (Some m));
        match m2 with
        | None => mbuf_free m
        | Some m =>
            tcp_or_udp proto m tcp_input udp_input
              (if proto =? IPPROTO_ICMP then icmp_process m else kni_or_other m)
        end
  else if type =? htons ETHER_TYPE_ARP then arp_process m
  else kni_or_other m.

(** The destination options are cut out of the packet; the result is the
    next protocol, 0 for a second header of options. *)
Definition ipv6_trim_options (m : mbuf) : option (Z * mbuf) :=
  let eth := mbuf_eth_hdr m in
  let ip6h := mbuf_ip_hdr m in
  let opt := ip6h + IP6_HDR_LEN in
  plen ← ld16 (m_buf m) (ip6h + ip6_plen);
  proto ← ld8 (m_buf m) opt;
  if proto =? IPPROTO_DSTOPTS then Some (0, m)
  else
    len ← ld8 (m_buf m) (opt + 1);
    let opt_len := (len + 1) * 8 in
    b ← st16 (ip6h + ip6_plen) (htons (u16 (ntohs plen - opt_len))) (m_buf m);
    b ← st8 (ip6h + ip6_nxt) proto b;
    let m := default m (rte_pktmbuf_adj m opt_len) in
    hdr ← ld_bytes b eth (ETH_HDR_LEN + IP6_HDR_LEN);
    b ← st_bytes (eth + opt_len) hdr b;
    Some (proto, m <| m_buf := b |>).

(** The jump back to [repeat]; [fuel] bounds the jumps. *)
Fixpoint ipv6_repeat (fuel : nat) (proto : Z) (m : mbuf) (tcp_input udp_input : l4_input) : M unit :=
  tcp_or_udp proto m tcp_input udp_input
    (if proto =? IPPROTO_ICMPV6 then icmp6_process m
     else if proto =? IPPROTO_DSTOPTS then
       match fuel with
       | O => st_fail OutOfFuel
       | S fuel =>
           '(proto, m) ← st_lift OutOfBounds (ipv6_trim_options m);
           ipv6_repeat fuel proto m tcp_input udp_input
       end
     else kni_or_other m).

Definition ipv6_input : l3_input := fun m tcp_input udp_input =>
  stat_mod (net_stats_rx (m_data_len m));;
  type ← m_ld (ld16 (m_buf m) (mbuf_eth_hdr m + eth_type));
  if type =? htons ETHER_TYPE_IPv6 then
    proto ← m_ld (ld8 (m_buf m) (mbuf_ip_hdr m + ip6_nxt));
    if has (m_ol_flags m) RTE_MBUF_F_RX_L4_CKSUM_BAD then rx_bad_drop m
    else
      flow ← m_ld (ld32 (m_buf m) (mbuf_ip_hdr m + ip6_flow));
      stat_mod (net_stats_tos_ipv6_rx flow);;
      ipv6_repeat 1 proto m tcp_input udp_input
  else kni_or_other m.

(** ** Time *)

Definition read_tsc : M Z :=
  h ← st_gets w_io;
  let t := rte_rdtsc h in
  io_log (Io_rdtsc t);; mret t.

Definition time_update : M unit :=
  now ← read_tsc;
  ws_mod (fun ws => ws <| ws_time ::= fun t => tick_time_update t now |>).

(** [tsc_time_go] on one of the three counters of [ws->time]. *)
Definition time_go (get : tick_time -> tsc_time) (set : tsc_time -> tick_time -> tick_time) : M Z :=
  t ← ws_get ws_time;
  '(n, x) ← st_lift OutOfFuel (tsc_time_go (get t) (tsc t));
  ws_mod (fun ws => ws <| ws_time ::= set x |>);;
  mret n.
Definition go_tick : M Z := time_go tick (fun x t => t <| tick := x |>).
Definition go_ms100 : M Z := time_go ms100 (fun x t => t <| ms100 := x |>).
Definition go_second : M Z := time_go second (fun x t => t <| second := x |>).

Definition stats_timer : M unit :=
  ws ← ws_get id;
  stats ← st_gets w_stats;
  '(stats, load) ← st_lift DivByZero (net_stats_timer_handler (ws_load ws) (tsc (ws_time ws)) stats);
  stat_mod (fun _ => stats);;
  ws_mod (fun ws => ws <| ws_load := load |>).

(** [true] is the return of -1, which ends the loop. *)
Definition slow_timer_run : M bool :=
  kni ← ws_get ws_kni;
  st_when kni (kni_recv None;; kni_send);;
  ms100 ← go_ms100;
  if 0 <? ms100 then
    lldp ← ws_get ws_lldp;
    st_when lldp lldp_send;;
    seconds ← go_second;
    if 0 <? seconds then
      socket_timeout_timer_expire;;
      stats_timer;;
      ws_get ws_exit
    else mret false
  else mret false.

(** ** Receiving *)

Definition rx_burst : M (list mbuf) :=
  ws ← ws_get id;
  eth_rx_burst (ws_port_id ws) (ws_queue_id ws) RX_BURST_MAX.

Fixpoint client_recv_loop (i : Z) (ms : list mbuf) (l3 : l3_input) (tcp_input udp_input : l4_input)
    (client_launch : M Z) : M unit :=
  match ms with
  | [] => mret tt
  | m :: ms =>
      l3 m tcp_input udp_input;;
      st_when (i mod 64 =? 0) (time_update;; client_launch;; mret tt);;
      client_recv_loop (i + 1) ms l3 tcp_input udp_input client_launch
  end.

Definition client_recv_mbuf (l3 : l3_input) (tcp_input udp_input : l4_input) (client_launch : M Z) : M Z :=
  ms ← rx_burst;
  client_recv_loop 0 ms l3 tcp_input udp_input client_launch;;
  mret (if bool_decide (ms = []) then 0 else 1).

Fixpoint server_recv_loop (ms : list mbuf) (l3 : l3_input) (tcp_input udp_input : l4_input) : M unit :=
  match ms with
  | [] => mret tt
  | m :: ms => l3 m tcp_input udp_input;; server_recv_loop ms l3 tcp_input udp_input
  end.

Definition server_recv_mbuf (l3 : l3_input) (tcp_input udp_input : l4_input) : M Z :=
  ms ← rx_burst;
  server_recv_loop ms l3 tcp_input udp_input;;
  mret (if bool_decide (ms = []) then 0 else 1).

(** ** The loops *)

(** [CPULOAD_ADD_TSC(&ws->load, tt->tsc, work)]. *)
Definition load_add (work : Z) : M Z :=
  ws ← ws_get id;
  let '(load, work) := CPULOAD_ADD_TSC (ws_load ws) (tsc (ws_time ws)) work in
  ws_mod (fun ws => ws <| ws_load := load |>);;
  mret work.

(** One iteration: [work] at its end, or [None] at the [break]. *)
Definition server_loop_body (l3 : l3_input) (tcp_input udp_input : l4_input)
    (socket_timer_process : M unit) (work : Z) : M (option Z) :=
  n ← server_recv_mbuf l3 tcp_input udp_input;
  time_update;;
  ticks ← go_tick;
  work ← load_add (work + n);
  if 0 <? ticks then
    stop ← slow_timer_run;
    if (stop : bool) then mret None
    else socket_timer_process;; work_space_tx_flush;; mret (Some 1)
  else mret (Some work).

Definition client_loop_body (l3 : l3_input) (tcp_input udp_input : l4_input)
    (socket_timer_process : M unit) (client_launch : M Z) (work : Z) : M (option Z) :=
  n ← client_recv_mbuf l3 tcp_input udp_input client_launch;
  time_update;;
  work ← load_add (work + n);
  launched ← client_launch;
  ticks ← go_tick;
  if 0 <? ticks then
    ack_delay ← ws_get ws_ack_delay;
    st_when (bool_decide (ack_delay ≠ [])) tcp_ack_delay_flush;;
    stop ← slow_timer_run;
    if (stop : bool) then mret None
    else
      socket_timer_process;; time_update;; client_launch;;
      work_space_tx_flush;; mret (Some 1)
  else mret (Some (work + launched)).

(** ** The choice of the loop *)

Definition init_l3 (ws : work_space) : l3_input :=
  if ws_vxlan ws then vxlan_input else if ws_ipv6 ws then ipv6_input else ipv4_input.

(** The loop that [tcp_init] and [udp_init] put into [ws->run_loop]. *)
Definition tcp_run_loop (server : bool) (l3 : l3_input) : Z -> M (option Z) :=
  if server then server_loop_body l3 tcp_server_process udp_drop tcp_server_socket_timer_process
  else client_loop_body l3 tcp_client_process udp_drop tcp_client_socket_timer_process tcp_client_launch.
Definition udp_run_loop (server : bool) (l3 : l3_input) : Z -> M (option Z) :=
  if server then server_loop_body l3 tcp_drop udp_server_process udp_server_socket_timer_process
  else client_loop_body l3 tcp_drop udp_client_process udp_client_socket_timer_process udp_client_launch.

Definition init_run_loop (cfg : config) (ws : work_space) : option (Z -> M (option Z)) :=
  if c_protocol cfg =? IPPROTO_TCP then Some (tcp_run_loop (c_server cfg) (init_l3 ws))
  else if c_protocol cfg =? IPPROTO_UDP then Some (udp_run_loop (c_server cfg) (init_l3 ws))
  else None.

(** [n] iterations of [while (1)]; [None] when the loop has been left. *)
Fixpoint run_iterations (n : nat) (body : Z -> M (option Z)) (work : Z) : M (option Z) :=
  match n with
  | O => mret (Some work)
  | S n =>
      r ← body work;
      match r with
      | None => mret None
      | Some work => run_iterations n body work
      end
  end.

(** ** The gateway's address *)

Definition NEIGH_SEC : Z := 60.

(** The polls of one second; [true] once the address is known. *)
Fixpoint neigh_poll (n : nat) (l3 : l3_input) : M bool :=
  match n with
  | O => mret false
  | S n =>
      server_recv_mbuf l3 tcp_drop udp_drop;;
      work_space_tx_flush;;
      known ← neigh_gateway_is_enable;
      if (known : bool) then mret true else neigh_poll n l3
  end.

Fixpoint neigh_check_loop (n : nat) (l3 : l3_input) : M Z :=
  match n with
  | O => mret (-1)
  | S n =>
      neigh_resolve_gateway_mac_address;;
      known ← neigh_poll 1000 l3;
      if (known : bool) then mret 0 else neigh_check_loop n l3
  end.

Definition neigh_check_gateway : M Z :=
  ws ← ws_get id;
  neigh_check_loop (Z.to_nat NEIGH_SEC) (init_l3 ws).
End Loop.
