(* ===== verification/SocketTable.v ===== *)
(** * SocketTable: the sockets of a worker at start-up

    The initialisation of [src/socket.c] and [src/csum.c]: every socket of the
    pool gets its addresses, its first sequence number and its checksums, and
    the table maps the address of a client to its sockets. *)

From S2P Require Import Prelude SocketNode IpRange Config Mbuf NetStats World WorkSpace.
From S2P Require Import Csum Socket TcpPacket Payload Template Loop.

(** ** Loops

    [for (x = lo; x <= hi; x++)] on a [w]-bit unsigned counter: the loop does
    not end if [hi] is the largest value of the counter. *)

Section Loops.
Context {S : Type}.

Fixpoint for_u (w : Z) (fuel : nat) (x hi : Z) (body : Z -> ST S unit) : ST S unit :=
  if x <=? hi then
    match fuel with
    | O => st_fail OutOfFuel
    | Datatypes.S fuel => body x;; for_u w fuel (wrap w (x + 1)) hi body
    end
  else mret tt.
Definition for_range (w lo hi : Z) (body : Z -> ST S unit) : ST S unit :=
  for_u w (Z.to_nat (hi - lo + 1)) lo hi body.

Lemma wp_for_range (I : Z -> S -> Prop) w lo hi body s :
  0 <= lo -> lo <= hi + 1 -> hi < 2 ^ w - 1 -> I lo s ->
  (forall x s, lo <= x <= hi -> I x s -> wp (body x) (fun _ s' => I (x + 1) s') s) ->
  wp (for_range w lo hi body) (fun _ s' => I (hi + 1) s') s.
Proof.
  intros Hlo Hle Hhi Hs Hb. unfold for_range.
  assert (forall fuel x s, Z.of_nat fuel = hi - x + 1 -> lo <= x -> I x s ->
    wp (for_u w fuel x hi body) (fun _ s' => I (hi + 1) s') s) as H; [|apply H; [lia|lia|done]].
  clear s Hs. induction fuel as [|fuel IH]; intros x s Hf Hx Hs; cbn [for_u]; destruct (Z.leb_spec x hi); try lia.
  - apply wp_ret. by replace (hi + 1) with x by lia.
  - apply wp_bind. eapply wp_mono; [apply Hb; [lia|done]|]. intros [] s' Hs'. cbv beta.
    rewrite wrap_small by (split; lia). apply IH; [lia|lia|done].
Qed.
End Loops.

(** ** Checksums of a socket *)

Definition L4_DATA_LEN (d : mbuf_data) : Z := md_l4_len d + md_data_len d.

Section SocketTable.
Context {D : Dpdk}.
(** [rand_r] of the C library, as a function of the seed. *)
Context (rand_r : Z -> Z).

Definition csum_pseudo_ipv6 (proto : Z) (saddr daddr : ipaddr_t) (len : Z) : Z :=
  u16 (rte_raw_cksum (ipaddr_bytes saddr ++ ipaddr_bytes daddr ++ [0; proto] ++ le16 (htons len))).

(** The field for the checksum of a bare segment is shared with [csum_udp]. *)
Definition csum_init_pseudo_ipv6 (sk : socket) (ws : work_space) (proto : Z) : option socket :=
  let b := md_data (ws_tcp ws) in
  laddr ← ld_ip6_addr b (ETH_HDR_LEN + ip6_src);
  faddr ← ld_ip6_addr b (ETH_HDR_LEN + ip6_dst);
  let laddr := ipaddr_join laddr (sk_laddr sk) in
  let faddr := ipaddr_join faddr (sk_faddr sk) in
  let csum d := csum_pseudo_ipv6 proto laddr faddr (u16 (L4_DATA_LEN d)) in
  Some (if proto =? IPPROTO_TCP
        then sk <| sk_csum_tcp := csum (ws_tcp ws) |> <| sk_csum_tcp_opt := csum (ws_tcp_opt ws) |>
                <| sk_csum_tcp_data := csum (ws_tcp_data ws) |>
        else sk <| sk_csum_tcp := csum (ws_tcp ws) |>).

Definition csum_init_pseudo_ipv4 (sk : socket) (ws : work_space) (proto lip fip : Z) : socket :=
  let csum d := csum_pseudo_ipv4 proto lip fip (u16 (L4_DATA_LEN d)) in
  if proto =? IPPROTO_TCP
  then sk <| sk_csum_tcp := csum (ws_tcp ws) |> <| sk_csum_tcp_opt := csum (ws_tcp_opt ws) |>
          <| sk_csum_tcp_data := csum (ws_tcp_data ws) |>
  else sk <| sk_csum_tcp := csum (ws_tcp ws) |>.

Definition csum_init_pseudo (cfg : config) (ws : work_space) (sk : socket) : option socket :=
  let proto := c_protocol cfg in
  if ws_ipv6 ws then csum_init_pseudo_ipv6 sk ws proto
  else Some (csum_init_pseudo_ipv4 sk ws proto (sk_laddr sk) (sk_faddr sk)).

(** The inner checksums of a template: the addresses and ports are written
    into the template, and cleared again. *)
Definition inner_ip_hdr : Z := VXLAN_HEADERS_SIZE + ETH_HDR_LEN.

Definition csum_inner_tcp_udp_ipv4 (sk : socket) (d : mbuf_data) : option (Z * Z * mbuf_data) :=
  let iph := inner_ip_hdr in
  let th := iph + IPHDR_LEN in
  b ← st32 (iph + iph_saddr) (sk_laddr sk) (md_data d);
  b ← st32 (iph + iph_daddr) (sk_faddr sk) b;
  b ← st16 (th + th_sport) (sk_lport sk) b;
  b ← st16 (th + th_dport) (sk_fport sk) b;
  let ip_csum := u16 (rte_ipv4_cksum (bytes_from b iph)) in
  let tcp_csum := u16 (rte_ipv4_udptcp_cksum (bytes_from b iph) (bytes_from b th)) in
  b ← st32 (iph + iph_saddr) 0 b;
  b ← st32 (iph + iph_daddr) 0 b;
  b ← st16 (th + th_sport) 0 b;
  b ← st16 (th + th_dport) 0 b;
  Some (ip_csum, tcp_csum, d <| md_data := b |>).

Definition csum_init_inner_ipv4 (cfg : config) (ws : work_space) (sk : socket) : option (work_space * socket) :=
  '(ip, tcp, d) ← csum_inner_tcp_udp_ipv4 sk (ws_tcp ws);
  let ws := ws <| ws_tcp := d |> in
  let sk := sk <| sk_csum_ip := ip |> <| sk_csum_tcp := tcp |> in
  if c_protocol cfg =? IPPROTO_TCP then
    '(ip, tcp, d) ← csum_inner_tcp_udp_ipv4 sk (ws_tcp_opt ws);
    let ws := ws <| ws_tcp_opt := d |> in
    let sk := sk <| sk_csum_ip_opt := ip |> <| sk_csum_tcp_opt := tcp |> in
    '(ip, tcp, d) ← csum_inner_tcp_udp_ipv4 sk (ws_tcp_data ws);
    let ws := ws <| ws_tcp_data := d |> in
    Some (ws, sk <| sk_csum_ip_data := ip |> <| sk_csum_tcp_data := tcp |>)
  else Some (ws, sk).

Definition csum_inner_tcp_udp_tcp_ipv6 (sk : socket) (d : mbuf_data) : option (Z * mbuf_data) :=
  let ip6h := inner_ip_hdr in
  let th := ip6h + IP6_HDR_LEN in
  b ← st32 (ip6h + ip6_src + 12) (sk_laddr sk) (md_data d);
  b ← st32 (ip6h + ip6_dst + 12) (sk_faddr sk) b;
  b ← st16 (th + th_sport) (sk_lport sk) b;
  b ← st16 (th + th_dport) (sk_fport sk) b;
  let tcp_csum := u16 (rte_ipv6_udptcp_cksum (bytes_from b ip6h) (bytes_from b th)) in
  b ← st32 (ip6h + ip6_src + 12) 0 b;
  b ← st32 (ip6h + ip6_dst + 12) 0 b;
  b ← st16 (th + th_sport) 0 b;
  b ← st16 (th + th_dport) 0 b;
  Some (tcp_csum, d <| md_data := b |>).

Definition csum_init_inner_ipv6 (cfg : config) (ws : work_space) (sk : socket) : option (work_space * socket) :=
  '(tcp, d) ← csum_inner_tcp_udp_tcp_ipv6 sk (ws_tcp ws);
  let ws := ws <| ws_tcp := d |> in
  let sk := sk <| sk_csum_tcp := tcp |> in
  if c_protocol cfg =? IPPROTO_TCP then
    '(tcp, d) ← csum_inner_tcp_udp_tcp_ipv6 sk (ws_tcp_opt ws);
    let ws := ws <| ws_tcp_opt := d |> in
    let sk := sk <| sk_csum_tcp_opt := tcp |> in
    '(tcp, d) ← csum_inner_tcp_udp_tcp_ipv6 sk (ws_tcp_data ws);
    let ws := ws <| ws_tcp_data := d |> in
    Some (ws, sk <| sk_csum_tcp_data := tcp |>)
  else Some (ws, sk).

Definition csum_init_inner (cfg : config) (ws : work_space) (sk : socket) : option (work_space * socket) :=
  if ws_ipv6 ws then csum_init_inner_ipv6 cfg ws sk else csum_init_inner_ipv4 cfg ws sk.

Definition csum_init_socket (i : N) : M unit :=
  cfg ← cfg_get id; ws ← ws_get id; sk ← sk_get i;
  if ws_vxlan ws then
    '(ws', sk') ← st_lift OutOfBounds (csum_init_inner cfg ws sk);
    ws_mod (fun _ => ws');; sk_mod i (fun _ => sk')
  else
    sk' ← st_lift OutOfBounds (csum_init_pseudo cfg ws sk);
    sk_mod i (fun _ => sk').

(** ** The table *)

Definition socket_init (i : N) (client_ip client_port server_ip server_port : Z) : M unit :=
  cfg ← cfg_get id; server ← ws_get ws_server;
  sk_mod i (fun sk => sk <| sk_st := SK_CLOSED |> <| sk_keepalive := c_keepalive cfg |>);;
  sk_mod i (fun sk =>
    if (server : bool)
    then sk <| sk_laddr := server_ip |> <| sk_faddr := client_ip |>
            <| sk_lport := server_port |> <| sk_fport := client_port |>
    else sk <| sk_faddr := server_ip |> <| sk_laddr := client_ip |>
            <| sk_fport := server_port |> <| sk_lport := client_port |>);;
  t ← read_tsc;
  sk_mod i (fun sk => sk <| sk_snd_nxt := u32 (rand_r (u32 t)) |>);;
  csum_init_socket i;;
  link_op (socket_node_init (Sock i)).

(** The body of the innermost loop. *)
Definition socket_port_table_fill (table : N) (client_ip client_port server_port server_ip : Z) : M unit :=
  st ← table_get id;
  let sk := socket_port_table_get st table client_port server_port server_ip in
  socket_init sk client_ip (htons client_port) (htonl server_ip) (htons server_port);;
  table_mod (fun st => st <| st_pool_next := u32 (st_pool_next st + 1) |>).

(** The bounds of the loops are fields of the table, which the loops do not
    change; [port] is an [int], [server_port] has 16 bits, [server_ip] 32. *)
Definition socket_port_table_new (client_ip : Z) : M N :=
  st ← table_get id;
  let table := pool_sock st (st_pool_next st) in
  for_range 31 (st_client_port_min st) (st_client_port_max st) (fun port =>
    for_range 16 (st_server_port_min st) (st_server_port_max st) (fun server_port =>
      for_range 32 (st_server_ip_min st) (st_server_ip_max st) (fun server_ip =>
        socket_port_table_fill table client_ip port server_port server_ip)));;
  mret table.

(** [for (i = 0; i < range->num; i++)] from index [i]. *)
Fixpoint socket_port_table_init_ip_range (n : nat) (i : Z) (client_ip_range : ip_range) : M unit :=
  match n with
  | O => mret tt
  | S n =>
      client_ip ← st_lift DivByZero (ip_range_get client_ip_range i);
      pt ← socket_port_table_new client_ip;
      table_mod (fun st => st <| st_ht ::= insert (ntohl client_ip &&& 65535) pt |>);;
      socket_port_table_init_ip_range n (i + 1) client_ip_range
  end.
Definition init_ip_range (r : ip_range) : M unit := socket_port_table_init_ip_range (Z.to_nat (num r)) 0 r.

Fixpoint socket_port_table_init_ip_group (ranges : list ip_range) : M unit :=
  match ranges with
  | [] => mret tt
  | r :: ranges => init_ip_range r;; socket_port_table_init_ip_group ranges
  end.

Definition socket_table_init : M Z :=
  cfg ← cfg_get id; port ← ws_get ws_port; queue_id ← ws_get ws_queue_id;
  let server_range := np_server_ip_range port in
  (if c_flow cfg =? FLOW_FDIR then
     server_ip ← st_lift DivByZero (ip_range_get server_range queue_id);
     table_mod (fun st => st <| st_server_ip_num := 1 |> <| st_server_ip_min := ntohl server_ip |>
                             <| st_server_ip_max := ntohl server_ip |>)
   else
     server_ip ← st_lift DivByZero (ip_range_get server_range 0);
     table_mod (fun st => st <| st_server_ip_num := num server_range |> <| st_server_ip_min := ntohl server_ip |>
                             <| st_server_ip_max := u32 (ntohl server_ip + num server_range - 1) |>));;
  table_mod (fun st =>
    let st := st <| st_server_ip_port_num := u32 (st_server_ip_num st * c_listen_num cfg) |>
                 <| st_server_port_min := u16 (c_listen cfg) |>
                 <| st_server_port_max := u16 (c_listen cfg + c_listen_num cfg - 1) |>
                 <| st_server_port_num := u16 (c_listen_num cfg) |>
                 <| st_client_port_min := u16 (c_lport_min cfg) |>
                 <| st_client_port_max := u16 (c_lport_max cfg) |>
                 <| st_client_port_num := u16 (c_lport_max cfg - c_lport_min cfg + 1) |> in
    if c_client_hop cfg then st <| st_client_hop := true |> else st);;
  (if c_server cfg then socket_port_table_init_ip_group (for_each_ip_range (c_client_ip_group cfg))
   else init_ip_range (np_client_ip_range port));;
  table_mod (fun st => st <| st_pool_next := 0 |>);;
  mret 0.

(** ** RSS *)

(** [g_work_space_all] is this worker and the others, by their ids; ports are
    compared by their number. *)
Fixpoint rss_hash (port_id : Z) (i : Z) (all : list (option work_space)) (hash : list (option Z)) : option (list (option Z)) :=
  match all with
  | [] => Some hash
  | None :: all => rss_hash port_id (i + 1) all hash
  | Some ws2 :: all =>
      if negb (np_id (ws_port ws2) =? port_id) then rss_hash port_id (i + 1) all hash
      else
        hash ← aset hash (ws_queue_id ws2) (Some i);
        rss_hash port_id (i + 1) all hash
  end.

Definition work_space_init_rss : M unit :=
  cfg ← cfg_get id; ws ← ws_get id; peers ← st_gets w_peers;
  table_mod (fun st => st <| st_rss := c_flow cfg =? FLOW_RSS |> <| st_rss_id := u8 (ws_queue_id ws) |>
                          <| st_rss_num := u8 (np_queue_num (ws_port ws)) |>);;
  all ← st_lift OutOfBounds (aset peers (ws_id ws) (Some ws));
  hash ← st_lift OutOfBounds
    (rss_hash (np_id (ws_port ws)) 0 all (st_socket_table_hash (ws_socket_table ws)));
  table_mod (fun st => st <| st_socket_table_hash := hash |>).
End SocketTable.
