(* ===== verification/Init.v ===== *)
(** * Init: start-up of a worker

    [src/work_space.c], [src/client.c], [src/server.c] and [lcore_main] of
    [src/main.c]: the memory of a worker, its share of the task, its port,
    templates, clocks and sockets.  The barriers between the workers and the
    pause that spreads them over a second order the start-up of different
    workers and are not steps of one. *)

From S2P Require Import Prelude Double SocketNode IpRange Tick Config Mbuf NetStats World WorkSpace.
From S2P Require Import Csum Socket SocketTimer Kni TcpPacket Payload Template Tcp Neigh Udp Loop SocketTable.

(** ** The share of a worker *)

Definition client_assign_task (cfg : config) (id target : Z) : option Z :=
  let cpu_num := u64 (c_cpu_num cfg) in
  if target <=? cpu_num then Some (if id <? target then 1 else 0)
  else
    val ← double_quot target cpu_num;
    Some (if id =? 0 then u64 (target - u64 (val * u64 (cpu_num - 1))) else val).

(** The last of 10, 9, ..., 4 that divides [cps], or 0. *)
Definition launch_num_auto (cps : Z) : Z :=
  foldl (fun acc n => if cps mod n =? 0 then n else acc) 0 [10; 9; 8; 7; 6; 5; 4].

Section Init.
Context {D : Dpdk}.

Definition client_init : M Z :=
  cfg ← cfg_get id; worker ← ws_get ws_id;
  cps ← st_lift OutOfBounds (client_assign_task cfg worker (c_cps cfg));
  cc ← st_lift OutOfBounds (client_assign_task cfg worker (c_cc cfg));
  if cps =? 0 then mret 0
  else
    st_when (c_launch_num cfg =? 0)
      (let n := launch_num_auto cps in
       st_modify (fun w => w <| w_cfg ::= fun c => c <| c_launch_num := if n =? 0 then DEFAULT_LAUNCH else n |> |>));;
    launch_num ← cfg_get c_launch_num;
    hz ← TSC_PER_SEC;
    cl_mod (fun cl => cl <| cl_cc := cc |>);;
    (if cps <=? launch_num then
       cl_mod (fun cl => cl <| cl_launch_num := u32 cps |> <| cl_launch_interval := hz |>)
     else
       (let per_second := cps / launch_num in
        if per_second =? 0 then st_fail DivByZero
        else cl_mod (fun cl => cl <| cl_launch_num := launch_num |> <| cl_launch_interval := hz / per_second |>)));;
    cl_mod (fun cl => cl <| cl_launch_interval_default := cl_launch_interval cl |>);;
    now ← read_tsc;
    wait ← cfg_get c_wait;
    cl_mod (fun cl => cl <| cl_launch_next := u64 (now + u64 (hz * wait)) |>);;
    mret 0.

Definition server_init : M Z := mret 0.

(** ** Memory *)

(** [port->kni]: a union with [virtio_user_id]. *)
Definition np_kni (p : netif_port) : bool := negb (np_virtio_user_id p =? 0).

Definition socket_table_zero (base : N) (num : Z) : socket_table :=
  SocketTable 0 0 0 0 0 0 0 0 0 0 false false 0 0 (replicate 256 None) ∅ base num 0.

Definition work_space_zero (base : N) (num : Z) : work_space := {|
  ws_id := 0; ws_ipv6 := false; ws_server := false; ws_kni := false; ws_change_dip := false;
  ws_http := false; ws_flood := false; ws_fast_close := false; ws_disable_ack := false;
  ws_neigh_ignore := false; ws_send_window := 0; ws_tos := 0; ws_port_id := 0; ws_queue_id := 0;
  ws_ip_id := 0; ws_lldp := false; ws_exit := false; ws_stop := false; ws_start := false;
  ws_vlan_id := 0; ws_vni := 0; ws_vxlan := false; ws_vtep_ip := 0; ws_payload_size := 0;
  ws_time := TickTime 0 (TscTime 0 0 0) (TscTime 0 0 0) (TscTime 0 0 0);
  ws_load := CpuLoad 0 0 0; ws_client_launch := ClientLaunch 0 0 0 0 0 0;
  ws_tcp_opt := mbuf_data_zero; ws_tcp_data := mbuf_data_zero; ws_tcp := mbuf_data_zero;
  ws_port := netif_port_zero; ws_ack_delay := []; ws_tx_queue := TxQueue 0 0 0 ∅;
  ws_dip_list := ip_list_zero; ws_socket_table := socket_table_zero base num |}.

(** [sizeof(struct work_space) + socket_num * sizeof(struct socket)] bytes are
    asked for; [alloc] is the answer of [rte_calloc], or else of [mmap]: the
    place of the new sockets among those of all workers.  A zeroed list node
    holds two null pointers, which are written before they are read; [null]
    stands for it. *)
Context (alloc : Z -> option N) (null : socket_node).

Definition zero_sockets (base : N) (n : nat) : gmap N socket :=
  foldr (fun k m => <[(base + N.of_nat k)%N := socket_zero]> m) ∅ (seq 0 n).
Definition zero_nodes (base : N) (n : nat) : links :=
  foldr (fun k m => <[Sock (base + N.of_nat k)%N := null]> m) ∅ (seq 0 n).

Definition work_space_alloc (worker : Z) : M bool :=
  cfg ← cfg_get id;
  socket_num ← st_lift OutOfBounds (config_get_total_socket_num cfg worker);
  match alloc socket_num with
  | None => mret false
  | Some base =>
      st_modify (fun w => w <| w_ws := work_space_zero base socket_num |>
        <| w_sockets ::= fun m => zero_sockets base (Z.to_nat socket_num) ∪ m |>
        <| w_links ::= fun m => zero_nodes base (Z.to_nat socket_num) ∪ m |>);;
      mret true
  end.

(** ** The parts of a worker *)

Definition work_space_get_port : M unit :=
  cfg ← cfg_get id; worker ← ws_get ws_id;
  '(port, queue_id) ← st_lift DivByZero (config_port_get cfg worker);
  ws_mod (fun ws => ws <| ws_queue_id := u8 queue_id |> <| ws_port := port |> <| ws_port_id := u8 (np_id port) |>);;
  st_when (c_vxlan cfg)
    (vx ← st_lift OutOfBounds (np_vxlan port);
     vtep ← st_lift DivByZero (ip_range_get (vx_vtep_local vx) (u8 queue_id));
     ws_mod (fun ws => ws <| ws_vxlan := true |> <| ws_vtep_ip := vtep |>
                          <| ws_vni := VXLAN_HTON (vx_vni vx) mod 2 ^ 24 |>));;
  st_when (np_kni port) (ws_mod (fun ws => ws <| ws_kni := true |>)).

Definition work_space_init_time : M unit :=
  link_op socket_timer_init;;
  g ← st_gets w_tick;
  now ← read_tsc;
  ws_mod (fun ws => ws <| ws_time := tick_time_init g now |>).

Definition work_space_init_change_dip : M Z :=
  cfg ← cfg_get id; ws ← ws_get id;
  if c_server cfg then mret 0
  else if 0 <? list_num (c_dip_list cfg) then
    '(ret, sub) ← st_lift OutOfBounds (ip_list_split (c_dip_list cfg) (ws_id ws) (c_cpu_num cfg) (ws_dip_list ws));
    ws_mod (fun ws => ws <| ws_dip_list := sub |>);;
    if ret <=? 0 then mret (-1)
    else ws_mod (fun ws => ws <| ws_change_dip := true |>);; mret 0
  else mret 0.

(** The log and the memory belong to the process; what is left of the worker
    is its batch of packets to free. *)
Definition work_space_close : M unit := mbuf_free2_flush.

Context (rte_pktmbuf_pool_create : string -> Z -> Z -> bool) (rand_r : Z -> Z).
(** The texts of the workers: requests, responses and datagrams. *)
Context (http_req http_rsp g_udp_data : list (list Z)).

Definition work_space_fields (cfg : config) (worker payload_size : Z) (ws : work_space) : work_space :=
  ws <| ws_server := c_server cfg |> <| ws_vlan_id := c_vlan_id cfg |> <| ws_id := u8 worker |>
     <| ws_ipv6 := c_af cfg =? AF_INET6 |> <| ws_http := c_http cfg |> <| ws_flood := c_flood cfg |>
     <| ws_neigh_ignore := c_neigh_ignore cfg |> <| ws_fast_close := c_fast_close cfg |>
     <| ws_disable_ack := c_disable_ack cfg |>
     <| ws_send_window := u32 (u32 (c_mss cfg) * u32 (c_send_window cfg)) |>
     <| ws_payload_size := payload_size |> <| ws_tos := c_tos cfg |>
     <| ws_tx_queue ::= fun q => q <| tx_burst := c_tx_burst cfg |> |>.

(** The calls that may fail, and the rest, for a worker with its memory. *)
Definition work_space_build (worker : Z) : M bool :=
  cfg ← cfg_get id;
  payload_size ← st_lift OutOfBounds (aget (c_payload_size cfg) worker);
  ws_mod (work_space_fields cfg worker payload_size);;
  work_space_get_port;;
  ret ← work_space_init_change_dip;
  if ret <? 0 then mret false
  else
    request ← st_lift OutOfBounds (aget http_req worker);
    response ← st_lift OutOfBounds (aget http_rsp worker);
    ret ← tcp_init rte_pktmbuf_pool_create request response;
    if ret <? 0 then mret false
    else
      datagram ← st_lift OutOfBounds (aget g_udp_data worker);
      ret ← udp_init rte_pktmbuf_pool_create datagram;
      if ret <? 0 then mret false
      else
        lldp_init;;
        work_space_init_time;;
        now ← read_tsc;
        ws_mod (fun ws => ws <| ws_load := cpuload_init now |>);;
        ret ← socket_table_init rand_r;
        if ret <? 0 then mret false
        else
          stat_mod (fun _ => net_stats_zero);;
          (if c_server cfg then server_init else client_init);;
          work_space_init_rss;;
          mret true.

(** [false] is the null pointer. *)
Definition work_space_new (worker : Z) : M bool :=
  ok ← work_space_alloc worker;
  if negb ok then mret false
  else
    ok ← work_space_build worker;
    if (ok : bool) then mret true
    else work_space_close;; mret false.

(** ** The thread of a worker *)

(** [port_clear], for the rounds that are left. *)
Fixpoint port_clear (n : nat) (port queue : Z) : M unit :=
  match n with
  | O => mret tt
  | S n =>
      ms ← eth_rx_burst port queue 1;
      match ms with
      | [] => mret tt
      | m :: _ => mbuf_free m;; port_clear n port queue
      end
  end.

(** [lcore_main] up to the loop; [false] is the [exit] of the process. *)
Definition lcore_start (worker : Z) : M bool :=
  ok ← work_space_new worker;
  if negb ok then mret false
  else
    ws ← ws_get id;
    port_clear (Z.to_nat NB_RXD) (ws_port_id ws) (ws_queue_id ws);;
    ret ← neigh_check_gateway;
    if ret <? 0 then mret false
    else
      ws_mod (fun ws => ws <| ws_start := true |>);;
      mret true.
End Init.
