(* ===== verification/Env.v ===== *)
(** * Env: the worker's environment invariant

    What the packet path relies on besides the sockets: the transmit queue,
    the free pool, the lookup table, the templates.  Every operation that does
    not touch sockets or timers preserves it and runs without a fault. *)

From S2P Require Import Prelude SocketNode Csum IpRange Tick Config Mbuf NetStats.
From S2P Require Import World WorkSpace Socket SocketTimer Kni TcpPacket.

(** ** Packets with enough room

    All headers the code reads or writes end before byte 128. *)

Definition HDR_ROOM : Z := 128.
Definition pkt_ok (m : mbuf) : Prop :=
  0 <= m_data_off m /\ m_data_off m + HDR_ROOM <= Z.of_nat (length (m_buf m)).

Definition same_shape (m m' : mbuf) : Prop :=
  m_data_off m' = m_data_off m /\ m_data_len m' = m_data_len m
  /\ length (m_buf m') = length (m_buf m) /\ m_id m' = m_id m.

Lemma same_shape_ok m m' : same_shape m m' -> pkt_ok m -> pkt_ok m'.
Proof. unfold pkt_ok. intros (-> & _ & -> & _). done. Qed.
Lemma same_shape_refl m : same_shape m m.
Proof. done. Qed.
Lemma same_shape_trans m1 m2 m3 : same_shape m1 m2 -> same_shape m2 m3 -> same_shape m1 m3.
Proof. intros (?&?&?&?) (?&?&?&?). split_and!; congruence. Qed.

Section MbufRules.
Implicit Types (m : mbuf) (w : world).

Lemma wp_m_st f m Q w :
  (exists b, f (m_buf m) = Some b /\ length b = length (m_buf m)) ->
  (forall m', same_shape m m' -> Q m' w) -> wp (m_st f m) Q w.
Proof.
  intros (b & Hb & Hl) HQ. unfold m_st, m_op, m_store. rewrite Hb. simpl.
  eapply wp_lift; [reflexivity|]. apply HQ. by repeat split.
Qed.

Lemma wp_m_ld o Q w : is_Some o -> (forall v, Q v w) -> wp (m_ld o) Q w.
Proof. intros [v ->] HQ. by eapply wp_lift. Qed.

Lemma wp_m_ld_eq o v Q w : o = Some v -> Q v w -> wp (m_ld o) Q w.
Proof. intros -> HQ. by eapply wp_lift. Qed.

Lemma wp_lift_any {A} (o : option A) e Q w : is_Some o -> (forall v, o = Some v -> Q v w) -> wp (st_lift e o) Q w.
Proof. intros [v Hv] HQ. eapply wp_lift; [exact Hv|by apply HQ]. Qed.
End MbufRules.

Lemma mbuf_tcp_hdr_some m : pkt_ok m -> exists th, mbuf_tcp_hdr m = Some th
  /\ m_data_off m + 34 <= th <= m_data_off m + 54.
Proof.
  unfold pkt_ok, HDR_ROOM. intros [H1 H2]. unfold mbuf_tcp_hdr, mbuf_eth_hdr, eth_type.
  destruct (ld16_some (m_buf m) (m_data_off m + 12)) as [v ->]; [lia..|]. simpl.
  eexists. split; [done|]. unfold ETH_HDR_LEN, IPHDR_LEN, IP6_HDR_LEN. case_match; lia.
Qed.

Lemma ld_ip_version_some b p : 0 <= p < Z.of_nat (length b) -> is_Some (ld_ip_version b p).
Proof. intros. unfold ld_ip_version. destruct (ld8_some b p) as [v ->]; [done|]. by eexists. Qed.
Lemma ld_th_off_some b p : 0 <= p -> p + 12 < Z.of_nat (length b) -> is_Some (ld_th_off b p).
Proof.
  intros. unfold ld_th_off, th_off. destruct (ld8_some b (p + 12)) as [v ->]; [lia|]. by eexists.
Qed.

(** Header offsets as numbers. *)
Ltac unfold_offsets :=
  unfold mbuf_eth_hdr, mbuf_ip_hdr, mbuf_icmp_hdr, mbuf_icmp6_hdr, ETH_HDR_LEN, IPHDR_LEN, IP6_HDR_LEN,
    TCPHDR_LEN, UDPHDR_LEN, VXLAN_HEADERS_SIZE,
    eth_type, iph_tos, iph_tot_len, iph_id, iph_frag_off, iph_ttl, iph_protocol, iph_check, iph_saddr,
    iph_daddr, ip6_flow, ip6_plen, ip6_nxt, ip6_hops, ip6_src, ip6_dst, th_sport, th_dport, th_seq, th_ack,
    th_off, th_flags, th_win, th_sum, uh_source, uh_dest, uh_len, uh_check, vxhs_iph, vxhs_uh, vxhs_vni in *.

(** Positions inside a packet that has been changed in place. *)
Ltac in_packet :=
  unfold same_shape, pkt_ok, HDR_ROOM in *; unfold_offsets; rsimpl_all;
  repeat match goal with H : _ /\ _ |- _ => destruct H end; lia.

(** A chain of stores into a buffer of known length. *)
Ltac store_some :=
  first [apply st8_some | apply st16_some | apply st32_some | apply st_bytes_some]; in_packet.

(** One packet access of the goal. *)
Ltac m_step :=
  match goal with
  | |- wp (m_st (st8 _ _) _) _ _ => apply wp_m_st; [store_some | intros ?m ?]
  | |- wp (m_st (st16 _ _) _) _ _ => apply wp_m_st; [store_some | intros ?m ?]
  | |- wp (m_st (st32 _ _) _) _ _ => apply wp_m_st; [store_some | intros ?m ?]
  | |- wp (m_ld (ld8 _ _)) _ _ => apply wp_m_ld; [apply ld8_some; in_packet | intros ?v]
  | |- wp (m_ld (ld16 _ _)) _ _ => apply wp_m_ld; [apply ld16_some; in_packet | intros ?v]
  | |- wp (m_ld (ld32 _ _)) _ _ => apply wp_m_ld; [apply ld32_some; in_packet | intros ?v]
  | |- wp (m_ld (ld_ip_version _ _)) _ _ => apply wp_m_ld; [apply ld_ip_version_some; in_packet | intros ?v]
  end.

(** Pointers to an IP and a transport header inside the first 128 bytes. *)
Definition ptrs_ok (m : mbuf) (iph th : Z) : Prop :=
  m_data_off m <= iph /\ iph + 44 <= m_data_off m + HDR_ROOM
  /\ m_data_off m <= th /\ th + 20 <= m_data_off m + HDR_ROOM.

Lemma ld_ip6_addr_some b p : 0 <= p -> p + 16 <= Z.of_nat (length b) -> is_Some (ld_ip6_addr b p).
Proof.
  intros. unfold ld_ip6_addr.
  destruct (ld32_some b p) as [? ->]; [lia..|]. destruct (ld32_some b (p + 4)) as [? ->]; [lia..|].
  destruct (ld32_some b (p + 8)) as [? ->]; [lia..|]. destruct (ld32_some b (p + 12)) as [? ->]; [lia..|].
  by eexists.
Qed.

Lemma st_ip6_addr_some b p a : 0 <= p -> p + 16 <= Z.of_nat (length b) ->
  exists b', st_ip6_addr p a b = Some b' /\ length b' = length b.
Proof.
  intros. unfold st_ip6_addr.
  destruct (st32_some b p (pad0 a)) as (b1 & -> & ?); [lia..|]. cbn [mbind option_bind].
  destruct (st32_some b1 (p + 4) (pad1 a)) as (b2 & -> & ?); [lia..|]. cbn [mbind option_bind].
  destruct (st32_some b2 (p + 8) (pad2 a)) as (b3 & -> & ?); [lia..|]. cbn [mbind option_bind].
  destruct (st32_some b3 (p + 12) (ip a)) as (b4 & -> & ?); [lia..|].
  eexists. split; [done|lia].
Qed.

Ltac ptrs := unfold ptrs_ok in *; in_packet.
Ltac m_ptr :=
  match goal with
  | |- wp (m_st (st_ip6_addr _ _) _) _ _ =>
      apply wp_m_st; [apply st_ip6_addr_some; ptrs | intros ?m ?]
  | |- wp (st_lift _ (ld_ip6_addr _ _)) _ _ =>
      apply wp_lift_any; [apply ld_ip6_addr_some; ptrs | intros ?a ?]
  | |- _ => unfold ptrs_ok in *; m_step
  end.

(** One load or store of an option computation on a buffer. *)
Ltac buf_step :=
  match goal with
  | |- context [ld32 ?b ?p ≫= _] => destruct (ld32_some b p) as [? ->]; [lia..|]
  | |- context [ld16 ?b ?p ≫= _] => destruct (ld16_some b p) as [? ->]; [lia..|]
  | |- context [ld8 ?b ?p ≫= _] => destruct (ld8_some b p) as [? ->]; [lia|]
  | |- context [ld_ip6_addr ?b ?p ≫= _] => destruct (ld_ip6_addr_some b p) as [? ->]; [lia..|]
  | |- context [ld_bytes ?b ?p ?n ≫= _] =>
      destruct (ld_bytes_some b p n) as (? & -> & ?); [lia..|]
  | |- context [st_bytes ?p ?bs ?b] =>
      destruct (st_bytes_some b p bs) as (? & -> & ?);
        [lia|rewrite ?length_replicate, ?Nat2Z.id; simpl; lia|]
  | |- context [st_ip6_addr ?p ?v ?b] => destruct (st_ip6_addr_some b p v) as (? & -> & ?); [lia..|]
  | |- context [st32 ?p ?v ?b] => destruct (st32_some b p v) as (? & -> & ?); [lia..|]
  | |- context [st16 ?p ?v ?b] => destruct (st16_some b p v) as (? & -> & ?); [lia..|]
  | |- context [st8 ?p ?v ?b] => destruct (st8_some b p v) as (? & -> & ?); [lia|]
  end; cbn [mbind option_bind].

(** ** The invariant *)

(** The tables of a range, and a port that the code can index. *)
Definition range_sized (r : ip_range) : Prop :=
  length (list_ r) = 256%nat /\ length (valid r) = 256%nat /\ 0 <= num r <= 256.
Record port_sized (p : netif_port) : Prop := {
  ps_slaves : 0 <= np_pci_num p <= Z.of_nat (length (np_port_id_list p));
  ps_local_mac : length (np_local_mac p) = 6%nat;
  ps_gateway_mac : length (np_gateway_mac p) = 6%nat;
  ps_range : range_sized (np_local_ip_range p);
}.

(** A template whose destination address can be set. *)
Definition has_dmac (d : mbuf_data) : Prop := md_l2_len d = 0 \/ (6 <= length (md_data d))%nat.

Record sized (p : netif_port) (vxlan : bool) (cache : cache_id -> mbuf_data)
    (peers : list (option work_space)) (lldp : list Z) : Prop := {
  sz_port : port_sized p;
  sz_vxlan : vxlan = true -> exists vx, np_vxlan p = Some vx /\ range_sized (vx_vtep_local vx);
  sz_dmac : forall c, has_dmac (cache c);
  sz_peers : Forall (fun o => forall ws c, o = Some ws -> has_dmac (cache_data c ws)) peers;
  sz_lldp : length lldp = 92%nat;
}.
Definition world_sized (w : world) : Prop :=
  sized (ws_port (w_ws w)) (ws_vxlan (w_ws w)) (fun c => cache_data c (w_ws w)) (w_peers w) (w_lldp_packet w).

Record env_ok (D : gset N) (room : Z) (w : world) : Prop := {
  env_txq : exists ps, txq_ok (w_txq w) ps /\ tx_tail (w_txq w) < TX_QUEUE_SIZE;
  env_pool : Z.of_nat (length (w_free_pool w)) < MBUF_FREE_POOL_SIZE;
  env_rss : st_rss (ws_socket_table (w_ws w)) = false;
  env_lookup : forall cip sip cp sp i,
    socket_common_lookup (ws_socket_table (w_ws w)) cip sip cp sp = Some i -> i ∈ D;
  env_next : 0 <= st_pool_next (ws_socket_table (w_ws w)) < st_pool_num (ws_socket_table (w_ws w));
  env_sock : forall n, 0 <= n < st_pool_num (ws_socket_table (w_ws w)) ->
    pool_sock (ws_socket_table (w_ws w)) n ∈ D;
  env_ack : Forall (fun i => i ∈ D) (ws_ack_delay (w_ws w));
  env_cache : forall c, let d := cache_data c (w_ws w) in
    0 <= md_total_len d <= room /\ Z.of_nat (length (md_data d)) = md_total_len d;
  env_dip : ws_change_dip (w_ws w) = true ->
    0 <= list_next (ws_dip_list (w_ws w)) < list_num (ws_dip_list (w_ws w));
  env_sized : world_sized w;
}.

(** What the packet path never changes. *)
Definition static (w : world) : config * tick_globals * (bool * bool * bool * Z * tick_time * cpuload * bool * bool * bool) :=
  (w_cfg w, w_tick w,
   (ws_change_dip (w_ws w), ws_flood (w_ws w), ws_server (w_ws w), ws_send_window (w_ws w),
    ws_time (w_ws w), ws_load (w_ws w), ws_stop (w_ws w), ws_vxlan (w_ws w), ws_ipv6 (w_ws w))).

(** [w'] differs from [w] only in the environment, which is still fine; the
    gauge of open sockets is untouched. *)
Record env_step (D : gset N) (room : Z) (w w' : world) : Prop := {
  es_env : env_ok D room w';
  es_sockets : w_sockets w' = w_sockets w;
  es_links : w_links w' = w_links w;
  es_current : w_stats w' NS_socket_current = w_stats w NS_socket_current;
  es_static : static w' = static w;
}.

Lemma env_step_refl D room w : env_ok D room w -> env_step D room w w.
Proof. by split. Qed.
Lemma env_step_trans D room w1 w2 w3 :
  env_step D room w1 w2 -> env_step D room w2 w3 -> env_step D room w1 w3.
Proof. intros [] []. split; [done|congruence..]. Qed.

Section Env.
Context {Dk : Dpdk} {room : Z} {L : DpdkLaws Dk room} (D : gset N) (Hroom : HDR_ROOM <= room).
Abbreviation env_ok := (env_ok D room).
Abbreviation env_step := (env_step D room).

(** Sockets, links and counters are not part of the environment. *)
Lemma env_ok_frame w s l st : env_ok w ->
  env_ok (w <| w_sockets := s |> <| w_links := l |> <| w_stats := st |>).
Proof. by intros []. Qed.

Lemma env_stat_mod f w : env_ok w -> f (w_stats w) NS_socket_current = w_stats w NS_socket_current ->
  env_step w (w <| w_stats ::= f |>).
Proof. intros [] Hf. by split; [split|..]. Qed.

Lemma env_stat_inc k w : env_ok w -> k ≠ NS_socket_current ->
  env_step w (w <| w_stats ::= net_stats_inc k |>).
Proof. intros. apply env_stat_mod; [done|]. by apply ns_add_other. Qed.

Lemma wp_env_stat k w : env_ok w -> k ≠ NS_socket_current ->
  wp (stat_inc k) (fun _ w' => env_step w w') w.
Proof.
  intros He Hk. by apply wp_stat_inc, env_stat_inc.
Qed.

Lemma env_io_log e w : env_ok w -> env_step w (w <| w_io ::= cons e |>).
Proof. intros []. by split; [split|..]. Qed.

Lemma wp_free2_flush w : Z.of_nat (length (w_free_pool w)) <= MBUF_FREE_POOL_SIZE ->
  wp mbuf_free2_flush (fun _ w' => exists h, w' = w <| w_io := h |> <| w_free_pool := [] |>) w.
Proof.
  intros _. unfold mbuf_free2_flush. wp_pure. wp_step.
  - wp_pure. by eexists.
  - bool_facts. exists (w_io w). destruct w; simpl in *.
    destruct w_free_pool; [done|]. by destruct H.
Qed.

Lemma wp_free2 m w : env_ok w -> wp (mbuf_free2 m) (fun _ w' => env_step w w') w.
Proof.
  intros [E1 E2 E3 E4 E5 E6 E7 E8 E9 E10]. unfold mbuf_free2. wp_pure.
  destruct (Z.leb_spec MBUF_FREE_POOL_SIZE (Z.of_nat (length (w_free_pool w)))); [lia|].
  wp_pure. wp_step.
  - eapply wp_mono; [apply wp_free2_flush|].
    { rsimpl. rewrite length_app. simpl. lia. }
    intros _ w' [h ->]. by split; [split|..].
  - bool_facts. split; [split|..]; try done. rsimpl. rewrite length_app. simpl. lia.
Qed.

Lemma wp_mbuf_free m w : env_ok w -> wp (mbuf_free m) (fun _ w' => env_step w w') w.
Proof. intros. by apply wp_io_log, env_io_log. Qed.

Lemma wp_tx_send m w : env_ok w -> wp (work_space_tx_send m) (fun _ w' => env_step w w') w.
Proof.
  intros [(ps & Hq & Ht) E2 E3 E4 E5 E6 E7 E8 E9 E10].
  eapply wp_mono; [by apply (tx_send_spec w m ps)|].
  intros _ w' (q & h & sent & dropped & rest & -> & _ & Hq' & Ht' & _).
  split; [split|..]; try done.
  - by exists rest.
  - unfold tx_upd. rsimpl. destruct dropped; unfold drop_stats; by ns_simpl.
Qed.

Lemma wp_csum_offload m f w : pkt_ok m ->
  wp (csum_offload_ip_tcpudp m f) (fun m' w' => w' = w /\ pkt_ok m') w.
Proof.
  intros Hm. unfold csum_offload_ip_tcpudp. wp_pure.
  destruct (mbuf_tcp_hdr_some m Hm) as (th & Hth & Hr).
  eapply wp_m_ld_eq; [exact Hth|]. wp_pure. m_step.
  wp_step; wp_pure; repeat (m_step; wp_pure).
  - wp_step; wp_pure; repeat (m_step; wp_pure); wp_step; wp_pure; repeat (m_step; wp_pure);
      (split; [done|in_packet]).
  - wp_step; wp_pure; repeat (m_step; wp_pure); (split; [done|in_packet]).
Qed.

Lemma wp_tx_send_tcp m w : env_ok w -> pkt_ok m ->
  wp (work_space_tx_send_tcp m) (fun _ w' => env_step w w') w.
Proof.
  intros He Hm. unfold work_space_tx_send_tcp. wp_pure.
  eapply wp_mono; [by apply wp_csum_offload|]. intros m' w' [-> _]. wp_pure.
  wp_use wp_tx_send by (by apply env_stat_mod). intros _ w' Hw.
  eapply env_step_trans; [|exact Hw]. by apply env_stat_mod.
Qed.

(** Allocation gives a packet with room for the headers. *)
Lemma wp_cache_alloc c w : env_ok w ->
  wp (mbuf_cache_alloc c) (fun o w' => env_step w w' /\ forall m, o = Some m -> pkt_ok m) w.
Proof.
  intros He. pose proof (env_cache _ _ _ He c) as [Hlen Hdata]. cbv zeta in Hlen, Hdata.
  unfold mbuf_cache_alloc, pktmbuf_alloc, mbuf_push_data. wp_pure.
  pose proof (env_io_log (Io_alloc (Pool_cache c) (rte_pktmbuf_alloc (w_io w) (Pool_cache c))) w He) as Hw1.
  destruct (rte_pktmbuf_alloc (w_io w) (Pool_cache c)) as [m|] eqn:Ea.
  2: { wp_pure. by split. }
  destruct (alloc_fresh _ _ _ Ea) as (A1 & A2 & A3).
  set (d := cache_data c (w_ws w)) in *.
  wp_step; wp_pure.
  - apply wp_lift_any; [rewrite append_ok; unfold append_doc; by case_match; [eexists|bool_facts; lia]|].
    intros [p m'] Hp. wp_pure. split; [done|]. intros m2 [= <-].
    rewrite append_ok in Hp. unfold append_doc in Hp. case_match; [|done]. injection Hp as <- <-.
    in_packet.
  - apply wp_lift_any; [rewrite append_ok; unfold append_doc; rsimpl; by case_match; [eexists|bool_facts; lia]|].
    intros [p m'] Hp. rewrite append_ok in Hp. unfold append_doc in Hp. rsimpl_in Hp.
    case_match; [|done]. injection Hp as <- <-. bool_facts.
    wp_pure. apply wp_m_st.
    { apply st_bytes_some; rsimpl; lia. }
    intros m2 Hm2. wp_pure. split; [done|]. intros m3 [= <-]. in_packet.
Qed.

(** *** Segments *)

Lemma wp_dip_next_ipv4 w : env_ok w -> ws_change_dip (w_ws w) = true ->
  wp dip_next_ipv4 (fun _ w' => env_step w w' /\ ws_change_dip (w_ws w') = true) w.
Proof.
  intros [E1 E2 E3 E4 E5 E6 E7 E8 E9 E10] Hc. unfold dip_next_ipv4. wp_pure.
  destruct (get_next_mod _ (E9 Hc)) as (a & _ & -> & Hip & Hn).
  eapply wp_lift; [reflexivity|]. wp_pure. split; [|done]. split; [split|..]; try done.
  intros _. rsimpl. unfold list_num in *. rewrite Hip, Hn. apply Z.mod_pos_bound. specialize (E9 Hc). lia.
Qed.

Lemma wp_dip_next_ipv6 w : env_ok w -> ws_change_dip (w_ws w) = true ->
  wp dip_next_ipv6 (fun _ w' => env_step w w' /\ ws_change_dip (w_ws w') = true) w.
Proof.
  intros [E1 E2 E3 E4 E5 E6 E7 E8 E9 E10] Hc. unfold dip_next_ipv6. wp_pure.
  destruct (get_next_mod _ (E9 Hc)) as (a & Ha & _ & Hip & Hn).
  unfold ip_list_get_next_ipv6. rewrite Ha. cbn [mbind option_bind].
  eapply wp_lift; [reflexivity|]. wp_pure. split; [|done]. split; [split|..]; try done.
  intros _. rsimpl. unfold list_num in *. rewrite Hip, Hn. apply Z.mod_pos_bound. specialize (E9 Hc). lia.
Qed.

Lemma wp_change_dip m iph th w :
  env_ok w -> ws_change_dip (w_ws w) = true -> pkt_ok m -> ptrs_ok m iph th ->
  wp (tcp_change_dip m iph th) (fun m' w' => env_step w w' /\ same_shape m m') w.
Proof.
  intros He Hc Hm Hp. unfold tcp_change_dip. wp_pure. wp_step.
  - unfold tcp_change_dipv6. wp_pure. m_ptr. wp_pure.
    wp_use wp_dip_next_ipv6 by done. intros addr w' [Hw _]. wp_pure. repeat (m_ptr; wp_pure).
    split; [done|]. eauto using same_shape_trans.
  - unfold tcp_change_dipv4. wp_pure. m_ptr. wp_pure.
    wp_use wp_dip_next_ipv4 by done. intros addr w' [Hw _]. wp_pure. repeat (m_ptr; wp_pure).
    split; [done|]. eauto using same_shape_trans.
Qed.

Lemma wp_set_ip iph sk m w : env_ok w -> pkt_ok m -> ptrs_ok m iph iph ->
  wp (tcp_set_ip iph sk m) (fun m' w' => env_step w w' /\ same_shape m m'
    /\ ws_change_dip (w_ws w') = ws_change_dip (w_ws w)) w.
Proof.
  intros He Hm Hp. unfold tcp_set_ip. wp_pure. wp_step; wp_pure; repeat (m_ptr; wp_pure);
    (split; [|split; [eauto using same_shape_trans|done]]).
  - destruct He. by split; [split|..].
  - by apply env_step_refl.
Qed.

Lemma wp_set_tcp th sk f c m w : pkt_ok m -> ptrs_ok m (m_data_off m) th ->
  wp (tcp_set_tcp th sk f c m) (fun m' w' => w' = w /\ same_shape m m') w.
Proof.
  intros Hm Hp. unfold tcp_set_tcp. wp_pure. repeat (m_ptr; wp_pure).
  split; [done|]. eauto 8 using same_shape_trans.
Qed.

Lemma wp_vxlan_headers ipv6 ip_id sk c1 c2 f m w : pkt_ok m ->
  wp (tcp_vxlan_headers ipv6 ip_id sk c1 c2 f m) (fun r w' => w' = w /\
    let '(iph, th, m', _) := r in same_shape m m' /\ ptrs_ok m' iph th) w.
Proof.
  intros Hm. unfold tcp_vxlan_headers. wp_pure. m_ptr. wp_pure. wp_step; wp_pure; repeat (m_ptr; wp_pure).
  - split; [done|]. split; [done|]. ptrs.
  - split; [done|]. split; [eauto using same_shape_trans|]. ptrs.
Qed.

(** *** The kernel and resets *)

Lemma env_step_pure (w w1 w2 : world) : env_step w w1 -> env_step w1 w2 -> env_step w w2.
Proof. apply env_step_trans. Qed.

Lemma wp_free2_all ms w : env_ok w -> wp (mbuf_free2_all ms) (fun _ w' => env_step w w') w.
Proof.
  revert w. induction ms as [|m ms IH]; intros w He; simpl; wp_pure; [by apply env_step_refl|].
  wp_use wp_free2 by done. intros _ w1 H1. wp_use IH by apply H1.
  intros _ w2 H2. by eapply env_step_trans.
Qed.

Lemma wp_kni_recv m w : env_ok w -> wp (kni_recv m) (fun _ w' => env_step w w') w.
Proof.
  intros He. unfold kni_recv. wp_pure. wp_step.
  - destruct m as [m|]; [|wp_pure; by apply env_step_refl].
    wp_step; [|by apply wp_free2].
    unfold ring_enqueue. wp_pure. wp_step; wp_pure; [by apply env_io_log|].
    wp_use wp_free2 by (by apply env_io_log). intros _ w' Hw.
    eapply env_step_trans; [by apply env_io_log|exact Hw].
  - wp_pure.
    eapply wp_mono with (Q := fun _ w' => env_step w w').
    { unfold ring_count, ring_dequeue_bulk. wp_step; wp_pure; [|by apply env_step_refl].
      wp_step; wp_pure; [by apply env_io_log|by apply env_step_refl]. }
    intros mbufs w1 H1. wp_pure.
    eapply wp_mono with (Q := fun _ w' => env_step w w').
    { unfold eth_tx_burst. wp_step; wp_pure; [|done].
      eapply env_step_trans; [exact H1|]. eapply env_step_trans; [apply env_io_log, H1|].
      apply env_stat_mod; [apply env_io_log, H1|]. by ns_simpl. }
    intros n w2 H2. wp_use wp_free2_all by apply H2. intros _ w3 H3. by eapply env_step_trans.
Qed.


Lemma rst_set_ip_some tos p b : 0 <= p -> p + 20 <= Z.of_nat (length b) ->
  exists b', tcp_rst_set_ip tos p b = Some b' /\ length b' = length b.
Proof.
  intros. unfold tcp_rst_set_ip, zeros. unfold_offsets. repeat buf_step. eexists. split; [done|lia].
Qed.

Lemma rst_set_ipv6_some tos p b : 0 <= p -> p + 40 <= Z.of_nat (length b) ->
  exists b', tcp_rst_set_ipv6 tos p b = Some b' /\ length b' = length b.
Proof.
  intros. unfold tcp_rst_set_ipv6, zeros. unfold_offsets. repeat buf_step. eexists. split; [done|lia].
Qed.

Lemma rst_set_tcp_some p b : 0 <= p -> p + 20 <= Z.of_nat (length b) ->
  exists b', tcp_rst_set_tcp p b = Some b' /\ length b' = length b.
Proof.
  intros. unfold tcp_rst_set_tcp, zeros. unfold_offsets. repeat buf_step. eexists. split; [done|lia].
Qed.

Lemma eth_swap_some p b : 0 <= p -> p + 12 <= Z.of_nat (length b) ->
  exists b', eth_addr_swap p b = Some b' /\ length b' = length b.
Proof. intros. unfold eth_addr_swap. repeat buf_step. eexists. split; [done|lia]. Qed.

Lemma trim_room m n m' : rte_pktmbuf_trim m n = Some m' ->
  m_data_off m' = m_data_off m /\ m_buf m' = m_buf m.
Proof. rewrite trim_ok. unfold trim_doc. case_match; [|done]. by intros [= <-]. Qed.

Ltac rst_step :=
  match goal with
  | |- wp (m_st (eth_addr_swap _) _) _ _ => apply wp_m_st; [apply eth_swap_some; in_packet | intros ?m ?]
  | |- wp (m_st (tcp_rst_set_ip _ _) _) _ _ => apply wp_m_st; [apply rst_set_ip_some; in_packet | intros ?m ?]
  | |- wp (m_st (tcp_rst_set_ipv6 _ _) _) _ _ => apply wp_m_st; [apply rst_set_ipv6_some; in_packet | intros ?m ?]
  | |- wp (m_st (tcp_rst_set_tcp _) _) _ _ => apply wp_m_st; [apply rst_set_tcp_some; in_packet | intros ?m ?]
  | |- _ => m_step
  end.

Lemma wp_reply_rst m w : env_ok w -> pkt_ok m ->
  wp (tcp_reply_rst m) (fun _ w' => env_step w w') w.
Proof.
  intros He Hm. unfold tcp_reply_rst. wp_pure. wp_step.
  - wp_pure. wp_use wp_free2 by (by apply env_stat_inc). intros _ w' Hw.
    eapply env_step_trans; [|exact Hw]. by apply env_stat_inc.
  - wp_pure. destruct (mbuf_tcp_hdr_some m Hm) as (th & Hth & Hr).
    eapply wp_m_ld_eq; [exact Hth|]. wp_pure. rst_step. wp_pure. rst_step. wp_pure.
    eapply wp_mono with (Q := fun _ w' => w' = w).
    { wp_step; wp_pure; repeat (rst_step; wp_pure); done. }
    intros [m' nlen] w' ->. wp_pure.
    wp_use wp_tx_send by (by apply env_stat_inc). intros _ w' Hw.
    eapply env_step_trans; [|exact Hw]. by apply env_stat_inc.
Qed.
End Env.
