(* ===== verification/NeighInv.v ===== *)
(** * NeighInv: the neighbour handlers preserve the environment

    Triples for the operations of Kni and Neigh: on a received frame they run
    without a fault, touch no socket and no timer, and keep the environment of
    the worker well formed. *)

From S2P Require Import Prelude SocketNode IpRange Tick Config Mbuf NetStats World.
From S2P Require Import WorkSpace Socket Kni TcpPacket Neigh Env.

(** ** Stores that stay inside the buffer *)

Ltac store_lemma := intros; unfold_offsets; repeat buf_step; eexists; (split; [done|lia]).

Lemma eth_hdr_set_some eth type d s b : length d = 6%nat -> length s = 6%nat ->
  0 <= eth -> eth + 14 <= Z.of_nat (length b) ->
  exists b', eth_hdr_set eth type d s b = Some b' /\ length b' = length b.
Proof. unfold eth_hdr_set, eth_addr_copy. store_lemma. Qed.

Lemma arp_set_arphdr_some arp op sip dip sa da b : length sa = 6%nat -> length da = 6%nat ->
  0 <= arp -> arp + 28 <= Z.of_nat (length b) ->
  exists b', arp_set_arphdr arp op sip dip sa da b = Some b' /\ length b' = length b.
Proof. unfold arp_set_arphdr, eth_addr_copy, ar_op, ar_sip, ar_tip, ar_sha, ar_tha. store_lemma. Qed.

Lemma iph_swap_addr_some p b : 0 <= p -> p + 20 <= Z.of_nat (length b) ->
  exists b', iph_swap_addr p b = Some b' /\ length b' = length b.
Proof. unfold iph_swap_addr. store_lemma. Qed.

Lemma ip6h_swap_addr_some p b : 0 <= p -> p + 40 <= Z.of_nat (length b) ->
  exists b', ip6h_swap_addr p b = Some b' /\ length b' = length b.
Proof. unfold ip6h_swap_addr. store_lemma. Qed.

Lemma icmp_set_reply_some p b : 0 <= p -> p + 4 <= Z.of_nat (length b) ->
  exists b', icmp_set_reply p b = Some b' /\ length b' = length b.
Proof. unfold icmp_set_reply. store_lemma. Qed.

Lemma nd_opt_set_some opt type mac b : length mac = 6%nat -> 0 <= opt -> opt + 8 <= Z.of_nat (length b) ->
  exists b', icmp6_nd_opt_set opt type mac b = Some b' /\ length b' = length b.
Proof. unfold icmp6_nd_opt_set, eth_addr_copy. store_lemma. Qed.

Lemma nd_na_set_some na mac b : length mac = 6%nat -> 0 <= na -> na + 32 <= Z.of_nat (length b) ->
  exists b', icmp6_nd_na_set na mac b = Some b' /\ length b' = length b.
Proof.
  unfold icmp6_nd_na_set, icmp6_cksum, nd_flags, ND_LEN, icmp6_nd_opt_set, eth_addr_copy. store_lemma.
Qed.

Lemma set_cksum_some {Dk : Dpdk} ip6h p b : 0 <= p -> p + 4 <= Z.of_nat (length b) ->
  exists b', icmp6_set_cksum ip6h p b = Some b' /\ length b' = length b.
Proof. unfold icmp6_set_cksum, icmp6_cksum. store_lemma. Qed.

Lemma eth_reply_some eth mac b : length mac = 6%nat -> 0 <= eth -> eth + 12 <= Z.of_nat (length b) ->
  exists b', eth_reply eth mac b = Some b' /\ length b' = length b.
Proof. unfold eth_reply, eth_addr_copy. store_lemma. Qed.

Lemma or_tos_some p tos b : 0 <= p -> p + 4 <= Z.of_nat (length b) ->
  exists b', ip6_or_tos p tos b = Some b' /\ length b' = length b.
Proof. unfold ip6_or_tos. store_lemma. Qed.

Lemma ns_set_ip6_some port p b : 0 <= p -> p + 40 <= Z.of_nat (length b) ->
  exists b', icmp6_ns_set_ip6 port p b = Some b' /\ length b' = length b.
Proof. unfold icmp6_ns_set_ip6, zeros. store_lemma. Qed.

Lemma ns_set_some port p b : 0 <= p -> p + 24 <= Z.of_nat (length b) ->
  exists b', icmp6_ns_set port p b = Some b' /\ length b' = length b.
Proof. unfold icmp6_ns_set, zeros, ND_LEN, nd_target. store_lemma. Qed.

(** One store or load of a handler. *)
Ltac neigh_offsets := unfold mbuf_arphdr, ar_op, ar_sip, ar_tip, ar_sha, ar_tha, nd_target, ND_LEN, ND_OPT_LEN in *.
Ltac neigh_side := neigh_offsets; first [done | in_packet].
Ltac neigh_step :=
  match goal with
  | |- wp (m_st (eth_hdr_set _ _ _ _) _) _ _ => apply wp_m_st; [apply eth_hdr_set_some; neigh_side|intros ?m ?]
  | |- wp (m_st (arp_set_arphdr _ _ _ _ _ _) _) _ _ =>
      apply wp_m_st; [apply arp_set_arphdr_some; neigh_side|intros ?m ?]
  | |- wp (m_st (iph_swap_addr _) _) _ _ => apply wp_m_st; [apply iph_swap_addr_some; neigh_side|intros ?m ?]
  | |- wp (m_st (ip6h_swap_addr _) _) _ _ => apply wp_m_st; [apply ip6h_swap_addr_some; neigh_side|intros ?m ?]
  | |- wp (m_st (icmp_set_reply _) _) _ _ => apply wp_m_st; [apply icmp_set_reply_some; neigh_side|intros ?m ?]
  | |- wp (m_st (icmp6_nd_opt_set _ _ _) _) _ _ => apply wp_m_st; [apply nd_opt_set_some; neigh_side|intros ?m ?]
  | |- wp (m_st (icmp6_nd_na_set _ _) _) _ _ => apply wp_m_st; [apply nd_na_set_some; neigh_side|intros ?m ?]
  | |- wp (m_st (icmp6_set_cksum _ _) _) _ _ => apply wp_m_st; [apply set_cksum_some; neigh_side|intros ?m ?]
  | |- wp (m_st (eth_reply _ _) _) _ _ => apply wp_m_st; [apply eth_reply_some; neigh_side|intros ?m ?]
  | |- wp (m_st (ip6_or_tos _ _) _) _ _ => apply wp_m_st; [apply or_tos_some; neigh_side|intros ?m ?]
  | |- wp (m_st (icmp6_ns_set_ip6 _ _) _) _ _ => apply wp_m_st; [apply ns_set_ip6_some; neigh_side|intros ?m ?]
  | |- wp (m_st (icmp6_ns_set _ _) _) _ _ => apply wp_m_st; [apply ns_set_some; neigh_side|intros ?m ?]
  | |- wp (m_st (eth_addr_swap _) _) _ _ => apply wp_m_st; [apply eth_swap_some; neigh_side|intros ?m ?]
  | |- wp (m_st (st_ip6_addr _ _) _) _ _ => apply wp_m_st; [apply st_ip6_addr_some; neigh_side|intros ?m ?]
  | |- wp (st_lift _ (ld_ip6_addr _ _)) _ _ =>
      apply wp_lift_any; [apply ld_ip6_addr_some; neigh_side|intros ?a ?]
  | |- _ => neigh_offsets; m_step
  end.

Section Neigh.
Context {Dk : Dpdk} {room : Z} {L : DpdkLaws Dk room} (D : gset N) (Hroom : HDR_ROOM <= room).
Abbreviation env_ok := (env_ok D room).
Abbreviation env_step := (env_step D room).

(** ** Frames *)

(** A packet whose data lie in its buffer and fit into a fresh packet. *)
Definition frame (m : mbuf) : Prop :=
  pkt_ok m /\ 0 <= m_data_len m <= room /\ m_data_off m + m_data_len m <= Z.of_nat (length (m_buf m)).

Lemma frame_shape m m' : same_shape m m' -> frame m -> frame m'.
Proof. unfold frame. intros Hs (Hp & H). split; [by eapply same_shape_ok|]. by destruct Hs as (-> & -> & -> & _). Qed.
Lemma frame_pkt m : frame m -> pkt_ok m.
Proof. by intros [? _]. Qed.

(** A packet under construction that holds [n] bytes. *)
Definition built (n : Z) (m : mbuf) : Prop :=
  m_data_len m = n /\ 0 <= m_data_off m /\ m_data_off m + room <= Z.of_nat (length (m_buf m)).

Lemma built_pkt n m : built n m -> pkt_ok m.
Proof. unfold built, pkt_ok. lia. Qed.
Lemma built_frame n m : built n m -> 0 <= n <= room -> frame m.
Proof. intros H Hn. split; [by eapply built_pkt|]. unfold built in H. lia. Qed.
Lemma built_shape n m m' : same_shape m m' -> built n m -> built n m'.
Proof. unfold built. by intros (-> & -> & -> & _). Qed.

(** ** Steps of the environment *)

Definition runs {A} (m : M A) (w : world) : Prop := wp m (fun _ w' => env_step w w') w.

Lemma runs_bind {A B} (m : M A) (f : A -> M B) (P : A -> Prop) w :
  wp m (fun a w' => env_step w w' /\ P a) w ->
  (forall a w', env_ok w' -> P a -> runs (f a) w') -> runs (m ≫= f) w.
Proof.
  intros Hm Hf. apply wp_bind. eapply wp_mono; [exact Hm|]. intros a w1 [E1 Hp].
  eapply wp_mono; [by apply Hf; [apply E1|]|]. intros b w2 E2. exact (env_step_trans _ _ _ _ _ E1 E2).
Qed.

Lemma runs_then {A B} (m : M A) (f : A -> M B) w :
  runs m w -> (forall a w', env_ok w' -> runs (f a) w') -> runs (m ≫= f) w.
Proof.
  intros Hm Hf. eapply (runs_bind _ _ (fun _ => True)); [|auto].
  eapply wp_mono; [exact Hm|]. done.
Qed.

(** A read or a change of the packet, which leaves the worker as it is. *)
Lemma runs_local {A B} (m : M A) (f : A -> M B) (P : A -> Prop) w :
  wp m (fun a w' => w' = w /\ P a) w -> (forall a, P a -> runs (f a) w) -> runs (m ≫= f) w.
Proof.
  intros Hm Hf. apply wp_bind. eapply wp_mono; [exact Hm|]. intros a w1 [-> Hp]. by apply Hf.
Qed.

Lemma runs_ret {A} (a : A) w : env_ok w -> runs (mret a) w.
Proof. intros. by apply wp_ret, env_step_refl. Qed.
Lemma runs_when b m w : env_ok w -> (b = true -> runs m w) -> runs (st_when b m) w.
Proof. intros He Hm. destruct b; [by apply Hm|by apply runs_ret]. Qed.
Lemma runs_stat k w : env_ok w -> k ≠ NS_socket_current -> runs (stat_inc k) w.
Proof. intros. by apply (wp_env_stat (room := room) D). Qed.
Lemma runs_stat_mod f w : env_ok w -> f (w_stats w) NS_socket_current = w_stats w NS_socket_current ->
  runs (stat_mod f) w.
Proof. intros. by apply wp_stat_mod, (env_stat_mod (room := room) D). Qed.
Lemma runs_free m w : env_ok w -> runs (mbuf_free m) w.
Proof. apply (wp_mbuf_free (room := room) D). Qed.
Lemma runs_send m w : env_ok w -> runs (work_space_tx_send m) w.
Proof. apply (wp_tx_send (room := room) D). Qed.
Lemma runs_kni m w : env_ok w -> runs (kni_recv m) w.
Proof. apply (wp_kni_recv (room := room) D). Qed.

Lemma runs_flush w : env_ok w -> runs work_space_tx_flush w.
Proof.
  intros [(ps & Hq & Ht) E2 E3 E4 E5 E6 E7 E8 E9 E10]. unfold runs.
  eapply wp_mono; [apply (tx_flush_spec w ps Hq); by intros _|].
  intros _ w' (q & h & sent & dropped & rest & -> & _ & Hq' & Ht' & _).
  split; [split|..]; try done.
  - by exists rest.
  - unfold tx_upd. rsimpl. destruct dropped; unfold drop_stats; by ns_simpl.
Qed.

Lemma wp_tx_burst port queue ms w : env_ok w ->
  wp (eth_tx_burst port queue ms) (fun _ w' => env_step w w') w.
Proof. intros. unfold eth_tx_burst. wp_pure. by apply (env_io_log (room := room) D). Qed.

Lemma wp_rx_burst port queue n w : env_ok w ->
  wp (eth_rx_burst port queue n) (fun ms w' => env_step w w' /\ Forall frame ms
    /\ Forall (fun m => Forall (in_u 8) (m_buf m)) ms) w.
Proof.
  intros. unfold eth_rx_burst. wp_pure. split; [by apply (env_io_log (room := room) D)|].
  split; apply list.Forall_forall; intros m Hm; destruct (rx_burst_frame _ _ _ _ _ Hm) as (H1 & H2 & H3 & H4);
    [|done]. unfold frame, pkt_ok. lia.
Qed.

(** ** Building packets *)

Lemma wp_alloc_mbuf w : env_ok w ->
  wp work_space_alloc_mbuf (fun o w' => env_step w w' /\ forall m, o = Some m -> built 0 m) w.
Proof.
  intros He. unfold work_space_alloc_mbuf, pktmbuf_alloc. wp_pure.
  split; [by apply (env_io_log (room := room) D)|]. intros m Hm. apply (alloc_fresh _ _ _ Hm).
Qed.

Lemma wp_push n k m w : built n m -> n + k <= room ->
  wp (mbuf_push_data m k) (fun r w' => w' = w /\ r.1 = m_data_off m + n /\ built (n + k) r.2
    /\ m_data_off r.2 = m_data_off m) w.
Proof.
  intros (Hn & Ho & Hl) Hk. unfold mbuf_push_data. rewrite append_ok. unfold append_doc. rewrite Hn.
  destruct (Z.leb_spec (m_data_off m + n + k) (Z.of_nat (length (m_buf m)))); [|lia].
  eapply wp_lift; [done|]. unfold built. rsimpl. cbn [fst snd]. rsimpl. done.
Qed.

Lemma wp_mbuf_dup m w : env_ok w -> frame m ->
  wp (mbuf_dup m) (fun o w' => env_step w w') w.
Proof.
  intros He (Hp & Hl & Hb). unfold mbuf_dup. apply wp_bind.
  eapply wp_mono; [by apply wp_alloc_mbuf|]. intros [m2|] w1 [E1 H1]; [|by apply wp_ret].
  specialize (H1 m2 eq_refl). apply wp_bind. unfold mbuf_copy.
  destruct (ld_bytes_some (m_buf m) (mbuf_eth_hdr m) (m_data_len m)) as (bs & -> & Hbs);
    [unfold mbuf_eth_hdr, pkt_ok in *; lia..|].
  apply wp_bind. eapply wp_lift; [done|]. apply wp_bind.
  eapply wp_mono; [apply (wp_push 0 (m_data_len m)); [exact H1|lia]|]. intros [p m3] w2 (-> & Hp3 & H3 & Ho).
  cbn [fst snd] in *. apply wp_m_st; [|intros m4 _; by apply wp_ret].
  apply st_bytes_some; unfold built in *; lia.
Qed.

Lemma runs_broadcast_loop port n i m w : env_ok w -> frame m -> 0 <= i ->
  i + Z.of_nat n <= Z.of_nat (length (np_port_id_list port)) -> runs (bond_broadcast_loop port n i m) w.
Proof.
  intros He Hf. revert i w He. induction n as [|n IH]; intros i w He Hi Hn; simpl; [by apply runs_ret|].
  destruct (aget_some (np_port_id_list port) i) as [port_id ->]; [lia|].
  apply wp_bind. eapply wp_lift; [done|].
  eapply runs_then; [by apply wp_mbuf_dup|]. intros [m2|] w1 E1; [|by apply runs_ret].
  eapply runs_then; [apply runs_stat_mod; [done|by ns_simpl]|]. intros ? w2 E2. unfold runs. wp_reads.
  eapply runs_then; [by apply wp_tx_burst|]. intros sent w3 E3.
  eapply runs_then; [apply runs_when; [done|intros _; by apply runs_free]|]. intros ? w4 E4.
  apply IH; [done|lia|lia].
Qed.

Lemma env_port w : env_ok w -> port_sized (ws_port (w_ws w)).
Proof. intros He. apply (sz_port _ _ _ _ _ (env_sized _ _ _ He)). Qed.

Lemma runs_broadcast m w : env_ok w -> frame m -> runs (bond_broadcast m) w.
Proof.
  intros He Hf. unfold bond_broadcast, runs. wp_reads. destruct (env_port w He) as [Hs _ _ _].
  apply runs_broadcast_loop; [done|done|lia|lia].
Qed.

Lemma runs_kni_broadcast m w : env_ok w -> frame m -> runs (kni_broadcast m) w.
Proof.
  intros He Hf. unfold kni_broadcast. eapply runs_then; [by apply wp_mbuf_dup|].
  intros [m2|] w1 E1; [by apply runs_kni|by apply runs_ret].
Qed.

Lemma icmp6_is_neigh_some m : pkt_ok m -> is_Some (icmp6_is_neigh m).
Proof.
  intros Hm. unfold icmp6_is_neigh. destruct (ld8_some (m_buf m) (mbuf_icmp6_hdr m)) as [v ->]; [in_packet|].
  by eexists.
Qed.

Lemma mbuf_is_neigh_some m : pkt_ok m -> is_Some (mbuf_is_neigh m).
Proof.
  intros Hm. unfold mbuf_is_neigh.
  destruct (ld16_some (m_buf m) (mbuf_eth_hdr m + eth_type)) as [v ->]; [in_packet..|]. cbn [mbind option_bind].
  case_match; [by eexists|]. case_match; [|by eexists].
  destruct (ld8_some (m_buf m) (mbuf_ip_hdr m + ip6_nxt)) as [x ->]; [in_packet|]. cbn [mbind option_bind].
  case_match; [by apply icmp6_is_neigh_some|by eexists].
Qed.

Lemma runs_kni_send_mbuf m w : env_ok w -> frame m -> runs (kni_send_mbuf m) w.
Proof.
  intros He Hf. unfold kni_send_mbuf, runs. wp_reads.
  eapply (runs_local _ _ (fun _ => True)).
  { apply wp_if; intros _; [|by apply wp_ret].
    apply wp_lift_any; [by apply mbuf_is_neigh_some, frame_pkt|]. done. }
  intros neigh _. eapply runs_then; [apply runs_when; [done|intros _; by apply runs_broadcast]|].
  intros ? w1 E1. eapply runs_then; [by apply runs_send|]. intros ? w2 E2.
  apply runs_stat_mod; [done|by ns_simpl].
Qed.

Lemma runs_kni_send w : env_ok w -> runs kni_send w.
Proof.
  intros He. unfold kni_send, runs. wp_reads. apply runs_when; [done|]. intros _.
  eapply (runs_bind _ _ (Forall frame)).
  { eapply wp_mono; [by apply wp_rx_burst|]. by intros ms w' (? & ? & _). }
  intros ms w1 E1 Hms. revert w1 E1. induction Hms as [|m ms Hm Hms IH]; intros w1 E1; simpl; [by apply runs_ret|].
  eapply runs_then; [by apply runs_kni_send_mbuf|]. intros ? w2 E2. by apply IH.
Qed.

Lemma runs_lldp_loop n w : env_ok w -> runs (lldp_send_loop n) w.
Proof.
  revert w. induction n as [|n IH]; intros w He; simpl; [by apply runs_ret|].
  eapply runs_bind; [by apply wp_alloc_mbuf|]. intros [m|] w1 E1 Hm; [|by apply runs_ret].
  specialize (Hm m eq_refl). unfold runs. wp_reads.
  pose proof (sz_lldp _ _ _ _ _ (env_sized _ _ _ E1)) as Hlen.
  assert (0 + Z.of_nat (length (w_lldp_packet w1)) <= room) as Hr by (unfold HDR_ROOM in *; lia).
  eapply runs_local; [apply (wp_push 0 _ m); [exact Hm|exact Hr]|]. intros [p m2] (Hp & H2 & Ho). cbn [fst snd] in *.
  eapply (runs_local _ _ (fun _ => True)).
  { apply wp_m_st; [|done]. unfold built in *. apply st_bytes_some; lia. }
  intros m3 _. eapply runs_then; [by apply runs_send|]. intros ? w2 E2. by apply IH.
Qed.

Lemma runs_lldp_send w : env_ok w -> runs lldp_send w.
Proof.
  intros He. unfold lldp_send, runs. wp_reads. eapply runs_then; [by apply runs_lldp_loop|].
  intros [] w1 E1; [by apply runs_ret|by apply runs_flush].
Qed.

(** ** The gateway's address *)

(** Two templates of the same size. *)
Definition same_size (d d' : mbuf_data) : Prop :=
  md_total_len d' = md_total_len d /\ length (md_data d') = length (md_data d) /\ (has_dmac d -> has_dmac d').

Lemma set_dmac_some ea d : length ea = 6%nat -> has_dmac d ->
  exists d', mbuf_cache_set_dmac ea d = Some d' /\ same_size d d'.
Proof.
  intros Hea Hd. unfold mbuf_cache_set_dmac, same_size, has_dmac in *.
  destruct (Z.eqb_spec (md_l2_len d) 0) as [H0|H0]; [by exists d|].
  destruct (st_bytes_some (md_data d) 0 ea) as (b & -> & Hb); [lia|lia|]. cbn [mbind option_bind].
  eexists. split; [done|]. rsimpl. split; [done|]. split; [done|]. rewrite Hb. by intros [?|?]; [left|right].
Qed.

Lemma update_gw_one_some ea id ws : length ea = 6%nat -> (forall c, has_dmac (cache_data c ws)) ->
  exists g a b c, work_space_update_gw_one ea id ws
    = Some (ws <| ws_port ::= fun p => p <| np_gateway_mac := g |> |>
               <| ws_tcp := a |> <| ws_tcp_opt := b |> <| ws_tcp_data := c |>)
    /\ (g = np_gateway_mac (ws_port ws) \/ g = ea)
    /\ same_size (ws_tcp ws) a /\ same_size (ws_tcp_opt ws) b /\ same_size (ws_tcp_data ws) c.
Proof.
  intros Hea Hd. unfold work_space_update_gw_one. destruct (_ =? _).
  - destruct (set_dmac_some ea (ws_tcp ws) Hea (Hd Cache_tcp)) as (a & Ea & Ha).
    destruct (set_dmac_some ea (ws_tcp_opt ws) Hea (Hd Cache_tcp_opt)) as (b & Eb & Hb).
    destruct (set_dmac_some ea (ws_tcp_data ws) Hea (Hd Cache_tcp_data)) as (c & Ec & Hc).
    rsimpl. rewrite Ea. cbn [mbind option_bind]. rewrite Eb. cbn [mbind option_bind]. rewrite Ec.
    exists ea, a, b, c. split_and!; try done. by right.
  - exists (np_gateway_mac (ws_port ws)), (ws_tcp ws), (ws_tcp_opt ws), (ws_tcp_data ws).
    split; [|by repeat split; auto]. f_equal. destruct ws as [? ? ? ? ? ? ? ? ? ? ? ? ? ? ? ? ? ? ? ? ? ? ? ? ? ? ? ? ? ? p ? ? ? ?].
    by destruct p.
Qed.

Lemma update_gw_some ea id all : length ea = 6%nat ->
  Forall (fun o => forall ws c, o = Some ws -> has_dmac (cache_data c ws)) all ->
  exists all', work_space_update_gw ea id all = Some all'
    /\ Forall (fun o => forall ws c, o = Some ws -> has_dmac (cache_data c ws)) all'.
Proof.
  intros Hea. induction 1 as [|[ws|] all Hws Hall IH]; simpl; [by exists []|..];
    destruct IH as (all' & Eall & Hall').
  - destruct (update_gw_one_some ea id ws Hea) as (g & a & b & c & -> & _ & Ha & Hb & Hc); [by intros ?; apply Hws|].
    cbn [mbind option_bind]. rewrite Eall. cbn [mbind option_bind]. eexists. split; [done|].
    apply List.Forall_cons; [|done]. intros ws' [] [= <-]; simpl;
      [apply Ha, (Hws ws Cache_tcp eq_refl)|apply Hb, (Hws ws Cache_tcp_opt eq_refl)
      |apply Hc, (Hws ws Cache_tcp_data eq_refl)].
  - rewrite Eall. cbn [mbind option_bind]. eexists. split; [done|]. by apply List.Forall_cons.
Qed.

Lemma runs_update_gw ea w : env_ok w -> length ea = 6%nat -> runs (update_gw ea) w.
Proof.
  intros He Hea. unfold update_gw, runs. wp_reads. unfold id.
  destruct (env_sized _ _ _ He) as [[P1 P2 P3 P4] S2 S3 S4 S5].
  destruct (update_gw_one_some ea (np_id (ws_port (w_ws w))) (w_ws w) Hea S3) as (g & a & b & c & -> & Hg & Ha & Hb & Hc).
  destruct (update_gw_some ea (np_id (ws_port (w_ws w))) (w_peers w) Hea S4) as (peers & -> & Hp).
  apply wp_bind. eapply wp_lift; [done|]. apply wp_bind. eapply wp_lift; [done|]. apply wp_modify.
  destruct He as [E1 E2 E3 E4 E5 E6 E7 E8 E9 E10]. split; [split|..]; try done.
  - intros []; [destruct Ha as (? & ? & _), (E8 Cache_tcp)|destruct Hb as (? & ? & _), (E8 Cache_tcp_opt)
      |destruct Hc as (? & ? & _), (E8 Cache_tcp_data)]; simpl in *; lia.
  - split; rsimpl; try done.
    + split; rsimpl; try done. destruct Hg as [-> | ->]; done.
    + intros []; simpl; rsimpl; [apply Ha, (S3 Cache_tcp)|apply Hb, (S3 Cache_tcp_opt)|apply Hc, (S3 Cache_tcp_data)].
Qed.

(** ** ARP *)

Lemma runs_arp_send m w : env_ok w -> frame m -> runs (arp_send m) w.
Proof.
  intros He Hf. unfold arp_send, runs. wp_reads.
  eapply runs_then; [apply runs_when; [done|intros _; by apply runs_broadcast]|]. intros ? w1 E1.
  eapply runs_then; [by apply runs_send|]. intros ? w2 E2. by apply runs_stat.
Qed.

Lemma wp_arp_set_request m smac dip sip w : built 0 m -> length smac = 6%nat ->
  wp (arp_set_request m smac dip sip) (fun m' w' => w' = w /\ frame m') w.
Proof.
  intros Hm Hs. unfold arp_set_request. unfold HDR_ROOM, ETH_HDR_LEN, ARPHDR_LEN in *.
  apply wp_bind. eapply wp_mono; [apply (wp_push 0); [exact Hm|lia]|]. intros [p m1] w1 (-> & Hp & H1 & O1).
  apply wp_bind. eapply wp_mono; [apply (wp_push (0 + 14)); [exact H1|lia]|]. intros [q m2] w2 (-> & Hq & H2 & O2).
  cbn [fst snd] in *. unfold built in *. apply wp_bind. neigh_step. neigh_step.
  split; [done|]. eapply frame_shape; [done|]. eapply frame_shape; [done|].
  apply (built_frame (0 + 14 + 28)); [done|lia].
Qed.

Lemma runs_arp_request ip w : env_ok w -> runs (arp_request_gw2 ip) w.
Proof.
  intros He. unfold arp_request_gw2, runs. wp_reads.
  eapply runs_bind; [by apply wp_alloc_mbuf|]. intros [m|] w1 E1 Hm; [|by apply runs_ret].
  eapply runs_local; [apply wp_arp_set_request; [by apply Hm|apply (env_port _ He)]|].
  intros m' Hm'. by apply runs_arp_send.
Qed.

Lemma runs_arp_range n i r w : env_ok w -> range_sized r -> 0 <= i -> i + Z.of_nat n <= num r ->
  runs (arp_request_range n i r) w.
Proof.
  intros He Hr. revert i w He. induction n as [|n IH]; intros i w He Hi Hn; simpl; [by apply runs_ret|].
  unfold ip_range_get. destruct (Z.eqb_spec (num r) 0); [lia|].
  pose proof (wrap_range 8 (i mod num r) ltac:(lia)) as Hu. unfold in_u in Hu. change (2 ^ 8) with 256 in Hu.
  destruct (aget_some (list_ r) (u8 (i mod num r))) as [a ->]; [destruct Hr as [-> _]; lia|].
  apply wp_bind. eapply wp_lift; [done|]. eapply runs_then; [by apply runs_arp_request|].
  intros ? w1 E1. apply IH; [done|lia|lia].
Qed.

Lemma runs_arp_gw w : env_ok w -> runs arp_request_gw w.
Proof.
  intros He. unfold arp_request_gw, runs. wp_reads. unfold id. cbv zeta.
  apply wp_if; intros _; [by apply runs_ret|].
  destruct (env_sized _ _ _ He) as [[_ _ _ Hr] Hv _ _ _].
  eapply (runs_local _ _ range_sized).
  { destruct (ws_vxlan (w_ws w)) eqn:Ev.
    - destruct (Hv eq_refl) as (vx & -> & Hx). by eapply wp_lift.
    - by eapply wp_lift. }
  intros r Hr'. pose proof Hr' as (_ & _ & R3). eapply runs_then; [by apply runs_arp_request|]. intros ? w1 E1.
  apply wp_if; intros _; [by apply runs_ret|]. apply runs_arp_range; [done|done|lia|lia].
Qed.

Lemma ld_mac_some m p : pkt_ok m -> m_data_off m <= p -> p + 6 <= m_data_off m + 128 ->
  exists ea, ld_bytes (m_buf m) p 6 = Some ea /\ length ea = 6%nat.
Proof.
  intros Hm H1 H2. destruct (ld_bytes_some (m_buf m) p 6) as (ea & -> & Hl); [in_packet..|]. by exists ea.
Qed.

Lemma wp_ld_mac m p (w : world) (Q : eth_addr -> world -> Prop) : pkt_ok m -> m_data_off m <= p -> p + 6 <= m_data_off m + 128 ->
  (forall ea, length ea = 6%nat -> Q ea w) -> wp (st_lift OutOfBounds (ld_bytes (m_buf m) p 6)) Q w.
Proof.
  intros Hm H1 H2 HQ. destruct (ld_mac_some m p Hm H1 H2) as (ea & -> & Hl). eapply wp_lift; [done|by apply HQ].
Qed.

Lemma runs_arp_reply m w : env_ok w -> frame m -> runs (arp_reply m) w.
Proof.
  intros He Hf. pose proof (frame_pkt _ Hf) as Hm. pose proof (ps_local_mac _ (env_port _ He)) as Hmac.
  unfold arp_reply, runs. cbv zeta. apply wp_bind. neigh_step. apply wp_bind. neigh_step. wp_reads.
  apply wp_bind. apply wp_ld_mac; [done|in_packet..|]. intros dmac Hd.
  apply wp_bind. neigh_step. apply wp_bind. neigh_step. apply runs_arp_send; [done|].
  by do 2 (eapply frame_shape; [done|]).
Qed.

(** Learning the gateway's address when [c] holds. *)
Lemma runs_learn c m p w : env_ok w -> pkt_ok m -> m_data_off m <= p -> p + 6 <= m_data_off m + 128 ->
  runs (st_when c (ea ← st_lift OutOfBounds (ld_bytes (m_buf m) p 6); update_gw ea)) w.
Proof.
  intros He Hm H1 H2. apply runs_when; [done|]. intros _. unfold runs. apply wp_bind.
  apply wp_ld_mac; [done..|]. intros ea Hea. by apply runs_update_gw.
Qed.

Lemma runs_arp_process_reply m w : env_ok w -> frame m -> runs (arp_process_reply m) w.
Proof.
  intros He Hf. pose proof (frame_pkt _ Hf) as Hm.
  unfold arp_process_reply, runs. wp_reads. apply wp_bind. neigh_step.
  eapply runs_then; [apply runs_learn; [done|done|in_packet..]|]. intros ? w1 E1. by apply runs_free.
Qed.

Lemma ip_range_exist_some r a : range_sized r -> is_Some (ip_range_exist r a).
Proof.
  intros (_ & H2 & _). unfold ip_range_exist.
  assert (0 <= ntohl a &&& 255 < 256) as Hb.
  { change 255 with (Z.ones 8). rewrite Z.land_ones by lia. apply Z.mod_pos_bound. lia. }
  destruct (aget_some (valid r) (ntohl a &&& 255)) as [v ->]; [rewrite H2; lia|]. by eexists.
Qed.

Lemma ip_exist_some w a : env_ok w -> is_Some (work_space_ip_exist (w_ws w) a).
Proof.
  intros He. destruct (env_sized _ _ _ He) as [[_ _ _ Hr] Hv _ _ _]. unfold work_space_ip_exist.
  case_match; [by eexists|]. case_match; [|case_match; [by apply ip_range_exist_some|by eexists]].
  destruct (Hv eq_refl) as (vx & -> & Hx). by apply ip_range_exist_some.
Qed.

Lemma ip6_exist_some w a : env_ok w -> is_Some (work_space_ip6_exist (w_ws w) a).
Proof.
  intros He. destruct (env_sized _ _ _ He) as [[_ _ _ Hr] _ _ _ _].
  unfold work_space_ip6_exist, ip_range_exist_ipv6.
  case_match; [by eexists|]. case_match; [|by eexists]. case_match; [by eexists|by apply ip_range_exist_some].
Qed.

Lemma runs_arp_request_in m w : env_ok w -> frame m -> runs (arp_process_request m) w.
Proof.
  intros He Hf. pose proof (frame_pkt _ Hf) as Hm.
  unfold arp_process_request, runs. apply wp_bind. neigh_step. wp_reads. unfold id. apply wp_bind.
  apply wp_lift_any; [by apply ip_exist_some|]. intros exist _.
  apply wp_if; intros _; [by apply runs_free|]. apply wp_if; intros _; [by apply runs_free|].
  by apply runs_arp_reply.
Qed.

Lemma runs_arp m w : env_ok w -> frame m -> runs (arp_process m) w.
Proof.
  intros He Hf. pose proof (frame_pkt _ Hf) as Hm. unfold arp_process.
  eapply runs_then; [by apply runs_stat|]. intros ? w1 E1. unfold runs. wp_reads.
  eapply runs_then; [apply runs_when; [done|intros _; by apply runs_kni_broadcast]|]. intros ? w2 E2.
  apply wp_bind. neigh_step. apply wp_if; intros _; [by apply runs_arp_request_in|].
  apply wp_if; intros _; [by apply runs_arp_process_reply|by apply runs_free].
Qed.

(** ** ICMP *)

Lemma wp_local_addr m w (Q : bool -> world -> Prop) : pkt_ok m -> (forall b, Q b w) ->
  wp (work_space_is_local_addr m) Q w.
Proof.
  intros Hm HQ. unfold work_space_is_local_addr. wp_reads. cbv zeta. apply wp_bind.
  apply wp_m_ld; [apply ld_ip_version_some; in_packet|]. intros v. apply wp_bind.
  apply wp_m_ld; [|intros; apply wp_ret, HQ]. case_match; apply ld32_some; in_packet.
Qed.

(** To the kernel when the packet is for this port. *)
Lemma runs_local_or m (m1 m2 : M unit) w : pkt_ok m -> runs m1 w -> runs m2 w ->
  runs (kni ← ws_get ws_kni;
        local ← (if (kni : bool) then work_space_is_local_addr m else mret false);
        if (local : bool) then m1 else m2) w.
Proof.
  intros Hm H1 H2. unfold runs. wp_reads. apply wp_bind. apply wp_if; intros _.
  - apply wp_local_addr; [done|]. by intros [].
  - by apply wp_ret.
Qed.

Lemma wp_csum_ip m w : pkt_ok m -> wp (csum_ip_compute m) (fun m' w' => w' = w /\ same_shape m m') w.
Proof.
  intros Hm. unfold csum_ip_compute, csum_ipv4. wp_pure. m_step. cbn. m_step. split; [done|].
  by eapply same_shape_trans.
Qed.

Lemma runs_icmp m w : env_ok w -> frame m -> runs (icmp_process m) w.
Proof.
  intros He Hf. pose proof (frame_pkt _ Hf) as Hm. unfold icmp_process. cbv zeta.
  eapply runs_then; [by apply runs_stat|]. intros ? w1 E1. unfold runs. apply wp_bind. m_step.
  apply wp_if; intros _.
  - apply runs_local_or; [done|by apply runs_kni|by apply runs_free].
  - wp_reads. do 4 (apply wp_bind; neigh_step).
    eapply runs_local; [apply wp_csum_ip; in_packet|]. intros m4 H4.
    unfold runs. apply wp_bind. neigh_step. eapply runs_then; [by apply runs_send|].
    intros ? w2 E2. by apply runs_stat.
Qed.

(** ** ICMPv6 *)

Lemma runs_icmp6_send m w : env_ok w -> frame m -> runs (icmp6_send m) w.
Proof.
  intros He Hf. unfold icmp6_send, runs. apply wp_bind.
  apply wp_lift_any; [by apply icmp6_is_neigh_some, frame_pkt|]. intros neigh _. wp_reads.
  eapply runs_then; [apply runs_when; [done|intros _; by apply runs_broadcast]|]. intros ? w1 E1.
  eapply runs_then; [by apply runs_stat|]. intros ? w2 E2. by apply runs_send.
Qed.

Lemma runs_ns m w : env_ok w -> frame m -> runs (icmp6_ns_process m) w.
Proof.
  intros He Hf. pose proof (frame_pkt _ Hf) as Hm. unfold icmp6_ns_process. cbv zeta.
  eapply runs_then; [by apply runs_stat|]. intros ? w1 E1. unfold runs.
  apply wp_bind. neigh_step. apply wp_bind. neigh_step. wp_reads. unfold id. apply wp_bind.
  apply wp_lift_any; [by apply ip6_exist_some|]. intros exist _. apply wp_if; intros _; [by apply runs_free|].
  pose proof (ps_local_mac _ (env_port _ E1)) as Hmac.
  eapply runs_then; [by apply runs_kni_broadcast|]. intros ? w2 E2. unfold runs.
  apply wp_if; intros _; [by apply runs_free|].
  apply wp_bind. neigh_step. apply wp_bind. neigh_step. do 4 (apply wp_bind; neigh_step).
  apply runs_icmp6_send; [done|]. by do 5 (eapply frame_shape; [done|]).
Qed.

Lemma runs_na m w : env_ok w -> frame m -> runs (icmp6_na_process m) w.
Proof.
  intros He Hf. pose proof (frame_pkt _ Hf) as Hm. unfold icmp6_na_process, runs. wp_reads.
  apply wp_bind. neigh_step. eapply runs_then; [apply runs_learn; [done|done|in_packet..]|].
  intros ? w1 E1. unfold runs. wp_reads. apply wp_if; intros _; [by apply runs_kni|by apply runs_free].
Qed.

Lemma runs_echo6 m w : env_ok w -> frame m -> runs (icmp6_echo_process m) w.
Proof.
  intros He Hf. pose proof (frame_pkt _ Hf) as Hm. pose proof (ps_local_mac _ (env_port _ He)) as Hmac.
  unfold icmp6_echo_process, runs. cbv zeta. apply wp_bind. neigh_step. wp_reads. unfold id. apply wp_bind.
  apply wp_lift_any; [by apply ip6_exist_some|]. intros exist _. apply wp_if; intros _; [by apply runs_free|].
  wp_reads. do 6 (apply wp_bind; neigh_step).
  apply runs_icmp6_send; [done|]. by do 6 (eapply frame_shape; [done|]).
Qed.

Lemma runs_icmp6 m w : env_ok w -> frame m -> runs (icmp6_process m) w.
Proof.
  intros He Hf. pose proof (frame_pkt _ Hf) as Hm. unfold icmp6_process, runs. cbv zeta.
  apply wp_bind. neigh_step. apply wp_bind. neigh_step.
  eapply runs_then; [by apply runs_stat|]. intros ? w1 E1. unfold runs.
  apply wp_if; intros _; [by apply runs_free|]. apply wp_if; intros _; [by apply runs_echo6|].
  apply wp_if; intros _; [by apply runs_ns|]. apply wp_if; intros _; [by apply runs_na|].
  apply wp_if; intros _; [|by apply runs_free].
  apply runs_local_or; [done|by apply runs_kni|by apply runs_free].
Qed.

(** ** Requests *)

Lemma runs_ns_request w : env_ok w -> runs icmp6_ns_request w.
Proof.
  intros He. unfold icmp6_ns_request, runs. wp_reads. apply wp_if; intros _; [by apply runs_ret|].
  eapply runs_bind; [by apply wp_alloc_mbuf|]. intros [m|] w1 E1 Hm; [|by apply runs_ret].
  specialize (Hm m eq_refl). pose proof (ps_local_mac _ (env_port _ E1)) as Hmac.
  unfold runs. wp_reads. unfold icmp6_ns_eth_hdr_push, icmp6_ns_ip6_hdr_push, icmp6_ns_hdr_push, HDR_ROOM in *.
  eapply (runs_local _ _ (built 14)).
  { apply wp_bind. eapply wp_mono; [apply (wp_push 0); [exact Hm|unfold ETH_HDR_LEN; lia]|].
    intros [p m1] w2 (-> & Hp & H1 & O1). cbn [fst snd] in *. cbv beta iota. unfold built in *. neigh_step.
    split; [done|]. neigh_side. }
  intros m1 H1. eapply (runs_local _ _ (built 54)).
  { apply wp_bind. eapply wp_mono; [apply (wp_push 14); [exact H1|unfold IP6_HDR_LEN; lia]|].
    intros [p m2] w2 (-> & Hp & H2 & O2). cbn [fst snd] in *. cbv beta iota. unfold built in *. neigh_step.
    split; [done|]. neigh_side. }
  intros m2 H2. eapply (runs_local _ _ (built 86)).
  { apply wp_bind. eapply wp_mono; [apply (wp_push 54); [exact H2|unfold ND_LEN; lia]|].
    intros [p m3] w2 (-> & Hp & H3 & O3). cbn [fst snd] in *. unfold built in H3. apply wp_bind. neigh_step.
    apply wp_bind. eapply wp_mono; [apply (wp_push 78 ND_OPT_LEN); [unfold built; neigh_side|neigh_side]|].
    intros [q m5] w2 (-> & Hq & H5 & O5). cbn [fst snd] in *. cbv beta iota. unfold built in *. apply wp_bind. neigh_step.
    neigh_step. split; [done|]. neigh_side. }
  intros m3 H3. apply runs_icmp6_send; [done|]. apply (built_frame 86); [done|lia].
Qed.

Lemma runs_resolve w : env_ok w -> runs neigh_resolve_gateway_mac_address w.
Proof.
  intros He. unfold neigh_resolve_gateway_mac_address, runs. wp_reads. apply wp_if; intros _; [by apply runs_ret|].
  eapply runs_then; [|intros ? w1 E1; by apply runs_flush].
  apply wp_if; intros _; [by apply runs_ns_request|by apply runs_arp_gw].
Qed.
End Neigh.
