(* ===== verification/SocketInv.v ===== *)
(** * SocketInv: the invariant of the sockets and their timers

    The timer queues hold open sockets only, the gauge [socket_current] counts
    the open sockets, and the retransmission counter of an open socket is
    below its limit.  The operations of Socket and SocketTimer preserve this. *)

From S2P Require Import Prelude SocketNode IpRange Tick Config Mbuf NetStats World.
From S2P Require Import WorkSpace Socket SocketTimer Kni TcpPacket Env.

(** ** Open sockets *)

Definition openb (s : gmap N socket) (i : N) : bool :=
  match s !! i with Some sk => negb (sk_is (sk_st sk) SK_CLOSED) | None => false end.
Definition open_set (D : gset N) (s : gmap N socket) : gset N := filter (fun i => openb s i = true) D.

Lemma openb_some s i sk : s !! i = Some sk -> openb s i = true <-> sk_st sk ≠ SK_CLOSED.
Proof.
  intros Hs. unfold openb, sk_is. rewrite Hs, negb_true_iff, bool_decide_eq_false. done.
Qed.

Lemma openb_insert_ne s i j sk : i ≠ j -> openb (<[i := sk]> s) j = openb s j.
Proof. intros. unfold openb. by rewrite lookup_insert_ne. Qed.
Lemma openb_insert s i sk : openb (<[i := sk]> s) i = negb (sk_is (sk_st sk) SK_CLOSED).
Proof. unfold openb. by rewrite lookup_insert_eq. Qed.

Lemma elem_open_set D s i : i ∈ open_set D s <-> openb s i = true /\ i ∈ D.
Proof. unfold open_set. by rewrite elem_of_filter. Qed.

(** A socket that keeps its openness leaves the set unchanged; opening and
    closing add and remove it. *)
Lemma open_set_same D s i sk : openb (<[i := sk]> s) i = openb s i ->
  open_set D (<[i := sk]> s) = open_set D s.
Proof.
  intros Hi. apply set_eq. intros j. rewrite !elem_open_set.
  destruct (decide (i = j)) as [->|]; [by rewrite Hi|by rewrite openb_insert_ne].
Qed.

Lemma open_set_open D s i sk : i ∈ D -> openb s i = false -> sk_st sk ≠ SK_CLOSED ->
  open_set D (<[i := sk]> s) = {[i]} ∪ open_set D s /\ i ∉ open_set D s.
Proof.
  intros Hi Hc Ho. split.
  - apply set_eq. intros j. rewrite elem_of_union, elem_of_singleton, !elem_open_set.
    destruct (decide (j = i)) as [->|Hne].
    + rewrite openb_insert. unfold sk_is. rewrite bool_decide_false by done. tauto.
    + rewrite openb_insert_ne by done. tauto.
  - rewrite elem_open_set, Hc. by intros [? _].
Qed.

Lemma open_set_close D s i sk : i ∈ D -> openb s i = true -> sk_st sk = SK_CLOSED ->
  open_set D s = {[i]} ∪ open_set D (<[i := sk]> s) /\ i ∉ open_set D (<[i := sk]> s).
Proof.
  intros Hi Ho Hc. split.
  - apply set_eq. intros j. rewrite elem_of_union, elem_of_singleton, !elem_open_set.
    destruct (decide (j = i)) as [->|Hne]; [tauto|]. rewrite openb_insert_ne by done. tauto.
  - rewrite elem_open_set, openb_insert, Hc. by intros [? _].
Qed.

(** ** The invariant

    [B] bounds the retransmission counter of an open socket: 3 between the
    steps of the worker, one more while a segment is sent again. *)

Definition retr_ok (B : Z) (sk : socket) : Prop :=
  0 <= sk_retrans sk <= 7 /\ (sk_st sk ≠ SK_CLOSED -> sk_retrans sk <= B) /\ sk_st sk ≠ SK_TIME_WAIT.

Record socks_ok (B : Z) (D : gset N) (s : gmap N socket) (q : queues) : Prop := {
  so_dom : forall i, i ∈ D -> exists sk, s !! i = Some sk /\ retr_ok B sk;
  so_queued : forall t i, i ∈ q t -> openb s i = true;
}.

Record inv (B : Z) (D : gset N) (room : Z) (w : world) (q : queues) : Prop := {
  inv_repr : repr (w_links w) D q;
  inv_socks : socks_ok B D (w_sockets w) q;
  inv_count : w_stats w NS_socket_current = u64 (Z.of_nat (size (open_set D (w_sockets w))));
  inv_env : env_ok D room w;
}.

(** [keeps i]: the invariant still holds and only socket [i] may have changed. *)
Definition keeps (B : Z) (D : gset N) (room : Z) (i : N) (w : world) (q : queues) (w' : world) (q' : queues) : Prop :=
  inv B D room w' q' /\ static w' = static w
  /\ forall j, j ≠ i -> w_sockets w' !! j = w_sockets w !! j /\ forall t, j ∈ q' t <-> j ∈ q t.

(** The part of a socket the invariant depends on. *)
Definition core (sk : socket) : sk_state * Z := (sk_st sk, sk_retrans sk).

Section Sockets.
Context {Dk : Dpdk} {room : Z} {L : DpdkLaws Dk room} {B : Z} (D : gset N) (Hroom : HDR_ROOM <= room)
  (HB3 : 3 <= B) (HB4 : B <= 4).
Abbreviation env_ok := (env_ok D room).
Abbreviation env_step := (env_step D room).
Abbreviation inv := (inv B D room).
Abbreviation keeps := (keeps B D room).
Abbreviation retr_ok := (retr_ok B).

Lemma keeps_refl i w q : inv w q -> keeps i w q w q.
Proof. by split. Qed.

Lemma keeps_trans i w1 q1 w2 q2 w3 q3 :
  keeps i w1 q1 w2 q2 -> keeps i w2 q2 w3 q3 -> keeps i w1 q1 w3 q3.
Proof.
  intros (_ & S1 & H1) (Hi & S2 & H2). split; [done|]. split; [congruence|]. intros j Hj.
  destruct (H1 j Hj) as [E1 Q1]. destruct (H2 j Hj) as [E2 Q2].
  split; [congruence|]. intros t. by rewrite Q2.
Qed.

Lemma keeps_inv i w q w' q' : keeps i w q w' q' -> inv w' q'.
Proof. by intros [? _]. Qed.

Lemma inv_sock w q i : inv w q -> i ∈ D -> exists sk, w_sockets w !! i = Some sk /\ retr_ok sk.
Proof. intros [_ [Hd _] _ _]. apply Hd. Qed.

Lemma inv_env_step w q w' : inv w q -> env_step w w' -> inv w' q.
Proof.
  intros [H1 H2 H3 H4] [E1 E2 E3 E4 E5]. split; [by rewrite E3|by rewrite E2|by rewrite E4, E2|done].
Qed.

Lemma keeps_env i w q w' : inv w q -> env_step w w' -> keeps i w q w' q.
Proof.
  intros Hi He. split; [by eapply inv_env_step|]. split; [apply He|]. intros j _. by rewrite (es_sockets _ _ _ _ He).
Qed.

(** What a triple about socket [i] says: the invariant is kept and the final
    socket satisfies [R]. *)
Definition post (i : N) (w : world) (q : queues) {A} (R : A -> socket -> queues -> Prop) : A -> world -> Prop :=
  fun a w' => exists q' sk', keeps i w q w' q' /\ w_sockets w' !! i = Some sk' /\ R a sk' q'.

Lemma wp_env_post {A} i w q sk (m : M A) (R : A -> socket -> queues -> Prop) (P : A -> Prop) :
  inv w q -> w_sockets w !! i = Some sk ->
  wp m (fun a w' => env_step w w' /\ P a) w -> (forall a, P a -> R a sk q) ->
  wp m (post i w q R) w.
Proof.
  intros Hi Hs Hm HR. eapply wp_mono; [exact Hm|]. intros a w' [He Hp].
  exists q, sk. split; [by apply keeps_env|]. split; [|by apply HR].
  by rewrite (es_sockets _ _ _ _ He).
Qed.

Lemma inv_retr w q i sk : inv w q -> i ∈ D -> w_sockets w !! i = Some sk -> retr_ok sk.
Proof. intros Hi Hd Hs. destruct (inv_sock _ _ _ Hi Hd) as (? & ? & ?). by simplify_eq. Qed.

(** Assigning fields of a socket that stays open or stays closed. *)
Lemma wp_sk_mod_gen i f w q sk :
  inv w q -> w_sockets w !! i = Some sk ->
  (sk_st (f sk) = SK_CLOSED <-> sk_st sk = SK_CLOSED) -> (retr_ok sk -> retr_ok (f sk)) ->
  wp (sk_mod i f) (post i w q (fun _ sk' q' => sk' = f sk /\ q' = q)) w.
Proof.
  intros [H1 [H2 H2'] H3 H4] Hs Hst Hr.
  eapply wp_sk_mod; [exact Hs|]. exists q, (f sk).
  assert (openb (<[i:=f sk]> (w_sockets w)) i = openb (w_sockets w) i) as Ho.
  { rewrite openb_insert. unfold openb, sk_is. rewrite Hs. by rewrite (bool_decide_ext _ _ Hst). }
  split; [|split; [rsimpl; apply lookup_insert_eq|done]]. split.
  - split; rsimpl; [done| | |by destruct H4].
    + split.
      * intros j Hj. destruct (decide (i = j)) as [<-|Hne].
        -- exists (f sk). rewrite lookup_insert_eq. split; [done|].
           destruct (H2 i Hj) as (sk0 & Hs0 & Hr0). simplify_eq. auto.
        -- rewrite lookup_insert_ne by done. by apply H2.
      * intros t j Hj. specialize (H2' t j Hj). destruct (decide (i = j)) as [<-|Hne]; [by rewrite Ho|].
        by rewrite openb_insert_ne.
    + by rewrite open_set_same.
  - split; [done|]. intros j Hj. rsimpl. by rewrite lookup_insert_ne.
Qed.

(** ... outside its core, ... *)
Lemma wp_sk_mod_core i f w q sk :
  inv w q -> w_sockets w !! i = Some sk -> core (f sk) = core sk ->
  wp (sk_mod i f) (post i w q (fun _ sk' q' => sk' = f sk /\ q' = q)) w.
Proof.
  intros Hi Hs [= Hst Hre]. apply wp_sk_mod_gen; [done|done|by rewrite Hst|].
  unfold SocketInv.retr_ok. by rewrite Hst, Hre.
Qed.

(** ... its counter, ... *)
Lemma wp_sk_mod_retrans i f w q sk :
  inv w q -> w_sockets w !! i = Some sk -> sk_st (f sk) = sk_st sk -> 0 <= sk_retrans (f sk) <= B ->
  wp (sk_mod i f) (post i w q (fun _ sk' q' => sk' = f sk /\ q' = q)) w.
Proof.
  intros Hi Hs Hst Hre. apply wp_sk_mod_gen; [done|done|by rewrite Hst|].
  unfold SocketInv.retr_ok. rewrite Hst. intros (_ & _ & ?). split_and!; done || lia.
Qed.

(** ... or the state of an open socket. *)
Lemma wp_sk_mod_open i f w q sk :
  inv w q -> w_sockets w !! i = Some sk -> sk_st sk ≠ SK_CLOSED -> sk_st (f sk) ≠ SK_CLOSED ->
  sk_st (f sk) ≠ SK_TIME_WAIT -> sk_retrans (f sk) = sk_retrans sk ->
  wp (sk_mod i f) (post i w q (fun _ sk' q' => sk' = f sk /\ q' = q)) w.
Proof.
  intros Hi Hs Ho Ho' Htw Hre. apply wp_sk_mod_gen; [done|done|done|].
  unfold SocketInv.retr_ok. rewrite Hre. intros (? & ? & _). auto.
Qed.

Lemma wp_stat_post k i w q sk :
  inv w q -> w_sockets w !! i = Some sk -> k ≠ NS_socket_current ->
  wp (stat_inc k) (post i w q (fun _ sk' q' => sk' = sk /\ q' = q)) w.
Proof.
  intros Hi Hs Hk. apply (wp_env_post i w q sk _ _ (fun _ => True)); [done|done| |done].
  eapply wp_mono; [apply (wp_env_stat (room := room) D); [apply Hi|done]|]. done.
Qed.

Lemma u64_succ n : u64 (u64 n + 1) = u64 (n + 1).
Proof. apply wrap_add_l. Qed.
Lemma u64_pred n : u64 (u64 (n + 1) + -1) = u64 n.
Proof. rewrite wrap_add_l. f_equal. lia. Qed.

(** Closing.  The counter of the socket may have just passed its limit: the
    invariant holds before that ([w], [sk]) and again afterwards. *)
Lemma wp_close_gen i w q sk w1 sk1 :
  inv w q -> i ∈ D -> w_sockets w !! i = Some sk -> sk_st sk1 = sk_st sk -> 0 <= sk_retrans sk1 <= 7 ->
  w_sockets w1 = <[i := sk1]> (w_sockets w) -> w_links w1 = w_links w ->
  w_stats w1 NS_socket_current = w_stats w NS_socket_current -> env_ok w1 -> static w1 = static w ->
  wp (socket_close i) (post i w q (fun _ sk' q' => sk_st sk' = SK_CLOSED /\ forall t, i ∉ q' t)) w1.
Proof.
  intros [H1 [H2 H2'] H3 H4] Hi Hs Hst Hre Es El Ec He Hstat. unfold socket_close. wp_pure.
  assert (w_sockets w1 !! i = Some sk1) as Hs1 by (rewrite Es; apply lookup_insert_eq).
  assert (openb (<[i:=sk1]> (w_sockets w)) i = openb (w_sockets w) i) as Heq.
  { rewrite openb_insert. unfold openb. by rewrite Hs, Hst. }
  eapply wp_sk_get; [exact Hs1|]. wp_step; bool_facts; unfold sk_is in *; bool_facts.
  - wp_pure. eapply wp_sk_mod; [exact Hs1|]. wp_pure.
    destruct (socket_node_del_repr _ _ _ i H1 Hi) as (l & Hl & Hr).
    eapply wp_link_op; [rsimpl; rewrite El; exact Hl|]. wp_pure.
    set (sk2 := sk1 <| sk_st := SK_CLOSED |>).
    assert (openb (w_sockets w) i = true) as Ho.
    { rewrite <- Heq, openb_insert. unfold sk_is. by rewrite bool_decide_false. }
    destruct (open_set_close D (w_sockets w) i sk2 Hi Ho eq_refl) as [Hset Hnot].
    exists (q_del i q), sk2. split; [split|split].
    + split; rsimpl; [done| | |by destruct He].
      * rewrite Es, insert_insert_eq. split.
        -- intros j Hj. destruct (decide (i = j)) as [<-|Hne].
           ++ exists sk2. rewrite lookup_insert_eq. split; [done|]. unfold SocketInv.retr_ok, sk2. by rsimpl.
           ++ rewrite lookup_insert_ne by done. by apply H2.
        -- intros t j Hj. unfold q_del in Hj. apply filter_ne_elem in Hj as [Hne Hj].
           rewrite openb_insert_ne by done. by eapply H2'.
      * ns_simpl. rewrite Es, insert_insert_eq, Ec, H3, Hset, size_union, size_singleton by set_solver.
        rewrite Nat.add_comm, Nat2Z.inj_add. apply u64_pred.
    + split; [done|]. intros j Hj. rsimpl. rewrite Es, insert_insert_eq, lookup_insert_ne by done. split; [done|].
      intros t. unfold q_del. rewrite filter_ne_elem. tauto.
    + rsimpl. by rewrite Es, insert_insert_eq, lookup_insert_eq.
    + split; [done|]. intros t Hq. unfold q_del in Hq. by apply filter_ne_elem in Hq as [? _].
  - exists q, sk1. split; [split|split].
    + split; [by rewrite El| |by rewrite Ec, Es, open_set_same|done].
      split; rewrite Es.
      * intros j Hj. destruct (decide (i = j)) as [<-|Hne].
        -- exists sk1. rewrite lookup_insert_eq. split; [done|]. unfold SocketInv.retr_ok. by rewrite H.
        -- rewrite lookup_insert_ne by done. by apply H2.
      * intros t j Hj. specialize (H2' t j Hj). destruct (decide (i = j)) as [<-|Hne]; [by rewrite Heq|].
        by rewrite openb_insert_ne.
    + split; [done|]. intros j Hj. rewrite Es. by rewrite lookup_insert_ne.
    + done.
    + split; [done|]. intros t Hq. specialize (H2' t i Hq). rewrite <- Heq, openb_insert in H2'.
      unfold sk_is in H2'. by rewrite bool_decide_true in H2'.
Qed.

Lemma wp_close i w q sk :
  inv w q -> i ∈ D -> w_sockets w !! i = Some sk ->
  wp (socket_close i) (post i w q (fun _ sk' q' => sk_st sk' = SK_CLOSED /\ forall t, i ∉ q' t)) w.
Proof.
  intros Hinv Hi Hs. destruct (inv_sock _ _ _ Hinv Hi) as (sk0 & Hs0 & Hr).
  assert (sk0 = sk) as -> by congruence.
  apply (wp_close_gen i w q sk w sk); try done; [apply Hr|by rewrite insert_id|apply Hinv].
Qed.

(** *** Timers *)

Lemma wp_del_timer i w q sk :
  inv w q -> i ∈ D -> w_sockets w !! i = Some sk ->
  wp (link_op (socket_queue_del i)) (post i w q (fun _ sk' q' => sk' = sk /\ q' = q_del i q)) w.
Proof.
  intros [H1 [H2 H2'] H3 H4] Hi Hs.
  destruct (socket_node_del_repr _ _ _ i H1 Hi) as (l & Hl & Hr).
  eapply wp_link_op; [exact Hl|]. exists (q_del i q), sk.
  split; [split|by split].
  - split; rsimpl; [done| |done|by destruct H4]. split; [done|].
    intros t j Hj. unfold q_del in Hj. apply filter_ne_elem in Hj as [_ Hj]. by eapply H2'.
  - split; [done|]. intros j Hj. split; [done|]. intros t. unfold q_del. rewrite filter_ne_elem. tauto.
Qed.

Lemma wp_push_timer t i w q sk :
  inv w q -> i ∈ D -> w_sockets w !! i = Some sk -> sk_st sk ≠ SK_CLOSED -> (forall t, i ∉ q t) ->
  wp (link_op (socket_queue_push t i)) (post i w q (fun _ sk' q' => sk' = sk /\ q' = q_push t i q)) w.
Proof.
  intros [H1 [H2 H2'] H3 H4] Hi Hs Ho Hno.
  destruct (socket_queue_push_repr _ _ _ t i H1 Hi Hno) as (l & Hl & Hr).
  eapply wp_link_op; [exact Hl|]. exists (q_push t i q), sk.
  split; [split|by split].
  - split; rsimpl; [done| |done|by destruct H4]. split; [done|].
    intros t' j Hj. unfold q_push in Hj. case_decide; [|by eapply H2'].
    apply elem_of_app in Hj as [Hj|Hj]; [by eapply H2'|].
    apply list_elem_of_singleton in Hj as ->. by eapply openb_some.
  - split; [done|]. intros j Hj. split; [done|]. intros t'. unfold q_push. case_decide; [|done].
    rewrite elem_of_app, list_elem_of_singleton. split; [by intros [?| ->]|by left].
Qed.

(** Arming a timer: the socket is then on that queue only. *)
Definition armed_only (i : N) (t : timer_id) (q : queues) : Prop := forall t', i ∈ q t' -> t' = t.

Lemma post_bind {A A'} i w q (m : M A) (f : A -> M A') R1 R2 :
  wp m (post i w q R1) w ->
  (forall a w1 q1 sk1, inv w1 q1 -> w_sockets w1 !! i = Some sk1 -> static w1 = static w -> R1 a sk1 q1 ->
    wp (f a) (post i w1 q1 R2) w1) ->
  wp (m ≫= f) (post i w q R2) w.
Proof.
  intros Hm Hf. apply wp_bind. eapply wp_mono; [exact Hm|].
  intros a w1 (q1 & sk1 & Hk & Hs & HR).
  eapply wp_mono; [apply (Hf a w1 q1 sk1); [by eapply keeps_inv|done|apply Hk|done]|].
  intros b w2 (q2 & sk2 & Hk2 & Hs2 & HR2). exists q2, sk2.
  split; [by eapply keeps_trans|done].
Qed.

Lemma post_mono {A} i w q (m : M A) R1 R2 :
  wp m (post i w q R1) w -> (forall a sk' q', R1 a sk' q' -> R2 a sk' q') -> wp m (post i w q R2) w.
Proof.
  intros Hm HR. eapply wp_mono; [exact Hm|]. intros a w' (q' & sk' & Hk & Hs & H).
  exists q', sk'. eauto.
Qed.

Lemma post_skip {A} i w q sk (a : A) (R : A -> socket -> queues -> Prop) :
  inv w q -> w_sockets w !! i = Some sk -> R a sk q -> post i w q R a w.
Proof. intros. exists q, sk. split; [by apply keeps_refl|done]. Qed.

Lemma post_ret {A} i w q sk (a : A) (R : A -> socket -> queues -> Prop) :
  inv w q -> w_sockets w !! i = Some sk -> R a sk q -> wp (mret a) (post i w q R) w.
Proof. intros. by eapply wp_ret, post_skip. Qed.

Lemma wp_add_timer_tail t i tsc w q sk :
  inv w q -> i ∈ D -> w_sockets w !! i = Some sk -> sk_st sk ≠ SK_CLOSED ->
  wp (socket_add_timer t i tsc) (post i w q (fun _ sk' q' =>
    sk' = sk <| sk_timer_tsc := tsc |> /\ q' = q_push t i (q_del i q))) w.
Proof.
  intros Hinv Hi Hs Ho. unfold socket_add_timer.
  eapply post_bind; [by eapply wp_sk_mod_core|]. intros ? w1 q1 sk1 I1 S1 _ [-> ->].
  eapply post_bind; [by eapply wp_del_timer|]. intros ? w2 q2 sk2 I2 S2 _ [-> ->].
  eapply post_mono.
  - eapply wp_push_timer; [done..|]. intros t' Hq. unfold q_del in Hq. by apply filter_ne_elem in Hq as [? _].
  - by intros ? sk' q' [-> ->].
Qed.

Lemma wp_add_timer t i tsc w q sk :
  inv w q -> i ∈ D -> w_sockets w !! i = Some sk -> sk_st sk ≠ SK_CLOSED ->
  wp (socket_add_timer t i tsc) (post i w q (fun _ sk' q' =>
    sk' = sk <| sk_timer_tsc := tsc |> /\ armed_only i t q')) w.
Proof.
  intros Hinv Hi Hs Ho. eapply post_mono; [by eapply wp_add_timer_tail|].
  intros ? sk' q' [-> ->]. split; [done|]. intros t' Hq. unfold q_push, q_del in Hq.
  case_decide; [done|]. by apply filter_ne_elem in Hq as [? _].
Qed.

(** The socket may have been armed: its time is set, and it is on queues it
    was on before or on that of [t0]. *)
Definition rearmed (i : N) (t0 : timer_id) (sk : socket) (q : queues) (sk' : socket) (q' : queues) : Prop :=
  (exists t, sk' = sk <| sk_timer_tsc := t |>) /\ forall t, i ∈ q' t -> t = t0 \/ i ∈ q t.

Lemma rearmed_refl i t0 sk q : rearmed i t0 sk q sk q.
Proof. split; [by exists (sk_timer_tsc sk); destruct sk|auto]. Qed.

Lemma core_open (sk sk' : socket) : core sk' = core sk -> sk_st sk ≠ SK_CLOSED -> sk_st sk' ≠ SK_CLOSED.
Proof. intros [= -> _]. done. Qed.

Lemma wp_sk_get_post {A} i w q sk (f : socket -> M A) R :
  w_sockets w !! i = Some sk -> wp (f sk) (post i w q R) w -> wp (x ← sk_get i; f x) (post i w q R) w.
Proof. intros Hs Hf. apply wp_bind. eapply wp_sk_get; [exact Hs|exact Hf]. Qed.

Lemma wp_arm t i tsc w q sk :
  inv w q -> i ∈ D -> w_sockets w !! i = Some sk -> sk_st sk ≠ SK_CLOSED ->
  wp (socket_add_timer t i tsc) (post i w q (fun _ => rearmed i t sk q)) w.
Proof.
  intros. eapply post_mono; [by eapply wp_add_timer|]. intros ? sk' q' [-> Hq].
  split; [by eexists|]. intros t' Ht. left. by apply Hq.
Qed.

Lemma wp_start_timeout i tsc w q sk :
  inv w q -> i ∈ D -> w_sockets w !! i = Some sk -> sk_st sk ≠ SK_CLOSED ->
  wp (socket_start_timeout_timer i tsc) (post i w q (fun _ => rearmed i T_timeout sk q)) w.
Proof.
  intros. unfold socket_start_timeout_timer.
  by apply wp_arm.
Qed.

Lemma wp_start_retransmit i tsc w q sk :
  inv w q -> i ∈ D -> w_sockets w !! i = Some sk -> sk_st sk ≠ SK_CLOSED ->
  wp (socket_start_retransmit_timer i tsc) (post i w q (fun _ => rearmed i T_retransmit sk q)) w.
Proof.
  intros Hi Hd Hs Ho. unfold socket_start_retransmit_timer, socket_start_retransmit_timer_force.
  eapply wp_sk_get_post; [exact Hs|]. apply wp_when; intros _.
  - by apply wp_arm.
  - eapply post_ret; [done|done|apply rearmed_refl].
Qed.

Lemma wp_accurate i tsc w sk (Q : Z -> world -> Prop) : w_sockets w !! i = Some sk ->
  (forall t, Q t w) -> wp (socket_accurate_timer_tsc i tsc) Q w.
Proof.
  intros Hs HQ. unfold socket_accurate_timer_tsc. wp_pure. eapply wp_sk_get; [exact Hs|]. wp_pure. apply HQ.
Qed.

Lemma wp_start_keepalive i tsc w q sk :
  inv w q -> i ∈ D -> w_sockets w !! i = Some sk -> sk_st sk ≠ SK_CLOSED ->
  wp (socket_start_keepalive_timer i tsc) (post i w q (fun _ => rearmed i T_keepalive sk q)) w.
Proof.
  intros Hi Hd Hs Ho. unfold socket_start_keepalive_timer.
  eapply wp_sk_get_post; [exact Hs|]. apply wp_when; intros _.
  - apply wp_bind. eapply wp_accurate; [exact Hs|]. intros t.
    by apply wp_arm.
  - eapply post_ret; [done|done|apply rearmed_refl].
Qed.

Lemma wp_stop_retransmit i w q sk :
  inv w q -> i ∈ D -> w_sockets w !! i = Some sk ->
  wp (socket_stop_retransmit_timer i) (post i w q (fun _ sk' q' => sk' = sk <| sk_retrans := 0 |>
    /\ q' = if sk_snd_nxt sk =? sk_snd_una sk then q_del i q else q)) w.
Proof.
  intros Hi Hd Hs. unfold socket_stop_retransmit_timer, socket_del_timer.
  eapply post_bind; [eapply wp_sk_mod_retrans; try done; rsimpl; lia|].
  intros ? w1 q1 sk1 I1 S1 _ [-> ->]. eapply wp_sk_get_post; [exact S1|]. rsimpl. apply wp_when; intros ->.
  - by eapply wp_del_timer.
  - by eapply post_skip.
Qed.

(** Opening a closed socket: it is on no queue, and the gauge grows by one. *)
Lemma openb_closed s i sk : s !! i = Some sk -> sk_st sk = SK_CLOSED -> openb s i = false.
Proof. intros Hs Hc. unfold openb, sk_is. by rewrite Hs, Hc, bool_decide_true. Qed.

Lemma closed_idle w q i sk : inv w q -> i ∈ D -> w_sockets w !! i = Some sk -> sk_st sk = SK_CLOSED ->
  (forall t, i ∉ q t) /\ socket_node_del (Sock i) (w_links w) = Some (w_links w).
Proof.
  intros [H1 [_ H2] _ _] Hi Hs Hc. pose proof (openb_closed _ _ _ Hs Hc) as Hcl.
  assert (forall t, i ∉ q t) as Hno by (intros t Ht; specialize (H2 t i Ht); congruence).
  split; [done|]. unfold socket_node_del. rewrite (repr_idle _ _ _ H1 i Hi Hno). simpl.
  by rewrite bool_decide_false by auto.
Qed.

Lemma retr_ok_zero sk : sk_retrans sk = 0 -> sk_st sk ≠ SK_TIME_WAIT -> retr_ok sk.
Proof. intros E ?. unfold SocketInv.retr_ok. rewrite E. split_and!; done || lia. Qed.

Lemma open_keeps i w q sk w' sk' :
  inv w q -> i ∈ D -> w_sockets w !! i = Some sk -> sk_st sk = SK_CLOSED ->
  sk_st sk' ≠ SK_CLOSED -> retr_ok sk' ->
  w_sockets w' = <[i := sk']> (w_sockets w) -> w_links w' = w_links w ->
  w_stats w' NS_socket_current = u64 (w_stats w NS_socket_current + 1) -> env_ok w' -> static w' = static w ->
  keeps i w q w' q.
Proof.
  intros [H1 [H2 H2'] H3 H4] Hi Hs Hc Ho Hr Es El Ec He Hstat.
  pose proof (openb_closed _ _ _ Hs Hc) as Hcl.
  destruct (open_set_open D _ _ sk' Hi Hcl Ho) as [Hset Hnot]. split; [split|].
  - by rewrite El.
  - rewrite Es. split.
    + intros j Hj. destruct (decide (i = j)) as [<-|Hne].
      * exists sk'. by rewrite lookup_insert_eq.
      * rewrite lookup_insert_ne by done. by apply H2.
    + intros t j Hj. specialize (H2' t j Hj). destruct (decide (i = j)) as [<-|Hne];
        [congruence|by rewrite openb_insert_ne].
  - rewrite Ec, Es, H3, Hset, size_union, size_singleton by set_solver.
    rewrite Nat.add_comm, Nat2Z.inj_add. apply u64_succ.
  - done.
  - split; [done|]. intros j Hj. rewrite Es. by rewrite lookup_insert_ne.
Qed.

Lemma wp_server_open i seq w q sk :
  inv w q -> i ∈ D -> w_sockets w !! i = Some sk -> sk_st sk = SK_CLOSED ->
  wp (socket_server_open i seq) (post i w q (fun _ sk' _ =>
    sk_st sk' = SK_SYN_RECEIVED /\ sk_retrans sk' = 0 /\ sk_rcv_nxt sk' = u32 (ntohl seq + 1)
    /\ sk_snd_nxt sk' = u32 (sk_snd_nxt sk + 1) /\ sk_snd_una sk' = u32 (sk_snd_nxt sk + 1))) w.
Proof.
  intros Hi Hd Hs Hc. destruct (closed_idle _ _ _ _ Hi Hd Hs Hc) as [Hno Hdel].
  unfold socket_server_open. wp_pure. eapply wp_sk_get; [exact Hs|].
  unfold sk_is. rewrite Hc, bool_decide_false by done. simpl negb. unfold st_when.
  wp_pure. eapply wp_sk_mod; [exact Hs|]. wp_pure.
  eapply wp_link_op; [rsimpl; exact Hdel|]. cbv beta.
  eapply wp_sk_mod; [rsimpl; apply lookup_insert_eq|]. cbv zeta.
  match goal with |- context [set_field w_sockets (insert i ?f)] => set (sk2 := f) end.
  exists q, sk2. split; [|split; [rsimpl; apply lookup_insert_eq|done]].
  eapply (open_keeps i w q sk _ sk2); try done.
  - by apply retr_ok_zero.
  - rsimpl. apply insert_insert_eq.
  - by destruct (inv_env _ _ _ _ _ Hi).
Qed.

(** The sockets that the pool and the lookups return. *)
(** [next] moved by [k] and wrapped. *)
Definition pool_advanced (k : Z) (w : world) : world :=
  w <| w_ws ::= fun ws => ws <| ws_socket_table ::= fun st =>
        st <| st_pool_next := u32 (st_pool_next st + k) |> |> |>
    <| w_ws ::= fun ws => ws <| ws_socket_table ::= fun st =>
        if st_pool_num st <=? st_pool_next st then st <| st_pool_next := 0 |> else st |> |>.

Lemma env_pool_advance k w : env_ok w -> env_step w (pool_advanced k w).
Proof.
  intros He. pose proof (env_next _ _ _ He) as Hn. unfold pool_advanced.
  set (t := ws_socket_table (w_ws w)) in *.
  assert (0 <= u32 (st_pool_next t + k)) by (apply Z.mod_pos_bound; lia).
  destruct He. split; [split|..]; rsimpl; fold t; rsimpl;
    destruct (Z.leb_spec (st_pool_num t) (u32 (st_pool_next t + k))); rsimpl; done || lia.
Qed.

Lemma wp_get_socket w : env_ok w ->
  wp socket_table_get_socket (fun i w' => i ∈ D /\ env_step w w') w.
Proof.
  intros He. pose proof (env_sock _ _ _ He _ (env_next _ _ _ He)) as Hsock.
  unfold socket_table_get_socket, table_get. wp_pure. unfold id. rewrite (env_rss _ _ _ He). simpl negb.
  unfold pool_wrap, table_mod. cbv iota. wp_pure.
  apply wp_when; intros _; wp_pure; (split; [done|]).
  - eapply env_step_trans; [by apply (env_pool_advance 1)|].
    apply (env_pool_advance 65535). by apply (env_pool_advance 1).
  - by apply (env_pool_advance 1).
Qed.

Lemma wp_client_open tsc w q : inv w q ->
  wp (socket_client_open tsc) (fun o w1 =>
    match o with
    | None => inv w1 q /\ static w1 = static w
    | Some i => i ∈ D /\ openb (w_sockets w) i = false /\
        post i w q (fun _ sk' _ => sk_st sk' = SK_SYN_SENT /\ sk_retrans sk' = 0) tt w1
    end) w.
Proof.
  intros Hi. unfold socket_client_open. wp_pure.
  wp_use wp_get_socket by apply Hi. intros i w1 [Hd H1]. wp_pure.
  pose proof (inv_env_step _ _ _ Hi H1) as I1.
  destruct (inv_sock _ _ _ I1 Hd) as (sk & Hs & Hr). eapply wp_sk_get; [exact Hs|].
  unfold sk_is. apply wp_if; intros Hc; bool_facts.
  - wp_pure. eapply wp_sk_mod; [exact Hs|]. wp_pure. cbv zeta.
    match goal with |- context [set_field w_sockets (insert i ?f)] => set (sk2 := f) end.
    eapply wp_sk_mod; [rsimpl; apply lookup_insert_eq|]. wp_pure.
    split; [done|]. split; [rewrite <- (es_sockets _ _ _ _ H1); by eapply openb_closed|].
    exists q, (socket_init_http sk2). split; [|split; [rsimpl; apply lookup_insert_eq|done]].
    eapply keeps_trans; [by eapply keeps_env|].
    eapply (open_keeps i w1 q sk _ (socket_init_http sk2)); try done.
    + by apply retr_ok_zero.
    + rsimpl. apply insert_insert_eq.
    + by destruct (inv_env _ _ _ _ _ I1).
  - wp_pure. split; [done|apply H1].
Qed.

(** A lookup leaves the worker unchanged and finds sockets of the pool. *)
Lemma packet_key_some m iph th : pkt_ok m -> ptrs_ok m iph th ->
  is_Some (packet_key_get (m_buf m) iph th).
Proof.
  unfold pkt_ok, ptrs_ok, HDR_ROOM. intros Hm Hp. unfold packet_key_get, ip_hdr_get_addr_low32. unfold_offsets.
  destruct (ld_ip_version_some (m_buf m) iph) as [v ->]; [lia|]. cbn [mbind option_bind].
  case_match.
  1: destruct (ld32_some (m_buf m) (iph + 12)) as [? ->]; [lia..|].
  1: destruct (ld32_some (m_buf m) (iph + 16)) as [? ->]; [lia..|].
  2: destruct (ld32_some (m_buf m) (iph + 8 + 12)) as [? ->]; [lia..|].
  2: destruct (ld32_some (m_buf m) (iph + 24 + 12)) as [? ->]; [lia..|].
  all: cbn [mbind option_bind]; destruct (ld16_some (m_buf m) (th + 2)) as [? ->]; [lia..|];
    cbn [mbind option_bind]; destruct (ld16_some (m_buf m) (th + 0)) as [? ->]; [lia..|]; by eexists.
Qed.

Lemma wp_server_lookup m iph th w q : inv w q -> pkt_ok m -> ptrs_ok m iph th ->
  wp (socket_server_lookup (m_buf m) iph th)
    (fun o w' => w' = w /\ forall i, o = Some i -> i ∈ D) w.
Proof.
  intros Hi Hm Hp. unfold socket_server_lookup, table_get. wp_pure.
  apply wp_lift_any; [by apply packet_key_some|]. intros k _. wp_pure. unfold id.
  destruct (socket_common_lookup _ _ _ _ _) as [i|] eqn:Hl; [|by wp_pure].
  pose proof (env_lookup _ _ _ (inv_env _ _ _ _ _ Hi) _ _ _ _ _ Hl) as Hd.
  destruct (inv_sock _ _ _ Hi Hd) as (sk & Hs & _). wp_pure. eapply wp_sk_get; [exact Hs|].
  wp_step; wp_pure; (split; [done|]); [|done]. by intros ? [= <-].
Qed.

Lemma wp_client_lookup m iph th w q : inv w q -> pkt_ok m -> ptrs_ok m iph th ->
  wp (socket_client_lookup (m_buf m) iph th)
    (fun o w' => w' = w /\ forall i, o = Some i -> i ∈ D) w.
Proof.
  intros Hi Hm Hp. unfold socket_client_lookup, table_get. wp_pure.
  apply wp_lift_any; [by apply packet_key_some|]. intros k _. wp_pure. unfold id.
  destruct (socket_common_lookup _ _ _ _ _) as [i|] eqn:Hl; [|by wp_pure].
  pose proof (inv_env _ _ _ _ _ Hi) as He.
  pose proof (env_lookup _ _ _ He _ _ _ _ _ Hl) as Hd.
  destruct (inv_sock _ _ _ Hi Hd) as (sk & Hs & _). wp_pure. eapply wp_sk_get; [exact Hs|].
  wp_step; wp_pure; [|by split].
  rewrite (env_rss _ _ _ He). unfold st_when. wp_pure. split; [done|]. by intros ? [= <-].
Qed.
End Sockets.
