(* ===== verification/TcpInv.v ===== *)
(** * TcpInv: the TCP operations preserve the invariant

    Triples for the operations of TcpPacket and Tcp: from a worker that
    satisfies the invariant of SocketInv they run without a fault and the
    invariant holds afterwards. *)

From S2P Require Import Prelude SocketNode IpRange Tick Config Mbuf NetStats World.
From S2P Require Import WorkSpace Socket SocketTimer HttpParse Kni TcpPacket Tcp Env.
From S2P Require Import SocketInv.

Section TcpInv.
Context {Dk : Dpdk} {room : Z} {L : DpdkLaws Dk room} {B : Z} (D : gset N) (Hroom : HDR_ROOM <= room)
  (HB3 : 3 <= B) (HB4 : B <= 4).
Abbreviation env_ok := (env_ok D room).
Abbreviation env_step := (env_step D room).
Abbreviation inv := (inv B D room).
Abbreviation keeps := (keeps B D room).
Abbreviation post := (post (room := room) (B := B) D).

(** ** Sequencing *)

Lemma post_step {A} i w q w1 q1 (m : M A) R :
  keeps i w q w1 q1 -> wp m (post i w1 q1 R) w1 -> wp m (post i w q R) w1.
Proof.
  intros Hk Hm. eapply wp_mono; [exact Hm|]. intros a w' (q' & sk' & Hk' & Hs & HR).
  exists q', sk'. split; [by eapply keeps_trans|done].
Qed.

(** An operation on the environment followed by [f]. *)
Lemma post_env {A A'} i w q sk (m : M A) (f : A -> M A') (P : A -> Prop) R :
  inv w q -> w_sockets w !! i = Some sk ->
  wp m (fun a w' => env_step w w' /\ P a) w ->
  (forall a w1, P a -> env_step w w1 -> inv w1 q -> w_sockets w1 !! i = Some sk ->
    wp (f a) (post i w1 q R) w1) ->
  wp (m ≫= f) (post i w q R) w.
Proof.
  intros Hi Hs Hm Hf. apply wp_bind. eapply wp_mono; [exact Hm|]. intros a w1 [He Hp].
  eapply post_step; [by apply keeps_env|]. apply Hf; [done|done|by eapply inv_env_step|].
  by rewrite (es_sockets _ _ _ _ He).
Qed.

Lemma post_stat {A} k i w q sk (f : unit -> M A) R :
  inv w q -> w_sockets w !! i = Some sk -> k ≠ NS_socket_current ->
  (forall w1, inv w1 q -> w_sockets w1 !! i = Some sk -> static w1 = static w ->
    wp (f tt) (post i w1 q R) w1) ->
  wp (stat_inc k ≫= f) (post i w q R) w.
Proof.
  intros Hi Hs Hk Hf. eapply (post_env i w q sk _ _ (fun _ => True)); [done|done| |].
  - eapply wp_mono; [apply (wp_env_stat (room := room) D); [apply Hi|done]|]. done.
  - intros [] w1 _ He I1 S1. apply Hf; [done|done|apply He].
Qed.

(** ** Segments *)

Lemma wp_fill_packet ws sk csum_ip csum_tcp flags m w :
  env_ok w -> (ws_change_dip ws = true -> ws_change_dip (w_ws w) = true) -> pkt_ok m ->
  wp (tcp_fill_packet ws sk csum_ip csum_tcp flags m) (fun m' w' => env_step w w' /\ pkt_ok m') w.
Proof.
  intros He Hdip Hm. unfold tcp_fill_packet. wp_pure.
  eapply wp_mono with (Q := fun r w' => w' = w /\
    let '(iph, th, m', _) := r in pkt_ok m' /\ ptrs_ok m' iph th).
  { apply wp_if; intros _.
    - wp_use wp_vxlan_headers by done. intros [[[iph th] m'] c] w' [-> [Hm' Hp]].
      split; [done|]. split; [by eapply same_shape_ok|done].
    - wp_pure. destruct (mbuf_tcp_hdr_some m Hm) as (th & Hth & Hr).
      eapply wp_m_ld_eq; [exact Hth|]. wp_pure. split; [done|].
      split; [done|]. unfold ptrs_ok. in_packet. }
  intros [[[iph th] m1] c1] w1 [-> [Hm1 Hp1]]. wp_pure.
  eapply wp_mono; [apply (wp_set_ip (room := room) D); [done|done|unfold ptrs_ok in *; lia]|].
  intros m2 w2 (E2 & Sh2 & Hd2). pose proof (same_shape_ok _ _ Sh2 Hm1) as Hm2. wp_pure.
  assert (ptrs_ok m2 iph th) as Hp2 by (unfold ptrs_ok, same_shape in *; intuition lia).
  eapply wp_mono; [apply wp_set_tcp; [done|unfold ptrs_ok in *; lia]|].
  intros m3 w3 [-> Sh3]. pose proof (same_shape_ok _ _ Sh3 Hm2) as Hm3.
  apply wp_if; intros Hc; [|by wp_pure].
  eapply wp_mono; [apply (wp_change_dip (room := room) D); [apply E2|rewrite Hd2; auto|done|]|].
  { unfold ptrs_ok, same_shape in *. intuition lia. }
  intros m4 w4 [E4 Sh4]. split; [by eapply env_step_trans|by eapply same_shape_ok].
Qed.

Lemma wp_new_packet i flags w q sk :
  inv w q -> i ∈ D -> w_sockets w !! i = Some sk ->
  wp (tcp_new_packet i flags) (post i w q (fun o sk' q' =>
    (exists n, sk' = sk <| sk_snd_nxt := n |>) /\ q' = q /\ forall m, o = Some m -> pkt_ok m)) w.
Proof.
  intros Hi Hd Hs. unfold tcp_new_packet. wp_pure. unfold id. eapply wp_sk_get; [exact Hs|].
  destruct (tcp_packet_kind _ _ _) as [[[[p csum_tcp] csum_ip] snd_seq] fl].
  eapply post_env; [done|done|by apply (wp_cache_alloc (room := room) D), Hi|].
  intros o w1 Hm E1 I1 S1. destruct o as [m|].
  2: { eapply post_ret; [done|done|]. split; [by exists (sk_snd_nxt sk); destruct sk|done]. }
  specialize (Hm m eq_refl).
  eapply (post_bind D i w1 q _ _ (fun _ sk' q' => (exists n, sk' = sk <| sk_snd_nxt := n |>) /\ q' = q)).
  { apply wp_if; intros _.
    - eapply post_mono; [by eapply wp_sk_mod_core|]. intros ? sk' q' [-> ->]. split; [by eexists|done].
    - eapply post_ret; [done|done|]. split; [by exists (sk_snd_nxt sk); destruct sk|done]. }
  intros ? w2 q2 sk2 I2 S2 T2 [Hsk2 ->]. eapply wp_sk_get_post; [exact S2|].
  assert (ws_change_dip (w_ws w) = true -> ws_change_dip (w_ws w2) = true) as Hdip.
  { pose proof (es_static _ _ _ _ E1) as T1. rewrite <- T2 in T1. by injection T1 as _ _ -> _ _ _ _. }
  eapply (post_env i w2 q sk2 _ _ pkt_ok); [done|done|by apply wp_fill_packet; [apply I2|..]|].
  intros m3 w3 Hm3 E3 I3 S3. eapply post_ret; [done|done|]. split; [done|]. split; [done|]. by intros ? [= <-].
Qed.

(** ** Replies *)

(** An operation that sends and arms timers but leaves the connection as it is. *)
Definition replied (i : N) (sk : socket) (q : queues) (sk' : socket) (q' : queues) : Prop :=
  (exists f n t, sk' = sk <| sk_flags := f |> <| sk_snd_nxt := n |> <| sk_timer_tsc := t |>)
  /\ (i ∈ q' T_keepalive -> i ∈ q T_keepalive).

Lemma replied_core i sk q sk' q' : replied i sk q sk' q' -> core sk' = core sk.
Proof. by intros [(?&?&?&->) _]. Qed.
Lemma replied_refl i sk q : replied i sk q sk q.
Proof. split; [by exists (sk_flags sk), (sk_snd_nxt sk), (sk_timer_tsc sk); destruct sk|done]. Qed.
Lemma rearmed_replied i t0 sk q sk' q' : t0 ≠ T_keepalive -> rearmed i t0 sk q sk' q' -> replied i sk q sk' q'.
Proof.
  intros Ht [[t ->] Hq]. split; [exists (sk_flags sk), (sk_snd_nxt sk), t; by destruct sk|].
  intros H. destruct (Hq _ H) as [He|He]; [by destruct Ht|done].
Qed.
Lemma replied_trans i sk q sk1 q1 sk2 q2 :
  replied i sk q sk1 q1 -> replied i sk1 q1 sk2 q2 -> replied i sk q sk2 q2.
Proof.
  intros [(f&n&t&->) H1] [(f'&n'&t'&->) H2]. split; [exists f', n', t'; by destruct sk|auto].
Qed.

(** Operations that only count. *)
Definition counts (m : M unit) : Prop := forall w, env_ok w -> wp m (fun _ w' => env_step w w') w.

Lemma counts_inc k : k ≠ NS_socket_current -> counts (stat_inc k).
Proof. intros Hk w He. by apply (wp_env_stat (room := room) D). Qed.
Lemma counts_ret : counts (mret tt).
Proof. intros w He. by apply wp_ret, env_step_refl. Qed.
Lemma counts_when b m : counts m -> counts (st_when b m).
Proof. intros Hm. destruct b; [exact Hm|apply counts_ret]. Qed.
Lemma counts_seq m1 m2 : counts m1 -> counts m2 -> counts (m1 ≫= fun _ => m2).
Proof.
  intros H1 H2 w He. apply wp_bind. eapply wp_mono; [by apply H1|]. intros ? w1 E1.
  eapply wp_mono; [apply H2, E1|]. intros ? w2 E2. exact (env_step_trans _ _ _ _ _ E1 E2).
Qed.
Lemma counts_if (b : bool) m1 m2 : counts m1 -> counts m2 -> counts (if b then m1 else m2).
Proof. by destruct b. Qed.
Lemma counts_cfg {A} (f : config -> A) m : (forall a, counts (m a)) -> counts (cfg_get f ≫= m).
Proof. intros Hm w He. wp_pure. by apply Hm. Qed.
Lemma counts_ws {A} (f : work_space -> A) m : (forall a, counts (m a)) -> counts (ws_get f ≫= m).
Proof. intros Hm w He. wp_pure. by apply Hm. Qed.
Hint Resolve counts_ret counts_when counts_seq counts_if counts_cfg counts_ws : core.
Hint Extern 1 (counts (stat_inc _)) => apply counts_inc; discriminate : core.

Lemma tx_count_counts f : counts (tcp_flags_tx_count f).
Proof. unfold tcp_flags_tx_count. auto 10. Qed.
Lemma rx_count_counts f : counts (tcp_flags_rx_count f).
Proof. unfold tcp_flags_rx_count. auto 10. Qed.
Lemma push_count_counts f : counts (tcp_push_count f).
Proof. unfold tcp_push_count. auto 20. Qed.
Lemma retransmit_count_counts f : counts (tcp_retransmit_count f).
Proof. unfold tcp_retransmit_count. auto 10. Qed.
Hint Resolve tx_count_counts rx_count_counts push_count_counts retransmit_count_counts : core.

Lemma post_counts {A} i w q sk m (f : unit -> M A) R :
  inv w q -> w_sockets w !! i = Some sk -> counts m ->
  (forall w1, inv w1 q -> w_sockets w1 !! i = Some sk -> static w1 = static w ->
    wp (f tt) (post i w1 q R) w1) ->
  wp (m ≫= f) (post i w q R) w.
Proof.
  intros Hi Hs Hk Hf. eapply (post_env i w q sk _ _ (fun _ => True)); [done|done| |].
  - eapply wp_mono; [apply Hk, Hi|]. done.
  - intros [] w1 _ He I1 S1. apply Hf; [done|done|apply He].
Qed.

Lemma wp_counts i w q sk m : inv w q -> w_sockets w !! i = Some sk -> counts m ->
  wp m (post i w q (fun _ sk' q' => sk' = sk /\ q' = q)) w.
Proof.
  intros Hi Hs Hk. apply (wp_env_post D i w q sk _ _ (fun _ => True)); [done|done| |done].
  eapply wp_mono; [apply Hk, Hi|]. done.
Qed.

Lemma wp_reply_timer i flags tsc w q sk :
  inv w q -> i ∈ D -> w_sockets w !! i = Some sk ->
  wp (tcp_reply_timer i flags tsc) (post i w q (fun _ => replied i sk q)) w.
Proof.
  intros Hi Hd Hs. unfold tcp_reply_timer. wp_pure. eapply wp_sk_get; [exact Hs|]. wp_pure.
  apply wp_if; intros Ho; [|eapply post_ret; [done|done|apply replied_refl]].
  unfold sk_is in Ho. bool_facts. apply wp_if; intros _.
  - eapply (post_env i w q sk _ _ (fun _ => True)); [done|done| |].
    { apply wp_if; intros _; [|wp_pure; split; [by apply env_step_refl, Hi|done]].
      eapply wp_accurate; [exact Hs|]. intros t. split; [by apply env_step_refl, Hi|done]. }
    intros t w1 _ _ I1 S1. apply wp_when; intros _.
    + eapply post_mono; [by apply wp_start_retransmit|]. intros ? sk' q'. by apply rearmed_replied.
    + exists q, sk. split; [by apply keeps_refl|]. split; [done|apply replied_refl].
  - apply wp_when; intros _.
    + eapply post_mono; [by apply wp_start_timeout|]. intros ? sk' q'. by apply rearmed_replied.
    + exists q, sk. split; [by apply keeps_refl|]. split; [done|apply replied_refl].
Qed.

Lemma wp_reply i flags w q sk :
  inv w q -> i ∈ D -> w_sockets w !! i = Some sk ->
  wp (tcp_reply i flags) (post i w q (fun _ => replied i sk q)) w.
Proof.
  intros Hi Hd Hs. unfold tcp_reply. wp_reads.
  eapply post_bind; [by eapply wp_sk_mod_core|]. intros ? w1 q1 sk1 I1 S1 _ [-> ->].
  eapply post_counts; [done|done|auto|]. intros w2 I2 S2 _.
  eapply post_counts; [done|done|auto|]. intros w3 I3 S3 _.
  eapply post_bind; [by eapply wp_new_packet|]. intros o w4 q4 sk4 I4 S4 _ ([n ->] & -> & Hm).
  eapply (post_env i w4 q _ _ _ (fun _ => True)); [done|done| |].
  { destruct o as [m|]; [|wp_pure; split; [by apply env_step_refl, I4|done]].
    eapply wp_mono; [apply (wp_tx_send_tcp (room := room) D); [apply I4|by apply Hm]|]. done. }
  intros ? w5 _ _ I5 S5.
  eapply post_mono; [by eapply wp_reply_timer|]. intros ? sk' q' H.
  eapply replied_trans; [|exact H]. split; [|done]. exists flags, n, (sk_timer_tsc sk). by destruct sk.
Qed.

(** The same with any change outside the core. *)
Definition calm (i : N) (sk : socket) (q : queues) (sk' : socket) (q' : queues) : Prop :=
  core sk' = core sk /\ (i ∈ q' T_keepalive -> i ∈ q T_keepalive).

Lemma calm_refl i sk q : calm i sk q sk q.
Proof. by split. Qed.
Lemma calm_trans i sk q sk1 q1 sk2 q2 :
  calm i sk q sk1 q1 -> calm i sk1 q1 sk2 q2 -> calm i sk q sk2 q2.
Proof. intros [? ?] [? ?]. split; [congruence|auto]. Qed.
Lemma replied_calm i sk q sk' q' : replied i sk q sk' q' -> calm i sk q sk' q'.
Proof. intros H. split; [by eapply replied_core|apply H]. Qed.
Lemma rearmed_calm i t0 sk q sk' q' : t0 ≠ T_keepalive -> rearmed i t0 sk q sk' q' -> calm i sk q sk' q'.
Proof. intros Ht H. by eapply replied_calm, rearmed_replied. Qed.
Lemma calm_open i sk q sk' q' : calm i sk q sk' q' -> sk_st sk ≠ SK_CLOSED -> sk_st sk' ≠ SK_CLOSED.
Proof. intros [Hc _]. by apply core_open. Qed.
Lemma calm_st i sk q sk' q' : calm i sk q sk' q' -> sk_st sk' = sk_st sk.
Proof. by intros [[= ? _] _]. Qed.

(** A step of a computation that stays calm. *)
Lemma calm_bind {A A'} i w q sk (m : M A) (f : A -> M A') (P : A -> Prop) :
  wp m (post i w q (fun a sk' q' => calm i sk q sk' q' /\ P a)) w ->
  (forall a w1 q1 sk1, inv w1 q1 -> w_sockets w1 !! i = Some sk1 -> static w1 = static w ->
    core sk1 = core sk -> P a -> wp (f a) (post i w1 q1 (fun _ => calm i sk1 q1)) w1) ->
  wp (m ≫= f) (post i w q (fun _ => calm i sk q)) w.
Proof.
  intros Hm Hf. eapply post_bind; [exact Hm|]. intros a w1 q1 sk1 I1 S1 T1 [Hc Hp].
  eapply post_mono; [apply Hf; [done..|apply Hc|done]|]. intros ? sk2 q2 Hc2. by eapply calm_trans.
Qed.

Lemma calm_mod i f w q sk : inv w q -> w_sockets w !! i = Some sk -> core (f sk) = core sk ->
  wp (sk_mod i f) (post i w q (fun _ sk' q' => calm i sk q sk' q' /\ True)) w.
Proof.
  intros. eapply post_mono; [by eapply wp_sk_mod_core|]. intros ? sk' q' [-> ->]. by split; [split|].
Qed.
Lemma calm_mod_last i f w q sk : inv w q -> w_sockets w !! i = Some sk -> core (f sk) = core sk ->
  wp (sk_mod i f) (post i w q (fun _ => calm i sk q)) w.
Proof. intros. eapply post_mono; [by eapply calm_mod|]. by intros ? sk' q' [? _]. Qed.
Lemma calm_counts i m w q sk : inv w q -> w_sockets w !! i = Some sk -> counts m ->
  wp m (post i w q (fun _ => calm i sk q)) w.
Proof. intros. eapply post_mono; [by eapply wp_counts|]. intros ? sk' q' [-> ->]. apply calm_refl. Qed.
Lemma calm_ret {A} i w q sk (a : A) : inv w q -> w_sockets w !! i = Some sk ->
  wp (mret a) (post i w q (fun _ => calm i sk q)) w.
Proof. intros. eapply post_ret; [done|done|apply calm_refl]. Qed.
Lemma calm_reply i flags w q sk : inv w q -> i ∈ D -> w_sockets w !! i = Some sk ->
  wp (tcp_reply i flags) (post i w q (fun _ => calm i sk q)) w.
Proof. intros. eapply post_mono; [by eapply wp_reply|]. intros ? sk' q'. apply replied_calm. Qed.
Lemma calm_start_timeout i tsc w q sk :
  inv w q -> i ∈ D -> w_sockets w !! i = Some sk -> sk_st sk ≠ SK_CLOSED ->
  wp (socket_start_timeout_timer i tsc) (post i w q (fun _ => calm i sk q)) w.
Proof. intros. eapply post_mono; [by apply wp_start_timeout|]. intros ? sk' q'. by apply rearmed_calm. Qed.
Lemma calm_start_retransmit i tsc w q sk :
  inv w q -> i ∈ D -> w_sockets w !! i = Some sk -> sk_st sk ≠ SK_CLOSED ->
  wp (socket_start_retransmit_timer i tsc) (post i w q (fun _ => calm i sk q)) w.
Proof. intros. eapply post_mono; [by apply wp_start_retransmit|]. intros ? sk' q'. by apply rearmed_calm. Qed.

Lemma calm_weaken {A} i w q sk (m : M A) :
  wp m (post i w q (fun _ => calm i sk q)) w ->
  wp m (post i w q (fun _ sk' q' => calm i sk q sk' q' /\ True)) w.
Proof. intros. eapply post_mono; [done|]. by split. Qed.

Lemma wp_resend_window i from w q sk : inv w q -> i ∈ D -> w_sockets w !! i = Some sk ->
  wp (tcp_resend_window i from) (post i w q (fun _ => calm i sk q)) w.
Proof.
  intros Hi Hd Hs. unfold tcp_resend_window. eapply wp_sk_get_post; [exact Hs|].
  eapply calm_bind; [by eapply calm_mod|]. intros ? w1 q1 sk1 I1 S1 _ _ _.
  eapply calm_bind; [apply calm_weaken; by apply calm_reply|]. intros ? w2 q2 sk2 I2 S2 _ _ _.
  by apply calm_mod_last.
Qed.

(** ** Retransmission *)

Lemma wp_resend i send_window w q sk : inv w q -> i ∈ D -> w_sockets w !! i = Some sk ->
  sk_st sk ≠ SK_CLOSED ->
  wp (let flags := sk_flags sk in
      if negb (send_window =? 0) && negb (sk_snd_nxt sk =? sk_snd_una sk) && has flags TH_PUSH then
        tcp_resend_window i sk_snd_una;;
        sk_mod i (fun sk => sk <| sk_snd_window := 1 |>);;
        stat_inc NS_push_rt;;
        tsc ← work_space_tsc;
        socket_start_retransmit_timer i tsc
      else
        tcp_reply i flags;;
        tcp_retransmit_count flags) (post i w q (fun _ => calm i sk q)) w.
Proof.
  intros Hi Hd Hs Ho. cbv zeta. apply wp_if; intros _.
  - eapply calm_bind; [apply calm_weaken; by apply wp_resend_window|]. intros ? w1 q1 sk1 I1 S1 _ C1 _.
    eapply calm_bind; [by eapply calm_mod|]. intros ? w2 q2 sk2 I2 S2 _ C2 _.
    eapply calm_bind; [apply calm_weaken; apply calm_counts; auto|]. intros ? w3 q3 sk3 I3 S3 _ C3 _.
    wp_reads. apply calm_start_retransmit; try done. eapply core_open; [|exact Ho]. congruence.
  - eapply calm_bind; [apply calm_weaken; by apply calm_reply|]. intros ? w1 q1 sk1 I1 S1 _ _ _.
    apply calm_counts; auto.
Qed.

(** The socket is closed, or not armed any more, or one retransmission closer
    to the limit. *)
Definition retransmitted (i : N) (sk : socket) (q : queues) (sk' : socket) (q' : queues) : Prop :=
  (i ∈ q' T_keepalive -> i ∈ q T_keepalive) /\
  ((sk_st sk' = SK_CLOSED /\ forall t, i ∉ q' t)
   \/ (sk_st sk' = sk_st sk /\ sk_retrans sk' = 0 /\ q' = q)
   \/ (sk_st sk' = sk_st sk /\ sk_retrans sk' = sk_retrans sk + 1 /\ sk_retrans sk' < RETRANSMIT_NUM_MAX)).

Lemma wp_do_retransmit i w q sk : inv w q -> i ∈ D -> w_sockets w !! i = Some sk ->
  sk_st sk ≠ SK_CLOSED ->
  wp (tcp_do_retransmit i) (post i w q (fun _ => retransmitted i sk q)) w.
Proof.
  intros Hi Hd Hs Ho. destruct (inv_retr D _ _ _ _ Hi Hd Hs) as (Hr & Hr4 & Htw). specialize (Hr4 Ho).
  unfold tcp_do_retransmit. eapply wp_sk_get_post; [exact Hs|]. apply wp_if; intros _.
  { eapply post_mono; [eapply wp_sk_mod_retrans; try done; rsimpl; lia|].
    intros ? sk' q' [-> ->]. split; [done|]. right; left. by rsimpl. }
  apply wp_if; intros _.
  { eapply post_mono; [by eapply wp_close|]. intros ? sk' q' [Hc Hq]. split; [by intros ?%Hq|]. by left. }
  unfold RETRANSMIT_NUM_MAX.
  destruct (Z_lt_le_dec (sk_retrans sk + 1) 4) as [Hlt|Hge].
  - unfold sk_retrans_inc. eapply post_bind; [eapply wp_sk_mod_retrans; try done|].
    { rsimpl. rewrite Z.mod_small by lia. lia. }
    intros ? w1 q1 sk1 I1 S1 _ [Hsk1 ->]. eapply wp_sk_get_post; [exact S1|].
    assert (sk_retrans sk1 = sk_retrans sk + 1 /\ sk_st sk1 = sk_st sk) as [Hre1 Hst1].
    { subst sk1. rsimpl. by rewrite Z.mod_small by lia. }
    destruct (Z.ltb_spec (sk_retrans sk1) 4); [|lia].
    wp_reads. eapply post_mono; [apply wp_resend; try done; by rewrite Hst1|].
    intros ? sk' q' [[= Hst Hre] Hq]. split; [done|]. right; right. unfold RETRANSMIT_NUM_MAX.
    split_and!; congruence || lia.
  - unfold sk_retrans_inc. wp_pure. eapply wp_sk_mod; [exact Hs|]. cbv beta.
    apply wp_bind. eapply wp_sk_get; [rsimpl; apply lookup_insert_eq|]. rsimpl. rewrite Z.mod_small by lia.
    destruct (Z.ltb_spec (sk_retrans sk + 1) 4); [lia|]. wp_pure.
    eapply wp_mono; [eapply (wp_close_gen D Hroom HB3 HB4 i w q sk _ (sk <| sk_retrans ::= fun x => (x + 1) mod 8 |>)); try done|].
    + rsimpl. pose proof (Z.mod_pos_bound (sk_retrans sk + 1) 8). lia.
    + apply env_stat_inc; [|done]. by destruct (inv_env _ _ _ _ _ Hi).
    + intros ? w' (q' & sk' & Hk & Hs' & Hc & Hq). exists q', sk'. split; [done|]. split; [done|].
      split; [by intros ?%Hq|]. by left.
Qed.

(** ** Sequences *)

(** Only the state of the socket may change, or its counter be cleared. *)
Definition live (i : N) : socket -> queues -> Prop := fun sk' _ => sk_st sk' ≠ SK_CLOSED.
Definition any {A} : A -> socket -> queues -> Prop := fun _ _ _ => True.

Lemma any_weaken {A} i w q (m : M A) R : wp m (post i w q R) w -> wp m (post i w q any) w.
Proof. intros. by eapply post_mono. Qed.

(** A segment is accepted only on an open socket; nothing but the
    retransmission may close the socket, and then the answer is [false]. *)
Definition checked (sk : socket) (ok : bool) (sk' : socket) (q' : queues) : Prop :=
  ok = true -> sk_st sk' ≠ SK_CLOSED /\ (sk_st sk' = sk_st sk \/ sk_st sk' = SK_CLOSING).

Lemma snd_window_inc_core sk : core (snd_window_inc sk) = core sk.
Proof. unfold snd_window_inc. by case_match. Qed.

(** What an accepted segment does to the socket. *)
Definition accepted (sk : socket) (ack seq len : Z) (sk' : socket) : Prop :=
  sk_st sk' = sk_st sk /\ sk_retrans sk' = 0 /\ sk_snd_una sk' = ack /\ sk_rcv_nxt sk' = u32 (seq + len).

Lemma snd_window_inc_accepted sk ack seq len sk' : accepted sk ack seq len sk' ->
  accepted sk ack seq len (snd_window_inc sk').
Proof. unfold snd_window_inc, accepted. by case_match. Qed.

Lemma wp_accept_sequence i ack seq len w q sk : inv w q -> i ∈ D -> w_sockets w !! i = Some sk ->
  wp (tcp_accept_sequence i ack seq len) (post i w q (fun (ok : bool) sk' _ =>
    if ok then sk_st sk ≠ SK_CLOSED /\ accepted sk ack seq len sk' else sk_st sk = SK_CLOSED)) w.
Proof.
  intros Hi Hd Hs. unfold tcp_accept_sequence.
  eapply post_bind; [eapply wp_sk_mod_retrans; try done; rsimpl; lia|]. intros ? w1 q1 sk1 I1 S1 _ [-> ->].
  eapply wp_sk_get_post; [exact S1|]. apply wp_if; intros Ho; revert Ho; rsimpl; intros Ho.
  2: { eapply post_ret; [done|done|]. unfold sk_gt in Ho. by destruct (sk_st sk). }
  assert (sk_st sk ≠ SK_CLOSED) as Ho' by (unfold sk_gt in Ho; by destruct (sk_st sk)).
  eapply post_bind; [by eapply wp_sk_mod_core|]. intros ? w2 q2 sk2 I2 S2 _ [-> ->]. wp_reads.
  set (sk2 := (sk <| sk_retrans := 0 |> <| sk_snd_una := ack |> <| sk_rcv_nxt := u32 (seq + len) |>)) in *.
  assert (accepted sk ack seq len sk2) as H2 by done.
  eapply (post_bind D i w2 q _ _ (fun _ sk' _ => accepted sk ack seq len sk')).
  { apply wp_if; intros _.
    - apply wp_when; intros _; [|by eapply post_skip].
      eapply post_mono; [by eapply wp_stop_retransmit|]. by intros ? sk' q' [-> _].
    - eapply post_mono; [eapply wp_sk_mod_core; try done; apply snd_window_inc_core|].
      intros ? sk' q' [-> _]. by apply snd_window_inc_accepted. }
  intros ? w3 q3 sk3 I3 S3 _ H3. eapply post_ret; [done|done|]. by split.
Qed.
End TcpInv.

(** ** Between the steps: the bound 3 *)

Section TcpStep.
Context {Dk : Dpdk} {room : Z} {L : DpdkLaws Dk room} (D : gset N) (Hroom : HDR_ROOM <= room).
Abbreviation env_ok := (env_ok D room).
Abbreviation env_step := (env_step D room).
Abbreviation inv := (inv 3 D room).
Abbreviation inv4 := (SocketInv.inv 4 D room).
Abbreviation keeps := (keeps 3 D room).
Abbreviation post := (post (room := room) (B := 3) D).
Abbreviation post4 := (SocketInv.post (room := room) (B := 4) D).

Lemma bounds_33 : 3 <= 3 /\ 3 <= 4.
Proof. lia. Qed.
Let le33 : 3 <= 3 := proj1 bounds_33.
Let le34 : 3 <= 4 := proj2 bounds_33.
Let le44 : 4 <= 4 := Z.le_refl 4.

Lemma inv_weaken w q : inv w q -> inv4 w q.
Proof.
  intros [H1 [H2 H2'] H3 H4]. split; [done|split; [|done]|done|done].
  intros i Hi. destruct (H2 i Hi) as (sk & Hs & Hr & Ho & Ht). exists sk. split; [done|].
  split; [done|]. split; [intros H; specialize (Ho H); lia|done].
Qed.

(** A computation that runs with the bound 4 and ends below 3. *)
Lemma post_tighten {A} i w q (m : M A) R : inv w q ->
  wp m (post4 i w q (fun a sk' q' => R a sk' q' /\ (sk_st sk' ≠ SK_CLOSED -> sk_retrans sk' <= 3))) w ->
  wp m (post i w q R) w.
Proof.
  intros [_ [H2 _] _ _] Hm. eapply wp_mono; [exact Hm|].
  intros a w' (q' & sk' & (I' & T' & Hk) & Hs' & HR & Hr). exists q', sk'. split; [|by split].
  destruct I' as [G1 [G2 G2'] G3 G4]. split; [split|by split]; [done| |done|done].
  split; [|done]. intros j Hj. destruct (G2 j Hj) as (skj & Hsj & Hrj).
  destruct (decide (j = i)) as [->|Hne].
  - assert (skj = sk') as -> by congruence. exists sk'. split; [done|]. by destruct Hrj as (? & _ & ?).
  - destruct (Hk j Hne) as [E _]. rewrite E. by apply H2.
Qed.

Lemma wp_window_ack i ack w q sk : inv w q -> i ∈ D -> w_sockets w !! i = Some sk ->
  sk_st sk ≠ SK_CLOSED ->
  wp (tcp_window_ack i ack) (post i w q (checked sk)) w.
Proof.
  intros Hi3 Hd Hs Ho. destruct (inv_retr D _ _ _ _ Hi3 Hd Hs) as (Hr & Hr3 & _). specialize (Hr3 Ho).
  apply post_tighten; [done|]. apply inv_weaken in Hi3 as Hi.
  unfold tcp_window_ack. eapply wp_sk_get_post; [exact Hs|]. apply wp_if; intros _.
  - eapply post_bind; [by eapply wp_sk_mod_core|]. intros ? w1 q1 sk1 I1 S1 _ [-> ->].
    eapply post_bind; [eapply wp_sk_mod_core; try done; apply snd_window_inc_core|].
    intros ? w2 q2 sk2 I2 S2 _ [E2 ->].
    assert (sk_st sk2 = sk_st sk) as St2.
    { rewrite E2. by pose proof (snd_window_inc_core (sk <| sk_snd_una := ack |>)) as [= -> _]. }
    eapply post_bind; [eapply wp_sk_mod_retrans; try done; rsimpl; lia|].
    intros ? w3 q3 sk3 I3 S3 _ [-> ->]. eapply post_ret; [done|done|]. unfold checked. rsimpl.
    rewrite St2. split; [auto|lia].
  - apply wp_if; intros _; [|eapply post_ret; [done|exact Hs|]; split; [done|lia]].
    unfold sk_retrans_inc. eapply post_bind; [eapply wp_sk_mod_retrans; try done|].
    { rsimpl. rewrite Z.mod_small by lia. lia. }
    intros ? w1 q1 sk1 I1 S1 _ [Hsk1 ->].
    eapply post_counts; [done|done|by apply counts_inc|]. intros w2 I2 S2 _.
    eapply wp_sk_get_post; [exact S2|]. apply wp_if; intros Hlt; bool_facts.
    { eapply post_ret; [done|done|]. split; [done|lia]. }
    eapply post_bind; [by eapply wp_resend_window|]. intros ? w3 q3 sk3 I3 S3 _ C3.
    eapply post_bind; [eapply wp_sk_mod_retrans; try done; rsimpl; lia|].
    intros ? w4 q4 sk4 I4 S4 _ [-> ->]. eapply post_ret; [done|done|]. rsimpl. split; [done|lia].
Qed.

(** A received segment: bytes, in a buffer with room for the headers. *)
Definition seg_ok (m : mbuf) (iph th : Z) : Prop :=
  pkt_ok m /\ iph = mbuf_ip_hdr m /\ mbuf_tcp_hdr m = Some th /\ Forall (in_u 8) (m_buf m).

Lemma seg_ptrs m iph th : seg_ok m iph th -> pkt_ok m /\ ptrs_ok m iph th.
Proof.
  intros (Hm & -> & Hth & _). split; [done|]. destruct (mbuf_tcp_hdr_some m Hm) as (th' & E & Hr).
  assert (th' = th) as -> by congruence. unfold ptrs_ok. in_packet.
Qed.

Lemma ld8_byte b p v : Forall (in_u 8) b -> ld8 b p = Some v -> 0 <= v < 256.
Proof.
  intros Hb Hl. unfold ld8, aget in Hl. case_match; [|done].
  by apply (list.Forall_lookup_1 _ _ _ _ Hb Hl).
Qed.

(** The payload starts inside the first 128 bytes. *)
Lemma tcp_data_get_some m iph th : seg_ok m iph th ->
  exists d l, tcp_data_get (m_buf m) iph th = Some (d, l) /\ m_data_off m <= d
    /\ d <= m_data_off m + 114 /\ 0 <= l.
Proof.
  intros Hs. destruct (seg_ptrs _ _ _ Hs) as [Hm Hp]. destruct Hs as (_ & -> & _ & Hb).
  unfold pkt_ok, ptrs_ok, HDR_ROOM in *. unfold tcp_data_get, ld_ip_version, ld_th_off. unfold_offsets.
  destruct (ld8_some (m_buf m) (m_data_off m + 14)) as [v Hv]; [lia|]. rewrite Hv. cbn [mbind option_bind].
  destruct (ld8_some (m_buf m) (th + 12)) as [o Ho]; [lia|]. rewrite Ho. cbn [mbind option_bind].
  pose proof (ld8_byte _ _ _ Hb Ho). rewrite !Z.shiftr_div_pow2 by lia. change (2 ^ 4) with 16.
  assert (0 <= o / 16 <= 15) by (split; [apply Z.div_pos|apply Z.lt_succ_r, Z.div_lt_upper_bound]; lia).
  case_match.
  - destruct (ld16_some (m_buf m) (m_data_off m + 14 + 2)) as [t ->]; [lia..|]. cbn [mbind option_bind].
    eexists _, _. split; [reflexivity|].
    split; [lia|]. split; [lia|]. apply Z.mod_pos_bound. lia.
  - destruct (ld16_some (m_buf m) (m_data_off m + 14 + 4)) as [t ->]; [lia..|]. cbn [mbind option_bind].
    eexists _, _. split; [reflexivity|].
    split; [lia|]. split; [lia|]. apply Z.mod_pos_bound. lia.
Qed.

Lemma wp_check_sequence i m iph th len w q sk : inv w q -> i ∈ D -> w_sockets w !! i = Some sk ->
  seg_ok m iph th ->
  wp (tcp_check_sequence i (m_buf m) th len) (post i w q (checked sk)) w.
Proof.
  intros Hi Hd Hs Hseg. destruct (seg_ptrs _ _ _ Hseg) as [Hm Hp]. unfold ptrs_ok in Hp. unfold tcp_check_sequence.
  apply wp_bind. m_step. apply wp_bind. m_step. apply wp_bind. m_step. cbv zeta.
  eapply wp_sk_get_post; [exact Hs|]. apply wp_if; intros _.
  { eapply post_mono; [by apply wp_accept_sequence|]. intros [] sk' q'; [|done].
    intros [Ho [E _]] _. rewrite E. by split; [|left]. }
  apply wp_if; intros Hf.
  { bool_facts. unfold sk_is in *. bool_facts.
    assert (sk_st sk = SK_FIN_WAIT_1) as Est by done.
    eapply post_bind; [eapply wp_sk_mod_open; try done; by rewrite Est|].
    intros ? w1 q1 sk1 I1 S1 _ [-> ->]. eapply post_ret; [done|done|]. by split; [|right]. }
  apply wp_if; intros Ho; [by eapply post_ret|]. unfold sk_is in Ho. bool_facts.
  apply wp_if; intros _.
  - wp_reads. apply wp_if; intros _; [by apply wp_window_ack|]. wp_reads.
    eapply (post_bind D i w q _ _ any).
    { apply wp_when; intros _.
      - eapply any_weaken. by eapply wp_do_retransmit.
      - by eapply post_skip. }
    intros ? w1 q1 sk1 I1 S1 _ _. by eapply post_ret.
  - apply wp_if; intros _; [|by eapply post_ret].
    eapply (post_bind D i w q _ _ any).
    { apply wp_when; intros _.
      - eapply post_bind; [by eapply wp_reply|]. intros ? w1 q1 sk1 I1 S1 _ _.
        eapply any_weaken, wp_counts; [done|done|by apply counts_inc].
      - by eapply post_skip. }
    intros ? w1 q1 sk1 I1 S1 _ _. by eapply post_ret.
Qed.

(** ** Closing *)

Lemma fin_transition_states st rx tx :
  fst (tcp_fin_transition st rx tx) ≠ st -> st ≠ SK_CLOSED /\ fst (tcp_fin_transition st rx tx) ≠ SK_TIME_WAIT.
Proof. by destruct st, rx, tx. Qed.

Lemma wp_process_fin i rx tx w q sk : inv w q -> i ∈ D -> w_sockets w !! i = Some sk ->
  wp (tcp_process_fin i rx tx) (post i w q (fun flags sk' q' =>
    let '(st, f) := tcp_fin_transition (sk_st sk) (has rx TH_FIN) (has tx TH_FIN) in
    flags = tx ||| f /\ sk_st sk' = st /\ (st ≠ sk_st sk -> st = SK_CLOSED -> forall t, i ∉ q' t))) w.
Proof.
  intros Hi Hd Hs. unfold tcp_process_fin. eapply wp_sk_get_post; [exact Hs|].
  pose proof (fin_transition_states (sk_st sk) (has rx TH_FIN) (has tx TH_FIN)) as Hf.
  destruct (tcp_fin_transition _ _ _) as [st f]. simpl fst in Hf.
  eapply (post_bind D i w q _ _ (fun _ sk' q' => sk_st sk' = st /\
    (st ≠ sk_st sk -> st = SK_CLOSED -> forall t, i ∉ q' t))).
  - unfold sk_is. apply wp_if; intros Hsame; bool_facts.
    { eapply post_ret; [done|done|]. by split. }
    destruct (Hf Hsame) as [Ho Htw]. apply wp_if; intros Hc; bool_facts.
    + subst st. eapply post_mono; [by eapply wp_close|]. intros ? sk' q' [-> Hq]. by split.
    + unfold sk_set_state. eapply post_mono; [eapply wp_sk_mod_open; done|].
      intros ? sk' q' [-> ->]. by split.
  - intros ? w1 q1 sk1 I1 S1 _ [Hst Hq]. by eapply post_ret.
Qed.

Lemma wp_process_rst i m w q sk : inv w q -> i ∈ D -> w_sockets w !! i = Some sk ->
  wp (tcp_process_rst i m) (post i w q (fun _ sk' q' => sk_st sk' = SK_CLOSED)) w.
Proof.
  intros Hi Hd Hs. unfold tcp_process_rst. eapply wp_sk_get_post; [exact Hs|].
  eapply (post_bind D i w q _ _ (fun _ sk' _ => sk_st sk' = SK_CLOSED)).
  - unfold sk_is. apply wp_when; intros Hc; bool_facts.
    + eapply post_mono; [by eapply wp_close|]. by intros ? sk' q' [? _].
    + by eapply post_skip.
  - intros ? w1 q1 sk1 I1 S1 _ Hc.
    apply (wp_env_post D i w1 q1 sk1 _ _ (fun _ => True)); [done|done| |done].
    eapply wp_mono; [apply (wp_free2 (room := room) D), I1|]. done.
Qed.

(** Freeing the packet at the end. *)
Lemma post_free i m w q sk : inv w q -> w_sockets w !! i = Some sk ->
  wp (mbuf_free2 m) (post i w q any) w.
Proof.
  intros Hi Hs. apply (wp_env_post D i w q sk _ _ (fun _ => True)); [done|done| |done].
  eapply wp_mono; [apply (wp_free2 (room := room) D), Hi|]. done.
Qed.
Lemma post_then_free i m (c : M unit) w q : wp c (post i w q any) w ->
  wp (c;; mbuf_free2 m) (post i w q any) w.
Proof. intros Hc. eapply post_bind; [exact Hc|]. intros ? w1 q1 sk1 I1 S1 _ _. by eapply post_free. Qed.
Lemma any_counts i k w q sk : inv w q -> w_sockets w !! i = Some sk -> k ≠ NS_socket_current ->
  wp (stat_inc k) (post i w q any) w.
Proof. intros. eapply any_weaken, wp_counts; [done..|by apply counts_inc]. Qed.
Lemma any_reply i flags w q sk : inv w q -> i ∈ D -> w_sockets w !! i = Some sk ->
  wp (tcp_reply i flags) (post i w q any) w.
Proof. intros. eapply any_weaken. by eapply wp_reply. Qed.

(** ** The server *)

Lemma wp_server_syn i m iph th w q sk : inv w q -> i ∈ D -> w_sockets w !! i = Some sk -> seg_ok m iph th ->
  wp (tcp_server_process_syn i m th) (post i w q any) w.
Proof.
  intros Hi Hd Hs Hseg. destruct (seg_ptrs _ _ _ Hseg) as [Hm Hp]. unfold ptrs_ok in Hp.
  destruct (inv_retr D _ _ _ _ Hi Hd Hs) as (_ & _ & Htw).
  unfold tcp_server_process_syn. eapply wp_sk_get_post; [exact Hs|]. unfold sk_is.
  rewrite (bool_decide_false (sk_st sk = SK_TIME_WAIT)) by done. unfold st_when at 1. wp_reads.
  eapply wp_sk_get_post; [exact Hs|]. apply post_then_free.
  apply wp_if; intros Hc; bool_facts.
  - apply wp_bind. m_step.
    eapply post_bind; [by eapply wp_server_open|]. intros ? w1 q1 sk1 I1 S1 _ _. by eapply any_reply.
  - apply wp_if; intros _; [|by eapply any_counts]. wp_reads. apply wp_when; intros _.
    + eapply post_bind; [by eapply wp_reply|]. intros ? w1 q1 sk1 I1 S1 _ _. by eapply any_counts.
    + by eapply post_skip.
Qed.

Lemma wp_reply_more_loop n i wnd max w q sk : inv w q -> i ∈ D -> w_sockets w !! i = Some sk ->
  wp (reply_more_loop n i wnd max) (post i w q (fun _ => calm i sk q)) w.
Proof.
  revert w q sk. induction n as [|n IH]; intros w q sk Hi Hd Hs; simpl; [by apply calm_ret|].
  eapply wp_sk_get_post; [exact Hs|]. apply wp_if; intros _; [|by apply calm_ret].
  eapply calm_bind; [by eapply calm_mod|]. intros ? w1 q1 sk1 I1 S1 _ _ _.
  eapply calm_bind; [apply calm_weaken; by apply calm_reply|]. intros ? w2 q2 sk2 I2 S2 _ _ _. by apply IH.
Qed.

Lemma wp_reply_more i w q sk : inv w q -> i ∈ D -> w_sockets w !! i = Some sk ->
  sk_st sk ≠ SK_CLOSED ->
  wp (tcp_reply_more i) (post i w q (fun _ sk' _ => sk_st sk' ≠ SK_CLOSED)) w.
Proof.
  intros Hi Hd Hs Ho. unfold tcp_reply_more. eapply wp_sk_get_post; [exact Hs|]. wp_reads. cbv zeta.
  eapply post_bind; [by apply wp_reply_more_loop|]. intros ? w1 q1 sk1 I1 S1 _ C1.
  pose proof (calm_open _ _ _ _ _ C1 Ho) as O1.
  eapply post_bind; [by eapply wp_sk_mod_core|]. intros ? w2 q2 sk2 I2 S2 _ [-> ->].
  apply wp_if; intros _; [|by eapply post_ret]. apply wp_if; intros _.
  - wp_reads. eapply post_mono; [by eapply calm_start_timeout|]. intros ? sk' q' C. by apply calm_open in C.
  - unfold sk_set_state. eapply post_bind; [by eapply wp_sk_mod_open|]. intros ? w3 q3 sk3 I3 S3 _ [-> ->].
    eapply post_mono; [by eapply calm_reply|]. intros ? sk' q' C. by apply calm_open in C.
Qed.

Lemma wp_window_response i w q sk : inv w q -> i ∈ D -> w_sockets w !! i = Some sk ->
  sk_st sk ≠ SK_CLOSED ->
  wp (tcp_server_window_response i) (post i w q any) w.
Proof.
  intros Hi Hd Hs Ho. unfold tcp_server_window_response. wp_reads.
  eapply post_bind; [by eapply wp_sk_mod_core|]. intros ? w1 q1 sk1 I1 S1 _ [-> ->].
  eapply post_counts; [done|done|by apply counts_inc|]. intros w2 I2 S2 _.
  eapply post_counts; [done|done|by apply counts_inc|]. intros w3 I3 S3 _.
  eapply wp_sk_get_post; [exact S3|].
  eapply (post_bind D i w3 q _ _ (fun _ sk' _ => sk_st sk' ≠ SK_CLOSED)).
  { apply wp_if; intros _; [by eapply wp_reply_more|].
    eapply post_bind; [by eapply calm_reply|]. intros ? w4 q4 sk4 I4 S4 _ C4.
    apply calm_open in C4; [|done].
    eapply post_mono; [by eapply wp_sk_mod_core|]. by intros ? sk' q' [-> _]. }
  intros ? w4 q4 sk4 I4 S4 _ O4. wp_reads. eapply any_weaken. by apply wp_start_retransmit.
Qed.

Lemma wp_server_finish i rx tx w q sk : inv w q -> i ∈ D -> w_sockets w !! i = Some sk ->
  wp (tcp_server_finish i rx tx) (post i w q any) w.
Proof.
  intros Hi Hd Hs. unfold tcp_server_finish. eapply wp_sk_get_post; [exact Hs|].
  eapply (post_bind D i w q _ _ any).
  { apply wp_if; intros _; [eapply any_weaken; by apply wp_process_fin|by eapply post_ret]. }
  intros tx' w1 q1 sk1 I1 S1 _ _. eapply wp_sk_get_post; [exact S1|].
  apply wp_if; intros _; [by eapply any_reply|]. unfold sk_is. apply wp_if; intros Ho; bool_facts.
  - wp_reads. eapply any_weaken. by apply wp_start_timeout.
  - by eapply post_ret.
Qed.

(** ** Payloads *)

Lemma request_counts_list bs len : 1 < Z.of_nat (length bs) \/ len <= 18 ->
  counts D (room := room) (http_parse_request bs len).
Proof.
  intros Hb w He. unfold http_parse_request.
  apply wp_bind. eapply wp_mono; [by apply (counts_inc (room := room) D NS_tcp_req)|]. intros ? w1 E1.
  assert (forall k, k ≠ NS_socket_current -> wp (stat_inc k) (fun _ w' => env_step w w') w1) as Hk.
  { intros k Hk. eapply wp_mono; [apply (counts_inc (room := room) D k Hk), E1|].
    intros ? w2 E2. exact (env_step_trans _ _ _ _ _ E1 E2). }
  apply wp_if; intros Hl; bool_facts; [|by apply Hk].
  apply wp_bind, wp_lift_any; [apply aget_some; lia|]. intros c0 _.
  apply wp_if; intros _; [by apply Hk|].
  apply wp_bind, wp_lift_any; [apply aget_some; lia|]. intros c1 _. apply wp_if; intros _; by apply Hk.
Qed.

Lemma request_counts b p len : 0 <= p -> p + 2 <= Z.of_nat (length b) ->
  counts D (room := room) (http_parse_request (bytes_from b p) len).
Proof. intros. apply request_counts_list. left. unfold bytes_from. rewrite length_drop. lia. Qed.

Lemma response_counts_list bs len : 9 < Z.of_nat (length bs) \/ len <= 9 ->
  counts D (room := room) (http_parse_response bs len).
Proof.
  intros Hb w He. unfold http_parse_response.
  apply wp_bind. eapply wp_mono; [by apply (counts_inc (room := room) D NS_tcp_rsp)|]. intros ? w1 E1.
  assert (forall k, k ≠ NS_socket_current -> wp (stat_inc k) (fun _ w' => env_step w w') w1) as Hk.
  { intros k Hk. eapply wp_mono; [apply (counts_inc (room := room) D k Hk), E1|].
    intros ? w2 E2. exact (env_step_trans _ _ _ _ _ E1 E2). }
  apply wp_if; intros Hl; bool_facts; [|by apply Hk].
  apply wp_bind, wp_lift_any; [apply aget_some; lia|]. intros c _. apply wp_if; intros _; by apply Hk.
Qed.

Lemma response_counts b p len : 0 <= p -> p + 10 <= Z.of_nat (length b) ->
  counts D (room := room) (http_parse_response (bytes_from b p) len).
Proof. intros. apply response_counts_list. left. unfold bytes_from. rewrite length_drop. lia. Qed.

Lemma any_bind {A} i w q (m : M A) (f : A -> M unit) R :
  wp m (post i w q R) w ->
  (forall a w1 q1 sk1, inv w1 q1 -> w_sockets w1 !! i = Some sk1 -> R a sk1 q1 ->
    wp (f a) (post i w1 q1 any) w1) ->
  wp (m ≫= f) (post i w q any) w.
Proof. intros Hm Hf. eapply post_bind; [exact Hm|]. intros a w1 q1 sk1 I1 S1 _. by apply Hf. Qed.

Lemma wp_server_data i m iph th w q sk : inv w q -> i ∈ D -> w_sockets w !! i = Some sk -> seg_ok m iph th ->
  wp (tcp_server_process_data i m iph th) (post i w q any) w.
Proof.
  intros Hi Hd Hs Hseg. destruct (seg_ptrs _ _ _ Hseg) as [Hm Hp].
  destruct (tcp_data_get_some _ _ _ Hseg) as (d & l & Hdata & Hd1 & Hd2 & Hl).
  unfold ptrs_ok, HDR_ROOM in Hp. unfold tcp_server_process_data. cbv zeta. apply wp_bind. m_step.
  apply wp_bind. eapply wp_lift; [exact Hdata|].
  eapply any_bind; [by eapply wp_check_sequence|]. intros ok w1 q1 sk1 I1 S1 Hok.
  apply post_then_free. apply wp_if; intros Eok; bool_facts; [by eapply any_counts|].
  destruct (Hok Eok) as [Ho Hst]. eapply wp_sk_get_post; [exact S1|].
  eapply (any_bind i w1 q1 _ _ (fun _ sk' _ => sk_st sk' ≠ SK_CLOSED)).
  { apply wp_when; intros _.
    - unfold sk_set_state. eapply post_mono; [by eapply wp_sk_mod_open|]. by intros ? sk' q' [-> _].
    - by eapply post_skip. }
  intros ? w2 q2 sk2 I2 S2 O2. eapply wp_sk_get_post; [exact S2|]. wp_reads.
  apply wp_if; intros _; [|by eapply wp_server_finish]. apply wp_if; intros _.
  - eapply post_counts; [done|done|apply request_counts; unfold pkt_ok, HDR_ROOM in Hm; lia|].
    intros w3 I3 S3 _. apply wp_if; intros _; [by eapply wp_window_response|by eapply wp_server_finish].
  - apply wp_if; intros _; [|by eapply wp_server_finish]. eapply any_weaken. by eapply wp_reply_more.
Qed.

(** ** The client *)

Lemma wp_client_syn_ack i m iph th w q sk : inv w q -> i ∈ D -> w_sockets w !! i = Some sk -> seg_ok m iph th ->
  wp (tcp_client_process_syn_ack i m th) (post i w q any) w.
Proof.
  intros Hi Hd Hs Hseg. destruct (seg_ptrs _ _ _ Hseg) as [Hm Hp]. unfold ptrs_ok in Hp.
  unfold tcp_client_process_syn_ack. apply wp_bind. m_step. apply wp_bind. m_step. cbv zeta.
  eapply wp_sk_get_post; [exact Hs|]. apply post_then_free. unfold sk_is.
  apply wp_if; intros Hst; bool_facts.
  - apply wp_if; intros _; [by eapply any_counts|]. wp_reads.
    eapply (post_env D i w q sk _ _ (fun _ => True)); [done|done| |].
    { apply wp_stat_mod. split; [|done]. apply env_stat_mod; [apply Hi|]. by ns_simpl. }
    intros ? w1 _ _ I1 S1.
    eapply any_bind; [by eapply wp_sk_mod_open; rewrite ?Hst|]. intros ? w2 q2 sk2 I2 S2 _. by eapply any_reply.
  - apply wp_if; intros _; [|by eapply any_counts].
    eapply post_counts; [done|done|by apply counts_inc|]. intros w1 I1 S1 _.
    apply wp_when; intros _.
    + eapply any_bind; [by eapply wp_reply|]. intros ? w2 q2 sk2 I2 S2 _. by eapply any_counts.
    + by eapply post_skip.
Qed.

Lemma wp_in_duration i w q sk R : inv w q -> w_sockets w !! i = Some sk ->
  (forall b, R b sk q) -> wp work_space_in_duration (post i w q R) w.
Proof.
  intros Hi Hs HR. unfold work_space_in_duration. wp_reads. apply wp_ret.
  exists q, sk. split; [by apply keeps_refl|done].
Qed.

(** The socket stays open, and the keep-alive timer is not armed. *)
Definition requested (i : N) (q : queues) (sk' : socket) (q' : queues) : Prop :=
  sk_st sk' ≠ SK_CLOSED /\ (i ∈ q' T_keepalive -> i ∈ q T_keepalive).

Lemma wp_send_keepalive i w q sk : inv w q -> i ∈ D -> w_sockets w !! i = Some sk -> sk_st sk ≠ SK_CLOSED ->
  wp (tcp_send_keepalive_request i) (post i w q (fun _ => requested i q)) w.
Proof.
  intros Hi Hd Hs Ho. unfold tcp_send_keepalive_request.
  eapply post_bind; [eapply (wp_in_duration _ _ _ _ (fun _ sk' q' => sk' = sk /\ q' = q)); done|].
  intros dur w0 q0 sk0 I0 S0 _ [-> ->]. apply wp_if; intros _.
  - eapply post_bind; [by eapply wp_sk_mod_core|]. intros ? w1 q1 sk1 I1 S1 _ [-> ->].
    eapply post_bind; [by eapply calm_reply|]. intros ? w2 q2 sk2 I2 S2 _ [C2 K2]. wp_reads.
    apply core_open in C2; [|done]. eapply wp_sk_get_post; [exact S2|]. apply wp_when; intros _.
    + eapply post_mono; [by eapply wp_sk_mod_core|]. by intros ? sk' q' [-> ->].
    + by eapply post_skip.
  - unfold sk_set_state. eapply post_bind; [by eapply wp_sk_mod_open|]. intros ? w1 q1 sk1 I1 S1 _ [-> ->].
    eapply post_bind; [by eapply calm_reply|]. intros ? w2 q2 sk2 I2 S2 _ [C2 K2].
    apply core_open in C2; [|done].
    eapply post_mono; [by eapply wp_sk_mod_core|]. by intros ? sk' q' [-> ->].
Qed.

(** A result about socket [i] when other sockets may have sent as well. *)
Definition wide (i : N) (w : world) {A} (R : A -> socket -> Prop) : A -> world -> Prop := fun a w' =>
  exists q' sk', inv w' q' /\ static w' = static w /\ w_sockets w' !! i = Some sk' /\ R a sk'.

Lemma post_wide {A} i w q (m : M A) R (R' : A -> socket -> Prop) :
  wp m (post i w q R) w -> (forall a sk' q', R a sk' q' -> R' a sk') -> wp m (wide i w R') w.
Proof.
  intros Hm HR. eapply wp_mono; [exact Hm|]. intros a w' (q' & sk' & (I & T & _) & Hs & H).
  exists q', sk'. split_and!; eauto.
Qed.
Lemma wide_bind {A A'} i w (m : M A) (f : A -> M A') R1 R2 :
  wp m (wide i w R1) w ->
  (forall a w1 q1 sk1, inv w1 q1 -> w_sockets w1 !! i = Some sk1 -> R1 a sk1 -> wp (f a) (wide i w1 R2) w1) ->
  wp (m ≫= f) (wide i w R2) w.
Proof.
  intros Hm Hf. apply wp_bind. eapply wp_mono; [exact Hm|]. intros a w1 (q1 & sk1 & I1 & T1 & S1 & H1).
  eapply wp_mono; [by apply (Hf a w1 q1 sk1)|]. intros b w2 (q2 & sk2 & I2 & T2 & S2 & H2).
  exists q2, sk2. split_and!; try done. congruence.
Qed.
Lemma wide_ret {A} i w q sk (a : A) (R : A -> socket -> Prop) :
  inv w q -> w_sockets w !! i = Some sk -> R a sk -> wp (mret a) (wide i w R) w.
Proof. intros. apply wp_ret. by exists q, sk. Qed.
Lemma wide_mono {A} i w (m : M A) (R1 R2 : A -> socket -> Prop) :
  wp m (wide i w R1) w -> (forall a sk, R1 a sk -> R2 a sk) -> wp m (wide i w R2) w.
Proof.
  intros Hm HR. eapply wp_mono; [exact Hm|]. intros a w' (q' & sk' & ? & ? & ? & ?). exists q', sk'. split_and!; auto.
Qed.
Lemma wide_get {A} i w sk (f : socket -> M A) R :
  w_sockets w !! i = Some sk -> wp (f sk) (wide i w R) w -> wp (x ← sk_get i; f x) (wide i w R) w.
Proof. intros Hs Hf. apply wp_bind. eapply wp_sk_get; [exact Hs|exact Hf]. Qed.

(** Delayed acknowledgements leave every connection as it is. *)
Definition calm_all (w w' : world) : Prop := forall j sk, w_sockets w !! j = Some sk ->
  exists sk', w_sockets w' !! j = Some sk' /\ core sk' = core sk.
Definition flushed (w : world) : unit -> world -> Prop := fun _ w' =>
  exists q', inv w' q' /\ static w' = static w /\ calm_all w w'.

Lemma calm_flushed i w q sk (m : M unit) : w_sockets w !! i = Some sk ->
  wp m (post i w q (fun _ sk' _ => core sk' = core sk)) w -> wp m (flushed w) w.
Proof.
  intros Hs Hm. eapply wp_mono; [exact Hm|]. intros ? w' (q' & sk' & (I' & T' & Hk) & Hs' & Hc).
  exists q'. split_and!; [done|done|]. intros j skj Hj. destruct (decide (j = i)) as [->|Hne].
  - exists sk'. split; [done|]. congruence.
  - destruct (Hk j Hne) as [-> _]. eauto.
Qed.
Lemma flushed_refl w q : inv w q -> flushed w tt w.
Proof. exists q. split_and!; [done|done|]. intros j sk Hj. eauto. Qed.
Lemma flushed_trans w w1 w2 a b : flushed w a w1 -> flushed w1 b w2 -> flushed w b w2.
Proof.
  intros (q1 & _ & T1 & C1) (q2 & I2 & T2 & C2). exists q2. split_and!; [done|congruence|].
  intros j sk Hj. destruct (C1 _ _ Hj) as (sk1 & Hj1 & E1). destruct (C2 _ _ Hj1) as (sk2 & Hj2 & E2).
  exists sk2. split; congruence.
Qed.

Lemma wp_ack_delay_loop l w q : inv w q -> Forall (fun i => i ∈ D) l ->
  wp (ack_delay_loop l) (flushed w) w.
Proof.
  revert w q. induction l as [|i l IH]; intros w q Hi Hl; simpl; [apply wp_ret; by eapply flushed_refl|].
  apply list.Forall_cons in Hl as [Hd Hl]. destruct (inv_sock _ _ _ _ Hi Hd) as (sk & Hs & _).
  apply wp_bind. eapply wp_sk_get; [exact Hs|]. apply wp_bind.
  eapply wp_mono with (Q := flushed w).
  { apply wp_when; intros _; [|by eapply flushed_refl].
    eapply calm_flushed; [exact Hs|].
    eapply post_bind; [by eapply wp_sk_mod_core|]. intros ? w1 q1 sk1 I1 S1 _ [-> ->].
    eapply wp_sk_get_post; [exact S1|]. apply wp_when; intros _.
    - eapply post_mono; [by eapply wp_reply|]. by intros ? sk' q' ->%replied_core.
    - by eapply post_skip. }
  intros ? w1 H1. destruct H1 as (q1 & I1 & H1). eapply wp_mono; [by apply (IH w1 q1)|].
  intros ? w2 H2. apply (flushed_trans w w1 w2 tt); [by exists q1|exact H2].
Qed.

(** Emptying or growing the array of delayed acknowledgements. *)
Lemma env_ack_delay l w : env_ok w -> Forall (fun i => i ∈ D) l ->
  env_step w (w <| w_ws ::= fun ws => ws <| ws_ack_delay := l |> |>).
Proof. intros [] Hl. by split; [split|..]. Qed.

Lemma wp_ack_delay_flush w q : inv w q ->
  wp tcp_ack_delay_flush (fun a w' => flushed w a w' /\ ws_ack_delay (w_ws w') = []) w.
Proof.
  intros Hi. unfold tcp_ack_delay_flush. wp_reads. apply wp_bind.
  eapply wp_mono; [eapply wp_ack_delay_loop; [exact Hi|apply (env_ack _ _ _ (inv_env _ _ _ _ _ Hi))]|].
  intros ? w1 H1. destruct H1 as (q1 & I1 & T1 & C1). apply wp_ws_mod. split; [|done].
  assert (env_step w1 (w1 <| w_ws ::= fun ws => ws <| ws_ack_delay := [] |> |>)) as E
    by (apply env_ack_delay; [apply I1|by apply List.Forall_nil]).
  exists q1. split_and!; [by eapply inv_env_step|rewrite <- T1; apply E|done].
Qed.

Lemma flushed_wide i w sk : w_sockets w !! i = Some sk ->
  forall a w', flushed w a w' -> wide i w (fun (_ : unit) sk' => core sk' = core sk) a w'.
Proof. intros Hs a w' (q' & I' & T' & C'). destruct (C' _ _ Hs) as (sk' & Hs' & Hc). by exists q', sk'. Qed.

Lemma wp_ack_delay_add i w q sk : inv w q -> i ∈ D -> w_sockets w !! i = Some sk ->
  wp (tcp_ack_delay_add i) (wide i w (fun _ sk' => core sk' = core sk)) w.
Proof.
  intros Hi Hd Hs. unfold tcp_ack_delay_add. eapply wide_get; [exact Hs|].
  apply wp_if; intros _; [by eapply wide_ret|]. wp_reads.
  eapply (wide_bind i w _ _ (fun _ sk' => core sk' = core sk)).
  { apply wp_when; intros _.
    - eapply wp_mono; [by eapply wp_ack_delay_flush|]. intros ? w' [H _]. by eapply flushed_wide.
    - by exists q, sk. }
  intros ? w1 q1 sk1 I1 S1 C1.
  eapply (wide_bind i w1 _ _ (fun _ sk' => core sk' = core sk)).
  { apply wp_ws_mod.
    assert (env_step w1 (w1 <| w_ws ::= fun ws => ws <| ws_ack_delay ::= fun l => l ++ [i] |> |>)) as E.
    { apply (env_ack_delay (ws_ack_delay (w_ws w1) ++ [i])); [apply I1|].
      apply list.Forall_app. split; [apply (env_ack _ _ _ (inv_env _ _ _ _ _ I1))|].
      apply List.Forall_cons; [done|apply List.Forall_nil]. }
    exists q1, sk1. split_and!; [by eapply inv_env_step|apply E|done|done]. }
  intros ? w2 q2 sk2 I2 S2 C2.
  eapply post_wide; [by eapply wp_sk_mod_core|]. intros ? sk' q' [-> _]. by rewrite <- C2.
Qed.

Lemma http_frame_core sk sk' : http_frame sk sk' -> core sk' = core sk.
Proof. by intros (?&?&?&?&->). Qed.

Lemma wp_http_parse_run i data w q sk : inv w q -> i ∈ D -> w_sockets w !! i = Some sk ->
  wp (http_parse_run i data) (post i w q (fun _ => calm i sk q)) w.
Proof.
  intros Hi Hd Hs. unfold http_parse_run. eapply wp_sk_get_post; [exact Hs|].
  eapply (calm_bind D i w q sk _ _ (fun _ => True)).
  { apply wp_when; intros _; [|by eapply post_skip; [..|split; [apply calm_refl|]]].
    apply calm_weaken. eapply post_counts; [done|done|apply response_counts_list; lia|]. intros w1 I1 S1 _.
    by apply calm_mod_last. }
  intros ? w1 q1 sk1 I1 S1 _ _ _. eapply wp_sk_get_post; [exact S1|].
  destruct (http_parse_continue_total sk1 data) as (r & sk2 & -> & _ & Hf).
  apply wp_bind. eapply wp_lift; [done|].
  eapply (calm_bind D i w1 q1 sk1 _ _ (fun _ => True)); [apply calm_mod; [done..|by apply http_frame_core]|].
  intros ? w2 q2 sk3 I2 S2 _ _ _. by apply calm_ret.
Qed.

Lemma wide_mod i f w q sk : inv w q -> w_sockets w !! i = Some sk -> core (f sk) = core sk ->
  wp (sk_mod i f) (wide i w (fun _ sk' => core sk' = core sk)) w.
Proof.
  intros. eapply post_wide; [by eapply wp_sk_mod_core|]. by intros ? sk' q' [-> _].
Qed.

(** A step that keeps the core of the socket. *)
Lemma wide_core {A A'} i w sk (m : M A) (f : A -> M A') :
  wp m (wide i w (fun _ sk' => core sk' = core sk)) w ->
  (forall a w1 q1 sk1, inv w1 q1 -> w_sockets w1 !! i = Some sk1 -> core sk1 = core sk ->
    wp (f a) (wide i w1 (fun _ sk' => core sk' = core sk1)) w1) ->
  wp (m ≫= f) (wide i w (fun _ sk' => core sk' = core sk)) w.
Proof.
  intros Hm Hf. eapply wide_bind; [exact Hm|]. intros a w1 q1 sk1 I1 S1 C1.
  eapply wide_mono; [by eapply Hf|]. intros ? sk2 C2. simpl in *. congruence.
Qed.

Lemma wide_calm {A} i w q sk (m : M A) : wp m (post i w q (fun _ => calm i sk q)) w ->
  wp m (wide i w (fun _ sk' => core sk' = core sk)) w.
Proof. intros Hm. eapply post_wide; [exact Hm|]. by intros ? sk' q' [? _]. Qed.

Lemma wp_http_client_data i rx data w q sk : inv w q -> i ∈ D -> w_sockets w !! i = Some sk ->
  sk_st sk ≠ SK_CLOSED ->
  wp (http_client_process_data i rx data) (wide i w (fun _ sk' => core sk' = core sk)) w.
Proof.
  intros Hi Hd Hs Ho. unfold http_client_process_data.
  eapply wide_core; [eapply wide_calm; by apply wp_http_parse_run|]. intros ret w1 q1 sk1 I1 S1 C1.
  apply wp_if; intros _; [|apply wp_if; intros _].
  - eapply wide_core; [eapply wide_mod; try done; by case_match|]. intros ? w2 q2 sk2 I2 S2 C2.
    apply wp_if; intros _; [|by eapply wide_ret].
    eapply wide_core; [by eapply wp_ack_delay_add|]. intros ? w3 q3 sk3 I3 S3 C3. by eapply wide_ret.
  - eapply wide_get; [exact S1|]. cbv zeta.
    eapply wide_core; [by eapply wide_mod|]. intros ? w2 q2 sk2 I2 S2 C2.
    apply wp_if; intros _.
    + unfold ack_now. apply wp_bind. wp_reads. apply wp_ret.
      eapply wide_core.
      { apply wp_when; intros _; [by eapply wp_ack_delay_add|by exists q2, sk2]. }
      intros ? w3 q3 sk3 I3 S3 C3. wp_reads.
      eapply wide_core; [|intros ? w4 q4 sk4 I4 S4 C4; by eapply wide_ret].
      eapply post_wide; [apply wp_start_keepalive; try done|by intros ? sk' q' [[t ->] _]].
      eapply core_open; [|exact Ho]. congruence.
    + eapply wide_core; [by eapply wide_mod|]. intros ? w3 q3 sk3 I3 S3 C3. by eapply wide_ret.
  - eapply wide_core; [by eapply wide_mod|]. intros ? w2 q2 sk2 I2 S2 C2.
    eapply wide_core; [|intros ? w3 q3 sk3 I3 S3 C3; by eapply wide_ret].
    eapply wide_calm, calm_counts; [done|done|by apply counts_inc].
Qed.

(** The payload of the segment lies inside its buffer. *)
Definition payload_ok (m : mbuf) (iph th : Z) : Prop := forall d l,
  tcp_data_get (m_buf m) iph th = Some (d, l) -> d + l <= Z.of_nat (length (m_buf m)).

Lemma wp_established_data i rx m d l w q sk : inv w q -> i ∈ D -> w_sockets w !! i = Some sk ->
  sk_st sk ≠ SK_CLOSED -> 0 <= l -> 0 <= d -> d + 10 <= Z.of_nat (length (m_buf m)) ->
  (ws_http (w_ws w) = true -> d + l <= Z.of_nat (length (m_buf m))) ->
  wp (tcp_client_established_data i rx (m_buf m) d l) (wide i w (fun _ sk' => sk_st sk' ≠ SK_CLOSED)) w.
Proof.
  intros Hi Hd Hs Ho Hl Hd0 Hd1 Hh. unfold tcp_client_established_data. wp_reads.
  apply wp_if; intros Hhttp.
  - destruct (ld_bytes_some (m_buf m) d l) as (bs & -> & _); [done|done|by apply Hh|].
    apply wp_bind. eapply wp_lift; [done|].
    eapply wide_mono; [by eapply wp_http_client_data|]. intros ? sk' C. by apply core_open in C.
  - eapply (wide_bind i w _ _ (fun _ sk' => core sk' = core sk)).
    { eapply wide_calm, calm_counts; [done|done|by apply response_counts]. }
    intros ? w1 q1 sk1 I1 S1 C1. apply core_open in C1; [|done]. eapply wide_get; [exact S1|].
    apply wp_if; intros _; [by eapply wide_ret|]. wp_reads.
    eapply (wide_bind i w1 _ _ (fun _ sk' => sk_st sk' ≠ SK_CLOSED)).
    { apply wp_if; intros _.
      - eapply post_wide; [by apply wp_start_keepalive|]. by intros ? sk' q' [[t ->] _].
      - eapply post_wide; [by eapply wp_send_keepalive|]. by intros ? sk' q' [? _]. }
    intros ? w2 q2 sk2 I2 S2 O2. by eapply wide_ret.
Qed.

Definition anyw {A} : A -> socket -> Prop := fun _ _ => True.
Lemma wide_any {A} i w q (m : M A) R : wp m (post i w q R) w -> wp m (wide i w anyw) w.
Proof. intros. by eapply post_wide. Qed.

Lemma wp_client_finish i rx tx w q sk : inv w q -> i ∈ D -> w_sockets w !! i = Some sk ->
  wp (tcp_client_finish i rx tx) (post i w q any) w.
Proof.
  intros Hi Hd Hs. unfold tcp_client_finish. eapply wp_sk_get_post; [exact Hs|].
  eapply (any_bind i w q _ _ any).
  { apply wp_if; intros _; [eapply any_weaken; by apply wp_process_fin|by eapply post_ret]. }
  intros tx' w1 q1 sk1 I1 S1 _. eapply wp_sk_get_post; [exact S1|].
  unfold ack_now. apply wp_bind. wp_reads. apply wp_ret.
  apply wp_when; intros _; [by eapply any_reply|by eapply post_skip].
Qed.

Lemma wide_then_free i m (c : M unit) w : wp c (wide i w anyw) w -> wp (c;; mbuf_free2 m) (wide i w anyw) w.
Proof.
  intros Hc. eapply wide_bind; [exact Hc|]. intros ? w1 q1 sk1 I1 S1 _.
  eapply wide_any. by eapply (post_free i).
Qed.

Lemma wp_client_data i m iph th w q sk : inv w q -> i ∈ D -> w_sockets w !! i = Some sk -> seg_ok m iph th ->
  payload_ok m iph th ->
  wp (tcp_client_process_data i m iph th) (wide i w anyw) w.
Proof.
  intros Hi Hd Hs Hseg Hpay. destruct (seg_ptrs _ _ _ Hseg) as [Hm Hp].
  destruct (tcp_data_get_some _ _ _ Hseg) as (d & l & Hdata & Hd1 & Hd2 & Hl).
  specialize (Hpay d l Hdata). unfold ptrs_ok, pkt_ok, HDR_ROOM in *.
  unfold tcp_client_process_data. cbv zeta. apply wp_bind. m_step.
  apply wp_bind. eapply wp_lift; [exact Hdata|].
  eapply wide_bind; [eapply post_wide; [by eapply wp_check_sequence|intros ok sk' q' H; exact (H : ok = true -> _)]|].
  intros ok w1 q1 sk1 I1 S1 Hok. apply wide_then_free.
  apply wp_if; intros Eok; bool_facts; [eapply wide_any; by eapply any_counts|].
  destruct (Hok Eok) as [Ho Hst]. eapply wide_get; [exact S1|].
  apply wp_if; intros _; [|eapply wide_any; by eapply wp_client_finish].
  eapply (wide_bind i w1 _ _ (fun _ sk' => sk_st sk' ≠ SK_CLOSED)).
  { apply wp_if; intros _; [|by eapply wide_ret]. eapply wp_established_data; try done; lia. }
  intros tx w2 q2 sk2 I2 S2 O2. wp_reads. apply wp_if; intros _.
  - eapply wide_bind; [eapply wide_any; by eapply wp_reply|]. intros ? w3 q3 sk3 I3 S3 _.
    eapply wide_any. by eapply wp_close.
  - eapply wide_any. by eapply wp_client_finish.
Qed.

(** ** Whole steps *)

Definition stepped (w : world) {A} : A -> world -> Prop := fun _ w' =>
  exists q', inv w' q' /\ static w' = static w.

Lemma wide_stepped {A} i w (m : M A) R : wp m (wide i w R) w -> wp m (stepped w) w.
Proof. intros Hm. eapply wp_mono; [exact Hm|]. intros a w' (q' & sk' & ? & ? & _). by exists q'. Qed.
Lemma post_stepped {A} i w q (m : M A) R : wp m (post i w q R) w -> wp m (stepped w) w.
Proof. intros Hm. by eapply (wide_stepped i), wide_any. Qed.
Lemma env_stepped {A} w q (m : M A) : inv w q -> wp m (fun _ w' => env_step w w') w -> wp m (stepped w) w.
Proof.
  intros Hi Hm. eapply wp_mono; [exact Hm|]. intros a w' He.
  exists q. split; [by eapply inv_env_step|apply He].
Qed.
Lemma stepped_bind {A A'} w (m : M A) (f : A -> M A') :
  wp m (stepped w) w -> (forall a w1 q1, inv w1 q1 -> wp (f a) (stepped w1) w1) ->
  wp (m ≫= f) (stepped w) w.
Proof.
  intros Hm Hf. apply wp_bind. eapply wp_mono; [exact Hm|]. intros a w1 (q1 & I1 & T1).
  eapply wp_mono; [by eapply Hf|]. intros b w2 (q2 & I2 & T2). exists q2. split; [done|congruence].
Qed.
Lemma stepped_refl {A} w q (a : A) : inv w q -> stepped w a w.
Proof. by exists q. Qed.

(** A received segment; the client's HTTP parser trusts its length fields. *)
Definition rx_ok (m : mbuf) : Prop :=
  pkt_ok m /\ Forall (in_u 8) (m_buf m)
  /\ forall th, mbuf_tcp_hdr m = Some th -> payload_ok m (mbuf_ip_hdr m) th.

Lemma rx_seg m : rx_ok m -> exists th, mbuf_tcp_hdr m = Some th /\ seg_ok m (mbuf_ip_hdr m) th.
Proof. intros (Hm & Hb & _). destruct (mbuf_tcp_hdr_some m Hm) as (th & Hth & _). by exists th. Qed.

Lemma wp_is_local m w Q : pkt_ok m -> (forall b, Q b w) -> wp (work_space_is_local_addr m) Q w.
Proof.
  intros Hm HQ. unfold work_space_is_local_addr. wp_reads. cbv zeta. apply wp_bind.
  apply wp_m_ld; [apply ld_ip_version_some; in_packet|]. intros v. apply wp_bind.
  apply wp_m_ld; [|intros; apply wp_ret, HQ]. case_match; apply ld32_some; in_packet.
Qed.

(** A segment without a socket: to the kernel, answered by a reset, or dropped. *)
Lemma wp_local_or m w q (m1 m2 : M unit) : inv w q -> pkt_ok m ->
  wp m1 (stepped w) w -> wp m2 (stepped w) w ->
  wp (kni ← ws_get ws_kni;
      local ← (if (kni : bool) then work_space_is_local_addr m else mret false);
      if (local : bool) then m1 else m2) (stepped w) w.
Proof.
  intros Hi Hm H1 H2. wp_reads. apply wp_bind. apply wp_if; intros _.
  - apply wp_is_local; [done|]. by intros [].
  - by apply wp_ret.
Qed.

Lemma drop_free_stepped k m w q (free : mbuf -> M unit) : inv w q -> k ≠ NS_socket_current ->
  (forall w, env_ok w -> wp (free m) (fun _ w' => env_step w w') w) ->
  wp (stat_inc k;; free m) (stepped w) w.
Proof.
  intros Hi Hk Hf. eapply stepped_bind; [eapply env_stepped; [exact Hi|]|].
  - apply (counts_inc (room := room) D k Hk), Hi.
  - intros ? w1 q1 I1. eapply env_stepped; [exact I1|]. apply Hf, I1.
Qed.

Lemma wp_no_socket m w q : inv w q -> pkt_ok m -> wp (tcp_no_socket m) (stepped w) w.
Proof.
  intros Hi Hm. eapply wp_local_or; [exact Hi|done| |].
  - eapply env_stepped; [exact Hi|]. apply (wp_kni_recv (room := room) D), Hi.
  - wp_reads. apply wp_if; intros _.
    + eapply env_stepped; [exact Hi|]. apply (wp_reply_rst (room := room) D); [apply Hi|done].
    + eapply drop_free_stepped; [exact Hi|done|]. intros. by apply wp_free2.
Qed.

Lemma wp_drop m w q : inv w q -> pkt_ok m -> wp (tcp_drop m) (stepped w) w.
Proof.
  intros Hi Hm. eapply wp_local_or; [exact Hi|done| |].
  - eapply env_stepped; [exact Hi|]. apply (wp_kni_recv (room := room) D), Hi.
  - eapply drop_free_stepped; [exact Hi|done|]. intros. by apply wp_mbuf_free.
Qed.

Lemma wp_rx_count flags w q : inv w q -> wp (tcp_flags_rx_count flags) (stepped w) w.
Proof. intros Hi. eapply env_stepped; [exact Hi|]. apply rx_count_counts, Hi. Qed.

Lemma wp_server_process m w q : inv w q -> rx_ok m -> wp (tcp_server_process m) (stepped w) w.
Proof.
  intros Hi Hrx. destruct (rx_seg m Hrx) as (th & Hth & Hseg). destruct (seg_ptrs _ _ _ Hseg) as [Hm Hp].
  unfold tcp_server_process. cbv zeta. apply wp_bind. eapply wp_m_ld_eq; [exact Hth|].
  apply wp_bind. unfold ptrs_ok in Hp. m_step. apply wp_bind.
  eapply wp_mono; [by eapply wp_server_lookup|]. intros o w' [-> Ho].
  destruct o as [i|]; [|by eapply wp_no_socket]. specialize (Ho i eq_refl).
  eapply stepped_bind; [by eapply wp_rx_count|]. intros ? w1 q1 I1.
  destruct (inv_sock _ _ _ _ I1 Ho) as (sk & Hs & _).
  apply wp_if; intros _; [|apply wp_if; intros _; [|apply wp_if; intros _]].
  - eapply post_stepped. by eapply wp_server_data.
  - eapply post_stepped. by eapply wp_server_syn.
  - eapply post_stepped. by eapply wp_process_rst.
  - eapply drop_free_stepped; [exact I1|done|]. intros. by apply wp_free2.
Qed.

Lemma wp_client_process m w q : inv w q -> rx_ok m -> wp (tcp_client_process m) (stepped w) w.
Proof.
  intros Hi Hrx. destruct (rx_seg m Hrx) as (th & Hth & Hseg). destruct (seg_ptrs _ _ _ Hseg) as [Hm Hp].
  unfold tcp_client_process. cbv zeta. apply wp_bind. eapply wp_m_ld_eq; [exact Hth|].
  apply wp_bind. unfold ptrs_ok in Hp. m_step. apply wp_bind.
  eapply wp_mono; [by eapply wp_client_lookup|]. intros o w' [-> Ho].
  destruct o as [i|]; [|by eapply wp_no_socket]. specialize (Ho i eq_refl).
  eapply stepped_bind; [by eapply wp_rx_count|]. intros ? w1 q1 I1.
  destruct (inv_sock _ _ _ _ I1 Ho) as (sk & Hs & _).
  apply wp_if; intros _; [|apply wp_if; intros _; [|apply wp_if; intros _]].
  - eapply wide_stepped. eapply wp_client_data; try done. by apply Hrx.
  - eapply post_stepped. by eapply wp_client_syn_ack.
  - eapply post_stepped. by eapply wp_process_rst.
  - eapply drop_free_stepped; [exact I1|done|]. intros. by apply wp_free2.
Qed.
End TcpStep.
