(* ===== verification/TcpTimer.v ===== *)
(** * TcpTimer: timers and launches preserve the invariant

    [socket_timer_run] ends within its fuel: every visit of a socket takes it
    off the queue or brings it closer to the limit of retransmissions. *)

From S2P Require Import Prelude SocketNode IpRange Tick Config Mbuf NetStats World.
From S2P Require Import WorkSpace Socket SocketTimer HttpParse Kni TcpPacket Tcp Env.
From S2P Require Import SocketInv TcpInv.

(** ** Sums over the sockets *)

Definition sum_over (f : N -> nat) (l : list N) : nat := foldr (fun j n => (f j + n)%nat) 0%nat l.

Lemma sum_over_same f g l : (forall j, j ∈ l -> f j = g j) -> sum_over f l = sum_over g l.
Proof.
  induction l as [|x l IH]; intros H; [done|]. simpl. rewrite (H x), IH; [done| |list_in].
  intros j Hj. apply H. list_in.
Qed.

Lemma sum_over_lt f g l i : NoDup l -> i ∈ l -> (f i < g i)%nat -> (forall j, j ≠ i -> f j = g j) ->
  (sum_over f l < sum_over g l)%nat.
Proof.
  intros Hd Hi Hlt He. induction l as [|x l IH]; [by apply elem_of_nil in Hi|].
  apply list.NoDup_cons in Hd as [Hx Hd]. simpl. destruct (decide (x = i)) as [->|Hne].
  - rewrite (sum_over_same f g l); [lia|]. intros j Hj. apply He. by intros ->.
  - rewrite (He x) by done. apply elem_of_cons in Hi as [->|Hi]; [done|]. specialize (IH Hd Hi). lia.
Qed.

Lemma sum_over_le f n l : (forall j, (f j <= n)%nat) -> (sum_over f l <= n * length l)%nat.
Proof. intros H. induction l as [|x l IH]; simpl; [lia|]. specialize (H x). lia. Qed.

Section Timers.
Context {Dk : Dpdk} {room : Z} {L : DpdkLaws Dk room} (D : gset N) (Hroom : HDR_ROOM <= room).
Abbreviation inv := (inv 3 D room).
Abbreviation keeps := (keeps 3 D room).
Abbreviation post := (post (room := room) (B := 3) D).
Abbreviation stepped := (stepped (room := room) D).

(** ** Termination of a timer run *)

(** The visits left of the sockets on queue [t], [v] of each. *)
Definition visits (t : timer_id) (v : socket -> nat) (w : world) (q : queues) (j : N) : nat :=
  if bool_decide (j ∈ q t) then match w_sockets w !! j with Some sk => v sk | None => 0 end else 0.
Definition pending (t : timer_id) (v : socket -> nat) (w : world) (q : queues) : nat :=
  sum_over (visits t v w q) (elements D).

Lemma pending_decreases t v i w q sk w' q' sk' :
  keeps i w q w' q' -> i ∈ D -> i ∈ q t -> w_sockets w !! i = Some sk -> w_sockets w' !! i = Some sk' ->
  (0 < v sk)%nat -> (i ∈ q' t -> (v sk' < v sk)%nat) ->
  (pending t v w' q' < pending t v w q)%nat.
Proof.
  intros (_ & _ & Hk) Hd Hq Hs Hs' Hpos Hv. apply (sum_over_lt _ _ _ i).
  - apply NoDup_elements.
  - by apply elem_of_elements.
  - unfold visits. rewrite (bool_decide_true (i ∈ q t)) by done. rewrite Hs, Hs'. case_bool_decide; auto.
  - intros j Hj. destruct (Hk j Hj) as [E Eq]. unfold visits. rewrite E. by rewrite (bool_decide_ext _ _ (Eq t)).
Qed.

Lemma pending_fuel t v w q : inv w q -> (forall sk, (v sk <= 4)%nat) -> (pending t v w q <= timer_fuel w)%nat.
Proof.
  intros [_ [Hd _] _ _] Hv. unfold pending, timer_fuel.
  etransitivity; [apply (sum_over_le _ 4)|].
  - intros j. unfold visits. case_bool_decide; [|lia]. case_match; [apply Hv|lia].
  - assert (size D <= size (w_sockets w))%nat as H.
    { rewrite <- size_dom. apply subseteq_size. intros j Hj. destruct (Hd j Hj) as (sk & Hs & _).
      by apply elem_of_dom. }
    change (size D) with (length (elements D)) in H. lia.
Qed.

Lemma wp_queue_first t w q Q : inv w q -> Q (head (q t)) w -> wp (queue_first t) Q w.
Proof.
  intros Hi HQ. unfold queue_first, wp. by rewrite (socket_queue_first_repr _ _ _ t (inv_repr _ _ _ _ _ Hi)).
Qed.

(** A handler that takes the socket off queue [t] or leaves it fewer visits. *)
Definition handles (t : timer_id) (v : socket -> nat) (Z0 : world -> Prop) (handler : N -> M unit) : Prop :=
  forall i w q sk, inv w q -> Z0 w -> i ∈ D -> w_sockets w !! i = Some sk -> sk_st sk ≠ SK_CLOSED ->
    (forall t', i ∉ q t') ->
    wp (handler i) (post i w q (fun _ sk' q' => i ∈ q' t -> (v sk' < v sk)%nat)) w.

(** The first socket of queue [t] has not expired. *)
Definition timer_done (t : timer_id) (timeout now : Z) (w : world) (q : queues) : Prop :=
  forall i, head (q t) = Some i ->
    exists sk, w_sockets w !! i = Some sk /\ now < u64 (sk_timer_tsc sk + timeout).
Definition ran (t : timer_id) (timeout now : Z) (w : world) : unit -> world -> Prop := fun _ w' =>
  exists q', inv w' q' /\ static w' = static w /\ timer_done t timeout now w' q'.

Lemma visits_pending t v w q i : i ∈ D -> (visits t v w q i <= pending t v w q)%nat.
Proof.
  intros Hd%elem_of_elements. unfold pending. revert Hd. generalize (elements D). intros l.
  induction l as [|x l IH]; intros He; [by apply elem_of_nil in He|].
  simpl. apply elem_of_cons in He as [->|He]; [lia|]. specialize (IH He). lia.
Qed.

(** One visit: the socket is taken off the queue and handled. *)
Lemma wp_timer_visit t v Z0 handler i w q sk :
  (forall w w', Z0 w -> static w' = static w -> Z0 w') -> (forall sk, (0 < v sk)%nat) ->
  handles t v Z0 handler -> inv w q -> Z0 w -> i ∈ D -> i ∈ q t -> w_sockets w !! i = Some sk ->
  wp (socket_del_timer i;; handler i) (fun _ w' => exists q', inv w' q' /\ static w' = static w
    /\ (pending t v w' q' < pending t v w q)%nat) w.
Proof.
  intros HZ Hpos Hh Hi Hz Hd Hit Hs. apply wp_bind. unfold socket_del_timer.
  eapply wp_mono; [by eapply wp_del_timer|].
  intros ? w1 (q1 & sk1 & K1 & S1 & -> & ->). pose proof (keeps_inv D _ _ _ _ _ K1) as I1.
  assert (sk_st sk ≠ SK_CLOSED) as Ho.
  { eapply openb_some; [exact Hs|]. by eapply (so_queued _ _ _ _ (inv_socks _ _ _ _ _ Hi)). }
  eapply wp_mono.
  { apply (Hh i w1 (q_del i q) sk); try done; [eapply HZ; [exact Hz|apply K1]|].
    intros t' Ht. unfold q_del in Ht. by apply filter_ne_elem in Ht as [? _]. }
  intros ? w2 (q2 & sk2 & K2 & S2 & Hv). pose proof (keeps_trans D _ _ _ _ _ _ _ K1 K2) as K.
  exists q2. split; [by eapply keeps_inv|]. split; [apply K|].
  by apply (pending_decreases t v i w q sk w2 q2 sk2).
Qed.

Lemma wp_timer_loop fuel t v Z0 timeout now handler w q :
  (forall w w', Z0 w -> static w' = static w -> Z0 w') -> (forall sk, (0 < v sk)%nat) ->
  handles t v Z0 handler -> inv w q -> Z0 w -> (pending t v w q <= fuel)%nat ->
  wp (timer_loop fuel t timeout now handler) (ran t timeout now w) w.
Proof.
  intros HZ Hpos Hh. revert w q. induction fuel as [|fuel IH]; intros w q Hi Hz Hf.
  all: simpl; apply wp_bind; eapply wp_queue_first; [exact Hi|].
  all: destruct (q t) as [|i l] eqn:Eq; simpl;
    [apply wp_ret; exists q; split; [done|]; split; [done|]; intros i; by rewrite Eq|].
  all: assert (i ∈ q t) as Hit by (rewrite Eq; list_in).
  all: pose proof (repr_dom _ _ _ (inv_repr _ _ _ _ _ Hi) _ _ Hit) as Hd.
  all: destruct (inv_sock _ _ _ _ Hi Hd) as (sk & Hs & _).
  all: apply wp_bind; eapply wp_sk_get; [exact Hs|]; apply wp_if; intros Hexp; bool_facts.
  2, 4: apply wp_ret; exists q; split; [done|]; split; [done|]; intros j; rewrite Eq; intros [= <-]; eauto.
  - exfalso. pose proof (visits_pending t v w q i Hd) as H. unfold visits in H at 1.
    rewrite bool_decide_true, Hs in H by done. specialize (Hpos sk). lia.
  - pose proof (wp_timer_visit t v Z0 handler i w q sk HZ Hpos Hh Hi Hz Hd Hit Hs) as Hv.
    apply wp_ok in Hv as ([] & w2 & E & q2 & I2 & T2 & Hlt).
    unfold wp. revert E. unfold mbind, ST_bind. destruct (socket_del_timer i w) as [[[] w1]|]; [|done].
    intros ->. apply (wp_mono _ (ran t timeout now w2)).
    + apply (IH w2 q2); [done|by eapply HZ|lia].
    + intros ? w3 (q3 & I3 & T3 & H3). exists q3. split; [done|]. split; [congruence|done].
Qed.

Lemma wp_timer_run t v Z0 timeout handler w q :
  (forall w w', Z0 w -> static w' = static w -> Z0 w') -> (forall sk, (0 < v sk <= 4)%nat) ->
  handles t v Z0 handler -> inv w q -> Z0 w ->
  wp (socket_timer_run t timeout handler) (ran t timeout (tsc (ws_time (w_ws w))) w) w.
Proof.
  intros HZ Hv Hh Hi Hz. unfold socket_timer_run. wp_reads.
  eapply (wp_timer_loop _ t v Z0); try done; [apply Hv|]. apply pending_fuel; [done|apply Hv].
Qed.

Lemma ran_stepped t timeout now w (m : M unit) : wp m (ran t timeout now w) w -> wp m (stepped w) w.
Proof. intros Hm. eapply wp_mono; [exact Hm|]. intros ? w' (q' & ? & ? & _). by exists q'. Qed.

(** ** The three handlers *)

Let le33 : 3 <= 3 := proj1 bounds_33.
Let le34 : 3 <= 4 := proj2 bounds_33.

Definition retransmissions_left (sk : socket) : nat :=
  Nat.max 1 (Nat.min 4 (Z.to_nat (RETRANSMIT_NUM_MAX - sk_retrans sk))).

Lemma retransmit_handles : handles T_retransmit retransmissions_left (fun _ => True) tcp_do_retransmit.
Proof.
  intros i w q sk Hi _ Hd Hs Ho Hno. destruct (inv_retr D _ _ _ _ Hi Hd Hs) as (Hr & Hr3 & _).
  specialize (Hr3 Ho). eapply post_mono; [by eapply wp_do_retransmit|].
  intros ? sk' q' [_ [(_ & Hq)|[(_ & _ & ->)|(_ & Hre & Hlt)]]] Hin;
    [by apply Hq in Hin|by apply Hno in Hin|].
  unfold retransmissions_left, RETRANSMIT_NUM_MAX in *. lia.
Qed.

Lemma timeout_handles : handles T_timeout (fun _ => 1%nat) (fun _ => True) socket_timeout_handler.
Proof.
  intros i w q sk Hi _ Hd Hs Ho Hno. unfold socket_timeout_handler.
  eapply post_counts; [done|done|by apply counts_inc|]. intros w1 I1 S1 _.
  eapply post_mono; [by eapply wp_close|]. intros ? sk' q' [_ Hq] Hin. by apply Hq in Hin.
Qed.

(** Without flooding, the keep-alive timer is not armed again by its handler. *)
Lemma wp_do_keepalive i w q sk : inv w q -> i ∈ D -> w_sockets w !! i = Some sk ->
  sk_st sk ≠ SK_CLOSED ->
  wp (tcp_do_keepalive i) (post i w q (fun _ _ q' =>
    ws_flood (w_ws w) = false -> i ∈ q' T_keepalive -> i ∈ q T_keepalive)) w.
Proof.
  intros Hi Hd Hs Ho. unfold tcp_do_keepalive. eapply wp_sk_get_post; [exact Hs|].
  apply wp_if; intros _; wp_reads.
  - apply wp_if; intros Hfl.
    + rewrite Hfl. eapply post_bind;
        [eapply (wp_in_duration D _ _ _ _ (fun _ sk' q' => sk' = sk /\ q' = q)); done|].
      intros dur w0 q0 sk0 I0 S0 _ [-> ->]. apply wp_if; intros _.
      * eapply post_bind; [by eapply calm_reply|]. intros ? w1 q1 sk1 I1 S1 _ C1.
        apply calm_open in C1; [|done].
        eapply post_bind; [by eapply wp_sk_mod_core|]. intros ? w2 q2 sk2 I2 S2 _ [-> ->]. wp_reads.
        eapply post_mono; [by apply wp_start_keepalive|]. done.
      * eapply post_mono; [by eapply wp_close|]. done.
    + apply wp_when; intros _; [|by eapply post_skip].
      unfold sk_set_state. eapply post_bind; [by eapply wp_sk_mod_open|]. intros ? w1 q1 sk1 I1 S1 _ [-> ->].
      eapply post_mono; [by eapply calm_reply|]. intros ? sk' q' [_ K] _. exact K.
  - apply wp_when; intros _; [|by eapply post_skip].
    eapply post_mono; [by eapply wp_send_keepalive|]. intros ? sk' q' [_ K] _. exact K.
Qed.

Definition no_flood (w : world) : Prop := ws_flood (w_ws w) = false.

Lemma static_no_flood w w' : no_flood w -> static w' = static w -> no_flood w'.
Proof. unfold no_flood. by intros <- [= _ _ _ -> _ _ _]. Qed.

Lemma keepalive_handles : handles T_keepalive (fun _ => 1%nat) no_flood tcp_do_keepalive.
Proof.
  intros i w q sk Hi Hz Hd Hs Ho Hno. eapply post_mono; [by eapply wp_do_keepalive|].
  intros ? sk' q' H Hin. exfalso. by apply (Hno T_keepalive), H.
Qed.

(** ** Timer processes and launches *)

Lemma wp_client_timers w q : inv w q -> no_flood w -> wp tcp_client_socket_timer_process (stepped w) w.
Proof.
  intros Hi Hz. unfold tcp_client_socket_timer_process. wp_reads. unfold id.
  apply wp_bind. eapply wp_mono.
  { eapply ran_stepped, (wp_timer_run T_retransmit retransmissions_left (fun _ => True)); try done;
      [unfold retransmissions_left; lia|apply retransmit_handles]. }
  intros ? w1 (q1 & I1 & T1). apply wp_when; intros _; [|by exists q1].
  eapply wp_mono.
  { eapply ran_stepped, (wp_timer_run T_keepalive (fun _ => 1%nat) no_flood); try done;
      [apply static_no_flood|lia|apply keepalive_handles|by eapply static_no_flood]. }
  intros ? w2 (q2 & I2 & T2). exists q2. split; [done|congruence].
Qed.

Lemma wp_server_timers w q : inv w q -> wp tcp_server_socket_timer_process (stepped w) w.
Proof.
  intros Hi. unfold tcp_server_socket_timer_process. wp_reads.
  eapply ran_stepped, (wp_timer_run T_retransmit retransmissions_left (fun _ => True)); try done;
    [unfold retransmissions_left; lia|apply retransmit_handles].
Qed.

Lemma wp_timeout_timers w q : inv w q -> wp socket_timeout_timer_expire (stepped w) w.
Proof.
  intros Hi. unfold socket_timeout_timer_expire. wp_reads.
  eapply ran_stepped, (wp_timer_run T_timeout (fun _ => 1%nat) (fun _ => True)); try done; [lia|apply timeout_handles].
Qed.

Lemma wp_launch_one w q : inv w q -> wp tcp_client_launch_one (stepped w) w.
Proof.
  intros Hi. unfold tcp_client_launch_one. wp_reads. apply wp_bind.
  eapply wp_mono; [by eapply (wp_client_open (B := 3) D)|]. intros o w1 Ho. destruct o as [i|].
  2: { destruct Ho as [I1 T1]. apply wp_ret. by exists q. }
  destruct Ho as (Hd & _ & q1 & sk1 & (I1 & T1 & _) & S1 & Hst & _).
  assert (forall (a : unit) w2, stepped w1 a w2 -> stepped w a w2) as Hstep.
  { intros a w2 (q2 & I2 & T2). exists q2. split; [done|congruence]. }
  eapply wp_mono; [|intros a w2; apply Hstep]. eapply wide_stepped with (i := i) (R := anyw).
  eapply (wide_bind D i w1 _ _ (fun _ sk' => sk_st sk' ≠ SK_CLOSED)).
  { eapply post_wide; [by eapply calm_reply|]. intros ? sk' q' C. apply calm_st in C.
    by rewrite C, Hst. }
  intros ? w2 q2 sk2 I2 S2 O2. eapply wide_any with (q := q2) (R := any). wp_reads.
  apply wp_when; intros _; [|by eapply post_skip].
  eapply wp_sk_get_post; [exact S2|]. apply wp_if; intros _; [|by eapply any_weaken, wp_close].
  eapply any_bind; [by eapply wp_sk_mod_core|]. intros ? w3 q3 sk3 I3 S3 [-> ->]. wp_reads.
  eapply any_weaken. by apply wp_start_keepalive.
Qed.

Lemma wp_repeat n m w q : inv w q ->
  (forall w q, inv w q -> wp m (stepped w) w) -> wp (repeat_m n m) (stepped w) w.
Proof.
  intros Hi Hm. revert w q Hi. induction n as [|n IH]; intros w q Hi; simpl.
  - apply wp_ret. by eapply stepped_refl.
  - eapply stepped_bind; [by eapply Hm|]. intros ? w1 q1 I1. by eapply IH.
Qed.

Lemma wp_launch_num w q : inv w q -> wp work_space_client_launch_num (stepped w) w.
Proof.
  intros Hi. assert (forall f, inv (w <| w_ws ::= fun ws => ws <| ws_client_launch ::= f |> |>) q) as Hcl.
  { intros f. eapply inv_env_step; [exact Hi|]. destruct (inv_env _ _ _ _ _ Hi). by split; [split|..]. }
  unfold work_space_client_launch_num, cl_mod. wp_reads. cbv zeta. unfold id.
  rewrite (env_rss _ _ _ (inv_env _ _ _ _ _ Hi)). simpl andb. unfold st_when.
  apply wp_if; intros _; [|apply wp_ret; by eapply stepped_refl].
  apply wp_bind, wp_ws_mod. apply wp_if; intros _; wp_reads.
  - apply wp_if; intros _; [apply wp_ret; by exists q|].
    apply wp_if; intros _; wp_reads; apply wp_ret; by exists q.
  - apply wp_ret. by exists q.
Qed.

Lemma wp_client_launch w q : inv w q -> wp tcp_client_launch (stepped w) w.
Proof.
  intros Hi. unfold tcp_client_launch. eapply stepped_bind; [by eapply wp_launch_num|].
  intros num w1 q1 I1. eapply stepped_bind; [eapply wp_repeat; [exact I1|intros; by eapply wp_launch_one]|].
  intros ? w2 q2 I2. apply wp_ret. by eapply stepped_refl.
Qed.
End Timers.
