(* ===== verification/TcpSafety.v ===== *)
(** * TcpSafety: every interleaving of a worker's TCP steps is safe

    The steps of a worker as a transition relation; reachable workers satisfy
    the invariant of SocketInv and never fault.  The file ends with the
    functional contracts of the single operations. *)

From S2P Require Import Prelude SocketNode IpRange Tick Config Mbuf NetStats World.
From S2P Require Import WorkSpace Socket SocketTimer HttpParse Kni TcpPacket Tcp Env.
From S2P Require Import SocketInv TcpInv TcpTimer.

(** ** Steps *)

Inductive tcp_event :=
  | Server_rx (m : mbuf) | Client_rx (m : mbuf) | Tcp_drop (m : mbuf)
  | Server_timers | Client_timers | Timeouts | Launch | Ack_flush | Tick (now : Z).

Section Steps.
Context {Dk : Dpdk}.

(** The code run for an event. *)
Definition tcp_run (e : tcp_event) : M unit :=
  match e with
  | Server_rx m => tcp_server_process m
  | Client_rx m => tcp_client_process m
  | Tcp_drop m => tcp_drop m
  | Server_timers => tcp_server_socket_timer_process
  | Client_timers => tcp_client_socket_timer_process
  | Timeouts => socket_timeout_timer_expire
  | Launch => tcp_client_launch;; mret tt
  | Ack_flush => tcp_ack_delay_flush
  | Tick now => ws_mod (fun ws => ws <| ws_time ::= fun t => tick_time_update t now |>)
  end.

(** What the model asks of an event: received segments are bytes in a buffer
    with room for the headers, and the keep-alive timer does not flood. *)
Definition event_ok (flood : bool) (e : tcp_event) : Prop :=
  match e with
  | Server_rx m | Client_rx m => rx_ok m
  | Tcp_drop m => pkt_ok m
  | Client_timers => flood = false
  | _ => True
  end.

(** [reach w w']: [w'] follows from [w] by acceptable events. *)
Inductive reach (w : world) : world -> Prop :=
  | reach_refl : reach w w
  | reach_step e w1 w2 : reach w w1 -> event_ok (ws_flood (w_ws w1)) e ->
      tcp_run e w1 = Ok (tt, w2) -> reach w w2.
End Steps.

Section Safety.
Context {Dk : Dpdk} {room : Z} {L : DpdkLaws Dk room} (D : gset N) (Hroom : HDR_ROOM <= room).
Abbreviation inv := (inv 3 D room).

Lemma stepped_flood (w : world) {A} (a : A) w' : TcpInv.stepped (room := room) D w a w' ->
  exists q', inv w' q' /\ ws_flood (w_ws w') = ws_flood (w_ws w).
Proof. intros (q' & I' & [= _ _ _ ? _ _ _]). by exists q'. Qed.

Lemma tcp_run_safe e w q : inv w q -> event_ok (ws_flood (w_ws w)) e ->
  wp (tcp_run e) (fun _ w' => exists q', inv w' q') w.
Proof.
  intros Hi He.
  assert (forall m : M unit, wp m (TcpInv.stepped (room := room) D w) w ->
    wp m (fun _ w' => exists q', inv w' q') w) as Hs.
  { intros m Hm. eapply wp_mono; [exact Hm|]. intros ? w' (q' & I' & _). by exists q'. }
  destruct e; simpl in *.
  - apply Hs. by eapply wp_server_process.
  - apply Hs. by eapply wp_client_process.
  - apply Hs. by eapply wp_drop.
  - apply Hs. by eapply wp_server_timers.
  - apply Hs. by eapply wp_client_timers.
  - apply Hs. by eapply wp_timeout_timers.
  - apply wp_bind. eapply wp_mono; [by eapply wp_client_launch|].
    intros ? w' (q' & I' & _). apply wp_ret. by exists q'.
  - eapply wp_mono; [by eapply wp_ack_delay_flush|]. intros ? w' [(q' & I' & _) _]. by exists q'.
  - apply wp_ws_mod. exists q. destruct Hi as [H1 H2 H3 H4]. by split; [..|destruct H4].
Qed.

Lemma reach_inv w w' q : inv w q -> reach w w' -> exists q', inv w' q'.
Proof.
  intros Hi Hr. induction Hr as [|e w1 w2 Hr [q1 I1] He Hrun]; [by exists q|].
  exact (wp_run _ _ _ _ _ (tcp_run_safe e w1 q1 I1 He) Hrun).
Qed.
End Safety.


(** C12: in every reachable worker the gauge [socket_current] is the number of
    open sockets, a socket is on at most one of the three timer queues, and
    only open sockets are on one; an open socket has been retransmitted fewer
    than [RETRANSMIT_NUM_MAX] times. *)
Theorem tcp_reachable_consistent {Dk : Dpdk} {room} {L : DpdkLaws Dk room} D w q w' :
  HDR_ROOM <= room -> inv 3 D room w q -> reach w w' ->
  exists q', repr (w_links w') D q'
    /\ w_stats w' NS_socket_current = u64 (Z.of_nat (size (open_set D (w_sockets w'))))
    /\ (forall t t' i, i ∈ q' t -> i ∈ q' t' -> t = t')
    /\ (forall t i, i ∈ q' t -> openb (w_sockets w') i = true)
    /\ (forall i, i ∈ D -> exists sk, w_sockets w' !! i = Some sk
          /\ (sk_st sk ≠ SK_CLOSED -> 0 <= sk_retrans sk < RETRANSMIT_NUM_MAX)).
Proof.
  intros Hroom Hi Hr. destruct (reach_inv D Hroom _ _ _ Hi Hr) as [q' I']. exists q'.
  destruct I' as [H1 [H2 H3] H4 H5]. split_and!; [done|done| |done|].
  - apply (repr_disj _ _ _ H1).
  - intros i Hd. destruct (H2 i Hd) as (sk & Hs & Hr1 & Hr2 & _). exists sk. split; [done|].
    intros Ho. specialize (Hr2 Ho). unfold RETRANSMIT_NUM_MAX. lia.
Qed.

(** ** The example worker *)

#[local] Existing Instance Mbuf.Demo.dpdk.
#[local] Existing Instance Mbuf.Demo.laws.

Lemma demo_room : HDR_ROOM <= 256.
Proof. vm_compute. discriminate. Qed.

Definition demo_D : gset N := {[0%N; 1%N]}.

Lemma demo_D_cases i : i ∈ demo_D -> i = 0%N \/ i = 1%N.
Proof. unfold demo_D. rewrite elem_of_union, !elem_of_singleton. done. Qed.

Lemma demo_lookup cip sip cp sp i :
  socket_common_lookup World.Demo.demo_table cip sip cp sp = Some i -> i ∈ demo_D.
Proof.
  unfold socket_common_lookup.
  destruct (st_ht World.Demo.demo_table !! (ntohl cip &&& 65535)) as [t|] eqn:Et; [|done].
  assert (t = 0%N) as ->.
  { change (st_ht World.Demo.demo_table) with ({[1 := 0%N]} : gmap Z N) in Et.
    by apply lookup_singleton_Some in Et as [_ <-]. }
  destruct (_ && _) eqn:Ec; [|done]. bool_facts. intros [= <-].
  unfold socket_port_table_get, socket_port_index. cbn in *.
  assert (ntohs sp = 80) as -> by lia. assert (ntohl sip = 167772162) as -> by lia.
  assert (ntohs cp = 1 \/ ntohs cp = 2) as [-> | ->] by lia; unfold demo_D; set_solver.
Qed.

Lemma demo_inv : inv 3 demo_D 256 World.Demo.demo_world q_none.
Proof.
  split.
  - destruct (socket_timer_init_repr
      (<[Sock 0 := SocketNode (Sock 0) (Sock 0)]> (<[Sock 1 := SocketNode (Sock 1) (Sock 1)]>
       (<[Head T_retransmit := SocketNode (Head T_retransmit) (Head T_retransmit)]>
       (<[Head T_keepalive := SocketNode (Head T_keepalive) (Head T_keepalive)]>
       (<[Head T_timeout := SocketNode (Head T_timeout) (Head T_timeout)]> ∅))))) demo_D) as (m & E & Hr).
    + intros []; eexists; reflexivity.
    + intros i [-> | ->]%demo_D_cases; reflexivity.
    + unfold World.Demo.demo_world, World.Demo.demo_links. rsimpl. cbn [w_links]. by rewrite E.
  - split; [|by intros t i ?%elem_of_nil].
    intros i [-> | ->]%demo_D_cases; eexists; (split; [reflexivity|]); unfold retr_ok; cbn; split_and!; done || lia.
  - reflexivity.
  - split.
    + exists []. split; [|done]. split; try done. 
    + done.
    + done.
    + intros cip sip cp sp i. apply demo_lookup.
    + done.
    + intros n Hn. change (0 <= n < 2) in Hn. assert (n = 0 \/ n = 1) as [-> | ->] by lia; set_solver.
    + apply List.Forall_nil.
    + intros []; vm_compute; split_and!; done.
    + done.
    + split; [by split; vm_compute|done|intros []; right; vm_compute; lia|apply List.Forall_nil|done].
Qed.

(** The worker after an event that runs. *)
Definition after (e : tcp_event) (w : world) : world :=
  match tcp_run e w with Ok (_, w') => w' | Err _ => w end.

Lemma reach_after w w' q e : inv 3 demo_D 256 w q -> reach w w' -> event_ok (ws_flood (w_ws w')) e ->
  reach w (after e w').
Proof.
  intros Hi Hr He. destruct (reach_inv demo_D demo_room _ _ _ Hi Hr) as [q' I'].
  destruct (wp_ok _ _ _ (tcp_run_safe demo_D demo_room e w' q' I' He)) as ([] & w'' & E & _).
  eapply reach_step; [exact Hr|exact He|]. unfold after. by rewrite E.
Qed.

Lemma after_flood e w q : inv 3 demo_D 256 w q -> e = Launch \/ e = Ack_flush -> ws_flood (w_ws (after e w)) = ws_flood (w_ws w).
Proof.
  intros Hi [-> | ->]; unfold after; simpl.
  - destruct (wp_ok _ _ _ (wp_client_launch demo_D demo_room w q Hi)) as (n & w' & E & Hw).
    unfold mbind, ST_bind. rewrite E. simpl. by destruct (stepped_flood _ _ _ _ Hw) as (? & _ & ->).
  - destruct (wp_ok _ _ _ (wp_ack_delay_flush demo_D demo_room w q Hi))
      as (n & w' & E & (q' & _ & T & _) & _).
    rewrite E. by injection T as _ _ _ -> _ _ _.
Qed.


Lemma tcp_reachable_consistent_witness :
  let w' := after Launch World.Demo.demo_world in exists q', repr (w_links w') demo_D q'
    /\ w_stats w' NS_socket_current = u64 (Z.of_nat (size (open_set demo_D (w_sockets w'))))
    /\ (forall t t' i, i ∈ q' t -> i ∈ q' t' -> t = t')
    /\ (forall t i, i ∈ q' t -> openb (w_sockets w') i = true)
    /\ (forall i, i ∈ demo_D -> exists sk, w_sockets w' !! i = Some sk
          /\ (sk_st sk ≠ SK_CLOSED -> 0 <= sk_retrans sk < RETRANSMIT_NUM_MAX)).
Proof.
  apply (tcp_reachable_consistent demo_D World.Demo.demo_world q_none).
  - vm_compute. discriminate.
  - apply demo_inv.
  - apply (reach_after _ _ q_none); [apply demo_inv|apply reach_refl|exact I].
Defined.

(** ** Example connections and segments *)

(** The example worker with socket 0 replaced by an open socket. *)
Definition demo_conn (sk : socket) : world :=
  World.Demo.demo_world <| w_sockets ::= insert 0%N sk |> <| w_stats ::= ns_add NS_socket_current 1 |>.

Lemma demo_conn_inv sk : sk_st sk ≠ SK_CLOSED -> retr_ok 3 sk -> inv 3 demo_D 256 (demo_conn sk) q_none.
Proof.
  intros Ho Hr. assert (3 <= 3 /\ 3 <= 4) as [H33 H34] by lia.
  eapply (keeps_inv demo_D 0%N World.Demo.demo_world q_none).
  eapply (open_keeps demo_D demo_room H33 H34 0%N World.Demo.demo_world q_none (World.Demo.demo_socket 1) _ sk);
    try done; [apply demo_inv|by destruct (inv_env _ _ _ _ _ demo_inv)].
Qed.

(** A segment without data: sequence number, acknowledgement and flags. *)
Definition demo_seg (seq ack flags : Z) : mbuf :=
  Mbuf 9 (replicate 128 0
    ++ [2; 0; 0; 0; 0; 1; 2; 0; 0; 0; 0; 2; 8; 0]
    ++ [69; 0; 0; 40; 0; 0; 64; 0; 64; 6; 0; 0; 10; 0; 0; 1; 10; 0; 0; 2]
    ++ [0; 1; 0; 80] ++ [0; 0; 0; seq] ++ [0; 0; 0; ack] ++ [80; flags; 255; 255; 0; 0; 0; 0]
    ++ replicate 200 0) 128 54 0 0 0 0 None.

Lemma bytes_ok l : forallb (fun x => (0 <=? x) && (x <? 256)) l = true -> Forall (in_u 8) l.
Proof.
  intros H. apply list.Forall_forall. intros x Hx%list_elem_of_In.
  pose proof (proj1 (forallb_forall _ _) H x Hx) as Hb. cbv beta in Hb. bool_facts. unfold in_u. change (2 ^ 8) with 256. lia.
Qed.

