(* ===== verification/TcpProps.v ===== *)
(** * TcpProps: contracts of the TCP operations

    What the single operations of the state machines do: which segments are
    accepted, the two ends of the handshake, the closing handshake, the limit
    of retransmissions and the completeness of a timer run. *)

From S2P Require Import Prelude SocketNode IpRange Tick Config Mbuf NetStats World.
From S2P Require Import WorkSpace Socket SocketTimer HttpParse Kni TcpPacket Tcp Env.
From S2P Require Import SocketInv TcpInv TcpTimer TcpSafety.

Section Contracts.
Context {Dk : Dpdk} {room : Z} {L : DpdkLaws Dk room} (D : gset N) (Hroom : HDR_ROOM <= room).
Abbreviation inv := (inv 3 D room).
Abbreviation post := (post (room := room) (B := 3) D).

Let le33 : 3 <= 3 := proj1 bounds_33.
Let le34 : 3 <= 4 := proj2 bounds_33.

(** *** Sequence numbers *)

(** The decision of [tcp_check_sequence] without a send window: everything
    sent is acknowledged and the data is the next expected, or both ends
    close at the same time. *)
Definition exact (sk : socket) (ack seq : Z) : bool := (ack =? sk_snd_nxt sk) && (seq =? sk_rcv_nxt sk).
Definition seg_len (fin : bool) (len : Z) : Z := if fin then u16 (len + 1) else len.
Definition both_close (sk : socket) (ack seq : Z) (fin : bool) (len : Z) : bool :=
  sk_is (sk_st sk) SK_FIN_WAIT_1 && fin && (seg_len fin len =? 1) && (ack =? sk_snd_una sk)
  && (seq =? sk_rcv_nxt sk).
Definition accepts (sk : socket) (ack seq : Z) (fin : bool) (len : Z) : bool :=
  if exact sk ack seq then negb (sk_is (sk_st sk) SK_CLOSED) else both_close sk ack seq fin len.

(** The socket after an accepted segment. *)
Definition after_accept (sk : socket) (ack seq : Z) (fin : bool) (len : Z) (sk' : socket) : Prop :=
  if exact sk ack seq then accepted sk ack seq (seg_len fin len) sk'
  else sk_st sk' = SK_CLOSING /\ sk_rcv_nxt sk' = u32 (seq + 1).

Lemma wp_check_sequence_exact i m th len w q sk ack seq flags :
  inv w q -> i ∈ D -> w_sockets w !! i = Some sk -> ws_send_window (w_ws w) = 0 ->
  ld32 (m_buf m) (th + th_ack) = Some (htonl ack) -> ld32 (m_buf m) (th + th_seq) = Some (htonl seq) ->
  ld8 (m_buf m) (th + th_flags) = Some flags -> in_u 32 ack -> in_u 32 seq ->
  let fin := has flags TH_FIN in
  wp (tcp_check_sequence i (m_buf m) th len) (post i w q (fun ok sk' _ =>
    ok = accepts sk ack seq fin len /\ (ok = true -> after_accept sk ack seq fin len sk'))) w.
Proof.
  intros Hi Hd Hs Hw Ha Hq Hf Ra Rq fin. unfold tcp_check_sequence.
  apply wp_bind. eapply wp_m_ld_eq; [exact Ha|]. apply wp_bind. eapply wp_m_ld_eq; [exact Hq|].
  apply wp_bind. eapply wp_m_ld_eq; [exact Hf|]. cbv zeta. rewrite !bswap32_involutive by done.
  fold fin. change (if fin then u16 (len + 1) else len) with (seg_len fin len).
  eapply wp_sk_get_post; [exact Hs|]. unfold accepts, after_accept, exact.
  destruct ((ack =? sk_snd_nxt sk) && (seq =? sk_rcv_nxt sk)) eqn:Eex.
  { eapply post_mono; [by apply wp_accept_sequence|]. unfold sk_is. intros [] sk' q'.
    - intros [Ho H]. by rewrite bool_decide_false.
    - intros Hc. by rewrite bool_decide_true. }
  fold (both_close sk ack seq fin len). destruct (both_close sk ack seq fin len) eqn:Ebc.
  { unfold both_close, sk_is in Ebc. bool_facts.
    eapply post_bind; [eapply wp_sk_mod_open; try done; congruence|].
    intros ? w1 q1 sk1 I1 S1 _ [-> ->]. by eapply post_ret. }
  apply wp_if; intros Ho; [by eapply post_ret|]. unfold sk_is in Ho. bool_facts.
  apply wp_if; intros _.
  - wp_reads. rewrite Hw. cbn [negb Z.eqb]. wp_reads.
    eapply (post_bind D i w q _ _ any).
    { apply wp_when; intros _; [eapply any_weaken; by eapply wp_do_retransmit|by eapply post_skip]. }
    intros ? w1 q1 sk1 I1 S1 _ _. by eapply post_ret.
  - apply wp_if; intros _; [|by eapply post_ret].
    eapply (post_bind D i w q _ _ any).
    { apply wp_when; intros _; [|by eapply post_skip].
      eapply post_bind; [by eapply wp_reply|]. intros ? w1 q1 sk1 I1 S1 _ _.
      eapply any_weaken, wp_counts; [done|done|by apply counts_inc]. }
    intros ? w1 q1 sk1 I1 S1 _ _. by eapply post_ret.
Qed.
End Contracts.

(** Reading a triple about one socket. *)
Lemma post_run {Dk : Dpdk} {room} {L : DpdkLaws Dk room} D {A} i w q (m : M A) R :
  wp m (post (room := room) (B := 3) D i w q R) w ->
  exists a w' q' sk', m w = Ok (a, w') /\ inv 3 D room w' q' /\ w_sockets w' !! i = Some sk' /\ R a sk' q'
    /\ (forall j, j ≠ i -> w_sockets w' !! j = w_sockets w !! j).
Proof.
  intros Hm. destruct (wp_ok _ _ _ Hm) as (a & w' & E & q' & sk' & (I & _ & Hj) & S & HR).
  exists a, w', q', sk'. split_and!; try done. intros j Hne. by apply Hj.
Qed.

(** C13: without a send window, a segment is accepted exactly if it
    acknowledges everything sent and carries the next expected byte on an open
    socket, or closes a socket that is closing itself; an accepted segment
    moves [snd_una] to the acknowledgement and [rcv_nxt] past its data and its
    FIN, modulo 2^32, and no other socket changes. *)
Theorem tcp_check_sequence_decides {Dk : Dpdk} {room} {L : DpdkLaws Dk room} D i m th len w q sk ack seq flags :
  HDR_ROOM <= room -> inv 3 D room w q -> i ∈ D -> w_sockets w !! i = Some sk ->
  ws_send_window (w_ws w) = 0 ->
  ld32 (m_buf m) (th + th_ack) = Some (htonl ack) -> ld32 (m_buf m) (th + th_seq) = Some (htonl seq) ->
  ld8 (m_buf m) (th + th_flags) = Some flags -> in_u 32 ack -> in_u 32 seq ->
  let fin := has flags TH_FIN in
  exists w' sk', tcp_check_sequence i (m_buf m) th len w = Ok (accepts sk ack seq fin len, w')
    /\ w_sockets w' !! i = Some sk'
    /\ (accepts sk ack seq fin len = true -> after_accept sk ack seq fin len sk')
    /\ (forall j, j ≠ i -> w_sockets w' !! j = w_sockets w !! j).
Proof.
  intros Hr Hi Hd Hs Hw Ha Hq Hf Ra Rq fin.
  destruct (post_run D i w q _ _ (wp_check_sequence_exact D Hr i m th len w q sk ack seq flags
    Hi Hd Hs Hw Ha Hq Hf Ra Rq)) as (ok & w' & q' & sk' & E & _ & S & [-> H] & Hj).
  by exists w', sk'.
Qed.

(** ** The closing handshake *)

(** [tcp_process_fin] follows the transitions of the closing handshake: a
    FIN in [ESTABLISHED] leads to [LAST_ACK] and is answered by FIN, our own
    FIN to [FIN_WAIT_1], the two acknowledgements and FINs after it through
    [FIN_WAIT_2] or [CLOSING] to [CLOSED], in which state the socket is on no
    timer queue; the invariant holds afterwards. *)
Theorem tcp_process_fin_transitions {Dk : Dpdk} {room} {L : DpdkLaws Dk room} D i rx tx w q sk :
  HDR_ROOM <= room -> inv 3 D room w q -> i ∈ D -> w_sockets w !! i = Some sk ->
  let '(st, flags) := tcp_fin_transition (sk_st sk) (has rx TH_FIN) (has tx TH_FIN) in
  exists w' q' sk', tcp_process_fin i rx tx w = Ok (tx ||| flags, w') /\ inv 3 D room w' q'
    /\ w_sockets w' !! i = Some sk' /\ sk_st sk' = st
    /\ (st = SK_CLOSED -> forall t, i ∉ q' t).
Proof.
  intros Hr Hi Hd Hs.
  destruct (post_run D i w q _ _ (wp_process_fin D Hr i rx tx w q sk Hi Hd Hs))
    as (fl & w' & q' & sk' & E & I' & S & H & _).
  destruct (tcp_fin_transition _ _ _) as [st f]. destruct H as (-> & Hst & _).
  exists w', q', sk'. split_and!; try done. intros Hc. rewrite Hc in Hst.
  intros t Ht. pose proof (so_queued _ _ _ _ (inv_socks _ _ _ _ _ I') _ _ Ht) as Ho.
  by rewrite (openb_some _ _ _ S) in Ho.
Qed.

(** The closing handshake ends: from [ESTABLISHED], a FIN received and then
    an acknowledgement, or a FIN sent and then an acknowledgement and a FIN in
    either order or together, close the connection; no transition reopens a
    closed socket or goes back to [ESTABLISHED]. *)
Theorem tcp_fin_closes :
  (let s1 := fst (tcp_fin_transition SK_ESTABLISHED true false) in
   fst (tcp_fin_transition s1 false false) = SK_CLOSED)
  /\ (let s1 := fst (tcp_fin_transition SK_ESTABLISHED false true) in
      let s2 := fst (tcp_fin_transition s1 false false) in
      fst (tcp_fin_transition s2 true false) = SK_CLOSED
      /\ fst (tcp_fin_transition s1 true false) = SK_CLOSED)
  /\ (forall st rx tx, fst (tcp_fin_transition st rx tx) = SK_ESTABLISHED -> st = SK_ESTABLISHED)
  /\ (forall rx tx, fst (tcp_fin_transition SK_CLOSED rx tx) = SK_CLOSED)
  /\ (forall st rx tx, sk_gt st SK_ESTABLISHED = true -> st ≠ SK_TIME_WAIT ->
       fst (tcp_fin_transition st rx tx) = st \/ fst (tcp_fin_transition st rx tx) = SK_CLOSED
       \/ sk_gt (fst (tcp_fin_transition st rx tx)) SK_ESTABLISHED = true).
Proof. split_and!; try done; intros [] [] []; simpl; auto; done. Qed.

(** ** Retransmission and timers *)


(** C15: a run of the retransmission timer ends, and then the socket at the
    head of the queue, which was armed longest ago, has not expired: the run
    has handled every expired socket in front of it. *)
Theorem retransmit_timer_complete {Dk : Dpdk} {room} {L : DpdkLaws Dk room} D timeout w q :
  HDR_ROOM <= room -> inv 3 D room w q ->
  exists w' q', socket_timer_run T_retransmit timeout tcp_do_retransmit w = Ok (tt, w')
    /\ inv 3 D room w' q'
    /\ timer_done T_retransmit timeout (tsc (ws_time (w_ws w))) w' q'.
Proof.
  intros Hr Hi.
  assert (wp (socket_timer_run T_retransmit timeout tcp_do_retransmit)
    (ran (room := room) D T_retransmit timeout (tsc (ws_time (w_ws w))) w) w) as Hrun.
  { eapply (wp_timer_run D T_retransmit retransmissions_left (fun _ => True)); try done;
      [unfold retransmissions_left; lia|by apply retransmit_handles]. }
  destruct (wp_ok _ _ _ Hrun) as ([] & w' & E & q' & I' & _ & H). by exists w', q'.
Qed.

(** A run of the timeout timer ends; afterwards the first socket of the
    queue has not expired. *)
Theorem timeout_timer_complete {Dk : Dpdk} {room} {L : DpdkLaws Dk room} D w q :
  HDR_ROOM <= room -> inv 3 D room w q ->
  let timeout := u64 (u64 (c_retransmit_timeout (w_cfg w) * RETRANSMIT_NUM_MAX)
                      + c_keepalive_request_interval (w_cfg w)) in
  exists w' q', socket_timeout_timer_expire w = Ok (tt, w') /\ inv 3 D room w' q'
    /\ timer_done T_timeout timeout (tsc (ws_time (w_ws w))) w' q'.
Proof.
  intros Hr Hi timeout.
  assert (wp (socket_timer_run T_timeout timeout socket_timeout_handler)
    (ran (room := room) D T_timeout timeout (tsc (ws_time (w_ws w))) w) w) as Hrun.
  { eapply (wp_timer_run D T_timeout (fun _ => 1%nat) (fun _ => True)); try done; [lia|by apply timeout_handles]. }
  destruct (wp_ok _ _ _ Hrun) as ([] & w' & E & q' & I' & _ & H). by exists w', q'.
Qed.

(** ** The opening handshake *)

Lemma post_free_same {Dk : Dpdk} {room} {L : DpdkLaws Dk room} D i m w q sk (R : socket -> Prop) :
  inv 3 D room w q -> w_sockets w !! i = Some sk -> R sk ->
  wp (mbuf_free2 m) (post (room := room) (B := 3) D i w q (fun _ sk' _ => R sk')) w.
Proof.
  intros Hi Hs HR. apply (wp_env_post D i w q sk _ _ (fun _ => True)); [done|done| |done].
  eapply wp_mono; [apply (wp_free2 (room := room) D), Hi|]. done.
Qed.

(** A SYN to a closed server socket opens it: the socket is in
    [SYN_RECEIVED], expects the byte after the SYN, has sent one new sequence
    number that is not acknowledged, and has been counted as open. *)
Theorem tcp_server_syn_opens {Dk : Dpdk} {room} {L : DpdkLaws Dk room} D i m th w q sk seq :
  HDR_ROOM <= room -> inv 3 D room w q -> i ∈ D -> w_sockets w !! i = Some sk -> sk_st sk = SK_CLOSED ->
  ld32 (m_buf m) (th + th_seq) = Some (htonl seq) -> in_u 32 seq ->
  exists w' q' sk', tcp_server_process_syn i m th w = Ok (tt, w') /\ inv 3 D room w' q'
    /\ w_sockets w' !! i = Some sk' /\ sk_st sk' = SK_SYN_RECEIVED /\ sk_retrans sk' = 0
    /\ sk_rcv_nxt sk' = u32 (seq + 1) /\ sk_snd_una sk' = u32 (sk_snd_nxt sk + 1)
    /\ (forall j, j ≠ i -> w_sockets w' !! j = w_sockets w !! j).
Proof.
  intros Hr Hi Hd Hs Hc Hq Rq. assert (3 <= 3 /\ 3 <= 4) as [H33 H34] by lia.
  assert (wp (tcp_server_process_syn i m th) (post (room := room) (B := 3) D i w q (fun _ sk' _ =>
    sk_st sk' = SK_SYN_RECEIVED /\ sk_retrans sk' = 0 /\ sk_rcv_nxt sk' = u32 (seq + 1)
    /\ sk_snd_una sk' = u32 (sk_snd_nxt sk + 1))) w) as Hm.
  { unfold tcp_server_process_syn. eapply wp_sk_get_post; [exact Hs|]. unfold sk_is.
    rewrite (bool_decide_false (sk_st sk = SK_TIME_WAIT)) by (by rewrite Hc). unfold st_when at 1. wp_reads.
    eapply wp_sk_get_post; [exact Hs|]. rewrite bool_decide_true by done.
    eapply (post_bind D i w q _ _ (fun _ sk' _ => sk_st sk' = SK_SYN_RECEIVED /\ sk_retrans sk' = 0
      /\ sk_rcv_nxt sk' = u32 (seq + 1) /\ sk_snd_una sk' = u32 (sk_snd_nxt sk + 1))).
    - apply wp_bind. eapply wp_m_ld_eq; [exact Hq|].
      eapply post_bind; [by eapply wp_server_open|]. intros ? w1 q1 sk1 I1 S1 _ (E1 & E2 & E3 & E4 & E5).
      rewrite bswap32_involutive in E3 by done.
      eapply post_mono; [by eapply wp_reply|]. intros ? sk' q' [(f & n & t & ->) _]. by rsimpl.
    - intros ? w1 q1 sk1 I1 S1 _ H1. by eapply post_free_same. }
  destruct (post_run D i w q _ _ Hm) as ([] & w' & q' & sk' & E & I' & S & (? & ? & ? & ?) & Hj).
  by exists w', q', sk'.
Qed.

(** A SYN-ACK that acknowledges the SYN establishes the connection: the
    client expects the byte after the SYN, everything it had sent is
    acknowledged, and the request is sent at once. *)
Theorem tcp_client_syn_ack_establishes {Dk : Dpdk} {room} {L : DpdkLaws Dk room} D i m th w q sk seq :
  HDR_ROOM <= room -> inv 3 D room w q -> i ∈ D -> w_sockets w !! i = Some sk -> sk_st sk = SK_SYN_SENT ->
  ld32 (m_buf m) (th + th_seq) = Some (htonl seq) -> in_u 32 seq ->
  ld32 (m_buf m) (th + th_ack) = Some (htonl (sk_snd_nxt sk)) -> in_u 32 (sk_snd_nxt sk) ->
  exists w' q' sk', tcp_client_process_syn_ack i m th w = Ok (tt, w') /\ inv 3 D room w' q'
    /\ w_sockets w' !! i = Some sk' /\ sk_st sk' = SK_ESTABLISHED
    /\ sk_rcv_nxt sk' = u32 (seq + 1) /\ sk_snd_una sk' = sk_snd_nxt sk
    /\ (forall j, j ≠ i -> w_sockets w' !! j = w_sockets w !! j).
Proof.
  intros Hr Hi Hd Hs Hc Hq Rq Ha Ra. assert (3 <= 3 /\ 3 <= 4) as [H33 H34] by lia.
  assert (wp (tcp_client_process_syn_ack i m th) (post (room := room) (B := 3) D i w q (fun _ sk' _ =>
    sk_st sk' = SK_ESTABLISHED /\ sk_rcv_nxt sk' = u32 (seq + 1) /\ sk_snd_una sk' = sk_snd_nxt sk)) w) as Hm.
  { unfold tcp_client_process_syn_ack. apply wp_bind. eapply wp_m_ld_eq; [exact Ha|].
    apply wp_bind. eapply wp_m_ld_eq; [exact Hq|]. cbv zeta. rewrite !bswap32_involutive by done.
    eapply wp_sk_get_post; [exact Hs|]. unfold sk_is. rewrite bool_decide_true by done. rewrite Z.eqb_refl.
    eapply (post_bind D i w q _ _ (fun _ sk' _ => sk_st sk' = SK_ESTABLISHED
      /\ sk_rcv_nxt sk' = u32 (seq + 1) /\ sk_snd_una sk' = sk_snd_nxt sk)).
    - cbn [negb]. wp_reads. eapply (post_env D i w q sk _ _ (fun _ => True)); [done|done| |].
      { apply wp_stat_mod. split; [|done]. apply env_stat_mod; [apply Hi|]. by ns_simpl. }
      intros ? w1 _ _ I1 S1. eapply post_bind; [by eapply wp_sk_mod_open; rewrite ?Hc|].
      intros ? w2 q2 sk2 I2 S2 _ [-> ->].
      eapply post_mono; [by eapply wp_reply|]. intros ? sk' q' [(f & n & t & ->) _]. by rsimpl.
    - intros ? w1 q1 sk1 I1 S1 _ H1. by eapply post_free_same. }
  destruct (post_run D i w q _ _ Hm) as ([] & w' & q' & sk' & E & I' & S & (? & ? & ?) & Hj).
  by exists w', q', sk'.
Qed.

(** ** Examples *)

#[local] Existing Instance Mbuf.Demo.dpdk.
#[local] Existing Instance Mbuf.Demo.laws.

Definition demo_sk (st : sk_state) : socket :=
  (World.Demo.demo_socket 1) <| sk_st := st |> <| sk_snd_nxt := 5 |> <| sk_snd_una := 4 |> <| sk_rcv_nxt := 7 |>.

Lemma demo_sk_inv st : st ≠ SK_CLOSED -> st ≠ SK_TIME_WAIT -> inv 3 demo_D 256 (demo_conn (demo_sk st)) q_none.
Proof. intros. apply demo_conn_inv; [done|]. unfold retr_ok. cbn. split_and!; done || lia. Qed.

Ltac demo_hyps :=
  lazymatch goal with
  | |- HDR_ROOM <= _ => apply demo_room
  | |- inv _ _ _ World.Demo.demo_world _ => apply demo_inv
  | |- inv _ _ _ _ _ => apply demo_sk_inv; discriminate
  | |- _ ∈ demo_D => apply elem_of_union; left; by apply elem_of_singleton
  | |- in_u _ _ => concrete_range
  | |- _ ≠ _ => discriminate
  | |- _ => vm_compute; reflexivity
  end.

Lemma tcp_check_sequence_decides_witness :
  let w := demo_conn (demo_sk SK_ESTABLISHED) in
  exists w' sk', tcp_check_sequence 0 (m_buf (demo_seg 7 5 16)) 162 10 w = Ok (true, w')
    /\ w_sockets w' !! 0%N = Some sk' /\ sk_rcv_nxt sk' = 17 /\ sk_snd_una sk' = 5.
Proof.
  destruct (tcp_check_sequence_decides demo_D 0%N (demo_seg 7 5 16) 162 10
    (demo_conn (demo_sk SK_ESTABLISHED)) q_none (demo_sk SK_ESTABLISHED) 5 7 16)
    as (w' & sk' & E & S & H & _); [demo_hyps..|].
  exists w', sk'. split; [exact E|]. split; [exact S|]. destruct (H eq_refl) as (_ & _ & Hu & Hn). by rewrite Hu, Hn.
Defined.

Lemma tcp_process_fin_transitions_witness :
  exists w' q' sk', tcp_process_fin 0 TH_FIN 0 (demo_conn (demo_sk SK_FIN_WAIT_2)) = Ok (0 ||| TH_ACK, w')
    /\ inv 3 demo_D 256 w' q' /\ w_sockets w' !! 0%N = Some sk' /\ sk_st sk' = SK_CLOSED
    /\ (SK_CLOSED = SK_CLOSED -> forall t, 0%N ∉ q' t).
Proof.
  apply (tcp_process_fin_transitions demo_D 0%N TH_FIN 0 (demo_conn (demo_sk SK_FIN_WAIT_2)) q_none
    (demo_sk SK_FIN_WAIT_2)); demo_hyps.
Defined.


Lemma retransmit_timer_complete_witness : exists w' q',
  socket_timer_run T_retransmit 20000 tcp_do_retransmit World.Demo.demo_world = Ok (tt, w')
  /\ inv 3 demo_D 256 w' q' /\ timer_done T_retransmit 20000 10000 w' q'.
Proof. apply (retransmit_timer_complete demo_D 20000 World.Demo.demo_world q_none); demo_hyps. Defined.

Lemma timeout_timer_complete_witness : exists w' q',
  socket_timeout_timer_expire World.Demo.demo_world = Ok (tt, w') /\ inv 3 demo_D 256 w' q'
  /\ timer_done T_timeout 80000 10000 w' q'.
Proof. apply (timeout_timer_complete demo_D World.Demo.demo_world q_none); demo_hyps. Defined.

Lemma tcp_server_syn_opens_witness :
  let w := World.Demo.demo_world in
  exists w' q' sk', tcp_server_process_syn 0 (demo_seg 7 0 2) 162 w = Ok (tt, w') /\ inv 3 demo_D 256 w' q'
    /\ w_sockets w' !! 0%N = Some sk' /\ sk_st sk' = SK_SYN_RECEIVED /\ sk_retrans sk' = 0
    /\ sk_rcv_nxt sk' = 8 /\ sk_snd_una sk' = 1001
    /\ (forall j, j ≠ 0%N -> w_sockets w' !! j = w_sockets w !! j).
Proof.
  apply (tcp_server_syn_opens demo_D 0%N (demo_seg 7 0 2) 162 World.Demo.demo_world q_none
    (World.Demo.demo_socket 1) 7); demo_hyps.
Defined.

Lemma tcp_client_syn_ack_establishes_witness :
  let w := demo_conn (demo_sk SK_SYN_SENT) in
  exists w' q' sk', tcp_client_process_syn_ack 0 (demo_seg 7 5 18) 162 w = Ok (tt, w') /\ inv 3 demo_D 256 w' q'
    /\ w_sockets w' !! 0%N = Some sk' /\ sk_st sk' = SK_ESTABLISHED
    /\ sk_rcv_nxt sk' = 8 /\ sk_snd_una sk' = 5
    /\ (forall j, j ≠ 0%N -> w_sockets w' !! j = w_sockets w !! j).
Proof.
  apply (tcp_client_syn_ack_establishes demo_D 0%N (demo_seg 7 5 18) 162 (demo_conn (demo_sk SK_SYN_SENT)) q_none
    (demo_sk SK_SYN_SENT) 7); demo_hyps.
Defined.
