(* ===== verification/UdpInv.v ===== *)
(** * UdpInv: the UDP operations preserve the invariant

    Triples for the operations of Udp: from a worker that satisfies the
    invariant of SocketInv they run without a fault and the invariant holds
    afterwards.  The keep-alive timer is only covered without an interval: with
    one its handler arms the socket again. *)

From S2P Require Import Prelude SocketNode IpRange Tick Config Mbuf NetStats World.
From S2P Require Import WorkSpace Socket SocketTimer Kni TcpPacket Tcp Udp Env.
From S2P Require Import NeighInv SocketInv TcpInv TcpTimer.

Section UdpInv.
Context {Dk : Dpdk} {room : Z} {L : DpdkLaws Dk room} (D : gset N) (Hroom : HDR_ROOM <= room).
Abbreviation env_ok := (env_ok D room).
Abbreviation env_step := (env_step D room).
Abbreviation inv := (inv 3 D room).
Abbreviation keeps := (keeps 3 D room).
Abbreviation post := (post (room := room) (B := 3) D).
Abbreviation stepped := (stepped (room := room) D).

Let le33 : 3 <= 3 := proj1 bounds_33.
Let le34 : 3 <= 4 := proj2 bounds_33.

(** ** Datagrams *)

Lemma wp_udp_change_dip m iph uh w :
  env_ok w -> ws_change_dip (w_ws w) = true -> pkt_ok m -> ptrs_ok m iph uh ->
  wp (udp_change_dip m iph uh) (fun m' w' => env_step w w' /\ same_shape m m') w.
Proof.
  intros He Hc Hm Hp. unfold udp_change_dip. wp_pure. wp_step.
  - unfold udp_change_dipv6. wp_pure. m_ptr. wp_pure.
    wp_use (wp_dip_next_ipv6 (room := room) D) by done. intros addr w' [Hw _]. wp_pure. repeat (m_ptr; wp_pure).
    split; [done|]. eauto using same_shape_trans.
  - unfold udp_change_dipv4. wp_pure. m_ptr. wp_pure.
    wp_use (wp_dip_next_ipv4 (room := room) D) by done. intros addr w' [Hw _]. wp_pure. repeat (m_ptr; wp_pure).
    split; [done|]. eauto using same_shape_trans.
Qed.

Lemma wp_udp_vxlan_headers ipv6 ip_id sk m w : pkt_ok m ->
  wp (udp_vxlan_headers ipv6 ip_id sk m) (fun r w' => w' = w /\
    let '(iph, uh, m') := r in pkt_ok m' /\ ptrs_ok m' iph uh) w.
Proof.
  intros Hm. unfold udp_vxlan_headers. wp_pure. m_ptr. wp_step; wp_pure.
  - split; [done|]. split; [by eapply same_shape_ok|]. ptrs.
  - m_ptr. split; [done|]. split; [by do 2 (eapply same_shape_ok; [done|])|]. ptrs.
Qed.

Lemma wp_udp_new_packet i sk w : env_ok w -> w_sockets w !! i = Some sk ->
  wp (udp_new_packet i) (fun o w' => env_step w w' /\ forall m, o = Some m -> pkt_ok m) w.
Proof.
  intros He Hs. unfold udp_new_packet. wp_reads. unfold id. apply wp_bind. eapply wp_sk_get; [exact Hs|].
  apply wp_bind. eapply wp_mono; [by apply (wp_cache_alloc (room := room) D)|].
  intros [m|] w1 [E1 Hm]; [|by apply wp_ret]. specialize (Hm m eq_refl).
  assert (ws_change_dip (w_ws w1) = ws_change_dip (w_ws w)) as Hd1.
  { pose proof (es_static _ _ _ _ E1) as T. by injection T. }
  apply wp_bind. eapply wp_mono with (Q := fun r w' => w' = w1 /\
    let '(iph, uh, m') := r in pkt_ok m' /\ ptrs_ok m' iph uh).
  { apply wp_if; intros _; [by apply wp_udp_vxlan_headers|].
    destruct (mbuf_tcp_hdr_some m Hm) as (th & Hth & Hr). apply wp_bind.
    eapply wp_m_ld_eq; [exact Hth|]. apply wp_ret. split; [done|]. split; [done|]. ptrs. }
  intros [[iph uh] m1] w2 [-> [Hm1 Hp1]]. apply wp_bind.
  eapply wp_mono; [apply (wp_set_ip (room := room) D); [apply E1|done|unfold ptrs_ok in *; lia]|].
  intros m2 w2 (E2 & Sh2 & Hd2). pose proof (same_shape_ok _ _ Sh2 Hm1) as Hm2. apply wp_bind.
  assert (ptrs_ok m2 iph uh) as Hp2 by (unfold ptrs_ok, same_shape in *; intuition lia).
  eapply wp_mono with (Q := fun m3 w' => w' = w2 /\ same_shape m2 m3).
  { unfold udp_set_udp. wp_pure. repeat (m_ptr; wp_pure). split; [done|]. eauto using same_shape_trans. }
  intros m3 w3 [-> Sh3]. pose proof (same_shape_ok _ _ Sh3 Hm2) as Hm3.
  pose proof (env_step_trans _ _ _ _ _ E1 E2) as E12. apply wp_bind. apply wp_if; intros Hc.
  - eapply wp_mono; [apply wp_udp_change_dip; [apply E2|by rewrite Hd2, Hd1|done|]|].
    { unfold ptrs_ok, same_shape in *. intuition lia. }
    intros m4 w4 [E4 Sh4]. apply wp_ret. split; [exact (env_step_trans _ _ _ _ _ E12 E4)|].
    intros ? [= <-]. by eapply same_shape_ok.
  - do 2 apply wp_ret. split; [exact E12|]. by intros ? [= <-].
Qed.

Lemma runs_udp_send i sk w : env_ok w -> w_sockets w !! i = Some sk -> wp (udp_send i) (fun _ w' => env_step w w') w.
Proof.
  intros He Hs. unfold udp_send. apply wp_bind. eapply wp_mono; [by eapply wp_udp_new_packet|].
  intros [m|] w1 [E1 Hm]; [|by apply wp_ret]. unfold work_space_tx_send_udp. wp_pure.
  eapply wp_mono; [apply wp_csum_offload, (Hm m eq_refl)|]. intros m' w2 [-> _]. wp_pure.
  assert (env_step w1 (w1 <| w_stats ::= net_stats_inc NS_udp_tx |>)) as E2.
  { apply (env_stat_inc (room := room) D); [apply E1|done]. }
  eapply wp_mono; [apply (wp_tx_send (room := room) D), E2|]. intros ? w3 E3.
  exact (env_step_trans _ _ _ _ _ E1 (env_step_trans _ _ _ _ _ E2 E3)).
Qed.

(** Sending leaves the sockets and the timers as they are. *)
Definition same (i : N) (sk : socket) (q : queues) (sk' : socket) (q' : queues) : Prop := sk' = sk /\ q' = q.

Lemma wp_udp_send i w q sk : inv w q -> w_sockets w !! i = Some sk ->
  wp (udp_send i) (post i w q (fun _ => same i sk q)) w.
Proof.
  intros Hi Hs. apply (wp_env_post D i w q sk _ _ (fun _ => True)); [done|done| |done].
  eapply wp_mono; [by eapply runs_udp_send; [apply Hi|]|]. done.
Qed.

(** Repeating an operation that keeps a property of the socket. *)
Lemma wp_repeat_post i n (m : M unit) (P : socket -> queues -> Prop) w q sk :
  inv w q -> w_sockets w !! i = Some sk -> P sk q ->
  (forall w q sk, inv w q -> w_sockets w !! i = Some sk -> P sk q ->
    wp m (post i w q (fun _ sk' q' => P sk' q')) w) ->
  wp (repeat_m n m) (post i w q (fun _ sk' q' => P sk' q')) w.
Proof.
  intros Hi Hs HP Hm. revert w q sk Hi Hs HP. induction n as [|n IH]; intros w q sk Hi Hs HP; simpl.
  - by eapply post_ret.
  - eapply post_bind; [by eapply Hm|]. intros ? w1 q1 sk1 I1 S1 _ P1. by eapply IH.
Qed.

(** ** Timers *)

Definition opened (sk : socket) : Prop := sk_st sk ≠ SK_CLOSED.

Lemma wp_udp_retransmit i w q sk : inv w q -> i ∈ D -> w_sockets w !! i = Some sk ->
  wp (udp_retransmit_handler i) (post i w q (fun _ sk' q' => forall t, i ∉ q' t)) w.
Proof.
  intros Hi Hd Hs. unfold udp_retransmit_handler. eapply wp_sk_get_post; [exact Hs|].
  eapply post_counts; [done|done|by apply counts_when, counts_inc|]. intros w1 I1 S1 _.
  eapply post_mono; [by eapply wp_close|]. by intros ? sk' q' [_ H].
Qed.

Lemma wp_udp_send_request i w q sk : inv w q -> w_sockets w !! i = Some sk -> opened sk ->
  wp (udp_send_request i) (post i w q (fun _ sk' q' => opened sk' /\ q' = q)) w.
Proof.
  intros Hi Hs Ho. unfold udp_send_request.
  eapply post_bind; [by eapply wp_sk_mod_open|]. intros ? w1 q1 sk1 I1 S1 _ [-> ->].
  eapply post_mono; [by eapply wp_udp_send|]. by intros ? sk' q' [-> ->].
Qed.

Definition no_interval (w : world) : Prop := c_keepalive_request_interval (w_cfg w) = 0.

Lemma static_no_interval w w' : no_interval w -> static w' = static w -> no_interval w'.
Proof. unfold no_interval. intros H E. assert (w_cfg w' = w_cfg w) as -> by by injection E. done. Qed.

(** Without an interval the handler does not arm the timer again. *)
Lemma wp_udp_keepalive i w q sk : inv w q -> no_interval w -> i ∈ D -> w_sockets w !! i = Some sk ->
  opened sk -> (forall t, i ∉ q t) ->
  wp (udp_socket_keepalive_timer_handler i) (post i w q (fun _ _ q' => forall t, i ∉ q' t)) w.
Proof.
  intros Hi Hz Hd Hs Ho Hq. unfold udp_socket_keepalive_timer_handler. wp_reads.
  eapply post_bind; [eapply (wp_in_duration D _ _ _ _ (fun _ => same i sk q)); done|].
  intros dur w1 q1 sk1 I1 S1 T1 [-> ->]. apply wp_if; intros _; [|by eapply post_ret].
  eapply wp_sk_get_post; [exact S1|]. apply wp_if; intros _.
  { eapply post_mono; [by eapply wp_close|]. by intros ? sk' q' [_ H]. }
  wp_reads. eapply post_counts; [done|done|by apply counts_when, counts_inc|]. intros w2 I2 S2 T2.
  eapply post_bind.
  { apply (wp_repeat_post i _ _ (fun sk' q' => opened sk' /\ q' = q) w2 q sk); [done..|].
    intros w3 q3 sk3 I3 S3 [O3 ->]. by eapply wp_udp_send_request. }
  intros ? w3 q3 sk3 I3 S3 T3 [O3 ->]. wp_reads.
  assert (no_interval w3) as Hz3 by (eapply static_no_interval; [exact Hz|congruence]).
  rewrite Hz3. cbn [negb Z.eqb st_when]. by eapply post_ret.
Qed.

Lemma udp_retransmit_handles :
  handles (room := room) D T_retransmit (fun _ => 1%nat) (fun _ => True) udp_retransmit_handler.
Proof.
  intros i w q sk Hi _ Hd Hs Ho Hno. eapply post_mono; [by eapply wp_udp_retransmit|].
  intros ? sk' q' H Hin. by apply H in Hin.
Qed.

Lemma udp_keepalive_handles :
  handles (room := room) D T_keepalive (fun _ => 1%nat) no_interval udp_socket_keepalive_timer_handler.
Proof.
  intros i w q sk Hi Hz Hd Hs Ho Hno. eapply post_mono; [by eapply wp_udp_keepalive|].
  intros ? sk' q' H Hin. by apply H in Hin.
Qed.

Lemma wp_udp_client_timers w q : inv w q -> c_keepalive (w_cfg w) = false \/ no_interval w ->
  wp udp_client_socket_timer_process (stepped w) w.
Proof.
  intros Hi Hk. unfold udp_client_socket_timer_process. wp_reads. unfold id. apply wp_if; intros Ek.
  - destruct Hk as [Hk|Hk]; [congruence|].
    eapply ran_stepped, (wp_timer_run D T_keepalive (fun _ => 1%nat) no_interval); try done;
      [apply static_no_interval|lia|apply udp_keepalive_handles].
  - eapply ran_stepped, (wp_timer_run D T_retransmit (fun _ => 1%nat) (fun _ => True)); try done;
      [lia|apply udp_retransmit_handles].
Qed.

(** ** Received datagrams *)

Lemma wp_udp_no_socket m free w q : inv w q -> pkt_ok m ->
  (forall w, env_ok w -> wp (free m) (fun _ w' => env_step w w') w) ->
  wp (udp_no_socket m free) (stepped w) w.
Proof.
  intros Hi Hm Hf. eapply wp_local_or; [exact Hi|done| |].
  - eapply env_stepped; [exact Hi|]. apply (wp_kni_recv (room := room) D), Hi.
  - by eapply drop_free_stepped.
Qed.

Lemma wp_udp_drop m w q : inv w q -> pkt_ok m -> wp (udp_drop m) (stepped w) w.
Proof.
  intros Hi Hm. eapply wp_udp_no_socket; [exact Hi|done|]. intros. by apply (wp_free2 (room := room) D).
Qed.

Lemma wp_udp_server m w q : inv w q -> pkt_ok m -> wp (udp_server_process m) (stepped w) w.
Proof.
  intros Hi Hm. destruct (mbuf_tcp_hdr_some m Hm) as (th & Hth & Hr).
  unfold udp_server_process. cbv zeta. apply wp_bind. eapply wp_m_ld_eq; [exact Hth|]. apply wp_bind.
  eapply wp_mono; [eapply wp_server_lookup; [exact Hi|done|ptrs]|]. intros o w' [-> Ho].
  destruct o as [i|]; [|eapply wp_udp_no_socket; [exact Hi|done|]; intros; by apply (wp_mbuf_free (room := room) D)].
  destruct (inv_sock _ _ _ _ Hi (Ho i eq_refl)) as (sk & Hs & _).
  eapply stepped_bind.
  - eapply env_stepped; [exact Hi|]. by eapply runs_udp_send; [apply Hi|].
  - intros ? w1 q1 I1. eapply env_stepped; [exact I1|]. by apply (wp_mbuf_free (room := room) D), I1.
Qed.

(** The part of [udp_client_process] between the state and the free. *)
Lemma wp_udp_client_answer i (keepalive : bool) t interval stop w q sk : inv w q -> i ∈ D -> w_sockets w !! i = Some sk -> opened sk ->
  wp (if negb keepalive then
        tsc ← work_space_tsc; stat_mod (net_stats_rtt tsc t);; socket_close i
      else st_when ((interval =? 0) && negb stop) (udp_send_request i)) (post i w q (fun _ _ _ => True)) w.
Proof.
  intros Hi Hd Hs Ho. apply wp_if; intros _.
  - wp_reads. eapply (post_env D i w q sk _ _ (fun _ => True)); [done|done| |].
    { apply wp_stat_mod. split; [|done]. apply (env_stat_mod (room := room) D); [apply Hi|]. by ns_simpl. }
    intros ? w1 _ _ I1 S1. eapply post_mono; [by eapply wp_close|]. done.
  - apply wp_when; intros _; [|by eapply post_skip].
    eapply post_mono; [by eapply wp_udp_send_request|]. done.
Qed.

Lemma wp_udp_client m w q : inv w q -> pkt_ok m -> wp (udp_client_process m) (stepped w) w.
Proof.
  intros Hi Hm. destruct (mbuf_tcp_hdr_some m Hm) as (th & Hth & Hr).
  assert (forall w, env_ok w -> wp (mbuf_free m) (fun _ w' => env_step w w') w) as Hfree.
  { intros. by apply (wp_mbuf_free (room := room) D). }
  unfold udp_client_process. cbv zeta. apply wp_bind. eapply wp_m_ld_eq; [exact Hth|]. apply wp_bind.
  eapply wp_mono; [eapply wp_client_lookup; [exact Hi|done|ptrs]|]. intros o w' [-> Ho].
  destruct o as [i|]; [|by eapply wp_udp_no_socket]. specialize (Ho i eq_refl).
  destruct (inv_sock _ _ _ _ Hi Ho) as (sk & Hs & _). apply wp_bind. eapply wp_sk_get; [exact Hs|].
  apply wp_if; intros Hc; [by eapply drop_free_stepped|]. unfold sk_is in Hc. bool_facts.
  eapply (post_stepped D i w q _ (fun _ _ _ => True)). unfold sk_set_state.
  eapply post_bind; [by eapply wp_sk_mod_open|]. intros ? w1 q1 sk1 I1 S1 _ [-> ->]. wp_reads.
  eapply post_bind.
  { by eapply (wp_udp_client_answer i _ _ _ _ w1 q (sk <| sk_st := SK_SYN_RECEIVED |>)). }
  intros ? w2 q2 sk2 I2 S2 _ _. apply (wp_env_post D i w2 q2 sk2 _ _ (fun _ => True)); [done|done| |done].
  eapply wp_mono; [apply Hfree, I2|]. done.
Qed.

(** ** Launch *)

Lemma wp_udp_launch_one pipeline w q : inv w q -> wp (udp_client_launch_one pipeline) (stepped w) w.
Proof.
  intros Hi. unfold udp_client_launch_one. wp_reads. apply wp_bind.
  eapply wp_mono; [by eapply (wp_client_open (B := 3) D)|]. intros o w1 Ho. destruct o as [i|].
  2: { destruct Ho as [I1 T1]. apply wp_ret. by exists q. }
  destruct Ho as (Hd & _ & q1 & sk1 & (I1 & T1 & _) & S1 & Hst & _).
  assert (forall (a : Z) w2, stepped w1 a w2 -> stepped w a w2) as Hstep.
  { intros a w2 (q2 & I2 & T2). exists q2. split; [done|congruence]. }
  eapply wp_mono; [|intros a w2; apply Hstep].
  eapply (post_stepped D i w1 q1 _ (fun _ _ _ => True)).
  eapply post_bind.
  { apply (wp_repeat_post i _ _ (same i sk1 q1) w1 q1 sk1); [done..|].
    intros w2 q2 sk2 I2 S2 [-> ->]. by eapply wp_udp_send. }
  intros ? w2 q2 sk2 I2 S2 _ [-> ->]. eapply wp_sk_get_post; [exact S2|]. wp_reads.
  assert (sk_st sk1 ≠ SK_CLOSED) as Ho by by rewrite Hst.
  eapply (post_bind D i w2 q1 _ _ (fun _ _ _ => True)).
  { apply wp_if; intros _; [|apply wp_if; intros _].
    - apply wp_when; intros _; [|by eapply post_skip].
      eapply post_mono; [by apply wp_start_keepalive|]. done.
    - eapply post_mono; [by eapply wp_close|]. done.
    - unfold socket_start_retransmit_timer_force. eapply post_mono; [by apply wp_arm|]. done. }
  intros ? w3 q3 sk3 I3 S3 _ _. by eapply post_ret.
Qed.

Lemma wp_udp_launch w q : inv w q -> wp udp_client_launch (stepped w) w.
Proof.
  intros Hi. unfold udp_client_launch. eapply stepped_bind; [by eapply wp_launch_num|].
  intros num w1 q1 I1. wp_reads. generalize (c_pipeline (w_cfg w1)). intros p.
  eapply (stepped_bind D w1); [|intros ? w2 q2 I2; apply wp_ret; by eapply stepped_refl].
  revert p w1 q1 I1. induction (Z.to_nat num) as [|n IH]; intros p w1 q1 I1; simpl.
  - apply wp_ret. by eapply stepped_refl.
  - eapply stepped_bind; [by eapply wp_udp_launch_one|]. intros p' w2 q2 I2. by eapply IH.
Qed.
End UdpInv.
