(* ===== verification/UdpTimer.v ===== *)
(** * UdpTimer: the keep-alive timer of a UDP client

    With a keep-alive interval the handler arms the socket again, aligned to
    the start of an interval.  A socket that is served exactly at the end of an
    interval, or more than three intervals late, is armed in the past: the same
    run of the timer serves it again, and the run does not end. *)

From S2P Require Import Prelude SocketNode IpRange Tick Config Mbuf NetStats World.
From S2P Require Import WorkSpace Socket SocketTimer Kni TcpPacket Tcp Udp Env.
From S2P Require Import SocketInv TcpInv TcpTimer TcpSafety TcpProps UdpInv.

(** [timer_tsc] of a socket that is served at [now] too late. *)
Definition late (interval now timer_tsc : Z) : Prop :=
  now = timer_tsc + interval \/ now = timer_tsc + 2 * interval
  \/ now = timer_tsc + 3 * interval \/ timer_tsc + 3 * interval < now.

(** A late socket is armed one interval before [now]. *)
Lemma accurate_late interval now t : 0 < interval -> 0 <= t -> now < 2 ^ 62 -> late interval now t ->
  accurate_tsc interval t now = now - interval.
Proof.
  unfold late, accurate_tsc. intros Hi Ht Hn Hl.
  assert (forall x, 0 <= x <= now -> u64 x = x) as Hu.
  { intros x Hx. apply (wrap_small 64). unfold in_u. lia. }
  repeat match goal with
  | |- context [u64 ?x] => rewrite (Hu x) by lia
  | |- (if ?a <=? ?b then _ else _) = _ => destruct (Z.leb_spec a b)
  | |- (if ?a <? ?b then _ else _) = _ => destruct (Z.ltb_spec a b)
  end; lia.
Qed.

(** In time or late, an armed socket has expired. *)
Lemma late_expired interval now t : 0 < interval -> 0 <= t -> now < 2 ^ 62 -> late interval now t ->
  (u64 (t + interval) <=? now) = true.
Proof.
  unfold late. intros. rewrite (wrap_small 64) by (unfold in_u; lia). apply Z.leb_le. lia.
Qed.

Section Livelock.
Context {Dk : Dpdk} {room : Z} {L : DpdkLaws Dk room} (D : gset N) (Hroom : HDR_ROOM <= room).
Context (interval now : Z) (Hint : 0 < interval) (Hnow : now < 2 ^ 62).
Abbreviation inv := (inv 3 D room).
Abbreviation post := (post (room := room) (B := 3) D).

Let le33 : 3 <= 3 := proj1 bounds_33.
Let le34 : 3 <= 4 := proj2 bounds_33.

(** The worker is sending: the clock, the options and the duration. *)
Record sending (w : world) : Prop := {
  sg_now : tsc (ws_time (w_ws w)) = now;
  sg_interval : c_keepalive_request_interval (w_cfg w) = interval;
  sg_duration : (count (second (ws_time (w_ws w))) <? u64 (c_duration (w_cfg w))) = true;
  sg_stop : ws_stop (w_ws w) = false;
}.

Lemma static_sending w w' : sending w -> static w' = static w -> sending w'.
Proof.
  intros [H1 H2 H3 H4] E.
  assert (w_cfg w' = w_cfg w /\ ws_time (w_ws w') = ws_time (w_ws w) /\ ws_stop (w_ws w') = ws_stop (w_ws w))
    as (Ec & Et & Es) by (unfold static in E; by injection E).
  split; by rewrite ?Ec, ?Et, ?Es.
Qed.

(** A keep-alive socket of this worker with nothing unacknowledged. *)
Record client (sk : socket) : Prop := {
  cs_keepalive : sk_keepalive sk = true;
  cs_sent : sk_snd_nxt sk = sk_snd_una sk;
  cs_own : sk_laddr sk ≠ 0;
  cs_time : 0 <= sk_timer_tsc sk;
  cs_late : late interval now (sk_timer_tsc sk);
}.

Lemma client_request sk n st :
  client sk -> client (sk <| sk_st := st |> <| sk_keepalive_request_num := n |>).
Proof. by intros []. Qed.

Lemma client_armed sk : 0 <= now - interval -> client sk -> client (sk <| sk_timer_tsc := now - interval |>).
Proof. intros Hp []. split; rsimpl; try done. left. lia. Qed.

Lemma client_positive sk : client sk -> 0 <= now - interval.
Proof. intros [_ _ _ Ht Hl]. unfold late in Hl. lia. Qed.

(** One request leaves the socket a late client. *)
Lemma wp_request i w q sk : inv w q -> w_sockets w !! i = Some sk -> opened sk -> client sk ->
  wp (udp_send_request i) (post i w q (fun _ sk' q' => opened sk' /\ client sk' /\ q' = q)) w.
Proof.
  intros Hi Hs Ho Hc. unfold udp_send_request.
  eapply post_bind; [by eapply wp_sk_mod_open|]. intros ? w1 q1 sk1 I1 S1 _ [-> ->].
  eapply post_mono; [by eapply wp_udp_send|]. intros ? sk' q' [-> ->]. split_and!; [done| |done].
  by apply client_request.
Qed.

(** The handler puts the socket back on the queue, expired. *)
Lemma wp_handler i w q sk : inv w q -> sending w -> i ∈ D -> w_sockets w !! i = Some sk ->
  opened sk -> client sk ->
  wp (udp_socket_keepalive_timer_handler i) (post i w q (fun _ sk' q' =>
    client sk' /\ i ∈ q' T_keepalive)) w.
Proof.
  intros Hi [W1 W2 W3 W4] Hd Hs Ho Hc. unfold udp_socket_keepalive_timer_handler, work_space_in_duration.
  wp_reads. apply wp_bind. wp_reads. unfold id. apply wp_ret. rewrite W3, W4. cbn [negb andb].
  eapply wp_sk_get_post; [exact Hs|].
  destruct (Z.eqb_spec (sk_laddr sk) 0) as [E|_]; [by destruct (cs_own _ Hc)|]. wp_reads.
  eapply post_counts; [done|done|by apply counts_when, counts_inc|]. intros w1 I1 S1 E1.
  eapply (post_bind D i w1 q _ _ (fun _ sk' q' => opened sk' /\ client sk' /\ q' = q)).
  { eapply (wp_repeat_post D i _ _ (fun sk' q' => opened sk' /\ client sk' /\ q' = q)); [done|done|done|].
    intros w2 q2 sk2 I2 S2 (O2 & C2 & ->). by apply (wp_request i w2 q sk2). }
  intros ? w2 q2 sk2 I2 S2 E2 (O2 & C2 & ->).
  destruct (static_sending w w2) as [V1 V2 V3 V4]; [by split|congruence|]. wp_reads.
  rewrite V2. destruct (Z.eqb_spec interval 0); [lia|]. cbn [negb st_when]. wp_reads. rewrite V1.
  unfold socket_start_keepalive_timer. eapply wp_sk_get_post; [exact S2|].
  rewrite (cs_keepalive _ C2), (cs_sent _ C2), Z.eqb_refl. cbn [andb st_when].
  unfold socket_accurate_timer_tsc. apply wp_bind. wp_reads. eapply wp_bind, wp_sk_get; [exact S2|].
  apply wp_ret. rewrite V2, accurate_late by (try done; apply C2).
  eapply post_mono; [by eapply wp_add_timer_tail|]. intros ? sk' q' [-> ->]. split.
  - by apply client_armed; [eapply client_positive|].
  - unfold q_push. rewrite decide_True by done. list_in.
Qed.

(** Every socket of the queue is late, and there is one. *)
Definition stuck (w : world) (q : queues) : Prop :=
  q T_keepalive ≠ [] /\ forall i, i ∈ q T_keepalive -> exists sk, w_sockets w !! i = Some sk /\ client sk.

Lemma loop_livelock fuel w q : inv w q -> sending w -> stuck w q ->
  timer_loop fuel T_keepalive interval now udp_socket_keepalive_timer_handler w = Err OutOfFuel.
Proof.
  revert w q. induction fuel as [|fuel IH]; intros w q Hi Hw [Hne Hq].
  all: destruct (q T_keepalive) as [|i l] eqn:Eq; [done|].
  all: destruct (Hq i) as (sk & Hs & Hc); [list_in|].
  all: assert (queue_first T_keepalive w = Ok (Some i, w)) as Hf
    by (unfold queue_first; rewrite (socket_queue_first_repr _ _ _ T_keepalive (inv_repr _ _ _ _ _ Hi)); by rewrite Eq).
  all: simpl; unfold mbind, ST_bind; rewrite Hf; unfold sk_get at 1; rewrite Hs.
  all: rewrite late_expired by (try done; apply Hc).
  { done. }
  assert (i ∈ q T_keepalive) as Hin by (rewrite Eq; list_in).
  pose proof (repr_dom _ _ _ (inv_repr _ _ _ _ _ Hi) _ _ Hin) as Hd.
  assert (opened sk) as Ho.
  { eapply openb_some; [exact Hs|]. by eapply (so_queued _ _ _ _ (inv_socks _ _ _ _ _ Hi)). }
  destruct (wp_ok _ _ _ (wp_del_timer D i w q sk Hi Hd Hs)) as ([] & w1 & E1 & q1 & sk1 & K1 & S1 & -> & ->).
  unfold socket_del_timer. rewrite E1.
  assert (sending w1) as W1 by (eapply static_sending; [exact Hw|apply K1]).
  destruct (wp_ok _ _ _ (wp_handler i w1 _ sk (keeps_inv D _ _ _ _ _ K1) W1 Hd S1 Ho Hc))
    as ([] & w2 & E2 & q2 & sk2 & K2 & S2 & C2 & Hin2).
  rewrite E2. pose proof (keeps_trans D _ _ _ _ _ _ _ K1 K2) as (I2 & T2 & Hj).
  apply (IH w2 q2 I2); [exact (static_sending w w2 Hw T2)|]. split.
  - intros E. rewrite E in Hin2. by apply elem_of_nil in Hin2.
  - intros j Hjq. destruct (decide (j = i)) as [->|Hne']; [by exists sk2|].
    destruct (Hj j Hne') as [-> Hqj]. apply Hq. rewrite <- Eq. by apply Hqj.
Qed.
End Livelock.

(** C25: the keep-alive timer of a UDP client may never end.  While the test is
    running and nobody stops it, if every socket on the queue is served exactly
    one, two or three intervals after it was armed, or later, the handler arms
    it one interval before the time of the run, so that it has expired again:
    no number of rounds ends the loop. *)
Theorem udp_keepalive_timer_livelock {Dk : Dpdk} {room} {L : DpdkLaws Dk room} D w q :
  HDR_ROOM <= room -> inv 3 D room w q ->
  let now := tsc (ws_time (w_ws w)) in
  let interval := c_keepalive_request_interval (w_cfg w) in
  0 < interval -> now < 2 ^ 62 ->
  count (second (ws_time (w_ws w))) < u64 (c_duration (w_cfg w)) -> ws_stop (w_ws w) = false ->
  stuck interval now w q ->
  forall fuel, timer_loop fuel T_keepalive interval now udp_socket_keepalive_timer_handler w = Err OutOfFuel.
Proof.
  intros Hr Hi now interval Hint Hnow Hd Hs Hq fuel.
  apply (loop_livelock D Hr interval now Hint Hnow fuel w q); try done. split; try done. by apply Z.ltb_lt.
Qed.

(** ** Example *)

#[local] Existing Instance Mbuf.Demo.dpdk.
#[local] Existing Instance Mbuf.Demo.laws.

Definition demo_client : socket :=
  (World.Demo.demo_socket 1) <| sk_st := SK_SYN_SENT |> <| sk_keepalive := true |> <| sk_snd_una := 1000 |>.
Definition demo_udp : world :=
  (demo_conn demo_client) <| w_cfg ::= fun c => c <| c_keepalive_request_interval := 1000 |> |>.

Lemma demo_udp_inv : inv 3 demo_D 256 demo_udp q_none.
Proof.
  assert (inv 3 demo_D 256 (demo_conn demo_client) q_none) as [H1 H2 H3 H4].
  { apply demo_conn_inv; [done|]. unfold retr_ok. cbn. split_and!; done || lia. }
  split; [done..|]. by destruct H4.
Qed.

(** Socket 0 was armed at cycle 2000 and is served at cycle 10000. *)
Definition demo_armed : world :=
  match socket_add_timer T_keepalive 0 2000 demo_udp with Ok (_, w) => w | Err _ => demo_udp end.

Lemma udp_keepalive_timer_livelock_witness :
  timer_loop 1000 T_keepalive 1000 10000 udp_socket_keepalive_timer_handler demo_armed = Err OutOfFuel.
Proof.
  assert (0%N ∈ demo_D) as Hd by (apply elem_of_union; left; by apply elem_of_singleton).
  destruct (wp_ok _ _ _ (wp_add_timer_tail demo_D T_keepalive 0%N 2000 demo_udp q_none demo_client
    demo_udp_inv Hd eq_refl ltac:(discriminate))) as ([] & w & E & q & sk & (I & _ & _) & S & Hsk & Hq).
  assert (demo_armed = w) as Ew by (unfold demo_armed; by rewrite E).
  refine (eq_rect _ (fun w => timer_loop 1000 T_keepalive 1000 10000 udp_socket_keepalive_timer_handler w = Err OutOfFuel)
    _ _ (eq_sym Ew)).
  assert (tsc (ws_time (w_ws w)) = 10000 /\ c_keepalive_request_interval (w_cfg w) = 1000
    /\ (count (second (ws_time (w_ws w))) <? u64 (c_duration (w_cfg w))) = true /\ ws_stop (w_ws w) = false)
    as (T1 & T2 & T3 & T4) by (rewrite <- Ew; vm_compute; done).
  pose proof (udp_keepalive_timer_livelock demo_D w q) as H. cbv zeta in H. rewrite T1, T2 in H.
  apply H; [vm_compute; discriminate|exact I|reflexivity|reflexivity|exact (proj1 (Z.ltb_lt _ _) T3)|exact T4|].
  subst q. split; [discriminate|].
  intros i Hin. assert (i = 0%N) as -> by (by apply list_elem_of_singleton in Hin).
  exists sk. split; [exact S|]. subst sk. split; [reflexivity..|discriminate|vm_compute; discriminate|].
  right; right; right. reflexivity.
Defined.
