(* ===== verification/LoopInv.v ===== *)
(** * LoopInv: a worker's loop never faults

    The dispatch of received packets, the slow timer and one iteration of each
    loop preserve the invariant of the worker, so that any number of
    iterations runs.  The clock has its own invariant: the counters of
    [struct tick_time] never overflow and the load is only computed after at
    least 128 cycles. *)

From S2P Require Import Prelude SocketNode IpRange Tick Config Mbuf NetStats World.
From S2P Require Import WorkSpace Socket SocketTimer HttpParse Kni TcpPacket Tcp Neigh.
From S2P Require Import Udp Loop Env NeighInv SocketInv TcpInv TcpTimer.
From S2P Require Import TcpSafety UdpInv.

(** ** Bytes *)

Definition bytes (b : list Z) : Prop := Forall (in_u 8) b.

Lemma st8_bytes p v b b' : st8 p v b = Some b' -> bytes b -> bytes b'.
Proof.
  unfold st8, aset, bytes. case_match; [|done]. intros [= <-] Hb. apply Forall_insert; [done|].
  apply Z.mod_pos_bound. done.
Qed.

Lemma st16_bytes p v b b' : st16 p v b = Some b' -> bytes b -> bytes b'.
Proof.
  unfold st16. destruct (st8 p v b) as [b1|] eqn:E; [|done]. cbn [mbind option_bind].
  intros E2 Hb. by eapply st8_bytes, st8_bytes.
Qed.

Lemma st_bytes_bytes p bs b b' : st_bytes p bs b = Some b' -> bytes b -> bytes bs -> bytes b'.
Proof.
  unfold st_bytes, bytes. case_match; [|done]. intros [= <-] Hb Hbs. rewrite !list.Forall_app.
  split; [by apply list.Forall_take|]. split; [done|by apply list.Forall_drop].
Qed.

Lemma ld_bytes_bytes b p n bs : ld_bytes b p n = Some bs -> bytes b -> bytes bs.
Proof.
  unfold ld_bytes, bytes. case_match; [|done]. intros [= <-] Hb. by apply list.Forall_take, list.Forall_drop.
Qed.

(** ** Frames from the wire *)

(** Room for the VXLAN headers or the IPv4 options in front of the headers. *)
Definition LOOP_ROOM : Z := HDR_ROOM + 50.

Definition rx_frame (room : Z) (m : mbuf) : Prop :=
  0 <= m_data_off m /\ m_data_off m + room <= Z.of_nat (length (m_buf m))
  /\ 0 <= m_data_len m <= room /\ bytes (m_buf m).

(** The length fields of a segment do not lead outside its buffer. *)
Definition lengths_ok (m : mbuf) : Prop :=
  forall th, mbuf_tcp_hdr m = Some th -> payload_ok m (mbuf_ip_hdr m) th.

(** What a worker trusts in a frame: the lengths of the segment that reaches
    TCP, and for IPv6 that the destination options end inside the buffer. *)
Definition trusted (ws : work_space) `{Dpdk} (m : mbuf) : Prop :=
  if ws_vxlan ws then lengths_ok (default m (rte_pktmbuf_adj m VXLAN_HEADERS_SIZE))
  else if ws_ipv6 ws then
    lengths_ok m
    /\ (ld8 (m_buf m) (mbuf_ip_hdr m + ip6_nxt) = Some IPPROTO_DSTOPTS ->
        exists proto m', ipv6_trim_options m = Some (proto, m') /\ pkt_ok m' /\ lengths_ok m')
  else lengths_ok m /\ forall m', ipv4_trim_options m = Some (Some m') -> lengths_ok m'.

Section Frames.
Context {Dk : Dpdk} {room : Z} {L : DpdkLaws Dk room} (Hroom : LOOP_ROOM <= room).

Lemma rx_pkt m : rx_frame room m -> pkt_ok m.
Proof. unfold rx_frame, pkt_ok, LOOP_ROOM in *. lia. Qed.
Lemma rx_frame_frame m : rx_frame room m -> frame (room := room) m.
Proof. intros H. split; [by apply rx_pkt|]. unfold rx_frame, LOOP_ROOM in *. lia. Qed.
Lemma rx_rx_ok m : rx_frame room m -> lengths_ok m -> rx_ok m.
Proof. intros H Hl. split; [by apply rx_pkt|]. split; [apply H|exact Hl]. Qed.

(** Removing bytes in front keeps the buffer, and the end of the data. *)
Lemma adj_or_same m n : 0 <= n -> let m' := default m (rte_pktmbuf_adj m n) in
  m_buf m' = m_buf m /\ m_data_off m <= m_data_off m' <= m_data_off m + n
  /\ m_data_off m' + m_data_len m' = m_data_off m + m_data_len m
  /\ (0 <= m_data_len m -> 0 <= m_data_len m' <= m_data_len m).
Proof.
  intros Hn. cbv zeta. rewrite adj_ok. unfold adj_doc. destruct (Z.leb_spec n (m_data_len m)); simpl; rsimpl;
    split_and!; done || lia.
Qed.

Lemma vxlan_adj m : rx_frame room m ->
  let m' := default m (rte_pktmbuf_adj m VXLAN_HEADERS_SIZE) in
  frame (room := room) m' /\ bytes (m_buf m').
Proof.
  intros (H1 & H2 & H3 & H4). cbv zeta. destruct (adj_or_same m VXLAN_HEADERS_SIZE ltac:(done)) as (Eb & Ho & Hs & Hl).
  unfold frame, pkt_ok, LOOP_ROOM, VXLAN_HEADERS_SIZE in *. rewrite Eb. specialize (Hl ltac:(lia)).
  split; [|done]. lia.
Qed.

Lemma land15_range x : 0 <= x &&& 15 < 16.
Proof. change 15 with (Z.ones 4). rewrite Z.land_ones by lia. by apply Z.mod_pos_bound. Qed.

Lemma ipv4_trim_some m : rx_frame room m ->
  exists r, ipv4_trim_options m = Some r /\
    forall m', r = Some m' -> frame (room := room) m' /\ bytes (m_buf m').
Proof.
  intros (H1 & H2 & H3 & H4). unfold ipv4_trim_options, ld_ip_ihl. unfold LOOP_ROOM, HDR_ROOM in *. unfold_offsets.
  destruct (ld8_some (m_buf m) (m_data_off m + 14)) as [x Hx]; [lia|]. rewrite Hx. cbn [mbind option_bind].
  pose proof (land15_range x). destruct (Z.ltb_spec (x &&& 15) 5); [exists None; by split|].
  set (skip := (x &&& 15) * 4 - 20) in *. assert (0 <= skip <= 40) as Hk by (unfold skip; lia).
  destruct (adj_or_same m skip ltac:(lia)) as (Eb & Ho & Hs & Hl). rewrite Eb, Hx. cbn [mbind option_bind].
  specialize (Hl ltac:(lia)).
  destruct (st8_some (m_buf m) (m_data_off m + 14) ((x &&& 240) ||| 5)) as (b1 & E1 & L1); [lia|].
  rewrite E1. cbn [mbind option_bind].
  destruct (ld16_some b1 (m_data_off m + 14 + 2)) as [tot ->]; [lia..|]. cbn [mbind option_bind].
  destruct (st16_some b1 (m_data_off m + 14 + 2) (htons (u16 (ntohs tot - skip)))) as (b2 & E2 & L2); [lia..|].
  rewrite E2. cbn [mbind option_bind].
  destruct (ld_bytes_some b2 (m_data_off m) 34) as (hdr & E3 & L3); [lia..|]. 
  change (14 + 20) with 34. rewrite E3. cbn [mbind option_bind].
  destruct (st_bytes_some b2 (m_data_off m + skip) hdr) as (b3 & E4 & L4); [lia..|].
  rewrite E4. cbn [mbind option_bind]. eexists. split; [done|]. intros m' [= <-].
  pose proof (st16_bytes _ _ _ _ E2 (st8_bytes _ _ _ _ E1 H4)) as B2. split.
  - unfold frame, pkt_ok, HDR_ROOM. rsimpl. lia.
  - rsimpl. eapply st_bytes_bytes; [exact E4|done|by eapply ld_bytes_bytes].
Qed.

Lemma ipv6_trim_frame m proto m' : rx_frame room m -> ipv6_trim_options m = Some (proto, m') -> pkt_ok m' ->
  frame (room := room) m' /\ bytes (m_buf m') /\ proto ≠ IPPROTO_DSTOPTS.
Proof.
  intros (H1 & H2 & H3 & H4) E Hp. unfold ipv6_trim_options in E.
  destruct (ld16 _ _) as [plen|]; [|done]. cbn [mbind option_bind] in E.
  destruct (ld8 (m_buf m) (mbuf_ip_hdr m + IP6_HDR_LEN)) as [p|]; [|done]. cbn [mbind option_bind] in E.
  destruct (Z.eqb_spec p IPPROTO_DSTOPTS).
  { injection E as <- <-. split; [|by split]. unfold frame. split; [done|]. unfold pkt_ok, LOOP_ROOM in *. lia. }
  destruct (ld8 (m_buf m) (mbuf_ip_hdr m + IP6_HDR_LEN + 1)) as [len|] eqn:El; [|done]. cbn [mbind option_bind] in E.
  assert (0 <= len < 256) as Hlen.
  { unfold ld8, aget in El. case_match; [|done]. by apply (proj1 (list.Forall_lookup _ _) H4) in El. }
  destruct (st16 _ _ _) as [b1|] eqn:E1; [|done]. cbn [mbind option_bind] in E.
  destruct (st8 _ _ b1) as [b2|] eqn:E2; [|done]. cbn [mbind option_bind] in E.
  destruct (ld_bytes b2 _ _) as [hdr|] eqn:E3; [|done]. cbn [mbind option_bind] in E.
  destruct (st_bytes _ hdr b2) as [b3|] eqn:E4; [|done]. cbn [mbind option_bind] in E.
  injection E as <- <-. destruct (adj_or_same m ((len + 1) * 8) ltac:(lia)) as (Eb & Ho & Hs & Hl).
  specialize (Hl ltac:(lia)).
  assert (length b3 = length (m_buf m)) as L3.
  { unfold st_bytes in E4. case_match; [|done]. injection E4 as <-.
    apply andb_true_iff in H as [? ?]. bool_facts.
    assert (length b2 = length (m_buf m)) as <-.
    { unfold st16, st8 in *. destruct (aset (m_buf m) _ _) as [b0|] eqn:E0; [|done]. cbn [mbind option_bind] in E1.
      apply aset_length in E0, E1, E2. lia. }
    rewrite !length_app, length_take, length_drop. lia. }
  pose proof (st8_bytes _ _ _ _ E2 (st16_bytes _ _ _ _ E1 H4)) as B2.
  split; [|split; [|done]].
  - split; [done|]. rsimpl. rewrite L3. unfold LOOP_ROOM in *. lia.
  - rsimpl. eapply st_bytes_bytes; [exact E4|done|by eapply ld_bytes_bytes].
Qed.
End Frames.

Section Dispatch.
Context {Dk : Dpdk} {room : Z} {L : DpdkLaws Dk room} (D : gset N) (Hroom : LOOP_ROOM <= room).
Abbreviation env_ok := (env_ok D room).
Abbreviation inv := (inv 3 D room).
Abbreviation stepped := (stepped (room := room) D).
Abbreviation runs := (runs (room := room) D).

Let Hhdr : HDR_ROOM <= room.
Proof. unfold LOOP_ROOM in Hroom. lia. Qed.

(** An input that accepts every segment the dispatcher hands on. *)
Definition input_ok (input : l4_input) : Prop := forall m w q, inv w q -> rx_ok m -> wp (input m) (stepped w) w.

Lemma runs_stepped (m : M unit) w q : inv w q -> (env_ok w -> runs m w) -> wp m (stepped w) w.
Proof. intros Hi Hm. eapply env_stepped; [exact Hi|]. apply Hm, Hi. Qed.

Lemma stat_then {A} f (m : unit -> M A) w q : inv w q ->
  f (w_stats w) NS_socket_current = w_stats w NS_socket_current ->
  (forall w1, inv w1 q -> w_ws w1 = w_ws w -> wp (m tt) (stepped w1) w1) ->
  wp (stat_mod f ≫= m) (stepped w) w.
Proof.
  intros Hi Hf Hm. apply wp_bind, wp_stat_mod.
  assert (inv (w <| w_stats ::= f |>) q) as I1.
  { eapply inv_env_step; [exact Hi|]. apply (env_stat_mod (room := room) D); [apply Hi|done]. }
  eapply wp_mono; [apply (Hm _ I1); done|]. done.
Qed.

Lemma wp_other_rx k m w q : inv w q -> k ≠ NS_socket_current ->
  wp (stat_inc k;; mbuf_free m) (stepped w) w.
Proof. intros Hi Hk. eapply drop_free_stepped; [exact Hi|done|]. intros. by apply (wp_mbuf_free (room := room) D). Qed.

Lemma wp_free_stepped m w q : inv w q -> wp (mbuf_free m) (stepped w) w.
Proof. intros Hi. eapply runs_stepped; [exact Hi|]. apply runs_free. Qed.

Lemma wp_kni_or_other m w q : inv w q -> wp (kni_or_other m) (stepped w) w.
Proof.
  intros Hi. unfold kni_or_other. wp_reads. apply wp_if; intros _.
  - eapply runs_stepped; [exact Hi|]. by apply runs_kni.
  - by eapply wp_other_rx.
Qed.

Lemma wp_tcp_or_udp proto m tcp udp other w q : inv w q -> input_ok tcp -> input_ok udp -> rx_ok m ->
  (forall w1, inv w1 q -> w_ws w1 = w_ws w -> wp other (stepped w1) w1) ->
  wp (tcp_or_udp proto m tcp udp other) (stepped w) w.
Proof.
  intros Hi Ht Hu Hm Ho. unfold tcp_or_udp.
  apply wp_if; intros _; [|apply wp_if; intros _; [|by apply Ho]].
  - eapply stat_then; [exact Hi|by ns_simpl|]. intros w1 I1 _. by eapply Ht.
  - eapply stat_then; [exact Hi|by ns_simpl|]. intros w1 I1 _. by eapply Hu.
Qed.

Lemma vxlan_check_some ws m : pkt_ok m -> is_Some (vxlan_check ws (m_buf m) (mbuf_eth_hdr m)).
Proof.
  unfold pkt_ok, HDR_ROOM, vxlan_check. intros []. unfold_offsets. repeat buf_step. by eexists.
Qed.

Lemma tos4_keeps a b s : net_stats_tos_ipv4_rx a b s NS_socket_current = s NS_socket_current.
Proof. unfold net_stats_tos_ipv4_rx. case_match; by ns_simpl. Qed.
Lemma tos6_keeps a s : net_stats_tos_ipv6_rx a s NS_socket_current = s NS_socket_current.
Proof. unfold net_stats_tos_ipv6_rx. cbv zeta. case_match; by ns_simpl. Qed.

Lemma wp_ipv4_input m tcp udp w q : inv w q -> input_ok tcp -> input_ok udp -> rx_frame room m ->
  lengths_ok m -> (forall m', ipv4_trim_options m = Some (Some m') -> lengths_ok m') ->
  wp (ipv4_input m tcp udp) (stepped w) w.
Proof.
  intros Hi Ht Hu Hm Hl1 Hl2. pose proof (rx_pkt Hroom _ Hm) as Hp.
  unfold ipv4_input. eapply stat_then; [exact Hi|by ns_simpl|]. intros w1 I1 _. cbv zeta.
  apply wp_bind. m_step. apply wp_if; intros _; [|apply wp_if; intros _].
  - apply wp_if; intros _; [by eapply wp_other_rx|]. apply wp_bind. m_step.
    apply wp_if; intros _; [by eapply wp_other_rx|]. wp_reads. apply wp_bind. m_step.
    eapply stat_then; [exact I1|apply tos4_keeps|]. intros w2 I2 _.
    apply wp_bind. apply wp_m_ld.
    { unfold ld_ip_ihl. destruct (ld8_some (m_buf m) (mbuf_ip_hdr m)) as [? ->]; [in_packet|by eexists]. }
    intros ihl. apply wp_bind.
    eapply wp_mono with (Q := fun o w' => w' = w2 /\ forall m', o = Some m' ->
      frame (room := room) m' /\ rx_ok m').
    { apply wp_if; intros _.
      - destruct (ipv4_trim_some Hroom m Hm) as (r & Er & Hr). rewrite Er. eapply wp_lift; [done|].
        split; [done|]. intros m' ->. destruct (Hr m' eq_refl) as [Hf Hb]. split; [done|].
        split; [apply Hf|]. split; [done|]. intros th Hth. by apply (Hl2 m' Er).
      - apply wp_ret. split; [done|]. intros m' [= <-]. split; [by apply rx_frame_frame|by eapply rx_rx_ok]. }
    intros o w3 [-> Ho]. destruct o as [m'|]; [|by eapply wp_free_stepped].
    destruct (Ho m' eq_refl) as [Hf Hrx]. apply (wp_tcp_or_udp _ _ _ _ _ _ q); [done..|].
    intros w4 I4 _. apply wp_if; intros _; [|by eapply wp_kni_or_other].
    eapply runs_stepped; [exact I4|]. intros. by apply runs_icmp.
  - eapply runs_stepped; [exact I1|]. intros. by apply runs_arp, rx_frame_frame.
  - by eapply wp_kni_or_other.
Qed.

Lemma wp_ipv6_repeat fuel proto m tcp udp w q : inv w q -> input_ok tcp -> input_ok udp ->
  frame (room := room) m -> rx_ok m ->
  (fuel = O -> proto ≠ IPPROTO_DSTOPTS) ->
  (proto = IPPROTO_DSTOPTS -> fuel = 1%nat /\ exists proto' m', ipv6_trim_options m = Some (proto', m')
    /\ proto' ≠ IPPROTO_DSTOPTS /\ frame (room := room) m' /\ rx_ok m') ->
  wp (ipv6_repeat fuel proto m tcp udp) (stepped w) w.
Proof.
  revert proto m w. induction fuel as [|fuel IH]; intros proto m w Hi Ht Hu Hf Hrx H0 H1; simpl.
  all: apply (wp_tcp_or_udp _ _ _ _ _ _ q); [done..|]; intros w1 I1 _.
  all: apply wp_if; intros _; [eapply runs_stepped; [exact I1|]; intros; by apply runs_icmp6|].
  all: apply wp_if; intros Ed; bool_facts; [|by eapply wp_kni_or_other].
  - by destruct (H0 eq_refl).
  - destruct (H1 Ed) as (E1 & proto' & m' & -> & Hp' & Hf' & Hrx'). apply wp_bind. eapply wp_lift; [done|].
    by apply IH.
Qed.

Lemma wp_ipv6_input m tcp udp w q : inv w q -> input_ok tcp -> input_ok udp -> rx_frame room m ->
  lengths_ok m ->
  (ld8 (m_buf m) (mbuf_ip_hdr m + ip6_nxt) = Some IPPROTO_DSTOPTS ->
    exists proto m', ipv6_trim_options m = Some (proto, m') /\ pkt_ok m' /\ lengths_ok m') ->
  wp (ipv6_input m tcp udp) (stepped w) w.
Proof.
  intros Hi Ht Hu Hm Hl1 Hl2. pose proof (rx_pkt Hroom _ Hm) as Hp.
  unfold ipv6_input. eapply stat_then; [exact Hi|by ns_simpl|]. intros w1 I1 _.
  apply wp_bind. m_step. apply wp_if; intros _; [|by eapply wp_kni_or_other].
  destruct (ld8_some (m_buf m) (mbuf_ip_hdr m + ip6_nxt)) as [proto Hproto]; [in_packet|].
  apply wp_bind. eapply wp_m_ld_eq; [exact Hproto|]. apply wp_if; intros _; [by eapply wp_other_rx|].
  apply wp_bind. m_step. eapply stat_then; [exact I1|apply tos6_keeps|]. intros w2 I2 _.
  apply (wp_ipv6_repeat _ _ _ _ _ _ q); try done; [by apply rx_frame_frame|by eapply rx_rx_ok|].
  intros ->. split; [done|]. destruct (Hl2 Hproto) as (p' & m' & E & Hp' & Hl').
  destruct (ipv6_trim_frame m p' m' Hm E Hp') as (Hf' & Hb' & Hn').
  exists p', m'. split_and!; try done.
Qed.

Lemma wp_vxlan_input m tcp udp w q : inv w q -> input_ok tcp -> input_ok udp -> rx_frame room m ->
  lengths_ok (default m (rte_pktmbuf_adj m VXLAN_HEADERS_SIZE)) ->
  wp (vxlan_input m tcp udp) (stepped w) w.
Proof.
  intros Hi Ht Hu Hm Hl. pose proof (rx_pkt Hroom _ Hm) as Hp. pose proof Hm as (M1 & M2 & M3 & M4).
  unfold vxlan_input. cbv zeta. eapply stat_then; [exact Hi|by ns_simpl|]. intros w1 I1 _. wp_reads.
  apply wp_bind. apply wp_lift_any; [by apply vxlan_check_some|]. intros ok _. apply wp_if; intros _.
  - destruct (vxlan_adj Hroom m Hm) as [Hf Hb]. 
    destruct (adj_or_same m VXLAN_HEADERS_SIZE ltac:(done)) as (Eb & Ho & _).
    set (m' := default m (rte_pktmbuf_adj m VXLAN_HEADERS_SIZE)) in *.
    assert (rx_ok m') as Hrx by (split; [apply Hf|by split]).
    eapply (stepped_bind D w1).
    { unfold vxlan_inner_proto. cbv zeta. wp_reads. unfold LOOP_ROOM, HDR_ROOM in Hroom. unfold id.
      apply wp_bind. apply wp_m_ld; [apply ld16_some; unfold_offsets; rewrite ?Eb; lia|]. intros type.
      apply wp_if; intros _; [|apply wp_if; intros _; [|apply wp_ret; by eapply stepped_refl]].
      - apply wp_bind. apply wp_m_ld; [apply ld8_some; unfold_offsets; rewrite ?Eb; lia|]. intros tos.
        eapply stat_then; [exact I1|apply tos4_keeps|]. intros w2 I2 _. apply wp_bind.
        apply wp_m_ld; [apply ld8_some; unfold_offsets; rewrite ?Eb; lia|]. intros p. apply wp_ret. by eapply stepped_refl.
      - apply wp_bind. apply wp_m_ld; [apply ld32_some; unfold_offsets; rewrite ?Eb; lia|]. intros flow.
        eapply stat_then; [exact I1|apply tos6_keeps|]. intros w2 I2 _. apply wp_bind.
        apply wp_m_ld; [apply ld8_some; unfold_offsets; rewrite ?Eb; lia|]. intros p. apply wp_ret. by eapply stepped_refl. }
    intros [proto|] w2 q2 I2; [|by eapply wp_other_rx].
    apply (wp_tcp_or_udp _ _ _ _ _ _ q2); [done..|]. intros w3 I3 _. by eapply wp_kni_or_other.
  - apply wp_bind. m_step. apply wp_bind. m_step. apply wp_if; intros _; [|apply wp_if; intros _].
    + eapply runs_stepped; [exact I1|]. intros. by apply runs_icmp, rx_frame_frame.
    + eapply runs_stepped; [exact I1|]. intros. by apply runs_arp, rx_frame_frame.
    + by eapply wp_kni_or_other.
Qed.
End Dispatch.

(** ** The clock *)

Definition tsc_ok (t : tsc_time) : Prop := 0 < interval t < 2 ^ 62 /\ 0 <= last t < 2 ^ 62 /\ 0 <= count t.

(** [t] and [load] of a worker: every reading comes from the counter
    (there is none yet before the first iteration), and the load was last computed before the end of the running second. *)
Record clock_ok `{Dpdk} (t : tick_time) (load : cpuload) : Prop := {
  ck_tick : tsc_ok (tick t);
  ck_ms100 : tsc_ok (ms100 t);
  ck_second : tsc_ok (second t);
  ck_now : tsc t = 0 \/ exists h, tsc t = rte_rdtsc h;
  ck_init : exists h, init_tsc load = rte_rdtsc h;
  ck_before : init_tsc load < last (second t) + interval (second t);
}.

(** Counting the elapsed intervals of a clock that is not near its end. *)
Lemma tsc_time_go_some t now : tsc_ok t -> 0 <= now < 2 ^ 62 ->
  exists n t', tsc_time_go t now = Some (n, t') /\ tsc_ok t' /\ interval t' = interval t
    /\ last t <= last t' /\ now < last t' + interval t' /\ (0 < n -> last t + interval t <= now).
Proof.
  intros (Hi & Hl & Hc) Hn. destruct (Z_le_gt_dec (last t) now) as [Hle|Hgt].
  - unfold tsc_time_go, tsc_time_fuel.
    assert (0 <= (now - last t) / interval t) as Hd by (apply Z.div_pos; lia).
    rewrite tsc_time_loop_spec by lia. eexists _, _. split; [done|]. cbn [last interval count].
    pose proof (Z.div_mod (now - last t) (interval t) ltac:(lia)) as Hdm.
    pose proof (Z.mod_pos_bound (now - last t) (interval t) ltac:(lia)) as Hmb.
    split_and!; [|done|nia|nia|].
    + unfold tsc_ok. cbn [last interval count]. split_and!; [lia|lia|nia|nia|].
      case_match; [done|apply (wrap_range 64); lia|done].
    + intros Hpos. assert (interval t <= now - last t); [|lia].
      destruct (Z_lt_le_dec (now - last t) (interval t)); [|done]. rewrite Z.div_small in Hpos by lia. lia.
  - assert (tsc_time_go t now = Some (0, t)) as ->.
    { unfold tsc_time_go. destruct (tsc_time_fuel t now); simpl; rewrite (wrap_small 64) by (unfold in_u; lia);
        (destruct (Z.leb_spec (last t + interval t) now); [lia|done]). }
    exists 0, t. split_and!; done || lia.
Qed.

(** At least 128 cycles after the last computation the load is a number. *)
Lemma cpuload_some load now : 0 <= init_tsc load < 2 ^ 62 -> init_tsc load + 128 <= now < 2 ^ 62 ->
  exists u, cpuload_cal_cpusage load now = Some (u, cpuload_init now).
Proof.
  intros Hi Hn. unfold cpuload_cal_cpusage. rewrite wrap_small by (unfold in_u; lia). cbv zeta.
  destruct (_ <=? _); [|by eexists].
  assert (1 <= (now - init_tsc load) / 128) by (apply Z.div_le_lower_bound; lia).
  destruct (Z.eqb_spec ((now - init_tsc load) / 128) 0); [lia|]. by eexists.
Qed.

Section Loops.
Context {Dk : Dpdk} {room : Z} {L : DpdkLaws Dk room} (D : gset N) (Hroom : LOOP_ROOM <= room).
Abbreviation env_ok := (env_ok D room).
Abbreviation inv := (inv 3 D room).
Abbreviation stepped := (stepped (room := room) D).
Abbreviation runs := (runs (room := room) D).
Abbreviation input_ok := (input_ok (room := room) D).

(** A worker between two operations of its loop. *)
Definition worker_ok (w : world) : Prop :=
  (exists q, inv w q) /\ clock_ok (ws_time (w_ws w)) (ws_load (w_ws w)).

(** What never changes while the loop runs: the options, the kind of flood and
    how frames are read. *)
Definition options (w : world) : config * bool * (bool * bool) :=
  (w_cfg w, ws_flood (w_ws w), (ws_vxlan (w_ws w), ws_ipv6 (w_ws w))).

Definition safe {A} (m : M A) (w : world) : Prop :=
  wp m (fun _ w' => worker_ok w' /\ options w' = options w) w.

Lemma safe_bind {A B} (m : M A) (f : A -> M B) w :
  safe m w -> (forall a w', worker_ok w' -> options w' = options w -> safe (f a) w') -> safe (m ≫= f) w.
Proof.
  intros Hm Hf. apply wp_bind. eapply wp_mono; [exact Hm|]. intros a w1 [H1 E1].
  eapply wp_mono; [by apply Hf|]. intros b w2 [H2 E2]. split; [done|congruence].
Qed.

Lemma safe_ret {A} (a : A) w : worker_ok w -> safe (mret a) w.
Proof. intros. by apply wp_ret. Qed.

Lemma safe_when b m w : worker_ok w -> (b = true -> safe m w) -> safe (st_when b m) w.
Proof. intros Hw Hm. destruct b; [by apply Hm|by apply safe_ret]. Qed.

Lemma safe_stepped {A} (m : M A) w : worker_ok w -> (forall q, inv w q -> wp m (stepped w) w) -> safe m w.
Proof.
  intros [[q Hi] Hc] Hm. eapply wp_mono; [by eapply Hm|]. intros a w' (q' & I' & T).
  assert (ws_time (w_ws w') = ws_time (w_ws w) /\ ws_load (w_ws w') = ws_load (w_ws w)
    /\ options w' = options w) as (Et & El & Eo).
  { unfold static, options in *. by injection T as -> _ _ -> _ _ -> -> _ -> ->. }
  split; [|exact Eo]. split; [by exists q'|by rewrite Et, El].
Qed.

Lemma safe_runs {A} (m : M A) w : worker_ok w -> (env_ok w -> runs m w) -> safe m w.
Proof. intros Hw Hm. apply safe_stepped; [done|]. intros q Hi. eapply env_stepped; [exact Hi|]. apply Hm, Hi. Qed.

(** The clock moves on; nothing else changes. *)
Lemma inv_clock w q t l : inv w q ->
  inv (w <| w_ws ::= fun ws => ws <| ws_time := t |> <| ws_load := l |> |>) q.
Proof. intros [H1 H2 H3 H4]. by split; [..|destruct H4]. Qed.

Lemma safe_time_mod f w : worker_ok w -> clock_ok (f (ws_time (w_ws w))) (ws_load (w_ws w)) ->
  safe (ws_mod (fun ws => ws <| ws_time ::= f |>)) w.
Proof.
  intros [[q Hi] _] Hc. apply wp_ws_mod. split; [|done]. split; [|done]. exists q.
  exact (inv_clock w q (f (ws_time (w_ws w))) (ws_load (w_ws w)) Hi).
Qed.

Lemma safe_load_mod l w : worker_ok w -> clock_ok (ws_time (w_ws w)) l ->
  safe (ws_mod (fun ws => ws <| ws_load := l |>)) w.
Proof.
  intros [[q Hi] _] Hc. apply wp_ws_mod. split; [|done]. split; [|done]. exists q.
  exact (inv_clock w q (ws_time (w_ws w)) l Hi).
Qed.

Lemma safe_time_update w : worker_ok w -> safe time_update w.
Proof.
  intros [[q Hi] [C1 C2 C3 C4 C5 C6]]. unfold time_update, read_tsc, safe. wp_reads. apply wp_bind. wp_reads.
  apply wp_bind, wp_io_log, wp_ret. apply wp_ws_mod. split; [|done]. split.
  - exists q. destruct Hi as [H1 H2 H3 H4]. by split; [..|destruct H4].
  - split; try done. rsimpl. right. by eexists.
Qed.

(** Advancing one counter; [R] is what is learnt about it. *)
Lemma wp_time_go get set w : worker_ok w -> tsc_ok (get (ws_time (w_ws w))) ->
  (forall x, tsc_ok x -> get (ws_time (w_ws w)) = get (ws_time (w_ws w)) ->
    last (get (ws_time (w_ws w))) <= last x -> interval x = interval (get (ws_time (w_ws w))) ->
    clock_ok (set x (ws_time (w_ws w))) (ws_load (w_ws w))) ->
  wp (time_go get set) (fun n w' => worker_ok w' /\ options w' = options w
    /\ ws_load (w_ws w') = ws_load (w_ws w)
    /\ exists x, ws_time (w_ws w') = set x (ws_time (w_ws w)) /\ tsc (ws_time (w_ws w)) < last x + interval x
         /\ (0 < n -> last (get (ws_time (w_ws w))) + interval (get (ws_time (w_ws w))) <= tsc (ws_time (w_ws w)))) w.
Proof.
  intros Hw Ht Hset. unfold time_go. wp_reads. pose proof Hw as [[q Hi] Hc].
  assert (0 <= tsc (ws_time (w_ws w)) < 2 ^ 62) as Hnow
    by (destruct (ck_now _ _ Hc) as [-> | [h ->]]; [lia|apply rdtsc_range]).
  destruct (tsc_time_go_some (get (ws_time (w_ws w))) (tsc (ws_time (w_ws w))) Ht) as (n & x & E & Hx & Hv & Hle & Hlt & Hn).
  { exact Hnow. }
  rewrite E. apply wp_bind. eapply wp_lift; [done|]. apply wp_bind.
  eapply wp_mono with (Q := fun _ w' => w' = w <| w_ws ::= fun ws => ws <| ws_time ::= set x |> |>); [by apply wp_ws_mod|].
  intros ? w' ->. apply wp_ret. split_and!; [|done|done|].
  - split; [|by apply Hset]. exists q. exact (inv_clock w q (set x (ws_time (w_ws w))) (ws_load (w_ws w)) Hi).
  - exists x. by split_and!.
Qed.

Lemma safe_go_tick w : worker_ok w -> safe go_tick w.
Proof.
  intros Hw. pose proof (proj2 Hw) as [C1 C2 C3 C4 C5 C6]. unfold go_tick.
  eapply wp_mono; [apply (wp_time_go _ _ w Hw C1)|by intros n w' (? & ? & _)].
  intros x Hx _ _ _. by split.
Qed.

Lemma safe_go_ms100 w : worker_ok w -> safe go_ms100 w.
Proof.
  intros Hw. pose proof (proj2 Hw) as [C1 C2 C3 C4 C5 C6]. unfold go_ms100.
  eapply wp_mono; [apply (wp_time_go _ _ w Hw C2)|by intros n w' (? & ? & _)].
  intros x Hx _ _ _. by split.
Qed.

(** After a whole second the load can be computed. *)
Definition second_over (w : world) : Prop :=
  init_tsc (ws_load (w_ws w)) + 128 <= tsc (ws_time (w_ws w))
  /\ tsc (ws_time (w_ws w)) < last (second (ws_time (w_ws w))) + interval (second (ws_time (w_ws w))).

Lemma wp_go_second w : worker_ok w ->
  wp go_second (fun n w' => worker_ok w' /\ options w' = options w /\ (0 < n -> second_over w')) w.
Proof.
  intros Hw. pose proof (proj2 Hw) as [C1 C2 C3 C4 C5 C6]. unfold go_second.
  eapply wp_mono; [apply (wp_time_go _ _ w Hw C3)|].
  - intros x Hx _ Hle Hv. split; try done. rsimpl. lia.
  - intros n w' (Hw' & Ho' & Hl & x & Ht & Hlt & Hn). split; [done|]. split; [done|]. intros Hpos.
    specialize (Hn Hpos). unfold second_over. rewrite Hl, Ht. rsimpl. split; [|done].
    destruct C3 as (Hi & Hlast & _), C4 as [Hz | [h Hh]]; [lia|]. destruct C5 as [h' Hh']. rewrite Hh, Hh' in *.
    destruct (rdtsc_grain h h') as [E|E]; lia.
Qed.

Lemma safe_stats_timer w : worker_ok w -> second_over w -> safe stats_timer w.
Proof.
  intros [[q Hi] [C1 C2 C3 C4 C5 C6]] [H1 H2].
  unfold stats_timer, net_stats_timer_handler, safe. wp_reads. unfold id.
  destruct C5 as [h' Hh']. pose proof (rdtsc_range h').
  destruct C4 as [Hz | [h Hh]]; [lia|]. pose proof (rdtsc_range h).
  destruct (cpuload_some (ws_load (w_ws w)) (tsc (ws_time (w_ws w)))) as [u ->]; [lia..|].
  cbn [mbind option_bind]. apply wp_bind. eapply wp_lift; [done|]. apply wp_bind, wp_stat_mod, wp_ws_mod.
  split; [|done]. split; [|split; [done|done|done|by right; exists h|by exists h|done]].
  exists q. destruct Hi as [I1 I2 I3 I4]. split; [done|done|done|]. by destruct I4.
Qed.

Lemma Hhdr : HDR_ROOM <= room.
Proof. unfold LOOP_ROOM in Hroom. lia. Qed.

Lemma safe_slow_timer w : worker_ok w -> safe slow_timer_run w.
Proof.
  intros Hw. unfold slow_timer_run, safe. wp_reads.
  eapply safe_bind.
  { apply safe_when; [done|]. intros _. eapply safe_bind.
    - apply safe_runs; [done|]. by apply runs_kni.
    - intros ? w1 Hw1 _. apply safe_runs; [done|]. apply runs_kni_send, Hhdr. }
  intros ? w1 Hw1 _. eapply safe_bind; [by apply safe_go_ms100|]. intros ms w2 Hw2 _. unfold safe.
  apply wp_if; intros _; [|by apply safe_ret]. wp_reads. eapply safe_bind.
  { apply safe_when; [done|]. intros _. apply safe_runs; [done|]. apply runs_lldp_send, Hhdr. }
  intros ? w3 Hw3 _. apply wp_bind. eapply wp_mono; [by apply wp_go_second|].
  intros n w4 (Hw4 & Eo & Hs). 
  apply (wp_mono _ (fun _ w' => worker_ok w' /\ options w' = options w4)).
  2: { intros ? ? [? ?]. split; [done|congruence]. }
  apply wp_if; intros Hn; bool_facts; [|by apply safe_ret]. specialize (Hs Hn).
  pose proof Hw4 as [[q4 I4] C4]. apply wp_bind.
  eapply wp_mono; [by eapply (wp_timeout_timers D Hhdr)|]. intros ? w5 (q5 & I5 & T5).
  assert (ws_time (w_ws w5) = ws_time (w_ws w4) /\ ws_load (w_ws w5) = ws_load (w_ws w4)
    /\ options w5 = options w4) as (Et & El & Eo5).
  { unfold static, options in *. by injection T5 as -> _ _ -> _ _ -> -> _ -> ->. }
  assert (worker_ok w5) as Hw5 by (split; [by exists q5|by rewrite Et, El]).
  rewrite <- Eo5. change (safe (stats_timer;; ws_get ws_exit) w5). eapply safe_bind.
  - apply safe_stats_timer; [done|]. unfold second_over. by rewrite Et, El.
  - intros ? w6 Hw6 _. by apply wp_ws_get.
Qed.

(** ** Receiving *)

Definition launch_ok (launch : M Z) : Prop := forall w q, inv w q -> wp launch (stepped w) w.

(** Frames that the network card delivers to the worker configured as [ws]. *)
Definition wire (ws : work_space) : Prop :=
  forall h p q n m, m ∈ rte_eth_rx_burst h p q n -> trusted ws m.

Lemma safe_l3 ws m tcp udp w : worker_ok w -> input_ok tcp -> input_ok udp -> rx_frame room m ->
  trusted ws m -> safe (init_l3 ws m tcp udp) w.
Proof.
  intros Hw Ht Hu Hm Htr. apply safe_stepped; [done|]. intros q Hi. unfold init_l3, trusted in *.
  destruct (ws_vxlan ws); [by apply (wp_vxlan_input D Hroom _ _ _ _ q)|]. destruct (ws_ipv6 ws), Htr.
  - by apply (wp_ipv6_input D Hroom _ _ _ _ q).
  - by apply (wp_ipv4_input D Hroom _ _ _ _ q).
Qed.

Lemma wp_rx ws w : worker_ok w -> wire ws ->
  wp rx_burst (fun ms w' => worker_ok w' /\ options w' = options w
    /\ Forall (fun m => rx_frame room m /\ trusted ws m) ms) w.
Proof.
  intros Hw Hwire. unfold rx_burst. wp_reads. unfold id.
  assert (safe (eth_rx_burst (ws_port_id (w_ws w)) (ws_queue_id (w_ws w)) RX_BURST_MAX) w) as Hs.
  { apply safe_runs; [done|]. intros He. eapply wp_mono; [by apply (wp_rx_burst D Hhdr)|]. by intros ? ? [? _]. }
  revert Hs. unfold safe, eth_rx_burst, wp. cbn. intros [H1 H2]. split; [done|]. split; [done|].
  apply list.Forall_forall. intros m Hm. split; [|by eapply Hwire].
  destruct (rx_burst_frame _ _ _ _ _ Hm) as (M1 & M2 & M3 & M4). exact (conj M1 (conj M2 (conj M3 M4))).
Qed.

Lemma safe_rx {B} ws (f : list mbuf -> M B) w : worker_ok w -> wire ws ->
  (forall ms w', worker_ok w' -> Forall (fun m => rx_frame room m /\ trusted ws m) ms -> safe (f ms) w') ->
  safe (rx_burst ≫= f) w.
Proof.
  intros Hw Hwire Hf. apply wp_bind. eapply wp_mono; [by apply (wp_rx ws)|].
  intros ms w1 (H1 & E1 & Hms). eapply wp_mono; [by apply Hf|]. intros b w2 [H2 E2]. split; [done|congruence].
Qed.

Lemma safe_server_recv ws tcp udp w : worker_ok w -> wire ws -> input_ok tcp -> input_ok udp ->
  safe (server_recv_mbuf (init_l3 ws) tcp udp) w.
Proof.
  intros Hw Hwire Ht Hu. unfold server_recv_mbuf. eapply safe_rx; [done|done|]. intros ms w1 Hw1 Hms.
  eapply safe_bind; [|intros; by apply safe_ret].
  revert w1 Hw1. induction Hms as [|m ms [Hm Htr] Hms IH]; intros w1 Hw1; simpl; [by apply safe_ret|].
  eapply safe_bind; [by apply safe_l3|]. intros ? w2 Hw2 _. by apply IH.
Qed.

Lemma safe_launch launch w : worker_ok w -> launch_ok launch -> safe launch w.
Proof. intros Hw Hl. apply safe_stepped; [done|]. intros q Hi. by eapply Hl. Qed.

Lemma safe_client_recv ws tcp udp launch w : worker_ok w -> wire ws -> input_ok tcp -> input_ok udp ->
  launch_ok launch -> safe (client_recv_mbuf (init_l3 ws) tcp udp launch) w.
Proof.
  intros Hw Hwire Ht Hu Hl. unfold client_recv_mbuf. eapply safe_rx; [done|done|]. intros ms w1 Hw1 Hms.
  eapply safe_bind; [|intros; by apply safe_ret]. generalize 0. revert w1 Hw1.
  induction Hms as [|m ms [Hm Htr] Hms IH]; intros w1 Hw1 i; simpl; [by apply safe_ret|].
  eapply safe_bind; [by apply safe_l3|]. intros ? w2 Hw2 _. eapply safe_bind.
  - apply safe_when; [done|]. intros _. eapply safe_bind; [by apply safe_time_update|]. intros ? w3 Hw3 _.
    eapply safe_bind; [by apply safe_launch|]. intros. by apply safe_ret.
  - intros ? w3 Hw3 _. by apply IH.
Qed.

(** ** One iteration *)

Lemma safe_load_add work w : worker_ok w -> safe (load_add work) w.
Proof.
  intros Hw. pose proof (proj2 Hw) as [C1 C2 C3 C4 C5 C6]. unfold load_add, safe. wp_reads. unfold id, CPULOAD_ADD_TSC.
  eapply safe_bind; [|intros; by apply safe_ret]. apply safe_load_mod; [done|].
  split; try done; by case_match.
Qed.

Definition timers_ok (P : config * bool * (bool * bool) -> Prop) (timers : M unit) : Prop :=
  forall w q, inv w q -> P (options w) -> wp timers (stepped w) w.

Lemma safe_timers P timers w : worker_ok w -> P (options w) -> timers_ok P timers -> safe timers w.
Proof. intros Hw HP Ht. apply safe_stepped; [done|]. intros q Hi. by eapply Ht. Qed.

Lemma safe_server_body ws tcp udp P timers work w : worker_ok w -> P (options w) -> wire ws ->
  input_ok tcp -> input_ok udp -> timers_ok P timers ->
  safe (server_loop_body (init_l3 ws) tcp udp timers work) w.
Proof.
  intros Hw HP Hwire Ht Hu Htm. unfold server_loop_body.
  eapply safe_bind; [by apply safe_server_recv|]. intros n w1 H1 E1.
  eapply safe_bind; [by apply safe_time_update|]. intros ? w2 H2 E2.
  eapply safe_bind; [by apply safe_go_tick|]. intros ticks w3 H3 E3.
  eapply safe_bind; [by apply safe_load_add|]. intros work' w4 H4 E4. unfold safe.
  apply wp_if; intros _; [|by apply safe_ret].
  eapply safe_bind; [by apply safe_slow_timer|]. intros stop w5 H5 E5. unfold safe.
  apply wp_if; intros _; [by apply safe_ret|].
  eapply safe_bind; [apply (safe_timers P); [done|congruence|done]|]. intros ? w6 H6 _.
  eapply safe_bind; [apply safe_runs; [done|apply runs_flush]|]. intros ? w7 H7 _. by apply safe_ret.
Qed.

Lemma safe_ack_flush w : worker_ok w -> safe tcp_ack_delay_flush w.
Proof.
  intros Hw. apply safe_stepped; [done|]. intros q Hi.
  eapply wp_mono; [by eapply (wp_ack_delay_flush D Hhdr)|]. intros ? w' [(q' & I' & T' & _) _]. by exists q'.
Qed.

Lemma safe_client_body ws tcp udp P timers launch work w : worker_ok w -> P (options w) -> wire ws ->
  input_ok tcp -> input_ok udp -> timers_ok P timers -> launch_ok launch ->
  safe (client_loop_body (init_l3 ws) tcp udp timers launch work) w.
Proof.
  intros Hw HP Hwire Ht Hu Htm Hl. unfold client_loop_body.
  eapply safe_bind; [by apply safe_client_recv|]. intros n w1 H1 E1.
  eapply safe_bind; [by apply safe_time_update|]. intros ? w2 H2 E2.
  eapply safe_bind; [by apply safe_load_add|]. intros work' w3 H3 E3.
  eapply safe_bind; [by apply safe_launch|]. intros launched w4 H4 E4.
  eapply safe_bind; [by apply safe_go_tick|]. intros ticks w5 H5 E5. unfold safe.
  apply wp_if; intros _; [|by apply safe_ret]. wp_reads.
  eapply safe_bind; [apply safe_when; [done|intros _; by apply safe_ack_flush]|]. intros ? w6 H6 E6.
  eapply safe_bind; [by apply safe_slow_timer|]. intros stop w7 H7 E7. unfold safe.
  apply wp_if; intros _; [by apply safe_ret|].
  eapply safe_bind; [apply (safe_timers P); [done|congruence|done]|]. intros ? w8 H8 _.
  eapply safe_bind; [by apply safe_time_update|]. intros ? w9 H9 _.
  eapply safe_bind; [by apply safe_launch|]. intros ? w10 H10 _.
  eapply safe_bind; [apply safe_runs; [done|apply runs_flush]|]. intros ? w11 H11 _. by apply safe_ret.
Qed.

(** ** The chosen loop *)

(** The timer process of the client ends: no flood over TCP, and over UDP no
    keep-alive interval. *)
Definition timers_end (o : config * bool * (bool * bool)) : Prop :=
  let '(cfg, flood, _) := o in
  c_server cfg = true
  \/ (if c_protocol cfg =? IPPROTO_TCP then flood = false
      else c_keepalive cfg = false \/ c_keepalive_request_interval cfg = 0).

Definition tcp_end (o : config * bool * (bool * bool)) : Prop := o.1.2 = false.
Definition udp_end (o : config * bool * (bool * bool)) : Prop :=
  c_keepalive o.1.1 = false \/ c_keepalive_request_interval o.1.1 = 0.

Lemma tcp_server_input : input_ok tcp_server_process.
Proof. intros m w q Hi Hm. by eapply (wp_server_process D Hhdr). Qed.
Lemma tcp_client_input : input_ok tcp_client_process.
Proof. intros m w q Hi Hm. by eapply (wp_client_process D Hhdr). Qed.
Lemma tcp_drop_input : input_ok tcp_drop.
Proof. intros m w q Hi [Hm _]. by eapply (wp_drop D). Qed.
Lemma udp_server_input : input_ok udp_server_process.
Proof. intros m w q Hi [Hm _]. by eapply (wp_udp_server D Hhdr). Qed.
Lemma udp_client_input : input_ok udp_client_process.
Proof. intros m w q Hi [Hm _]. by eapply (wp_udp_client D Hhdr). Qed.
Lemma udp_drop_input : input_ok udp_drop.
Proof. intros m w q Hi [Hm _]. by eapply (wp_udp_drop D). Qed.
Hint Resolve tcp_server_input tcp_client_input tcp_drop_input udp_server_input udp_client_input udp_drop_input : core.

Lemma tcp_client_timers_ok : timers_ok tcp_end tcp_client_socket_timer_process.
Proof. intros w q Hi Hf. by eapply (wp_client_timers D Hhdr). Qed.
Lemma tcp_server_timers_ok : timers_ok (fun _ => True) tcp_server_socket_timer_process.
Proof. intros w q Hi _. by eapply (wp_server_timers D Hhdr). Qed.
Lemma udp_client_timers_ok : timers_ok udp_end udp_client_socket_timer_process.
Proof. intros w q Hi Hf. by eapply (wp_udp_client_timers D Hhdr). Qed.
Lemma udp_server_timers_ok : timers_ok (fun _ => True) udp_server_socket_timer_process.
Proof. intros w q Hi _. apply wp_ret. by eapply stepped_refl. Qed.
Hint Resolve tcp_client_timers_ok tcp_server_timers_ok udp_client_timers_ok udp_server_timers_ok : core.

Lemma safe_run_loop cfg ws body work w : worker_ok w -> w_cfg w = cfg -> wire ws -> timers_end (options w) ->
  init_run_loop cfg ws = Some body -> safe (body work) w.
Proof.
  intros Hw Hcfg Hwire Hend. unfold init_run_loop, options, timers_end in *. rewrite Hcfg in Hend.
  destruct (c_protocol cfg =? IPPROTO_TCP).
  - intros [= <-]. unfold tcp_run_loop. destruct (c_server cfg).
    + by apply (safe_server_body ws _ _ (fun _ => True)).
    + destruct Hend as [|Hend]; [done|]. apply (safe_client_body ws _ _ tcp_end); try done; auto.
      intros w1 q1 I1. by eapply (wp_client_launch D Hhdr).
  - destruct (c_protocol cfg =? IPPROTO_UDP); [|done]. intros [= <-]. unfold udp_run_loop.
    destruct (c_server cfg).
    + by apply (safe_server_body ws _ _ (fun _ => True)).
    + destruct Hend as [|Hend]; [done|]. apply (safe_client_body ws _ _ udp_end); try done; auto.
      * unfold udp_end. cbn. by rewrite Hcfg.
      * intros w1 q1 I1. by eapply (wp_udp_launch D Hhdr).
Qed.

Lemma safe_iterations cfg ws body n work w : worker_ok w -> w_cfg w = cfg -> wire ws ->
  timers_end (options w) -> init_run_loop cfg ws = Some body -> safe (run_iterations n body work) w.
Proof.
  intros Hw Hcfg Hwire Hend Hb. revert work w Hw Hcfg Hend.
  induction n as [|n IH]; intros work w Hw Hcfg Hend; simpl; [by apply safe_ret|].
  eapply safe_bind; [by eapply safe_run_loop|]. intros [work'|] w1 H1 E1; [|by apply safe_ret].
  apply IH; [done| |by rewrite E1]. unfold options in E1. by injection E1 as ->.
Qed.

(** ** The wait for the gateway *)

(** The gateway's address is known. *)
Definition gateway_known (w : world) : bool := negb (eth_addr_is_zero (np_gateway_mac (ws_port (w_ws w)))).

Lemma wp_neigh_poll ws n w : worker_ok w -> wire ws ->
  wp (neigh_poll n (init_l3 ws)) (fun known w' => worker_ok w' /\ options w' = options w
    /\ (n ≠ 0%nat -> known = gateway_known w')) w.
Proof.
  intros Hw Hwire. revert w Hw. induction n as [|n IH]; intros w Hw; simpl; [by apply wp_ret|].
  apply wp_bind. eapply wp_mono; [by apply (safe_server_recv ws)|]. intros ? w1 [H1 E1].
  apply wp_bind. eapply wp_mono; [apply (safe_runs work_space_tx_flush w1 H1), runs_flush|]. intros ? w2 [H2 E2].
  unfold neigh_gateway_is_enable. apply wp_bind. wp_reads. apply wp_ret. apply wp_if; intros Hk.
  - apply wp_ret. split; [done|]. split; [congruence|]. intros _. by rewrite <- Hk.
  - destruct n as [|n].
    + apply wp_ret. split; [done|]. split; [congruence|]. intros _. by rewrite <- Hk.
    + eapply wp_mono; [by apply IH|]. intros k w3 (H3 & E3 & Hk3). split; [done|]. split; [congruence|]. auto.
Qed.

Lemma wp_neigh_check ws n w : worker_ok w -> wire ws ->
  wp (neigh_check_loop n (init_l3 ws)) (fun r w' => worker_ok w' /\ options w' = options w
    /\ (n ≠ 0%nat -> r = if gateway_known w' then 0 else -1)) w.
Proof.
  intros Hw Hwire. revert w Hw. induction n as [|n IH]; intros w Hw.
  { simpl. by apply wp_ret. }
  change (neigh_check_loop (S n) (init_l3 ws)) with
    (neigh_resolve_gateway_mac_address;;
     known ← neigh_poll 1000 (init_l3 ws);
     if (known : bool) then mret 0 else neigh_check_loop n (init_l3 ws)).
  apply wp_bind.
  eapply wp_mono; [apply (safe_runs _ w Hw), runs_resolve, Hhdr|]. intros ? w1 [H1 E1].
  apply wp_bind. eapply wp_mono; [by apply wp_neigh_poll|]. intros known w2 (H2 & E2 & Hk).
  specialize (Hk ltac:(discriminate)). apply wp_if; intros Ek.
  - apply wp_ret. split; [done|]. split; [congruence|]. intros _. by rewrite <- Hk, Ek.
  - destruct n as [|n].
    + simpl. apply wp_ret. split; [done|]. split; [congruence|]. intros _. by rewrite <- Hk, Ek.
    + eapply wp_mono; [by apply IH|]. intros r w3 (H3 & E3 & Hr). split; [done|]. split; [congruence|]. auto.
Qed.
End Loops.
