(* ===== verification/LoopProps.v ===== *)
(** * LoopProps: contracts of a worker

    Any number of iterations of the loop that [tcp_init] or [udp_init] chooses
    runs to its end, the start-up's wait for the gateway decides by the
    gateway's address, and the IPv4 options are removed without touching the
    payload. *)

From S2P Require Import Prelude SocketNode Csum IpRange Tick Config Mbuf NetStats World.
From S2P Require Import WorkSpace Socket SocketTimer HttpParse Kni TcpPacket Tcp Neigh.
From S2P Require Import Udp Loop Env NeighInv SocketInv TcpInv TcpTimer.
From S2P Require Import TcpSafety TcpProps UdpInv LoopInv.



(** ** IPv4 options *)

Lemma st_bytes_at p bs b b' k : st_bytes p bs b = Some b' -> 0 <= k ->
  ld8 b' k = if (p <=? k) && (k <? p + Z.of_nat (length bs)) then bs !! Z.to_nat (k - p) else ld8 b k.
Proof.
  unfold st_bytes, ld8, aget. destruct (_ && _) eqn:E; [|done]. intros [= <-] Hk. bool_facts.
  destruct (Z.leb_spec 0 k); [|lia]. rewrite lookup_app, length_take, Nat.min_l by lia.
  rewrite lookup_app. destruct (Z.leb_spec p k); cbn [andb].
  - rewrite lookup_take_ge by lia. destruct (Z.ltb_spec k (p + Z.of_nat (length bs))).
    + replace (Z.to_nat k - Z.to_nat p)%nat with (Z.to_nat (k - p)) by lia.
      destruct (lookup_lt_is_Some_2 bs (Z.to_nat (k - p))) as [x ->]; [lia|done].
    + rewrite lookup_ge_None_2 by lia. rewrite lookup_drop. f_equal. lia.
  - by rewrite lookup_take_lt by lia; destruct (lookup_lt_is_Some_2 b (Z.to_nat k)) as [x ->]; [lia|].
Qed.

Lemma ld_bytes_at b p n bs k : ld_bytes b p n = Some bs -> 0 <= k < n -> bs !! Z.to_nat k = ld8 b (p + k).
Proof.
  unfold ld_bytes, ld8, aget. destruct (_ && _) eqn:E; [|done]. intros [= <-] Hk. bool_facts.
  destruct (Z.leb_spec 0 (p + k)); [|lia]. rewrite lookup_take_lt, lookup_drop by lia. f_equal. lia.
Qed.

Lemma st8_at p v b b' k : st8 p v b = Some b' -> ld8 b' k = if k =? p then Some (v mod 256) else ld8 b k.
Proof.
  unfold st8, ld8. intros E. rewrite (aget_aset _ _ _ _ _ E). by destruct (Z.eqb_spec k p), (decide (p = k)).
Qed.

Lemma st16_at p v b b' k : st16 p v b = Some b' ->
  ld8 b' k = if k =? p + 1 then Some (v / 256 mod 256) else if k =? p then Some (v mod 256) else ld8 b k.
Proof.
  unfold st16. destruct (st8 p v b) as [b1|] eqn:E1; [|done]. cbn [mbind option_bind]. intros E2.
  by rewrite (st8_at _ _ _ _ _ E2), (st8_at _ _ _ _ _ E1).
Qed.

(** The new first byte: version, and a header of five words. *)
Lemma ihl5_bits x : 0 <= x < 256 ->
  ((x &&& 240) ||| 5) mod 256 &&& 15 = 5 /\ ((x &&& 240) ||| 5) mod 256 >>> 4 = x >>> 4.
Proof.
  intros Hx. set (f := fun x => ((x &&& 240) ||| 5) mod 256).
  assert (forallb (fun x => (f x &&& 15 =? 5) && (f x >>> 4 =? x >>> 4)) (seqZ 0 256) = true) as H by (vm_compute; done).
  rewrite forallb_forall in H. specialize (H x). rewrite <- list_elem_of_In, elem_of_seqZ in H.
  specialize (H ltac:(lia)). cbv beta in H. by bool_facts.
Qed.

(** C27: a header shorter than 20 bytes is refused; otherwise the options of
    an IPv4 packet are removed by moving the Ethernet and IP headers up to the
    payload: the packet starts later by the length of the options, its header
    says five words and the total length without the options, every other byte
    of the headers and every byte of the payload is the one received. *)
Theorem ipv4_trim_options_removes {Dk : Dpdk} {room} {L : DpdkLaws Dk room} m ihl tot :
  LOOP_ROOM <= room -> rx_frame room m -> let off := m_data_off m in let iph := mbuf_ip_hdr m in
  ld_ip_ihl (m_buf m) iph = Some ihl -> ld16 (m_buf m) (iph + iph_tot_len) = Some (htons tot) -> in_u 16 tot ->
  let skip := ihl * 4 - 20 in skip <= m_data_len m ->
  (ihl < 5 -> ipv4_trim_options m = Some None) /\
  (5 <= ihl -> exists m', ipv4_trim_options m = Some (Some m')
    /\ m_data_off m' = off + skip /\ m_data_len m' = m_data_len m - skip
    /\ ld_ip_ihl (m_buf m') (mbuf_ip_hdr m') = Some 5
    /\ ld_ip_version (m_buf m') (mbuf_ip_hdr m') = ld_ip_version (m_buf m) iph
    /\ ld16 (m_buf m') (mbuf_ip_hdr m' + iph_tot_len) = Some (htons (u16 (tot - skip)))
    /\ (forall k, 0 <= k < 34 -> k ≠ 14 -> k ≠ 16 -> k ≠ 17 ->
          ld8 (m_buf m') (m_data_off m' + k) = ld8 (m_buf m) (off + k))
    /\ (forall k, 0 <= k -> ld8 (m_buf m') (m_data_off m' + 34 + k) = ld8 (m_buf m) (iph + ihl * 4 + k))).
Proof.
  intros Hroom (H1 & H2 & H3 & H4) off iph Hihl Htot Rtot skip Hskip.
  unfold ipv4_trim_options. fold iph. cbv zeta. rewrite Hihl. cbn [mbind option_bind]. unfold LOOP_ROOM, HDR_ROOM in *.
  split; intros H5; [by destruct (Z.ltb_spec ihl 5); [|lia]|]. destruct (Z.ltb_spec ihl 5); [lia|].
  fold skip. rewrite adj_ok. unfold adj_doc. destruct (Z.leb_spec skip (m_data_len m)); [|lia]. cbn [default]. unfold id. rsimpl.
  assert (exists x, ld8 (m_buf m) iph = Some x /\ ihl = x &&& 15 /\ 0 <= x < 256) as (x & Hx & -> & Rx).
  { unfold ld_ip_ihl in Hihl. destruct (ld8 (m_buf m) iph) as [x|] eqn:Hx; [|done]. injection Hihl as <-.
    exists x. split; [done|]. split; [done|]. unfold ld8, aget in Hx. case_match; [|done].
    by apply (proj1 (list.Forall_lookup _ _) H4) in Hx. }
  pose proof (land15_range x). unfold iph, off in *. unfold_offsets. rewrite Hx. cbn [mbind option_bind].
  destruct (st8_some (m_buf m) (m_data_off m + 14) ((x &&& 240) ||| 5)) as (b1 & E1 & L1); [lia|].
  rewrite E1. cbn [mbind option_bind].
  assert (ld16 b1 (m_data_off m + 14 + 2) = Some (htons tot)) as ->.
  { unfold ld16. fold (ld8 b1). rewrite !(st8_at _ _ _ _ _ E1).
    destruct (Z.eqb_spec (m_data_off m + 14 + 2) (m_data_off m + 14)); [lia|].
    destruct (Z.eqb_spec (m_data_off m + 14 + 2 + 1) (m_data_off m + 14)); [lia|]. exact Htot. }
  cbn [mbind option_bind]. rewrite bswap16_involutive by done.
  set (new := htons (u16 (tot - skip))). pose proof (bswap16_range (u16 (tot - skip))) as Rnew. fold new in Rnew.
  destruct (st16_some b1 (m_data_off m + 14 + 2) new) as (b2 & E2 & L2); [lia..|].
  rewrite E2. cbn [mbind option_bind].
  destruct (ld_bytes_some b2 (m_data_off m) 34) as (hdr & E3 & L3); [lia..|].
  change (14 + 20) with 34. rewrite E3. cbn [mbind option_bind].
  destruct (st_bytes_some b2 (m_data_off m + skip) hdr) as (b3 & E4 & L4); [lia..|].
  rewrite E4. cbn [mbind option_bind]. eexists. split; [done|]. rsimpl.
  (* every byte of the result *)
  assert (forall k, 0 <= k < 34 -> ld8 b3 (m_data_off m + skip + k) = ld8 b2 (m_data_off m + k)) as Hhdr.
  { intros k Hk. rewrite (st_bytes_at _ _ _ _ _ E4) by lia.
    destruct (Z.leb_spec (m_data_off m + skip) (m_data_off m + skip + k)); [|lia].
    destruct (Z.ltb_spec (m_data_off m + skip + k) (m_data_off m + skip + Z.of_nat (length hdr))); [|lia].
    cbn [andb]. rewrite <- (ld_bytes_at _ _ _ _ _ E3 Hk). f_equal. lia. }
  assert (forall k, ld8 b2 (m_data_off m + k) = if k =? 17 then Some (new / 256 mod 256)
    else if k =? 16 then Some (new mod 256) else if k =? 14 then Some (((x &&& 240) ||| 5) mod 256)
    else ld8 (m_buf m) (m_data_off m + k)) as Hb2.
  { intros k. rewrite (st16_at _ _ _ _ _ E2), (st8_at _ _ _ _ _ E1).
    by repeat match goal with |- context [?a =? ?b] => destruct (Z.eqb_spec a b) end; try lia. }
  destruct (ihl5_bits x Rx) as [B5 Bv]. split_and!; try done.
  - unfold ld_ip_ihl. rewrite Hhdr, Hb2 by lia. cbn [Z.eqb Pos.eqb mbind option_bind]. by rewrite B5.
  - unfold ld_ip_version. rewrite Hhdr, Hb2, Hx by lia. cbn [Z.eqb Pos.eqb mbind option_bind]. by rewrite Bv.
  - unfold ld16. fold (ld8 b3). replace (m_data_off m + skip + 14 + 2) with (m_data_off m + skip + 16) by lia.
    replace (m_data_off m + skip + 16 + 1) with (m_data_off m + skip + 17) by lia. rewrite !Hhdr, !Hb2 by lia.
    cbn [Z.eqb Pos.eqb mbind option_bind]. f_equal.
    unfold in_u in Rnew. change (2 ^ 16) with 65536 in Rnew. Z.to_euclidean_division_equations. lia.
  - intros k Hk N1 N2 N3. rewrite Hhdr, Hb2 by lia.
    by repeat match goal with |- context [k =? ?b] => destruct (Z.eqb_spec k b) end; try lia.
  - intros k Hk. rewrite (st_bytes_at _ _ _ _ _ E4) by lia.
    destruct (Z.ltb_spec (m_data_off m + skip + 34 + k) (m_data_off m + skip + Z.of_nat (length hdr))); [lia|].
    rewrite andb_false_r.
    replace (m_data_off m + skip + 34 + k) with (m_data_off m + (skip + 34 + k)) by lia. 
    transitivity (ld8 b2 (m_data_off m + (skip + 34 + k))); [done|]. rewrite Hb2.
    repeat match goal with |- context [?a =? ?b] => destruct (Z.eqb_spec a b) end; try lia.
    f_equal. unfold skip. lia.
Qed.

(** ** The ICMP echo *)

(** C28: the reply to an echo request changes the type and the checksum and no
    other byte.  The checksum is patched by an addition without end-around
    carry: the reply of a valid request is valid exactly if the checksum field,
    read as a little-endian word, is below 65528. *)
Theorem icmp_echo_reply_checksum b p code c rest :
  0 <= p -> p + 4 <= Z.of_nat (length b) -> ld8 b p = Some ICMP_ECHO -> ld8 b (p + 1) = Some code ->
  ld16 b (p + 2) = Some c -> in_u 8 code -> in_u 16 c -> Forall (in_u 16) rest ->
  cksum_accepts ((ICMP_ECHO + 256 * code) :: rest) c ->
  exists b' c', icmp_set_reply p b = Some b' /\ ld8 b' p = Some ICMP_ECHOREPLY /\ ld8 b' (p + 1) = Some code
    /\ (forall k, k ≠ p -> k ≠ p + 2 -> k ≠ p + 3 -> ld8 b' k = ld8 b k)
    /\ ld16 b' (p + 2) = Some c'
    /\ (cksum_accepts ((ICMP_ECHOREPLY + 256 * code) :: rest) c' <-> c < 65528).
Proof.
  unfold ICMP_ECHO, ICMP_ECHOREPLY, in_u. change (2 ^ 8) with 256. change (2 ^ 16) with 65536.
  intros Hp Hl Ht Hcode Hc Rcode Rc Hrest Hacc. unfold icmp_set_reply, ICMP_ECHOREPLY.
  destruct (st8_some b p 0) as (b1 & E1 & L1); [lia|]. rewrite E1. cbn [mbind option_bind].
  assert (ld16 b1 (p + 2) = Some c) as ->.
  { unfold ld16 in *. fold (ld8 b1). fold (ld8 b) in Hc. rewrite !(st8_at _ _ _ _ _ E1).
    destruct (Z.eqb_spec (p + 2) p), (Z.eqb_spec (p + 2 + 1) p); try lia. exact Hc. }
  cbn [mbind option_bind]. change (htons 2048) with 8. set (c' := u16 (c + 8)).
  destruct (st16_some b1 (p + 2) c') as (b2 & E2 & L2); [lia..|]. exists b2, c'. split; [exact E2|].
  assert (forall k, ld8 b2 k = if k =? p + 3 then Some (c' / 256 mod 256) else if k =? p + 2 then Some (c' mod 256)
    else if k =? p then Some 0 else ld8 b k) as Hk.
  { intros k. rewrite (st16_at _ _ _ _ _ E2), (st8_at _ _ _ _ _ E1). by replace (p + 2 + 1) with (p + 3) by lia. }
  assert (0 <= c' < 65536) as Rc' by (apply (wrap_range 16); lia). split_and!.
  - rewrite Hk. repeat match goal with |- context [?a =? ?b] => destruct (Z.eqb_spec a b) end; done || lia.
  - rewrite Hk, <- Hcode. repeat match goal with |- context [?a =? ?b] => destruct (Z.eqb_spec a b) end; done || lia.
  - intros k N1 N2 N3. rewrite Hk.
    repeat match goal with |- context [?a =? ?b] => destruct (Z.eqb_spec a b) end; done || lia.
  - unfold ld16. fold (ld8 b2). rewrite !Hk.
    repeat match goal with |- context [?a =? ?b] => destruct (Z.eqb_spec a b) end; try lia.
    cbn [mbind option_bind]. f_equal. Z.to_euclidean_division_equations. lia.
  - pose proof (words_sum_nonneg rest Hrest) as Hn. revert Hacc. unfold cksum_accepts. simpl words_sum.
    set (s := 8 + 256 * code + words_sum rest + c). intros Hacc.
    assert (c' = if c <? 65528 then c + 8 else c + 8 - 65536) as Ec.
    { unfold c', wrap. change (2 ^ 16) with 65536. destruct (Z.ltb_spec c 65528).
      - apply Z.mod_small. lia.
      - symmetry. apply (Z.mod_unique _ _ 1); lia. }
    destruct (Z.ltb_spec c 65528) as [Hlt|Hge].
    + split; [done|]. intros _. replace (0 + 256 * code + words_sum rest + c') with s by (unfold s; lia). done.
    + split; [|lia]. replace (0 + 256 * code + words_sum rest + c') with (s - 65536) by (unfold s; lia).
      intros Hacc'. exfalso. pose proof (oc16_mod s) as M1. pose proof (oc16_mod (s - 65536)) as M2.
      rewrite Hacc in M1. rewrite Hacc' in M2. Z.to_euclidean_division_equations. lia.
Qed.

(** ** Examples

    A server with two closed sockets whose card delivers one SYN, from
    10.0.0.1:1 to 10.0.0.2:80, in the first burst. *)

Definition syn_dpdk : Dpdk := {|
  rte_pktmbuf_alloc := @rte_pktmbuf_alloc Mbuf.Demo.dpdk;
  rte_eth_tx_burst := @rte_eth_tx_burst Mbuf.Demo.dpdk;
  rte_eth_rx_burst h _ _ n := if (length h =? 0)%nat && (1 <=? n) then [demo_seg 7 0 2] else [];
  rte_ring_enqueue := @rte_ring_enqueue Mbuf.Demo.dpdk;
  rte_ring_count := @rte_ring_count Mbuf.Demo.dpdk;
  rte_ring_dequeue_bulk := @rte_ring_dequeue_bulk Mbuf.Demo.dpdk;
  rte_rdtsc := @rte_rdtsc Mbuf.Demo.dpdk;
  rte_pktmbuf_append := append_doc;
  rte_pktmbuf_adj := adj_doc;
  rte_pktmbuf_trim := trim_doc;
  rte_ipv4_cksum := @rte_ipv4_cksum Mbuf.Demo.dpdk;
  rte_ipv4_udptcp_cksum := @rte_ipv4_udptcp_cksum Mbuf.Demo.dpdk;
  rte_ipv6_udptcp_cksum := @rte_ipv6_udptcp_cksum Mbuf.Demo.dpdk;
  rte_raw_cksum := @rte_raw_cksum Mbuf.Demo.dpdk;
  rte_ipv4_frag_pkt_is_fragmented := @rte_ipv4_frag_pkt_is_fragmented Mbuf.Demo.dpdk;
  RTE_MBUF_F_RX_IP_CKSUM_BAD := 16;
  RTE_MBUF_F_RX_L4_CKSUM_BAD := 8;
  RTE_MBUF_F_TX_IPV4 := 2 ^ 55;
  RTE_MBUF_F_TX_IPV6 := 2 ^ 56;
  RTE_MBUF_F_TX_IP_CKSUM := 2 ^ 54;
  RTE_MBUF_F_TX_TCP_CKSUM := 2 ^ 52;
  RTE_MBUF_F_TX_UDP_CKSUM := 3 * 2 ^ 52;
  RTE_MBUF_F_TX_VLAN := 2 ^ 57;
|}.
#[local] Existing Instance syn_dpdk.

#[local] Instance syn_laws : DpdkLaws syn_dpdk 200.
Proof.
  split; simpl; try done; try lia.
  - intros h p q n. destruct ((length h =? 0)%nat && (1 <=? n)) eqn:E; simpl; [|lia]. bool_facts. lia.
  - intros h p q n m Hm. destruct ((length h =? 0)%nat && (1 <=? n)); [|by apply elem_of_nil in Hm].
    apply list_elem_of_singleton in Hm as ->. split; [done|]. split; [done|]. split; [done|].
    apply bytes_ok. vm_compute. done.
  - intros h p m [= <-]. simpl. lia.
Qed.

Definition demo_server : world :=
  let swap sk := sk <| sk_laddr := sk_faddr sk |> <| sk_faddr := sk_laddr sk |>
                    <| sk_lport := sk_fport sk |> <| sk_fport := sk_lport sk |> in
  World.Demo.demo_world
    <| w_sockets := <[0%N := swap (World.Demo.demo_socket 1)]> {[1%N := swap (World.Demo.demo_socket 2)]} |>
    <| w_cfg ::= fun c => c <| c_server := true |> |>.

Lemma demo_server_inv : inv 3 demo_D 200 demo_server q_none.
Proof.
  destruct demo_inv as [H1 H2 H3 H4]. split.
  - exact H1.
  - split; [|by intros t i ?%elem_of_nil].
    intros i [-> | ->]%demo_D_cases; eexists; (split; [reflexivity|]); unfold retr_ok; cbn; split_and!; done || lia.
  - reflexivity.
  - destruct H4 as [E1 E2 E3 E4 E5 E6 E7 _ E9 E10].
    split; [exact E1|exact E2|exact E3|exact E4|exact E5|exact E6|exact E7| |exact E9|exact E10].
    intros []; vm_compute; split_and!; done.
Qed.

Lemma demo_server_clock : clock_ok (ws_time (w_ws demo_server)) (ws_load (w_ws demo_server)).
Proof.
  split; [vm_compute; split_and!; done..| | |reflexivity].
  - right. exists (replicate 10 (Io_rdtsc 0)). reflexivity.
  - exists []. reflexivity.
Qed.

Lemma demo_server_wire : wire (w_ws demo_server).
Proof.
  intros h p q n m Hm. simpl in Hm.
  destruct ((length h =? 0)%nat && (1 <=? n)); [|by apply elem_of_nil in Hm].
  apply list_elem_of_singleton in Hm as ->.
  change (trusted (w_ws demo_server) (demo_seg 7 0 2)) with (lengths_ok (demo_seg 7 0 2)
    /\ forall m', ipv4_trim_options (demo_seg 7 0 2) = Some (Some m') -> lengths_ok m'). split.
  - intros th Hth d l E. vm_compute in Hth. injection Hth as <-. vm_compute in E. injection E as <- <-. by vm_compute.
  - intros m' E. vm_compute in E. injection E as <-. intros th Hth d l Hd. vm_compute in Hth. injection Hth as <-.
    vm_compute in Hd. injection Hd as <- <-. by vm_compute.
Qed.

Lemma demo_server_room : LOOP_ROOM <= 200.
Proof. by vm_compute. Qed.

(** The SYN opens the first socket. *)
Example demo_syn_received :
  match init_run_loop (w_cfg demo_server) (w_ws demo_server) with
  | Some body =>
      match body 0 demo_server with
      | Ok (_, w) => (sk_st <$> w_sockets w !! 0%N, w_stats w NS_syn_rx, w_stats w NS_socket_current)
      | Err _ => (None, 0, 0)
      end
  | None => (None, 0, 0)
  end = (Some SK_SYN_RECEIVED, 1, 1).
Proof. vm_compute. reflexivity. Qed.



(** A packet with one word of options. *)
Definition demo_options : mbuf :=
  Mbuf 9 (replicate 128 0 ++ replicate 14 2 ++ [70; 0; 0; 44; 0; 0; 64; 0; 64; 6; 0; 0; 10; 0; 0; 1; 10; 0; 0; 2]
    ++ [1; 1; 1; 0] ++ replicate 234 5) 128 58 0 0 0 0 None.

Lemma ipv4_trim_options_removes_witness : exists m', ipv4_trim_options demo_options = Some (Some m')
  /\ m_data_off m' = 132 /\ m_data_len m' = 54 /\ ld_ip_ihl (m_buf m') 146 = Some 5
  /\ ld16 (m_buf m') 148 = Some (htons 40).
Proof.
  destruct (proj2 (ipv4_trim_options_removes (room := 200) demo_options 6 44 demo_server_room
    ltac:(split; [by vm_compute|split; [by vm_compute|split; [by vm_compute|apply bytes_ok; by vm_compute]]])
    ltac:(by vm_compute) ltac:(by vm_compute) ltac:(concrete_range) ltac:(by vm_compute)) ltac:(by vm_compute))
    as (m' & E & Ho & Hl & Hi & _ & Ht & _).
  exists m'. split; [exact E|]. split; [exact Ho|]. split; [exact Hl|].
  unfold mbuf_ip_hdr in Hi, Ht. rewrite Ho in Hi, Ht. split; [exact Hi|exact Ht].
Defined.

Lemma icmp_echo_reply_checksum_witness : exists b' c', icmp_set_reply 0 [8; 0; 247; 255] = Some b'
  /\ ld8 b' 0 = Some 0 /\ ld8 b' 1 = Some 0
  /\ (forall k, k ≠ 0 -> k ≠ 2 -> k ≠ 3 -> ld8 b' k = ld8 [8; 0; 247; 255] k)
  /\ ld16 b' 2 = Some c' /\ (cksum_accepts [0] c' <-> 65527 < 65528).
Proof.
  apply (icmp_echo_reply_checksum [8; 0; 247; 255] 0 0 65527 []);
    first [reflexivity|discriminate|apply List.Forall_nil|concrete_range|by vm_compute].
Defined.
