(* ===== verification/SocketTableInv.v ===== *)
(** * SocketTableInv: what the initialisation of the sockets establishes

    Every configured connection - a client's address and port, a server's
    address and port - has its own socket after [socket_table_init], closed,
    on no timer queue, with its addresses, and the lookup finds it. *)

From S2P Require Import Prelude SocketNode IpRange Tick Config Mbuf NetStats World.
From S2P Require Import WorkSpace Socket TcpPacket Payload Template Loop Env SocketTable.

(** ** Checksums *)

(** Templates that hold the headers the checksums are computed from. *)
Definition inner_headers_len (ws : work_space) : Z :=
  inner_ip_hdr + (if ws_ipv6 ws then IP6_HDR_LEN else IPHDR_LEN) + 4.
Definition csum_ready (cfg : config) (ws : work_space) : Prop :=
  if ws_vxlan ws then
    inner_headers_len ws <= strlen (md_data (ws_tcp ws))
    /\ (c_protocol cfg = IPPROTO_TCP -> inner_headers_len ws <= strlen (md_data (ws_tcp_opt ws))
                                       /\ inner_headers_len ws <= strlen (md_data (ws_tcp_data ws)))
  else ws_ipv6 ws = true -> ETH_HDR_LEN + IP6_HDR_LEN <= strlen (md_data (ws_tcp ws)).

(** [d'] is [d] with other bytes. *)
Definition rewritten (d d' : mbuf_data) : Prop :=
  length (md_data d') = length (md_data d) /\ d' = d <| md_data := md_data d' |>.
Definition caches_rewritten (ws ws' : work_space) : Prop :=
  exists a b c, ws' = ws <| ws_tcp := a |> <| ws_tcp_opt := b |> <| ws_tcp_data := c |>
    /\ rewritten (ws_tcp ws) a /\ rewritten (ws_tcp_opt ws) b /\ rewritten (ws_tcp_data ws) c.

(** A socket without its checksums. *)
Definition csum_clear (sk : socket) : socket :=
  sk <| sk_csum_tcp_data := 0 |> <| sk_csum_ip := 0 |> <| sk_csum_ip_opt := 0 |> <| sk_csum_ip_data := 0 |>
     <| sk_csum_tcp := 0 |> <| sk_csum_tcp_opt := 0 |>.

Lemma rewritten_refl d : rewritten d d.
Proof. by destruct d. Qed.
Lemma rewritten_trans a b c : rewritten a b -> rewritten b c -> rewritten a c.
Proof. intros [L1 E1] [L2 E2]. split; [congruence|]. rewrite E2, E1 at 1. done. Qed.
Lemma caches_rewritten_refl ws : caches_rewritten ws ws.
Proof. exists (ws_tcp ws), (ws_tcp_opt ws), (ws_tcp_data ws). split; [by destruct ws|]. split_and!; apply rewritten_refl. Qed.
Lemma caches_rewritten_trans a b c : caches_rewritten a b -> caches_rewritten b c -> caches_rewritten a c.
Proof.
  intros (x & y & z & -> & H1 & H2 & H3) (x' & y' & z' & -> & H4 & H5 & H6).
  exists x', y', z'. split; [done|]. split_and!; by eapply rewritten_trans.
Qed.

Section Csum.
Context {D : Dpdk}.

Ltac store_step :=
  match goal with
  | |- context [st32 ?p ?v ?b] => destruct (st32_some b p v) as (? & -> & ?); [lia..|]; cbn [mbind option_bind]
  | |- context [st16 ?p ?v ?b] => destruct (st16_some b p v) as (? & -> & ?); [lia..|]; cbn [mbind option_bind]
  end.

Lemma inner_ipv4_some sk d : inner_ip_hdr + IPHDR_LEN + 4 <= strlen (md_data d) ->
  exists ip tcp d', csum_inner_tcp_udp_ipv4 sk d = Some (ip, tcp, d') /\ rewritten d d'.
Proof.
  unfold csum_inner_tcp_udp_ipv4, inner_ip_hdr, strlen. unfold_offsets. intros Hl. repeat store_step.
  eexists _, _, _. split; [done|]. split; [rsimpl; lia|done].
Qed.

Lemma inner_ipv6_some sk d : inner_ip_hdr + IP6_HDR_LEN + 4 <= strlen (md_data d) ->
  exists tcp d', csum_inner_tcp_udp_tcp_ipv6 sk d = Some (tcp, d') /\ rewritten d d'.
Proof.
  unfold csum_inner_tcp_udp_tcp_ipv6, inner_ip_hdr, strlen. unfold_offsets. intros Hl. repeat store_step.
  eexists _, _. split; [done|]. split; [rsimpl; lia|done].
Qed.

Lemma csum_inner_some cfg ws sk : csum_ready cfg ws -> ws_vxlan ws = true ->
  exists ws' sk', csum_init_inner cfg ws sk = Some (ws', sk') /\ caches_rewritten ws ws' /\ csum_clear sk' = csum_clear sk.
Proof.
  unfold csum_ready, csum_init_inner, inner_headers_len. intros Hr Hvx. rewrite Hvx in Hr. destruct Hr as [H1 H2].
  destruct (ws_ipv6 ws).
  - unfold csum_init_inner_ipv6. destruct (inner_ipv6_some sk (ws_tcp ws) H1) as (t1 & a & -> & Ha). cbn [mbind option_bind].
    destruct (Z.eqb_spec (c_protocol cfg) IPPROTO_TCP) as [E|_].
    + destruct (H2 E) as [H3 H4].
      change (ws_tcp_opt (ws <| ws_tcp := a |>)) with (ws_tcp_opt ws).
      edestruct inner_ipv6_some as (t2 & b & E2 & Hb); [exact H3|]. rewrite E2. cbn [mbind option_bind].
      change (ws_tcp_data (ws <| ws_tcp := a |> <| ws_tcp_opt := b |>)) with (ws_tcp_data ws).
      edestruct inner_ipv6_some as (t3 & c & E3 & Hc); [exact H4|]. rewrite E3. cbn [mbind option_bind].
      eexists _, _. split; [done|]. split; [|done]. exists a, b, c. by split.
    + eexists _, _. split; [done|]. split; [|done]. exists a, (ws_tcp_opt ws), (ws_tcp_data ws).
      split; [by destruct ws|]. split_and!; [done|apply rewritten_refl..].
  - unfold csum_init_inner_ipv4. destruct (inner_ipv4_some sk (ws_tcp ws) H1) as (i1 & t1 & a & -> & Ha). cbn [mbind option_bind].
    destruct (Z.eqb_spec (c_protocol cfg) IPPROTO_TCP) as [E|_].
    + destruct (H2 E) as [H3 H4].
      change (ws_tcp_opt (ws <| ws_tcp := a |>)) with (ws_tcp_opt ws).
      edestruct inner_ipv4_some as (i2 & t2 & b & E2 & Hb); [exact H3|]. rewrite E2. cbn [mbind option_bind].
      change (ws_tcp_data (ws <| ws_tcp := a |> <| ws_tcp_opt := b |>)) with (ws_tcp_data ws).
      edestruct inner_ipv4_some as (i3 & t3 & c & E3 & Hc); [exact H4|]. rewrite E3. cbn [mbind option_bind].
      eexists _, _. split; [done|]. split; [|done]. exists a, b, c. by split.
    + eexists _, _. split; [done|]. split; [|done]. exists a, (ws_tcp_opt ws), (ws_tcp_data ws).
      split; [by destruct ws|]. split_and!; [done|apply rewritten_refl..].
Qed.

Lemma csum_pseudo_some cfg ws sk : csum_ready cfg ws -> ws_vxlan ws = false ->
  exists sk', csum_init_pseudo cfg ws sk = Some sk' /\ csum_clear sk' = csum_clear sk.
Proof.
  unfold csum_ready, csum_init_pseudo. intros Hr Hvx. rewrite Hvx in Hr. destruct (ws_ipv6 ws).
  - specialize (Hr eq_refl). unfold strlen, ETH_HDR_LEN, IP6_HDR_LEN in Hr. unfold csum_init_pseudo_ipv6, ETH_HDR_LEN, ip6_src, ip6_dst.
    destruct (ld_ip6_addr_some (md_data (ws_tcp ws)) (14 + 8)) as [a ->]; [lia..|]. cbn [mbind option_bind].
    destruct (ld_ip6_addr_some (md_data (ws_tcp ws)) (14 + 24)) as [b ->]; [lia..|]. cbn [mbind option_bind].
    eexists. split; [done|]. by destruct (_ =? _).
  - eexists. split; [done|]. unfold csum_init_pseudo_ipv4. by destruct (_ =? _).
Qed.

Lemma csum_ready_rewritten cfg ws ws' : caches_rewritten ws ws' -> csum_ready cfg ws -> csum_ready cfg ws'.
Proof.
  intros (a & b & c & -> & [H1 _] & [H2 _] & [H3 _]). unfold csum_ready, inner_headers_len, strlen. rsimpl.
  by rewrite H1, H2, H3.
Qed.

(** The rule for the checksums of a socket. *)
Lemma wp_csum_init_socket i sk Q w : csum_ready (w_cfg w) (w_ws w) -> w_sockets w !! i = Some sk ->
  (forall ws' sk', caches_rewritten (w_ws w) ws' -> csum_clear sk' = csum_clear sk ->
    Q tt (w <| w_ws := ws' |> <| w_sockets ::= insert i sk' |>)) ->
  wp (csum_init_socket i) Q w.
Proof.
  intros Hr Hi HQ. unfold csum_init_socket. wp_reads. unfold id. apply wp_bind. eapply wp_sk_get; [exact Hi|].
  destruct (ws_vxlan (w_ws w)) eqn:Hvx.
  - destruct (csum_inner_some (w_cfg w) (w_ws w) sk Hr Hvx) as (ws' & sk' & E & Hc & Hs).
    apply wp_bind. eapply wp_lift; [exact E|]. cbv beta iota. apply wp_bind, wp_ws_mod.
    eapply wp_sk_mod; [exact Hi|]. apply HQ; done.
  - destruct (csum_pseudo_some (w_cfg w) (w_ws w) sk Hr Hvx) as (sk' & E & Hs).
    apply wp_bind. eapply wp_lift; [exact E|]. eapply wp_sk_mod; [exact Hi|].
    specialize (HQ (w_ws w) sk' (caches_rewritten_refl _) Hs). by destruct w.
Qed.
End Csum.

(** ** The plan of the pool *)

(** A connection as the code passes it: everything in network byte order. *)
Record conn := Conn { cn_client_ip : Z; cn_client_port : Z; cn_server_ip : Z; cn_server_port : Z }.

(** The socket of a connection before it is used; [seq] is its first sequence
    number. *)
Definition conn_socket (cfg : config) (server : bool) (c : conn) (seq : Z) : socket :=
  let sk := socket_zero <| sk_keepalive := c_keepalive cfg |> <| sk_snd_nxt := seq |> in
  if server
  then sk <| sk_laddr := cn_server_ip c |> <| sk_faddr := cn_client_ip c |>
          <| sk_lport := cn_server_port c |> <| sk_fport := cn_client_port c |>
  else sk <| sk_faddr := cn_server_ip c |> <| sk_laddr := cn_client_ip c |>
          <| sk_fport := cn_server_port c |> <| sk_lport := cn_client_port c |>.
Definition initial (cfg : config) (server : bool) (c : conn) (sk : socket) : Prop :=
  exists seq, in_u 32 seq /\ csum_clear sk = conn_socket cfg server c seq.

(** What the initialisation never touches. *)
Definition others (w : world) :=
  (w_cfg w, w_tick w, w_peers w, w_stats w, w_free_pool w, w_lldp_packet w,
   w_offload_ipv4_cksum w, w_offload_tcpudp_cksum w).
Definition w_st (w : world) : socket_table := ws_socket_table (w_ws w).

Definition self (i : N) : socket_node := SocketNode (Sock i) (Sock i).

(** [w] is [w0] with the first [n] sockets of the pool initialised according
    to [plan], and the rest of the pool still zero. *)
Record filling (w0 : world) (plan : Z -> conn) (ht : gmap Z N) (n : Z) (w : world) : Prop := {
  fl_others : others w = others w0;
  fl_ws : caches_rewritten ((w_ws w0) <| ws_socket_table := w_st w |>) (w_ws w);
  fl_st : w_st w = (w_st w0) <| st_pool_next := n |> <| st_ht := ht |>;
  fl_done : forall k, 0 <= k < n -> exists sk, w_sockets w !! pool_sock (w_st w0) k = Some sk
    /\ initial (w_cfg w0) (ws_server (w_ws w0)) (plan k) sk
    /\ w_links w !! Sock (pool_sock (w_st w0) k) = Some (self (pool_sock (w_st w0) k));
  fl_todo : forall k, n <= k < st_pool_num (w_st w0) ->
    w_sockets w !! pool_sock (w_st w0) k = Some socket_zero /\ is_Some (w_links w !! Sock (pool_sock (w_st w0) k));
  fl_heads : forall t, w_links w !! Head t = w_links w0 !! Head t;
}.

Lemma pool_sock_inj st a b : 0 <= a -> 0 <= b -> pool_sock st a = pool_sock st b -> a = b.
Proof. unfold pool_sock. lia. Qed.

Section Fill.
Context {D : Dpdk}.
Context (rand_r : Z -> Z).
Context (w0 : world) (plan : Z -> conn).
Context (Hnum : 0 <= st_pool_num (w_st w0) < 2 ^ 32) (Hready : csum_ready (w_cfg w0) (w_ws w0)).

Lemma filling_ready ht n w : filling w0 plan ht n w -> csum_ready (w_cfg w) (w_ws w).
Proof using Hready.
  intros H. assert (w_cfg w = w_cfg w0) as -> by exact (f_equal (fun x => x.1.1.1.1.1.1.1) (fl_others _ _ _ _ _ H)).
  eapply csum_ready_rewritten; [apply (fl_ws _ _ _ _ _ H)|exact Hready].
Qed.

(** The initialisation of one zeroed socket. *)
Lemma wp_socket_init i c Q w : csum_ready (w_cfg w) (w_ws w) -> w_sockets w !! i = Some socket_zero ->
  is_Some (w_links w !! Sock i) ->
  (forall w' sk', others w' = others w -> caches_rewritten (w_ws w) (w_ws w') ->
    initial (w_cfg w) (ws_server (w_ws w)) c sk' -> w_sockets w' = <[i := sk']> (w_sockets w) ->
    w_links w' = <[Sock i := self i]> (w_links w) -> Q tt w') ->
  wp (socket_init rand_r i (cn_client_ip c) (cn_client_port c) (cn_server_ip c) (cn_server_port c)) Q w.
Proof using Type.
  intros Hr Hi [x Hx] HQ. unfold socket_init. wp_reads. unfold id.
  apply wp_bind. eapply wp_sk_mod; [exact Hi|].
  apply wp_bind. eapply wp_sk_mod; [by rsimpl; rewrite lookup_insert_eq|].
  apply wp_bind. unfold read_tsc. apply wp_bind, wp_gets. cbv zeta. apply wp_bind, wp_io_log. apply wp_ret.
  apply wp_bind. eapply wp_sk_mod; [by rsimpl; rewrite lookup_insert_eq|].
  apply wp_bind. eapply wp_csum_init_socket; [exact Hr|by rsimpl; rewrite lookup_insert_eq|].
  intros ws' sk' Hc Hs. eapply wp_link_op.
  { unfold socket_node_init, node_set_next, node_set_prev. rsimpl. rewrite Hx. cbn [mbind option_bind].
    rewrite lookup_insert_eq. cbn [mbind option_bind]. rewrite insert_insert_eq. reflexivity. }
  apply HQ with sk'.
  - reflexivity.
  - exact Hc.
  - exists (u32 (rand_r (u32 (rte_rdtsc (w_io w))))). split; [by apply wrap_range|].
    rewrite Hs. unfold conn_socket. by destruct (ws_server (w_ws w)).
  - rsimpl. by rewrite !insert_insert_eq.
  - by rsimpl.
Qed.

Lemma filling_cfg ht n w : filling w0 plan ht n w ->
  w_cfg w = w_cfg w0 /\ ws_server (w_ws w) = ws_server (w_ws w0).
Proof using Type.
  intros H. split; [exact (f_equal (fun x => x.1.1.1.1.1.1.1) (fl_others _ _ _ _ _ H))|].
  destruct (fl_ws _ _ _ _ _ H) as (a & b & c & -> & _). by rsimpl.
Qed.

Lemma caches_table ws st ws' : caches_rewritten ws ws' ->
  caches_rewritten (ws <| ws_socket_table := st |>) (ws' <| ws_socket_table := st |>).
Proof using Type. intros (a & b & c & -> & H). by exists a, b, c. Qed.
Lemma caches_same_table ws ws' : caches_rewritten ws ws' -> ws_socket_table ws' = ws_socket_table ws.
Proof using Type. by intros (a & b & c & -> & _). Qed.

(** One round of the innermost loop. *)
Lemma wp_fill_one ht n w table client_ip client_port server_port server_ip :
  filling w0 plan ht n w -> 0 <= n < st_pool_num (w_st w0) ->
  (table + Z.to_N (socket_port_index (w_st w0) client_port server_port server_ip))%N = pool_sock (w_st w0) n ->
  plan n = Conn client_ip (htons client_port) (htonl server_ip) (htons server_port) ->
  wp (socket_port_table_fill rand_r table client_ip client_port server_port server_ip)
    (fun _ w' => filling w0 plan ht (n + 1) w') w.
Proof using Hnum Hready.
  intros H Hn Hi Hplan. unfold socket_port_table_fill, table_get. wp_reads. unfold id.
  destruct (fl_todo _ _ _ _ _ H n ltac:(lia)) as [Hz Hl]. destruct (filling_cfg _ _ _ H) as [Ecfg Esrv].
  assert (socket_port_table_get (ws_socket_table (w_ws w)) table client_port server_port server_ip
    = pool_sock (w_st w0) n) as ->.
  { change (ws_socket_table (w_ws w)) with (w_st w). rewrite (fl_st _ _ _ _ _ H). exact Hi. }
  apply wp_bind.
  eapply (wp_socket_init _ (Conn client_ip (htons client_port) (htonl server_ip) (htons server_port)));
    [by eapply filling_ready|exact Hz|exact Hl|].
  intros w' sk' Ho Hc Hs Es El. unfold table_mod. apply wp_ws_mod.
  pose proof (caches_same_table _ _ Hc) as Hst.
  assert (forall k, 0 <= k < st_pool_num (w_st w0) -> k ≠ n -> pool_sock (w_st w0) k ≠ pool_sock (w_st w0) n) as Hne
    by (intros k Hk Hkn E; apply Hkn, (pool_sock_inj (w_st w0)); [lia|lia|exact E]).
  split.
  - change (others w' = others w0). rewrite Ho. apply (fl_others _ _ _ _ _ H).
  - unfold w_st. rsimpl. match goal with |- caches_rewritten (set_field ws_socket_table (fun _ => ?T) _) _ =>
      apply (caches_rewritten_trans _ ((w_ws w) <| ws_socket_table := T |>));
      [exact (caches_table _ T _ (fl_ws _ _ _ _ _ H))|exact (caches_table _ T _ Hc)] end.
  - unfold w_st at 1. rsimpl. rewrite Hst. change (ws_socket_table (w_ws w)) with (w_st w). rewrite (fl_st _ _ _ _ _ H).
    rsimpl. by rewrite wrap_small by (split; lia).
  - intros k Hk. rsimpl. rewrite Es, El. destruct (decide (k = n)) as [->|Hkn].
    + exists sk'. rewrite !lookup_insert_eq, Hplan. by rewrite <- Ecfg, <- Esrv.
    + rewrite !lookup_insert_ne by (first [apply not_eq_sym, Hne; lia | intros [= E]; revert E; apply not_eq_sym, Hne; lia]).
      apply (fl_done _ _ _ _ _ H). lia.
  - intros k Hk. rsimpl. rewrite Es, El.
    rewrite !lookup_insert_ne by (first [apply not_eq_sym, Hne; lia | intros [= E]; revert E; apply not_eq_sym, Hne; lia]).
    apply (fl_todo _ _ _ _ _ H). lia.
  - intros t. rsimpl. rewrite El, lookup_insert_ne by done. apply (fl_heads _ _ _ _ _ H).
Qed.

(** ** One port table *)

(** The bounds of the loops. *)
Record bounds_ok (st : socket_table) : Prop := {
  bo_port : 0 <= st_client_port_min st <= st_client_port_max st /\ st_client_port_max st < 65536;
  bo_sport : 0 <= st_server_port_min st <= st_server_port_max st /\ st_server_port_max st < 65535;
  bo_ip : 0 <= st_server_ip_min st <= st_server_ip_max st /\ st_server_ip_max st < 2 ^ 32 - 1;
  bo_ip_num : st_server_ip_num st = st_server_ip_max st - st_server_ip_min st + 1;
  bo_row : st_server_ip_port_num st = st_server_ip_num st * (st_server_port_max st - st_server_port_min st + 1);
}.

(** The sockets of one client, and the place of a connection among them. *)
Definition table_size (st : socket_table) : Z :=
  (st_client_port_max st - st_client_port_min st + 1) * st_server_ip_port_num st.
Definition table_index (st : socket_table) (client_port server_port server_ip : Z) : Z :=
  (client_port - st_client_port_min st) * st_server_ip_port_num st
  + (server_port - st_server_port_min st) * st_server_ip_num st + (server_ip - st_server_ip_min st).
Definition in_bounds (st : socket_table) (client_port server_port server_ip : Z) : Prop :=
  st_client_port_min st <= client_port <= st_client_port_max st
  /\ st_server_port_min st <= server_port <= st_server_port_max st
  /\ st_server_ip_min st <= server_ip <= st_server_ip_max st.

Lemma table_size_pos st : bounds_ok st -> 0 < table_size st.
Proof using Type.
  clear Hnum Hready. intros [B1 B2 B3 B4 B5]. unfold table_size. rewrite B5, B4.
  apply Z.mul_pos_pos; [lia|]. apply Z.mul_pos_pos; lia.
Qed.

Lemma table_index_range st p sp si : bounds_ok st -> in_bounds st p sp si ->
  0 <= table_index st p sp si < table_size st.
Proof using Type.
  clear Hnum Hready. intros [B1 B2 B3 B4 B5] (I1 & I2 & I3). unfold table_index, table_size. rewrite B5.
  assert (0 < st_server_ip_num st) by lia. set (m := st_server_ip_num st) in *.
  set (r := m * (st_server_port_max st - st_server_port_min st + 1)) in *.
  assert (0 <= (sp - st_server_port_min st) * m + (si - st_server_ip_min st) < r) by (unfold r; nia).
  nia.
Qed.

(** [plan] from [start] on is the port table of a client. *)
Definition planned (client_ip start : Z) : Prop := forall p sp si, in_bounds (w_st w0) p sp si ->
  plan (start + table_index (w_st w0) p sp si) = Conn client_ip (htons p) (htonl si) (htons sp).

Lemma wp_table_new ht start w client_ip :
  bounds_ok (w_st w0) -> filling w0 plan ht start w -> 0 <= start ->
  start + table_size (w_st w0) <= st_pool_num (w_st w0) -> planned client_ip start ->
  wp (socket_port_table_new rand_r client_ip)
    (fun t w' => t = pool_sock (w_st w0) start /\ filling w0 plan ht (start + table_size (w_st w0)) w') w.
Proof using Hnum Hready.
  intros Hb H Hstart Hroom Hplan. unfold socket_port_table_new, table_get. wp_reads. unfold id.
  change (ws_socket_table (w_ws w)) with (w_st w). rewrite (fl_st _ _ _ _ _ H). rsimpl.
  change (pool_sock ((w_st w0) <| st_pool_next := start |> <| st_ht := ht |>) start) with (pool_sock (w_st w0) start).
  set (st := w_st w0) in *. destruct Hb as [B1 B2 B3 B4 B5].
  assert (bounds_ok st) as Hb by by split.
  set (row := st_server_ip_port_num st) in *. set (m := st_server_ip_num st) in *.
  apply wp_bind.
  assert (start + table_size st = start + (st_client_port_max st + 1 - st_client_port_min st) * row) as Es
    by (unfold table_size; fold row; lia).
  rewrite Es.
  eapply wp_mono; [apply (wp_for_range (fun p w => filling w0 plan ht (start + (p - st_client_port_min st) * row) w));
    [lia..|by replace (start + _) with start by lia|]|].
  2: { intros [] w' H'. by apply wp_ret. }
  clear w H. intros p w Hp H.
  replace (start + (p + 1 - st_client_port_min st) * row) with
    (start + (p - st_client_port_min st) * row + (st_server_port_max st + 1 - st_server_port_min st) * m)
    by (rewrite B5; lia).
  apply (wp_for_range (fun sp w => filling w0 plan ht
    (start + (p - st_client_port_min st) * row + (sp - st_server_port_min st) * m) w)); [lia..|by replace (_ + _ + _) with (start + (p - st_client_port_min st) * row) by lia|].
  clear w H. intros sp w Hsp H.
  replace (start + (p - st_client_port_min st) * row + (sp + 1 - st_server_port_min st) * m) with
    (start + (p - st_client_port_min st) * row + (sp - st_server_port_min st) * m + (st_server_ip_max st + 1 - st_server_ip_min st))
    by lia.
  apply (wp_for_range (fun si w => filling w0 plan ht
    (start + (p - st_client_port_min st) * row + (sp - st_server_port_min st) * m + (si - st_server_ip_min st)) w));
    [lia..|by replace (_ + (_ - _)) with (start + (p - st_client_port_min st) * row + (sp - st_server_port_min st) * m) by lia|].
  clear w H. intros si w Hsi H.
  assert (in_bounds st p sp si) as Hin by by split.
  pose proof (table_index_range _ _ _ _ Hb Hin) as Hr. pose proof (Hplan _ _ _ Hin) as Hp'.
  assert (start + (p - st_client_port_min st) * row + (sp - st_server_port_min st) * m + (si - st_server_ip_min st)
    = start + table_index st p sp si) as E by (unfold table_index; fold row m; lia).
  assert (start + (p - st_client_port_min st) * row + (sp - st_server_port_min st) * m + (si + 1 - st_server_ip_min st)
    = start + table_index st p sp si + 1) as E1 by lia.
  rewrite E1. rewrite E in H.
  apply wp_fill_one; [exact H|fold st; lia| |exact Hp'].
  unfold socket_port_index. change ((p - _) * _ + _ + _) with (table_index st p sp si).
  rewrite wrap_small by (fold st in Hnum; split; lia). unfold pool_sock. fold st. lia.
Qed.

(** ** All clients *)

Definition low16 (client_ip : Z) : Z := ntohl client_ip &&& 65535.
Definition table_start (c : Z) : Z := c * table_size (w_st w0).

(** The table of addresses after the clients [ips], the first of which is the
    [c]-th of the worker. *)
Fixpoint tables (c : Z) (ips : list Z) (ht : gmap Z N) : gmap Z N :=
  match ips with
  | [] => ht
  | x :: ips => tables (c + 1) ips (<[low16 x := pool_sock (w_st w0) (table_start c)]> ht)
  end.

Lemma tables_app c a b ht : tables c (a ++ b) ht = tables (c + Z.of_nat (length a)) b (tables c a ht).
Proof using Type.
  revert c ht. induction a as [|x a IH]; intros c ht; cbn [app tables length].
  - f_equal. lia.
  - rewrite IH. f_equal. lia.
Qed.

Lemma filling_ht ht n w k t : filling w0 plan ht n w ->
  filling w0 plan (<[k := t]> ht) n (w <| w_ws ::= fun ws => ws <| ws_socket_table ::= fun st => st <| st_ht ::= insert k t |> |> |>).
Proof using Type.
  intros H. split.
  - apply (fl_others _ _ _ _ _ H).
  - unfold w_st. rsimpl. match goal with |- caches_rewritten (set_field ws_socket_table (fun _ => ?T) _) _ =>
      exact (caches_table _ T _ (fl_ws _ _ _ _ _ H)) end.
  - unfold w_st at 1. rsimpl. change (ws_socket_table (w_ws w)) with (w_st w). rewrite (fl_st _ _ _ _ _ H). reflexivity.
  - apply (fl_done _ _ _ _ _ H).
  - apply (fl_todo _ _ _ _ _ H).
  - apply (fl_heads _ _ _ _ _ H).
Qed.

Lemma wp_init_ips r ips i c ht w :
  bounds_ok (w_st w0) -> filling w0 plan ht (table_start c) w -> 0 <= c ->
  table_start (c + Z.of_nat (length ips)) <= st_pool_num (w_st w0) ->
  (forall j x, ips !! j = Some x -> ip_range_get r (i + Z.of_nat j) = Some x) ->
  (forall j x, ips !! j = Some x -> planned x (table_start (c + Z.of_nat j))) ->
  wp (socket_port_table_init_ip_range rand_r (length ips) i r)
    (fun _ w' => filling w0 plan (tables c ips ht) (table_start (c + Z.of_nat (length ips))) w') w.
Proof using Hnum Hready.
  intros Hb. revert i c ht w. induction ips as [|x ips IH]; intros i c ht w H Hc Hroom Hget Hplan.
  - cbn [length socket_port_table_init_ip_range tables]. apply wp_ret. by rewrite Z.add_0_r.
  - cbn [length socket_port_table_init_ip_range tables] in *.
    apply wp_bind. eapply wp_lift; [rewrite <- (Hget 0%nat x eq_refl); f_equal; lia|].
    pose proof (table_size_pos _ Hb) as Hs.
    assert (table_start (c + 1) = table_start c + table_size (w_st w0)) as E1 by (unfold table_start; lia).
    assert (table_start (c + 1) <= table_start (c + Z.of_nat (S (length ips)))) as Hle by (unfold table_start; nia).
    apply wp_bind. eapply wp_mono; [apply (wp_table_new ht (table_start c)); [done|exact H|unfold table_start; nia|lia|]|].
    { specialize (Hplan 0%nat x eq_refl). by rewrite Z.add_0_r in Hplan. }
    intros t w1 [-> H1]. cbv beta. apply wp_bind. unfold table_mod. apply wp_ws_mod.
    apply filling_ht with (k := low16 x) (t := pool_sock (w_st w0) (table_start c)) in H1. rewrite <- E1 in H1.
    replace (c + Z.of_nat (S (length ips))) with (c + 1 + Z.of_nat (length ips)) in * by lia.
    apply IH; [exact H1|lia|exact Hroom| |].
    + intros j y Hy. rewrite <- (Hget (S j) y Hy). f_equal. lia.
    + intros j y Hy. replace (c + 1 + Z.of_nat j) with (c + Z.of_nat (S j)) by lia. by apply Hplan.
Qed.
End Fill.

(** The addresses of a range, in the order in which they are used. *)
Definition range_ips (r : ip_range) : list Z := take (Z.to_nat (num r)) (list_ r).

Lemma range_ips_get r j x : 0 <= num r <= 255 -> range_ips r !! j = Some x -> ip_range_get r (Z.of_nat j) = Some x.
Proof.
  intros Hn Hj. unfold range_ips in Hj. apply lookup_take_Some in Hj as [Hj Hlt].
  unfold ip_range_get. destruct (Z.eqb_spec (num r) 0); [lia|].
  rewrite Z.mod_small by lia. rewrite wrap_small by (split; [lia|change (2 ^ 8) with 256; lia]).
  unfold aget. destruct (Z.leb_spec 0 (Z.of_nat j)); [|lia]. by rewrite Nat2Z.id.
Qed.

(** ** The whole table *)

(** The connections of the clients [ips], in the order of the pool. *)
Definition plan_of (st : socket_table) (ips : list Z) (k : Z) : conn :=
  let r := k mod table_size st in
  Conn (default 0 (ips !! Z.to_nat (k / table_size st)))
    (htons (st_client_port_min st + r / st_server_ip_port_num st))
    (htonl (st_server_ip_min st + r mod st_server_ip_num st))
    (htons (st_server_port_min st + r mod st_server_ip_port_num st / st_server_ip_num st)).

Lemma div_mod_eq a b q r : 0 <= r < b -> a = q * b + r -> a / b = q /\ a mod b = r.
Proof. intros Hr ->. split; [symmetry; apply Z.div_unique with r|symmetry; apply Z.mod_unique with q]; lia. Qed.

Lemma plan_of_planned w0 ips c x : bounds_ok (w_st w0) -> ips !! c = Some x ->
  planned w0 (plan_of (w_st w0) ips) x (table_start w0 (Z.of_nat c)).
Proof.
  intros Hb Hc p sp si Hin. pose proof (table_index_range _ _ _ _ Hb Hin) as Hr. unfold plan_of, table_start.
  set (st := w_st w0) in *.
  destruct (div_mod_eq (Z.of_nat c * table_size st + table_index st p sp si) (table_size st) (Z.of_nat c)
    (table_index st p sp si)) as [-> ->]; [done|done|].
  rewrite Nat2Z.id, Hc. cbn [default]. unfold id.
  destruct Hb as [B1 B2 B3 B4 B5]. destruct Hin as (I1 & I2 & I3). unfold table_index. rewrite B5.
  set (m := st_server_ip_num st) in *. set (sn := st_server_port_max st - st_server_port_min st + 1) in *.
  set (b := sp - st_server_port_min st). set (e := si - st_server_ip_min st).
  destruct (div_mod_eq ((p - st_client_port_min st) * (m * sn) + b * m + e) (m * sn) (p - st_client_port_min st) (b * m + e))
    as [-> ->]; [unfold b, e, sn in *; nia|lia|].
  destruct (div_mod_eq (b * m + e) m b e) as [-> _]; [unfold e; lia|done|].
  destruct (div_mod_eq ((p - st_client_port_min st) * (m * sn) + b * m + e) m ((p - st_client_port_min st) * sn + b) e)
    as [_ ->]; [unfold e; lia|lia|].
  unfold b, e. f_equal; f_equal; lia.
Qed.

(** Where a client's sockets are found. *)
Lemma tables_other w0 c ips ht k : k ∉ low16 <$> ips -> tables w0 c ips ht !! k = ht !! k.
Proof.
  revert c ht. induction ips as [|x ips IH]; intros c ht Hk; [done|]. cbn [tables fmap list_fmap] in *.
  apply not_elem_of_cons in Hk as [Hne Hk]. rewrite IH by done. by rewrite lookup_insert_ne.
Qed.
Lemma tables_lookup w0 c ips ht j x : NoDup (low16 <$> ips) -> ips !! j = Some x ->
  tables w0 c ips ht !! low16 x = Some (pool_sock (w_st w0) (table_start w0 (c + Z.of_nat j))).
Proof.
  revert c ht j. induction ips as [|y ips IH]; intros c ht j Hd Hj; [done|]. cbn [tables fmap list_fmap] in *.
  apply list.NoDup_cons in Hd as [Hy Hd]. destruct j as [|j]; cbn in Hj.
  - injection Hj as ->. rewrite tables_other, lookup_insert_eq by done. by rewrite Z.add_0_r.
  - rewrite (IH _ _ j Hd Hj). do 3 f_equal. lia.
Qed.
Lemma tables_some w0 c ips ht k t : tables w0 c ips ht !! k = Some t ->
  (exists j, 0 <= j < Z.of_nat (length ips) /\ t = pool_sock (w_st w0) (table_start w0 (c + j))) \/ ht !! k = Some t.
Proof.
  revert c ht. induction ips as [|y ips IH]; intros c ht Ht; cbn [tables] in Ht; [by right|].
  destruct (IH _ _ Ht) as [(j & Hj & ->)|E].
  - left. exists (j + 1). cbn [length]. split; [lia|]. do 2 f_equal. lia.
  - destruct (decide (low16 y = k)) as [<-|]; [|rewrite lookup_insert_ne in E by done; by right].
    rewrite lookup_insert_eq in E. injection E as <-. left. exists 0. cbn [length]. split; [lia|]. by rewrite Z.add_0_r.
Qed.

(** What the configuration has to provide. *)
Definition is_fdir (w : world) : bool := c_flow (w_cfg w) =? FLOW_FDIR.
Definition server_ip_first (w : world) : option Z :=
  ip_range_get (np_server_ip_range (ws_port (w_ws w))) (if is_fdir w then ws_queue_id (w_ws w) else 0).
Definition server_ip_count (w : world) : Z :=
  if is_fdir w then 1 else num (np_server_ip_range (ws_port (w_ws w))).
Definition client_ranges (w : world) : list ip_range :=
  if c_server (w_cfg w) then for_each_ip_range (c_client_ip_group (w_cfg w))
  else [np_client_ip_range (ws_port (w_ws w))].
Definition client_ips (w : world) : list Z := client_ranges w ≫= range_ips.
Definition client_port_count (w : world) : Z := c_lport_max (w_cfg w) - c_lport_min (w_cfg w) + 1.

Record table_config (w : world) (first : Z) : Prop := {
  tc_first : server_ip_first w = Some first;
  tc_count : 0 < server_ip_count w <= 255 /\ ntohl first + server_ip_count w < 2 ^ 32;
  tc_listen : 1 <= c_listen (w_cfg w) /\ 1 <= c_listen_num (w_cfg w) /\ c_listen (w_cfg w) + c_listen_num (w_cfg w) <= 65535;
  tc_lport : 1 <= c_lport_min (w_cfg w) <= c_lport_max (w_cfg w) /\ c_lport_max (w_cfg w) < 65536;
  tc_ranges : Forall (fun r => 0 <= num r <= 255 /\ (Z.to_nat (num r) <= length (list_ r))%nat) (client_ranges w);
  tc_unique : NoDup (low16 <$> client_ips w);
  tc_pool : st_pool_num (w_st w) = Z.of_nat (length (client_ips w))
              * (client_port_count w * (server_ip_count w * c_listen_num (w_cfg w)));
  tc_pool_fits : st_pool_num (w_st w) < 2 ^ 32;
}.

(** A pool as [work_space_alloc] leaves it. *)
Record fresh_pool (w : world) : Prop := {
  fp_next : st_pool_next (w_st w) = 0;
  fp_ht : st_ht (w_st w) = ∅;
  fp_zero : forall k, 0 <= k < st_pool_num (w_st w) ->
    w_sockets w !! pool_sock (w_st w) k = Some socket_zero /\ is_Some (w_links w !! Sock (pool_sock (w_st w) k));
}.

(** The bounds that the configuration gives to the table. *)
Definition table_setup (w : world) (first : Z) : socket_table :=
  let cfg := w_cfg w in let st := w_st w in
  {| st_server_ip_num := server_ip_count w;
     st_server_ip_min := ntohl first;
     st_server_ip_max := ntohl first + server_ip_count w - 1;
     st_server_port_num := c_listen_num cfg;
     st_server_port_min := c_listen cfg;
     st_server_port_max := c_listen cfg + c_listen_num cfg - 1;
     st_client_port_num := client_port_count w;
     st_client_port_min := c_lport_min cfg;
     st_client_port_max := c_lport_max cfg;
     st_server_ip_port_num := server_ip_count w * c_listen_num cfg;
     st_client_hop := c_client_hop cfg || st_client_hop st;
     st_rss := st_rss st; st_rss_id := st_rss_id st; st_rss_num := st_rss_num st;
     st_socket_table_hash := st_socket_table_hash st; st_ht := st_ht st;
     st_pool_base := st_pool_base st; st_pool_num := st_pool_num st; st_pool_next := st_pool_next st |}.

Lemma table_setup_bounds w first : table_config w first -> bounds_ok (table_setup w first)
  /\ table_size (table_setup w first) = client_port_count w * (server_ip_count w * c_listen_num (w_cfg w)).
Proof.
  intros [_ H2 H3 H4 _ _ _ _]. unfold client_port_count in *. pose proof (bswap32_range first) as [Hf _].
  split; [split|]; unfold table_size, table_setup, client_port_count;
    cbn [st_server_ip_num st_server_ip_min st_server_ip_max st_server_port_min st_server_port_max st_client_port_min
         st_client_port_max st_server_ip_port_num]; lia.
Qed.

Section Table.
Context {D : Dpdk}.
Context (rand_r : Z -> Z).

(** [w1] is [w] with the table [st]. *)
Definition with_table (w : world) (st : socket_table) : world := w <| w_ws ::= fun ws => ws <| ws_socket_table := st |> |>.

(** The clients of one range and of a group. *)
Lemma wp_range w0 plan ht c w r :
  0 <= st_pool_num (w_st w0) < 2 ^ 32 -> csum_ready (w_cfg w0) (w_ws w0) -> bounds_ok (w_st w0) ->
  filling w0 plan ht (table_start w0 c) w -> 0 <= c -> 0 <= num r <= 255 /\ (Z.to_nat (num r) <= length (list_ r))%nat ->
  table_start w0 (c + Z.of_nat (length (range_ips r))) <= st_pool_num (w_st w0) ->
  (forall j x, range_ips r !! j = Some x -> planned w0 plan x (table_start w0 (c + Z.of_nat j))) ->
  wp (init_ip_range rand_r r)
    (fun _ w' => filling w0 plan (tables w0 c (range_ips r) ht) (table_start w0 (c + Z.of_nat (length (range_ips r)))) w') w.
Proof.
  intros Hnum Hr Hb H Hc [Hn Hl] Hroom Hplan. unfold init_ip_range.
  assert (Z.to_nat (num r) = length (range_ips r)) as -> by (unfold range_ips; rewrite length_take; lia).
  apply wp_init_ips; [done..| |done]. intros j x Hj. rewrite Z.add_0_l. by apply range_ips_get.
Qed.

Lemma wp_group w0 plan ranges ht c w :
  0 <= st_pool_num (w_st w0) < 2 ^ 32 -> csum_ready (w_cfg w0) (w_ws w0) -> bounds_ok (w_st w0) ->
  filling w0 plan ht (table_start w0 c) w -> 0 <= c ->
  Forall (fun r => 0 <= num r <= 255 /\ (Z.to_nat (num r) <= length (list_ r))%nat) ranges ->
  table_start w0 (c + Z.of_nat (length (ranges ≫= range_ips))) <= st_pool_num (w_st w0) ->
  (forall j x, (ranges ≫= range_ips) !! j = Some x -> planned w0 plan x (table_start w0 (c + Z.of_nat j))) ->
  wp (socket_port_table_init_ip_group rand_r ranges)
    (fun _ w' => filling w0 plan (tables w0 c (ranges ≫= range_ips) ht)
                   (table_start w0 (c + Z.of_nat (length (ranges ≫= range_ips)))) w') w.
Proof.
  intros Hnum Hr Hb H Hc Hranges. revert ht c w H Hc.
  induction Hranges as [|r ranges Hrange Hranges IH]; intros ht c w H Hc Hroom Hplan;
    cbn [socket_port_table_init_ip_group mbind list_bind] in *.
  - apply wp_ret. by rewrite Z.add_0_r.
  - change (list_bind _ _ range_ips ranges) with (ranges ≫= range_ips) in *.
    set (l := range_ips r) in *. set (l' := ranges ≫= range_ips) in *. rewrite length_app, Nat2Z.inj_add, Z.add_assoc in *.
    pose proof (table_size_pos _ Hb).
    apply wp_bind. eapply wp_mono; [apply (wp_range w0 plan ht c); try done|].
    + unfold table_start in *. fold l. nia.
    + intros j x Hj. apply Hplan. by apply lookup_app_l_Some.
    + intros [] w1 H1. cbv beta. fold l in H1. rewrite tables_app. apply IH; [exact H1|lia|exact Hroom|].
      intros j x Hj. replace (c + Z.of_nat (length l) + Z.of_nat j) with (c + Z.of_nat (length l + j)) by lia.
      apply Hplan. by rewrite lookup_app_r, Nat.add_comm, Nat.add_sub by lia.
Qed.

Lemma wp_fill_all w first Q : table_config w first -> fresh_pool w -> csum_ready (w_cfg w) (w_ws w) ->
  let w1 := with_table w (table_setup w first) in
  (forall w', filling w1 (plan_of (w_st w1) (client_ips w)) (tables w1 0 (client_ips w) ∅) (st_pool_num (w_st w)) w' -> Q tt w') ->
  wp (if c_server (w_cfg w) then socket_port_table_init_ip_group rand_r (for_each_ip_range (c_client_ip_group (w_cfg w)))
      else init_ip_range rand_r (np_client_ip_range (ws_port (w_ws w)))) Q w1.
Proof.
  intros Hc Hf Hr w1 HQ. destruct (table_setup_bounds _ _ Hc) as [Hb Hsize].
  change (table_setup w first) with (w_st w1) in Hb, Hsize.
  set (plan := plan_of (w_st w1) (client_ips w)) in *.
  assert (0 <= st_pool_num (w_st w1) < 2 ^ 32) as Hnum.
  { split; [|exact (tc_pool_fits _ _ Hc)]. change (st_pool_num (w_st w1)) with (st_pool_num (w_st w)).
    rewrite (tc_pool _ _ Hc), <- Hsize. pose proof (table_size_pos _ Hb). nia. }
  assert (table_start w1 (Z.of_nat (length (client_ips w))) = st_pool_num (w_st w)) as Hall
    by (unfold table_start; rewrite Hsize; symmetry; exact (tc_pool _ _ Hc)).
  assert (csum_ready (w_cfg w1) (w_ws w1)) as Hr1 by exact Hr.
  assert (filling w1 plan ∅ (table_start w1 0) w1) as H0.
  { split; [done| | |intros k Hk; unfold table_start in Hk; lia| |done].
    - apply caches_rewritten_refl.
    - change (table_setup w first = (table_setup w first) <| st_pool_next := 0 |> <| st_ht := ∅ |>).
      unfold table_setup, set_field. cbn. by rewrite (fp_next _ Hf), (fp_ht _ Hf).
    - intros k Hk. apply (fp_zero _ Hf). unfold table_start in Hk. split; [lia|]. apply Hk. }
  assert (forall j x, client_ips w !! j = Some x -> planned w1 plan x (table_start w1 (0 + Z.of_nat j))) as Hplan
    by (intros j x Hj; by apply plan_of_planned).
  pose proof (tc_ranges _ _ Hc) as Hranges. rewrite <- Hall in HQ. unfold client_ips in Hplan, Hall, HQ. unfold client_ranges in *.
  destruct (c_server (w_cfg w)).
  - eapply wp_mono; [apply (wp_group w1 plan _ ∅ 0); try done; rewrite Z.add_0_l, Hall; reflexivity|].
    intros [] w' H'. by apply HQ.
  - cbn [mbind list_bind] in *. rewrite app_nil_r in *. apply Forall_cons_1 in Hranges as [Hrange _].
    eapply wp_mono; [apply (wp_range w1 plan ∅ 0); try done; rewrite Z.add_0_l, Hall; reflexivity|].
    intros [] w' H'. by apply HQ.
Qed.

Lemma table_of_code w first hop : table_config w first -> hop = c_client_hop (w_cfg w) ->
  forall st, st = (w_st w) <| st_server_ip_num := server_ip_count w |> <| st_server_ip_min := ntohl first |>
                     <| st_server_ip_max := ntohl first + server_ip_count w - 1 |> ->
  (let cfg := w_cfg w in
   let st := st <| st_server_ip_port_num := u32 (st_server_ip_num st * c_listen_num cfg) |>
                 <| st_server_port_min := u16 (c_listen cfg) |>
                 <| st_server_port_max := u16 (c_listen cfg + c_listen_num cfg - 1) |>
                 <| st_server_port_num := u16 (c_listen_num cfg) |>
                 <| st_client_port_min := u16 (c_lport_min cfg) |>
                 <| st_client_port_max := u16 (c_lport_max cfg) |>
                 <| st_client_port_num := u16 (c_lport_max cfg - c_lport_min cfg + 1) |> in
   if hop then st <| st_client_hop := true |> else st) = table_setup w first.
Proof.
  intros Hc -> st ->. pose proof (tc_listen _ _ Hc). pose proof (tc_lport _ _ Hc). pose proof (tc_count _ _ Hc) as [Hn1 Hn2].
  pose proof (bswap32_range first) as [Hf _]. pose proof (tc_pool _ _ Hc) as Hp. pose proof (tc_pool_fits _ _ Hc) as Hfit.
  assert (0 <= server_ip_count w * c_listen_num (w_cfg w) < 2 ^ 32) as Hrow by (change (2 ^ 32) with 4294967296; nia).
  unfold table_setup. destruct (w_st w) as [x1 x2 x3 x4 x5 x6 x7 x8 x9 x10 x11 x12 x13 x14 x15 x16 x17 x18 x19].
  cbv beta iota zeta delta [set_field st_server_ip_num st_server_ip_min st_server_ip_max st_server_port_num
    st_server_port_min st_server_port_max st_client_port_num st_client_port_min st_client_port_max st_server_ip_port_num
    st_client_hop st_rss st_rss_id st_rss_num st_socket_table_hash st_ht st_pool_base st_pool_num st_pool_next].
  unfold client_port_count. clear Hp Hfit. change (2 ^ 32) with 4294967296 in *.
  assert (forall x, 0 <= x < 65536 -> u16 x = x) as E16 by (intros x Hx; by apply wrap_small).
  rewrite !E16 by lia. rewrite wrap_small by (split; [|change (2 ^ 32) with 4294967296]; lia).
  by destruct (c_client_hop (w_cfg w)).
Qed.

Lemma wp_socket_table_init w first Q : table_config w first -> fresh_pool w -> csum_ready (w_cfg w) (w_ws w) ->
  let w1 := with_table w (table_setup w first) in
  (forall w', filling w1 (plan_of (w_st w1) (client_ips w)) (tables w1 0 (client_ips w) ∅) (st_pool_num (w_st w)) w' ->
     Q 0 (with_table w' ((w_st w') <| st_pool_next := 0 |>))) ->
  wp (socket_table_init rand_r) Q w.
Proof.
  intros Hc Hf Hr w1 HQ. unfold socket_table_init. wp_reads. unfold id, table_mod.
  pose proof (tc_count _ _ Hc) as [Hn1 Hn2]. pose proof (bswap32_range first) as [Hb1 Hb2].
  pose proof (tc_first _ _ Hc) as Hfirst. unfold server_ip_first in Hfirst.
  assert (forall w2, w2 = w1 ->
    wp (let cfg := w_cfg w in
        (if c_server cfg then socket_port_table_init_ip_group rand_r (for_each_ip_range (c_client_ip_group cfg))
         else init_ip_range rand_r (np_client_ip_range (ws_port (w_ws w))));;
        ws_mod (fun ws => ws <| ws_socket_table ::= fun st => st <| st_pool_next := 0 |> |>);; mret 0) Q w2) as Hrest.
  { intros w2 ->. cbv zeta. apply wp_bind. eapply (wp_fill_all w first); [done..|].
    intros w' H'. cbv beta. apply wp_bind, wp_ws_mod. apply wp_ret. exact (HQ w' H'). }
  assert (forall st, st = table_setup w first -> with_table w st = w1) as Hw1 by (by intros st ->).
  apply wp_bind. change (c_flow (w_cfg w) =? FLOW_FDIR) with (is_fdir w).
  assert (server_ip_count w = if is_fdir w then 1 else num (np_server_ip_range (ws_port (w_ws w)))) as Hcount by done.
  destruct (is_fdir w).
  - apply wp_bind. eapply wp_lift; [exact Hfirst|]. apply wp_ws_mod. apply wp_bind, wp_ws_mod. apply Hrest.
    etransitivity; [|apply Hw1, (table_of_code w first _ Hc eq_refl _ eq_refl)]. rewrite Hcount.
    replace (ntohl first + 1 - 1) with (ntohl first) by lia. reflexivity.
  - apply wp_bind. eapply wp_lift; [exact Hfirst|]. apply wp_ws_mod. apply wp_bind, wp_ws_mod. apply Hrest.
    etransitivity; [|apply Hw1, (table_of_code w first _ Hc eq_refl _ eq_refl)]. rewrite Hcount in *.
    by rewrite (wrap_small 32 (ntohl first + _ - 1)) by (split; lia).
Qed.

(** The lookup in a filled table. *)
Definition filled_table (w1 : world) (ips : list Z) (st : socket_table) : Prop :=
  exists n, st = (w_st w1) <| st_pool_next := n |> <| st_ht := tables w1 0 ips ∅ |> <| st_pool_next := 0 |>.

Lemma lookup_some w1 ips st j x p sp si : bounds_ok (w_st w1) -> filled_table w1 ips st ->
  Z.of_nat (length ips) * table_size (w_st w1) < 2 ^ 32 ->
  NoDup (low16 <$> ips) -> ips !! j = Some x -> in_bounds (w_st w1) p sp si -> 1 <= p ->
  socket_common_lookup st x (htonl si) (htons p) (htons sp)
  = Some (pool_sock (w_st w1) (table_start w1 (Z.of_nat j) + table_index (w_st w1) p sp si)).
Proof.
  intros Hb (n & ->) Hfit Hd Hj Hin Hp. unfold socket_common_lookup. rsimpl.
  change (ntohl x &&& 65535) with (low16 x). rewrite (tables_lookup w1 0 ips ∅ j x Hd Hj).
  pose proof Hb as [B1 B2 B3 _ _]. pose proof Hin as (I1 & I2 & I3).
  rewrite !bswap16_involutive by (split; [|change (2 ^ 16) with 65536]; lia).
  rewrite bswap32_involutive by (split; lia).
  change (st_server_ip_min ?s) with (st_server_ip_min (w_st w1)).
  change (st_server_ip_max ?s) with (st_server_ip_max (w_st w1)).
  change (st_client_port_min ?s) with (st_client_port_min (w_st w1)).
  change (st_client_port_max ?s) with (st_client_port_max (w_st w1)).
  change (st_server_port_min ?s) with (st_server_port_min (w_st w1)).
  change (st_server_port_max ?s) with (st_server_port_max (w_st w1)).
  assert (negb (htons p =? 0) = true) as ->.
  { destruct (Z.eqb_spec (htons p) 0) as [E|]; [|done]. exfalso.
    assert (htons (htons p) = p) as Hinv by (apply bswap16_involutive; split; [|change (2 ^ 16) with 65536]; lia).
    rewrite E in Hinv. change (htons 0) with 0 in Hinv. lia. }
  repeat match goal with |- context [?a <=? ?b] => destruct (Z.leb_spec a b); [|lia] end. cbn [andb].
  f_equal. unfold socket_port_table_get, socket_port_index.
  pose proof (table_index_range _ _ _ _ Hb Hin) as Hr.
  assert (table_size (w_st w1) <= Z.of_nat (length ips) * table_size (w_st w1)) as Hone.
  { apply lookup_lt_Some in Hj. pose proof (table_size_pos _ Hb). nia. }
  match goal with |- (_ + Z.to_N (u32 ?x))%N = _ => change x with (table_index (w_st w1) p sp si) end.
  rewrite wrap_small by (split; lia). rewrite Z.add_0_l. unfold pool_sock, table_start.
  assert (0 <= Z.of_nat j * table_size (w_st w1)) by (pose proof (table_size_pos _ Hb); nia). lia.
Qed.

Lemma lookup_in_pool w1 ips st cip sip cp sp i : bounds_ok (w_st w1) -> filled_table w1 ips st ->
  Z.of_nat (length ips) * table_size (w_st w1) < 2 ^ 32 -> socket_common_lookup st cip sip cp sp = Some i ->
  exists k, 0 <= k < Z.of_nat (length ips) * table_size (w_st w1) /\ i = pool_sock (w_st w1) k.
Proof.
  intros Hb (n & ->) Hfit. unfold socket_common_lookup. rsimpl.
  destruct (tables w1 0 ips ∅ !! (ntohl cip &&& 65535)) as [t|] eqn:Ht; [|done].
  apply tables_some in Ht as [(j & Hj & ->)|Ht]; [|by rewrite lookup_empty in Ht].
  set (p := ntohs cp). set (s := ntohs sp). set (a := ntohl sip).
  change (st_server_ip_min ?s) with (st_server_ip_min (w_st w1)).
  change (st_server_ip_max ?s) with (st_server_ip_max (w_st w1)).
  change (st_client_port_min ?s) with (st_client_port_min (w_st w1)).
  change (st_client_port_max ?s) with (st_client_port_max (w_st w1)).
  change (st_server_port_min ?s) with (st_server_port_min (w_st w1)).
  change (st_server_port_max ?s) with (st_server_port_max (w_st w1)).
  destruct (_ && _) eqn:E; [|done]. intros [= <-]. bool_facts.
  assert (in_bounds (w_st w1) p s a) as Hin by (split; [|split]; lia).
  pose proof (table_index_range _ _ _ _ Hb Hin) as Hr. unfold socket_port_table_get, socket_port_index.
  match goal with |- context [u32 ?x] => change x with (table_index (w_st w1) p s a) end.
  pose proof (table_size_pos _ Hb) as Hpos.
  assert (table_size (w_st w1) <= Z.of_nat (length ips) * table_size (w_st w1)) as Hone by nia.
  rewrite wrap_small by (split; lia). rewrite Z.add_0_l. exists (table_start w1 j + table_index (w_st w1) p s a).
  unfold table_start. assert ((j + 1) * table_size (w_st w1) <= Z.of_nat (length ips) * table_size (w_st w1)) by nia.
  assert (0 <= j * table_size (w_st w1)) by nia.
  split; [lia|]. unfold pool_sock. lia.
Qed.

(** The ports and server addresses that the configuration names. *)
Definition configured (w : world) (first p sp si : Z) : Prop :=
  c_lport_min (w_cfg w) <= p <= c_lport_max (w_cfg w)
  /\ c_listen (w_cfg w) <= sp < c_listen (w_cfg w) + c_listen_num (w_cfg w)
  /\ ntohl first <= si < ntohl first + server_ip_count w.

End Table.

(** The small worker before its sockets are initialised. *)
Definition demo_range (ip : Z) : ip_range :=
  IpRange (IpAddr 0 0 0 (htonl ip)) (htonl ip :: replicate 255 0) (replicate 256 0) 1.
Definition demo_unready : world :=
  let w := World.Demo.demo_world in
  w <| w_cfg ::= fun c => c <| c_lport_min := 1 |> <| c_lport_max := 2 |> <| c_listen := 80 |> <| c_listen_num := 1 |> |>
    <| w_ws ::= fun ws => ws
         <| ws_port ::= fun p => p <| np_client_ip_range := demo_range 167772161 |> <| np_server_ip_range := demo_range 167772162 |> |>
         <| ws_socket_table ::= fun st => st <| st_ht := ∅ |> |> |>
    <| w_sockets := <[0%N := socket_zero]> {[1%N := socket_zero]} |>.

