(* ===== verification/SegmentProps.v ===== *)
(** * SegmentProps: a segment says what its socket says

    The headers of a segment that [tcp_new_packet] builds, read back as the
    receiver reads them: the two ends of a connection find each other. *)

From S2P Require Import Prelude SocketNode Csum IpRange Tick Config Mbuf NetStats World WorkSpace Socket SocketTimer.
From S2P Require Import TcpPacket Template Env SocketTableInv SocketInv TcpSafety LoopProps.

(** ** Stores and loads *)

(** [b'] is [b] outside the [n] bytes at [p]. *)
Definition agree (p n : Z) (b b' : list Z) : Prop :=
  length b' = length b /\ forall k, k < p \/ p + n <= k -> ld8 b' k = ld8 b k.

Lemma st8_agree p v b b' : st8 p v b = Some b' -> agree p 1 b b' /\ ld8 b' p = Some (v mod 256).
Proof.
  intros E. split; [split|].
  - unfold st8, aset in E. case_match; [|done]. injection E as <-. by rewrite length_insert.
  - intros k Hk. rewrite (st8_at _ _ _ _ _ E). by destruct (Z.eqb_spec k p); [lia|].
  - by rewrite (st8_at _ _ _ _ _ E), Z.eqb_refl.
Qed.
Lemma agree_trans p n q m b1 b2 b3 : 0 <= n -> 0 <= m -> q = p + n -> agree p n b1 b2 -> agree q m b2 b3 -> agree p (n + m) b1 b3.
Proof. intros Hn Hm -> [L1 H1] [L2 H2]. split; [congruence|]. intros k Hk. rewrite H2, H1; [done|lia..]. Qed.
Lemma ld16_agree p n b b' k : agree p n b b' -> k + 2 <= p \/ p + n <= k -> ld16 b' k = ld16 b k.
Proof. intros [_ H] Hk. unfold ld16. fold (ld8 b' k) (ld8 b' (k + 1)) (ld8 b k) (ld8 b (k + 1)). by rewrite !H by lia. Qed.
Lemma ld32_agree p n b b' k : agree p n b b' -> k + 4 <= p \/ p + n <= k -> ld32 b' k = ld32 b k.
Proof. intros H Hk. unfold ld32. by rewrite !(ld16_agree _ _ _ _ _ H) by lia. Qed.

Lemma st16_agree p v b b' : st16 p v b = Some b' -> agree p 2 b b' /\ ld16 b' p = Some (v mod 65536).
Proof.
  unfold st16. destruct (st8 p v b) as [b1|] eqn:E1; [|done]. cbn [mbind option_bind]. intros E2.
  destruct (st8_agree _ _ _ _ E1) as [A1 V1], (st8_agree _ _ _ _ E2) as [A2 V2]. split; [by apply (agree_trans p 1 (p + 1) 1 b b1 b')|].
  unfold ld16. fold (ld8 b' p) (ld8 b' (p + 1)). rewrite V2. rewrite (proj2 A2) by lia. rewrite V1. cbn [mbind option_bind].
  f_equal. rewrite Z.rem_mul_r with (b := 256) (c := 256) by lia. done.
Qed.
Lemma st32_agree p v b b' : st32 p v b = Some b' -> agree p 4 b b' /\ ld32 b' p = Some (v mod 2 ^ 32).
Proof.
  unfold st32. destruct (st16 p v b) as [b1|] eqn:E1; [|done]. cbn [mbind option_bind]. intros E2.
  destruct (st16_agree _ _ _ _ E1) as [A1 V1], (st16_agree _ _ _ _ E2) as [A2 V2]. split; [by apply (agree_trans p 2 (p + 2) 2 b b1 b')|].
  unfold ld32. rewrite V2. rewrite (ld16_agree _ _ _ _ _ A2) by lia. rewrite V1. cbn [mbind option_bind].
  f_equal. change (2 ^ 32) with (65536 * 65536). rewrite Z.rem_mul_r by lia. done.
Qed.

Lemma wp_store f m Q (w : world) b : f (m_buf m) = Some b -> Q (m <| m_buf := b |>) w -> wp (m_st f m) Q w.
Proof. intros E HQ. unfold m_st, m_op, m_store. rewrite E. cbn [fmap option_fmap option_map]. by eapply wp_lift. Qed.

(** One store of the goal; what it leaves is remembered. *)
Ltac store_at some agree p v m :=
  let b := fresh "b" in let E := fresh "E" in let A := fresh "A" in let V := fresh "V" in let Hl := fresh "Hl" in
  destruct (some (m_buf m) p v) as (b & E & Hl); [in_packet..|]; eapply wp_store; [exact E|]; apply agree in E as [A V]; rsimpl_all.
Ltac store_agree :=
  match goal with
  | |- wp (m_st (st8 ?p ?v) ?m) _ _ => store_at st8_some st8_agree p v m
  | |- wp (m_st (st16 ?p ?v) ?m) _ _ => store_at st16_some st16_agree p v m
  | |- wp (m_st (st32 ?p ?v) ?m) _ _ => store_at st32_some st32_agree p v m
  end.

(** ** What a segment says *)

Definition addresses (sk : socket) (ipv6 : bool) (b : list Z) (iph : Z) : Prop :=
  if ipv6 then ld32 b (iph + ip6_src + 12) = Some (u32 (sk_laddr sk)) /\ ld32 b (iph + ip6_dst + 12) = Some (u32 (sk_faddr sk))
  else ld32 b (iph + iph_saddr) = Some (u32 (sk_laddr sk)) /\ ld32 b (iph + iph_daddr) = Some (u32 (sk_faddr sk)).

Record says (sk : socket) (flags : Z) (ipv6 : bool) (b : list Z) (iph th : Z) : Prop := {
  sy_addresses : addresses sk ipv6 b iph;
  sy_sport : ld16 b (th + th_sport) = Some (u16 (sk_lport sk));
  sy_dport : ld16 b (th + th_dport) = Some (u16 (sk_fport sk));
  sy_seq : ld32 b (th + th_seq) = Some (htonl (sk_snd_una sk));
  sy_ack : ld32 b (th + th_ack) = Some (htonl (sk_rcv_nxt sk));
  sy_flags : ld8 b (th + th_flags) = Some (flags mod 256);
}.

(** The IP header of a segment, and a frame whose type and version are those
    of the worker. *)
Definition segment_ip (ws : work_space) (m : mbuf) : Z :=
  m_data_off m + (if ws_vxlan ws then VXLAN_HEADERS_SIZE else 0) + ETH_HDR_LEN.
Definition typed (ipv6 : bool) (b : list Z) (iph : Z) : Prop :=
  ld16 b (iph - ETH_HDR_LEN + eth_type) = Some (htons (if ipv6 then ETHER_TYPE_IPv6 else ETHER_TYPE_IPv4))
  /\ ld_ip_version b iph = Some (if ipv6 then 6 else 4).

(** The bytes of a template that every segment keeps: the type, the version,
    the length of the packet and that of the TCP header. *)
Definition fixed (ipv6 : bool) (iph k : Z) : Prop :=
  iph - 2 <= k < iph + 1 \/ (if ipv6 then iph + 4 <= k < iph + 6 else iph + 2 <= k < iph + 4) \/ k = iph + l3_len_of ipv6 + th_off.
Definition same_frame (ipv6 : bool) (iph : Z) (b b' : list Z) : Prop :=
  length b' = length b /\ forall k, fixed ipv6 iph k -> ld8 b' k = ld8 b k.

Lemma same_frame_refl ipv6 iph b : same_frame ipv6 iph b b.
Proof. done. Qed.
Lemma same_frame_trans ipv6 iph b1 b2 b3 : same_frame ipv6 iph b1 b2 -> same_frame ipv6 iph b2 b3 -> same_frame ipv6 iph b1 b3.
Proof. intros [L1 H1] [L2 H2]. split; [congruence|]. intros k Hk. by rewrite H2, H1. Qed.
Lemma same_frame_agree p n ipv6 iph b b' : agree p n b b' -> (forall k, fixed ipv6 iph k -> k < p \/ p + n <= k) -> same_frame ipv6 iph b b'.
Proof. intros [Hl H] Hp. split; [exact Hl|]. intros k Hk. by apply H, Hp. Qed.
Lemma same_frame_typed ipv6 iph b b' : same_frame ipv6 iph b b' -> typed ipv6 b iph -> typed ipv6 b' iph.
Proof.
  intros [_ H] [Ty Hv]. unfold typed, ld_ip_version, ld16 in *. fold (ld8 b' (iph - ETH_HDR_LEN + eth_type)) (ld8 b' (iph - ETH_HDR_LEN + eth_type + 1)).
  rewrite !H by (unfold fixed, ETH_HDR_LEN, eth_type; lia). by split.
Qed.

Section Build.
Context {D : Dpdk}.

Lemma agree_refl p n b : agree p n b b.
Proof. done. Qed.
Lemma agree_then p n q k b1 b2 b3 : agree q k b2 b3 -> p <= q -> q + k <= p + n -> agree p n b1 b2 -> agree p n b1 b3.
Proof. intros [L2 H2] Hq Hk [L1 H1]. split; [congruence|]. intros i Hi. rewrite H2, H1; [done|lia..]. Qed.

(** A load skips the stores beside it; a chain of stores stays in its range. *)
Ltac load_back :=
  repeat match goal with
  | H : agree ?p ?n ?b0 ?b |- ld8 ?b ?k = _ => rewrite (proj2 H) by (unfold_offsets; lia)
  | H : agree ?p ?n ?b0 ?b |- ld16 ?b ?k = _ => rewrite (ld16_agree _ _ _ _ _ H) by (unfold_offsets; lia)
  | H : agree ?p ?n ?b0 ?b |- ld32 ?b ?k = _ => rewrite (ld32_agree _ _ _ _ _ H) by (unfold_offsets; lia)
  end; eassumption.
Ltac chain_agree :=
  repeat match goal with H : agree ?q ?k ?b2 ?b3 |- agree _ _ _ ?b3 => apply (agree_then _ _ _ _ _ _ _ H); [unfold_offsets; lia|unfold_offsets; lia|clear H] end;
  apply agree_refl.
Ltac chain_frame :=
  repeat match goal with H : agree _ _ ?b2 ?b3 |- same_frame _ _ _ ?b3 =>
    eapply same_frame_trans; [|apply (same_frame_agree _ _ _ _ _ _ H); unfold fixed, l3_len_of; intros ?; unfold_offsets; repeat case_match; lia]; clear H end;
  apply same_frame_refl.

Lemma wp_set_ip_says iph sk m w : pkt_ok m -> ptrs_ok m iph iph ->
  wp (tcp_set_ip iph sk m) (fun m' w' => (exists n, w' = w <| w_ws ::= fun ws => ws <| ws_ip_id := n |> |>)
    /\ (exists b, m' = m <| m_buf := b |> /\ addresses sk (ws_ipv6 (w_ws w)) b iph /\ agree (iph + 4) 36 (m_buf m) b /\ same_frame (ws_ipv6 (w_ws w)) iph (m_buf m) b)) w.
Proof.
  intros Hm Hp. unfold ptrs_ok in Hp. unfold tcp_set_ip, addresses. wp_reads. apply wp_if; intros Hv.
  - wp_pure. store_agree. wp_pure. store_agree. wp_pure. store_agree. split; [by eexists|]. eexists. split; [done|].
    destruct (ws_ipv6 (w_ws w)); [done|]. split; [split; load_back|]. split; [chain_agree|chain_frame].
  - wp_pure. store_agree. wp_pure. store_agree. split; [exists (ws_ip_id (w_ws w)); by destruct w as [? ? []]|]. eexists. split; [done|].
    destruct (ws_ipv6 (w_ws w)); [|done]. split; [split; load_back|]. split; [chain_agree|chain_frame].
Qed.

Lemma wp_set_tcp_says th sk flags csum m w : pkt_ok m -> ptrs_ok m (m_data_off m) th ->
  wp (tcp_set_tcp th sk flags csum m) (fun m' w' => w' = w
    /\ exists b, m' = m <| m_buf := b |> /\ agree th 20 (m_buf m) b
      /\ (forall ipv6 iph, th = iph + l3_len_of ipv6 -> same_frame ipv6 iph (m_buf m) b)
      /\ ld16 b (th + th_sport) = Some (u16 (sk_lport sk)) /\ ld16 b (th + th_dport) = Some (u16 (sk_fport sk))
      /\ ld32 b (th + th_seq) = Some (htonl (sk_snd_una sk)) /\ ld32 b (th + th_ack) = Some (htonl (sk_rcv_nxt sk))
      /\ ld8 b (th + th_flags) = Some (flags mod 256)) w.
Proof.
  intros Hm Hp. unfold ptrs_ok in Hp. unfold tcp_set_tcp.
  assert (forall x, htonl x mod 2 ^ 32 = htonl x) as Hh by (intros x; apply Z.mod_small; apply bswap32_range).
  do 5 (wp_pure; store_agree). wp_pure. store_agree. split; [done|]. eexists. split; [done|]. rewrite Hh in *. split; [chain_agree|].
  split; [intros ipv6 iph ->; chain_frame|]. repeat split; load_back.
Qed.

Lemma set_headers_say (ipv6 : bool) iph th sk flags csum m w : pkt_ok m -> ws_ipv6 (w_ws w) = ipv6 ->
  m_data_off m <= iph -> iph + 60 <= m_data_off m + HDR_ROOM -> (th = iph + 20 \/ th = iph + 40) ->
  wp (m ← tcp_set_ip iph sk m; m ← tcp_set_tcp th sk flags csum m; mret m) (fun m' w' => (exists n, w' = w <| w_ws ::= fun ws => ws <| ws_ip_id := n |> |>)
    /\ exists b, m' = m <| m_buf := b |> /\ agree (iph + 4) 56 (m_buf m) b /\ (th = iph + l3_len_of ipv6 -> says sk flags ipv6 b iph th /\ same_frame ipv6 iph (m_buf m) b)) w.
Proof.
  intros Hm Hv Hi1 Hi2 Hth. apply wp_bind. eapply wp_mono; [apply wp_set_ip_says; [done|unfold ptrs_ok; unfold_offsets; lia]|].
  intros m1 w1 [Hw1 (b1 & -> & Hadr & A1 & F1)]. pose proof (proj1 A1) as Hl1.
  apply wp_bind. eapply wp_mono; [apply wp_set_tcp_says; [unfold pkt_ok in *; rsimpl; lia|unfold ptrs_ok, HDR_ROOM in *; rsimpl; lia]|].
  intros m2 w2 [-> (b2 & -> & A2 & F2 & S1 & S2 & S3 & S4 & S5)]. apply wp_ret. rsimpl_all. split; [done|]. exists b2. split; [by destruct m|].
  split; [apply (agree_then _ _ _ _ _ _ _ A2); [lia|lia|]; apply (agree_then _ _ _ _ _ _ _ A1); [lia|lia|apply agree_refl]|].
  rewrite Hv in *. intros El. split; [|by eapply same_frame_trans; [|apply F2]]. split; [|done..]. unfold addresses in *. unfold l3_len_of in El. destruct ipv6, Hadr as [H1 H2]; unfold_offsets;
    (split; load_back).
Qed.

Lemma fill_says ws sk csum_ip csum_tcp flags m w : pkt_ok m -> ws_ipv6 (w_ws w) = ws_ipv6 ws -> ws_change_dip ws = false ->
  wp (tcp_fill_packet ws sk csum_ip csum_tcp flags m) (fun m' w' => (exists n, w' = w <| w_ws ::= fun ws => ws <| ws_ip_id := n |> |>)
    /\ m_data_off m' = m_data_off m /\ pkt_ok m'
    /\ let iph := segment_ip ws m in (typed (ws_ipv6 ws) (m_buf m') iph -> says sk flags (ws_ipv6 ws) (m_buf m') iph (iph + l3_len_of (ws_ipv6 ws)))
       /\ (typed (ws_ipv6 ws) (m_buf m) iph -> same_frame (ws_ipv6 ws) iph (m_buf m) (m_buf m'))) w.
Proof.
  intros Hm Hv Hd. unfold tcp_fill_packet, segment_ip. rewrite Hd. apply wp_bind.
  apply wp_mono with (Q := fun r w' => w' = w /\ let '(iph, th, m', _) := r in exists b, m' = m <| m_buf := b |> /\ length b = length (m_buf m)
    /\ iph = segment_ip ws m /\ (th = iph + 20 \/ th = iph + 40)
    /\ same_frame (ws_ipv6 ws) iph (m_buf m) b
    /\ (ld16 b (iph - ETH_HDR_LEN + eth_type) = Some (htons (if ws_ipv6 ws then ETHER_TYPE_IPv6 else ETHER_TYPE_IPv4)) -> th = iph + l3_len_of (ws_ipv6 ws))).
  - unfold segment_ip. destruct (ws_vxlan ws) eqn:Hvx.
    + unfold tcp_vxlan_headers. wp_pure. store_agree. wp_pure. apply wp_if; intros H6; wp_pure.
      * split; [done|]. eexists. split; [done|]. rsimpl. unfold l3_len_of. rewrite H6. unfold_offsets. split; [done|]. split; [done|]. split; [by right|].
        split; [chain_frame|done].
      * store_agree. wp_pure. split; [done|]. eexists. split; [done|]. unfold l3_len_of. rewrite H6. unfold_offsets. split; [lia|]. split; [done|]. split; [by left|].
        split; [chain_frame|done].
    + wp_pure. destruct (mbuf_tcp_hdr_some m Hm) as (th & Hth & _). eapply wp_m_ld_eq; [exact Hth|]. wp_pure. split; [done|]. exists (m_buf m).
      split; [by destruct m|]. split; [done|]. unfold mbuf_ip_hdr. split; [lia|]. unfold mbuf_tcp_hdr in Hth. destruct (ld16 _ _) as [t|] eqn:Et; [|done].
      cbn [mbind option_bind] in Hth. injection Hth as <-. unfold mbuf_ip_hdr, IPHDR_LEN, IP6_HDR_LEN. split; [case_match; [left|right]; lia|]. split; [done|].
      intros E. replace (m_data_off m + ETH_HDR_LEN - ETH_HDR_LEN + eth_type) with (mbuf_eth_hdr m + eth_type) in E by (unfold mbuf_eth_hdr; lia).
      rewrite Et in E. injection E as ->. unfold l3_len_of, IPHDR_LEN, IP6_HDR_LEN. destruct (ws_ipv6 ws); vm_compute (_ =? _); cbv iota; lia.
  - intros [[[iph th] m1] csum] w1 [-> (b1 & -> & Hl & -> & Hth & Hbt & Hty)]. cbv beta iota.
    fold (segment_ip ws m). set (iph := segment_ip ws m) in *. assert (iph <= m_data_off m + 64 /\ m_data_off m + 14 <= iph) as [Hi1 Hi2].
    { subst iph. unfold segment_ip, VXLAN_HEADERS_SIZE, ETH_HDR_LEN. destruct (ws_vxlan ws); lia. }
    clearbody iph. eapply wp_mono; [apply (set_headers_say (ws_ipv6 ws) iph th); [|exact Hv| | |exact Hth]|]; [unfold pkt_ok in *; rsimpl; lia|rsimpl; lia|unfold HDR_ROOM in *; rsimpl; lia|].
    intros m' w' [Hw (b2 & -> & A2 & Hsay)]. split; [exact Hw|]. split; [done|]. split; [destruct A2; unfold pkt_ok in *; rsimpl_all; lia|].
    rsimpl_all. split.
    + intros [Ty _]. rewrite (ld16_agree _ _ _ _ _ A2) in Ty by (unfold ETH_HDR_LEN, eth_type; lia). rewrite <- (Hty Ty) in *. by apply Hsay.
    + intros Ty. pose proof (Hty (proj1 (same_frame_typed _ _ _ _ Hbt Ty))) as Et. eapply same_frame_trans; [exact Hbt|by apply Hsay].
Qed.

(** The receiver's key of a segment. *)
Lemma says_key sk flags ipv6 b iph : typed ipv6 b iph -> says sk flags ipv6 b iph (iph + l3_len_of ipv6) ->
  packet_key_get b iph (iph + l3_len_of ipv6) = Some (PacketKey (u32 (sk_laddr sk)) (u32 (sk_faddr sk)) (u16 (sk_lport sk)) (u16 (sk_fport sk))).
Proof using Type.
  intros [_ Hv] [Ha Hs Hd _ _ _]. unfold packet_key_get, ip_hdr_get_addr_low32. rewrite Hv. cbn [mbind option_bind].
  unfold addresses in Ha. destruct ipv6, Ha as [H1 H2]; cbn [Z.eqb Pos.eqb]; rewrite H1, H2; cbn [mbind option_bind]; rewrite Hd; cbn [mbind option_bind];
    rewrite Hs; done.
Qed.

(** ** The two ends of a connection *)

(** A socket that is the server's or the client's end of connection [c]. *)
Definition ends (server : bool) (c : conn) (sk : socket) : Prop :=
  if server
  then sk_laddr sk = cn_server_ip c /\ sk_faddr sk = cn_client_ip c /\ sk_lport sk = cn_server_port c /\ sk_fport sk = cn_client_port c
  else sk_laddr sk = cn_client_ip c /\ sk_faddr sk = cn_server_ip c /\ sk_lport sk = cn_client_port c /\ sk_fport sk = cn_server_port c.
Record conn_ok (c : conn) : Prop := {
  co_ips : in_u 32 (cn_client_ip c) /\ in_u 32 (cn_server_ip c);
  co_ports : in_u 16 (cn_client_port c) /\ in_u 16 (cn_server_port c);
}.
Lemma initial_ends cfg server c sk : initial cfg server c sk -> ends server c sk.
Proof using Type. intros (seq & _ & E). destruct sk. unfold csum_clear, conn_socket in E. destruct server; injection E as; by split_and!. Qed.

(** A worker in whose table the end [j] of [c] is found. *)
Record holds (server : bool) (c : conn) (j : N) (w : world) : Prop := {
  ho_lookup : socket_common_lookup (w_st w) (cn_client_ip c) (cn_server_ip c) (cn_client_port c) (cn_server_port c) = Some j;
  ho_socket : exists sk, w_sockets w !! j = Some sk /\ ends server c sk;
  ho_rss : st_rss (w_st w) = false;
}.

Definition socket_lookup (server : bool) : list Z -> Z -> Z -> M (option N) := if server then socket_server_lookup else socket_client_lookup.

Lemma lookup_holds server c j b iph th w : holds server c j w ->
  packet_key_get b iph th = Some (if server then PacketKey (cn_client_ip c) (cn_server_ip c) (cn_client_port c) (cn_server_port c)
                                  else PacketKey (cn_server_ip c) (cn_client_ip c) (cn_server_port c) (cn_client_port c)) ->
  socket_lookup server b iph th w = Ok (Some j, w).
Proof using Type.
  intros [Hl (sk & Hsk & He) Hr] Hk. unfold w_st in *.
  enough (wp (socket_lookup server b iph th) (fun r w' => r = Some j /\ w' = w) w) as H.
  { unfold wp in H. destruct (socket_lookup _ _ _ _ _) as [[r w']|]; [|done]. by destruct H as [-> ->]. }
  unfold socket_lookup, ends in *. destruct server, He as (E1 & E2 & _); [unfold socket_server_lookup|unfold socket_client_lookup]; apply wp_bind;
    (eapply wp_lift; [exact Hk|]); unfold table_get; wp_reads; cbn [k_saddr k_daddr k_sport k_dport]; unfold id; rewrite Hl; apply wp_bind;
    (eapply wp_sk_get; [exact Hsk|]); rewrite E1, E2, !Z.eqb_refl; cbn [andb].
  - by apply wp_ret.
  - rewrite Hr. unfold st_when. apply wp_bind, wp_ret. by apply wp_ret.
Qed.

(** What the segment [m] that socket [i] of [w] builds says to [w2]: its
    headers are those of the socket, and the other end of the connection is
    found. *)
Definition segment_speaks (server : bool) (c : conn) (i : N) (sk : socket) (tcp_flags : Z) (w w' : world) (m : mbuf) : Prop :=
  (exists n, w_sockets w' !! i = Some (sk <| sk_snd_nxt := n |>))
  /\ (typed (ws_ipv6 (w_ws w)) (m_buf m) (segment_ip (w_ws w) m) ->
      says sk (tcp_packet_kind (w_ws w) sk tcp_flags).2 (ws_ipv6 (w_ws w)) (m_buf m) (segment_ip (w_ws w) m)
        (segment_ip (w_ws w) m + l3_len_of (ws_ipv6 (w_ws w)))
      /\ forall j w2, holds (negb server) c j w2 ->
           socket_lookup (negb server) (m_buf m) (segment_ip (w_ws w) m) (segment_ip (w_ws w) m + l3_len_of (ws_ipv6 (w_ws w))) w2 = Ok (Some j, w2)).

(** ** The segment that is built *)

(** The template of a segment, its sequence space and the next number. *)
Definition packet_cache (ws : work_space) (sk : socket) (tcp_flags : Z) : cache_id := let '(p, _, _, _, _) := tcp_packet_kind ws sk tcp_flags in p.
Definition packet_len (ws : work_space) (sk : socket) (tcp_flags : Z) : Z :=
  let '(_, _, _, snd_seq, fl) := tcp_packet_kind ws sk tcp_flags in if has fl (TH_FIN ||| TH_SYN) then u16 (snd_seq + 1) else snd_seq.
Definition packet_next (ws : work_space) (sk : socket) (tcp_flags : Z) : Z :=
  if sk_snd_nxt sk =? sk_snd_una sk then u32 (sk_snd_nxt sk + packet_len ws sk tcp_flags) else sk_snd_nxt sk.

Definition packet_built (i : N) (sk : socket) (tcp_flags : Z) (w : world) (o : option mbuf) (w' : world) : Prop :=
  exists o0 w1, mbuf_cache_alloc (packet_cache (w_ws w) sk tcp_flags) w = Ok (o0, w1) /\
  match o0, o with
  | Some m0, Some m =>
      let ipv6 := ws_ipv6 (w_ws w) in let iph := segment_ip (w_ws w) m in
      (exists n, w_ws w' = (w_ws w1) <| ws_ip_id := n |>)
      /\ w_sockets w' !! i = Some (sk <| sk_snd_nxt := packet_next (w_ws w) sk tcp_flags |>)
      /\ m_data_off m = m_data_off m0 /\ pkt_ok m
      /\ (typed ipv6 (m_buf m) iph -> says sk (tcp_packet_kind (w_ws w) sk tcp_flags).2 ipv6 (m_buf m) iph (iph + l3_len_of ipv6))
      /\ (typed ipv6 (m_buf m0) iph -> same_frame ipv6 iph (m_buf m0) (m_buf m))
  | None, None => w' = w1
  | _, _ => False
  end.

Lemma wp_new_packet_says {room} {L : DpdkLaws D room} (pool : gset N) i sk tcp_flags w : HDR_ROOM <= room ->
  env_ok pool room w -> w_sockets w !! i = Some sk -> ws_change_dip (w_ws w) = false ->
  wp (tcp_new_packet i tcp_flags) (packet_built i sk tcp_flags w) w.
Proof using Type.
  intros Hroom He Hsk Hd. unfold tcp_new_packet, packet_built, packet_next, packet_cache, packet_len. wp_reads. unfold id. apply wp_bind. eapply wp_sk_get; [exact Hsk|].
  destruct (tcp_packet_kind (w_ws w) sk tcp_flags) as [[[[p csum_tcp] csum_ip] snd_seq] fl]. cbn [snd].
  destruct (wp_ok _ _ _ (wp_cache_alloc pool Hroom p w He)) as (o & w1 & Ea & Hstep & Hm). apply wp_bind. unfold wp at 1. rewrite Ea.
  destruct o as [m|]; [|apply wp_ret; by exists None, w1]. specialize (Hm m eq_refl). set (seq := if has fl _ then _ else _). cbv zeta. apply wp_bind.
  assert (w_sockets w1 !! i = Some sk) as Hsk1 by by rewrite (es_sockets _ _ _ _ Hstep).
  assert (ws_ipv6 (w_ws w1) = ws_ipv6 (w_ws w)) as Hv by (pose proof (es_static _ _ _ _ Hstep) as E; by injection E).
  set (n := if sk_snd_nxt sk =? sk_snd_una sk then u32 _ else _).
  apply wp_mono with (Q := fun _ w' => w_ws w' = w_ws w1 /\ w_sockets w' !! i = Some (sk <| sk_snd_nxt := n |>)).
  { subst n. apply wp_if; intros ->.
    - eapply wp_sk_mod; [exact Hsk1|]. split; [done|]. rsimpl. by rewrite lookup_insert_eq.
    - apply wp_ret. split; [done|]. rewrite Hsk1. by destruct sk. }
  intros _ w2 [Ew Hsk2]. apply wp_bind. eapply wp_sk_get; [exact Hsk2|]. apply wp_bind.
  eapply wp_mono; [apply (fill_says (w_ws w)); [done|by rewrite Ew|exact Hd]|]. intros m' w' [(ip & ->) (Ho & Hok & Hsay & Hty)]. apply wp_ret.
  exists (Some m), w1. split; [done|]. cbv zeta. replace (segment_ip (w_ws w) m') with (segment_ip (w_ws w) m) by (unfold segment_ip; by rewrite Ho).
  split; [exists ip; rsimpl; by rewrite Ew|]. split; [exact Hsk2|]. split; [exact Ho|]. split; [exact Hok|]. split; [|exact Hty].
  intros Ty. specialize (Hsay Ty). by destruct Hsay; split.
Qed.

(** C7: the two ends of a connection find each other.  A segment that a socket
    of connection [c] builds carries the addresses and ports of the socket, the
    first byte that is not acknowledged as its sequence number, the next byte
    that is expected as its acknowledgement, and the flags that were asked for;
    and a worker of the other side that has its end of [c] in its table finds
    exactly this socket when it reads the segment - over IPv4 and IPv6, and in
    a tunnel. *)
Theorem tcp_segment_finds_peer {room} {L : DpdkLaws D room} (pool : gset N) server c i sk tcp_flags w : HDR_ROOM <= room ->
  env_ok pool room w -> w_sockets w !! i = Some sk -> ends server c sk -> conn_ok c -> ws_change_dip (w_ws w) = false ->
  match tcp_new_packet i tcp_flags w with
  | Err _ => False
  | Ok (None, _) => True
  | Ok (Some m, w') => segment_speaks server c i sk tcp_flags w w' m
  end.
Proof using Type.
  intros Hroom He Hsk Hend [[C1 C2] [C3 C4]] Hd.
  destruct (wp_ok _ _ _ (wp_new_packet_says pool i sk tcp_flags w Hroom He Hsk Hd)) as (o & w' & -> & o0 & w1 & _ & H).
  destruct o as [m|]; [|done]. destruct o0 as [m0|]; [|done]. destruct H as (_ & Hsk' & _ & _ & Hsay & _).
  split; [by eexists|]. intros Ty. specialize (Hsay Ty). split; [exact Hsay|].
  intros j w3 Hj. apply (lookup_holds _ c); [exact Hj|]. rewrite (says_key _ _ _ _ _ Ty Hsay). unfold ends in Hend.
  destruct server, Hend as (-> & -> & -> & ->); cbn [negb]; by rewrite !wrap_small.
Qed.
End Build.

(** A SYN of the small client finds the socket of the small server. *)
Definition demo_connection : conn := Conn (htonl 167772161) (htons 1) (htonl 167772162) (htons 80).
Definition demo_syn : mbuf := match tcp_new_packet (D := Mbuf.Demo.dpdk) 0 TH_SYN World.Demo.demo_world with Ok (Some m, _) => m | _ => Mbuf.Demo.demo_mbuf 0 end.

Lemma tcp_segment_finds_peer_witness : socket_server_lookup (m_buf demo_syn) 142 162 demo_server = Ok (Some 0%N, demo_server).
Proof.
  pose proof (tcp_segment_finds_peer (D := Mbuf.Demo.dpdk) (L := Mbuf.Demo.laws) demo_D false demo_connection 0 (World.Demo.demo_socket 1) TH_SYN World.Demo.demo_world
    demo_room (inv_env _ _ _ _ _ demo_inv) ltac:(by vm_compute) ltac:(by vm_compute) ltac:(by vm_compute) ltac:(reflexivity)) as H.
  unfold demo_syn. destruct (tcp_new_packet 0 TH_SYN World.Demo.demo_world) as [[[m|] w']|] eqn:E; [|by vm_compute in E|by vm_compute in E].
  destruct H as [_ H]. assert (m_data_off m = 128 /\ typed false (m_buf m) 142) as [Ho Ty] by (vm_compute in E; injection E as <- _; by vm_compute).
  unfold segment_ip in H. rewrite Ho in H. destruct (H Ty) as [_ H2]. apply (H2 0%N demo_server). split; [by vm_compute| |done].
  eexists. split; [vm_compute; reflexivity|by vm_compute].
Defined.
