(* ===== verification/CsumCheck.v ===== *)
(** * CsumCheck: the checksums of an encapsulated packet

    [csum_check] of [src/csum.c] compares the checksums behind the VXLAN
    headers with those that DPDK computes, by clearing the fields and putting
    them back.  The results are those of the code, 0 or -1, with the buffer
    that the call leaves. *)

From S2P Require Import Prelude Csum IpRange Config Mbuf NetStats World WorkSpace Env TcpInv LoopInv LoopProps SegmentProps.

Section Check.
Context {D : Dpdk}.

Definition csum_check_ipv4 (b : list Z) (iph : Z) : option (Z * list Z) :=
  let th := iph + IPHDR_LEN in
  let uh := th in
  csum_ip ← ld16 b (iph + iph_check);
  b ← st16 (iph + iph_check) 0 b;
  if negb (csum_ip =? u16 (rte_ipv4_cksum (bytes_from b iph))) then Some (-1, b)
  else
    protocol ← ld8 b (iph + iph_protocol);
    if protocol =? IPPROTO_TCP then
      csum_tcp ← ld16 b (th + th_sum);
      b ← st16 (th + th_sum) 0 b;
      if negb (csum_tcp =? u16 (rte_ipv4_udptcp_cksum (bytes_from b iph) (bytes_from b th))) then Some (-1, b)
      else
        b ← st16 (th + th_sum) csum_tcp b;
        b ← st16 (iph + iph_check) csum_ip b;
        Some (0, b)
    else
      csum_udp ← ld16 b (uh + uh_check);
      b ← st16 (uh + uh_check) 0 b;
      if negb (csum_udp =? u16 (rte_ipv4_udptcp_cksum (bytes_from b iph) (bytes_from b uh))) then Some (-1, b)
      else
        b ← st16 (uh + uh_check) csum_udp b;
        b ← st16 (iph + iph_check) csum_ip b;
        Some (0, b).

Definition csum_check_ipv6 (b : list Z) (ip6h : Z) : option (Z * list Z) :=
  let th := ip6h + IP6_HDR_LEN in
  let uh := th in
  nxt ← ld8 b (ip6h + ip6_nxt);
  if nxt =? IPPROTO_TCP then
    csum_tcp ← ld16 b (th + th_sum);
    b ← st16 (th + th_sum) 0 b;
    if negb (csum_tcp =? u16 (rte_ipv6_udptcp_cksum (bytes_from b ip6h) (bytes_from b th))) then Some (-1, b)
    else b ← st16 (th + th_sum) csum_tcp b; Some (0, b)
  else
    csum_udp ← ld16 b (uh + uh_check);
    b ← st16 (uh + uh_check) 0 b;
    if negb (csum_udp =? u16 (rte_ipv6_udptcp_cksum (bytes_from b ip6h) (bytes_from b uh))) then Some (-1, b)
    else b ← st16 (uh + uh_check) csum_udp b; Some (0, b).

Definition csum_check (m : mbuf) : option (Z * mbuf) :=
  let iph := mbuf_eth_hdr m + VXLAN_HEADERS_SIZE + ETH_HDR_LEN in
  version ← ld_ip_version (m_buf m) iph;
  '(ret, b) ← (if version =? 4 then csum_check_ipv4 (m_buf m) iph else csum_check_ipv6 (m_buf m) iph);
  Some (ret, m <| m_buf := b |>).

(** ** A field that is cleared and put back *)

Lemma ld8_ext (b b' : list Z) : length b' = length b -> (forall k, ld8 b' k = ld8 b k) -> b' = b.
Proof.
  intros L H. apply list_eq. intros i. destruct (decide (i < length b)%nat) as [Hi|Hi].
  - specialize (H (Z.of_nat i)). unfold ld8, aget in H. destruct (Z.leb_spec 0 (Z.of_nat i)); [|lia]. by rewrite Nat2Z.id in H.
  - by rewrite !lookup_ge_None_2 by lia.
Qed.

Lemma ld16_bytes b p u : bytes b -> ld16 b p = Some u ->
  exists x y, ld8 b p = Some x /\ ld8 b (p + 1) = Some y /\ u = x + 256 * y /\ 0 <= x < 256 /\ 0 <= y < 256.
Proof.
  unfold ld16. intros Hb Hu. destruct (aget b p) as [x|] eqn:G1; [|done]. cbn in Hu. destruct (aget b (p + 1)) as [y|] eqn:G2; [|done]. injection Hu as <-.
  exists x, y. repeat (split; [done|]). split; by eapply ld8_byte.
Qed.

Lemma st16_undo p u v b b' : bytes b -> ld16 b p = Some u -> st16 p v b = Some b' -> st16 p u b' = Some b.
Proof.
  intros Hb Hu E. destruct (ld16_bytes _ _ _ Hb Hu) as (x & y & G1 & G2 & -> & Hx & Hy). destruct (st16_agree _ _ _ _ E) as [A _].
  destruct (st16_some b' p (x + 256 * y)) as (b'' & E'' & _); [|rewrite (proj1 A)|].
  1,2: apply aget_range in G1, G2; lia.
  rewrite E''. f_equal. destruct (st16_agree _ _ _ _ E'') as [A'' V'']. rewrite Z.mod_small in V'' by lia.
  apply ld16_bytes in V'' as (x' & y' & G3 & G4 & Q & Hx' & Hy'); [|by eapply st16_bytes, st16_bytes].
  apply ld8_ext; [rewrite (proj1 A''); apply A|]. intros k.
  destruct (decide (k < p \/ p + 2 <= k)) as [Hk|Hk]; [by rewrite (proj2 A''), (proj2 A)|].
  assert (k = p \/ k = p + 1) as [->| ->] by lia; [rewrite G1, G3|rewrite G2, G4]; f_equal; lia.
Qed.

(** ** What is accepted *)

(** The fields of a packet hold the sums that DPDK computes over it, the sum
    of the header with its own field cleared and the sum of the segment with
    both cleared. *)
Definition sums_ipv4 (b : list Z) (iph : Z) : Prop :=
  exists b1 b2 protocol c s, let th := iph + IPHDR_LEN in
    ld8 b (iph + iph_protocol) = Some protocol /\
    let l4 := th + (if protocol =? IPPROTO_TCP then th_sum else uh_check) in
    ld16 b (iph + iph_check) = Some c /\ ld16 b l4 = Some s /\
    st16 (iph + iph_check) 0 b = Some b1 /\ st16 l4 0 b1 = Some b2 /\
    c = u16 (rte_ipv4_cksum (bytes_from b1 iph)) /\
    s = u16 (rte_ipv4_udptcp_cksum (bytes_from b2 iph) (bytes_from b2 th)).

Lemma sums_ipv4_check b iph : bytes b -> sums_ipv4 b iph -> csum_check_ipv4 b iph = Some (0, b).
Proof.
  intros Hb (b1 & b2 & pr & c & s & Hp & Hc & Hs & E1 & E2 & Qc & Qs). cbv zeta in *. destruct (st16_agree _ _ _ _ E1) as [A1 _].
  assert (ld8 b1 (iph + iph_protocol) = Some pr) as Hp1 by (rewrite (proj2 A1) by (unfold iph_protocol, iph_check; lia); done).
  assert (ld16 b1 (iph + IPHDR_LEN + (if pr =? IPPROTO_TCP then th_sum else uh_check)) = Some s) as Hs1.
  { rewrite (ld16_agree _ _ _ _ _ A1) by (unfold iph_check, IPHDR_LEN, th_sum, uh_check; case_match; lia). done. }
  pose proof (st16_undo _ _ _ _ _ (st16_bytes _ _ _ _ E1 Hb) Hs1 E2) as U2. pose proof (st16_undo _ _ _ _ _ Hb Hc E1) as U1.
  unfold csum_check_ipv4. cbv zeta. rewrite Hc. cbn [mbind option_bind]. rewrite E1. cbn [mbind option_bind]. rewrite <- Qc, Z.eqb_refl. cbn [negb].
  rewrite Hp1. cbn [mbind option_bind]. destruct (pr =? IPPROTO_TCP);
    (rewrite Hs1; cbn [mbind option_bind]; rewrite E2; cbn [mbind option_bind]; rewrite <- Qs, Z.eqb_refl; cbn [negb]; rewrite U2; cbn [mbind option_bind]; rewrite U1; done).
Qed.

(** Accepted is what has the sums, and the packet is as it was. *)
Theorem csum_check_ipv4_sound b iph b' : bytes b ->
  csum_check_ipv4 b iph = Some (0, b') <-> sums_ipv4 b iph /\ b' = b.
Proof.
  intros Hb. split; [|by intros [H ->]; apply sums_ipv4_check]. intros E. enough (sums_ipv4 b iph) as S.
  { split; [done|]. rewrite (sums_ipv4_check _ _ Hb S) in E. congruence. }
  revert E. unfold csum_check_ipv4. cbv zeta. destruct (ld16 b (iph + iph_check)) as [c|] eqn:Hc; [|done]. cbn [mbind option_bind].
  destruct (st16 (iph + iph_check) 0 b) as [b1|] eqn:E1; [|done]. cbn [mbind option_bind]. destruct (st16_agree _ _ _ _ E1) as [A1 _].
  destruct (Z.eqb_spec c (u16 (rte_ipv4_cksum (bytes_from b1 iph)))) as [Qc|]; [|done]. cbn [negb].
  rewrite (proj2 A1) by (unfold iph_protocol, iph_check; lia). destruct (ld8 b (iph + iph_protocol)) as [pr|] eqn:Hp; [|done]. cbn [mbind option_bind].
  destruct (pr =? IPPROTO_TCP) eqn:Q; rewrite (ld16_agree _ _ _ _ _ A1) by (unfold iph_check, IPHDR_LEN, th_sum, uh_check; lia);
    (match goal with |- context [ld16 b ?p] => destruct (ld16 b p) as [s|] eqn:Hs end; [|done]; cbn [mbind option_bind];
     match goal with |- context [st16 ?p 0 b1] => destruct (st16 p 0 b1) as [b2|] eqn:E2 end; [|done]; cbn [mbind option_bind];
     match goal with |- context [?x =? ?v] => destruct (Z.eqb_spec x v) as [Qs|]; [|done] end;
     intros _; exists b1, b2, pr, c, s; cbv zeta; rewrite Q; done).
Qed.

(** A refusal leaves the packet with a cleared checksum. *)
Theorem csum_check_ipv4_refused b iph b' : csum_check_ipv4 b iph = Some (-1, b') -> ld16 b' (iph + iph_check) = Some 0.
Proof.
  unfold csum_check_ipv4. cbv zeta. destruct (ld16 b (iph + iph_check)) as [c|]; [|done]. cbn [mbind option_bind].
  destruct (st16 (iph + iph_check) 0 b) as [b1|] eqn:E1; [|done]. cbn [mbind option_bind]. destruct (st16_agree _ _ _ _ E1) as [A1 V1].
  case_match; [by intros [= <-]|]. destruct (ld8 b1 _) as [pr|]; [|done]. cbn [mbind option_bind].
  destruct (pr =? IPPROTO_TCP);
    (match goal with |- context [ld16 b1 ?p] => destruct (ld16 b1 p) as [s|] end; [|done]; cbn [mbind option_bind];
     match goal with |- context [st16 ?p 0 b1] => destruct (st16 p 0 b1) as [b2|] eqn:E2 end; [|done]; cbn [mbind option_bind]; destruct (st16_agree _ _ _ _ E2) as [A2 _];
     case_match; [intros [= <-]; rewrite (ld16_agree _ _ _ _ _ A2) by (unfold iph_check, IPHDR_LEN, th_sum, uh_check; lia); done|];
     repeat (match goal with |- context [st16 ?p ?v ?x] => destruct (st16 p v x); cbn [mbind option_bind] end); done).
Qed.

Definition sums_ipv6 (b : list Z) (ip6h : Z) : Prop :=
  exists b1 nxt s, let th := ip6h + IP6_HDR_LEN in
    ld8 b (ip6h + ip6_nxt) = Some nxt /\
    let l4 := th + (if nxt =? IPPROTO_TCP then th_sum else uh_check) in
    ld16 b l4 = Some s /\ st16 l4 0 b = Some b1 /\
    s = u16 (rte_ipv6_udptcp_cksum (bytes_from b1 ip6h) (bytes_from b1 th)).

Theorem csum_check_ipv6_sound b ip6h b' : bytes b ->
  csum_check_ipv6 b ip6h = Some (0, b') <-> sums_ipv6 b ip6h /\ b' = b.
Proof.
  intros Hb. unfold csum_check_ipv6, sums_ipv6. cbv zeta. split.
  - destruct (ld8 b (ip6h + ip6_nxt)) as [nxt|]; [|done]. cbn [mbind option_bind]. destruct (nxt =? IPPROTO_TCP) eqn:Q;
      (match goal with |- context [ld16 b ?p] => destruct (ld16 b p) as [s|] eqn:Hs end; [|done]; cbn [mbind option_bind];
       match goal with |- context [st16 ?p 0 b] => destruct (st16 p 0 b) as [b1|] eqn:E1 end; [|done]; cbn [mbind option_bind];
       match goal with |- context [?x =? ?v] => destruct (Z.eqb_spec x v) as [Qs|]; [|done] end; cbn [negb];
       rewrite (st16_undo _ _ _ _ _ Hb Hs E1); intros [= <-]; split; [|done]; exists b1, nxt, s; rewrite Q; done).
  - intros [(b1 & nxt & s & Hn & Hs & E1 & Qs) ->]. rewrite Hn. cbn [mbind option_bind]. destruct (nxt =? IPPROTO_TCP);
      (rewrite Hs; cbn [mbind option_bind]; rewrite E1; cbn [mbind option_bind]; rewrite <- Qs, Z.eqb_refl; cbn [negb];
       rewrite (st16_undo _ _ _ _ _ Hb Hs E1); done).
Qed.

(** ** What the worker computes is accepted *)

(** The two stores of a sum into a cleared field leave a packet that has it. *)
Lemma software_sums b iph (b0 b1 b2 b3 : list Z) : bytes b ->
  ld8 b (iph + iph_protocol) = Some IPPROTO_TCP ->
  let th := iph + IPHDR_LEN in
  st16 (iph + iph_check) 0 b = Some b0 -> st16 (th + th_sum) 0 b0 = Some b1 ->
  st16 (th + th_sum) (rte_ipv4_udptcp_cksum (bytes_from b1 iph) (bytes_from b1 th)) b1 = Some b2 ->
  st16 (iph + iph_check) (rte_ipv4_cksum (bytes_from b2 iph)) b2 = Some b3 -> sums_ipv4 b3 iph.
Proof.
  intros Hb Hp th E0 E1 E2 E3. destruct (st16_agree _ _ _ _ E0) as [A0 V0], (st16_agree _ _ _ _ E1) as [A1 V1], (st16_agree _ _ _ _ E2) as [A2 V2], (st16_agree _ _ _ _ E3) as [A3 V3].
  assert (bytes b1 /\ bytes b2) as [Hb1 Hb2] by (split; [|eapply st16_bytes; [exact E2|]]; by eapply st16_bytes, st16_bytes).
  assert (ld16 b2 (iph + iph_check) = Some 0) as Vc.
  { rewrite (ld16_agree _ _ _ _ _ A2), (ld16_agree _ _ _ _ _ A1) by (unfold th, iph_check, IPHDR_LEN, th_sum; lia). exact V0. }
  exists b2, b1, IPPROTO_TCP. cbv zeta. change (IPPROTO_TCP =? IPPROTO_TCP) with true. cbv iota. fold th. eexists _, _. split_and!.
  - rewrite (proj2 A3), (proj2 A2), (proj2 A1), (proj2 A0) by (unfold th, iph_check, iph_protocol, IPHDR_LEN, th_sum; lia). exact Hp.
  - exact V3.
  - rewrite (ld16_agree _ _ _ _ _ A3) by (unfold th, iph_check, IPHDR_LEN, th_sum; lia). exact V2.
  - by eapply st16_undo.
  - by eapply st16_undo.
  - done.
  - done.
Qed.

(** One store of the goal, with the equation of its result. *)
Ltac store_eq some :=
  match goal with
  | |- wp (m_st (_ ?p ?v) ?m) _ _ =>
      let b := fresh "b" in let E := fresh "E" in let Hl := fresh "Hl" in
      destruct (some (m_buf m) p v) as (b & E & Hl); [in_packet..|]; eapply wp_store; [exact E|]; rsimpl_all
  end.

(** Without the offloads of the card, [csum_offload_ip_tcpudp] gives a TCP
    packet the sums that [csum_check_ipv4] accepts. *)
Theorem csum_software_accepted m f (w : world) :
  pkt_ok m -> bytes (m_buf m) -> w_offload_ipv4_cksum w = 0 -> w_offload_tcpudp_cksum w = 0 ->
  ld16 (m_buf m) (mbuf_eth_hdr m + eth_type) = Some (htons ETHER_TYPE_IPv4) ->
  ld_ip_version (m_buf m) (mbuf_ip_hdr m) = Some 4 ->
  ld8 (m_buf m) (mbuf_ip_hdr m + iph_protocol) = Some IPPROTO_TCP ->
  wp (csum_offload_ip_tcpudp m f)
    (fun m' w' => w' = w /\ csum_check_ipv4 (m_buf m') (mbuf_ip_hdr m') = Some (0, m_buf m')) w.
Proof.
  intros Hm Hb Oi Ot Hty Hv Hp. unfold csum_offload_ip_tcpudp. wp_pure.
  eapply wp_m_ld_eq; [unfold mbuf_tcp_hdr; rewrite Hty; cbn [mbind option_bind]; rewrite Z.eqb_refl; reflexivity|]. wp_pure. rsimpl.
  eapply wp_m_ld_eq; [exact Hv|]. change (4 =? 4) with true. cbv iota. wp_pure.
  unfold mbuf_ip_hdr in *. set (iph := m_data_off m + ETH_HDR_LEN) in *. set (th := iph + IPHDR_LEN).
  store_eq st8_some. wp_pure. store_eq st16_some. wp_pure. rewrite Ot, Oi. change (0 =? 0) with true. cbv iota. wp_pure.
  store_eq st16_some. wp_pure. store_eq st16_some. wp_pure. rsimpl. cbv [negb]. store_eq st16_some. split; [done|]. rsimpl. apply st8_bytes in E as Hb'; [|done].
  apply sums_ipv4_check; [by do 4 (eapply st16_bytes; [eassumption|])|]. destruct (st8_agree _ _ _ _ E) as [A _].
  eapply software_sums; [exact Hb'| |eassumption..]. rewrite (proj2 A) by (unfold iph_ttl, iph_protocol; lia). exact Hp.
Qed.

(** An accepted packet is handed back as it came. *)
Corollary csum_check_unchanged m m' : bytes (m_buf m) -> csum_check m = Some (0, m') -> m' = m.
Proof.
  unfold csum_check. cbv zeta. intros Hb. destruct (ld_ip_version _ _) as [v|]; [|done]. cbn [mbind option_bind]. set (iph := _ + ETH_HDR_LEN).
  destruct (v =? 4); [pose proof (csum_check_ipv4_sound (m_buf m) iph) as S|pose proof (csum_check_ipv6_sound (m_buf m) iph) as S];
    destruct (_ (m_buf m) iph) as [[r b]|]; try done; intros [= -> <-]; destruct (proj1 (S b Hb) eq_refl) as [_ ->]; by destruct m.
Qed.
End Check.
