(* ===== verification/Frame.v ===== *)
(** * Frame: what a computation leaves as it is

    Frame rules for a view of the state - a field, a projection of one socket,
    what the driver has got - that hold whatever the result of the computation
    is, and that strengthen a triple. *)

From S2P Require Import Prelude Mbuf NetStats World WorkSpace.

(** Frame rules of whole operations. *)
Create HintDb leaves.

Definition leaves {A T} (v : world -> T) (m : M A) : Prop := forall w a w', m w = Ok (a, w') -> v w' = v w.

Section Leaves.
Context {T : Type} (v : world -> T).

Lemma leaves_ret {A} (a : A) : leaves v (mret a).
Proof. by intros w a' w' [= _ <-]. Qed.
Lemma leaves_bind {A B} (m : M A) (f : A -> M B) : leaves v m -> (forall a, leaves v (f a)) -> leaves v (m ≫= f).
Proof.
  intros Hm Hf w b w' E. unfold mbind, ST_bind in E. destruct (m w) as [[a w1]|] eqn:Em; [|done].
  rewrite (Hf _ _ _ _ E). by apply (Hm _ _ _ Em).
Qed.
Lemma leaves_gets {A} (f : world -> A) : leaves v (st_gets f).
Proof. by intros w a w' [= _ <-]. Qed.
Lemma leaves_modify f : (forall w, v (f w) = v w) -> leaves v (st_modify f).
Proof. intros H w a w' [= _ <-]. apply H. Qed.
Lemma leaves_when b (m : M unit) : leaves v m -> leaves v (st_when b m).
Proof. destruct b; [done|]. intros _. apply leaves_ret. Qed.
Lemma leaves_if {A} (b : bool) (m1 m2 : M A) : leaves v m1 -> leaves v m2 -> leaves v (if b then m1 else m2).
Proof. by destruct b. Qed.
Lemma leaves_sk_get i : leaves v (sk_get i).
Proof. intros w a w'. unfold sk_get. case_match; [|done]. by intros [= _ <-]. Qed.
Lemma leaves_sk_mod i f : (forall w sk, w_sockets w !! i = Some sk -> v (w <| w_sockets ::= insert i (f sk) |>) = v w) -> leaves v (sk_mod i f).
Proof. intros H w a w'. unfold sk_mod. case_match eqn:E; [|done]. intros [= _ <-]. by apply H. Qed.
Lemma leaves_link_op f : (forall w l, v (w <| w_links := l |>) = v w) -> leaves v (link_op f).
Proof. intros H w a w'. unfold link_op. case_match; [|done]. intros [= _ <-]. apply H. Qed.

Lemma leaves_lift {A} e (o : option A) : leaves v (st_lift e o).
Proof. intros w a w'. unfold st_lift. destruct o; [|done]. by intros [= _ <-]. Qed.
Lemma leaves_fail {A} e : leaves v (st_fail (A := A) e).
Proof. done. Qed.

Lemma leaves_pair {U A} (u : world -> U) (m : M A) : leaves v m /\ leaves u m -> leaves (fun w => (v w, u w)) m.
Proof. intros [H1 H2] w a w' E. by rewrite (H1 _ _ _ E), (H2 _ _ _ E). Qed.

(** A triple, and what is left. *)
Lemma wp_also {A} (m : M A) Q w : wp m Q w -> leaves v m -> wp m (fun a w' => Q a w' /\ v w' = v w) w.
Proof. intros Hm Hl. destruct (wp_ok _ _ _ Hm) as (a & w' & E & HQ). unfold wp. rewrite E. split; [done|]. by apply (Hl _ _ _ E). Qed.
End Leaves.

Ltac leaves_step :=
  match goal with
  | |- leaves _ (mret _) => apply leaves_ret
  | |- leaves _ (_ ≫= _) => apply leaves_bind; [|intros ?]
  | |- leaves _ (st_when _ _) => apply leaves_when
  | |- leaves _ (if _ then _ else _) => apply leaves_if
  | |- leaves _ (sk_get _) => apply leaves_sk_get
  | |- leaves _ (sk_mod _ _) => apply leaves_sk_mod; intros ? ? ?
  | |- leaves _ (link_op _) => apply leaves_link_op; intros ? ?
  | |- leaves _ (st_gets _) => apply leaves_gets
  | |- leaves _ (ws_get _) => apply leaves_gets
  | |- leaves _ (cfg_get _) => apply leaves_gets
  | |- leaves _ work_space_tsc => apply leaves_gets
  | |- leaves _ TSC_PER_SEC => apply leaves_gets
  | |- leaves _ (st_lift _ _) => apply leaves_lift
  | |- leaves _ (st_fail _) => apply leaves_fail
  | |- leaves _ (st_modify _) => apply leaves_modify; intros ?
  | |- leaves _ (ws_mod _) => apply leaves_modify; intros ?
  | |- leaves _ (io_log _) => apply leaves_modify; intros ?
  | |- leaves _ (match ?x with _ => _ end) => destruct x
  | |- leaves _ (stat_mod _) => apply leaves_modify; intros ?
  | |- leaves _ (stat_inc _) => apply leaves_modify; intros ?
  | |- leaves _ (let _ := _ in _) => cbv zeta
  end.
Ltac leaves_tac := repeat leaves_step; try done.

Lemma field_insert {T} (g : socket -> T) i j sk' w sk : w_sockets w !! j = Some sk -> g sk' = g sk ->
  g <$> w_sockets (w <| w_sockets ::= insert j sk' |>) !! i = g <$> w_sockets w !! i.
Proof.
  intros Hj Hf. rsimpl. destruct (decide (i = j)) as [->|]; [|by rewrite lookup_insert_ne].
  by rewrite lookup_insert_eq, Hj; cbn; rewrite Hf.
Qed.

(** ** What a computation returns *)

Definition yields {A} (P : A -> Prop) (m : M A) : Prop := forall w a w', m w = Ok (a, w') -> P a.

Section Yields.
Context {A : Type} (P : A -> Prop).

Lemma yields_ret a : P a -> yields P (mret a).
Proof. by intros H w a' w' [= <- _]. Qed.
Lemma yields_bind {B} (m : M B) (f : B -> M A) : (forall b, yields P (f b)) -> yields P (m ≫= f).
Proof. intros Hf w a w' E. unfold mbind, ST_bind in E. destruct (m w) as [[b w1]|]; [|done]. by apply (Hf _ _ _ _ E). Qed.
Lemma yields_if (b : bool) m1 m2 : yields P m1 -> yields P m2 -> yields P (if b then m1 else m2).
Proof. by destruct b. Qed.
Lemma wp_yields (m : M A) Q w : wp m Q w -> yields P m -> wp m (fun a w' => Q a w' /\ P a) w.
Proof. intros Hm Hy. destruct (wp_ok _ _ _ Hm) as (a & w' & E & HQ). unfold wp. rewrite E. split; [done|]. by apply (Hy _ _ _ E). Qed.
End Yields.
