(* ===== verification/Handshake.v ===== *)
(** * Handshake: a client and a server worker

    The opening handshake of TCP across two workers: the segments that one of
    them hands to the driver are those that the other one reads. *)

From S2P Require Import Prelude SocketNode Csum IpRange Tick Config Mbuf NetStats World WorkSpace Socket SocketTimer Template.
From S2P Require Import HttpParse TcpPacket Tcp Env SocketInv SocketTableInv TcpInv TcpSafety TcpProps SegmentProps LoopProps Frame.

(** What the driver has got: the queue, and what was sent or dropped. *)
Definition line (w : world) : tx_queue * list mbuf * list mbuf := (w_txq w, transmitted (w_io w), released (w_io w)).
(** The addresses of a socket. *)
Definition addressed (sk : socket) : Z * Z * Z * Z := (sk_laddr sk, sk_faddr sk, sk_lport sk, sk_fport sk).
(** The worker and its card. *)
Definition worker_of (w : world) : work_space * Z := (w_ws w, w_offload_tcpudp_cksum w).
(** The next number of socket [i]. *)
Definition next_of (i : N) (w : world) : option Z := sk_snd_nxt <$> w_sockets w !! i.

Lemma tx_count_leaves f : leaves line (tcp_flags_tx_count f) /\ leaves worker_of (tcp_flags_tx_count f).
Proof. split; unfold tcp_flags_tx_count; leaves_tac. Qed.
Lemma push_count_leaves `{Dpdk} f : leaves line (tcp_push_count f) /\ leaves worker_of (tcp_push_count f).
Proof. split; unfold tcp_push_count; leaves_tac. Qed.
Lemma new_packet_leaves `{Dpdk} i f : leaves line (tcp_new_packet i f) /\ leaves w_offload_tcpudp_cksum (tcp_new_packet i f) /\ leaves w_st (tcp_new_packet i f).
Proof.
  split_and!; unfold tcp_new_packet, mbuf_cache_alloc, pktmbuf_alloc, mbuf_push_data, tcp_fill_packet, tcp_vxlan_headers, tcp_set_ip, tcp_set_tcp,
    tcp_change_dip, tcp_change_dipv4, tcp_change_dipv6, dip_next_ipv4, dip_next_ipv6, m_st, m_ld, m_op; leaves_tac.
Qed.
Lemma timer_leaves_line `{Dpdk} i f t : leaves line (tcp_reply_timer i f t) /\ leaves w_st (tcp_reply_timer i f t).
Proof.
  split; unfold tcp_reply_timer, socket_accurate_timer_tsc, socket_start_retransmit_timer, socket_start_retransmit_timer_force, socket_start_timeout_timer, socket_add_timer;
  leaves_tac.
Qed.
Lemma free2_leaves m : leaves line (mbuf_free2 m) /\ leaves w_st (mbuf_free2 m).
Proof. split; unfold mbuf_free2, mbuf_free2_flush; leaves_tac. Qed.
Lemma timer_leaves_next `{Dpdk} i j f t : leaves (next_of i) (tcp_reply_timer j f t).
Proof.
  unfold tcp_reply_timer, socket_accurate_timer_tsc, socket_start_retransmit_timer, socket_start_retransmit_timer_force, socket_start_timeout_timer, socket_add_timer.
  leaves_tac; by eapply (field_insert sk_snd_nxt).
Qed.
Lemma server_open_leaves i seq : leaves line (socket_server_open i seq) /\ leaves worker_of (socket_server_open i seq).
Proof. split; unfold socket_server_open; leaves_tac. Qed.
(** What is set when a connection is not open: the addresses of socket [i],
    and whether it is kept alive. *)
Definition settled (sk : socket) : Z * Z * Z * Z * bool := (addressed sk, sk_keepalive sk).
Definition settled_of (i : N) (w : world) : option (Z * Z * Z * Z * bool) := settled <$> w_sockets w !! i.
Lemma server_open_leaves_settled i j seq : leaves (settled_of i) (socket_server_open j seq).
Proof. unfold socket_server_open. leaves_tac; by eapply (field_insert settled). Qed.

(** ** On the way to the driver *)

(** A place of [n] bytes at [p] that a receiver does not read. *)
Definition unread (ipv6 : bool) (iph p n : Z) : Prop :=
  p + n <= iph - 2 \/ (iph + 6 <= p /\ p + n <= iph + 12) \/ iph + l3_len_of ipv6 + 14 <= p.

Lemma unread_frame ipv6 iph p n b b' : unread ipv6 iph p n -> agree p n b b' -> same_frame ipv6 iph b b'.
Proof.
  intros Hu A. apply (same_frame_agree p n); [exact A|]. unfold unread, fixed, l3_len_of, IPHDR_LEN, IP6_HDR_LEN, th_off in *.
  intros k. destruct ipv6; lia.
Qed.

(** A receiver reads [len] bytes of data in the frame, and they are there. *)
Definition loaded (ipv6 : bool) (b : list Z) (iph len : Z) : Prop := exists d,
  tcp_data_get b iph (iph + l3_len_of ipv6) = Some (d, len) /\ 0 <= d /\ 0 <= len /\ d + len <= Z.of_nat (length b).

Lemma tcp_data_get_move ipv6 b b' iph iph' d len : typed ipv6 b iph ->
  (forall k v, fixed ipv6 iph k -> ld8 b k = Some v -> ld8 b' (iph' + (k - iph)) = Some v) ->
  tcp_data_get b iph (iph + l3_len_of ipv6) = Some (d, len) ->
  tcp_data_get b' iph' (iph' + l3_len_of ipv6) = Some (iph' + (d - iph), len).
Proof.
  intros [_ Hv] Hm. assert (forall o v, fixed ipv6 iph (iph + o) -> ld8 b (iph + o) = Some v -> ld8 b' (iph' + o) = Some v) as Hk.
  { intros o v Ho E. rewrite <- (Hm _ _ Ho E). f_equal. lia. }
  assert (forall o v, fixed ipv6 iph (iph + o) -> fixed ipv6 iph (iph + (o + 1)) -> ld16 b (iph + o) = Some v -> ld16 b' (iph' + o) = Some v) as Hk16.
  { intros o v H1 H2. unfold ld16. fold (ld8 b (iph + o)) (ld8 b (iph + o + 1)) (ld8 b' (iph' + o)) (ld8 b' (iph' + o + 1)). rewrite <- !Z.add_assoc.
    destruct (ld8 b (iph + o)) eqn:E1; [|done]. destruct (ld8 b (iph + (o + 1))) eqn:E2; [|done]. by rewrite (Hk _ _ H1 E1), (Hk _ _ H2 E2). }
  unfold tcp_data_get, ld_th_off. rewrite Hv. assert (ld_ip_version b' iph' = Some (if ipv6 then 6 else 4)) as Hv'.
  { unfold ld_ip_version in *. destruct (ld8 b iph) eqn:E; [|done]. rewrite <- (Z.add_0_r iph) in E. pose proof (Hk 0 _ ltac:(unfold fixed; lia) E) as E'.
    rewrite Z.add_0_r in E'. by rewrite E'. }
  rewrite Hv'. cbn [mbind option_bind]. rewrite <- !Z.add_assoc. destruct (ld8 b (iph + (l3_len_of ipv6 + th_off))) as [o|] eqn:Eo; [|done].
  rewrite (Hk (l3_len_of ipv6 + th_off) o ltac:(right; right; lia) Eo). cbn [mbind option_bind]. unfold fixed in Hk16. destruct ipv6; cbn [Z.eqb Pos.eqb].
  - destruct (ld16 b (iph + ip6_plen)) eqn:El; [|done]. rewrite (Hk16 ip6_plen _ ltac:(unfold ip6_plen; lia) ltac:(unfold ip6_plen; lia) El). cbn [mbind option_bind].
    intros [= <- <-]. do 2 f_equal. lia.
  - destruct (ld16 b (iph + iph_tot_len)) eqn:El; [|done]. rewrite (Hk16 iph_tot_len _ ltac:(unfold iph_tot_len; lia) ltac:(unfold iph_tot_len; lia) El). cbn [mbind option_bind].
    intros [= <- <-]. do 2 f_equal. lia.
Qed.

Lemma same_frame_loaded ipv6 iph b b' len : same_frame ipv6 iph b b' -> typed ipv6 b iph -> loaded ipv6 b iph len -> loaded ipv6 b' iph len.
Proof.
  intros [Hl H] Ty (d & Hd & H1 & H2 & H3). exists d. rewrite Hl. split; [|done]. replace d with (iph + (d - iph)) by lia.
  apply (tcp_data_get_move ipv6 b); [exact Ty| |exact Hd]. intros k v Hk E. rewrite <- E, <- (H _ Hk). f_equal. lia.
Qed.

Lemma says_unread sk flags ipv6 iph p n b b' : unread ipv6 iph p n -> agree p n b b' ->
  says sk flags ipv6 b iph (iph + l3_len_of ipv6) -> says sk flags ipv6 b' iph (iph + l3_len_of ipv6).
Proof.
  unfold unread, l3_len_of, IPHDR_LEN, IP6_HDR_LEN. intros Hu A [H1 H2 H3 H4 H5 H6]. unfold addresses in *. unfold_offsets. split; unfold_offsets.
  - unfold addresses. unfold_offsets. destruct ipv6; rewrite !(ld32_agree _ _ _ _ _ A) by lia; exact H1.
  - rewrite (ld16_agree _ _ _ _ _ A); [exact H2|destruct ipv6; lia].
  - rewrite (ld16_agree _ _ _ _ _ A); [exact H3|destruct ipv6; lia].
  - rewrite (ld32_agree _ _ _ _ _ A); [exact H4|destruct ipv6; lia].
  - rewrite (ld32_agree _ _ _ _ _ A); [exact H5|destruct ipv6; lia].
  - rewrite (proj2 A); [exact H6|destruct ipv6; lia].
Qed.

Section Wire.
Context {Dk : Dpdk}.

(** The frame [m] of worker [ws] carries a segment of [sk] with [len] bytes of
    data. *)
Record carries (ws : work_space) (sk : socket) (flags len : Z) (m : mbuf) : Prop := {
  ca_typed : typed (ws_ipv6 ws) (m_buf m) (segment_ip ws m);
  ca_loaded : loaded (ws_ipv6 ws) (m_buf m) (segment_ip ws m) len;
  ca_says : says sk flags (ws_ipv6 ws) (m_buf m) (segment_ip ws m) (segment_ip ws m + l3_len_of (ws_ipv6 ws));
}.

Lemma carries_unread ws sk flags len m m' p n : carries ws sk flags len m -> m_data_off m' = m_data_off m ->
  agree p n (m_buf m) (m_buf m') -> unread (ws_ipv6 ws) (segment_ip ws m) p n -> carries ws sk flags len m'.
Proof.
  intros [Ty Hl Hs] Ho A Hu. assert (segment_ip ws m' = segment_ip ws m) as E by (unfold segment_ip; by rewrite Ho).
  pose proof (unread_frame _ _ _ _ _ _ Hu A) as F.
  split; rewrite E; [by eapply same_frame_typed|by eapply same_frame_loaded|by eapply says_unread].
Qed.
Lemma carries_same ws sk flags len m m' : carries ws sk flags len m -> m_data_off m' = m_data_off m -> m_buf m' = m_buf m -> carries ws sk flags len m'.
Proof. intros [Ty Hl Hs] Ho Hb. by split; rewrite Hb; replace (segment_ip ws m') with (segment_ip ws m) by (unfold segment_ip; by rewrite Ho). Qed.

(** A packet at [off] that carries a segment; one store into it. *)
Definition carrier (ws : work_space) (sk : socket) (flags len off : Z) (m : mbuf) : Prop :=
  m_data_off m = off /\ pkt_ok m /\ carries ws sk flags len m.
Lemma carrier_same ws sk flags len off m m' : carrier ws sk flags len off m -> m_data_off m' = m_data_off m -> m_buf m' = m_buf m -> carrier ws sk flags len off m'.
Proof. intros (Ho & Hm & Hc) Eo Eb. split; [congruence|]. split; [unfold pkt_ok in *; by rewrite Eo, Eb|by eapply carries_same]. Qed.
Lemma wp_carry p n f ws sk flags len off m Q (w : world) : carrier ws sk flags len off m ->
  (exists b, f (m_buf m) = Some b /\ agree p n (m_buf m) b) ->
  unread (ws_ipv6 ws) (off + (if ws_vxlan ws then VXLAN_HEADERS_SIZE else 0) + ETH_HDR_LEN) p n ->
  (forall m', carrier ws sk flags len off m' -> Q m' w) -> wp (m_st f m) Q w.
Proof.
  intros (Ho & Hm & Hc) (b & E & A) Hu HQ. eapply wp_store; [exact E|]. apply HQ. split; [exact Ho|]. pose proof (proj1 A).
  split; [unfold pkt_ok in *; rsimpl; lia|]. eapply carries_unread; [exact Hc|done|exact A|]. unfold segment_ip. by rewrite Ho.
Qed.
Lemma st8_stores b p v : 0 <= p < Z.of_nat (length b) -> exists b', st8 p v b = Some b' /\ agree p 1 b b'.
Proof. intros Hp. destruct (st8_some b p v Hp) as (b' & E & _). exists b'. split; [done|]. apply (st8_agree _ _ _ _ E). Qed.
Lemma st16_stores b p v : 0 <= p -> p + 2 <= Z.of_nat (length b) -> exists b', st16 p v b = Some b' /\ agree p 2 b b'.
Proof. intros Hp Hp'. destruct (st16_some b p v Hp Hp') as (b' & E & _). exists b'. split; [done|]. apply (st16_agree _ _ _ _ E). Qed.

(** A store of the goal beside what the receiver reads. *)
Ltac carry_at p n stores :=
  match goal with H : carrier ?ws ?sk ?flags ?len ?off ?m |- _ =>
    apply (wp_carry p n _ ws sk flags len off);
    [by apply (carrier_same _ _ _ _ _ _ _ H)
    |apply stores; destruct H as (? & [? ?] & _); unfold HDR_ROOM in *; unfold_offsets; rsimpl; lia
    |clear H; unfold unread; unfold_offsets; repeat case_match; try lia
    |let m' := fresh "m" in let H' := fresh "Hk" in intros m' H'; wp_pure; clear H]
  end.
Ltac carry_step :=
  match goal with
  | |- wp (m_st (st8 ?p _) _) _ _ => carry_at p 1 st8_stores
  | |- wp (m_st (st16 ?p _) _) _ _ => carry_at p 2 st16_stores
  end.
Ltac carried := match goal with H : carrier _ _ _ _ _ _ |- _ => split; [done|]; by apply (carrier_same _ _ _ _ _ _ _ H) end.

Lemma wp_csum_carries ws sk flags len off m fl w : carrier ws sk flags len off m -> (ws_vxlan ws = true -> w_offload_tcpudp_cksum w ≠ 0) ->
  wp (csum_offload_ip_tcpudp m fl) (fun m' w' => w' = w /\ carrier ws sk flags len off m') w.
Proof.
  intros Hk Hs. unfold csum_offload_ip_tcpudp. wp_pure. destruct (Hk) as (Ho & Hm & Hc). destruct (mbuf_tcp_hdr_some m Hm) as (th & Hth & Hr).
  assert (ws_vxlan ws = false -> th = off + ETH_HDR_LEN + l3_len_of (ws_ipv6 ws)) as Eth.
  { intros Hv. destruct (ca_typed _ _ _ _ _ Hc) as [Ty _]. unfold segment_ip in *. rewrite Hv in *. unfold mbuf_tcp_hdr in Hth.
    replace (m_data_off m + 0 + ETH_HDR_LEN - ETH_HDR_LEN + eth_type) with (mbuf_eth_hdr m + eth_type) in Ty by (unfold mbuf_eth_hdr; lia).
    rewrite Ty in Hth. cbn [mbind option_bind] in Hth. injection Hth as <-. unfold l3_len_of, IPHDR_LEN, IP6_HDR_LEN.
    destruct (ws_ipv6 ws); vm_compute (_ =? _); cbv iota; lia. }
  eapply wp_m_ld_eq; [exact Hth|]. wp_pure. rsimpl. unfold mbuf_ip_hdr. apply wp_m_ld; [apply ld_ip_version_some; in_packet|intros v]. wp_pure.
  clear Hth Hc. rewrite Ho in *. clear Ho.
  assert (w_offload_tcpudp_cksum w = 0 -> th = off + ETH_HDR_LEN + l3_len_of (ws_ipv6 ws) /\ ws_vxlan ws = false) as Hth.
  { intros E0. destruct (ws_vxlan ws); [by destruct Hs|auto]. }
  apply wp_if; intros _; wp_pure.
  - do 2 carry_step. apply wp_if; intros E0; wp_pure.
    + apply Z.eqb_eq in E0. destruct (Hth E0) as [Et Hv]. do 2 carry_step. apply wp_if; intros _; [wp_pure|carry_step]; carried.
    + apply wp_if; intros _; [wp_pure|carry_step]; carried.
  - carry_step. apply wp_if; intros E0; wp_pure; [|carried]. apply Z.eqb_eq in E0. destruct (Hth E0) as [Et Hv]. do 2 carry_step. carried.
Qed.

(** ** Templates *)

(** Stores of a template put its bytes into the packet. *)
Lemma st_bytes_ld p bs b b' k v : st_bytes p bs b = Some b' -> 0 <= p -> ld8 bs k = Some v -> ld8 b' (p + k) = Some v.
Proof.
  intros E Hp Hk. pose proof (aget_range _ _ _ Hk) as Hr. rewrite (st_bytes_at _ _ _ _ _ E) by lia.
  destruct (Z.leb_spec p (p + k)), (Z.ltb_spec (p + k) (p + Z.of_nat (length bs))); try lia. cbn [andb].
  replace (p + k - p) with k by lia. unfold ld8, aget in Hk. by destruct (Z.leb_spec 0 k); [|lia].
Qed.
Lemma st_bytes_ld16 p bs b b' k v : st_bytes p bs b = Some b' -> 0 <= p -> ld16 bs k = Some v -> ld16 b' (p + k) = Some v.
Proof.
  intros E Hp. unfold ld16. fold (ld8 bs k) (ld8 bs (k + 1)) (ld8 b' (p + k)) (ld8 b' (p + k + 1)).
  destruct (ld8 bs k) as [x|] eqn:Ex; [|done]. destruct (ld8 bs (k + 1)) as [y|] eqn:Ey; [|done].
  rewrite (st_bytes_ld _ _ _ _ _ _ E Hp Ex). replace (p + k + 1) with (p + (k + 1)) by lia. by rewrite (st_bytes_ld _ _ _ _ _ _ E Hp Ey).
Qed.
Lemma st_bytes_typed p bs b b' ipv6 iph : st_bytes p bs b = Some b' -> 0 <= p -> typed ipv6 bs iph -> typed ipv6 b' (p + iph).
Proof.
  intros E Hp [Ty Hv]. split.
  - replace (p + iph - ETH_HDR_LEN + eth_type) with (p + (iph - ETH_HDR_LEN + eth_type)) by lia. by eapply st_bytes_ld16.
  - unfold ld_ip_version in *. destruct (ld8 bs iph) as [x|] eqn:Ex; [|done]. by rewrite (st_bytes_ld _ _ _ _ _ _ E Hp Ex).
Qed.

Lemma st_bytes_loaded p bs b b' ipv6 iph len : st_bytes p bs b = Some b' -> 0 <= p -> p + Z.of_nat (length bs) <= Z.of_nat (length b') ->
  typed ipv6 bs iph -> 0 <= iph -> loaded ipv6 bs iph len -> loaded ipv6 b' (p + iph) len.
Proof.
  intros E Hp Hb Ty Hi (d & Hd & H1 & H2 & H3). exists (p + iph + (d - iph)). split; [|lia].
  apply (tcp_data_get_move ipv6 bs); [exact Ty| |exact Hd]. intros k v _ Hk.
  replace (p + iph + (k - iph)) with (p + k) by lia. by eapply st_bytes_ld.
Qed.

(** The position of the (inner) IP header in a frame. *)
Definition ip_at (ws : work_space) : Z := (if ws_vxlan ws then VXLAN_HEADERS_SIZE else 0) + ETH_HDR_LEN.

(** The bytes of data in the frames of a pool. *)
Definition cache_load (c : cache_id) (ws : work_space) : Z := if bool_decide (c = Cache_tcp_data) then md_data_len (ws_tcp_data ws) else 0.

(** A frame of the worker: its type and version, and the data that is there. *)
Definition framed (ws : work_space) (c : cache_id) (b : list Z) (iph : Z) : Prop :=
  typed (ws_ipv6 ws) b iph /\ loaded (ws_ipv6 ws) b iph (cache_load c ws).

(** A pool of frames: it is not empty, its template is one of this worker's
    frames, and so is a packet that comes back with the mark of the pool. *)
Record frames_ready (ws : work_space) (c : cache_id) : Prop := {
  fr_alloc : forall h, is_Some (rte_pktmbuf_alloc h (Pool_cache c));
  fr_template : framed ws c (md_data (cache_data c ws)) (ip_at ws);
  fr_reused : forall h m, rte_pktmbuf_alloc h (Pool_cache c) = Some m -> m_userdata m = Some c ->
    framed ws c (m_buf m) (m_data_off m + ip_at ws);
}.

Lemma segment_ip_at ws m : segment_ip ws m = m_data_off m + ip_at ws.
Proof. unfold segment_ip, ip_at. lia. Qed.

Lemma wp_cache_alloc_framed {room} {L : DpdkLaws Dk room} (pool : gset N) c w : HDR_ROOM <= room -> env_ok pool room w -> frames_ready (w_ws w) c ->
  wp (mbuf_cache_alloc c) (fun o _ => exists m, o = Some m /\ framed (w_ws w) c (m_buf m) (segment_ip (w_ws w) m)) w.
Proof.
  intros Hroom He [Fa Ft Fr]. pose proof (env_cache _ _ _ He c) as [Hlen Hdata]. cbv zeta in Hlen, Hdata.
  unfold mbuf_cache_alloc, pktmbuf_alloc, mbuf_push_data. wp_pure. destruct (Fa (w_io w)) as [m Ea]. rewrite Ea.
  destruct (alloc_fresh _ _ _ Ea) as (A1 & A2 & A3). apply wp_if; intros Hu; wp_pure; apply wp_lift_any.
  - rewrite append_ok. unfold append_doc. by case_match; [eexists|bool_facts; lia].
  - intros [p m'] Hp. rewrite append_ok in Hp. unfold append_doc in Hp. case_match; [|done]. injection Hp as <- <-. wp_pure.
    eexists. split; [done|]. rewrite segment_ip_at. rsimpl. bool_facts. by eapply Fr.
  - rewrite append_ok. unfold append_doc. rsimpl. by case_match; [eexists|bool_facts; lia].
  - intros [p m'] Hp. rewrite append_ok in Hp. unfold append_doc in Hp. rsimpl_in Hp. case_match; [|done]. injection Hp as <- <-. bool_facts. wp_pure.
    destruct (st_bytes_some (m_buf m) (m_data_off m + m_data_len m) (md_data (cache_data c (w_ws w)))) as (b & Eb & Hb); [lia..|].
    eapply wp_store; [rsimpl; exact Eb|]. wp_pure. eexists. split; [done|]. rewrite segment_ip_at. rsimpl.
    rewrite A1, Z.add_0_r in Eb. destruct Ft as [Ty Hl]. split; [by eapply st_bytes_typed|].
    eapply st_bytes_loaded; [exact Eb|lia|lia|exact Ty| |exact Hl]. unfold ip_at, VXLAN_HEADERS_SIZE, ETH_HDR_LEN. case_match; lia.
Qed.

(** ** A reply *)

(** The one packet that went to the driver between [w] and [w']: what waited
    and [m], in this order, were sent, dropped by a full card, or still wait. *)
Definition emits (w w' : world) (m : mbuf) : Prop := exists ps sent dropped rest,
  txq_ok (w_txq w) ps /\ ps ++ [m] = sent ++ dropped ++ rest /\ txq_ok (w_txq w') rest
  /\ transmitted (w_io w') = transmitted (w_io w) ++ sent /\ released (w_io w') = released (w_io w) ++ dropped.

Lemma emits_line w1 w2 w1' w2' m : emits w1 w2 m -> line w1' = line w1 -> line w2' = line w2 -> emits w1' w2' m.
Proof. unfold emits, line. intros H [= -> -> ->] [= -> -> ->]. exact H. Qed.

Lemma wp_tx_send_emits {room} {L : DpdkLaws Dk room} (pool : gset N) m w : env_ok pool room w ->
  wp (work_space_tx_send m) (fun _ w' => w_st w' = w_st w /\ exists m', emits w w' m' /\ m_data_off m' = m_data_off m /\ m_buf m' = m_buf m) w.
Proof.
  intros He. destruct (env_txq _ _ _ He) as (ps & Hq & Ht). eapply wp_mono; [by apply (tx_send_spec w m ps)|].
  intros _ w' (q & h & sent & dropped & rest & -> & E & Hq' & _ & _ & Hs & Hr). split; [done|]. exists (vlan_tag w m).
  split; [by exists ps, sent, dropped, rest|]. unfold vlan_tag. by case_match.
Qed.

Lemma wp_send_tcp_emits {room} {L : DpdkLaws Dk room} (pool : gset N) ws sk flags len off m w : HDR_ROOM <= room -> env_ok pool room w ->
  carrier ws sk flags len off m -> (ws_vxlan ws = true -> w_offload_tcpudp_cksum w ≠ 0) ->
  wp (work_space_tx_send_tcp m) (fun _ w' => w_st w' = w_st w /\ exists m', emits w w' m' /\ carrier ws sk flags len off m') w.
Proof.
  intros Hroom He Hc Hs. unfold work_space_tx_send_tcp. wp_pure. eapply wp_mono; [by apply (wp_csum_carries ws sk flags len off)|].
  intros m1 w1 [-> H1]. wp_pure. eapply wp_mono; [by apply (wp_tx_send_emits pool), env_stat_mod|].
  intros _ w' (Et & m' & Em & Ho & Hb). split; [exact Et|]. exists m'. split; [by eapply emits_line|by apply (carrier_same _ _ _ _ _ _ _ H1)].
Qed.

(** What [tcp_reply] needs in order to send: the addresses of the socket are
    the destination, the frames are ready, and the checksum of a tunnelled
    segment is left to the card (without its offload the code would write it
    over the inner frame). *)
Record can_send (w : world) (c : cache_id) : Prop := {
  cs_dip : ws_change_dip (w_ws w) = false;
  cs_frames : frames_ready (w_ws w) c;
  cs_sums : ws_vxlan (w_ws w) = true -> w_offload_tcpudp_cksum w ≠ 0;
}.

(** The bytes of data that the answer [tcp_flags] of [sk] carries. *)
Definition packet_load (ws : work_space) (sk : socket) (tcp_flags : Z) : Z := cache_load (packet_cache ws sk tcp_flags) ws.

(** The reply [m] of socket [sk] of [w]: it has gone to the driver, carries
    what the socket says, and moves the next number past what it sends. *)
Record replies (w : world) (i : N) (sk : socket) (tcp_flags : Z) (w' : world) (m : mbuf) : Prop := {
  rp_emits : emits w w' m;
  rp_pkt : pkt_ok m;
  rp_carries : carries (w_ws w) sk (tcp_packet_kind (w_ws w) sk tcp_flags).2 (packet_load (w_ws w) sk tcp_flags) m;
  rp_table : w_st w' = w_st w;
  rp_next : next_of i w' = Some (packet_next (w_ws w) sk tcp_flags);
}.

Section Reply.
Context {room : Z} {L : DpdkLaws Dk room} (D : gset N) (Hroom : HDR_ROOM <= room).
(** A new packet does not change the line, nor the card. *)
Definition leaves_new (w w' : world) : Prop := line w' = line w /\ w_offload_tcpudp_cksum w' = w_offload_tcpudp_cksum w /\ w_st w' = w_st w.
Lemma wp_new_packet_built i flags w q sk : inv 3 D room w q -> i ∈ D -> w_sockets w !! i = Some sk -> ws_change_dip (w_ws w) = false ->
  wp (tcp_new_packet i flags) (fun o w' => packet_built i sk flags w o w' /\ inv 3 D room w' q /\ leaves_new w w') w.
Proof.
  intros Hi Hd Hs Hc. pose proof bounds_33 as [H33 H34].
  assert (wp (tcp_new_packet i flags) (post (room := room) (B := 3) D i w q (fun o sk' q' =>
    (exists n, sk' = sk <| sk_snd_nxt := n |>) /\ q' = q /\ forall m, o = Some m -> pkt_ok m)) w) as H1 by by apply wp_new_packet.
  assert (wp (tcp_new_packet i flags) (packet_built i sk flags w) w) as H2 by (eapply wp_new_packet_says; [done|apply Hi|done..]).
  pose proof (wp_also (fun w => (line w, (w_offload_tcpudp_cksum w, w_st w))) _ _ _ H2
    (leaves_pair _ _ _ (conj (proj1 (new_packet_leaves i flags)) (leaves_pair _ _ _ (proj2 (new_packet_leaves i flags)))))) as H3.
  eapply wp_mono; [exact (wp_and _ _ _ _ H1 H3)|].
  intros o w' [(q' & sk' & K & _ & _ & -> & _) [Hb [= ? ? ? ? ?]]]. split; [done|]. split; [by eapply keeps_inv|]. split; [|done].
  unfold line. congruence.
Qed.

Definition outlook (w : world) := (line w, worker_of w).

Lemma wp_counted m w q i sk : inv 3 D room w q -> w_sockets w !! i = Some sk -> counts (room := room) D m -> leaves line m /\ leaves worker_of m ->
  wp m (fun _ w' => inv 3 D room w' q /\ w_sockets w' !! i = Some sk /\ outlook w' = outlook w) w.
Proof.
  intros Hi Hs Hc Hl. eapply wp_mono; [apply (wp_also outlook); [apply Hc, Hi|by apply leaves_pair]|].
  intros _ w' [He Ho]. split; [by eapply inv_env_step|]. split; [|exact Ho]. by rewrite (es_sockets _ _ _ _ He).
Qed.

Lemma wp_reply_emits i flags w q sk : inv 3 D room w q -> i ∈ D -> w_sockets w !! i = Some sk -> can_send w (packet_cache (w_ws w) sk flags) ->
  wp (tcp_reply i flags) (fun _ w' => exists m, replies w i sk flags w' m) w.
Proof.
  intros Hi Hd Hs [Cd Cf Cs]. pose proof bounds_33 as [H33 H34]. unfold tcp_reply. wp_reads. apply wp_bind.
  eapply wp_mono; [apply (wp_also outlook) with (Q := post (room := room) (B := 3) D i w q (fun _ sk' q' => sk' = sk <| sk_flags := flags |> /\ q' = q))|].
  { by eapply wp_sk_mod_core. } { leaves_tac. }
  intros _ w1 [(q1 & sk1' & K1 & S1 & -> & ->) V1]. pose proof (keeps_inv D i _ _ _ _ K1) as I1.
  apply wp_bind. eapply wp_mono; [apply (wp_counted _ _ _ _ _ I1 S1); [apply tx_count_counts|apply tx_count_leaves]|]. intros _ w2 (I2 & S2 & V2).
  apply wp_bind. eapply wp_mono; [apply (wp_counted _ _ _ _ _ I2 S2); [apply push_count_counts|apply push_count_leaves]|]. intros _ w3 (I3 & S3 & V3).
  assert (outlook w3 = outlook w) as V by congruence. clear V1 V2 V3 I1 I2 S1 S2 K1 w1 w2.
  assert (w_ws w3 = w_ws w /\ w_offload_tcpudp_cksum w3 = w_offload_tcpudp_cksum w /\ line w3 = line w) as (Ew & Eo & El) by (injection V as ? ? ? ? ?; split_and!; unfold line; congruence).
  clear V. set (sk1 := sk <| sk_flags := flags |>) in *.
  apply wp_bind. eapply wp_mono; [apply wp_new_packet_built; [exact I3|done|exact S3|by rewrite Ew]|].
  intros o w4 (Hb & I4 & El4 & Eo4 & Et4). destruct Hb as (o0 & w5 & Ea & Hb).
  destruct (wp_run _ _ _ _ _ (wp_cache_alloc_framed D (packet_cache (w_ws w3) sk1 flags) w3 Hroom (inv_env _ _ _ _ _ I3) ltac:(by rewrite Ew)) Ea) as (m0 & -> & Ty & Hld).
  destruct o as [m|]; [|done]. cbv zeta in Hb. destruct Hb as (_ & S4 & Ho & Hok & Hsay & Hsame). rewrite Ew in *.
  replace (segment_ip (w_ws w) m0) with (segment_ip (w_ws w) m) in Ty, Hld by (unfold segment_ip; by rewrite Ho).
  specialize (Hsame Ty). pose proof (same_frame_typed _ _ _ _ Hsame Ty) as Hty. apply (same_frame_loaded _ _ _ _ _ Hsame Ty) in Hld. specialize (Hsay Hty).
  assert (carrier (w_ws w) sk (tcp_packet_kind (w_ws w) sk flags).2 (packet_load (w_ws w) sk flags) (m_data_off m) m) as Hk
    by (split; [done|]; split; [done|]; split; [done|done|]; by destruct Hsay; split).
  apply wp_bind. eapply wp_mono; [apply wp_and; [apply (wp_send_tcp_emits D _ _ _ _ _ _ _ Hroom (inv_env _ _ _ _ _ I4) Hk); by rewrite Eo4, Eo|apply (wp_tx_send_tcp D); [apply I4|done]]|].
  intros _ w6 [(Et6 & m' & Em & Ho' & Hok' & Hc') T6]. pose proof (inv_env_step D _ _ _ I4 T6) as I6.
  assert (w_sockets w6 !! i = Some (sk1 <| sk_snd_nxt := packet_next (w_ws w) sk1 flags |>)) as S6 by by rewrite (es_sockets _ _ _ _ T6).
  assert (wp (tcp_reply_timer i flags (tsc (ws_time (w_ws w)))) (fun _ _ => True) w6) as H6.
  { eapply wp_mono; [by eapply (wp_reply_timer (B := 3) D)|done]. }
  eapply wp_mono; [apply (wp_also (fun w => (next_of i w, (line w, w_st w))) _ _ _ H6), leaves_pair; split; [apply timer_leaves_next|apply leaves_pair, timer_leaves_line]|].
  intros _ w7 [_ [= E7 E1 E2 E3 Et7]]. exists m'. split; [|done|done| |].
  - apply (emits_line w4 w6); [exact Em|by rewrite El4, El|]. unfold line. congruence.
  - unfold w_st in *. congruence.
  - rewrite E7. unfold next_of. by rewrite S6.
Qed.

(** The reply with the socket that it leaves. *)
Definition replied_with (w : world) (i : N) (sk : socket) (flags : Z) (w' : world) (q' : queues) (sk' : socket) (m : mbuf) : Prop :=
  inv 3 D room w' q' /\ w_sockets w' !! i = Some sk'
  /\ (exists f t, sk' = sk <| sk_flags := f |> <| sk_snd_nxt := packet_next (w_ws w) sk flags |> <| sk_timer_tsc := t |>)
  /\ replies w i sk flags w' m.

Lemma wp_replied i flags w q sk : inv 3 D room w q -> i ∈ D -> w_sockets w !! i = Some sk -> can_send w (packet_cache (w_ws w) sk flags) ->
  wp (tcp_reply i flags) (fun _ w' => exists q' sk' m, replied_with w i sk flags w' q' sk' m) w.
Proof.
  intros Hi Hd Hs Hc. pose proof bounds_33 as [H33 H34].
  assert (wp (tcp_reply i flags) (post (room := room) (B := 3) D i w q (fun _ => replied i sk q)) w) as H1 by by apply wp_reply.
  eapply wp_mono; [exact (wp_and _ _ _ _ H1 (wp_reply_emits i flags w q sk Hi Hd Hs Hc))|].
  intros _ w' [(q' & sk' & K & S & (f & n & t & ->) & _) (m & R)]. eexists q', _, m. split; [by eapply keeps_inv|]. split; [exact S|]. split; [|exact R].
  pose proof (rp_next _ _ _ _ _ _ R) as En. unfold next_of in En. rewrite S in En. injection En as <-. by exists f, t.
Qed.

(** ** The two ends *)

(** Worker [w] has its end [i] of connection [c], with the state [sk]. *)
Record endpoint (server : bool) (c : conn) (i : N) (sk : socket) (w : world) (q : queues) : Prop := {
  wa_inv : inv 3 D room w q;
  wa_lookup : socket_common_lookup (w_st w) (cn_client_ip c) (cn_server_ip c) (cn_client_port c) (cn_server_port c) = Some i;
  wa_socket : w_sockets w !! i = Some sk;
  wa_ends : ends server c sk;
}.

Lemma endpoint_in server c i sk w q : endpoint server c i sk w q -> i ∈ D.
Proof. intros [Hi Hl _ _]. exact (env_lookup _ _ _ (inv_env _ _ _ _ _ Hi) _ _ _ _ _ Hl). Qed.
Lemma endpoint_holds server c i sk w q : endpoint server c i sk w q -> holds server c i w.
Proof. intros [Hi Hl Hs He]. split; [exact Hl|by exists sk|exact (env_rss _ _ _ (inv_env _ _ _ _ _ Hi))]. Qed.
Lemma endpoint_next server c i sk w q w' q' sk' : endpoint server c i sk w q -> inv 3 D room w' q' -> w_st w' = w_st w ->
  w_sockets w' !! i = Some sk' -> addressed sk' = addressed sk -> endpoint server c i sk' w' q'.
Proof.
  intros [Hi Hl Hs He] Hi' Et Hs' [= E1 E2 E3 E4]. split; [done|by rewrite Et|done|]. unfold ends in *. rewrite E1, E2, E3, E4. exact He.
Qed.
End Reply.

(** The receiver finds the end that a segment is for. *)
Lemma carries_finds ws sk flags len m server c j w : carries ws sk flags len m -> ends server c sk -> conn_ok c -> holds (negb server) c j w ->
  socket_lookup (negb server) (m_buf m) (segment_ip ws m) (segment_ip ws m + l3_len_of (ws_ipv6 ws)) w = Ok (Some j, w).
Proof.
  intros [Ty _ Hs] He [[C1 C2] [C3 C4]] Hj. apply (lookup_holds _ c); [exact Hj|]. rewrite (says_key _ _ _ _ _ Ty Hs). unfold ends in He.
  destruct server, He as (-> & -> & -> & ->); cbn [negb]; by rewrite !wrap_small.
Qed.

(** What a segment says depends on the addresses and on the two numbers. *)
Lemma carries_socket ws sk sk' flags len m : carries ws sk flags len m -> addressed sk' = addressed sk -> sk_snd_una sk' = sk_snd_una sk ->
  sk_rcv_nxt sk' = sk_rcv_nxt sk -> carries ws sk' flags len m.
Proof.
  intros [Ty Hl [H1 H2 H3 H4 H5 H6]] [= E1 E2 E3 E4] E5 E6. split; [exact Ty|exact Hl|]. unfold addresses in *.
  split; unfold addresses; rewrite ?E1, ?E2, ?E3, ?E4, ?E5, ?E6; assumption.
Qed.

Section Hops.
Context {room : Z} {L : DpdkLaws Dk room} (D : gset N) (Hroom : HDR_ROOM <= room).

(** A worker that answers: its end waits on, the answer has gone to the
    driver and carries what the new state says. *)
Definition answers (server : bool) (c : conn) (i : N) (w : world) (flags len : Z) (w' : world) (R : socket -> Prop) : Prop :=
  exists q' sk' m, endpoint (room := room) D server c i sk' w' q' /\ emits w w' m /\ pkt_ok m /\ carries (w_ws w) sk' flags len m /\ R sk'.

(** A packet is freed after the answer. *)
Lemma wp_free2_answers server c i w flags len R m w1 : answers server c i w flags len w1 R -> wp (mbuf_free2 m) (fun _ w' => answers server c i w flags len w' R) w1.
Proof.
  intros (q & sk & r & Hw & Em & Hr & Hc & HR).
  eapply wp_mono; [apply (wp_also (fun w => (line w, w_st w))); [apply (wp_free2 (room := room) D), (wa_inv _ _ _ _ _ _ _ Hw)|apply leaves_pair, free2_leaves]|].
  intros _ w' [Hstep [= E1 E2 E3 Et]]. exists q, sk, r. split_and!; try done.
  - eapply endpoint_next; [exact Hw|eapply inv_env_step; [apply Hw|exact Hstep]|exact Et| |done].
    rewrite (es_sockets _ _ _ _ Hstep). apply Hw.
  - eapply emits_line; [exact Em|done|]. unfold line. congruence.
Qed.

Lemma wp_answers_free server c i w0 w flags len R m (k : M unit) : wp k (fun _ w' => answers server c i w0 flags len w' R) w ->
  wp (k;; mbuf_free2 m) (fun _ w' => answers server c i w0 flags len w' R) w.
Proof. intros Hk. apply wp_bind. eapply wp_mono; [exact Hk|]. intros ? ?. apply wp_free2_answers. Qed.

(** A reply of a worker answers. *)
Lemma wp_reply_answers server c i sk w0 w q tcp_flags fl len (R : socket -> Prop) : (tcp_packet_kind (w_ws w) sk tcp_flags).2 = fl -> packet_load (w_ws w) sk tcp_flags = len ->
  endpoint (room := room) D server c i sk w q ->
  can_send w (packet_cache (w_ws w) sk tcp_flags) -> line w = line w0 -> w_ws w = w_ws w0 ->
  (forall f t, R (sk <| sk_flags := f |> <| sk_snd_nxt := packet_next (w_ws w) sk tcp_flags |> <| sk_timer_tsc := t |>)) ->
  wp (tcp_reply i tcp_flags) (fun _ w' => answers server c i w0 fl len w' R) w.
Proof.
  intros <- <- Hw Hc El Ew HR. eapply wp_mono; [eapply (wp_replied D Hroom); [apply (wa_inv _ _ _ _ _ _ _ Hw)|by eapply endpoint_in|apply Hw|exact Hc]|].
  intros _ w' (q' & sk' & m & I' & S' & (f & t & ->) & [R1 R2 R3 R4 R5]). eexists q', _, m. split; [|split; [|split; [exact R2|split; [|apply HR]]]].
  - by eapply endpoint_next.
  - by eapply emits_line.
  - rewrite <- Ew. by eapply carries_socket.
Qed.

Lemma can_send_same w w' c : can_send w c -> worker_of w' = worker_of w -> can_send w' c.
Proof. intros [H1 H2 H3] [= E1 E2]. split; by rewrite ?E1, ?E2. Qed.

(** ** The three segments *)

Lemma carries_found ws sk flags len m server c j sk2 w q : carries ws sk flags len m -> ends server c sk -> conn_ok c -> endpoint (room := room) D (negb server) c j sk2 w q ->
  socket_lookup (negb server) (m_buf m) (segment_ip ws m) (segment_ip ws m + l3_len_of (ws_ipv6 ws)) w = Ok (Some j, w).
Proof. intros Hc He Hco Hw. eapply carries_finds; [exact Hc|exact He|exact Hco|by eapply endpoint_holds]. Qed.

Lemma packet_next_all ws sk flags : sk_snd_nxt sk = sk_snd_una sk -> packet_next ws sk flags = u32 (sk_snd_nxt sk + packet_len ws sk flags).
Proof. intros E. unfold packet_next. by rewrite E, Z.eqb_refl. Qed.

(** A client whose SYN is due sends it. *)
Lemma sends_syn c i sk w q : endpoint (room := room) D false c i sk w q -> sk_st sk = SK_SYN_SENT -> sk_snd_nxt sk = sk_snd_una sk ->
  can_send w Cache_tcp_opt ->
  wp (tcp_reply i TH_SYN) (fun _ w' => answers false c i w TH_SYN 0 w' (fun sk' => sk_st sk' = SK_SYN_SENT
    /\ sk_snd_una sk' = sk_snd_una sk /\ sk_snd_nxt sk' = u32 (sk_snd_una sk + 1) /\ sk_keepalive sk' = sk_keepalive sk)) w.
Proof.
  intros Hw Hst En Hc. eapply wp_reply_answers; [done|done|exact Hw|exact Hc|done|done|]. intros f t. rsimpl. split; [done|]. split; [done|].
  rewrite packet_next_all by done. by rewrite En.
Qed.

(** A closed server opens and answers with its own SYN. *)
Lemma answers_syn_ack c j sk w q m th seq : endpoint (room := room) D true c j sk w q -> sk_st sk = SK_CLOSED ->
  ld32 (m_buf m) (th + th_seq) = Some (htonl seq) -> in_u 32 seq -> can_send w Cache_tcp_opt ->
  wp (tcp_server_process_syn j m th) (fun _ w' => answers true c j w (TH_SYN ||| TH_ACK) 0 w' (fun sk' => sk_st sk' = SK_SYN_RECEIVED
    /\ sk_rcv_nxt sk' = u32 (seq + 1) /\ sk_snd_una sk' = u32 (sk_snd_nxt sk + 1) /\ sk_snd_nxt sk' = u32 (sk_snd_una sk' + 1)
    /\ sk_keepalive sk' = sk_keepalive sk)) w.
Proof.
  intros Hw Hst Hq Rq Hc. pose proof bounds_33 as [H33 H34]. pose proof (wa_inv _ _ _ _ _ _ _ Hw) as Hi. pose proof (wa_socket _ _ _ _ _ _ _ Hw) as Hs.
  pose proof (endpoint_in _ _ _ _ _ _ _ Hw) as Hd. unfold tcp_server_process_syn. apply wp_bind. eapply wp_sk_get; [exact Hs|]. cbv beta. unfold sk_is.
  rewrite Hst, (bool_decide_false (SK_CLOSED = SK_TIME_WAIT)) by done. unfold st_when at 1. apply wp_bind, wp_ret. cbv beta. apply wp_bind. eapply wp_sk_get; [exact Hs|]. cbv beta.
  rewrite Hst, bool_decide_true by done. apply wp_answers_free.
  apply wp_bind. eapply wp_m_ld_eq; [exact Hq|]. cbv beta. apply wp_bind.
  pose proof (wp_server_open (B := 3) D Hroom H33 H34 j (htonl seq) w q sk Hi Hd Hs Hst) as Ho.
  eapply wp_mono; [exact (wp_also (fun w => (settled_of j w, outlook w)) _ _ _ Ho (leaves_pair _ _ _ (conj (server_open_leaves_settled j j _) (leaves_pair _ _ _ (server_open_leaves j _)))))|].
  intros _ w1 [(q1 & sk1 & K1 & S1 & E1 & E2 & E3 & E4 & E5) [= Ea Eq Et Er Ew Eo]]. rewrite bswap32_involutive in E3 by done.
  unfold settled_of in Ea. rewrite S1, Hs in Ea. injection Ea as Ead1 Ead2 Ead3 Ead4 Eka.
  assert (endpoint (room := room) D true c j sk1 w1 q1) as Hw1.
  { eapply endpoint_next; [exact Hw|by eapply keeps_inv|unfold w_st; by rewrite Ew|exact S1|unfold addressed; congruence]. }
  eapply wp_reply_answers; [done|done|exact Hw1|eapply can_send_same; [exact Hc|by unfold worker_of; rewrite Ew, Eo]| |exact Ew|].
  - unfold line. congruence.
  - intros f t. rsimpl. split_and!; try done. rewrite packet_next_all by congruence. rewrite E4, E5. done.
Qed.

(** A client whose SYN is acknowledged is established and sends its request. *)
Lemma sends_request c i sk w q m th seq : endpoint (room := room) D false c i sk w q -> sk_st sk = SK_SYN_SENT -> in_u 32 (sk_snd_nxt sk) ->
  ld32 (m_buf m) (th + th_ack) = Some (htonl (sk_snd_nxt sk)) -> ld32 (m_buf m) (th + th_seq) = Some (htonl seq) -> in_u 32 seq ->
  can_send w Cache_tcp_data ->
  wp (tcp_client_process_syn_ack i m th) (fun _ w' => answers false c i w (TH_ACK ||| TH_PUSH) (md_data_len (ws_tcp_data (w_ws w))) w' (fun sk' => sk_st sk' = SK_ESTABLISHED
    /\ sk_rcv_nxt sk' = u32 (seq + 1) /\ sk_snd_una sk' = sk_snd_nxt sk
    /\ sk_snd_nxt sk' = u32 (sk_snd_nxt sk + md_data_len (ws_tcp_data (w_ws w))) /\ sk_keepalive sk' = sk_keepalive sk)) w.
Proof.
  intros Hw Hst Rn Ha Hq Rq Hc. pose proof bounds_33 as [H33 H34]. pose proof (wa_inv _ _ _ _ _ _ _ Hw) as Hi. pose proof (wa_socket _ _ _ _ _ _ _ Hw) as Hs.
  pose proof (endpoint_in _ _ _ _ _ _ _ Hw) as Hd. unfold tcp_client_process_syn_ack. apply wp_bind. eapply wp_m_ld_eq; [exact Ha|].
  apply wp_bind. eapply wp_m_ld_eq; [exact Hq|]. cbv zeta. rewrite !bswap32_involutive by done.
  apply wp_bind. eapply wp_sk_get; [exact Hs|]. cbv beta. unfold sk_is. rewrite Hst, bool_decide_true by done. rewrite Z.eqb_refl. cbn [negb].
  apply wp_answers_free. wp_reads. apply wp_bind, wp_stat_mod. set (w0 := w <| w_stats ::= _ |>).
  assert (inv 3 D room w0 q) as I0. { eapply (inv_env_step D w); [exact Hi|]. apply env_stat_mod; [apply Hi|]. by ns_simpl. }
  set (sk1 := sk <| sk_rcv_nxt := u32 (seq + 1) |> <| sk_snd_una := sk_snd_nxt sk |> <| sk_st := SK_ESTABLISHED |>).
  apply wp_bind. eapply wp_mono; [apply (wp_also outlook) with (Q := post (room := room) (B := 3) D i w0 q (fun _ sk' q' => sk' = sk1 /\ q' = q))|].
  { eapply (wp_sk_mod_open (B := 3) D) with (sk := sk)
      (f := fun x => x <| sk_rcv_nxt := u32 (seq + 1) |> <| sk_snd_una := sk_snd_nxt sk |> <| sk_st := SK_ESTABLISHED |>); by rewrite ?Hst. }
  { leaves_tac. }
  intros _ w1 [(q1 & sk1' & K1 & S1 & -> & ->) [= E1 E2 E3 Ew Eo]].
  eapply (wp_reply_answers false c i sk1 w w1 q); [done|by rewrite <- Ew| |eapply can_send_same; [exact Hc|by unfold worker_of; rewrite Ew, Eo]| |exact Ew|].
  - eapply (endpoint_next D _ _ _ _ w); [exact Hw|by eapply keeps_inv|unfold w_st; by rewrite Ew|exact S1|done].
  - unfold line. rewrite E1, E2, E3. done.
  - intros f t. rsimpl. split_and!; try done. rewrite packet_next_all by done. by rewrite Ew.
Qed.
End Hops.
End Wire.

(** The headers of a frame that worker [w] has sent, where the receiver finds
    them. *)
Definition iph_of (w : world) (m : mbuf) : Z := segment_ip (w_ws w) m.
Definition th_of (w : world) (m : mbuf) : Z := iph_of w m + l3_len_of (ws_ipv6 (w_ws w)).

(** C6: a client and a server worker open a connection.  The SYN that the
    client hands to the driver finds the closed socket of the server, which
    answers; its answer finds the socket of the client, which is then
    established and sends its request; the request finds the socket of the
    server, which accepts it.  Each end then expects exactly the number that
    the other one sends next.  Between these steps both workers may do anything
    that leaves the state of this connection alone. *)
Theorem tcp_handshake {Dk : Dpdk} {room} {L : DpdkLaws Dk room} (Dc Ds : gset N) c i j wc qc skc ws qs sks :
  HDR_ROOM <= room -> conn_ok c ->
  endpoint (room := room) Dc false c i skc wc qc -> sk_st skc = SK_SYN_SENT -> sk_snd_nxt skc = sk_snd_una skc -> in_u 32 (sk_snd_una skc) ->
  can_send wc Cache_tcp_opt ->
  endpoint (room := room) Ds true c j sks ws qs -> sk_st sks = SK_CLOSED -> can_send ws Cache_tcp_opt ->
  exists wc1 qc1 skc1 syn ws1 qs1 sks1 syn_ack,
    tcp_reply i TH_SYN wc = Ok (tt, wc1) /\ emits wc wc1 syn /\ endpoint (room := room) Dc false c i skc1 wc1 qc1
    /\ socket_server_lookup (m_buf syn) (iph_of wc syn) (th_of wc syn) ws = Ok (Some j, ws)
    /\ tcp_server_process_syn j syn (th_of wc syn) ws = Ok (tt, ws1) /\ emits ws ws1 syn_ack /\ endpoint (room := room) Ds true c j sks1 ws1 qs1
    /\ forall wc2 qc2, endpoint (room := room) Dc false c i skc1 wc2 qc2 -> can_send wc2 Cache_tcp_data ->
       socket_client_lookup (m_buf syn_ack) (iph_of ws syn_ack) (th_of ws syn_ack) wc2 = Ok (Some i, wc2)
       /\ exists wc3 qc3 skc3 request,
         tcp_client_process_syn_ack i syn_ack (th_of ws syn_ack) wc2 = Ok (tt, wc3) /\ emits wc2 wc3 request
         /\ endpoint (room := room) Dc false c i skc3 wc3 qc3 /\ sk_st skc3 = SK_ESTABLISHED
         /\ forall ws2 qs2, endpoint (room := room) Ds true c j sks1 ws2 qs2 -> ws_send_window (w_ws ws2) = 0 ->
            socket_server_lookup (m_buf request) (iph_of wc2 request) (th_of wc2 request) ws2 = Ok (Some j, ws2)
            /\ exists ws3 sks3,
              tcp_check_sequence j (m_buf request) (th_of wc2 request) (md_data_len (ws_tcp_data (w_ws wc2))) ws2 = Ok (true, ws3)
              /\ w_sockets ws3 !! j = Some sks3
              /\ sk_rcv_nxt sks3 = sk_snd_nxt skc3 /\ sk_snd_una sks3 = sk_rcv_nxt skc3.
Proof.
  intros Hroom Hco Wc Hc1 Hc2 Rc Cc Ws Hs1 Cs.
  destruct (wp_ok _ _ _ (sends_syn Dc Hroom c i skc wc qc Wc Hc1 Hc2 Cc)) as ([] & wc1 & Er & qc1 & skc1 & syn & W1 & Em1 & _ & Ca1 & St1 & Una1 & Nxt1 & _).
  pose proof (sy_seq _ _ _ _ _ _ (ca_says _ _ _ _ _ Ca1)) as Seq1. rewrite Una1 in Seq1.
  destruct (wp_ok _ _ _ (answers_syn_ack Ds Hroom c j sks ws qs syn _ (sk_snd_una skc) Ws Hs1 Seq1 Rc Cs))
    as ([] & ws1 & Es & qs1 & sks1 & syn_ack & W2 & Em2 & _ & Ca2 & St2 & Rcv2 & Una2 & Nxt2 & _).
  exists wc1, qc1, skc1, syn, ws1, qs1, sks1, syn_ack.
  split; [exact Er|]. split; [exact Em1|]. split; [exact W1|].
  split; [exact (carries_found Ds _ _ _ _ _ false c j _ _ _ Ca1 (wa_ends _ _ _ _ _ _ _ W1) Hco Ws)|].
  split; [exact Es|]. split; [exact Em2|]. split; [exact W2|]. intros wc2 qc2 Wc2 Cc2.
  split; [exact (carries_found Dc _ _ _ _ _ true c i _ _ _ Ca2 (wa_ends _ _ _ _ _ _ _ W2) Hco Wc2)|].
  destruct (ca_says _ _ _ _ _ Ca2) as [_ _ _ Seq2 Ack2 _]. rewrite Rcv2, <- Nxt1 in Ack2.
  destruct (wp_ok _ _ _ (sends_request Dc Hroom c i skc1 wc2 qc2 syn_ack _ (sk_snd_una sks1) Wc2 St1
    ltac:(rewrite Nxt1; by apply wrap_range) Ack2 Seq2 ltac:(rewrite Una2; by apply wrap_range) Cc2))
    as ([] & wc3 & Ec & qc3 & skc3 & request & W3 & Em3 & _ & Ca3 & St3 & Rcv3 & Una3 & Nxt3 & _).
  exists wc3, qc3, skc3, request. do 4 (split; [done|]). intros ws2 qs2 Ws2 Hwin.
  split; [exact (carries_found Ds _ _ _ _ _ false c j _ _ _ Ca3 (wa_ends _ _ _ _ _ _ _ W3) Hco Ws2)|].
  destruct (ca_says _ _ _ _ _ Ca3) as [_ _ _ Seq3 Ack3 Fl3]. rewrite Una3, Nxt1, <- Rcv2 in Seq3. rewrite Rcv3, <- Nxt2 in Ack3.
  pose proof (wp_check_sequence_exact Ds Hroom j request (th_of wc2 request) (md_data_len (ws_tcp_data (w_ws wc2))) ws2 qs2 sks1 (sk_snd_nxt sks1) (sk_rcv_nxt sks1) _
    (wa_inv _ _ _ _ _ _ _ Ws2) (endpoint_in _ _ _ _ _ _ _ Ws2) (wa_socket _ _ _ _ _ _ _ Ws2) Hwin Ack3 Seq3 Fl3
    ltac:(rewrite Nxt2; by apply wrap_range) ltac:(rewrite Rcv2; by apply wrap_range)) as Hk.
  destruct (post_run Ds j ws2 qs2 _ _ Hk) as (ok & ws3 & q3 & sks3 & Ek & _ & S3 & [-> Ha] & _).
  assert (accepts sks1 (sk_snd_nxt sks1) (sk_rcv_nxt sks1) false (md_data_len (ws_tcp_data (w_ws wc2))) = true) as Hacc.
  { unfold accepts, exact, sk_is. by rewrite !Z.eqb_refl, St2. }
  change (has ((TH_ACK ||| TH_PUSH) mod 256) TH_FIN) with false in *. rewrite Hacc in Ek. exists ws3, sks3. split; [exact Ek|]. split; [exact S3|].
  specialize (Ha Hacc). unfold after_accept, exact in Ha. rewrite !Z.eqb_refl in Ha. destruct Ha as (_ & _ & Hu & Hr).
  split; [by rewrite Hr, Nxt3, Nxt1, Rcv2|by rewrite Hu, Rcv3, Nxt2].
Qed.

(** ** Examples *)

#[local] Existing Instance Mbuf.Demo.dpdk.
#[local] Existing Instance Mbuf.Demo.laws.

Lemma inv_room B D room room' w q : room <= room' -> inv B D room w q -> inv B D room' w q.
Proof.
  intros Hr [H1 H2 H3 [E1 E2 E3 E4 E5 E6 E7 E8 E9 E10]]. split; [done..|]. split; try done.
  intros cache. destruct (E8 cache) as [? ?]. split; [lia|done].
Qed.

(** The world after a computation. *)
Definition world_after {A} (m : M A) (w : world) : world := match m w with Ok (_, w') => w' | Err _ => w end.

Definition demo_opener_sk : socket := (World.Demo.demo_socket 1) <| sk_st := SK_SYN_SENT |> <| sk_snd_una := 1000 |>.
Definition demo_opener : world := demo_conn demo_opener_sk.

Lemma demo_opener_endpoint : endpoint (room := 256) demo_D false demo_connection 0 demo_opener_sk demo_opener q_none.
Proof. split; [apply demo_conn_inv; [done|unfold retr_ok; cbn; split_and!; done || lia]|vm_compute; reflexivity..|by vm_compute]. Qed.
Lemma demo_server_endpoint : exists sk, sk_st sk = SK_CLOSED /\ endpoint (room := 256) demo_D true demo_connection 0 sk demo_server q_none.
Proof.
  eexists. split; [|split; [by apply (inv_room _ _ 200); [lia|apply demo_server_inv]|vm_compute; reflexivity|vm_compute; reflexivity|by vm_compute]]. done.
Qed.
Lemma demo_can_send w c : ws_change_dip (w_ws w) = false -> ws_vxlan (w_ws w) = false ->
  framed (w_ws w) c (md_data (cache_data c (w_ws w))) (ip_at (w_ws w)) -> can_send w c.
Proof. intros Hd Hv Ht. split; [done| |by rewrite Hv]. split; [by eexists|done|]. by intros h m [= <-]. Qed.

Ltac demo_sends :=
  apply demo_can_send; [vm_compute; reflexivity|vm_compute; reflexivity|];
  split; [split; vm_compute; reflexivity|eexists; split; [vm_compute; reflexivity|split_and!; vm_compute; discriminate]].

(** The example client after its SYN. *)
Definition demo_opener' : world := world_after (tcp_reply 0 TH_SYN) demo_opener.
Lemma demo_opener_sent wc1 : tcp_reply 0 TH_SYN demo_opener = Ok (tt, wc1) -> wc1 = demo_opener'.
Proof. unfold demo_opener', world_after. by intros ->. Qed.
Lemma demo_opener_can_send : can_send demo_opener' Cache_tcp_data.
Proof. demo_sends. Qed.

Lemma tcp_handshake_witness : exists wc1 syn ws1 syn_ack wc3 request,
  tcp_reply 0 TH_SYN demo_opener = Ok (tt, wc1) /\ socket_server_lookup (m_buf syn) (iph_of demo_opener syn) (th_of demo_opener syn) demo_server = Ok (Some 0%N, demo_server)
  /\ tcp_server_process_syn 0 syn (th_of demo_opener syn) demo_server = Ok (tt, ws1)
  /\ tcp_client_process_syn_ack 0 syn_ack (th_of demo_server syn_ack) wc1 = Ok (tt, wc3) /\ emits wc1 wc3 request.
Proof.
  destruct demo_server_endpoint as (sks & Hst & Ws).
  destruct (tcp_handshake demo_D demo_D demo_connection 0 0 demo_opener q_none demo_opener_sk demo_server q_none sks) as
    (wc1 & qc1 & skc1 & syn & ws1 & qs1 & sks1 & syn_ack & E1 & _ & W1 & L1 & E2 & _ & W2 & Hc).
  - apply demo_room.
  - by vm_compute.
  - exact demo_opener_endpoint.
  - reflexivity.
  - reflexivity.
  - concrete_range.
  - demo_sends.
  - exact Ws.
  - exact Hst.
  - demo_sends.
  - pose proof (demo_opener_sent _ E1) as E. subst wc1. destruct (Hc demo_opener' qc1 W1 demo_opener_can_send) as (_ & wc3 & _ & _ & request & E3 & Em & _).
    exists demo_opener', syn, ws1, syn_ack, wc3, request. exact (conj E1 (conj L1 (conj E2 (conj E3 Em)))).
Defined.
