(* ===== verification/Connection.v ===== *)
(** * Connection: a connection from its SYN to its last acknowledgement

    The segments after the opening handshake of Handshake.v - the request, the
    response with its FIN, and the closing handshake - and the whole life of a
    connection between a client and a server worker.  [stays] is the triple of a
    step that sends nothing, [answers] that of a handler that sends one segment,
    [within] bounds the number of segments until a property holds. *)

From S2P Require Import Prelude SocketNode Csum IpRange Tick Config Mbuf NetStats World WorkSpace Socket SocketTimer Template.
From S2P Require Import HttpParse Kni TcpPacket Tcp Env SocketInv SocketTableInv TcpInv TcpSafety TcpProps SegmentProps LoopProps Frame Handshake.

(** ** What the operations leave *)

(** A view of socket [i]. *)
Definition of_socket {T} (g : socket -> T) (i : N) (w : world) : option T := g <$> w_sockets w !! i.

Ltac leaves_socket g := leaves_tac; (eapply (field_insert g); [eassumption|try done]).

(** The settings and the numbers of a socket; those of a received segment. *)
Definition numbered (sk : socket) : Z * Z * Z * Z * bool * Z * Z * Z := (settled sk, sk_snd_una sk, sk_snd_nxt sk, sk_rcv_nxt sk).
Definition sending (sk : socket) : Z * Z * Z * Z * bool * Z := (settled sk, sk_snd_nxt sk).
Definition counting (sk : socket) : Z * Z * Z * Z * Z * Z * Z := (addressed sk, sk_snd_una sk, sk_snd_nxt sk, sk_rcv_nxt sk).

Lemma rx_count_leaves f : leaves outlook (tcp_flags_rx_count f).
Proof. unfold tcp_flags_rx_count. leaves_tac. Qed.
Lemma request_leaves bs len : leaves outlook (http_parse_request bs len).
Proof. unfold http_parse_request. leaves_tac. Qed.
Lemma response_leaves bs len : leaves outlook (http_parse_response bs len).
Proof. unfold http_parse_response. leaves_tac. Qed.
Lemma accept_leaves i ack seq len : leaves outlook (tcp_accept_sequence i ack seq len) /\ leaves (of_socket sending i) (tcp_accept_sequence i ack seq len).
Proof.
  unfold tcp_accept_sequence, socket_stop_retransmit_timer, socket_del_timer, of_socket. split; [leaves_tac|]. leaves_socket sending.
  unfold snd_window_inc. by case_match.
Qed.
Lemma process_fin_leaves i rx tx : leaves outlook (tcp_process_fin i rx tx) /\ leaves (of_socket numbered i) (tcp_process_fin i rx tx).
Proof. unfold tcp_process_fin, socket_close, sk_set_state, of_socket. split; [leaves_tac|leaves_socket numbered]. Qed.
Lemma set_state_leaves i st : leaves outlook (sk_set_state i st) /\ leaves (of_socket numbered i) (sk_set_state i st).
Proof. unfold sk_set_state, of_socket. split; [leaves_tac|leaves_socket numbered]. Qed.

(** A response whose FIN has come ends the connection. *)
Lemma parse_run_leaves i data : leaves outlook (http_parse_run i data) /\ leaves (of_socket counting i) (http_parse_run i data).
Proof.
  unfold http_parse_run, of_socket. split; (apply leaves_bind; [apply leaves_sk_get|intros sk]; apply leaves_bind; [apply leaves_when, leaves_bind; [|intros _]|intros _]).
  - apply response_leaves.
  - leaves_tac.
  - leaves_tac.
  - unfold http_parse_response. leaves_tac.
  - leaves_socket counting.
  - intros w a w'. unfold mbind, ST_bind, sk_get, st_lift, sk_mod. destruct (w_sockets w !! i) as [sk1|] eqn:Es; [|done].
    destruct (http_parse_continue_total sk1 data) as (r & sk2 & -> & _ & Hf). rewrite Es. intros [= _ <-].
    rewrite <- Es. apply (field_insert counting i i sk2 w sk1); [exact Es|]. by destruct Hf as (? & ? & ? & ? & ->).
Qed.

(** The flags that a client sends when it has got the FIN of its response. *)
Definition closing_flags (f : Z) : Prop := f = TH_ACK \/ f = TH_ACK ||| TH_FIN.

Section Fin.
Context {Dk : Dpdk} (rx : Z) (Hfin : has rx TH_FIN = true).

Ltac fin_steps := repeat (rewrite ?andb_false_r; cbn [negb]; leaves_step).

Lemma client_data_leaves i data :
  leaves outlook (http_client_process_data i rx data) /\ leaves (of_socket counting i) (http_client_process_data i rx data).
Proof using Hfin.
  unfold http_client_process_data. rewrite Hfin. split; (apply leaves_bind; [apply parse_run_leaves|intros ret]); unfold of_socket; fin_steps; try done;
    (eapply (field_insert counting); [eassumption|by repeat case_match]).
Qed.
Lemma client_data_closes i data : yields closing_flags (http_client_process_data i rx data).
Proof using Hfin.
  unfold http_client_process_data. rewrite Hfin. cbn [negb].
  repeat (rewrite ?andb_false_r; cbn [negb]; first [apply yields_bind; intros ?|apply yields_if|apply yields_ret; first [by left|by right]]).
Qed.
End Fin.

(** ** The end of a connection in one worker *)

Section Worker.
Context {Dk : Dpdk} {room : Z} {L : DpdkLaws Dk room} (D : gset N) (Hroom : HDR_ROOM <= room).
Abbreviation endpoint := (endpoint (room := room) D).
Abbreviation answers := (answers (room := room) D).
Abbreviation post := (post (room := room) (B := 3) D).

(** A computation that keeps its end of the connection and sends nothing. *)
Definition stays (server : bool) (c : conn) (i : N) (w0 : world) {A} (R : A -> socket -> Prop) : A -> world -> Prop := fun a w' =>
  exists q' sk', endpoint server c i sk' w' q' /\ outlook w' = outlook w0 /\ R a sk'.

Lemma outlook_ws w w' : outlook w' = outlook w -> w_ws w' = w_ws w.
Proof. by intros [= ? ? ? ? ?]. Qed.

Lemma wp_stays_wide {A T} (g : socket -> T) server c i sk w0 w q (m : M A) (R Q : A -> socket -> Prop) :
  (forall sk1 sk2, g sk1 = g sk2 -> addressed sk1 = addressed sk2) -> endpoint server c i sk w q -> outlook w = outlook w0 ->
  wp m (wide (room := room) D i w R) w -> leaves outlook m /\ leaves (of_socket g i) m -> (forall a sk', g sk' = g sk -> R a sk' -> Q a sk') ->
  wp m (stays server c i w0 Q) w.
Proof.
  intros Hg Hw Ho Hm Hl HQ. eapply wp_mono; [apply (wp_also (fun w => (outlook w, of_socket g i w)) _ _ _ Hm), leaves_pair, Hl|].
  intros a w' [(q' & sk' & I' & _ & S & HR) [= E1 E2 E3 E4 E5 Eg]].
  assert (outlook w' = outlook w) as Eo by (unfold outlook, line, worker_of; congruence).
  unfold of_socket in Eg. rewrite S, (wa_socket _ _ _ _ _ _ _ Hw) in Eg. injection Eg as Eg.
  exists q', sk'. split; [|split; [congruence|by eapply HQ]].
  eapply endpoint_next; [exact Hw|exact I'|unfold w_st; by rewrite (outlook_ws _ _ Eo)|exact S|by apply Hg].
Qed.
Lemma wp_stays {A T} (g : socket -> T) server c i sk w0 w q (m : M A) (R : A -> socket -> queues -> Prop) (Q : A -> socket -> Prop) :
  (forall sk1 sk2, g sk1 = g sk2 -> addressed sk1 = addressed sk2) -> endpoint server c i sk w q -> outlook w = outlook w0 ->
  wp m (post i w q R) w -> leaves outlook m /\ leaves (of_socket g i) m -> (forall a sk' q', g sk' = g sk -> R a sk' q' -> Q a sk') ->
  wp m (stays server c i w0 Q) w.
Proof.
  intros Hg Hw Ho Hm Hl HQ. eapply (wp_stays_wide g) with (R := fun a sk' => exists q', R a sk' q'); [exact Hg|exact Hw|exact Ho| |exact Hl|].
  - eapply post_wide; [exact Hm|]. intros a sk' q' H. by exists q'.
  - intros a sk' E [q' H]. by eapply HQ.
Qed.

Lemma stays_bind {A B} server c i w0 w (m : M A) (f : A -> M B) R Q : wp m (stays server c i w0 R) w ->
  (forall a w1 q1 sk1, endpoint server c i sk1 w1 q1 -> outlook w1 = outlook w0 -> R a sk1 -> wp (f a) Q w1) -> wp (m ≫= f) Q w.
Proof. intros Hm Hf. apply wp_bind. eapply wp_mono; [exact Hm|]. intros a w1 (q1 & sk1 & Hw & Ho & HR). by eapply Hf. Qed.

(** A step that only counts. *)
Lemma stays_counted server c i sk w0 w q m : endpoint server c i sk w q -> outlook w = outlook w0 -> counts (room := room) D m -> leaves outlook m ->
  wp m (stays server c i w0 (fun _ sk' => sk' = sk)) w.
Proof.
  intros Hw Ho Hc Hl. eapply wp_mono; [apply (wp_also outlook); [apply Hc, (inv_env _ _ _ _ _ (wa_inv _ _ _ _ _ _ _ Hw))|exact Hl]|].
  intros ? w' [He Ho']. exists q, sk. split; [|split; [congruence|done]].
  eapply endpoint_next; [exact Hw|eapply inv_env_step; [apply Hw|exact He]|unfold w_st; by rewrite (outlook_ws _ _ Ho')| |done].
  rewrite (es_sockets _ _ _ _ He). apply Hw.
Qed.

(** An acceptable segment: it acknowledges all that was sent and carries what
    is expected next. *)
Lemma wp_accepts server c i sk w0 w q m th len flags : endpoint server c i sk w q -> outlook w = outlook w0 -> sk_st sk ≠ SK_CLOSED ->
  ld32 (m_buf m) (th + th_ack) = Some (htonl (sk_snd_nxt sk)) -> ld32 (m_buf m) (th + th_seq) = Some (htonl (sk_rcv_nxt sk)) ->
  ld8 (m_buf m) (th + th_flags) = Some flags -> in_u 32 (sk_snd_nxt sk) -> in_u 32 (sk_rcv_nxt sk) ->
  wp (tcp_check_sequence i (m_buf m) th len) (stays server c i w0 (fun ok sk' => ok = true /\ sending sk' = sending sk /\ sk_st sk' = sk_st sk
    /\ sk_snd_una sk' = sk_snd_nxt sk /\ sk_rcv_nxt sk' = u32 (sk_rcv_nxt sk + seg_len (has flags TH_FIN) len))) w.
Proof.
  intros Hw Ho Hst Ha Hq Hf Ra Rq. pose proof bounds_33 as [H33 H34]. pose proof (wa_socket _ _ _ _ _ _ _ Hw) as Hs. unfold tcp_check_sequence.
  apply wp_bind. eapply wp_m_ld_eq; [exact Ha|]. apply wp_bind. eapply wp_m_ld_eq; [exact Hq|]. apply wp_bind. eapply wp_m_ld_eq; [exact Hf|].
  cbv zeta. rewrite !bswap32_involutive by done. apply wp_bind. eapply wp_sk_get; [exact Hs|]. rewrite !Z.eqb_refl. cbn [andb].
  eapply (wp_stays sending); [by intros ? ? [= ]; unfold addressed; congruence|exact Hw|exact Ho| |apply accept_leaves|].
  - apply (wp_accept_sequence (B := 3) D H33 H34); [apply Hw|by eapply endpoint_in|exact Hs].
  - intros [] sk' q' Hg; [|done]. by intros [_ (E1 & _ & E2 & E3)].
Qed.

(** A step of the closing handshake. *)
Lemma wp_fin_step server c i sk w0 w q rx tx : endpoint server c i sk w q -> outlook w = outlook w0 ->
  wp (tcp_process_fin i rx tx) (stays server c i w0 (fun f sk' => let '(st, fl) := tcp_fin_transition (sk_st sk) (has rx TH_FIN) (has tx TH_FIN) in
    f = tx ||| fl /\ sk_st sk' = st /\ numbered sk' = numbered sk)) w.
Proof.
  intros Hw Ho. pose proof bounds_33 as [H33 H34].
  eapply (wp_stays numbered); [by intros ? ? [= ]; unfold addressed; congruence|exact Hw|exact Ho| |apply process_fin_leaves|].
  - apply (wp_process_fin D Hroom); [apply Hw|by eapply endpoint_in|apply Hw].
  - intros f sk' q' Hg. destruct (tcp_fin_transition _ _ _) as [st fl]. by intros (-> & Hst & _).
Qed.

(** The received segment that is due: [rx] with [len] bytes for socket [sk]. *)
Record due (sk : socket) (m : mbuf) (iph th rx len : Z) : Prop := {
  du_ack : ld32 (m_buf m) (th + th_ack) = Some (htonl (sk_snd_nxt sk));
  du_seq : ld32 (m_buf m) (th + th_seq) = Some (htonl (sk_rcv_nxt sk));
  du_flags : ld8 (m_buf m) (th + th_flags) = Some rx;
  du_data : exists d, tcp_data_get (m_buf m) iph th = Some (d, len) /\ 0 <= d /\ 0 <= len /\ d + len <= Z.of_nat (length (m_buf m));
  du_range : in_u 32 (sk_snd_nxt sk) /\ in_u 32 (sk_rcv_nxt sk);
}.

(** A reply after such steps. *)
Definition after_reply (ws : work_space) (sk : socket) (flags : Z) (sk' : socket) : Prop :=
  sk_st sk' = sk_st sk /\ settled sk' = settled sk /\ sk_snd_una sk' = sk_snd_una sk /\ sk_rcv_nxt sk' = sk_rcv_nxt sk
  /\ sk_snd_nxt sk' = packet_next ws sk flags.
Lemma wp_answer server c i sk w0 w q flags len (R : socket -> Prop) : endpoint server c i sk w q -> outlook w = outlook w0 ->
  (tcp_packet_kind (w_ws w0) sk flags).2 = flags -> packet_load (w_ws w0) sk flags = len -> can_send w0 (packet_cache (w_ws w0) sk flags) ->
  (forall sk', after_reply (w_ws w0) sk flags sk' -> R sk') ->
  wp (tcp_reply i flags) (fun _ w' => answers server c i w0 flags len w' R) w.
Proof.
  intros Hw Ho Hf Hl Hc HR. pose proof (outlook_ws _ _ Ho) as Ew. rewrite <- Ew in *.
  eapply (wp_reply_answers D Hroom); [exact Hf|exact Hl|exact Hw| | |exact Ew|].
  - eapply can_send_same; [exact Hc|]. injection Ho as ? ? ? ? ?. unfold worker_of. congruence.
  - injection Ho as ? ? ? ? ?. unfold line. congruence.
  - intros f t. by apply HR.
Qed.

(** The beginning of both [tcp_*_process_data]: a segment that is due is
    accepted. *)
Definition progressed (sk : socket) (rx len : Z) (sk' : socket) : Prop :=
  sending sk' = sending sk /\ sk_st sk' = sk_st sk /\ sk_snd_una sk' = sk_snd_nxt sk
  /\ sk_rcv_nxt sk' = u32 (sk_rcv_nxt sk + seg_len (has rx TH_FIN) len).

Lemma wp_due {A} server c i sk w q m iph th rx len (k : Z -> Z -> Z -> bool -> M A) Q : endpoint server c i sk w q -> sk_st sk ≠ SK_CLOSED ->
  due sk m iph th rx len ->
  (forall d w1 q1 sk1, 0 <= d -> 0 <= len -> d + len <= Z.of_nat (length (m_buf m)) -> endpoint server c i sk1 w1 q1 -> outlook w1 = outlook w ->
    progressed sk rx len sk1 -> wp (k rx d len true) Q w1) ->
  wp (rx ← m_ld (ld8 (m_buf m) (th + th_flags));
      '(data, data_len) ← st_lift OutOfBounds (tcp_data_get (m_buf m) iph th);
      ok ← tcp_check_sequence i (m_buf m) th data_len;
      k rx data data_len ok) Q w.
Proof.
  intros Hw Hst [Ha Hq Hf (d & Hd & D1 & D2 & D3) [Ra Rq]] Hk. apply wp_bind. eapply wp_m_ld_eq; [exact Hf|]. apply wp_bind. eapply wp_lift; [exact Hd|].
  eapply stays_bind; [by apply (wp_accepts server c i sk w w q m th len rx)|]. intros ok w1 q1 sk1 Hw1 Ho1 (-> & H). by apply (Hk d w1 q1 sk1).
Qed.

Lemma stays_ret {A} server c i sk w0 w q (a : A) (R : A -> socket -> Prop) : endpoint server c i sk w q -> outlook w = outlook w0 -> R a sk ->
  wp (mret a) (stays server c i w0 R) w.
Proof. intros Hw Ho HR. apply wp_ret. by exists q, sk. Qed.
Lemma stays_set_state server c i sk w0 w q st : endpoint server c i sk w q -> outlook w = outlook w0 -> sk_st sk ≠ SK_CLOSED -> st ≠ SK_CLOSED -> st ≠ SK_TIME_WAIT ->
  wp (sk_set_state i st) (stays server c i w0 (fun _ sk' => sk_st sk' = st /\ numbered sk' = numbered sk)) w.
Proof.
  intros Hw Ho H1 H2 H3. eapply (wp_stays numbered); [by intros ? ? [= ]; unfold addressed; congruence|exact Hw|exact Ho| |apply set_state_leaves|].
  - eapply (wp_sk_mod_open (B := 3) D); [apply Hw|apply Hw|done..].
  - intros ? sk' q' Hg [-> _]. by split.
Qed.

(** The server gets the request: it answers with the response and its FIN. *)
Lemma server_responds c j sk w q m iph th len : endpoint true c j sk w q -> sk_st sk = SK_SYN_RECEIVED \/ sk_st sk = SK_ESTABLISHED ->
  sk_keepalive sk = false -> due sk m iph th (TH_ACK ||| TH_PUSH) len -> 0 < len ->
  ws_send_window (w_ws w) = 0 -> can_send w Cache_tcp_data ->
  wp (tcp_server_process_data j m iph th) (fun _ w' => answers true c j w (TH_PUSH ||| TH_ACK ||| TH_FIN) (md_data_len (ws_tcp_data (w_ws w))) w' (fun sk' =>
    sk_st sk' = SK_FIN_WAIT_1 /\ settled sk' = settled sk /\ sk_snd_una sk' = sk_snd_nxt sk /\ sk_rcv_nxt sk' = u32 (sk_rcv_nxt sk + len)
    /\ sk_snd_nxt sk' = u32 (sk_snd_nxt sk + u16 (md_data_len (ws_tcp_data (w_ws w)) + 1)))) w.
Proof.
  intros Hw Hst Hka Hdue Hlen Hwin Hc. unfold tcp_server_process_data. cbv zeta.
  eapply wp_due; [exact Hw|by destruct Hst as [-> | ->]|exact Hdue|]. intros d w1 q1 sk1 D1 D2 D3 Hw1 Ho1 (E1 & E2 & E3 & E4). cbn [negb]. apply wp_answers_free.
  apply wp_bind. eapply wp_sk_get; [apply Hw1|].
  apply (stays_bind true c j w _ _ _ (fun _ sk' => sk_st sk' = SK_ESTABLISHED /\ numbered sk' = numbered sk1)).
  { destruct Hst as [Hst|Hst]; rewrite Hst in E2; rewrite E2; [apply (stays_set_state true c j sk1 w w1 q1)|apply (stays_ret true c j sk1 w w1 q1)]; try done; by rewrite E2. }
  intros _ w2 q2 sk2 Hw2 Ho2 [F1 F2]. apply wp_bind. eapply wp_sk_get; [apply Hw2|]. wp_reads. rewrite (outlook_ws _ _ Ho2), Hwin, F1. unfold sk_is.
  rewrite bool_decide_true by done. cbn [Z.eqb negb andb]. rewrite (proj2 (Z.eqb_neq len 0)) by lia. cbn [negb].
  eapply stays_bind; [eapply stays_counted; [exact Hw2|exact Ho2|apply request_counts_list|apply request_leaves]|].
  { unfold bytes_from. rewrite length_drop. lia. }
  intros _ w3 q3 sk3 Hw3 Ho3 ->. assert (sk_keepalive sk2 = false) as -> by (unfold numbered, sending, settled in *; congruence).
  unfold tcp_server_finish. apply wp_bind. eapply wp_sk_get; [apply Hw3|].
  rewrite F1. cbn [orb sk_gt]. eapply stays_bind; [by eapply wp_fin_step|]. intros f w4 q4 sk4 Hw4 Ho4 HF. rewrite F1 in HF. destruct HF as (-> & G1 & G2).
  apply wp_bind. eapply wp_sk_get; [apply Hw4|]. cbn [negb Z.eqb].
  unfold numbered, sending in *. eapply (wp_answer true c j sk4 w w4 q4 (TH_PUSH ||| TH_ACK ||| TH_FIN)); try done.
  intros sk' (R1 & R2 & R3 & R4 & R5). split; [congruence|]. split; [congruence|]. split; [congruence|]. split; [rewrite R4; change (seg_len _ len) with len in E4; congruence|].
  rewrite R5, packet_next_all by congruence. change (packet_len _ _ _) with (u16 (md_data_len (ws_tcp_data (w_ws w)) + 1)). congruence.
Qed.

(** The server gets the FIN of the client: it is closed and acknowledges. *)
Lemma server_closes c j sk w q m iph th : endpoint true c j sk w q -> sk_st sk = SK_FIN_WAIT_1 -> due sk m iph th (TH_ACK ||| TH_FIN) 0 -> can_send w Cache_tcp ->
  ws_send_window (w_ws w) = 0 ->
  wp (tcp_server_process_data j m iph th) (fun _ w' => answers true c j w TH_ACK 0 w' (fun sk' => sk_st sk' = SK_CLOSED /\ settled sk' = settled sk
    /\ sk_snd_una sk' = sk_snd_nxt sk /\ sk_rcv_nxt sk' = u32 (sk_rcv_nxt sk + 1) /\ sk_snd_nxt sk' = sk_snd_nxt sk)) w.
Proof.
  intros Hw Hst Hdue Hc Hwin. unfold tcp_server_process_data. cbv zeta. pose proof (du_range _ _ _ _ _ _ Hdue) as [Ra _].
  eapply wp_due; [exact Hw|by rewrite Hst|exact Hdue|]. intros d w1 q1 sk1 D1 D2 D3 Hw1 Ho1 (E1 & E2 & E3 & E4). cbn [negb]. apply wp_answers_free. change (seg_len _ 0) with 1 in E4. rewrite Hst in E2.
  apply wp_bind. eapply wp_sk_get; [apply Hw1|]. rewrite E2. apply wp_bind, wp_ret.
  apply wp_bind. eapply wp_sk_get; [apply Hw1|]. wp_reads. rewrite E2. unfold sk_is. rewrite bool_decide_false by done.
  unfold tcp_server_finish. apply wp_bind. eapply wp_sk_get; [apply Hw1|]. rewrite E2. cbn [orb sk_gt].
  eapply stays_bind; [by eapply wp_fin_step|]. intros f w4 q4 sk4 Hw4 Ho4 HF. rewrite E2 in HF. destruct HF as (-> & G1 & G2).
  apply wp_bind. eapply wp_sk_get; [apply Hw4|]. unfold numbered, sending in *. eapply (wp_answer true c j sk4 w w4 q4 TH_ACK); try done.
  intros sk' (R1 & R2 & R3 & R4 & R5). split_and!; try congruence.
  rewrite R5, packet_next_all by congruence. change (packet_len _ _ _) with 0. rewrite Z.add_0_r, wrap_small; congruence.
Qed.

(** The payload of the response, when its FIN has come. *)
Lemma wp_response c i sk w0 w q rx m d len : endpoint false c i sk w q -> outlook w = outlook w0 -> sk_st sk = SK_ESTABLISHED -> sk_keepalive sk = false ->
  has rx TH_FIN = true -> 0 <= d -> 0 <= len -> d + len <= Z.of_nat (length (m_buf m)) ->
  wp (tcp_client_established_data i rx (m_buf m) d len) (stays false c i w0 (fun f sk' => closing_flags f /\ sk_st sk' = sk_st sk /\ counting sk' = counting sk)) w.
Proof.
  intros Hw Ho Hst Hka Hfin D1 D2 D3. unfold tcp_client_established_data. wp_reads. apply wp_if; intros Hhttp.
  - destruct (ld_bytes_some (m_buf m) d len) as (bs & Ebs & _); [done..|]. apply wp_bind. eapply wp_lift; [exact Ebs|].
    eapply wp_mono; [apply wp_yields, (client_data_closes rx Hfin)|].
    { apply (wp_stays_wide counting false c i sk w0 w q _ (fun _ sk' => core sk' = core sk) (fun _ sk' => sk_st sk' = sk_st sk /\ counting sk' = counting sk));
        [by intros ? ? [= ]; unfold addressed; congruence|exact Hw|exact Ho| |by apply client_data_leaves|by intros _ sk' Hg [= ? _]].
      apply (wp_http_client_data D Hroom i rx bs w q sk); [apply Hw|by eapply endpoint_in|apply Hw|by rewrite Hst]. }
    intros f w' [(q' & sk' & H1 & H2 & H3 & H4) Hcl]. by exists q', sk'.
  - eapply stays_bind; [eapply stays_counted; [exact Hw|exact Ho|apply response_counts_list|apply response_leaves]|].
    { unfold bytes_from. rewrite length_drop. lia. }
    intros _ w1 q1 sk1 Hw1 Ho1 ->. apply wp_bind. eapply wp_sk_get; [apply Hw1|]. rewrite Hka. cbn [negb].
    eapply stays_ret; [exact Hw1|exact Ho1|]. split; [by right|done].
Qed.

(** The client gets the response with its FIN: it closes as well. *)
Lemma client_closes c i sk w q m iph th len : endpoint false c i sk w q -> sk_st sk = SK_ESTABLISHED -> sk_keepalive sk = false ->
  due sk m iph th (TH_PUSH ||| TH_ACK ||| TH_FIN) len -> can_send w Cache_tcp -> ws_fast_close (w_ws w) = false ->
  wp (tcp_client_process_data i m iph th) (fun _ w' => answers false c i w (TH_ACK ||| TH_FIN) 0 w' (fun sk' => sk_st sk' = SK_LAST_ACK
    /\ sk_snd_una sk' = sk_snd_nxt sk /\ sk_rcv_nxt sk' = u32 (sk_rcv_nxt sk + u16 (len + 1)) /\ sk_snd_nxt sk' = u32 (sk_snd_nxt sk + 1))) w.
Proof.
  intros Hw Hst Hka Hdue Hc Hfc. unfold tcp_client_process_data. cbv zeta.
  eapply wp_due; [exact Hw|by rewrite Hst|exact Hdue|]. intros d w1 q1 sk1 D1 D2 D3 Hw1 Ho1 (E1 & E2 & E3 & E4). cbn [negb]. apply wp_answers_free.
  change (seg_len _ len) with (u16 (len + 1)) in E4. rewrite Hst in E2. unfold sending, settled in E1.
  apply wp_bind. eapply wp_sk_get; [apply Hw1|]. rewrite E2. unfold sk_is at 1. rewrite bool_decide_true by done.
  apply (stays_bind false c i w _ _ _ (fun f sk' => (f = 0 \/ closing_flags f) /\ sk_st sk' = sk_st sk1 /\ counting sk' = counting sk1)).
  { apply wp_if; intros _; [|by apply (stays_ret false c i sk1 w w1 q1); auto].
    eapply wp_mono; [apply (wp_response c i sk1 w w1 q1); try done; congruence|]. intros f w' (q' & sk' & H1 & H2 & H3 & H4). exists q', sk'. auto. }
  intros f w2 q2 sk2 Hw2 Ho2 (Hcl & F1 & F2). wp_reads. rewrite (outlook_ws _ _ Ho2), Hfc, andb_false_r.
  unfold tcp_client_finish. apply wp_bind. eapply wp_sk_get; [apply Hw2|]. rewrite F1, E2.
  assert (has (TH_PUSH ||| TH_ACK ||| TH_FIN ||| f) TH_FIN = true /\ f ||| (TH_FIN ||| TH_ACK) = TH_ACK ||| TH_FIN) as [-> Hff]
    by (by destruct Hcl as [->|[-> | ->]]).
  rewrite orb_true_r. eapply stays_bind; [by eapply wp_fin_step|]. intros f' w3 q3 sk3 Hw3 Ho3 HF. rewrite F1, E2 in HF. destruct HF as (-> & G1 & G2).
  rewrite Hff. apply wp_bind. eapply wp_sk_get; [apply Hw3|]. unfold ack_now. apply wp_bind. wp_reads. apply wp_ret.
  unfold st_when. cbn [negb Z.eqb andb orb]. unfold numbered, settled, counting in *.
  eapply (wp_answer false c i sk3 w w3 q3 (TH_ACK ||| TH_FIN)); try done.
  intros sk' (R1 & R2 & R3 & R4 & R5). split_and!; try congruence.
  rewrite R5, packet_next_all by congruence. change (packet_len _ _ _) with 1. congruence.
Qed.

(** The client gets the last acknowledgement: it is closed, and sends nothing. *)
Lemma client_ends c i sk w q m iph th : endpoint false c i sk w q -> sk_st sk = SK_LAST_ACK -> due sk m iph th TH_ACK 0 ->
  wp (tcp_client_process_data i m iph th) (fun _ w' => exists q' sk', endpoint false c i sk' w' q' /\ line w' = line w /\ sk_st sk' = SK_CLOSED
    /\ sk_snd_una sk' = sk_snd_nxt sk /\ sk_snd_nxt sk' = sk_snd_nxt sk /\ sk_rcv_nxt sk' = sk_rcv_nxt sk) w.
Proof.
  intros Hw Hst Hdue. unfold tcp_client_process_data. cbv zeta. pose proof (du_range _ _ _ _ _ _ Hdue) as [_ Rq].
  eapply wp_due; [exact Hw|by rewrite Hst|exact Hdue|]. intros d w1 q1 sk1 D1 D2 D3 Hw1 Ho1 (E1 & E2 & E3 & E4). cbn [negb].
  change (seg_len _ 0) with 0 in E4. rewrite Z.add_0_r, wrap_small in E4 by done. rewrite Hst in E2. unfold sending, settled in E1.
  apply (stays_bind false c i w w1 _ _ (fun _ sk' => sk_st sk' = SK_CLOSED /\ numbered sk' = numbered sk1)).
  - apply wp_bind. eapply wp_sk_get; [apply Hw1|]. rewrite E2. unfold sk_is at 1. rewrite bool_decide_false by done.
    unfold tcp_client_finish. apply wp_bind. eapply wp_sk_get; [apply Hw1|]. rewrite E2. cbn [orb sk_gt].
    eapply stays_bind; [by eapply wp_fin_step|]. intros f w2 q2 sk2 Hw2 Ho2 HF. rewrite E2 in HF. destruct HF as (-> & G1 & G2).
    apply wp_bind. eapply wp_sk_get; [apply Hw2|]. unfold ack_now. apply wp_bind. wp_reads. apply wp_ret. by apply (stays_ret false c i sk2 w w2 q2).
  - intros _ w2 q2 sk2 Hw2 Ho2 [F1 F2].
    eapply wp_mono; [apply (wp_also (fun w => (line w, w_st w))); [apply (wp_free2 (room := room) D), (wa_inv _ _ _ _ _ _ _ Hw2)|apply leaves_pair, free2_leaves]|].
    intros _ w' [Hstep [= H1 H2 H3 Et]]. exists q2, sk2. unfold numbered, settled in F2. split_and!; try congruence.
    + eapply endpoint_next; [exact Hw2|eapply inv_env_step; [apply Hw2|exact Hstep]|exact Et|rewrite (es_sockets _ _ _ _ Hstep); apply Hw2|done].
    + unfold outlook, line in *. congruence.
Qed.
End Worker.

(** ** What a worker never changes *)

(** The settings that a reply depends on. *)
Definition settings (w : world) : Z * (bool * bool * bool * Z * bool) * (mbuf_data * mbuf_data * mbuf_data) :=
  (w_offload_tcpudp_cksum w,
   (ws_vxlan (w_ws w), ws_ipv6 (w_ws w), ws_change_dip (w_ws w), ws_send_window (w_ws w), ws_fast_close (w_ws w)),
   (ws_tcp_opt (w_ws w), ws_tcp_data (w_ws w), ws_tcp (w_ws w))).

Section Settings.
Context {Dk : Dpdk}.

Ltac keeps_settings := repeat first [leaves_step|solve [auto with leaves]]; try done.

Lemma settings_flush : leaves settings work_space_tx_flush.
Proof.
  assert (leaves settings tx_flush_round) as Hr by (unfold tx_flush_round, eth_tx_burst, txq_reset, txq_get, txq_mod; leaves_tac).
  assert (forall n, leaves settings (tx_flush_loop n)) as Hl.
  { induction n as [|n IH]; [apply leaves_ret|]. apply leaves_bind; [exact Hr|]. intros []; [apply leaves_ret|exact IH]. }
  assert (forall ms, leaves settings (free_all ms)) as Hf.
  { induction ms as [|m ms IH]; [apply leaves_ret|]. apply leaves_bind; [leaves_tac|intros _; exact IH]. }
  unfold work_space_tx_flush, txq_reset, txq_get, txq_mod. keeps_settings.
Qed.
#[local] Hint Resolve settings_flush : leaves.

Lemma settings_send m : leaves settings (work_space_tx_send m).
Proof. unfold work_space_tx_send, txq_get, txq_mod. keeps_settings. Qed.
#[local] Hint Resolve settings_send : leaves.
Lemma settings_reply i flags : leaves settings (tcp_reply i flags).
Proof.
  unfold tcp_reply, tcp_flags_tx_count, tcp_push_count, tcp_new_packet, mbuf_cache_alloc, pktmbuf_alloc, mbuf_push_data, tcp_fill_packet, tcp_vxlan_headers,
    tcp_set_ip, tcp_set_tcp, tcp_change_dip, tcp_change_dipv4, tcp_change_dipv6, dip_next_ipv4, dip_next_ipv6,
    work_space_tx_send_tcp, csum_offload_ip_tcpudp, csum_ip_compute, csum_ipv4, m_st, m_ld, m_op,
    tcp_reply_timer, socket_accurate_timer_tsc, socket_start_retransmit_timer, socket_start_retransmit_timer_force, socket_start_timeout_timer, socket_add_timer.
  keeps_settings.
Qed.
#[local] Hint Resolve settings_reply : leaves.

Lemma settings_close i : leaves settings (socket_close i).
Proof. unfold socket_close. keeps_settings. Qed.
Lemma settings_free m : leaves settings (mbuf_free2 m).
Proof. unfold mbuf_free2, mbuf_free2_flush. keeps_settings. Qed.
#[local] Hint Resolve settings_close settings_free : leaves.
Lemma settings_retransmit i : leaves settings (tcp_do_retransmit i).
Proof.
  unfold tcp_do_retransmit, sk_retrans_inc, tcp_resend_window, tcp_retransmit_count, socket_start_retransmit_timer, socket_start_retransmit_timer_force, socket_add_timer.
  keeps_settings.
Qed.
#[local] Hint Resolve settings_retransmit : leaves.
Lemma settings_check i b th len : leaves settings (tcp_check_sequence i b th len).
Proof.
  unfold tcp_check_sequence, tcp_accept_sequence, tcp_window_ack, tcp_resend_window, socket_stop_retransmit_timer, socket_del_timer, sk_retrans_inc, m_ld.
  keeps_settings.
Qed.
Lemma settings_fin i rx tx : leaves settings (tcp_process_fin i rx tx).
Proof. unfold tcp_process_fin, sk_set_state. keeps_settings. Qed.
#[local] Hint Resolve settings_check settings_fin : leaves.
Lemma settings_reply_more i : leaves settings (tcp_reply_more i).
Proof.
  assert (forall n a b, leaves settings (reply_more_loop n i a b)) as Hl.
  { induction n as [|n IH]; intros a b; simpl; keeps_settings. }
  unfold tcp_reply_more, socket_start_timeout_timer, socket_add_timer, sk_set_state. keeps_settings.
Qed.
Lemma settings_flush_acks : leaves settings tcp_ack_delay_flush.
Proof.
  assert (forall l, leaves settings (ack_delay_loop l)) as Hl by (induction l as [|i l IH]; simpl; keeps_settings).
  unfold tcp_ack_delay_flush. keeps_settings.
Qed.
#[local] Hint Resolve settings_reply_more settings_flush_acks : leaves.
Lemma settings_http i rx data : leaves settings (http_client_process_data i rx data).
Proof.
  unfold http_client_process_data, http_parse_run, http_parse_response, tcp_ack_delay_add, socket_start_keepalive_timer, socket_accurate_timer_tsc, socket_add_timer, ack_now.
  keeps_settings.
Qed.
Lemma settings_keepalive i : leaves settings (tcp_send_keepalive_request i).
Proof. unfold tcp_send_keepalive_request, work_space_in_duration, sk_set_state. keeps_settings. Qed.
#[local] Hint Resolve settings_http settings_keepalive : leaves.
Lemma settings_lookup b iph th : leaves settings (socket_server_lookup b iph th) /\ leaves settings (socket_client_lookup b iph th).
Proof. unfold socket_server_lookup, socket_client_lookup, socket_client_check_rss, socket_dup, table_of, table_get. split; keeps_settings. Qed.
Lemma settings_kni o : leaves settings (kni_recv o).
Proof.
  assert (forall ms, leaves settings (mbuf_free2_all ms)) as Hf by (induction ms as [|m ms IH]; simpl; keeps_settings).
  unfold kni_recv, ring_enqueue, ring_count, ring_dequeue_bulk, eth_tx_burst. keeps_settings.
Qed.
#[local] Hint Resolve settings_kni : leaves.
Lemma settings_no_socket m : leaves settings (tcp_no_socket m).
Proof. unfold tcp_no_socket, work_space_is_local_addr, tcp_reply_rst, m_ld, m_st, m_op. keeps_settings. Qed.
Lemma settings_rst i m : leaves settings (tcp_process_rst i m).
Proof. unfold tcp_process_rst. keeps_settings. Qed.
#[local] Hint Resolve settings_no_socket settings_rst : leaves.

Lemma settings_server_handlers i m iph th : leaves settings (tcp_server_process_data i m iph th) /\ leaves settings (tcp_server_process_syn i m th).
Proof.
  split.
  - unfold tcp_server_process_data, http_parse_request, tcp_server_window_response, tcp_server_finish, socket_start_retransmit_timer,
      socket_start_retransmit_timer_force, socket_start_timeout_timer, socket_add_timer, sk_set_state, m_ld. keeps_settings.
  - unfold tcp_server_process_syn, socket_server_open, sk_set_state, m_ld. keeps_settings.
Qed.
Lemma settings_client_handlers i m iph th : leaves settings (tcp_client_process_data i m iph th) /\ leaves settings (tcp_client_process_syn_ack i m th).
Proof.
  split.
  - unfold tcp_client_process_data, tcp_client_established_data, http_parse_response, tcp_client_finish, ack_now, socket_start_keepalive_timer,
      socket_accurate_timer_tsc, socket_add_timer, m_ld. keeps_settings.
  - unfold tcp_client_process_syn_ack, m_ld. keeps_settings.
Qed.

(** No segment changes the settings of a worker. *)
Lemma settings_process m : leaves settings (tcp_server_process m) /\ leaves settings (tcp_client_process m).
Proof.
  assert (forall o, leaves settings (m_ld o)) as Hld by (intros o; apply leaves_lift).
  assert (forall f, leaves settings (tcp_flags_rx_count f)) as Hrx by (intros f; unfold tcp_flags_rx_count; leaves_tac).
  unfold tcp_server_process, tcp_client_process. split; keeps_settings; by first [apply settings_lookup|apply settings_server_handlers|apply settings_client_handlers].
Qed.
End Settings.

(** ** A segment on its way *)

(** The frame [m] of worker [ws] as the receiver's input hands it to TCP: the
    same bytes, behind the outer headers of a tunnel. *)
Definition arrives (ws : work_space) (m m' : mbuf) : Prop := m_buf m' = m_buf m /\ mbuf_ip_hdr m' = segment_ip ws m.

(** A worker whose templates are built and that can send; no send window, no
    fast close, and a client has a request to send. *)
Record ready {Dk : Dpdk} (server : bool) (w : world) : Prop := {
  rd_send : forall c, c ∈ [Cache_tcp_opt; Cache_tcp_data; Cache_tcp] -> can_send w c;
  rd_window : ws_send_window (w_ws w) = 0;
  rd_close : ws_fast_close (w_ws w) = false;
  rd_request : server = false -> 0 < md_data_len (ws_tcp_data (w_ws w));
}.

Lemma ready_settings {Dk : Dpdk} server w w' : settings w' = settings w -> ready server w -> ready server w'.
Proof.
  intros [= E1 E2 E3 E4 E5 E6 E7 E8 E9] [H1 H2 H3 H4]. split; [|congruence..|by rewrite E8].
  intros c Hc. destruct (H1 c Hc) as [C1 [F1 F2 F3] C3].
  assert (forall b iph, framed (w_ws w) c b iph -> framed (w_ws w') c b iph) as Hf by (intros b iph; unfold framed, cache_load; by rewrite E3, E8).
  assert (cache_data c (w_ws w') = cache_data c (w_ws w)) as Ec by (unfold cache_data; by repeat (apply elem_of_cons in Hc as [->|Hc]); [..|apply elem_of_nil in Hc]).
  assert (ip_at (w_ws w') = ip_at (w_ws w)) as Ei by (unfold ip_at; by rewrite E2).
  split; [congruence| |by rewrite E1, E2]. split; [exact F1|rewrite Ec, Ei; by apply Hf|intros h m Hm Hu; rewrite Ei; apply Hf; by eapply F3].
Qed.

Section Hop.
Context {Dk : Dpdk} {room : Z} {L : DpdkLaws Dk room} (D : gset N) (Hroom : HDR_ROOM <= room).
Abbreviation endpoint := (endpoint (room := room) D).
Abbreviation answers := (answers (room := room) D).

Lemma answers_outlook server c i w w1 flags len w' R : answers server c i w1 flags len w' R -> outlook w1 = outlook w -> answers server c i w flags len w' R.
Proof.
  intros (q & sk & m & H1 & H2 & H3 & H4 & H5) Ho. exists q, sk, m. rewrite <- (outlook_ws _ _ Ho). split_and!; try done.
  eapply emits_line; [exact H2|unfold outlook, line in *; congruence|done].
Qed.

(** The headers of an arriving segment. *)
Lemma arrives_headers ws sk flags len m m' : carries ws sk flags len m -> arrives ws m m' -> let iph := mbuf_ip_hdr m' in let th := iph + l3_len_of (ws_ipv6 ws) in
  mbuf_tcp_hdr m' = Some th /\ says sk flags (ws_ipv6 ws) (m_buf m') iph th
  /\ exists d, tcp_data_get (m_buf m') iph th = Some (d, len) /\ 0 <= d /\ 0 <= len /\ d + len <= Z.of_nat (length (m_buf m')).
Proof.
  intros [[Ty _] Hl Hs] [Eb Ei]. cbv zeta. rewrite Eb, Ei. split; [|by split].
  rewrite <- Ei in *. unfold mbuf_tcp_hdr. rewrite Eb. replace (mbuf_eth_hdr m' + eth_type) with (mbuf_ip_hdr m' - ETH_HDR_LEN + eth_type) by (unfold mbuf_ip_hdr, mbuf_eth_hdr; lia).
  rewrite Ty. cbn [mbind option_bind]. unfold mbuf_ip_hdr, l3_len_of, IPHDR_LEN, IP6_HDR_LEN. f_equal. destruct (ws_ipv6 ws); vm_compute (_ =? _); cbv iota; lia.
Qed.

(** What an arriving segment is for the socket that it finds. *)
Lemma carries_due ws skp flags len m m' sk : carries ws skp flags len m -> arrives ws m m' -> flags mod 256 = flags ->
  sk_snd_nxt sk = sk_rcv_nxt skp -> sk_rcv_nxt sk = sk_snd_una skp -> in_u 32 (sk_snd_nxt sk) -> in_u 32 (sk_rcv_nxt sk) ->
  due sk m' (mbuf_ip_hdr m') (mbuf_ip_hdr m' + l3_len_of (ws_ipv6 ws)) flags len.
Proof.
  intros Hc Ha Hf E1 E2 R1 R2. destruct (arrives_headers _ _ _ _ _ _ Hc Ha) as (_ & [_ _ _ S4 S5 S6] & Hd). split; [by rewrite E1|by rewrite E2|by rewrite S6, Hf|exact Hd|done].
Qed.

(** The handler of a segment that is found to be for socket [k]. *)
Definition tcp_process (server : bool) : mbuf -> M unit := if server then tcp_server_process else tcp_client_process.
Definition process_data (server : bool) : N -> mbuf -> Z -> Z -> M unit := if server then tcp_server_process_data else tcp_client_process_data.
Definition process_open (server : bool) : N -> mbuf -> Z -> M unit := if server then tcp_server_process_syn else tcp_client_process_syn_ack.
Definition opening (server : bool) : Z := if server then TH_SYN else TH_SYN ||| TH_ACK.

Lemma wp_receives server c k sk w q ws skp flags len m m' Q : carries ws skp flags len m -> arrives ws m m' -> flags mod 256 = flags ->
  ends (negb server) c skp -> conn_ok c -> endpoint server c k sk w q ->
  (forall w1 q1, endpoint server c k sk w1 q1 -> outlook w1 = outlook w ->
    let iph := mbuf_ip_hdr m' in let th := iph + l3_len_of (ws_ipv6 ws) in
    if negb (has flags (TH_SYN ||| TH_RST)) && has flags TH_ACK then wp (process_data server k m' iph th) Q w1
    else if flags =? opening server then wp (process_open server k m' th) Q w1 else False) ->
  wp (tcp_process server m') Q w.
Proof.
  intros Hc Ha Hf He Hco Hw Hk. destruct (arrives_headers _ _ _ _ _ _ Hc Ha) as (Hth & [_ _ _ _ _ S6] & _).
  set (th := mbuf_ip_hdr m' + l3_len_of (ws_ipv6 ws)) in *. rewrite Hf in S6.
  assert (socket_lookup server (m_buf m') (mbuf_ip_hdr m') th w = Ok (Some k, w)) as Hlk.
  { destruct Ha as [Eb Ei]. subst th. rewrite Eb, Ei. pose proof (carries_finds ws skp flags len m (negb server) c k w Hc He Hco) as H. rewrite negb_involutive in H.
    apply H. by eapply endpoint_holds. }
  assert (wp (tcp_flags_rx_count flags) (stays (room := room) D server c k w (fun _ sk' => sk' = sk)) w) as Hrx
    by (eapply stays_counted; [exact Hw|done|apply rx_count_counts|apply rx_count_leaves]).
  cbv zeta in Hk. unfold tcp_process, tcp_server_process, tcp_client_process, process_data, process_open, opening, socket_lookup in *.
  destruct server; (apply wp_bind; eapply wp_m_ld_eq; [exact Hth|]; apply wp_bind; eapply wp_m_ld_eq; [exact S6|]; apply wp_bind; unfold wp at 1; rewrite Hlk);
    (eapply stays_bind; [exact Hrx|]; intros _ w1 q1 sk1 Hw1 Ho1 ->; specialize (Hk w1 q1 Hw1 Ho1); destruct (_ && _); [exact Hk|]; destruct (_ =? _); [exact Hk|done]).
Qed.

Lemma ready_outlook server w w' : outlook w' = outlook w -> ready server w -> ready server w'.
Proof. intros Ho. apply ready_settings. pose proof (outlook_ws _ _ Ho) as Ew. injection Ho as _ _ _ _ Eo. unfold settings. by rewrite Ew, Eo. Qed.

(** The worker gets a segment and answers. *)
Lemma hop server c k sk w q ws skp flags len m m' fl len' R : carries ws skp flags len m -> arrives ws m m' -> flags mod 256 = flags ->
  ends (negb server) c skp -> conn_ok c -> endpoint server c k sk w q -> ready server w ->
  (forall w1 q1, endpoint server c k sk w1 q1 -> ready server w1 -> w_ws w1 = w_ws w ->
    let iph := mbuf_ip_hdr m' in let th := iph + l3_len_of (ws_ipv6 ws) in
    let Q := fun _ w' => answers server c k w1 fl len' w' R in
    if negb (has flags (TH_SYN ||| TH_RST)) && has flags TH_ACK then wp (process_data server k m' iph th) Q w1
    else if flags =? opening server then wp (process_open server k m' th) Q w1 else False) ->
  exists w' q' sk' r, tcp_process server m' w = Ok (tt, w') /\ endpoint server c k sk' w' q' /\ ready server w' /\ emits w w' r
    /\ carries (w_ws w) sk' fl len' r /\ R sk'.
Proof.
  intros Hc Ha Hf He Hco Hw Hr Hk.
  assert (wp (tcp_process server m') (fun _ w' => answers server c k w fl len' w' R) w) as Hp.
  { eapply wp_receives; [exact Hc|exact Ha|exact Hf|exact He|exact Hco|exact Hw|]. intros w1 q1 Hw1 Ho1. specialize (Hk w1 q1 Hw1 (ready_outlook _ _ _ Ho1 Hr) (outlook_ws _ _ Ho1)). cbv zeta in *.
    destruct (_ && _); [|destruct (_ =? _); [|done]]; (eapply wp_mono; [exact Hk|]; intros ? w'' H; exact (answers_outlook _ _ _ _ _ _ _ _ _ H Ho1)). }
  destruct (wp_ok _ _ _ Hp) as ([] & w' & E & q' & sk' & r & H1 & H2 & _ & H4 & H5). exists w', q', sk', r. split_and!; try done.
  eapply ready_settings; [|exact Hr]. unfold tcp_process in E. destruct server; [apply (proj1 (settings_process m') _ _ _ E)|apply (proj2 (settings_process m') _ _ _ E)].
Qed.
End Hop.

(** ** A client and a server *)

(** The client ([false]) and the server ([true]), and the segment that is on its
    way to one of them. *)
Record net := Net { worker : bool -> world; flight : option (bool * mbuf) }.
Definition put (b : bool) (w : world) (f : bool -> world) : bool -> world := fun b' => if Bool.eqb b b' then w else f b'.

Section Net.
Context {Dk : Dpdk} {room : Z} {L : DpdkLaws Dk room} (D : bool -> gset N) (Hroom : HDR_ROOM <= room) (c : conn) (Hco : conn_ok c) (k : bool -> N).

(** Worker [b] has its end of the connection with the state [sk]. *)
Definition at_end (b : bool) (sk : socket) (w : world) : Prop := exists q, endpoint (room := room) (D b) b c (k b) sk w q /\ ready b w.
(** What a worker does in between: anything that leaves this connection alone. *)
Definition undisturbed (b : bool) (w w' : world) : Prop := forall sk, at_end b sk w -> at_end b sk w'.

(** [P] holds at the latest when [n] more segments have been delivered, whatever
    the workers do in between: the segment on its way is handled without a
    fault, and what the driver got for it is the next one. *)
Fixpoint within (n : nat) (P : net -> Prop) (s : net) : Prop :=
  P s \/ match n with
  | O => False
  | S n => forall ws, (forall b, undisturbed b (worker s b) (ws b)) ->
      match flight s with
      | None => False
      | Some (b, m) => exists w', tcp_process b m (ws b) = Ok (tt, w')
          /\ ((line w' = line (ws b) /\ within n P (Net (put b w' ws) None))
              \/ exists r, emits (ws b) w' r /\ forall r', arrives (w_ws (ws b)) r r' -> within n P (Net (put b w' ws) (Some (negb b, r'))))
      end
  end.

Lemma within_answer n P s b m sk skp ws fl len fr fl' (len' : work_space -> Z) (R : work_space -> socket -> Prop) :
  flight s = Some (b, m) -> at_end b sk (worker s b) -> at_end (negb b) skp (worker s (negb b)) ->
  carries ws skp fl len fr -> arrives ws fr m -> fl mod 256 = fl ->
  (forall w q, endpoint (room := room) (D b) b c (k b) sk w q -> ready b w ->
    let iph := mbuf_ip_hdr m in let th := iph + l3_len_of (ws_ipv6 ws) in
    let Q := fun _ w' => answers (room := room) (D b) b c (k b) w fl' (len' (w_ws w)) w' (R (w_ws w)) in
    if negb (has fl (TH_SYN ||| TH_RST)) && has fl TH_ACK then wp (process_data b (k b) m iph th) Q w
    else if fl =? opening b then wp (process_open b (k b) m th) Q w else False) ->
  (forall w s' m' fr' sk', ready b w -> flight s' = Some (negb b, m') -> at_end b sk' (worker s' b) -> at_end (negb b) skp (worker s' (negb b)) ->
    carries (w_ws w) sk' fl' (len' (w_ws w)) fr' -> arrives (w_ws w) fr' m' -> R (w_ws w) sk' -> within n P s') ->
  within (S n) P s.
Proof.
  intros Ef Hb Hp Hc Ha Hf Hk Hn. simpl. right. intros w Hu. rewrite Ef.
  destruct (Hu b _ Hb) as (q & Hw & Hr). destruct (Hu (negb b) _ Hp) as (qp & Hwp & Hrp).
  destruct (hop (D b) b c (k b) sk (w b) q ws skp fl len fr m fl' (len' (w_ws (w b))) (R (w_ws (w b))) Hc Ha Hf (wa_ends _ _ _ _ _ _ _ Hwp) Hco Hw Hr)
    as (w' & q' & sk' & r & E & H1 & H2 & H3 & H4 & H5).
  { intros w1 q1 Hw1 Hr1 <-. by apply (Hk w1 q1). }
  exists w'. split; [exact E|]. right. exists r. split; [exact H3|]. intros r' Hr'.
  eapply (Hn (w b) _ r'); [exact Hr|done| | |exact H4|exact Hr'|exact H5]; unfold put; simpl.
  - rewrite Bool.eqb_reflx. by exists q'.
  - destruct b; by exists qp.
Qed.

(** ** The six segments *)

(** Socket [sk] expects what its peer [skp] sends. *)
Record expects (sk skp : socket) : Prop := {
  ex_nxt : sk_snd_nxt sk = sk_rcv_nxt skp;
  ex_rcv : sk_rcv_nxt sk = sk_snd_una skp;
  ex_range : in_u 32 (sk_snd_nxt sk) /\ in_u 32 (sk_rcv_nxt sk);
}.

(** Net [s]: the socket [sk] of worker [b] and its peer, from which a segment
    is on its way to [b]. *)
Definition on_the_way (b : bool) (sk skp : socket) (fl len : Z) (s : net) : Prop := at_end b sk (worker s b) /\ at_end (negb b) skp (worker s (negb b))
  /\ exists ws fr m, flight s = Some (b, m) /\ carries ws skp fl len fr /\ arrives ws fr m.

Lemma within_hop n P s b sk skp fl len fl' (len' : work_space -> Z) (R : work_space -> socket -> Prop) :
  on_the_way b sk skp fl len s -> fl mod 256 = fl ->
  (forall w q m iph th, endpoint (room := room) (D b) b c (k b) sk w q -> ready b w ->
    ld32 (m_buf m) (th + th_seq) = Some (htonl (sk_snd_una skp)) -> ld32 (m_buf m) (th + th_ack) = Some (htonl (sk_rcv_nxt skp)) ->
    (expects sk skp -> due sk m iph th fl len) ->
    let Q := fun _ w' => answers (room := room) (D b) b c (k b) w fl' (len' (w_ws w)) w' (R (w_ws w)) in
    if negb (has fl (TH_SYN ||| TH_RST)) && has fl TH_ACK then wp (process_data b (k b) m iph th) Q w
    else if fl =? opening b then wp (process_open b (k b) m th) Q w else False) ->
  (forall s' w sk', ready b w -> on_the_way (negb b) skp sk' fl' (len' (w_ws w)) s' -> R (w_ws w) sk' -> within n P s') ->
  within (S n) P s.
Proof.
  intros (Hb & Hp & ws & fr & m & Ef & Hc & Ha) Hf Hk Hn.
  eapply (within_answer n P s b m sk skp ws fl len fr fl' len' R); [exact Ef|exact Hb|exact Hp|exact Hc|exact Ha|exact Hf| |].
  - intros w q Hw Hr. destruct (arrives_headers _ _ _ _ _ _ Hc Ha) as (_ & [_ _ _ S4 S5 _] & _). apply (Hk w q m); [exact Hw|exact Hr|exact S4|exact S5|].
    intros [E1 E2 [R1 R2]]. by eapply carries_due.
  - intros w s' m' fr' sk' Hr Ef' Hb' Hp' Hc' Ha' HR. eapply Hn; [exact Hr| |exact HR]. split; [exact Hp'|]. rewrite negb_involutive. split; [exact Hb'|].
    by exists (w_ws w), fr', m'.
Qed.

(** Both ends are closed, each has got what the other one sent, and nothing is
    on its way. *)
Definition completed (s : net) : Prop := flight s = None /\ exists sk : bool -> socket, forall b, at_end b (sk b) (worker s b) /\ sk_st (sk b) = SK_CLOSED
  /\ sk_snd_una (sk b) = sk_snd_nxt (sk b) /\ sk_rcv_nxt (sk b) = sk_snd_nxt (sk (negb b)).

(** The last acknowledgement. *)
Lemma last_ack s skc sks : on_the_way false skc sks TH_ACK 0 s -> expects skc sks -> sk_st skc = SK_LAST_ACK -> sk_st sks = SK_CLOSED ->
  sk_snd_una sks = sk_snd_nxt sks -> within 1 completed s.
Proof.
  intros (Hb & Hp & ws & fr & m & Ef & Hc & Ha) [E1 E2 [R1 R2]] Hst Hst' Hu. simpl. right. intros w Hun. rewrite Ef.
  destruct (Hun false _ Hb) as (q & Hw & Hr). destruct (Hun true _ Hp) as (qp & Hwp & Hrp).
  assert (wp (tcp_process false m) (fun _ w' => exists q' sk', endpoint (room := room) (D false) false c (k false) sk' w' q' /\ line w' = line (w false)
    /\ sk_st sk' = SK_CLOSED /\ sk_snd_una sk' = sk_snd_nxt skc /\ sk_snd_nxt sk' = sk_snd_nxt skc /\ sk_rcv_nxt sk' = sk_rcv_nxt skc) (w false)) as H.
  { eapply (wp_receives (D false)); [exact Hc|exact Ha|done|exact (wa_ends _ _ _ _ _ _ _ Hwp)|exact Hco|exact Hw|]. intros w1 q1 Hw1 Ho1. simpl.
    eapply wp_mono; [eapply (client_ends (D false) Hroom); [exact Hw1|exact Hst|by eapply carries_due]|].
    intros ? w' (q' & sk' & H1 & H2 & H3). exists q', sk'. split; [exact H1|]. split; [unfold outlook, line in *; congruence|exact H3]. }
  destruct (wp_ok _ _ _ H) as ([] & w' & E & q' & sk' & H1 & H2 & H3 & H4 & H5 & H6). exists w'. split; [exact E|]. left. split; [exact H2|]. left.
  split; [done|]. exists (fun b : bool => if b then sks else sk'). intros []; simpl.
  - split; [by exists qp|]. split_and!; congruence.
  - split; [exists q'; split; [exact H1|]|split_and!; congruence].
    eapply ready_settings; [|exact Hr]. apply (proj2 (settings_process m) _ _ _ E).
Qed.

Ltac to_data := cbv zeta; change (negb _ && _) with true; cbv iota; unfold process_data.
Ltac to_open := cbv zeta; change (negb _ && _) with false; change (_ =? opening _) with true; cbv iota; unfold process_open.

(** The FIN of the client. *)
Lemma client_fin s sks skc : on_the_way true sks skc (TH_ACK ||| TH_FIN) 0 s -> expects sks skc -> sk_st sks = SK_FIN_WAIT_1 -> sk_st skc = SK_LAST_ACK ->
  sk_snd_nxt skc = u32 (sk_snd_una skc + 1) -> sk_rcv_nxt skc = sk_snd_nxt sks -> within 2 completed s.
Proof.
  intros Hs He Hst Hst' En Er. pose proof He as [E1 E2 [R1 R2]].
  eapply (within_hop 1 _ s true sks skc _ _ TH_ACK (fun _ => 0) (fun _ sk' => sk_st sk' = SK_CLOSED /\ settled sk' = settled sks
    /\ sk_snd_una sk' = sk_snd_nxt sks /\ sk_rcv_nxt sk' = u32 (sk_rcv_nxt sks + 1) /\ sk_snd_nxt sk' = sk_snd_nxt sks)); [exact Hs|done| |].
  - intros w q m iph th Hw Hr _ _ Hdue. to_data. apply (server_closes (D true) Hroom c (k true) sks w q m iph th); [exact Hw|exact Hst|by apply Hdue| |apply Hr].
    apply Hr. set_solver.
  - intros s' w sk' _ Hs' (H1 & _ & H2 & H3 & H4). apply (last_ack s' skc sk'); [exact Hs'| |exact Hst'|exact H1|congruence].
    split; [congruence|congruence|]. rewrite En, Er. split; [by apply wrap_range|exact R1].
Qed.

(** The response of the server. *)
Lemma response s skc sks len : on_the_way false skc sks (TH_PUSH ||| TH_ACK ||| TH_FIN) len s -> expects skc sks -> sk_st skc = SK_ESTABLISHED -> sk_keepalive skc = false ->
  sk_st sks = SK_FIN_WAIT_1 -> sk_snd_nxt sks = u32 (sk_snd_una sks + u16 (len + 1)) -> sk_rcv_nxt sks = sk_snd_nxt skc -> within 3 completed s.
Proof.
  intros Hs He Hst Hka Hst' En Er. pose proof He as [E1 E2 [R1 R2]].
  eapply (within_hop 2 _ s false skc sks _ _ (TH_ACK ||| TH_FIN) (fun _ => 0) (fun _ sk' => sk_st sk' = SK_LAST_ACK
    /\ sk_snd_una sk' = sk_snd_nxt skc /\ sk_rcv_nxt sk' = u32 (sk_rcv_nxt skc + u16 (len + 1)) /\ sk_snd_nxt sk' = u32 (sk_snd_nxt skc + 1))); [exact Hs|done| |].
  - intros w q m iph th Hw Hr _ _ Hdue. to_data. apply (client_closes (D false) Hroom c (k false) skc w q m iph th len); [exact Hw|exact Hst|exact Hka|by apply Hdue| |apply Hr].
    apply Hr. set_solver.
  - intros s' w sk' _ Hs' (H1 & H2 & H3 & H4). apply (client_fin s' sks sk'); [exact Hs'| |exact Hst'|exact H1|congruence|congruence].
    split; [congruence|congruence|]. rewrite En, Er. split; [by apply wrap_range|exact R1].
Qed.

(** The request of the client. *)
Lemma request s sks skc len : on_the_way true sks skc (TH_ACK ||| TH_PUSH) len s -> expects sks skc -> 0 < len -> sk_st sks = SK_SYN_RECEIVED -> sk_keepalive sks = false ->
  sk_st skc = SK_ESTABLISHED -> sk_keepalive skc = false -> sk_snd_nxt skc = u32 (sk_snd_una skc + len) -> within 4 completed s.
Proof.
  intros Hs He Hlen Hst Hka Hst' Hka' En. pose proof He as [E1 E2 [R1 R2]].
  eapply (within_hop 3 _ s true sks skc _ _ (TH_PUSH ||| TH_ACK ||| TH_FIN) (fun ws => md_data_len (ws_tcp_data ws)) (fun ws sk' =>
    sk_st sk' = SK_FIN_WAIT_1 /\ settled sk' = settled sks /\ sk_snd_una sk' = sk_snd_nxt sks /\ sk_rcv_nxt sk' = u32 (sk_rcv_nxt sks + len)
    /\ sk_snd_nxt sk' = u32 (sk_snd_nxt sks + u16 (md_data_len (ws_tcp_data ws) + 1)))); [exact Hs|done| |].
  - intros w q m iph th Hw Hr _ _ Hdue. to_data. apply (server_responds (D true) Hroom c (k true) sks w q m iph th len); [exact Hw|by left|exact Hka|by apply Hdue|exact Hlen|apply Hr|].
    apply Hr. set_solver.
  - intros s' w sk' _ Hs' (H1 & _ & H2 & H3 & H4). apply (response s' skc sk' _ Hs'); [|exact Hst'|exact Hka'|exact H1|congruence|congruence].
    split; [congruence|congruence|]. rewrite En. split; [by apply wrap_range|by rewrite <- E1].
Qed.

(** The SYN-ACK of the server. *)
Lemma syn_ack s skc sks : on_the_way false skc sks (TH_SYN ||| TH_ACK) 0 s -> sk_st skc = SK_SYN_SENT -> sk_keepalive skc = false ->
  sk_st sks = SK_SYN_RECEIVED -> sk_keepalive sks = false -> in_u 32 (sk_snd_nxt skc) -> in_u 32 (sk_snd_una sks) ->
  sk_rcv_nxt sks = sk_snd_nxt skc -> sk_snd_nxt sks = u32 (sk_snd_una sks + 1) -> within 5 completed s.
Proof.
  intros Hs Hst Hka Hst' Hka' R1 R2 Er En.
  eapply (within_hop 4 _ s false skc sks _ _ (TH_ACK ||| TH_PUSH) (fun ws => md_data_len (ws_tcp_data ws)) (fun ws sk' => sk_st sk' = SK_ESTABLISHED
    /\ sk_rcv_nxt sk' = u32 (sk_snd_una sks + 1) /\ sk_snd_una sk' = sk_snd_nxt skc
    /\ sk_snd_nxt sk' = u32 (sk_snd_nxt skc + md_data_len (ws_tcp_data ws)) /\ sk_keepalive sk' = sk_keepalive skc)); [exact Hs|done| |].
  - intros w q m iph th Hw Hr Hq Ha _. to_open. rewrite Er in Ha.
    apply (sends_request (D false) Hroom c (k false) skc w q m th (sk_snd_una sks)); [exact Hw|exact Hst|exact R1|exact Ha|exact Hq|exact R2|]. apply Hr. set_solver.
  - intros s' w sk' Hr Hs' (H1 & H2 & H3 & H4 & H5). apply (request s' sks sk' (md_data_len (ws_tcp_data (w_ws w))) Hs'); try congruence; [|by apply Hr].
    split; [congruence|congruence|]. rewrite En, Er. split; [by apply wrap_range|exact R1].
Qed.

(** The SYN of the client. *)
Lemma syn s sks skc : on_the_way true sks skc TH_SYN 0 s -> sk_st sks = SK_CLOSED -> sk_keepalive sks = false ->
  sk_st skc = SK_SYN_SENT -> sk_keepalive skc = false -> in_u 32 (sk_snd_una skc) -> sk_snd_nxt skc = u32 (sk_snd_una skc + 1) -> within 6 completed s.
Proof.
  intros Hs Hst Hka Hst' Hka' R1 En.
  eapply (within_hop 5 _ s true sks skc _ _ (TH_SYN ||| TH_ACK) (fun _ => 0) (fun _ sk' => sk_st sk' = SK_SYN_RECEIVED
    /\ sk_rcv_nxt sk' = u32 (sk_snd_una skc + 1) /\ sk_snd_una sk' = u32 (sk_snd_nxt sks + 1) /\ sk_snd_nxt sk' = u32 (sk_snd_una sk' + 1)
    /\ sk_keepalive sk' = sk_keepalive sks)); [exact Hs|done| |].
  - intros w q m iph th Hw Hr Hq _ _. to_open.
    apply (answers_syn_ack (D true) Hroom c (k true) sks w q m th (sk_snd_una skc)); [exact Hw|exact Hst|exact Hq|exact R1|]. apply Hr. set_solver.
  - intros s' w sk' _ Hs' (H1 & H2 & H3 & H4 & H5). apply (syn_ack s' skc sk' Hs'); try congruence; [rewrite En|rewrite H3]; by apply wrap_range.
Qed.
End Net.

(** C3: a connection that is not kept alive completes.  The client sends its SYN;
    then, whatever both workers do in between to other connections, six
    segments later - SYN, SYN-ACK, request, response with FIN, FIN of the
    client, last acknowledgement - each of which is handled without a fault and
    answered with the next one, both sockets are closed, everything sent is
    acknowledged, each end has got exactly what the other one sent, and nothing
    is on its way. *)
Theorem tcp_connection_completes {Dk : Dpdk} {room} {L : DpdkLaws Dk room} (D : bool -> gset N) c (k : bool -> N) (w : bool -> world) skc sks :
  HDR_ROOM <= room -> conn_ok c ->
  at_end (room := room) D c k false skc (w false) -> sk_st skc = SK_SYN_SENT -> sk_keepalive skc = false ->
  sk_snd_nxt skc = sk_snd_una skc -> in_u 32 (sk_snd_una skc) ->
  at_end (room := room) D c k true sks (w true) -> sk_st sks = SK_CLOSED -> sk_keepalive sks = false ->
  exists w' syn, tcp_reply (k false) TH_SYN (w false) = Ok (tt, w') /\ emits (w false) w' syn
    /\ forall syn', arrives (w_ws (w false)) syn syn' ->
       within (room := room) D c k 6 (completed (room := room) D c k) (Net (put false w' w) (Some (true, syn'))).
Proof.
  intros Hroom Hco (q & Hw & Hr) Hst Hka En Rc Hs Hst' Hka'.
  assert (can_send (w false) Cache_tcp_opt) as Hc by (apply Hr; set_solver).
  destruct (wp_ok _ _ _ (sends_syn (D false) Hroom c (k false) skc (w false) q Hw Hst En Hc)) as ([] & w' & E & q' & sk' & m & H1 & H2 & _ & H4 & H5 & H6 & H7 & H8).
  exists w', m. split; [exact E|]. split; [exact H2|]. intros m' Hm'.
  assert (ready false w') as Hr' by (eapply ready_settings; [apply (settings_reply _ _ _ _ _ E)|exact Hr]).
  apply (syn D Hroom c Hco k _ sks sk'); try congruence.
  split; [exact Hs|]. split; [by exists q'|]. by exists (w_ws (w false)), m, m'.
Qed.

(** ** Example *)

#[local] Existing Instance Mbuf.Demo.dpdk.
#[local] Existing Instance Mbuf.Demo.laws.

Definition demo_pair (b : bool) : world := if b then demo_server else demo_opener.

Lemma demo_ready b : ready b (demo_pair b).
Proof.
  split; [|by destruct b..|by destruct b].
  intros c Hc. repeat (apply elem_of_cons in Hc as [->|Hc]); [..|by apply elem_of_nil in Hc]; destruct b; demo_sends.
Qed.

Lemma tcp_connection_completes_witness : exists w' syn, tcp_reply 0 TH_SYN demo_opener = Ok (tt, w')
  /\ forall syn', arrives (w_ws demo_opener) syn syn' -> within (room := 256) (fun _ => demo_D) demo_connection (fun _ => 0%N) 6
       (completed (room := 256) (fun _ => demo_D) demo_connection (fun _ => 0%N)) (Net (put false w' demo_pair) (Some (true, syn'))).
Proof.
  destruct demo_server_endpoint as (sks & Hst & Ws).
  destruct (tcp_connection_completes (fun _ => demo_D) demo_connection (fun _ => 0%N) demo_pair demo_opener_sk sks) as (w' & syn & E & _ & H).
  - apply demo_room.
  - by vm_compute.
  - exists q_none. split; [exact demo_opener_endpoint|apply demo_ready].
  - reflexivity.
  - reflexivity.
  - reflexivity.
  - concrete_range.
  - exists q_none. split; [exact Ws|apply (demo_ready true)].
  - exact Hst.
  - pose proof (wa_socket _ _ _ _ _ _ _ Ws) as Hs. vm_compute in Hs. injection Hs as <-. reflexivity.
  - exists w', syn. exact (conj E H).
Defined.
