(* ===== verification/TemplateProps.v ===== *)
(** * TemplateProps: the templates of start-up are frames for a reply

    The templates that [tcp_init] builds have the type, the version, the lengths
    and the data that Handshake.v asks of the frames of a worker. *)

From S2P Require Import Prelude IpRange Config Mbuf World WorkSpace Payload Template Tcp SegmentProps Handshake.

(** The first byte of the IPv6 header, whatever the traffic class is. *)
Lemma flow_version tos : in_u 8 tos -> ((96 ||| htonl (u32 (tos <<< 20))) mod 256) >>> 4 = 6.
Proof.
  intros [H1 H2]. assert (forallb (fun n => ((96 ||| htonl (u32 (Z.of_nat n <<< 20))) mod 256) >>> 4 =? 6) (seq 0 256) = true) as H by (vm_compute; reflexivity).
  rewrite forallb_forall in H. specialize (H (Z.to_nat tos)). rewrite Z2Nat.id in H by lia. apply Z.eqb_eq, H, in_seq. change (2 ^ 8) with 256 in H2. lia.
Qed.

Section Template.
Context {Dk : Dpdk} (cfg : config) (port : netif_port) (ipv6 : bool) (Htos : in_u 8 (c_tos cfg)).

Lemma frame_bytes_framed pre a b opts data : length a = 6%nat -> length b = 6%nat -> strlen opts mod 4 = 0 -> strlen opts < 40 ->
  40 + strlen opts + strlen data < 65536 ->
  let bs := pre ++ frame_bytes cfg port ipv6 a b IPPROTO_TCP (tcp_header opts) data in
  typed ipv6 bs (strlen pre + ETH_HDR_LEN) /\ loaded ipv6 bs (strlen pre + ETH_HDR_LEN) (strlen data).
Proof.
  intros Ha Hb Ho Ho' Hlen. set (l4 := tcp_header opts). set (n := strlen l4 + strlen data). unfold frame_bytes, eth_hdr_bytes. fold n. cbv zeta.
  set (bs := pre ++ _). set (iph := strlen pre + ETH_HDR_LEN).
  assert (strlen l4 = 20 + strlen opts) as Hl4.
  { unfold l4, tcp_header, strlen. rewrite length_app. change (length (tcphdr_bytes _ _)) with 20%nat. lia. }
  assert (0 <= strlen pre /\ 0 <= strlen opts /\ 0 <= strlen data) as (Hp & Hop & Hda) by (unfold strlen; lia).
  assert (bs = (pre ++ a ++ b) ++ le16 (htons (eth_type_of ipv6)) ++ ip_frame cfg port ipv6 IPPROTO_TCP n ++ l4 ++ data) as B1 by (unfold bs; by rewrite <- !app_assoc).
  assert (strlen (pre ++ a ++ b) = strlen pre + 12) as L1 by (unfold strlen; rewrite !length_app, Ha, Hb; lia).
  assert (bs = (pre ++ a ++ b ++ le16 (htons (eth_type_of ipv6))) ++ ip_frame cfg port ipv6 IPPROTO_TCP n ++ l4 ++ data) as B2 by (unfold bs; by rewrite <- !app_assoc).
  assert (strlen (pre ++ a ++ b ++ le16 (htons (eth_type_of ipv6))) = iph) as L2 by (unfold iph, strlen, ETH_HDR_LEN; rewrite !length_app, Ha, Hb; change (length (le16 _)) with 2%nat; lia).
  set (X := pre ++ a ++ b ++ le16 (htons (eth_type_of ipv6))) in *. clearbody X.
  assert (typed ipv6 bs iph) as Ty.
  { split.
    - rewrite B1. apply ld16_mid; [rewrite L1; unfold iph, ETH_HDR_LEN, eth_type; lia|apply bswap16_range].
    - unfold ld_ip_version. rewrite B2. unfold ip_frame. destruct ipv6; [unfold ip6_hdr_bytes, le32|unfold iphdr_bytes]; cbn [app]; rewrite ld8_mid by done; cbn [mbind option_bind]; f_equal.
      by apply flow_version. }
  split; [exact Ty|]. unfold loaded, tcp_data_get. rewrite (proj2 Ty). cbn [mbind option_bind].
  assert (ld_th_off bs (iph + l3_len_of ipv6) = Some (5 + strlen opts / 4)) as ->.
  { unfold ld_th_off. rewrite B2, (app_assoc _ (ip_frame _ _ _ _ _)). unfold l4, tcp_header, tcphdr_bytes. cbn [app].
    change (?x ++ 0 :: 0 :: 0 :: 0 :: 0 :: 0 :: 0 :: 0 :: 0 :: 0 :: 0 :: 0 :: ?y :: ?z) with (x ++ [0; 0; 0; 0; 0; 0; 0; 0; 0; 0; 0; 0] ++ y :: z).
    rewrite app_assoc, ld8_mid; [|].
    - cbn [mbind option_bind]. f_equal. rewrite Z.shiftr_div_pow2 by lia. change (2 ^ 4) with 16. by rewrite Z.div_mul.
    - rewrite !strlen_app_list, L2, ip_frame_length. unfold th_off, strlen. cbn [length]. lia. }
  cbn [mbind option_bind].
  destruct (ip_frame_len cfg port ipv6 IPPROTO_TCP (l4 ++ data)) as (x & y & Hx & Hxy).
  assert (ld16 bs (iph + (if ipv6 then ip6_plen else iph_tot_len)) = Some (htons ((if ipv6 then 0 else 20) + n))) as Hld.
  { rewrite B2, Hxy, app_assoc. apply ld16_mid; [by rewrite strlen_app_list, L2, Hx|apply bswap16_range]. }
  assert (strlen bs = iph + l3_len_of ipv6 + n) as Lb by (rewrite B2, !strlen_app_list, L2, ip_frame_length; unfold n; lia).
  unfold strlen in Lb at 1. rewrite Lb. destruct (Z.mod_divide (strlen opts) 4) as [[z Hz] _]; [lia|exact Ho|]. rewrite Hz, Z.div_mul by lia.
  unfold n, l3_len_of, IPHDR_LEN, IP6_HDR_LEN in *. exists (iph + (if ipv6 then 40 else 20) + (5 + z) * 4). destruct ipv6; cbn [Z.eqb Pos.eqb]; rewrite Hld; cbn [mbind option_bind];
    (rewrite bswap16_involutive by (split; [|change (2 ^ 16) with 65536]; lia); rewrite wrap_small by (split; [|change (2 ^ 16) with 65536]; lia);
     split; [f_equal; f_equal; lia|unfold iph, ETH_HDR_LEN; lia]).
Qed.

Lemma template_framed queue_id opts data d : link_ok cfg port queue_id -> template cfg port queue_id ipv6 IPPROTO_TCP (tcp_header opts) data = Some d ->
  strlen opts mod 4 = 0 -> strlen opts < 40 -> 40 + strlen opts + strlen data < 65536 ->
  let iph := (if c_vxlan cfg then VXLAN_HEADERS_SIZE else 0) + ETH_HDR_LEN in
  typed ipv6 (md_data d) iph /\ loaded ipv6 (md_data d) iph (strlen data).
Proof.
  intros Hl Ht H1 H2 H3. destruct (template_consistent _ _ _ _ _ _ _ _ Hl Ht) as (Es & Et & _). unfold template in Ht. destruct (c_vxlan cfg) eqn:Hvx.
  - destruct (lk_tunnel _ _ _ Hl Hvx) as (vx & Hp & Hv). rewrite Hp in Ht. cbn [mbind option_bind] in Ht.
    destruct (vxlan_iphdr _ _ _ _) as [iph|]; [|done]. cbn [mbind option_bind] in Ht. injection Ht as <-. cbn [md_data md_total_len] in *.
    match type of Es with strlen (?p ++ _) = _ => set (pre := p) in * end. assert (strlen pre = VXLAN_HEADERS_SIZE) as <-; [|apply frame_bytes_framed; try done; apply Hv].
    rewrite strlen_app_list in Es. unfold template_len in Es. rewrite Hvx in Es. unfold frame_bytes, eth_hdr_bytes in Es.
    rewrite !strlen_app_list, ip_frame_length in Es. unfold frame_len, ETH_HDR_LEN in Es. pose proof (tn_dmac _ _ _ Hv). pose proof (tn_smac _ _ _ Hv).
    unfold strlen in Es at 2 3 4. change (length (le16 _)) with 2%nat in Es. lia.
  - injection Ht as <-. apply (frame_bytes_framed []); [apply Hl|apply Hl|done..].
Qed.
End Template.

(** The templates that a worker builds at start-up are those that a reply
    needs. *)
Lemma tcp_init_framed {Dk : Dpdk} pool request response w w' : c_protocol (w_cfg w) = IPPROTO_TCP -> ws_link_ok w -> pools_ok pool w ->
  in_u 8 (c_tos (w_cfg w)) -> ws_vxlan (w_ws w) = c_vxlan (w_cfg w) ->
  strlen (if c_server (w_cfg w) then response else request) < MBUF_DATA_SIZE -> tcp_init pool request response w = Ok (0, w') ->
  forall c, c ∈ [Cache_tcp_opt; Cache_tcp_data; Cache_tcp] -> framed (w_ws w') c (md_data (cache_data c (w_ws w'))) (ip_at (w_ws w')).
Proof.
  intros Hpr Hl Hp Htos Hvx Hlen E. destruct (tcp_init_ok pool request response w Hpr Hl Hp Hlen) as (w1 & E1 & H).
  rewrite E in E1. destruct (text_fits _ _ _) eqn:Hfit; [|done]. injection E1 as <-. destruct (H eq_refl) as (seg & syn & data & T1 & T2 & T3 & ->).
  set (text := if c_server (w_cfg w) then response else request) in *.
  assert (0 <= strlen text) as H0 by (unfold strlen; lia).
  assert (strlen (tcp_options (c_mss (w_cfg w))) = 0 \/ strlen (tcp_options (c_mss (w_cfg w))) = 8) as Hopt by (unfold tcp_options; case_match; [by right|by left]).
  change (ws_ipv6 (w_ws (with_cache _ _ _))) with (ws_ipv6 (w_ws w)).
  pose proof (fun opts dat d H => template_framed (w_cfg w) (ws_port (w_ws w)) (ws_ipv6 (w_ws w)) Htos (ws_queue_id (w_ws w)) opts dat d Hl H) as Hf. rewrite <- Hvx in Hf.
  unfold MBUF_DATA_SIZE in *. change (strlen []) with 0 in *.
  intros c Hc. unfold framed, cache_load. repeat (apply elem_of_cons in Hc as [->|Hc]); [..|by apply elem_of_nil in Hc].
  - apply (Hf _ _ _ T2); [destruct Hopt as [-> | ->]; reflexivity|lia|change (strlen []) with 0; lia].
  - rewrite bool_decide_true by done. change (md_data_len _) with (md_data_len data). destruct (template_consistent _ _ _ _ _ _ _ _ Hl T3) as (_ & _ & _ & _ & _ & -> & _).
    apply (Hf _ _ _ T3); [reflexivity|by vm_compute|change (strlen []) with 0; lia].
  - apply (Hf _ _ _ T1); [reflexivity|by vm_compute|by vm_compute].
Qed.
