(* ===== verification/RssProps.v ===== *)
(** * RssProps: receive-side scaling

    With receive-side scaling the workers of a port share its connections: a
    worker launches those whose replies it expects by the port of the client,
    and takes over a connection whose packets reach it.  The launch runs over
    the end of the pool; the take-over leaves one owner. *)

From S2P Require Import Prelude SocketNode IpRange Tick Config Mbuf NetStats World WorkSpace Socket SocketTimer.
From S2P Require Import TcpPacket Tcp Env SocketTableInv SegmentProps LoopProps Frame.

(** ** Launching *)

(** What decides whether a socket is launched by the worker. *)
Definition port_of (sk : socket) : Z * Z := (sk_lport sk, sk_laddr sk).
Definition port_at (i : N) (w : world) : option (Z * Z) := port_of <$> w_sockets w !! i.
Definition launched_here (st : socket_table) (p : Z * Z) : bool :=
  (ntohs p.1 mod st_rss_num st =? st_rss_id st) && negb (p.2 =? 0).

Definition next_set (st : socket_table) (n : Z) : socket_table := st <| st_pool_next := n |>.

(** A worker with receive-side scaling, whose pool ends where the memory of the
    sockets ends, and whose queue is that of the last socket. *)
Record last_is_ours (w : world) : Prop := {
  lo_rss : st_rss (w_st w) = true;
  lo_hop : st_client_hop (w_st w) = false;
  lo_num : st_rss_num (w_st w) ≠ 0;
  lo_size : 0 < st_pool_num (w_st w) < 2 ^ 31;
  lo_pool : forall n, 0 <= n < st_pool_num (w_st w) -> is_Some (port_at (pool_sock (w_st w) n) w);
  lo_end : port_at (pool_sock (w_st w) (st_pool_num (w_st w))) w = None;
  lo_last : exists p, port_at (pool_sock (w_st w) (st_pool_num (w_st w) - 1)) w = Some p /\ launched_here (w_st w) p = true;
}.

Lemma last_same w w' n : w_st w' = next_set (w_st w) n -> (forall i, port_at i w' = port_at i w) -> last_is_ours w -> last_is_ours w'.
Proof.
  intros Et Hp [L1 L2 L3 L4 L5 L6 L7]. split; rewrite ?Et; try done; rewrite ?Hp; try done.
  intros k Hk. rewrite Hp. by apply L5.
Qed.
Lemma port_some i p w : port_at i w = Some p -> exists sk, w_sockets w !! i = Some sk /\ port_of sk = p.
Proof. unfold port_at. destruct (w_sockets w !! i) as [sk|]; [|done]. intros [= <-]. by exists sk. Qed.

(** The next socket is taken, and the cursor moves on. *)
Lemma next_taken w : 0 <= st_pool_next (w_st w) < 2 ^ 31 ->
  w_st (w <| w_ws ::= fun ws => ws <| ws_socket_table ::= fun st => st <| st_pool_next := u32 (st_pool_next st + 1) |> |> |>)
  = next_set (w_st w) (st_pool_next (w_st w) + 1).
Proof. intros Hn. unfold w_st, next_set in *. rsimpl. by rewrite wrap_small by (unfold in_u; lia). Qed.

(** The search ends at the last socket at the latest, before it wraps. *)
Lemma wp_rss_loop fuel w : last_is_ours w -> 0 <= st_pool_next (w_st w) < st_pool_num (w_st w) ->
  st_pool_num (w_st w) - st_pool_next (w_st w) < Z.of_nat fuel ->
  wp (get_socket_rss_loop fuel) (fun i w' => w_sockets w' = w_sockets w /\ is_Some (w_sockets w !! i)
    /\ exists n, w_st w' = next_set (w_st w) n /\ st_pool_next (w_st w) < n <= st_pool_num (w_st w)) w.
Proof.
  revert w. induction fuel as [|fuel IH]; intros w Hl Hn Hf; [lia|]. destruct (Hl) as [L1 L2 L3 L4 L5 L6 (p & Hp & Hm)].
  cbn [get_socket_rss_loop]. unfold table_get, table_mod. wp_reads. apply wp_bind, wp_ws_mod. fold (w_st w). unfold id.
  pose proof (next_taken w ltac:(lia)) as E1. set (w1 := w <| w_ws ::= _ |>) in *.
  destruct (L5 (st_pool_next (w_st w)) Hn) as [p' Hp']. destruct (port_some _ _ _ Hp') as (sk & Hs & Hps).
  apply wp_bind. eapply wp_sk_get; [exact Hs|]. rewrite (proj2 (Z.eqb_neq _ _) L3). apply wp_if; intros Hc.
  - assert (st_pool_next (w_st w) + 1 < st_pool_num (w_st w)) as Hlt.
    { destruct (Z.eq_dec (st_pool_next (w_st w)) (st_pool_num (w_st w) - 1)) as [E|]; [|lia]. exfalso. rewrite E in Hp'. rewrite Hp' in Hp. injection Hp as ->.
      unfold launched_here in Hm. rewrite <- Hps in Hm. cbn in Hm. by destruct (_ =? _), (_ =? 0). }
    unfold pool_wrap, table_mod. apply wp_bind, wp_ws_mod. set (w2 := w1 <| w_ws ::= _ |>).
    assert (w_st w2 = next_set (w_st w) (st_pool_next (w_st w) + 1)) as E2.
    { unfold w_st at 1. subst w2. rsimpl. fold (w_st w1). rewrite E1. unfold next_set. rsimpl. by destruct (Z.leb_spec (st_pool_num (w_st w)) (st_pool_next (w_st w) + 1)); [lia|]. }
    eapply wp_mono; [apply IH|]; rewrite ?E2; unfold next_set; rsimpl; [by eapply (last_same w)|lia|lia|].
    intros i w' (Es & Hi & n & Et & Hr). split; [done|]. split; [done|]. exists n. unfold next_set in Et, Hr. rsimpl_in Hr. rewrite Et. split; [done|lia].
  - apply wp_ret. split; [done|]. split; [by eexists|]. exists (st_pool_next (w_st w) + 1). split; [done|lia].
Qed.

Lemma wp_get_socket_rss w : last_is_ours w -> 0 <= st_pool_next (w_st w) < st_pool_num (w_st w) ->
  wp socket_table_get_socket (fun i w' => w_sockets w' = w_sockets w /\ is_Some (w_sockets w !! i)
    /\ exists n, w_st w' = next_set (w_st w) n /\ st_pool_next (w_st w) < n <= st_pool_num (w_st w)) w.
Proof.
  intros Hl Hn. unfold socket_table_get_socket, socket_table_get_socket_rss, table_get. wp_reads. fold (w_st w). unfold id. rewrite (lo_rss _ Hl), (lo_hop _ Hl).
  cbn [negb]. apply wp_bind. wp_reads. fold (w_st w). eapply wp_mono; [apply wp_rss_loop; [done|done|lia]|]. intros i w' H. wp_reads. by apply wp_ret.
Qed.

(** At the end of the pool, the next socket is read behind it. *)
Lemma rss_loop_overrun fuel w : last_is_ours w -> st_pool_next (w_st w) = st_pool_num (w_st w) -> get_socket_rss_loop (S fuel) w = Err OutOfBounds.
Proof.
  intros Hl Hn. pose proof (lo_end _ Hl) as He. unfold port_at in He. destruct (w_sockets w !! _) eqn:E; [done|].
  cbn [get_socket_rss_loop]. unfold table_get, table_mod, ws_get, ws_mod, st_gets, st_modify, mbind, ST_bind, sk_get, id. fold (w_st w). rsimpl.
  by rewrite Hn, E.
Qed.
Lemma get_socket_overrun w : last_is_ours w -> st_pool_next (w_st w) = st_pool_num (w_st w) -> socket_table_get_socket w = Err OutOfBounds.
Proof.
  intros Hl Hn. pose proof (lo_size _ Hl). unfold socket_table_get_socket, socket_table_get_socket_rss, table_get, ws_get, st_gets. unfold mbind, ST_bind.
  fold (w_st w). unfold id. rewrite (lo_rss _ Hl). cbn [negb]. fold (w_st w).
  destruct (Z.to_nat (2 * st_pool_num (w_st w) + 2)) as [|fuel] eqn:Ef; [lia|]. by rewrite rss_loop_overrun.
Qed.

(** [n] launches of the loop of a client. *)
Fixpoint launches (n : nat) (tsc : Z) : M unit :=
  match n with O => mret tt | S n => socket_client_open tsc;; launches n tsc end.

(** A launch moves the cursor and changes neither ports nor addresses. *)
Lemma wp_client_open_rss tsc w : last_is_ours w -> 0 <= st_pool_next (w_st w) < st_pool_num (w_st w) ->
  wp (socket_client_open tsc) (fun _ w' => (forall i, port_at i w' = port_at i w)
    /\ exists n, w_st w' = next_set (w_st w) n /\ st_pool_next (w_st w) < n <= st_pool_num (w_st w)) w.
Proof.
  intros Hl Hn. unfold socket_client_open. apply wp_bind. eapply wp_mono; [by apply wp_get_socket_rss|]. intros i w1 (Es & [sk Hs] & Ht).
  wp_reads. rewrite <- Es in Hs. apply wp_bind. eapply wp_sk_get; [exact Hs|]. apply wp_if; intros _; [|apply wp_ret; split; [intros j; unfold port_at; by rewrite Es|done]].
  apply wp_bind. eapply wp_sk_mod; [exact Hs|]. apply wp_bind, wp_stat_mod. apply wp_bind. eapply wp_sk_mod; [rsimpl; apply lookup_insert_eq|]. apply wp_ret.
  split; [|exact Ht]. intros j. unfold port_at. rsimpl. rewrite Es. rewrite <- Es in *. destruct (decide (i = j)) as [<-|]; [|by rewrite !lookup_insert_ne].
  rewrite lookup_insert_eq, Hs. done.
Qed.

Lemma launches_overrun (k : nat) tsc w : last_is_ours w -> 0 <= st_pool_next (w_st w) <= st_pool_num (w_st w) ->
  st_pool_num (w_st w) - st_pool_next (w_st w) <= Z.of_nat k ->
  exists n, (n <= S k)%nat /\ launches n tsc w = Err OutOfBounds.
Proof.
  revert w. induction k as [|k IH]; intros w Hl Hn Hk; (destruct (Z.eq_dec (st_pool_next (w_st w)) (st_pool_num (w_st w))) as [E|E];
    [exists 1%nat; split; [lia|]; cbn; unfold socket_client_open, mbind, ST_bind; by rewrite get_socket_overrun|]); [lia|].
  destruct (wp_ok _ _ _ (wp_client_open_rss tsc w Hl ltac:(lia))) as (o & w1 & Eo & Hp & n & Et & Hr).
  destruct (IH w1) as (m & Hm & Em); [by eapply last_same|rewrite Et; unfold next_set; rsimpl; lia|rewrite Et; unfold next_set; rsimpl; lia|].
  exists (S m). split; [lia|]. cbn. unfold mbind, ST_bind. by rewrite Eo.
Qed.

(** C40: with receive-side scaling the launch of connections runs over the end
    of the pool.  [socket_table_get_socket_rss] wraps its cursor only when it
    goes on searching, so in the worker whose queue is that of the last socket
    - the one of the highest port - the cursor stops behind the pool: wherever
    it is, at most one launch more than there are sockets in front of it reads
    a socket behind the memory of the pool. *)
Theorem rss_launch_overruns tsc w : last_is_ours w -> 0 <= st_pool_next (w_st w) <= st_pool_num (w_st w) ->
  exists n, Z.of_nat n <= st_pool_num (w_st w) - st_pool_next (w_st w) + 1 /\ launches n tsc w = Err OutOfBounds.
Proof.
  intros Hl Hn. destruct (launches_overrun (Z.to_nat (st_pool_num (w_st w) - st_pool_next (w_st w))) tsc w Hl Hn ltac:(lia)) as (n & Hle & E).
  exists n. split; [lia|exact E].
Qed.

(** ** Taking over *)

(** The socket of the worker that took over, and that of the one that gave up. *)
Definition taken_over (sk s : socket) : socket :=
  (if negb (sk_flags s =? 0)
   then sk <| sk_rcv_nxt := sk_rcv_nxt s |> <| sk_snd_nxt := sk_snd_nxt s |> <| sk_snd_una := sk_snd_una s |>
           <| sk_flags := sk_flags s |> <| sk_keepalive := sk_keepalive s |>
   else sk <| sk_keepalive := false |>) <| sk_timer_tsc := sk_timer_tsc s |> <| sk_st := sk_st s |>.
Definition given_up (s : socket) : socket := s <| sk_laddr := 0 |> <| sk_faddr := 0 |>.

Definition lookup_key (st : socket_table) (k : packet_key) : option N :=
  socket_common_lookup st (k_daddr k) (k_saddr k) (k_dport k) (k_sport k).
Definition is_for (k : packet_key) (sk : socket) : Prop := sk_laddr sk = k_daddr k /\ sk_faddr sk = k_saddr k.

(** A worker with socket [i] for a packet whose port belongs to another worker,
    which has socket [j] for it. *)
Record elsewhere (w : world) (k : packet_key) (i j : N) (sk s : socket) : Prop := {
  el_rss : st_rss (w_st w) = true;
  el_num : st_rss_num (w_st w) ≠ 0;
  el_own : lookup_key (w_st w) k = Some i /\ w_sockets w !! i = Some sk /\ is_for k sk;
  el_port : ntohs (k_dport k) mod st_rss_num (w_st w) ≠ st_rss_id (w_st w);
  el_peer : exists worker peer, aget (st_socket_table_hash (w_st w)) (ntohs (k_dport k) mod st_rss_num (w_st w)) = Some (Some worker)
    /\ worker ≠ ws_id (w_ws w) /\ aget (w_peers w) worker = Some (Some peer) /\ lookup_key (ws_socket_table peer) k = Some j;
  el_other : w_sockets w !! j = Some s /\ i ≠ j;
}.

Lemma wp_table_of w k i j sk s Q : elsewhere w k i j sk s ->
  (forall st2, lookup_key st2 k = Some j -> Q (Some st2) w) -> wp (table_of (ntohs (k_dport k) mod st_rss_num (w_st w))) Q w.
Proof.
  intros [_ _ _ _ (worker & peer & Eh & Hne & Ep & Hl) _] HQ. unfold table_of, table_get. wp_reads. fold (w_st w). unfold id.
  apply wp_bind. eapply wp_lift; [exact Eh|]. apply wp_ret. rewrite (proj2 (Z.eqb_neq _ _) Hne), Ep. cbn. by apply HQ.
Qed.

(** The look-up in a worker that is not the owner, up to the test of the owner's socket. *)
Lemma wp_client_lookup_else b iph th w k i j sk s Q : packet_key_get b iph th = Some k -> elsewhere w k i j sk s ->
  wp (st_when ((sk_laddr s =? k_daddr k) && (sk_faddr s =? k_saddr k)) (socket_dup i j;; sk_mod j given_up)) (fun _ w' => Q (Some i) w') w ->
  wp (socket_client_lookup b iph th) Q w.
Proof.
  intros Hk He Hm. destruct (He) as [Er En (Hl & Hs & Ea & Ef) Ep _ [Hj Hne]]. unfold socket_client_lookup.
  apply wp_bind. eapply wp_lift; [exact Hk|]. unfold table_get. wp_reads. fold (w_st w). unfold id. unfold lookup_key in Hl. rewrite Hl.
  apply wp_bind. eapply wp_sk_get; [exact Hs|]. rewrite Ea, Ef, !Z.eqb_refl, Er. cbn [andb]. unfold st_when at 1.
  unfold socket_client_check_rss, table_get. wp_reads. apply wp_bind. wp_reads. fold (w_st w). unfold id.
  rewrite (proj2 (Z.eqb_neq _ _) En), (proj2 (Z.eqb_neq _ _) Ep). cbn [negb].
  apply wp_bind. eapply wp_table_of; [exact He|]. intros st2 Hl2. unfold lookup_key in Hl2. rewrite Hl2.
  apply wp_bind. eapply wp_sk_get; [exact Hj|]. eapply wp_mono; [exact Hm|]. intros ? w' H. by apply wp_ret.
Qed.

(** The rest of the world, which a take-over leaves as it is. *)
Definition around (w : world) := (w_ws w, w_links w, w_peers w).

Lemma dup_leaves i j : leaves around (socket_dup i j;; sk_mod j given_up).
Proof. unfold socket_dup. leaves_tac. Qed.

Lemma wp_take_over i j w sk s : w_sockets w !! i = Some sk -> w_sockets w !! j = Some s -> i ≠ j ->
  wp (socket_dup i j;; sk_mod j given_up) (fun _ w' => w_sockets w' = <[j := given_up s]> (<[i := taken_over sk s]> (w_sockets w))) w.
Proof.
  intros Hi Hj Hne. unfold socket_dup. apply wp_bind, wp_bind. eapply wp_sk_get; [exact Hj|]. cbv beta. unfold taken_over. apply wp_bind.
  destruct (negb (sk_flags s =? 0)); (eapply wp_sk_mod; [exact Hi|]); apply wp_bind; (eapply wp_sk_mod; [rsimpl; apply lookup_insert_eq|]); apply wp_stat_mod;
    (eapply wp_sk_mod; [rsimpl; rewrite !lookup_insert_ne by done; exact Hj|]); rsimpl; by rewrite insert_insert_eq.
Qed.

(** C10: a packet that reaches another worker than the one its port belongs to
    takes its connection along: the look-up returns the socket of the worker
    that received it, with the state, the numbers and the timer of the other
    one (over UDP, without a keep-alive); the other socket loses its addresses
    and nothing else changes.  The move is made once - the next packet finds
    the same socket and changes nothing - and the former owner closes its
    socket, if it waits for an acknowledgement, at its next retransmission. *)
Theorem rss_takeover {Dk : Dpdk} b iph th k w i j sk s : packet_key_get b iph th = Some k -> k_daddr k ≠ 0 ->
  elsewhere w k i j sk s -> is_for k s ->
  exists w', socket_client_lookup b iph th w = Ok (Some i, w')
    /\ w_sockets w' = <[j := given_up s]> (<[i := taken_over sk s]> (w_sockets w)) /\ around w' = around w
    /\ socket_client_lookup b iph th w' = Ok (Some i, w')
    /\ (forall w2, w_sockets w2 !! j = Some (given_up s) -> sk_snd_nxt s ≠ sk_snd_una s -> tcp_do_retransmit j w2 = socket_close j w2).
Proof.
  intros Hk Hd He [Ea Ef]. destruct (el_own _ _ _ _ _ _ He) as (Hl & Hs & Hfor). destruct (el_other _ _ _ _ _ _ He) as [Hj Hne].
  assert (wp (socket_client_lookup b iph th) (fun o w' => o = Some i /\ w_sockets w' = <[j := given_up s]> (<[i := taken_over sk s]> (w_sockets w)) /\ around w' = around w) w) as H.
  { eapply wp_client_lookup_else; [exact Hk|exact He|]. rewrite Ea, Ef, !Z.eqb_refl. cbn [andb]. unfold st_when.
    eapply wp_mono; [apply (wp_also around); [by apply wp_take_over|apply dup_leaves]|]. done. }
  destruct (wp_ok _ _ _ H) as (o & w' & E & -> & Es & Er). exists w'. split; [exact E|]. split; [exact Es|]. split; [exact Er|]. split.
  - assert (elsewhere w' k i j (taken_over sk s) (given_up s)) as He'.
    { destruct He as [H1 H2 H3 H4 H5 H6]. unfold around in Er. injection Er as Ew _ Ep. split; unfold w_st in *; rewrite ?Ew, ?Ep, ?Es; try done.
      - split; [exact Hl|]. split; [by rewrite lookup_insert_ne, lookup_insert_eq|]. unfold is_for, taken_over in *. by case_match.
      - by rewrite lookup_insert_eq. }
    enough (wp (socket_client_lookup b iph th) (fun o w1 => o = Some i /\ w1 = w') w') as H' by (destruct (wp_ok _ _ _ H') as (o & w1 & E' & -> & ->); exact E').
    eapply wp_client_lookup_else; [exact Hk|exact He'|]. unfold given_up. rsimpl. rewrite (proj2 (Z.eqb_neq 0 (k_daddr k))) by congruence. by apply wp_ret.
  - intros w2 H2 Hun. unfold tcp_do_retransmit, mbind at 1, ST_bind at 1, sk_get at 1. rewrite H2. unfold given_up. rsimpl.
    by rewrite (proj2 (Z.eqb_neq _ _) Hun), Z.eqb_refl.
Qed.

(** ** Examples *)

(** The example worker as the first of [n] queues; the port of its socket 0
    belongs to queue 1, whose worker has its sockets at 10. *)
Definition demo_rss (n : Z) : world :=
  World.Demo.demo_world
    <| w_ws ::= fun ws => ws <| ws_socket_table ::= fun st => st <| st_rss := true |> <| st_rss_num := n |>
         <| st_socket_table_hash := None :: Some 1 :: replicate 254 None |> |> |>
    <| w_peers := [None; Some (World.Demo.demo_ws <| ws_id := 1 |> <| ws_socket_table ::= fun st => st <| st_ht := {[ 1 := 10%N ]} |> <| st_pool_base := 10%N |> |>)] |>
    <| w_sockets ::= insert 10%N ((World.Demo.demo_socket 1) <| sk_st := SK_SYN_SENT |> <| sk_flags := TH_SYN |> <| sk_snd_una := 999 |>) |>.

Lemma demo_rss_last : last_is_ours (demo_rss 1).
Proof.
  split; try by vm_compute.
  - intros n Hn. change (st_pool_num (w_st (demo_rss 1))) with 2 in Hn. assert (n = 0 \/ n = 1) as [-> | ->] by lia; eexists; by vm_compute.
  - eexists. by vm_compute.
Qed.

Lemma rss_launch_overruns_witness : exists n, Z.of_nat n <= 3 /\ launches n 10000 (demo_rss 1) = Err OutOfBounds.
Proof. apply (rss_launch_overruns 10000 (demo_rss 1)); [exact demo_rss_last|by vm_compute]. Defined.

(** The answer of the server to the first connection. *)
Definition demo_answer : list Z :=
  match tcp_new_packet (D := Mbuf.Demo.dpdk) 0 (TH_SYN ||| TH_ACK) demo_server with Ok (Some m, _) => m_buf m | _ => [] end.
Definition demo_answer_key : packet_key := PacketKey (htonl 167772162) (htonl 167772161) (htons 80) (htons 1).

Lemma rss_takeover_witness : exists w', socket_client_lookup demo_answer 142 162 (demo_rss 2) = Ok (Some 0%N, w')
  /\ (sk_st <$> w_sockets w' !! 0%N) = Some SK_SYN_SENT /\ (sk_laddr <$> w_sockets w' !! 10%N) = Some 0.
Proof.
  destruct (rss_takeover (Dk := Mbuf.Demo.dpdk) demo_answer 142 162 demo_answer_key (demo_rss 2) 0%N 10%N (World.Demo.demo_socket 1)
    ((World.Demo.demo_socket 1) <| sk_st := SK_SYN_SENT |> <| sk_flags := TH_SYN |> <| sk_snd_una := 999 |>)) as (w' & E & Es & _).
  - by vm_compute.
  - done.
  - split; [reflexivity|by vm_compute|split_and!; by vm_compute|by vm_compute| |split; [reflexivity|done]].
    exists 1. eexists. split; [vm_compute; reflexivity|]. split; [done|]. split; [reflexivity|vm_compute; reflexivity].
  - by vm_compute.
  - exists w'. split; [exact E|]. rewrite Es. split; vm_compute; reflexivity.
Defined.
