(* ===== verification/InitInv.v ===== *)
(** * InitInv: start-up establishes the worker's invariant

    From the configuration of a process to the first iteration of the loop:
    the shares of the workers add up to the target, and a worker whose
    start-up succeeds satisfies the invariant that its loop relies on. *)

From S2P Require Import Prelude Double SocketNode IpRange Tick Config Mbuf NetStats World.
From S2P Require Import WorkSpace Socket SocketTimer Kni TcpPacket Payload Template Loop.
From S2P Require Import SocketTable Init Env NeighInv SocketInv TcpInv LoopInv SocketTableInv.

(** ** The shares of the workers *)

Definition shares (cfg : config) (target : Z) : option (list Z) :=
  mapM (fun i => client_assign_task cfg (Z.of_nat i) target) (seq 0 (Z.to_nat (c_cpu_num cfg))).


Lemma sum_below target n s : foldr Z.add 0 ((fun i => if Z.of_nat i <? target then 1 else 0) <$> seq s n)
  = Z.max 0 (Z.min (Z.of_nat n) (target - Z.of_nat s)).
Proof.
  revert s. induction n as [|n IH]; intros s; cbn [seq fmap list_fmap foldr]; [lia|].
  rewrite IH. destruct (Z.ltb_spec (Z.of_nat s) target); lia.
Qed.

Lemma sum_const (f : nat -> Z) v n s : (forall i, (s <= i)%nat -> f i = v) -> foldr Z.add 0 (f <$> seq s n) = Z.of_nat n * v.
Proof.
  revert s. induction n as [|n IH]; intros s Hf; cbn [seq fmap list_fmap foldr]; [lia|].
  rewrite Hf, IH by (intros; try apply Hf; lia). lia.
Qed.

Lemma mapM_some {A B} (f : A -> option B) g l : (forall x, f x = Some (g x)) -> mapM f l = Some (g <$> l).
Proof. intros Hf. induction l as [|x l IH]; [done|]. cbn. rewrite Hf. cbn. by rewrite IH. Qed.

(** A number that a configuration can hold is divided among the workers. *)
Lemma client_assign_some cfg id target : 1 <= c_cpu_num cfg < 2 ^ 31 -> 0 <= target < 2 ^ 31 -> is_Some (client_assign_task cfg id target).
Proof.
  intros Hcpu Ht. unfold client_assign_task. rewrite (wrap_small 64 (c_cpu_num cfg)) by (split; lia). case_match; [by eexists|].
  destruct (double_quot_some target (c_cpu_num cfg)) as [v ->]; [lia..|]. by eexists.
Qed.

(** However the division of the target by the number of workers is
    rounded, the shares of all workers add up to the target, modulo the width
    of the integers. *)
Theorem shares_add_up cfg target l : 1 <= c_cpu_num cfg < 2 ^ 31 -> 0 <= target < 2 ^ 64 ->
  shares cfg target = Some l -> foldr Z.add 0 l mod 2 ^ 64 = target.
Proof.
  intros Hcpu Ht. unfold shares, client_assign_task. rewrite (wrap_small 64 (c_cpu_num cfg)) by (split; lia).
  destruct (Z.leb_spec target (c_cpu_num cfg)) as [Hle|Hgt].
  - rewrite (mapM_some _ (fun i => if Z.of_nat i <? target then 1 else 0)) by done. intros [= <-].
    rewrite sum_below. rewrite Z.mod_small; lia.
  - destruct (double_quot target (c_cpu_num cfg)) as [val|].
    2: { destruct (Z.to_nat (c_cpu_num cfg)) eqn:E; [lia|done]. }
    cbn [mbind option_bind].
    rewrite (mapM_some _ (fun i => if Z.of_nat i =? 0 then u64 (target - u64 (val * u64 (c_cpu_num cfg - 1))) else val)) by done.
    intros [= <-]. destruct (Z.to_nat (c_cpu_num cfg)) as [|n] eqn:E; [lia|]. cbn [seq fmap list_fmap foldr].
    rewrite (sum_const _ val) by (intros i Hi; by destruct (Z.eqb_spec (Z.of_nat i) 0); [lia|]).
    change (Z.of_nat 0 =? 0) with true. cbv iota. rewrite (wrap_small 64 (c_cpu_num cfg - 1)) by (split; lia).
    replace (c_cpu_num cfg - 1) with (Z.of_nat n) by lia.
    rewrite wrap_sub_r. fold (wrap 64 (u64 (target - val * Z.of_nat n) + Z.of_nat n * val)). rewrite wrap_add_l.
    replace (target - val * Z.of_nat n + Z.of_nat n * val) with target by lia. by apply wrap_small.
Qed.

Lemma shares_add_up_witness :
  let cfg := g_config_init <| c_cpu_num := 7 |> in
  shares cfg 1000000 = Some [142858; 142857; 142857; 142857; 142857; 142857; 142857]
  /\ foldr Z.add 0 [142858; 142857; 142857; 142857; 142857; 142857; 142857] mod 2 ^ 64 = 1000000.
Proof.
  assert (shares (g_config_init <| c_cpu_num := 7 |>) 1000000
    = Some [142858; 142857; 142857; 142857; 142857; 142857; 142857]) as E by (vm_compute; reflexivity).
  split; [exact E|].
  apply (shares_add_up (g_config_init <| c_cpu_num := 7 |>) 1000000 [142858; 142857; 142857; 142857; 142857; 142857; 142857]).
  - change (1 <= 7 < 2 ^ 31). lia.
  - lia.
  - exact E.
Defined.

(** ** What start-up needs *)

(** A configuration whose worker [worker] can be started in the process [w];
    the table is stated on the worker as it will be: with its port, its queue
    and its pool. *)
Definition seated (w : world) (port : netif_port) (queue_id num : Z) (base : N) : world :=
  w <| w_ws := (work_space_zero base num) <| ws_port := port |> <| ws_queue_id := queue_id |> |>.

Definition tcp_fits (cfg : config) (room data_len : Z) : Prop :=
  let ipv6 := c_af cfg =? AF_INET6 in
  template_len cfg ipv6 TCPHDR_LEN data_len <= Z.min room MBUF_DATA_SIZE
  /\ template_len cfg ipv6 (TCPHDR_LEN + 8) 0 <= room.

(** The texts of a worker: request, response and datagram. *)
Record texts := Texts { tx_request : list Z; tx_response : list Z; tx_datagram : list Z }.
Definition tcp_text (cfg : config) (t : texts) : list Z := if c_server cfg then tx_response t else tx_request t.
Definition short_texts (t : texts) : Prop :=
  strlen (tx_request t) < MBUF_DATA_SIZE /\ strlen (tx_response t) < MBUF_DATA_SIZE /\ strlen (tx_datagram t) < MBUF_DATA_SIZE.

(** Where a worker is placed: its port and queue, its pool, the first address
    of its servers and its texts. *)
Record seat := Seat { se_port : netif_port; se_queue_id : Z; se_num : Z; se_first : Z; se_base : N; se_texts : texts }.

Record startup_ok `{Dpdk} (alloc : Z -> option N) (http_req http_rsp g_udp_data : list (list Z)) (room : Z) (worker : Z)
    (w : world) (s : seat) : Prop := {
  su_worker : 0 <= worker < 256 /\ worker < Z.of_nat (length (w_peers w));
  su_port : config_port_get (w_cfg w) worker = Some (se_port s, se_queue_id s);
  su_queue : 0 <= se_queue_id s < 256;
  su_num : config_get_total_socket_num (w_cfg w) worker = Some (se_num s) /\ 0 < se_num s;
  su_alloc : alloc (se_num s) = Some (se_base s);
  su_heads : forall t, is_Some (w_links w !! Head t);
  su_pool : w_free_pool w = [];
  su_peers : Forall (fun o => forall ws, o = Some ws -> (forall c, has_dmac (cache_data c ws)) /\ 0 <= ws_queue_id ws < 256) (w_peers w);
  su_lldp : length (w_lldp_packet w) = 92%nat;
  su_link : link_ok (w_cfg w) (se_port s) (se_queue_id s);
  su_sized : port_sized (se_port s);
  su_vtep : c_vxlan (w_cfg w) = true -> exists vx, np_vxlan (se_port s) = Some vx /\ range_sized (vx_vtep_local vx);
  su_flow : c_flow (w_cfg w) ≠ FLOW_RSS;
  su_texts : aget http_req worker = Some (tx_request (se_texts s)) /\ aget http_rsp worker = Some (tx_response (se_texts s))
    /\ aget g_udp_data worker = Some (tx_datagram (se_texts s)) /\ short_texts (se_texts s);
  su_payload : is_Some (aget (c_payload_size (w_cfg w)) worker);
  su_proto : (c_protocol (w_cfg w) = IPPROTO_TCP /\ tcp_fits (w_cfg w) room (strlen (tcp_text (w_cfg w) (se_texts s))))
    \/ (c_protocol (w_cfg w) = IPPROTO_UDP
        /\ template_len (w_cfg w) (c_af (w_cfg w) =? AF_INET6) UDPHDR_LEN (strlen (tx_datagram (se_texts s))) <= Z.min room MBUF_DATA_SIZE);
  su_dip : c_server (w_cfg w) = false -> 0 < list_num (c_dip_list (w_cfg w)) ->
    worker < list_num (c_dip_list (w_cfg w)) /\ 0 < c_cpu_num (w_cfg w);
  su_burst : 0 <= c_tx_burst (w_cfg w);
  su_table : table_config (seated w (se_port s) (se_queue_id s) (se_num s) (se_base s)) (se_first s);
  su_clock : 0 < g_tsc_per_tick (w_tick w) /\ 0 < g_tsc_per_second (w_tick w) / 10 /\ g_tsc_per_second (w_tick w) < 2 ^ 61
    /\ g_tsc_per_tick (w_tick w) < 2 ^ 61;
  su_shares : is_Some (client_assign_task (w_cfg w) worker (c_cps (w_cfg w)))
    /\ is_Some (client_assign_task (w_cfg w) worker (c_cc (w_cfg w)));
  su_launch : 0 <= c_launch_num (w_cfg w);
  su_prompt : forall h, rte_rdtsc (Io_rdtsc (rte_rdtsc h) :: h) < rte_rdtsc h + g_tsc_per_second (w_tick w);
}.

(** The sockets of a worker. *)
Definition pool_set (base : N) (num : Z) : gset N :=
  list_to_set ((fun k => (base + N.of_nat k)%N) <$> seq 0 (Z.to_nat num)).

Lemma elem_pool_set base num i : 0 <= num -> i ∈ pool_set base num <-> exists k, 0 <= k < num /\ i = (base + Z.to_N k)%N.
Proof.
  intros Hn. unfold pool_set. rewrite elem_of_list_to_set, list_elem_of_fmap. split.
  - intros (k & -> & Hk%elem_of_seq). exists (Z.of_nat k). split; [lia|]. lia.
  - intros (k & Hk & ->). exists (Z.to_nat k). split; [lia|]. apply elem_of_seq. lia.
Qed.

Lemma zero_sockets_lookup base n k : (k < n)%nat -> zero_sockets base n !! (base + N.of_nat k)%N = Some socket_zero.
Proof.
  intros Hk. unfold zero_sockets. assert (k ∈ seq 0 n) as Hin by (apply elem_of_seq; lia). revert Hin.
  generalize (seq 0 n) as l. induction l as [|x l IH]; intros Hin; [by apply not_elem_of_nil in Hin|]. cbn [foldr].
  destruct (decide (x = k)) as [->|Hne]; [by rewrite lookup_insert_eq|].
  rewrite lookup_insert_ne by lia. apply IH. by apply elem_of_cons in Hin as [->|?].
Qed.
Lemma zero_nodes_lookup null base n k : (k < n)%nat -> zero_nodes null base n !! Sock (base + N.of_nat k)%N = Some null.
Proof.
  intros Hk. unfold zero_nodes. assert (k ∈ seq 0 n) as Hin by (apply elem_of_seq; lia). revert Hin.
  generalize (seq 0 n) as l. induction l as [|x l IH]; intros Hin; [by apply not_elem_of_nil in Hin|]. cbn [foldr].
  destruct (decide (x = k)) as [->|Hne]; [by rewrite lookup_insert_eq|].
  rewrite lookup_insert_ne by (intros [= ?]; lia). apply IH. by apply elem_of_cons in Hin as [->|?].
Qed.
Lemma zero_nodes_head null base n t : zero_nodes null base n !! Head t = None.
Proof. unfold zero_nodes. induction (seq 0 n) as [|x l IH]; [done|]. cbn [foldr]. by rewrite lookup_insert_ne. Qed.

(** ** The steps *)

Section Startup.
Context {D : Dpdk} {room : Z} {L : DpdkLaws D room} (Hroom : HDR_ROOM <= room).
Context (alloc : Z -> option N) (null : socket_node).
Context (rte_pktmbuf_pool_create : string -> Z -> Z -> bool) (rand_r : Z -> Z).
Context (http_req http_rsp g_udp_data : list (list Z)).
Context (worker : Z) (s : seat).

(** What the steps of [work_space_build] hand on. *)
Definition seat_ws (ws : work_space) :=
  (ws_port ws, ws_queue_id ws, ws_ipv6 ws, ws_server ws, ws_vxlan ws, ws_tx_queue ws, ws_ack_delay ws, ws_flood ws, ws_id ws).
Definition seat_of (cfg : config) :=
  (se_port s, se_queue_id s, c_af cfg =? AF_INET6, c_server cfg, c_vxlan cfg, TxQueue 0 0 (c_tx_burst cfg) ∅, @nil N, c_flood cfg, worker).
Definition dip_ok (ws : work_space) : Prop :=
  ws_change_dip ws = true -> 0 <= list_next (ws_dip_list ws) < list_num (ws_dip_list ws).

(** The rest of a worker that matters here. *)
Definition body_ws (ws : work_space) :=
  (ws_change_dip ws, ws_dip_list ws, ws_socket_table ws, ws_tcp ws, ws_tcp_opt ws, ws_tcp_data ws).

Lemma wp_get_port w port queue_id Q :
  config_port_get (w_cfg w) (ws_id (w_ws w)) = Some (port, queue_id) -> 0 <= queue_id < 256 ->
  (c_vxlan (w_cfg w) = true -> exists vx, np_vxlan port = Some vx /\ is_Some (ip_range_get (vx_vtep_local vx) queue_id)) ->
  (forall ws', seat_ws ws' = (port, queue_id, ws_ipv6 (w_ws w), ws_server (w_ws w),
      (if c_vxlan (w_cfg w) then true else ws_vxlan (w_ws w)), ws_tx_queue (w_ws w), ws_ack_delay (w_ws w), ws_flood (w_ws w), ws_id (w_ws w)) ->
    body_ws ws' = body_ws (w_ws w) -> Q tt (w <| w_ws := ws' |>)) ->
  wp work_space_get_port Q w.
Proof using Type.
  intros Hp Hq Hvx HQ. unfold work_space_get_port. wp_reads. unfold id.
  apply wp_bind. eapply wp_lift; [exact Hp|]. cbv beta iota. apply wp_bind, wp_ws_mod.
  assert (u8 queue_id = queue_id) as Eq by by apply wrap_small. rewrite Eq. apply wp_bind.
  assert (forall w', (exists ws', w' = w <| w_ws := ws' |> /\ seat_ws ws' = (port, queue_id, ws_ipv6 (w_ws w), ws_server (w_ws w),
      (if c_vxlan (w_cfg w) then true else ws_vxlan (w_ws w)), ws_tx_queue (w_ws w), ws_ack_delay (w_ws w), ws_flood (w_ws w), ws_id (w_ws w))
      /\ body_ws ws' = body_ws (w_ws w)) ->
    wp (st_when (np_kni port) (ws_mod (fun ws => ws <| ws_kni := true |>))) Q w') as Hkni.
  { intros w' (ws' & -> & H1 & H2). apply wp_when; intros _; [|by apply HQ].
    apply wp_ws_mod. apply (HQ (ws' <| ws_kni := true |>)); [exact H1|exact H2]. }
  destruct (c_vxlan (w_cfg w)).
  - destruct (Hvx eq_refl) as (vx & Ex & [vtep Ev]). apply wp_when; [intros _|done].
    apply wp_bind. eapply wp_lift; [exact Ex|]. apply wp_bind. eapply wp_lift; [exact Ev|]. apply wp_ws_mod.
    apply Hkni. eexists. split; [reflexivity|]. by split.
  - apply wp_when; [done|intros _]. apply Hkni. eexists. split; [reflexivity|]. by split.
Qed.

Lemma wp_init_change_dip w Q : 0 <= ws_id (w_ws w) ->
  (c_server (w_cfg w) = false -> 0 < list_num (c_dip_list (w_cfg w)) ->
    ws_id (w_ws w) < list_num (c_dip_list (w_cfg w)) /\ 0 < c_cpu_num (w_cfg w)) ->
  (ws_change_dip (w_ws w) = false) ->
  (forall l b, (b = true -> 0 <= list_next l < list_num l) ->
    Q 0 (w <| w_ws ::= fun ws => ws <| ws_dip_list := l |> <| ws_change_dip := b |> |>)) ->
  wp work_space_init_change_dip Q w.
Proof using Type.
  intros Hid Hd Hc HQ. unfold work_space_init_change_dip. wp_reads. unfold id.
  assert (Q 0 w) as Hsame.
  { specialize (HQ (ws_dip_list (w_ws w)) (ws_change_dip (w_ws w))). rewrite Hc in HQ at 1. specialize (HQ ltac:(discriminate)).
    destruct w as [? ? ws ? ? ? ? ? ? ? ? ?]. by destruct ws. }
  apply wp_if; intros Hs; [by apply wp_ret|]. apply wp_if; intros Hn; bool_facts; [|by apply wp_ret].
  destruct (Hd Hs Hn) as [H1 H2].
  destruct (ip_list_split_some (c_dip_list (w_cfg w)) (ws_id (w_ws w)) (c_cpu_num (w_cfg w)) (ws_dip_list (w_ws w)))
    as (sub & E & Enext & _ & Eip); [lia|lia|].
  apply wp_bind. eapply wp_lift; [exact E|]. cbv beta iota. apply wp_bind, wp_ws_mod.
  assert (0 < list_num sub) as Hsub.
  { specialize (Eip 0%nat). change (Z.of_nat 0 * _) with 0 in Eip. rewrite Z.add_0_r in Eip.
    destruct (aget_some (list_ip (c_dip_list (w_cfg w))) (ws_id (w_ws w))) as [a Ea]; [unfold list_num in H1; lia|].
    rewrite Ea in Eip. apply lookup_lt_Some in Eip. unfold list_num. lia. }
  apply wp_if; intros Hr; bool_facts; [lia|]. apply wp_bind, wp_ws_mod, wp_ret.
  apply (HQ sub true). intros _. lia.
Qed.

(** [w] is [w0] with its worker in its seat. *)
Record opened (w0 w : world) : Prop := {
  op_others : others w = others w0;
  op_sockets : w_sockets w = w_sockets w0;
  op_links : w_links w = w_links w0;
  op_seat : seat_ws (w_ws w) = seat_of (w_cfg w0);
  op_dip : dip_ok (w_ws w);
  op_table : w_st w = w_st w0;
}.
Definition same_caches (w0 w : world) : Prop := forall c, cache_data c (w_ws w) = cache_data c (w_ws w0).

Lemma opened_cfg w0 w : opened w0 w -> w_cfg w = w_cfg w0.
Proof using Type. intros H. exact (f_equal (fun x => x.1.1.1.1.1.1.1) (op_others _ _ H)). Qed.

Lemma opened_with_cache w0 w c d : opened w0 w -> opened w0 (with_cache c d w).
Proof using Type.
  intros [H1 H2 H3 H4 H5 H6]. split; [exact H1|exact H2|exact H3| | |].
  - rewrite <- H4. by destruct c.
  - unfold dip_ok in *. by destruct c.
  - rewrite <- H6. by destruct c.
Qed.

Lemma tunnel_vtep cfg vx : tunnel_ok cfg (se_queue_id s) vx -> is_Some (ip_range_get (vx_vtep_local vx) (se_queue_id s)).
Proof using Type.
  intros [_ _ H]. destruct (H 0) as [x Hx]. unfold vxlan_iphdr in Hx. destruct (ip_range_get (vx_vtep_local vx) (se_queue_id s)); [eexists; reflexivity|discriminate].
Qed.

Lemma wp_open w0 w ps : startup_ok alloc http_req http_rsp g_udp_data room worker w0 s -> w_cfg w = w_cfg w0 ->
  w_ws w = work_space_zero (se_base s) (se_num s) -> forall (k : M bool) Q, (forall w', opened w w' -> same_caches w w' -> wp k Q w') ->
  wp (ws_mod (work_space_fields (w_cfg w) worker ps);; work_space_get_port;;
      ret ← work_space_init_change_dip; if ret <? 0 then mret false else k) Q w.
Proof using Type.
  intros Hs Hcfg Hws k Q HQ. destruct (su_worker _ _ _ _ _ _ _ _ Hs) as [Hw1 Hw2].
  assert (u8 worker = worker) as Ew by by apply wrap_small.
  apply wp_bind, wp_ws_mod. apply wp_bind. eapply wp_get_port.
  - rsimpl. change (ws_id _) with (u8 worker). rewrite Ew, Hcfg. exact (su_port _ _ _ _ _ _ _ _ Hs).
  - exact (su_queue _ _ _ _ _ _ _ _ Hs).
  - intros Hv. rsimpl_in Hv. rewrite Hcfg in Hv.
    destruct (lk_tunnel _ _ _ (su_link _ _ _ _ _ _ _ _ Hs) Hv) as (vx & E & Ht). exists vx. split; [exact E|by eapply tunnel_vtep].
  - intros ws1 E1 B1. rsimpl_in E1. rsimpl_in B1. rewrite Hws in E1, B1.
    assert (seat_ws ws1 = seat_of (w_cfg w0)) as Eseat.
    { rewrite E1. unfold seat_of. rewrite <- Hcfg.
      change (ws_id (work_space_fields (w_cfg w) worker ps (work_space_zero (se_base s) (se_num s)))) with (u8 worker).
      rewrite Ew. by destruct (c_vxlan (w_cfg w)). }
    assert (ws_id ws1 = worker) as Eid by exact (f_equal (fun x => x.2) Eseat).
    injection B1 as B1 B2 B3 B4 B5 B6.
    apply wp_bind. eapply wp_init_change_dip.
    + rsimpl. lia.
    + rsimpl. rewrite Hcfg, Eid. exact (su_dip _ _ _ _ _ _ _ _ Hs).
    + rsimpl. rewrite B1. reflexivity.
    + intros l b Hl. change (0 <? 0) with false. cbv iota. apply HQ; [split; try reflexivity|].
      * rsimpl. rewrite Hcfg. exact Eseat.
      * exact Hl.
      * unfold w_st. rsimpl. rewrite B3, Hws. reflexivity.
      * intros c. rsimpl. rewrite Hws. destruct c; cbn [cache_data]; rsimpl; [rewrite B4|rewrite B5|rewrite B6]; reflexivity.
Qed.
End Startup.
