(* ===== verification/StartUp.v ===== *)
(** * StartUp: a started worker satisfies the invariant of its loop

    The steps of [work_space_new] after the port: templates, clocks, sockets,
    launch control and RSS; what each leaves for the next, and that their
    composition establishes what [LoopInv] relies on. *)

From S2P Require Import Prelude Double SocketNode IpRange Tick Config Mbuf NetStats World.
From S2P Require Import WorkSpace Socket SocketTimer Kni TcpPacket Payload Template Neigh Loop.
From S2P Require Import SocketTable Init Env NeighInv SocketInv TcpInv LoopInv SocketTableInv InitInv.

(** ** Templates *)

Definition good_cache (room : Z) (d : mbuf_data) : Prop :=
  (0 <= md_total_len d <= room /\ Z.of_nat (length (md_data d)) = md_total_len d) /\ has_dmac d.

Lemma good_zero room : 0 <= room -> good_cache room mbuf_data_zero.
Proof. intros H. split; [split; [split; [reflexivity|exact H]|reflexivity]|by left]. Qed.

Lemma template_good `{Dpdk} cfg port queue_id ipv6 proto l4 data d room :
  link_ok cfg port queue_id -> template cfg port queue_id ipv6 proto l4 data = Some d ->
  template_len cfg ipv6 (strlen l4) (strlen data) <= room ->
  good_cache room d /\ strlen (md_data d) = template_len cfg ipv6 (strlen l4) (strlen data).
Proof.
  intros Hl E Hr. destruct (template_consistent _ _ _ _ _ _ _ _ Hl E) as (E1 & E2 & _ & _ & _ & _ & E6).
  unfold strlen in E1. split; [|unfold strlen at 1; lia]. split; [|by right]. split; [|done]. lia.
Qed.

(** A template that holds its headers up to the ports. *)
Lemma csum_ready_of cfg ws : ws_vxlan ws = c_vxlan cfg ->
  template_len cfg (ws_ipv6 ws) 4 0 <= strlen (md_data (ws_tcp ws)) ->
  (c_protocol cfg = IPPROTO_TCP -> template_len cfg (ws_ipv6 ws) 4 0 <= strlen (md_data (ws_tcp_opt ws))
                                /\ template_len cfg (ws_ipv6 ws) 4 0 <= strlen (md_data (ws_tcp_data ws))) ->
  csum_ready cfg ws.
Proof.
  intros Hv H1 H2. unfold csum_ready, inner_headers_len, inner_ip_hdr. unfold template_len, frame_len, l3_len_of in *.
  rewrite Hv. destruct (c_vxlan cfg).
  - assert (VXLAN_HEADERS_SIZE + ETH_HDR_LEN + (if ws_ipv6 ws then IP6_HDR_LEN else IPHDR_LEN) + 4
      = VXLAN_HEADERS_SIZE + (ETH_HDR_LEN + (if ws_ipv6 ws then IP6_HDR_LEN else IPHDR_LEN) + 4 + 0)) as -> by lia.
    split; [exact H1|exact H2].
  - intros Hi. rewrite Hi in H1. lia.
Qed.

Lemma wp_ok_bind {S A B} (m : ST S A) (k : A -> ST S B) s a s' Q : m s = Ok (a, s') -> wp (k a) Q s' -> wp (m ≫= k) Q s.
Proof. intros E H. unfold wp, mbind, ST_bind in *. by rewrite E. Qed.

Section Startup.
Context {D : Dpdk} {room : Z} {L : DpdkLaws D room} (Hroom : HDR_ROOM <= room).
Context (alloc : Z -> option N) (null : socket_node).
Context (rte_pktmbuf_pool_create : string -> Z -> Z -> bool) (rand_r : Z -> Z).
Context (http_req http_rsp g_udp_data : list (list Z)).
Context (worker : Z) (s : seat).
Context (w0 : world) (Hs : startup_ok alloc http_req http_rsp g_udp_data room worker w0 s).
Context (Hpools : forall name, rte_pktmbuf_pool_create name (np_id (se_port s)) (se_queue_id s) = true).

Lemma others_cfg w w' : others w = others w' -> w_cfg w = w_cfg w'.
Proof using Type. intros H. exact (f_equal (fun x => x.1.1.1.1.1.1.1) H). Qed.

(** The parts of a seat. *)
Lemma seat_parts ws cfg : seat_ws ws = seat_of worker s cfg ->
  ws_port ws = se_port s /\ ws_queue_id ws = se_queue_id s /\ ws_ipv6 ws = (c_af cfg =? AF_INET6)
  /\ ws_server ws = c_server cfg /\ ws_vxlan ws = c_vxlan cfg /\ ws_tx_queue ws = TxQueue 0 0 (c_tx_burst cfg) ∅
  /\ ws_ack_delay ws = [] /\ ws_flood ws = c_flood cfg /\ ws_id ws = worker.
Proof using Type. unfold seat_ws, seat_of. intros [=]. by split_and!. Qed.

Lemma seated_link w : w_cfg w = w_cfg w0 -> seat_ws (w_ws w) = seat_of worker s (w_cfg w0) ->
  ws_link_ok w /\ pools_ok rte_pktmbuf_pool_create w.
Proof using Hs Hpools.
  intros Ec (E1 & E2 & _)%seat_parts. unfold ws_link_ok, pools_ok. rewrite Ec, E1, E2.
  split; [exact (su_link _ _ _ _ _ _ _ _ Hs)|exact Hpools].
Qed.

Lemma tcp_header_len opts : strlen (tcp_header opts) = TCPHDR_LEN + strlen opts.
Proof using Type. unfold tcp_header. rewrite strlen_app_list. reflexivity. Qed.
Lemma tcp_options_len mss : 0 <= strlen (tcp_options mss) <= 8.
Proof using Type. unfold tcp_options. destruct (0 <? mss); vm_compute; split; discriminate. Qed.
Lemma template_len_mono cfg v6 a b c d : a <= c -> b <= d -> template_len cfg v6 a b <= template_len cfg v6 c d.
Proof using Type. unfold template_len, frame_len. lia. Qed.

(** The worker [w] with its templates, as [w1] otherwise. *)
Record templated (w1 w : world) : Prop := {
  tm_opened : opened worker s w1 w;
  tm_caches : forall c, good_cache room (cache_data c (w_ws w));
  tm_csum : csum_ready (w_cfg w0) (w_ws w);
}.

Lemma templated_tcp w1 w seg syn data : opened worker s w1 w -> w_cfg w1 = w_cfg w0 ->
  c_protocol (w_cfg w0) = IPPROTO_TCP -> let text := tcp_text (w_cfg w0) (se_texts s) in
  tcp_fits (w_cfg w0) room (strlen text) ->
  ws_template w IPPROTO_TCP (tcp_header []) [] = Some seg ->
  ws_template w IPPROTO_TCP (tcp_header (tcp_options (c_mss (w_cfg w)))) [] = Some syn ->
  ws_template w IPPROTO_TCP (tcp_header []) text = Some data ->
  templated w1 (with_cache Cache_tcp_data data (with_cache Cache_tcp_opt syn (with_cache Cache_tcp seg w))).
Proof using Hs Hpools.
  intros Ho Hc1 Hproto text [Hf1 Hf2] E1 E2 E3. pose proof (opened_cfg _ _ _ _ Ho) as Ec. rewrite Hc1 in Ec.
  pose proof (op_seat _ _ _ _ Ho) as Hseat. rewrite Hc1 in Hseat.
  destruct (seated_link w Ec Hseat) as [Hl _]. destruct (seat_parts _ _ Hseat) as (P1 & P2 & P3 & _ & P5 & _).
  unfold ws_template, ws_link_ok in *. rewrite Ec, P1, P2, P3 in *.
  pose proof (tcp_options_len (c_mss (w_cfg w0))) as Hopt. assert (0 <= strlen text) as Htext by (unfold strlen; lia).
  assert (forall n m, n <= TCPHDR_LEN + 8 -> m <= 0 -> template_len (w_cfg w0) (c_af (w_cfg w0) =? AF_INET6) n m <= room) as Hsmall
    by (intros n m Hn Hm; etransitivity; [apply template_len_mono; eassumption|exact Hf2]).
  assert (forall n m, TCPHDR_LEN <= n -> 0 <= m -> template_len (w_cfg w0) (c_af (w_cfg w0) =? AF_INET6) 4 0
    <= template_len (w_cfg w0) (c_af (w_cfg w0) =? AF_INET6) n m) as Hbig
    by (intros n m Hn Hm; apply template_len_mono; unfold TCPHDR_LEN in *; lia).
  destruct (template_good _ _ _ _ _ _ _ _ room Hl E1) as [G1 L1];
    [rewrite tcp_header_len; apply Hsmall; vm_compute; discriminate|].
  destruct (template_good _ _ _ _ _ _ _ _ room Hl E2) as [G2 L2];
    [rewrite tcp_header_len; apply Hsmall; [lia|vm_compute; discriminate]|].
  destruct (template_good _ _ _ _ _ _ _ _ room Hl E3) as [G3 L3];
    [rewrite tcp_header_len; change (strlen []) with 0; rewrite Z.add_0_r; fold text in Hf1; lia|].
  rewrite tcp_header_len in L1, L2, L3. split.
  - by repeat apply opened_with_cache.
  - by intros [].
  - apply csum_ready_of.
    + unfold with_cache, set_cache. rsimpl. exact P5.
    + unfold with_cache, set_cache. rsimpl. rewrite P3, L1. apply Hbig; change (strlen []) with 0; lia.
    + intros _. unfold with_cache, set_cache. rsimpl. rewrite P3, L2, L3. split; apply Hbig; change (strlen []) with 0; lia.
Qed.
Lemma templated_udp w1 w d : opened worker s w1 w -> same_caches w1 w -> w_cfg w1 = w_cfg w0 ->
  (forall c, cache_data c (w_ws w1) = mbuf_data_zero) ->
  c_protocol (w_cfg w0) = IPPROTO_UDP -> let text := tx_datagram (se_texts s) in
  template_len (w_cfg w0) (c_af (w_cfg w0) =? AF_INET6) UDPHDR_LEN (strlen text) <= room ->
  ws_template w IPPROTO_UDP (udp_header text) text = Some d ->
  templated w1 (with_cache Cache_tcp d w).
Proof using Hs Hpools Hroom.
  intros Ho Hsame Hc1 Hz Hproto text Hf E. pose proof (opened_cfg _ _ _ _ Ho) as Ec. rewrite Hc1 in Ec.
  pose proof (op_seat _ _ _ _ Ho) as Hseat. rewrite Hc1 in Hseat.
  destruct (seated_link w Ec Hseat) as [Hl _]. destruct (seat_parts _ _ Hseat) as (P1 & P2 & P3 & _ & P5 & _).
  unfold ws_template, ws_link_ok in *. rewrite Ec, P1, P2, P3 in *.
  destruct (template_good _ _ _ _ _ _ _ _ room Hl E) as [G L1]; [exact Hf|]. change (strlen (udp_header text)) with UDPHDR_LEN in L1.
  assert (0 <= strlen text) as Htext by (unfold strlen; lia). split.
  - by apply opened_with_cache.
  - unfold HDR_ROOM in Hroom. intros []; [exact G| |].
    + change (good_cache room (cache_data Cache_tcp_opt (w_ws w))). rewrite Hsame, Hz. apply good_zero. lia.
    + change (good_cache room (cache_data Cache_tcp_data (w_ws w))). rewrite Hsame, Hz. apply good_zero. lia.
  - apply csum_ready_of.
    + unfold with_cache, set_cache. rsimpl. exact P5.
    + unfold with_cache, set_cache. rsimpl. rewrite P3, L1. apply template_len_mono; [vm_compute; discriminate|lia].
    + rewrite Hproto. discriminate.
Qed.

Lemma wp_templates w1 w k Q : opened worker s w1 w -> same_caches w1 w -> w_cfg w1 = w_cfg w0 ->
  (forall c, cache_data c (w_ws w1) = mbuf_data_zero) ->
  (forall w', templated w1 w' -> wp k Q w') ->
  wp (ret ← tcp_init rte_pktmbuf_pool_create (tx_request (se_texts s)) (tx_response (se_texts s));
      if ret <? 0 then mret false
      else datagram ← st_lift OutOfBounds (aget g_udp_data worker);
           ret ← udp_init rte_pktmbuf_pool_create datagram;
           if ret <? 0 then mret false else k) Q w.
Proof using Hs Hpools Hroom.
  intros Ho Hsame Hc1 Hz HQ. pose proof (opened_cfg _ _ _ _ Ho) as Ec. rewrite Hc1 in Ec.
  pose proof (op_seat _ _ _ _ Ho) as Hseat. rewrite Hc1 in Hseat. destruct (seated_link w Ec Hseat) as [Hl Hp].
  destruct (seat_parts _ _ Hseat) as (_ & _ & P3 & _).
  destruct (su_texts _ _ _ _ _ _ _ _ Hs) as (T1 & T2 & T3 & S1 & S2 & S3).
  destruct (su_proto _ _ _ _ _ _ _ _ Hs) as [[Hproto Hf]|[Hproto Hf]].
  - destruct (tcp_init_ok rte_pktmbuf_pool_create (tx_request (se_texts s)) (tx_response (se_texts s)) w) as (w' & E & H);
      [by rewrite Ec|done|done|by destruct (c_server (w_cfg w))|].
    rewrite Ec in E, H. change (if c_server (w_cfg w0) then _ else _) with (tcp_text (w_cfg w0) (se_texts s)) in E, H.
    assert (text_fits w TCPHDR_LEN (strlen (tcp_text (w_cfg w0) (se_texts s))) = true) as Hfit.
    { unfold text_fits. rewrite Ec, P3. apply Z.leb_le. destruct Hf as [Hf _]. lia. }
    rewrite Hfit in E. eapply wp_ok_bind; [exact E|]. change (0 <? 0) with false. cbv iota.
    apply wp_bind. eapply wp_lift; [exact T3|]. destruct (H Hfit) as (seg & syn & data & E1 & E2 & E3 & ->).
    assert (templated w1 (with_cache Cache_tcp_data data (with_cache Cache_tcp_opt syn (with_cache Cache_tcp seg w)))) as Ht
      by (apply templated_tcp; [exact Ho|exact Hc1|exact Hproto|exact Hf|exact E1|rewrite Ec; exact E2|exact E3]).
    pose proof (opened_cfg _ _ _ _ (tm_opened _ _ Ht)) as Ec'. rewrite Hc1 in Ec'.
    set (w' := with_cache _ _ _) in *. eapply wp_ok_bind with (a := 0) (s' := w'); [|by apply HQ].
    unfold udp_init. erewrite st_bind_ok by reflexivity. unfold id. by rewrite Ec', Hproto.
  - eapply wp_ok_bind with (a := 0) (s' := w).
    { unfold tcp_init. erewrite st_bind_ok by reflexivity. unfold id. by rewrite Ec, Hproto. }
    change (0 <? 0) with false. cbv iota. apply wp_bind. eapply wp_lift; [exact T3|].
    destruct (udp_init_ok rte_pktmbuf_pool_create (tx_datagram (se_texts s)) w) as (w' & E & H); [by rewrite Ec|done..|].
    assert (text_fits w UDPHDR_LEN (strlen (tx_datagram (se_texts s))) = true) as Hfit.
    { unfold text_fits. rewrite Ec, P3. apply Z.leb_le. lia. }
    rewrite Hfit in E. eapply wp_ok_bind; [exact E|]. change (0 <? 0) with false. cbv iota.
    destruct (H Hfit) as (d & Ed & ->). apply HQ. apply templated_udp; try done. lia.
Qed.
(** ** Clocks *)

(** The worker [w] with its clocks; the rest is as in [w1]. *)
Record timed (w1 w : world) : Prop := {
  ti_kept : (w_cfg w, w_peers w, w_free_pool w, w_tick w) = (w_cfg w0, w_peers w0, w_free_pool w0, w_tick w0);
  ti_lldp : length (w_lldp_packet w) = 92%nat;
  ti_sockets : w_sockets w = w_sockets w1;
  ti_heads : forall t, w_links w !! Head t = Some (SocketNode (Head t) (Head t));
  ti_links : forall i, w_links w !! Sock i = w_links w1 !! Sock i;
  ti_seat : seat_ws (w_ws w) = seat_of worker s (w_cfg w0);
  ti_dip : dip_ok (w_ws w);
  ti_table : w_st w = w_st w1;
  ti_caches : forall c, good_cache room (cache_data c (w_ws w));
  ti_csum : csum_ready (w_cfg w0) (w_ws w);
  ti_clock : clock_ok (ws_time (w_ws w)) (ws_load (w_ws w));
}.

Lemma lldp_packet_length port : length (np_local_mac port) = 6%nat -> length (lldp_init_packet port) = 92%nat.
Proof using Type.
  intros H. unfold lldp_init_packet, lldp_str_init, lldp_tlv. rewrite !length_app. cbn [length app]. rewrite H. reflexivity.
Qed.

(** The announcement is the only other thing that changes. *)
Lemma wp_lldp_init w Q : length (np_local_mac (ws_port (w_ws w))) = 6%nat -> length (w_lldp_packet w) = 92%nat ->
  (forall lldp packet, length packet = 92%nat ->
    Q tt (w <| w_ws ::= fun ws => ws <| ws_lldp := lldp |> |> <| w_lldp_packet := packet |>)) ->
  wp lldp_init Q w.
Proof using Type.
  intros Hm Hl HQ. unfold lldp_init. wp_reads. unfold id. apply wp_when; intros _.
  - apply wp_bind, wp_ws_mod, wp_modify. apply (HQ true). by apply lldp_packet_length.
  - specialize (HQ (ws_lldp (w_ws w)) (w_lldp_packet w) Hl). destruct w as [? ? ws ? ? ? ? ? ? ? ? ?]. by destruct ws.
Qed.

Lemma wp_read_tsc w Q : (let t := rte_rdtsc (w_io w) in Q t (w <| w_io ::= cons (Io_rdtsc t) |>)) -> wp read_tsc Q w.
Proof using Type. intros H. unfold read_tsc. apply wp_bind, wp_gets. apply wp_bind, wp_io_log. by apply wp_ret. Qed.

Lemma start_clock h g : 0 < g_tsc_per_tick g -> 0 < g_tsc_per_second g / 10 -> g_tsc_per_second g < 2 ^ 61 -> g_tsc_per_tick g < 2 ^ 61 ->
  rte_rdtsc (Io_rdtsc (rte_rdtsc h) :: h) < rte_rdtsc h + g_tsc_per_second g ->
  clock_ok (tick_time_init g (rte_rdtsc h)) (cpuload_init (rte_rdtsc (Io_rdtsc (rte_rdtsc h) :: h))).
Proof using L.
  intros H1 H2 H3 H4 H5. pose proof (rdtsc_range h) as Hr.
  assert (0 < g_tsc_per_second g) as Hpos by (destruct (Z_lt_le_dec 0 (g_tsc_per_second g)) as [|Hle]; [done|];
    apply (Z.div_le_mono _ _ 10) in Hle; [change (0 / 10) with 0 in Hle; lia|lia]).
  assert (g_tsc_per_second g / 10 <= g_tsc_per_second g) by (apply Z.div_le_upper_bound; lia).
  change (2 ^ 61) with 2305843009213693952 in *. change (2 ^ 62) with 4611686018427387904 in *.
  split; unfold tsc_ok, tick_time_init, tsc_time_init, cpuload_init;
    cbn [tick ms100 second tsc interval last count init_tsc]; change (2 ^ 62) with 4611686018427387904; try lia.
  by eexists.
Qed.

Lemma wp_clocks w1 w (k : M bool) Q : others w1 = others w0 -> (forall t, is_Some (w_links w1 !! Head t)) -> templated w1 w ->
  (forall w', timed w1 w' -> wp k Q w') ->
  wp (lldp_init;; work_space_init_time;; now ← read_tsc; ws_mod (fun ws => ws <| ws_load := cpuload_init now |>);; k) Q w.
Proof using Hs L.
  intros Ho1 Hh [[O1 O2 O3 O4 O5 O6] Hc Hcs] HQ. rewrite Ho1 in O1.
  injection O1 as C1 C2 C3 C4 C5 C6 C7 C8. injection Ho1 as D1 D2 D3 D4 D5 D6 D7 D8. rewrite D1 in O4.
  pose proof (seat_parts _ _ O4) as (P1 & _).
  destruct (su_clock _ _ _ _ _ _ _ _ Hs) as (K1 & K2 & K3 & K4). pose proof (su_prompt _ _ _ _ _ _ _ _ Hs (w_io w)) as K5.
  apply wp_bind, wp_lldp_init; [rewrite P1; exact (lk_local _ _ _ (su_link _ _ _ _ _ _ _ _ Hs))
    |rewrite C6; exact (su_lldp _ _ _ _ _ _ _ _ Hs)|].
  intros lldp packet Hlen. unfold work_space_init_time. apply wp_bind, wp_bind.
  destruct (socket_timer_init_heads (w_links w)) as (m & Em & H1 & H2); [intros t; rewrite O3; apply Hh|].
  eapply wp_link_op; [exact Em|]. apply wp_bind, wp_gets. rsimpl. apply wp_bind, wp_read_tsc. cbv zeta. apply wp_ws_mod.
  apply wp_bind, wp_read_tsc. cbv zeta. apply wp_bind, wp_ws_mod. apply HQ. rsimpl. rewrite <- C2 in *.
  split; rsimpl.
  - by rewrite C1, C3, C5, C2.
  - exact Hlen.
  - exact O2.
  - exact H1.
  - intros i. by rewrite H2, O3.
  - exact O4.
  - exact O5.
  - exact O6.
  - intros c. specialize (Hc c). by destruct c.
  - exact Hcs.
  - by apply start_clock.
Qed.
(** ** Sockets *)

Definition pool : gset N := pool_set (se_base s) (se_num s).

(** The worker [w] as [work_space_alloc] leaves it. *)
Record allocated (w1 : world) : Prop := {
  al_others : others w1 = others w0;
  al_ws : w_ws w1 = work_space_zero (se_base s) (se_num s);
  al_heads : forall t, is_Some (w_links w1 !! Head t);
  al_pool : forall k, 0 <= k < se_num s -> w_sockets w1 !! (se_base s + Z.to_N k)%N = Some socket_zero
    /\ is_Some (w_links w1 !! Sock (se_base s + Z.to_N k)%N);
}.

(** The worker [w] with its table of sockets. *)
Record filled (w : world) : Prop := {
  fi_kept : (w_cfg w, w_peers w, w_free_pool w, w_tick w) = (w_cfg w0, w_peers w0, w_free_pool w0, w_tick w0);
  fi_lldp : length (w_lldp_packet w) = 92%nat;
  fi_heads : forall t, w_links w !! Head t = Some (SocketNode (Head t) (Head t));
  fi_seat : seat_ws (w_ws w) = seat_of worker s (w_cfg w0);
  fi_dip : dip_ok (w_ws w);
  fi_caches : forall c, good_cache room (cache_data c (w_ws w));
  fi_clock : clock_ok (ws_time (w_ws w)) (ws_load (w_ws w));
  fi_socks : forall i, i ∈ pool -> (exists sk, w_sockets w !! i = Some sk /\ core sk = (SK_CLOSED, 0))
    /\ w_links w !! Sock i = Some (SocketNode (Sock i) (Sock i));
  fi_lookup : forall cip sip cp sp i, socket_common_lookup (w_st w) cip sip cp sp = Some i -> i ∈ pool;
  fi_pool : (st_pool_base (w_st w), st_pool_num (w_st w), st_pool_next (w_st w)) = (se_base s, se_num s, 0);
  fi_hash : length (st_socket_table_hash (w_st w)) = 256%nat;
}.

Lemma table_config_ext w w' first : w_cfg w' = w_cfg w -> ws_port (w_ws w') = ws_port (w_ws w) ->
  ws_queue_id (w_ws w') = ws_queue_id (w_ws w) -> st_pool_num (w_st w') = st_pool_num (w_st w) ->
  table_config w first -> table_config w' first.
Proof using Type.
  intros E1 E2 E3 E4 [H1 H2 H3 H4 H5 H6 H7 H8].
  assert (is_fdir w' = is_fdir w) as F1 by (unfold is_fdir; by rewrite E1).
  assert (server_ip_first w' = server_ip_first w) as F2 by (unfold server_ip_first; by rewrite E2, E3, F1).
  assert (server_ip_count w' = server_ip_count w) as F3 by (unfold server_ip_count; by rewrite E2, F1).
  assert (client_ranges w' = client_ranges w) as F4 by (unfold client_ranges; by rewrite E1, E2).
  assert (client_ips w' = client_ips w) as F5 by (unfold client_ips; by rewrite F4).
  assert (client_port_count w' = client_port_count w) as F6 by (unfold client_port_count; by rewrite E1).
  split; rewrite ?F2, ?F3, ?F4, ?F5, ?F6, ?E1, ?E4; done.
Qed.

Lemma good_rewritten d d' : rewritten d d' -> good_cache room d -> good_cache room d'.
Proof using Type.
  intros [Hl E] [[H1 H2] H3]. assert (md_total_len d' = md_total_len d) as Et by by rewrite E.
  assert (md_l2_len d' = md_l2_len d) as E2 by by rewrite E.
  unfold good_cache, has_dmac in *. by rewrite Et, E2, Hl.
Qed.

(** What the filling keeps of the worker. *)
Lemma rewritten_worker ws ws' : caches_rewritten ws ws' -> (forall c, good_cache room (cache_data c ws)) ->
  (forall c, good_cache room (cache_data c ws')) /\ seat_ws ws' = seat_ws ws /\ ws_time ws' = ws_time ws
  /\ ws_load ws' = ws_load ws /\ ws_change_dip ws' = ws_change_dip ws /\ ws_dip_list ws' = ws_dip_list ws.
Proof using Type.
  intros (a & b & c & -> & Ha & Hb & Hc) Hg. split_and!; try reflexivity.
  intros x. pose proof (Hg Cache_tcp) as G1. pose proof (Hg Cache_tcp_opt) as G2. pose proof (Hg Cache_tcp_data) as G3.
  destruct x; cbn [cache_data] in *; rsimpl; by eapply good_rewritten.
Qed.

Lemma initial_closed cfg server c sk : initial cfg server c sk -> core sk = (SK_CLOSED, 0).
Proof using Type.
  intros (seq & _ & E). assert (core (csum_clear sk) = (SK_CLOSED, 0)) as H by (rewrite E; unfold conn_socket; by destruct server).
  by destruct sk.
Qed.
Lemma timed_table w1 w : allocated w1 -> timed w1 w -> table_config w (se_first s) /\ fresh_pool w /\ csum_ready (w_cfg w) (w_ws w).
Proof using Hs.
  intros [A1 A2 A3 A4] [T1 T2 T3 T4 T5 T6 T7 T8 T9 T10 T11]. injection T1 as C1 _ _ _.
  destruct (seat_parts _ _ T6) as (P1 & P2 & _).
  assert (w_st w = socket_table_zero (se_base s) (se_num s)) as Est by (rewrite T8; unfold w_st; by rewrite A2).
  split_and!.
  - eapply table_config_ext; [..|exact (su_table _ _ _ _ _ _ _ _ Hs)]; [exact C1|exact P1|exact P2|by rewrite Est].
  - split; rewrite ?Est; [done|done|]. intros k Hk. rewrite T3, T5. exact (A4 k Hk).
  - by rewrite C1.
Qed.

Lemma wp_sockets w1 w (k : M bool) Q : allocated w1 -> timed w1 w -> (forall w', filled w' -> wp k Q w') ->
  wp (ret ← socket_table_init rand_r; if ret <? 0 then mret false else k) Q w.
Proof using Hs.
  intros Ha Ht HQ. destruct (timed_table _ _ Ha Ht) as (Hc & Hf & Hr).
  destruct Ha as [A1 A2 A3 A4], Ht as [T1 T2 T3 T4 T5 T6 T7 T8 T9 T10 T11].
  assert (w_st w = socket_table_zero (se_base s) (se_num s)) as Est by (rewrite T8; unfold w_st; by rewrite A2).
  destruct (table_setup_bounds _ _ Hc) as [Hb Hsize]. pose proof (tc_pool _ _ Hc) as Hpool. pose proof (tc_pool_fits _ _ Hc) as Hfit.
  destruct (su_num _ _ _ _ _ _ _ _ Hs) as [_ Hnum].
  rewrite Est in Hpool, Hfit. cbn [st_pool_num socket_table_zero] in Hpool, Hfit.
  apply wp_bind. eapply (wp_socket_table_init rand_r w (se_first s)); [exact Hc|exact Hf|exact Hr|].
  intros w' [F1 F2 F3 F4 F5 F6]. change (0 <? 0) with false. cbv iota. apply HQ.
  set (w1' := with_table w (table_setup w (se_first s))) in *.
  change (w_st w1') with (table_setup w (se_first s)) in *.
  destruct (rewritten_worker _ _ F2) as (R1 & R2 & R3 & R4 & R5 & R6); [intros c; specialize (T9 c); by destruct c|].
  change (others w1') with (others w) in F1. injection F1 as C1 C2 C3 C4 C5 C6 C7 C8. injection T1 as K1 K2 K3 K4.
  assert (forall i, i ∈ pool -> exists k, 0 <= k < se_num s /\ i = pool_sock (table_setup w (se_first s)) k) as Hin.
  { intros i Hi. unfold pool in Hi. rewrite elem_pool_set in Hi by lia. destruct Hi as (j & Hj & ->). exists j. split; [done|].
    unfold pool_sock, table_setup. cbn [st_pool_base]. by rewrite Est. }
  split.
  - change ((w_cfg w', w_peers w', w_free_pool w', w_tick w') = (w_cfg w0, w_peers w0, w_free_pool w0, w_tick w0)).
    by rewrite C1, C2, C3, C5, K1, K2, K3, K4.
  - change (length (w_lldp_packet w') = 92%nat). by rewrite C6.
  - intros t. change (w_links w' !! Head t = Some (SocketNode (Head t) (Head t))). rewrite F6. apply T4.
  - change (seat_ws (w_ws w') = seat_of worker s (w_cfg w0)). rewrite R2. exact T6.
  - unfold dip_ok. change (ws_change_dip (w_ws w') = true -> 0 <= list_next (ws_dip_list (w_ws w')) < list_num (ws_dip_list (w_ws w'))).
    rewrite R5, R6. exact T7.
  - intros c. specialize (R1 c). by destruct c.
  - change (clock_ok (ws_time (w_ws w')) (ws_load (w_ws w'))). rewrite R3, R4. exact T11.
  - intros i Hi. destruct (Hin i Hi) as (j & Hj & ->). destruct (F4 j) as (sk & E1 & E2 & E3).
    { rewrite Est. exact Hj. }
    split; [|exact E3]. exists sk. split; [exact E1|by eapply initial_closed].
  - intros cip sip cp sp i Hl. unfold pool. apply elem_pool_set; [lia|].
    apply (lookup_in_pool w1' (client_ips w)) in Hl as (j & Hj & ->).
    + change (w_st w1') with (table_setup w (se_first s)) in *. rewrite Hsize, <- Hpool in Hj. exists j. split; [exact Hj|].
      unfold pool_sock, table_setup. cbn [st_pool_base]. by rewrite Est.
    + exact Hb.
    + exists (st_pool_num (w_st w)). unfold w_st at 1. rsimpl. rewrite F3. reflexivity.
    + change (w_st w1') with (table_setup w (se_first s)). rewrite Hsize, <- Hpool. exact Hfit.
  - unfold w_st. rsimpl. change (ws_socket_table (w_ws w')) with (w_st w'). rewrite F3. unfold table_setup. rewrite Est. reflexivity.
  - unfold w_st. rsimpl. change (ws_socket_table (w_ws w')) with (w_st w'). rewrite F3. unfold table_setup. rewrite Est. reflexivity.
Qed.
(** ** Launch control *)

(** [w'] is [w] but for the number of sockets of a launch, the launch control
    and the history. *)
Definition launch_only (w w' : world) : Prop := exists n cl io,
  w' = w <| w_cfg ::= fun c => c <| c_launch_num := n |> |> <| w_ws ::= fun ws => ws <| ws_client_launch := cl |> |>
         <| w_io := io |>.

Lemma launch_only_refl w : launch_only w w.
Proof using Type.
  exists (c_launch_num (w_cfg w)), (ws_client_launch (w_ws w)), (w_io w).
  destruct w as [c ? ws ? ? ? ? ? ? ? ? ?]. destruct c, ws. reflexivity.
Qed.
Lemma launch_only_cl w w' f : launch_only w w' ->
  launch_only w (w' <| w_ws ::= fun ws => ws <| ws_client_launch ::= f |> |>).
Proof using Type. intros (n & cl & io & ->). exists n, (f cl), io. reflexivity. Qed.
Lemma launch_only_io w w' e : launch_only w w' -> launch_only w (w' <| w_io ::= cons e |>).
Proof using Type. intros (n & cl & io & ->). exists n, cl, (e :: io). reflexivity. Qed.
Lemma launch_only_cfg w w' m : launch_only w w' -> launch_only w (w' <| w_cfg ::= fun c => c <| c_launch_num := m |> |>).
Proof using Type. intros (n & cl & io & ->). exists m, cl, io. reflexivity. Qed.

Lemma launch_num_auto_range cps : 0 <= launch_num_auto cps <= 10.
Proof using Type. unfold launch_num_auto. cbn [foldl]. repeat case_match; lia. Qed.

Lemma wp_client_init w Q : 0 <= c_launch_num (w_cfg w) ->
  is_Some (client_assign_task (w_cfg w) (ws_id (w_ws w)) (c_cps (w_cfg w))) ->
  is_Some (client_assign_task (w_cfg w) (ws_id (w_ws w)) (c_cc (w_cfg w))) ->
  (forall w', launch_only w w' -> Q 0 w') -> wp client_init Q w.
Proof using Type.
  intros Hn [cps E1] [cc E2] HQ. unfold client_init. wp_reads. unfold id.
  apply wp_bind. eapply wp_lift; [exact E1|]. apply wp_bind. eapply wp_lift; [exact E2|].
  apply wp_if; intros Hz; [apply wp_ret, HQ, launch_only_refl|]. apply wp_bind.
  assert (forall w', launch_only w w' -> 0 < c_launch_num (w_cfg w') ->
    wp (launch_num ← cfg_get c_launch_num; hz ← TSC_PER_SEC;
        cl_mod (fun cl => cl <| cl_cc := cc |>);;
        (if cps <=? launch_num then
           cl_mod (fun cl => cl <| cl_launch_num := u32 cps |> <| cl_launch_interval := hz |>)
         else
           (let per_second := cps / launch_num in
            if per_second =? 0 then st_fail DivByZero
            else cl_mod (fun cl => cl <| cl_launch_num := launch_num |> <| cl_launch_interval := hz / per_second |>)));;
        cl_mod (fun cl => cl <| cl_launch_interval_default := cl_launch_interval cl |>);;
        now ← read_tsc; wait ← cfg_get c_wait;
        cl_mod (fun cl => cl <| cl_launch_next := u64 (now + u64 (hz * wait)) |>);; mret 0) Q w') as Hrest.
  { intros w' Hl Hpos. wp_reads. apply wp_bind, wp_ws_mod. apply wp_bind.
    assert (forall w2, launch_only w w2 -> wp (cl_mod (fun cl => cl <| cl_launch_interval_default := cl_launch_interval cl |>);;
        now ← read_tsc; wait ← cfg_get c_wait;
        cl_mod (fun cl => cl <| cl_launch_next := u64 (now + u64 (g_tsc_per_second (w_tick w') * wait)) |>);; mret 0) Q w2) as Hend.
    { intros w2 H2. apply wp_bind, wp_ws_mod. apply wp_bind, wp_read_tsc. cbv zeta. wp_reads. apply wp_bind, wp_ws_mod, wp_ret, HQ.
      by apply launch_only_cl, launch_only_io, launch_only_cl. }
    apply wp_if; intros Hcps; bool_facts; [apply wp_ws_mod, Hend; by repeat apply launch_only_cl|].
    cbv zeta. apply wp_if; intros Hq; bool_facts.
    - exfalso. assert (1 <= cps / c_launch_num (w_cfg w')) by (apply Z.div_le_lower_bound; lia). lia.
    - apply wp_ws_mod, Hend. by repeat apply launch_only_cl. }
  apply wp_when; intros Hz'; bool_facts.
  - cbv zeta. apply wp_modify, Hrest; [apply launch_only_cfg, launch_only_refl|]. rsimpl.
    pose proof (launch_num_auto_range cps). destruct (Z.eqb_spec (launch_num_auto cps) 0); [by vm_compute|lia].
  - apply Hrest; [apply launch_only_refl|lia].
Qed.
(** ** RSS *)

Definition queue_ok (o : option work_space) : Prop := forall ws, o = Some ws -> 0 <= ws_queue_id ws < 256.

Lemma rss_hash_some port_id i all hash : Forall queue_ok all -> length hash = 256%nat ->
  exists hash', rss_hash port_id i all hash = Some hash' /\ length hash' = 256%nat.
Proof using Type.
  intros Hall. revert i hash. induction Hall as [|o all Ho Hall IH]; intros i hash Hl; cbn [rss_hash]; [by eexists|].
  destruct o as [ws|]; [|by apply IH]. destruct (negb _); [by apply IH|].
  rewrite aset_some by (specialize (Ho _ eq_refl); lia). cbn [mbind option_bind]. apply IH. by rewrite length_insert.
Qed.

Lemma wp_init_rss w Q : c_flow (w_cfg w) ≠ FLOW_RSS -> 0 <= ws_id (w_ws w) < Z.of_nat (length (w_peers w)) ->
  Forall queue_ok (w_peers w) -> 0 <= ws_queue_id (w_ws w) < 256 -> length (st_socket_table_hash (w_st w)) = 256%nat ->
  (forall rss_id rss_num hash, length hash = 256%nat ->
    Q tt (with_table w ((w_st w) <| st_rss := false |> <| st_rss_id := rss_id |> <| st_rss_num := rss_num |>
                               <| st_socket_table_hash := hash |>))) ->
  wp work_space_init_rss Q w.
Proof using Type.
  intros Hf Hid Hp Hq Hh HQ. unfold work_space_init_rss, table_mod. wp_reads. unfold id.
  apply wp_bind, wp_ws_mod. apply wp_bind. eapply wp_lift; [by apply aset_some|].
  destruct (rss_hash_some (np_id (ws_port (w_ws w))) 0 (<[Z.to_nat (ws_id (w_ws w)) := Some (w_ws w)]> (w_peers w)) (st_socket_table_hash (ws_socket_table (w_ws w)))) as (hash & E2 & Hh2).
  - apply list.Forall_insert; [done|]. by intros ws [= <-].
  - exact Hh.
  - apply wp_bind. eapply wp_lift; [exact E2|]. apply wp_ws_mod.
    destruct (Z.eqb_spec (c_flow (w_cfg w)) FLOW_RSS); [done|]. apply (HQ _ _ hash Hh2).
Qed.
(** ** The invariant *)

Record started (w : world) : Prop := {
  sd_inv : inv 3 pool room w q_none;
  sd_clock : clock_ok (ws_time (w_ws w)) (ws_load (w_ws w));
  sd_seat : seat_ws (w_ws w) = seat_of worker s (w_cfg w0);
  sd_cfg : w_cfg w = (w_cfg w0) <| c_launch_num := c_launch_num (w_cfg w) |>;
}.

Lemma closed_none w : (forall i, i ∈ pool -> exists sk, w_sockets w !! i = Some sk /\ core sk = (SK_CLOSED, 0)) ->
  socks_ok 3 pool (w_sockets w) q_none /\ open_set pool (w_sockets w) = ∅.
Proof using Type.
  intros H. split; [split|].
  - intros i Hi. destruct (H i Hi) as (sk & E & [= Est Er]). exists sk. split; [exact E|]. unfold retr_ok. rewrite Est, Er.
    split; [lia|]. split; [|discriminate]. intros Hne. by destruct (Hne eq_refl).
  - intros t i Hi. by apply not_elem_of_nil in Hi.
  - apply set_eq. intros i. unfold open_set. rewrite elem_of_filter. split; [|by intros ?%not_elem_of_empty].
    intros [Ho Hi]. destruct (H i Hi) as (sk & E & [= Est _]). unfold openb in Ho. rewrite E, Est in Ho. discriminate.
Qed.

Lemma started_of w n cl io rss_id rss_num hash : filled w -> length hash = 256%nat ->
  started (with_table (w <| w_stats := net_stats_zero |> <| w_cfg ::= fun c => c <| c_launch_num := n |> |>
      <| w_ws ::= fun ws => ws <| ws_client_launch := cl |> |> <| w_io := io |>)
    ((w_st w) <| st_rss := false |> <| st_rss_id := rss_id |> <| st_rss_num := rss_num |> <| st_socket_table_hash := hash |>)).
Proof using Hs.
  intros [F1 F2 F3 F4 F5 F6 F7 F8 F9 F10 F11] Hh. injection F1 as C1 C2 C3 C4.
  destruct (seat_parts _ _ F4) as (P1 & P2 & P3 & P4 & P5 & P6 & P7 & _ & P8).
  destruct (closed_none w) as [Hsocks Hopen]; [intros i Hi; exact (proj1 (F8 i Hi))|].
  destruct (su_num _ _ _ _ _ _ _ _ Hs) as [_ Hnum]. injection F10 as T1 T2 T3.
  split; [split| | |].
  - apply repr_fresh; [exact F3|]. intros i Hi. exact (proj2 (F8 i Hi)).
  - exact Hsocks.
  - change (0 = u64 (Z.of_nat (size (open_set pool (w_sockets w))))). rewrite Hopen, size_empty. reflexivity.
  - split; rsimpl.
    + exists []. change (w_txq _) with (ws_tx_queue (w_ws w)). rewrite P6. split; [|by vm_compute].
      split; [by split|by vm_compute|exact (su_burst _ _ _ _ _ _ _ _ Hs)|reflexivity].
    + change (w_free_pool _) with (w_free_pool w). rewrite C3, (su_pool _ _ _ _ _ _ _ _ Hs). by vm_compute.
    + reflexivity.
    + exact F9.
    + change (0 <= st_pool_next (w_st w) < st_pool_num (w_st w)). rewrite T2, T3. lia.
    + intros k Hk. change (0 <= k < st_pool_num (w_st w)) in Hk. rewrite T2 in Hk. unfold pool. apply elem_pool_set; [lia|].
      exists k. split; [exact Hk|]. unfold pool_sock. change (st_pool_base _) with (st_pool_base (w_st w)). by rewrite T1.
    + change (ws_ack_delay _) with (ws_ack_delay (w_ws w)). rewrite P7. constructor.
    + intros c. specialize (F6 c). destruct F6 as [G _]. by destruct c.
    + exact F5.
    + split; rsimpl.
      * change (ws_port _) with (ws_port (w_ws w)). rewrite P1. exact (su_sized _ _ _ _ _ _ _ _ Hs).
      * change (ws_vxlan (w_ws w) = true -> exists vx, np_vxlan (ws_port (w_ws w)) = Some vx /\ range_sized (vx_vtep_local vx)).
        rewrite P1, P5. exact (su_vtep _ _ _ _ _ _ _ _ Hs).
      * intros c. specialize (F6 c). destruct F6 as [_ G]. by destruct c.
      * change (w_peers _) with (w_peers w). rewrite C2. eapply list.Forall_impl; [exact (su_peers _ _ _ _ _ _ _ _ Hs)|]. intros o Ho ws c E. by apply Ho.
      * exact F2.
  - exact F7.
  - exact F4.
  - change ((w_cfg w) <| c_launch_num := n |> = (w_cfg w0) <| c_launch_num := n |>). by rewrite C1.
Qed.
(** ** The whole of [work_space_new] *)

Lemma wp_finish w : filled w ->
  wp (stat_mod (fun _ => net_stats_zero);; (if c_server (w_cfg w0) then server_init else client_init);;
      work_space_init_rss;; mret true) (fun b w' => b = true /\ started w') w.
Proof using Hs.
  intros Hf. pose proof Hf as [F1 F2 F3 F4 F5 F6 F7 F8 F9 F10 F11]. injection F1 as C1 C2 C3 C4.
  destruct (seat_parts _ _ F4) as (P1 & P2 & _ & _ & _ & _ & _ & _ & P8). destruct (su_worker _ _ _ _ _ _ _ _ Hs) as [Hw1 Hw2].
  apply wp_bind, wp_modify. set (wz := w <| w_stats ::= fun _ => net_stats_zero |>).
  assert (forall w', launch_only wz w' -> wp (work_space_init_rss;; mret true) (fun b w' => b = true /\ started w') w') as Hrss.
  { intros w' (n & cl & io & ->). apply wp_bind, wp_init_rss.
    - change (c_flow (w_cfg w) ≠ FLOW_RSS). rewrite C1. exact (su_flow _ _ _ _ _ _ _ _ Hs).
    - change (0 <= ws_id (w_ws w) < Z.of_nat (length (w_peers w))). rewrite P8, C2. lia.
    - change (Forall queue_ok (w_peers w)). rewrite C2. eapply list.Forall_impl; [exact (su_peers _ _ _ _ _ _ _ _ Hs)|].
      intros o Ho ws E. by apply Ho.
    - change (0 <= ws_queue_id (w_ws w) < 256). rewrite P2. exact (su_queue _ _ _ _ _ _ _ _ Hs).
    - exact F11.
    - intros rss_id rss_num hash Hh. apply wp_ret. split; [reflexivity|]. exact (started_of w n cl io rss_id rss_num hash Hf Hh). }
  apply wp_bind. destruct (c_server (w_cfg w0)).
  - apply wp_ret, Hrss, launch_only_refl.
  - destruct (su_shares _ _ _ _ _ _ _ _ Hs) as [S1 S2]. apply wp_client_init.
    + change (0 <= c_launch_num (w_cfg w)). rewrite C1. exact (su_launch _ _ _ _ _ _ _ _ Hs).
    + change (is_Some (client_assign_task (w_cfg w) (ws_id (w_ws w)) (c_cps (w_cfg w)))). rewrite C1, P8. exact S1.
    + change (is_Some (client_assign_task (w_cfg w) (ws_id (w_ws w)) (c_cc (w_cfg w)))). rewrite C1, P8. exact S2.
    + intros w' Hl. by apply Hrss.
Qed.

Lemma wp_alloc Q : (forall w1, allocated w1 -> Q true w1) -> wp (work_space_alloc alloc null worker) Q w0.
Proof using Hs.
  intros HQ. unfold work_space_alloc. wp_reads. unfold id. destruct (su_num _ _ _ _ _ _ _ _ Hs) as [Hn Hpos].
  apply wp_bind. eapply wp_lift; [exact Hn|]. rewrite (su_alloc _ _ _ _ _ _ _ _ Hs). apply wp_bind, wp_modify, wp_ret, HQ.
  split; rsimpl.
  - reflexivity.
  - reflexivity.
  - intros t. rewrite lookup_union_r by apply zero_nodes_head. apply (su_heads _ _ _ _ _ _ _ _ Hs).
  - intros k Hk. replace (se_base s + Z.to_N k)%N with (se_base s + N.of_nat (Z.to_nat k))%N by lia. split.
    + apply lookup_union_Some_l, zero_sockets_lookup. lia.
    + exists null. apply lookup_union_Some_l, zero_nodes_lookup. lia.
Qed.

Lemma wp_build w1 : allocated w1 ->
  wp (work_space_build rte_pktmbuf_pool_create rand_r http_req http_rsp g_udp_data worker)
    (fun b w' => b = true /\ started w') w1.
Proof using Hs Hpools Hroom L.
  intros Ha. pose proof (others_cfg _ _ (al_others _ Ha)) as Ec. unfold work_space_build. wp_reads. unfold id.
  destruct (su_payload _ _ _ _ _ _ _ _ Hs) as [ps Eps]. destruct (su_texts _ _ _ _ _ _ _ _ Hs) as (T1 & T2 & _).
  apply wp_bind. eapply wp_lift; [rewrite Ec; exact Eps|].
  eapply (wp_open alloc http_req http_rsp g_udp_data worker s w0 w1 ps); [exact Hs|exact Ec|exact (al_ws _ Ha)|].
  intros w Ho Hsame. apply wp_bind. eapply wp_lift; [exact T1|]. apply wp_bind. eapply wp_lift; [exact T2|].
  eapply wp_templates; [exact Ho|exact Hsame|exact Ec|by intros c; rewrite (al_ws _ Ha); destruct c|].
  intros w2 Ht. eapply wp_clocks; [exact (al_others _ Ha)|exact (al_heads _ Ha)|exact Ht|].
  intros w3 Hti. eapply wp_sockets; [exact Ha|exact Hti|]. rewrite Ec. exact wp_finish.
Qed.

Lemma wp_work_space_new :
  wp (work_space_new alloc null rte_pktmbuf_pool_create rand_r http_req http_rsp g_udp_data worker)
    (fun b w' => b = true /\ started w') w0.
Proof using Hs Hpools Hroom L.
  unfold work_space_new. apply wp_bind, wp_alloc. intros w1 Ha. change (negb true) with false. cbv iota.
  apply wp_bind. eapply wp_mono; [exact (wp_build w1 Ha)|]. intros b w' [-> Hst]. apply wp_ret. by split.
Qed.
End Startup.

(** ** The thread of a worker *)

Section Thread.
Context {D : Dpdk} {room : Z} {L : DpdkLaws D room} (Hroom : LOOP_ROOM <= room) (socks : gset N).
Abbreviation safe := (safe (room := room) socks).
Abbreviation worker_ok := (worker_ok (room := room) socks).

Lemma runs_port_clear n port queue_id w : env_ok socks room w -> runs (room := room) socks (port_clear n port queue_id) w.
Proof using L Hroom.
  revert w. induction n as [|n IH]; intros w He; cbn [port_clear]; [by apply runs_ret|].
  eapply (runs_bind (room := room) socks _ _ (fun _ => True)).
  - eapply wp_mono; [apply (wp_rx_burst (room := room) socks); [unfold LOOP_ROOM in Hroom; lia|exact He]|]. intros ms w1 (H & _). by split.
  - intros ms w1 H1 _. destruct ms as [|m ms]; [by apply runs_ret|].
    eapply (runs_bind (room := room) socks _ _ (fun _ => True)).
    + eapply wp_mono; [apply (runs_free (room := room) socks); exact H1|]. intros [] w2 H2. by split.
    + intros [] w2 H2 _. by apply IH.
Qed.

Lemma worker_ok_start w : worker_ok w -> worker_ok (w <| w_ws ::= fun ws => ws <| ws_start := true |> |>).
Proof using Type.
  intros [[q [H1 H2 H3 H4]] Hc]. split; [|exact Hc]. exists q. split; [exact H1|exact H2|exact H3|by destruct H4].
Qed.

(** The clearing of the card's queue and the wait for the gateway. *)
Lemma wp_gateway w : worker_ok w ->
  (forall ws, (ws_vxlan ws, ws_ipv6 ws) = (ws_vxlan (w_ws w), ws_ipv6 (w_ws w)) -> wire ws) ->
  wp (ws ← ws_get id;
      port_clear (Z.to_nat NB_RXD) (ws_port_id ws) (ws_queue_id ws);;
      ret ← neigh_check_gateway;
      if ret <? 0 then mret false else ws_mod (fun ws => ws <| ws_start := true |>);; mret true)
    (fun up w' => worker_ok w' /\ options w' = options w /\ up = gateway_known w' /\ (up = true -> ws_start (w_ws w') = true)) w.
Proof using L Hroom.
  intros Hw Hall. wp_reads. unfold id.
  assert (safe (port_clear (Z.to_nat NB_RXD) (ws_port_id (w_ws w)) (ws_queue_id (w_ws w))) w) as Hclear
    by (apply safe_runs; [done|apply runs_port_clear]).
  apply wp_bind. eapply wp_mono; [exact Hclear|]. intros [] w1 [H1 E1]. unfold neigh_check_gateway. apply wp_bind. wp_reads. unfold id.
  eapply wp_mono; [apply (wp_neigh_check (room := room) socks Hroom); [exact H1|]|].
  - apply Hall. exact (f_equal snd E1).
  - intros r w2 (H2 & E2 & Hr). rewrite Hr by discriminate. rewrite E1 in E2. destruct (gateway_known w2) eqn:Hk.
    + change (0 <? 0) with false. cbv iota. apply wp_bind, wp_ws_mod, wp_ret.
      split; [by apply worker_ok_start|]. split; [exact E2|]. split; [by rewrite <- Hk|done].
    + change (-1 <? 0) with true. cbv iota. apply wp_ret. split; [exact H2|]. split; [exact E2|]. split; [by rewrite Hk|discriminate].
Qed.
End Thread.

(** C9: start-up ends well.  For a worker that the configuration provides
    for, [work_space_new] runs without a fault and returns a worker, whose
    sockets are all closed and unqueued, whose templates are whole frames that
    fit a packet, whose clocks run, and whose table leads every lookup into its
    own pool: the invariant of its loop. *)
Theorem work_space_new_ready {D : Dpdk} {room} {L : DpdkLaws D room} alloc null rte_pktmbuf_pool_create rand_r
    http_req http_rsp g_udp_data worker w s :
  HDR_ROOM <= room -> startup_ok alloc http_req http_rsp g_udp_data room worker w s ->
  (forall name, rte_pktmbuf_pool_create name (np_id (se_port s)) (se_queue_id s) = true) ->
  exists w', work_space_new alloc null rte_pktmbuf_pool_create rand_r http_req http_rsp g_udp_data worker w = Ok (true, w')
    /\ inv 3 (pool s) room w' q_none /\ clock_ok (ws_time (w_ws w')) (ws_load (w_ws w'))
    /\ seat_ws (w_ws w') = seat_of worker s (w_cfg w) /\ w_cfg w' = (w_cfg w) <| c_launch_num := c_launch_num (w_cfg w') |>.
Proof.
  intros Hroom Hs Hp.
  destruct (wp_ok _ _ _ (wp_work_space_new Hroom alloc null rte_pktmbuf_pool_create rand_r http_req http_rsp g_udp_data
    worker s w Hs Hp)) as (b & w' & E & -> & [H1 H2 H3 H4]).
  exists w'. by split_and!.
Qed.

(** The life of a worker.  Its thread starts without a fault; it waits
    for the gateway and goes on exactly if the gateway's address is known; then
    any number of iterations of its loop runs without a fault and keeps the
    invariant. *)
Theorem worker_life {D : Dpdk} {room} {L : DpdkLaws D room} alloc null rte_pktmbuf_pool_create rand_r
    http_req http_rsp g_udp_data worker w s :
  LOOP_ROOM <= room -> startup_ok alloc http_req http_rsp g_udp_data room worker w s ->
  (forall name, rte_pktmbuf_pool_create name (np_id (se_port s)) (se_queue_id s) = true) ->
  (forall ws, (ws_vxlan ws, ws_ipv6 ws) = (c_vxlan (w_cfg w), c_af (w_cfg w) =? AF_INET6) -> wire ws) ->
  timers_end (w_cfg w, c_flood (w_cfg w), (c_vxlan (w_cfg w), c_af (w_cfg w) =? AF_INET6)) ->
  exists up w1, lcore_start alloc null rte_pktmbuf_pool_create rand_r http_req http_rsp g_udp_data worker w = Ok (up, w1)
    /\ up = gateway_known w1 /\ (up = true -> ws_start (w_ws w1) = true)
    /\ exists body, init_run_loop (w_cfg w1) (w_ws w1) = Some body
    /\ forall n, exists r w2 q, run_iterations n body 0 w1 = Ok (r, w2) /\ inv 3 (pool s) room w2 q.
Proof.
  intros Hroom Hs Hp Hwire Hend. assert (HDR_ROOM <= room) as Hhdr by (unfold LOOP_ROOM in Hroom; lia).
  assert (wp (lcore_start alloc null rte_pktmbuf_pool_create rand_r http_req http_rsp g_udp_data worker)
    (fun up w1 => worker_ok (room := room) (pool s) w1 /\ up = gateway_known w1 /\ (up = true -> ws_start (w_ws w1) = true)
      /\ wire (w_ws w1) /\ timers_end (options w1) /\ is_Some (init_run_loop (w_cfg w1) (w_ws w1))) w) as Hstart.
  { unfold lcore_start. apply wp_bind. eapply wp_mono; [exact (wp_work_space_new Hhdr alloc null rte_pktmbuf_pool_create
      rand_r http_req http_rsp g_udp_data worker s w Hs Hp)|].
    intros b w1 (-> & [I1 I2 I3 I4]). change (negb true) with false. cbv iota.
    destruct (seat_parts worker s _ _ I3) as (_ & _ & P3 & _ & P5 & _ & _ & P8 & _).
    assert (options w1 = (w_cfg w1, c_flood (w_cfg w), (c_vxlan (w_cfg w), c_af (w_cfg w) =? AF_INET6))) as Eo
      by (unfold options; by rewrite P3, P5, P8).
    eapply wp_mono; [apply (wp_gateway (room := room) Hroom (pool s)); [by split; [by eexists|]|]|].
    - intros ws Ews. apply Hwire. by rewrite Ews, P3, P5.
    - intros up w2 (H1 & H2 & H3 & H4). rewrite Eo in H2.
      assert (wire (w_ws w2)) as Hw2 by (apply Hwire; exact (f_equal snd H2)).
      split_and!; [exact H1|exact H3|exact H4|exact Hw2| |].
      + rewrite H2, I4. exact Hend.
      + assert (w_cfg w2 = w_cfg w1) as -> by exact (f_equal (fun o => o.1.1) H2). rewrite I4. unfold init_run_loop.
        change (c_protocol (_ <| c_launch_num := _ |>)) with (c_protocol (w_cfg w)).
        destruct (su_proto _ _ _ _ _ _ _ _ Hs) as [[-> _]|[-> _]]; by eexists. }
  destruct (wp_ok _ _ _ Hstart) as (up & w1 & E & Hw & Hup & Hst & Hwire1 & Hend1 & [body Hbody]).
  exists up, w1. split_and!; [exact E|exact Hup|exact Hst|]. exists body. split; [exact Hbody|]. intros n.
  destruct (wp_ok _ _ _ (safe_iterations (pool s) Hroom _ _ _ n 0 w1 Hw eq_refl Hwire1 Hend1 Hbody)) as (r & w2 & E2 & [[[q I] _] _]).
  by exists r, w2, q.
Qed.

(** ** Example: a client with one thread and two connections *)

Definition demo_port : netif_port :=
  netif_port_zero <| np_client_ip_range := demo_range 167772161 |> <| np_server_ip_range := demo_range 167772162 |>
    <| np_local_ip_range := demo_range 167772161 |> <| np_gateway_mac := [2; 0; 0; 0; 0; 2] |>.
Definition demo_boot : world := World.Demo.demo_world
  <| w_cfg ::= fun c => c <| c_cpu_num := 1 |> <| c_ports := [demo_port] |> <| c_cps := 10 |> <| c_cc := 10 |>
       <| c_lport_min := 1 |> <| c_lport_max := 2 |> <| c_listen := 80 |> <| c_listen_num := 1 |> <| c_tx_burst := 8 |> |>
  <| w_peers := [None] |> <| w_sockets := ∅ |>.
Definition demo_texts : texts := Texts (chars "GET / HTTP/1.1") [] [].
Definition demo_seat : seat := Seat demo_port 0 2 (htonl 167772162) 0 demo_texts.

Lemma demo_rdtsc h : rte_rdtsc (Dpdk := Mbuf.Demo.dpdk) h = 1000 * Z.min (Z.of_nat (length h)) (10 ^ 12).
Proof. reflexivity. Qed.

Lemma demo_table : table_config (seated demo_boot demo_port 0 2 0) (htonl 167772162).
Proof.
  assert (client_ranges (seated demo_boot demo_port 0 2 0) = [demo_range 167772161]) as Hr by (vm_compute; reflexivity).
  split; [vm_compute; reflexivity|vm_compute; split_and!; done|vm_compute; split_and!; done|vm_compute; split_and!; done| | |
    vm_compute; reflexivity|vm_compute; reflexivity].
  - rewrite Hr. apply Forall_cons; [split; [by vm_compute|vm_compute; lia]|apply List.Forall_nil].
  - unfold client_ips. rewrite Hr. apply NoDup_singleton.
Qed.

Lemma demo_startup : startup_ok (H := Mbuf.Demo.dpdk) (fun _ => Some 0%N) [tx_request demo_texts] [[]] [[]] 256 0 demo_boot demo_seat.
Proof.
  split.
  - vm_compute; split_and!; done.
  - vm_compute; reflexivity.
  - vm_compute; split; done.
  - vm_compute; split; done.
  - reflexivity.
  - intros []; vm_compute; eexists; reflexivity.
  - reflexivity.
  - apply Forall_cons; [discriminate|apply List.Forall_nil].
  - reflexivity.
  - split; [reflexivity|reflexivity|discriminate].
  - split; [vm_compute; split; done|reflexivity|reflexivity|vm_compute; split_and!; done].
  - discriminate.
  - discriminate.
  - vm_compute; split_and!; done.
  - eexists; reflexivity.
  - left. split; [reflexivity|]. vm_compute; split; discriminate.
  - discriminate.
  - discriminate.
  - exact demo_table.
  - vm_compute; split_and!; done.
  - split; vm_compute; eexists; reflexivity.
  - vm_compute; discriminate.
  - intros h. rewrite !demo_rdtsc. change (g_tsc_per_second (w_tick demo_boot)) with 10000. cbn [length]. lia.
Qed.

Lemma work_space_new_ready_witness : exists w',
  work_space_new (D := Mbuf.Demo.dpdk) (fun _ => Some 0%N) (self 0) (fun _ _ _ => true) (fun seed => seed)
    [tx_request demo_texts] [[]] [[]] 0 demo_boot = Ok (true, w')
  /\ inv 3 (pool demo_seat) 256 w' q_none.
Proof.
  destruct (work_space_new_ready (L := Mbuf.Demo.laws) (fun _ => Some 0%N) (self 0) (fun _ _ _ => true) (fun seed => seed)
    [tx_request demo_texts] [[]] [[]] 0 demo_boot demo_seat) as (w' & E & H & _);
    [vm_compute; discriminate|exact demo_startup|reflexivity|].
  exists w'. split; [exact E|exact H].
Defined.

(** Without a gateway the thread ends; with one it runs. *)
Lemma worker_life_witness : exists up w1 body,
  lcore_start (D := Mbuf.Demo.dpdk) (fun _ => Some 0%N) (self 0) (fun _ _ _ => true) (fun seed => seed)
    [tx_request demo_texts] [[]] [[]] 0 demo_boot = Ok (up, w1)
  /\ up = gateway_known w1 /\ init_run_loop (D := Mbuf.Demo.dpdk) (w_cfg w1) (w_ws w1) = Some body
  /\ exists r w2, run_iterations 1000 body 0 w1 = Ok (r, w2).
Proof.
  destruct (worker_life (L := Mbuf.Demo.laws) (fun _ => Some 0%N) (self 0) (fun _ _ _ => true) (fun seed => seed)
    [tx_request demo_texts] [[]] [[]] 0 demo_boot demo_seat) as (up & w1 & E & Hup & _ & body & Hb & H).
  - vm_compute; discriminate.
  - exact demo_startup.
  - reflexivity.
  - intros ws _ h p q n m Hm. by apply elem_of_nil in Hm.
  - right. reflexivity.
  - exists up, w1, body. split; [exact E|]. split; [exact Hup|]. split; [exact Hb|].
    destruct (H 1000%nat) as (r & w2 & q & E2 & _). by exists r, w2.
Defined.
