(* ===== verification/ConfigAccept.v ===== *)
(** * ConfigAccept: what the checks of a configuration establish

    The checks of [ConfigCheck] after a file that [ConfigInv] accepts: none
    reads outside an array or divides by zero, and a configuration that passes
    them all is one that the workers can be started with ([accepted]). *)

From S2P Require Import Prelude IpRange Tick Config Mbuf NetStats World HttpParse Payload.
From S2P Require Import SocketTable SocketTableInv ConfigNumber ConfigKeyword ConfigParse ConfigCheck ConfigInv.

(** ** Searches and lists *)

Lemma below_elem n i : i ∈ below n <-> 0 <= i < n.
Proof.
  unfold below. rewrite list_elem_of_fmap. split.
  - intros (k & -> & Hk%elem_of_seq). lia.
  - intros Hi. exists (Z.to_nat i). split; [lia|]. apply elem_of_seq. lia.
Qed.

Lemma exists_ok_some {A} (f : A -> option bool) l : (forall x, x ∈ l -> is_Some (f x)) -> is_Some (exists_ok f l).
Proof.
  induction l as [|x l IH]; intros H; cbn [exists_ok]; [by eexists|].
  destruct (H x) as [b ->]; [left|]. cbn. destruct b; [by eexists|]. apply IH. intros y Hy. apply H. by right.
Qed.

Lemma exists_ok_false {A} (f : A -> option bool) l x : exists_ok f l = Some false -> x ∈ l -> f x = Some false.
Proof.
  induction l as [|y l IH]; intros E Hx; [by apply elem_of_nil in Hx|]. cbn [exists_ok] in E.
  apply bind_Some in E as (b & Eb & E). destruct b; [done|]. apply elem_of_cons in Hx as [->|Hx]; [done|by apply IH].
Qed.

(** Entries at different positions are a pair. *)
Lemma pairs_lookup {A} (l : list A) i j x y : l !! i = Some x -> l !! j = Some y -> i ≠ j -> (x, y) ∈ pairs l.
Proof.
  intros Hi Hj Hne. unfold pairs. apply list_elem_of_join. exists ((fun y => (x, y)) <$> delete i l). split.
  - apply list_elem_of_fmap. exists y. split; [done|]. apply list_elem_of_lookup. destruct (decide (j < i)%nat).
    + exists j. by rewrite list_lookup_delete_lt.
    + exists (j - 1)%nat. rewrite list_lookup_delete_ge by lia. by replace (S (j - 1)) with j by lia.
  - apply elem_of_lookup_imap. by exists i, x.
Qed.

Lemma pairs_elem {A} (l : list A) x y : (x, y) ∈ pairs l -> x ∈ l /\ y ∈ l.
Proof.
  unfold pairs. rewrite list_elem_of_join. intros (ps & Hxy & Hps).
  apply elem_of_lookup_imap in Hps as (i & z & -> & Hz). apply list_elem_of_fmap in Hxy as (w & [= -> ->] & Hw).
  split; [by eapply list_elem_of_lookup_2|]. revert Hw. rewrite list_elem_of_lookup. intros (j & Hj).
  destruct (decide (j < i)%nat).
  - rewrite list_lookup_delete_lt in Hj by done. by eapply list_elem_of_lookup_2.
  - rewrite list_lookup_delete_ge in Hj by lia. by eapply list_elem_of_lookup_2.
Qed.

(** The ranges in use. *)
Lemma group_ranges P g r : group_ok P g -> r ∈ for_each_ip_range g -> P r.
Proof.
  intros [H1 H2 H3 H4] (i & Hi)%list_elem_of_lookup. unfold for_each_ip_range in Hi.
  apply lookup_take_Some in Hi as [Hi Hlt]. apply (H3 (Z.of_nat i)); [lia|]. unfold aget.
  destruct (Z.leb_spec 0 (Z.of_nat i)); [|lia]. by rewrite Nat2Z.id.
Qed.

Lemma range_get_some r i : range_wf r -> 0 <= i < num r -> exists x, ip_range_get r i = Some x /\ range_member r x.
Proof.
  intros [H1 H2 H3 H4 H5] Hi. unfold ip_range_get. destruct (Z.eqb_spec (num r) 0); [lia|].
  rewrite Z.mod_small, wrap_small by (unfold in_u; change (2 ^ 8) with 256; lia).
  destruct (H4 i Hi) as (x & Hx & _). exists x. split; [done|]. by exists i.
Qed.

Lemma overlap_some r0 r1 : range_wf r0 -> range_wf r1 -> is_Some (config_ip_range_overlap r0 r1).
Proof.
  intros H0 H1. apply exists_ok_some. intros i Hi%below_elem. apply exists_ok_some. intros j Hj%below_elem.
  unfold ip_range_get2. destruct (range_get_some r0 i H0 Hi) as (x & -> & _), (range_get_some r1 j H1 Hj) as (y & -> & _).
  cbn. by eexists.
Qed.

(** Ranges without a common address. *)
Definition apart (r0 r1 : ip_range) : Prop := forall i j a b, 0 <= i < num r0 -> 0 <= j < num r1 ->
  ip_range_get2 r0 i = Some a -> ip_range_get2 r1 j = Some b -> a ≠ b.
Lemma overlap_false r0 r1 : config_ip_range_overlap r0 r1 = Some false -> apart r0 r1.
Proof.
  intros E i j a b Hi Hj Ea Eb. apply below_elem in Hi, Hj. pose proof (exists_ok_false _ _ i E Hi) as E1.
  pose proof (exists_ok_false _ _ j E1 Hj) as E2. cbv beta in E2. rewrite Ea, Eb in E2. cbn in E2. injection E2 as E2.
  by apply bool_decide_eq_false in E2.
Qed.

Lemma exist_some r x : range_wf r -> is_Some (ip_range_exist r x).
Proof.
  intros H. unfold ip_range_exist. fold (last_byte_of x). pose proof (last_byte_range x).
  destruct (aget_some (valid r) (last_byte_of x)) as [v ->]; [rewrite (wf_valid_len _ H); lia|]. by eexists.
Qed.
Lemma exist_ipv6_some r a : range_wf r -> is_Some (ip_range_exist_ipv6 r a).
Proof. intros H. unfold ip_range_exist_ipv6. destruct (negb _); [by eexists|]. by apply exist_some. Qed.

(** ** The checks of the load and of the addresses *)

(** What they leave alone. *)
Definition kept (c : config) :=
  (c_server c, c_ipv6 c, c_af c, c_jumbo c, c_jumbo_mtu c, c_cpu_num c, c_client_ip_group c, c_server_ip_group c, c_dip_list c,
   c_vxlans c, c_flood c, c_flow c, c_flow_isolate c, c_listen c, c_listen_num c, c_lport_min c, c_lport_max c,
   c_protocol c, c_mss c, c_cps c, c_cc c, c_retransmit_timeout_sec c, c_launch_num c, c_tx_burst c, c_ports c, c_vxlan c,
   c_cpu c, c_duration c, c_slow_start c, c_kni c, c_kni_ifname c).

Definition passes (m : CM Z) (R : config -> config -> Prop) : Prop :=
  forall c, config_ok c -> wpo m (fun r c' => 0 <= r -> config_ok c' /\ R c c') c.
Definition same_kept (c c' : config) : Prop := kept c' = kept c.

Lemma wpo_refuse (Q : Z -> config -> Prop) c : Q (-1) c -> wpo refuse Q c.
Proof. done. Qed.
Lemma wpo_check b (Q : Z -> config -> Prop) c : (b = true -> Q 0 c) -> (b = false -> Q (-1) c) -> wpo (check b) Q c.
Proof. destruct b; intros H1 H2; [by apply H1|by apply H2]. Qed.
Lemma wpo_set f (Q : Z -> config -> Prop) c : Q 0 (f c) -> wpo (set_config f) Q c.
Proof. done. Qed.

(** One step of a check. *)
Ltac check_step :=
  match goal with
  | |- wpo (st_get ≫= _) _ _ => apply wpo_bind, wpo_get; cbv beta
  | |- wpo (let x := _ in _) _ _ => cbv zeta
  | |- wpo refuse _ _ => apply wpo_refuse; try done
  | |- wpo accept _ _ => apply wpo_ret; try done
  | |- wpo (mret _) _ _ => apply wpo_ret; try done
  | |- wpo (check _) _ _ => apply wpo_check; intros ?; try done
  | |- wpo (set_config _) _ _ => apply wpo_set
  | |- wpo (if _ then _ else _) _ _ => apply wpo_if; intros ?
  end.
Ltac check_keeps :=
  match goal with H : config_ok _ |- _ -> config_ok _ /\ same_kept _ _ =>
    intros _; split; [destruct H; split; rsimpl; try assumption|reflexivity] end.
Ltac simple_check := intros c Hc; repeat check_step; check_keeps.

Lemma pass_keepalive : passes config_check_keepalive same_kept.
Proof. unfold config_check_keepalive. simple_check. Qed.
Lemma pass_pipeline : passes config_check_pipeline same_kept.
Proof. unfold config_check_pipeline. simple_check. Qed.
Lemma pass_http : passes config_check_http same_kept.
Proof.
  unfold config_check_http. simple_check.
  destruct (is_text (c_http_host c)), (is_text (c_http_path c)); try done; split; try tauto; by vm_compute.
Qed.
Lemma pass_wait : passes config_check_wait same_kept.
Proof. unfold config_check_wait. simple_check. Qed.
(** A client starts slowly. *)
Definition paced (c : config) : Prop := c_server c = false -> SLOW_START_MIN <= c_slow_start c <= SLOW_START_MAX.
Lemma pass_slow_start c : config_ok c ->
  wpo config_check_slow_start (fun r c' => 0 <= r -> exists n, c' = c <| c_slow_start := n |> /\ (n = 0 \/ SLOW_START_MIN <= n <= SLOW_START_MAX) /\ paced c') c.
Proof.
  intros Hc. pose proof (ok_slow _ Hc) as Hs. unfold config_check_slow_start, paced. apply wpo_bind, wpo_get. destruct (c_server c) eqn:Es.
  - apply wpo_check; [|done]. intros _ _. exists (c_slow_start c). split; [by destruct c|]. by rewrite Es.
  - destruct (Z.eqb_spec (c_slow_start c) 0).
    + apply wpo_set. intros _. exists SLOW_START_DEFAULT. split; [done|]. split; [by right|done].
    + apply wpo_ret. intros _. exists (c_slow_start c). split; [by destruct c|]. split; [done|]. intros _. by destruct Hs.
Qed.
Lemma pass_local_addr : passes config_check_local_addr same_kept.
Proof. unfold config_check_local_addr. simple_check. Qed.

(** The addresses of a group, as the workers see them. *)
Definition group_ips (g : ip_group) : list Z := for_each_ip_range g ≫= range_ips.

Lemma range_get_ips r : range_wf r -> ip_range_get r <$> below (num r) = Some <$> range_ips r.
Proof.
  intros H. pose proof (wf_num _ H) as Hn. pose proof (wf_list_len _ H) as Hl. apply list_eq. intros i.
  rewrite !list_lookup_fmap. unfold below, range_ips. rewrite list_lookup_fmap.
  destruct (decide (i < Z.to_nat (num r))%nat) as [Hi|Hi].
  - rewrite lookup_seq_lt, lookup_take_lt by done. cbn.
    destruct (range_get_some r (Z.of_nat i) H ltac:(lia)) as (x & Hx & _). rewrite Hx.
    unfold ip_range_get in Hx. destruct (Z.eqb_spec (num r) 0); [done|].
    rewrite Z.mod_small, wrap_small in Hx by (unfold in_u; change (2 ^ 8) with 256; lia).
    unfold aget in Hx. destruct (Z.leb_spec 0 (Z.of_nat i)); [|lia]. rewrite Nat2Z.id in Hx. by rewrite Hx.
  - rewrite lookup_seq_ge by lia. by rewrite lookup_take_ge by lia.
Qed.

Lemma low16_range x : last_byte_of x ≠ 255 -> 0 <= low16 x < 65535.
Proof.
  unfold low16, last_byte_of. rewrite land_255. change 65535 with (Z.ones 16). rewrite Z.land_ones by lia.
  change (2 ^ 16) with 65536. change (Z.ones 16) with 65535. intros H.
  pose proof (Z.mod_pos_bound (ntohl x) 65536). assert (ntohl x mod 65536 ≠ 65535); [|lia].
  intros E. apply H. Z.to_euclidean_division_equations. lia.
Qed.

Lemma mark_clients_ok ips seen : Forall (fun x => last_byte_of x ≠ 255) ips -> NoDup seen ->
  exists o, mark_clients (Some <$> ips) seen = Some o /\ (is_Some o -> NoDup (low16 <$> ips) /\ forall x, x ∈ ips -> low16 x ∉ seen).
Proof.
  intros Hl. revert seen. induction Hl as [|x ips Hx _ IH]; intros seen Hs.
  - exists (Some seen). split; [done|]. intros _. split; [constructor|]. by intros x Hx%not_elem_of_nil.
  - cbn [fmap list_fmap mark_clients mbind option_bind]. fold (low16 x). unfold mark_client. pose proof (low16_range x Hx).
    destruct (Z.leb_spec 65535 (low16 x)); [lia|]. case_bool_decide as Hin; [exists None; split; [done|by intros []]|].
    destruct (IH (low16 x :: seen)) as (o & Ho & Hd); [by apply list.NoDup_cons|]. exists o. split; [exact Ho|]. intros Ho'.
    destruct (Hd Ho') as [H1 H2]. split.
    + apply list.NoDup_cons. split; [|done]. intros (y & Ey & Hy)%list_elem_of_fmap. apply (H2 y Hy). rewrite <- Ey. by left.
    + intros y [->|Hy]%elem_of_cons; [done|]. intros Hs'. apply (H2 y Hy). by right.
Qed.

Definition clients_unique (c : config) : Prop := NoDup (low16 <$> group_ips (c_client_ip_group c)).

Lemma group_gets P g : (forall r, P r -> range_wf r) -> group_ok P g ->
  (for_each_ip_range g ≫= fun r => ip_range_get r <$> below (num r)) = Some <$> group_ips g.
Proof.
  intros HP Hg. unfold group_ips. assert (Forall range_wf (for_each_ip_range g)) as Hwf.
  { apply list.Forall_forall. intros r Hr. eapply HP, group_ranges; done. }
  induction Hwf as [|r l Hr _ IH]; [done|]. rewrite !bind_cons, fmap_app, IH. by rewrite range_get_ips.
Qed.

Lemma pass_client_addr alloc_ok : passes (config_check_client_addr alloc_ok) (fun c c' => same_kept c c' /\ clients_unique c').
Proof.
  intros c Hc. unfold config_check_client_addr. destruct alloc_ok; cbn [negb]; [|by apply wpo_refuse].
  apply wpo_bind, wpo_get, wpo_bind.
  rewrite (group_gets range_ok) by (try apply Hc; by intros r []).
  destruct (mark_clients_ok (group_ips (c_client_ip_group c)) []) as (o & Ho & Hd); [|constructor|].
  - apply list.Forall_forall. intros x Hx. apply list_elem_of_bind in Hx as (r & Hx & Hr).
    apply (group_ranges range_ok) in Hr as [Hwf Hr]; [|apply Hc]. apply Hr.
    apply list_elem_of_lookup in Hx as (i & Hi). apply lookup_take_Some in Hi as [Hi Hlt].
    exists (Z.of_nat i). split; [lia|]. unfold aget. destruct (Z.leb_spec 0 (Z.of_nat i)); [|lia]. by rewrite Nat2Z.id.
  - eapply wpo_lift; [exact Ho|]. destruct o as [seen|]; [|by apply wpo_refuse]. apply wpo_ret. intros _.
    destruct Hd as [Hd _]; [by eexists|]. by split_and!.
Qed.

Lemma server_wf r : server_range_ok r -> range_wf r.
Proof. by intros [[] _]. Qed.
Lemma client_wf r : range_ok r -> range_wf r.
Proof. by intros []. Qed.
Hint Resolve server_wf client_wf overlap_some exist_some exist_ipv6_some : core.

Definition servers_apart (c : config) : Prop := forall i j r0 r1, i ≠ j ->
  for_each_ip_range (c_server_ip_group c) !! i = Some r0 -> for_each_ip_range (c_server_ip_group c) !! j = Some r1 -> apart r0 r1.
Definition clients_apart (c : config) : Prop := forall r0 r1,
  r0 ∈ for_each_ip_range (c_client_ip_group c) -> r1 ∈ for_each_ip_range (c_server_ip_group c) -> apart r0 r1.

Lemma pass_server_addr : passes config_check_server_addr (fun c c' => same_kept c c' /\ servers_apart c').
Proof.
  intros c Hc. unfold config_check_server_addr. apply wpo_bind, wpo_get, wpo_bind.
  destruct (exists_ok_some (fun '(r0, r1) => config_ip_range_overlap r0 r1) (pairs (for_each_ip_range (c_server_ip_group c)))) as [b Hb].
  { intros [r0 r1] [H0 H1]%pairs_elem. apply (group_ranges server_range_ok) in H0, H1; [|apply Hc..]. auto. }
  eapply wpo_lift; [exact Hb|]. apply wpo_check; [|done]. intros Eb _. split; [done|]. split; [done|].
  intros i j r0 r1 Hne Hi Hj. apply overlap_false. destruct b; [done|]. by apply (exists_ok_false _ _ (r0, r1) Hb), (pairs_lookup _ i j).
Qed.

Lemma conflict_port_some c g local P : group_ok P g -> (forall r, P r -> range_wf r) -> is_Some (config_check_address_conflict_port c g local).
Proof.
  intros Hg HP. apply exists_ok_some. intros p _. apply exists_ok_some. intros r Hr. apply (group_ranges P) in Hr; [|done].
  destruct (np_ipv6 p); auto.
Qed.

Lemma pass_address_conflict : passes config_check_address_conflict (fun c c' => same_kept c c' /\ clients_apart c').
Proof.
  intros c Hc. unfold config_check_address_conflict. apply wpo_bind, wpo_get. cbv zeta. apply wpo_bind.
  match goal with |- wpo (st_lift _ ?o) _ _ => assert (is_Some o) as [b Hb] end.
  { apply exists_ok_some. intros r0 H0. apply exists_ok_some. intros r1 H1.
    apply (group_ranges range_ok) in H0; [|apply Hc]. apply (group_ranges server_range_ok) in H1; [|apply Hc]. auto. }
  eapply wpo_lift; [exact Hb|]. destruct b; [by apply wpo_refuse|].
  assert (clients_apart c) as Ha.
  { intros r0 r1 H0 H1. apply overlap_false. exact (exists_ok_false _ _ r1 (exists_ok_false _ _ r0 Hb H0) H1). }
  assert (forall local, is_Some (config_check_address_conflict_port c (c_client_ip_group c) local)) as H1
    by (intros local; apply (conflict_port_some _ _ _ range_ok); [apply Hc|auto]).
  assert (forall local, is_Some (config_check_address_conflict_port c (c_server_ip_group c) local)) as H2
    by (intros local; apply (conflict_port_some _ _ _ server_range_ok); [apply Hc|auto]).
  destruct (c_server c); apply wpo_bind.
  - destruct (H1 true) as [b1 E1], (H2 false) as [b2 E2]. eapply wpo_lift; [exact E1|]. destruct b1; [by apply wpo_refuse|].
    apply wpo_bind. eapply wpo_lift; [exact E2|]. by repeat check_step.
  - destruct (H2 true) as [b1 E1], (H1 false) as [b2 E2]. eapply wpo_lift; [exact E1|]. destruct b1; [by apply wpo_refuse|].
    apply wpo_bind. eapply wpo_lift; [exact E2|]. by repeat check_step.
Qed.

(** No address has two owners. *)
Definition distinct (c : config) : Prop := clients_unique c /\ servers_apart c /\ clients_apart c.

(** ** The payload *)

Lemma set_sizes_ok n i size l : 0 <= i -> i + Z.of_nat n <= Z.of_nat (length l) -> 0 <= size -> Forall (fun x => 0 <= x) l ->
  exists l', set_sizes n i size l = Some l' /\ length l' = length l /\ Forall (fun x => 0 <= x) l'.
Proof.
  revert i l. induction n as [|n IH]; intros i l Hi Hn Hs Hl; cbn [set_sizes]; [by exists l|].
  rewrite aset_some by lia. cbn. destruct (IH (i + 1) (<[Z.to_nat i:=size]> l)) as (l' & E & H1 & H2); rewrite ?length_insert; try lia.
  - by apply list.Forall_insert.
  - exists l'. by rewrite H1, length_insert.
Qed.

Lemma size_get c i : config_ok c -> 0 <= i < 64 -> exists s, aget (c_payload_size c) i = Some s /\ 0 <= s.
Proof.
  intros Hc Hi. destruct (ok_payload _ Hc) as [H1 H2]. destruct (aget_some (c_payload_size c) i) as [s Hs]; [lia|].
  exists s. split; [done|]. unfold aget in Hs. destruct (0 <=? i); [|done]. by eapply (Forall_lookup_1 _ _ _ _ H2).
Qed.

Lemma pass_payload_size_num : passes config_check_payload_size_num same_kept.
Proof.
  intros c Hc. unfold config_check_payload_size_num. apply wpo_bind, wpo_get. cbv zeta.
  destruct (1 <? _); [by repeat check_step|]. apply wpo_bind. unfold config_set_payload_size. apply wpo_bind, wpo_get.
  destruct (ok_payload _ Hc) as [H1 H2]. destruct (ok_cpu _ Hc) as [H3 _].
  assert (0 <= payload_size_first c) as Hf.
  { unfold payload_size_first. destruct (size_get c 0 Hc) as (s & -> & Hs); [lia|done]. }
  destruct (set_sizes_ok (Z.to_nat (c_cpu_num c)) 0 (payload_size_first c) (c_payload_size c)) as (l & E & Hl & Hp); [lia|lia|done..|].
  apply wpo_bind. eapply wpo_lift; [exact E|]. apply wpo_modify, wpo_ret. intros _. split; [|done].
  destruct Hc; split; rsimpl; try assumption. by rewrite Hl.
Qed.

Lemma payload_file_none read_file len c :
  wpo (config_check_payload_file read_file len) (fun o c' => c' = c /\ forall p, o = Some p -> p = None) c.
Proof.
  unfold config_check_payload_file. apply wpo_bind, wpo_get. destruct (is_text (c_payload_path c)) eqn:E; cbn [negb].
  - destruct (is_set _); [by apply wpo_ret|]. unfold config_read_payload_file. rewrite E. by apply wpo_ret.
  - apply wpo_ret. split; [done|]. by intros p [= <-].
Qed.

Definition tcp_server (c : config) : bool := (c_protocol c =? IPPROTO_TCP) && c_server c.
Definition sizes_fit (c : config) : Prop := tcp_server c = true \/
  forall j, 0 <= j < c_cpu_num c -> exists s, aget (c_payload_size c) j = Some s /\ s <= config_packet_payload_size c.

Lemma payload_loop_server n i large c : config_ok c -> 0 < c_mss c -> 0 <= i -> i + Z.of_nat n <= 64 -> tcp_server c = true ->
  wpo (payload_size_loop n i large) (fun _ c' => config_ok c' /\ same_kept c c') c.
Proof.
  revert i large c. induction n as [|n IH]; intros i large c Hc Hm Hi Hn Hs; cbn [payload_size_loop]; [by apply wpo_ret|].
  apply wpo_bind, wpo_get, wpo_bind. destruct (size_get c i Hc) as (s & Es & H0); [lia|].
  eapply wpo_lift; [exact Es|]. fold (tcp_server c). rewrite Hs. destruct (Z.ltb_spec (c_mss c) s); [|apply IH; try done; lia].
  destruct (Z.eqb_spec (c_mss c) 0); [lia|]. destruct (ok_payload _ Hc) as [H1 H2].
  apply wpo_bind. eapply wpo_lift; [apply aset_some; lia|]. apply wpo_bind, wpo_modify.
  match goal with |- wpo _ _ ?c' => assert (config_ok c') as Hc' end.
  { destruct Hc; split; rsimpl; try assumption. rewrite length_insert. split; [done|]. apply list.Forall_insert; [done|].
    apply Z.mul_nonneg_nonneg; [|lia]. apply Z.quot_pos; lia. }
  eapply wpo_mono; [apply IH; [done|done|lia|lia|done]|]. intros _ c' [Hk Hs']. split; [done|]. unfold same_kept in *. by rewrite Hs'.
Qed.

Lemma payload_loop_other n i large c : config_ok c -> 0 <= i -> i + Z.of_nat n <= 64 -> tcp_server c = false ->
  wpo (payload_size_loop n i large) (fun o c' => c' = c /\ (is_Some o -> forall j, i <= j < i + Z.of_nat n ->
    exists s, aget (c_payload_size c) j = Some s /\ s <= config_packet_payload_size c)) c.
Proof.
  intros Hc. revert i large. induction n as [|n IH]; intros i large Hi Hn Hs; cbn [payload_size_loop].
  { apply wpo_ret. split; [done|]. intros _ j Hj. lia. }
  apply wpo_bind, wpo_get, wpo_bind. destruct (size_get c i Hc) as (s & Es & H0); [lia|].
  eapply wpo_lift; [exact Es|]. fold (tcp_server c). rewrite Hs.
  destruct (Z.ltb_spec (config_packet_payload_size c) s); [apply wpo_ret; split; [done|by intros []]|].
  eapply wpo_mono; [apply IH; [lia|lia|done]|]. intros o c' [-> H1]. split; [done|]. intros Ho j Hj.
  destruct (decide (j = i)) as [->|]; [by exists s|]. apply H1; [done|lia].
Qed.

Lemma pass_payload_size c : config_ok c -> 0 < c_mss c ->
  wpo config_check_payload_size (fun r c' => 0 <= r -> config_ok c' /\ same_kept c c' /\ sizes_fit c') c.
Proof.
  intros Hc Hm. unfold config_check_payload_size. apply wpo_bind, wpo_get. destruct (ok_cpu _ Hc) as [H1 _]. apply wpo_bind.
  assert (forall c', config_ok c' -> config_ok (c' <| c_send_window := 0 |>)) as Hsend by (by intros c' []; split).
  destruct (tcp_server c) eqn:Hs.
  - eapply wpo_mono; [apply payload_loop_server; [done|done|lia|lia|done]|]. intros o c' [Hc' Hk].
    assert (tcp_server c' = true) as Hs'.
    { unfold tcp_server in *. unfold same_kept, kept in Hk. injection Hk. intros. congruence. }
    destruct o as [[]|]; repeat check_step; intros _; (split; [auto|]); (split; [exact Hk|by left]).
  - eapply wpo_mono; [apply payload_loop_other; [done|lia|lia|done]|]. intros o c' [-> Hf].
    destruct o as [[]|]; repeat check_step; intros _; (split; [auto|]); (split; [done|right]).
    all: intros j Hj; apply Hf; [by eexists|revert Hj; rsimpl; lia].
Qed.

Section Texts.
Context (random : nat -> Z).

Definition short (t : list Z) : Prop := strlen t < MBUF_DATA_SIZE.

Lemma set_payload_short b len nl : 0 <= len < MBUF_DATA_SIZE -> exists t, config_set_payload random b len nl = Some t /\ short t.
Proof using Type.
  intros Hl. unfold config_set_payload, short, strlen. destruct (Z.eqb_spec len 0); [by exists []|].
  destruct (Z.ltb_spec 0 len); [|lia]. destruct (Z.ltb_spec len MBUF_DATA_SIZE); [|lia]. cbn [andb]. eexists. split; [done|].
  assert (length (payload_letters random b (Z.to_nat len)) = Z.to_nat len) as E
    by (unfold payload_letters; destruct b; [by rewrite length_fmap, length_seq|apply length_replicate]).
  destruct (_ && _); rewrite ?length_insert, E; lia.
Qed.
Lemma snprintf_short s : short (snprintf MBUF_DATA_SIZE s).
Proof using Type. unfold short, snprintf, strlen. rewrite length_take. unfold MBUF_DATA_SIZE. lia. Qed.

Lemma client_text cfg size : size < 10000 -> exists t, http_set_payload_client random cfg size = Some t /\ short t.
Proof using Type.
  intros Hs. unfold http_set_payload_client. cbv zeta. unfold HTTP_DATA_MIN_SIZE.
  destruct (Z.leb_spec size 0); [eexists; split; [done|apply snprintf_short]|].
  destruct (Z.ltb_spec size 85); [apply set_payload_short; unfold MBUF_DATA_SIZE; lia|].
  set (pad := Z.max 0 _). assert (0 <= pad < MBUF_DATA_SIZE) as Hp.
  { unfold pad, MBUF_DATA_SIZE. change (strlen HTTP_HOST_DEFAULT) with 5. change (strlen HTTP_PATH_DEFAULT) with 1. unfold strlen. lia. }
  destruct (set_payload_short (c_payload_random cfg) pad false Hp) as (t & -> & _). cbn. eexists. split; [done|apply snprintf_short].
Qed.
Lemma server_text cfg size : 0 < c_mss cfg < 10000 -> exists t, http_set_payload_server random cfg size = Some t /\ short t.
Proof using Type.
  intros Hm. unfold http_set_payload_server. cbv zeta. unfold HTTP_DATA_MIN_SIZE.
  destruct (Z.leb_spec size 0); [eexists; split; [done|apply snprintf_short]|].
  destruct (Z.ltb_spec size 85); [apply set_payload_short; unfold MBUF_DATA_SIZE; lia|].
  set (pad := if c_mss cfg <? size then _ else _). assert (pad < MBUF_DATA_SIZE) as Hp.
  { unfold pad, MBUF_DATA_SIZE. destruct (Z.ltb_spec (c_mss cfg) size); lia. }
  destruct (Z.ltb_spec 0 pad); [|eexists; split; [done|apply snprintf_short]].
  destruct (set_payload_short (c_payload_random cfg) pad true) as (t & -> & _); [lia|]. cbn. eexists. split; [done|apply snprintf_short].
Qed.

Lemma per_worker_ok cfg f :
  (forall j, 0 <= j < c_cpu_num cfg -> exists s, aget (c_payload_size cfg) j = Some s /\ exists t, f s = Some t /\ short t) ->
  exists texts, per_worker cfg f = Some texts /\ length texts = Z.to_nat (c_cpu_num cfg) /\ Forall short texts.
Proof using Type.
  intros Hf. unfold per_worker.
  assert (forall l, (forall i, i ∈ l -> 0 <= Z.of_nat i < c_cpu_num cfg) ->
    exists texts, mapM (fun i => size ← aget (c_payload_size cfg) (Z.of_nat i); f size) l = Some texts
      /\ length texts = length l /\ Forall short texts) as H.
  { induction l as [|i l IH]; intros Hl; [by exists []|]. destruct (Hf (Z.of_nat i)) as (s & E1 & t & E2 & Ht); [apply Hl; left|].
    destruct IH as (texts & E & H1 & H2); [intros k Hk; apply Hl; by right|].
    exists (t :: texts). cbn [mapM]. rewrite E1. cbn. rewrite E2. cbn. rewrite E. cbn. split; [done|]. split; [by rewrite H1|by constructor]. }
  destruct (H (seq 0 (Z.to_nat (c_cpu_num cfg)))) as (texts & E & H1 & H2).
  - intros i Hi%elem_of_seq. lia.
  - exists texts. by rewrite H1, length_seq.
Qed.

Lemma payload_room c : config_ok c -> config_packet_payload_size c < 10000.
Proof using Type.
  intros Hc. unfold config_packet_payload_size, config_packet_header_size, JUMBO_PKT_SIZE, PACKET_SIZE_MAX.
  pose proof (ok_jumbo _ Hc) as Hj. unfold JUMBO_MTU_MAX in Hj. change VXLAN_HEADERS_SIZE with 50.
  destruct (c_jumbo c), (c_vxlan c), (c_ipv6 c), (c_protocol c =? IPPROTO_TCP); specialize (Hj eq_refl) || clear Hj; lia.
Qed.

Lemma fit_below c j : config_ok c -> sizes_fit c -> tcp_server c = false -> 0 <= j < c_cpu_num c ->
  exists s, aget (c_payload_size c) j = Some s /\ 0 <= s < 10000.
Proof using Type.
  intros Hc [Hf|Hf] Hs Hj; [by rewrite Hf in Hs|]. destruct (Hf j Hj) as (s & E & H). exists s. split; [done|].
  pose proof (payload_room c Hc). destruct (ok_cpu _ Hc) as [H1 _]. destruct (size_get c j Hc) as (s' & E' & H2); [lia|].
  rewrite E in E'. injection E' as <-. lia.
Qed.

Lemma http_texts c : config_ok c -> sizes_fit c -> 0 < c_mss c < 10000 -> (c_protocol c =? IPPROTO_TCP) = true ->
  exists texts, http_set_payload random c None = Some texts /\ length texts = Z.to_nat (c_cpu_num c) /\ Forall short texts.
Proof using Type.
  intros Hc Hf Hm Ht. apply per_worker_ok. intros j Hj. destruct (ok_cpu _ Hc) as [H1 _].
  destruct (c_server c) eqn:Es.
  - destruct (size_get c j Hc) as (s & E & H); [lia|]. exists s. split; [done|]. by apply server_text.
  - assert (tcp_server c = false) as Hs by (unfold tcp_server; by rewrite Es, andb_false_r).
    destruct (fit_below c j Hc Hf Hs Hj) as (s & E & H). exists s. split; [done|]. apply client_text. lia.
Qed.
Lemma udp_texts c : config_ok c -> sizes_fit c -> (c_protocol c =? IPPROTO_TCP) = false ->
  exists texts, udp_set_payload random c None = Some texts /\ length texts = Z.to_nat (c_cpu_num c) /\ Forall short texts.
Proof using Type.
  intros Hc Hf Ht. apply per_worker_ok. intros j Hj.
  assert (tcp_server c = false) as Hs by (unfold tcp_server; by rewrite Ht).
  destruct (fit_below c j Hc Hf Hs Hj) as (s & E & H). exists s. split; [done|]. apply set_payload_short. unfold MBUF_DATA_SIZE. lia.
Qed.
End Texts.

Lemma stats_http_loop_ok n i payload c : config_ok c -> 0 <= i -> i + Z.of_nat n <= 64 ->
  wpo (stats_http_loop n i payload) (fun _ c' => exists b, c' = c <| c_stats_http := b |>) c.
Proof.
  assert (forall c : config, exists b, c = c <| c_stats_http := b |>) as Hself by (intros d; exists (c_stats_http d); by destruct d).
  revert i c. induction n as [|n IH]; intros i c Hc Hi Hn; cbn [stats_http_loop]; [by apply wpo_ret|].
  apply wpo_bind, wpo_get, wpo_bind. destruct (size_get c i Hc) as (s & Es & _); [lia|]. eapply wpo_lift; [exact Es|]. cbv zeta.
  destruct (_ && _); [by apply wpo_ret|]. apply wpo_bind, wpo_modify.
  eapply wpo_mono; [apply IH; [by destruct Hc; split|lia|lia]|]. intros _ c' (b & ->). by exists b.
Qed.

Lemma payload_texts read_file random c : config_ok c -> 0 < c_mss c < 10000 ->
  wpo (config_check_payload read_file random) (fun o c' => forall texts, o = Some texts ->
    config_ok c' /\ same_kept c c' /\ length texts = Z.to_nat (c_cpu_num c) /\ Forall short texts) c.
Proof.
  intros Hc Hm. unfold config_check_payload. apply wpo_bind. eapply wpo_mono; [by apply pass_payload_size_num|].
  intros r c1 H1. destruct (Z.ltb_spec r 0); [by apply wpo_ret|]. destruct (H1 ltac:(lia)) as [Hc1 Hk1]. clear H1.
  apply wpo_bind. eapply wpo_mono; [apply payload_file_none|]. intros [payload|] c2 [-> Hp]; [|by apply wpo_ret].
  rewrite (Hp _ eq_refl). clear Hp.
  assert (c_mss c1 = c_mss c /\ c_cpu_num c1 = c_cpu_num c) as [Em En] by (unfold same_kept, kept in Hk1; injection Hk1; by intros).
  apply wpo_bind. eapply wpo_mono; [apply pass_payload_size; [done|lia]|].
  intros r2 c2 H2. destruct (Z.ltb_spec r2 0); [by apply wpo_ret|]. destruct (H2 ltac:(lia)) as (Hc2 & Hk2 & Hf). clear H2.
  assert (c_mss c2 = c_mss c /\ c_cpu_num c2 = c_cpu_num c) as [Em2 En2] by (unfold same_kept, kept in Hk2; injection Hk2; intros; split; congruence).
  assert (same_kept c c2) as Hk by (unfold same_kept in *; congruence). destruct (ok_cpu _ Hc2) as [Hcpu _].
  apply wpo_bind, wpo_get. destruct (c_protocol c2 =? IPPROTO_TCP) eqn:Et.
  - apply wpo_bind. unfold config_check_stats_http. apply wpo_bind, wpo_get.
    eapply wpo_mono; [apply stats_http_loop_ok; [done|lia|lia]|]. intros r3 c3 (b & ->).
    destruct (r3 <? 0); [by apply wpo_ret|]. apply wpo_bind, wpo_get, wpo_bind.
    assert (config_ok (c2 <| c_stats_http := b |>)) as Hc3 by by destruct Hc2; split.
    destruct (http_texts random _ Hc3) as (texts & E & H1 & H2); [exact Hf|rsimpl; lia|exact Et|].
    eapply wpo_lift; [exact E|]. apply wpo_ret. intros ? [= <-]. split; [done|]. split; [exact Hk|]. rewrite <- En2. by split.
  - apply wpo_bind. destruct (udp_texts random _ Hc2 Hf Et) as (texts & E & H1 & H2).
    eapply wpo_lift; [exact E|]. apply wpo_ret. intros ? [= <-]. rewrite <- En2. by split_and!.
Qed.

(** ** The checks of the ports *)

Definition with_queues (q : Z) (p : netif_port) : netif_port := p <| np_queue_num := q |>.

Lemma pass_port c : config_ok c -> wpo config_check_port (fun r c' => 0 <= r -> exists q, 1 <= q /\ 1 <= c_port_num c
  /\ c_cpu_num c = c_port_num c * q /\ c' = c <| c_ports := with_queues q <$> c_ports c |>) c.
Proof.
  intros Hc. destruct (ok_cpu _ Hc) as [Hn _]. unfold config_check_port. apply wpo_bind, wpo_get.
  destruct (Z.eqb_spec (c_cpu_num c) 0); [by apply wpo_refuse|]. destruct (Z.eqb_spec (c_port_num c) 0); [by apply wpo_refuse|].
  destruct (Z.eqb_spec (Z.rem (c_cpu_num c) (c_port_num c)) 0) as [Hr|]; [|by apply wpo_refuse]. cbn [negb].
  destruct (negb _); [by apply wpo_refuse|]. apply wpo_bind. unfold config_port_queue_num.
  eapply wpo_lift; [destruct (Z.eqb_spec (c_port_num c) 0); [done|reflexivity]|]. apply wpo_set. intros _.
  assert (1 <= c_port_num c) by (unfold c_port_num in *; lia). pose proof (Z.quot_rem (c_cpu_num c) (c_port_num c)).
  exists (Z.quot (c_cpu_num c) (c_port_num c)). split_and!; [|done|lia|done].
  assert (0 <= Z.quot (c_cpu_num c) (c_port_num c)) by (apply Z.quot_pos; lia).
  destruct (Z.eq_dec (Z.quot (c_cpu_num c) (c_port_num c)) 0) as [E|]; [rewrite E in *; lia|lia].
Qed.

(** A tunnel that a port with [q] queues can use. *)
Definition tunnelled (q : Z) (p : netif_port) : Prop :=
  exists vx, np_vxlan p = Some vx /\ vxlan_ok vx /\ num (vx_vtep_local vx) = q.
Definition queued (q : Z) (p : netif_port) : Prop := port_ok p /\ np_queue_num p = q.

Lemma vxlan_ports_ok q vxlans ports ports' : Forall vxlan_ok vxlans -> Forall (queued q) ports -> vxlan_ports vxlans ports = Some ports' ->
  Forall (fun p => queued q p /\ tunnelled q p) ports' /\ length ports' = length ports.
Proof.
  intros Hv Hp. revert vxlans ports' Hv. induction Hp as [|p ports Hp _ IH]; intros vxlans ports' Hv E.
  { destruct vxlans; injection E as <-; by split. }
  destruct Hv as [|vx vxlans Hvx Hv]; cbn [vxlan_ports] in E; [done|]. destruct Hp as [[P1 P2 P3 P4 P5] Hq].
  destruct (Z.eqb_spec (num (vx_vtep_local vx)) (np_queue_num p)); cbn [negb] in E; [|done]. destruct (_ && _); [done|].
  apply bind_Some in E as (l & E1 & E). injection E as <-. destruct (IH _ _ Hv E1) as [H1 H2]. cbn [length]. split; [|by rewrite H2].
  constructor; [|done]. split; [by split|]. exists vx. split_and!; [done..|congruence].
Qed.

Lemma pass_vxlan q c : Forall vxlan_ok (c_vxlans c) -> Forall (queued q) (c_ports c) -> c_vxlan c = false ->
  wpo config_check_vxlan (fun r c' => 0 <= r -> exists ports v, c' = c <| c_ports := ports |> <| c_vxlan := v |>
    /\ Forall (queued q) ports /\ length ports = length (c_ports c) /\ (v = true -> Forall (tunnelled q) ports)) c.
Proof.
  intros Hv Hp Hno. unfold config_check_vxlan. apply wpo_bind, wpo_get. destruct (_ =? 0).
  { apply wpo_ret. intros _. exists (c_ports c), false. split; [destruct c; cbn in *; by subst|]. by split_and!. }
  destruct (negb _); [by apply wpo_refuse|]. destruct (vxlan_ports _ _) as [ports|] eqn:E; [|by apply wpo_refuse].
  destruct (vxlan_ports_ok q _ _ _ Hv Hp E) as [H1 H2]. apply wpo_set. intros _. exists ports, true. split; [done|].
  split; [|split; [done|intros _]]; (eapply list.Forall_impl; [exact H1|]); by intros p [].
Qed.

Lemma port_ranges_ok server clients servers ports : (length ports <= length clients)%nat -> (length ports <= length servers)%nat ->
  exists ports', port_ranges server clients servers ports = Some ports' /\ length ports' = length ports
    /\ forall i p', ports' !! i = Some p' -> exists p cl sv, ports !! i = Some p /\ clients !! i = Some cl /\ servers !! i = Some sv
        /\ p' = p <| np_local_ip_range := if server then sv else cl |> <| np_client_ip_range := cl |> <| np_server_ip_range := sv |>.
Proof.
  revert clients servers. induction ports as [|p ports IH]; intros clients servers Hc Hs; cbn [port_ranges].
  { exists []. by split_and!. }
  destruct clients as [|cl clients]; [cbn in Hc; lia|]. destruct servers as [|sv servers]; [cbn in Hs; lia|]. cbn [length] in *.
  destruct (IH clients servers) as (ports' & E & Hl & H); [lia..|]. cbn. rewrite E. cbn. eexists. split; [done|].
  split; [by cbn; rewrite Hl|]. intros [|i] p' Hi; cbn in Hi; [injection Hi as <-; by exists p, cl, sv|]. apply H, Hi.
Qed.

(** The port at position [i] has the [i]-th ranges of the groups. *)
Definition ranged (c : config) (i : nat) (p : netif_port) : Prop :=
  ip_ranges (c_client_ip_group c) !! i = Some (np_client_ip_range p)
  /\ ip_ranges (c_server_ip_group c) !! i = Some (np_server_ip_range p)
  /\ np_local_ip_range p = (if c_server c then np_server_ip_range p else np_client_ip_range p).

Lemma pass_ranges q c :
  group_ok range_ok (c_client_ip_group c) -> group_ok server_range_ok (c_server_ip_group c) ->
  c_port_num c <= NETIF_PORT_MAX -> Forall (queued q) (c_ports c) ->
  (c_vxlan c = true -> Forall (tunnelled q) (c_ports c)) ->
  wpo config_set_port_ip_range (fun r c' => 0 <= r -> exists ports, c' = c <| c_ports := ports |>
    /\ length ports = length (c_ports c) /\ Forall (queued q) ports /\ (c_vxlan c = true -> Forall (tunnelled q) ports)
    /\ (forall i p, ports !! i = Some p -> ranged c i p)
    /\ group_num (c_server_ip_group c) = c_port_num c /\ 0 < group_num (c_client_ip_group c)
    /\ (c_server c = false -> group_num (c_client_ip_group c) = c_port_num c)) c.
Proof.
  intros Hcl Hsv Hn Hq Hv. unfold config_set_port_ip_range. apply wpo_bind, wpo_get. cbv zeta.
  destruct (_ || _) eqn:H0; [by apply wpo_refuse|]. bool_facts.
  destruct (Z.eqb_spec (c_port_num c) (group_num (c_server_ip_group c))) as [Es|]; [|by apply wpo_refuse]. cbn [negb].
  destruct (negb (c_server c) && negb (group_num (c_client_ip_group c) =? c_port_num c)) eqn:Ec; [by apply wpo_refuse|].
  pose proof (go_len _ _ Hcl) as Lc. pose proof (go_len _ _ Hsv) as Ls. pose proof (go_num _ _ Hcl) as Nc.
  destruct (port_ranges_ok (c_server c) (ip_ranges (c_client_ip_group c)) (ip_ranges (c_server_ip_group c)) (c_ports c)) as (ports & E & Hl & Hports);
    [unfold c_port_num, NETIF_PORT_MAX in *; lia..|].
  apply wpo_bind. eapply wpo_lift; [exact E|]. apply wpo_set. intros _. exists ports. split; [done|]. split; [done|].
  assert (forall P : netif_port -> Prop, (forall p cl sv, P p -> P (p <| np_local_ip_range := if c_server c then sv else cl |>
    <| np_client_ip_range := cl |> <| np_server_ip_range := sv |>)) -> Forall P (c_ports c) -> Forall P ports) as Hall.
  { intros R HR HF. apply Forall_lookup_2. intros i p' Hi. destruct (Hports i p' Hi) as (p & cl & sv & Hp & _ & _ & ->).
    apply HR. by eapply Forall_lookup_1. }
  split_and!.
  - apply Hall; [|done]. intros p cl sv [[P1 P2 P3 P4 P5] P6]. by split.
  - intros Hvx. apply Hall; [|by apply Hv]. intros p cl sv (vx & V1 & V2 & V3). by exists vx.
  - intros i p' Hi. destruct (Hports i p' Hi) as (p & cl & sv & Hp & R1 & R2 & ->). by split_and!.
  - done.
  - lia.
  - intros Hcs. rewrite Hcs in Ec. cbn [negb andb] in Ec. bool_facts. lia.
Qed.

Definition flow_fits (c : config) : Prop :=
  (c_flow c = FLOW_NONE /\ c_cpu_num c = c_port_num c) \/ c_flow c = FLOW_RSS
  \/ (c_flow c = FLOW_FDIR /\ Forall (fun p => np_queue_num p = num (np_server_ip_range p)) (c_ports c)).
Lemma pass_flow c : c_flow c = FLOW_NONE \/ c_flow c = FLOW_RSS ->
  wpo config_check_flow (fun r c' => 0 <= r -> exists flow, c' = c <| c_flow := flow |> /\ flow_fits c') c.
Proof.
  intros Hf. assert (c = c <| c_flow := c_flow c |>) as Hself by by destruct c.
  unfold config_check_flow. apply wpo_bind, wpo_get. destruct (_ && _) eqn:E1.
  { bool_facts. apply wpo_set. intros _. exists FLOW_NONE. split; [done|]. by left. }
  destruct (_ && _) eqn:E2 in |- *; [by apply wpo_refuse|]. cbv zeta.
  destruct (existsb _ _) eqn:Ex.
  - apply wpo_check; [|done]. intros E%Z.eqb_eq _. exists (c_flow c). split; [done|]. by right; left.
  - destruct (Z.eqb_spec (c_flow c) FLOW_RSS); cbn [negb].
    + apply wpo_ret. intros _. exists (c_flow c). split; [done|]. by right; left.
    + apply wpo_set. intros _. exists FLOW_FDIR. split; [done|]. right; right. split; [done|]. rsimpl.
      apply list.Forall_forall. intros p Hp. rewrite <- not_true_iff_false, existsb_exists in Ex.
      destruct (Z.eq_dec (np_queue_num p) (num (np_server_ip_range p))); [done|]. exfalso. apply Ex. exists p.
      split; [by apply list_elem_of_In|]. apply negb_true_iff. by apply Z.eqb_neq.
Qed.

Definition dip_fits (c : config) : Prop :=
  0 < list_num (c_dip_list c) -> c_server c = false /\ c_flood c = true /\ c_vxlan c = false /\ c_cpu_num c <= list_num (c_dip_list c).
Lemma pass_dip c : wpo config_check_change_dip (fun r c' => 0 <= r -> c' = c /\ dip_fits c) c.
Proof.
  unfold config_check_change_dip. apply wpo_bind, wpo_get. cbv zeta. destruct (Z.eqb_spec (list_num (c_dip_list c)) 0).
  - apply wpo_ret. intros _. split; [done|]. unfold dip_fits. lia.
  - apply wpo_check; [|done]. intros E _. bool_facts. split; [done|]. intros _. by split_and!.
Qed.

(** ** The workers *)

(** The worker [i] serves queue [i mod q] of port [i / q]. *)
Lemma port_get q c i : 1 <= q -> c_cpu_num c = c_port_num c * q -> 0 <= i < c_cpu_num c ->
  exists p, config_port_get c i = Some (p, i mod q) /\ c_ports c !! Z.to_nat (i / q) = Some p.
Proof.
  intros Hq Hn Hi. assert (c_port_num c ≠ 0) by nia. unfold config_port_get, config_port_queue_num.
  destruct (Z.eqb_spec (c_port_num c) 0); [done|]. cbn. rewrite Hn, (Z.mul_comm (c_port_num c)), Z.quot_mul in * by lia.
  destruct (Z.eqb_spec q 0); [lia|]. rewrite Z.rem_mod_nonneg, Z.quot_div_nonneg by lia.
  assert (0 <= i / q < c_port_num c) as Hp by (split; [apply Z.div_pos; lia|apply Z.div_lt_upper_bound; lia]).
  destruct (aget_some (c_ports c) (i / q)) as [p E]; [unfold c_port_num in Hp; lia|]. rewrite E. cbn. exists p. split; [done|].
  unfold aget in E. by destruct (0 <=? i / q).
Qed.

Lemma socket_num_some q c i : 1 <= q -> c_cpu_num c = c_port_num c * q -> 0 <= i < c_cpu_num c ->
  is_Some (config_get_total_socket_num c i).
Proof.
  intros Hq Hn Hi. destruct (port_get q c i Hq Hn Hi) as (p & E & _). unfold config_get_total_socket_num.
  rewrite E. cbn. by eexists.
Qed.

Lemma target_loop_ok n i cc cps q c : 1 <= q -> c_cpu_num c = c_port_num c * q -> 0 <= i -> i + Z.of_nat n <= c_cpu_num c ->
  wpo (target_loop n i cc cps) (fun _ c' => c' = c) c.
Proof.
  intros Hq Hc. revert i. induction n as [|n IH]; intros i Hi Hn; cbn [target_loop]; [by apply wpo_ret|].
  apply wpo_bind, wpo_get, wpo_bind. destruct (socket_num_some q c i Hq Hc ltac:(lia)) as [m E].
  eapply wpo_lift; [exact E|]. destruct (_ || _); [by apply wpo_ret|]. apply IH; lia.
Qed.

(** The load of the workers. *)
Definition with_load (cc cps : Z) (flood : bool) (c : config) : config := c <| c_cc := cc |> <| c_cps := cps |> <| c_flood := flood |>.
Lemma pass_target q c : 1 <= q -> 1 <= c_port_num c -> c_cpu_num c = c_port_num c * q -> in_int (c_cc c) -> in_int (c_cps c) ->
  wpo config_check_target (fun r c' => 0 <= r -> exists cc cps flood, c' = with_load cc cps flood c /\ in_int cc /\ in_int cps
    /\ (c_server c = false -> flood = c_flood c)) c.
Proof.
  intros Hq Hp Hn Hcc Hcps. unfold config_check_target. apply wpo_bind, wpo_get. destruct (_ && _); [by apply wpo_refuse|].
  apply wpo_bind, wpo_modify. set (c1 := if c_server c then _ else _).
  assert (exists cc cps flood, c1 = with_load cc cps flood c /\ in_int cc /\ in_int cps /\ (c_server c = false -> flood = c_flood c))
    as (cc & cps & flood & E & H).
  { unfold c1, with_load. destruct (c_server c) eqn:Es; [exists 0, 0, false; by split_and!|].
    destruct (_ =? 0); [exists (c_cc c), DEFAULT_CPS, (c_flood c)|exists (c_cc c), (c_cps c), (c_flood c)]; (split; [by destruct c|]); by split_and!. }
  clearbody c1. subst c1. apply wpo_bind, wpo_get. change (c_cpu_num (with_load cc cps flood c)) with (c_cpu_num c).
  destruct (Z.eqb_spec (c_cpu_num c) 0); [nia|]. cbv zeta.
  eapply wpo_mono; [apply (target_loop_ok _ _ _ _ q); [done|exact Hn|lia|change (c_cpu_num (with_load cc cps flood c)) with (c_cpu_num c); nia]|].
  intros r c' -> _. by exists cc, cps, flood.
Qed.

Record accepted (q : Z) (texts : list (list Z)) (c : config) : Prop := {
  ac_queues : 1 <= q /\ c_cpu_num c = c_port_num c * q;
  ac_ports_num : 1 <= c_port_num c <= NETIF_PORT_MAX /\ c_cpu_num c <= THREAD_NUM_MAX;
  ac_ports : Forall (queued q) (c_ports c);
  ac_tunnels : c_vxlan c = true -> Forall (tunnelled q) (c_ports c);
  ac_ranges : forall i p, c_ports c !! i = Some p -> ranged c i p;
  ac_clients : group_ok range_ok (c_client_ip_group c) /\ 0 < group_num (c_client_ip_group c)
    /\ (c_server c = false -> group_num (c_client_ip_group c) = c_port_num c);
  ac_servers : group_ok server_range_ok (c_server_ip_group c) /\ group_num (c_server_ip_group c) = c_port_num c;
  ac_unique : distinct c;
  ac_listen : 1 <= c_listen c /\ 1 <= c_listen_num c /\ c_listen c + c_listen_num c < 65535;
  ac_lport : 1 <= c_lport_min c <= c_lport_max c /\ c_lport_max c < 65536;
  ac_mss : 0 < c_mss c <= mss_max c;
  ac_protocol : c_protocol c = IPPROTO_TCP \/ c_protocol c = IPPROTO_UDP;
  ac_flow : flow_fits c;
  ac_dip : list_next (c_dip_list c) = 0 /\ dip_fits c;
  ac_texts : length texts = Z.to_nat (c_cpu_num c) /\ Forall short texts;
  ac_payload : length (c_payload_size c) = 64%nat;
  ac_load : in_int (c_launch_num c) /\ in_int (c_cps c) /\ in_int (c_cc c) /\ 1 <= c_tx_burst c < 256;
  ac_timeout : 1 <= c_retransmit_timeout_sec c <= RTO_MAX;
  ac_cpus : cpus_ok (c_cpu c);
  ac_paced : paced c /\ 1 <= c_duration c < 2 ^ 31;
}.

(** ** The whole *)

(** How [config_parse] may end: with a configuration to start with, with a
    refusal, or with the end of the process (help, version and test). *)
Definition outcome (r : parsed) (c : config) : Prop :=
  match r with
  | Parsed ret texts => (ret = 0 /\ exists q, accepted q texts c) \/ (ret = -1 /\ texts = [])
  | Exit => True
  end.

Lemma wpo_or_refuse m k c : wpo m (fun r c' => 0 <= r -> wpo k outcome c') c -> wpo (or_refuse m k) outcome c.
Proof.
  intros H. apply wpo_bind. eapply wpo_mono; [exact H|]. intros r c' Hr. cbv beta.
  destruct (Z.ltb_spec r 0); [apply wpo_ret; by right|auto].
Qed.
Lemma wpo_or_refuse_passes m k R c : passes m R -> config_ok c -> (forall c', config_ok c' -> R c c' -> wpo k outcome c') ->
  wpo (or_refuse m k) outcome c.
Proof.
  intros Hm Hc Hk. apply wpo_or_refuse. eapply wpo_mono; [by apply Hm|]. intros r c' Hr Hr0. destruct (Hr Hr0). by apply Hk.
Qed.

(** A configuration with the addresses [g] and the load checks behind it. *)
Definition loaded (c : config) : Prop :=
  config_ok c /\ 1 <= c_duration c /\ 0 < c_mss c <= mss_max c /\ (c_protocol c = IPPROTO_TCP \/ c_protocol c = IPPROTO_UDP)
  /\ 1 <= c_retransmit_timeout_sec c /\ 1 <= c_listen c /\ 1 <= c_listen_num c /\ c_listen c + c_listen_num c < 65535.

Lemma loaded_kept c c' : config_ok c' -> same_kept c c' -> loaded c -> loaded c'.
Proof.
  intros Hc' Hk (_ & H). split; [done|]. clear Hc'. unfold same_kept, kept in Hk. destruct c, c'. cbn in Hk. simplify_eq. exact H.
Qed.
Lemma slow_loaded c n : n = 0 \/ SLOW_START_MIN <= n <= SLOW_START_MAX -> loaded c -> loaded (c <| c_slow_start := n |>).
Proof. intros Hn (Hc & H). split; [|exact H]. clear H. destruct Hc; split; rsimpl; try assumption. Qed.
Lemma groups_kept c c' : same_kept c c' ->
  c_client_ip_group c' = c_client_ip_group c /\ c_server_ip_group c' = c_server_ip_group c.
Proof. unfold same_kept, kept. intros [=]. by split. Qed.
Lemma unique_kept c c' : same_kept c c' -> clients_unique c -> clients_unique c'.
Proof. intros [E1 E2]%groups_kept. unfold clients_unique. by rewrite E1. Qed.
Lemma servers_kept c c' : same_kept c c' -> servers_apart c -> servers_apart c'.
Proof. intros [E1 E2]%groups_kept. unfold servers_apart. by rewrite E2. Qed.
Lemma clients_kept c c' : same_kept c c' -> clients_apart c -> clients_apart c'.
Proof. intros [E1 E2]%groups_kept. unfold clients_apart. by rewrite E1, E2. Qed.
Lemma paced_kept c c' : same_kept c c' -> paced c -> paced c'.
Proof. unfold same_kept, kept, paced. intros [=] Hpc Hcl. assert (c_slow_start c' = c_slow_start c) as -> by congruence. apply Hpc. congruence. Qed.
Lemma distinct_kept c c' : same_kept c c' -> distinct c -> distinct c'.
Proof. intros H (H1 & H2 & H3). split; [by eapply unique_kept|]. split; [by eapply servers_kept|by eapply clients_kept]. Qed.

Lemma mss_max_range c : config_ok c -> 1000 < mss_max c < 10000.
Proof.
  intros Hc. pose proof (ok_jumbo _ Hc) as Hj. unfold mss_max, MSS_JUMBO_IPV6, MSS_JUMBO_IPV4, MSS_IPV6, MSS_IPV4, PACKET_SIZE_MAX, JUMBO_MTU_MIN, JUMBO_MTU_MAX in *.
  destruct (c_jumbo c), (c_ipv6 c); specialize (Hj eq_refl) || clear Hj; lia.
Qed.

Lemma pass_mss c : config_ok c -> wpo config_check_mss (fun r c' => 0 <= r -> exists m, c' = c <| c_mss := m |> /\ 0 < m <= mss_max c) c.
Proof.
  intros Hc. pose proof (mss_max_range c Hc). destruct (ok_load _ Hc) as (_ & _ & _ & [Hm _]).
  unfold config_check_mss. apply wpo_bind, wpo_get. destruct (Z.ltb_spec (mss_max c) (c_mss c)); [by apply wpo_refuse|].
  destruct (Z.eqb_spec (c_mss c) 0).
  - apply wpo_set. intros _. exists (mss_max c). split; [done|lia].
  - apply wpo_ret. intros _. exists (c_mss c). split; [by destruct c|lia].
Qed.

Lemma defaults_ok c : config_ok c -> config_ok (config_defaults c)
  /\ (c_protocol (config_defaults c) = IPPROTO_TCP \/ c_protocol (config_defaults c) = IPPROTO_UDP) /\ 1 <= c_retransmit_timeout_sec (config_defaults c)
  /\ 1 <= c_duration (config_defaults c).
Proof.
  intros Hc. destruct (ok_times _ Hc) as (H1 & H2 & H3). pose proof (ok_protocol _ Hc) as Hp.
  unfold config_defaults. rsimpl. split_and!.
  - destruct Hc; split; rsimpl; try assumption.
    + split; [destruct (Z.eqb_spec (c_retransmit_timeout_sec c) 0); unfold RTO_DEFAULT, RTO_MAX in *; lia|]. split; [exact H2|].
      unfold in_int in *. destruct (_ =? 0); unfold DEFAULT_DURATION; lia.
    + destruct (_ =? 0); tauto.
  - destruct (Z.eqb_spec (c_protocol c) 0); tauto.
  - destruct (Z.eqb_spec (c_retransmit_timeout_sec c) 0); unfold RTO_DEFAULT; lia.
  - unfold in_int in H3. destruct (Z.eqb_spec (c_duration c) 0); unfold DEFAULT_DURATION; lia.
Qed.

Lemma listen_ok c m : config_ok c -> 0 < m <= mss_max c -> (c_protocol c = IPPROTO_TCP \/ c_protocol c = IPPROTO_UDP) ->
  1 <= c_retransmit_timeout_sec c -> 1 <= c_duration c -> loaded (config_listen_default (c <| c_mss := m |>)).
Proof.
  intros Hc Hm Hp Ht Hdur. pose proof (ok_listen _ Hc) as Hl. pose proof (mss_max_range c Hc).
  unfold config_listen_default. rsimpl. destruct (_ || _) eqn:E.
  - unfold loaded. rsimpl. split; [|split; [exact Hdur|split; [exact Hm|]]; split_and!; first [exact Hp | done | lia]]. destruct Hc; split; rsimpl; try assumption; [by right|].
    repeat match goal with H : _ /\ _ |- _ => destruct H end. unfold in_int in *. split_and!; try done; lia.
  - bool_facts. unfold loaded. rsimpl. split; [|split; [exact Hdur|split; [exact Hm|]]; split_and!; first [exact Hp | done | lia]]. destruct Hc; split; rsimpl; try assumption.
    repeat match goal with H : _ /\ _ |- _ => destruct H end. unfold in_int in *. split_and!; try done; lia.
Qed.

(** A check that only looks. *)
Lemma wpo_or_refuse_check (f : config -> bool) k c : (f c = true -> wpo k outcome c) ->
  wpo (or_refuse (c ← st_get; check (f c)) k) outcome c.
Proof.
  intros H. apply wpo_or_refuse, wpo_bind, wpo_get, wpo_check; [auto|]. intros. exfalso. lia.
Qed.

Lemma vlan_looks k c : wpo k outcome c -> wpo (or_refuse config_check_vlan k) outcome c.
Proof.
  intros H. apply wpo_or_refuse. unfold config_check_vlan. apply wpo_bind, wpo_get.
  destruct (_ =? 0); [by apply wpo_ret|]. apply wpo_check; [auto|]. intros. exfalso. lia.
Qed.

(** A configuration whose ports have their queues, tunnels and ranges. *)
Record placed (q : Z) (c : config) : Prop := {
  pl_queues : 1 <= q /\ c_cpu_num c = c_port_num c * q;
  pl_ports_num : 1 <= c_port_num c <= NETIF_PORT_MAX /\ c_cpu_num c <= THREAD_NUM_MAX;
  pl_ports : Forall (queued q) (c_ports c);
  pl_tunnels : c_vxlan c = true -> Forall (tunnelled q) (c_ports c);
  pl_ranges : forall i p, c_ports c !! i = Some p -> ranged c i p;
  pl_clients : group_ok range_ok (c_client_ip_group c) /\ 0 < group_num (c_client_ip_group c)
    /\ (c_server c = false -> group_num (c_client_ip_group c) = c_port_num c);
  pl_servers : group_ok server_range_ok (c_server_ip_group c) /\ group_num (c_server_ip_group c) = c_port_num c;
  pl_unique : distinct c;
  pl_listen : 1 <= c_listen c /\ 1 <= c_listen_num c /\ c_listen c + c_listen_num c < 65535;
  pl_lport : (c_lport_min c = 0 /\ c_lport_max c = 0) \/ (1 <= c_lport_min c <= c_lport_max c /\ c_lport_max c < 65536);
  pl_mss : 0 < c_mss c <= mss_max c;
  pl_protocol : c_protocol c = IPPROTO_TCP \/ c_protocol c = IPPROTO_UDP;
  pl_flow : c_flow c = FLOW_NONE \/ c_flow c = FLOW_RSS;
  pl_dip : list_next (c_dip_list c) = 0;
  pl_payload : length (c_payload_size c) = 64%nat;
  pl_load : in_int (c_launch_num c) /\ in_int (c_cps c) /\ in_int (c_cc c) /\ 0 <= c_tx_burst c < 256;
  pl_timeout : 1 <= c_retransmit_timeout_sec c <= RTO_MAX;
  pl_cpus : cpus_ok (c_cpu c);
  pl_paced : paced c /\ 1 <= c_duration c < 2 ^ 31;
}.

Lemma loaded_placed q c ports v : loaded c -> paced c -> distinct c -> 1 <= q -> 1 <= c_port_num c -> c_cpu_num c = c_port_num c * q ->
  length ports = length (c_ports c) -> Forall (queued q) ports -> (v = true -> Forall (tunnelled q) ports) ->
  (forall i p, ports !! i = Some p -> ranged c i p) -> group_num (c_server_ip_group c) = c_port_num c ->
  0 < group_num (c_client_ip_group c) -> (c_server c = false -> group_num (c_client_ip_group c) = c_port_num c) ->
  placed q (c <| c_ports := ports |> <| c_vxlan := v |>).
Proof.
  intros (Hc & Hdur & H2 & H3 & H4 & H5) Hpace Hu Hq Hp Hn Hl Hqs Hv Hr G1 G2 G3.
  assert (c_port_num (c <| c_ports := ports |> <| c_vxlan := v |>) = c_port_num c) as Ep by (unfold c_port_num; rsimpl; by rewrite Hl).
  destruct Hc as [_ Hlp Hcpu Hpay Hcl Hsv Hports _ Hdip Hburst Hload Htimes _ Hflow _ _ _ _].
  split; rewrite ?Ep.
  - by split.
  - split; [split; [done|apply Hports]|apply Hcpu].
  - exact Hqs.
  - exact Hv.
  - exact Hr.
  - by split_and!.
  - by split.
  - exact Hu.
  - exact H5.
  - exact Hlp.
  - exact H2.
  - exact H3.
  - exact Hflow.
  - apply Hdip.
  - apply Hpay.
  - destruct Hload as (L1 & L2 & L3 & _). exact (conj L1 (conj L2 (conj L3 Hburst))).
  - split; [exact H4|apply Htimes].
  - apply Hcpu.
  - split; [exact Hpace|]. split; [exact Hdur|apply Htimes].
Qed.

Lemma wpo_place c k : loaded c -> paced c -> distinct c ->
  (forall q c', placed q c' -> c_cpu_num c' = c_cpu_num c -> wpo k outcome c') ->
  wpo (or_refuse config_check_port (or_refuse config_check_vxlan (or_refuse config_check_vlan (
    or_refuse config_check_af (or_refuse config_set_port_ip_range k))))) outcome c.
Proof.
  intros Hl Hpace Hu Hk. pose proof Hl as (Hc & _).
  apply wpo_or_refuse. eapply wpo_mono; [by apply pass_port|]. intros r c1 H1 Hr. destruct (H1 Hr) as (q & Hq & Hp & Hn & ->). clear r H1 Hr.
  set (c1 := c <| c_ports := _ |>). assert (Forall (queued q) (c_ports c1)) as Hqs.
  { apply Forall_fmap. eapply list.Forall_impl; [exact (proj2 (ok_ports _ Hc))|]. intros p [P1 P2 P3 P4 P5]. by split. }
  assert (length (c_ports c1) = length (c_ports c)) as L1 by apply length_fmap.
  apply wpo_or_refuse. eapply wpo_mono; [apply (pass_vxlan q); [exact (ok_vxlans _ Hc)|exact Hqs|exact (ok_no_vxlan _ Hc)]|].
  intros r c2 H2 Hr. destruct (H2 Hr) as (ports2 & v & -> & Q2 & L2 & V2). clear r H2 Hr. rewrite L1 in L2. subst c1. set (c2 := _ <| c_vxlan := v |>).
  apply vlan_looks, wpo_or_refuse_check. intros _.
  assert (c_port_num c2 = c_port_num c) as E2 by (unfold c_port_num; change (c_ports c2) with ports2; by rewrite L2).
  apply wpo_or_refuse. eapply wpo_mono; [apply (pass_ranges q c2); [exact (ok_clients _ Hc)|exact (ok_servers _ Hc)| |exact Q2|exact V2]|].
  { rewrite E2. exact (proj1 (ok_ports _ Hc)). }
  intros r c3 H3 Hr. destruct (H3 Hr) as (ports & -> & L3 & Q3 & V3 & R3 & G1 & G2 & G3). clear r H3 Hr.
  rewrite E2 in G1, G3. change (length ports = length ports2) in L3. rewrite L2 in L3.
  change (wpo k outcome (c <| c_ports := ports |> <| c_vxlan := v |>)). apply (Hk q); [|done].
  by apply loaded_placed.
Qed.

Lemma placed_accepted q c flow tx lmin lmax cc cps flood texts : placed q c ->
  flow_fits (c <| c_flow := flow |>) -> dip_fits (c <| c_flow := flow |>) -> 1 <= tx < 256 -> 1 <= lmin <= lmax /\ lmax < 65536 ->
  in_int cc -> in_int cps -> (c_server c = false -> flood = c_flood c) ->
  length texts = Z.to_nat (c_cpu_num c) -> Forall short texts ->
  accepted q texts (with_load cc cps flood (c <| c_flow := flow |> <| c_tx_burst := tx |> <| c_lport_min := lmin |> <| c_lport_max := lmax |>)).
Proof.
  intros Hp Hflow Hdip Htx Hlp Hcc Hcps Hfl Ht Hs. unfold with_load. split.
  - exact (pl_queues _ _ Hp).
  - exact (pl_ports_num _ _ Hp).
  - exact (pl_ports _ _ Hp).
  - exact (pl_tunnels _ _ Hp).
  - exact (pl_ranges _ _ Hp).
  - exact (pl_clients _ _ Hp).
  - exact (pl_servers _ _ Hp).
  - exact (pl_unique _ _ Hp).
  - exact (pl_listen _ _ Hp).
  - exact Hlp.
  - exact (pl_mss _ _ Hp).
  - exact (pl_protocol _ _ Hp).
  - exact Hflow.
  - split; [exact (pl_dip _ _ Hp)|]. intros Hl. destruct (Hdip Hl) as (D1 & D2 & D3 & D4).
    split; [exact D1|]. split; [rewrite <- D2; exact (Hfl D1)|]. by split.
  - by split.
  - exact (pl_payload _ _ Hp).
  - split; [apply (pl_load _ _ Hp)|]. exact (conj Hcps (conj Hcc Htx)).
  - exact (pl_timeout _ _ Hp).
  - exact (pl_cpus _ _ Hp).
  - exact (pl_paced _ _ Hp).
Qed.

Lemma wpo_finish q c texts log_dir_exists test : placed q c -> length texts = Z.to_nat (c_cpu_num c) -> Forall short texts ->
  wpo (or_refuse config_check_flow (or_refuse config_check_change_dip (
    st_modify (fun c => c <| c_tx_burst := if c_tx_burst c =? 0 then TX_BURST_DEFAULT else c_tx_burst c |>);;
    or_refuse (config_check_logdir log_dir_exists) (
    config_check_lport_range;;
    or_refuse config_check_target (or_refuse config_check_fast_close (or_refuse config_check_flow_isolate (
    mret (if test : bool then Exit else Parsed 0 texts)))))))) outcome c.
Proof.
  intros Hp Ht Hs. apply wpo_or_refuse. eapply wpo_mono; [apply pass_flow, Hp|]. intros r c1 H1 Hr.
  destruct (H1 Hr) as (flow & -> & Hflow). clear r H1 Hr.
  apply wpo_or_refuse. eapply wpo_mono; [apply pass_dip|]. intros r c2 H2 Hr. destruct (H2 Hr) as (-> & Hdip). clear r H2 Hr.
  apply wpo_bind, wpo_modify, wpo_or_refuse_check. intros _. apply wpo_bind, wpo_modify.
  destruct (pl_queues _ _ Hp) as [Hq Hn]. destruct (pl_load _ _ Hp) as (I1 & I2 & I3 & I4). pose proof (pl_lport _ _ Hp) as Hlp.
  set (tx := if _ =? 0 then TX_BURST_DEFAULT else _). set (lmin := if _ =? 0 then 1 else _). set (lmax := if _ =? 0 then _ else _).
  assert (1 <= tx < 256) as Htx by (subst tx; rsimpl; destruct (Z.eqb_spec (c_tx_burst c) 0); unfold TX_BURST_DEFAULT; lia).
  assert (1 <= lmin <= lmax /\ lmax < 65536) as Hl.
  { subst lmin lmax tx. rsimpl. unfold NETWORK_PORT_NUM. destruct (Z.eqb_spec (c_lport_min c) 0), (Z.eqb_spec (c_lport_max c) 0); lia. }
  clearbody tx lmin lmax. set (c3 := _ <| c_lport_max := _ |>).
  apply wpo_or_refuse. eapply wpo_mono; [apply (pass_target q c3); [done|apply Hp|exact Hn|exact I3|exact I2]|].
  intros r c4 H4 Hr. destruct (H4 Hr) as (cc & cps & flood & -> & C1 & C2 & C3). clear r H4 Hr. subst c3.
  apply wpo_or_refuse_check. intros _. apply wpo_or_refuse_check. intros _. apply wpo_ret. destruct test; [done|]. left. split; [done|].
  exists q. by apply placed_accepted.
Qed.

Section Whole.
Context (read_file : list Z -> option (list Z)) (random : nat -> Z) (alloc_ok log_dir_exists : bool).

(** The checks of the load keep the configuration loaded. *)
Lemma wpo_load_check m k c : passes m same_kept -> loaded c -> (forall c', loaded c' -> same_kept c c' -> wpo k outcome c') ->
  wpo (or_refuse m k) outcome c.
Proof using Type.
  intros Hm Hl Hk. apply (wpo_or_refuse_passes _ _ _ _ Hm); [apply Hl|]. intros c' Hc' Hs. apply Hk; [by eapply loaded_kept|done].
Qed.
Lemma wpo_load_only m k c : passes m same_kept -> loaded c -> (forall c', loaded c' -> wpo k outcome c') -> wpo (or_refuse m k) outcome c.
Proof using Type. intros Hm Hl Hk. apply (wpo_load_check _ _ _ Hm Hl). auto. Qed.

Lemma config_check_ok test c : config_ok c -> wpo (config_check read_file random alloc_ok log_dir_exists test) outcome c.
Proof using Type.
  intros Hc. unfold config_check. apply wpo_bind, wpo_modify. destruct (defaults_ok c Hc) as (Hd & Hp & Ht & Hdur).
  revert Hd Hp Ht Hdur. generalize (config_defaults c). clear c Hc. intros c Hc Hp Ht Hdur.
  apply wpo_or_refuse. eapply wpo_mono; [by apply pass_mss|]. intros r c' H Hr. destruct (H Hr) as (m & -> & Hm). clear r H Hr.
  apply wpo_bind, wpo_modify. pose proof (listen_ok c m Hc Hm Hp Ht Hdur) as Hl. revert Hl. generalize (config_listen_default (c <| c_mss := m |>)).
  clear c m Hc Hp Ht Hm Hdur. intros c Hl.
  apply (wpo_load_only _ _ _ pass_keepalive Hl). clear c Hl. intros c Hl.
  apply (wpo_load_only _ _ _ pass_pipeline Hl). clear c Hl. intros c Hl.
  apply (wpo_load_only _ _ _ pass_http Hl). clear c Hl. intros c Hl.
  apply (wpo_load_only _ _ _ pass_wait Hl). clear c Hl. intros c Hl.
  apply wpo_or_refuse. eapply wpo_mono; [apply pass_slow_start, Hl|]. intros r c' H Hr. destruct (H Hr) as (n & -> & Hn & Hpc). clear r H Hr.
  apply (slow_loaded c n) in Hl; [|exact Hn]. revert Hl Hpc. generalize (c <| c_slow_start := n |>). clear c n Hn. intros c Hl Hpc.
  apply (wpo_or_refuse_passes _ _ _ _ (pass_client_addr alloc_ok)); [apply Hl|]. intros c1 Hc1 [Hs1 Hu].
  eapply loaded_kept in Hl; [|exact Hc1|exact Hs1]. eapply paced_kept in Hpc; [|exact Hs1]. clear c Hc1 Hs1.
  apply (wpo_or_refuse_passes _ _ _ _ pass_server_addr); [apply Hl|]. intros c2 Hc2 [Hs2 Hsa].
  eapply loaded_kept in Hl; [|exact Hc2|exact Hs2]. eapply unique_kept in Hu; [|exact Hs2]. eapply paced_kept in Hpc; [|exact Hs2]. clear c1 Hc2 Hs2.
  apply (wpo_or_refuse_passes _ _ _ _ pass_address_conflict); [apply Hl|]. intros c3 Hc3 [Hs3 Hca].
  assert (loaded c3) as Hl3 by (eapply loaded_kept; done). assert (distinct c3) as Hd
    by (split; [by eapply unique_kept|split; [by eapply servers_kept|done]]). eapply paced_kept in Hpc; [|exact Hs3]. clear c2 Hl Hu Hsa Hc3 Hs3 Hca.
  apply (wpo_load_check _ _ _ pass_local_addr Hl3). intros c4 Hl4 Hs4. eapply distinct_kept in Hd; [|exact Hs4]. eapply paced_kept in Hpc; [|exact Hs4]. clear c3 Hl3 Hs4.
  apply wpo_bind. pose proof (mss_max_range c4 (proj1 Hl4)). pose proof (proj1 (proj2 (proj2 Hl4))).
  eapply wpo_mono; [apply payload_texts; [apply Hl4|lia]|]. intros [texts|] c5 Ht; [|apply wpo_ret; by right].
  destruct (Ht _ eq_refl) as (Hc5 & Hs5 & H1 & H2). assert (c_cpu_num c5 = c_cpu_num c4) as En by (unfold same_kept, kept in Hs5; injection Hs5; intros; congruence).
  eapply loaded_kept in Hl4; [|exact Hc5|exact Hs5]. eapply distinct_kept in Hd; [|exact Hs5]. eapply paced_kept in Hpc; [|exact Hs5]. rewrite <- En in H1.
  apply wpo_place; [done..|]. intros q c6 Hp6 E6. apply (wpo_finish q); [done|by rewrite E6|done].
Qed.

Context (inet_pton4 : list Z -> option Z) (inet_pton6 : list Z -> option ipaddr_t).
Context (Hpton4 : forall s x, inet_pton4 s = Some x -> in_u 32 x).
Context (Hpton6 : forall s a, inet_pton6 s = Some a -> in_u 32 (ip a)).

Lemma config_options_ok opts conf test c : config_ok c ->
  wpo (config_options inet_pton4 inet_pton6 read_file random alloc_ok log_dir_exists opts conf test) outcome c.
Proof using Hpton4 Hpton6.
  revert conf test c. induction opts as [|o opts IH]; intros conf test c Hc; cbn [config_options].
  - destruct (negb conf); [apply wpo_ret; by right|by apply config_check_ok].
  - destruct o; [|by apply wpo_ret|by apply wpo_ret|auto|by apply wpo_ret|apply wpo_ret; by right].
    apply wpo_or_refuse. eapply wpo_mono; [by apply (file_keeps _ _ Hpton4 Hpton6)|]. intros r c' H Hr. auto.
Qed.
End Whole.
