(* ===== verification/ConfigProps.v ===== *)
(** * ConfigProps: the configuration file and the workers it starts

    The properties of the parser as a whole: every input is parsed or refused,
    words and numbers are read back as they were written, and a configuration
    that is accepted is one that every worker can be started with. *)

From S2P Require Import Prelude SocketNode IpRange Tick Config Mbuf NetStats World WorkSpace Socket HttpParse Payload Template.
From S2P Require Import SocketTable Init Env SocketTableInv InitInv ConfigNumber ConfigKeyword ConfigParse ConfigCheck ConfigInv ConfigAccept.

(** ** The number of sockets *)

Lemma wrap_mul_l w a b : wrap w (wrap w a * b) = wrap w (a * b).
Proof. unfold wrap. apply Zmult_mod_idemp_l. Qed.
Lemma wrap_mul_r w a b : wrap w (a * wrap w b) = wrap w (a * b).
Proof. unfold wrap. apply Zmult_mod_idemp_r. Qed.

Definition port_count (c : config) : Z := c_lport_max c - c_lport_min c + 1.
(** The number of addresses in ranges. *)
Definition ips_num (l : list ip_range) : Z := foldr (fun r n => num r + n) 0 l.

Lemma range_sockets c r : config_client_ip_range_socket_num c r = u32 (num r * (c_listen_num c * port_count c)).
Proof. unfold config_client_ip_range_socket_num. rewrite wrap_mul_l, wrap_mul_r. f_equal. unfold port_count. lia. Qed.

Lemma group_sockets c l n : foldl (fun n r => u32 (n + config_client_ip_range_socket_num c r)) (u32 n) l
  = u32 (n + ips_num l * (c_listen_num c * port_count c)).
Proof.
  revert n. induction l as [|r l IH]; intros n; cbn [foldl ips_num foldr]; [f_equal; lia|].
  rewrite range_sockets, wrap_add_l, wrap_add_r, IH. f_equal. fold (ips_num l). lia.
Qed.

Lemma ips_num_length l : Forall (fun r => 0 <= num r <= 255 /\ (Z.to_nat (num r) <= length (list_ r))%nat) l ->
  Z.of_nat (length (l ≫= range_ips)) = ips_num l.
Proof.
  induction 1 as [|r l [H1 H2] _ IH]; [done|]. rewrite bind_cons, length_app, Nat2Z.inj_add, IH. cbn [ips_num foldr].
  unfold range_ips. rewrite length_take. fold (ips_num l). lia.
Qed.

(** The clients of the sockets of a worker at [port], and its servers. *)
Definition clients_of (c : config) (port : netif_port) : list ip_range :=
  if c_server c then for_each_ip_range (c_client_ip_group c) else [np_client_ip_range port].
Definition servers_of (c : config) (port : netif_port) : Z := if c_flow c =? FLOW_FDIR then 1 else num (np_server_ip_range port).
(** One socket for each client address and port and each server address and port. *)
Definition connections (c : config) (port : netif_port) : Z :=
  ips_num (clients_of c port) * (port_count c * (servers_of c port * c_listen_num c)).

Lemma socket_num_wraps c i port queue_id : config_port_get c i = Some (port, queue_id) ->
  config_get_total_socket_num c i = Some (u32 (connections c port)).
Proof.
  intros E. unfold config_get_total_socket_num, connections, servers_of. rewrite E. cbn [mbind option_bind]. f_equal.
  set (n := if c_server c then _ else _).
  assert (n = u32 (ips_num (clients_of c port) * (c_listen_num c * port_count c))) as ->.
  { unfold n, clients_of. destruct (c_server c).
    - change 0 with (u32 0) at 1. rewrite group_sockets. f_equal.
    - rewrite range_sockets. cbn [ips_num foldr]. f_equal. lia. }
  destruct (c_flow c =? FLOW_FDIR); [f_equal; lia|]. rewrite wrap_mul_l. f_equal. lia.
Qed.

(** ** The seat of a worker *)

(** A run of consecutive addresses does not leave its last byte. *)
Lemma range_nth_sum a k n : in_u 32 a -> 0 <= k -> last_byte_of a + n - 1 < 255 -> k < n ->
  ntohl (range_nth a k) = ntohl a + k /\ ntohl a + n < 2 ^ 32.
Proof.
  intros Ha Hk Hl Hn. unfold range_nth. pose proof (bswap32_range a) as Hr. unfold last_byte_of in Hl. rewrite land_255 in Hl.
  change (2 ^ 32) with 4294967296. unfold in_u in Hr. change (2 ^ 32) with 4294967296 in Hr.
  assert (ntohl a + n < 4294967296) as Hb by (Z.to_euclidean_division_equations; lia).
  rewrite bswap32_involutive; [|apply wrap_range; lia]. rewrite wrap_small; [by split|]. unfold in_u. change (2 ^ 32) with 4294967296. lia.
Qed.

Lemma sized_of r : range_wf r -> 0 <= num r <= 255 /\ (Z.to_nat (num r) <= length (list_ r))%nat.
Proof. intros H. pose proof (wf_num _ H). rewrite (wf_list_len _ H). lia. Qed.

Lemma ranges_sized P g : (forall r, P r -> range_wf r) -> group_ok P g ->
  Forall (fun r => 0 <= num r <= 255 /\ (Z.to_nat (num r) <= length (list_ r))%nat) (for_each_ip_range g).
Proof. intros HP Hg. apply list.Forall_forall. intros r Hr. eapply sized_of, HP, group_ranges; done. Qed.

Lemma NoDup_range_of_group g r : r ∈ for_each_ip_range g -> NoDup (low16 <$> group_ips g) -> NoDup (low16 <$> range_ips r).
Proof.
  intros (l1 & l2 & E)%list_elem_of_split. unfold group_ips. rewrite E, bind_app, bind_cons, !fmap_app.
  by intros (_ & _ & (H & _)%list.NoDup_app)%list.NoDup_app.
Qed.

Section Seat.
Context (q : Z) (texts : list (list Z)) (c : config) (Hc : accepted q texts c).

Lemma group_entry P g i r : group_ok P g -> Z.of_nat i < group_num g -> ip_ranges g !! i = Some r -> P r /\ r ∈ for_each_ip_range g.
Proof using Type.
  intros Hg Hi E. split.
  - apply (go_used _ _ Hg (Z.of_nat i)); [lia|]. unfold aget. destruct (Z.leb_spec 0 (Z.of_nat i)); [|lia]. by rewrite Nat2Z.id.
  - apply (list_elem_of_lookup_2 _ i). unfold for_each_ip_range. rewrite lookup_take_lt by lia. exact E.
Qed.

(** The ranges of a port in use. *)
Lemma port_servers i p : c_ports c !! i = Some p -> server_range_ok (np_server_ip_range p).
Proof using Hc.
  intros E. destruct (ac_ranges _ _ _ Hc i p E) as (_ & Es & _). destruct (ac_servers _ _ _ Hc) as [Hg Hn].
  apply lookup_lt_Some in E. eapply group_entry; [exact Hg| |exact Es]. unfold c_port_num in Hn. lia.
Qed.
Lemma port_clients i p : c_server c = false -> c_ports c !! i = Some p ->
  range_ok (np_client_ip_range p) /\ np_client_ip_range p ∈ for_each_ip_range (c_client_ip_group c).
Proof using Hc.
  intros Hs E. destruct (ac_ranges _ _ _ Hc i p E) as (Ec & _). destruct (ac_clients _ _ _ Hc) as (Hg & _ & Hn). specialize (Hn Hs).
  apply lookup_lt_Some in E. eapply group_entry; [exact Hg| |exact Ec]. unfold c_port_num in Hn. lia.
Qed.

Lemma queue_of i : 0 <= i < c_cpu_num c -> 0 <= i mod q < q.
Proof using Hc. intros Hi. apply Z.mod_pos_bound. pose proof (proj1 (ac_queues _ _ _ Hc)). lia. Qed.

(** The first server address of a worker. *)
Lemma first_server i p (qid : Z) : c_ports c !! i = Some p -> 0 <= qid < q ->
  exists first, ip_range_get (np_server_ip_range p) (if c_flow c =? FLOW_FDIR then qid else 0) = Some first
    /\ 0 < servers_of c p <= 255 /\ ntohl first + servers_of c p < 2 ^ 32.
Proof using Hc.
  intros E Hq. destruct (port_servers i p E) as [[Hwf _] (a & Ha & Hne & Hlast & Hget)]. pose proof (wf_num _ Hwf) as Hn.
  unfold servers_of. destruct (Z.eqb_spec (c_flow c) FLOW_FDIR) as [Ef|Ef].
  - assert (num (np_server_ip_range p) = q) as En.
    { destruct (ac_flow _ _ _ Hc) as [[Ef' _]|[Ef'|[_ HF]]]; [by rewrite Ef in Ef'..|].
      rewrite <- (Forall_lookup_1 _ _ _ _ HF E). by destruct (Forall_lookup_1 _ _ _ _ (ac_ports _ _ _ Hc) E). }
    exists (range_nth a qid). destruct (range_nth_sum a qid (num (np_server_ip_range p)) Ha) as [E1 E2]; [lia..|].
    split; [apply Hget; lia|]. rewrite E1. lia.
  - exists (range_nth a 0). destruct (range_nth_sum a 0 (num (np_server_ip_range p)) Ha) as [E1 E2]; [lia..|].
    split; [apply Hget; lia|]. rewrite E1. lia.
Qed.

Lemma clients_sized i p : c_ports c !! i = Some p ->
  Forall (fun r => 0 <= num r <= 255 /\ (Z.to_nat (num r) <= length (list_ r))%nat) (clients_of c p)
  /\ NoDup (low16 <$> (clients_of c p ≫= range_ips)) /\ 0 < ips_num (clients_of c p).
Proof using Hc.
  intros E. destruct (ac_clients _ _ _ Hc) as (Hg & Hn & _). destruct (ac_unique _ _ _ Hc) as [Hu _]. unfold clients_of.
  destruct (c_server c) eqn:Es.
  - assert (Forall (fun r => 0 <= num r <= 255 /\ (Z.to_nat (num r) <= length (list_ r))%nat) (for_each_ip_range (c_client_ip_group c))) as HF
      by (apply (ranges_sized range_ok); [by intros r []|done]).
    split; [done|]. split; [exact Hu|]. destruct (aget_some (ip_ranges (c_client_ip_group c)) 0) as [r Hr]; [rewrite (go_len _ _ Hg); lia|].
    destruct (group_entry range_ok (c_client_ip_group c) 0 r Hg ltac:(lia) Hr) as [[Hwf _] _]. pose proof (wf_num _ Hwf).
    unfold for_each_ip_range in *. unfold aget in Hr. change (Z.to_nat 0) with 0%nat in Hr. cbn in Hr.
    destruct (ip_ranges (c_client_ip_group c)) as [|r' l]; [done|]. injection Hr as ->.
    destruct (Z.to_nat (group_num (c_client_ip_group c))) as [|n] eqn:En; [lia|]. cbn [take] in *. cbn [ips_num foldr]. fold (ips_num (take n l)).
    apply Forall_cons_1 in HF as [_ HF]. rewrite <- (ips_num_length _ HF). lia.
  - destruct (port_clients i p Es E) as [[Hwf _] Hin]. pose proof (wf_num _ Hwf). split; [by constructor; [apply sized_of|]|].
    split; [|cbn; lia]. cbn. rewrite app_nil_r. by eapply NoDup_range_of_group.
Qed.

(** What [socket_table_init] asks of the configuration, when the number of
    sockets fits 32 bits. *)
Lemma accepted_table w i p qid base : w_cfg w = c -> c_ports c !! i = Some p -> 0 <= qid < q -> connections c p < 2 ^ 32 ->
  0 < connections c p /\ exists first, table_config (seated w p qid (connections c p) base) first.
Proof using Hc.
  intros Ew E Hq Hfit. destruct (first_server i p qid E Hq) as (first & F1 & F2 & F3). destruct (clients_sized i p E) as (C1 & C2 & C3).
  destruct (ac_listen _ _ _ Hc) as (L1 & L2 & L3). destruct (ac_lport _ _ _ Hc) as [P1 P2].
  assert (client_ranges (seated w p qid (connections c p) base) = clients_of c p) as E1 by (unfold client_ranges, seated; rsimpl; by rewrite Ew).
  assert (is_fdir (seated w p qid (connections c p) base) = (c_flow c =? FLOW_FDIR)) as E2 by (unfold is_fdir, seated; rsimpl; by rewrite Ew).
  assert (server_ip_count (seated w p qid (connections c p) base) = servers_of c p) as E3 by (unfold server_ip_count; by rewrite E2).
  split. { unfold connections, port_count. repeat apply Z.mul_pos_pos; lia. }
  exists first. split; unfold client_ips, client_port_count, server_ip_first; rewrite ?E1, ?E2, ?E3; unfold seated; rsimpl; rewrite ?Ew.
  - exact F1.
  - done.
  - lia.
  - done.
  - exact C1.
  - exact C2.
  - by rewrite (ips_num_length _ C1).
  - exact Hfit.
Qed.
End Seat.

(** ** From the file to the worker *)

(** The texts of the workers, in the arrays of the program. *)
Definition text_array (used : bool) (texts : list (list Z)) : list (list Z) :=
  (if used then texts else []) ++ replicate (64 - length (if used then texts else [])) [].
Definition http_request_array (c : config) := text_array ((c_protocol c =? IPPROTO_TCP) && negb (c_server c)).
Definition http_response_array (c : config) := text_array ((c_protocol c =? IPPROTO_TCP) && c_server c).
Definition datagram_array (c : config) := text_array (negb (c_protocol c =? IPPROTO_TCP)).

Lemma text_array_get used texts i : (length texts <= 64)%nat -> Forall short texts -> 0 <= i < 64 ->
  exists t, aget (text_array used texts) i = Some t /\ short t.
Proof.
  intros Hl Hs Hi. unfold text_array. set (l := if used then texts else []).
  assert ((length l <= 64)%nat /\ Forall short l) as [Hl' Hs'] by (unfold l; destruct used; [done|split; [cbn; lia|constructor]]).
  destruct (aget_some (l ++ replicate (64 - length l) []) i) as [t E]; [rewrite length_app, length_replicate; lia|].
  exists t. split; [done|]. unfold aget in E. destruct (0 <=? i); [|done].
  apply list_elem_of_lookup_2 in E. apply elem_of_app in E as [E|E]; [by eapply list.Forall_forall in E|].
  apply elem_of_replicate in E as [-> _]. by vm_compute.
Qed.

(** The state of the process and of the machine in which a worker starts. *)
Record process_ok {D : Dpdk} (alloc : Z -> option N) (num : Z) (base : N) (worker : Z) (w : world) : Prop := {
  pr_worker : worker < Z.of_nat (length (w_peers w));
  pr_alloc : alloc num = Some base;
  pr_heads : forall t, is_Some (w_links w !! Head t);
  pr_pool : w_free_pool w = [];
  pr_peers : Forall (fun o => forall ws, o = Some ws -> (forall c, has_dmac (cache_data c ws)) /\ 0 <= ws_queue_id ws < 256) (w_peers w);
  pr_lldp : length (w_lldp_packet w) = 92%nat;
  pr_clock : 0 < g_tsc_per_tick (w_tick w) /\ 0 < g_tsc_per_second (w_tick w) / 10 /\ g_tsc_per_second (w_tick w) < 2 ^ 61
    /\ g_tsc_per_tick (w_tick w) < 2 ^ 61;
  pr_prompt : forall h, rte_rdtsc (Io_rdtsc (rte_rdtsc h) :: h) < rte_rdtsc h + g_tsc_per_second (w_tick w);
}.

Lemma wf_sized r : range_wf r -> range_sized r.
Proof. intros H. pose proof (wf_num _ H). split; [by apply wf_list_len|]. split; [by apply wf_valid_len|lia]. Qed.

Section Worker.
Context {D : Dpdk}.
Context (q : Z) (texts : list (list Z)) (c : config) (Hc : accepted q texts c).

Lemma accepted_link p i qid : c_ports c !! i = Some p -> 0 <= qid < q -> link_ok c p qid.
Proof using Hc.
  intros E Hq. destruct (Forall_lookup_1 _ _ _ _ (ac_ports _ _ _ Hc) E) as [[P1 P2 _] _]. split; [done|done|]. intros Hv.
  destruct (Forall_lookup_1 _ _ _ _ (ac_tunnels _ _ _ Hc Hv) E) as (vx & Evx & [_ [M1 M2] [[W1 _] [W2 _]]] & Hn).
  exists vx. split; [done|]. split; [done|done|]. intros len. unfold vxlan_iphdr.
  destruct (range_get_some _ qid W1) as (a & -> & _); [lia|]. pose proof (wf_num _ W2).
  assert (forall k, is_Some (ip_range_get (vx_vtep_remote vx) k)) as Hk.
  { intros k. unfold ip_range_get. destruct (Z.eqb_spec (num (vx_vtep_remote vx)) 0); [lia|]. apply aget_some. rewrite (wf_list_len _ W2).
    pose proof (wrap_range 8 (k mod num (vx_vtep_remote vx)) ltac:(lia)) as Hr. unfold in_u in Hr. change (2 ^ 8) with 256 in Hr. lia. }
  destruct (1 <? _); [destruct (Hk qid) as [b ->]|destruct (Hk 0) as [b ->]]; cbn; by eexists.
Qed.

Lemma accepted_port_sized p i : c_ports c !! i = Some p -> port_sized p.
Proof using Hc.
  intros E. destruct (Forall_lookup_1 _ _ _ _ (ac_ports _ _ _ Hc) E) as [[P1 P2 [P3 P4] _ _] _].
  destruct (ac_ranges _ _ _ Hc i p E) as (_ & _ & El). split; [rewrite P4; lia|done|done|]. rewrite El.
  destruct (c_server c) eqn:Es.
  - apply wf_sized. by destruct (port_servers _ _ _ Hc i p E) as [[] _].
  - apply wf_sized. by destruct (port_clients _ _ _ Hc i p Es E) as [[] _].
Qed.

Definition text_fits_room (room : Z) (t : list Z) : Prop :=
  (c_protocol c = IPPROTO_TCP -> tcp_fits c room (strlen t))
  /\ (c_protocol c = IPPROTO_UDP -> template_len c (c_af c =? AF_INET6) UDPHDR_LEN (strlen t) <= Z.min room MBUF_DATA_SIZE).

(** The text that worker [i] sends. *)
Definition worker_text (i : Z) : list Z := default [] (texts !! Z.to_nat i).

(** A worker of an accepted configuration has its seat. *)
Lemma accepted_seat (alloc : Z -> option N) room w i port base : w_cfg w = c -> 0 <= i < c_cpu_num c -> c_flow c ≠ FLOW_RSS ->
  config_port_get c i = Some (port, i mod q) -> connections c port < 2 ^ 32 -> process_ok alloc (connections c port) base i w ->
  text_fits_room room (worker_text i) ->
  exists s, startup_ok alloc (http_request_array c texts) (http_response_array c texts) (datagram_array c texts) room i w s
    /\ se_port s = port /\ se_queue_id s = i mod q /\ se_num s = connections c port /\ se_base s = base.
Proof using Hc.
  intros Ew Hi Hflow Eport Hfit [R1 R2 R3 R4 R5 R6 R7 R8] [F1 F2].
  destruct (ac_queues _ _ _ Hc) as [Hq Hn]. destruct (ac_ports_num _ _ _ Hc) as [[Hp1 _] Hcpu]. unfold THREAD_NUM_MAX in Hcpu.
  destruct (port_get q c i Hq Hn Hi) as (p & Ep & El). rewrite Eport in Ep. injection Ep as <-.
  pose proof (queue_of _ _ _ Hc i Hi) as Hqi. assert (q <= c_cpu_num c) as Hqn by nia.
  destruct (accepted_table _ _ _ Hc w _ port (i mod q) base Ew El Hqi Hfit) as (Hpos & first & Htable).
  destruct (ac_texts _ _ _ Hc) as [Ht1 Ht2].
  destruct (text_array_get ((c_protocol c =? IPPROTO_TCP) && negb (c_server c)) texts i) as (t1 & E1 & S1); [lia|done|lia|].
  destruct (text_array_get ((c_protocol c =? IPPROTO_TCP) && c_server c) texts i) as (t2 & E2 & S2); [lia|done|lia|].
  destruct (text_array_get (negb (c_protocol c =? IPPROTO_TCP)) texts i) as (t3 & E3 & S3); [lia|done|lia|].
  assert (forall t, aget (text_array true texts) i = Some t -> t = worker_text i) as Hw.
  { intros t E. unfold aget, text_array in E. destruct (0 <=? i); [|done]. rewrite lookup_app_l in E by lia. unfold worker_text. by rewrite E. }
  exists (Seat port (i mod q) (connections c port) first base (Texts t1 t2 t3)). split; [|done].
  split; cbn [se_port se_queue_id se_num se_first se_base se_texts tx_request tx_response tx_datagram]; rewrite ?Ew.
  - lia.
  - exact Eport.
  - lia.
  - rewrite (socket_num_wraps _ _ _ _ Eport), wrap_small by (unfold in_u; lia). by split.
  - exact R2.
  - exact R3.
  - exact R4.
  - exact R5.
  - exact R6.
  - by eapply accepted_link.
  - by eapply accepted_port_sized.
  - intros Hv. destruct (Forall_lookup_1 _ _ _ _ (ac_tunnels _ _ _ Hc Hv) El) as (vx & Evx & [_ _ [[W _] _]] & _).
    exists vx. split; [done|by apply wf_sized].
  - exact Hflow.
  - by split_and!.
  - apply aget_some. rewrite (ac_payload _ _ _ Hc). lia.
  - destruct (ac_protocol _ _ _ Hc) as [Ep|Ep]; [left|right]; (split; [exact Ep|]); rewrite Ep in *.
    + change (IPPROTO_TCP =? IPPROTO_TCP) with true in *. cbn [andb negb] in *. unfold tcp_text. cbn [tx_request tx_response].
      destruct (c_server c); cbn [negb] in *; rewrite (Hw _ ltac:(eassumption)); by apply F1.
    + change (IPPROTO_UDP =? IPPROTO_TCP) with false in *. cbn [negb] in E3. rewrite (Hw _ E3). by apply F2.
  - intros _ Hl. destruct (proj2 (ac_dip _ _ _ Hc) Hl) as (_ & _ & _ & ?). lia.
  - pose proof (proj2 (proj2 (proj2 (ac_load _ _ _ Hc)))). lia.
  - exact Htable.
  - exact R7.
  - destruct (ac_load _ _ _ Hc) as (_ & L1 & L2 & _). split; (apply client_assign_some; [lia|done]).
  - apply (ac_load _ _ _ Hc).
  - exact R8.
Qed.
End Worker.

(** ** The parser as a whole *)

(** C4: any command line and any files are parsed or refused: the parser ends,
    it never reads or writes outside an array and never divides by zero - a
    number too large for its type, an undefined conversion of C, is the only
    fault - and when it returns 0, the configuration satisfies all that
    [accepted] states. *)
Theorem config_parse_safe inet_pton4 inet_pton6 read_file random alloc_ok log_dir_exists opts :
  (forall s x, inet_pton4 s = Some x -> in_u 32 x) -> (forall s a, inet_pton6 s = Some a -> in_u 32 (ip a)) ->
  match config_parse inet_pton4 inet_pton6 read_file random alloc_ok log_dir_exists opts g_config_init with
  | Ok (Parsed ret texts, c) => (ret = 0 /\ exists q, accepted q texts c) \/ (ret = -1 /\ texts = [])
  | Ok (Exit, _) => True
  | Err e => e = Overflow
  end.
Proof.
  intros H4 H6. pose proof (config_options_ok read_file random alloc_ok log_dir_exists _ _ H4 H6 opts false false _ g_config_init_ok) as H.
  unfold config_parse. unfold wpo in H. destruct (config_options _ _ _ _ _ _ _ _ _ _) as [[[ret texts|] c]|[]]; done.
Qed.

Lemma demo_pton4_word s x : demo_pton4 s = Some x -> in_u 32 x.
Proof. unfold demo_pton4. destruct s as [|d [|]]; intros [=]. subst. apply bswap32_range. Qed.

Lemma config_parse_safe_witness :
  match config_parse demo_pton4 (fun _ => None) (fun _ => Some demo_file) (fun _ => 0) true true [Opt_conf []] g_config_init with
  | Ok (Parsed ret texts, c) => (ret = 0 /\ exists q, accepted q texts c) \/ (ret = -1 /\ texts = [])
  | Ok (Exit, _) => True
  | Err e => e = Overflow
  end.
Proof. apply config_parse_safe; [exact demo_pton4_word|done]. Defined.

Lemma parse_accepted inet_pton4 inet_pton6 read_file random alloc_ok log_dir_exists opts texts c :
  (forall s x, inet_pton4 s = Some x -> in_u 32 x) -> (forall s a, inet_pton6 s = Some a -> in_u 32 (ip a)) ->
  config_parse inet_pton4 inet_pton6 read_file random alloc_ok log_dir_exists opts g_config_init = Ok (Parsed 0 texts, c) ->
  exists q, accepted q texts c.
Proof.
  intros H4 H6 E. pose proof (config_options_ok read_file random alloc_ok log_dir_exists _ _ H4 H6 opts false false _ g_config_init_ok) as H.
  unfold config_parse in E. unfold wpo in H. rewrite E in H. by destruct H as [[_ H]|[H _]].
Qed.

(** A server with 200 clients, 1000 ports and 64000 client ports. *)
Definition crowded_file : list Z := mjoin ((fun s => chars s ++ [10]) <$>
  ["mode server"%string; "cpu 0"%string; "port 0000:01:00.0 a9 a8"%string; "client b1 200"%string; "server a5 1"%string;
   "listen 80 1000"%string; "client_port_range 1 64000"%string]).
(** Addresses of a letter and a digit, for the example. *)
Definition crowded_pton4 (s : list Z) : option Z :=
  match s with [n; d] => Some (htonl (167772160 + 256 * (n - 97) + (d - 48))) | _ => None end.


(** ** Words *)

Definition blank (s : list Z) : Prop := Forall (fun c => is_space c = true) s.
Definition word (s : list Z) : Prop := s ≠ [] /\ Forall (fun c => is_space c = false) s.

(** A line: words, each after white space, and what follows the last. *)
Fixpoint layout (segs : list (list Z * list Z)) (rest : list Z) : list Z :=
  match segs with
  | [] => rest
  | (sp, w) :: segs => sp ++ w ++ layout segs rest
  end.

Lemma span_app p s t : Forall (fun c => p c = true) s -> (forall c, head t = Some c -> p c = false) -> span p (s ++ t) = (s, t).
Proof.
  intros Hs Ht. induction Hs as [|c s Hc _ IH]; cbn [app span].
  - destruct t as [|c t]; [done|]. cbn [span]. by rewrite (Ht c eq_refl).
  - by rewrite Hc, IH.
Qed.

Lemma get_string_word sp w t : blank sp -> word w -> (forall c, head t = Some c -> is_space c = true) ->
  config_get_string (sp ++ w ++ t) = Some (w, drop 1 t).
Proof.
  intros Hsp [Hne Hw] Ht. unfold config_get_string, skip_space. destruct w as [|x w]; [done|].
  rewrite (span_app is_space sp) by (done || (intros c [= <-]; by apply Forall_cons_1 in Hw as [-> _])).
  cbn [snd app]. change (x :: w ++ t) with ((x :: w) ++ t). rewrite (span_app not_space); [done| |].
  - eapply list.Forall_impl; [exact Hw|]. intros c Hc. unfold not_space. by rewrite Hc.
  - intros c Hc. unfold not_space. by rewrite (Ht c Hc).
Qed.

Lemma words_blank n rest : blank rest -> words n rest = [].
Proof.
  intros Hr. destruct n as [|n]; [done|]. cbn [words]. unfold config_get_string, skip_space.
  assert (span is_space rest = (rest, [])) as ->; [|done].
  pose proof (span_app is_space rest [] Hr) as E. rewrite app_nil_r in E. by apply E.
Qed.

(** Every word after the first has white space before it. *)
Definition seg_ok (seg : list Z * list Z) : Prop := seg.1 ≠ [] /\ blank seg.1 /\ word seg.2.

Lemma words_layout n sp w segs rest : blank sp -> word w -> (length segs < n)%nat -> Forall seg_ok segs -> blank rest ->
  words n (sp ++ w ++ layout segs rest) = w :: segs.*2.
Proof.
  intros Hsp Hw Hn Hs Hr. revert n sp w Hsp Hw Hn. induction Hs as [|[sp' w'] segs (H1 & H2 & H3) Hs IH]; intros n sp w Hsp Hw Hn;
    (destruct n as [|n]; [cbn in Hn; lia|]); cbn [layout fmap list_fmap words length] in *.
  - rewrite get_string_word; [|done|done|].
    + f_equal. apply words_blank. destruct rest as [|c rest]; [done|]. by apply Forall_cons_1 in Hr as [_ Hr].
    + intros c Hc. destruct rest as [|d rest]; [done|]. injection Hc as ->. by apply Forall_cons_1 in Hr as [Hr _].
  - cbn [fst snd] in *. destruct sp' as [|c sp']; [done|]. apply Forall_cons_1 in H2 as [Hc H2].
    rewrite get_string_word; [|done|done|by intros d [= <-]]. f_equal. cbn [app drop]. apply IH; [done|done|lia].
Qed.

(** C34: the words of a line are read back whatever white space is between
    them, up to the 32 words that a handler takes, unless the line is a comment
    or has characters that are not allowed. *)
Theorem parse_line_words sp w segs rest : let line := sp ++ w ++ layout segs rest in
  blank sp -> word w -> Forall seg_ok segs -> blank rest -> (length segs < CONFIG_ARG_NUM_MAX)%nat ->
  config_keyword_parse_line line CONFIG_ARG_NUM_MAX =
    if forallb char_allowed line then (if bool_decide (head w = Some 35) then Some [] else Some (w :: segs.*2)) else None.
Proof.
  cbv zeta. intros Hsp Hw Hs Hr Hn. unfold config_keyword_parse_line, config_keyword_check_input.
  destruct (forallb _ _); [|done]. cbn [negb]. rewrite words_layout by done. destruct w as [|x w]; [by destruct Hw|]. cbn [head].
  case_bool_decide as E; [by injection E as ->|]. repeat case_match; by subst.
Qed.

Lemma parse_line_words_witness :
  config_keyword_parse_line ([9] ++ chars "cpu" ++ layout [([32; 32], chars "0"); ([9], chars "2-3")] [10]) CONFIG_ARG_NUM_MAX
  = Some [chars "cpu"; chars "0"; chars "2-3"].
Proof.
  rewrite (parse_line_words [9] (chars "cpu") [([32; 32], chars "0"); ([9], chars "2-3")] [10]).
  - vm_compute. reflexivity.
  - repeat constructor.
  - split; [discriminate|]. repeat constructor.
  - repeat (apply List.Forall_cons; [split; [discriminate|]; split; [repeat constructor|split; [discriminate|repeat constructor]]|]). constructor.
  - repeat constructor.
  - vm_compute. lia.
Defined.

(** ** Numbers *)

Lemma digits_atol x s : 0 <= x < 10 ^ 18 -> (forall c, head s = Some c -> is_digit c = false) -> atol (print_int x ++ s) = x.
Proof.
  intros Hx Hs. unfold print_int. destruct (Z.ltb_spec x 0); [lia|].
  assert (atol_digits 0 (dec_digits 20 x [] ++ s) = x) as Ha.
  { rewrite <- dec_digits_acc, dec_digits_atol by (change (Z.of_nat 20 + 1) with 21; lia).
    destruct s as [|c s]; [done|]. cbn [atol_digits]. by rewrite (Hs c eq_refl). }
  pose proof (dec_digits_digits 20 x ltac:(lia)) as Hd. pose proof (dec_digits_length 20 x 18 ltac:(lia) Hx) as Hl.
  destruct (dec_digits 20 x []) as [|c l]; [simpl in Hl; lia|].
  apply Forall_cons_1 in Hd as [Hc _]. cbn [app atol] in *.
  unfold is_digit in Hc. assert (is_space c = false) as -> by (unfold is_space; lia).
  assert ((c =? 45) = false) as -> by lia. assert ((c =? 43) = false) as -> by lia.
  rewrite Ha. unfold clamp_long. lia.
Qed.

Lemma find_nondigit_skip fl ds s : Forall (fun c => is_digit c = true) ds -> find_nondigit fl 0 (ds ++ s) = find_nondigit fl 0 s.
Proof. induction 1 as [|c ds Hc _ IH]; [done|]. cbn [app find_nondigit]. by rewrite Hc. Qed.

(** The units of a number. *)
Definition units : list (list Z * Z) :=
  [([], 1); (chars "k", 1000); (chars "K", 1000); (chars "m", 1000000); (chars "M", 1000000)].


