(* ===== verification/Card.v ===== *)
(** * Card: the network card as the program sees it

    The calls by which [src/port.c], [src/bond.c], [src/flow.c], [src/dpdk.c]
    and [src/virtio-user.c] prepare the machine, the answers of DPDK as
    parameters that depend on the calls made before, and the state that these
    files share: the configuration, [g_port_conf], the two offload flags and the clock.
    The calls are those of DPDK 22.11 and later. *)

From S2P Require Import Prelude IpRange Tick Config Payload.

(** ** Data of DPDK that the source reads or writes *)

Record rte_eth_dev_info := DevInfo {
  di_tx_offload_capa : Z;
  di_rx_offload_capa : Z;
  di_max_rx_queues : Z;
  di_max_tx_queues : Z;
  di_rx_nb_max : Z;
  di_tx_nb_max : Z;
  di_flow_type_rss_offloads : Z;
}.

Record rte_eth_conf := EthConf {
  ec_rx_mq_mode : Z;
  ec_rx_mtu : Z;
  ec_rx_offloads : Z;
  ec_rss_hf : Z;
  ec_tx_mq_mode : Z;
  ec_tx_offloads : Z;
}.
#[export] Instance eta_rte_eth_conf : Eta rte_eth_conf := fun c =>
  EthConf (ec_rx_mq_mode c) (ec_rx_mtu c) (ec_rx_offloads c) (ec_rss_hf c) (ec_tx_mq_mode c) (ec_tx_offloads c).

(** One item of a flow rule: the values and the mask of the two addresses, in
    words of 32 bits; an Ethernet item leaves everything open. *)
Inductive rte_flow_item :=
  | Item_eth
  | Item_ipv4 (src dst smask dmask : Z)
  | Item_ipv6 (src dst : ipaddr_t) (smask dmask : ipaddr_t).

(** ** Calls *)

(** A call with its arguments as they arrive, the port a [uint16_t].  A pointer
    that DPDK returns is a number, 0 the null pointer. *)
Inductive dev_call :=
  | Eal_init (argv : list (list Z))
  | Eal_cleanup
  | Set_simd512
  | Pdump_init
  | Pdump_uninit
  | Dev_count
  | Port_by_name (name : list Z)
  | Port_name (port : Z)
  | Socket_id (port : Z)
  | This_socket_id
  | Dev_valid (port : Z)
  | Dev_info_get (port : Z)
  | Dev_configure (port rx tx : Z) (conf : rte_eth_conf)
  | Rx_queue_setup (port queue nb socket mp : Z)
  | Tx_queue_setup (port queue nb socket : Z)
  | Pool_create (name : list Z) (n size socket : Z)
  | Pool_free (mp : Z)
  | Dev_start (port : Z)
  | Macaddr_get (port : Z)
  | Allmulticast_enable (port : Z)
  | Promiscuous_enable (port : Z)
  | Stats_reset (port : Z)
  | Dev_stop (port : Z)
  | Dev_close (port : Z)
  | Bond_create (name : list Z) (mode socket : Z)
  | Bond_policy (port policy : Z)
  | Bond_slave_add (port slave : Z)
  | Bond_active (port max : Z)
  | Sleep (sec : Z)
  | Flow_isolate (port : Z)
  | Flow_flush (port : Z)
  | Flow_validate (port : Z) (pattern : list rte_flow_item) (queue : Z)
  | Flow_create (port : Z) (pattern : list rte_flow_item) (queue : Z)
  | Hotplug_add (name args : list Z)
  | Hotplug_remove (name : list Z)
  | Ring_create (name : list Z) (size socket : Z)
  | Ring_free (name : list Z)
  | Socket_open
  | Ioctl_get_flags (fd : Z) (name : list Z)
  | Ioctl_set_flags (fd : Z) (name : list Z) (flags : Z)
  | Socket_close (fd : Z).

Definition history : Type := list (dev_call * Z).

(** The answers of DPDK and its constants: [nic_ret] is what a call returns,
    the others what it stores besides. *)
Class Card := {
  nic_ret : history -> dev_call -> Z;
  nic_info : history -> Z -> rte_eth_dev_info;
  nic_mac : history -> Z -> eth_addr;
  nic_port : history -> list Z -> Z;
  nic_name : history -> Z -> list Z;
  nic_flags : history -> list Z -> Z;
  RTE_ETH_MQ_RX_NONE : Z;
  RTE_ETH_MQ_RX_RSS : Z;
  RTE_ETH_MQ_TX_NONE : Z;
  RTE_ETH_TX_OFFLOAD_VLAN_INSERT : Z;
  RTE_ETH_TX_OFFLOAD_IPV4_CKSUM : Z;
  RTE_ETH_TX_OFFLOAD_UDP_CKSUM : Z;
  RTE_ETH_TX_OFFLOAD_TCP_CKSUM : Z;
  RTE_ETH_RX_OFFLOAD_VLAN_STRIP : Z;
  RTE_ETH_RSS_NONFRAG_IPV4_TCP : Z;
  RTE_ETH_RSS_NONFRAG_IPV4_UDP : Z;
  RTE_ETH_RSS_NONFRAG_IPV6_TCP : Z;
  RTE_ETH_RSS_NONFRAG_IPV6_UDP : Z;
  RTE_RING_NAMESIZE : Z;
  RTE_MBUF_DEFAULT_BUF_SIZE : Z;
}.

(** An address of a card has six bytes. *)
Class CardLaws (C : Card) : Prop := {
  mac_length h p : length (nic_mac h p) = 6%nat;
}.

(** ** State *)

Record machine := Machine {
  d_cfg : config;
  d_conf : rte_eth_conf;
  d_ipv4_cksum : Z;
  d_tcpudp_cksum : Z;
  d_tick : tick_globals;
  d_log : history;
}.
#[export] Instance eta_machine : Eta machine := fun m =>
  Machine (d_cfg m) (d_conf m) (d_ipv4_cksum m) (d_tcpudp_cksum m) (d_tick m) (d_log m).

Abbreviation DM := (ST machine).

(** [g_port_conf] before the first port. *)
Definition g_port_conf `{Card} : rte_eth_conf :=
  EthConf RTE_ETH_MQ_RX_NONE 0 0 0 RTE_ETH_MQ_TX_NONE 0.
Definition machine_init `{Card} (c : config) : machine := Machine c g_port_conf 0 0 (TickGlobals 0 0) [].

Section Calls.
Context {C : Card}.

Definition call (d : dev_call) : DM Z := fun m =>
  let r := nic_ret (d_log m) d in Ok (r, m <| d_log ::= cons (d, r) |>).
(** What a call stores is read from the history at the time of the call. *)
Definition asking {A} (f : history -> A) : DM A := st_gets (fun m => f (d_log m)).

Definition dev_cfg {A} (f : config -> A) : DM A := st_gets (fun m => f (d_cfg m)).
Definition conf_mod (f : rte_eth_conf -> rte_eth_conf) : DM unit := st_modify (fun m => m <| d_conf ::= f |>).

Definition port_get (i : nat) : DM netif_port := c ← dev_cfg id; st_lift OutOfBounds (c_ports c !! i).
Definition port_mod (i : nat) (f : netif_port -> netif_port) : DM unit :=
  st_modify (fun m => m <| d_cfg ::= fun c => c <| c_ports ::= alter f i |> |>).

(** [config_for_each_port] around a body that may fail: the first failure ends
    the loop. *)
Fixpoint for_ports (body : nat -> DM Z) (ports : list nat) : DM Z :=
  match ports with
  | [] => mret 0
  | i :: ports => ret ← body i; if ret <? 0 then mret (-1) else for_ports body ports
  end.
Definition config_for_each_port (body : nat -> DM Z) : DM Z :=
  c ← dev_cfg id; for_ports body (seq 0 (length (c_ports c))).
End Calls.
