(* ===== verification/Port.v ===== *)
(** * Port: the ports of the network card

    [src/port.c], [src/rss.c], the part of [src/bond.c] that creates a bond and
    [mbuf_pool_create] of [src/mbuf.c].  [port_clear] belongs to the worker's
    thread (file Init), [bond_broadcast] to the worker (file Kni). *)

From S2P Require Import Prelude IpRange Config Payload Card.

Definition NB_TXD : Z := 4096.
Definition NB_MBUF : Z := 8192 * 8.
Definition JUMBO_MBUF_SIZE : Z := 1024 * 11.
Definition BOND_SLAVE_MAX : Z := 4.
Definition BOND_WAIT_SEC : Z := 16.

Section Port.
Context {C : Card}.

(** ** Queues and memory pools *)

Definition mbuf_pool_create (str : list Z) (port_id queue_id : Z) : DM Z :=
  socket_id ← call (Socket_id port_id);
  c ← dev_cfg id;
  call (Pool_create (snprintf RTE_RING_NAMESIZE (str ++ chars "_" ++ print_int port_id ++ chars "_" ++ print_int queue_id))
          NB_MBUF (if c_jumbo c then JUMBO_MBUF_SIZE else RTE_MBUF_DEFAULT_BUF_SIZE) socket_id).

(** A null pointer beyond the last queue. *)
Definition port_get_mbuf_pool (p : netif_port) (queue_id : Z) : option Z :=
  if queue_id <? np_queue_num p then aget (np_mbuf_pool p) queue_id else Some 0.

Definition port_init_tx (port_id txq nb_txd : Z) : DM Z :=
  socket ← call (Socket_id (u16 port_id));
  call (Tx_queue_setup (u16 port_id) txq nb_txd (u32 socket)).

Definition port_init_rx (port : netif_port) (rxq nb_rxd : Z) : DM Z :=
  mp ← st_lift OutOfBounds (port_get_mbuf_pool port rxq);
  socket ← call (Socket_id (u16 (np_id port)));
  call (Rx_queue_setup (u16 (np_id port)) rxq nb_rxd (u32 socket) mp).

(** The pools of queues below [n] are returned, the last one first. *)
Fixpoint mbuf_pools_free (n : nat) (i : nat) : DM unit :=
  match n with
  | O => mret tt
  | S n =>
      p ← port_get i;
      mp ← st_lift OutOfBounds (np_mbuf_pool p !! n);
      call (Pool_free mp);;
      port_mod i (fun p => p <| np_mbuf_pool ::= <[n := 0]> |>);;
      mbuf_pools_free n i
  end.

(** The pools of the queues from [queue] on, [n] of them. *)
Fixpoint mbuf_pools_new (n queue : nat) (i : nat) : DM Z :=
  match n with
  | O => mret 0
  | S n =>
      p ← port_get i;
      mp ← mbuf_pool_create (chars "mp") (u16 (np_id p)) (u16 (Z.of_nat queue));
      if mp =? 0 then mbuf_pools_free queue i;; mret (-1)
      else
        st_lift OutOfBounds (np_mbuf_pool p !! queue);;
        port_mod i (fun p => p <| np_mbuf_pool ::= <[queue := mp]> |>);;
        mbuf_pools_new n (S queue) i
  end.

Definition port_init_mbuf_pool (i : nat) : DM Z :=
  p ← port_get i; mbuf_pools_new (Z.to_nat (np_queue_num p)) 0 i.

(** ** The device *)

Definition port_config_vlan (dev_info : rte_eth_dev_info) : DM Z :=
  if has (di_tx_offload_capa dev_info) RTE_ETH_TX_OFFLOAD_VLAN_INSERT then
    conf_mod (fun c => c <| ec_tx_offloads ::= fun o => o ||| RTE_ETH_TX_OFFLOAD_VLAN_INSERT |>);;
    if has (di_rx_offload_capa dev_info) RTE_ETH_RX_OFFLOAD_VLAN_STRIP then
      conf_mod (fun c => c <| ec_rx_offloads ::= fun o => o ||| RTE_ETH_RX_OFFLOAD_VLAN_STRIP |>);;
      mret 0
    else mret (-1)
  else mret (-1).

Definition rss_get_rss_hf (ipv6 : bool) (dev_info : rte_eth_dev_info) : Z :=
  let offloads := di_flow_type_rss_offloads dev_info in
  let ipv4_flags := RTE_ETH_RSS_NONFRAG_IPV4_UDP ||| RTE_ETH_RSS_NONFRAG_IPV4_TCP in
  let ipv6_flags := RTE_ETH_RSS_NONFRAG_IPV6_UDP ||| RTE_ETH_RSS_NONFRAG_IPV6_TCP in
  if ipv6 then
    if (offloads &&& ipv6_flags) =? 0 then 0 else offloads &&& (ipv4_flags ||| ipv6_flags)
  else
    if (offloads &&& ipv4_flags) =? 0 then 0 else offloads &&& (ipv4_flags ||| ipv6_flags).

Definition rss_config_port (dev_info : rte_eth_dev_info) (mq_mode : bool) : DM unit :=
  c ← dev_cfg id;
  conf_mod (fun conf =>
    if mq_mode then conf <| ec_rx_mq_mode := RTE_ETH_MQ_RX_RSS |> <| ec_rss_hf := rss_get_rss_hf (c_ipv6 c) dev_info |>
    else conf <| ec_rx_mq_mode := 0 |> <| ec_rss_hf := 0 |>).

(** The offload of checksums, for the port being configured and, through the
    two flags, for all workers. *)
Definition port_config_cksum (dev_info : rte_eth_dev_info) : DM unit :=
  (if has (di_tx_offload_capa dev_info) RTE_ETH_TX_OFFLOAD_IPV4_CKSUM then
     conf_mod (fun c => c <| ec_tx_offloads ::= fun o => o ||| RTE_ETH_TX_OFFLOAD_IPV4_CKSUM |>);;
     st_modify (fun m => m <| d_ipv4_cksum := 1 |>)
   else st_modify (fun m => m <| d_ipv4_cksum := 0 |>));;
  if has (di_tx_offload_capa dev_info) RTE_ETH_TX_OFFLOAD_TCP_CKSUM
     && has (di_tx_offload_capa dev_info) RTE_ETH_TX_OFFLOAD_UDP_CKSUM then
    st_modify (fun m => m <| d_tcpudp_cksum := 1 |>);;
    conf_mod (fun c => c <| ec_tx_offloads ::= fun o => o ||| (RTE_ETH_TX_OFFLOAD_TCP_CKSUM ||| RTE_ETH_TX_OFFLOAD_UDP_CKSUM) |>)
  else st_modify (fun m => m <| d_tcpudp_cksum := 0 |>).

Definition port_dev_configure (port_id queue_num : Z) : DM Z :=
  conf ← st_gets d_conf; call (Dev_configure port_id (u16 queue_num) (u16 queue_num) conf).

(** The queues from [queue] on, [n] of them. *)
Fixpoint port_init_queues (n : nat) (queue : Z) (port : netif_port) (nb_rxd nb_txd : Z) : DM Z :=
  match n with
  | O => mret 0
  | S n =>
      ret ← port_init_rx port queue nb_rxd;
      if ret <? 0 then mret (-1)
      else
        ret ← port_init_tx (np_id port) queue nb_txd;
        if ret <? 0 then mret (-1) else port_init_queues n (queue + 1) port nb_rxd nb_txd
  end.

Definition port_config (port : netif_port) : DM Z :=
  let port_id := u16 (np_id port) in
  let queue_num := np_queue_num port in
  dev_info ← asking (fun h => nic_info h port_id);
  ret ← call (Dev_info_get port_id);
  if ret <? 0 then mret (-1)
  else
    let nb_rxd := if di_rx_nb_max dev_info <? NB_RXD then di_rx_nb_max dev_info else NB_RXD in
    let nb_txd := if di_tx_nb_max dev_info <? NB_TXD then di_tx_nb_max dev_info else NB_TXD in
    c ← dev_cfg id;
    st_when (c_flow_isolate c) (call (Flow_isolate port_id);; mret tt);;
    ret ← (if c_vlan_id c =? 0 then mret 0 else port_config_vlan dev_info);
    if ret <? 0 then mret (-1)
    else
      st_when (c_jumbo c) (conf_mod (fun conf => conf <| ec_rx_mtu := c_jumbo_mtu c |>));;
      port_config_cksum dev_info;;
      if (di_max_rx_queues dev_info <? queue_num) || (di_max_tx_queues dev_info <? queue_num) then mret (-1)
      else
        ret ← (if c_flow c =? FLOW_RSS then
                 rss_config_port dev_info true;;
                 ret ← port_dev_configure port_id queue_num;
                 if ret <? 0 then rss_config_port dev_info false;; port_dev_configure port_id queue_num
                 else mret ret
               else port_dev_configure port_id queue_num);
        if ret <? 0 then mret (-1)
        else port_init_queues (Z.to_nat queue_num) 0 port nb_rxd nb_txd.

(** ** Bonds *)

Definition bond_create (port : netif_port) : DM Z :=
  port_id ← call (Bond_create (np_bond_name port) (np_bond_mode port) (u8 (np_socket port)));
  if port_id <? 0 then mret (-1)
  else call (Bond_policy (u16 port_id) (np_bond_policy port));; mret port_id.

(** The answer of [port_config] is not looked at. *)
Fixpoint bond_slaves (n : nat) (i : Z) (port port_slave : netif_port) : DM Z :=
  match n with
  | O => mret 0
  | S n =>
      slave_id ← st_lift OutOfBounds (aget (np_port_id_list port) i);
      port_config (port_slave <| np_id := slave_id |>);;
      ret ← call (Bond_slave_add (u16 (np_id port)) slave_id);
      if ret =? -1 then mret (-1) else bond_slaves n (i + 1) port port_slave
  end.
Definition bond_config_slaves (port : netif_port) : DM Z :=
  bond_slaves (Z.to_nat (np_pci_num port)) 0 port (port <| np_bond := false |>).

(** [n] seconds are left. *)
Fixpoint bond_poll (n : nat) (port : netif_port) : DM Z :=
  match n with
  | O => mret (-1)
  | S n =>
      active ← call (Bond_active (u16 (np_id port)) BOND_SLAVE_MAX);
      if active =? np_pci_num port then mret 0 else call (Sleep 1);; bond_poll n port
  end.
Definition bond_wait : netif_port -> DM Z := bond_poll (Z.to_nat BOND_WAIT_SEC).

(** ** Start-up *)

(** The devices of a port from [k] on, [n] of them. *)
Fixpoint port_ids (n k : nat) (i : nat) : DM Z :=
  match n with
  | O => mret 0
  | S n =>
      p ← port_get i;
      pci ← st_lift OutOfBounds (np_pci_list p !! k);
      port_id ← asking (fun h => nic_port h pci);
      ret ← call (Port_by_name pci);
      if negb (ret =? 0) then mret (-1)
      else
        st_lift OutOfBounds (np_port_id_list p !! k);;
        port_mod i (fun p => p <| np_port_id_list ::= <[k := u16 port_id]> |>);;
        socket ← call (Socket_id (u16 port_id));
        if (k =? 0)%nat then port_mod i (fun p => p <| np_socket := socket |>);; port_ids n (S k) i
        else if negb (np_socket p =? socket) then mret (-1)
        else port_ids n (S k) i
  end.

Definition port_init_port_id (i : nat) : DM Z :=
  p ← port_get i;
  ret ← port_ids (Z.to_nat (np_pci_num p)) 0 i;
  if ret <? 0 then mret (-1)
  else
    p ← port_get i;
    if np_bond p then
      id ← bond_create p;
      port_mod i (fun p => p <| np_id := id |>);;
      mret (if id <? 0 then -1 else 0)
    else
      id ← st_lift OutOfBounds (np_port_id_list p !! 0%nat);
      port_mod i (fun p => p <| np_id := id |>);;
      mret 0.

Definition port_init (i : nat) : DM Z :=
  ret ← port_init_port_id i;
  if ret <? 0 then mret (-1)
  else
    ret ← port_init_mbuf_pool i;
    if ret <? 0 then mret (-1)
    else
      p ← port_get i;
      ret ← (if np_bond p then bond_config_slaves p else mret 0);
      if ret <? 0 then mret (-1) else port_config p.

Definition port_init_all : DM Z :=
  nb_ports ← call Dev_count;
  c ← dev_cfg id;
  if (nb_ports =? 0) || (nb_ports <? c_port_num c) then mret (-1)
  else config_for_each_port port_init.

Definition port_start (i : nat) : DM Z :=
  p ← port_get i;
  let port_id := u16 (np_id p) in
  ret ← call (Dev_start port_id);
  if ret =? 0 then
    mac ← asking (fun h => nic_mac h port_id);
    call (Macaddr_get port_id);;
    port_mod i (fun p => p <| np_local_mac := mac |>);;
    ret ← (if np_bond p then bond_wait p else mret 0);
    if ret <? 0 then mret (-1)
    else
      call (Allmulticast_enable port_id);;
      call (Promiscuous_enable port_id);;
      call (Stats_reset port_id);;
      mret 0
  else mret (-1).

Definition port_start_all : DM Z := config_for_each_port port_start.

Definition port_stop (i : nat) : DM Z :=
  p ← port_get i;
  call (Dev_stop (u16 (np_id p)));; call (Dev_close (u16 (np_id p)));; mret 0.
Definition port_stop_all : DM unit := config_for_each_port port_stop;; mret tt.
End Port.
