(* ===== verification/Flow.v ===== *)
(** * Flow: the rules that steer packets to the queues

    [src/flow.c]: one rule of the card for every queue of a port, which selects
    the packets of the server address (or of the tunnel address) of the worker
    that polls the queue. *)

From S2P Require Import Prelude IpRange Config Payload Card.

(** A mask of 32 bits, set or clear. *)
Definition full_mask (b : bool) : Z := if b then 4294967295 else 0.
Definition mask_full : ipaddr_t := IpAddr 4294967295 4294967295 4294967295 4294967295.
Definition mask_zero : ipaddr_t := IpAddr 0 0 0 0.

Definition flow_pattern_init_eth : rte_flow_item := Item_eth.
Definition flow_pattern_init_ipv4 (sip dip : Z) : rte_flow_item :=
  Item_ipv4 sip dip (full_mask (negb (sip =? 0))) (full_mask (negb (dip =? 0))).
Definition flow_pattern_init_ipv6 (sip dip : ipaddr_t) : rte_flow_item :=
  if negb (ip sip =? 0) then Item_ipv6 sip dip mask_full mask_zero else Item_ipv6 sip dip mask_zero mask_full.

(** The pattern up to its end marker. *)
Definition flow_pattern (sip dip : ipaddr_t) (ipv6 : bool) : list rte_flow_item :=
  [flow_pattern_init_eth; if ipv6 then flow_pattern_init_ipv6 sip dip else flow_pattern_init_ipv4 (ip sip) (ip dip)].

Section Flow.
Context {C : Card}.

(** The action is a queue, and the end marker. *)
Definition flow_create (port_id : Z) (pattern : list rte_flow_item) (rxq : Z) : DM Z :=
  ret ← call (Flow_validate port_id pattern rxq);
  if ret <? 0 then mret (-1)
  else
    flow ← call (Flow_create port_id pattern rxq);
    mret (if flow =? 0 then -1 else 0).

Definition flow_new (port_id rxq : Z) (sip dip : ipaddr_t) (ipv6 : bool) : DM Z :=
  flow_create (u8 port_id) (flow_pattern sip dip ipv6) (u16 rxq).

(** The rules of the queues from [queue_id] on, [n] of them; [address] is the
    address of a queue. *)
Fixpoint flow_queues (n : nat) (queue_id : Z) (new : Z -> DM Z) : DM Z :=
  match n with
  | O => mret 0
  | S n => ret ← new queue_id; if ret <? 0 then mret (-1) else flow_queues n (queue_id + 1) new
  end.

Definition flow_init_port (port : netif_port) (server ipv6 : bool) : DM Z :=
  call (Flow_flush (u16 (np_id port)));;
  flow_queues (Z.to_nat (np_queue_num port)) 0 (fun queue_id =>
    server_ip ← st_lift OutOfBounds (ip_range_get2 (np_server_ip_range port) (u8 queue_id));
    if server then flow_new (np_id port) queue_id ipaddr_zero server_ip ipv6
    else flow_new (np_id port) queue_id server_ip ipaddr_zero ipv6).

(** The outer headers of a tunnel are IPv4. *)
Definition flow_init_vxlan (port : netif_port) : DM Z :=
  vxlan ← st_lift OutOfBounds (np_vxlan port);
  call (Flow_flush (u16 (np_id port)));;
  flow_queues (Z.to_nat (np_queue_num port)) 0 (fun queue_id =>
    local_ip ← st_lift OutOfBounds (ip_range_get2 (vx_vtep_local vxlan) (u8 queue_id));
    flow_new (np_id port) queue_id ipaddr_zero local_ip false).

Definition flow_init : DM Z :=
  cfg ← dev_cfg id;
  if c_flood cfg then mret 0
  else config_for_each_port (fun i =>
    port ← port_get i;
    if np_queue_num port =? 1 then mret 0
    else if c_vxlan cfg then flow_init_vxlan port
    else flow_init_port port (c_server cfg) (c_af cfg =? AF_INET6)).

Definition flow_flush : DM unit :=
  cfg ← dev_cfg id;
  if (c_cpu_num cfg <=? 1) || c_flood cfg then mret tt
  else
    config_for_each_port (fun i =>
      port ← port_get i;
      if np_queue_num port =? 1 then mret 0
      else call (Flow_flush (u16 (np_id port)));; mret 0);;
    mret tt.
End Flow.
