(* ===== verification/Eal.v ===== *)
(** * Eal: the start of DPDK and of the kernel interface

    [src/dpdk.c], [main] of [src/main.c] up to the workers, and the part of
    [src/virtio-user.c] that creates the kernel interface.  [None] as the
    result of a step is the exit of the process. *)

From S2P Require Import Prelude IpRange Tick Config Payload ConfigParse ConfigCheck Card Port Flow.

(** ** Arguments of [rte_eal_init] *)

(** [sprintf] into, and [strcat] onto, a buffer of [size] bytes; [None] is a
    write behind it. *)
Definition sprintf (size : Z) (s : list Z) : option (list Z) := if strlen s <? size then Some s else None.
Definition strcat (size : Z) (dst src : list Z) : option (list Z) := sprintf size (dst ++ src).

Definition LCORES_SIZE : Z := 2048.
Definition ARGV_SIZE : Z := 6 + NETIF_PORT_MAX * PCI_NUM_MAX * 2.
Definition RING_SIZE : Z := NB_RXD.

Definition lcore_text (i cpu : Z) : list Z :=
  (if i =? 0 then [] else [44]) ++ print_int i ++ chars "@(" ++ print_int cpu ++ [41].

(** The lcores from [i] on, [n] of them. *)
Fixpoint dpdk_set_lcores (n : nat) (i : Z) (cpus lcores : list Z) : option (list Z) :=
  match n with
  | O => Some lcores
  | S n =>
      cpu ← aget cpus i;
      lcore_buf ← sprintf 64 (lcore_text i cpu);
      lcores ← strcat LCORES_SIZE lcores lcore_buf;
      dpdk_set_lcores n (i + 1) cpus lcores
  end.

(** [argv] is an array of [ARGV_SIZE] pointers; the strings that they point to
    are complete when DPDK reads them, and stand for the pointers here. *)
Fixpoint append_pcis (pcis : list (list Z)) (flag_pci : list Z) (argc : Z) (argv : list (list Z)) : option (Z * list (list Z)) :=
  match pcis with
  | [] => Some (argc, argv)
  | pci :: pcis =>
      argv ← aset argv argc flag_pci;
      argv ← aset argv (argc + 1) pci;
      append_pcis pcis flag_pci (argc + 2) argv
  end.
Fixpoint dpdk_append_pci (ports : list netif_port) (flag_pci : list Z) (argc : Z) (argv : list (list Z)) : option (Z * list (list Z)) :=
  match ports with
  | [] => Some (argc, argv)
  | port :: ports =>
      if Z.of_nat (length (np_pci_list port)) <? np_pci_num port then None
      else
        '(argc, argv) ← append_pcis (take (Z.to_nat (np_pci_num port)) (np_pci_list port)) flag_pci argc argv;
        dpdk_append_pci ports flag_pci argc argv
  end.

Section Eal.
Context {C : Card}.
(** The process id and the cycles in a second that [tick_get_hz] measures. *)
Context (getpid hz : Z).

(** The two texts, or a refusal. *)
Definition dpdk_set_socket_mem (cfg : config) : option (list Z * list Z) :=
  if strlen (c_socket_mem cfg) <=? 0 then Some ([], [])
  else
    let size s := strlen s in
    let mem := chars "--socket-mem=" ++ c_socket_mem cfg in
    if RTE_ARG_LEN <=? size mem then None
    else
      let prefix := chars "--file-prefix=dperf-" ++ print_int getpid in
      if RTE_ARG_LEN <=? size prefix then None else Some (mem, prefix).

Definition dpdk_set_simd_bitwidth (cfg : config) : DM unit :=
  st_when (c_simd512 cfg) (call Set_simd512;; mret tt).

Definition dpdk_eal_init (argv0 : list Z) : DM Z :=
  cfg ← dev_cfg id;
  log_level ← st_lift OutOfBounds (sprintf 64 (chars "--log-level=" ++ print_int (c_log_level cfg)));
  match dpdk_set_socket_mem cfg with
  | None => mret (-1)
  | Some (socket_mem, file_prefix) =>
      lcores ← st_lift OutOfBounds (dpdk_set_lcores (Z.to_nat (c_cpu_num cfg)) 0 (c_cpu cfg) (chars "--lcores="));
      let argv := [argv0; lcores; socket_mem; file_prefix; log_level; chars "--no-telemetry"]
                  ++ replicate (Z.to_nat ARGV_SIZE - 6) [] in
      '(argc, argv) ← st_lift OutOfBounds (dpdk_append_pci (c_ports cfg) (chars "-a") 6 argv);
      dpdk_set_simd_bitwidth cfg;;
      ret ← call (Eal_init (take (Z.to_nat argc) argv));
      mret (if ret <? 0 then -1 else 0)
  end.

(** ** The kernel interface *)

Definition VDEV_NAME_SIZE : Z := 256.
Definition TX_DESC_PER_QUEUE : Z := 512.
Definition RX_DESC_PER_QUEUE : Z := 512.
Definition VDEV_RING_SIZE : Z := 1024.
Definition QUEUE_NUM : Z := 1.
Definition IFNAMSIZ : Z := 16.
Definition IFF_UP : Z := 1.

Definition kni_name (cfg : config) (idx : nat) : list Z :=
  c_kni_ifname cfg ++ [if c_server cfg then 115 else 99] ++ print_int (Z.of_nat idx).
Definition kni_set_name (cfg : config) (idx : nat) (name_len : Z) : list Z := snprintf name_len (kni_name cfg idx).

(** [%02X]. *)
Definition print_hex_digit (x : Z) : Z := if x <? 10 then 48 + x else 55 + x.
Definition print_hex2 (x : Z) : list Z := [print_hex_digit (x / 16); print_hex_digit (x mod 16)].
Definition print_mac (mac : eth_addr) : list Z :=
  mjoin (imap (fun i b => (if (i =? 0)%nat then [] else [58]) ++ print_hex2 b) mac).

Definition VDEV_IFACE_ARGS (kernel_name : list Z) (mac : eth_addr) : list Z :=
  chars "path=/dev/vhost-net,queues=" ++ print_int QUEUE_NUM ++ chars ",queue_size=" ++ print_int VDEV_RING_SIZE
  ++ chars ",iface=" ++ kernel_name ++ chars ",mac=" ++ print_mac mac.
Definition vdev_text (idx : nat) : list Z := chars "virtio_user" ++ print_int (Z.of_nat idx).

(** The single queue of the device. *)
Definition configure_vdev (port_id mb_pool : Z) : DM (option Z) :=
  valid ← call (Dev_valid port_id);
  if valid =? 0 then mret (Some (-1))
  else
    ret ← call (Dev_configure port_id QUEUE_NUM QUEUE_NUM (EthConf 0 0 0 0 0 0));
    if negb (ret =? 0) then mret None
    else
      socket ← call (Socket_id port_id);
      ret ← call (Tx_queue_setup port_id 0 TX_DESC_PER_QUEUE (u32 socket));
      if ret <? 0 then mret None
      else
        socket ← call (Socket_id port_id);
        ret ← call (Rx_queue_setup port_id 0 RX_DESC_PER_QUEUE (u32 socket) mb_pool);
        if ret <? 0 then mret None
        else
          ret ← call (Dev_start port_id);
          if ret <? 0 then mret None
          else
            ret ← call (Macaddr_get port_id);
            if negb (ret =? 0) then mret None else mret (Some 0).

Definition kni_alloc (idx : nat) (port : netif_port) : DM (option Z) :=
  cfg ← dev_cfg id;
  let kernel_name := kni_set_name cfg idx VDEV_NAME_SIZE in
  let vdev_name := snprintf VDEV_NAME_SIZE (vdev_text idx) in
  let vdev_args := snprintf VDEV_NAME_SIZE (VDEV_IFACE_ARGS kernel_name (np_local_mac port)) in
  ret ← call (Hotplug_add vdev_name vdev_args);
  if ret <? 0 then mret None
  else
    port_id ← asking (fun h => nic_port h vdev_name);
    ret ← call (Port_by_name vdev_name);
    if negb (ret =? 0) then call (Hotplug_remove vdev_name);; mret None
    else
      pool ← st_lift OutOfBounds (aget (np_mbuf_pool port) 0);
      done ← configure_vdev (u16 port_id) pool;
      mret (match done with None => None | Some _ => Some (u16 port_id) end).

Definition kni_ring_text (p : netif_port) : list Z := snprintf RTE_RING_NAMESIZE (chars "kr_" ++ print_int (np_id p)).

Fixpoint kni_create (ports : list nat) : DM (option Z) :=
  match ports with
  | [] => mret (Some 0)
  | i :: ports =>
      p ← port_get i;
      port_id ← kni_alloc i p;
      match port_id with
      | None => mret None
      | Some port_id =>
          if port_id =? 0 then mret (Some (-1))
          else
            port_mod i (fun p => p <| np_virtio_user_id := port_id |>);;
            socket ← call This_socket_id;
            ring ← call (Ring_create (kni_ring_text p) RING_SIZE socket);
            port_mod i (fun p => p <| np_kni_mbuf_queue := negb (ring =? 0) |>);;
            if ring =? 0 then mret (Some (-2)) else kni_create ports
      end
  end.

Definition kni_start : DM (option Z) :=
  cfg ← dev_cfg id;
  if negb (c_kni cfg) then mret (Some 0) else kni_create (seq 0 (length (c_ports cfg))).

(** [kni_free] for one port. *)
Definition kni_free_port (i : nat) : DM Z :=
  p ← port_get i;
  if np_virtio_user_id p =? 0 then mret 0
  else
    vdev_name ← asking (fun h => nic_name h (np_virtio_user_id p));
    ret ← call (Port_name (np_virtio_user_id p));
    if negb (ret =? 0) then mret 0
    else
      call (Hotplug_remove vdev_name);;
      port_mod i (fun p => p <| np_virtio_user_id := 0 |>);;
      if negb (np_kni_mbuf_queue p) then mret 0
      else
        call (Ring_free (kni_ring_text p));;
        port_mod i (fun p => p <| np_kni_mbuf_queue := false |>);;
        mret 0.
Definition kni_stop : DM unit :=
  cfg ← dev_cfg id;
  st_when (c_kni cfg) (config_for_each_port kni_free_port;; mret tt).

(** The interface of a port is set up by the control thread. *)
Definition kni_set_link_up (idx : nat) : DM Z :=
  cfg ← dev_cfg id;
  p ← port_get idx;
  if np_virtio_user_id p =? 0 then mret 0
  else
    fd ← call Socket_open;
    if fd <? 0 then mret (-1)
    else
      let ifr_name := kni_set_name cfg idx IFNAMSIZ in
      flags ← asking (fun h => nic_flags h ifr_name);
      ret ← call (Ioctl_get_flags fd ifr_name);
      if ret <? 0 then call (Socket_close fd);; mret (-1)
      else
        ret ← call (Ioctl_set_flags fd ifr_name (flags ||| IFF_UP));
        if ret <? 0 then call (Socket_close fd);; mret (-1)
        else call (Socket_close fd);; mret 0.
Definition kni_link_up : DM Z := config_for_each_port kni_set_link_up.

(** ** The start and the end of the program *)

Definition dpdk_init (argv0 : list Z) : DM (option Z) :=
  ret ← dpdk_eal_init argv0;
  if ret <? 0 then mret (Some (-1))
  else
    call Pdump_init;;
    ret ← port_init_all;
    if ret <? 0 then mret (Some (-1))
    else
      ret ← port_start_all;
      if ret <? 0 then mret (Some (-1))
      else
        ret ← kni_start;
        match ret with
        | None => mret None
        | Some ret =>
            if ret <? 0 then mret (Some (-1))
            else
              cfg ← dev_cfg id;
              ret ← (if c_flow cfg =? FLOW_FDIR then flow_init else mret 0);
              if ret <? 0 then mret (Some (-1))
              else
                st_modify (fun m => m <| d_tick := tick_init (c_ticks_per_sec cfg) hz |>);;
                st_modify (fun m => m <| d_cfg ::= fun c => config_set_tsc c hz |>);;
                mret (Some 0)
        end.

Definition dpdk_close : DM unit :=
  call Pdump_uninit;;
  flow_flush;;
  port_stop_all;;
  kni_stop;;
  call Eal_cleanup;;
  mret tt.

(** [main] up to [dpdk_run]: the exit status, or the machine in which the
    workers start.  [daemon] and [pthread_create] are the answers of the C
    library. *)
Definition ctl_thread_start (pthread_create : Z) : Z := if pthread_create <? 0 then -1 else 0.
Definition main_init (daemon pthread_create : Z) (argv0 : list Z) : DM (option Z) :=
  cfg ← dev_cfg id;
  if c_daemon cfg && negb (daemon =? 0) then mret (Some 1)
  else if ctl_thread_start pthread_create <? 0 then mret (Some 1)
  else
    ret ← dpdk_init argv0;
    mret (match ret with
          | None => None
          | Some ret => Some (if ret <? 0 then 1 else 0)
          end).
End Eal.
