(* ===== verification/PortInv.v ===== *)
(** * PortInv: what the start-up of the ports leaves behind

    Triples for the calls of file Port: the calls made so far only grow, a port
    changes only its run-time fields, and a port that is initialised has its
    device configured with a receive queue, a transmit queue and a memory pool
    of its own for every worker. *)

From S2P Require Import Prelude IpRange Config Payload ConfigKeyword ConfigParse ConfigInv ConfigAccept Card Port.

(** ** Triples *)

(** [m] runs without a fault, its final state is related to the first by [R]
    and satisfies [Q]. *)
Definition run (R : machine -> machine -> Prop) {A} (m : DM A) (Q : A -> machine -> Prop) (s : machine) : Prop :=
  wp m (fun a s' => R s s' /\ Q a s') s.

Section Run.
Context (R : machine -> machine -> Prop) `{!PreOrder R}.

Lemma run_ret {A} (a : A) (Q : A -> machine -> Prop) s : Q a s -> run R (mret a) Q s.
Proof using Type*. intros H. by split. Qed.

Lemma run_bind {A B} (m : DM A) (f : A -> DM B) (P : A -> machine -> Prop) Q s :
  run R m P s -> (forall a s', R s s' -> P a s' -> run R (f a) Q s') -> run R (m ≫= f) Q s.
Proof using Type*.
  intros Hm Hf. apply wp_bind. eapply wp_mono; [exact Hm|]. intros a s' [H1 H2].
  eapply wp_mono; [exact (Hf a s' H1 H2)|]. intros b s'' [H3 H4]. split; [by etrans|done].
Qed.

(** The rules of the calls whose result is known, in front of a continuation. *)
Lemma run_assoc {A B D} (m : DM A) (f : A -> DM B) (g : B -> DM D) Q s :
  run R (m ≫= fun a => f a ≫= g) Q s -> run R ((m ≫= f) ≫= g) Q s.
Proof using Type. unfold run, wp, mbind, ST_bind. destruct (m s) as [[a s']|]; [|done]. by destruct (f a s') as [[b s'']|]. Qed.
Lemma run_ret_bind {A B} (a : A) (f : A -> DM B) Q s : run R (f a) Q s -> run R (mret a ≫= f) Q s.
Proof using Type. done. Qed.
Lemma run_lift_bind {A B} e (o : option A) a (f : A -> DM B) Q s : o = Some a -> run R (f a) Q s -> run R (st_lift e o ≫= f) Q s.
Proof using Type. by intros ->. Qed.
Lemma run_gets_bind {A B} (g : machine -> A) (f : A -> DM B) Q s : run R (f (g s)) Q s -> run R (st_gets g ≫= f) Q s.
Proof using Type. done. Qed.
Lemma run_modify_bind {B} g (f : unit -> DM B) Q s : R s (g s) -> run R (f tt) Q (g s) -> run R (st_modify g ≫= f) Q s.
Proof using Type*. intros H Hf. eapply wp_mono; [exact Hf|]. intros b s' [? ?]. split; [by etrans|done]. Qed.

Lemma run_mono {A} (m : DM A) (P Q : A -> machine -> Prop) s :
  run R m P s -> (forall a s', R s s' -> P a s' -> Q a s') -> run R m Q s.
Proof using Type. intros Hm H. eapply wp_mono; [exact Hm|]. intros a s' [? ?]. split; auto. Qed.

Lemma run_gets {A} (f : machine -> A) (Q : A -> machine -> Prop) s : Q (f s) s -> run R (st_gets f) Q s.
Proof using Type*. intros H. by split. Qed.
Lemma run_lift {A} e (o : option A) a (Q : A -> machine -> Prop) s : o = Some a -> Q a s -> run R (st_lift e o) Q s.
Proof using Type*. intros -> H. by split. Qed.
Lemma run_modify f (Q : unit -> machine -> Prop) s : R s (f s) -> Q tt (f s) -> run R (st_modify f) Q s.
Proof using Type. by split. Qed.
End Run.

Lemma run_weaken (R R' : machine -> machine -> Prop) {A} (m : DM A) Q s :
  (forall s', R s s' -> R' s s') -> run R m Q s -> run R' m Q s.
Proof. intros H Hm. eapply wp_mono; [exact Hm|]. intros a s' [? ?]. split; auto. Qed.

Lemma run_ext (R : machine -> machine -> Prop) {A} (m m' : DM A) Q s : m s = m' s -> run R m' Q s -> run R m Q s.
Proof. unfold run, wp. by intros ->. Qed.

(** The calls only grow and the configuration stays. *)
Definition silent (s s' : machine) : Prop := suffix (d_log s) (d_log s') /\ d_cfg s' = d_cfg s.
#[export] Instance silent_preorder : PreOrder silent.
Proof.
  split; [by split|]. intros a b c [H1 H2] [H3 H4]. split; [by etrans|congruence].
Qed.

(** ** Run-time fields of a port *)

Definition port_static (p : netif_port) : netif_port :=
  p <| np_id := 0 |> <| np_socket := 0 |> <| np_port_id_list := [] |> <| np_mbuf_pool := [] |> <| np_local_mac := [] |>
    <| np_virtio_user_id := 0 |> <| np_kni_mbuf_queue := false |>.
(** An update that leaves the rest of the port, and its shape, as they are. *)
Definition at_run_time (f : netif_port -> netif_port) : Prop :=
  forall p, port_static (f p) = port_static p /\ (port_ok p -> port_ok (f p)).

Lemma at_run_time_id : at_run_time id.
Proof. by split. Qed.
Lemma at_run_time_compose f g : at_run_time f -> at_run_time g -> at_run_time (f ∘ g).
Proof.
  intros Hf Hg p. destruct (Hg p) as [G1 G2], (Hf (g p)) as [F1 F2]. split; [by etrans|]. intros H. by apply F2, G2.
Qed.

Lemma ports_same (c : config) f : f (c_ports c) = c_ports c -> c <| c_ports ::= f |> = c.
Proof. intros E. transitivity (c <| c_ports := f (c_ports c) |>); [done|]. rewrite E. by destruct c. Qed.

Lemma alter_then {A} (f g : A -> A) i (l : list A) : alter (g ∘ f) i l = alter g i (alter f i l).
Proof. revert i. induction l as [|x l IH]; intros [|i]; [done..|]. cbn. f_equal. apply IH. Qed.

(** Only port [i] changes, and of it only run-time fields. *)
Definition moves (i : nat) (s s' : machine) : Prop := suffix (d_log s) (d_log s')
  /\ exists f, at_run_time f /\ d_cfg s' = (d_cfg s) <| c_ports ::= alter f i |>.
#[export] Instance moves_preorder i : PreOrder (moves i).
Proof.
  split.
  - intros s. split; [done|]. exists id. split; [exact at_run_time_id|]. symmetry. by apply ports_same, list_alter_id.
  - intros a b c [H1 (f & Hf & E1)] [H2 (g & Hg & E2)]. split; [by etrans|]. exists (g ∘ f).
    split; [by apply at_run_time_compose|]. rewrite E2, E1.
    set (cfg := d_cfg a). transitivity (cfg <| c_ports := alter g i (alter f i (c_ports cfg)) |>); [done|].
    by rewrite <- alter_then.
Qed.
#[export] Hint Resolve silent_preorder moves_preorder : core.
Lemma silent_moves i s s' : silent s s' -> moves i s s'.
Proof. intros [H1 H2]. destruct (moves_preorder i) as [Hr _]. destruct (Hr s) as [_ H]. split; [done|]. by rewrite H2. Qed.

(** ** Answers *)

(** An operation that answers 0 or -1, and after 0 has [Q]. *)
Abbreviation answers R m Q s := (run R m (fun r s' => (r = 0 \/ r = -1) /\ (r = 0 -> Q s')) s).

Section Answers.
Context (R : machine -> machine -> Prop) `{!PreOrder R}.
Lemma answers_fail Q s : answers R (mret (-1)) Q s.
Proof using Type*. apply run_ret; [done|]. split; [by right|done]. Qed.
Lemma answers_ok (Q : machine -> Prop) s : Q s -> answers R (mret 0) Q s.
Proof using Type*. intros H. apply run_ret; [done|]. split; [by left|done]. Qed.
(** [if (m < 0) return -1;] in front of [k]. *)
Lemma answers_then m P k Q s : answers R m P s -> (forall s', R s s' -> P s' -> answers R k Q s') ->
  answers R (ret ← m; if ret <? 0 then mret (-1) else k) Q s.
Proof using Type*.
  intros Hm Hk. eapply run_bind; [done|exact Hm|]. intros r s' HR [Hr HP]. destruct Hr as [-> | ->]; [|apply answers_fail]. apply Hk; auto.
Qed.
Lemma answers_mono m (P Q : machine -> Prop) s : answers R m P s -> (forall s', R s s' -> P s' -> Q s') -> answers R m Q s.
Proof using Type. intros Hm H. eapply run_mono; [exact Hm|]. intros r s' HR [Hr HP]. split; auto. Qed.
End Answers.
Lemma answers_weaken (R R' : machine -> machine -> Prop) m Q s : (forall s', R s s' -> R' s s') -> answers R m Q s -> answers R' m Q s.
Proof. apply run_weaken. Qed.

Section Calls.
Context {C : Card}.

Lemma run_call_bind R `{!PreOrder R} {B} d (f : Z -> DM B) Q s : (forall s s', silent s s' -> R s s') ->
  (forall r s', r = nic_ret (d_log s) d -> d_log s' = (d, r) :: d_log s -> d_cfg s' = d_cfg s -> run R (f r) Q s') ->
  run R (call d ≫= f) Q s.
Proof using Type.
  intros HR HQ. specialize (HQ _ (s <| d_log ::= cons (d, nic_ret (d_log s) d) |>) eq_refl eq_refl eq_refl).
  eapply wp_mono; [exact HQ|]. intros b s' [H1 H2]. split; [|done]. etrans; [|exact H1]. apply HR. split; [|done]. by apply suffix_cons_r.
Qed.
Lemma run_call R d (Q : Z -> machine -> Prop) s : (forall s s', silent s s' -> R s s') ->
  (forall r s', r = nic_ret (d_log s) d -> d_log s' = (d, r) :: d_log s -> d_cfg s' = d_cfg s -> Q r s') -> run R (call d) Q s.
Proof using Type.
  intros HR HQ. split; [|by apply HQ]. apply HR. split; [|done]. by apply suffix_cons_r.
Qed.

Lemma run_port_get_bind R {B} i p (f : netif_port -> DM B) Q s :
  c_ports (d_cfg s) !! i = Some p -> run R (f p) Q s -> run R (port_get i ≫= f) Q s.
Proof using Type. intros Hp Hf. unfold run, wp, port_get, mbind, ST_bind, dev_cfg, st_gets, st_lift, id. by rewrite Hp. Qed.

Lemma run_port_mod_bind i g {B} (f : unit -> DM B) Q s : at_run_time g ->
  (forall s', d_log s' = d_log s -> c_ports (d_cfg s') = alter g i (c_ports (d_cfg s)) -> run (moves i) (f tt) Q s') ->
  run (moves i) (port_mod i g ≫= f) Q s.
Proof using Type.
  intros Hg Hf. apply run_modify_bind; [done| |by apply Hf]. split; [done|]. by exists g.
Qed.

(** ** Queues *)

Definition dev_id (p : netif_port) : Z := u16 (np_id p).

Record queue_ready (log : history) (p : netif_port) (k : Z) : Prop := {
  qr_rx : exists nb socket mp r, aget (np_mbuf_pool p) k = Some mp /\ nb <= NB_RXD /\ 0 <= r /\ (Rx_queue_setup (dev_id p) k nb socket mp, r) ∈ log;
  qr_tx : exists nb socket r, nb <= NB_TXD /\ 0 <= r /\ (Tx_queue_setup (dev_id p) k nb socket, r) ∈ log;
}.
Lemma queue_ready_grows l log p k : queue_ready log p k -> queue_ready (l ++ log) p k.
Proof using Type.
  intros [(nb & so & mp & r & H1 & H2 & H3 & H4) (nb' & so' & r' & T1 & T2 & T3)].
  split; [exists nb, so, mp, r|exists nb', so', r']; split_and!; try done; apply elem_of_app; by right.
Qed.

(** A call among the latest ones. *)
Ltac logged := apply list_elem_of_In; unfold dev_id; cbn; auto 10.

Lemma run_init_queues n queue port nb_rxd nb_txd s : 0 <= queue -> queue + Z.of_nat n <= np_queue_num port <= 64 -> port_ok port ->
  nb_rxd <= NB_RXD -> nb_txd <= NB_TXD ->
  run silent (port_init_queues n queue port nb_rxd nb_txd) (fun r s' => (r = 0 \/ r = -1) /\ (r = 0 -> exists l, d_log s' = l ++ d_log s
    /\ forall k, queue <= k < queue + Z.of_nat n -> queue_ready l port k)) s.
Proof using Type.
  intros H0 Hn Hp Hrx Htx. revert queue s H0 Hn. induction n as [|n IH]; intros queue s H0 Hn; cbn [port_init_queues].
  { apply run_ret; [done|]. split; [by left|]. intros _. exists []. split; [done|]. lia. }
  assert (exists mp, aget (np_mbuf_pool port) queue = Some mp) as [mp Emp] by (apply aget_some; rewrite (po_pools _ Hp); lia).
  assert (forall s', (-1 = 0 \/ -1 = -1) /\ (-1 = 0 -> exists l, d_log s' = l ++ d_log s
    /\ forall k, queue <= k < queue + Z.of_nat (S n) -> queue_ready l port k)) as Hbad by (split; [by right|done]).
  unfold port_init_rx, port_get_mbuf_pool, port_init_tx. destruct (Z.ltb_spec queue (np_queue_num port)); [|lia].
  apply run_assoc, (run_lift_bind _ _ _ mp); [exact Emp|].
  apply run_assoc, run_call_bind; [done|done|]. intros so s1 _ L1 _.
  apply run_call_bind; [done|done|]. intros r s2 _ L2 _. destruct (Z.ltb_spec r 0); [apply run_ret; [done|apply Hbad]|].
  apply run_assoc, run_call_bind; [done|done|]. intros so' s3 _ L3 _.
  apply run_call_bind; [done|done|]. intros r' s4 _ L4 _. destruct (Z.ltb_spec r' 0); [apply run_ret; [done|apply Hbad]|].
  eapply run_mono; [apply IH; lia|]. intros r5 s5 _ [H5 H6]. split; [exact H5|]. intros Hr. destruct (H6 Hr) as (l & E & Hl).
  rewrite L4, L3, L2, L1 in E. eexists (l ++ [_; _; _; _]). split; [rewrite <- app_assoc; exact E|].
  intros k Hk. destruct (decide (k = queue)) as [->|].
  - split; [exists nb_rxd, (u32 so), mp, r|exists nb_txd, (u32 so'), r']; split_and!; try done; apply elem_of_app; right; logged.
  - destruct (Hl k ltac:(lia)) as [(x1 & x2 & x3 & x4 & X1 & X2 & X3 & X4) (y1 & y2 & y3 & Y1 & Y2 & Y3)].
    split; [exists x1, x2, x3, x4|exists y1, y2, y3]; split_and!; try done; by apply elem_of_app; left.
Qed.
(** ** The device *)

(** A run of calls around the configuration of the device, after which its
    queues were set up. *)
Definition configured (log : history) (p : netif_port) : Prop :=
  exists l1 l2 conf r, log = l1 ++ (Dev_configure (dev_id p) (u16 (np_queue_num p)) (u16 (np_queue_num p)) conf, r) :: l2 /\ 0 <= r
    /\ forall k, 0 <= k < np_queue_num p -> queue_ready l1 p k.
Lemma configured_grows s s' p : suffix (d_log s) (d_log s') -> configured (d_log s) p -> configured (d_log s') p.
Proof using Type.
  intros [l ->] (l1 & l2 & conf & r & E & Hr & Hk). exists (l ++ l1), l2, conf, r. split_and!; [rewrite E; apply app_assoc|done|].
  intros k H. by apply queue_ready_grows, Hk.
Qed.

Lemma run_conf_mod_bind {B} f (k : unit -> DM B) Q s :
  (forall s', d_log s' = d_log s -> d_cfg s' = d_cfg s -> run silent (k tt) Q s') -> run silent (conf_mod f ≫= k) Q s.
Proof using Type. intros H. apply run_modify_bind; [done|by split|]. by apply H. Qed.

Lemma run_cksum_bind {B} info (k : unit -> DM B) Q s :
  (forall s', d_log s' = d_log s -> d_cfg s' = d_cfg s -> run silent (k tt) Q s') -> run silent (port_config_cksum info ≫= k) Q s.
Proof using Type.
  intros H. apply (run_bind _ _ _ (fun _ s' => d_log s' = d_log s /\ d_cfg s' = d_cfg s)); [|intros [] s' _ [H1 H2]; by apply H].
  unfold port_config_cksum. apply (run_bind _ _ _ (fun _ s' => d_log s' = d_log s /\ d_cfg s' = d_cfg s)).
  - destruct (has _ _); [apply run_conf_mod_bind; intros s1 L1 C1|]; by apply run_modify.
  - intros [] s1 _ [L1 C1]. destruct (_ && _).
    + apply run_modify_bind; [done|by split|]. by apply run_modify.
    + by apply run_modify.
Qed.

Lemma answers_vlan info s : answers silent (port_config_vlan info) (fun _ => True) s.
Proof using Type.
  unfold port_config_vlan. destruct (has _ _); [|by apply answers_fail]. apply run_conf_mod_bind. intros s1 _ _.
  destruct (has _ _); [|by apply answers_fail]. apply run_conf_mod_bind. intros s2 _ _. by apply answers_ok.
Qed.
Lemma run_dev_configure id q (Q : Z -> machine -> Prop) s :
  (forall r s' conf, d_log s' = (Dev_configure id (u16 q) (u16 q) conf, r) :: d_log s -> Q r s') -> run silent (port_dev_configure id q) Q s.
Proof using Type.
  intros H. unfold port_dev_configure. apply run_gets_bind, run_call; [done|]. intros r s' _ L _. by eapply H.
Qed.

Lemma answers_port_config p s : port_ok p -> 0 <= np_queue_num p <= 64 ->
  answers silent (port_config p) (fun s' => configured (d_log s') p) s.
Proof using Type.
  intros Hp Hq. unfold port_config. apply run_gets_bind, run_call_bind; [done|done|]. intros r1 s1 _ _ _.
  destruct (r1 <? 0); [by apply answers_fail|]. cbv zeta. set (rx := if _ <? NB_RXD then _ else _). set (tx := if _ <? NB_TXD then _ else _).
  assert (rx <= NB_RXD /\ tx <= NB_TXD) as [Hrx Htx] by (subst rx tx; split; case_match; lia). clearbody rx tx.
  apply run_gets_bind. apply (run_bind _ _ _ (fun _ _ => True)).
  { unfold st_when. destruct (c_flow_isolate _); [|by apply run_ret]. apply run_call_bind; [done|done|]. intros. by apply run_ret. }
  intros [] s2 _ _. eapply answers_then; [done|instantiate (1 := fun _ => True); destruct (_ =? 0); [by apply answers_ok|apply answers_vlan]|].
  intros s3 _ _. apply (run_bind _ _ _ (fun _ _ => True)).
  { unfold st_when. destruct (c_jumbo _); [|by apply run_ret]. by apply run_modify. }
  intros [] s4 _ _. apply run_cksum_bind. intros s5 _ _. destruct (_ || _); [by apply answers_fail|].
  apply (run_bind _ _ _ (fun r s' => exists l conf,
    d_log s' = (Dev_configure (dev_id p) (u16 (np_queue_num p)) (u16 (np_queue_num p)) conf, r) :: l)).
  { destruct (_ =? FLOW_RSS); [|apply run_dev_configure; eauto].
    unfold rss_config_port. apply run_assoc, run_gets_bind, run_conf_mod_bind. intros s6 _ _.
    apply (run_bind _ _ _ (fun r s' => exists l conf,
      d_log s' = (Dev_configure (dev_id p) (u16 (np_queue_num p)) (u16 (np_queue_num p)) conf, r) :: l)); [apply run_dev_configure; eauto|].
    intros r s7 _ Hc. destruct (Z.ltb_spec r 0).
    - apply run_assoc, run_gets_bind, run_conf_mod_bind. intros s8 _ _. apply run_dev_configure. eauto.
    - by apply run_ret. }
  intros r s6 _ Hc. destruct (Z.ltb_spec r 0); [by apply answers_fail|]. destruct Hc as (l & conf & L).
  eapply answers_mono; [apply run_init_queues; first [done|lia]|]. intros s7 _ (l1 & E & Hk). cbv beta in *.
  exists l1, l, conf, r. split_and!; [by rewrite E, L|done|]. intros k Hr. apply Hk. lia.
Qed.
(** ** Bonds *)

Lemma answers_slaves n i port slave s : 0 <= i -> i + Z.of_nat n <= 4 -> port_ok port -> port_ok slave -> 0 <= np_queue_num slave <= 64 ->
  answers silent (bond_slaves n i port slave) (fun _ => True) s.
Proof using Type.
  intros Hi Hn Hp Hs Hq. revert i s Hi Hn. induction n as [|n IH]; intros i s Hi Hn; cbn [bond_slaves]; [by apply answers_ok|].
  destruct (aget_some (np_port_id_list port) i) as [id E]; [rewrite (proj2 (po_slaves _ Hp)); lia|].
  apply (run_lift_bind _ _ _ id); [exact E|].
  eapply run_bind; [done|apply answers_port_config; [|exact Hq]; by destruct Hs; split|]. intros _ s1 _ _.
  apply run_call_bind; [done|done|]. intros r s2 _ _ _. destruct (r =? -1); [by apply answers_fail|]. apply IH; lia.
Qed.
Lemma answers_config_slaves p s : port_ok p -> 0 <= np_queue_num p <= 64 -> answers silent (bond_config_slaves p) (fun _ => True) s.
Proof using Type.
  intros Hp Hq. destruct (po_slaves _ Hp) as [Hn _]. apply answers_slaves; [lia|lia|done|by destruct Hp; split|done].
Qed.

(** The wait for the slaves ends within sixteen polls. *)
Lemma answers_wait p s : answers silent (bond_wait p) (fun s' => exists n, (Bond_active (dev_id p) BOND_SLAVE_MAX, np_pci_num p) :: n = d_log s') s.
Proof using Type.
  unfold bond_wait. generalize (Z.to_nat BOND_WAIT_SEC) as k. intros k. revert s. induction k as [|k IH]; intros s; cbn [bond_poll]; [by apply answers_fail|].
  apply run_call_bind; [done|done|]. intros r s1 _ L _. destruct (Z.eqb_spec r (np_pci_num p)) as [->|].
  - apply answers_ok; [done|]. by eexists.
  - apply run_call_bind; [done|done|]. intros _ s2 _ _ _. apply IH.
Qed.

(** ** The memory pools *)

Definition created (l : history) (mp : Z) : Prop := mp ≠ 0 /\ exists name n size socket, (Pool_create name n size socket, mp) ∈ l.
Definition freed (l : history) (mp : Z) : Prop := exists r, (Pool_free mp, r) ∈ l.

Lemma created_app l1 l2 mp : created (l1 ++ l2) mp <-> created l1 mp \/ created l2 mp.
Proof using Type. unfold created. split; [|intros [H|H]]; [intros (H & a & b & c & d & E)|..]; [apply elem_of_app in E as [E|E]; [left|right]; eauto 10|..].
  all: destruct H as (H & a & b & c & d & E); split; [done|]; exists a, b, c, d; apply elem_of_app; auto.
Qed.
Lemma freed_app l1 l2 mp : freed (l1 ++ l2) mp <-> freed l1 mp \/ freed l2 mp.
Proof using Type. unfold freed. setoid_rewrite elem_of_app. split; [intros [r [E|E]]; eauto|intros [[r E]|[r E]]; eauto]. Qed.
Lemma created_nil mp : ~ created [] mp.
Proof using Type. intros (_ & a & b & c & d & E). by apply elem_of_nil in E. Qed.
Lemma created_cons_ne e l mp : (forall a b c d, e.1 ≠ Pool_create a b c d) -> created (e :: l) mp -> created l mp.
Proof using Type.
  intros He (H & a & b & c & d & E). split; [done|]. exists a, b, c, d. apply elem_of_cons in E as [E|E]; [|done].
  destruct (He a b c d). by rewrite <- E.
Qed.
Lemma freed_here mp r l : freed ((Pool_free mp, r) :: l) mp.
Proof using Type. exists r. constructor. Qed.

Lemma run_pools_free n i s p : c_ports (d_cfg s) !! i = Some p -> (n <= length (np_mbuf_pool p))%nat ->
  run (moves i) (mbuf_pools_free n i) (fun _ s' => exists l, d_log s' = l ++ d_log s /\ (forall mp, ~ created l mp)
    /\ forall k mp, (k < n)%nat -> np_mbuf_pool p !! k = Some mp -> freed l mp) s.
Proof using Type.
  revert s p. induction n as [|n IH]; intros s p Hp Hn; cbn [mbuf_pools_free].
  { apply run_ret; [done|]. exists []. split; [done|]. split; [exact created_nil|]. lia. }
  apply (run_port_get_bind _ i p); [done|]. destruct (lookup_lt_is_Some_2 (np_mbuf_pool p) n) as [mp E]; [lia|].
  eapply run_lift_bind; [exact E|]. apply run_call_bind; [done|apply silent_moves|]. intros r s1 _ L1 C1.
  apply run_port_mod_bind.
  { intros q. split; [done|]. intros []; split; rsimpl; try done. by rewrite length_insert. }
  intros s2 L2 C2. set (p2 := p <| np_mbuf_pool ::= <[n:=0]> |>). assert (c_ports (d_cfg s2) !! i = Some p2) as Hp2.
  { rewrite C2, C1, list_lookup_alter_eq, Hp. done. }
  eapply run_mono; [apply (IH s2 p2 Hp2); subst p2; rsimpl; rewrite length_insert; lia|]. intros _ s3 _ (l & E3 & Hnew & Hl).
  exists (l ++ [(Pool_free mp, r)]). split; [rewrite E3, L2, L1, <- app_assoc; done|]. split.
  { intros mp' [H|H]%created_app; [by apply (Hnew mp')|]. apply created_cons_ne in H; [by apply created_nil in H|done]. }
  intros k mp' Hk Ek. apply freed_app. destruct (decide (k = n)) as [->|].
  - assert (mp' = mp) as -> by congruence. right. apply freed_here.
  - left. apply (Hl k); [lia|]. subst p2. rsimpl. by rewrite list_lookup_insert_ne.
Qed.

(** The pools that were created are in the table of the port. *)
Definition pools_ready (p : netif_port) (n : nat) : Prop := forall k, (k < n)%nat -> exists mp, np_mbuf_pool p !! k = Some mp /\ mp ≠ 0.

Lemma run_pools_new n queue i s p : c_ports (d_cfg s) !! i = Some p -> (queue + n <= length (np_mbuf_pool p))%nat -> pools_ready p queue ->
  run (moves i) (mbuf_pools_new n queue i) (fun r s' => (r = 0 \/ r = -1) /\ exists l, d_log s' = l ++ d_log s
    /\ (r = 0 -> exists p', c_ports (d_cfg s') !! i = Some p' /\ pools_ready p' (queue + n))
    /\ (r = -1 -> forall mp, (exists k, (k < queue)%nat /\ np_mbuf_pool p !! k = Some mp) \/ created l mp -> freed l mp)) s.
Proof using Type.
  revert queue s p. induction n as [|n IH]; intros queue s p Hp Hn Hr; cbn [mbuf_pools_new].
  { apply run_ret; [done|]. split; [by left|]. exists []. split; [done|]. split; [|done]. intros _. exists p. by rewrite Nat.add_0_r. }
  apply (run_port_get_bind _ i p); [done|]. unfold mbuf_pool_create. apply run_assoc, run_call_bind; [done|apply silent_moves|].
  intros so s1 _ L1 C1. apply run_assoc, run_gets_bind. apply run_call_bind; [done|apply silent_moves|]. intros mp s2 _ L2 C2.
  destruct (Z.eqb_spec mp 0) as [->|Hmp].
  - eapply run_bind; [done|apply (run_pools_free _ _ _ p); [by rewrite C2, C1|lia]|]. intros [] s3 _ (l & E & Hnew & Hl).
    apply run_ret; [done|]. split; [by right|]. eexists (l ++ [_; _]). split; [rewrite E, L2, L1, <- app_assoc; reflexivity|].
    split; [done|]. intros _ mp [(k & Hk & Ek)|[H|H]%created_app].
    + apply freed_app. left. by apply (Hl k).
    + by apply Hnew in H.
    + exfalso. destruct H as (Hmp & nm & a & b & c & [[= ]|Hc]%elem_of_cons); [done|]. apply elem_of_cons in Hc as [[=]|Hc]. by apply elem_of_nil in Hc.
  - destruct (lookup_lt_is_Some_2 (np_mbuf_pool p) queue) as [old E]; [lia|]. eapply run_lift_bind; [exact E|].
    apply run_port_mod_bind.
    { intros q. split; [done|]. intros []; split; rsimpl; try done. by rewrite length_insert. }
    intros s3 L3 C3. set (p2 := p <| np_mbuf_pool ::= <[queue:=mp]> |>). assert (c_ports (d_cfg s3) !! i = Some p2) as Hp2.
    { rewrite C3, C2, C1, list_lookup_alter_eq, Hp. done. }
    eapply run_mono; [apply (IH (S queue) s3 p2 Hp2)|].
    + subst p2. rsimpl. rewrite length_insert. lia.
    + intros k Hk. subst p2. rsimpl. destruct (decide (k = queue)) as [->|].
      * exists mp. split; [apply list_lookup_insert_eq; lia|done].
      * rewrite list_lookup_insert_ne by done. apply Hr. lia.
    + intros r s4 _ (Ha & l & E4 & H0 & H1). split; [exact Ha|]. eexists (l ++ [_; _]).
      split; [rewrite E4, L3, L2, L1, <- app_assoc; reflexivity|]. split; [by rewrite Nat.add_succ_comm in H0|].
      intros Hm mp' Hc. apply freed_app. left. apply (H1 Hm). destruct Hc as [(k & Hk & Ek)|[H|H]%created_app].
      * left. exists k. split; [lia|]. subst p2. rsimpl. rewrite list_lookup_insert_ne by lia. done.
      * by right.
      * destruct (decide (mp' = mp)) as [->|Hne].
        { left. exists queue. split; [lia|]. subst p2. rsimpl. apply list_lookup_insert_eq. lia. }
        exfalso. destruct H as (_ & nm & a & b & c & [[= ]|Hc]%elem_of_cons); [done|]. apply elem_of_cons in Hc as [[=]|Hc]. by apply elem_of_nil in Hc.
Qed.
(** ** The start of a port *)

Lemma moves_port i s s' p : moves i s s' -> c_ports (d_cfg s) !! i = Some p ->
  exists p', c_ports (d_cfg s') !! i = Some p' /\ port_static p' = port_static p /\ (port_ok p -> port_ok p').
Proof using Type.
  intros [_ (f & Hf & E)] Hp. exists (f p). split; [|exact (Hf p)]. rewrite E. rsimpl. by rewrite list_lookup_alter_eq, Hp.
Qed.
Lemma moves_queued q i s s' p : moves i s s' -> c_ports (d_cfg s) !! i = Some p -> queued q p ->
  exists p', c_ports (d_cfg s') !! i = Some p' /\ port_static p' = port_static p /\ queued q p'.
Proof using Type.
  intros H Hp [Hok Hq]. destruct (moves_port _ _ _ _ H Hp) as (p' & E & Hs & Hok'). exists p'. split; [done|]. split; [done|].
  split; [auto|]. rewrite <- Hq. exact (f_equal np_queue_num Hs).
Qed.

(** The ids of the devices are stored. *)
Lemma answers_port_ids q n k i s p : c_ports (d_cfg s) !! i = Some p -> queued q p -> (k + n <= 4)%nat ->
  answers (moves i) (port_ids n k i) (fun _ => True) s.
Proof using Type.
  revert k s p. induction n as [|n IH]; intros k s p Hp Hq Hn; cbn [port_ids]; [by apply answers_ok|].
  apply (run_port_get_bind _ i p); [done|]. destruct Hq as [Hok Hq]. pose proof (po_slaves _ Hok) as [_ Hids].
  destruct (lookup_lt_is_Some_2 (np_pci_list p) k) as [pci Epci]; [rewrite (po_pcis _ Hok); lia|]. eapply run_lift_bind; [exact Epci|].
  apply run_gets_bind, run_call_bind; [done|apply silent_moves|]. intros r s1 _ _ C1. destruct (negb _); [by apply answers_fail|].
  destruct (lookup_lt_is_Some_2 (np_port_id_list p) k) as [old Eold]; [lia|]. eapply run_lift_bind; [exact Eold|].
  assert (forall id, at_run_time (fun p => p <| np_port_id_list ::= <[k := id]> |>)) as Hset.
  { intros id x. split; [done|]. intros [P1 P2 [P3 P4] P5 P6]. split; rsimpl; try done. by rewrite length_insert. }
  apply run_port_mod_bind; [apply Hset|]. intros s2 _ C2. apply run_call_bind; [done|apply silent_moves|]. intros so s3 _ _ C3.
  match type of C2 with _ = alter ?f i _ => assert (c_ports (d_cfg s3) !! i = Some (f p)) as Hp3 by (rewrite C3, C2, C1, list_lookup_alter_eq, Hp; done);
    assert (queued q (f p)) as Hq3 by (destruct (Hset _ p) as [_ Hok3] || idtac; split; [|exact Hq]; by apply (Hset _ p)) end.
  destruct (k =? 0)%nat.
  - assert (at_run_time (fun p => p <| np_socket := so |>)) as Hso by (intros x; split; [done|]; intros []; by split).
    apply run_port_mod_bind; [exact Hso|]. intros s4 _ C4.
    eapply (IH (S k) s4); [rewrite C4, list_lookup_alter_eq, Hp3; reflexivity| |lia]. destruct Hq3 as [Hok3 Hq3]. split; [by apply Hso|exact Hq3].
  - destruct (negb _); [by apply answers_fail|]. by eapply (IH (S k) s3); [exact Hp3| |lia].
Qed.

Lemma answers_init_port_id q i s p : c_ports (d_cfg s) !! i = Some p -> queued q p ->
  answers (moves i) (port_init_port_id i) (fun _ => True) s.
Proof using Type.
  intros Hp Hq. unfold port_init_port_id. apply (run_port_get_bind _ i p); [done|].
  destruct (po_slaves _ (proj1 Hq)) as [Hn _].
  eapply answers_then; [done|apply (answers_port_ids q _ _ _ _ p); [done|done|lia]|]. intros s1 H1 _.
  destruct (moves_queued q _ _ _ _ H1 Hp Hq) as (p1 & Hp1 & _ & Hq1). apply (run_port_get_bind _ i p1); [done|].
  assert (forall id, at_run_time (fun p => p <| np_id := id |>)) as Hset by (intros id x; split; [done|]; intros []; by split).
  destruct (np_bond p1).
  - apply (run_bind _ _ _ (fun _ _ => True)).
    + unfold bond_create. apply run_call_bind; [done|apply silent_moves|]. intros r s2 _ _ _. destruct (r <? 0); [by apply run_ret|].
      apply run_call_bind; [done|apply silent_moves|]. intros. by apply run_ret.
    + intros id s2 _ _. apply run_port_mod_bind; [apply Hset|]. intros s3 _ _. destruct (id <? 0); [by apply answers_fail|by apply answers_ok].
  - destruct (lookup_lt_is_Some_2 (np_port_id_list p1) 0) as [id Eid]; [rewrite (proj2 (po_slaves _ (proj1 Hq1))); lia|].
    eapply run_lift_bind; [exact Eid|]. apply run_port_mod_bind; [apply Hset|]. intros s2 _ _. by apply answers_ok.
Qed.

(** A port whose device and queues are configured, with a memory pool for
    every queue. *)
Definition prepared (q : Z) (log : history) (p : netif_port) : Prop :=
  queued q p /\ configured log p /\ pools_ready p (Z.to_nat (np_queue_num p)).

Lemma answers_init_mbuf_pool q i s p : c_ports (d_cfg s) !! i = Some p -> queued q p -> 0 <= q <= 64 ->
  answers (moves i) (port_init_mbuf_pool i) (fun s' => exists p', c_ports (d_cfg s') !! i = Some p' /\ pools_ready p' (Z.to_nat q)) s.
Proof using Type.
  intros Hp [Hok Hq] Hr. unfold port_init_mbuf_pool. apply (run_port_get_bind _ i p); [done|].
  eapply run_mono; [apply (run_pools_new _ 0 i s p Hp); [rewrite (po_pools _ Hok); lia|intros k Hk; lia]|].
  intros r s' _ (Ha & l & _ & H0 & _). split; [exact Ha|]. rewrite <- Hq. exact H0.
Qed.

Lemma answers_port_init q i s p : c_ports (d_cfg s) !! i = Some p -> queued q p -> 0 <= q <= 64 ->
  answers (moves i) (port_init i) (fun s' => exists p', c_ports (d_cfg s') !! i = Some p' /\ prepared q (d_log s') p') s.
Proof using Type.
  intros Hp Hq Hr. unfold port_init. eapply answers_then; [done|by apply (answers_init_port_id q _ _ p)|]. intros s1 H1 _.
  destruct (moves_queued q _ _ _ _ H1 Hp Hq) as (p1 & Hp1 & _ & Hq1).
  eapply answers_then; [done|by apply (answers_init_mbuf_pool q _ _ p1)|]. intros s2 H2 (p2 & Hp2 & Hpools).
  destruct (moves_queued q _ _ _ _ H2 Hp1 Hq1) as (p2' & Hp2' & _ & Hq2). assert (p2' = p2) as -> by congruence.
  destruct Hq2 as [Hok2 Hn2]. apply (run_port_get_bind _ i p2); [done|].
  eapply answers_weaken; [apply silent_moves|]. eapply answers_then; [done| |].
  { instantiate (1 := fun _ => True). destruct (np_bond p2); [apply answers_config_slaves; [done|lia]|by apply answers_ok]. }
  intros s3 [_ C3] _. eapply answers_mono; [apply answers_port_config; [done|lia]|]. intros s4 [_ C4] Hc. exists p2.
  split; [by rewrite C4, C3|]. split; [done|]. split; [done|]. by rewrite Hn2.
Qed.
End Calls.

(** ** All ports *)

(** The calls grow; of the configuration, only run-time fields of ports change. *)
Definition same_ports (ps ps' : list netif_port) : Prop :=
  Forall2 (fun p p' => port_static p' = port_static p /\ (port_ok p -> port_ok p')) ps ps'.
Definition brought (s s' : machine) : Prop := suffix (d_log s) (d_log s')
  /\ exists ps, d_cfg s' = (d_cfg s) <| c_ports := ps |> /\ same_ports (c_ports (d_cfg s)) ps.
#[export] Instance brought_preorder : PreOrder brought.
Proof using Type.
  split.
  - intros s. split; [done|]. exists (c_ports (d_cfg s)). split; [by destruct s as [[] ? ? ? ?]|]. by apply Forall_Forall2_diag, list.Forall_forall.
  - intros a b d [H1 (ps & E1 & F1)] [H2 (qs & E2 & F2)]. split; [by etrans|]. exists qs. split; [by rewrite E2, E1|].
    rewrite E1 in F2. unfold same_ports in *. change (c_ports ((d_cfg a) <| c_ports := ps |>)) with ps in F2.
    eapply Forall2_trans; [|exact F1|exact F2]. cbv beta. intros x y z [X1 X2] [Y1 Y2]. split; [by etrans|auto].
Qed.
Lemma moves_brought i s s' : moves i s s' -> brought s s'.
Proof using Type.
  intros [H1 (f & Hf & E)]. split; [done|]. exists (alter f i (c_ports (d_cfg s))). split; [exact E|].
  apply Forall2_same_length_lookup. split; [symmetry; apply length_alter|]. intros j x y Hx Hy.
  destruct (decide (i = j)) as [->|]; [rewrite list_lookup_alter_eq, Hx in Hy; injection Hy as <-; apply Hf|].
  rewrite list_lookup_alter_ne in Hy by done. simplify_eq. done.
Qed.
#[export] Hint Resolve brought_preorder : core.
Lemma silent_brought s s' : silent s s' -> brought s s'.
Proof using Type. intros H. by eapply moves_brought, (silent_moves 0). Qed.

Section Ports.
Context {C : Card}.

Lemma moves_other i j s s' : moves i s s' -> i ≠ j -> c_ports (d_cfg s') !! j = c_ports (d_cfg s) !! j.
Proof using Type. intros [_ (f & _ & E)] H. rewrite E. rsimpl. by rewrite list_lookup_alter_ne. Qed.

(** The ports outside [l] are not touched. *)
Definition brought_in (l : list nat) (s s' : machine) : Prop := brought s s' /\ forall i, i ∉ l -> c_ports (d_cfg s') !! i = c_ports (d_cfg s) !! i.
#[local] Instance brought_in_preorder l : PreOrder (brought_in l).
Proof using Type.
  split; [by split|]. intros a b d [H1 H2] [H3 H4]. split; [by etrans|]. intros i Hi. by rewrite H4, H2.
Qed.
Hint Resolve brought_in_preorder : core.
Lemma brought_in_moves i l s s' : i ∈ l -> moves i s s' -> brought_in l s s'.
Proof using Type. intros Hi H. split; [by eapply moves_brought|]. intros j Hj. apply (moves_other i); [done|]. by intros <-. Qed.
Lemma brought_in_weaken l l' s s' : l ⊆ l' -> brought_in l s s' -> brought_in l' s s'.
Proof using Type. intros H [H1 H2]. split; [done|]. intros i Hi. apply H2. set_solver. Qed.

(** A loop over the ports: [D] is what the body needs of its port, and [E] what
    it leaves of it; both survive later calls. *)
Section Loop.
Context (D E : history -> netif_port -> Prop).
Context (HD : forall s s' p, suffix (d_log s) (d_log s') -> D (d_log s) p -> D (d_log s') p).
Context (HE : forall s s' p, suffix (d_log s) (d_log s') -> E (d_log s) p -> E (d_log s') p).
Definition have (F : history -> netif_port -> Prop) (s : machine) (i : nat) : Prop := exists p, c_ports (d_cfg s) !! i = Some p /\ F (d_log s) p.

Lemma answers_for_ports body ports s : NoDup ports ->
  (forall i s p, i ∈ ports -> c_ports (d_cfg s) !! i = Some p -> D (d_log s) p -> answers (moves i) (body i) (fun s' => have E s' i) s) ->
  (forall i, i ∈ ports -> have D s i) ->
  answers (brought_in ports) (for_ports body ports) (fun s' => forall i, i ∈ ports -> have E s' i) s.
Proof using HD HE.
  intros Hnd Hbody. revert s. induction Hnd as [|i ports Hi Hnd IH]; intros s Hs; cbn [for_ports].
  { apply answers_ok; [done|]. intros i []%elem_of_nil. }
  destruct (Hs i) as (p & Hp & Hd); [constructor|].
  eapply answers_then; [done|eapply (answers_weaken (moves i)); [intros s'; apply brought_in_moves; constructor|]|].
  { eapply run_mono; [apply (Hbody i s p); [constructor|done|done]|]. intros r s' Hm [Ha Hb]. split; [exact Ha|]. intros H. exact (conj Hm (Hb H)). }
  intros s1 _ [Hm (p1 & Hp1 & He)]. apply (answers_weaken (brought_in ports)); [intros s'; apply brought_in_weaken; set_solver|].
  eapply answers_mono; [apply IH|].
  - intros j s' p' Hj. apply Hbody. by constructor.
  - intros j Hj. destruct (Hs j) as (pj & Hpj & Hdj); [by constructor|]. exists pj.
    split; [rewrite (moves_other i j s s1) by (done || by intros <-); done|]. by eapply HD; [apply Hm|].
  - intros s2 [[Hlog _] Hout] Hrest j [->|Hj]%elem_of_cons; [|by apply Hrest]. exists p1. split; [by rewrite (Hout i)|]. by apply (HE s1).
Qed.
End Loop.

Lemma run_dev_cfg_bind R {A B} (g : config -> A) (f : A -> DM B) Q s : run R (f (g (d_cfg s))) Q s -> run R (dev_cfg g ≫= f) Q s.
Proof using Type. done. Qed.

(** The loop over all ports of the configuration. *)
Lemma answers_each_port (D E : history -> netif_port -> Prop) body s :
  (forall s s' p, suffix (d_log s) (d_log s') -> D (d_log s) p -> D (d_log s') p) ->
  (forall s s' p, suffix (d_log s) (d_log s') -> E (d_log s) p -> E (d_log s') p) ->
  (forall i s p, c_ports (d_cfg s) !! i = Some p -> D (d_log s) p -> answers (moves i) (body i) (fun s' => have E s' i) s) ->
  Forall (D (d_log s)) (c_ports (d_cfg s)) ->
  answers brought (config_for_each_port body) (fun s' => Forall (E (d_log s')) (c_ports (d_cfg s'))) s.
Proof using Type.
  intros HD HE Hbody Hs. unfold config_for_each_port. apply run_dev_cfg_bind. cbv [id]. set (n := length _).
  apply (answers_weaken (brought_in (seq 0 n))); [by intros s' []|]. eapply answers_mono; [apply (answers_for_ports D E HD HE)|].
  - apply NoDup_seq.
  - intros i s' p _. apply Hbody.
  - intros i Hi%elem_of_seq. destruct (lookup_lt_is_Some_2 (c_ports (d_cfg s)) i) as [p Hp]; [subst n; lia|]. exists p.
    split; [done|]. by eapply Forall_lookup_1.
  - intros s' [[_ (ps & Ec & Hf)] _] Hall. assert (c_ports (d_cfg s') = ps) as Ep by by rewrite Ec.
    apply Forall_lookup_2. intros i p Hp. destruct (Hall i) as (p' & Hp' & He); [|by simplify_eq].
    apply elem_of_seq. rewrite Ep in Hp. apply lookup_lt_Some in Hp. apply (list.Forall2_length _ _ _) in Hf. subst n. lia.
Qed.

(** ** Initialisation and start *)

Lemma prepared_grows q s s' p : suffix (d_log s) (d_log s') -> prepared q (d_log s) p -> prepared q (d_log s') p.
Proof using Type. intros H (H1 & H2 & H3). split; [done|]. split; [by eapply configured_grows|done]. Qed.

Lemma answers_port_init_all q s : Forall (queued q) (c_ports (d_cfg s)) -> 0 <= q <= 64 ->
  answers brought port_init_all (fun s' => Forall (prepared q (d_log s')) (c_ports (d_cfg s'))) s.
Proof using Type.
  intros Hs Hq. unfold port_init_all. apply run_call_bind; [apply brought_preorder|intros; by eapply moves_brought, (silent_moves 0)|].
  intros n s1 _ _ C1. apply run_dev_cfg_bind. cbv [id]. destruct (_ || _); [apply answers_fail, brought_preorder|].
  rewrite <- C1 in Hs. apply (answers_each_port (fun _ => queued q)); [done|apply prepared_grows| |done].
  intros i s2 p Hp Hqd. by apply (answers_port_init q i s2 p).
Qed.

(** A port that was started after its preparation, and knows its address. *)
Definition started (q : Z) (log : history) (p : netif_port) : Prop :=
  exists l1 l2, log = l1 ++ (Dev_start (dev_id p), 0) :: l2 /\ prepared q l2 p /\ (exists h, np_local_mac p = nic_mac h (dev_id p))
    /\ (np_bond p = true -> (Bond_active (dev_id p) BOND_SLAVE_MAX, np_pci_num p) ∈ l1).
Lemma started_grows q s s' p : suffix (d_log s) (d_log s') -> started q (d_log s) p -> started q (d_log s') p.
Proof using Type.
  intros [l ->] (l1 & l2 & E & H1 & H2 & H3). exists (l ++ l1), l2. split; [rewrite E; apply app_assoc|].
  split; [done|]. split; [done|]. intros Hb. apply elem_of_app. right. auto.
Qed.

Context {L : CardLaws C}.

Lemma answers_port_start q i s p : c_ports (d_cfg s) !! i = Some p -> prepared q (d_log s) p ->
  answers (moves i) (port_start i) (fun s' => have (started q) s' i) s.
Proof using L.
  intros Hp Hpr. unfold port_start. apply (run_port_get_bind _ i p); [done|]. apply run_call_bind; [done|apply silent_moves|].
  intros r s1 _ L1 C1. destruct (Z.eqb_spec r 0) as [->|]; [|by apply answers_fail].
  apply run_gets_bind. set (mac := nic_mac _ _). apply run_call_bind; [done|apply silent_moves|]. intros r2 s2 _ L2 C2.
  apply run_port_mod_bind.
  { intros x. split; [done|]. intros []; split; rsimpl; try done. apply mac_length. }
  intros s3 L3 C3. set (p3 := p <| np_local_mac := mac |>). assert (c_ports (d_cfg s3) !! i = Some p3) as Hp3.
  { rewrite C3, C2, C1, list_lookup_alter_eq, Hp. done. }
  eapply answers_weaken; [apply silent_moves|].
  eapply (answers_then _ _ (fun s' => d_cfg s' = d_cfg s3 /\ exists l, d_log s' = l ++ (Dev_start (dev_id p), 0) :: d_log s
    /\ (np_bond p = true -> (Bond_active (dev_id p) BOND_SLAVE_MAX, np_pci_num p) ∈ l))).
  - destruct (np_bond p) eqn:Hb.
    + eapply answers_mono; [apply answers_wait|]. intros s4 [[l Hl] C4] [n E]. split; [done|].
      destruct l as [|e l]; [rewrite app_nil_l, L3, L2, L1 in Hl; rewrite Hl in E; done|].
      exists (e :: l ++ [(Macaddr_get (u16 (np_id p)), r2)]). split; [rewrite Hl, L3, L2, L1; cbn; by rewrite <- app_assoc|].
      intros _. rewrite Hl in E. injection E as <- _. constructor.
    + apply answers_ok; [done|]. split; [done|]. exists [(Macaddr_get (u16 (np_id p)), r2)]. by rewrite L3, L2, L1.
  - intros s4 _ [C4 (l & L4 & Hb)].
    apply run_call_bind; [done|done|]. intros r5 s5 _ L5 C5. apply run_call_bind; [done|done|]. intros r6 s6 _ L6 C6.
    apply run_call_bind; [done|done|]. intros r7 s7 _ L7 C7. apply answers_ok; [done|]. exists p3.
    split; [by rewrite C7, C6, C5, C4|]. eexists (_ :: _ :: _ :: l), (d_log s). split_and!.
    + rewrite L7, L6, L5, L4. reflexivity.
    + destruct Hpr as ([[P1 P2 P3 P4 P5] Hq] & Hc & Hpools). split; [split; [|exact Hq]|].
      * split; subst p3; rsimpl; try done. apply mac_length.
      * split; [|exact Hpools]. destruct Hc as (l1 & l2 & conf & rc & E & Hr & Hk). exists l1, l2, conf, rc. split_and!; [done..|].
        intros k Hkr. by destruct (Hk k Hkr); split.
    + by eexists.
    + intros Hb'. do 3 constructor. by apply Hb.
Qed.
End Ports.
