(* ===== verification/Demo.v ===== *)
(** * Demo: an accepted configuration and a card, for the examples

    A client with two workers on one port, steered by flow director, and a card
    that grants all calls.  The witnesses of the start-up theorems are stated
    about them. *)

From S2P Require Import Prelude IpRange Config Payload ConfigNumber ConfigKeyword ConfigParse ConfigCheck ConfigInv ConfigAccept ConfigProps Card.

Definition pair_file : list Z := mjoin ((fun s => chars s ++ [10]) <$>
  ["mode client"%string; "cpu 0 1"%string; "port 0000:01:00.0 1 2"%string; "client 3 2"%string; "server 5 2"%string;
   "listen 80 1"%string; "duration 2s"%string; "cps 2"%string; "client_port_range 1 10"%string; "slow_start 10"%string]).

Definition pair_result : parsed * config :=
  match config_parse demo_pton4 (fun _ => None) (fun _ => Some pair_file) (fun _ => 0) true true [Opt_conf []] g_config_init with
  | Ok r => r
  | Err _ => (Exit, g_config_init)
  end.
Definition pair_config : config := pair_result.2.
Definition pair_texts : list (list Z) := match pair_result.1 with Parsed _ texts => texts | Exit => [] end.

Lemma pair_accepted : accepted 2 pair_texts pair_config.
Proof.
  destruct (parse_accepted demo_pton4 (fun _ => None) (fun _ => Some pair_file) (fun _ => 0) true true [Opt_conf []] pair_texts pair_config)
    as [q Hq]; [exact demo_pton4_word|done|vm_compute; reflexivity|].
  assert (exists p, c_ports pair_config !! 0%nat = Some p /\ np_queue_num p = 2) as (p & Ep & En) by (vm_compute; eexists; split; reflexivity).
  destruct (Forall_lookup_1 _ _ _ _ (ac_ports _ _ _ Hq) Ep) as [_ Hn]. by rewrite <- Hn, En in Hq.
Qed.

(** A card with 16 queues that offloads all checksums. *)
Definition demo_info : rte_eth_dev_info := DevInfo 15 1 16 16 4096 4096 0.
#[export] Instance demo_card : Card := {|
  nic_ret h d := match d with
                 | Dev_count => 1
                 | Pool_create _ _ _ _ => 1 + Z.of_nat (length h)
                 | Flow_create _ _ _ => 1
                 | Ring_create _ _ _ => 1
                 | _ => 0
                 end;
  nic_info _ _ := demo_info;
  nic_mac _ p := [2; 0; 0; 0; 0; p];
  nic_port _ name := if bool_decide (name = chars "0000:01:00.0") then 0 else 1;
  nic_name _ _ := chars "virtio_user0"; nic_flags _ _ := 0;
  RTE_ETH_MQ_RX_NONE := 0; RTE_ETH_MQ_RX_RSS := 1; RTE_ETH_MQ_TX_NONE := 0;
  RTE_ETH_TX_OFFLOAD_VLAN_INSERT := 1; RTE_ETH_TX_OFFLOAD_IPV4_CKSUM := 2; RTE_ETH_TX_OFFLOAD_UDP_CKSUM := 4;
  RTE_ETH_TX_OFFLOAD_TCP_CKSUM := 8; RTE_ETH_RX_OFFLOAD_VLAN_STRIP := 1;
  RTE_ETH_RSS_NONFRAG_IPV4_TCP := 16; RTE_ETH_RSS_NONFRAG_IPV4_UDP := 32;
  RTE_ETH_RSS_NONFRAG_IPV6_TCP := 1024; RTE_ETH_RSS_NONFRAG_IPV6_UDP := 2048;
  RTE_RING_NAMESIZE := 29; RTE_MBUF_DEFAULT_BUF_SIZE := 2176;
|}.
#[export] Instance demo_card_laws : CardLaws demo_card.
Proof. by split. Qed.
