(* ===== verification/FlowProps.v ===== *)
(** * FlowProps: the rules send every packet to the worker of its server

    Rules are read as DPDK documents them: an item matches when the addresses
    agree under its mask, a pattern when all its items match. *)

From S2P Require Import Prelude IpRange Config Payload ConfigKeyword ConfigParse ConfigInv ConfigAccept ConfigProps Card Demo Flow PortInv.

(** ** What a rule selects *)

Definition masked (mask x y : Z) : bool := (x &&& mask) =? (y &&& mask).
Definition masked_addr (mask x y : ipaddr_t) : bool :=
  masked (pad0 mask) (pad0 x) (pad0 y) && masked (pad1 mask) (pad1 x) (pad1 y)
  && masked (pad2 mask) (pad2 x) (pad2 y) && masked (ip mask) (ip x) (ip y).
Definition item_matches (ipv6 : bool) (src dst : ipaddr_t) (item : rte_flow_item) : bool :=
  match item with
  | Item_eth => true
  | Item_ipv4 s d smask dmask => negb ipv6 && masked smask (ip src) s && masked dmask (ip dst) d
  | Item_ipv6 s d smask dmask => ipv6 && masked_addr smask src s && masked_addr dmask dst d
  end.
Definition pattern_matches (pattern : list rte_flow_item) (ipv6 : bool) (src dst : ipaddr_t) : bool :=
  forallb (item_matches ipv6 src dst) pattern.

Lemma masked_refl m x : masked m x x = true.
Proof. apply Z.eqb_refl. Qed.
Lemma masked_zero x y : masked 0 x y = true.
Proof. unfold masked. by rewrite !Z.land_0_r. Qed.
Lemma masked_full x y : in_u 32 x -> in_u 32 y -> masked 4294967295 x y = true -> x = y.
Proof.
  unfold masked. change 4294967295 with (Z.ones 32). rewrite !Z.land_ones by lia. unfold in_u.
  intros Hx Hy E%Z.eqb_eq. rewrite !Z.mod_small in E by lia. done.
Qed.

(** The rule of a server, or client, whose peers are all addresses. *)
Lemma pattern_to (server ipv6 : bool) addr peer : ip addr ≠ 0 ->
  pattern_matches (if server then flow_pattern ipaddr_zero addr ipv6 else flow_pattern addr ipaddr_zero ipv6) ipv6
    (if server then peer else addr) (if server then addr else peer) = true.
Proof.
  intros H. apply Z.eqb_neq in H. unfold pattern_matches, flow_pattern, flow_pattern_init_eth, flow_pattern_init_ipv6, flow_pattern_init_ipv4.
  destruct server, ipv6; cbn [forallb item_matches]; rewrite ?H; cbn; unfold masked_addr; cbn; by rewrite ?masked_refl, ?masked_zero.
Qed.
Lemma pattern_only (server ipv6 : bool) addr addr' peer : in_u 32 (ip addr) -> in_u 32 (ip addr') -> ip addr' ≠ 0 ->
  pattern_matches (if server then flow_pattern ipaddr_zero addr' ipv6 else flow_pattern addr' ipaddr_zero ipv6) ipv6
    (if server then peer else addr) (if server then addr else peer) = true -> ip addr = ip addr'.
Proof.
  intros Hu Hu' H. apply Z.eqb_neq in H. unfold pattern_matches, flow_pattern, flow_pattern_init_eth, flow_pattern_init_ipv6, flow_pattern_init_ipv4.
  destruct server, ipv6; cbn [forallb item_matches]; rewrite ?H; cbn; unfold masked_addr; cbn; rewrite ?masked_zero, ?andb_true_r; intros E; bool_facts;
    by apply masked_full.
Qed.

(** ** The rules of a port *)

Section Rules.
Context {C : Card}.

Definition created_rule (l : history) (id : Z) (pattern : list rte_flow_item) (queue : Z) : Prop :=
  exists flow, (Flow_create id pattern queue, flow) ∈ l.
Definition accepted_rule (l : history) (id : Z) (pattern : list rte_flow_item) (queue : Z) : Prop :=
  exists flow, flow ≠ 0 /\ (Flow_create id pattern queue, flow) ∈ l.

(** The rule of queue [k] is [rule k]. *)
Lemma answers_flow_queues n k0 id rule new s : 0 <= k0 -> k0 + Z.of_nat n <= 64 ->
  (forall k s, k0 <= k < k0 + Z.of_nat n -> new k s = flow_create id (rule k) (u16 k) s) ->
  run silent (flow_queues n k0 new) (fun r s' => (r = 0 \/ r = -1) /\ exists l, d_log s' = l ++ d_log s
    /\ (forall pattern queue id', created_rule l id' pattern queue -> id' = id /\ k0 <= queue < k0 + Z.of_nat n /\ pattern = rule queue)
    /\ (r = 0 -> forall k, k0 <= k < k0 + Z.of_nat n -> accepted_rule l id (rule k) k)) s.
Proof using Type.
  revert k0 s. induction n as [|n IH]; intros k0 s Hk0 Hn Hnew; cbn [flow_queues].
  { apply run_ret; [done|]. split; [by left|]. exists []. split; [done|]. split; [|lia]. by intros ? ? ? [? []%elem_of_nil]. }
  assert (u16 k0 = k0) as Eu by (apply wrap_small; unfold in_u; lia).
  apply (run_bind _ _ _ (fun r s1 => (r = 0 \/ r = -1) /\ exists l, d_log s1 = l ++ d_log s
    /\ (forall pattern queue id', created_rule l id' pattern queue -> id' = id /\ queue = k0 /\ pattern = rule k0)
    /\ (r = 0 -> accepted_rule l id (rule k0) k0))).
  - apply (run_ext _ _ _ _ _ (Hnew k0 s ltac:(lia))). rewrite Eu. unfold flow_create.
    apply run_call_bind; [done|done|]. intros r1 s1 _ L1 _. destruct (r1 <? 0).
    { apply run_ret; [done|]. split; [by right|]. eexists [_]. split; [exact L1|]. split; [|done].
      intros ? ? ? [f [[=]|Hf]%elem_of_cons]. by apply elem_of_nil in Hf. }
    apply run_call_bind; [done|done|]. intros f s2 _ L2 _. apply run_ret; [done|]. split; [destruct (f =? 0); auto|].
    eexists [_; _]. split; [rewrite L2, L1; reflexivity|]. split.
    + intros ? ? ? [f' [E|Hf]%elem_of_cons]; [by injection E as -> -> -> _|]. apply elem_of_cons in Hf as [[=]|Hf]. by apply elem_of_nil in Hf.
    + destruct (Z.eqb_spec f 0); [done|]. intros _. exists f. split; [done|constructor].
  - intros r s1 _ (Hr & l1 & L1 & H1 & H1'). destruct (Z.ltb_spec r 0).
    { apply run_ret; [done|]. split; [by right|]. exists l1. split; [done|]. split; [|done]. intros p' k' id' Hc.
      destruct (H1 _ _ _ Hc) as (-> & -> & ->). split; [done|]. split; [lia|done]. }
    eapply run_mono; [apply IH; [lia|lia|]|].
    + intros k s2 Hk. apply Hnew. lia.
    + intros r2 s2 _ (Hr2 & l2 & L2 & H2 & H2'). split; [exact Hr2|]. exists (l2 ++ l1). split; [by rewrite L2, L1, <- app_assoc|]. split.
      * intros p' k' id' [f [Hf|Hf]%elem_of_app].
        { destruct (H2 p' k' id') as (-> & ? & ->); [by exists f|]. split_and!; [done|lia|lia|done]. }
        destruct (H1 p' k' id') as (-> & -> & ->); [by exists f|]. split_and!; [done|lia|lia|done].
      * intros Hok k Hk. destruct (decide (k = k0)) as [->|].
        { destruct (H1' ltac:(lia)) as (f & Hf & Hin). exists f. split; [done|]. apply elem_of_app. by right. }
        destruct (H2' Hok k ltac:(lia)) as (f & Hf & Hin). exists f. split; [done|]. apply elem_of_app. by left.
Qed.
(** ** The port of an accepted configuration *)

Section Accepted.
Context (q : Z) (texts : list (list Z)) (c : config) (Hc : accepted q texts c).
Context (i : nat) (p : netif_port) (Hp : c_ports c !! i = Some p).

Lemma port_queues : np_queue_num p = q /\ 1 <= q <= 64.
Proof using Hc Hp.
  destruct (Forall_lookup_1 _ _ _ _ (ac_ports _ _ _ Hc) Hp) as [_ Hq]. destruct (ac_queues _ _ _ Hc) as [Hq1 Hn].
  destruct (ac_ports_num _ _ _ Hc) as [[Hp1 _] Hcpu]. unfold THREAD_NUM_MAX in Hcpu. split; [done|]. nia.
Qed.

(** The addresses of the servers of a port are different. *)
Lemma server_addresses : exists addr : Z -> ipaddr_t, forall k, 0 <= k < num (np_server_ip_range p) ->
  ip_range_get2 (np_server_ip_range p) k = Some (addr k) /\ in_u 32 (ip (addr k)) /\ ip (addr k) ≠ 0
  /\ forall j, 0 <= j < num (np_server_ip_range p) -> ip (addr j) = ip (addr k) -> j = k.
Proof using Hc Hp.
  destruct (port_servers _ _ _ Hc _ _ Hp) as [_ (a & H1 & H2 & H3 & H4)].
  exists (fun k => ipaddr_join (start (np_server_ip_range p)) (range_nth a k)). intros k Hk. unfold ip_range_get2. rewrite (H4 k Hk).
  destruct (range_nth_facts a H1 H2 k) as (F1 & F2 & F3); [lia|lia|]. split; [done|]. split; [done|]. split; [done|].
  intros j Hj E. destruct (range_nth_facts a H1 H2 j) as (_ & _ & G3); [lia|lia|]. change (range_nth a j = range_nth a k) in E. rewrite E, F3 in G3. lia.
Qed.
End Accepted.

(** The pattern for the server address [addr], whoever the peer is. *)
Definition server_pattern (server ipv6 : bool) (addr : ipaddr_t) : list rte_flow_item :=
  if server then flow_pattern ipaddr_zero addr ipv6 else flow_pattern addr ipaddr_zero ipv6.

(** Among the rules in [l], packets of the server address of queue [k], in one
    direction or the other, match one of queue [k] after success, and never one
    of another queue. *)
Definition steers (l : history) (p : netif_port) (server ipv6 : bool) (q r : Z) : Prop :=
  forall k, 0 <= k < q -> exists addr, ip_range_get2 (np_server_ip_range p) k = Some addr /\ forall peer,
    let src := if server then peer else addr in
    let dst := if server then addr else peer in
    (forall pattern queue, created_rule l (u8 (np_id p)) pattern queue -> pattern_matches pattern ipv6 src dst = true -> queue = k)
    /\ (r = 0 -> exists pattern, accepted_rule l (u8 (np_id p)) pattern k /\ pattern_matches pattern ipv6 src dst = true).

(** C8: in an accepted configuration with flow director, the rules that
    [flow_init_port] creates send the packets of the server address of each
    worker of the port to the queue of that worker and to no other, whatever
    the address of the peer. *)
Theorem flow_director_classifies q texts c i p s :
  accepted q texts c -> c_ports c !! i = Some p -> c_flow c = FLOW_FDIR ->
  match flow_init_port p (c_server c) (c_af c =? AF_INET6) s with
  | Ok (r, s') => d_cfg s' = d_cfg s /\ (r = 0 \/ r = -1) /\ exists l, d_log s' = l ++ d_log s /\ steers l p (c_server c) (c_af c =? AF_INET6) q r
  | Err _ => False
  end.
Proof.
  intros Hc Hp Hf. set (ipv6 := c_af c =? AF_INET6). destruct (port_queues q texts c Hc i p Hp) as [Hq Hq1]. destruct (server_addresses q texts c Hc i p Hp) as [addr Ha].
  assert (num (np_server_ip_range p) = q) as En.
  { destruct (ac_flow _ _ _ Hc) as [[E _]|[E|[_ HF]]]; [by rewrite Hf in E..|]. rewrite <- Hq. symmetry. by eapply (Forall_lookup_1 _ _ _ _ HF). }
  rewrite En in Ha. set (rule := fun k => server_pattern (c_server c) ipv6 (addr k)).
  assert (run silent (flow_init_port p (c_server c) ipv6) (fun r s' => (r = 0 \/ r = -1) /\ exists l, d_log s' = l ++ d_log s
    /\ (forall pattern queue id', created_rule l id' pattern queue -> id' = u8 (np_id p) /\ 0 <= queue < q /\ pattern = rule queue)
    /\ (r = 0 -> forall k, 0 <= k < q -> accepted_rule l (u8 (np_id p)) (rule k) k)) s) as Hrun.
  { unfold flow_init_port. apply run_call_bind; [done|done|]. intros r0 s1 _ L1 _.
    eapply run_mono; [apply (answers_flow_queues _ 0 (u8 (np_id p)) rule); [lia|lia|]|].
    - intros k s2 Hk. rewrite (wrap_small 8 k) by (unfold in_u; lia). destruct (Ha k ltac:(lia)) as [-> _].
      unfold rule, server_pattern, flow_new. by destruct (c_server c).
    - intros r s2 _ (Hr & l & L2 & H1 & H2). split; [exact Hr|]. exists (l ++ [(Flow_flush (u16 (np_id p)), r0)]).
      split; [by rewrite L2, L1, <- app_assoc|]. rewrite Hq, Z2Nat.id, Z.add_0_l in * by lia. split.
      + intros pt k id' [f [Hf'|Hf']%elem_of_app]; [by apply (H1 pt k id'); exists f|]. apply elem_of_cons in Hf' as [[=]|Hf']. by apply elem_of_nil in Hf'.
      + intros Hr0 k Hk. destruct (H2 Hr0 k Hk) as (f & Hf' & Hin). exists f. split; [done|]. apply elem_of_app. by left. }
  unfold run, wp in Hrun. destruct (flow_init_port _ _ _ s) as [[r s']|]; [|done]. destruct Hrun as ([_ Hcfg] & Hr & l & L & H1 & H2).
  split; [done|]. split; [done|]. exists l. split; [done|]. intros k Hk. destruct (Ha k Hk) as (G1 & G2 & G3 & G4). exists (addr k). split; [done|].
  intros peer. cbv zeta. split.
  - intros pattern queue Hcr Hm. destruct (H1 _ _ _ Hcr) as (_ & Hqu & ->). destruct (Ha queue Hqu) as (_ & U & N & _).
    apply G4; [done|]. symmetry. by apply (pattern_only (c_server c) ipv6 (addr k) (addr queue) peer).
  - intros Hr0. exists (rule k). split; [by apply H2|]. by apply pattern_to.
Qed.
End Rules.

Lemma pair_fdir : c_flow pair_config = FLOW_FDIR.
Proof. vm_compute. reflexivity. Qed.

Lemma flow_director_classifies_witness : exists p, c_ports pair_config !! 0%nat = Some p /\
  match flow_init_port p (c_server pair_config) (c_af pair_config =? AF_INET6) (machine_init pair_config) with
  | Ok (r, s') => d_cfg s' = d_cfg (machine_init pair_config) /\ (r = 0 \/ r = -1)
      /\ exists l, d_log s' = l ++ d_log (machine_init pair_config) /\ steers l p (c_server pair_config) (c_af pair_config =? AF_INET6) 2 r
  | Err _ => False
  end.
Proof.
  assert (exists p, c_ports pair_config !! 0%nat = Some p) as [p Hp] by (vm_compute; eexists; reflexivity).
  exists p. split; [exact Hp|].
  exact (flow_director_classifies 2 pair_texts pair_config 0 p (machine_init pair_config) pair_accepted Hp pair_fdir).
Defined.
