(* ===== verification/EalProps.v ===== *)
(** * EalProps: the arguments of DPDK fit, and the start-up leaves working ports

    The buffers and the table of arguments of [dpdk_eal_init] are large enough
    for every accepted configuration, and DPDK is given the CPUs and the PCI
    addresses of the configuration in their order. *)

From S2P Require Import Prelude IpRange Tick Config Payload ConfigNumber ConfigKeyword ConfigParse ConfigInv ConfigAccept ConfigProps Card Port Flow Eal PortInv Demo.

(** ** Lengths *)

Lemma dec_digits_short fuel x acc k : (1 <= k)%nat -> 0 <= x < 10 ^ Z.of_nat k -> (length (dec_digits fuel x acc) <= length acc + k)%nat.
Proof.
  revert x acc k. induction fuel as [|fuel IH]; intros x acc k Hk Hx; cbn [dec_digits]; [cbn; lia|].
  destruct (Z.ltb_spec x 10); [cbn; lia|]. destruct k as [|[|k]]; [lia|change (10 ^ Z.of_nat 1) with 10 in Hx; lia|].
  etrans; [apply (IH _ _ (S k)); [lia|]|cbn; lia]. split; [apply Z.div_pos; lia|]. apply Z.div_lt_upper_bound; [lia|].
  rewrite <- Z.pow_succ_r by lia. replace (Z.succ (Z.of_nat (S k))) with (Z.of_nat (S (S k))) by lia. lia.
Qed.
Lemma print_int_length x k : (1 <= k)%nat -> 0 <= x < 10 ^ Z.of_nat k -> (length (print_int x) <= k)%nat.
Proof. intros Hk Hx. unfold print_int. destruct (Z.ltb_spec x 0); [lia|]. by apply (dec_digits_short 20 x []). Qed.
Lemma dec_digits_any fuel x acc : (length (dec_digits fuel x acc) <= length acc + S fuel)%nat.
Proof. revert x acc. induction fuel as [|fuel IH]; intros x acc; cbn [dec_digits]; [cbn; lia|]. destruct (_ <? _); [cbn; lia|]. etrans; [apply IH|cbn; lia]. Qed.
Lemma print_int_any x : (length (print_int x) <= 22)%nat.
Proof.
  unfold print_int. destruct (_ <? _); cbn [length]; [pose proof (dec_digits_any 20 (- x) [])|pose proof (dec_digits_any 20 x [])]; cbn [length] in *; lia.
Qed.

Lemma sprintf_ok size s : strlen s < size -> sprintf size s = Some s.
Proof. intros H. unfold sprintf. by destruct (Z.ltb_spec (strlen s) size); [|lia]. Qed.

Lemma lcore_text_length i cpu : 0 <= i < 64 -> in_int cpu -> strlen (lcore_text i cpu) <= 16.
Proof.
  intros Hi Hc. unfold lcore_text, strlen. rewrite !length_app. pose proof (print_int_length i 2 ltac:(lia) ltac:(cbn; lia)).
  pose proof (print_int_length cpu 10 ltac:(lia) ltac:(unfold in_int in Hc; cbn; lia)). change (length (chars "@(")) with 2%nat. destruct (i =? 0); cbn [length]; lia.
Qed.

(** The CPUs from [i] on. *)
Fixpoint lcore_texts (i : Z) (cpus : list Z) : list Z :=
  match cpus with [] => [] | cpu :: cpus => lcore_text i cpu ++ lcore_texts (i + 1) cpus end.

Lemma set_lcores_ok n i cpus lcores : 0 <= i -> i + Z.of_nat n <= 64 -> cpus_ok cpus -> strlen lcores <= 9 + 16 * i ->
  dpdk_set_lcores n i cpus lcores = Some (lcores ++ lcore_texts i (take n (drop (Z.to_nat i) cpus))).
Proof.
  intros Hi Hn [Hl Hf]. revert i lcores Hi Hn. induction n as [|n IH]; intros i lcores Hi Hn Hs; cbn [dpdk_set_lcores]; [by rewrite app_nil_r|].
  destruct (aget_some cpus i) as [cpu E]; [lia|]. rewrite E. cbn [mbind option_bind].
  assert (in_int cpu) as Hc. { unfold aget in E. destruct (0 <=? i); [|done]. by eapply Forall_lookup_1. }
  pose proof (lcore_text_length i cpu ltac:(lia) Hc) as Ht. rewrite sprintf_ok by lia. cbn [mbind option_bind].
  assert (strlen (lcores ++ lcore_text i cpu) <= 9 + 16 * (i + 1)) as Hnew by (unfold strlen in *; rewrite length_app; lia).
  unfold strcat, LCORES_SIZE. rewrite sprintf_ok by lia. cbn [mbind option_bind]. rewrite IH by lia. f_equal. rewrite <- app_assoc. f_equal.
  unfold aget in E. destruct (Z.leb_spec 0 i); [|lia]. rewrite (drop_S _ _ _ E). cbn [take lcore_texts]. f_equal. f_equal. f_equal. f_equal. lia.
Qed.

(** ** The PCI addresses *)

Definition pci_args (pcis : list (list Z)) (flag : list Z) : list (list Z) := pcis ≫= fun pci => [flag; pci].
Lemma pci_args_length l flag : length (pci_args l flag) = (2 * length l)%nat.
Proof. unfold pci_args. induction l as [|x l IH]; [done|]. cbn in *. rewrite IH. lia. Qed.
Definition port_pcis (p : netif_port) : list (list Z) := take (Z.to_nat (np_pci_num p)) (np_pci_list p).

(** The first [argc] entries are [args]. *)
Definition holds_args (argv : list (list Z)) (args : list (list Z)) : Prop :=
  length argv = Z.to_nat ARGV_SIZE /\ take (length args) argv = args.

Lemma holds_args_set argv args x : holds_args argv args -> (length args < Z.to_nat ARGV_SIZE)%nat ->
  exists argv', aset argv (Z.of_nat (length args)) x = Some argv' /\ holds_args argv' (args ++ [x]).
Proof.
  intros [H1 H2] Hl. rewrite aset_some by lia. eexists. split; [reflexivity|]. split; [by rewrite length_insert|].
  rewrite Nat2Z.id, length_app. cbn [length]. rewrite Nat.add_1_r, (take_S_r _ _ x) by (apply list_lookup_insert_eq; lia).
  f_equal. by rewrite take_insert_ge by lia.
Qed.

Lemma append_pcis_ok pcis flag argv args : holds_args argv args -> (length args + 2 * length pcis <= Z.to_nat ARGV_SIZE)%nat ->
  exists argv', append_pcis pcis flag (Z.of_nat (length args)) argv = Some (Z.of_nat (length (args ++ pci_args pcis flag)), argv')
    /\ holds_args argv' (args ++ pci_args pcis flag).
Proof.
  revert argv args. induction pcis as [|pci pcis IH]; intros argv args Ha Hl; cbn [append_pcis length] in *.
  { exists argv. change (pci_args [] flag) with (@nil (list Z)). by rewrite app_nil_r. }
  destruct (holds_args_set argv args flag Ha) as (a1 & -> & H1); [lia|]. cbn [mbind option_bind].
  destruct (holds_args_set a1 (args ++ [flag]) pci H1) as (a2 & E2 & H2); [rewrite length_app; cbn; lia|].
  rewrite length_app, Nat2Z.inj_add in E2. cbn [length] in E2. change (Z.of_nat 1) with 1 in E2. rewrite E2. cbn [mbind option_bind].
  destruct (IH a2 ((args ++ [flag]) ++ [pci])) as (a3 & E3 & H3); [done|rewrite !length_app; cbn; lia|].
  replace (Z.of_nat (length args) + 2) with (Z.of_nat (length ((args ++ [flag]) ++ [pci]))) by (rewrite !length_app; cbn; lia).
  exists a3. change (pci_args (pci :: pcis) flag) with (flag :: pci :: pci_args pcis flag).
  rewrite <- !app_assoc in E3, H3. rewrite <- app_assoc. by split.
Qed.

Lemma append_pci_ok ports flag argv args : Forall port_ok ports -> holds_args argv args ->
  (length args + 8 * length ports <= Z.to_nat ARGV_SIZE)%nat ->
  exists argv' args', args' = args ++ pci_args (ports ≫= port_pcis) flag
    /\ dpdk_append_pci ports flag (Z.of_nat (length args)) argv = Some (Z.of_nat (length args'), argv') /\ holds_args argv' args'.
Proof.
  intros Hp. revert argv args. induction Hp as [|p ports Hp _ IH]; intros argv args Ha Hl; cbn [dpdk_append_pci length] in *.
  { exists argv, args. cbn. by rewrite app_nil_r. }
  destruct (po_slaves _ Hp) as [Hn _]. pose proof (po_pcis _ Hp) as Hlen. rewrite Hlen.
  destruct (Z.ltb_spec (Z.of_nat 4) (np_pci_num p)); [lia|]. fold (port_pcis p).
  assert (length (port_pcis p) <= 4)%nat by (unfold port_pcis; rewrite length_take; lia).
  destruct (append_pcis_ok (port_pcis p) flag argv args Ha) as (a1 & -> & H1); [lia|]. cbn [mbind option_bind].
  destruct (IH a1 (args ++ pci_args (port_pcis p) flag) H1) as (a2 & args2 & E & Ea & H2).
  { rewrite length_app, pci_args_length. lia. }
  exists a2, args2. split; [|done]. rewrite E, <- app_assoc. f_equal. unfold pci_args. cbn. by rewrite bind_app.
Qed.

(** ** The call of [rte_eal_init] *)

Section Eal.
Context {C : Card}.

(** The text of the CPUs, and what DPDK is called with. *)
Definition eal_lcores (c : config) : list Z := chars "--lcores=" ++ lcore_texts 0 (take (Z.to_nat (c_cpu_num c)) (c_cpu c)).
Definition eal_argv (argv0 : list Z) (c : config) (mem prefix : list Z) : list (list Z) :=
  [argv0; eal_lcores c; mem; prefix; chars "--log-level=" ++ print_int (c_log_level c); chars "--no-telemetry"]
  ++ pci_args (c_ports c ≫= port_pcis) (chars "-a").

(** [dpdk_eal_init] refuses a long [socket_mem], or calls DPDK. *)
Lemma run_eal_init getpid argv0 q texts s : accepted q texts (d_cfg s) ->
  run silent (dpdk_eal_init getpid argv0) (fun r s' => (r = 0 \/ r = -1)
    /\ match dpdk_set_socket_mem getpid (d_cfg s) with
       | None => r = -1 /\ s' = s
       | Some (mem, prefix) => exists ret log, d_log s' = (Eal_init (eal_argv argv0 (d_cfg s) mem prefix), ret) :: log
           /\ (r = 0 <-> 0 <= ret)
       end) s.
Proof using Type.
  intros Hc. unfold dpdk_eal_init. apply run_dev_cfg_bind. cbv [id]. set (c := d_cfg s) in *.
  eapply run_lift_bind; [apply sprintf_ok; unfold strlen; rewrite length_app; pose proof (print_int_any (c_log_level c));
    change (length (chars "--log-level=")) with 12%nat; lia|].
  destruct (dpdk_set_socket_mem getpid c) as [[mem prefix]|]; [|apply run_ret; [done|]; split; [by right|done]].
  destruct (ac_queues _ _ _ Hc) as [Hq Hn]. destruct (ac_ports_num _ _ _ Hc) as [[Hp1 Hp2] Hcpu]. unfold THREAD_NUM_MAX, NETIF_PORT_MAX in *.
  eapply run_lift_bind; [apply set_lcores_ok; [lia|lia|exact (ac_cpus _ _ _ Hc)|by vm_compute]|]. cbv zeta.
  change (drop (Z.to_nat 0) (c_cpu c)) with (c_cpu c). fold (eal_lcores c).
  set (args := [argv0; eal_lcores c; mem; prefix; chars "--log-level=" ++ print_int (c_log_level c); chars "--no-telemetry"]).
  destruct (append_pci_ok (c_ports c) (chars "-a") (args ++ replicate (Z.to_nat ARGV_SIZE - 6) []) args) as (argv & args' & -> & E & H1 & H2).
  - eapply list.Forall_impl; [exact (ac_ports _ _ _ Hc)|]. by intros p [].
  - split; [rewrite length_app, length_replicate; reflexivity|]. by rewrite take_app_length.
  - change (length args) with 6%nat. change (Z.to_nat ARGV_SIZE) with 262%nat. unfold c_port_num in Hp2. lia.
  - change (Z.of_nat (length args)) with 6 in E. eapply run_lift_bind; [exact E|]. cbv beta iota.
    apply (run_bind _ _ _ (fun _ _ => True)).
    { unfold dpdk_set_simd_bitwidth, st_when. destruct (c_simd512 c); [|by apply run_ret].
      apply run_call_bind; [done|done|]. intros. by apply run_ret. }
    intros [] s1 _ _. apply run_call_bind; [done|done|]. intros ret s2 _ L2 _. rewrite Nat2Z.id, H2 in L2. apply run_ret; [done|].
    split; [destruct (ret <? 0); auto|]. exists ret, (d_log s1). split; [exact L2|]. destruct (Z.ltb_spec ret 0); lia.
Qed.

(** What [dpdk_eal_init] has done when it returns [r]: the configuration is
    untouched, and either [socket_mem] is too long for an argument or DPDK was
    given the arguments. *)
Definition eal_called getpid argv0 (s : machine) (r : Z) (s' : machine) : Prop :=
  d_cfg s' = d_cfg s /\ (r = 0 \/ r = -1)
  /\ match dpdk_set_socket_mem getpid (d_cfg s) with
     | None => r = -1 /\ s' = s
     | Some (mem, prefix) => exists ret log, d_log s' = (Eal_init (eal_argv argv0 (d_cfg s) mem prefix), ret) :: log /\ (r = 0 <-> 0 <= ret)
     end.

(** C36: for every accepted configuration, the buffers of [dpdk_eal_init] hold
    the texts that are written to them and its table of pointers the arguments:
    DPDK is called with the CPUs and with the PCI addresses of all ports, in the
    order of the configuration, unless the text of [socket_mem] is too long. *)
Theorem eal_init_args getpid argv0 q texts s : accepted q texts (d_cfg s) ->
  match dpdk_eal_init getpid argv0 s with
  | Ok (r, s') => eal_called getpid argv0 s r s'
  | Err _ => False
  end.
Proof.
  intros Hc. pose proof (run_eal_init getpid argv0 q texts s Hc) as H. unfold run, wp in H.
  destruct (dpdk_eal_init getpid argv0 s) as [[r s']|]; [|done]. destruct H as ([_ H1] & H2 & H3). done.
Qed.

(** ** An accepted configuration whose ports have been started *)

Lemma same_ports_lookup ps ps' i p' : same_ports ps ps' -> ps' !! i = Some p' ->
  exists p, ps !! i = Some p /\ port_static p' = port_static p /\ (port_ok p -> port_ok p').
Proof using Type. intros H E. destruct (Forall2_lookup_r _ _ _ _ _ H E) as (p & Hp & ?). by exists p. Qed.

Lemma static_ranges p p' : port_static p' = port_static p ->
  np_client_ip_range p' = np_client_ip_range p /\ np_server_ip_range p' = np_server_ip_range p /\ np_local_ip_range p' = np_local_ip_range p
  /\ np_vxlan p' = np_vxlan p /\ np_queue_num p' = np_queue_num p.
Proof using Type. destruct p, p'. unfold port_static. cbn. intros [=]. by split_and!. Qed.

Section Started.
Context (q : Z) (texts : list (list Z)) (c : config) (ps : list netif_port).
Context (Hc : accepted q texts c) (Hps : same_ports (c_ports c) ps).

Lemma started_forall (P : netif_port -> Prop) : (forall p p', port_static p' = port_static p -> (port_ok p -> port_ok p') -> P p -> P p') ->
  Forall P (c_ports c) -> Forall P ps.
Proof using Hps.
  intros HP H. apply Forall_lookup_2. intros i p' E. destruct (same_ports_lookup _ _ _ _ Hps E) as (p & Ep & Hs & Hok).
  eapply HP; [exact Hs|exact Hok|]. by eapply Forall_lookup_1.
Qed.

Lemma accepted_started : accepted q texts (c <| c_ports := ps |>).
Proof using Hc Hps.
  assert (length ps = length (c_ports c)) as Hl by (symmetry; exact (list.Forall2_length _ _ _ Hps)).
  assert (c_port_num (c <| c_ports := ps |>) = c_port_num c) as En by (unfold c_port_num; rsimpl; by rewrite Hl).
  split; rewrite ?En.
  - exact (ac_queues _ _ _ Hc).
  - exact (ac_ports_num _ _ _ Hc).
  - apply (started_forall (queued q)); [|exact (ac_ports _ _ _ Hc)]. intros p p' Hs Hok [H1 H2]. split; [auto|].
    by rewrite (proj2 (proj2 (proj2 (proj2 (static_ranges _ _ Hs))))).
  - intros Hv. apply (started_forall (tunnelled q)); [|exact (ac_tunnels _ _ _ Hc Hv)]. intros p p' Hs _ (vx & E & H). exists vx.
    by rewrite (proj1 (proj2 (proj2 (proj2 (static_ranges _ _ Hs))))).
  - intros i p' E. destruct (same_ports_lookup _ _ _ _ Hps E) as (p & Ep & Hs & _). destruct (static_ranges _ _ Hs) as (S1 & S2 & S3 & _).
    destruct (ac_ranges _ _ _ Hc i p Ep) as (R1 & R2 & R3). unfold ranged. rewrite S1, S2, S3. by split_and!.
  - exact (ac_clients _ _ _ Hc).
  - exact (ac_servers _ _ _ Hc).
  - exact (ac_unique _ _ _ Hc).
  - exact (ac_listen _ _ _ Hc).
  - exact (ac_lport _ _ _ Hc).
  - exact (ac_mss _ _ _ Hc).
  - exact (ac_protocol _ _ _ Hc).
  - destruct (ac_flow _ _ _ Hc) as [H|[H|[H1 H2]]]; [left|right; left|right; right].
    + unfold c_port_num in *. rsimpl. by rewrite Hl.
    + exact H.
    + split; [exact H1|]. apply (started_forall (fun p => np_queue_num p = num (np_server_ip_range p))); [|exact H2].
      intros p p' Hs _ E. destruct (static_ranges _ _ Hs) as (_ & S2 & _ & _ & S5). by rewrite S2, S5.
  - exact (ac_dip _ _ _ Hc).
  - exact (ac_texts _ _ _ Hc).
  - exact (ac_payload _ _ _ Hc).
  - exact (ac_load _ _ _ Hc).
  - exact (ac_timeout _ _ _ Hc).
  - exact (ac_cpus _ _ _ Hc).
  - exact (ac_paced _ _ _ Hc).
Qed.
End Started.

Lemma accepted_set_tsc q texts c hz : accepted q texts c -> accepted q texts (config_set_tsc c hz).
Proof using Type.
  unfold config_set_tsc. cbv zeta. match goal with |- context [if ?b then ?x else ?y] => set (k := if b then x else y) end. set (r := u64 (hz * _)). clearbody k r. intros []. by split.
Qed.

(** ** The kernel interface *)

(** The fields of the kernel interface say nothing about the device. *)
Lemma started_kni q log p p' : np_id p' = np_id p -> np_queue_num p' = np_queue_num p -> np_mbuf_pool p' = np_mbuf_pool p ->
  np_local_mac p' = np_local_mac p -> np_bond p' = np_bond p -> np_pci_num p' = np_pci_num p -> (port_ok p -> port_ok p') ->
  started q log p -> started q log p'.
Proof using Type.
  intros E1 E2 E3 E4 E5 E6 Hok (l1 & l2 & E & ((P & Hq) & (k1 & k2 & conf & r & Ek & Hr & Hk) & Hpools) & Hmac & Hb).
  assert (dev_id p' = dev_id p) as Ed by (unfold dev_id; by rewrite E1). exists l1, l2. unfold prepared, queued, configured, pools_ready.
  rewrite E2, E3, E4, E5, E6, Ed. split; [done|]. split; [|by split]. split; [split; [auto|done]|]. split; [|done].
  exists k1, k2, conf, r. split; [done|]. split; [done|]. intros k Hkr. destruct (Hk k Hkr). by split; rewrite ?E3, Ed.
Qed.

Lemma run_port_set_bind i g {B} (f : unit -> DM B) Q s : at_run_time g ->
  (forall s', d_log s' = d_log s -> c_ports (d_cfg s') = alter g i (c_ports (d_cfg s)) -> run brought (f tt) Q s') ->
  run brought (port_mod i g ≫= f) Q s.
Proof using Type.
  intros Hg Hf. apply run_modify_bind; [done| |by apply Hf]. apply (moves_brought i). split; [done|]. by exists g.
Qed.

(** Calls that may end the process. *)
Lemma run_vdev port pool s : run silent (configure_vdev port pool) (fun _ _ => True) s.
Proof using Type.
  unfold configure_vdev.
  repeat first [apply run_ret; done
    | apply run_call_bind; [done|done|]; intros ? ? _ _ _; cbv beta
    | match goal with |- run _ (if ?b then _ else _) _ _ => destruct b end].
Qed.
Lemma run_kni_alloc i p s : port_ok p -> run silent (kni_alloc i p) (fun _ _ => True) s.
Proof using Type.
  intros Hp. unfold kni_alloc. apply run_dev_cfg_bind. cbv zeta. apply run_call_bind; [done|done|]. intros r1 s1 _ _ _.
  destruct (r1 <? 0); [by apply run_ret|]. apply run_gets_bind, run_call_bind; [done|done|]. intros r2 s2 _ _ _.
  destruct (negb _); [apply run_call_bind; [done|done|]; intros; by apply run_ret|].
  destruct (aget_some (np_mbuf_pool p) 0) as [mp E]; [rewrite (po_pools _ Hp); lia|]. eapply run_lift_bind; [exact E|].
  eapply run_bind; [done|apply run_vdev|]. intros. by apply run_ret.
Qed.

Definition all_started (q : Z) (s : machine) : Prop := Forall (started q (d_log s)) (c_ports (d_cfg s)).
Lemma all_started_grows q s s' : suffix (d_log s) (d_log s') -> c_ports (d_cfg s') = c_ports (d_cfg s) -> all_started q s -> all_started q s'.
Proof using Type. unfold all_started. intros H -> Hs. eapply list.Forall_impl; [exact Hs|]. intros p. by apply started_grows. Qed.
Lemma all_started_silent q s s' : silent s s' -> all_started q s -> all_started q s'.
Proof using Type. intros [H1 H2]. apply all_started_grows; [done|by rewrite H2]. Qed.

(** An update of a port that its start does not depend on. *)
Lemma all_started_set q i g s s' : (forall p log, started q log p -> started q log (g p)) -> d_log s' = d_log s ->
  c_ports (d_cfg s') = alter g i (c_ports (d_cfg s)) -> all_started q s -> all_started q s'.
Proof using Type. intros Hg El Ec H. unfold all_started. rewrite El, Ec. apply Forall_alter; [exact H|]. intros p _. apply Hg. Qed.

Lemma run_kni_create q l s : all_started q s -> Forall (fun i => i < length (c_ports (d_cfg s)))%nat l ->
  run brought (kni_create l) (fun _ s' => all_started q s') s.
Proof using Type.
  revert s. induction l as [|i l IH]; intros s Hs Hl; cbn [kni_create]; [by apply run_ret|]. apply List.Forall_cons_iff in Hl as [Hi Hl].
  destruct (lookup_lt_is_Some_2 (c_ports (d_cfg s)) i Hi) as [p Hp]. apply (run_port_get_bind _ i p); [done|].
  pose proof (Forall_lookup_1 _ _ _ _ Hs Hp) as (_ & _ & _ & ((Hok & _) & _) & _).
  apply (run_bind _ _ _ (fun _ s' => silent s s')).
  { eapply run_weaken; [apply silent_brought|]. eapply run_mono; [by apply run_kni_alloc|]. done. }
  intros [id|] s1 _ H1; apply (all_started_silent q _ _ H1) in Hs; [|by apply run_ret]. destruct H1 as [_ C1].
  destruct (id =? 0); [by apply run_ret|].
  set (g1 := fun p => p <| np_virtio_user_id := id |>). apply (run_port_set_bind i g1); [intros x; split; [done|]; intros []; by split|].
  intros s2 L2 C2. eapply (all_started_set q i g1 _ s2) in Hs; [|intros x log; apply started_kni; try done; intros []; by split|done|done].
  apply run_call_bind; [done|exact silent_brought|]. intros so s3 _ L3 C3. apply run_call_bind; [done|exact silent_brought|]. intros ring s4 _ L4 C4.
  apply (all_started_grows q s2 s4) in Hs; [|rewrite L4, L3; by do 2 apply suffix_cons_r|by rewrite C4, C3].
  set (g2 := fun p => p <| np_kni_mbuf_queue := negb (ring =? 0) |>). apply (run_port_set_bind i g2); [intros x; split; [done|]; intros []; by split|].
  intros s5 L5 C5. eapply (all_started_set q i g2 _ s5) in Hs; [|intros x log; apply started_kni; try done; intros []; by split|done|done].
  destruct (ring =? 0); [by apply run_ret|]. apply IH; [done|]. by rewrite C5, C4, C3, C2, C1, !length_alter.
Qed.

Lemma run_kni_start q s : all_started q s -> run brought kni_start (fun _ s' => all_started q s') s.
Proof using Type.
  intros Hs. unfold kni_start. apply run_dev_cfg_bind. destruct (negb _); [by apply run_ret|]. apply run_kni_create; [done|].
  apply list.Forall_forall. intros i [_ Hi]%elem_of_seq. exact Hi.
Qed.

(** ** Flow director *)

Lemma range_get2_any r k : range_wf r -> is_Some (ip_range_get2 r k).
Proof using Type.
  intros H. pose proof (wf_num _ H). unfold ip_range_get2, ip_range_get. destruct (Z.eqb_spec (num r) 0); [lia|].
  pose proof (wrap_range 8 (k mod num r) ltac:(lia)) as Hr. unfold in_u in Hr. change (2 ^ 8) with 256 in Hr.
  destruct (aget_some (list_ r) (u8 (k mod num r))) as [x ->]; [rewrite (wf_list_len _ H); lia|]. by eexists.
Qed.
Lemma answers_flow_new id q src dst v6 s : answers silent (flow_new id q src dst v6) (fun _ => True) s.
Proof using Type.
  unfold flow_new, flow_create. apply run_call_bind; [done|done|]. intros r s1 _ _ _. destruct (r <? 0); [by apply answers_fail|].
  apply run_call_bind; [done|done|]. intros f s2 _ _ _. destruct (f =? 0); [by apply answers_fail|by apply answers_ok].
Qed.
Lemma answers_queues n k new s : (forall k s, answers silent (new k) (fun _ => True) s) -> answers silent (flow_queues n k new) (fun _ => True) s.
Proof using Type.
  intros H. revert k s. induction n as [|n IH]; intros k s; cbn [flow_queues]; [by apply answers_ok|].
  eapply answers_then; [done|apply H|]. intros s1 _ _. apply IH.
Qed.
Lemma answers_flow_init q texts s : accepted q texts (d_cfg s) -> answers silent flow_init (fun _ => True) s.
Proof using Type.
  intros Hc. unfold flow_init. apply run_dev_cfg_bind. cbv [id]. destruct (c_flood _); [by apply answers_ok|].
  unfold config_for_each_port. apply run_dev_cfg_bind. cbv [id]. set (c := d_cfg s) in *.
  assert (forall l s0, d_cfg s0 = c -> Forall (fun i => i < length (c_ports c))%nat l -> answers silent (for_ports (fun i =>
    port ← port_get i;
    if np_queue_num port =? 1 then mret 0
    else if c_vxlan c then flow_init_vxlan port else flow_init_port port (c_server c) (c_af c =? AF_INET6)) l) (fun _ => True) s0) as H.
  { intros l. induction l as [|i l IH]; intros s0 Es Hl; cbn [for_ports]; [by apply answers_ok|].
    apply List.Forall_cons_iff in Hl as [Hi Hl]. destruct (lookup_lt_is_Some_2 (c_ports c) i Hi) as [p Hp].
    apply (answers_then _ _ (fun _ => True)); [|intros s' [_ E] _; apply IH; [congruence|done]].
    apply (run_port_get_bind _ i p); [by rewrite Es|]. destruct (_ =? 1); [by apply answers_ok|].
    destruct (c_vxlan c) eqn:Hv.
    - destruct (Forall_lookup_1 _ _ _ _ (ac_tunnels _ _ _ Hc Hv) Hp) as (vx & Evx & [_ _ [[W _] _]] & _). unfold flow_init_vxlan.
      eapply run_lift_bind; [exact Evx|]. apply run_call_bind; [done|done|]. intros _ s1 _ _ _. apply answers_queues. intros k s2.
      destruct (range_get2_any (vx_vtep_local vx) (u8 k) W) as [a Ea]. eapply run_lift_bind; [exact Ea|]. apply answers_flow_new.
    - destruct (port_servers _ _ _ Hc _ _ Hp) as [[W _] _]. unfold flow_init_port.
      apply run_call_bind; [done|done|]. intros _ s1 _ _ _. apply answers_queues. intros k s2.
      destruct (range_get2_any (np_server_ip_range p) (u8 k) W) as [a Ea]. eapply run_lift_bind; [exact Ea|]. destruct (c_server c); apply answers_flow_new. }
  apply H; [done|]. apply list.Forall_forall. intros i [_ Hi]%elem_of_seq. exact Hi.
Qed.

(** ** The whole *)

(** A machine whose ports are started, and whose clock is measured. *)
Definition ready (q : Z) (hz : Z) (c : config) (s : machine) : Prop := exists ps,
  d_cfg s = config_set_tsc (c <| c_ports := ps |>) hz /\ same_ports (c_ports c) ps /\ all_started q s
  /\ d_tick s = tick_init (c_ticks_per_sec c) hz.

Context {L : CardLaws C}.

Lemma run_dpdk_init getpid hz argv0 q texts s : accepted q texts (d_cfg s) ->
  wp (dpdk_init getpid hz argv0) (fun r s' => match r with
    | None => True
    | Some r => r = -1 \/ (r = 0 /\ ready q hz (d_cfg s) s')
    end) s.
Proof using L.
  intros Hc. set (c := d_cfg s) in *. unfold dpdk_init.
  destruct (ac_queues _ _ _ Hc) as [Hq Hn]. destruct (ac_ports_num _ _ _ Hc) as [[Hp1 Hp2] Hcpu]. unfold THREAD_NUM_MAX, NETIF_PORT_MAX in *.
  assert (0 <= q <= 64) as Hq64 by nia.
  apply wp_bind. eapply wp_mono; [exact (run_eal_init getpid argv0 q texts s Hc)|]. intros r s1 [[_ C1] _]. fold c in C1.
  destruct (r <? 0); [apply wp_ret; by left|]. apply wp_bind. unfold wp at 1, call. cbv beta iota zeta. set (s2 := _ <| d_log ::= _ |>).
  assert (d_cfg s2 = c) as C2 by exact C1. clearbody s2. clear s1 C1.
  apply wp_bind. eapply wp_mono; [apply (answers_port_init_all q s2); [rewrite C2; exact (ac_ports _ _ _ Hc)|done]|].
  intros r2 s3 [[_ (ps3 & C3 & F3)] [Hr2 Hprep]]. rewrite C2 in C3, F3. destruct (Z.ltb_spec r2 0); [apply wp_ret; by left|]. specialize (Hprep ltac:(lia)).
  apply wp_bind. eapply wp_mono; [apply (answers_each_port (prepared q) (started q)); [apply prepared_grows|apply started_grows| |exact Hprep]|].
  { intros i s' p. apply answers_port_start. }
  intros r3 s4 [[_ (ps4 & C4 & F4)] [Hr3 Hst]]. rewrite C3 in C4, F4. destruct (Z.ltb_spec r3 0); [apply wp_ret; by left|]. specialize (Hst ltac:(lia)).
  apply wp_bind. eapply wp_mono; [apply (run_kni_start q s4); exact Hst|]. intros [r4|] s5 [[_ (ps5 & C5 & F5)] Hst5]; [|by apply wp_ret].
  rewrite C4 in C5, F5. destruct (r4 <? 0); [apply wp_ret; by left|].
  assert (d_cfg s5 = c <| c_ports := ps5 |>) as Ec by exact C5.
  assert (same_ports (c_ports c) ps5) as Hsame.
  { change (c_ports _) with ps3 in F4. change (c_ports _) with ps4 in F5. clear - F3 F4 F5.
    assert (forall a b d, same_ports a b -> same_ports b d -> same_ports a d) as Htrans.
    { intros a b d H1 H2. eapply Forall2_trans; [|exact H1|exact H2]. cbv beta. intros x y z [X1 X2] [Y1 Y2]. split; [by etrans|auto]. }
    eauto. }
  apply wp_bind. unfold wp at 1, dev_cfg, st_gets. cbv [id]. apply wp_bind.
  apply wp_mono with (Q := fun r s' => silent s5 s' /\ (r = 0 \/ r = -1)).
  { destruct (_ =? FLOW_FDIR); [|apply wp_ret; split; [done|by left]]. eapply wp_mono; [apply (answers_flow_init q texts); rewrite Ec; by apply accepted_started|].
    intros r5 s6 [H5 [H6 _]]. done. }
  intros r5 s6 [H6 Hr5]. destruct (r5 <? 0) eqn:Hneg; [apply wp_ret; by left|].
  apply wp_bind, wp_modify, wp_bind, wp_modify, wp_ret. right. split; [done|]. exists ps5. rsimpl. destruct H6 as [L6 C6].
  split; [by rewrite C6, Ec|]. split; [done|]. split; [|by rewrite Ec].
  unfold all_started in *. rsimpl. rewrite C6. eapply list.Forall_impl; [exact Hst5|]. intros p. by apply started_grows.
Qed.
End Eal.

Lemma accepted_machine `{Card} q texts c : accepted q texts c -> accepted q texts (d_cfg (machine_init c)).
Proof. done. Qed.

Lemma eal_init_args_witness :
  match dpdk_eal_init 1 (chars "dperf") (machine_init pair_config) with
  | Ok (r, s') => eal_called 1 (chars "dperf") (machine_init pair_config) r s'
  | Err _ => False
  end.
Proof.
  pose proof (accepted_machine 2 pair_texts pair_config pair_accepted) as Ha.
  pose proof (eal_init_args 1 (chars "dperf") 2 pair_texts (machine_init pair_config) Ha) as H. exact H.
Defined.
