(* ===== verification/Program.v ===== *)
(** * Program: from the command line to the running workers

    The composition of the parser (file ConfigCheck), the start-up (file Eal)
    and the workers (files Init and Loop): when the parser accepts, the start-up
    does nothing undefined, and when the start-up succeeds, every worker does. *)

From S2P Require Import Prelude Double SocketNode IpRange Tick Config Mbuf NetStats World WorkSpace Socket Payload ConfigNumber ConfigKeyword.
From S2P Require Import ConfigParse ConfigCheck Loop Init Env SocketInv LoopInv LoopProps InitInv StartUp ConfigInv ConfigAccept ConfigProps.
From S2P Require Import Card Port Flow Eal PortInv Demo EalProps.

Section Program.
Context {C : Card} {LC : CardLaws C} {D : Dpdk} {room : Z} {L : DpdkLaws D room}.

(** The world of a worker after the start-up that ended in [m]: configuration,
    clock and offload flags are those of the process. *)
Record worker_world (m : machine) (alloc : Z -> option N) (port : netif_port) (base : N) (i : Z) (w : world) : Prop := {
  wd_cfg : w_cfg w = d_cfg m;
  wd_tick : w_tick w = d_tick m;
  wd_cksum : w_offload_ipv4_cksum w = d_ipv4_cksum m /\ w_offload_tcpudp_cksum w = d_tcpudp_cksum m;
  wd_process : process_ok alloc (connections (d_cfg m) port) base i w;
}.

(** What worker [i] on queue [queue] of [port] needs of the machine: memory for
    its connections and its text, pools for its templates, well-formed packets;
    and of the configuration: no receive-side scaling and timers that end. *)
Record worker_ready (m : machine) (texts : list (list Z)) (create : string -> Z -> Z -> bool) (port : netif_port) (queue i : Z) : Prop := {
  wr_flow : c_flow (d_cfg m) ≠ FLOW_RSS;
  wr_fits : connections (d_cfg m) port < 2 ^ 32;
  wr_text : text_fits_room (d_cfg m) room (worker_text texts i);
  wr_pools : forall name, create name (np_id port) queue = true;
  wr_wire : forall ws, (ws_vxlan ws, ws_ipv6 ws) = (c_vxlan (d_cfg m), c_af (d_cfg m) =? AF_INET6) -> wire ws;
  wr_timers : timers_end (d_cfg m, c_flood (d_cfg m), (c_vxlan (d_cfg m), c_af (d_cfg m) =? AF_INET6));
}.

(** The worker starts, or ends because the gateway is not known, and then runs
    any number of iterations. *)
Definition worker_runs (m : machine) (texts : list (list Z)) (create : string -> Z -> Z -> bool) (i : Z) (w : world) (alloc : Z -> option N) : Prop :=
  forall null rand_r, exists up w1 body,
    lcore_start alloc null create rand_r (http_request_array (d_cfg m) texts) (http_response_array (d_cfg m) texts)
      (datagram_array (d_cfg m) texts) i w = Ok (up, w1)
    /\ (up = true -> ws_start (w_ws w1) = true) /\ init_run_loop (w_cfg w1) (w_ws w1) = Some body
    /\ forall n, exists r w2, run_iterations n body 0 w1 = Ok (r, w2).

Lemma ready_runs q hz c texts m : accepted q texts c -> ready q hz c m -> forall i, 0 <= i < c_cpu_num c ->
  exists port queue, config_port_get (d_cfg m) i = Some (port, queue) /\ port ∈ c_ports (d_cfg m)
    /\ forall alloc create base w, LOOP_ROOM <= room -> worker_world m alloc port base i w -> worker_ready m texts create port queue i ->
         worker_runs m texts create i w alloc.
Proof using L.
  intros Hc (ps & Ecfg & Hps & _ & _) i Hi. assert (accepted q texts (d_cfg m)) as Ha by (rewrite Ecfg; by apply accepted_set_tsc, accepted_started).
  assert (c_cpu_num (d_cfg m) = c_cpu_num c) as En by by rewrite Ecfg.
  destruct (ac_queues _ _ _ Ha) as [Hq Hn]. destruct (ConfigAccept.port_get q (d_cfg m) i Hq Hn ltac:(lia)) as (port & Ep & El).
  exists port, (i mod q). split; [exact Ep|]. split; [by eapply list_elem_of_lookup_2|]. intros alloc create base w Hroom [W1 W2 W3 W4] [R1 R2 R3 R4 R5 R6].
  destruct (accepted_seat q texts (d_cfg m) Ha alloc room w i port base W1 ltac:(lia) R1 Ep R2 W4 R3) as (seat & Hs & S1 & S2 & S3 & S4).
  intros null rand_r. rewrite <- W1 in R5, R6.
  destruct (worker_life alloc null create rand_r _ _ _ i w seat Hroom Hs) as (up & w1 & E & _ & Hst & body & Hb & Hrun); [by rewrite S1, S2|exact R5|exact R6|].
  exists up, w1, body. split; [exact E|]. split; [exact Hst|]. split; [exact Hb|]. intros n. destruct (Hrun n) as (r & w2 & q2 & E2 & _). by exists r, w2.
Qed.

End Program.

(** ** Example: the pair of workers of file Demo *)

Definition pair_start : result (option Z * machine) := main_init 1 20000 0 0 (chars "dperf") (machine_init pair_config).
Definition pair_machine : machine := match pair_start with Ok (_, m) => m | Err _ => machine_init pair_config end.
Lemma pair_started : main_init 1 20000 0 0 (chars "dperf") (machine_init pair_config) = Ok (Some 0, pair_machine).
Proof. vm_compute. reflexivity. Qed.
Definition pair_world : world := World.Demo.demo_world
  <| w_cfg := d_cfg pair_machine |> <| w_tick := d_tick pair_machine |> <| w_peers := [None; None] |> <| w_sockets := ∅ |>
  <| w_offload_ipv4_cksum := d_ipv4_cksum pair_machine |> <| w_offload_tcpudp_cksum := d_tcpudp_cksum pair_machine |>.

Lemma pair_parsed : config_parse demo_pton4 (fun _ => None) (fun _ => Some pair_file) (fun _ => 0) true true [Opt_conf []] g_config_init
  = Ok (Parsed 0 pair_texts, pair_config).
Proof. vm_compute. reflexivity. Qed.

Lemma pair_process port : connections (d_cfg pair_machine) port = 20 -> process_ok (D := Mbuf.Demo.dpdk) (fun _ => Some 0%N) 20 0 0 pair_world.
Proof.
  intros _. split.
  - by vm_compute.
  - reflexivity.
  - intros []; vm_compute; by eexists.
  - reflexivity.
  - apply Forall_cons; [discriminate|]. apply Forall_cons; [discriminate|]. apply List.Forall_nil.
  - reflexivity.
  - by vm_compute.
  - intros h. rewrite !demo_rdtsc. change (g_tsc_per_second (w_tick pair_world)) with 20000. cbn [length]. lia.
Qed.

