(* ===== verification/PortProps.v ===== *)
(** * PortProps: memory pools on failure, and the offload flags *)

From S2P Require Import Prelude IpRange Config Payload ConfigNumber ConfigKeyword ConfigParse ConfigCheck ConfigInv ConfigAccept ConfigProps.
From S2P Require Import Card Port PortInv Demo.

(** ** Memory pools *)

(** C37: [port_init_mbuf_pool] answers 0 with a pool for every queue, or -1 after
    it has given back every pool that it created. *)
Theorem port_init_mbuf_pool_frees `{Card} i s p : c_ports (d_cfg s) !! i = Some p -> port_ok p -> 0 <= np_queue_num p <= THREAD_NUM_MAX ->
  match port_init_mbuf_pool i s with
  | Ok (r, s') => exists l, d_log s' = l ++ d_log s /\
      ((r = 0 /\ exists p', c_ports (d_cfg s') !! i = Some p' /\ pools_ready p' (Z.to_nat (np_queue_num p)))
       \/ (r = -1 /\ forall mp, created l mp -> freed l mp))
  | Err _ => False
  end.
Proof.
  intros Hp Hok Hq. unfold THREAD_NUM_MAX in Hq.
  assert (run (moves i) (port_init_mbuf_pool i) (fun r s' => (r = 0 \/ r = -1) /\ exists l, d_log s' = l ++ d_log s
    /\ (r = 0 -> exists p', c_ports (d_cfg s') !! i = Some p' /\ pools_ready p' (0 + Z.to_nat (np_queue_num p)))
    /\ (r = -1 -> forall mp, (exists k, (k < 0)%nat /\ np_mbuf_pool p !! k = Some mp) \/ created l mp -> freed l mp)) s) as Hrun.
  { unfold port_init_mbuf_pool. apply (run_port_get_bind _ i p); [done|].
    apply (run_pools_new _ 0 i s p Hp); [rewrite (po_pools _ Hok); lia|intros k Hk; lia]. }
  unfold run, wp in Hrun. destruct (port_init_mbuf_pool i s) as [[r s']|]; [|done]. destruct Hrun as (_ & Hr & l & L & H0 & H1).
  exists l. split; [exact L|]. destruct Hr as [->| ->]; [left|right]; (split; [done|]); auto.
Qed.

(** A card without memory for a second pool. *)
Definition poor_card : Card := {|
  nic_ret h d := match d with Pool_create _ _ _ _ => if (3 <=? length h)%nat then 0 else 1 | _ => 0 end;
  nic_info _ _ := demo_info; nic_mac _ p := [2; 0; 0; 0; 0; p]; nic_port _ _ := 0; nic_name _ _ := []; nic_flags _ _ := 0;
  RTE_ETH_MQ_RX_NONE := 0; RTE_ETH_MQ_RX_RSS := 1; RTE_ETH_MQ_TX_NONE := 0;
  RTE_ETH_TX_OFFLOAD_VLAN_INSERT := 1; RTE_ETH_TX_OFFLOAD_IPV4_CKSUM := 2; RTE_ETH_TX_OFFLOAD_UDP_CKSUM := 4;
  RTE_ETH_TX_OFFLOAD_TCP_CKSUM := 8; RTE_ETH_RX_OFFLOAD_VLAN_STRIP := 1;
  RTE_ETH_RSS_NONFRAG_IPV4_TCP := 16; RTE_ETH_RSS_NONFRAG_IPV4_UDP := 32;
  RTE_ETH_RSS_NONFRAG_IPV6_TCP := 1024; RTE_ETH_RSS_NONFRAG_IPV6_UDP := 2048;
  RTE_RING_NAMESIZE := 29; RTE_MBUF_DEFAULT_BUF_SIZE := 2176;
|}.
Definition pair_port : netif_port := default netif_port_zero (c_ports pair_config !! 0%nat).
Lemma pair_port_at : c_ports pair_config !! 0%nat = Some pair_port.
Proof. vm_compute. reflexivity. Qed.

Lemma port_init_mbuf_pool_frees_witness :
  match port_init_mbuf_pool (C := poor_card) 0 (machine_init (H := poor_card) pair_config) with
  | Ok (r, s') => exists l, d_log s' = l ++ [] /\
      ((r = 0 /\ exists p', c_ports (d_cfg s') !! 0%nat = Some p' /\ pools_ready p' (Z.to_nat (np_queue_num pair_port)))
       \/ (r = -1 /\ forall mp, created l mp -> freed l mp))
  | Err _ => False
  end.
Proof.
  apply (port_init_mbuf_pool_frees (H := poor_card) 0 (machine_init (H := poor_card) pair_config) pair_port).
  - exact pair_port_at.
  - split; vm_compute; repeat split; discriminate.
  - vm_compute. split; discriminate.
Defined.
Example poor_pools_freed :
  match port_init_mbuf_pool (C := poor_card) 0 (machine_init (H := poor_card) pair_config) with
  | Ok (r, s') => (r, fst <$> d_log s') = (-1, [Pool_free 1; Pool_create (chars "mp_65535_1") 65536 2176 0; Socket_id 65535;
      Pool_create (chars "mp_65535_0") 65536 2176 0; Socket_id 65535])
  | Err _ => False
  end.
Proof. vm_compute. reflexivity. Qed.

(** ** The offload flags *)

Definition flags (s : machine) : Z * Z := (d_ipv4_cksum s, d_tcpudp_cksum s).
(** The capability of a card, as the flags state it. *)
Definition offloads `{Card} (info : rte_eth_dev_info) : Z * Z :=
  (b2z (has (di_tx_offload_capa info) RTE_ETH_TX_OFFLOAD_IPV4_CKSUM),
   b2z (has (di_tx_offload_capa info) RTE_ETH_TX_OFFLOAD_TCP_CKSUM && has (di_tx_offload_capa info) RTE_ETH_TX_OFFLOAD_UDP_CKSUM)).

Section Flags.
Context {C : Card}.

(** Operations that leave the flags alone. *)
Definition flagless {A} (m : DM A) : Prop := forall s a s', m s = Ok (a, s') -> flags s' = flags s.
Lemma flagless_ret {A} (a : A) : flagless (mret a).
Proof using Type. by intros s ? ? [= _ <-]. Qed.
Lemma flagless_bind {A B} (m : DM A) (f : A -> DM B) : flagless m -> (forall a, flagless (f a)) -> flagless (m ≫= f).
Proof using Type.
  intros Hm Hf s b s'. unfold mbind, ST_bind. destruct (m s) as [[a s1]|] eqn:E; [|done]. intros E'. rewrite (Hf _ _ _ _ E'). by eapply Hm.
Qed.
Lemma flagless_call d : flagless (call d).
Proof using Type. by intros s r s' [= _ <-]. Qed.
Lemma flagless_lift {A} e (o : option A) : flagless (st_lift e o).
Proof using Type. intros s a s'. unfold st_lift. destruct o; [|done]. by intros [= _ <-]. Qed.
Lemma flagless_gets {A} (f : machine -> A) : flagless (st_gets f).
Proof using Type. by intros s a s' [= _ <-]. Qed.
Lemma flagless_conf f : flagless (conf_mod f).
Proof using Type. by intros s a s' [= _ <-]. Qed.
Ltac flagless :=
  repeat first [apply flagless_ret | apply flagless_call | apply flagless_lift | apply flagless_gets | apply flagless_conf
    | apply flagless_bind; [|intros ?] | match goal with |- flagless (if ?b then _ else _) => destruct b end].

Lemma flagless_queues n k p rx tx : flagless (port_init_queues n k p rx tx).
Proof using Type.
  revert k. induction n as [|n IH]; intros k; cbn [port_init_queues]; [apply flagless_ret|].
  unfold port_init_rx, port_init_tx. flagless. apply IH.
Qed.

Lemma cksum_flags info s s' : port_config_cksum info s = Ok (tt, s') -> flags s' = offloads info.
Proof using Type.
  unfold port_config_cksum, offloads, flags, mbind, ST_bind, conf_mod, st_modify.
  destruct (has _ RTE_ETH_TX_OFFLOAD_IPV4_CKSUM), (has _ RTE_ETH_TX_OFFLOAD_TCP_CKSUM), (has _ RTE_ETH_TX_OFFLOAD_UDP_CKSUM); cbn; by intros [= <-].
Qed.

(** Operations that leave the flags at [v] when they answer 0. *)
Definition sets (v : Z * Z) (m : DM Z) : Prop := forall s s', m s = Ok (0, s') -> flags s' = v.
Lemma sets_bind {A} v (m : DM A) f : (forall a, sets v (f a)) -> sets v (m ≫= f).
Proof using Type. intros Hf s s'. unfold mbind, ST_bind. destruct (m s) as [[a s1]|]; [|done]. apply Hf. Qed.
Lemma sets_refuse v : sets v (mret (-1)).
Proof using Type. by intros s s' [=]. Qed.
Lemma sets_cksum info m : flagless m -> sets (offloads info) (port_config_cksum info;; m).
Proof using Type.
  intros Hm s s'. unfold mbind, ST_bind. destruct (port_config_cksum info s) as [[[] s1]|] eqn:E; [|done]. intros E'.
  rewrite (Hm _ _ _ E'). by eapply cksum_flags.
Qed.

(** After the configuration of a port the flags are what this port can do,
    whatever the ports before it can. *)
Lemma port_config_flags p s s' : port_config p s = Ok (0, s') -> flags s' = offloads (nic_info (d_log s) (dev_id p)).
Proof using Type.
  unfold port_config. unfold mbind at 1, ST_bind at 1. fold (dev_id p). change (asking (fun h => nic_info h (dev_id p)) s) with
    (Ok (nic_info (d_log s) (dev_id p), s) : result (rte_eth_dev_info * machine)). cbv beta iota.
  set (info := nic_info _ _). clearbody info. revert s s'. apply sets_bind. intros r1. destruct (r1 <? 0); [apply sets_refuse|]. cbv zeta.
  set (rx := if _ <? NB_RXD then _ else _). set (tx := if _ <? NB_TXD then _ else _). clearbody rx tx.
  apply sets_bind. intros c. apply sets_bind. intros _. apply sets_bind. intros r2. destruct (r2 <? 0); [apply sets_refuse|].
  apply sets_bind. intros _. apply sets_cksum. unfold rss_config_port, port_dev_configure. flagless. apply flagless_queues.
Qed.
End Flags.

(** Two ports, of which only the second card computes checksums. *)
Definition ports_file : list Z := mjoin ((fun s => chars s ++ [10]) <$>
  ["mode client"%string; "cpu 0 1"%string; "port 0000:01:00.0 1 2"%string; "port 0000:02:00.0 7 8"%string; "client 3 1"%string;
   "client 4 1"%string; "server 5 1"%string; "server 6 1"%string; "listen 80 1"%string; "cps 2"%string; "client_port_range 1 10"%string]).
Definition mixed_card : Card := {|
  nic_ret h d := match d with Dev_count => 2 | _ => nic_ret (Card := demo_card) h d end;
  nic_info _ port := if port =? 0 then DevInfo 0 1 16 16 4096 4096 0 else demo_info;
  nic_mac _ p := [2; 0; 0; 0; 0; p]; nic_port := nic_port (Card := demo_card); nic_name _ _ := []; nic_flags _ _ := 0;
  RTE_ETH_MQ_RX_NONE := 0; RTE_ETH_MQ_RX_RSS := 1; RTE_ETH_MQ_TX_NONE := 0;
  RTE_ETH_TX_OFFLOAD_VLAN_INSERT := 1; RTE_ETH_TX_OFFLOAD_IPV4_CKSUM := 2; RTE_ETH_TX_OFFLOAD_UDP_CKSUM := 4;
  RTE_ETH_TX_OFFLOAD_TCP_CKSUM := 8; RTE_ETH_RX_OFFLOAD_VLAN_STRIP := 1;
  RTE_ETH_RSS_NONFRAG_IPV4_TCP := 16; RTE_ETH_RSS_NONFRAG_IPV4_UDP := 32;
  RTE_ETH_RSS_NONFRAG_IPV6_TCP := 1024; RTE_ETH_RSS_NONFRAG_IPV6_UDP := 2048;
  RTE_RING_NAMESIZE := 29; RTE_MBUF_DEFAULT_BUF_SIZE := 2176;
|}.

(** C38: the two offload flags, which all workers read, are set by every port in
    turn: after [port_config] they are what that port's card can do. With two
    ports of different cards the workers of the first are told to leave
    checksums to a card that was configured without that offload. *)
Theorem offload_flags_of_last_port :
  (forall (C : Card) p s s', port_config p s = Ok (0, s') -> flags s' = offloads (nic_info (d_log s) (dev_id p)))
  /\ match config_parse demo_pton4 (fun _ => None) (fun _ => Some ports_file) (fun _ => 0) true true [Opt_conf []] g_config_init with
     | Ok (Parsed 0 _, c) => match port_init_all (C := mixed_card) (machine_init (H := mixed_card) c) with
         | Ok (0, s) => flags s = (1, 1) /\ option_map np_id (c_ports (d_cfg s) !! 0%nat) = Some 0
             /\ offloads (H := mixed_card) (nic_info (Card := mixed_card) (d_log s) 0) = (0, 0)
             /\ exists conf, (Dev_configure 0 1 1 conf, 0) ∈ d_log s /\ ec_tx_offloads conf = 0
         | _ => False
         end
     | _ => False
     end.
Proof.
  split; [intros C; exact port_config_flags|]. vm_compute. split; [reflexivity|]. split; [reflexivity|]. split; [reflexivity|].
  eexists. split; [repeat first [apply list_elem_of_here | apply list_elem_of_further]|reflexivity].
Qed.
