(* ===== verification/Ctl.v ===== *)
(** * Ctl: the control thread

    [src/ctl.c] and [work_space_wait_start] of [src/work_space.c]: the thread
    that starts the load slowly, reports once a second and ends the workers
    after [duration] seconds or at a SIGINT.  The workers run beside it: what
    they do to their own state while the thread waits is a parameter, and so is
    the flag that the signal handler sets. *)

From S2P Require Import Prelude Tick Config World WorkSpace ConfigNumber.

Definition DELAY_SEC : nat := 4.

(** What the thread does, in order. *)
Inductive ctl_event :=
  | Ctl_link_up
  | Ctl_wait
  | Ctl_clear
  | Ctl_speed (seconds : Z)
  | Ctl_total
  | Ctl_interval (launch_interval : Z)
  | Ctl_stop
  | Ctl_exit.

Record ctl := Ctl {
  k_cfg : config;
  k_tick : tick_globals;
  k_all : list (option work_space);
  k_seconds : Z;
  k_log : list ctl_event;
}.
#[export] Instance eta_ctl : Eta ctl := fun k =>
  Ctl (k_cfg k) (k_tick k) (k_all k) (k_seconds k) (k_log k).

Abbreviation KM := (ST ctl).

(** [work_space_wait_start] looks at the workers in turn and begins again at
    the first that has not started; the readings that it makes are given, and
    [None] is a thread that still waits. *)
Fixpoint work_space_wait_start (total num : nat) (readings : list bool) : option (list bool) :=
  if (num =? total)%nat then Some readings
  else match readings with
       | [] => None
       | started :: readings => work_space_wait_start total (if started then S num else 0) readings
       end.

Section Ctl.
(** The flag of the signal handler and the workers, after the given events. *)
Context (g_stop : list ctl_event -> bool).
Context (others : list ctl_event -> list (option work_space) -> list (option work_space)).

Definition ctl_event_log (e : ctl_event) : KM unit := st_modify (fun k => k <| k_log ::= cons e |>).
Definition ctl_stopped : KM bool := st_gets (fun k => g_stop (k_log k)).

Definition ctl_log_open (cfg : config) (fopen : bool) : bool := c_daemon cfg && fopen.

Definition ctl_wait_1s : KM unit :=
  ctl_event_log Ctl_wait;;
  st_modify (fun k => k <| k_all := others (k_log k) (k_all k) |>).

(** [fp] is an open log file. *)
Definition ctl_clear_screen (fp : bool) : KM unit :=
  cfg ← st_gets k_cfg;
  if c_quiet cfg || negb (c_clear_screen cfg) then mret tt
  else st_when (negb fp) (ctl_event_log Ctl_clear).

Definition ctl_print_speed (fp : bool) : KM unit :=
  ctl_wait_1s;;
  ctl_clear_screen fp;;
  sec ← st_gets k_seconds;
  ctl_event_log (Ctl_speed sec);;
  st_modify (fun k => k <| k_seconds := sec + 1 |>).

Definition ctl_print_total (fp : bool) : KM unit :=
  ctl_wait_1s;; ctl_clear_screen fp;; ctl_event_log Ctl_total.

Definition ctl_set_launch_interval (launch_interval : Z) : KM unit :=
  st_modify (fun k => k <| k_all ::= work_space_set_launch_interval (k_tick k) launch_interval |>);;
  ctl_event_log (Ctl_interval launch_interval).

(** The connections per second that one second of slow start adds. *)
Definition slow_step (cfg : config) : option Z :=
  if (c_cpu_num cfg =? 0) || (c_slow_start cfg =? 0) then None
  else
    let step := u64 (Z.quot (Z.quot (c_cps cfg) (c_cpu_num cfg)) (c_slow_start cfg)) in
    Some (if step <=? 0 then 1 else step).

(** The seconds [i], [i + 1], ... of slow start, [n] of them. *)
Fixpoint slow_start_loop (n : nat) (i step : Z) (fp : bool) : KM unit :=
  match n with
  | O => mret tt
  | S n =>
      k ← st_get;
      let cps := u64 (step * i) in
      launch_interval ← st_lift DivByZero
        (if cps =? 0 then None else Some (u64 (g_tsc_per_second (k_tick k) * u64 (i32 (c_launch_num (k_cfg k)))) / cps));
      ctl_set_launch_interval launch_interval;;
      ctl_print_speed fp;;
      stop ← ctl_stopped;
      if (stop : bool) then mret tt else slow_start_loop n (i + 1) step fp
  end.
Definition ctl_slow_start (fp : bool) : KM unit :=
  cfg ← st_gets k_cfg;
  step ← st_lift DivByZero (slow_step cfg);
  slow_start_loop (Z.to_nat (c_slow_start cfg)) 1 step fp;;
  ctl_set_launch_interval 0.

(** [n] reports, or as many as come before the signal. *)
Fixpoint ctl_report (n : nat) (fp : bool) : KM unit :=
  match n with
  | O => mret tt
  | S n =>
      ctl_print_speed fp;;
      stop ← ctl_stopped;
      if (stop : bool) then mret tt else ctl_report n fp
  end.

(** The reports after the workers were told to stop. *)
Fixpoint ctl_delay (n : nat) (fp : bool) : KM unit :=
  match n with
  | O => mret tt
  | S n => ctl_print_speed fp;; ctl_delay n fp
  end.

(** [false] is a thread that still waits for the workers. *)
Definition ctl_thread_main (fopen : bool) (readings : list bool) : KM bool :=
  cfg ← st_gets k_cfg;
  let count := c_duration cfg in
  duration ← st_lift Overflow (int_ok (c_duration cfg + c_slow_start cfg));
  st_modify (fun k => k <| k_cfg ::= fun c => c <| c_duration := duration |> |>);;
  let fp := ctl_log_open cfg fopen in
  match work_space_wait_start (Z.to_nat (c_cpu_num cfg)) 0 readings with
  | None => mret false
  | Some _ =>
      ctl_event_log Ctl_link_up;;
      (if c_server cfg then mret tt else ctl_slow_start fp);;
      ctl_report (Z.to_nat count) fp;;
      st_modify (fun k => k <| k_all ::= work_space_stop_all |>);;
      ctl_event_log Ctl_stop;;
      ctl_delay DELAY_SEC fp;;
      st_modify (fun k => k <| k_all ::= work_space_exit_all |>);;
      ctl_event_log Ctl_exit;;
      ctl_print_total fp;;
      mret true
  end.
End Ctl.
