(* ===== verification/CtlProps.v ===== *)
(** * CtlProps: the control thread ends the workers *)

From S2P Require Import Prelude Tick Config World WorkSpace ConfigNumber ConfigParse ConfigInv ConfigAccept ConfigProps Demo Ctl.

(** ** Traces *)

(** Events of the load, before the workers are told to stop. *)
Definition loading (e : ctl_event) : Prop := e ≠ Ctl_stop /\ e ≠ Ctl_exit /\ e ≠ Ctl_total.
(** The seconds that pass. *)
Definition waits (l : list ctl_event) : nat := foldr (fun e n => (match e with Ctl_wait => 1 | _ => 0 end) + n)%nat 0%nat l.
(** The launch intervals that are set, in order. *)
Definition intervals (l : list ctl_event) : list Z :=
  omap (fun e => match e with Ctl_interval v => Some v | _ => None end) (reverse l).

Lemma waits_app l1 l2 : waits (l1 ++ l2) = (waits l1 + waits l2)%nat.
Proof. induction l1 as [|e l1 IH]; [done|]. cbn. fold (waits (l1 ++ l2)) (waits l1). lia. Qed.
Lemma intervals_app l1 l2 : intervals (l1 ++ l2) = intervals l2 ++ intervals l1.
Proof. unfold intervals. by rewrite reverse_app, omap_app. Qed.

(** All workers have the property. *)
Definition held (P : work_space -> Prop) (all : list (option work_space)) : Prop := forall ws, Some ws ∈ all -> P ws.

Section Ctl.
Context (g_stop : list ctl_event -> bool).
Context (others : list ctl_event -> list (option work_space) -> list (option work_space)).

Definition never : Prop := forall h, g_stop h = false.

(** [m] keeps configuration and clock, and adds events [l] with [Q l]. *)
Definition adds (m : KM unit) (Q : list ctl_event -> Prop) (k : ctl) : Prop :=
  wp m (fun _ k' => k_cfg k' = k_cfg k /\ k_tick k' = k_tick k /\ exists l, k_log k' = l ++ k_log k /\ Q l) k.

Lemma adds_nothing (Q : list ctl_event -> Prop) k : Q [] -> adds (mret tt) Q k.
Proof using Type. intros H. apply wp_ret. split_and!; [done..|]. by exists []. Qed.
Lemma adds_bind m f (P Q : list ctl_event -> Prop) k : adds m P k ->
  (forall l k', k_cfg k' = k_cfg k -> k_tick k' = k_tick k -> P l -> adds (f tt) (fun l' => Q (l' ++ l)) k') -> adds (m ≫= f) Q k.
Proof using Type.
  intros Hm Hf. apply wp_bind. eapply wp_mono; [exact Hm|]. intros [] k1 (C1 & T1 & l1 & L1 & H1).
  eapply wp_mono; [exact (Hf l1 k1 C1 T1 H1)|]. intros [] k2 (C2 & T2 & l2 & L2 & H2). split; [congruence|]. split; [congruence|].
  exists (l2 ++ l1). split; [by rewrite L2, L1, app_assoc|done].
Qed.
Lemma adds_gets {A} (g : ctl -> A) f Q k : adds (f (g k)) Q k -> adds (st_gets g ≫= f) Q k.
Proof using Type. done. Qed.
Lemma adds_mono m (P Q : list ctl_event -> Prop) k : adds m P k -> (forall l, P l -> Q l) -> adds m Q k.
Proof using Type. intros Hm H. eapply wp_mono; [exact Hm|]. intros [] k' (? & ? & l & ? & ?). split_and!; [done..|]. exists l. auto. Qed.
Lemma adds_event e (Q : list ctl_event -> Prop) k : Q [e] -> adds (ctl_event_log e) Q k.
Proof using Type. intros H. apply wp_modify. split_and!; [done..|]. by exists [e]. Qed.
Lemma adds_update f (Q : list ctl_event -> Prop) k : k_cfg (f k) = k_cfg k -> k_tick (f k) = k_tick k -> k_log (f k) = k_log k -> Q [] ->
  adds (st_modify f) Q k.
Proof using Type. intros H1 H2 H3 H. apply wp_modify. split_and!; [done..|]. by exists []. Qed.

(** A report: one second passes, nothing is launched faster or slower. *)
Definition reported (n : nat) (l : list ctl_event) : Prop := Forall loading l /\ waits l = n /\ intervals l = [].
Lemma reported_app n1 n2 l1 l2 : reported n1 l1 -> reported n2 l2 -> reported (n1 + n2) (l2 ++ l1).
Proof using Type.
  intros (F1 & W1 & I1) (F2 & W2 & I2). split; [by apply list.Forall_app|]. split; [rewrite waits_app; lia|]. by rewrite intervals_app, I1, I2.
Qed.
Lemma reported_nil : reported 0 [].
Proof using Type. by split. Qed.
Lemma reported_event e : loading e -> e ≠ Ctl_wait -> (forall v, e ≠ Ctl_interval v) -> reported 0 [e].
Proof using Type. intros H1 H2 H3. split; [by constructor|]. destruct e; try done. by destruct (H3 launch_interval). Qed.

(** An event of the load that takes no time and sets no interval. *)
Ltac plain := apply reported_event; [split_and!; discriminate|discriminate|discriminate].

Lemma adds_clear fp k : adds (ctl_clear_screen fp) (reported 0) k.
Proof using Type.
  unfold ctl_clear_screen. apply adds_gets. destruct (_ || _); [apply adds_nothing, reported_nil|]. unfold st_when.
  destruct (negb fp); [|apply adds_nothing, reported_nil]. apply adds_event. plain.
Qed.
Lemma adds_wait k : adds (ctl_wait_1s others) (reported 1) k.
Proof using Type.
  unfold ctl_wait_1s. apply (adds_bind _ _ (fun l => l = [Ctl_wait])); [by apply adds_event|]. intros l k' _ _ ->.
  apply adds_update; [done..|]. split; [|done]. constructor; [split_and!; discriminate|constructor].
Qed.
Lemma adds_speed fp k : adds (ctl_print_speed others fp) (reported 1) k.
Proof using Type.
  unfold ctl_print_speed. apply (adds_bind _ _ (reported 1)); [apply adds_wait|]. intros l1 k1 _ _ H1.
  apply (adds_bind _ _ (reported 0)); [apply adds_clear|]. intros l2 k2 _ _ H2. apply adds_gets.
  apply (adds_bind _ _ (reported 0)); [apply adds_event; plain|]. intros l3 k3 _ _ H3. apply adds_update; [done..|].
  rewrite app_nil_l. exact (reported_app 1 0 _ _ H1 (reported_app 0 0 _ _ H2 H3)).
Qed.

(** At most [n] seconds, and all of them without a signal. *)
Definition lasts (n : nat) (l : list ctl_event) : Prop := Forall loading l /\ (waits l <= n)%nat /\ (never -> waits l = n).

Lemma adds_report n fp k : adds (ctl_report g_stop others n fp) (fun l => lasts n l /\ intervals l = []) k.
Proof using Type.
  revert k. induction n as [|n IH]; intros k; cbn [ctl_report]; [by apply adds_nothing|].
  apply (adds_bind _ _ (reported 1)); [apply adds_speed|]. intros l k1 _ _ (F1 & W1 & I1). apply adds_gets. destruct (g_stop (k_log k1)) eqn:Es.
  - apply adds_nothing. rewrite app_nil_l. split; [|done]. split; [done|]. split; [lia|]. intros Hn. by rewrite Hn in Es.
  - eapply adds_mono; [apply IH|]. intros l2 [(F2 & W2 & N2) I2]. split; [|by rewrite intervals_app, I1, I2].
    split; [by apply list.Forall_app|]. rewrite waits_app, W1. split; [lia|]. intros Hn. rewrite (N2 Hn). lia.
Qed.

(** ** Slow start *)

(** The interval of second [i]: the cycles of a second over its rate. *)
Definition slow_interval (k : ctl) (step i : Z) : Z :=
  u64 (g_tsc_per_second (k_tick k) * u64 (i32 (c_launch_num (k_cfg k)))) / u64 (step * i).

Definition slowly (f : Z -> Z) (n : nat) (i : Z) (l : list ctl_event) : Prop := lasts n l /\
  exists m : nat, (m <= n)%nat /\ (never -> m = n) /\ intervals l = (fun j => f (i + Z.of_nat j)) <$> seq 0 m.

Lemma adds_set_interval v k : adds (ctl_set_launch_interval v) (fun l => l = [Ctl_interval v]) k.
Proof using Type.
  unfold ctl_set_launch_interval. apply (adds_bind _ _ (fun l => l = [])); [by apply adds_update|]. intros l k' _ _ ->. by apply adds_event.
Qed.

Lemma adds_slow_loop n i step fp k : 1 <= i -> 1 <= step -> step * (i + Z.of_nat n) < 2 ^ 64 ->
  adds (slow_start_loop g_stop others n i step fp) (slowly (slow_interval k step) n i) k.
Proof using Type.
  intros Hi Hs. revert i k Hi. induction n as [|n IH]; intros i k Hi Hn; cbn [slow_start_loop].
  { apply adds_nothing. split; [by split|]. exists 0%nat. done. }
  apply adds_gets. assert (u64 (step * i) = step * i) as Eu by (apply wrap_small; unfold in_u; nia). rewrite Eu.
  destruct (Z.eqb_spec (step * i) 0); [nia|]. rewrite <- Eu. fold (slow_interval k step i).
  match goal with |- adds (?m ≫= ?g) _ _ => change (adds (g (slow_interval k step i)) (slowly (slow_interval k step) (S n) i) k) end. cbv beta.
  apply (adds_bind _ _ (fun l => l = [Ctl_interval (slow_interval k step i)])); [apply adds_set_interval|]. intros l1 k1 C1 T1 ->.
  apply (adds_bind _ _ (reported 1)); [apply adds_speed|]. intros l2 k2 C2 T2 (F2 & W2 & I2). apply adds_gets. destruct (g_stop (k_log k2)) eqn:Es.
  - apply adds_nothing. rewrite app_nil_l. split.
    + split; [apply list.Forall_app; split; [done|constructor; [split_and!; discriminate|constructor]]|]. rewrite waits_app, W2. cbn. split; [lia|]. intros Hn'. by rewrite Hn' in Es.
    + exists 1%nat. split; [lia|]. split; [intros Hn'; by rewrite Hn' in Es|]. rewrite intervals_app, I2, app_nil_r. cbn. by rewrite Z.add_0_r.
  - eapply adds_mono; [apply IH; [lia|nia]|]. intros l3 [(F3 & W3 & N3) (m & Hm & Nm & I3)].
    assert (slow_interval k2 step = slow_interval k step) as Ek by (unfold slow_interval; by rewrite C2, T2, C1, T1). rewrite Ek in I3. split.
    + split; [repeat (apply list.Forall_app; split); try done; constructor; [split_and!; discriminate|constructor]|]. rewrite !waits_app, W2. cbn. split; [lia|]. intros Hn'. rewrite (N3 Hn'). lia.
    + exists (S m). split; [lia|]. split; [intros Hn'; by rewrite (Nm Hn')|]. rewrite !intervals_app, I2, I3, app_nil_l.
      cbn [seq fmap list_fmap]. change (intervals [Ctl_interval (slow_interval k step i)]) with [slow_interval k step i]. cbn. rewrite Z.add_0_r. f_equal.
      rewrite <- fmap_S_seq, <- list_fmap_compose. apply list_fmap_ext. intros ? j _. cbn. f_equal. lia.
Qed.

Lemma slow_step_some c q texts : accepted q texts c -> c_server c = false ->
  exists step, slow_step c = Some step /\ 1 <= step < 2 ^ 31 /\ step = Z.max 1 (c_cps c / c_cpu_num c / c_slow_start c) /\ 10 <= c_slow_start c <= 600.
Proof using Type.
  intros Hc Es. destruct (ac_paced _ _ _ Hc) as [Hp _]. specialize (Hp Es). unfold SLOW_START_MIN, SLOW_START_MAX in Hp.
  destruct (ac_queues _ _ _ Hc) as [Hq Hn]. destruct (ac_ports_num _ _ _ Hc) as [[Hp1 _] _]. assert (1 <= c_cpu_num c) by nia.
  destruct (ac_load _ _ _ Hc) as (_ & [Hcps1 Hcps2] & _). unfold slow_step.
  destruct (Z.eqb_spec (c_cpu_num c) 0); [lia|]. destruct (Z.eqb_spec (c_slow_start c) 0); [lia|]. cbn [orb].
  rewrite (Z.quot_div_nonneg (c_cps c)) by lia. assert (0 <= c_cps c / c_cpu_num c) by (apply Z.div_pos; lia).
  rewrite Z.quot_div_nonneg by lia.
  set (x := c_cps c / c_cpu_num c / c_slow_start c). assert (0 <= x < 2 ^ 31) as Hx.
  { subst x. split; [apply Z.div_pos; [apply Z.div_pos|]; lia|]. apply Z.div_lt_upper_bound; [lia|]. apply Z.div_lt_upper_bound; nia. }
  rewrite wrap_small by (unfold in_u; lia). eexists. split; [reflexivity|]. destruct (Z.leb_spec x 0); lia.
Qed.

(** The load of a client is raised in steps, then all of it is launched. *)
Definition slow_load (k : ctl) (l : list ctl_event) : Prop := exists m : nat, (m <= Z.to_nat (c_slow_start (k_cfg k)))%nat
  /\ (never -> m = Z.to_nat (c_slow_start (k_cfg k)))
  /\ exists step, slow_step (k_cfg k) = Some step /\ intervals l = ((fun j => slow_interval k step (1 + Z.of_nat j)) <$> seq 0 m) ++ [0].

Lemma adds_slow_start fp q texts k : accepted q texts (k_cfg k) -> c_server (k_cfg k) = false ->
  adds (ctl_slow_start g_stop others fp) (fun l => lasts (Z.to_nat (c_slow_start (k_cfg k))) l /\ slow_load k l) k.
Proof using Type.
  intros Hc Es. destruct (slow_step_some _ _ _ Hc Es) as (step & E & Hs & _ & Hn). unfold ctl_slow_start. apply adds_gets. rewrite E.
  match goal with |- adds (?m ≫= ?g) ?Q _ => change (adds (g step) Q k) end. cbv beta.
  eapply adds_bind; [apply (adds_slow_loop _ 1 step fp k); [lia|lia|nia]|]. intros l1 k1 _ _ [(F1 & W1 & N1) (m & Hm & Nm & I1)].
  eapply adds_mono; [apply adds_set_interval|]. intros l2 ->. split.
  - split; [apply list.Forall_app; split; [constructor; [split_and!; discriminate|constructor]|done]|]. rewrite waits_app. cbn. split; [lia|]. exact N1.
  - exists m. split; [done|]. split; [done|]. exists step. split; [done|]. by rewrite intervals_app, I1.
Qed.

Lemma adds_delay n fp k : adds (ctl_delay others n fp) (reported n) k.
Proof using Type.
  revert k. induction n as [|n IH]; intros k; cbn [ctl_delay]; [apply adds_nothing, reported_nil|].
  apply (adds_bind _ _ (reported 1)); [apply adds_speed|]. intros l1 k1 _ _ H1. eapply adds_mono; [apply IH|]. intros l2 H2. exact (reported_app 1 n _ _ H1 H2).
Qed.

(** ** Flags of the workers *)

Section Held.
Context (P : work_space -> Prop) (HP : forall h all, held P all -> held P (others h all)).
Definition holds {A} (m : KM A) : Prop := forall k, held P (k_all k) -> wp m (fun _ k' => held P (k_all k')) k.
Lemma holds_bind {A B} (m : KM A) (f : A -> KM B) : holds m -> (forall a, holds (f a)) -> holds (m ≫= f).
Proof using Type. intros Hm Hf k Hk. apply wp_bind. eapply wp_mono; [by apply Hm|]. intros a k' Hk'. by apply Hf. Qed.
Lemma holds_clear fp : holds (ctl_clear_screen fp).
Proof using Type.
  intros k Hk. unfold ctl_clear_screen. apply wp_bind, wp_gets. destruct (_ || _); [by apply wp_ret|]. unfold st_when. by destruct (negb fp).
Qed.
Lemma holds_wait : holds (ctl_wait_1s others).
Proof using HP. intros k Hk. unfold ctl_wait_1s. apply wp_bind, wp_modify, wp_modify. by apply HP. Qed.
Lemma holds_speed fp : holds (ctl_print_speed others fp).
Proof using HP.
  unfold ctl_print_speed. apply holds_bind; [exact holds_wait|]. intros []. apply holds_bind; [apply holds_clear|]. intros [] k Hk.
  apply wp_bind, wp_gets, wp_bind, wp_modify, wp_modify. exact Hk.
Qed.
Lemma holds_delay n fp : holds (ctl_delay others n fp).
Proof using HP. induction n as [|n IH]; cbn [ctl_delay]; [intros k Hk; by apply wp_ret|]. apply holds_bind; [apply holds_speed|]. by intros []. Qed.
Lemma holds_total fp : holds (ctl_print_total others fp).
Proof using HP. unfold ctl_print_total. apply holds_bind; [exact holds_wait|]. intros []. apply holds_bind; [apply holds_clear|]. intros [] k Hk. by apply wp_modify. Qed.
End Held.

Lemma held_stop all : held (fun ws => ws_stop ws = true /\ cl_launch_num (ws_client_launch ws) = 0) (work_space_stop_all all).
Proof using Type. intros ws H. unfold work_space_stop_all in H. apply list_elem_of_fmap in H as ([w|] & E & _); [|done]. by injection E as ->. Qed.
Lemma held_exit (P : work_space -> Prop) all : (forall ws, P ws -> P (ws <| ws_exit := true |>)) -> held P all ->
  held (fun ws => P ws /\ ws_exit ws = true) (work_space_exit_all all).
Proof using Type.
  intros HP H ws Hin. unfold work_space_exit_all in Hin. apply list_elem_of_fmap in Hin as ([w|] & E & Hw); [|done]. injection E as ->.
  split; [by apply HP, H|done].
Qed.
End Ctl.

(** ** The thread *)

(** The seconds of a run without a signal, before the workers are stopped. *)
Definition load_seconds (c : config) : nat := ((if c_server c then 0 else Z.to_nat (c_slow_start c)) + Z.to_nat (c_duration c))%nat.

Definition stopping (ws : work_space) : Prop := ws_stop ws = true.
Definition ended (ws : work_space) : Prop := stopping ws /\ ws_exit ws = true.

Section Main.
Context (g_stop : list ctl_event -> bool) (others : list ctl_event -> list (option work_space) -> list (option work_space)).
Context (Hstop : forall h all, held stopping all -> held stopping (others h all)).
Context (Hended : forall h all, held ended all -> held ended (others h all)).

Lemma wp_main fopen readings q texts k : accepted q texts (k_cfg k) -> 0 <= c_slow_start (k_cfg k) ->
  c_duration (k_cfg k) + c_slow_start (k_cfg k) < 2 ^ 31 -> is_Some (work_space_wait_start (Z.to_nat (c_cpu_num (k_cfg k))) 0 readings) ->
  wp (ctl_thread_main g_stop others fopen readings) (fun up k' => up = true /\ held ended (k_all k') /\ exists load delay last,
    k_log k' = last ++ Ctl_exit :: delay ++ Ctl_stop :: load ++ Ctl_link_up :: k_log k
    /\ lasts g_stop (load_seconds (k_cfg k)) load /\ (c_server (k_cfg k) = false -> slow_load g_stop k load)
    /\ reported (DELAY_SEC) delay /\ exists shown, last = Ctl_total :: shown /\ reported 1 shown) k.
Proof using Hstop Hended.
  intros Hc Hs Hd [rest Hr]. destruct (ac_paced _ _ _ Hc) as [_ [Hd1 Hd2]]. unfold ctl_thread_main. apply wp_bind, wp_gets, wp_bind.
  eapply wp_lift; [unfold int_ok; destruct (Z.leb_spec (- 2 ^ 31) (c_duration (k_cfg k) + c_slow_start (k_cfg k))); [|lia];
    destruct (Z.ltb_spec (c_duration (k_cfg k) + c_slow_start (k_cfg k)) (2 ^ 31)); [|lia]; reflexivity|].
  apply wp_bind, wp_modify. set (k1 := k <| k_cfg ::= _ |>). cbv zeta. set (fp := ctl_log_open _ _). rewrite Hr.
  set (c := k_cfg k) in *. assert (accepted q texts (k_cfg k1)) as Hc1.
  { subst k1. rsimpl. fold c. clearbody c. clear - Hc Hs Hd Hd1. destruct Hc; split; try assumption. rsimpl. destruct ac_paced as [Hp _].
    split; [exact Hp|]. lia. }
  assert (c_server (k_cfg k1) = c_server c /\ c_slow_start (k_cfg k1) = c_slow_start c) as [Es1 Ew1] by done.
  apply wp_bind, wp_modify. set (k2 := k1 <| k_log ::= _ |>).
  apply wp_bind. eapply wp_mono.
  { instantiate (1 := fun _ k' => exists l, k_log k' = l ++ k_log k2 /\ lasts g_stop (load_seconds c - Z.to_nat (c_duration c)) l
      /\ (c_server c = false -> slow_load g_stop k l)).
    unfold load_seconds. change (c_server (k_cfg k1)) with (c_server c). rewrite Nat.add_sub.
    destruct (c_server c) eqn:Es.
    - apply wp_ret. exists []. split; [done|]. by split; [split|].
    - eapply wp_mono; [apply (adds_slow_start g_stop others fp q texts k2); [exact Hc1|exact Es]|]. intros _ k3 (_ & _ & l & L & H1 & (m & Hm & Nm & step & Est & Il)).
      exists l. split; [exact L|]. split; [exact H1|]. intros _. exists m. split; [exact Hm|]. split; [exact Nm|]. exists step. split; [exact Est|exact Il]. }
  intros [] k3 (l1 & L1 & (F1 & W1 & N1) & S1).
  apply wp_bind. eapply wp_mono; [apply (adds_report g_stop others _ fp k3)|]. intros [] k4 (_ & _ & l2 & L2 & (F2 & W2 & N2) & I2).
  apply wp_bind, wp_modify, wp_bind, wp_modify. set (k5 := _ <| k_log ::= cons Ctl_stop |>).
  assert (held stopping (k_all k5)) as H5. { intros ws Hin. by destruct (held_stop (k_all k4) ws Hin). }
  apply wp_bind. eapply wp_mono; [apply wp_and; [apply (adds_delay others DELAY_SEC fp k5)|apply (holds_delay others stopping Hstop DELAY_SEC fp k5 H5)]|].
  intros [] k6 ((_ & _ & l3 & L3 & R3) & H6).
  apply wp_bind, wp_modify, wp_bind, wp_modify. set (k7 := _ <| k_log ::= cons Ctl_exit |>).
  assert (held ended (k_all k7)) as H7. { by apply (held_exit stopping (k_all k6)). }
  apply wp_bind. eapply wp_mono; [apply wp_and; [|apply (holds_total others ended Hended fp k7 H7)]|].
  { instantiate (1 := fun _ k' => exists shown, k_log k' = Ctl_total :: shown ++ k_log k7 /\ reported 1 shown). unfold ctl_print_total. apply wp_bind.
    eapply wp_mono; [apply (adds_wait others k7)|]. intros [] k8 (_ & _ & l4 & L4 & R4). apply wp_bind.
    eapply wp_mono; [apply (adds_clear fp k8)|]. intros [] k9 (_ & _ & l5 & L5 & R5). apply wp_modify. exists (l5 ++ l4).
    split; [|exact (reported_app 1 0 _ _ R4 R5)]. rsimpl. by rewrite L5, L4, app_assoc. }
  intros [] k8 [(shown & L8 & R8) H8]. apply wp_ret. split; [done|]. split; [done|]. exists (l2 ++ l1), l3, (Ctl_total :: shown). split_and!.
  - rewrite L8. subst k7. rsimpl. rewrite L3. subst k5. rsimpl. rewrite L2, L1. subst k2. rsimpl. cbn. by rewrite <- !app_assoc.
  - assert (load_seconds c = load_seconds c - Z.to_nat (c_duration c) + Z.to_nat (c_duration c))%nat as -> by (unfold load_seconds; lia).
    split; [by apply list.Forall_app|]. rewrite waits_app. split; [lia|]. intros Hn. rewrite (N1 Hn), (N2 Hn). lia.
  - intros Es. destruct (S1 Es) as (m & Hm & Nm & step & Est & Il). exists m. split; [done|]. split; [done|]. exists step. split; [done|].
    by rewrite intervals_app, I2, app_nil_r.
  - exact R3.
  - by exists shown.
Qed.
End Main.


(** Two workers that count their ticks, and a signal after the fifth event. *)
Definition pair_ctl : ctl := Ctl pair_config (TickGlobals 2 20000) [Some World.Demo.demo_ws; Some World.Demo.demo_ws] 0 [].
Definition fifth (h : list ctl_event) : bool := (5 <=? length h)%nat.


(** C39: a client starts slowly: the launch intervals that the thread sets are
    those of the rates [step], [2 * step], ..., never longer than the one
    before and never a division by zero, up to the number of slow-start seconds
    or to the signal, and then 0, which gives every worker its own interval;
    the rates of all workers together do not exceed [cps], unless [step] is 1. *)
Theorem slow_start_accelerates g_stop others fp q texts k :
  accepted q texts (k_cfg k) -> c_server (k_cfg k) = false -> 0 <= g_tsc_per_second (k_tick k) ->
  exists k' l m step, ctl_slow_start g_stop others fp k = Ok (tt, k') /\ k_log k' = l ++ k_log k
    /\ intervals l = ((fun j => slow_interval k step (1 + Z.of_nat j)) <$> seq 0 m) ++ [0]
    /\ Z.of_nat m <= c_slow_start (k_cfg k) /\ (never g_stop -> Z.of_nat m = c_slow_start (k_cfg k))
    /\ (forall i j, 1 <= i <= j -> j <= c_slow_start (k_cfg k) -> slow_interval k step j <= slow_interval k step i)
    /\ (step = 1 \/ step * c_slow_start (k_cfg k) * c_cpu_num (k_cfg k) <= c_cps (k_cfg k))
    /\ forall default, 0 <= default -> 0 < g_tsc_per_second (k_tick k) -> launch_interval_clamp (k_tick k) default 0 = default.
Proof.
  intros Hc Es Hhz. destruct (slow_step_some _ _ _ Hc Es) as (step & Est & Hs & Estep & Hn).
  destruct (wp_ok _ _ _ (adds_slow_start g_stop others fp q texts k Hc Es)) as ([] & k' & E & _ & _ & l & L & _ & m & Hm & Nm & step' & Est' & Il).
  assert (step' = step) as -> by congruence. exists k', l, m, step. split; [exact E|]. split; [exact L|]. split; [exact Il|]. split_and!.
  - lia.
  - intros Hnv. specialize (Nm Hnv). lia.
  - intros i j Hij Hj. unfold slow_interval. rewrite !(wrap_small 64 (step * _)) by (unfold in_u; nia).
    apply Z.div_le_compat_l; [|nia]. pose proof (wrap_range 64 (g_tsc_per_second (k_tick k) * u64 (i32 (c_launch_num (k_cfg k)))) ltac:(lia)) as Hr.
    unfold in_u in Hr. lia.
  - destruct (Z.eq_dec step 1); [by left|right]. destruct (ac_queues _ _ _ Hc) as [Hq Hqn]. destruct (ac_ports_num _ _ _ Hc) as [[Hp1 _] _].
    assert (1 <= c_cpu_num (k_cfg k)) by nia. destruct (ac_load _ _ _ Hc) as (_ & [Hcps _] & _).
    assert (step = c_cps (k_cfg k) / c_cpu_num (k_cfg k) / c_slow_start (k_cfg k)) as -> by lia.
    set (x := c_cps (k_cfg k) / c_cpu_num (k_cfg k)). assert (x * c_cpu_num (k_cfg k) <= c_cps (k_cfg k)) by (subst x; rewrite Z.mul_comm; apply Z.mul_div_le; lia).
    assert (x / c_slow_start (k_cfg k) * c_slow_start (k_cfg k) <= x) by (rewrite Z.mul_comm; apply Z.mul_div_le; lia). nia.
  - intros default Hdef Hpos. unfold launch_interval_clamp. destruct (Z.leb_spec (g_tsc_per_second (k_tick k)) 0); [lia|]. by destruct (Z.leb_spec 0 default); [|lia].
Qed.

Lemma slow_start_accelerates_witness : exists k' l m step, ctl_slow_start fifth (fun _ all => all) false pair_ctl = Ok (tt, k') /\ k_log k' = l ++ k_log pair_ctl
  /\ intervals l = ((fun j => slow_interval pair_ctl step (1 + Z.of_nat j)) <$> seq 0 m) ++ [0].
Proof.
  destruct (slow_start_accelerates fifth (fun _ all => all) false 2 pair_texts pair_ctl) as (k' & l & m & step & E & L & I & _).
  - exact pair_accepted.
  - vm_compute. reflexivity.
  - vm_compute. discriminate.
  - exists k', l, m, step. split; [exact E|]. split; [exact L|exact I].
Defined.
