(* ===== verification/KniLegacy.v ===== *)
(** * KniLegacy: the kernel interface of older DPDK

    [src/kni.c], which the Makefile takes for DPDK 17.11 to 19.11 in place of
    [src/virtio-user.c].  The two fields that [struct netif_port] has for it,
    [kni] and [kni_mbuf_queue], are pointers: numbers, 0 the null pointer.  The
    version is a parameter, the conditional parts are branches on it.  DPDK and
    the kernel are the class [RteKni], whose answers depend on the calls made before.
    The theorems are about ownership: whatever fails, an interface or a ring that is not
    kept in a port has been given back, and once only. *)

From S2P Require Import Prelude Config Mbuf NetStats World WorkSpace Payload ConfigParse Port Eal Kni.

(** ** Calls and state *)

Record rte_kni_conf := KniConf {
  kc_group_id : Z;
  kc_mbuf_size : Z;
  kc_name : list Z;
  kc_min_mtu : Z;
  kc_max_mtu : Z;
  kc_mtu : Z;
  kc_mac_addr : list Z;
  kc_addr : Z;
  kc_id : Z;
}.
#[export] Instance eta_rte_kni_conf : Eta rte_kni_conf := fun c =>
  KniConf (kc_group_id c) (kc_mbuf_size c) (kc_name c) (kc_min_mtu c) (kc_max_mtu c) (kc_mtu c) (kc_mac_addr c)
    (kc_addr c) (kc_id c).

Inductive kni_call :=
  | Kni_init (max : Z)
  | Kni_info_get (port : Z)
  | Kni_get_mtu (port : Z)
  | Kni_alloc (mp : Z) (conf : rte_kni_conf)
  | Kni_release (kni : Z)
  | Kni_socket_id
  | Kni_ring_create (name : list Z) (size socket : Z)
  | Kni_ring_free (ring : Z)
  | Kni_socket
  | Kni_set_hwaddr (fd : Z) (name : list Z) (mac : list Z)
  | Kni_get_flags (fd : Z) (name : list Z)
  | Kni_set_flags (fd : Z) (name : list Z) (flags : Z)
  | Kni_close (fd : Z).

Definition kni_history : Type := list (kni_call * Z).

(** [kn_ret] is what a call returns, the others what it stores besides. *)
Class RteKni := {
  RTE_VERSION : Z;
  RTE_VERSION_NUM : Z -> Z -> Z -> Z -> Z;
  RTE_KNI_NAMESIZE : Z;
  RTE_MBUF_DEFAULT_DATAROOM : Z;
  KNI_RTE_RING_NAMESIZE : Z;
  kn_ret : kni_history -> kni_call -> Z;
  kn_mtus : kni_history -> Z -> Z * Z;
  kn_mtu : kni_history -> Z -> Z;
  kn_pci : kni_history -> Z -> option (Z * Z);
  kn_flags : kni_history -> list Z -> Z;
}.

(** The fields [kni] and [kni_mbuf_queue] of a port. *)
Record kni_port := KniPort { kp_kni : Z; kp_queue : Z }.
#[export] Instance eta_kni_port : Eta kni_port := fun p => KniPort (kp_kni p) (kp_queue p).

Record kni_state := KniState { ks_cfg : config; ks_ports : list kni_port; ks_log : kni_history }.
#[export] Instance eta_kni_state : Eta kni_state := fun s => KniState (ks_cfg s) (ks_ports s) (ks_log s).

Module Legacy.
Abbreviation LM := (ST kni_state).

Section Control.
Context {K : RteKni}.

Definition call (d : kni_call) : LM Z := fun s =>
  let r := kn_ret (ks_log s) d in Ok (r, s <| ks_log ::= cons (d, r) |>).
Definition asking {A} (f : kni_history -> A) : LM A := st_gets (fun s => f (ks_log s)).
Definition port_get (i : nat) : LM netif_port := c ← st_gets ks_cfg; st_lift OutOfBounds (c_ports c !! i).
Definition kni_get (i : nat) : LM kni_port := ps ← st_gets ks_ports; st_lift OutOfBounds (ps !! i).
Definition kni_put (i : nat) (f : kni_port -> kni_port) : LM unit := st_modify (fun s => s <| ks_ports ::= alter f i |>).

(** ** Creation *)

Definition kni_set_mtu (port_id : Z) (conf : rte_kni_conf) : LM (Z * rte_kni_conf) :=
  if RTE_VERSION_NUM 19 0 0 0 <=? RTE_VERSION then
    mtus ← asking (fun h => kn_mtus h port_id);
    ret ← call (Kni_info_get port_id);
    if negb (ret =? 0) then mret (-1, conf)
    else
      mtu ← asking (fun h => kn_mtu h port_id);
      call (Kni_get_mtu port_id);;
      mret (0, conf <| kc_min_mtu := fst mtus |> <| kc_max_mtu := snd mtus |> <| kc_mtu := mtu |>)
  else mret (0, conf).

Definition kni_set_mac (port : netif_port) (conf : rte_kni_conf) : Z * rte_kni_conf :=
  if RTE_VERSION_NUM 18 0 0 0 <=? RTE_VERSION then (0, conf <| kc_mac_addr := np_local_mac port |>) else (0, conf).

Definition kni_set_pci (port_id : Z) (conf : rte_kni_conf) : LM (Z * rte_kni_conf) :=
  if RTE_VERSION_NUM 18 0 0 0 <=? RTE_VERSION then mret (0, conf)
  else
    pci ← asking (fun h => kn_pci h port_id);
    call (Kni_info_get port_id);;
    mret (0, match pci with Some (addr, id) => conf <| kc_addr := addr |> <| kc_id := id |> | None => conf end).

Definition kni_set_name (cfg : config) (idx : nat) : list Z :=
  snprintf RTE_KNI_NAMESIZE (c_kni_ifname cfg ++ print_int (Z.of_nat idx)).

(** The name of an interface in [struct ifreq], an array of [IFNAMSIZ]. *)
Definition ifr_name (idx : nat) : LM (list Z) :=
  cfg ← st_gets ks_cfg;
  let name := kni_set_name cfg idx in
  if strlen name <? IFNAMSIZ then mret name else st_fail OutOfBounds.

Definition kni_set_hwaddr (idx : nat) (port : netif_port) : LM Z :=
  if RTE_VERSION_NUM 18 0 0 0 <=? RTE_VERSION then mret 0
  else
    fd ← call Kni_socket;
    if fd <? 0 then mret (-1)
    else
      name ← ifr_name idx;
      ret ← call (Kni_set_hwaddr fd name (np_local_mac port));
      call (Kni_close fd);;
      mret (if ret <? 0 then -1 else 0).

Definition kni_alloc (idx : nat) : LM Z :=
  cfg ← st_gets ks_cfg;
  port ← port_get idx;
  mbuf_pool ← st_lift OutOfBounds (aget (np_mbuf_pool port) 0);
  let port_id := u16 (np_id port) in
  let conf := KniConf port_id RTE_MBUF_DEFAULT_DATAROOM (kni_set_name cfg idx) 0 0 0 [] 0 0 in
  '(ret, conf) ← kni_set_mtu port_id conf;
  if ret <? 0 then mret 0
  else
    let '(ret, conf) := kni_set_mac port conf in
    if ret <? 0 then mret 0
    else
      '(ret, conf) ← kni_set_pci port_id conf;
      if ret <? 0 then mret 0
      else
        kni ← call (Kni_alloc mbuf_pool conf);
        if kni =? 0 then mret 0
        else
          ret ← kni_set_hwaddr idx port;
          if ret <? 0 then call (Kni_release kni);; mret 0
          else mret kni.

(** [kni_free] for one port. *)
Definition kni_free_port (i : nat) : LM unit :=
  port ← kni_get i;
  if kp_kni port =? 0 then mret tt
  else
    call (Kni_release (kp_kni port));;
    kni_put i (fun p => p <| kp_kni := 0 |>);;
    if kp_queue port =? 0 then mret tt
    else
      call (Kni_ring_free (kp_queue port));;
      kni_put i (fun p => p <| kp_queue := 0 |>).

Fixpoint kni_free_ports (ports : list nat) : LM unit :=
  match ports with [] => mret tt | i :: ports => kni_free_port i;; kni_free_ports ports end.
Definition kni_free : LM unit := ps ← st_gets ks_ports; kni_free_ports (seq 0 (length ps)).

Definition kni_ring_text (p : netif_port) : list Z := snprintf KNI_RTE_RING_NAMESIZE (chars "kr_" ++ print_int (np_id p)).

Fixpoint kni_create_ports (ports : list nat) : LM Z :=
  match ports with
  | [] => mret 0
  | i :: ports =>
      port ← port_get i;
      kni ← kni_alloc i;
      if kni =? 0 then kni_free;; mret (-1)
      else
        kni_put i (fun p => p <| kp_kni := kni |>);;
        socket ← call Kni_socket_id;
        ring ← call (Kni_ring_create (kni_ring_text port) RING_SIZE socket);
        kni_put i (fun p => p <| kp_queue := ring |>);;
        if ring =? 0 then
          call (Kni_release kni);;
          kni_put i (fun p => p <| kp_kni := 0 |>);;
          kni_free;;
          mret (-2)
        else kni_create_ports ports
  end.
Definition kni_create : LM Z :=
  call (Kni_init NETIF_PORT_MAX);;
  ps ← st_gets ks_ports; kni_create_ports (seq 0 (length ps)).

Definition kni_start : LM Z :=
  cfg ← st_gets ks_cfg;
  if negb (c_kni cfg) then mret 0 else kni_create.
Definition kni_stop : LM unit :=
  cfg ← st_gets ks_cfg;
  st_when (c_kni cfg) kni_free.

(** ** The interface goes up *)

Definition kni_set_link_up (idx : nat) : LM Z :=
  port ← kni_get idx;
  if kp_kni port =? 0 then mret 0
  else
    fd ← call Kni_socket;
    if fd <? 0 then mret (-1)
    else
      name ← ifr_name idx;
      flags ← asking (fun h => kn_flags h name);
      ret ← call (Kni_get_flags fd name);
      if ret <? 0 then call (Kni_close fd);; mret (-1)
      else
        ret ← call (Kni_set_flags fd name (flags ||| IFF_UP));
        call (Kni_close fd);;
        mret (if ret <? 0 then -1 else 0).
Fixpoint kni_link_up_ports (ports : list nat) : LM Z :=
  match ports with
  | [] => mret 0
  | i :: ports => ret ← kni_set_link_up i; if ret <? 0 then mret (-1) else kni_link_up_ports ports
  end.
Definition kni_link_up : LM Z := ps ← st_gets ks_ports; kni_link_up_ports (seq 0 (length ps)).
End Control.

(** ** Packets of a worker

    [kni] is the field of the worker's port; what the library does with packets
    is a computation on the state of the worker. *)
Section Packets.
Context {D : Dpdk} (kni : Z).
Context (rte_kni_tx_burst : Z -> list mbuf -> M Z) (rte_kni_rx_burst : Z -> Z -> M (list mbuf)).
Context (rte_kni_handle_request : Z -> M unit).

Definition kni_recv (m : option mbuf) : M unit :=
  port ← ws_get ws_port;
  queue_id ← ws_get ws_queue_id;
  if negb (queue_id =? 0) then
    match m with
    | None => mret tt
    | Some m =>
        if np_kni_mbuf_queue port then
          ret ← ring_enqueue m;
          if ret =? 0 then mret tt else mbuf_free2 m
        else mbuf_free2 m
    end
  else
    let mbufs := match m with Some m => [m] | None => [] end in
    mbufs ← (if np_kni_mbuf_queue port then
               count ← ring_count;
               let cnt := Z.min count (NB_RXD - Z.of_nat (length mbufs)) in
               if negb (cnt =? 0) then ms ← ring_dequeue_bulk cnt; mret (mbufs ++ ms)
               else mret mbufs
             else mret mbufs);
    send_n ← (if negb (kni =? 0) && bool_decide (mbufs ≠ []) then
                n ← rte_kni_tx_burst kni mbufs;
                stat_mod (net_stats_kni_rx n);; mret n
              else mret 0);
    mbuf_free2_all (drop (Z.to_nat send_n) mbufs).

Definition kni_broadcast (m : mbuf) : M unit :=
  m2 ← mbuf_dup m;
  match m2 with Some m2 => kni_recv (Some m2) | None => mret tt end.

Definition kni_send_mbuf (m : mbuf) : M unit :=
  port ← ws_get ws_port;
  neigh ← (if port_is_bond4 port then st_lift OutOfBounds (mbuf_is_neigh m) else mret false);
  st_when neigh (bond_broadcast m);;
  work_space_tx_send m;;
  stat_mod (net_stats_kni_tx 1).

Fixpoint kni_send_all (ms : list mbuf) : M unit :=
  match ms with [] => mret tt | m :: ms => kni_send_mbuf m;; kni_send_all ms end.

Definition kni_send : M unit :=
  queue_id ← ws_get ws_queue_id;
  st_when (queue_id =? 0)
    (rte_kni_handle_request kni;;
     ms ← rte_kni_rx_burst kni NB_RXD;
     kni_send_all ms).

(** ** One interface to the worker

    A library that passes bursts as the port of a virtio user does makes the
    two files the same to their callers: the theorems about the worker do not depend on
    which one is built. *)
Section Same.
Context (w : world) (vid : Z) (Hvid : np_virtio_user_id (ws_port (w_ws w)) = vid) (Hnull : (vid =? 0) = (kni =? 0)).

Lemma bind_ext {A B} (m : M A) (f g : A -> M B) s :
  (forall a s', m s = Ok (a, s') -> f a s' = g a s') -> (m ≫= f) s = (m ≫= g) s.
Proof. unfold mbind, ST_bind. destruct (m s) as [[a s']|]; auto. Qed.

Lemma ret_bind {A B} (a : A) (f : A -> M B) s : (mret a ≫= f) s = f a s.
Proof. done. Qed.

Theorem kni_recv_same m : (forall ms, rte_kni_tx_burst kni ms = eth_tx_burst vid 0 ms) -> kni_recv m w = Kni.kni_recv m w.
Proof using Hvid Hnull.
  intros Htx. unfold kni_recv, Kni.kni_recv, ws_get. apply bind_ext. intros port ? [= <- <-]. apply bind_ext. intros q ? [= <- <-].
  destruct (negb _); [done|]. cbv zeta. apply bind_ext. intros ms s' _. rewrite Hvid, Hnull, Htx. done.
Qed.

Theorem kni_send_same : rte_kni_handle_request kni = mret tt -> rte_kni_rx_burst kni NB_RXD = eth_rx_burst vid 0 NB_RXD ->
  kni_send w = Kni.kni_send w.
Proof using Hvid.
  intros Hreq Hrx. unfold kni_send, Kni.kni_send, ws_get. trans ((st_gets (fun w => ws_port (w_ws w)) ≫= fun _ => kni_send) w); [done|].
  unfold kni_send, ws_get. apply bind_ext. intros port ? [= <- <-]. apply bind_ext. intros q ? [= <- <-].
  destruct (ws_queue_id _ =? 0); [|done]. unfold st_when. rewrite Hreq, Hrx, Hvid. rewrite ret_bind. apply bind_ext. intros ms s' _.
  induction ms in s' |- *; [done|]. cbn [kni_send_all Kni.kni_send_all]. apply bind_ext. intros ? ? _. auto.
Qed.
End Same.
End Packets.

(** ** Ownership *)

Definition one (b : bool) : Z := if b then 1 else 0.

(** How often [h] was handed out, less how often it was given back. *)
Fixpoint kni_balance (h : Z) (log : kni_history) : Z :=
  match log with
  | [] => 0
  | (Kni_alloc _ _, r) :: log => one (r =? h) + kni_balance h log
  | (Kni_release k, _) :: log => kni_balance h log - one (k =? h)
  | _ :: log => kni_balance h log
  end.
Fixpoint ring_balance (h : Z) (log : kni_history) : Z :=
  match log with
  | [] => 0
  | (Kni_ring_create _ _ _, r) :: log => one (r =? h) + ring_balance h log
  | (Kni_ring_free k, _) :: log => ring_balance h log - one (k =? h)
  | _ :: log => ring_balance h log
  end.

(** How many ports keep [h] in a field. *)
Definition kept (g : kni_port -> Z) (h : Z) (ps : list kni_port) : Z := foldr (fun p n => one (g p =? h) + n) 0 ps.

Lemma kept_insert g h ps i p p' : ps !! i = Some p ->
  kept g h (<[i := p']> ps) = kept g h ps - one (g p =? h) + one (g p' =? h).
Proof.
  unfold kept. revert i. induction ps as [|q ps IH]; intros [|i]; [done..| |].
  - intros [= ->]. change (<[0%nat := p']> (p :: ps)) with (p' :: ps). cbn [foldr]. lia.
  - intros H. change (<[S i := p']> (q :: ps)) with (q :: <[i := p']> ps). cbn [foldr]. rewrite (IH _ H). lia.
Qed.
Lemma kept_null g h ps : h ≠ 0 -> Forall (fun p => g p = 0) ps -> kept g h ps = 0.
Proof. intros Hh. unfold kept. induction 1 as [|p ps Hp _ IH]; [done|]. cbn [foldr]. rewrite IH, Hp. destruct (Z.eqb_spec 0 h); [congruence|done]. Qed.

(** Every interface and ring that is out is in a field, and rings only where
    there is an interface; [k] is an interface that is out in a local variable,
    or 0. *)
Definition ledger (k : Z) (ps : list kni_port) (log : kni_history) : Prop :=
  (forall h, h ≠ 0 -> kni_balance h log = kept kp_kni h ps + one (k =? h) /\ ring_balance h log = kept kp_queue h ps)
  /\ Forall (fun p => kp_kni p = 0 -> kp_queue p = 0) ps.
Abbreviation ledger_at k s := (ledger k (ks_ports s) (ks_log s)).
Definition null_port : kni_port := KniPort 0 0.

Lemma alter_at (f : kni_port -> kni_port) (i : nat) (ps : list kni_port) p : ps !! i = Some p -> alter f i ps = <[i := f p]> ps.
Proof.
  intros H. apply list_eq. intros j. destruct (decide (i = j)) as [<-|Hj].
  - rewrite list_lookup_alter_eq, H, list_lookup_insert_eq; [done|by eapply lookup_lt_Some].
  - by rewrite list_lookup_alter_ne, list_lookup_insert_ne.
Qed.
Lemma alter_twice (f g : kni_port -> kni_port) (i : nat) (ps : list kni_port) p : ps !! i = Some p -> alter g i (alter f i ps) = <[i := g (f p)]> ps.
Proof.
  intros H. rewrite (alter_at _ _ _ _ H), (alter_at _ i (<[i := f p]> ps) (f p)); [apply list_insert_insert_eq|].
  apply list_lookup_insert_eq. by eapply lookup_lt_Some.
Qed.

(** A port changes: the books of its two fields. *)
Lemma ledger_put (i : nat) p p' k k' (ps : list kni_port) log log' : ledger k ps log -> ps !! i = Some p -> (kp_kni p' = 0 -> kp_queue p' = 0) ->
  (forall h, h ≠ 0 ->
    kni_balance h log' = kni_balance h log - one (kp_kni p =? h) - one (k =? h) + one (kp_kni p' =? h) + one (k' =? h) /\
    ring_balance h log' = ring_balance h log - one (kp_queue p =? h) + one (kp_queue p' =? h)) ->
  ledger k' (<[i := p']> ps) log'.
Proof.
  intros [Hl Hn] Hp Hp' Hb. split; [|by apply Forall_insert].
  intros h Hh. destruct (Hb h Hh) as [-> ->], (Hl h Hh) as [-> ->]. rewrite !(kept_insert _ _ _ _ _ _ Hp). lia.
Qed.

Lemma one_null h : h ≠ 0 -> one (0 =? h) = 0.
Proof. by destruct (Z.eqb_spec 0 h). Qed.

(** An interface moves between DPDK and a local variable. *)
Lemma ledger_alloc k mp conf ps log : ledger 0 ps log -> ledger k ps ((Kni_alloc mp conf, k) :: log).
Proof.
  intros [Hl Hn]. split; [|done]. intros h Hh. cbn [kni_balance ring_balance]. destruct (Hl h Hh) as [-> ->].
  rewrite one_null by done. split; [lia|done].
Qed.
Lemma ledger_release k r ps log : ledger k ps log -> ledger 0 ps ((Kni_release k, r) :: log).
Proof.
  intros [Hl Hn]. split; [|done]. intros h Hh. cbn [kni_balance ring_balance]. destruct (Hl h Hh) as [-> ->].
  rewrite one_null by done. split; [lia|done].
Qed.

(** The sums of [ledger_put] for a given log. *)
Ltac books :=
  let h := fresh "h" in let Hh := fresh "Hh" in intros h Hh;
  pose proof (one_null h Hh);
  cbn [kni_balance ring_balance null_port kp_kni kp_queue];
  repeat match goal with H : kp_queue _ = 0 |- _ => rewrite H | H : kp_kni _ = 0 |- _ => rewrite H end; lia.

Section Ledger.
Context {K : RteKni}.

Lemma wp_call d (Q : Z -> kni_state -> Prop) s :
  (forall r, Q r (s <| ks_log ::= cons (d, r) |>)) -> wp (call d) Q s.
Proof. intros H. apply H. Qed.

(** [kni_free] on a port empties it. *)
Lemma wp_free_port i k s : ledger_at k s -> (i < length (ks_ports s))%nat ->
  wp (kni_free_port i) (fun _ s' => ledger_at k s' /\ ks_cfg s' = ks_cfg s /\ ks_ports s' = <[i := null_port]> (ks_ports s)) s.
Proof.
  intros Hl Hi. destruct (lookup_lt_is_Some_2 _ _ Hi) as [p Hp]. unfold kni_free_port, kni_get. apply wp_bind, wp_bind, wp_gets. eapply wp_lift; [exact Hp|].
  pose proof (proj1 (Forall_lookup _ _) (proj2 Hl) _ _ Hp) as Hpq. cbv beta in Hpq.
  apply wp_if; intros E; bool_facts.
  { apply wp_ret. split; [done|]. split; [done|]. rewrite list_insert_id; [done|]. rewrite Hp. destruct p; cbn in *. by rewrite E, Hpq. }
  apply wp_bind, wp_call. intros r1. unfold kni_put. apply wp_bind, wp_modify. 
  apply wp_if; intros E2; bool_facts; [apply wp_ret|apply wp_bind, wp_call; intros r2; apply wp_modify]; rsimpl.
  - rewrite (alter_at _ _ _ _ Hp). assert (p <| kp_kni := 0 |> = null_port) as -> by (destruct p; cbn in *; by rewrite E2).
    split; [|done]. apply (ledger_put i p null_port k k _ _ _ Hl Hp); [done|]. books.
  - assert (alter (fun q => q <| kp_queue := 0 |>) i (alter (fun q => q <| kp_kni := 0 |>) i (ks_ports s)) = <[i := null_port]> (ks_ports s)) as ->.
    { rewrite (alter_twice _ _ _ _ _ Hp). by destruct p. }
    split; [|done]. apply (ledger_put i p null_port k k _ _ _ Hl Hp); [done|]. books.
Qed.

(** The ledger with the configuration and the ports as they were. *)
Definition books_kept (k : Z) (s s' : kni_state) : Prop := ledger_at k s' /\ ks_cfg s' = ks_cfg s /\ ks_ports s' = ks_ports s.
Lemma books_trans k s1 s2 k' s3 : books_kept k s1 s2 -> books_kept k' s2 s3 -> books_kept k' s1 s3.
Proof. intros (? & ? & ?) (? & ? & ?). split_and!; congruence. Qed.

(** The ports in [l] have been emptied, the others are as they were. *)
Lemma wp_free_ports l k s : ledger_at k s -> Forall (fun i => i < length (ks_ports s))%nat l ->
  wp (kni_free_ports l) (fun _ s' => ledger_at k s' /\ ks_cfg s' = ks_cfg s /\ length (ks_ports s') = length (ks_ports s)
    /\ forall i p, ks_ports s' !! i = Some p -> p = null_port \/ ((i ∉ l) /\ ks_ports s !! i = Some p)) s.
Proof.
  revert s. induction l as [|i l IH]; intros s Hl Hi; cbn [kni_free_ports].
  { apply wp_ret. split_and!; [done..|]. intros j p Hp. right. split; [apply not_elem_of_nil|done]. }
  apply List.Forall_cons_iff in Hi as [Hi Hi']. apply wp_bind. eapply wp_mono; [by apply wp_free_port|]. intros [] s1 (L1 & C1 & P1).
  eapply wp_mono; [apply IH; [done|rewrite P1; by setoid_rewrite length_insert]|]. intros [] s2 (L2 & C2 & N2 & H2). split_and!; [done|congruence|by rewrite N2, P1, length_insert|].
  intros j p Hp. destruct (H2 _ _ Hp) as [->|[Hj E]]; [by left|]. rewrite P1 in E. apply list_lookup_insert_Some in E as [(-> & <- & _)|[Hne E]]; [by left|].
  right. split; [|done]. by apply not_elem_of_cons.
Qed.

Definition emptied (s : kni_state) : Prop := Forall (fun p => p = null_port) (ks_ports s).
Lemma wp_free k s : ledger_at k s -> wp kni_free (fun _ s' => ledger_at k s' /\ ks_cfg s' = ks_cfg s /\ emptied s') s.
Proof.
  intros Hl. unfold kni_free. apply wp_bind, wp_gets. eapply wp_mono; [apply wp_free_ports; [done|]|].
  - apply list.Forall_forall. intros i Hi. apply elem_of_seq in Hi. lia.
  - intros [] s' (L & C & N & H). split_and!; [done..|]. apply Forall_lookup. intros i p Hp. destruct (H _ _ Hp) as [?|[Hi _]]; [done|].
    destruct Hi. apply elem_of_seq. apply lookup_lt_Some in Hp. lia.
Qed.

(** Nothing is out. *)
Definition nothing_out (s : kni_state) : Prop :=
  emptied s /\ forall h, h ≠ 0 -> kni_balance h (ks_log s) = 0 /\ ring_balance h (ks_log s) = 0.
Lemma emptied_out s : ledger_at 0 s -> emptied s -> nothing_out s.
Proof.
  intros [H _] He. split; [done|]. intros h Hh. destruct (H h Hh) as [-> ->].
  rewrite !(kept_null _ _ _ Hh) by (eapply list.Forall_impl; [exact He|]; by intros p ->). split; [|done]. by rewrite one_null.
Qed.

(** What [kni_alloc] needs, and what the parser of the configuration sees to: a
    pool, and names that fit into [struct ifreq]. *)
Record kni_ready (cfg : config) : Prop := {
  kr_pools : Forall (fun p => is_Some (aget (np_mbuf_pool p) 0)) (c_ports cfg);
  kr_name : strlen (c_kni_ifname cfg) < KNI_NAMESIZE;
  kr_ports : Z.of_nat (length (c_ports cfg)) <= NETIF_PORT_MAX;
}.

Lemma index_digits i : Z.of_nat i < NETIF_PORT_MAX -> strlen (print_int (Z.of_nat i)) <= 2.
Proof.
  intros Hi. assert (forallb (fun i => strlen (print_int (Z.of_nat i)) <=? 2) (seq 0 32) = true) as H by (vm_compute; done).
  rewrite forallb_forall in H. apply Z.leb_le, H, in_seq. unfold NETIF_PORT_MAX in Hi. lia.
Qed.

Lemma wp_ifr_name i Q (s : kni_state) : kni_ready (ks_cfg s) -> (i < length (c_ports (ks_cfg s)))%nat -> (forall name, Q name s) -> wp (ifr_name i) Q s.
Proof.
  intros [_ Hn Hp] Hi HQ. unfold ifr_name. apply wp_bind, wp_gets. cbv zeta. assert ((strlen (kni_set_name (ks_cfg s) i) <? IFNAMSIZ) = true) as ->; [|by apply wp_ret].
  pose proof (index_digits i ltac:(lia)) as Hd. apply Z.ltb_lt. unfold strlen, kni_set_name, snprintf, IFNAMSIZ, KNI_NAMESIZE in *. rewrite length_take, length_app. lia.
Qed.

Ltac quiet_calls := repeat first
  [ apply wp_ret; by split_and!
  | apply wp_bind; unfold asking; apply wp_gets
  | apply wp_bind, wp_call; intros ?
  | apply wp_bind, wp_ifr_name; [done|done|]; intros ?
  | apply wp_if; intros _ ].

Lemma wp_set_mtu k p conf s : ledger_at k s -> wp (kni_set_mtu p conf) (fun _ s' => books_kept k s s') s.
Proof. intros Hl. unfold kni_set_mtu. quiet_calls. Qed.
Lemma wp_set_pci k p conf s : ledger_at k s -> wp (kni_set_pci p conf) (fun _ s' => books_kept k s s') s.
Proof. intros Hl. unfold kni_set_pci. quiet_calls. Qed.
Lemma wp_set_hwaddr k i p s : ledger_at k s -> kni_ready (ks_cfg s) -> (i < length (c_ports (ks_cfg s)))%nat -> wp (kni_set_hwaddr i p) (fun _ s' => books_kept k s s') s.
Proof. intros Hl Hr Hi. unfold kni_set_hwaddr. quiet_calls. Qed.

(** An interface is handed out and kept in a local variable, or nothing is. *)
Lemma wp_kni_alloc i s : ledger_at 0 s -> kni_ready (ks_cfg s) -> (i < length (c_ports (ks_cfg s)))%nat ->
  wp (kni_alloc i) (fun kni s' => books_kept kni s s') s.
Proof.
  intros Hl Hp Hi. destruct (lookup_lt_is_Some_2 _ _ Hi) as [p Ep]. destruct (proj1 (Forall_lookup _ _) (kr_pools _ Hp) _ _ Ep) as [pool Hpool].
  unfold kni_alloc, port_get. apply wp_bind, wp_gets, wp_bind, wp_bind, wp_gets. eapply wp_lift; [exact Ep|]. apply wp_bind. eapply wp_lift; [exact Hpool|]. cbv zeta.
  apply wp_bind. eapply wp_mono; [by apply wp_set_mtu|]. intros [r1 c1] s1 B1. apply wp_if; intros _; [by apply wp_ret|].
  destruct (kni_set_mac p c1) as [r2 c2]. apply wp_if; intros _; [by apply wp_ret|].
  apply wp_bind. eapply wp_mono; [apply wp_set_pci, B1|]. intros [r3 c3] s2 B2. apply wp_if; intros _; [apply wp_ret; by eapply books_trans|].
  apply (books_trans _ _ _ _ _ B1) in B2.
  apply wp_bind, wp_call. intros kni. assert (books_kept kni s (s2 <| ks_log ::= cons (Kni_alloc pool c3, kni) |>)) as B3.
  { destruct B2 as (L2 & C2 & P2). split; [|done]. by apply ledger_alloc. }
  apply wp_if; intros Q; bool_facts; [apply wp_ret; by rewrite <- Q|].
  apply wp_bind. eapply wp_mono; [apply wp_set_hwaddr; [apply B3|by rewrite (proj1 (proj2 B3))..]|]. intros r4 s4 B4. apply (books_trans _ _ _ _ _ B3) in B4.
  apply wp_if; intros _; [|by apply wp_ret]. apply wp_bind, wp_call. intros r5. apply wp_ret. destruct B4 as (L4 & C4 & P4).
  split; [|done]. by apply ledger_release.
Qed.

Definition full (p : kni_port) : Prop := kp_kni p ≠ 0 /\ kp_queue p ≠ 0.
(** The outcome of the creation: all of it or nothing. *)
Definition created (r : Z) (s : kni_state) : Prop :=
  if r =? 0 then ledger_at 0 s /\ Forall full (ks_ports s) else nothing_out s.

(** The ports in [l] are empty, the others have what they need. *)
Definition filled_but (l : list nat) (s : kni_state) : Prop :=
  Forall (fun i => i < length (ks_ports s))%nat l /\
  forall i p, ks_ports s !! i = Some p -> if decide (i ∈ l) then p = null_port else full p.

Lemma filled_put i l s s' p : NoDup (i :: l) -> filled_but (i :: l) s -> full p -> ks_ports s' = <[i := p]> (ks_ports s) -> filled_but l s'.
Proof.
  intros Hd [Hi H] Hf E. apply list.NoDup_cons in Hd as [Hn _]. unfold filled_but. rewrite E. split.
  - apply List.Forall_cons_iff in Hi as [_ Hi]. by setoid_rewrite length_insert.
  - intros j q Hq. apply list_lookup_insert_Some in Hq as [(-> & <- & _)|[Hne Hq]]; [by rewrite decide_False|].
    specialize (H _ _ Hq). destruct (decide (j ∈ i :: l)) as [Hj|Hj], (decide (j ∈ l)) as [Hj'|Hj']; try done.
    + apply elem_of_cons in Hj as [->|Hj]; done.
    + destruct Hj. apply elem_of_cons. by right.
Qed.

Lemma wp_create_ports l s : NoDup l -> ledger_at 0 s -> kni_ready (ks_cfg s) -> Forall (fun i => i < length (c_ports (ks_cfg s)))%nat l ->
  filled_but l s -> wp (kni_create_ports l) created s.
Proof.
  revert s. induction l as [|i l IH]; intros s Hd Hl Hp Hc Hf; cbn [kni_create_ports].
  { apply wp_ret. split; [done|]. apply Forall_lookup. intros i p Hip. apply (proj2 Hf i p Hip). }
  pose proof (proj1 (List.Forall_cons_iff _ _ _) Hc) as [Hi Hc']. destruct (lookup_lt_is_Some_2 _ _ Hi) as [port Ep].
  destruct (lookup_lt_is_Some_2 _ _ (proj1 (proj1 (List.Forall_cons_iff _ _ _) (proj1 Hf)))) as [p0 E0].
  pose proof (proj2 Hf _ _ E0) as Np. rewrite decide_True in Np by (apply elem_of_cons; by left). subst p0.
  unfold port_get. apply wp_bind, wp_bind, wp_gets. eapply wp_lift; [exact Ep|]. apply wp_bind. eapply wp_mono; [by apply wp_kni_alloc|].
  intros kni s1 (L1 & C1 & P1). rewrite <- P1 in E0. apply wp_if; intros Q; bool_facts.
  { rewrite Q in L1. apply wp_bind. eapply wp_mono; [by apply wp_free|]. intros [] s2 (L2 & _ & N2). apply wp_ret. by apply emptied_out. }
  unfold kni_put. apply wp_bind, wp_modify, wp_bind, wp_call. intros socket. apply wp_bind, wp_call. intros ring. apply wp_bind, wp_modify.
  set (s2 := _ <| ks_ports ::= _ |>). assert (ks_ports s2 = <[i := KniPort kni ring]> (ks_ports s1)) as P2.
  { unfold s2. rsimpl. by rewrite (alter_twice _ _ _ _ _ E0). }
  assert (ledger_at 0 s2) as L2.
  { rewrite P2. apply (ledger_put i null_port _ kni 0 _ _ _ L1 E0); [done|]. unfold s2. rsimpl. books. }
  apply wp_if; intros Q2; bool_facts.
  - apply wp_bind, wp_call. intros r. apply wp_bind, wp_modify, wp_bind.
    assert (ks_ports s2 !! i = Some (KniPort kni 0)) as E2 by (rewrite P2, Q2; apply list_lookup_insert_eq; by eapply lookup_lt_Some).
    eapply wp_mono; [apply (wp_free 0)|].
    + rsimpl. rewrite (alter_at _ _ _ _ E2). change ((KniPort kni 0) <| kp_kni := 0 |>) with null_port.
      apply (ledger_put i _ _ 0 0 _ _ _ L2 E2); [done|]. books.
    + intros [] s3 (L3 & _ & N3). apply wp_ret. by apply emptied_out.
  - apply IH; [by apply list.NoDup_cons in Hd as [_ ?]|done|unfold s2; rsimpl; by rewrite C1|unfold s2; rsimpl; by rewrite C1|].
    eapply filled_put; [done|exact Hf| |rewrite P2, P1; done]. done.
Qed.

(** Before the start: no interface, as many fields as ports. *)
Definition untouched (s : kni_state) : Prop :=
  nothing_out s /\ length (ks_ports s) = length (c_ports (ks_cfg s)).

Lemma nothing_out_ledger s : nothing_out s -> ledger_at 0 s.
Proof.
  intros [He H]. split.
  - intros h Hh. destruct (H h Hh) as [-> ->]. rewrite !(kept_null _ _ _ Hh) by (eapply list.Forall_impl; [exact He|]; by intros p ->). by rewrite one_null.
  - eapply list.Forall_impl; [exact He|]. by intros p ->.
Qed.

(** [kni_start] gives every port an interface and a ring, or returns an error
    and has given back, each once, whatever it had been given. *)
Theorem kni_start_all_or_nothing s : untouched s -> kni_ready (ks_cfg s) ->
  wp kni_start (fun r s' => if r =? 0 then ledger_at 0 s' /\ (c_kni (ks_cfg s) = true -> Forall full (ks_ports s')) else nothing_out s') s.
Proof.
  intros [H0 Hlen] Hp. unfold kni_start. apply wp_bind, wp_gets. apply wp_if; intros Hk; bool_facts.
  { apply wp_ret. split; [by apply nothing_out_ledger|]. by rewrite Hk. }
  unfold kni_create. apply wp_bind, wp_call. intros r0. apply wp_bind, wp_gets. rsimpl.
  eapply wp_mono; [apply wp_create_ports|].
  - apply NoDup_seq.
  - rsimpl. exact (nothing_out_ledger _ H0).
  - done.
  - rsimpl. apply list.Forall_forall. intros i Hi. apply elem_of_seq in Hi. lia.
  - split; rsimpl.
    + apply list.Forall_forall. intros i Hi. apply elem_of_seq in Hi. lia.
    + intros i p Hip. rewrite decide_True; [exact (proj1 (Forall_lookup _ _) (proj1 H0) _ _ Hip)|]. apply elem_of_seq. apply lookup_lt_Some in Hip. lia.
  - intros r s'. unfold created. case_match; [|done]. intros [? ?]. done.
Qed.

(** [kni_stop] after a start gives back the interfaces and the rings. *)
Theorem kni_stop_gives_back s : ledger_at 0 s -> (c_kni (ks_cfg s) = false -> emptied s) -> wp kni_stop (fun _ s' => nothing_out s') s.
Proof.
  intros Hl He. unfold kni_stop. apply wp_bind, wp_gets. apply wp_when; intros Hk.
  - eapply wp_mono; [by apply wp_free|]. intros [] s' (L & _ & N). by apply emptied_out.
  - apply emptied_out; auto.
Qed.

Lemma wp_link_up_ports l s : ledger_at 0 s -> kni_ready (ks_cfg s) -> length (ks_ports s) = length (c_ports (ks_cfg s)) -> Forall (fun i => i < length (ks_ports s))%nat l ->
  wp (kni_link_up_ports l) (fun r s' => (r = 0 \/ r = -1) /\ books_kept 0 s s') s.
Proof.
  revert s. induction l as [|i l IH]; intros s Hl Hr Hn Hi; cbn [kni_link_up_ports]; [apply wp_ret; split; [by left|done]|].
  apply List.Forall_cons_iff in Hi as [Hi Hi']. apply wp_bind. destruct (lookup_lt_is_Some_2 _ _ Hi) as [p Hp].
  eapply (wp_mono _ (fun _ s' => books_kept 0 s s')).
  - unfold kni_set_link_up, kni_get. apply wp_bind, wp_bind, wp_gets. eapply wp_lift; [exact Hp|]. rewrite Hn in Hi. quiet_calls.
  - intros r s2 B. pose proof B as (L & C & P). apply wp_if; intros _; [apply wp_ret; split; [by right|done]|].
    eapply wp_mono; [apply IH; [done|congruence..|by rewrite P]|]. intros r' s3 [Hr' B']. split; [done|]. by eapply books_trans.
Qed.

(** [kni_link_up] ends without an undefined step and leaves the books as they are. *)
Theorem kni_link_up_safe s : ledger_at 0 s -> kni_ready (ks_cfg s) -> length (ks_ports s) = length (c_ports (ks_cfg s)) ->
  wp kni_link_up (fun r s' => (r = 0 \/ r = -1) /\ books_kept 0 s s') s.
Proof.
  intros Hl Hr Hn. unfold kni_link_up. apply wp_bind, wp_gets. apply wp_link_up_ports; [done..|].
  apply list.Forall_forall. intros i Hi. apply elem_of_seq in Hi. lia.
Qed.
End Ledger.

(** ** An example

    Two ports: both are started, or the ring of the second cannot be created
    and both interfaces are given back. *)
Definition demo_lib (rings : Z) : RteKni := {|
  RTE_VERSION := 1711; RTE_VERSION_NUM a b _ _ := 100 * a + b; RTE_KNI_NAMESIZE := 32; RTE_MBUF_DEFAULT_DATAROOM := 2048; KNI_RTE_RING_NAMESIZE := 29;
  kn_ret h d := match d with
    | Kni_alloc _ _ => 100 + Z.of_nat (length h)
    | Kni_ring_create _ _ _ => if Z.of_nat (length h) <? rings then 200 + Z.of_nat (length h) else 0
    | _ => 0 end;
  kn_mtus _ _ := (68, 1500); kn_mtu _ _ := 1500; kn_pci _ _ := Some (1, 2); kn_flags _ _ := 0 |}.
Definition demo_ports : list netif_port := map (fun i => netif_port_zero <| np_id := i |> <| np_mbuf_pool := [1] |>) [0; 1].
Definition demo_start : kni_state := KniState (g_config_init <| c_kni := true |> <| c_ports := demo_ports |>) [null_port; null_port] [].

Lemma demo_untouched : untouched demo_start /\ kni_ready (ks_cfg demo_start).
Proof.
  split; [split; [split|]|]; [by repeat constructor|by intros|done|].
  split; [|done..]. repeat apply Forall_cons_2; [by eexists..|apply Forall_nil_2].
Qed.

(** The releases that the run of the failing library makes. *)
Definition releases (log : kni_history) : list Z :=
  omap (fun e => match fst e with Kni_release k => Some k | _ => None end) (rev log).

Lemma kni_start_all_or_nothing_witness :
  wp (kni_start (K := demo_lib 8)) (fun r s => (r = -2 /\ releases (ks_log s) = [109; 102]) /\ nothing_out s) demo_start /\
  wp (kni_start (K := demo_lib 80)) (fun r s => r = 0 /\ Forall full (ks_ports s)) demo_start.
Proof.
  destruct demo_untouched as [H0 Hp]. split.
  - assert (wp (kni_start (K := demo_lib 8)) (fun r s => r = -2 /\ releases (ks_log s) = [109; 102]) demo_start) as R by (vm_compute; done).
    eapply wp_mono; [exact (wp_and _ _ _ _ R (kni_start_all_or_nothing (K := demo_lib 8) demo_start H0 Hp))|].
    intros r s [[-> E] H]. exact (conj (conj eq_refl E) H).
  - assert (wp (kni_start (K := demo_lib 80)) (fun r s => r = 0) demo_start) as R by (vm_compute; done).
    eapply wp_mono; [exact (wp_and _ _ _ _ R (kni_start_all_or_nothing (K := demo_lib 80) demo_start H0 Hp))|].
    intros r s [-> H]. exact (conj eq_refl (proj2 H eq_refl)).
Defined.
End Legacy.
